(* ===== verification/_CoqProject ===== *)
-Q . S2P
Prelude.v
Identifiers.v
Enums.v
Verification.v
Budget.v
TaskModels.v
Lifecycle.v
Plans.v
BudgetGuard.v
Authority.v
Delegation.v
Compiler.v
Approval.v
LedgerModels.v
Ledger.v
LedgerInvariant.v
Sorting.v
Listing.v
LedgerProps.v
LedgerLineage.v
WorkflowModels.v
Workflow.v
WorkflowProps.v
WorkflowSafety.v
WorkflowProgress.v
WorkflowRecovery.v
WorkflowExamples.v
Duration.v
Journal.v
JournalProps.v
Orphans.v
Idempotency.v
Retry.v
Workers.v
WorkerProps.v
Runes.v
Regexp.v
Permissions.v
PermissionEngine.v
PermissionProps.v
PermissionConfig.v
PermissionExamples.v
Paths.v
ExecPolicy.v
ExecPolicyProps.v
Usage.v
BudgetControl.v
Modes.v
BudgetControlProps.v
Governance.v
GovernanceProps.v
Feedback.v
FeedbackProps.v
PolicyVersion.v
PolicyVersionProps.v
FloatOrder.v
PeerRouting.v
PeerRoutingProps.v
Replan.v
ReplanProps.v
Verifier.v
VerificationGate.v
VerifierProps.v
FileStore.v
FileStoreProps.v
TaskService.v
TaskServiceProps.v
Suspend.v
SuspendProps.v
TaskRunner.v
TaskRunnerProps.v
AutoReply.v
AutoReplyProps.v
Checkpoints.v
CheckpointProps.v
TurnRegistries.v
TurnRegistryProps.v
InboundTurns.v
InboundTurnsProps.v
