(* ===== verification/Prelude.v ===== *)
(** * Agent task orchestration and governance: a verification development

    The program is an autonomous agent runtime.  This library models the part of it
    that decides what work exists, who may do it, how far it has got and what happens
    to it after a failure: tasks and runs, plans, budgets, authorities, permissions,
    governance, delegation, plan compilation, approval and revision, verification, the
    task ledger with its store and its service, workflows, the journals and the
    recovery of interrupted runs, retries, the supervision of workers and the routing
    of work to peers; and the part of the daemon that executes it: the task runner,
    suspension, and how the turns of a session are serialised, steered and queued.
    Sources are named relative to [src/internal], those of the daemon to [src]; a Go
    method [T.M] is the definition [T_M] or [M], a function keeps its name, and a struct
    is a record whose fields carry a two-letter prefix.

    ** How the parts interact

    A goal is decomposed into a plan, a graph of steps, by a planner that asks a
    language model; after a failure the planner revises the plan and keeps the finished
    work.  An operator's approvals, kept by a [PlanController], decide under the plan's
    autonomy mode whether the plan may be compiled and its steps executed.  [Compile]
    turns ready steps into tasks, which inherit the goal's authority and budget; a task
    may delegate to child tasks, whose authority and budget are narrowed.  The ledger
    stores tasks and their runs behind an interface that the file store implements;
    status changes go through the transition tables, and a task is only completed when
    its verification contract holds.  [SyncStepStates] carries the task states back into
    the plan.  A [BudgetGuard] meters a run, and an exhausted budget has an outcome.

    What an agent may do is decided in layers: the effective authority of a chain, the
    governance engine by mode, risk and action, the permission engine by rules and
    allowlists, and the host's execution policy.  Authority modes, versions of prompts
    and policies, and proposals to change them are audited; finished runs give rise to
    retrospectives and feedback, and those to proposals.

    The task service is what clients of the ledger call.  The task runner of the daemon
    observes queued runs behind the gate of the suspend coordinator, executes each as an
    agent turn and ends it by its budget or by the verdict of its verification.  The
    agent turns of a session are serialised by [SessionTurns], which the task runner, the
    direct messages and the channels share; a message that arrives while a turn runs is
    queued, steers the turn or interrupts it, and the turn that ends hands its slot to a
    turn for what was staged.  Checkpoints keep the daemon from taking an event or a
    control request twice.

    A workflow is the second way to do work: a registered definition, a graph of steps
    executed by goroutines, each step an agent turn, a sub-agent, a call, a wait, an
    approval or a composite.  A run writes a journal with checkpoints; after a restart
    the daemon looks for runs left in flight and resumes them from their journal, fails
    them or leaves them to the operator, and a workflow run settles the steps that were
    running by the state of their children.  The retry engine decides what a failed
    attempt is followed by, the idempotency registry whether a side-effectful tool may
    be dispatched again.  Delegated work is done by workers, whose events a tracker
    checks and whose silence a monitor reports, or by peers chosen by their scores.

    ** The files

    - [Prelude] (this file): errors, dynamic values, nil-able maps, 64-bit arithmetic,
      [strings.TrimSpace] and [strings.ToLower] on UTF-8 bytes, the [switch] statement,
      record update, shared lemmas and tactics.  [Identifiers]: generated identifiers
      and those of agents.
    - [Enums]: the string enumerations of [store/state/models_tasks.go],
      [models_verification.go], [models_plans.go], [memory_scope.go] with their parsers;
      the class [StringEnum] is the contract the other files rely on.
    - [Verification]: [store/state/models_verification.go].  [Budget], [TaskModels]:
      [store/state/models_tasks.go].  [Plans]: [store/state/models_plans.go].
    - [Lifecycle]: [store/state/task_lifecycle.go], against two abstract state machines
      given as step relations.
    - [BudgetGuard]: [tasks/budget_guard.go].
    - [Authority], [Delegation], [Compiler], [Approval]: the files [authority.go],
      [delegation.go], [compiler.go], [approval.go] of [planner].
    - [LedgerModels], [Ledger]: [tasks/ledger.go] and [tasks/stats.go].  The store is the
      interface [Store] (class of [LedgerModels]); [StoreLaws] of [LedgerInvariant]
      states what the ledger relies on, [MapStore] of [LedgerProps] and the file store
      are instances.  [LedgerInvariant]: the well-formedness invariant and its
      preservation by every operation; [LedgerProps]: the theorems on operations;
      [LedgerLineage]: the traversal of parent links; [Listing]: [ListTasks] and
      [ListRuns] with order and pages.
    - [FileStore], [FileStoreProps]: [tasks/store.go], with failing writes and crashes.
    - [TaskService], [TaskServiceProps]: [tasks/service.go].
    - [WorkflowModels]: the data of [tasks/workflow.go] and its critical sections, the
      code between a lock and its unlock; [Workflow]: the orchestrator's tables, the
      recovery after a restart and the transition system of a run.  [WorkflowProps] has
      the lemmas on single sections, [WorkflowSafety] the invariants of the transition
      system, [WorkflowProgress] its bounds and end states, [WorkflowRecovery] the
      restart; [WorkflowExamples] runs concrete workflows.
    - [Duration]: [time.Duration] and its text, and the float64 arithmetic of the
      backoff.  [Journal], [JournalProps]: [planner/journal.go] and
      [store/state/models_workflow.go].  [Orphans]: [planner/recovery.go].
      [Idempotency], [Retry]: [planner/idempotency.go], [planner/retry.go].  [Workers],
      [WorkerProps]: [planner/worker_lifecycle.go] and [planner/worker_sla.go].
    - [Runes], [Regexp], [Sorting], [Paths], [FloatOrder]: what the code uses of Go's
      runes, [regexp], [sort], [path/filepath] and float64 comparisons.
    - [Permissions], [PermissionEngine], [PermissionConfig] with [PermissionProps] and
      [PermissionExamples]: [permissions/rule.go], [evaluator.go], [classification.go],
      [engine.go], [audit.go], [config.go].  [ExecPolicy], [ExecPolicyProps]:
      [permissions/exec_policy.go].
    - [Usage], [BudgetControl], [BudgetControlProps]: [planner/usage.go],
      [budget_enforcement.go], [budget_outcome.go], [budget_status.go].  [Modes],
      [Governance], [GovernanceProps]: [planner/autonomy.go], [governance.go],
      [enforcement.go].
    - [Feedback], [FeedbackProps]: [store/state/models_feedback.go] and
      [planner/feedback.go], [proposal.go], [retrospective.go].  [PolicyVersion],
      [PolicyVersionProps]: [planner/policy_version.go].
    - [PeerRouting], [PeerRoutingProps]: [planner/peer_routing.go].  [Replan],
      [ReplanProps]: [planner/planner.go], [replan.go] and [Amend] of [approval.go].
    - [Verifier], [VerificationGate], [VerifierProps]: [planner/verifier.go],
      [verifier_runtime.go], [reviewer.go], [verification_gate.go],
      [verification_telemetry.go] and [tasks/verification.go].
    - [Suspend], [SuspendProps]: [gateway/suspend/suspend.go] and the daemon's
      [control_rpc_gateway_lifecycle.go] and [suspend_runtime.go].  [TaskRunner],
      [TaskRunnerProps]: [cmd/metiqd/task_runner.go].
    - [AutoReply], [AutoReplyProps]: [autoreply/session_turns.go], [queue.go],
      [steering_mailbox.go].  [Checkpoints], [CheckpointProps] and [TurnRegistries],
      [TurnRegistryProps]: [cmd/metiqd/main_trackers.go], [main_persistence.go] and
      [gateway/controlreplay].  [InboundTurns], [InboundTurnsProps]:
      [main_active_run_steering.go], [main_session_ops.go], [main_util.go] and
      [runInboundTurn] of [main.go].

    ** State and conventions

    A function that may fail returns [option error] (nil is [None]) or [result A];
    errors keep their format and arguments.  [int] and [int64] are Z with the wrap-around
    written out where the code adds, subtracts or multiplies ([add64], [sub64],
    [mul64]); counters of calls and messages and differences of times do not overflow.
    Strings are byte strings; doubles are the specification floats of the Standard
    Library.  Where the code reads the clock the definition takes the reading, once per
    call, as an argument.  A nil map is [None] of [gomap].  Code that rewrites an
    argument's slice in place (the checks of a contract, the steps of a plan) is modelled
    where a later read depends on it, as in [TaskSpec_Validate] and
    [task_checks_normalized].  Go's unspecified map order is fixed to that of
    [map_to_list], and [sort.Slice] is a stable sort; the theorems that depend on a
    traversal order state order-independent facts.

    An object behind a mutex is a value, and every critical section is one definition, so
    a concurrent history is a sequence of them: most objects have one section per method,
    the ledger's methods release the lock around the store and are split into the section
    before and the rollback after it.  Where the interleaving of goroutines matters they
    are explicit: a workflow run is a pair of the shared record and a list of goroutines,
    each at a program point of [scheduleReadySteps] or [executeStep]; a step of the
    relation is one critical section of one goroutine, so every interleaving is covered,
    together with the operator's pause, resume and cancel at any moment.  The inbound
    turns of a session are goroutines of the same kind, with the task runner beside them,
    and so are the holders of [SessionTurns], whose lock, mark, unmark and unlock are
    separate steps.  The journal numbers an entry before it takes its lock, and its
    relation has the writers between the two.  The results of concurrent checks arrive
    in an order that is an argument.  Where aliasing matters there is a heap: of the
    monitor's trackers, to which the caller goes on writing, and of the queues and
    mailboxes that a registry hands out; where the task service writes to a map shared
    with the ledger's cache, the model writes to both.

    Writes that can fail take their answers as arguments (the file store, the suspend
    ledger), and a crash is a restart from what was written last.  The language model,
    the agent's turn, executors, reviewers and evaluators, JSON decoding, quoting and
    digests are parameters.

    ** What the theorems show

    - Lifecycle: the transition tables are the abstract machines; the log of a task or
      run is append-only and replays to the current status; final states are final; a
      completed task was worked on and verified; timestamps of runs are consistent;
      attempts are numbered upwards.
    - Plans and the compiler: validation and cycle detection are exact; acyclic plans
      never get stuck; compilation creates exactly the due tasks, once, and alternating
      it with synchronisation completes the plan.  A revision keeps finished work and
      reports its changes exactly; an amended plan waits for an approval of its own.
    - Authority, delegation, budgets: narrowing is a conjunction under a stated
      condition, delegated tasks are contained in their parent, delegated budgets are
      exact while the parent has something left, delegation depth is bounded,
      reservations never overrun a budget, gated work stays within it.
    - Permissions: the documented precedence decides, tie-breaks included; a safety rule
      denies all it matches, a cached decision for another request under the same key
      apart; globs mean what they say; no execution layer adds a permission another
      withholds; the gates of governance are monotone along a chain of authorities, for
      tools and agents under a stated condition on the allow lists.
    - Approval: compilation and execution need exactly the recorded approvals.
    - Ledger, store and service: reachable ledgers are well formed over any store that
      gives back only what was well formed, whichever of its calls fail; updates and run
      creation commit or roll back; cancellation ends every embedded run; lineage is
      exact; listings are complete and ordered; the file holds the maps of one moment, and
      what decoding it gives is what is recovered; decisions on tasks and worker runs are
      carried out.
    - Verification: a pass is exact in whatever order its checks finish; the gates of
      completion agree, and verified work completes exactly when they allow it.
    - Feedback, proposals, versions: a proposal's life refines an abstract review
      protocol; a version log is linear and reverting restores a value.  Routing selects
      the first of the best peers that meet the requirements.
    - Workflows: under every interleaving a step is run by at most one goroutine and only
      after its dependencies are settled; a completed run is never changed again;
      attempts stay within the retry policy; an execution has a number of transitions
      bounded by the attempts its policies allow; a run without goroutines is over,
      paused or waits for an approval; the restart settles steps exactly by their
      children.
    - Journals and recovery: entries keep unique, increasing numbers; a snapshot restores
      the journal; a run left in flight is resumed with its own journal; the decision on
      every orphan is exact.
    - Retries and dispatch: a side-effectful tool is never retried, attempts are bounded,
      the delay is the exponential up to its cap; a call recorded as completed is never
      dispatched again.
    - Workers: the event log follows the transition table; a silent worker is timed out;
      the monitor reports exactly the violations.
    - The daemon: runs are executed once each, behind the gate of a suspension that
      survives crashes, and end by the verdict of their gate.  A session has one turn at
      a time; staged messages are accounted for, go back when a turn fails and get the
      next turn; a processed event is not taken again and a handled request is answered
      from the cache, within the caps and windows of both; a blocking tool call keeps a turn from being interrupted; handoff
      tokens are used once.
    - A last group shows where the code falls short of its comments: disjoint allow lists
      widen, exhausted budgets become unlimited, a rollback that races with an update
      corrupts the history, a workflow with an approval step never completes, a run
      paused during its last step never ends, a persisted journal may lose a concurrent
      entry, queued messages that are put back are refused, a stale or orphaned handoff
      token stops a session, and smaller ones stated as examples at the end of their
      files.

    ** Fuel

    Only three recursions are not structural.  [HasCycle_run] runs the depth-first search
    with one unit more than there are step and dependency identifiers; [collect] of
    [GetTaskLineage] with two more than there are tasks.  Each recursive call marks a new
    identifier, and [has_cycle_decides] and [lineage_is_exact] prove that both always
    return.  [hex_digits] prints a 64-bit number with 17 units, one more than it has
    digits.  The executions of a workflow need none: [workflow_execution_is_bounded]
    bounds the relation.

    ** Not modelled

    Of the components above: texts for people that print durations, percentages or quoted
    strings; the registration of observers; files of rules, audit logs and
    configurations; the JSON parameters of permission rules; the syntax of [regexp] that
    the program's own patterns do not use; the document stores on Nostr relays; the
    transcripts, telemetry, metrics and memory artifacts of a run; the stores of workflows
    and the parsing of a wait step's duration (a wait may end either way); what an inbound
    turn does in its slot and the loop of channel messages.  Entries of the ledger are
    values: that callers hold pointers into the cache is modelled only where the task
    service depends on it.  Everything else is outside: the agent loop and its tools,
    Nostr, channels, the gateway's transport, plugins, memory, media, payments, user
    interfaces; these are dominated by I/O and foreign protocols. *)

From Stdlib Require Import Ascii String.
From stdpp Require Import base tactics decidable list gmap strings pretty.

Open Scope Z_scope.

(** ** Errors

    A Go [error] value built by [fmt.Errorf] is kept as its format string and
    its arguments; [%w] wrapping keeps the inner error.  A nil error is [None]
    of [option error]; a function that returns a value or an error returns a
    [result]. *)

Inductive arg :=
  | ArgS (s : string)
  | ArgZ (z : Z).

Inductive error :=
  | Errorf (format : string) (args : list arg)
  | Wrapf (format : string) (args : list arg) (inner : error).

Inductive result (A : Type) :=
  | Ok (a : A)
  | Err (e : error).
Arguments Ok {A} a.
Arguments Err {A} e.

Definition is_ok {A} (r : result A) : bool :=
  match r with Ok _ => true | Err _ => false end.

Definition is_nil (e : option error) : bool :=
  match e with None => true | Some _ => false end.

(** [first_error es] runs a list of checks in order and returns the first
    error, the shape of a Go [Validate] method. *)
Fixpoint first_error (es : list (option error)) : option error :=
  match es with
  | [] => None
  | Some e :: _ => Some e
  | None :: es => first_error es
  end.

(** [if cond { return fmt.Errorf(...) }] *)
Definition error_if (cond : bool) (e : error) : option error :=
  if cond then Some e else None.

(** ** Dynamic values of a [map[string]any]

    A slice of strings is kept as it is.  Any other nested map or list is kept as a
    text of its contents, in which a nil and an empty container look alike: the
    modelled code copies such values, deeply or not, and where it looks inside the
    reading is a parameter. *)

Inductive any :=
  | VNil
  | VBool (b : bool)
  | VInt (z : Z)
  | VInt64 (z : Z)
  | VFloat (bits : Z)
  | VString (s : string)
  | VStrings (l : list string)
  | VComposite (json : string).

#[export] Instance any_eq_dec : EqDecision any.
Proof. solve_decision. Defined.

(** A Go map is nil or holds a finite set of bindings; reading a nil map reads
    an empty one. *)
Abbreviation gomap V := (option (gmap string V)).

Definition map_read {V} (m : gomap V) : gmap string V := default ∅ m.

(** [for k, v := range src { out[k] = v }], with a nil result for an empty
    source: the shape of every map clone in the program. *)
Definition clone_map {V} (m : gomap V) : gomap V :=
  if Nat.eqb (size (map_read m)) 0 then None else Some (map_read m).

(** ** Machine integers: Go's [int] and [int64] are 64-bit two's complement *)

Definition wrap64 (z : Z) : Z := (z + 2 ^ 63) mod 2 ^ 64 - 2 ^ 63.
Definition add64 (a b : Z) : Z := wrap64 (a + b).
Definition sub64 (a b : Z) : Z := wrap64 (a - b).
Definition mul64 (a b : Z) : Z := wrap64 (a * b).
Definition int64_range (z : Z) : Prop := - 2 ^ 63 <= z < 2 ^ 63.

(** ** Go strings are byte strings *)

Definition byte (c : ascii) : N := N_of_ascii c.

(** The Unicode white space characters ([unicode.IsSpace]), as the UTF-8 byte
    sequences that encode them: one byte, two bytes (U+0085, U+00A0) or three
    bytes (U+1680, U+2000-200A, U+2028, U+2029, U+202F, U+205F, U+3000). *)
Definition is_space1 (a : ascii) : bool :=
  let x := byte a in (N.leb 9 x && N.leb x 13) || N.eqb x 32.

Definition is_space2 (a b : ascii) : bool :=
  N.eqb (byte a) 194 && (N.eqb (byte b) 133 || N.eqb (byte b) 160).

Definition is_space3 (a b c : ascii) : bool :=
  let x := byte a in let y := byte b in let z := byte c in
  (N.eqb x 225 && N.eqb y 154 && N.eqb z 128)
  || (N.eqb x 226 && N.eqb y 128
      && ((N.leb 128 z && N.leb z 138)
          || N.eqb z 168 || N.eqb z 169 || N.eqb z 175))
  || (N.eqb x 226 && N.eqb y 129 && N.eqb z 159)
  || (N.eqb x 227 && N.eqb y 128 && N.eqb z 128).

Section TrimLeft.
Variable sp2 : ascii -> ascii -> bool.
Variable sp3 : ascii -> ascii -> ascii -> bool.

(** Drop leading white space; [sp2] and [sp3] recognise the multi-byte
    sequences in the order in which the bytes are met. *)
Fixpoint trim_front (l : list ascii) : list ascii :=
  match l with
  | [] => []
  | a :: r =>
    if is_space1 a then trim_front r else
    match r with
    | [] => l
    | b :: r2 =>
      if sp2 a b then trim_front r2 else
      match r2 with
      | [] => l
      | c :: r3 => if sp3 a b c then trim_front r3 else l
      end
    end
  end.

(** Whether the bytes start with white space. *)
Definition front_space (l : list ascii) : bool :=
  match l with
  | [] => false
  | [a] => is_space1 a
  | [a; b] => is_space1 a || sp2 a b
  | a :: b :: c :: _ => is_space1 a || sp2 a b || sp3 a b c
  end.
End TrimLeft.

Definition trim_left_bytes (l : list ascii) : list ascii :=
  trim_front is_space2 is_space3 l.

Definition trim_right_bytes (l : list ascii) : list ascii :=
  rev (trim_front (fun a b => is_space2 b a)
                  (fun a b c => is_space3 c b a) (rev l)).

(** [strings.TrimSpace] *)
Definition TrimSpace (s : string) : string :=
  string_of_list_ascii (trim_right_bytes (trim_left_bytes (list_ascii_of_string s))).

Definition lower_ascii (c : ascii) : ascii :=
  let x := byte c in
  if N.leb 65 x && N.leb x 90 then ascii_of_N (x + 32) else c.

Definition ascii_k : ascii := ascii_of_N 107.
Definition ascii_i : ascii := ascii_of_N 105.

(** [strings.ToLower] on ASCII letters and on the two non-ASCII characters
    whose lower case is an ASCII letter: U+0130 (bytes C4 B0) gives [i] and
    U+212A (bytes E2 84 AA) gives [k].  Every other non-ASCII character has a
    non-ASCII lower case and keeps its bytes here: a comparison of the result
    with an ASCII string, the only use the modelled code makes of it, is
    unaffected. *)
Fixpoint lower_bytes (l : list ascii) : list ascii :=
  match l with
  | [] => []
  | a :: r =>
    let keep := lower_ascii a :: lower_bytes r in
    match r with
    | [] => keep
    | b :: r2 =>
      if N.eqb (byte a) 196 && N.eqb (byte b) 176 then ascii_i :: lower_bytes r2 else
      match r2 with
      | [] => keep
      | c :: r3 =>
        if N.eqb (byte a) 226 && N.eqb (byte b) 132 && N.eqb (byte c) 170
        then ascii_k :: lower_bytes r3 else keep
      end
    end
  end.

Definition ToLower (s : string) : string :=
  string_of_list_ascii (lower_bytes (list_ascii_of_string s)).

(** [strings.TrimSpace(s) == ""] *)
Definition blank (s : string) : bool := String.eqb (TrimSpace s) "".
Arguments TrimSpace : simpl never.
Arguments ToLower : simpl never.
Arguments blank : simpl never.
Arguments wrap64 : simpl never.
Arguments add64 : simpl never.
Arguments sub64 : simpl never.
Arguments mul64 : simpl never.

(** [switch s { case c1, c2: ...; default: ... }] on strings: the first clause
    one of whose labels equals [s]. *)
Fixpoint go_switch {A} (s : string) (clauses : list (list string * A)) (dflt : A) : A :=
  match clauses with
  | [] => dflt
  | (labels, a) :: rest =>
    if existsb (String.eqb s) labels then a else go_switch s rest dflt
  end.

(** ** Record update: [r <| f := v |>] is the Go assignment [r.f = v] *)

Class Setter {R A : Type} (proj : R -> A) := setf : A -> R -> R.
Arguments setf {R A} proj {_} v r : simpl nomatch.

(** Two records are equal when their fields are: each record with setters has
    an extensionality instance, applied by [by_fields].  (Comparing two chains of updates by conversion is exponential in
    their length; a field of a chain computes in linear time.) *)
Class RecordExt (R : Type) (same : R -> R -> Prop) := record_ext : forall a b, same a b -> a = b.
Ltac by_fields := eapply record_ext; cbn; repeat split.

Declare Scope go_scope.
Delimit Scope go_scope with go.
Notation "r <| f := v |>" := (setf f v r)
  (at level 1, left associativity, f at level 0, v at level 99) : go_scope.
Notation "a ==? b" := (String.eqb a b) (at level 70) : go_scope.
Notation "a !=? b" := (negb (String.eqb a b)) (at level 70) : go_scope.
Open Scope go_scope.

(** A relation on consecutive elements of a list. *)
Fixpoint chain {A} (R : A -> A -> Prop) (l : list A) : Prop :=
  match l with
  | [] => True
  | x :: l' => match l' with [] => True | y :: _ => R x y end /\ chain R l'
  end.

(** ** Shared lemmas *)

Create HintDb go.

(** Turn boolean tests on strings and integers into propositions. *)
Ltac bool_to_prop :=
  repeat match goal with
  | H : _ && _ = true |- _ => apply andb_prop in H; destruct H
  | H : _ || _ = false |- _ => apply orb_false_elim in H; destruct H
  | H : negb _ = true |- _ => apply negb_true_iff in H
  | H : negb _ = false |- _ => apply negb_false_iff in H
  | H : String.eqb _ _ = true |- _ => apply String.eqb_eq in H
  | H : String.eqb _ _ = false |- _ => apply String.eqb_neq in H
  | H : Z.eqb _ _ = true |- _ => apply Z.eqb_eq in H
  | H : Z.eqb _ _ = false |- _ => apply Z.eqb_neq in H
  | H : Z.leb _ _ = true |- _ => apply Z.leb_le in H
  | H : Z.leb _ _ = false |- _ => apply Z.leb_gt in H
  | H : Z.ltb _ _ = true |- _ => apply Z.ltb_lt in H
  | H : Z.ltb _ _ = false |- _ => apply Z.ltb_ge in H
  end.

(** Case analysis on the condition of an [if] in the goal or a hypothesis. *)
Ltac case_if :=
  match goal with
  | H : context [if ?b then _ else _] |- _ =>
    lazymatch type of b with bool => destruct b eqn:? end
  | |- context [if ?b then _ else _] =>
    lazymatch type of b with bool => destruct b eqn:? end
  end; try discriminate.

(** Injectivity of [Ok] and [Some] on values that must not be unfolded. *)
Lemma Ok_inj {A} (a b : A) : Ok a = Ok b -> a = b.
Proof. congruence. Qed.

Lemma wrap64_range z : int64_range (wrap64 z).
Proof. unfold int64_range, wrap64. pose proof (Z.mod_pos_bound (z + 2 ^ 63) (2 ^ 64)). lia. Qed.

Lemma wrap64_id z : int64_range z -> wrap64 z = z.
Proof. unfold int64_range, wrap64. intros H. rewrite Z.mod_small; lia. Qed.

Lemma add64_small a b : int64_range (a + b) -> add64 a b = a + b.
Proof. apply wrap64_id. Qed.

Lemma mul64_small a b : int64_range (a * b) -> mul64 a b = a * b.
Proof. apply wrap64_id. Qed.

Lemma sub64_small a b : int64_range (a - b) -> sub64 a b = a - b.
Proof. apply wrap64_id. Qed.
#[export] Hint Resolve wrap64_range : go.

Lemma first_error_None es :
  first_error es = None <-> Forall (fun e => e = None) es.
Proof.
  induction es as [|[e|] es IH]; simpl.
  - split; auto.
  - split; [discriminate|]. intros H. by inv H.
  - rewrite IH, Forall_cons. intuition.
Qed.

Lemma error_if_None c e : error_if c e = None <-> c = false.
Proof. destruct c; simpl; split; congruence. Qed.

(** What [go_switch] returns: the value of a clause one of whose labels is [s],
    or the default when no clause has it. *)
Lemma go_switch_cases {A} s (cl : list (list string * A)) d :
  (exists ls a, (ls, a) ∈ cl /\ s ∈ ls /\ go_switch s cl d = a)
  \/ (Forall (fun c => s ∉ c.1) cl /\ go_switch s cl d = d).
Proof.
  induction cl as [|[ls a] cl IH]; simpl; [right; auto|].
  destruct (existsb (String.eqb s) ls) eqn:E.
  - left. apply existsb_exists in E as (x & Hin & ->%String.eqb_eq).
    exists ls, a. rewrite (list_elem_of_In ls). repeat split; auto. by left.
  - assert (s ∉ ls).
    { intros Hin. rewrite list_elem_of_In in Hin.
      assert (existsb (String.eqb s) ls = true); [|congruence].
      apply existsb_exists. exists s. by rewrite String.eqb_refl. }
    destruct IH as [(ls' & a' & ? & ? & ?)|[? ?]]; [left|right].
    + exists ls', a'. repeat split; auto. by right.
    + split; [constructor|]; auto.
Qed.

(** Membership in a concrete list that is part of another one. *)
Lemma member_incl (s : string) (ls vs : list string) :
  s ∈ ls -> forallb (fun x => bool_decide (x ∈ vs)) ls = true -> s ∈ vs.
Proof.
  intros Hs H. rewrite forallb_forall in H. rewrite list_elem_of_In in Hs.
  specialize (H s Hs). by apply bool_decide_eq_true in H.
Qed.

(** *** [TrimSpace] is idempotent *)
Section TrimFacts.
Variable sp2 : ascii -> ascii -> bool.
Variable sp3 : ascii -> ascii -> ascii -> bool.

(** Either nothing is dropped, or a non-empty white space prefix is. *)
Lemma trim_front_step l :
  (trim_front sp2 sp3 l = l /\ front_space sp2 sp3 l = false)
  \/ exists q r, l = q ++ r /\ (length r < length l)%nat
       /\ trim_front sp2 sp3 l = trim_front sp2 sp3 r.
Proof.
  destruct l as [|a r]; [by left|]. cbn [trim_front].
  destruct (is_space1 a) eqn:Ha; [right; exists [a], r; simpl; auto with lia|].
  destruct r as [|b r]; [left; auto|].
  destruct (sp2 a b) eqn:Hb; [right; exists [a; b], r; simpl; auto with lia|].
  destruct r as [|c r]; [left; simpl; by rewrite Ha, Hb|].
  destruct (sp3 a b c) eqn:Hc; [right; exists [a; b; c], r; simpl; auto with lia|].
  left. simpl. by rewrite Ha, Hb, Hc.
Qed.

Lemma trim_front_no_space l : front_space sp2 sp3 (trim_front sp2 sp3 l) = false.
Proof.
  induction l as [l IH] using (induction_ltof1 _ (@length ascii)).
  destruct (trim_front_step l) as [[-> ?]|(q & r & _ & Hlt & ->)]; auto.
Qed.

Lemma trim_front_fix l : front_space sp2 sp3 l = false -> trim_front sp2 sp3 l = l.
Proof.
  destruct l as [|a [|b [|c r]]]; simpl; intros H; bool_to_prop;
    rewrite ?H; repeat match goal with E : _ = false |- _ => rewrite E; clear E end; auto.
Qed.

Lemma trim_front_suffix l : exists p, l = p ++ trim_front sp2 sp3 l.
Proof.
  induction l as [l IH] using (induction_ltof1 _ (@length ascii)).
  destruct (trim_front_step l) as [[-> ?]|(q & r & Hl & Hlt & ->)]; [by exists []|].
  destruct (IH r Hlt) as [p Hp]. exists (q ++ p).
  rewrite Hl, <- app_assoc. congruence.
Qed.

Lemma front_space_prefix l l' :
  front_space sp2 sp3 l = true -> front_space sp2 sp3 (l ++ l') = true.
Proof.
  destruct l as [|a [|b [|c r]]], l' as [|x [|y r']]; simpl; intros H;
    rewrite ?orb_true_iff in *; intuition discriminate.
Qed.
End TrimFacts.

(** Trimming stops at a byte that takes part in no white space sequence. *)
Lemma trim_front_stops sp2 sp3 t k :
  is_space1 t = false -> (forall a, sp2 a t = false) -> (forall a b, sp3 a b t = false) ->
  trim_front sp2 sp3 (k ++ [t]) <> [].
Proof.
  intros H1 H2 H3. induction k as [k IH] using (induction_ltof1 _ (@length ascii)).
  destruct (trim_front_step sp2 sp3 (k ++ [t])) as [[-> _]|(q & r & Hl & Hlt & Heq)].
  { by destruct k. }
  destruct k as [|a k]; cbn; [by rewrite H1|].
  destruct (is_space1 a); [apply IH; unfold ltof; cbn; lia|].
  destruct k as [|b k]; cbn; [by rewrite H2|].
  destruct (sp2 a b); [apply IH; unfold ltof; cbn; lia|].
  destruct k as [|c k]; cbn; [by rewrite H3|].
  destruct (sp3 a b c); [apply IH; unfold ltof; cbn; lia|done].
Qed.

(** A string that starts with an ASCII character other than white space is not
    blank. *)
Lemma blank_nonspace c s :
  is_space1 c = false -> (byte c < 128)%N -> blank (String c s) = false.
Proof.
  intros H1 Hc.
  assert (forall n : N, (128 <= n)%N -> N.eqb (byte c) n = false) as Hn
    by (intros; apply N.eqb_neq; lia).
  assert (forall x, is_space2 c x = false) as H2
    by (intros; unfold is_space2; by rewrite Hn).
  assert (forall x y, is_space3 c x y = false) as H3
    by (intros; unfold is_space3; by rewrite !Hn).
  unfold blank, TrimSpace. cbn [list_ascii_of_string]. unfold trim_left_bytes.
  rewrite trim_front_fix; cycle 1.
  { destruct (list_ascii_of_string s) as [|x [|y r]]; cbn; by rewrite ?H1, ?H2, ?H3. }
  unfold trim_right_bytes. cbn [rev].
  pose proof (trim_front_stops (fun a b => is_space2 b a) (fun a b c => is_space3 c b a) c
    (rev (list_ascii_of_string s)) H1 (fun a => H2 a) (fun a b => H3 b a)) as Hne.
  destruct (trim_front _ _ _) as [|x l]; [done|]. cbn [rev].
  by destruct (rev l).
Qed.

Lemma trim_bytes_idem l :
  trim_right_bytes (trim_left_bytes (trim_right_bytes (trim_left_bytes l)))
  = trim_right_bytes (trim_left_bytes l).
Proof.
  unfold trim_right_bytes, trim_left_bytes.
  set (s2 := fun a b => is_space2 b a). set (s3 := fun a b c => is_space3 c b a).
  set (m := trim_front is_space2 is_space3 l).
  assert (Hm : front_space is_space2 is_space3 m = false) by apply trim_front_no_space.
  set (t := rev (trim_front s2 s3 (rev m))).
  assert (Ht : front_space is_space2 is_space3 t = false).
  { destruct (front_space is_space2 is_space3 t) eqn:E; [|done].
    destruct (trim_front_suffix s2 s3 (rev m)) as [p Hp].
    assert (m = t ++ rev p) as Hmt.
    { rewrite <- (rev_involutive m), Hp, rev_app_distr. reflexivity. }
    rewrite Hmt in Hm. rewrite (front_space_prefix _ _ _ _ E) in Hm. discriminate. }
  rewrite (trim_front_fix _ _ _ Ht).
  unfold t. rewrite rev_involutive. f_equal.
  apply trim_front_fix, trim_front_no_space.
Qed.

Lemma TrimSpace_idem s : TrimSpace (TrimSpace s) = TrimSpace s.
Proof.
  unfold TrimSpace. rewrite list_ascii_of_string_of_list_ascii. by rewrite trim_bytes_idem.
Qed.

Lemma blank_TrimSpace s : blank (TrimSpace s) = blank s.
Proof. unfold blank. by rewrite TrimSpace_idem. Qed.
Create Rewrite HintDb go.
#[export] Hint Rewrite TrimSpace_idem blank_TrimSpace : go.

(** *** Chains *)
Lemma chain_app_end {A} (R : A -> A -> Prop) l x :
  chain R l -> (forall y, last l = Some y -> R y x) -> chain R (l ++ [x]).
Proof.
  induction l as [|y l IH]; intros Hc Hl; [simpl; auto|].
  destruct Hc as [Hy Hc]. destruct l as [|z l]; simpl in *.
  - split; auto.
  - split; [done|]. apply IH; auto.
Qed.

Lemma clone_map_read {V} (m : gomap V) : map_read (clone_map m) = map_read m.
Proof.
  unfold clone_map. destruct (Nat.eqb _ 0) eqn:E; [|done].
  apply Nat.eqb_eq, map_size_empty_inv in E. by rewrite E.
Qed.

Lemma clone_map_idem {V} (m : gomap V) : clone_map (clone_map m) = clone_map m.
Proof. unfold clone_map at 1. rewrite clone_map_read. reflexivity. Qed.
#[export] Hint Rewrite @clone_map_read @clone_map_idem : go.

(** Membership in a list filtered by a boolean test. *)
Lemma elem_of_filter_b {A} (f : A -> bool) (x : A) l :
  x ∈ List.filter f l <-> x ∈ l /\ f x = true.
Proof. by rewrite !list_elem_of_In, filter_In. Qed.
