(* ===== verification/Identifiers.v ===== *)
(** Identifiers: generated ones, a prefix and decimal numbers, which trimming leaves
    alone, and those of agents (gateway/methods). *)

From Stdlib Require Import Ascii String.
From stdpp Require Import base tactics decidable list gmap strings pretty.
From S2P Require Import Prelude.

Definition plain (c : ascii) : Prop := is_space1 c = false /\ (byte c < 128)%N.

(** Text without white space and beyond ASCII is its own trimmed form. *)
Lemma TrimSpace_plain s : Forall plain (list_ascii_of_string s) -> TrimSpace s = s.
Proof.
  intros Hs.
  assert (forall a b, plain b -> is_space2 b a = false) as H2.
  { intros a b [_ Hb]. unfold is_space2. replace (byte b =? 194)%N with false; [done|]. symmetry.
    apply N.eqb_neq. lia. }
  assert (forall a b c, plain c -> is_space3 c a b = false) as H3.
  { intros a b c [_ Hc]. unfold is_space3. assert (forall n, (128 <= n)%N -> (byte c =? n)%N = false) as Hn.
    { intros n Hn. apply N.eqb_neq. lia. }
    rewrite !Hn by lia. done. }
  unfold TrimSpace, trim_left_bytes, trim_right_bytes.
  rewrite (trim_front_fix is_space2 is_space3), trim_front_fix.
  - by rewrite rev_involutive, string_of_list_ascii_of_string.
  - apply Forall_rev in Hs. destruct (rev _) as [|a [|b [|c l]]]; [done|..]; rewrite ?Forall_cons in Hs; cbn.
    + apply Hs.
    + destruct Hs as ([Ha _] & Hb & _). by rewrite Ha, H2.
    + destruct Hs as ([Ha _] & Hb & Hc & _). by rewrite Ha, H2, H3.
  - destruct (list_ascii_of_string s) as [|a [|b [|c l]]]; [done|..]; rewrite ?Forall_cons in Hs; cbn.
    + apply Hs.
    + destruct Hs as (Ha & _). rewrite H2 by done. by destruct Ha as [-> _].
    + destruct Hs as (Ha & _). rewrite H2, H3 by done. by destruct Ha as [-> _].
Qed.

Lemma plain_digits x s : Forall plain (list_ascii_of_string s) -> Forall plain (list_ascii_of_string (pretty_N_go x s)).
Proof.
  revert s. induction (N.lt_wf_0 x) as [x _ IH]. intros s Hs. destruct (decide (0 < x)%N).
  - rewrite pretty_N_go_step by done. apply IH; [by apply N.div_lt|]. cbn. constructor; [|done].
    unfold pretty_N_char. repeat case_match; by split.
  - replace x with 0%N by lia. by rewrite pretty_N_go_0.
Qed.

Lemma plain_pretty (z : Z) : Forall plain (list_ascii_of_string (pretty z)).
Proof.
  assert (forall n : N, Forall plain (list_ascii_of_string (pretty n))) as HN.
  { intros n. unfold pretty, pretty_N. case_decide; [by repeat constructor|]. by apply plain_digits. }
  unfold pretty, pretty_Z. destruct z; [by repeat constructor|apply HN|]. cbn. constructor; [by split|]. apply HN.
Qed.

Lemma plain_app s t :
  Forall plain (list_ascii_of_string s) -> Forall plain (list_ascii_of_string t) ->
  Forall plain (list_ascii_of_string (s +:+ t)).
Proof.
  intros Hs Ht. induction s as [|c s IH]; cbn in *; [done|]. apply Forall_cons in Hs as [Hc Hs].
  apply Forall_cons. auto.
Qed.

(** ** Agents *)

(** [strings.EqualFold(s, "main")]: no letter of "main" has a fold outside ASCII. *)
Definition is_main (s : string) : bool :=
  string_of_list_ascii (map lower_ascii (list_ascii_of_string s)) ==? "main".

Definition defaultAgentID (id : string) : string :=
  let id := TrimSpace id in if (id ==? "") || is_main id then "main" else id.
