(* ===== verification/Enums.v ===== *)
(** The string enumerations of the task model: internal/store/state,
    models_tasks.go, models_plans.go, models_verification.go and
    memory_scope.go.

    Each Go type [T string] stays a string (a value read from a stored document
    may be any string); its constants, [Parse], [Normalize] and [Valid] are
    definitions here.  [canonical_enum] states what they have in common. *)

From Stdlib Require Import String.
From S2P Require Import Prelude.
From stdpp Require Import base tactics decidable list strings.

(** ** [GoalStatus] *)

Definition GoalStatusPending : string := "pending".
Definition GoalStatusActive : string := "active".
Definition GoalStatusBlocked : string := "blocked".
Definition GoalStatusCompleted : string := "completed".
Definition GoalStatusFailed : string := "failed".
Definition GoalStatusCancelled : string := "cancelled".

Definition GoalStatus_values : list string :=
  [GoalStatusPending; GoalStatusActive; GoalStatusBlocked; GoalStatusCompleted; GoalStatusFailed; GoalStatusCancelled].

Definition ParseGoalStatus (raw : string) : string * bool :=
  go_switch (ToLower (TrimSpace raw))
    [([GoalStatusPending], (GoalStatusPending, true));
     ([GoalStatusActive], (GoalStatusActive, true));
     ([GoalStatusBlocked], (GoalStatusBlocked, true));
     ([GoalStatusCompleted], (GoalStatusCompleted, true));
     ([GoalStatusFailed], (GoalStatusFailed, true));
     ([GoalStatusCancelled], (GoalStatusCancelled, true))]
    ("", false).

Definition NormalizeGoalStatus (raw : string) : string := (ParseGoalStatus raw).1.

Definition GoalStatus_Valid (s : string) : bool := (ParseGoalStatus s).2.
Arguments ParseGoalStatus : simpl never.
Arguments GoalStatus_Valid : simpl never.

(** ** [TaskStatus] *)

Definition TaskStatusPending : string := "pending".
Definition TaskStatusPlanned : string := "planned".
Definition TaskStatusReady : string := "ready".
Definition TaskStatusInProgress : string := "in_progress".
Definition TaskStatusBlocked : string := "blocked".
Definition TaskStatusAwaitingApproval : string := "awaiting_approval".
Definition TaskStatusVerifying : string := "verifying".
Definition TaskStatusCompleted : string := "completed".
Definition TaskStatusFailed : string := "failed".
Definition TaskStatusCancelled : string := "cancelled".

Definition TaskStatus_values : list string :=
  [TaskStatusPending; TaskStatusPlanned; TaskStatusReady; TaskStatusInProgress; TaskStatusBlocked; TaskStatusAwaitingApproval; TaskStatusVerifying; TaskStatusCompleted; TaskStatusFailed; TaskStatusCancelled].

Definition ParseTaskStatus (raw : string) : string * bool :=
  go_switch (ToLower (TrimSpace raw))
    [([TaskStatusPending], (TaskStatusPending, true));
     ([TaskStatusPlanned], (TaskStatusPlanned, true));
     ([TaskStatusReady], (TaskStatusReady, true));
     ([TaskStatusInProgress], (TaskStatusInProgress, true));
     ([TaskStatusBlocked], (TaskStatusBlocked, true));
     ([TaskStatusAwaitingApproval], (TaskStatusAwaitingApproval, true));
     ([TaskStatusVerifying], (TaskStatusVerifying, true));
     ([TaskStatusCompleted], (TaskStatusCompleted, true));
     ([TaskStatusFailed], (TaskStatusFailed, true));
     ([TaskStatusCancelled], (TaskStatusCancelled, true))]
    ("", false).

Definition NormalizeTaskStatus (raw : string) : string := (ParseTaskStatus raw).1.

Definition TaskStatus_Valid (s : string) : bool := (ParseTaskStatus s).2.
Arguments ParseTaskStatus : simpl never.
Arguments TaskStatus_Valid : simpl never.

(** ** [TaskRunStatus] *)

Definition TaskRunStatusQueued : string := "queued".
Definition TaskRunStatusRunning : string := "running".
Definition TaskRunStatusBlocked : string := "blocked".
Definition TaskRunStatusAwaitingApproval : string := "awaiting_approval".
Definition TaskRunStatusRetrying : string := "retrying".
Definition TaskRunStatusVerifying : string := "verifying".
Definition TaskRunStatusCompleted : string := "completed".
Definition TaskRunStatusFailed : string := "failed".
Definition TaskRunStatusCancelled : string := "cancelled".

Definition TaskRunStatus_values : list string :=
  [TaskRunStatusQueued; TaskRunStatusRunning; TaskRunStatusBlocked; TaskRunStatusAwaitingApproval; TaskRunStatusRetrying; TaskRunStatusVerifying; TaskRunStatusCompleted; TaskRunStatusFailed; TaskRunStatusCancelled].

Definition ParseTaskRunStatus (raw : string) : string * bool :=
  go_switch (ToLower (TrimSpace raw))
    [([TaskRunStatusQueued], (TaskRunStatusQueued, true));
     ([TaskRunStatusRunning], (TaskRunStatusRunning, true));
     ([TaskRunStatusBlocked], (TaskRunStatusBlocked, true));
     ([TaskRunStatusAwaitingApproval], (TaskRunStatusAwaitingApproval, true));
     ([TaskRunStatusRetrying], (TaskRunStatusRetrying, true));
     ([TaskRunStatusVerifying], (TaskRunStatusVerifying, true));
     ([TaskRunStatusCompleted], (TaskRunStatusCompleted, true));
     ([TaskRunStatusFailed], (TaskRunStatusFailed, true));
     ([TaskRunStatusCancelled], (TaskRunStatusCancelled, true))]
    ("", false).

Definition NormalizeTaskRunStatus (raw : string) : string := (ParseTaskRunStatus raw).1.

Definition TaskRunStatus_Valid (s : string) : bool := (ParseTaskRunStatus s).2.
Arguments ParseTaskRunStatus : simpl never.
Arguments TaskRunStatus_Valid : simpl never.

(** ** [TaskApprovalDecision] *)

Definition TaskApprovalDecisionResume : string := "resume".
Definition TaskApprovalDecisionApproved : string := "approved".
Definition TaskApprovalDecisionRejected : string := "rejected".
Definition TaskApprovalDecisionAmended : string := "amended".

Definition TaskApprovalDecision_values : list string :=
  [TaskApprovalDecisionResume; TaskApprovalDecisionApproved; TaskApprovalDecisionRejected; TaskApprovalDecisionAmended].

Definition ParseTaskApprovalDecision (raw : string) : string * bool :=
  go_switch (ToLower (TrimSpace raw))
    [([TaskApprovalDecisionResume; ""], (TaskApprovalDecisionResume, true));
     ([TaskApprovalDecisionApproved], (TaskApprovalDecisionApproved, true));
     ([TaskApprovalDecisionRejected], (TaskApprovalDecisionRejected, true));
     ([TaskApprovalDecisionAmended], (TaskApprovalDecisionAmended, true))]
    ("", false).

Definition NormalizeTaskApprovalDecision (raw : string) : string :=
  let '(decision, ok) := ParseTaskApprovalDecision raw in if ok then decision else "".

Definition TaskApprovalDecision_Valid (s : string) : bool := (ParseTaskApprovalDecision s).2.
Arguments ParseTaskApprovalDecision : simpl never.
Arguments TaskApprovalDecision_Valid : simpl never.

(** ** [TaskPriority] *)

Definition TaskPriorityHigh : string := "high".
Definition TaskPriorityMedium : string := "medium".
Definition TaskPriorityLow : string := "low".

Definition TaskPriority_values : list string :=
  [TaskPriorityHigh; TaskPriorityMedium; TaskPriorityLow].

Definition ParseTaskPriority (raw : string) : string * bool :=
  go_switch (ToLower (TrimSpace raw))
    [([TaskPriorityHigh], (TaskPriorityHigh, true));
     ([TaskPriorityMedium; ""], (TaskPriorityMedium, true));
     ([TaskPriorityLow], (TaskPriorityLow, true))]
    ("", false).

Definition NormalizeTaskPriority (raw : string) : string := (ParseTaskPriority raw).1.

Definition TaskPriority_Valid (s : string) : bool := (ParseTaskPriority s).2.
Arguments ParseTaskPriority : simpl never.
Arguments TaskPriority_Valid : simpl never.

(** ** [RiskClass] *)

Definition RiskClassLow : string := "low".
Definition RiskClassMedium : string := "medium".
Definition RiskClassHigh : string := "high".
Definition RiskClassCritical : string := "critical".

Definition RiskClass_values : list string :=
  [RiskClassLow; RiskClassMedium; RiskClassHigh; RiskClassCritical].

Definition ParseRiskClass (raw : string) : string * bool :=
  go_switch (ToLower (TrimSpace raw))
    [([RiskClassLow; ""], (RiskClassLow, true));
     ([RiskClassMedium], (RiskClassMedium, true));
     ([RiskClassHigh], (RiskClassHigh, true));
     ([RiskClassCritical], (RiskClassCritical, true))]
    ("", false).

Definition NormalizeRiskClass (raw : string) : string :=
  let '(v, ok) := ParseRiskClass raw in if ok then v else RiskClassLow.

Definition RiskClass_Valid (s : string) : bool := (ParseRiskClass s).2.
Arguments ParseRiskClass : simpl never.
Arguments RiskClass_Valid : simpl never.

(** ** [AutonomyMode] *)

Definition AutonomyFull : string := "full".
Definition AutonomyPlanApproval : string := "plan_approval".
Definition AutonomyStepApproval : string := "step_approval".
Definition AutonomySupervised : string := "supervised".

Definition AutonomyMode_values : list string :=
  [AutonomyFull; AutonomyPlanApproval; AutonomyStepApproval; AutonomySupervised].

Definition ParseAutonomyMode (raw : string) : string * bool :=
  go_switch (ToLower (TrimSpace raw))
    [([AutonomyFull; ""], (AutonomyFull, true));
     ([AutonomyPlanApproval], (AutonomyPlanApproval, true));
     ([AutonomyStepApproval], (AutonomyStepApproval, true));
     ([AutonomySupervised], (AutonomySupervised, true))]
    ("", false).

Definition NormalizeAutonomyMode (raw : string) : string :=
  let '(v, ok) := ParseAutonomyMode raw in if ok then v else AutonomyFull.

Definition AutonomyMode_Valid (s : string) : bool := (ParseAutonomyMode s).2.
Arguments ParseAutonomyMode : simpl never.
Arguments AutonomyMode_Valid : simpl never.

(** ** [AgentMemoryScope] *)

Definition AgentMemoryScopeUser : string := "user".
Definition AgentMemoryScopeProject : string := "project".
Definition AgentMemoryScopeLocal : string := "local".

Definition AgentMemoryScope_values : list string :=
  [AgentMemoryScopeUser; AgentMemoryScopeProject; AgentMemoryScopeLocal].

Definition ParseAgentMemoryScope (raw : string) : string * bool :=
  go_switch (ToLower (TrimSpace raw))
    [([AgentMemoryScopeUser], (AgentMemoryScopeUser, true));
     ([AgentMemoryScopeProject], (AgentMemoryScopeProject, true));
     ([AgentMemoryScopeLocal], (AgentMemoryScopeLocal, true))]
    ("", false).

Definition NormalizeAgentMemoryScope (raw : string) : string := (ParseAgentMemoryScope raw).1.

Definition AgentMemoryScope_Valid (s : string) : bool := (ParseAgentMemoryScope s).2.
Arguments ParseAgentMemoryScope : simpl never.
Arguments AgentMemoryScope_Valid : simpl never.

(** ** [VerificationStatus] *)

Definition VerificationStatusPending : string := "pending".
Definition VerificationStatusRunning : string := "running".
Definition VerificationStatusPassed : string := "passed".
Definition VerificationStatusFailed : string := "failed".
Definition VerificationStatusSkipped : string := "skipped".
Definition VerificationStatusError : string := "error".

Definition VerificationStatus_values : list string :=
  [VerificationStatusPending; VerificationStatusRunning; VerificationStatusPassed; VerificationStatusFailed; VerificationStatusSkipped; VerificationStatusError].

Definition ParseVerificationStatus (raw : string) : string * bool :=
  go_switch (ToLower (TrimSpace raw))
    [([VerificationStatusPending; ""], (VerificationStatusPending, true));
     ([VerificationStatusRunning], (VerificationStatusRunning, true));
     ([VerificationStatusPassed], (VerificationStatusPassed, true));
     ([VerificationStatusFailed], (VerificationStatusFailed, true));
     ([VerificationStatusSkipped], (VerificationStatusSkipped, true));
     ([VerificationStatusError], (VerificationStatusError, true))]
    ("", false).

Definition NormalizeVerificationStatus (raw : string) : string :=
  let '(v, ok) := ParseVerificationStatus raw in if ok then v else VerificationStatusPending.

Definition VerificationStatus_Valid (s : string) : bool := (ParseVerificationStatus s).2.
Arguments ParseVerificationStatus : simpl never.
Arguments VerificationStatus_Valid : simpl never.

(** ** [VerificationPolicy] *)

Definition VerificationPolicyRequired : string := "required".
Definition VerificationPolicyAdvisory : string := "advisory".
Definition VerificationPolicyNone : string := "none".

Definition VerificationPolicy_values : list string :=
  [VerificationPolicyRequired; VerificationPolicyAdvisory; VerificationPolicyNone].

Definition ParseVerificationPolicy (raw : string) : string * bool :=
  go_switch (ToLower (TrimSpace raw))
    [([VerificationPolicyRequired], (VerificationPolicyRequired, true));
     ([VerificationPolicyAdvisory], (VerificationPolicyAdvisory, true));
     ([VerificationPolicyNone; ""], (VerificationPolicyNone, true))]
    ("", false).

Definition NormalizeVerificationPolicy (raw : string) : string :=
  let '(v, ok) := ParseVerificationPolicy raw in if ok then v else VerificationPolicyNone.

Definition VerificationPolicy_Valid (s : string) : bool := (ParseVerificationPolicy s).2.
Arguments ParseVerificationPolicy : simpl never.
Arguments VerificationPolicy_Valid : simpl never.

(** ** [PlanStatus] *)

Definition PlanStatusDraft : string := "draft".
Definition PlanStatusActive : string := "active".
Definition PlanStatusRevising : string := "revising".
Definition PlanStatusCompleted : string := "completed".
Definition PlanStatusFailed : string := "failed".
Definition PlanStatusCancelled : string := "cancelled".

Definition PlanStatus_values : list string :=
  [PlanStatusDraft; PlanStatusActive; PlanStatusRevising; PlanStatusCompleted; PlanStatusFailed; PlanStatusCancelled].

Definition ParsePlanStatus (raw : string) : string * bool :=
  go_switch (ToLower (TrimSpace raw))
    [([PlanStatusDraft], (PlanStatusDraft, true));
     ([PlanStatusActive], (PlanStatusActive, true));
     ([PlanStatusRevising], (PlanStatusRevising, true));
     ([PlanStatusCompleted], (PlanStatusCompleted, true));
     ([PlanStatusFailed], (PlanStatusFailed, true));
     ([PlanStatusCancelled], (PlanStatusCancelled, true))]
    ("", false).

Definition NormalizePlanStatus (raw : string) : string := (ParsePlanStatus raw).1.

Definition PlanStatus_Valid (s : string) : bool := (ParsePlanStatus s).2.
Arguments ParsePlanStatus : simpl never.
Arguments PlanStatus_Valid : simpl never.

(** ** [PlanStepStatus] *)

Definition PlanStepStatusPending : string := "pending".
Definition PlanStepStatusReady : string := "ready".
Definition PlanStepStatusBlocked : string := "blocked".
Definition PlanStepStatusInProgress : string := "in_progress".
Definition PlanStepStatusCompleted : string := "completed".
Definition PlanStepStatusFailed : string := "failed".
Definition PlanStepStatusSkipped : string := "skipped".

Definition PlanStepStatus_values : list string :=
  [PlanStepStatusPending; PlanStepStatusReady; PlanStepStatusBlocked; PlanStepStatusInProgress; PlanStepStatusCompleted; PlanStepStatusFailed; PlanStepStatusSkipped].

Definition ParsePlanStepStatus (raw : string) : string * bool :=
  go_switch (ToLower (TrimSpace raw))
    [([PlanStepStatusPending], (PlanStepStatusPending, true));
     ([PlanStepStatusReady], (PlanStepStatusReady, true));
     ([PlanStepStatusBlocked], (PlanStepStatusBlocked, true));
     ([PlanStepStatusInProgress], (PlanStepStatusInProgress, true));
     ([PlanStepStatusCompleted], (PlanStepStatusCompleted, true));
     ([PlanStepStatusFailed], (PlanStepStatusFailed, true));
     ([PlanStepStatusSkipped], (PlanStepStatusSkipped, true))]
    ("", false).

Definition NormalizePlanStepStatus (raw : string) : string := (ParsePlanStepStatus raw).1.

Definition PlanStepStatus_Valid (s : string) : bool := (ParsePlanStepStatus s).2.
Arguments ParsePlanStepStatus : simpl never.
Arguments PlanStepStatus_Valid : simpl never.

(** ** [PlanApprovalDecision] *)

Definition PlanApprovalPending : string := "pending".
Definition PlanApprovalApproved : string := "approved".
Definition PlanApprovalRejected : string := "rejected".
Definition PlanApprovalAmended : string := "amended".

Definition PlanApprovalDecision_values : list string :=
  [PlanApprovalPending; PlanApprovalApproved; PlanApprovalRejected; PlanApprovalAmended].

Definition ParsePlanApprovalDecision (raw : string) : string * bool :=
  go_switch (ToLower (TrimSpace raw))
    [([PlanApprovalPending; ""], (PlanApprovalPending, true));
     ([PlanApprovalApproved], (PlanApprovalApproved, true));
     ([PlanApprovalRejected], (PlanApprovalRejected, true));
     ([PlanApprovalAmended], (PlanApprovalAmended, true))]
    ("", false).

Definition PlanApprovalDecision_Valid (s : string) : bool := (ParsePlanApprovalDecision s).2.
Arguments ParsePlanApprovalDecision : simpl never.
Arguments PlanApprovalDecision_Valid : simpl never.
(** ** Methods on the enumerations *)

Definition AutonomyMode_RequiresPlanApproval (m : string) : bool :=
  go_switch m
    [([AutonomyPlanApproval; AutonomyStepApproval; AutonomySupervised], true)] false.

Definition AutonomyMode_RequiresStepApproval (m : string) : bool :=
  go_switch m [([AutonomyStepApproval; AutonomySupervised], true)] false.

Definition VerificationStatus_IsTerminal (s : string) : bool :=
  go_switch s
    [([VerificationStatusPassed; VerificationStatusFailed;
       VerificationStatusSkipped; VerificationStatusError], true)] false.

(** ** The common contract of the parsers

    [enum_spec values dflt raw] is the reference parser: fold case and white
    space, accept exactly the declared constants, and give the empty string
    the default [dflt] when the type has one. *)

Definition enum_spec (values : list string) (dflt : option string) (raw : string)
  : string * bool :=
  let k := ToLower (TrimSpace raw) in
  if decide (k ∈ values) then (k, true)
  else match dflt with
       | Some d => if decide (k = "") then (d, true) else ("", false)
       | None => ("", false)
       end.

Class StringEnum (parse : string -> string * bool) (values : list string)
    (dflt : option string) : Prop := {
  enum_parse : forall raw, parse raw = enum_spec values dflt raw;
  enum_fixed : Forall (fun v => ToLower (TrimSpace v) = v) values;
  enum_dflt : forall d, dflt = Some d -> d ∈ values
}.

(** Each instance is proved by comparing the folded string with one constant
    after another: on a match both sides compute, and when none matches the
    string is outside the list. *)
Ltac solve_enum parse values :=
  constructor;
  [ intros raw; unfold parse, values, enum_spec;
    generalize (ToLower (TrimSpace raw)); intros k; cbn [go_switch existsb];
    repeat match goal with
    | |- context [String.eqb k ?c] =>
      destruct (String.eqb_spec k c) as [->|]; cbn [orb]; [reflexivity|]
    end;
    rewrite decide_False by (rewrite !not_elem_of_cons; repeat split; auto using not_elem_of_nil);
    rewrite ?decide_False by assumption; reflexivity
  | repeat constructor
  | intros d; first [discriminate | intros [= <-]; apply (bool_decide_unpack _); reflexivity ] ].

#[export] Instance GoalStatus_enum : StringEnum ParseGoalStatus GoalStatus_values None.
Proof. solve_enum ParseGoalStatus GoalStatus_values. Qed.
#[export] Instance TaskStatus_enum : StringEnum ParseTaskStatus TaskStatus_values None.
Proof. solve_enum ParseTaskStatus TaskStatus_values. Qed.
#[export] Instance TaskRunStatus_enum : StringEnum ParseTaskRunStatus TaskRunStatus_values None.
Proof. solve_enum ParseTaskRunStatus TaskRunStatus_values. Qed.
#[export] Instance TaskApprovalDecision_enum :
  StringEnum ParseTaskApprovalDecision TaskApprovalDecision_values (Some TaskApprovalDecisionResume).
Proof. solve_enum ParseTaskApprovalDecision TaskApprovalDecision_values. Qed.
#[export] Instance TaskPriority_enum :
  StringEnum ParseTaskPriority TaskPriority_values (Some TaskPriorityMedium).
Proof. solve_enum ParseTaskPriority TaskPriority_values. Qed.
#[export] Instance RiskClass_enum : StringEnum ParseRiskClass RiskClass_values (Some RiskClassLow).
Proof. solve_enum ParseRiskClass RiskClass_values. Qed.
#[export] Instance AutonomyMode_enum :
  StringEnum ParseAutonomyMode AutonomyMode_values (Some AutonomyFull).
Proof. solve_enum ParseAutonomyMode AutonomyMode_values. Qed.
#[export] Instance AgentMemoryScope_enum :
  StringEnum ParseAgentMemoryScope AgentMemoryScope_values None.
Proof. solve_enum ParseAgentMemoryScope AgentMemoryScope_values. Qed.
#[export] Instance VerificationStatus_enum :
  StringEnum ParseVerificationStatus VerificationStatus_values (Some VerificationStatusPending).
Proof. solve_enum ParseVerificationStatus VerificationStatus_values. Qed.
#[export] Instance VerificationPolicy_enum :
  StringEnum ParseVerificationPolicy VerificationPolicy_values (Some VerificationPolicyNone).
Proof. solve_enum ParseVerificationPolicy VerificationPolicy_values. Qed.
#[export] Instance PlanStatus_enum : StringEnum ParsePlanStatus PlanStatus_values None.
Proof. solve_enum ParsePlanStatus PlanStatus_values. Qed.
#[export] Instance PlanStepStatus_enum :
  StringEnum ParsePlanStepStatus PlanStepStatus_values None.
Proof. solve_enum ParsePlanStepStatus PlanStepStatus_values. Qed.
#[export] Instance PlanApprovalDecision_enum :
  StringEnum ParsePlanApprovalDecision PlanApprovalDecision_values (Some PlanApprovalPending).
Proof. solve_enum ParsePlanApprovalDecision PlanApprovalDecision_values. Qed.

(** ** Consequences for any enumeration *)
Section AnyEnum.
Context {parse : string -> string * bool} {values : list string} {dflt : option string}.
Context {E : StringEnum parse values dflt}.

Lemma enum_key_fixed v : v ∈ values -> ToLower (TrimSpace v) = v.
Proof. pose proof enum_fixed as H. rewrite Forall_forall in H. auto. Qed.

(** A declared constant parses to itself. *)
Lemma enum_roundtrip v : v ∈ values -> parse v = (v, true).
Proof.
  intros Hv. rewrite enum_parse. unfold enum_spec.
  rewrite (enum_key_fixed v Hv). by rewrite decide_True.
Qed.

(** A successful parse yields a declared constant. *)
Lemma enum_sound raw v : parse raw = (v, true) -> v ∈ values.
Proof.
  rewrite enum_parse. unfold enum_spec. intros H.
  case_decide; [by simplify_eq|].
  destruct dflt as [d|] eqn:Ed; [|discriminate].
  case_decide; simplify_eq. by apply enum_dflt.
Qed.

Lemma enum_reject raw v : parse raw = (v, false) -> v = "".
Proof.
  rewrite enum_parse. unfold enum_spec. intros H.
  repeat first [case_decide | case_match]; simplify_eq; auto.
Qed.

(** Parsing is idempotent on what it returns. *)
Lemma enum_idem raw v : parse raw = (v, true) -> parse v = (v, true).
Proof. intros H. eapply enum_roundtrip, enum_sound, H. Qed.
End AnyEnum.

(** All thirteen parsers agree with one reference parser: each folds case and
    surrounding white space, accepts exactly the declared constants of its type
    and returns the constant itself, maps the blank string to the default of the
    types that have one, and answers [("", false)] on everything else. *)
Theorem parsers_match_reference raw :
  ParseGoalStatus raw = enum_spec GoalStatus_values None raw
  /\ ParseTaskStatus raw = enum_spec TaskStatus_values None raw
  /\ ParseTaskRunStatus raw = enum_spec TaskRunStatus_values None raw
  /\ ParseTaskApprovalDecision raw
     = enum_spec TaskApprovalDecision_values (Some TaskApprovalDecisionResume) raw
  /\ ParseTaskPriority raw = enum_spec TaskPriority_values (Some TaskPriorityMedium) raw
  /\ ParseRiskClass raw = enum_spec RiskClass_values (Some RiskClassLow) raw
  /\ ParseAutonomyMode raw = enum_spec AutonomyMode_values (Some AutonomyFull) raw
  /\ ParseAgentMemoryScope raw = enum_spec AgentMemoryScope_values None raw
  /\ ParseVerificationStatus raw
     = enum_spec VerificationStatus_values (Some VerificationStatusPending) raw
  /\ ParseVerificationPolicy raw
     = enum_spec VerificationPolicy_values (Some VerificationPolicyNone) raw
  /\ ParsePlanStatus raw = enum_spec PlanStatus_values None raw
  /\ ParsePlanStepStatus raw = enum_spec PlanStepStatus_values None raw
  /\ ParsePlanApprovalDecision raw
     = enum_spec PlanApprovalDecision_values (Some PlanApprovalPending) raw.
Proof. repeat split; apply enum_parse. Qed.
