(* ===== verification/Verification.v ===== *)
(** Verification contracts of tasks and runs:
    internal/store/state/models_verification.go.

    [VerificationSpec_Normalize] rewrites the elements of the [Checks] slice in
    place, so a caller that normalises a copy of a spec also normalises the
    checks of the original; operations that do so on a stored value keep that
    effect in their own definitions (see Lifecycle.v). *)

From Stdlib Require Import String.
From stdpp Require Import base tactics decidable list gmap strings.
From S2P Require Import Prelude Enums.

Record VerificationCheck := mkVerificationCheck {
  vc_CheckID : string;
  vc_Type : string;
  vc_Description : string;
  vc_Required : bool;
  vc_Status : string;
  vc_Result : string;
  vc_Evidence : string;
  vc_EvaluatedAt : Z;
  vc_EvaluatedBy : string;
  vc_Meta : gomap any
}.

#[export] Instance set_vc_Status : Setter vc_Status := fun v r =>
  mkVerificationCheck (vc_CheckID r) (vc_Type r) (vc_Description r) (vc_Required r) v
    (vc_Result r) (vc_Evidence r) (vc_EvaluatedAt r) (vc_EvaluatedBy r) (vc_Meta r).
#[export] Instance set_vc_Meta : Setter vc_Meta := fun v r =>
  mkVerificationCheck (vc_CheckID r) (vc_Type r) (vc_Description r) (vc_Required r) (vc_Status
    r) (vc_Result r) (vc_Evidence r) (vc_EvaluatedAt r) (vc_EvaluatedBy r) v.
#[export] Instance VerificationCheck_ext : RecordExt VerificationCheck (fun a b =>
  vc_CheckID a = vc_CheckID b /\ vc_Type a = vc_Type b /\ vc_Description a =
  vc_Description b /\ vc_Required a = vc_Required b /\ vc_Status a = vc_Status b /\
  vc_Result a = vc_Result b /\ vc_Evidence a = vc_Evidence b /\ vc_EvaluatedAt a =
  vc_EvaluatedAt b /\ vc_EvaluatedBy a = vc_EvaluatedBy b /\ vc_Meta a = vc_Meta b).
Proof.
  intros [] []; cbn. intros H. decompose [and] H. by subst.
Qed.

Definition VerificationCheck_Validate (c : VerificationCheck) : option error :=
  first_error
    [ error_if (blank (vc_CheckID c)) (Errorf "check_id is required" []);
      error_if (blank (vc_Description c)) (Errorf "check description is required" []);
      error_if (negb (blank (vc_Status c)) && negb (VerificationStatus_Valid (vc_Status c)))
        (Errorf "invalid check status %q" [ArgS (vc_Status c)]) ].

Definition VerificationCheck_Normalize (c : VerificationCheck) : VerificationCheck :=
  c <| vc_Status := NormalizeVerificationStatus (vc_Status c) |>.

Record VerificationSpec := mkVerificationSpec {
  vs_Policy : string;
  vs_Checks : list VerificationCheck;
  vs_VerifiedAt : Z;
  vs_VerifiedBy : string;
  vs_Meta : gomap any
}.

#[export] Instance set_vs_Policy : Setter vs_Policy := fun v r =>
  mkVerificationSpec v (vs_Checks r) (vs_VerifiedAt r) (vs_VerifiedBy r) (vs_Meta r).
#[export] Instance set_vs_Checks : Setter vs_Checks := fun v r =>
  mkVerificationSpec (vs_Policy r) v (vs_VerifiedAt r) (vs_VerifiedBy r) (vs_Meta r).
#[export] Instance set_vs_Meta : Setter vs_Meta := fun v r =>
  mkVerificationSpec (vs_Policy r) (vs_Checks r) (vs_VerifiedAt r) (vs_VerifiedBy r) v.
#[export] Instance VerificationSpec_ext : RecordExt VerificationSpec (fun a b =>
  vs_Policy a = vs_Policy b /\ vs_Checks a = vs_Checks b /\ vs_VerifiedAt a =
  vs_VerifiedAt b /\ vs_VerifiedBy a = vs_VerifiedBy b /\ vs_Meta a = vs_Meta b).
Proof.
  intros [] []; cbn. intros H. decompose [and] H. by subst.
Qed.

Definition VerificationSpec_Normalize (v : VerificationSpec) : VerificationSpec :=
  v <| vs_Policy := NormalizeVerificationPolicy (vs_Policy v) |>
    <| vs_Checks := map VerificationCheck_Normalize (vs_Checks v) |>.

(** The loop of [Validate] over the checks; [seen] is the map [checkIDs]. *)
Fixpoint validate_checks (i : Z) (seen : gset string) (cs : list VerificationCheck)
  : option error :=
  match cs with
  | [] => None
  | c :: cs =>
    match VerificationCheck_Validate c with
    | Some e => Some (Wrapf "checks[%d]: %w" [ArgZ i] e)
    | None =>
      if decide (vc_CheckID c ∈ seen)
      then Some (Errorf "duplicate check_id %q at checks[%d]" [ArgS (vc_CheckID c); ArgZ i])
      else validate_checks (i + 1) ({[vc_CheckID c]} ∪ seen) cs
    end
  end.

Definition VerificationSpec_Validate (v : VerificationSpec) : option error :=
  first_error
    [ error_if (negb (blank (vs_Policy v)) && negb (VerificationPolicy_Valid (vs_Policy v)))
        (Errorf "invalid verification policy %q" [ArgS (vs_Policy v)]);
      error_if ((vs_Policy v ==? VerificationPolicyRequired)
                && Nat.eqb (length (vs_Checks v)) 0)
        (Errorf "verification policy is 'required' but no checks are defined" []);
      validate_checks 0 ∅ (vs_Checks v) ].

Definition VerificationSpec_RequiredChecks (v : VerificationSpec) : list VerificationCheck :=
  List.filter vc_Required (vs_Checks v).

(** One iteration of the loop of [AllRequiredPassed]. *)
Definition check_passed_or_skipped (c : VerificationCheck) : bool :=
  (vc_Status c ==? VerificationStatusPassed) || (vc_Status c ==? VerificationStatusSkipped).

Fixpoint all_required_passed (cs : list VerificationCheck) : bool :=
  match cs with
  | [] => true
  | c :: cs =>
    if negb (vc_Required c) then all_required_passed cs
    else if (vc_Status c !=? VerificationStatusPassed)
            && (vc_Status c !=? VerificationStatusSkipped) then false
    else all_required_passed cs
  end.

Definition VerificationSpec_AllRequiredPassed (v : VerificationSpec) : bool :=
  all_required_passed (vs_Checks v).

Definition VerificationSpec_AnyRequiredFailed (v : VerificationSpec) : bool :=
  existsb (fun c => vc_Required c
                    && ((vc_Status c ==? VerificationStatusFailed)
                        || (vc_Status c ==? VerificationStatusError))) (vs_Checks v).

Definition VerificationSpec_PendingChecks (v : VerificationSpec) : list VerificationCheck :=
  List.filter (fun c => vc_Status c ==? VerificationStatusPending) (vs_Checks v).

Arguments VerificationSpec_AllRequiredPassed : simpl never.
Arguments VerificationSpec_Validate : simpl never.

(** ** Lemmas *)

Lemma NormalizeVerificationStatus_idem s :
  NormalizeVerificationStatus (NormalizeVerificationStatus s) = NormalizeVerificationStatus s.
Proof.
  unfold NormalizeVerificationStatus at 2 3.
  destruct (ParseVerificationStatus s) as [v []] eqn:E; [|reflexivity].
  unfold NormalizeVerificationStatus. by rewrite (enum_idem _ _ E).
Qed.

Lemma NormalizeVerificationPolicy_idem s :
  NormalizeVerificationPolicy (NormalizeVerificationPolicy s) = NormalizeVerificationPolicy s.
Proof.
  unfold NormalizeVerificationPolicy at 2 3.
  destruct (ParseVerificationPolicy s) as [v []] eqn:E; [|reflexivity].
  unfold NormalizeVerificationPolicy. by rewrite (enum_idem _ _ E).
Qed.

Lemma VerificationCheck_Normalize_idem c :
  VerificationCheck_Normalize (VerificationCheck_Normalize c) = VerificationCheck_Normalize c.
Proof.
  destruct c. unfold VerificationCheck_Normalize; cbn.
  by rewrite NormalizeVerificationStatus_idem.
Qed.

Lemma map_check_normalize_idem cs :
  map VerificationCheck_Normalize (map VerificationCheck_Normalize cs)
  = map VerificationCheck_Normalize cs.
Proof.
  rewrite map_map. apply map_ext. apply VerificationCheck_Normalize_idem.
Qed.

Lemma VerificationSpec_Normalize_idem v :
  VerificationSpec_Normalize (VerificationSpec_Normalize v) = VerificationSpec_Normalize v.
Proof.
  destruct v. unfold VerificationSpec_Normalize; cbn.
  by rewrite NormalizeVerificationPolicy_idem, map_check_normalize_idem.
Qed.
Arguments VerificationSpec_Normalize : simpl never.
#[export] Hint Rewrite NormalizeVerificationStatus_idem NormalizeVerificationPolicy_idem
  VerificationCheck_Normalize_idem map_check_normalize_idem
  VerificationSpec_Normalize_idem : go.

Lemma all_required_passed_spec cs :
  all_required_passed cs = true
  <-> forall c, c ∈ cs -> vc_Required c = true ->
        vc_Status c = VerificationStatusPassed \/ vc_Status c = VerificationStatusSkipped.
Proof.
  induction cs as [|c cs IH]; cbn [all_required_passed].
  - split; [intros _ c H; by apply not_elem_of_nil in H | done].
  - setoid_rewrite elem_of_cons. destruct (vc_Required c) eqn:R; cbn [negb].
    + destruct (String.eqb_spec (vc_Status c) VerificationStatusPassed),
        (String.eqb_spec (vc_Status c) VerificationStatusSkipped); cbn [negb andb];
        rewrite ?IH; split; intros H; try discriminate;
        try (intros c' [->|Hin]; eauto); try (intros; apply H; auto).
      destruct (H c); auto; contradiction.
    + rewrite IH. split; intros H c'; [intros [->|Hin]; [congruence|eauto] | eauto].
Qed.

(** What the loop of [Validate] accepts: every check is valid on its own and
    the identifiers are distinct, and fresh for [seen]. *)
Lemma validate_checks_None i seen cs :
  validate_checks i seen cs = None
  <-> Forall (fun c => VerificationCheck_Validate c = None /\ vc_CheckID c ∉ seen) cs
      /\ NoDup (map vc_CheckID cs).
Proof.
  revert i seen. induction cs as [|c cs IH]; intros i seen; cbn [validate_checks map].
  - split; auto using NoDup_nil_2.
  - rewrite Forall_cons, NoDup_cons.
    destruct (VerificationCheck_Validate c) as [e|].
    { split; [discriminate|]. intros [[[? ?] ?] ?]. discriminate. }
    case_decide as Hd.
    { split; [discriminate|]. intros [[[? ?] ?] ?]. contradiction. }
    rewrite IH. split.
    + intros [Hall Hnd]. rewrite Forall_forall in Hall.
      repeat split; auto.
      * apply Forall_forall. intros c' Hc'. clear IH. destruct (Hall c' Hc'); clear Hall. set_solver.
      * rewrite list_elem_of_In, in_map_iff. intros (c' & Heq & Hin).
        rewrite <- list_elem_of_In in Hin. clear IH. destruct (Hall c' Hin); clear Hall. set_solver.
    + intros [[_ Hall] [Hni Hnd]]. split; auto.
      rewrite Forall_forall in *. intros c' Hc'. destruct (Hall c' Hc') as [? ?].
      split; auto. rewrite list_elem_of_In, in_map_iff in Hni. intros Hin.
      apply elem_of_union in Hin as [Heq%elem_of_singleton|]; [|done].
      apply Hni. exists c'. split; auto. by rewrite <- list_elem_of_In.
Qed.

(** ** Contracts, declaratively *)

(** What [Validate] asks of a contract whose checks are normalised. *)
Definition contract_ok (v : VerificationSpec) : Prop :=
  (blank (vs_Policy v) = true \/ VerificationPolicy_Valid (vs_Policy v) = true)
  /\ (vs_Policy v = VerificationPolicyRequired -> vs_Checks v <> [])
  /\ (forall c, c ∈ vs_Checks v -> blank (vc_CheckID c) = false /\ blank (vc_Description c) = false)
  /\ NoDup (map vc_CheckID (vs_Checks v)).

Lemma normalized_status_valid s : VerificationStatus_Valid (NormalizeVerificationStatus s) = true.
Proof.
  unfold VerificationStatus_Valid, NormalizeVerificationStatus.
  destruct (ParseVerificationStatus s) as [v []] eqn:E; [|reflexivity].
  by rewrite (enum_idem _ _ E).
Qed.

Lemma normalized_check_valid c :
  VerificationCheck_Validate (VerificationCheck_Normalize c) = None
  <-> blank (vc_CheckID c) = false /\ blank (vc_Description c) = false.
Proof.
  unfold VerificationCheck_Validate. rewrite first_error_None, !Forall_cons, !error_if_None, Forall_nil.
  destruct c; cbn. rewrite normalized_status_valid, andb_false_r. tauto.
Qed.

Lemma normalized_contract_valid v :
  VerificationSpec_Validate
    (v <| vs_Checks := map VerificationCheck_Normalize (vs_Checks v) |>) = None
  <-> contract_ok v.
Proof.
  unfold VerificationSpec_Validate, contract_ok.
  rewrite first_error_None, !Forall_cons, !error_if_None, Forall_nil, validate_checks_None.
  destruct v as [p cs ? ? ?]; cbn. rewrite length_map, map_map, Forall_map, Forall_forall.
  assert (forall c, (VerificationCheck_Validate (VerificationCheck_Normalize c) = None
                     /\ vc_CheckID (VerificationCheck_Normalize c) ∉ (∅ : gset string))
                    <-> blank (vc_CheckID c) = false /\ blank (vc_Description c) = false) as Hc.
  { intros c. rewrite normalized_check_valid. split; [tauto|]. intros. split; [done|apply not_elem_of_empty]. }
  setoid_rewrite Hc. clear Hc.
  rewrite (map_ext (fun c => vc_CheckID (VerificationCheck_Normalize c)) vc_CheckID) by by intros [].
  rewrite !andb_false_iff, !negb_false_iff, String.eqb_neq, Nat.eqb_neq.
  assert (p <> VerificationPolicyRequired \/ length cs <> 0%nat
          <-> (p = VerificationPolicyRequired -> cs <> [])) as ->.
  { destruct (decide (p = VerificationPolicyRequired)), cs; cbn; naive_solver. }
  tauto.
Qed.
