(* ===== verification/Budget.v ===== *)
(** Budgets and measured usage: [TaskBudget], [TaskUsage] and [BudgetExceeded]
    of internal/store/state/models_tasks.go.

    Every dimension is a 64-bit integer; a limit of zero means no limit. *)

From Stdlib Require Import String.
From stdpp Require Import base tactics decidable list strings.
From S2P Require Import Prelude.

Record TaskBudget := mkTaskBudget {
  tb_MaxPromptTokens : Z;
  tb_MaxCompletionTokens : Z;
  tb_MaxTotalTokens : Z;
  tb_MaxRuntimeMS : Z;
  tb_MaxToolCalls : Z;
  tb_MaxDelegations : Z;
  tb_MaxCostMicrosUSD : Z
}.

Record TaskUsage := mkTaskUsage {
  tu_PromptTokens : Z;
  tu_CompletionTokens : Z;
  tu_TotalTokens : Z;
  tu_WallClockMS : Z;
  tu_ToolCalls : Z;
  tu_Delegations : Z;
  tu_CostMicrosUSD : Z
}.

#[export] Instance set_tu_ToolCalls : Setter tu_ToolCalls := fun v r =>
  mkTaskUsage (tu_PromptTokens r) (tu_CompletionTokens r) (tu_TotalTokens r) (tu_WallClockMS r)
    v (tu_Delegations r) (tu_CostMicrosUSD r).
#[export] Instance TaskUsage_ext : RecordExt TaskUsage (fun a b =>
  tu_PromptTokens a = tu_PromptTokens b /\ tu_CompletionTokens a = tu_CompletionTokens b
  /\ tu_TotalTokens a = tu_TotalTokens b /\ tu_WallClockMS a = tu_WallClockMS b /\
  tu_ToolCalls a = tu_ToolCalls b /\ tu_Delegations a = tu_Delegations b /\
  tu_CostMicrosUSD a = tu_CostMicrosUSD b).
Proof.
  intros [] []; cbn. intros H. decompose [and] H. by subst.
Qed.
Record BudgetExceeded := mkBudgetExceeded {
  be_PromptTokens : bool;
  be_CompletionTokens : bool;
  be_TotalTokens : bool;
  be_RuntimeMS : bool;
  be_ToolCalls : bool;
  be_Delegations : bool;
  be_CostMicrosUSD : bool
}.

Definition zero_budget : TaskBudget := mkTaskBudget 0 0 0 0 0 0 0.
Definition zero_usage : TaskUsage := mkTaskUsage 0 0 0 0 0 0 0.
Definition nothing_exceeded : BudgetExceeded :=
  mkBudgetExceeded false false false false false false false.

Definition TaskBudget_IsZero (b : TaskBudget) : bool :=
  (tb_MaxPromptTokens b =? 0)
  && (tb_MaxCompletionTokens b =? 0)
  && (tb_MaxTotalTokens b =? 0)
  && (tb_MaxRuntimeMS b =? 0)
  && (tb_MaxToolCalls b =? 0)
  && (tb_MaxDelegations b =? 0)
  && (tb_MaxCostMicrosUSD b =? 0).

Definition TaskBudget_Validate (b : TaskBudget) : option error :=
  first_error
    [ error_if (tb_MaxPromptTokens b <? 0) (Errorf "max_prompt_tokens must be >= 0" []);
      error_if (tb_MaxCompletionTokens b <? 0) (Errorf "max_completion_tokens must be >= 0" []);
      error_if (tb_MaxTotalTokens b <? 0) (Errorf "max_total_tokens must be >= 0" []);
      error_if (tb_MaxRuntimeMS b <? 0) (Errorf "max_runtime_ms must be >= 0" []);
      error_if (tb_MaxToolCalls b <? 0) (Errorf "max_tool_calls must be >= 0" []);
      error_if (tb_MaxDelegations b <? 0) (Errorf "max_delegations must be >= 0" []);
      error_if (tb_MaxCostMicrosUSD b <? 0) (Errorf "max_cost_micros_usd must be >= 0" []);
      error_if
        (((0 <? tb_MaxTotalTokens b) && (0 <? tb_MaxPromptTokens b)
          && (0 <? tb_MaxCompletionTokens b))
         && (tb_MaxTotalTokens b <? add64 (tb_MaxPromptTokens b) (tb_MaxCompletionTokens b)))
        (Errorf "max_total_tokens (%d) < max_prompt_tokens (%d) + max_completion_tokens (%d)"
           [ArgZ (tb_MaxTotalTokens b); ArgZ (tb_MaxPromptTokens b);
            ArgZ (tb_MaxCompletionTokens b)]) ].

(** [narrowInt] and [narrowInt64] have the same body at the same width. *)
Definition narrowInt (parent child : Z) : Z :=
  if parent =? 0 then child
  else if child =? 0 then parent
  else if child <? parent then child
  else parent.

Definition narrowInt64 (parent child : Z) : Z :=
  if parent =? 0 then child
  else if child =? 0 then parent
  else if child <? parent then child
  else parent.

Definition TaskBudget_Narrow (b child : TaskBudget) : TaskBudget :=
  mkTaskBudget
    (narrowInt (tb_MaxPromptTokens b) (tb_MaxPromptTokens child))
    (narrowInt (tb_MaxCompletionTokens b) (tb_MaxCompletionTokens child))
    (narrowInt (tb_MaxTotalTokens b) (tb_MaxTotalTokens child))
    (narrowInt64 (tb_MaxRuntimeMS b) (tb_MaxRuntimeMS child))
    (narrowInt (tb_MaxToolCalls b) (tb_MaxToolCalls child))
    (narrowInt (tb_MaxDelegations b) (tb_MaxDelegations child))
    (narrowInt64 (tb_MaxCostMicrosUSD b) (tb_MaxCostMicrosUSD child)).

Definition TaskUsage_Add (u other : TaskUsage) : TaskUsage :=
  mkTaskUsage
    (add64 (tu_PromptTokens u) (tu_PromptTokens other))
    (add64 (tu_CompletionTokens u) (tu_CompletionTokens other))
    (add64 (tu_TotalTokens u) (tu_TotalTokens other))
    (add64 (tu_WallClockMS u) (tu_WallClockMS other))
    (add64 (tu_ToolCalls u) (tu_ToolCalls other))
    (add64 (tu_Delegations u) (tu_Delegations other))
    (add64 (tu_CostMicrosUSD u) (tu_CostMicrosUSD other)).

Definition BudgetExceeded_Any (e : BudgetExceeded) : bool :=
  be_PromptTokens e || be_CompletionTokens e || be_TotalTokens e
  || be_RuntimeMS e || be_ToolCalls e || be_Delegations e || be_CostMicrosUSD e.

Definition BudgetExceeded_Reasons (e : BudgetExceeded) : list string :=
  (if be_PromptTokens e then ["prompt tokens exceeded"] else [])
  ++ (if be_CompletionTokens e then ["completion tokens exceeded"] else [])
  ++ (if be_TotalTokens e then ["total tokens exceeded"] else [])
  ++ (if be_RuntimeMS e then ["runtime exceeded"] else [])
  ++ (if be_ToolCalls e then ["tool calls exceeded"] else [])
  ++ (if be_Delegations e then ["delegations exceeded"] else [])
  ++ (if be_CostMicrosUSD e then ["cost exceeded"] else []).

Definition TaskBudget_CheckUsage (b : TaskBudget) (usage : TaskUsage) : BudgetExceeded :=
  mkBudgetExceeded
    ((0 <? tb_MaxPromptTokens b) && (tb_MaxPromptTokens b <? tu_PromptTokens usage))
    ((0 <? tb_MaxCompletionTokens b) && (tb_MaxCompletionTokens b <? tu_CompletionTokens usage))
    ((0 <? tb_MaxTotalTokens b) && (tb_MaxTotalTokens b <? tu_TotalTokens usage))
    ((0 <? tb_MaxRuntimeMS b) && (tb_MaxRuntimeMS b <? tu_WallClockMS usage))
    ((0 <? tb_MaxToolCalls b) && (tb_MaxToolCalls b <? tu_ToolCalls usage))
    ((0 <? tb_MaxDelegations b) && (tb_MaxDelegations b <? tu_Delegations usage))
    ((0 <? tb_MaxCostMicrosUSD b) && (tb_MaxCostMicrosUSD b <? tu_CostMicrosUSD usage)).

(** The closures [remaining] and [remaining64] of [Remaining]. *)
Definition remaining (limit used : Z) : Z :=
  if limit =? 0 then 0
  else let r := sub64 limit used in if r <? 0 then 0 else r.

Definition TaskBudget_Remaining (b : TaskBudget) (usage : TaskUsage) : TaskBudget :=
  mkTaskBudget
    (remaining (tb_MaxPromptTokens b) (tu_PromptTokens usage))
    (remaining (tb_MaxCompletionTokens b) (tu_CompletionTokens usage))
    (remaining (tb_MaxTotalTokens b) (tu_TotalTokens usage))
    (remaining (tb_MaxRuntimeMS b) (tu_WallClockMS usage))
    (remaining (tb_MaxToolCalls b) (tu_ToolCalls usage))
    (remaining (tb_MaxDelegations b) (tu_Delegations usage))
    (remaining (tb_MaxCostMicrosUSD b) (tu_CostMicrosUSD usage)).

(** ** Lemmas *)

(** Pointwise disjunction of two verdicts. *)
Definition exceeded_or (e f : BudgetExceeded) : BudgetExceeded :=
  mkBudgetExceeded
    (be_PromptTokens e || be_PromptTokens f)
    (be_CompletionTokens e || be_CompletionTokens f)
    (be_TotalTokens e || be_TotalTokens f)
    (be_RuntimeMS e || be_RuntimeMS f)
    (be_ToolCalls e || be_ToolCalls f)
    (be_Delegations e || be_Delegations f)
    (be_CostMicrosUSD e || be_CostMicrosUSD f).

(** A limit of one dimension: [0] is no limit. *)
Definition over (limit used : Z) : bool := (0 <? limit) && (limit <? used).

Lemma over_narrow p c used :
  0 <= p -> 0 <= c -> over (narrowInt p c) used = over p used || over c used.
Proof.
  intros Hp Hc. unfold over, narrowInt.
  destruct (Z.eqb_spec p 0), (Z.eqb_spec c 0), (Z.ltb_spec c p); subst; simpl;
    repeat match goal with |- context [Z.ltb ?a ?b] => destruct (Z.ltb_spec a b) end;
    simpl; auto; lia.
Qed.

Lemma narrowInt_comm p c : narrowInt p c = narrowInt c p.
Proof.
  unfold narrowInt. destruct (Z.eqb_spec p 0), (Z.eqb_spec c 0),
    (Z.ltb_spec c p), (Z.ltb_spec p c); lia.
Qed.

Lemma narrowInt_assoc a b c :
  0 <= a -> 0 <= b -> 0 <= c ->
  narrowInt a (narrowInt b c) = narrowInt (narrowInt a b) c.
Proof.
  intros. unfold narrowInt.
  destruct (Z.eqb_spec a 0), (Z.eqb_spec b 0), (Z.eqb_spec c 0);
    destruct (Z.ltb_spec c b), (Z.ltb_spec b a);
    repeat match goal with
    | |- context [Z.eqb ?x ?y] => destruct (Z.eqb_spec x y); try lia
    | |- context [Z.ltb ?x ?y] => destruct (Z.ltb_spec x y); try lia
    end; lia.
Qed.

Lemma narrowInt_nonneg p c : 0 <= p -> 0 <= c -> 0 <= narrowInt p c.
Proof. unfold narrowInt. intros. repeat case_if; lia. Qed.

(** Every limit is non-negative: what [Validate] checks first. *)
Definition nonneg_budget (b : TaskBudget) : Prop :=
  0 <= tb_MaxPromptTokens b /\ 0 <= tb_MaxCompletionTokens b /\ 0 <= tb_MaxTotalTokens b /\ 0 <= tb_MaxRuntimeMS b
  /\ 0 <= tb_MaxToolCalls b /\ 0 <= tb_MaxDelegations b /\ 0 <= tb_MaxCostMicrosUSD b.

Lemma Validate_nonneg b : TaskBudget_Validate b = None -> nonneg_budget b.
Proof.
  unfold TaskBudget_Validate. rewrite first_error_None, !Forall_cons, !error_if_None.
  intros H. unfold nonneg_budget. rewrite !Z.ltb_ge in H. tauto.
Qed.

Lemma CheckUsage_over b u :
  TaskBudget_CheckUsage b u =
  mkBudgetExceeded
    (over (tb_MaxPromptTokens b) (tu_PromptTokens u))
    (over (tb_MaxCompletionTokens b) (tu_CompletionTokens u))
    (over (tb_MaxTotalTokens b) (tu_TotalTokens u))
    (over (tb_MaxRuntimeMS b) (tu_WallClockMS u))
    (over (tb_MaxToolCalls b) (tu_ToolCalls u))
    (over (tb_MaxDelegations b) (tu_Delegations u))
    (over (tb_MaxCostMicrosUSD b) (tu_CostMicrosUSD u)).
Proof. reflexivity. Qed.

Lemma remaining_positive limit used :
  int64_range limit -> 0 <= used -> used < limit -> remaining limit used = limit - used.
Proof.
  unfold int64_range. intros. unfold remaining.
  rewrite sub64_small by (unfold int64_range; lia).
  destruct (Z.eqb_spec limit 0); [lia|]. destruct (Z.ltb_spec (limit - used) 0); lia.
Qed.

Lemma remaining_exhausted limit used :
  0 <= limit -> limit <= used -> int64_range used -> remaining limit used = 0.
Proof.
  unfold int64_range. intros. unfold remaining.
  destruct (Z.eqb_spec limit 0); [done|].
  rewrite sub64_small by (unfold int64_range; lia).
  destruct (Z.ltb_spec (limit - used) 0); lia.
Qed.

(** *** One dimension: what is left over *)

(** Spending [v] more is over what is left after [u] exactly when [u + v] is over
    the limit, as long as a limited dimension has something left. *)
Lemma over_remaining limit u v :
  0 <= limit -> int64_range limit -> 0 <= u -> (limit = 0 \/ u < limit) ->
  over (remaining limit u) v = over limit (u + v).
Proof.
  intros Hl Hr Hu [->|Hlt]; [done|].
  rewrite remaining_positive by done. unfold over.
  destruct (Z.ltb_spec 0 (limit - u)), (Z.ltb_spec 0 limit), (Z.ltb_spec (limit - u) v),
    (Z.ltb_spec limit (u + v)); cbn; lia.
Qed.

(** [each_dimension P b u v] states [P] of the limit and the two measurements of every
    dimension. *)
Definition each_dimension (P : Z -> Z -> Z -> Prop) (b : TaskBudget) (u v : TaskUsage) : Prop :=
  P (tb_MaxPromptTokens b) (tu_PromptTokens u) (tu_PromptTokens v)
  /\ P (tb_MaxCompletionTokens b) (tu_CompletionTokens u) (tu_CompletionTokens v)
  /\ P (tb_MaxTotalTokens b) (tu_TotalTokens u) (tu_TotalTokens v)
  /\ P (tb_MaxRuntimeMS b) (tu_WallClockMS u) (tu_WallClockMS v)
  /\ P (tb_MaxToolCalls b) (tu_ToolCalls u) (tu_ToolCalls v)
  /\ P (tb_MaxDelegations b) (tu_Delegations u) (tu_Delegations v)
  /\ P (tb_MaxCostMicrosUSD b) (tu_CostMicrosUSD u) (tu_CostMicrosUSD v).

(** Something is left in a limited dimension, and no sum leaves the 64 bits. *)
Definition has_room (limit u v : Z) : Prop :=
  0 <= limit < 2 ^ 63 /\ 0 <= u /\ 0 <= v /\ u + v < 2 ^ 63 /\ (limit = 0 \/ u < limit).

Lemma over_remaining_add limit u v :
  has_room limit u v -> over (remaining limit u) v = over limit (add64 u v).
Proof.
  intros (Hl & Hu & Hv & Hs & Hr).
  rewrite add64_small by (unfold int64_range; lia).
  apply over_remaining; unfold int64_range; lia.
Qed.

Lemma CheckUsage_narrow p c u :
  nonneg_budget p -> nonneg_budget c ->
  TaskBudget_CheckUsage (TaskBudget_Narrow p c) u
  = exceeded_or (TaskBudget_CheckUsage p u) (TaskBudget_CheckUsage c u).
Proof.
  unfold nonneg_budget. intros Hp Hc. decompose [and] Hp. decompose [and] Hc.
  rewrite !CheckUsage_over. unfold exceeded_or; cbn.
  change narrowInt64 with narrowInt. by rewrite !over_narrow.
Qed.

Lemma CheckUsage_remaining b u v :
  each_dimension has_room b u v ->
  TaskBudget_CheckUsage (TaskBudget_Remaining b u) v
  = TaskBudget_CheckUsage b (TaskUsage_Add u v).
Proof.
  unfold each_dimension. intros H. decompose [and] H.
  rewrite !CheckUsage_over. cbn. by rewrite !over_remaining_add.
Qed.

Lemma Narrow_comm p c : TaskBudget_Narrow p c = TaskBudget_Narrow c p.
Proof.
  unfold TaskBudget_Narrow. change narrowInt64 with narrowInt.
  f_equal; apply narrowInt_comm.
Qed.

Lemma Narrow_assoc a b c :
  nonneg_budget a -> nonneg_budget b -> nonneg_budget c ->
  TaskBudget_Narrow a (TaskBudget_Narrow b c) = TaskBudget_Narrow (TaskBudget_Narrow a b) c.
Proof.
  unfold nonneg_budget. intros Ha Hb Hc.
  decompose [and] Ha. decompose [and] Hb. decompose [and] Hc.
  unfold TaskBudget_Narrow; cbn. change narrowInt64 with narrowInt.
  f_equal; by apply narrowInt_assoc.
Qed.

(** Inheriting budgets is exact and order-independent: narrowing is
    commutative and associative, and a measurement exceeds a dimension of the
    narrowed budget exactly when it exceeds it in one of the budgets. *)
Theorem narrowed_budget_enforces_all a b c u :
  nonneg_budget a -> nonneg_budget b -> nonneg_budget c ->
  TaskBudget_Narrow a b = TaskBudget_Narrow b a
  /\ TaskBudget_Narrow a (TaskBudget_Narrow b c) = TaskBudget_Narrow (TaskBudget_Narrow a b) c
  /\ TaskBudget_CheckUsage (TaskBudget_Narrow a b) u
     = exceeded_or (TaskBudget_CheckUsage a u) (TaskBudget_CheckUsage b u).
Proof. intros. split; [apply Narrow_comm|split; [by apply Narrow_assoc|by apply CheckUsage_narrow]]. Qed.

Lemma narrowed_budget_enforces_all_witness :
  TaskBudget_CheckUsage
    (TaskBudget_Narrow (mkTaskBudget 10 0 0 0 5 0 0) (mkTaskBudget 20 7 0 0 0 0 0))
    (mkTaskUsage 15 8 0 0 6 9 0)
  = mkBudgetExceeded true true false false true false false.
Proof.
  apply (narrowed_budget_enforces_all (mkTaskBudget 10 0 0 0 5 0 0) (mkTaskBudget 20 7 0 0 0 0 0)
           zero_budget (mkTaskUsage 15 8 0 0 6 9 0)); unfold nonneg_budget; cbn; lia.
Defined.

(** A limited dimension is used up; an unlimited one stays unlimited. *)
Definition used_up (limit u v : Z) : Prop := 0 <= limit /\ limit <= u < 2 ^ 63.

Lemma Remaining_exhausted b u :
  each_dimension used_up b u zero_usage -> TaskBudget_Remaining b u = zero_budget.
Proof.
  assert (forall l x, used_up l x 0 -> remaining l x = 0) as Hz.
  { intros l x [? ?]. apply remaining_exhausted; unfold int64_range; lia. }
  unfold each_dimension. intros H. decompose [and] H.
  unfold TaskBudget_Remaining. by rewrite !Hz.
Qed.

(** Once every dimension of a budget is used up (or unlimited), [Remaining]
    returns the all-zero budget, which every check reads as "no limit at all":
    any further usage passes. *)
Theorem exhausted_budget_remains_unlimited b u :
  each_dimension used_up b u zero_usage ->
  TaskBudget_IsZero (TaskBudget_Remaining b u) = true
  /\ forall v, TaskBudget_CheckUsage (TaskBudget_Remaining b u) v = nothing_exceeded.
Proof.
  intros H. rewrite Remaining_exhausted by done. split; reflexivity.
Qed.

Lemma exhausted_budget_remains_unlimited_witness :
  TaskBudget_IsZero (TaskBudget_Remaining (mkTaskBudget 0 0 100 0 5 0 0)
                       (mkTaskUsage 0 0 120 0 5 0 0)) = true.
Proof.
  apply (exhausted_budget_remains_unlimited (mkTaskBudget 0 0 100 0 5 0 0)
           (mkTaskUsage 0 0 120 0 5 0 0)).
  unfold each_dimension, used_up; cbn; lia.
Defined.
