(* ===== verification/TaskModels.v ===== *)
(** Goals, tasks, runs and the authority attached to them:
    internal/store/state/models_tasks.go and the transition records of
    task_lifecycle.go. *)

From Stdlib Require Import String.
From stdpp Require Import base tactics decidable list gmap strings.
From S2P Require Import Prelude Enums Verification Budget.

(** ** Authority *)

Record TaskAuthority := mkTaskAuthority {
  ta_AutonomyMode : string;
  ta_Role : string;
  ta_RiskClass : string;
  ta_CanAct : bool;
  ta_CanDelegate : bool;
  ta_CanEscalate : bool;
  ta_EscalationRequired : bool;
  ta_AllowedAgents : list string;
  ta_AllowedTools : list string;
  ta_DeniedTools : list string;
  ta_MaxDelegationDepth : Z;
  ta_ApprovalMode : string
}.

#[export] Instance set_ta_AutonomyMode : Setter ta_AutonomyMode := fun v r =>
  mkTaskAuthority v (ta_Role r) (ta_RiskClass r) (ta_CanAct r) (ta_CanDelegate r)
    (ta_CanEscalate r) (ta_EscalationRequired r) (ta_AllowedAgents r) (ta_AllowedTools r)
    (ta_DeniedTools r) (ta_MaxDelegationDepth r) (ta_ApprovalMode r).
#[export] Instance set_ta_Role : Setter ta_Role := fun v r =>
  mkTaskAuthority (ta_AutonomyMode r) v (ta_RiskClass r) (ta_CanAct r) (ta_CanDelegate r)
    (ta_CanEscalate r) (ta_EscalationRequired r) (ta_AllowedAgents r) (ta_AllowedTools r)
    (ta_DeniedTools r) (ta_MaxDelegationDepth r) (ta_ApprovalMode r).
#[export] Instance set_ta_RiskClass : Setter ta_RiskClass := fun v r =>
  mkTaskAuthority (ta_AutonomyMode r) (ta_Role r) v (ta_CanAct r) (ta_CanDelegate r)
    (ta_CanEscalate r) (ta_EscalationRequired r) (ta_AllowedAgents r) (ta_AllowedTools r)
    (ta_DeniedTools r) (ta_MaxDelegationDepth r) (ta_ApprovalMode r).
#[export] Instance set_ta_CanAct : Setter ta_CanAct := fun v r =>
  mkTaskAuthority (ta_AutonomyMode r) (ta_Role r) (ta_RiskClass r) v (ta_CanDelegate r)
    (ta_CanEscalate r) (ta_EscalationRequired r) (ta_AllowedAgents r) (ta_AllowedTools r)
    (ta_DeniedTools r) (ta_MaxDelegationDepth r) (ta_ApprovalMode r).
#[export] Instance set_ta_CanDelegate : Setter ta_CanDelegate := fun v r =>
  mkTaskAuthority (ta_AutonomyMode r) (ta_Role r) (ta_RiskClass r) (ta_CanAct r) v
    (ta_CanEscalate r) (ta_EscalationRequired r) (ta_AllowedAgents r) (ta_AllowedTools r)
    (ta_DeniedTools r) (ta_MaxDelegationDepth r) (ta_ApprovalMode r).
#[export] Instance set_ta_CanEscalate : Setter ta_CanEscalate := fun v r =>
  mkTaskAuthority (ta_AutonomyMode r) (ta_Role r) (ta_RiskClass r) (ta_CanAct r)
    (ta_CanDelegate r) v (ta_EscalationRequired r) (ta_AllowedAgents r) (ta_AllowedTools r)
    (ta_DeniedTools r) (ta_MaxDelegationDepth r) (ta_ApprovalMode r).
#[export] Instance set_ta_EscalationRequired : Setter ta_EscalationRequired := fun v r =>
  mkTaskAuthority (ta_AutonomyMode r) (ta_Role r) (ta_RiskClass r) (ta_CanAct r)
    (ta_CanDelegate r) (ta_CanEscalate r) v (ta_AllowedAgents r) (ta_AllowedTools r)
    (ta_DeniedTools r) (ta_MaxDelegationDepth r) (ta_ApprovalMode r).
#[export] Instance set_ta_AllowedAgents : Setter ta_AllowedAgents := fun v r =>
  mkTaskAuthority (ta_AutonomyMode r) (ta_Role r) (ta_RiskClass r) (ta_CanAct r)
    (ta_CanDelegate r) (ta_CanEscalate r) (ta_EscalationRequired r) v (ta_AllowedTools r)
    (ta_DeniedTools r) (ta_MaxDelegationDepth r) (ta_ApprovalMode r).
#[export] Instance set_ta_AllowedTools : Setter ta_AllowedTools := fun v r =>
  mkTaskAuthority (ta_AutonomyMode r) (ta_Role r) (ta_RiskClass r) (ta_CanAct r)
    (ta_CanDelegate r) (ta_CanEscalate r) (ta_EscalationRequired r) (ta_AllowedAgents r) v
    (ta_DeniedTools r) (ta_MaxDelegationDepth r) (ta_ApprovalMode r).
#[export] Instance set_ta_DeniedTools : Setter ta_DeniedTools := fun v r =>
  mkTaskAuthority (ta_AutonomyMode r) (ta_Role r) (ta_RiskClass r) (ta_CanAct r)
    (ta_CanDelegate r) (ta_CanEscalate r) (ta_EscalationRequired r) (ta_AllowedAgents r)
    (ta_AllowedTools r) v (ta_MaxDelegationDepth r) (ta_ApprovalMode r).
#[export] Instance set_ta_MaxDelegationDepth : Setter ta_MaxDelegationDepth := fun v r =>
  mkTaskAuthority (ta_AutonomyMode r) (ta_Role r) (ta_RiskClass r) (ta_CanAct r)
    (ta_CanDelegate r) (ta_CanEscalate r) (ta_EscalationRequired r) (ta_AllowedAgents r)
    (ta_AllowedTools r) (ta_DeniedTools r) v (ta_ApprovalMode r).
#[export] Instance set_ta_ApprovalMode : Setter ta_ApprovalMode := fun v r =>
  mkTaskAuthority (ta_AutonomyMode r) (ta_Role r) (ta_RiskClass r) (ta_CanAct r)
    (ta_CanDelegate r) (ta_CanEscalate r) (ta_EscalationRequired r) (ta_AllowedAgents r)
    (ta_AllowedTools r) (ta_DeniedTools r) (ta_MaxDelegationDepth r) v.
#[export] Instance TaskAuthority_ext : RecordExt TaskAuthority (fun a b =>
  ta_AutonomyMode a = ta_AutonomyMode b /\ ta_Role a = ta_Role b /\ ta_RiskClass a =
  ta_RiskClass b /\ ta_CanAct a = ta_CanAct b /\ ta_CanDelegate a = ta_CanDelegate b /\
  ta_CanEscalate a = ta_CanEscalate b /\ ta_EscalationRequired a = ta_EscalationRequired b
  /\ ta_AllowedAgents a = ta_AllowedAgents b /\ ta_AllowedTools a = ta_AllowedTools b /\
  ta_DeniedTools a = ta_DeniedTools b /\ ta_MaxDelegationDepth a = ta_MaxDelegationDepth b
  /\ ta_ApprovalMode a = ta_ApprovalMode b).
Proof.
  intros [] []; cbn. intros H. decompose [and] H. by subst.
Qed.

Definition zero_authority : TaskAuthority :=
  mkTaskAuthority "" "" "" false false false false [] [] [] 0 "".

Definition migrateApprovalMode (legacy : string) : string :=
  go_switch (ToLower (TrimSpace legacy))
    [(["act_with_approval"; "approval"; "plan_approval"], AutonomyPlanApproval);
     (["step_approval"], AutonomyStepApproval);
     (["supervised"; "observe_only"; "recommend_only"], AutonomySupervised);
     (["autonomous"; "full"; "bounded_autonomous"; "fully_autonomous"], AutonomyFull)]
    AutonomyPlanApproval.

Definition TaskAuthority_Normalize (a : TaskAuthority) : TaskAuthority :=
  let a :=
    if (ta_AutonomyMode a ==? "") && (ta_ApprovalMode a !=? "")
    then a <| ta_AutonomyMode := migrateApprovalMode (ta_ApprovalMode a) |>
           <| ta_ApprovalMode := "" |>
    else a in
  let a :=
    if ta_AutonomyMode a !=? ""
    then a <| ta_AutonomyMode := NormalizeAutonomyMode (ta_AutonomyMode a) |> else a in
  if ta_RiskClass a !=? ""
  then a <| ta_RiskClass := NormalizeRiskClass (ta_RiskClass a) |> else a.

Definition TaskAuthority_Validate (a : TaskAuthority) : option error :=
  first_error
    [ error_if ((ta_AutonomyMode a !=? "") && negb (AutonomyMode_Valid (ta_AutonomyMode a)))
        (Errorf "invalid autonomy_mode %q" [ArgS (ta_AutonomyMode a)]);
      error_if ((ta_RiskClass a !=? "") && negb (RiskClass_Valid (ta_RiskClass a)))
        (Errorf "invalid risk_class %q" [ArgS (ta_RiskClass a)]);
      error_if (ta_MaxDelegationDepth a <? 0)
        (Errorf "max_delegation_depth must be >= 0" []) ].

Definition TaskAuthority_EffectiveAutonomyMode (a : TaskAuthority) (defaultMode : string)
  : string :=
  if ta_AutonomyMode a !=? "" then ta_AutonomyMode a else defaultMode.

Definition TaskAuthority_MayUseTool (a : TaskAuthority) (tool : string) : bool :=
  if existsb (fun denied => denied ==? tool) (ta_DeniedTools a) then false
  else if Nat.eqb (length (ta_AllowedTools a)) 0 then true
  else existsb (fun allowed => allowed ==? tool) (ta_AllowedTools a).

Definition TaskAuthority_MayDelegateTo (a : TaskAuthority) (agentID : string) : bool :=
  if negb (ta_CanDelegate a) then false
  else if Nat.eqb (length (ta_AllowedAgents a)) 0 then true
  else existsb (fun allowed => allowed ==? agentID) (ta_AllowedAgents a).

(** [DefaultAuthority]; its default clause calls it again with [AutonomyFull]. *)
Definition DefaultAuthority (mode : string) : TaskAuthority :=
  let full := zero_authority <| ta_AutonomyMode := AutonomyFull |> <| ta_CanAct := true |>
    <| ta_CanDelegate := true |> <| ta_CanEscalate := true |>
    <| ta_RiskClass := RiskClassLow |> <| ta_MaxDelegationDepth := 3 |> in
  go_switch mode
    [([AutonomySupervised],
      zero_authority <| ta_AutonomyMode := AutonomySupervised |> <| ta_CanAct := false |>
        <| ta_CanDelegate := false |> <| ta_CanEscalate := true |>
        <| ta_EscalationRequired := true |> <| ta_RiskClass := RiskClassHigh |>);
     ([AutonomyStepApproval],
      zero_authority <| ta_AutonomyMode := AutonomyStepApproval |> <| ta_CanAct := true |>
        <| ta_CanDelegate := false |> <| ta_CanEscalate := true |>
        <| ta_RiskClass := RiskClassMedium |> <| ta_MaxDelegationDepth := 1 |>);
     ([AutonomyPlanApproval],
      zero_authority <| ta_AutonomyMode := AutonomyPlanApproval |> <| ta_CanAct := true |>
        <| ta_CanDelegate := true |> <| ta_CanEscalate := true |>
        <| ta_RiskClass := RiskClassMedium |> <| ta_MaxDelegationDepth := 2 |>);
     ([AutonomyFull], full)]
    full.

(** ** Outputs, acceptance criteria, results *)

Record TaskOutputSpec := mkTaskOutputSpec {
  os_Name : string;
  os_Description : string;
  os_Format : string;
  os_SchemaRef : string;
  os_Required : bool
}.

Record TaskAcceptanceCriterion := mkTaskAcceptanceCriterion {
  ac_Type : string;
  ac_Description : string;
  ac_Required : bool
}.

Record TaskResultRef := mkTaskResultRef {
  rr_Kind : string;
  rr_ID : string;
  rr_URI : string;
  rr_Hash : string
}.


(** ** Goals *)

Record GoalSpec := mkGoalSpec {
  gs_Version : Z;
  gs_GoalID : string;
  gs_Title : string;
  gs_Instructions : string;
  gs_RequestedBy : string;
  gs_SessionID : string;
  gs_Status : string;
  gs_Priority : string;
  gs_Constraints : list string;
  gs_SuccessCriteria : list string;
  gs_Authority : TaskAuthority;
  gs_Budget : TaskBudget;
  gs_CreatedAt : Z;
  gs_UpdatedAt : Z;
  gs_Meta : gomap any
}.

#[export] Instance set_gs_Version : Setter gs_Version := fun v r =>
  mkGoalSpec v (gs_GoalID r) (gs_Title r) (gs_Instructions r) (gs_RequestedBy r) (gs_SessionID
    r) (gs_Status r) (gs_Priority r) (gs_Constraints r) (gs_SuccessCriteria r) (gs_Authority r)
    (gs_Budget r) (gs_CreatedAt r) (gs_UpdatedAt r) (gs_Meta r).
#[export] Instance set_gs_Status : Setter gs_Status := fun v r =>
  mkGoalSpec (gs_Version r) (gs_GoalID r) (gs_Title r) (gs_Instructions r) (gs_RequestedBy r)
    (gs_SessionID r) v (gs_Priority r) (gs_Constraints r) (gs_SuccessCriteria r) (gs_Authority
    r) (gs_Budget r) (gs_CreatedAt r) (gs_UpdatedAt r) (gs_Meta r).
#[export] Instance set_gs_Priority : Setter gs_Priority := fun v r =>
  mkGoalSpec (gs_Version r) (gs_GoalID r) (gs_Title r) (gs_Instructions r) (gs_RequestedBy r)
    (gs_SessionID r) (gs_Status r) v (gs_Constraints r) (gs_SuccessCriteria r) (gs_Authority r)
    (gs_Budget r) (gs_CreatedAt r) (gs_UpdatedAt r) (gs_Meta r).
#[export] Instance GoalSpec_ext : RecordExt GoalSpec (fun a b =>
  gs_Version a = gs_Version b /\ gs_GoalID a = gs_GoalID b /\ gs_Title a = gs_Title b /\
  gs_Instructions a = gs_Instructions b /\ gs_RequestedBy a = gs_RequestedBy b /\
  gs_SessionID a = gs_SessionID b /\ gs_Status a = gs_Status b /\ gs_Priority a =
  gs_Priority b /\ gs_Constraints a = gs_Constraints b /\ gs_SuccessCriteria a =
  gs_SuccessCriteria b /\ gs_Authority a = gs_Authority b /\ gs_Budget a = gs_Budget b /\
  gs_CreatedAt a = gs_CreatedAt b /\ gs_UpdatedAt a = gs_UpdatedAt b /\ gs_Meta a =
  gs_Meta b).
Proof.
  intros [] []; cbn. intros H. decompose [and] H. by subst.
Qed.

Definition GoalSpec_Normalize (g : GoalSpec) : GoalSpec :=
  let g := if gs_Version g =? 0 then g <| gs_Version := 1 |> else g in
  let g := if negb (GoalStatus_Valid (gs_Status g))
           then g <| gs_Status := GoalStatusPending |> else g in
  if blank (gs_Priority g) then g <| gs_Priority := TaskPriorityMedium |>
  else if negb (TaskPriority_Valid (gs_Priority g))
  then g <| gs_Priority := TaskPriorityMedium |> else g.

Definition GoalSpec_Validate (g : GoalSpec) : option error :=
  first_error
    [ error_if (blank (gs_GoalID g)) (Errorf "goal_id is required" []);
      error_if (blank (gs_Title g)) (Errorf "title is required" []);
      error_if (negb (blank (gs_Status g)) && negb (GoalStatus_Valid (gs_Status g)))
        (Errorf "invalid goal status %q" [ArgS (gs_Status g)]);
      error_if (negb (blank (gs_Priority g)) && negb (TaskPriority_Valid (gs_Priority g)))
        (Errorf "invalid goal priority %q" [ArgS (gs_Priority g)]) ].

(** ** Tasks *)

Record TaskTransition := mkTaskTransition {
  tt_From : string;
  tt_To : string;
  tt_At : Z;
  tt_Actor : string;
  tt_Source : string;
  tt_Reason : string;
  tt_Meta : gomap any
}.

#[export] Instance set_tt_Meta : Setter tt_Meta := fun v r =>
  mkTaskTransition (tt_From r) (tt_To r) (tt_At r) (tt_Actor r) (tt_Source r) (tt_Reason r) v.

Record TaskSpec := mkTaskSpec {
  ts_Version : Z;
  ts_TaskID : string;
  ts_GoalID : string;
  ts_ParentTaskID : string;
  ts_PlanID : string;
  ts_SessionID : string;
  ts_Title : string;
  ts_Instructions : string;
  ts_Inputs : gomap any;
  ts_ExpectedOutputs : list TaskOutputSpec;
  ts_AcceptanceCriteria : list TaskAcceptanceCriterion;
  ts_Dependencies : list string;
  ts_AssignedAgent : string;
  ts_CurrentRunID : string;
  ts_LastRunID : string;
  ts_Status : string;
  ts_Priority : string;
  ts_Authority : TaskAuthority;
  ts_MemoryScope : string;
  ts_ToolProfile : string;
  ts_EnabledTools : list string;
  ts_Budget : TaskBudget;
  ts_Verification : VerificationSpec;
  ts_CreatedAt : Z;
  ts_UpdatedAt : Z;
  ts_Transitions : list TaskTransition;
  ts_Meta : gomap any
}.

#[export] Instance set_ts_Version : Setter ts_Version := fun v r =>
  mkTaskSpec v (ts_TaskID r) (ts_GoalID r) (ts_ParentTaskID r) (ts_PlanID r) (ts_SessionID r)
    (ts_Title r) (ts_Instructions r) (ts_Inputs r) (ts_ExpectedOutputs r)
    (ts_AcceptanceCriteria r) (ts_Dependencies r) (ts_AssignedAgent r) (ts_CurrentRunID r)
    (ts_LastRunID r) (ts_Status r) (ts_Priority r) (ts_Authority r) (ts_MemoryScope r)
    (ts_ToolProfile r) (ts_EnabledTools r) (ts_Budget r) (ts_Verification r) (ts_CreatedAt r)
    (ts_UpdatedAt r) (ts_Transitions r) (ts_Meta r).
#[export] Instance set_ts_TaskID : Setter ts_TaskID := fun v r =>
  mkTaskSpec (ts_Version r) v (ts_GoalID r) (ts_ParentTaskID r) (ts_PlanID r) (ts_SessionID r)
    (ts_Title r) (ts_Instructions r) (ts_Inputs r) (ts_ExpectedOutputs r)
    (ts_AcceptanceCriteria r) (ts_Dependencies r) (ts_AssignedAgent r) (ts_CurrentRunID r)
    (ts_LastRunID r) (ts_Status r) (ts_Priority r) (ts_Authority r) (ts_MemoryScope r)
    (ts_ToolProfile r) (ts_EnabledTools r) (ts_Budget r) (ts_Verification r) (ts_CreatedAt r)
    (ts_UpdatedAt r) (ts_Transitions r) (ts_Meta r).
#[export] Instance set_ts_GoalID : Setter ts_GoalID := fun v r =>
  mkTaskSpec (ts_Version r) (ts_TaskID r) v (ts_ParentTaskID r) (ts_PlanID r) (ts_SessionID r)
    (ts_Title r) (ts_Instructions r) (ts_Inputs r) (ts_ExpectedOutputs r)
    (ts_AcceptanceCriteria r) (ts_Dependencies r) (ts_AssignedAgent r) (ts_CurrentRunID r)
    (ts_LastRunID r) (ts_Status r) (ts_Priority r) (ts_Authority r) (ts_MemoryScope r)
    (ts_ToolProfile r) (ts_EnabledTools r) (ts_Budget r) (ts_Verification r) (ts_CreatedAt r)
    (ts_UpdatedAt r) (ts_Transitions r) (ts_Meta r).
#[export] Instance set_ts_ParentTaskID : Setter ts_ParentTaskID := fun v r =>
  mkTaskSpec (ts_Version r) (ts_TaskID r) (ts_GoalID r) v (ts_PlanID r) (ts_SessionID r)
    (ts_Title r) (ts_Instructions r) (ts_Inputs r) (ts_ExpectedOutputs r)
    (ts_AcceptanceCriteria r) (ts_Dependencies r) (ts_AssignedAgent r) (ts_CurrentRunID r)
    (ts_LastRunID r) (ts_Status r) (ts_Priority r) (ts_Authority r) (ts_MemoryScope r)
    (ts_ToolProfile r) (ts_EnabledTools r) (ts_Budget r) (ts_Verification r) (ts_CreatedAt r)
    (ts_UpdatedAt r) (ts_Transitions r) (ts_Meta r).
#[export] Instance set_ts_PlanID : Setter ts_PlanID := fun v r =>
  mkTaskSpec (ts_Version r) (ts_TaskID r) (ts_GoalID r) (ts_ParentTaskID r) v (ts_SessionID r)
    (ts_Title r) (ts_Instructions r) (ts_Inputs r) (ts_ExpectedOutputs r)
    (ts_AcceptanceCriteria r) (ts_Dependencies r) (ts_AssignedAgent r) (ts_CurrentRunID r)
    (ts_LastRunID r) (ts_Status r) (ts_Priority r) (ts_Authority r) (ts_MemoryScope r)
    (ts_ToolProfile r) (ts_EnabledTools r) (ts_Budget r) (ts_Verification r) (ts_CreatedAt r)
    (ts_UpdatedAt r) (ts_Transitions r) (ts_Meta r).
#[export] Instance set_ts_SessionID : Setter ts_SessionID := fun v r =>
  mkTaskSpec (ts_Version r) (ts_TaskID r) (ts_GoalID r) (ts_ParentTaskID r) (ts_PlanID r) v
    (ts_Title r) (ts_Instructions r) (ts_Inputs r) (ts_ExpectedOutputs r)
    (ts_AcceptanceCriteria r) (ts_Dependencies r) (ts_AssignedAgent r) (ts_CurrentRunID r)
    (ts_LastRunID r) (ts_Status r) (ts_Priority r) (ts_Authority r) (ts_MemoryScope r)
    (ts_ToolProfile r) (ts_EnabledTools r) (ts_Budget r) (ts_Verification r) (ts_CreatedAt r)
    (ts_UpdatedAt r) (ts_Transitions r) (ts_Meta r).
#[export] Instance set_ts_Title : Setter ts_Title := fun v r =>
  mkTaskSpec (ts_Version r) (ts_TaskID r) (ts_GoalID r) (ts_ParentTaskID r) (ts_PlanID r)
    (ts_SessionID r) v (ts_Instructions r) (ts_Inputs r) (ts_ExpectedOutputs r)
    (ts_AcceptanceCriteria r) (ts_Dependencies r) (ts_AssignedAgent r) (ts_CurrentRunID r)
    (ts_LastRunID r) (ts_Status r) (ts_Priority r) (ts_Authority r) (ts_MemoryScope r)
    (ts_ToolProfile r) (ts_EnabledTools r) (ts_Budget r) (ts_Verification r) (ts_CreatedAt r)
    (ts_UpdatedAt r) (ts_Transitions r) (ts_Meta r).
#[export] Instance set_ts_Instructions : Setter ts_Instructions := fun v r =>
  mkTaskSpec (ts_Version r) (ts_TaskID r) (ts_GoalID r) (ts_ParentTaskID r) (ts_PlanID r)
    (ts_SessionID r) (ts_Title r) v (ts_Inputs r) (ts_ExpectedOutputs r) (ts_AcceptanceCriteria
    r) (ts_Dependencies r) (ts_AssignedAgent r) (ts_CurrentRunID r) (ts_LastRunID r) (ts_Status
    r) (ts_Priority r) (ts_Authority r) (ts_MemoryScope r) (ts_ToolProfile r) (ts_EnabledTools
    r) (ts_Budget r) (ts_Verification r) (ts_CreatedAt r) (ts_UpdatedAt r) (ts_Transitions r)
    (ts_Meta r).
#[export] Instance set_ts_Inputs : Setter ts_Inputs := fun v r =>
  mkTaskSpec (ts_Version r) (ts_TaskID r) (ts_GoalID r) (ts_ParentTaskID r) (ts_PlanID r)
    (ts_SessionID r) (ts_Title r) (ts_Instructions r) v (ts_ExpectedOutputs r)
    (ts_AcceptanceCriteria r) (ts_Dependencies r) (ts_AssignedAgent r) (ts_CurrentRunID r)
    (ts_LastRunID r) (ts_Status r) (ts_Priority r) (ts_Authority r) (ts_MemoryScope r)
    (ts_ToolProfile r) (ts_EnabledTools r) (ts_Budget r) (ts_Verification r) (ts_CreatedAt r)
    (ts_UpdatedAt r) (ts_Transitions r) (ts_Meta r).
#[export] Instance set_ts_ExpectedOutputs : Setter ts_ExpectedOutputs := fun v r =>
  mkTaskSpec (ts_Version r) (ts_TaskID r) (ts_GoalID r) (ts_ParentTaskID r) (ts_PlanID r)
    (ts_SessionID r) (ts_Title r) (ts_Instructions r) (ts_Inputs r) v (ts_AcceptanceCriteria r)
    (ts_Dependencies r) (ts_AssignedAgent r) (ts_CurrentRunID r) (ts_LastRunID r) (ts_Status r)
    (ts_Priority r) (ts_Authority r) (ts_MemoryScope r) (ts_ToolProfile r) (ts_EnabledTools r)
    (ts_Budget r) (ts_Verification r) (ts_CreatedAt r) (ts_UpdatedAt r) (ts_Transitions r)
    (ts_Meta r).
#[export] Instance set_ts_AcceptanceCriteria : Setter ts_AcceptanceCriteria := fun v r =>
  mkTaskSpec (ts_Version r) (ts_TaskID r) (ts_GoalID r) (ts_ParentTaskID r) (ts_PlanID r)
    (ts_SessionID r) (ts_Title r) (ts_Instructions r) (ts_Inputs r) (ts_ExpectedOutputs r) v
    (ts_Dependencies r) (ts_AssignedAgent r) (ts_CurrentRunID r) (ts_LastRunID r) (ts_Status r)
    (ts_Priority r) (ts_Authority r) (ts_MemoryScope r) (ts_ToolProfile r) (ts_EnabledTools r)
    (ts_Budget r) (ts_Verification r) (ts_CreatedAt r) (ts_UpdatedAt r) (ts_Transitions r)
    (ts_Meta r).
#[export] Instance set_ts_Dependencies : Setter ts_Dependencies := fun v r =>
  mkTaskSpec (ts_Version r) (ts_TaskID r) (ts_GoalID r) (ts_ParentTaskID r) (ts_PlanID r)
    (ts_SessionID r) (ts_Title r) (ts_Instructions r) (ts_Inputs r) (ts_ExpectedOutputs r)
    (ts_AcceptanceCriteria r) v (ts_AssignedAgent r) (ts_CurrentRunID r) (ts_LastRunID r)
    (ts_Status r) (ts_Priority r) (ts_Authority r) (ts_MemoryScope r) (ts_ToolProfile r)
    (ts_EnabledTools r) (ts_Budget r) (ts_Verification r) (ts_CreatedAt r) (ts_UpdatedAt r)
    (ts_Transitions r) (ts_Meta r).
#[export] Instance set_ts_AssignedAgent : Setter ts_AssignedAgent := fun v r =>
  mkTaskSpec (ts_Version r) (ts_TaskID r) (ts_GoalID r) (ts_ParentTaskID r) (ts_PlanID r)
    (ts_SessionID r) (ts_Title r) (ts_Instructions r) (ts_Inputs r) (ts_ExpectedOutputs r)
    (ts_AcceptanceCriteria r) (ts_Dependencies r) v (ts_CurrentRunID r) (ts_LastRunID r)
    (ts_Status r) (ts_Priority r) (ts_Authority r) (ts_MemoryScope r) (ts_ToolProfile r)
    (ts_EnabledTools r) (ts_Budget r) (ts_Verification r) (ts_CreatedAt r) (ts_UpdatedAt r)
    (ts_Transitions r) (ts_Meta r).
#[export] Instance set_ts_CurrentRunID : Setter ts_CurrentRunID := fun v r =>
  mkTaskSpec (ts_Version r) (ts_TaskID r) (ts_GoalID r) (ts_ParentTaskID r) (ts_PlanID r)
    (ts_SessionID r) (ts_Title r) (ts_Instructions r) (ts_Inputs r) (ts_ExpectedOutputs r)
    (ts_AcceptanceCriteria r) (ts_Dependencies r) (ts_AssignedAgent r) v (ts_LastRunID r)
    (ts_Status r) (ts_Priority r) (ts_Authority r) (ts_MemoryScope r) (ts_ToolProfile r)
    (ts_EnabledTools r) (ts_Budget r) (ts_Verification r) (ts_CreatedAt r) (ts_UpdatedAt r)
    (ts_Transitions r) (ts_Meta r).
#[export] Instance set_ts_LastRunID : Setter ts_LastRunID := fun v r =>
  mkTaskSpec (ts_Version r) (ts_TaskID r) (ts_GoalID r) (ts_ParentTaskID r) (ts_PlanID r)
    (ts_SessionID r) (ts_Title r) (ts_Instructions r) (ts_Inputs r) (ts_ExpectedOutputs r)
    (ts_AcceptanceCriteria r) (ts_Dependencies r) (ts_AssignedAgent r) (ts_CurrentRunID r) v
    (ts_Status r) (ts_Priority r) (ts_Authority r) (ts_MemoryScope r) (ts_ToolProfile r)
    (ts_EnabledTools r) (ts_Budget r) (ts_Verification r) (ts_CreatedAt r) (ts_UpdatedAt r)
    (ts_Transitions r) (ts_Meta r).
#[export] Instance set_ts_Status : Setter ts_Status := fun v r =>
  mkTaskSpec (ts_Version r) (ts_TaskID r) (ts_GoalID r) (ts_ParentTaskID r) (ts_PlanID r)
    (ts_SessionID r) (ts_Title r) (ts_Instructions r) (ts_Inputs r) (ts_ExpectedOutputs r)
    (ts_AcceptanceCriteria r) (ts_Dependencies r) (ts_AssignedAgent r) (ts_CurrentRunID r)
    (ts_LastRunID r) v (ts_Priority r) (ts_Authority r) (ts_MemoryScope r) (ts_ToolProfile r)
    (ts_EnabledTools r) (ts_Budget r) (ts_Verification r) (ts_CreatedAt r) (ts_UpdatedAt r)
    (ts_Transitions r) (ts_Meta r).
#[export] Instance set_ts_Priority : Setter ts_Priority := fun v r =>
  mkTaskSpec (ts_Version r) (ts_TaskID r) (ts_GoalID r) (ts_ParentTaskID r) (ts_PlanID r)
    (ts_SessionID r) (ts_Title r) (ts_Instructions r) (ts_Inputs r) (ts_ExpectedOutputs r)
    (ts_AcceptanceCriteria r) (ts_Dependencies r) (ts_AssignedAgent r) (ts_CurrentRunID r)
    (ts_LastRunID r) (ts_Status r) v (ts_Authority r) (ts_MemoryScope r) (ts_ToolProfile r)
    (ts_EnabledTools r) (ts_Budget r) (ts_Verification r) (ts_CreatedAt r) (ts_UpdatedAt r)
    (ts_Transitions r) (ts_Meta r).
#[export] Instance set_ts_Authority : Setter ts_Authority := fun v r =>
  mkTaskSpec (ts_Version r) (ts_TaskID r) (ts_GoalID r) (ts_ParentTaskID r) (ts_PlanID r)
    (ts_SessionID r) (ts_Title r) (ts_Instructions r) (ts_Inputs r) (ts_ExpectedOutputs r)
    (ts_AcceptanceCriteria r) (ts_Dependencies r) (ts_AssignedAgent r) (ts_CurrentRunID r)
    (ts_LastRunID r) (ts_Status r) (ts_Priority r) v (ts_MemoryScope r) (ts_ToolProfile r)
    (ts_EnabledTools r) (ts_Budget r) (ts_Verification r) (ts_CreatedAt r) (ts_UpdatedAt r)
    (ts_Transitions r) (ts_Meta r).
#[export] Instance set_ts_MemoryScope : Setter ts_MemoryScope := fun v r =>
  mkTaskSpec (ts_Version r) (ts_TaskID r) (ts_GoalID r) (ts_ParentTaskID r) (ts_PlanID r)
    (ts_SessionID r) (ts_Title r) (ts_Instructions r) (ts_Inputs r) (ts_ExpectedOutputs r)
    (ts_AcceptanceCriteria r) (ts_Dependencies r) (ts_AssignedAgent r) (ts_CurrentRunID r)
    (ts_LastRunID r) (ts_Status r) (ts_Priority r) (ts_Authority r) v (ts_ToolProfile r)
    (ts_EnabledTools r) (ts_Budget r) (ts_Verification r) (ts_CreatedAt r) (ts_UpdatedAt r)
    (ts_Transitions r) (ts_Meta r).
#[export] Instance set_ts_ToolProfile : Setter ts_ToolProfile := fun v r =>
  mkTaskSpec (ts_Version r) (ts_TaskID r) (ts_GoalID r) (ts_ParentTaskID r) (ts_PlanID r)
    (ts_SessionID r) (ts_Title r) (ts_Instructions r) (ts_Inputs r) (ts_ExpectedOutputs r)
    (ts_AcceptanceCriteria r) (ts_Dependencies r) (ts_AssignedAgent r) (ts_CurrentRunID r)
    (ts_LastRunID r) (ts_Status r) (ts_Priority r) (ts_Authority r) (ts_MemoryScope r) v
    (ts_EnabledTools r) (ts_Budget r) (ts_Verification r) (ts_CreatedAt r) (ts_UpdatedAt r)
    (ts_Transitions r) (ts_Meta r).
#[export] Instance set_ts_EnabledTools : Setter ts_EnabledTools := fun v r =>
  mkTaskSpec (ts_Version r) (ts_TaskID r) (ts_GoalID r) (ts_ParentTaskID r) (ts_PlanID r)
    (ts_SessionID r) (ts_Title r) (ts_Instructions r) (ts_Inputs r) (ts_ExpectedOutputs r)
    (ts_AcceptanceCriteria r) (ts_Dependencies r) (ts_AssignedAgent r) (ts_CurrentRunID r)
    (ts_LastRunID r) (ts_Status r) (ts_Priority r) (ts_Authority r) (ts_MemoryScope r)
    (ts_ToolProfile r) v (ts_Budget r) (ts_Verification r) (ts_CreatedAt r) (ts_UpdatedAt r)
    (ts_Transitions r) (ts_Meta r).
#[export] Instance set_ts_Budget : Setter ts_Budget := fun v r =>
  mkTaskSpec (ts_Version r) (ts_TaskID r) (ts_GoalID r) (ts_ParentTaskID r) (ts_PlanID r)
    (ts_SessionID r) (ts_Title r) (ts_Instructions r) (ts_Inputs r) (ts_ExpectedOutputs r)
    (ts_AcceptanceCriteria r) (ts_Dependencies r) (ts_AssignedAgent r) (ts_CurrentRunID r)
    (ts_LastRunID r) (ts_Status r) (ts_Priority r) (ts_Authority r) (ts_MemoryScope r)
    (ts_ToolProfile r) (ts_EnabledTools r) v (ts_Verification r) (ts_CreatedAt r) (ts_UpdatedAt
    r) (ts_Transitions r) (ts_Meta r).
#[export] Instance set_ts_Verification : Setter ts_Verification := fun v r =>
  mkTaskSpec (ts_Version r) (ts_TaskID r) (ts_GoalID r) (ts_ParentTaskID r) (ts_PlanID r)
    (ts_SessionID r) (ts_Title r) (ts_Instructions r) (ts_Inputs r) (ts_ExpectedOutputs r)
    (ts_AcceptanceCriteria r) (ts_Dependencies r) (ts_AssignedAgent r) (ts_CurrentRunID r)
    (ts_LastRunID r) (ts_Status r) (ts_Priority r) (ts_Authority r) (ts_MemoryScope r)
    (ts_ToolProfile r) (ts_EnabledTools r) (ts_Budget r) v (ts_CreatedAt r) (ts_UpdatedAt r)
    (ts_Transitions r) (ts_Meta r).
#[export] Instance set_ts_CreatedAt : Setter ts_CreatedAt := fun v r =>
  mkTaskSpec (ts_Version r) (ts_TaskID r) (ts_GoalID r) (ts_ParentTaskID r) (ts_PlanID r)
    (ts_SessionID r) (ts_Title r) (ts_Instructions r) (ts_Inputs r) (ts_ExpectedOutputs r)
    (ts_AcceptanceCriteria r) (ts_Dependencies r) (ts_AssignedAgent r) (ts_CurrentRunID r)
    (ts_LastRunID r) (ts_Status r) (ts_Priority r) (ts_Authority r) (ts_MemoryScope r)
    (ts_ToolProfile r) (ts_EnabledTools r) (ts_Budget r) (ts_Verification r) v (ts_UpdatedAt r)
    (ts_Transitions r) (ts_Meta r).
#[export] Instance set_ts_UpdatedAt : Setter ts_UpdatedAt := fun v r =>
  mkTaskSpec (ts_Version r) (ts_TaskID r) (ts_GoalID r) (ts_ParentTaskID r) (ts_PlanID r)
    (ts_SessionID r) (ts_Title r) (ts_Instructions r) (ts_Inputs r) (ts_ExpectedOutputs r)
    (ts_AcceptanceCriteria r) (ts_Dependencies r) (ts_AssignedAgent r) (ts_CurrentRunID r)
    (ts_LastRunID r) (ts_Status r) (ts_Priority r) (ts_Authority r) (ts_MemoryScope r)
    (ts_ToolProfile r) (ts_EnabledTools r) (ts_Budget r) (ts_Verification r) (ts_CreatedAt r) v
    (ts_Transitions r) (ts_Meta r).
#[export] Instance set_ts_Transitions : Setter ts_Transitions := fun v r =>
  mkTaskSpec (ts_Version r) (ts_TaskID r) (ts_GoalID r) (ts_ParentTaskID r) (ts_PlanID r)
    (ts_SessionID r) (ts_Title r) (ts_Instructions r) (ts_Inputs r) (ts_ExpectedOutputs r)
    (ts_AcceptanceCriteria r) (ts_Dependencies r) (ts_AssignedAgent r) (ts_CurrentRunID r)
    (ts_LastRunID r) (ts_Status r) (ts_Priority r) (ts_Authority r) (ts_MemoryScope r)
    (ts_ToolProfile r) (ts_EnabledTools r) (ts_Budget r) (ts_Verification r) (ts_CreatedAt r)
    (ts_UpdatedAt r) v (ts_Meta r).
#[export] Instance set_ts_Meta : Setter ts_Meta := fun v r =>
  mkTaskSpec (ts_Version r) (ts_TaskID r) (ts_GoalID r) (ts_ParentTaskID r) (ts_PlanID r)
    (ts_SessionID r) (ts_Title r) (ts_Instructions r) (ts_Inputs r) (ts_ExpectedOutputs r)
    (ts_AcceptanceCriteria r) (ts_Dependencies r) (ts_AssignedAgent r) (ts_CurrentRunID r)
    (ts_LastRunID r) (ts_Status r) (ts_Priority r) (ts_Authority r) (ts_MemoryScope r)
    (ts_ToolProfile r) (ts_EnabledTools r) (ts_Budget r) (ts_Verification r) (ts_CreatedAt r)
    (ts_UpdatedAt r) (ts_Transitions r) v.
#[export] Instance TaskSpec_ext : RecordExt TaskSpec (fun a b =>
  ts_Version a = ts_Version b /\ ts_TaskID a = ts_TaskID b /\ ts_GoalID a = ts_GoalID b /\
  ts_ParentTaskID a = ts_ParentTaskID b /\ ts_PlanID a = ts_PlanID b /\ ts_SessionID a =
  ts_SessionID b /\ ts_Title a = ts_Title b /\ ts_Instructions a = ts_Instructions b /\
  ts_Inputs a = ts_Inputs b /\ ts_ExpectedOutputs a = ts_ExpectedOutputs b /\
  ts_AcceptanceCriteria a = ts_AcceptanceCriteria b /\ ts_Dependencies a = ts_Dependencies
  b /\ ts_AssignedAgent a = ts_AssignedAgent b /\ ts_CurrentRunID a = ts_CurrentRunID b /\
  ts_LastRunID a = ts_LastRunID b /\ ts_Status a = ts_Status b /\ ts_Priority a =
  ts_Priority b /\ ts_Authority a = ts_Authority b /\ ts_MemoryScope a = ts_MemoryScope b
  /\ ts_ToolProfile a = ts_ToolProfile b /\ ts_EnabledTools a = ts_EnabledTools b /\
  ts_Budget a = ts_Budget b /\ ts_Verification a = ts_Verification b /\ ts_CreatedAt a =
  ts_CreatedAt b /\ ts_UpdatedAt a = ts_UpdatedAt b /\ ts_Transitions a = ts_Transitions b
  /\ ts_Meta a = ts_Meta b).
Proof.
  intros [] []; cbn. intros H. decompose [and] H. by subst.
Qed.

Definition zero_verification : VerificationSpec := mkVerificationSpec "" [] 0 "" None.

Definition zero_task : TaskSpec :=
  mkTaskSpec 0 "" "" "" "" "" "" "" None [] [] [] "" "" "" "" "" zero_authority "" "" []
    zero_budget zero_verification 0 0 [] None.

Definition TaskSpec_Normalize (t : TaskSpec) : TaskSpec :=
  let t := if ts_Version t =? 0 then t <| ts_Version := 1 |> else t in
  let t := if negb (TaskStatus_Valid (ts_Status t))
           then t <| ts_Status := TaskStatusPending |> else t in
  let t := if blank (ts_Priority t) then t <| ts_Priority := TaskPriorityMedium |>
           else if negb (TaskPriority_Valid (ts_Priority t))
           then t <| ts_Priority := TaskPriorityMedium |> else t in
  let t := if ts_MemoryScope t !=? ""
           then t <| ts_MemoryScope := NormalizeAgentMemoryScope (ts_MemoryScope t) |>
           else t in
  t <| ts_Verification := VerificationSpec_Normalize (ts_Verification t) |>.

(** The loops over [ExpectedOutputs] and [AcceptanceCriteria]: the index of the
    first blank entry. *)
Fixpoint first_blank {A} (f : A -> string) (fmt : string) (i : Z) (l : list A)
  : option error :=
  match l with
  | [] => None
  | x :: l => if blank (f x) then Some (Errorf fmt [ArgZ i]) else first_blank f fmt (i + 1) l
  end.

Definition wrap_error (fmt : string) (e : option error) : option error :=
  Wrapf fmt [] <$> e.

Definition TaskSpec_Validate (t : TaskSpec) : option error :=
  first_error
    [ error_if (blank (ts_TaskID t)) (Errorf "task_id is required" []);
      error_if (blank (ts_Title t)) (Errorf "title is required" []);
      error_if (blank (ts_Instructions t)) (Errorf "instructions are required" []);
      error_if (negb (blank (ts_Status t)) && negb (TaskStatus_Valid (ts_Status t)))
        (Errorf "invalid task status %q" [ArgS (ts_Status t)]);
      error_if (negb (blank (ts_Priority t)) && negb (TaskPriority_Valid (ts_Priority t)))
        (Errorf "invalid task priority %q" [ArgS (ts_Priority t)]);
      error_if ((ts_MemoryScope (TaskSpec_Normalize t) ==? "") && (ts_MemoryScope t !=? ""))
        (Errorf "invalid memory_scope %q" [ArgS (ts_MemoryScope t)]);
      first_blank os_Name "expected_outputs[%d].name is required" 0 (ts_ExpectedOutputs t);
      first_blank ac_Description "acceptance_criteria[%d].description is required" 0
        (ts_AcceptanceCriteria t);
      (* [Normalize] above has rewritten the checks of [t] in place *)
      wrap_error "verification: %w"
        (VerificationSpec_Validate
           ((ts_Verification t) <| vs_Checks :=
              map VerificationCheck_Normalize (vs_Checks (ts_Verification t)) |>)) ].

(** ** Runs *)

Record TaskRunTransition := mkTaskRunTransition {
  rt_From : string;
  rt_To : string;
  rt_At : Z;
  rt_Actor : string;
  rt_Source : string;
  rt_Reason : string;
  rt_Meta : gomap any
}.

Record TaskRun := mkTaskRun {
  tr_Version : Z;
  tr_RunID : string;
  tr_TaskID : string;
  tr_GoalID : string;
  tr_ParentRunID : string;
  tr_SessionID : string;
  tr_AgentID : string;
  tr_Attempt : Z;
  tr_Status : string;
  tr_StartedAt : Z;
  tr_EndedAt : Z;
  tr_Trigger : string;
  tr_CheckpointRef : string;
  tr_Result : TaskResultRef;
  tr_Error : string;
  tr_Usage : TaskUsage;
  tr_Verification : VerificationSpec;
  tr_Transitions : list TaskRunTransition;
  tr_Meta : gomap any
}.

#[export] Instance set_tr_Version : Setter tr_Version := fun v r =>
  mkTaskRun v (tr_RunID r) (tr_TaskID r) (tr_GoalID r) (tr_ParentRunID r) (tr_SessionID r)
    (tr_AgentID r) (tr_Attempt r) (tr_Status r) (tr_StartedAt r) (tr_EndedAt r) (tr_Trigger r)
    (tr_CheckpointRef r) (tr_Result r) (tr_Error r) (tr_Usage r) (tr_Verification r)
    (tr_Transitions r) (tr_Meta r).
#[export] Instance set_tr_RunID : Setter tr_RunID := fun v r =>
  mkTaskRun (tr_Version r) v (tr_TaskID r) (tr_GoalID r) (tr_ParentRunID r) (tr_SessionID r)
    (tr_AgentID r) (tr_Attempt r) (tr_Status r) (tr_StartedAt r) (tr_EndedAt r) (tr_Trigger r)
    (tr_CheckpointRef r) (tr_Result r) (tr_Error r) (tr_Usage r) (tr_Verification r)
    (tr_Transitions r) (tr_Meta r).
#[export] Instance set_tr_TaskID : Setter tr_TaskID := fun v r =>
  mkTaskRun (tr_Version r) (tr_RunID r) v (tr_GoalID r) (tr_ParentRunID r) (tr_SessionID r)
    (tr_AgentID r) (tr_Attempt r) (tr_Status r) (tr_StartedAt r) (tr_EndedAt r) (tr_Trigger r)
    (tr_CheckpointRef r) (tr_Result r) (tr_Error r) (tr_Usage r) (tr_Verification r)
    (tr_Transitions r) (tr_Meta r).
#[export] Instance set_tr_GoalID : Setter tr_GoalID := fun v r =>
  mkTaskRun (tr_Version r) (tr_RunID r) (tr_TaskID r) v (tr_ParentRunID r) (tr_SessionID r)
    (tr_AgentID r) (tr_Attempt r) (tr_Status r) (tr_StartedAt r) (tr_EndedAt r) (tr_Trigger r)
    (tr_CheckpointRef r) (tr_Result r) (tr_Error r) (tr_Usage r) (tr_Verification r)
    (tr_Transitions r) (tr_Meta r).
#[export] Instance set_tr_SessionID : Setter tr_SessionID := fun v r =>
  mkTaskRun (tr_Version r) (tr_RunID r) (tr_TaskID r) (tr_GoalID r) (tr_ParentRunID r) v
    (tr_AgentID r) (tr_Attempt r) (tr_Status r) (tr_StartedAt r) (tr_EndedAt r) (tr_Trigger r)
    (tr_CheckpointRef r) (tr_Result r) (tr_Error r) (tr_Usage r) (tr_Verification r)
    (tr_Transitions r) (tr_Meta r).
#[export] Instance set_tr_AgentID : Setter tr_AgentID := fun v r =>
  mkTaskRun (tr_Version r) (tr_RunID r) (tr_TaskID r) (tr_GoalID r) (tr_ParentRunID r)
    (tr_SessionID r) v (tr_Attempt r) (tr_Status r) (tr_StartedAt r) (tr_EndedAt r) (tr_Trigger
    r) (tr_CheckpointRef r) (tr_Result r) (tr_Error r) (tr_Usage r) (tr_Verification r)
    (tr_Transitions r) (tr_Meta r).
#[export] Instance set_tr_Attempt : Setter tr_Attempt := fun v r =>
  mkTaskRun (tr_Version r) (tr_RunID r) (tr_TaskID r) (tr_GoalID r) (tr_ParentRunID r)
    (tr_SessionID r) (tr_AgentID r) v (tr_Status r) (tr_StartedAt r) (tr_EndedAt r) (tr_Trigger
    r) (tr_CheckpointRef r) (tr_Result r) (tr_Error r) (tr_Usage r) (tr_Verification r)
    (tr_Transitions r) (tr_Meta r).
#[export] Instance set_tr_Status : Setter tr_Status := fun v r =>
  mkTaskRun (tr_Version r) (tr_RunID r) (tr_TaskID r) (tr_GoalID r) (tr_ParentRunID r)
    (tr_SessionID r) (tr_AgentID r) (tr_Attempt r) v (tr_StartedAt r) (tr_EndedAt r)
    (tr_Trigger r) (tr_CheckpointRef r) (tr_Result r) (tr_Error r) (tr_Usage r)
    (tr_Verification r) (tr_Transitions r) (tr_Meta r).
#[export] Instance set_tr_StartedAt : Setter tr_StartedAt := fun v r =>
  mkTaskRun (tr_Version r) (tr_RunID r) (tr_TaskID r) (tr_GoalID r) (tr_ParentRunID r)
    (tr_SessionID r) (tr_AgentID r) (tr_Attempt r) (tr_Status r) v (tr_EndedAt r) (tr_Trigger
    r) (tr_CheckpointRef r) (tr_Result r) (tr_Error r) (tr_Usage r) (tr_Verification r)
    (tr_Transitions r) (tr_Meta r).
#[export] Instance set_tr_EndedAt : Setter tr_EndedAt := fun v r =>
  mkTaskRun (tr_Version r) (tr_RunID r) (tr_TaskID r) (tr_GoalID r) (tr_ParentRunID r)
    (tr_SessionID r) (tr_AgentID r) (tr_Attempt r) (tr_Status r) (tr_StartedAt r) v (tr_Trigger
    r) (tr_CheckpointRef r) (tr_Result r) (tr_Error r) (tr_Usage r) (tr_Verification r)
    (tr_Transitions r) (tr_Meta r).
#[export] Instance set_tr_Trigger : Setter tr_Trigger := fun v r =>
  mkTaskRun (tr_Version r) (tr_RunID r) (tr_TaskID r) (tr_GoalID r) (tr_ParentRunID r)
    (tr_SessionID r) (tr_AgentID r) (tr_Attempt r) (tr_Status r) (tr_StartedAt r) (tr_EndedAt
    r) v (tr_CheckpointRef r) (tr_Result r) (tr_Error r) (tr_Usage r) (tr_Verification r)
    (tr_Transitions r) (tr_Meta r).
#[export] Instance set_tr_Verification : Setter tr_Verification := fun v r =>
  mkTaskRun (tr_Version r) (tr_RunID r) (tr_TaskID r) (tr_GoalID r) (tr_ParentRunID r)
    (tr_SessionID r) (tr_AgentID r) (tr_Attempt r) (tr_Status r) (tr_StartedAt r) (tr_EndedAt
    r) (tr_Trigger r) (tr_CheckpointRef r) (tr_Result r) (tr_Error r) (tr_Usage r) v
    (tr_Transitions r) (tr_Meta r).
#[export] Instance set_tr_Transitions : Setter tr_Transitions := fun v r =>
  mkTaskRun (tr_Version r) (tr_RunID r) (tr_TaskID r) (tr_GoalID r) (tr_ParentRunID r)
    (tr_SessionID r) (tr_AgentID r) (tr_Attempt r) (tr_Status r) (tr_StartedAt r) (tr_EndedAt
    r) (tr_Trigger r) (tr_CheckpointRef r) (tr_Result r) (tr_Error r) (tr_Usage r)
    (tr_Verification r) v (tr_Meta r).
#[export] Instance set_tr_Meta : Setter tr_Meta := fun v r =>
  mkTaskRun (tr_Version r) (tr_RunID r) (tr_TaskID r) (tr_GoalID r) (tr_ParentRunID r)
    (tr_SessionID r) (tr_AgentID r) (tr_Attempt r) (tr_Status r) (tr_StartedAt r) (tr_EndedAt
    r) (tr_Trigger r) (tr_CheckpointRef r) (tr_Result r) (tr_Error r) (tr_Usage r)
    (tr_Verification r) (tr_Transitions r) v.
#[export] Instance set_tr_ParentRunID : Setter tr_ParentRunID := fun v r =>
  mkTaskRun (tr_Version r) (tr_RunID r) (tr_TaskID r) (tr_GoalID r) v (tr_SessionID r)
    (tr_AgentID r) (tr_Attempt r) (tr_Status r) (tr_StartedAt r) (tr_EndedAt r) (tr_Trigger r)
    (tr_CheckpointRef r) (tr_Result r) (tr_Error r) (tr_Usage r) (tr_Verification r)
    (tr_Transitions r) (tr_Meta r).
#[export] Instance set_tr_Result : Setter tr_Result := fun v r =>
  mkTaskRun (tr_Version r) (tr_RunID r) (tr_TaskID r) (tr_GoalID r) (tr_ParentRunID r)
    (tr_SessionID r) (tr_AgentID r) (tr_Attempt r) (tr_Status r) (tr_StartedAt r) (tr_EndedAt r)
    (tr_Trigger r) (tr_CheckpointRef r) v (tr_Error r) (tr_Usage r) (tr_Verification r)
    (tr_Transitions r) (tr_Meta r).
#[export] Instance set_tr_Error : Setter tr_Error := fun v r =>
  mkTaskRun (tr_Version r) (tr_RunID r) (tr_TaskID r) (tr_GoalID r) (tr_ParentRunID r)
    (tr_SessionID r) (tr_AgentID r) (tr_Attempt r) (tr_Status r) (tr_StartedAt r) (tr_EndedAt r)
    (tr_Trigger r) (tr_CheckpointRef r) (tr_Result r) v (tr_Usage r) (tr_Verification r)
    (tr_Transitions r) (tr_Meta r).
#[export] Instance set_tr_Usage : Setter tr_Usage := fun v r =>
  mkTaskRun (tr_Version r) (tr_RunID r) (tr_TaskID r) (tr_GoalID r) (tr_ParentRunID r)
    (tr_SessionID r) (tr_AgentID r) (tr_Attempt r) (tr_Status r) (tr_StartedAt r) (tr_EndedAt r)
    (tr_Trigger r) (tr_CheckpointRef r) (tr_Result r) (tr_Error r) v (tr_Verification r)
    (tr_Transitions r) (tr_Meta r).
#[export] Instance TaskRun_ext : RecordExt TaskRun (fun a b =>
  tr_Version a = tr_Version b /\ tr_RunID a = tr_RunID b /\ tr_TaskID a = tr_TaskID b /\
  tr_GoalID a = tr_GoalID b /\ tr_ParentRunID a = tr_ParentRunID b /\ tr_SessionID a =
  tr_SessionID b /\ tr_AgentID a = tr_AgentID b /\ tr_Attempt a = tr_Attempt b /\
  tr_Status a = tr_Status b /\ tr_StartedAt a = tr_StartedAt b /\ tr_EndedAt a =
  tr_EndedAt b /\ tr_Trigger a = tr_Trigger b /\ tr_CheckpointRef a = tr_CheckpointRef b
  /\ tr_Result a = tr_Result b /\ tr_Error a = tr_Error b /\ tr_Usage a = tr_Usage b /\
  tr_Verification a = tr_Verification b /\ tr_Transitions a = tr_Transitions b /\ tr_Meta
  a = tr_Meta b).
Proof.
  intros [] []; cbn. intros H. decompose [and] H. by subst.
Qed.

Definition zero_run : TaskRun :=
  mkTaskRun 0 "" "" "" "" "" "" 0 "" 0 0 "" "" (mkTaskResultRef "" "" "" "") ""
    zero_usage zero_verification [] None.

Definition TaskRun_Normalize (r : TaskRun) : TaskRun :=
  let r := if tr_Version r =? 0 then r <| tr_Version := 1 |> else r in
  let r := if tr_Attempt r <=? 0 then r <| tr_Attempt := 1 |> else r in
  let r := if negb (TaskRunStatus_Valid (tr_Status r))
           then r <| tr_Status := TaskRunStatusQueued |> else r in
  r <| tr_Verification := VerificationSpec_Normalize (tr_Verification r) |>.

Definition TaskRun_Validate (r : TaskRun) : option error :=
  first_error
    [ error_if (blank (tr_RunID r)) (Errorf "run_id is required" []);
      error_if (blank (tr_TaskID r)) (Errorf "task_id is required" []);
      error_if (negb (blank (tr_Status r)) && negb (TaskRunStatus_Valid (tr_Status r)))
        (Errorf "invalid run status %q" [ArgS (tr_Status r)]);
      error_if (tr_Attempt r <? 0) (Errorf "attempt must be >= 0" []);
      wrap_error "verification: %w" (VerificationSpec_Validate (tr_Verification r)) ].

Arguments TaskAuthority_Normalize : simpl never.
Arguments GoalSpec_Normalize : simpl never.
Arguments TaskSpec_Normalize : simpl never.
Arguments TaskSpec_Validate : simpl never.
Arguments TaskRun_Normalize : simpl never.
Arguments TaskRun_Validate : simpl never.

(** ** Lemmas: what [Normalize] computes, field by field *)

Definition norm_task_status (s : string) : string :=
  if TaskStatus_Valid s then s else TaskStatusPending.
Definition norm_run_status (s : string) : string :=
  if TaskRunStatus_Valid s then s else TaskRunStatusQueued.
Definition norm_priority (p : string) : string :=
  if blank p || negb (TaskPriority_Valid p) then TaskPriorityMedium else p.
Definition norm_scope (s : string) : string :=
  if s ==? "" then s else NormalizeAgentMemoryScope s.

Lemma TaskSpec_Normalize_fields t :
  TaskSpec_Normalize t =
  t <| ts_Version := if ts_Version t =? 0 then 1 else ts_Version t |>
    <| ts_Status := norm_task_status (ts_Status t) |>
    <| ts_Priority := norm_priority (ts_Priority t) |>
    <| ts_MemoryScope := norm_scope (ts_MemoryScope t) |>
    <| ts_Verification := VerificationSpec_Normalize (ts_Verification t) |>.
Proof.
  destruct t as [v ? ? ? ? ? ? ? ? ? ? ? ? ? ? st pr ? sc].
  unfold TaskSpec_Normalize, norm_task_status, norm_priority, norm_scope; cbn.
  destruct (v =? 0); cbn; destruct (TaskStatus_Valid st); cbn; destruct (blank pr); cbn;
    destruct (TaskPriority_Valid pr); cbn; destruct (String.eqb sc ""); reflexivity.
Qed.

Lemma TaskRun_Normalize_fields r :
  TaskRun_Normalize r =
  r <| tr_Version := if tr_Version r =? 0 then 1 else tr_Version r |>
    <| tr_Attempt := if tr_Attempt r <=? 0 then 1 else tr_Attempt r |>
    <| tr_Status := norm_run_status (tr_Status r) |>
    <| tr_Verification := VerificationSpec_Normalize (tr_Verification r) |>.
Proof.
  destruct r as [v ? ? ? ? ? ? a st].
  unfold TaskRun_Normalize, norm_run_status; cbn.
  destruct (v =? 0); cbn; destruct (a <=? 0); cbn; destruct (TaskRunStatus_Valid st);
    reflexivity.
Qed.

Lemma norm_task_status_valid s : TaskStatus_Valid (norm_task_status s) = true.
Proof. unfold norm_task_status. by destruct (TaskStatus_Valid s) eqn:E. Qed.

Lemma norm_run_status_valid s : TaskRunStatus_Valid (norm_run_status s) = true.
Proof. unfold norm_run_status. by destruct (TaskRunStatus_Valid s) eqn:E. Qed.

Lemma norm_task_status_id s : TaskStatus_Valid s = true -> norm_task_status s = s.
Proof. unfold norm_task_status. by intros ->. Qed.

Lemma norm_run_status_id s : TaskRunStatus_Valid s = true -> norm_run_status s = s.
Proof. unfold norm_run_status. by intros ->. Qed.

Lemma norm_priority_idem p : norm_priority (norm_priority p) = norm_priority p.
Proof.
  unfold norm_priority.
  destruct (blank p || negb (TaskPriority_Valid p)) eqn:E; [reflexivity|by rewrite E].
Qed.

Lemma norm_scope_idem s : norm_scope (norm_scope s) = norm_scope s.
Proof.
  unfold norm_scope. destruct (String.eqb_spec s "") as [->|]; [done|].
  unfold NormalizeAgentMemoryScope.
  destruct (ParseAgentMemoryScope s) as [v []] eqn:E; cbn [fst].
  - rewrite (enum_idem _ _ E). case_match; reflexivity.
  - by rewrite (enum_reject _ _ E).
Qed.

Lemma TaskSpec_Normalize_idem t :
  TaskSpec_Normalize (TaskSpec_Normalize t) = TaskSpec_Normalize t.
Proof.
  rewrite (TaskSpec_Normalize_fields (TaskSpec_Normalize t)), TaskSpec_Normalize_fields.
  by_fields.
  - destruct (ts_Version t =? 0) eqn:E; cbn; by rewrite ?E.
  - apply norm_task_status_id, norm_task_status_valid.
  - apply norm_priority_idem.
  - apply norm_scope_idem.
  - apply VerificationSpec_Normalize_idem.
Qed.

Lemma TaskRun_Normalize_idem r :
  TaskRun_Normalize (TaskRun_Normalize r) = TaskRun_Normalize r.
Proof.
  rewrite (TaskRun_Normalize_fields (TaskRun_Normalize r)), TaskRun_Normalize_fields.
  by_fields.
  - destruct (tr_Version r =? 0) eqn:E; cbn; by rewrite ?E.
  - destruct (tr_Attempt r <=? 0) eqn:E; cbn; by rewrite ?E.
  - apply norm_run_status_id, norm_run_status_valid.
  - apply VerificationSpec_Normalize_idem.
Qed.
#[export] Hint Rewrite TaskSpec_Normalize_idem TaskRun_Normalize_idem : go.

(** ** Validation, declaratively *)

Lemma first_blank_None {A} (f : A -> string) fmt i l :
  first_blank f fmt i l = None <-> forall x, x ∈ l -> blank (f x) = false.
Proof.
  revert i. induction l as [|x l IH]; intros i; cbn.
  - split; [intros _ x Hx; by apply not_elem_of_nil in Hx|done].
  - setoid_rewrite elem_of_cons. destruct (blank (f x)) eqn:E.
    + split; [discriminate|]. intros H. rewrite H in E; auto; discriminate.
    + rewrite IH. split; [intros H y [->|?]; auto|auto].
Qed.

Lemma wrap_error_None fmt e : wrap_error fmt e = None <-> e = None.
Proof. destruct e; cbn; split; congruence. Qed.

Lemma norm_scope_rejects s :
  (norm_scope s ==? "") && (s !=? "") = false
  <-> s = "" \/ AgentMemoryScope_Valid s = true.
Proof.
  unfold norm_scope. destruct (String.eqb_spec s "") as [->|Hs]; cbn [negb].
  { rewrite andb_false_r. tauto. }
  rewrite andb_true_r, String.eqb_neq. unfold NormalizeAgentMemoryScope, AgentMemoryScope_Valid.
  destruct (ParseAgentMemoryScope s) as [v []] eqn:E; cbn.
  - apply enum_sound in E. split; [tauto|]. intros _ ->.
    revert E. apply (bool_decide_unpack _). reflexivity.
  - rewrite (enum_reject _ _ E). split; [done|]. by intros [?|?].
Qed.

(** [TaskSpec.Validate] accepts a task exactly when identifier, title and
    instructions are present, status, priority and memory scope are absent or
    recognised, every output is named and every criterion described, and the
    verification contract is sound: a recognised policy, at least one check if it
    is [required], and identified, described and distinct checks, whose statuses
    do not matter because validation normalises them. *)
Theorem task_validate_spec t :
  TaskSpec_Validate t = None <->
  (blank (ts_TaskID t) = false /\ blank (ts_Title t) = false /\ blank (ts_Instructions t) = false)
  /\ (blank (ts_Status t) = true \/ TaskStatus_Valid (ts_Status t) = true)
  /\ (blank (ts_Priority t) = true \/ TaskPriority_Valid (ts_Priority t) = true)
  /\ (ts_MemoryScope t = "" \/ AgentMemoryScope_Valid (ts_MemoryScope t) = true)
  /\ (forall o, o ∈ ts_ExpectedOutputs t -> blank (os_Name o) = false)
  /\ (forall c, c ∈ ts_AcceptanceCriteria t -> blank (ac_Description c) = false)
  /\ contract_ok (ts_Verification t).
Proof.
  unfold TaskSpec_Validate. rewrite TaskSpec_Normalize_fields.
  rewrite first_error_None, !Forall_cons, Forall_nil, !error_if_None, !first_blank_None,
    wrap_error_None, normalized_contract_valid.
  change (ts_MemoryScope (setf ts_Verification _ _)) with (norm_scope (ts_MemoryScope t)).
  rewrite norm_scope_rejects, !andb_false_iff, !negb_false_iff. tauto.
Qed.
