(* ===== verification/Lifecycle.v ===== *)
(** The task and run state machines: internal/store/state/task_lifecycle.go.

    [TaskSpec_ApplyTransition] and [TaskRun_ApplyTransition] return the value
    left behind the receiver pointer together with the error.  On an error the
    receiver keeps its fields, except that [Normalize] has already rewritten
    the statuses of its verification checks in place. *)

From Stdlib Require Import String.
From stdpp Require Import base tactics decidable list gmap strings relations.
From S2P Require Import Prelude Enums Verification Budget TaskModels.

(** ** Transition tables *)

Definition AllowedTaskTransition (from to : string) : bool :=
  if (to ==? "") || negb (TaskStatus_Valid to) then false
  else if from ==? "" then to ==? TaskStatusPending
  else
  go_switch from
    [([TaskStatusPending],
      go_switch to [([TaskStatusPlanned; TaskStatusReady; TaskStatusInProgress;
        TaskStatusBlocked; TaskStatusAwaitingApproval; TaskStatusCancelled;
        TaskStatusFailed], true)] false);
     ([TaskStatusPlanned],
      go_switch to [([TaskStatusReady; TaskStatusInProgress; TaskStatusBlocked;
        TaskStatusAwaitingApproval; TaskStatusCancelled; TaskStatusFailed], true)] false);
     ([TaskStatusReady],
      go_switch to [([TaskStatusInProgress; TaskStatusBlocked; TaskStatusAwaitingApproval;
        TaskStatusCancelled; TaskStatusFailed], true)] false);
     ([TaskStatusInProgress],
      go_switch to [([TaskStatusBlocked; TaskStatusAwaitingApproval; TaskStatusVerifying;
        TaskStatusCompleted; TaskStatusFailed; TaskStatusCancelled], true)] false);
     ([TaskStatusAwaitingApproval],
      go_switch to [([TaskStatusReady; TaskStatusInProgress; TaskStatusBlocked;
        TaskStatusCancelled; TaskStatusFailed], true)] false);
     ([TaskStatusBlocked],
      go_switch to [([TaskStatusPlanned; TaskStatusReady; TaskStatusInProgress;
        TaskStatusAwaitingApproval; TaskStatusCancelled; TaskStatusFailed], true)] false);
     ([TaskStatusVerifying],
      go_switch to [([TaskStatusCompleted; TaskStatusFailed; TaskStatusBlocked;
        TaskStatusAwaitingApproval; TaskStatusCancelled], true)] false);
     ([TaskStatusFailed],
      go_switch to [([TaskStatusPlanned; TaskStatusReady; TaskStatusInProgress;
        TaskStatusBlocked; TaskStatusAwaitingApproval; TaskStatusCancelled], true)] false)]
    false.

Definition AllowedTaskRunTransition (from to : string) : bool :=
  if (to ==? "") || negb (TaskRunStatus_Valid to) then false
  else if from ==? "" then to ==? TaskRunStatusQueued
  else
  go_switch from
    [([TaskRunStatusQueued],
      go_switch to [([TaskRunStatusRunning; TaskRunStatusBlocked;
        TaskRunStatusAwaitingApproval; TaskRunStatusCancelled; TaskRunStatusFailed], true)] false);
     ([TaskRunStatusRunning],
      go_switch to [([TaskRunStatusBlocked; TaskRunStatusAwaitingApproval;
        TaskRunStatusRetrying; TaskRunStatusVerifying; TaskRunStatusCompleted;
        TaskRunStatusFailed; TaskRunStatusCancelled], true)] false);
     ([TaskRunStatusBlocked],
      go_switch to [([TaskRunStatusQueued; TaskRunStatusRunning;
        TaskRunStatusAwaitingApproval; TaskRunStatusRetrying; TaskRunStatusFailed;
        TaskRunStatusCancelled], true)] false);
     ([TaskRunStatusAwaitingApproval],
      go_switch to [([TaskRunStatusQueued; TaskRunStatusRunning; TaskRunStatusBlocked;
        TaskRunStatusCancelled; TaskRunStatusFailed], true)] false);
     ([TaskRunStatusRetrying],
      go_switch to [([TaskRunStatusQueued; TaskRunStatusRunning; TaskRunStatusBlocked;
        TaskRunStatusCancelled; TaskRunStatusFailed], true)] false);
     ([TaskRunStatusVerifying],
      go_switch to [([TaskRunStatusCompleted; TaskRunStatusFailed; TaskRunStatusBlocked;
        TaskRunStatusAwaitingApproval; TaskRunStatusCancelled], true)] false)]
    false.

Definition isTerminalTaskRunStatus (status : string) : bool :=
  go_switch status
    [([TaskRunStatusCompleted; TaskRunStatusFailed; TaskRunStatusCancelled], true)] false.

Definition cloneTransitionMeta (meta : gomap any) : gomap any := clone_map meta.

Arguments AllowedTaskTransition : simpl never.
Arguments AllowedTaskRunTransition : simpl never.
Arguments isTerminalTaskRunStatus : simpl never.

(** ** Applying a transition *)

(** What a failed call leaves in the receiver. *)
Definition task_checks_normalized (t : TaskSpec) : TaskSpec :=
  t <| ts_Verification := (ts_Verification t)
         <| vs_Checks := map VerificationCheck_Normalize (vs_Checks (ts_Verification t)) |> |>.

Definition run_checks_normalized (r : TaskRun) : TaskRun :=
  r <| tr_Verification := (tr_Verification r)
         <| vs_Checks := map VerificationCheck_Normalize (vs_Checks (tr_Verification r)) |> |>.

Definition TaskSpec_ApplyTransition (t : TaskSpec) (to : string) (at_ : Z)
    (actor source reason : string) (meta : gomap any) : TaskSpec * option error :=
  let norm := TaskSpec_Normalize t in
  let from := ts_Status norm in
  let failed e := (task_checks_normalized t, Some e) in
  if (to ==? "") || negb (TaskStatus_Valid to)
  then failed (Errorf "invalid task status %q" [ArgS to])
  else if from ==? to
  then failed (Errorf "task already in status %q" [ArgS to])
  else if negb (AllowedTaskTransition from to)
  then failed (Errorf "illegal task transition %q -> %q" [ArgS from; ArgS to])
  else
  let norm := norm <| ts_Verification := VerificationSpec_Normalize (ts_Verification norm) |> in
  if (to ==? TaskStatusCompleted)
     && (vs_Policy (ts_Verification norm) ==? VerificationPolicyRequired)
     && negb (VerificationSpec_AllRequiredPassed (ts_Verification norm))
  then failed (Errorf "cannot complete task: required verification checks have not passed" [])
  else if at_ <=? 0
  then failed (Errorf "transition timestamp is required" [])
  else
  let norm := if ts_CreatedAt norm =? 0 then norm <| ts_CreatedAt := at_ |> else norm in
  let norm := norm <| ts_Status := to |> in
  let norm := norm <| ts_UpdatedAt := at_ |> in
  let norm := norm <| ts_Transitions := ts_Transitions norm ++
      [mkTaskTransition from to at_ (TrimSpace actor) (TrimSpace source) (TrimSpace reason)
         (cloneTransitionMeta meta)] |> in
  (norm, None).

Definition TaskRun_ApplyTransition (r : TaskRun) (to : string) (at_ : Z)
    (actor source reason : string) (meta : gomap any) : TaskRun * option error :=
  let norm := TaskRun_Normalize r in
  let from := tr_Status norm in
  let failed e := (run_checks_normalized r, Some e) in
  if (to ==? "") || negb (TaskRunStatus_Valid to)
  then failed (Errorf "invalid run status %q" [ArgS to])
  else if from ==? to
  then failed (Errorf "task run already in status %q" [ArgS to])
  else if negb (AllowedTaskRunTransition from to)
  then failed (Errorf "illegal run transition %q -> %q" [ArgS from; ArgS to])
  else
  let norm := norm <| tr_Verification := VerificationSpec_Normalize (tr_Verification norm) |> in
  if (to ==? TaskRunStatusCompleted)
     && (vs_Policy (tr_Verification norm) ==? VerificationPolicyRequired)
     && negb (VerificationSpec_AllRequiredPassed (tr_Verification norm))
  then failed (Errorf "cannot complete task run: required verification checks have not passed" [])
  else if at_ <=? 0
  then failed (Errorf "transition timestamp is required" [])
  else
  let norm := if (to ==? TaskRunStatusRunning) && (tr_StartedAt norm =? 0)
              then norm <| tr_StartedAt := at_ |> else norm in
  let norm := if isTerminalTaskRunStatus to then norm <| tr_EndedAt := at_ |> else norm in
  let norm := norm <| tr_Status := to |> in
  let norm := norm <| tr_Transitions := tr_Transitions norm ++
      [mkTaskRunTransition from to at_ (TrimSpace actor) (TrimSpace source) (TrimSpace reason)
         (cloneTransitionMeta meta)] |> in
  (norm, None).

(** ** Starting a run *)

(** The loop of [NewTaskRunAttempt] over the prior runs. *)
Fixpoint next_attempt (taskID runID : string) (priorRuns : list TaskRun) (attempt : Z)
  : result Z :=
  match priorRuns with
  | [] => Ok attempt
  | prior :: rest =>
    if TrimSpace (tr_RunID prior) ==? runID
    then Err (Errorf "run_id %q already exists" [ArgS runID])
    else if TrimSpace (tr_TaskID prior) !=? taskID
    then next_attempt taskID runID rest attempt
    else next_attempt taskID runID rest
           (if attempt <=? tr_Attempt prior then add64 (tr_Attempt prior) 1 else attempt)
  end.

Definition NewTaskRunAttempt (task : TaskSpec) (runID : string) (priorRuns : list TaskRun)
    (at_ : Z) (trigger actor source : string) : result TaskRun :=
  let task := TaskSpec_Normalize task in
  match TaskSpec_Validate task with
  | Some e => Err e
  | None =>
    let runID := TrimSpace runID in
    if runID ==? "" then Err (Errorf "run_id is required" [])
    else match next_attempt (ts_TaskID task) runID priorRuns 1 with
    | Err e => Err e
    | Ok attempt =>
      if at_ <=? 0 then Err (Errorf "attempt timestamp is required" [])
      else Ok (zero_run
        <| tr_Version := 1 |>
        <| tr_RunID := runID |>
        <| tr_TaskID := ts_TaskID task |>
        <| tr_GoalID := ts_GoalID task |>
        <| tr_SessionID := ts_SessionID task |>
        <| tr_AgentID := ts_AssignedAgent task |>
        <| tr_Attempt := attempt |>
        <| tr_Status := TaskRunStatusQueued |>
        <| tr_Trigger := TrimSpace trigger |>
        <| tr_Verification := VerificationSpec_Normalize (ts_Verification task) |>
        <| tr_Transitions := [mkTaskRunTransition "" TaskRunStatusQueued at_ (TrimSpace actor)
             (TrimSpace source) "attempt created" None] |>)
    end
  end.

(** ** Abstract specification: two state machines

    The tables are specified by what each move means, not state by state: a
    live task may always be cancelled, failed, blocked or sent for approval;
    work starts from any resting state; completion needs work first; only
    [Completed] and [Cancelled] are final ([Failed] tasks may be retried). *)

Inductive TaskPhase :=
  | Pending | Planned | Ready | InProgress | Blocked | AwaitingApproval
  | Verifying | Completed | Failed | Cancelled.

Definition task_phase_status (p : TaskPhase) : string :=
  match p with
  | Pending => TaskStatusPending | Planned => TaskStatusPlanned | Ready => TaskStatusReady
  | InProgress => TaskStatusInProgress | Blocked => TaskStatusBlocked
  | AwaitingApproval => TaskStatusAwaitingApproval | Verifying => TaskStatusVerifying
  | Completed => TaskStatusCompleted | Failed => TaskStatusFailed
  | Cancelled => TaskStatusCancelled
  end.

#[export] Instance TaskPhase_eq_dec : EqDecision TaskPhase.
Proof. solve_decision. Defined.

Definition task_final (p : TaskPhase) : Prop := p = Completed \/ p = Cancelled.

Inductive task_step : TaskPhase -> TaskPhase -> Prop :=
  | step_cancel p : ~ task_final p -> task_step p Cancelled
  | step_fail p : ~ task_final p -> p <> Failed -> task_step p Failed
  | step_block p : ~ task_final p -> p <> Blocked -> task_step p Blocked
  | step_await p : ~ task_final p -> p <> AwaitingApproval -> task_step p AwaitingApproval
  | step_start p : p ∈ [Pending; Planned; Ready; AwaitingApproval; Blocked; Failed] ->
      task_step p InProgress
  | step_ready p : p ∈ [Pending; Planned; AwaitingApproval; Blocked; Failed] ->
      task_step p Ready
  | step_plan p : p ∈ [Pending; Blocked; Failed] -> task_step p Planned
  | step_verify : task_step InProgress Verifying
  | step_complete p : p ∈ [InProgress; Verifying] -> task_step p Completed.

Inductive RunPhase :=
  | RQueued | RRunning | RBlocked | RAwaitingApproval | RRetrying | RVerifying
  | RCompleted | RFailed | RCancelled.

Definition run_phase_status (p : RunPhase) : string :=
  match p with
  | RQueued => TaskRunStatusQueued | RRunning => TaskRunStatusRunning
  | RBlocked => TaskRunStatusBlocked | RAwaitingApproval => TaskRunStatusAwaitingApproval
  | RRetrying => TaskRunStatusRetrying | RVerifying => TaskRunStatusVerifying
  | RCompleted => TaskRunStatusCompleted | RFailed => TaskRunStatusFailed
  | RCancelled => TaskRunStatusCancelled
  end.

#[export] Instance RunPhase_eq_dec : EqDecision RunPhase.
Proof. solve_decision. Defined.

Definition run_final (p : RunPhase) : Prop :=
  p = RCompleted \/ p = RFailed \/ p = RCancelled.

Inductive run_step : RunPhase -> RunPhase -> Prop :=
  | rstep_cancel p : ~ run_final p -> run_step p RCancelled
  | rstep_fail p : ~ run_final p -> run_step p RFailed
  | rstep_block p : ~ run_final p -> p <> RBlocked -> run_step p RBlocked
  | rstep_await p : p ∈ [RQueued; RRunning; RBlocked; RVerifying] ->
      run_step p RAwaitingApproval
  | rstep_run p : p ∈ [RQueued; RBlocked; RAwaitingApproval; RRetrying] -> run_step p RRunning
  | rstep_queue p : p ∈ [RBlocked; RAwaitingApproval; RRetrying] -> run_step p RQueued
  | rstep_retry p : p ∈ [RRunning; RBlocked] -> run_step p RRetrying
  | rstep_verify : run_step RRunning RVerifying
  | rstep_complete p : p ∈ [RRunning; RVerifying] -> run_step p RCompleted.

Create HintDb lifecycle.
#[export] Hint Constructors task_step run_step : lifecycle.

(** Deciding the abstract relations on concrete phases. *)
Ltac phase_cases :=
  match goal with
  | H : task_step _ _ |- _ => inv H
  | H : run_step _ _ |- _ => inv H
  end.

Ltac decide_member :=
  match goal with
  | H : _ ∈ _ |- _ => apply (bool_decide_pack _) in H; vm_compute in H; destruct H
  | |- _ ∈ _ => apply (bool_decide_unpack _); vm_compute; exact I
  end.

Ltac solve_step :=
  constructor; first [decide_member | unfold task_final, run_final; intuition discriminate].

Ltac refute_step :=
  phase_cases; first [decide_member | unfold task_final, run_final in *; intuition congruence].

Definition task_phases : list TaskPhase :=
  [Pending; Planned; Ready; InProgress; Blocked; AwaitingApproval; Verifying; Completed;
   Failed; Cancelled].
Definition run_phases : list RunPhase :=
  [RQueued; RRunning; RBlocked; RAwaitingApproval; RRetrying; RVerifying; RCompleted;
   RFailed; RCancelled].

Lemma task_phase_of_valid s :
  s ∈ TaskStatus_values -> exists p, s = task_phase_status p.
Proof.
  assert (TaskStatus_values = map task_phase_status task_phases) as -> by reflexivity.
  rewrite list_elem_of_In, in_map_iff. intros (p & <- & _). by exists p.
Qed.

Lemma run_phase_of_valid s :
  s ∈ TaskRunStatus_values -> exists p, s = run_phase_status p.
Proof.
  assert (TaskRunStatus_values = map run_phase_status run_phases) as -> by reflexivity.
  rewrite list_elem_of_In, in_map_iff. intros (p & <- & _). by exists p.
Qed.

(** The table restricted to phases decides the abstract step. *)
Lemma allowed_task_phases p q :
  AllowedTaskTransition (task_phase_status p) (task_phase_status q) = true <-> task_step p q.
Proof.
  destruct p, q; (split; intros H;
    [first [discriminate H | solve_step] | first [reflexivity | exfalso; refute_step]]).
Qed.

Lemma allowed_run_phases p q :
  AllowedTaskRunTransition (run_phase_status p) (run_phase_status q) = true <-> run_step p q.
Proof.
  destruct p, q; (split; intros H;
    [first [discriminate H | solve_step] | first [reflexivity | exfalso; refute_step]]).
Qed.

(** A boolean switch that returns [true] matched one of its labels. *)
Lemma go_switch_true s ls (b : bool) cl :
  go_switch s ((ls, b) :: cl) false = true ->
  (s ∈ ls /\ b = true) \/ go_switch s cl false = true.
Proof.
  cbn [go_switch]. destruct (existsb (String.eqb s) ls) eqn:E; [|by right].
  intros ->. left. split; [|done].
  apply existsb_exists in E as (x & Hx & ->%String.eqb_eq). by rewrite list_elem_of_In.
Qed.

Ltac switch_members :=
  repeat match goal with
  | H : go_switch _ [] false = true |- _ => discriminate H
  | H : go_switch _ (_ :: _) false = true |- _ =>
    apply go_switch_true in H as [[? ?]|?]
  end.

Lemma allowed_task_values from to :
  AllowedTaskTransition from to = true -> from <> "" ->
  from ∈ TaskStatus_values /\ to ∈ TaskStatus_values.
Proof.
  unfold AllowedTaskTransition. intros H Hne.
  case_if. destruct (String.eqb_spec from ""); [done|].
  switch_members; (split; (eapply member_incl; [eassumption | vm_compute; reflexivity])).
Qed.

Lemma allowed_run_values from to :
  AllowedTaskRunTransition from to = true -> from <> "" ->
  from ∈ TaskRunStatus_values /\ to ∈ TaskRunStatus_values.
Proof.
  unfold AllowedTaskRunTransition. intros H Hne.
  case_if. destruct (String.eqb_spec from ""); [done|].
  switch_members; (split; (eapply member_incl; [eassumption | vm_compute; reflexivity])).
Qed.

Lemma task_status_valid_value s : s ∈ TaskStatus_values -> TaskStatus_Valid s = true.
Proof. intros H. unfold TaskStatus_Valid. by rewrite (enum_roundtrip s H). Qed.

Lemma run_status_valid_value s : s ∈ TaskRunStatus_values -> TaskRunStatus_Valid s = true.
Proof. intros H. unfold TaskRunStatus_Valid. by rewrite (enum_roundtrip s H). Qed.

Lemma valid_nonempty_task s : TaskStatus_Valid s = true -> s <> "".
Proof. intros H ->. discriminate H. Qed.

Lemma valid_nonempty_run s : TaskRunStatus_Valid s = true -> s <> "".
Proof. intros H ->. discriminate H. Qed.

Lemma allowed_task_step from to :
  from <> "" ->
  AllowedTaskTransition from to = true
  <-> exists p q, from = task_phase_status p /\ to = task_phase_status q /\ task_step p q.
Proof.
  intros Hne. split.
  - intros H. destruct (allowed_task_values _ _ H Hne) as [Hf Ht].
    destruct (task_phase_of_valid _ Hf) as [p ->], (task_phase_of_valid _ Ht) as [q ->].
    exists p, q. by rewrite <- allowed_task_phases.
  - intros (p & q & -> & -> & H). by apply allowed_task_phases.
Qed.

Lemma allowed_run_step from to :
  from <> "" ->
  AllowedTaskRunTransition from to = true
  <-> exists p q, from = run_phase_status p /\ to = run_phase_status q /\ run_step p q.
Proof.
  intros Hne. split.
  - intros H. destruct (allowed_run_values _ _ H Hne) as [Hf Ht].
    destruct (run_phase_of_valid _ Hf) as [p ->], (run_phase_of_valid _ Ht) as [q ->].
    exists p, q. by rewrite <- allowed_run_phases.
  - intros (p & q & -> & -> & H). by apply allowed_run_phases.
Qed.

#[export] Instance task_phase_status_inj : Inj (=) (=) task_phase_status.
Proof. intros p q. destruct p, q; (reflexivity || discriminate). Qed.
#[export] Instance run_phase_status_inj : Inj (=) (=) run_phase_status.
Proof. intros p q. destruct p, q; (reflexivity || discriminate). Qed.

(** ** What a call of [ApplyTransition] does *)

(** The condition under which a task moves to [to] at time [at_]. *)
Definition task_may_move (t : TaskSpec) (to : string) (at_ : Z) : Prop :=
  AllowedTaskTransition (norm_task_status (ts_Status t)) to = true
  /\ (to = TaskStatusCompleted ->
      vs_Policy (VerificationSpec_Normalize (ts_Verification t)) = VerificationPolicyRequired ->
      VerificationSpec_AllRequiredPassed (VerificationSpec_Normalize (ts_Verification t)) = true)
  /\ 0 < at_.

(** The task after a successful move: normalised, moved and logged. *)
Definition task_moved (t : TaskSpec) (to : string) (at_ : Z) (actor source reason : string)
    (meta : gomap any) : TaskSpec :=
  let n := TaskSpec_Normalize t in
  n <| ts_CreatedAt := if ts_CreatedAt t =? 0 then at_ else ts_CreatedAt t |>
    <| ts_Status := to |>
    <| ts_UpdatedAt := at_ |>
    <| ts_Transitions := ts_Transitions t ++
         [mkTaskTransition (norm_task_status (ts_Status t)) to at_ (TrimSpace actor)
            (TrimSpace source) (TrimSpace reason) (clone_map meta)] |>.

Definition run_may_move (r : TaskRun) (to : string) (at_ : Z) : Prop :=
  AllowedTaskRunTransition (norm_run_status (tr_Status r)) to = true
  /\ (to = TaskRunStatusCompleted ->
      vs_Policy (VerificationSpec_Normalize (tr_Verification r)) = VerificationPolicyRequired ->
      VerificationSpec_AllRequiredPassed (VerificationSpec_Normalize (tr_Verification r)) = true)
  /\ 0 < at_.

Definition run_moved (r : TaskRun) (to : string) (at_ : Z) (actor source reason : string)
    (meta : gomap any) : TaskRun :=
  let n := TaskRun_Normalize r in
  n <| tr_StartedAt := if (to ==? TaskRunStatusRunning) && (tr_StartedAt r =? 0)
                       then at_ else tr_StartedAt r |>
    <| tr_EndedAt := if isTerminalTaskRunStatus to then at_ else tr_EndedAt r |>
    <| tr_Status := to |>
    <| tr_Transitions := tr_Transitions r ++
         [mkTaskRunTransition (norm_run_status (tr_Status r)) to at_ (TrimSpace actor)
            (TrimSpace source) (TrimSpace reason) (clone_map meta)] |>.

Lemma allowed_task_to from to :
  AllowedTaskTransition from to = true ->
  (to ==? "") || negb (TaskStatus_Valid to) = false.
Proof. unfold AllowedTaskTransition. by case_if. Qed.

Lemma allowed_run_to from to :
  AllowedTaskRunTransition from to = true ->
  (to ==? "") || negb (TaskRunStatus_Valid to) = false.
Proof. unfold AllowedTaskRunTransition. by case_if. Qed.

Lemma allowed_task_irrefl s : s <> "" -> AllowedTaskTransition s s = false.
Proof.
  intros Hne. apply not_true_iff_false. rewrite allowed_task_step by done.
  intros (p & q & -> & Heq & Hs). apply (inj task_phase_status) in Heq as <-.
  destruct p; refute_step.
Qed.

Lemma allowed_run_irrefl s : s <> "" -> AllowedTaskRunTransition s s = false.
Proof.
  intros Hne. apply not_true_iff_false. rewrite allowed_run_step by done.
  intros (p & q & -> & Heq & Hs). apply (inj run_phase_status) in Heq as <-.
  destruct p; refute_step.
Qed.

Lemma norm_task_status_nonempty s : norm_task_status s <> "".
Proof. apply valid_nonempty_task, norm_task_status_valid. Qed.

Lemma norm_run_status_nonempty s : norm_run_status s <> "".
Proof. apply valid_nonempty_run, norm_run_status_valid. Qed.

#[export] Instance task_may_move_dec t to at_ : Decision (task_may_move t to at_).
Proof. unfold task_may_move. apply _. Defined.
#[export] Instance run_may_move_dec r to at_ : Decision (run_may_move r to at_).
Proof. unfold run_may_move. apply _. Defined.

(** The three guards after the status test, as one condition. *)
Lemma completion_guard (to completed policy : string) (passed : bool) :
  (to ==? completed) && (policy ==? VerificationPolicyRequired) && negb passed = false
  <-> (to = completed -> policy = VerificationPolicyRequired -> passed = true).
Proof.
  destruct (String.eqb_spec to completed), (String.eqb_spec policy VerificationPolicyRequired),
    passed; cbn; intuition congruence.
Qed.

(** Every call is one of two things: a legal move, or an error that leaves the
    receiver as it was up to its normalised checks. *)
Lemma task_apply_cases t to at_ actor source reason meta :
  (task_may_move t to at_ /\
   TaskSpec_ApplyTransition t to at_ actor source reason meta
   = (task_moved t to at_ actor source reason meta, None))
  \/ (~ task_may_move t to at_ /\
      exists e, TaskSpec_ApplyTransition t to at_ actor source reason meta
                = (task_checks_normalized t, Some e)).
Proof.
  unfold TaskSpec_ApplyTransition, task_may_move, task_moved.
  rewrite !TaskSpec_Normalize_fields. cbn. rewrite VerificationSpec_Normalize_idem.
  destruct (AllowedTaskTransition _ to) eqn:HA.
  - rewrite (allowed_task_to _ _ HA).
    destruct (String.eqb_spec (norm_task_status (ts_Status t)) to) as [<-|_].
    { rewrite allowed_task_irrefl in HA by apply norm_task_status_nonempty. discriminate. }
    cbn [negb]. case_if; [right|].
    { split; [|eauto]. intros (_ & Hc & _). apply completion_guard in Hc. congruence. }
    case_if; bool_to_prop; [right; split; [lia|eauto]|left].
    split; [rewrite <- completion_guard; repeat split; auto; lia|].
    f_equal. case_if; by_fields.
  - right. split; [by intros [? _]|]. cbn [negb]. repeat case_if; eauto.
Qed.

Lemma run_apply_cases r to at_ actor source reason meta :
  (run_may_move r to at_ /\
   TaskRun_ApplyTransition r to at_ actor source reason meta
   = (run_moved r to at_ actor source reason meta, None))
  \/ (~ run_may_move r to at_ /\
      exists e, TaskRun_ApplyTransition r to at_ actor source reason meta
                = (run_checks_normalized r, Some e)).
Proof.
  unfold TaskRun_ApplyTransition, run_may_move, run_moved.
  rewrite !TaskRun_Normalize_fields. cbn. rewrite VerificationSpec_Normalize_idem.
  destruct (AllowedTaskRunTransition _ to) eqn:HA.
  - rewrite (allowed_run_to _ _ HA).
    destruct (String.eqb_spec (norm_run_status (tr_Status r)) to) as [<-|_].
    { rewrite allowed_run_irrefl in HA by apply norm_run_status_nonempty. discriminate. }
    cbn [negb]. case_if; [right|].
    { split; [|eauto]. intros (_ & Hc & _). apply completion_guard in Hc. congruence. }
    case_if; bool_to_prop; [right; split; [lia|eauto]|left].
    split; [rewrite <- completion_guard; repeat split; auto; lia|].
    f_equal. repeat case_if; by_fields.
  - right. split; [by intros [? _]|]. cbn [negb]. repeat case_if; eauto.
Qed.

(** ** Histories

    A transition log is replayed from a status: every entry must start where
    the previous one ended, be allowed by the table and carry a positive time. *)

Definition log_entry : Type := string * string * Z.

Fixpoint replay (allowed : string -> string -> bool) (s : string) (log : list log_entry)
  : option string :=
  match log with
  | [] => Some s
  | (from, to, at_) :: log =>
    if (from ==? s) && allowed from to && (0 <? at_) then replay allowed to log else None
  end.

Definition task_log (l : list TaskTransition) : list log_entry :=
  map (fun x => (tt_From x, tt_To x, tt_At x)) l.
Definition run_log (l : list TaskRunTransition) : list log_entry :=
  map (fun x => (rt_From x, rt_To x, rt_At x)) l.

(** Any sequence of [ApplyTransition] calls, successful or not. *)
Inductive task_calls (t0 : TaskSpec) : TaskSpec -> Prop :=
  | task_calls_refl : task_calls t0 t0
  | task_calls_step t to at_ actor source reason meta :
      task_calls t0 t ->
      task_calls t0 (TaskSpec_ApplyTransition t to at_ actor source reason meta).1.

Inductive run_calls (r0 : TaskRun) : TaskRun -> Prop :=
  | run_calls_refl : run_calls r0 r0
  | run_calls_step r to at_ actor source reason meta :
      run_calls r0 r ->
      run_calls r0 (TaskRun_ApplyTransition r to at_ actor source reason meta).1.

Lemma replay_app allowed s l1 l2 :
  replay allowed s (l1 ++ l2) = replay allowed s l1 ≫= fun s' => replay allowed s' l2.
Proof.
  revert s. induction l1 as [|[[from to] at_] l1 IH]; intros s; [done|].
  cbn [replay app]. case_if; [apply IH|done].
Qed.

Lemma replay_one allowed s to at_ :
  allowed s to = true -> 0 < at_ -> replay allowed s [(s, to, at_)] = Some to.
Proof. intros Ha Hat. cbn. rewrite String.eqb_refl, Ha. cbn. by destruct (Z.ltb_spec 0 at_); [|lia]. Qed.

Lemma norm_task_moved_status t to at_ :
  task_may_move t to at_ -> norm_task_status to = to.
Proof.
  intros [Ha _]. apply norm_task_status_id. apply allowed_task_to in Ha. bool_to_prop. done.
Qed.

Lemma norm_run_moved_status r to at_ :
  run_may_move r to at_ -> norm_run_status to = to.
Proof.
  intros [Ha _]. apply norm_run_status_id. apply allowed_run_to in Ha. bool_to_prop. done.
Qed.

(** A log that replays to a final status from it is empty: nothing leaves
    [completed] or [cancelled]. *)
Lemma final_task_no_step s to :
  s = TaskStatusCompleted \/ s = TaskStatusCancelled -> AllowedTaskTransition s to = false.
Proof.
  intros Hs. apply not_true_iff_false. rewrite allowed_task_step by (destruct Hs; by subst).
  intros (p & q & -> & -> & H).
  destruct Hs as [Hs|Hs]; change (task_phase_status p = task_phase_status Completed) in Hs
    || change (task_phase_status p = task_phase_status Cancelled) in Hs;
    apply (inj task_phase_status) in Hs as ->; destruct q; refute_step.
Qed.

Lemma final_run_no_step s to :
  isTerminalTaskRunStatus s = true -> AllowedTaskRunTransition s to = false.
Proof.
  intros Hs. apply not_true_iff_false.
  assert (s ∈ TaskRunStatus_values) as [p ->]%run_phase_of_valid.
  { unfold isTerminalTaskRunStatus in Hs. switch_members.
    eapply member_incl; [eassumption | vm_compute; reflexivity]. }
  rewrite allowed_run_step by (by destruct p).
  intros (p' & q & Heq & -> & H). apply (inj run_phase_status) in Heq as <-.
  destruct p; try discriminate Hs; destruct q; refute_step.
Qed.

Lemma terminal_run_phases p :
  isTerminalTaskRunStatus (run_phase_status p) = true <-> run_final p.
Proof.
  unfold run_final. destruct p; split; intros H;
    first [reflexivity | discriminate H | solve [auto] | intuition discriminate].
Qed.

(** The appended part of the log replays from the initial to the current status. *)
Lemma task_calls_log t0 t :
  task_calls t0 t ->
  exists l, ts_Transitions t = ts_Transitions t0 ++ l
    /\ replay AllowedTaskTransition (norm_task_status (ts_Status t0)) (task_log l)
       = Some (norm_task_status (ts_Status t)).
Proof.
  induction 1 as [|t to at_ ac so re me _ (l & Hl & Hr)].
  - exists []. by rewrite app_nil_r.
  - destruct (task_apply_cases t to at_ ac so re me) as [[Hm ->]|(_ & e & ->)];
      cbn [fst]; [|by exists l].
    eexists (l ++ [_]). unfold task_moved; cbn. rewrite Hl, app_assoc. split; [done|].
    unfold task_log. rewrite map_app, replay_app. fold (task_log l). rewrite Hr. cbn [mbind option_bind].
    rewrite (norm_task_moved_status _ _ _ Hm). destruct Hm as (Ha & _ & Hat).
    by apply replay_one.
Qed.

Lemma run_calls_log r0 r :
  run_calls r0 r ->
  exists l, tr_Transitions r = tr_Transitions r0 ++ l
    /\ replay AllowedTaskRunTransition (norm_run_status (tr_Status r0)) (run_log l)
       = Some (norm_run_status (tr_Status r)).
Proof.
  induction 1 as [|r to at_ ac so re me _ (l & Hl & Hr)].
  - exists []. by rewrite app_nil_r.
  - destruct (run_apply_cases r to at_ ac so re me) as [[Hm ->]|(_ & e & ->)];
      cbn [fst]; [|by exists l].
    eexists (l ++ [_]). unfold run_moved; cbn. rewrite Hl, app_assoc. split; [done|].
    unfold run_log. rewrite map_app, replay_app. fold (run_log l). rewrite Hr. cbn [mbind option_bind].
    rewrite (norm_run_moved_status _ _ _ Hm). destruct Hm as (Ha & _ & Hat).
    by apply replay_one.
Qed.

(** Only work leads to completion: a log that replays from a status that is
    not yet at work to [completed] has an entry into [in_progress]. *)
Definition at_work (s : string) : Prop :=
  s = TaskStatusInProgress \/ s = TaskStatusVerifying \/ s = TaskStatusCompleted.

Lemma allowed_into_work s to :
  s <> "" -> AllowedTaskTransition s to = true -> at_work to -> ~ at_work s ->
  to = TaskStatusInProgress.
Proof.
  unfold at_work. intros Hne Ha Hto Hs.
  apply allowed_task_step in Ha as (p & q & -> & -> & H); [|done].
  destruct Hto as [Hto|[Hto|Hto]]; [done| |];
    [change (task_phase_status q = task_phase_status Verifying) in Hto
    |change (task_phase_status q = task_phase_status Completed) in Hto];
    apply (inj task_phase_status) in Hto as ->; destruct p;
    first [solve [refute_step] | solve [exfalso; apply Hs; cbn; auto]].
Qed.

Lemma replay_needs_work s l s' :
  s <> "" -> replay AllowedTaskTransition s l = Some s' -> at_work s' -> ~ at_work s ->
  exists e, e ∈ l /\ e.1.2 = TaskStatusInProgress.
Proof.
  revert s. induction l as [|[[from to] at_] l IH]; intros s Hne Hr Hw Hs; cbn in Hr.
  { by simplify_eq. }
  destruct (String.eqb_spec from s) as [->|]; [|done].
  destruct (AllowedTaskTransition s to) eqn:Ha; [|done].
  destruct (0 <? at_); [|done]. cbn in Hr.
  assert (to <> "") by (intros ->; discriminate).
  destruct (decide (to = TaskStatusInProgress)) as [->|Hto].
  - exists (s, TaskStatusInProgress, at_). split; [apply list_elem_of_here|done].
  - destruct (IH to) as (e & He & ?); auto.
    + intros Hwt. by apply Hto, (allowed_into_work s to).
    + exists e. split; [by apply list_elem_of_further|done].
Qed.

Lemma calls_verification t0 t :
  task_calls t0 t ->
  VerificationSpec_Normalize (ts_Verification t) = VerificationSpec_Normalize (ts_Verification t0).
Proof.
  induction 1 as [|t to at_ ac so re me _ IH]; [done|]. rewrite <- IH.
  destruct (task_apply_cases t to at_ ac so re me) as [[_ ->]|(_ & e & ->)]; cbn [fst].
  - unfold task_moved. rewrite TaskSpec_Normalize_fields. cbn. apply VerificationSpec_Normalize_idem.
  - unfold task_checks_normalized, VerificationSpec_Normalize. by_fields. apply map_check_normalize_idem.
Qed.

(** ** Properties of tasks *)

(** The task transition table is exactly the abstract state machine: a new
    task starts pending, and otherwise a move is allowed when both statuses
    are phases related by [task_step]. *)
Theorem task_table_refines_machine from to :
  AllowedTaskTransition from to = true
  <-> (from = "" /\ to = TaskStatusPending)
      \/ exists p q, from = task_phase_status p /\ to = task_phase_status q /\ task_step p q.
Proof.
  destruct (String.eqb_spec from "") as [->|Hne].
  - split.
    + unfold AllowedTaskTransition. intros H. case_if. cbn in H. bool_to_prop. auto.
    + intros [[_ ->]|(p & q & Hp & _)]; [reflexivity|]. by destruct p.
  - rewrite allowed_task_step by done. intuition congruence.
Qed.

(** [TaskSpec.ApplyTransition] succeeds exactly when the move is in the
    table, a required verification gate is satisfied and the time is positive;
    it then returns the normalised task with the new status, timestamps and
    one more log entry, and otherwise it changes nothing but the in-place
    normalisation of the checks. *)
Theorem task_apply_transition_spec t to at_ actor source reason meta :
  let '(t', e) := TaskSpec_ApplyTransition t to at_ actor source reason meta in
  is_nil e = bool_decide (task_may_move t to at_)
  /\ t' = if decide (task_may_move t to at_)
          then task_moved t to at_ actor source reason meta else task_checks_normalized t.
Proof.
  destruct (task_apply_cases t to at_ actor source reason meta)
    as [[Hm ->]|(Hm & e & ->)].
  - by rewrite bool_decide_eq_true_2, decide_True.
  - by rewrite bool_decide_eq_false_2, decide_False.
Qed.

(** C6: the transition log is append-only and replays: after any sequence of
    calls, successful or not, the entries added since [t0] start at its status,
    follow the table one after another and end at the current status. *)
Theorem task_history_replays t0 t :
  task_calls t0 t ->
  exists l, ts_Transitions t = ts_Transitions t0 ++ l
    /\ replay AllowedTaskTransition (norm_task_status (ts_Status t0)) (task_log l)
       = Some (norm_task_status (ts_Status t)).
Proof. apply task_calls_log. Qed.

Definition sample_task : TaskSpec :=
  zero_task <| ts_TaskID := "t1" |> <| ts_Title := "T" |> <| ts_Instructions := "do" |>.

Definition sample_started : TaskSpec :=
  (TaskSpec_ApplyTransition sample_task TaskStatusInProgress 7 " bob" "cli" "" None).1.

Definition sample_completed : TaskSpec :=
  (TaskSpec_ApplyTransition sample_started TaskStatusCompleted 9 "bob" "cli" "done" None).1.

Lemma sample_task_calls : task_calls sample_task sample_completed.
Proof. repeat apply task_calls_step. apply task_calls_refl. Defined.

Lemma task_history_replays_witness :
  exists l, ts_Transitions sample_completed = ts_Transitions sample_task ++ l
    /\ replay AllowedTaskTransition (norm_task_status (ts_Status sample_task)) (task_log l)
       = Some (norm_task_status (ts_Status sample_completed)).
Proof. apply (task_history_replays sample_task). exact sample_task_calls. Defined.

(** C7: a task that starts pending and reaches [completed] was in progress at
    some logged moment, and if its verification policy is [required], every
    required check has passed or been skipped. *)
Theorem completed_task_worked_and_verified t0 t :
  norm_task_status (ts_Status t0) = TaskStatusPending -> ts_Transitions t0 = [] ->
  task_calls t0 t -> ts_Status t = TaskStatusCompleted ->
  (exists x, x ∈ ts_Transitions t /\ tt_To x = TaskStatusInProgress)
  /\ (vs_Policy (VerificationSpec_Normalize (ts_Verification t)) = VerificationPolicyRequired ->
      VerificationSpec_AllRequiredPassed (VerificationSpec_Normalize (ts_Verification t)) = true).
Proof.
  intros Hp Hl Hc Hs. split.
  - destruct (task_calls_log _ _ Hc) as (l & Hlog & Hr).
    rewrite Hl in Hlog. cbn in Hlog. rewrite Hp, Hs in Hr.
    destruct (replay_needs_work TaskStatusPending (task_log l) TaskStatusCompleted)
      as (e & He & Hto); [done | exact Hr | by unfold at_work; auto
                         | unfold at_work; intuition discriminate |].
    unfold task_log in He. rewrite list_elem_of_In, in_map_iff in He.
    destruct He as (x & <- & Hx). exists x. rewrite Hlog. by rewrite list_elem_of_In.
  - intros Hreq. clear Hl. induction Hc as [|t to at_ ac so re me Hc IH].
    { rewrite Hs in Hp. discriminate. }
    destruct (task_apply_cases t to at_ ac so re me) as [[Hm Heq]|(_ & e & Heq)];
      rewrite Heq in *; cbn [fst] in *.
    + unfold task_moved in *. rewrite TaskSpec_Normalize_fields in *. cbn in *.
      rewrite VerificationSpec_Normalize_idem in *. by apply Hm.
    + pose proof (calls_verification _ _ (task_calls_step _ _ to at_ ac so re me (task_calls_refl t))) as Hv.
      rewrite Heq in Hv. cbn [fst] in Hv. rewrite Hv in *. by apply IH.
Qed.

Lemma completed_task_worked_and_verified_witness :
  (exists x, x ∈ ts_Transitions sample_completed /\ tt_To x = TaskStatusInProgress)
  /\ (vs_Policy (VerificationSpec_Normalize (ts_Verification sample_completed))
        = VerificationPolicyRequired ->
      VerificationSpec_AllRequiredPassed
        (VerificationSpec_Normalize (ts_Verification sample_completed)) = true).
Proof.
  apply (completed_task_worked_and_verified sample_task);
    [reflexivity | reflexivity | exact sample_task_calls | vm_compute; reflexivity].
Defined.

(** Completed and cancelled tasks are final: whatever is called on them,
    the status and the log stay as they are. *)
Theorem final_task_is_frozen t0 t :
  ts_Status t0 = TaskStatusCompleted \/ ts_Status t0 = TaskStatusCancelled ->
  task_calls t0 t -> ts_Status t = ts_Status t0 /\ ts_Transitions t = ts_Transitions t0.
Proof.
  intros Hf. induction 1 as [|t to at_ ac so re me _ [Hs Hl]]; [done|].
  destruct (task_apply_cases t to at_ ac so re me) as [[Hm Heq]|(_ & e & ->)]; [|by split].
  exfalso. destruct Hm as [Ha _]. rewrite Hs in Ha.
  assert (norm_task_status (ts_Status t0) = ts_Status t0) as Hn by (by destruct Hf as [-> | ->]).
  rewrite Hn, (final_task_no_step (ts_Status t0) to Hf) in Ha. discriminate.
Qed.

Lemma final_task_is_frozen_witness :
  let t := (TaskSpec_ApplyTransition sample_completed TaskStatusFailed 11 "eve" "" "" None).1 in
  ts_Status t = ts_Status sample_completed
  /\ ts_Transitions t = ts_Transitions sample_completed.
Proof.
  apply final_task_is_frozen; [left; vm_compute; reflexivity|].
  apply task_calls_step, task_calls_refl.
Defined.

(** ** Properties of runs *)

(** The run transition table is exactly the abstract run machine. *)
Theorem run_table_refines_machine from to :
  AllowedTaskRunTransition from to = true
  <-> (from = "" /\ to = TaskRunStatusQueued)
      \/ exists p q, from = run_phase_status p /\ to = run_phase_status q /\ run_step p q.
Proof.
  destruct (String.eqb_spec from "") as [->|Hne].
  - split.
    + unfold AllowedTaskRunTransition. intros H. case_if. cbn in H. bool_to_prop. auto.
    + intros [[_ ->]|(p & q & Hp & _)]; [reflexivity|]. by destruct p.
  - rewrite allowed_run_step by done. intuition congruence.
Qed.

(** The timestamps of a run agree with its status: it has ended exactly when
    it is in a terminal status, and it has started when it runs, verifies or
    has completed. *)
Definition run_times_ok (r : TaskRun) : Prop :=
  let st := norm_run_status (tr_Status r) in
  (isTerminalTaskRunStatus st = true <-> 0 < tr_EndedAt r)
  /\ (st ∈ [TaskRunStatusRunning; TaskRunStatusVerifying; TaskRunStatusCompleted] ->
      0 < tr_StartedAt r)
  /\ 0 <= tr_StartedAt r.

(** Statuses from which a started status other than [running] is entered. *)
Lemma allowed_into_started s to :
  s <> "" -> AllowedTaskRunTransition s to = true ->
  to = TaskRunStatusVerifying \/ to = TaskRunStatusCompleted ->
  s ∈ [TaskRunStatusRunning; TaskRunStatusVerifying; TaskRunStatusCompleted].
Proof.
  intros Hne Ha Hto. apply allowed_run_step in Ha as (p & q & -> & -> & H); [|done].
  assert (q = RVerifying \/ q = RCompleted) as [-> | ->]
    by (destruct Hto; [left|right]; by apply (inj run_phase_status));
    destruct p; first [solve [refute_step] | decide_member].
Qed.

Lemma run_move_times r to at_ ac so re me :
  run_may_move r to at_ -> run_times_ok r -> run_times_ok (run_moved r to at_ ac so re me).
Proof.
  intros Hm (Hend & Hstart & Hnn). unfold run_times_ok, run_moved; cbn.
  rewrite (norm_run_moved_status _ _ _ Hm). destruct Hm as (Ha & _ & Hat).
  assert (~ 0 < tr_EndedAt r) as Hnot.
  { rewrite <- Hend. intros Ht. by rewrite (final_run_no_step _ to Ht) in Ha. }
  repeat split.
  - by intros ->.
  - destruct (isTerminalTaskRunStatus to); [done|]. intros. contradiction.
  - intros Hto. destruct (String.eqb_spec to TaskRunStatusRunning) as [->|Hnr]; cbn.
    + case_if; bool_to_prop; lia.
    + apply Hstart. apply (allowed_into_started _ to); auto using norm_run_status_nonempty.
      rewrite !elem_of_cons in Hto. destruct Hto as [|[|[|Hto]]]; auto; [contradiction|].
      by apply not_elem_of_nil in Hto.
  - case_if; lia.
Qed.

(** Whatever calls are made on a run whose timestamps are consistent (a
    queued run that has neither started nor ended is), the timestamps stay
    consistent with the status. *)
Theorem run_timestamps_consistent r0 r :
  run_times_ok r0 -> run_calls r0 r -> run_times_ok r.
Proof.
  intros H0. induction 1 as [|r to at_ ac so re me _ IH]; [done|].
  destruct (run_apply_cases r to at_ ac so re me) as [[Hm ->]|(_ & e & ->)]; cbn [fst].
  - by apply run_move_times.
  - exact IH.
Qed.

Definition sample_run : TaskRun :=
  zero_run <| tr_RunID := "r1" |> <| tr_TaskID := "t1" |> <| tr_Status := TaskRunStatusQueued |>.

Lemma run_timestamps_consistent_witness :
  run_times_ok (TaskRun_ApplyTransition (TaskRun_ApplyTransition sample_run
    TaskRunStatusRunning 5 "" "" "" None).1 TaskRunStatusFailed 6 "" "" "" None).1.
Proof.
  apply (run_timestamps_consistent sample_run).
  - split; [split; vm_compute; discriminate|]. split; [|vm_compute; discriminate].
    intros H. apply (bool_decide_pack _) in H. destruct H.
  - repeat apply run_calls_step. apply run_calls_refl.
Defined.

(** Completed, failed and cancelled runs are final, and the log of a run
    replays like that of a task. *)
Theorem run_history_replays r0 r :
  run_calls r0 r ->
  (exists l, tr_Transitions r = tr_Transitions r0 ++ l
    /\ replay AllowedTaskRunTransition (norm_run_status (tr_Status r0)) (run_log l)
       = Some (norm_run_status (tr_Status r)))
  /\ (isTerminalTaskRunStatus (tr_Status r0) = true ->
      tr_Status r = tr_Status r0 /\ tr_Transitions r = tr_Transitions r0).
Proof.
  intros Hc. split; [by apply run_calls_log|]. intros Hf.
  induction Hc as [|r to at_ ac so re me _ [Hs Hl]]; [done|].
  destruct (run_apply_cases r to at_ ac so re me) as [[Hm Heq]|(_ & e & ->)]; [|by split].
  exfalso. destruct Hm as [Ha _]. rewrite Hs in Ha.
  unfold norm_run_status in Ha. destruct (TaskRunStatus_Valid (tr_Status r0)) eqn:Hv.
  - by rewrite (final_run_no_step _ to Hf) in Ha.
  - unfold isTerminalTaskRunStatus in Hf. switch_members.
    rewrite run_status_valid_value in Hv; [done|].
    eapply member_incl; [eassumption | vm_compute; reflexivity].
Qed.

Lemma run_history_replays_witness :
  let r1 := (TaskRun_ApplyTransition sample_run TaskRunStatusCancelled 5 "" "" "" None).1 in
  (exists l, tr_Transitions r1 = tr_Transitions sample_run ++ l
    /\ replay AllowedTaskRunTransition (norm_run_status (tr_Status sample_run)) (run_log l)
       = Some (norm_run_status (tr_Status r1)))
  /\ (isTerminalTaskRunStatus (tr_Status sample_run) = true ->
      tr_Status r1 = tr_Status sample_run /\ tr_Transitions r1 = tr_Transitions sample_run).
Proof. apply run_history_replays, run_calls_step, run_calls_refl. Defined.

(** ** Attempt numbers *)

Definition same_task (taskID : string) (r : TaskRun) : Prop := TrimSpace (tr_TaskID r) = taskID.

Lemma next_attempt_spec taskID runID priors a n :
  Forall (fun r => int64_range (tr_Attempt r + 1)) priors ->
  next_attempt taskID runID priors a = Ok n ->
  Forall (fun r => TrimSpace (tr_RunID r) <> runID) priors
  /\ a <= n
  /\ Forall (fun r => same_task taskID r -> tr_Attempt r < n) priors
  /\ (n = a \/ Exists (fun r => same_task taskID r /\ n = tr_Attempt r + 1) priors).
Proof.
  unfold same_task. intros Hr. revert a.
  induction Hr as [|r priors Hb Hr IH]; intros a H; cbn [next_attempt] in H.
  { simplify_eq. repeat split; auto. lia. }
  rewrite !Forall_cons, Exists_cons.
  destruct (String.eqb_spec (TrimSpace (tr_RunID r)) runID); [done|].
  destruct (String.eqb_spec (TrimSpace (tr_TaskID r)) taskID); cbn [negb] in H.
  - rewrite add64_small in H by done.
    destruct (Z.leb_spec a (tr_Attempt r)); apply IH in H as (? & ? & ? & Hn);
      intuition (subst; auto; lia).
  - apply IH in H as (? & ? & ? & Hn). intuition.
Qed.

(** The checks of a normalised spec are already normalised. *)
Lemma checks_of_normalized v :
  (VerificationSpec_Normalize v)
    <| vs_Checks := map VerificationCheck_Normalize (vs_Checks (VerificationSpec_Normalize v)) |>
  = VerificationSpec_Normalize v.
Proof. unfold VerificationSpec_Normalize. by_fields. apply map_check_normalize_idem. Qed.

Lemma Validate_normalized_task t :
  TaskSpec_Validate (TaskSpec_Normalize t) = None ->
  blank (ts_TaskID t) = false
  /\ VerificationSpec_Validate (VerificationSpec_Normalize (ts_Verification t)) = None.
Proof.
  unfold TaskSpec_Validate. rewrite first_error_None, !Forall_cons, !error_if_None.
  intros (Hid & _ & _ & _ & _ & _ & _ & _ & Hv & _).
  rewrite TaskSpec_Normalize_fields in Hid, Hv. cbn in Hid, Hv.
  rewrite checks_of_normalized in Hv. split; [done|].
  by destruct (VerificationSpec_Validate _).
Qed.

(** A new attempt is a fresh queued run of the task, numbered just above
    every earlier attempt recorded under the task's identifier; it is valid,
    in normal form and its timestamps are consistent.  (Attempt numbers are
    assumed not to be at the top of the 64-bit range.) *)
Theorem new_attempt_is_next task runID priors at_ trigger actor source run :
  Forall (fun r => int64_range (tr_Attempt r + 1)) priors ->
  NewTaskRunAttempt task runID priors at_ trigger actor source = Ok run ->
  (tr_RunID run = TrimSpace runID /\ tr_TaskID run = ts_TaskID task
   /\ tr_Status run = TaskRunStatusQueued)
  /\ Forall (fun r => TrimSpace (tr_RunID r) <> tr_RunID run) priors
  /\ Forall (fun r => same_task (ts_TaskID task) r -> tr_Attempt r < tr_Attempt run) priors
  /\ (tr_Attempt run = 1
      \/ Exists (fun r => same_task (ts_TaskID task) r
                          /\ tr_Attempt run = tr_Attempt r + 1) priors)
  /\ TaskRun_Validate run = None /\ TaskRun_Normalize run = run /\ run_times_ok run.
Proof.
  intros Hb. unfold NewTaskRunAttempt.
  assert (ts_TaskID (TaskSpec_Normalize task) = ts_TaskID task) as Htid
    by (by rewrite TaskSpec_Normalize_fields).
  destruct (TaskSpec_Validate (TaskSpec_Normalize task)) eqn:Hv; [discriminate|].
  apply Validate_normalized_task in Hv as [Hid Hv].
  destruct (String.eqb_spec (TrimSpace runID) "") as [|Hrid]; [discriminate|].
  rewrite Htid.
  destruct (next_attempt _ _ priors 1) as [n|] eqn:Hn; [|discriminate].
  case_if. intros Hrun. apply Ok_inj in Hrun as <-.
  apply next_attempt_spec in Hn as (Hfresh & Hge & Hlt & Hnext); [|done].
  cbn. split; [by repeat split|]. split; [done|]. split; [done|]. split; [done|].
  split; [|split; [|repeat split]].
  - unfold TaskRun_Validate. rewrite first_error_None, !Forall_cons, !error_if_None, wrap_error_None.
    cbn. repeat split; auto.
    + rewrite blank_TrimSpace. unfold blank. by apply String.eqb_neq.
    + apply Z.ltb_ge. lia.
    + rewrite TaskSpec_Normalize_fields. cbn. by rewrite VerificationSpec_Normalize_idem.
  - rewrite TaskRun_Normalize_fields. by_fields.
    + by destruct (Z.leb_spec n 0); [lia|].
    + apply VerificationSpec_Normalize_idem.
  - intros H. discriminate H.
  - intros H. discriminate H.
  - intros H. apply (bool_decide_pack _) in H. destruct H.
  - done.
Qed.

Definition sample_attempt : TaskRun :=
  match NewTaskRunAttempt sample_task " r2 " [sample_run <| tr_Attempt := 4 |>] 9 "" "" "" with
  | Ok run => run
  | Err _ => zero_run
  end.

Lemma new_attempt_is_next_witness :
  tr_Attempt sample_attempt = 5 /\ TaskRun_Validate sample_attempt = None.
Proof.
  split; [vm_compute; reflexivity|].
  destruct (new_attempt_is_next sample_task " r2 " [sample_run <| tr_Attempt := 4 |>] 9 "" "" ""
              sample_attempt) as (_ & _ & _ & _ & Hv & _).
  - repeat constructor; vm_compute; congruence.
  - vm_compute. reflexivity.
  - exact Hv.
Defined.

(** A task identifier with surrounding white space is valid, and its earlier
    attempts are then not recognised: the number stays at 1. *)
Example attempt_of_untrimmed_task_id :
  let task := sample_task <| ts_TaskID := " t1" |> in
  let prior := sample_run <| tr_TaskID := " t1" |> <| tr_Attempt := 4 |> in
  TaskSpec_Validate task = None
  /\ exists run, NewTaskRunAttempt task "r2" [prior] 9 "" "" "" = Ok run /\ tr_Attempt run = 1.
Proof. split; [reflexivity|]. eexists. split; vm_compute; reflexivity. Qed.

(** [Valid] accepts case and white space variants of a status and [Normalize]
    keeps them, but the transition table knows only the declared spellings: a
    task or a run that passes validation with a status such as "Pending" never
    makes a transition, whatever is asked. *)
Theorem variant_status_is_stuck t r to at_ actor source reason meta :
  ts_Status t ∉ TaskStatus_values -> TaskStatus_Valid (ts_Status t) = true ->
  tr_Status r ∉ TaskRunStatus_values -> TaskRunStatus_Valid (tr_Status r) = true ->
  (exists e, TaskSpec_ApplyTransition t to at_ actor source reason meta
             = (task_checks_normalized t, Some e))
  /\ (exists e, TaskRun_ApplyTransition r to at_ actor source reason meta
               = (run_checks_normalized r, Some e)).
Proof.
  intros Ht Hvt Hr Hvr. split.
  - destruct (task_apply_cases t to at_ actor source reason meta) as [[[Ha _] _]|[_ ?]]; [|done].
    rewrite norm_task_status_id in Ha by done.
    apply allowed_task_values in Ha as [? _]; [done|]. by apply valid_nonempty_task.
  - destruct (run_apply_cases r to at_ actor source reason meta) as [[[Ha _] _]|[_ ?]]; [|done].
    rewrite norm_run_status_id in Ha by done.
    apply allowed_run_values in Ha as [? _]; [done|]. by apply valid_nonempty_run.
Qed.

Lemma variant_status_is_stuck_witness :
  TaskSpec_Validate (sample_task <| ts_Status := "Pending" |>) = None
  /\ exists e, TaskSpec_ApplyTransition (sample_task <| ts_Status := "Pending" |>)
       TaskStatusReady 5 "" "" "" None
     = (task_checks_normalized (sample_task <| ts_Status := "Pending" |>), Some e).
Proof.
  split; [vm_compute; reflexivity|].
  apply (variant_status_is_stuck (sample_task <| ts_Status := "Pending" |>)
    (sample_run <| tr_Status := "Running" |>) TaskStatusReady 5 "" "" "" None).
  - intros H. apply (bool_decide_pack _) in H. vm_compute in H. destruct H.
  - vm_compute. reflexivity.
  - intros H. apply (bool_decide_pack _) in H. vm_compute in H. destruct H.
  - vm_compute. reflexivity.
Defined.
