(* ===== verification/Plans.v ===== *)
(** Plans: internal/store/state/models_plans.go.

    Validation of the step graph, the depth-first cycle check [HasCycle], and
    the ready set.  The recursion of the Go closure [dfs] is bounded by fuel;
    [HasCycle_terminates] shows the fuel is enough for every plan. *)

From Stdlib Require Import String.
From stdpp Require Import base tactics decidable list gmap strings relations.
From S2P Require Import Prelude Enums Verification Budget TaskModels.

Record PlanApproval := mkPlanApproval {
  pa_PlanID : string;
  pa_Revision : Z;
  pa_Decision : string;
  pa_Actor : string;
  pa_Reason : string;
  pa_CreatedAt : Z;
  pa_Meta : gomap any
}.

Record PlanStep := mkPlanStep {
  ps_StepID : string;
  ps_Title : string;
  ps_Instructions : string;
  ps_DependsOn : list string;
  ps_Status : string;
  ps_TaskID : string;
  ps_Agent : string;
  ps_Outputs : list TaskOutputSpec;
  ps_Meta : gomap any
}.

#[export] Instance set_ps_Status : Setter ps_Status := fun v r =>
  mkPlanStep (ps_StepID r) (ps_Title r) (ps_Instructions r) (ps_DependsOn r) v (ps_TaskID r)
    (ps_Agent r) (ps_Outputs r) (ps_Meta r).
#[export] Instance set_ps_TaskID : Setter ps_TaskID := fun v r =>
  mkPlanStep (ps_StepID r) (ps_Title r) (ps_Instructions r) (ps_DependsOn r) (ps_Status r) v
    (ps_Agent r) (ps_Outputs r) (ps_Meta r).
#[export] Instance PlanStep_ext : RecordExt PlanStep (fun a b =>
  ps_StepID a = ps_StepID b /\ ps_Title a = ps_Title b /\ ps_Instructions a =
  ps_Instructions b /\ ps_DependsOn a = ps_DependsOn b /\ ps_Status a = ps_Status b /\
  ps_TaskID a = ps_TaskID b /\ ps_Agent a = ps_Agent b /\ ps_Outputs a = ps_Outputs b /\
  ps_Meta a = ps_Meta b).
Proof.
  intros [] []; cbn. intros H. decompose [and] H. by subst.
Qed.

Definition PlanStep_Normalize (s : PlanStep) : PlanStep :=
  if negb (PlanStepStatus_Valid (ps_Status s))
  then s <| ps_Status := PlanStepStatusPending |> else s.

(** The loop over [Outputs]; the message also names the step. *)
Fixpoint outputs_named (step_id : string) (i : Z) (outs : list TaskOutputSpec) : option error :=
  match outs with
  | [] => None
  | out :: outs =>
    if blank (os_Name out)
    then Some (Errorf "step %q outputs[%d].name is required" [ArgS step_id; ArgZ i])
    else outputs_named step_id (i + 1) outs
  end.

Definition PlanStep_Validate (s : PlanStep) : option error :=
  first_error
    [ error_if (blank (ps_StepID s)) (Errorf "step_id is required" []);
      error_if (blank (ps_Title s)) (Errorf "step title is required" []);
      error_if (negb (blank (ps_Status s)) && negb (PlanStepStatus_Valid (ps_Status s)))
        (Errorf "invalid step status %q" [ArgS (ps_Status s)]);
      outputs_named (ps_StepID s) 0 (ps_Outputs s) ].

Record PlanSpec := mkPlanSpec {
  pl_Version : Z;
  pl_PlanID : string;
  pl_GoalID : string;
  pl_Title : string;
  pl_Revision : Z;
  pl_Status : string;
  pl_Steps : list PlanStep;
  pl_Assumptions : list string;
  pl_Risks : list string;
  pl_RollbackStrategy : string;
  pl_CreatedAt : Z;
  pl_UpdatedAt : Z;
  pl_Meta : gomap any
}.

#[export] Instance set_pl_Version : Setter pl_Version := fun v r =>
  mkPlanSpec v (pl_PlanID r) (pl_GoalID r) (pl_Title r) (pl_Revision r) (pl_Status r) (pl_Steps
    r) (pl_Assumptions r) (pl_Risks r) (pl_RollbackStrategy r) (pl_CreatedAt r) (pl_UpdatedAt
    r) (pl_Meta r).
#[export] Instance set_pl_Revision : Setter pl_Revision := fun v r =>
  mkPlanSpec (pl_Version r) (pl_PlanID r) (pl_GoalID r) (pl_Title r) v (pl_Status r) (pl_Steps
    r) (pl_Assumptions r) (pl_Risks r) (pl_RollbackStrategy r) (pl_CreatedAt r) (pl_UpdatedAt
    r) (pl_Meta r).
#[export] Instance set_pl_Status : Setter pl_Status := fun v r =>
  mkPlanSpec (pl_Version r) (pl_PlanID r) (pl_GoalID r) (pl_Title r) (pl_Revision r) v
    (pl_Steps r) (pl_Assumptions r) (pl_Risks r) (pl_RollbackStrategy r) (pl_CreatedAt r)
    (pl_UpdatedAt r) (pl_Meta r).
#[export] Instance set_pl_Steps : Setter pl_Steps := fun v r =>
  mkPlanSpec (pl_Version r) (pl_PlanID r) (pl_GoalID r) (pl_Title r) (pl_Revision r) (pl_Status
    r) v (pl_Assumptions r) (pl_Risks r) (pl_RollbackStrategy r) (pl_CreatedAt r) (pl_UpdatedAt
    r) (pl_Meta r).
#[export] Instance set_pl_UpdatedAt : Setter pl_UpdatedAt := fun v r =>
  mkPlanSpec (pl_Version r) (pl_PlanID r) (pl_GoalID r) (pl_Title r) (pl_Revision r) (pl_Status
    r) (pl_Steps r) (pl_Assumptions r) (pl_Risks r) (pl_RollbackStrategy r) (pl_CreatedAt r) v
    (pl_Meta r).
#[export] Instance set_pl_Meta : Setter pl_Meta := fun v r =>
  mkPlanSpec (pl_Version r) (pl_PlanID r) (pl_GoalID r) (pl_Title r) (pl_Revision r) (pl_Status
    r) (pl_Steps r) (pl_Assumptions r) (pl_Risks r) (pl_RollbackStrategy r) (pl_CreatedAt r)
    (pl_UpdatedAt r) v.
#[export] Instance PlanSpec_ext : RecordExt PlanSpec (fun a b =>
  pl_Version a = pl_Version b /\ pl_PlanID a = pl_PlanID b /\ pl_GoalID a = pl_GoalID b /\
  pl_Title a = pl_Title b /\ pl_Revision a = pl_Revision b /\ pl_Status a = pl_Status b /\
  pl_Steps a = pl_Steps b /\ pl_Assumptions a = pl_Assumptions b /\ pl_Risks a = pl_Risks
  b /\ pl_RollbackStrategy a = pl_RollbackStrategy b /\ pl_CreatedAt a = pl_CreatedAt b /\
  pl_UpdatedAt a = pl_UpdatedAt b /\ pl_Meta a = pl_Meta b).
Proof.
  intros [] []; cbn. intros H. decompose [and] H. by subst.
Qed.

Definition PlanSpec_Normalize (p : PlanSpec) : PlanSpec :=
  let p := if pl_Version p =? 0 then p <| pl_Version := 1 |> else p in
  let p := if pl_Revision p <=? 0 then p <| pl_Revision := 1 |> else p in
  let p := if negb (PlanStatus_Valid (pl_Status p))
           then p <| pl_Status := PlanStatusDraft |> else p in
  p <| pl_Steps := map PlanStep_Normalize (pl_Steps p) |>.

(** The first loop of [Validate]; [seen] is the map [stepIDs] so far. *)
Fixpoint validate_steps (i : Z) (seen : gset string) (steps : list PlanStep) : option error :=
  match steps with
  | [] => None
  | step :: steps =>
    match PlanStep_Validate step with
    | Some e => Some (Wrapf "steps[%d]: %w" [ArgZ i] e)
    | None =>
      if decide (ps_StepID step ∈ seen)
      then Some (Errorf "duplicate step_id %q at steps[%d]" [ArgS (ps_StepID step); ArgZ i])
      else validate_steps (i + 1) ({[ps_StepID step]} ∪ seen) steps
    end
  end.

(** The second loop: dependencies name known steps, and not the step itself. *)
Fixpoint validate_deps (i : Z) (ids : gset string) (id : string) (deps : list string)
  : option error :=
  match deps with
  | [] => None
  | dep :: deps =>
    if decide (dep ∉ ids)
    then Some (Errorf "steps[%d] depends_on unknown step_id %q" [ArgZ i; ArgS dep])
    else if dep ==? id then Some (Errorf "steps[%d] depends on itself" [ArgZ i])
    else validate_deps i ids id deps
  end.

Fixpoint validate_all_deps (i : Z) (ids : gset string) (steps : list PlanStep) : option error :=
  match steps with
  | [] => None
  | step :: steps =>
    match validate_deps i ids (ps_StepID step) (ps_DependsOn step) with
    | Some e => Some e
    | None => validate_all_deps (i + 1) ids steps
    end
  end.

Definition step_ids (steps : list PlanStep) : gset string :=
  list_to_set (map ps_StepID steps).

Definition PlanSpec_Validate (p : PlanSpec) : option error :=
  first_error
    [ error_if (blank (pl_PlanID p)) (Errorf "plan_id is required" []);
      error_if (blank (pl_Title p)) (Errorf "plan title is required" []);
      error_if (negb (blank (pl_Status p)) && negb (PlanStatus_Valid (pl_Status p)))
        (Errorf "invalid plan status %q" [ArgS (pl_Status p)]);
      error_if (Nat.eqb (length (pl_Steps p)) 0)
        (Errorf "plan must have at least one step" []);
      validate_steps 0 ∅ (pl_Steps p);
      validate_all_deps 0 (step_ids (pl_Steps p)) (pl_Steps p) ].

(** ** Cycle detection *)

(** [white] is the zero value of a missing entry of the map [color]. *)
Inductive color := Gray | Black.
#[export] Instance color_eq_dec : EqDecision color.
Proof. solve_decision. Defined.

(** [for _, step := range p.Steps { m[step.StepID] = f(step) }] *)
Definition index_by {V} (f : PlanStep -> V) (steps : list PlanStep) : gmap string V :=
  fold_left (fun m step => <[ps_StepID step := f step]> m) steps ∅.

Definition adjacency (steps : list PlanStep) : gmap string (list string) :=
  index_by ps_DependsOn steps.

Section Dfs.
Variable adj : string -> list string.

(** The inner loop of the closure [dfs] over the dependencies of [id]; [rec] is
    the recursive call, [None] its running out of fuel. *)
Fixpoint visit_deps (rec : gmap string color -> string -> option (bool * gmap string color))
    (id : string) (deps : list string) (col : gmap string color)
  : option (bool * gmap string color) :=
  match deps with
  | [] => Some (false, <[id := Black]> col)
  | dep :: deps =>
    match col !! dep with
    | Some Gray => Some (true, col)
    | None =>
      match rec col dep with
      | None => None
      | Some (true, col) => Some (true, col)
      | Some (false, col) => visit_deps rec id deps col
      end
    | Some Black => visit_deps rec id deps col
    end
  end.

Fixpoint dfs (fuel : nat) (col : gmap string color) (id : string)
  : option (bool * gmap string color) :=
  match fuel with
  | O => None
  | S fuel => visit_deps (dfs fuel) id (adj id) (<[id := Gray]> col)
  end.

(** The outer loop of [HasCycle] over the steps. *)
Fixpoint dfs_all (fuel : nat) (col : gmap string color) (ids : list string)
  : option (bool * gmap string color) :=
  match ids with
  | [] => Some (false, col)
  | id :: ids =>
    match col !! id with
    | None =>
      match dfs fuel col id with
      | None => None
      | Some (true, col) => Some (true, col)
      | Some (false, col) => dfs_all fuel col ids
      end
    | Some _ => dfs_all fuel col ids
    end
  end.
End Dfs.

Definition plan_adj (p : PlanSpec) (id : string) : list string :=
  default [] (adjacency (pl_Steps p) !! id).

(** Every identifier a search can meet. *)
Definition plan_nodes (p : PlanSpec) : gset string :=
  list_to_set (map ps_StepID (pl_Steps p) ++ mjoin (map ps_DependsOn (pl_Steps p))).

Definition HasCycle_run (p : PlanSpec) : option bool :=
  fst <$> dfs_all (plan_adj p) (S (size (plan_nodes p))) ∅ (map ps_StepID (pl_Steps p)).

Definition PlanSpec_HasCycle (p : PlanSpec) : bool := default true (HasCycle_run p).

(** ** Ready steps *)

Definition status_by_id (steps : list PlanStep) : gmap string string :=
  index_by ps_Status steps.

(** [ds == completed || ds == skipped], with the zero value for a missing key. *)
Definition dep_done (m : gmap string string) (dep : string) : bool :=
  let ds := default "" (m !! dep) in
  negb ((ds !=? PlanStepStatusCompleted) && (ds !=? PlanStepStatusSkipped)).

Definition PlanSpec_ReadySteps (p : PlanSpec) : list PlanStep :=
  let statusByID := status_by_id (pl_Steps p) in
  List.filter (fun step =>
    (ps_Status step ==? PlanStepStatusPending)
    && forallb (dep_done statusByID) (ps_DependsOn step)) (pl_Steps p).

Definition PlanSpec_IsTerminal (p : PlanSpec) : bool :=
  go_switch (pl_Status p)
    [([PlanStatusCompleted; PlanStatusFailed; PlanStatusCancelled], true)] false.

(** ** The search is correct *)
Section DfsCorrect.
Variable adj : string -> list string.

Definition edge (x y : string) : Prop := y ∈ adj x.

(** Black nodes are on no cycle and lead to black nodes only. *)
Definition dfs_inv (col : gmap string color) : Prop :=
  forall x, col !! x = Some Black ->
    ~ tc edge x x /\ forall d, edge x d -> col !! d = Some Black.

(** What a search from [id] achieves: it exhibits a cycle, or blackens [id]
    and changes no gray or black mark. *)
Definition dfs_post (col : gmap string color) (id : string)
    (r : bool * gmap string color) : Prop :=
  match r with
  | (true, _) => exists x, tc edge x x
  | (false, col') =>
    dfs_inv col' /\ col' !! id = Some Black
    /\ (forall x, x <> id -> (col !! x = Some Gray <-> col' !! x = Some Gray))
    /\ (forall x, x <> id -> col !! x = Some Black -> col' !! x = Some Black)
  end.

Definition dfs_pre (col : gmap string color) (id : string) : Prop :=
  dfs_inv col /\ forall g, col !! g = Some Gray -> rtc edge g id.

Lemma black_closed col x y :
  dfs_inv col -> col !! x = Some Black -> rtc edge x y -> col !! y = Some Black.
Proof.
  intros Hinv Hx Hr. revert Hx. induction Hr as [|x d y He _ IH]; [done|].
  intros Hx. apply IH. by apply (Hinv x Hx).
Qed.

Lemma tc_edge_rtc x y : tc edge x y -> exists d, edge x d /\ rtc edge d y.
Proof. destruct 1; eauto using rtc_refl, tc_rtc. Qed.

Lemma blacken col id :
  dfs_inv col -> col !! id = Some Gray -> (forall d, edge id d -> col !! d = Some Black) ->
  dfs_inv (<[id := Black]> col).
Proof.
  intros Hinv Hid Hdeps x Hx.
  assert (forall d, col !! d = Some Black -> <[id := Black]> col !! d = Some Black) as Hmono.
  { intros d Hd. destruct (decide (d = id)) as [->|]; [by rewrite lookup_insert_eq|].
    by rewrite lookup_insert_ne. }
  destruct (decide (x = id)) as [->|Hne].
  - split; [|auto]. intros (d & Hd & Hr)%tc_edge_rtc.
    specialize (black_closed col d id Hinv (Hdeps d Hd) Hr). congruence.
  - rewrite lookup_insert_ne in Hx by done. destruct (Hinv x Hx). auto.
Qed.

Section Visit.
Variable rec : gmap string color -> string -> option (bool * gmap string color).
Hypothesis rec_ok : forall col id r,
  col !! id = None -> dfs_pre col id -> rec col id = Some r -> dfs_post col id r.

Lemma visit_deps_ok id pre deps col r :
  adj id = pre ++ deps -> (forall d, d ∈ pre -> col !! d = Some Black) ->
  col !! id = Some Gray -> dfs_pre col id ->
  visit_deps rec id deps col = Some r -> dfs_post col id r.
Proof.
  revert pre col. induction deps as [|dep deps IH]; intros pre col Hadj Hpre Hid [Hinv Hg] Hr.
  - cbn in Hr. injection Hr as <-. rewrite app_nil_r in Hadj.
    split; [apply blacken; auto; unfold edge; rewrite Hadj; auto|].
    split; [by rewrite lookup_insert_eq|].
    split; intros x Hx; by rewrite lookup_insert_ne.
  - assert (adj id = (pre ++ [dep]) ++ deps) as Hadj' by (by rewrite <- app_assoc).
    assert (edge id dep) as He by (unfold edge; rewrite Hadj; set_solver).
    cbn in Hr. destruct (col !! dep) as [[]|] eqn:Hdep.
    + injection Hr as <-. exists dep. eapply tc_rtc_l; [by apply Hg|]. by apply tc_once.
    + apply (IH (pre ++ [dep]) col); auto; [|by split].
      intros d [Hd| ->%list_elem_of_singleton]%elem_of_app; auto.
    + destruct (rec col dep) as [[[] col']|] eqn:Hrec; [injection Hr as <-| |done].
      * apply rec_ok in Hrec; auto. split; auto. intros g Hgr.
        eapply rtc_r; [by apply Hg|done].
      * apply rec_ok in Hrec as (Hinv' & Hb & Hgray & Hblack); auto; cycle 1.
        { split; auto. intros g Hgr. eapply rtc_r; [by apply Hg|done]. }
        assert (id <> dep) as Hne by congruence.
        apply (IH (pre ++ [dep]) col') in Hr; auto.
        -- destruct r as [[] col'']; [done|]. destruct Hr as (? & ? & Hgray' & Hblack').
           split; [done|]. split; [done|]. split.
           ++ intros x Hx. rewrite <- Hgray' by done.
              destruct (decide (x = dep)) as [->|]; [rewrite Hdep, Hb; split; discriminate|auto].
           ++ intros x Hx Hxb. apply Hblack'; auto. apply Hblack; congruence.
        -- intros d [Hd| ->%list_elem_of_singleton]%elem_of_app; auto.
           apply Hblack; auto. intros ->. rewrite Hpre in Hdep; done.
        -- by apply Hgray.
        -- split; auto. intros g Hgr. apply Hg. apply Hgray; [|done]. congruence.
Qed.
End Visit.

Lemma dfs_ok fuel col id r :
  col !! id = None -> dfs_pre col id -> dfs adj fuel col id = Some r -> dfs_post col id r.
Proof.
  revert col id r. induction fuel as [|fuel IH]; intros col id r Hid [Hinv Hg] Hr; [done|].
  cbn [dfs] in Hr. eapply (visit_deps_ok _ IH id []) in Hr; auto.
  - destruct r as [[] col']; [done|]. destruct Hr as (? & ? & Hgray & Hblack).
    split; [done|]. split; [done|]. split; intros x Hx.
    + rewrite <- Hgray by done. by rewrite lookup_insert_ne.
    + intros Hb. apply Hblack; [done|]. by rewrite lookup_insert_ne.
  - set_solver.
  - by rewrite lookup_insert_eq.
  - split.
    + intros x Hx. destruct (decide (x = id)) as [->|]; [by rewrite lookup_insert_eq in Hx|].
      rewrite lookup_insert_ne in Hx by done. destruct (Hinv x Hx) as [? Hd].
      split; [done|]. intros d He. rewrite lookup_insert_ne; [auto|].
      intros <-. rewrite (Hd id He) in Hid. discriminate.
    + intros g. destruct (decide (g = id)) as [->|]; [intros; apply rtc_refl|].
      rewrite lookup_insert_ne by done. apply Hg.
Qed.

(** The outer loop: no gray node between two searches. *)
Definition no_gray (col : gmap string color) : Prop := forall x, col !! x <> Some Gray.

Lemma dfs_all_ok fuel col ids r :
  dfs_inv col -> no_gray col -> dfs_all adj fuel col ids = Some r ->
  match r with
  | (true, _) => exists x, tc edge x x
  | (false, col') => dfs_inv col' /\ (forall x, col !! x = Some Black -> col' !! x = Some Black)
                     /\ forall id, id ∈ ids -> col' !! id = Some Black
  end.
Proof.
  revert col. induction ids as [|id ids IH]; intros col Hinv Hng Hr.
  { cbn in Hr. injection Hr as <-. split; [done|]. split; [done|].
    intros d Hd. by apply not_elem_of_nil in Hd. }
  cbn in Hr. destruct (col !! id) as [c|] eqn:Hid.
  - assert (c = Black) as -> by (destruct c; [exfalso; by apply (Hng id)|done]).
    apply IH in Hr; auto. destruct r as [[] col']; [done|]. destruct Hr as (? & Hm & Hall).
    split; [done|]. split; [done|]. intros x [-> |]%elem_of_cons; auto.
  - assert (dfs_pre col id) as Hpre by (split; [done|]; intros g Hg; by destruct (Hng g)).
    destruct (dfs adj fuel col id) as [[[] col1]|] eqn:Hd; [injection Hr as <-| |done];
      apply (dfs_ok _ _ _ _ Hid Hpre) in Hd; [done|].
    + destruct Hd as (Hinv1 & Hb & Hgray & Hblack). apply IH in Hr; auto.
      * destruct r as [[] col']; [done|]. destruct Hr as (? & Hm & Hall).
        split; [done|]. split.
        -- intros x Hx. apply Hm, Hblack; [congruence|done].
        -- intros x [-> |]%elem_of_cons; auto.
      * intros x Hx. destruct (decide (x = id)) as [->|]; [congruence|].
        apply (Hng x). by apply Hgray.
Qed.

(** *** Fuel: one unit per node not yet coloured is enough *)
Variable U : gset string.
Hypothesis U_closed : forall x y, x ∈ U -> edge x y -> y ∈ U.

Definition coloured (col : gmap string color) : gset string := dom col.
Definition uncoloured (col : gmap string color) : nat := size (U ∖ coloured col).

Lemma uncoloured_mono col col' :
  coloured col ⊆ coloured col' -> (uncoloured col' <= uncoloured col)%nat.
Proof. intros H. unfold uncoloured. apply subseteq_size. set_solver. Qed.

Lemma uncoloured_insert col id c :
  id ∈ U -> col !! id = None -> (uncoloured (<[id := c]> col) < uncoloured col)%nat.
Proof.
  intros HU Hid. unfold uncoloured, coloured. apply subset_size. rewrite dom_insert_L.
  apply not_elem_of_dom in Hid. set_solver.
Qed.

Lemma visit_deps_total rec fuel id deps col :
  (forall col id, id ∈ U -> col !! id = None -> (uncoloured col <= fuel)%nat ->
     exists r, rec col id = Some r /\ coloured col ⊆ coloured r.2) ->
  (forall d, d ∈ deps -> d ∈ U) -> (uncoloured col <= fuel)%nat ->
  exists r, visit_deps rec id deps col = Some r /\ coloured col ⊆ coloured r.2.
Proof.
  intros Hrec. revert col. induction deps as [|dep deps IH]; intros col HU Hf; cbn.
  - eexists. split; [done|]. cbn. unfold coloured; rewrite dom_insert_L. set_solver.
  - assert (forall d, d ∈ deps -> d ∈ U) by set_solver.
    destruct (col !! dep) as [[]|] eqn:Hdep; [by eexists|by apply IH|].
    destruct (Hrec col dep) as ([[] col1] & -> & Hd); [set_solver|done|done| |].
    + by eexists.
    + cbn in Hd. pose proof (uncoloured_mono _ _ Hd).
      destruct (IH col1) as (r & -> & Hr); [done|lia|]. exists r. split; [done|set_solver].
Qed.

Lemma dfs_total fuel col id :
  id ∈ U -> col !! id = None -> (uncoloured col <= fuel)%nat ->
  exists r, dfs adj fuel col id = Some r /\ coloured col ⊆ coloured r.2.
Proof.
  revert col id. induction fuel as [|fuel IH]; intros col id HU Hid Hf.
  { pose proof (uncoloured_insert col id Gray HU Hid). lia. }
  cbn [dfs]. pose proof (uncoloured_insert col id Gray HU Hid).
  destruct (visit_deps_total (dfs adj fuel) fuel id (adj id) (<[id := Gray]> col)) as (r & -> & Hr).
  - apply IH.
  - intros d. by apply U_closed.
  - lia.
  - exists r. split; [done|]. unfold coloured in *. rewrite dom_insert_L in Hr. set_solver.
Qed.

Lemma dfs_all_total fuel col ids :
  (forall id, id ∈ ids -> id ∈ U) -> (uncoloured col <= fuel)%nat ->
  exists r, dfs_all adj fuel col ids = Some r.
Proof.
  revert col. induction ids as [|id ids IH]; intros col HU Hf; cbn; [by eexists|].
  assert (forall d, d ∈ ids -> d ∈ U) by set_solver.
  destruct (col !! id) eqn:Hid; [by apply IH|].
  destruct (dfs_total fuel col id) as ([[] col1] & -> & Hd); [set_solver|done|done|by eexists|].
  cbn in Hd. pose proof (uncoloured_mono _ _ Hd). apply IH; [done|lia].
Qed.
End DfsCorrect.

(** ** Maps built from the steps *)

Lemma index_by_fold {V} (f : PlanStep -> V) steps (m : gmap string V) x v :
  fold_left (fun m step => <[ps_StepID step := f step]> m) steps m !! x = Some v ->
  m !! x = Some v \/ exists step, step ∈ steps /\ ps_StepID step = x /\ f step = v.
Proof.
  revert m. induction steps as [|s steps IH]; intros m H; [by left|].
  cbn in H. apply IH in H as [H|(st & ? & ? & ?)].
  - destruct (decide (x = ps_StepID s)) as [->|].
    + rewrite lookup_insert_eq in H. injection H as <-. right. exists s. set_solver.
    + rewrite lookup_insert_ne in H by done. by left.
  - right. exists st. set_solver.
Qed.

Lemma index_by_Some {V} (f : PlanStep -> V) steps x v :
  index_by f steps !! x = Some v ->
  exists step, step ∈ steps /\ ps_StepID step = x /\ f step = v.
Proof. intros [H|H]%index_by_fold; [by rewrite lookup_empty in H|done]. Qed.

Lemma index_by_is_Some {V} (f : PlanStep -> V) steps (m : gmap string V) step :
  step ∈ steps ->
  is_Some (fold_left (fun m step => <[ps_StepID step := f step]> m) steps m !! ps_StepID step).
Proof.
  assert (forall steps (m : gmap string V) x, is_Some (m !! x) ->
    is_Some (fold_left (fun m step => <[ps_StepID step := f step]> m) steps m !! x)) as Hkeep.
  { intros l. induction l as [|s l IH]; intros m' x Hx; [done|]. cbn. apply IH.
    destruct (decide (x = ps_StepID s)) as [->|]; [by rewrite lookup_insert_eq|].
    by rewrite lookup_insert_ne. }
  revert m. induction steps as [|s steps IH]; intros m H; [by apply not_elem_of_nil in H|].
  cbn. apply elem_of_cons in H as [->|H]; [|by apply IH].
  apply Hkeep. by rewrite lookup_insert_eq.
Qed.

Lemma index_by_nodup {V} (f : PlanStep -> V) steps step :
  NoDup (map ps_StepID steps) -> step ∈ steps ->
  index_by f steps !! ps_StepID step = Some (f step).
Proof.
  intros Hnd Hin. destruct (index_by_is_Some f steps ∅ step Hin) as [v Hv].
  pose proof Hv as Hv'. apply index_by_Some in Hv' as (s & Hs & Hid & <-).
  unfold index_by. rewrite Hv. f_equal. f_equal.
  apply list_elem_of_lookup in Hs as [i Hi], Hin as [j Hj].
  assert (i = j) as ->; [|congruence].
  apply (NoDup_lookup (map ps_StepID steps) i j (ps_StepID step)); auto;
    rewrite list_lookup_fmap; [rewrite Hi|rewrite Hj]; cbn; congruence.
Qed.

(** ** Validation, declaratively *)

Lemma validate_steps_None i seen steps :
  validate_steps i seen steps = None
  <-> Forall (fun s => PlanStep_Validate s = None /\ ps_StepID s ∉ seen) steps
      /\ NoDup (map ps_StepID steps).
Proof.
  revert i seen. induction steps as [|s steps IH]; intros i seen; cbn [validate_steps map].
  - split; auto using NoDup_nil_2.
  - rewrite Forall_cons, NoDup_cons.
    destruct (PlanStep_Validate s) as [e|].
    { split; [discriminate|]. intros [[[? ?] ?] ?]. discriminate. }
    case_decide as Hd.
    { split; [discriminate|]. intros [[[? ?] ?] ?]. contradiction. }
    rewrite IH, !Forall_forall. clear IH. split.
    + intros [Hall Hnd]. split; [split; [done|]|split; [|done]].
      * intros s' Hs'. destruct (Hall s' Hs'). set_solver.
      * rewrite list_elem_of_In, in_map_iff. intros (s' & Heq & Hin).
        rewrite <- list_elem_of_In in Hin. destruct (Hall s' Hin) as [_ Hn].
        apply Hn. rewrite Heq. set_solver.
    + intros [[_ Hall] [Hni Hnd]]. split; auto. intros s' Hs'.
      destruct (Hall s' Hs') as [? Hn]. split; auto.
      intros [Heq%elem_of_singleton|]%elem_of_union; [|done].
      apply Hni. rewrite <- Heq, list_elem_of_In. apply in_map. by rewrite <- list_elem_of_In.
Qed.

Lemma validate_deps_None i ids id deps :
  validate_deps i ids id deps = None <-> forall d, d ∈ deps -> d ∈ ids /\ d <> id.
Proof.
  induction deps as [|d deps IH]; cbn.
  - split; [intros _ d Hd; by apply not_elem_of_nil in Hd|done].
  - setoid_rewrite elem_of_cons. case_decide as Hd.
    { split; [discriminate|]. intros H. destruct (H d); auto; contradiction. }
    destruct (String.eqb_spec d id) as [->|].
    { split; [discriminate|]. intros H. by destruct (H id); auto. }
    rewrite IH. split; [intros H d' [-> |?]; auto | auto].
Qed.

Lemma validate_all_deps_None i ids steps :
  validate_all_deps i ids steps = None
  <-> forall s d, s ∈ steps -> d ∈ ps_DependsOn s -> d ∈ ids /\ d <> ps_StepID s.
Proof.
  revert i. induction steps as [|s steps IH]; intros i; cbn.
  - split; [intros _ s d Hs; by apply not_elem_of_nil in Hs|done].
  - setoid_rewrite elem_of_cons.
    destruct (validate_deps i ids (ps_StepID s) (ps_DependsOn s)) eqn:E.
    { split; [discriminate|]. intros H.
      assert (validate_deps i ids (ps_StepID s) (ps_DependsOn s) = None); [|congruence].
      apply validate_deps_None. auto. }
    rewrite validate_deps_None in E. rewrite IH. split; [|auto].
    intros H s' d [-> |?]; auto.
Qed.

(** A well-formed step graph. *)
Definition steps_wf (steps : list PlanStep) : Prop :=
  steps <> [] /\ Forall (fun s => PlanStep_Validate s = None) steps
  /\ NoDup (map ps_StepID steps)
  /\ forall s d, s ∈ steps -> d ∈ ps_DependsOn s ->
       d <> ps_StepID s /\ exists s', s' ∈ steps /\ ps_StepID s' = d.

Lemma elem_of_step_ids d steps :
  d ∈ step_ids steps <-> exists s, s ∈ steps /\ ps_StepID s = d.
Proof.
  unfold step_ids. rewrite elem_of_list_to_set, list_elem_of_In, in_map_iff.
  setoid_rewrite list_elem_of_In. split; intros (s & ? & ?); by exists s.
Qed.

Lemma graph_checks steps :
  (Nat.eqb (length steps) 0 = false /\ validate_steps 0 ∅ steps = None
   /\ validate_all_deps 0 (step_ids steps) steps = None) <-> steps_wf steps.
Proof.
  unfold steps_wf. rewrite validate_steps_None, validate_all_deps_None, !Forall_forall.
  setoid_rewrite elem_of_step_ids.
  assert (Nat.eqb (length steps) 0 = false <-> steps <> []) as ->
    by (destruct steps; cbn; split; congruence).
  split.
  - intros (Hne & [Hall Hnd] & Hdeps). split; [done|]. split; [intros s Hs; by apply Hall|].
    split; [done|]. intros s d Hs Hd. split; by apply (Hdeps s d).
  - intros (Hne & Hall & Hnd & Hdeps). split; [done|]. split.
    + split; [|done]. intros s Hs. split; [by apply Hall|apply not_elem_of_empty].
    + intros s d Hs Hd. split; by apply (Hdeps s d).
Qed.

(** Identifier, title and status, which [Validate] checks before the steps. *)
Definition plan_header_ok (p : PlanSpec) : Prop :=
  blank (pl_PlanID p) = false /\ blank (pl_Title p) = false
  /\ (blank (pl_Status p) = true \/ PlanStatus_Valid (pl_Status p) = true).

Lemma plan_validate_iff p :
  PlanSpec_Validate p = None <-> plan_header_ok p /\ steps_wf (pl_Steps p).
Proof.
  unfold PlanSpec_Validate, plan_header_ok. rewrite <- graph_checks.
  rewrite first_error_None, !Forall_cons, !error_if_None.
  destruct (blank (pl_Status p)), (PlanStatus_Valid (pl_Status p)); cbn;
    rewrite Forall_nil; naive_solver.
Qed.

Lemma plan_accepts p : PlanSpec_Validate p = None -> steps_wf (pl_Steps p).
Proof. by intros [_ ?]%plan_validate_iff. Qed.

(** [PlanSpec.Validate] accepts a plan exactly when it has an identifier, a
    title and a valid (or blank) status, it has a step, its steps are individually
    valid and uniquely named, and they depend only on other steps of the plan. *)
Theorem plan_validate_spec p :
  PlanSpec_Validate p = None
  <-> (blank (pl_PlanID p) = false /\ blank (pl_Title p) = false
       /\ (blank (pl_Status p) = true \/ PlanStatus_Valid (pl_Status p) = true))
      /\ pl_Steps p <> []
      /\ (forall s, s ∈ pl_Steps p -> PlanStep_Validate s = None)
      /\ NoDup (map ps_StepID (pl_Steps p))
      /\ (forall s d, s ∈ pl_Steps p -> d ∈ ps_DependsOn s ->
            d <> ps_StepID s /\ exists s', s' ∈ pl_Steps p /\ ps_StepID s' = d).
Proof. rewrite plan_validate_iff. unfold steps_wf. by rewrite Forall_forall. Qed.

(** ** Cycles *)

Definition plan_edge (p : PlanSpec) : string -> string -> Prop := edge (plan_adj p).

Lemma plan_edge_step p x y :
  plan_edge p x y ->
  exists s, s ∈ pl_Steps p /\ ps_StepID s = x /\ y ∈ ps_DependsOn s.
Proof.
  unfold plan_edge, edge, plan_adj. destruct (adjacency (pl_Steps p) !! x) as [l|] eqn:E; cbn.
  - apply index_by_Some in E as (s & ? & ? & <-). intros. by exists s.
  - intros H. by apply not_elem_of_nil in H.
Qed.

Lemma plan_nodes_closed p x y : x ∈ plan_nodes p -> plan_edge p x y -> y ∈ plan_nodes p.
Proof.
  intros _ (s & Hs & _ & Hy)%plan_edge_step. unfold plan_nodes.
  rewrite elem_of_list_to_set, elem_of_app. right.
  rewrite list_elem_of_join. exists (ps_DependsOn s). split; [done|].
  rewrite list_elem_of_In. apply in_map. by rewrite <- list_elem_of_In.
Qed.

Lemma plan_ids_nodes p id : id ∈ map ps_StepID (pl_Steps p) -> id ∈ plan_nodes p.
Proof. intros H. unfold plan_nodes. rewrite elem_of_list_to_set, elem_of_app. by left. Qed.

Lemma HasCycle_terminates p : exists b, HasCycle_run p = Some b.
Proof.
  unfold HasCycle_run.
  destruct (dfs_all_total (plan_adj p) (plan_nodes p) (plan_nodes_closed p)
              (S (size (plan_nodes p))) ∅ (map ps_StepID (pl_Steps p))) as [r ->].
  - apply plan_ids_nodes.
  - unfold uncoloured, coloured. rewrite dom_empty_L, difference_empty_L. lia.
  - by exists r.1.
Qed.

Lemma HasCycle_iff p : PlanSpec_HasCycle p = true <-> exists id, tc (plan_edge p) id id.
Proof.
  unfold PlanSpec_HasCycle. destruct (HasCycle_terminates p) as [b Hb]. rewrite Hb. cbn.
  unfold HasCycle_run in Hb.
  destruct (dfs_all (plan_adj p) _ ∅ _) as [[c col]|] eqn:E; [|done].
  injection Hb as <-. apply dfs_all_ok in E.
  - destruct c; [by split|]. split; [done|].
    destruct E as (Hinv & _ & Hall). intros (id & Hcyc).
    assert (col !! id = Some Black) as Hb; [|by destruct (Hinv id Hb)].
    apply Hall. apply tc_edge_rtc in Hcyc as (d & He & _).
    apply plan_edge_step in He as (s & Hs & <- & _).
    rewrite list_elem_of_In. apply in_map. by rewrite <- list_elem_of_In.
  - intros x Hx. by rewrite lookup_empty in Hx.
  - intros x Hx. by rewrite lookup_empty in Hx.
Qed.

(** C16: [PlanSpec.HasCycle] decides cyclicity: the depth-first search always
    finishes within its fuel, and reports a cycle exactly when some step
    transitively depends on itself. *)
Theorem has_cycle_decides p :
  HasCycle_run p = Some (PlanSpec_HasCycle p)
  /\ (PlanSpec_HasCycle p = true <-> exists id, tc (plan_edge p) id id).
Proof.
  split; [|apply HasCycle_iff].
  unfold PlanSpec_HasCycle. by destruct (HasCycle_terminates p) as [b ->].
Qed.

(** ** Ready steps *)

Definition step_finished (s : PlanStep) : Prop :=
  ps_Status s = PlanStepStatusCompleted \/ ps_Status s = PlanStepStatusSkipped.


Lemma same_id_same_step steps s s' :
  NoDup (map ps_StepID steps) -> s ∈ steps -> s' ∈ steps -> ps_StepID s = ps_StepID s' -> s = s'.
Proof.
  intros Hnd Hs Hs' Heq.
  apply list_elem_of_lookup in Hs as [i Hi], Hs' as [j Hj].
  assert (i = j) as ->; [|congruence].
  apply (NoDup_lookup (map ps_StepID steps) i j (ps_StepID s)); auto;
    rewrite list_lookup_fmap; [rewrite Hi|rewrite Hj]; cbn; congruence.
Qed.

Lemma dep_done_spec steps s :
  NoDup (map ps_StepID steps) -> s ∈ steps ->
  dep_done (status_by_id steps) (ps_StepID s) = true <-> step_finished s.
Proof.
  intros Hnd Hs. unfold dep_done, status_by_id, step_finished.
  rewrite (index_by_nodup ps_Status steps s Hnd Hs). cbn.
  destruct (String.eqb_spec (ps_Status s) PlanStepStatusCompleted),
    (String.eqb_spec (ps_Status s) PlanStepStatusSkipped); cbn; intuition congruence.
Qed.

Lemma ready_spec p s :
  s ∈ PlanSpec_ReadySteps p
  <-> s ∈ pl_Steps p /\ ps_Status s = PlanStepStatusPending
      /\ forall d, d ∈ ps_DependsOn s -> dep_done (status_by_id (pl_Steps p)) d = true.
Proof.
  unfold PlanSpec_ReadySteps.
  rewrite elem_of_filter_b, andb_true_iff, String.eqb_eq,
    forallb_forall.
  by setoid_rewrite <- list_elem_of_In.
Qed.

(** In a well-formed plan the ready steps are exactly the pending steps all
    of whose dependencies are completed or skipped. *)
Theorem ready_steps_spec p s :
  steps_wf (pl_Steps p) ->
  s ∈ PlanSpec_ReadySteps p
  <-> s ∈ pl_Steps p /\ ps_Status s = PlanStepStatusPending
      /\ forall s', s' ∈ pl_Steps p -> ps_StepID s' ∈ ps_DependsOn s -> step_finished s'.
Proof.
  intros (_ & _ & Hnd & Hdeps). rewrite ready_spec.
  split; intros (Hs & Hp & Hall); (split; [done|]); (split; [done|]).
  - intros s' Hs' Hd. apply (dep_done_spec (pl_Steps p)); auto.
  - intros d Hd. destruct (Hdeps s d Hs Hd) as (_ & s' & Hs' & <-).
    apply dep_done_spec; auto.
Qed.

(** A non-empty finite set in which every element has a successor has a cycle. *)
Lemma endless_cycle (R : string -> string -> Prop) (P : gset string) :
  P <> ∅ -> (forall x, x ∈ P -> exists y, y ∈ P /\ R x y) -> exists x, tc R x x.
Proof.
  remember (size P) as n eqn:Hn. revert R P Hn.
  induction n as [n IH] using lt_wf_ind. intros R P -> Hne Hsucc.
  apply set_choose_L in Hne as [x Hx]. destruct (Hsucc x Hx) as (y & Hy & Hxy).
  destruct (decide (y = x)) as [->|Hyx]; [by exists x; apply tc_once|].
  assert (size (P ∖ {[x]}) < size P)%nat as Hlt by (apply subset_size; clear -Hx; set_solver).
  destruct (IH _ Hlt (fun a b => R a b \/ (R a x /\ R x b)) (P ∖ {[x]}) eq_refl) as [w Hw].
  - intros He. assert (y ∈ P ∖ {[x]}) by set_solver. set_solver.
  - intros a Ha. destruct (Hsucc a) as (z & Hz & Haz); [set_solver|].
    destruct (decide (z = x)) as [->|]; [exists y|exists z]; set_solver.
  - exists w. revert Hw. generalize w at 1 3 as u. intros u Hw.
    induction Hw as [a b [H|[H1 H2]]|a b c [H|[H1 H2]] _ IHw];
      eauto using tc_once, tc_l.
Qed.

(** Every step is pending or finished: no step is running, blocked or failed. *)
Definition quiescent (p : PlanSpec) : Prop :=
  forall s, s ∈ pl_Steps p -> ps_Status s = PlanStepStatusPending \/ step_finished s.

Lemma plan_adj_step p s :
  NoDup (map ps_StepID (pl_Steps p)) -> s ∈ pl_Steps p ->
  plan_adj p (ps_StepID s) = ps_DependsOn s.
Proof. intros. unfold plan_adj, adjacency. by rewrite (index_by_nodup ps_DependsOn). Qed.

(** A pending step that is not ready waits for an unfinished dependency. *)
Lemma not_ready_waits p s :
  steps_wf (pl_Steps p) -> s ∈ pl_Steps p -> ps_Status s = PlanStepStatusPending ->
  s ∉ PlanSpec_ReadySteps p ->
  exists s', s' ∈ pl_Steps p /\ ps_StepID s' ∈ ps_DependsOn s /\ ~ step_finished s'.
Proof.
  intros (_ & _ & Hnd & Hdeps) Hs Hp Hnr.
  destruct (decide (Forall (fun d => dep_done (status_by_id (pl_Steps p)) d = true)
              (ps_DependsOn s))) as [Hall|Hn].
  - exfalso. apply Hnr, ready_spec. by rewrite Forall_forall in Hall.
  - apply not_Forall_Exists in Hn; [|apply _]. apply Exists_exists in Hn as (d & Hd & Hn).
    destruct (Hdeps s d Hs Hd) as (_ & s' & Hs' & <-). exists s'. split; [done|].
    split; [done|]. intros Hf. apply Hn. by apply dep_done_spec.
Qed.

(** The identifiers of the pending steps. *)
Definition pending_steps (p : PlanSpec) : list PlanStep :=
  List.filter (fun s => ps_Status s ==? PlanStepStatusPending) (pl_Steps p).

Lemma elem_of_pending p s :
  s ∈ pending_steps p <-> s ∈ pl_Steps p /\ ps_Status s = PlanStepStatusPending.
Proof.
  unfold pending_steps. by rewrite elem_of_filter_b, String.eqb_eq.
Qed.

(** No deadlock: with a step left to do, some step is ready. *)
Lemma no_deadlock p s :
  steps_wf (pl_Steps p) -> PlanSpec_HasCycle p = false -> quiescent p ->
  s ∈ pending_steps p -> PlanSpec_ReadySteps p <> [].
Proof.
  intros Hwf Hac Hq Hs Hnil. rewrite <- not_true_iff_false, HasCycle_iff in Hac. apply Hac.
  apply (endless_cycle (plan_edge p) (step_ids (pending_steps p))).
  - intros He. assert (ps_StepID s ∈ step_ids (pending_steps p)) as Hin.
    { apply elem_of_step_ids. by exists s. }
    rewrite He in Hin. set_solver.
  - intros x (s1 & [Hs1 Hp1]%elem_of_pending & <-)%elem_of_step_ids.
    destruct (not_ready_waits p s1) as (s2 & Hs2 & Hd & Hnf); auto.
    { rewrite Hnil. apply not_elem_of_nil. }
    exists (ps_StepID s2). split.
    + apply elem_of_step_ids. exists s2. split; [|done]. apply elem_of_pending.
      split; [done|]. by destruct (Hq s2 Hs2).
    + unfold plan_edge, edge. rewrite plan_adj_step; auto. by destruct Hwf as (_ & _ & ? & _).
Qed.

(** ** Every sound plan can be carried out *)

(** The specification's step: the executor reports the step [id] completed. *)
Definition complete_step (id : string) (p : PlanSpec) : PlanSpec :=
  p <| pl_Steps := map (fun s => if ps_StepID s ==? id
                                 then s <| ps_Status := PlanStepStatusCompleted |> else s)
                       (pl_Steps p) |>.

(** [runs p ids p']: the steps [ids] complete in this order, each ready when
    its turn comes, and lead from [p] to [p']. *)
Inductive runs : PlanSpec -> list string -> PlanSpec -> Prop :=
  | runs_done p : runs p [] p
  | runs_step p s ids p' :
      s ∈ PlanSpec_ReadySteps p -> runs (complete_step (ps_StepID s) p) ids p' ->
      runs p (ps_StepID s :: ids) p'.

Lemma elem_of_map {A B} (f : A -> B) l y : y ∈ map f l <-> exists x, x ∈ l /\ y = f x.
Proof. rewrite list_elem_of_In, in_map_iff. setoid_rewrite list_elem_of_In. naive_solver. Qed.

Lemma tc_edge_ext {A} (R R' : A -> A -> Prop) x y :
  (forall x y, R x y -> R' x y) -> tc R x y -> tc R' x y.
Proof. intros HR. induction 1; eauto using tc_once, tc_l. Qed.

(** *** Updates of the steps that keep the graph *)
Section StepUpdate.
Variable f : PlanStep -> PlanStep.
Hypothesis f_id : forall s, ps_StepID (f s) = ps_StepID s.
Hypothesis f_deps : forall s, ps_DependsOn (f s) = ps_DependsOn s.

Lemma update_adj p p' x : pl_Steps p' = map f (pl_Steps p) -> plan_adj p' x = plan_adj p x.
Proof.
  unfold plan_adj, adjacency, index_by. intros ->.
  generalize (∅ : gmap string (list string)). induction (pl_Steps p) as [|s l IH]; intros m; [done|].
  cbn. by rewrite <- IH, f_id, f_deps.
Qed.

Lemma update_acyclic p p' :
  pl_Steps p' = map f (pl_Steps p) -> PlanSpec_HasCycle p = false -> PlanSpec_HasCycle p' = false.
Proof.
  intros Hs. rewrite <- !not_true_iff_false, !HasCycle_iff. intros Hn (id & Hid). apply Hn.
  exists id. revert Hid. apply tc_edge_ext. intros x y. unfold plan_edge, edge.
  by rewrite (update_adj p p').
Qed.

Lemma update_wf steps :
  (forall s, s ∈ steps -> PlanStep_Validate s = None -> PlanStep_Validate (f s) = None) ->
  steps_wf steps -> steps_wf (map f steps).
Proof.
  intros f_valid (Hne & Hv & Hnd & Hdeps). rewrite Forall_forall in Hv.
  split; [by destruct steps|]. split; [|split].
  - rewrite Forall_forall. intros s' (s & Hs & ->)%elem_of_map. auto.
  - rewrite map_map. by rewrite (map_ext _ ps_StepID).
  - intros s' d (s & Hs & ->)%elem_of_map. rewrite f_id, f_deps. intros Hd.
    destruct (Hdeps s d Hs Hd) as (Hne' & s2 & Hs2 & <-). split; [done|].
    exists (f s2). split; [|apply f_id]. apply elem_of_map. by exists s2.
Qed.
End StepUpdate.

(** Setting a step's status to a valid one keeps it valid. *)
Lemma Validate_status s s' :
  ps_StepID s' = ps_StepID s -> ps_Title s' = ps_Title s -> ps_Outputs s' = ps_Outputs s ->
  PlanStepStatus_Valid (ps_Status s') = true ->
  PlanStep_Validate s = None -> PlanStep_Validate s' = None.
Proof.
  intros Hid Ht Ho Hs. unfold PlanStep_Validate. rewrite Hid, Ht, Ho, Hs.
  rewrite !first_error_None, !Forall_cons, !error_if_None, andb_false_r.
  intros (? & ? & _ & ? & ?). by repeat split.
Qed.

(** Counting: an update that only removes pending steps, and removes one. *)
Lemma filter_map_length {A} (b : A -> bool) (f : A -> A) l :
  (forall x, x ∈ l -> b (f x) = true -> b x = true) ->
  (length (List.filter b (map f l)) <= length (List.filter b l))%nat
  /\ ((exists x, x ∈ l /\ b x = true /\ b (f x) = false) ->
      (length (List.filter b (map f l)) < length (List.filter b l))%nat).
Proof.
  induction l as [|x l IH]; intros Hf.
  { split; [cbn; lia|]. intros (x & Hx & _). by apply not_elem_of_nil in Hx. }
  destruct IH as [Hle Hlt]; [intros y Hy; apply Hf; by right|].
  specialize (Hf x (list_elem_of_here x l)). cbn.
  destruct (b (f x)) eqn:E1, (b x) eqn:E2; cbn; try (specialize (Hf eq_refl); discriminate);
    (split; [lia|]); intros (y & [->|Hy]%elem_of_cons & ? & ?); try congruence; try lia;
    assert (exists x, x ∈ l /\ b x = true /\ b (f x) = false) as Hex by eauto;
    specialize (Hlt Hex); lia.
Qed.

(** *** Completing a step *)

Definition completed_if (id : string) (s : PlanStep) : PlanStep :=
  if ps_StepID s ==? id then s <| ps_Status := PlanStepStatusCompleted |> else s.

Lemma completed_if_id id s : ps_StepID (completed_if id s) = ps_StepID s.
Proof. unfold completed_if. by case_match. Qed.
Lemma completed_if_deps id s : ps_DependsOn (completed_if id s) = ps_DependsOn s.
Proof. unfold completed_if. by case_match. Qed.

Lemma complete_step_steps id p :
  pl_Steps (complete_step id p) = map (completed_if id) (pl_Steps p).
Proof. reflexivity. Qed.

Lemma complete_step_wf id p : steps_wf (pl_Steps p) -> steps_wf (pl_Steps (complete_step id p)).
Proof.
  apply update_wf; [apply completed_if_id|apply completed_if_deps|].
  intros s _ Hv. unfold completed_if. case_match; [|done]. by apply (Validate_status s).
Qed.

Lemma complete_step_quiescent id p : quiescent p -> quiescent (complete_step id p).
Proof.
  intros Hq s'. rewrite complete_step_steps, elem_of_map. intros (s & Hs & ->).
  unfold completed_if. case_match; [right; by left|auto].
Qed.

Lemma complete_step_pending s p :
  s ∈ pending_steps p ->
  (length (pending_steps (complete_step (ps_StepID s) p)) < length (pending_steps p))%nat.
Proof.
  intros [Hs Hp]%elem_of_pending. unfold pending_steps. rewrite complete_step_steps.
  apply (filter_map_length (fun s => ps_Status s ==? PlanStepStatusPending)
           (completed_if (ps_StepID s))).
  - intros x _. unfold completed_if. by case_match.
  - exists s. split; [done|]. split; [by apply String.eqb_eq|].
    unfold completed_if. by rewrite String.eqb_refl.
Qed.

(** A well-formed plan without cycles, none of whose steps is running, blocked
    or failed, can be carried out: completing ready steps one after the other
    never gets stuck and ends with every step completed or skipped. *)
Theorem sound_plan_completes p :
  steps_wf (pl_Steps p) -> PlanSpec_HasCycle p = false -> quiescent p ->
  exists ids p', runs p ids p' /\ forall s, s ∈ pl_Steps p' -> step_finished s.
Proof.
  induction p as [p IH] using (induction_ltof1 _ (fun p => length (pending_steps p))).
  intros Hwf Hcyc Hq.
  destruct (pending_steps p) as [|s l] eqn:E.
  { exists [], p. split; [constructor|]. intros s Hs. destruct (Hq s Hs) as [Hp|]; [|done].
    exfalso. apply (not_elem_of_nil s). rewrite <- E. by apply elem_of_pending. }
  assert (PlanSpec_ReadySteps p <> []) as Hr.
  { apply (no_deadlock p s); auto. rewrite E. by left. }
  destruct (PlanSpec_ReadySteps p) as [|r rs] eqn:Er; [done|].
  assert (r ∈ PlanSpec_ReadySteps p) as Hin by (rewrite Er; by left).
  assert (r ∈ pending_steps p) as Hpend.
  { apply elem_of_pending. apply ready_spec in Hin. tauto. }
  destruct (IH (complete_step (ps_StepID r) p)) as (ids & p' & Hrun & Hfin).
  - by apply complete_step_pending.
  - by apply complete_step_wf.
  - eapply (update_acyclic (completed_if (ps_StepID r))); [| |reflexivity|done].
    + apply completed_if_id.
    + apply completed_if_deps.
  - by apply complete_step_quiescent.
  - exists (ps_StepID r :: ids), p'. split; [|done]. by econstructor.
Qed.

(** *** A concrete plan: the second step waits for the first *)
Definition sample_step (id : string) (deps : list string) (status : string) : PlanStep :=
  mkPlanStep id "title" "do it" deps status "" "" [] None.

Definition sample_plan : PlanSpec :=
  mkPlanSpec 1 "p1" "g1" "plan" 1 PlanStatusActive
    [sample_step "b" ["a"] PlanStepStatusPending; sample_step "a" [] PlanStepStatusPending]
    [] [] "" 0 0 None.

Lemma sample_plan_wf : steps_wf (pl_Steps sample_plan).
Proof. apply plan_accepts. vm_compute. reflexivity. Qed.

Lemma ready_steps_spec_witness :
  sample_step "a" [] PlanStepStatusPending ∈ PlanSpec_ReadySteps sample_plan
  <-> sample_step "a" [] PlanStepStatusPending ∈ pl_Steps sample_plan
      /\ PlanStepStatusPending = PlanStepStatusPending
      /\ forall s', s' ∈ pl_Steps sample_plan -> ps_StepID s' ∈ ([] : list string) ->
           step_finished s'.
Proof.
  apply (ready_steps_spec sample_plan (sample_step "a" [] PlanStepStatusPending)).
  exact sample_plan_wf.
Defined.

Lemma sound_plan_completes_witness :
  exists ids p', runs sample_plan ids p' /\ forall s, s ∈ pl_Steps p' -> step_finished s.
Proof.
  apply (sound_plan_completes sample_plan).
  - exact sample_plan_wf.
  - vm_compute. reflexivity.
  - intros s Hs. left. cbn in Hs.
    apply elem_of_cons in Hs as [->|Hs]; [reflexivity|].
    apply list_elem_of_singleton in Hs as ->. reflexivity.
Defined.
