(* ===== verification/BudgetGuard.v ===== *)
(** The run-time budget guard: internal/tasks/budget_guard.go.

    A guard is shared by pointer and every method holds its mutex for the whole
    body, so a concurrent history is a sequence of whole method calls; the
    methods below take the guard's state and return the new one.  A nil
    receiver is [None]. *)

From Stdlib Require Import String.
From stdpp Require Import base tactics decidable list gmap strings.
From S2P Require Import Prelude Enums Verification Budget TaskModels.

Record BudgetGuard := mkBudgetGuard {
  bg_taskID : string;
  bg_runID : string;
  bg_budget : TaskBudget;
  bg_baseline : TaskUsage;
  bg_current : TaskUsage
}.

#[export] Instance set_bg_current : Setter bg_current := fun v g =>
  mkBudgetGuard (bg_taskID g) (bg_runID g) (bg_budget g) (bg_baseline g) v.

Definition addUsage (a b : TaskUsage) : TaskUsage := TaskUsage_Add a b.

(** The second argument, the run, is ignored by the code. *)
Definition EffectiveTaskRunBudget (task : TaskSpec) (run : TaskRun) : TaskBudget :=
  ts_Budget (TaskSpec_Normalize task).

Definition AggregateTaskUsage (runs : list TaskRun) (excludeRunID : string) : TaskUsage :=
  let excludeRunID := TrimSpace excludeRunID in
  fold_left (fun usage run =>
    if (excludeRunID !=? "") && (TrimSpace (tr_RunID run) ==? excludeRunID) then usage
    else TaskUsage_Add usage (tr_Usage run)) runs zero_usage.

Definition NewBudgetGuard (task : TaskSpec) (run : TaskRun) (runs : list TaskRun) : BudgetGuard :=
  let run := TaskRun_Normalize run in
  mkBudgetGuard (TrimSpace (ts_TaskID task)) (TrimSpace (tr_RunID run))
    (EffectiveTaskRunBudget task run) (AggregateTaskUsage runs (tr_RunID run)) (tr_Usage run).

Definition BudgetGuard_TaskID (g : option BudgetGuard) : string :=
  match g with None => "" | Some g => bg_taskID g end.

Definition BudgetGuard_RunID (g : option BudgetGuard) : string :=
  match g with None => "" | Some g => bg_runID g end.

Definition BudgetGuard_Budget (g : option BudgetGuard) : TaskBudget :=
  match g with None => zero_budget | Some g => bg_budget g end.

Definition BudgetGuard_BaselineUsage (g : option BudgetGuard) : TaskUsage :=
  match g with None => zero_usage | Some g => bg_baseline g end.

Definition BudgetGuard_CurrentUsage (g : option BudgetGuard) : TaskUsage :=
  match g with None => zero_usage | Some g => bg_current g end.

Definition BudgetGuard_Usage (g : option BudgetGuard) : TaskUsage :=
  match g with None => zero_usage | Some g => addUsage (bg_baseline g) (bg_current g) end.

Definition BudgetGuard_SetCurrentUsage (usage : TaskUsage) (g : option BudgetGuard)
  : option BudgetGuard :=
  match g with None => None | Some g => Some (g <| bg_current := usage |>) end.

(** The new guard and the two results. *)
Definition BudgetGuard_TryReserveUsage (delta : TaskUsage) (g : option BudgetGuard)
  : option BudgetGuard * (BudgetExceeded * bool) :=
  match g with
  | None => (None, (nothing_exceeded, true))
  | Some g =>
    if TaskBudget_IsZero (bg_budget g)
    then (Some (g <| bg_current := TaskUsage_Add (bg_current g) delta |>),
          (nothing_exceeded, true))
    else
      let projectedCurrent := TaskUsage_Add (bg_current g) delta in
      let projected := addUsage (bg_baseline g) projectedCurrent in
      let exceeded := TaskBudget_CheckUsage (bg_budget g) projected in
      if BudgetExceeded_Any exceeded then (Some g, (exceeded, false))
      else (Some (g <| bg_current := projectedCurrent |>), (nothing_exceeded, true))
  end.

Definition BudgetGuard_Check (g : option BudgetGuard) : BudgetExceeded :=
  match g with
  | None => nothing_exceeded
  | Some g =>
    if TaskBudget_IsZero (bg_budget g) then nothing_exceeded
    else TaskBudget_CheckUsage (bg_budget g) (addUsage (bg_baseline g) (bg_current g))
  end.

(** ** Sequences of reservations *)

(** A history of reservations, in the order in which the mutex is taken: the
    final guard and the answers. *)
Fixpoint reserve_all (deltas : list TaskUsage) (g : option BudgetGuard)
  : option BudgetGuard * list bool :=
  match deltas with
  | [] => (g, [])
  | d :: ds =>
    let '(g, (_, ok)) := BudgetGuard_TryReserveUsage d g in
    let '(g, oks) := reserve_all ds g in (g, ok :: oks)
  end.

(** The deltas that were granted. *)
Fixpoint granted (deltas : list TaskUsage) (oks : list bool) : list TaskUsage :=
  match deltas, oks with
  | d :: ds, ok :: oks => if ok then d :: granted ds oks else granted ds oks
  | _, _ => []
  end.

Lemma nothing_exceeded_iff e : BudgetExceeded_Any e = false <-> e = nothing_exceeded.
Proof.
  by destruct e as [[] [] [] [] [] [] []].
Qed.

(** One reservation: what is granted is recorded and fits the budget; what is
    refused changes nothing, and would have exceeded it. *)
Lemma try_reserve_cases d g g' e ok :
  BudgetGuard_TryReserveUsage d (Some g) = (g', (e, ok)) ->
  let next := g <| bg_current := TaskUsage_Add (bg_current g) d |> in
  (ok = true /\ g' = Some next /\ BudgetGuard_Check (Some next) = nothing_exceeded
   /\ e = nothing_exceeded)
  \/ (ok = false /\ g' = Some g /\ e = BudgetGuard_Check (Some next) /\ e <> nothing_exceeded).
Proof.
  unfold BudgetGuard_TryReserveUsage, BudgetGuard_Check. cbn.
  destruct (TaskBudget_IsZero (bg_budget g)) eqn:Hz.
  { intros H. simplify_eq. by left. }
  destruct (BudgetExceeded_Any _) eqn:He; intros H; simplify_eq; [right|left]; repeat split.
  - intros Hn. rewrite Hn in He. discriminate.
  - by apply nothing_exceeded_iff.
Qed.

(** C9: a task never runs over its budget through reservations: starting within
    the budget, after any interleaving of [TryReserveUsage] calls the cumulative
    usage is still within it, budget and baseline are untouched, and the
    measured usage is the initial one plus exactly the granted deltas. *)
Theorem reservations_stay_in_budget deltas g g' oks :
  BudgetGuard_Check (Some g) = nothing_exceeded ->
  reserve_all deltas (Some g) = (g', oks) ->
  BudgetGuard_Check g' = nothing_exceeded
  /\ g' = Some (g <| bg_current := fold_left TaskUsage_Add (granted deltas oks) (bg_current g) |>).
Proof.
  revert g g' oks. induction deltas as [|d ds IH]; intros g g' oks Hc Hr.
  { cbn in Hr. simplify_eq. by destruct g. }
  cbn [reserve_all] in Hr.
  destruct (BudgetGuard_TryReserveUsage d (Some g)) as [g1 [e ok]] eqn:Ht.
  destruct (reserve_all ds g1) as [g2 oks2] eqn:Hds.
  apply try_reserve_cases in Ht as [(-> & -> & Hn & _)|(-> & -> & _)]; simplify_eq.
  - destruct (IH _ _ _ Hn Hds) as [? ->]. by split.
  - destruct (IH _ _ _ Hc Hds) as [? ->]. by split.
Qed.

(** [TryReserveUsage] answers exactly: it grants a delta precisely when the
    guard holding the delta would pass [Check], and otherwise reports the
    verdict [Check] would give and leaves the guard as it was. *)
Theorem try_reserve_decides d g :
  let next := g <| bg_current := TaskUsage_Add (bg_current g) d |> in
  BudgetGuard_TryReserveUsage d (Some g)
  = if BudgetExceeded_Any (BudgetGuard_Check (Some next))
    then (Some g, (BudgetGuard_Check (Some next), false))
    else (Some next, (nothing_exceeded, true)).
Proof.
  intros next. destruct (BudgetGuard_TryReserveUsage d (Some g)) as [g' [e ok]] eqn:H.
  apply try_reserve_cases in H as [(-> & -> & Hc & ->)|(-> & -> & -> & Hn)]; fold next.
  - fold next in Hc. by rewrite Hc.
  - fold next in Hn. destruct (BudgetExceeded_Any _) eqn:E; [done|].
    by apply nothing_exceeded_iff in E.
Qed.

Definition sample_guard : BudgetGuard :=
  mkBudgetGuard "t1" "r1" (mkTaskBudget 0 0 0 0 3 0 0) (mkTaskUsage 0 0 0 0 1 0 0) zero_usage.

Definition one_call : TaskUsage := mkTaskUsage 0 0 0 0 1 0 0.

Lemma reservations_stay_in_budget_witness :
  BudgetGuard_Check (fst (reserve_all [one_call; one_call; one_call] (Some sample_guard)))
  = nothing_exceeded
  /\ snd (reserve_all [one_call; one_call; one_call] (Some sample_guard)) = [true; true; false].
Proof.
  split; [|reflexivity].
  apply (reservations_stay_in_budget [one_call; one_call; one_call] sample_guard
    _ [true; true; false]); reflexivity.
Defined.
