(* ===== verification/Authority.v ===== *)
(** Authority resolution: internal/planner/authority.go.

    The layers of authority (configuration, goal, parent task, task) are folded
    with [NarrowAuthority]; [ResolveAuthority] returns the effective authority
    with a trace. *)

From Stdlib Require Import Ascii String.
From stdpp Require Import base tactics decidable list gmap strings pretty.
From S2P Require Import Prelude Enums Verification Budget TaskModels.

(** [type AuthoritySource string] *)
Definition AuthSourceConfig : string := "config".
Definition AuthSourceGoal : string := "goal".
Definition AuthSourceParent : string := "parent_task".
Definition AuthSourceTask : string := "task".
Definition AuthSourceDelegation : string := "delegation".

Record AuthorityLayer := mkAuthorityLayer {
  al_Source : string;
  al_Label : string;
  al_Authority : TaskAuthority
}.

Record NarrowingRecord := mkNarrowingRecord {
  nr_Source : string;
  nr_Field : string;
  nr_From : string;
  nr_To : string
}.

Record AuthorityTrace := mkAuthorityTrace {
  at_Layers : list AuthorityLayer;
  at_Effective : TaskAuthority;
  at_Narrowed : list NarrowingRecord
}.

(** ** Rankings *)

Definition autonomyRank (m : string) : option Z :=
  go_switch m
    [([AutonomyFull], Some 0); ([AutonomyPlanApproval], Some 1);
     ([AutonomyStepApproval], Some 2); ([AutonomySupervised], Some 3)] None.

Definition moreRestrictiveAutonomy (a b : string) : string :=
  let ra := default 3 (autonomyRank a) in
  let rb := default 3 (autonomyRank b) in
  if rb <=? ra then a else b.

Definition riskRank (r : string) : option Z :=
  go_switch r
    [([RiskClassLow], Some 0); ([RiskClassMedium], Some 1);
     ([RiskClassHigh], Some 2); ([RiskClassCritical], Some 3)] None.

Definition higherRisk (a b : string) : string :=
  let ra := default 3 (riskRank a) in
  let rb := default 3 (riskRank b) in
  if rb <=? ra then a else b.

Definition narrowDepth (parent child : Z) : Z :=
  if parent =? 0 then child
  else if child =? 0 then parent
  else if parent <? child then parent
  else child.

(** ** Set operations on slices *)

Definition intersectStrings (a b : list string) : list string :=
  if Nat.eqb (length a) 0 then b
  else if Nat.eqb (length b) 0 then a
  else let set : gset string := list_to_set a in
       List.filter (fun s => bool_decide (s ∈ set)) b.

(** One loop of [unionStrings]: what it appends, and the new [seen]. *)
Fixpoint append_unseen (seen : gset string) (l : list string) : list string * gset string :=
  match l with
  | [] => ([], seen)
  | s :: l =>
    if decide (s ∈ seen) then append_unseen seen l
    else let '(r, seen) := append_unseen ({[s]} ∪ seen) l in (s :: r, seen)
  end.

Definition unionStrings (a b : list string) : list string :=
  if Nat.eqb (length a) 0 then b
  else if Nat.eqb (length b) 0 then a
  else let '(ra, seen) := append_unseen ∅ a in
       let '(rb, _) := append_unseen seen b in
       ra ++ rb.

(** ** Narrowing *)

Definition NarrowAuthority (parent child : TaskAuthority) : TaskAuthority :=
  mkTaskAuthority
    (if (ta_AutonomyMode parent !=? "") && (ta_AutonomyMode child !=? "")
     then moreRestrictiveAutonomy (ta_AutonomyMode parent) (ta_AutonomyMode child)
     else if ta_AutonomyMode parent !=? "" then ta_AutonomyMode parent
     else ta_AutonomyMode child)
    (if ta_Role child ==? "" then ta_Role parent else ta_Role child)
    (if (ta_RiskClass parent !=? "") && (ta_RiskClass child !=? "")
     then higherRisk (ta_RiskClass parent) (ta_RiskClass child)
     else if ta_RiskClass parent !=? "" then ta_RiskClass parent
     else ta_RiskClass child)
    (if negb (ta_CanAct parent) then false else ta_CanAct child)
    (if negb (ta_CanDelegate parent) then false else ta_CanDelegate child)
    (if negb (ta_CanEscalate parent) then false else ta_CanEscalate child)
    (if ta_EscalationRequired parent then true else ta_EscalationRequired child)
    (intersectStrings (ta_AllowedAgents parent) (ta_AllowedAgents child))
    (intersectStrings (ta_AllowedTools parent) (ta_AllowedTools child))
    (unionStrings (ta_DeniedTools parent) (ta_DeniedTools child))
    (narrowDepth (ta_MaxDelegationDepth parent) (ta_MaxDelegationDepth child))
    "".

Definition boolStr (v : bool) : string := if v then "true" else "false".
Definition intStr (v : Z) : string := pretty v.
Definition len {A} (l : list A) : Z := Z.of_nat (length l).

Definition diff_string (source field from to : string) : list NarrowingRecord :=
  if from !=? to then [mkNarrowingRecord source field from to] else [].
Definition diff_bool (source field : string) (from to : bool) : list NarrowingRecord :=
  if negb (Bool.eqb from to)
  then [mkNarrowingRecord source field (boolStr from) (boolStr to)] else [].
Definition diff_int (source field : string) (from to : Z) : list NarrowingRecord :=
  if negb (from =? to)
  then [mkNarrowingRecord source field (intStr from) (intStr to)] else [].

Definition diffAuthority (source : string) (before after : TaskAuthority)
  : list NarrowingRecord :=
  diff_string source "autonomy_mode" (ta_AutonomyMode before) (ta_AutonomyMode after)
  ++ diff_string source "risk_class" (ta_RiskClass before) (ta_RiskClass after)
  ++ diff_bool source "can_act" (ta_CanAct before) (ta_CanAct after)
  ++ diff_bool source "can_delegate" (ta_CanDelegate before) (ta_CanDelegate after)
  ++ diff_bool source "can_escalate" (ta_CanEscalate before) (ta_CanEscalate after)
  ++ diff_bool source "escalation_required"
       (ta_EscalationRequired before) (ta_EscalationRequired after)
  ++ diff_int source "max_delegation_depth"
       (ta_MaxDelegationDepth before) (ta_MaxDelegationDepth after)
  ++ diff_int source "allowed_tools"
       (len (ta_AllowedTools before)) (len (ta_AllowedTools after))
  ++ diff_int source "denied_tools"
       (len (ta_DeniedTools before)) (len (ta_DeniedTools after))
  ++ diff_int source "allowed_agents"
       (len (ta_AllowedAgents before)) (len (ta_AllowedAgents after)).

(** The loop of [ResolveAuthority] from its second layer on. *)
Fixpoint resolve_loop (effective : TaskAuthority) (narrowed : list NarrowingRecord)
    (layers : list AuthorityLayer) : TaskAuthority * list NarrowingRecord :=
  match layers with
  | [] => (effective, narrowed)
  | layer :: layers =>
    let child := TaskAuthority_Normalize (al_Authority layer) in
    let before := effective in
    let effective := NarrowAuthority before child in
    resolve_loop effective (narrowed ++ diffAuthority (al_Source layer) before effective) layers
  end.

Definition ResolveAuthority (layers : list AuthorityLayer) : AuthorityTrace :=
  match layers with
  | [] => mkAuthorityTrace layers zero_authority []
  | first :: rest =>
    let '(effective, narrowed) :=
      resolve_loop (TaskAuthority_Normalize (al_Authority first)) [] rest in
    mkAuthorityTrace layers effective narrowed
  end.

Definition isZeroAuthority (a : TaskAuthority) : bool :=
  (ta_AutonomyMode a ==? "") && (ta_Role a ==? "") && (ta_RiskClass a ==? "")
  && negb (ta_CanAct a) && negb (ta_CanDelegate a) && negb (ta_CanEscalate a)
  && negb (ta_EscalationRequired a)
  && Nat.eqb (length (ta_AllowedAgents a)) 0
  && Nat.eqb (length (ta_AllowedTools a)) 0
  && Nat.eqb (length (ta_DeniedTools a)) 0
  && (ta_MaxDelegationDepth a =? 0) && (ta_ApprovalMode a ==? "").

Definition BuildAuthorityChain (configDefault : TaskAuthority) (goal : option GoalSpec)
    (parentTask : option TaskSpec) (task : TaskSpec) : list AuthorityLayer :=
  [mkAuthorityLayer AuthSourceConfig "system defaults" configDefault]
  ++ match goal with
     | Some goal =>
       if negb (isZeroAuthority (gs_Authority goal))
       then [mkAuthorityLayer AuthSourceGoal (gs_GoalID goal) (gs_Authority goal)] else []
     | None => []
     end
  ++ match parentTask with
     | Some parent =>
       if negb (isZeroAuthority (ts_Authority parent))
       then [mkAuthorityLayer AuthSourceParent (ts_TaskID parent) (ts_Authority parent)] else []
     | None => []
     end
  ++ (if negb (isZeroAuthority (ts_Authority task))
      then [mkAuthorityLayer AuthSourceTask (ts_TaskID task) (ts_Authority task)] else []).

(** ** The trace as text: [FormatTrace] *)

(** [%v] of a slice of strings. *)
Definition fmt_strings (l : list string) : string := "[" +:+ String.concat " " l +:+ "]".
Definition newline : string := String "010"%char "".

Fixpoint format_layers (i : Z) (layers : list AuthorityLayer) : string :=
  match layers with
  | [] => ""
  | layer :: layers =>
    let label := if al_Label layer ==? "" then al_Source layer else al_Label layer in
    "  " +:+ pretty i +:+ ". [" +:+ al_Source layer +:+ "] " +:+ label
    +:+ (if ta_AutonomyMode (al_Authority layer) !=? ""
         then " (autonomy=" +:+ ta_AutonomyMode (al_Authority layer) +:+ ")" else "")
    +:+ newline +:+ format_layers (i + 1) layers
  end.

Definition format_narrowing (nr : NarrowingRecord) : string :=
  "  - [" +:+ nr_Source nr +:+ "] " +:+ nr_Field nr +:+ ": " +:+ nr_From nr +:+ " → "
  +:+ nr_To nr +:+ newline.

Definition FormatTrace (trace : AuthorityTrace) : string :=
  let eff := at_Effective trace in
  "Authority resolution:" +:+ newline
  +:+ format_layers 1 (at_Layers trace)
  +:+ (if Nat.eqb (length (at_Narrowed trace)) 0 then ""
       else "Narrowing:" +:+ newline
            +:+ String.concat "" (map format_narrowing (at_Narrowed trace)))
  +:+ "Effective: autonomy=" +:+ ta_AutonomyMode eff +:+ " risk=" +:+ ta_RiskClass eff
  +:+ " can_act=" +:+ boolStr (ta_CanAct eff)
  +:+ " can_delegate=" +:+ boolStr (ta_CanDelegate eff)
  +:+ " depth=" +:+ pretty (ta_MaxDelegationDepth eff)
  +:+ (if Nat.eqb (length (ta_AllowedTools eff)) 0 then ""
       else " allowed_tools=" +:+ fmt_strings (ta_AllowedTools eff))
  +:+ (if Nat.eqb (length (ta_DeniedTools eff)) 0 then ""
       else " denied_tools=" +:+ fmt_strings (ta_DeniedTools eff)).

(** ** What narrowing guarantees *)

(** Membership in an allow list; the empty list allows everything. *)
Definition allow_ok (l : list string) (x : string) : bool :=
  Nat.eqb (length l) 0 || existsb (fun y => y ==? x) l.

(** Two allow lists are compatible when one is empty or they share an entry. *)
Definition compatible (a b : list string) : Prop :=
  a = [] \/ b = [] \/ exists x, x ∈ a /\ x ∈ b.

Lemma existsb_eqb (l : list string) x : existsb (fun y => y ==? x) l = true <-> x ∈ l.
Proof.
  rewrite existsb_exists, list_elem_of_In. split.
  - by intros (y & Hy & ->%String.eqb_eq).
  - intros H. exists x. by rewrite String.eqb_refl.
Qed.

Lemma allow_ok_iff l x : allow_ok l x = true <-> l = [] \/ x ∈ l.
Proof.
  unfold allow_ok. rewrite orb_true_iff, existsb_eqb. destruct l; cbn; [tauto|].
  split; intros [|]; auto; discriminate.
Qed.

Lemma elem_of_intersect a b x :
  a <> [] -> b <> [] -> x ∈ intersectStrings a b <-> x ∈ a /\ x ∈ b.
Proof.
  intros Ha Hb. unfold intersectStrings. destruct a as [|a0 a], b as [|b0 b]; try done.
  cbn [length Nat.eqb].
  rewrite elem_of_filter_b, bool_decide_eq_true,
    elem_of_list_to_set. tauto.
Qed.

Lemma allow_ok_intersect a b x :
  compatible a b -> allow_ok (intersectStrings a b) x = allow_ok a x && allow_ok b x.
Proof.
  intros [-> |[-> |(y & Ha & Hb)]]; [done|by destruct a; cbn; rewrite ?andb_true_r|].
  assert (a <> [] /\ b <> []) as [Hna Hnb] by (split; intros ->; by apply not_elem_of_nil in Ha || by apply not_elem_of_nil in Hb).
  assert (intersectStrings a b <> []) as Hn.
  { intros He. apply (not_elem_of_nil y). rewrite <- He. by apply elem_of_intersect. }
  apply eq_true_iff_eq. rewrite andb_true_iff, !allow_ok_iff, elem_of_intersect by done. tauto.
Qed.

Lemma append_unseen_elem seen l x :
  (x ∈ (append_unseen seen l).1 <-> x ∈ l /\ x ∉ seen)
  /\ (x ∈ (append_unseen seen l).2 <-> x ∈ l \/ x ∈ seen).
Proof.
  revert seen. induction l as [|s l IH]; intros seen; cbn [append_unseen].
  { cbn. rewrite elem_of_nil. tauto. }
  rewrite !elem_of_cons. case_decide as Hs.
  - destruct (IH seen) as [-> ->]. naive_solver.
  - destruct (IH ({[s]} ∪ seen)) as [H1 H2].
    destruct (append_unseen ({[s]} ∪ seen) l) as [r seen']. cbn in *.
    rewrite elem_of_cons, H1, H2, !elem_of_union, elem_of_singleton.
    destruct (decide (x = s)); naive_solver.
Qed.

Lemma append_unseen_nodup seen l : NoDup (append_unseen seen l).1.
Proof.
  revert seen. induction l as [|s l IH]; intros seen; cbn [append_unseen]; [constructor|].
  case_decide as Hs; [done|].
  pose proof (append_unseen_elem ({[s]} ∪ seen) l s) as [H1 _]. specialize (IH ({[s]} ∪ seen)).
  destruct (append_unseen ({[s]} ∪ seen) l) as [r seen']. cbn in *.
  constructor; [|done]. rewrite H1. set_solver.
Qed.

Lemma elem_of_union_strings a b x : x ∈ unionStrings a b <-> x ∈ a \/ x ∈ b.
Proof.
  unfold unionStrings. destruct a as [|a0 a]; [rewrite elem_of_nil; naive_solver|].
  destruct b as [|b0 b]; [cbn; rewrite elem_of_nil; naive_solver|].
  cbn [length Nat.eqb].
  pose proof (append_unseen_elem ∅ (a0 :: a) x) as [H1 H2].
  destruct (append_unseen ∅ (a0 :: a)) as [ra seen]. cbn [fst snd] in *.
  pose proof (append_unseen_elem seen (b0 :: b) x) as [H3 _].
  destruct (append_unseen seen (b0 :: b)) as [rb seen2]. cbn [fst snd] in *.
  rewrite elem_of_app, H1, H3, H2. pose proof (not_elem_of_empty (C:=gset string) x).
  destruct (decide (x ∈ a0 :: a)); tauto.
Qed.

Lemma denied_union a b x :
  existsb (fun d => d ==? x) (unionStrings a b)
  = existsb (fun d => d ==? x) a || existsb (fun d => d ==? x) b.
Proof. apply eq_true_iff_eq. by rewrite orb_true_iff, !existsb_eqb, elem_of_union_strings. Qed.

Lemma MayUseTool_eq a t :
  TaskAuthority_MayUseTool a t
  = negb (existsb (fun d => d ==? t) (ta_DeniedTools a)) && allow_ok (ta_AllowedTools a) t.
Proof. unfold TaskAuthority_MayUseTool, allow_ok. by repeat case_if. Qed.

Lemma MayDelegateTo_eq a g :
  TaskAuthority_MayDelegateTo a g = ta_CanDelegate a && allow_ok (ta_AllowedAgents a) g.
Proof. unfold TaskAuthority_MayDelegateTo, allow_ok. by destruct (ta_CanDelegate a); repeat case_if. Qed.

(** Strictness of a mode and severity of a risk class; unset is the weakest. *)
Definition autonomy_strictness (m : string) : Z :=
  if m ==? "" then -1 else default 3 (autonomyRank m).
Definition risk_severity (r : string) : Z :=
  if r ==? "" then -1 else default 3 (riskRank r).

Lemma rank_bounds (ranks : list (list string * option Z)) s :
  forallb (fun c => match c.2 with Some z => (0 <=? z) && (z <=? 3) | None => false end) ranks = true ->
  0 <= default 3 (go_switch s ranks None) <= 3.
Proof.
  intros H. rewrite forallb_forall in H.
  destruct (go_switch_cases s ranks None) as [(ls & a & Hin & _ & ->)|[_ ->]]; [|cbn; lia].
  rewrite list_elem_of_In in Hin. apply H in Hin. cbn in Hin. destruct a; [|done].
  bool_to_prop. cbn. lia.
Qed.

Lemma narrow_autonomy p c :
  autonomy_strictness (ta_AutonomyMode (NarrowAuthority p c))
  = Z.max (autonomy_strictness (ta_AutonomyMode p)) (autonomy_strictness (ta_AutonomyMode c)).
Proof.
  cbn. generalize (ta_AutonomyMode p) as a, (ta_AutonomyMode c) as b. intros a b.
  assert (0 <= default 3 (autonomyRank a) <= 3) by by apply rank_bounds.
  assert (0 <= default 3 (autonomyRank b) <= 3) by by apply rank_bounds.
  unfold autonomy_strictness, moreRestrictiveAutonomy.
  destruct (a ==? "") eqn:Ea, (b ==? "") eqn:Eb; cbn [negb andb]; rewrite ?Ea, ?Eb; try lia.
  destruct (Z.leb_spec (default 3 (autonomyRank b)) (default 3 (autonomyRank a)));
    rewrite ?Ea, ?Eb; lia.
Qed.

Lemma narrow_risk p c :
  risk_severity (ta_RiskClass (NarrowAuthority p c))
  = Z.max (risk_severity (ta_RiskClass p)) (risk_severity (ta_RiskClass c)).
Proof.
  cbn. generalize (ta_RiskClass p) as a, (ta_RiskClass c) as b. intros a b.
  assert (0 <= default 3 (riskRank a) <= 3) by by apply rank_bounds.
  assert (0 <= default 3 (riskRank b) <= 3) by by apply rank_bounds.
  unfold risk_severity, higherRisk.
  destruct (a ==? "") eqn:Ea, (b ==? "") eqn:Eb; cbn [negb andb]; rewrite ?Ea, ?Eb; try lia.
  destruct (Z.leb_spec (default 3 (riskRank b)) (default 3 (riskRank a)));
    rewrite ?Ea, ?Eb; lia.
Qed.

(** A delegation at depth [d] is allowed by the limit [m]; [0] is no limit. *)
Definition depth_ok (m d : Z) : bool := (m =? 0) || (d <=? m).

Lemma narrow_depth_ok p c d :
  depth_ok (narrowDepth p c) d = depth_ok p d && depth_ok c d.
Proof.
  unfold depth_ok, narrowDepth.
  destruct (Z.eqb_spec p 0), (Z.eqb_spec c 0), (Z.ltb_spec p c); subst;
    repeat match goal with
    | |- context [Z.eqb ?a ?b] => destruct (Z.eqb_spec a b)
    | |- context [Z.leb ?a ?b] => destruct (Z.leb_spec a b)
    end; cbn; try reflexivity; lia.
Qed.

(** Narrowing never grants more than the parent on the gates: autonomy and
    risk are the stricter of the two, every permission bit is the conjunction,
    the escalation requirement the disjunction, the depth limits are both
    enforced, and a tool denied by either stays denied. *)
Theorem narrowing_gates p c :
  let r := NarrowAuthority p c in
  autonomy_strictness (ta_AutonomyMode r)
    = Z.max (autonomy_strictness (ta_AutonomyMode p)) (autonomy_strictness (ta_AutonomyMode c))
  /\ risk_severity (ta_RiskClass r)
    = Z.max (risk_severity (ta_RiskClass p)) (risk_severity (ta_RiskClass c))
  /\ ta_CanAct r = ta_CanAct p && ta_CanAct c
  /\ ta_CanDelegate r = ta_CanDelegate p && ta_CanDelegate c
  /\ ta_CanEscalate r = ta_CanEscalate p && ta_CanEscalate c
  /\ ta_EscalationRequired r = ta_EscalationRequired p || ta_EscalationRequired c
  /\ (forall d, depth_ok (ta_MaxDelegationDepth r) d
               = depth_ok (ta_MaxDelegationDepth p) d && depth_ok (ta_MaxDelegationDepth c) d)
  /\ (forall t, t ∈ ta_DeniedTools r <-> t ∈ ta_DeniedTools p \/ t ∈ ta_DeniedTools c).
Proof.
  cbv zeta. rewrite narrow_autonomy, narrow_risk. cbn.
  repeat split; try (by destruct (ta_CanAct p)); try (by destruct (ta_CanDelegate p));
    try (by destruct (ta_CanEscalate p)); try (by destruct (ta_EscalationRequired p));
    try apply narrow_depth_ok; apply elem_of_union_strings.
Qed.

(** *** The whole chain *)

Definition fold_narrow (eff : TaskAuthority) (layers : list AuthorityLayer) : TaskAuthority :=
  fold_left (fun a l => NarrowAuthority a (TaskAuthority_Normalize (al_Authority l))) layers eff.

Lemma resolve_loop_effective eff narrowed layers :
  (resolve_loop eff narrowed layers).1 = fold_narrow eff layers.
Proof. revert eff narrowed. induction layers as [|l layers IH]; intros; [done|]. apply IH. Qed.

Lemma resolve_effective first rest :
  at_Effective (ResolveAuthority (first :: rest))
  = fold_narrow (TaskAuthority_Normalize (al_Authority first)) rest.
Proof.
  unfold ResolveAuthority.
  rewrite <- (resolve_loop_effective _ [] rest). by destruct (resolve_loop _ [] rest).
Qed.

(** Normalisation only rewrites the two modes and the risk class. *)
Lemma authority_normalize_keeps {B} (f : TaskAuthority -> B) a :
  (forall a m, f (a <| ta_AutonomyMode := m |>) = f a) ->
  (forall a m, f (a <| ta_ApprovalMode := m |>) = f a) ->
  (forall a m, f (a <| ta_RiskClass := m |>) = f a) ->
  f (TaskAuthority_Normalize a) = f a.
Proof. intros H1 H2 H3. unfold TaskAuthority_Normalize. by repeat case_if; rewrite ?H3, ?H1, ?H2, ?H1. Qed.

Lemma Normalize_tools a : ta_AllowedTools (TaskAuthority_Normalize a) = ta_AllowedTools a.
Proof. by apply authority_normalize_keeps. Qed.
Lemma Normalize_denied a : ta_DeniedTools (TaskAuthority_Normalize a) = ta_DeniedTools a.
Proof. by apply authority_normalize_keeps. Qed.
Lemma Normalize_agents a : ta_AllowedAgents (TaskAuthority_Normalize a) = ta_AllowedAgents a.
Proof. by apply authority_normalize_keeps. Qed.
Lemma Normalize_delegate a : ta_CanDelegate (TaskAuthority_Normalize a) = ta_CanDelegate a.
Proof. by apply authority_normalize_keeps. Qed.
Lemma Normalize_act a : ta_CanAct (TaskAuthority_Normalize a) = ta_CanAct a.
Proof. by apply authority_normalize_keeps. Qed.
#[export] Hint Rewrite Normalize_tools Normalize_denied Normalize_agents Normalize_delegate
  Normalize_act : go.

(** A test combined with [&&] along the chain, for layers that satisfy [inv]. *)
Lemma resolve_forallb (f inv : TaskAuthority -> bool) first rest :
  (forall a, f (TaskAuthority_Normalize a) = f a) ->
  (forall a, inv (TaskAuthority_Normalize a) = inv a) ->
  (forall p c, inv p = true -> inv c = true ->
     f (NarrowAuthority p c) = f p && f c /\ inv (NarrowAuthority p c) = true) ->
  forallb (fun l => inv (al_Authority l)) (first :: rest) = true ->
  f (at_Effective (ResolveAuthority (first :: rest)))
  = forallb (fun l => f (al_Authority l)) (first :: rest).
Proof.
  intros Hf Hi Hstep. rewrite resolve_effective. cbn [forallb].
  rewrite <- (Hf (al_Authority first)), <- (Hi (al_Authority first)).
  generalize (TaskAuthority_Normalize (al_Authority first)) as eff. unfold fold_narrow.
  induction rest as [|l layers IH]; intros eff [He Hl]%andb_prop; cbn.
  { by rewrite andb_true_r. }
  cbn in Hl. apply andb_prop in Hl as [Hl1 Hl2]. rewrite <- Hi in Hl1.
  destruct (Hstep _ _ He Hl1) as [H1 H2].
  rewrite IH by by rewrite H2. by rewrite H1, Hf, andb_assoc.
Qed.

Lemma compatible_common a b x : allow_ok a x = true -> allow_ok b x = true -> compatible a b.
Proof.
  rewrite !allow_ok_iff. intros [|Ha] [|Hb]; [by left|by left|by right; left|].
  right; right. by exists x.
Qed.

Lemma narrow_tool p c t0 t :
  allow_ok (ta_AllowedTools p) t0 = true -> allow_ok (ta_AllowedTools c) t0 = true ->
  TaskAuthority_MayUseTool (NarrowAuthority p c) t
  = TaskAuthority_MayUseTool p t && TaskAuthority_MayUseTool c t.
Proof.
  intros Hp Hc. rewrite !MayUseTool_eq. cbn.
  rewrite denied_union, allow_ok_intersect by by eapply compatible_common.
  destruct (existsb _ (ta_DeniedTools p)), (existsb _ (ta_DeniedTools c)),
    (allow_ok (ta_AllowedTools p) t), (allow_ok (ta_AllowedTools c) t); reflexivity.
Qed.

Lemma narrow_agent p c g0 g :
  allow_ok (ta_AllowedAgents p) g0 = true -> allow_ok (ta_AllowedAgents c) g0 = true ->
  TaskAuthority_MayDelegateTo (NarrowAuthority p c) g
  = TaskAuthority_MayDelegateTo p g && TaskAuthority_MayDelegateTo c g.
Proof.
  intros Hp Hc. rewrite !MayDelegateTo_eq. cbn.
  rewrite allow_ok_intersect by by eapply compatible_common.
  destruct (ta_CanDelegate p), (ta_CanDelegate c),
    (allow_ok (ta_AllowedAgents p) g), (allow_ok (ta_AllowedAgents c) g); reflexivity.
Qed.

Lemma intersect_keeps a b x :
  allow_ok a x = true -> allow_ok b x = true -> allow_ok (intersectStrings a b) x = true.
Proof. intros Ha Hb. rewrite allow_ok_intersect by by eapply compatible_common. by rewrite Ha, Hb. Qed.

(** C8: the resolved authority grants a tool, an agent or an action exactly when
    every layer of the chain grants it, as long as the allow lists of the chain
    have a common tool and a common agent. *)
Theorem resolved_authority_is_conjunction first rest t0 g0 :
  let layers := first :: rest in
  let eff := at_Effective (ResolveAuthority layers) in
  forallb (fun l => allow_ok (ta_AllowedTools (al_Authority l)) t0) layers = true ->
  forallb (fun l => allow_ok (ta_AllowedAgents (al_Authority l)) g0) layers = true ->
  (forall t, TaskAuthority_MayUseTool eff t
             = forallb (fun l => TaskAuthority_MayUseTool (al_Authority l) t) layers)
  /\ (forall g, TaskAuthority_MayDelegateTo eff g
             = forallb (fun l => TaskAuthority_MayDelegateTo (al_Authority l) g) layers)
  /\ ta_CanAct eff = forallb (fun l => ta_CanAct (al_Authority l)) layers.
Proof.
  intros layers eff Ht Hg. split; [|split].
  - intros t. apply (resolve_forallb (fun a => TaskAuthority_MayUseTool a t)
                       (fun a => allow_ok (ta_AllowedTools a) t0)); auto.
    + intros a. by rewrite !MayUseTool_eq, Normalize_denied, Normalize_tools.
    + intros a. by rewrite Normalize_tools.
    + intros p c Hp Hc. split; [by eapply narrow_tool|by apply intersect_keeps].
  - intros g. apply (resolve_forallb (fun a => TaskAuthority_MayDelegateTo a g)
                       (fun a => allow_ok (ta_AllowedAgents a) g0)); auto.
    + intros a. by rewrite !MayDelegateTo_eq, Normalize_delegate, Normalize_agents.
    + intros a. by rewrite Normalize_agents.
    + intros p c Hp Hc. split; [by eapply narrow_agent|by apply intersect_keeps].
  - apply (resolve_forallb ta_CanAct (fun _ => true)); auto using Normalize_act.
    + intros p c _ _. split; [|done]. cbn. by destruct (ta_CanAct p).
    + by apply forallb_forall.
Qed.

Definition sample_layer (source : string) (tools : list string) : AuthorityLayer :=
  mkAuthorityLayer source source
    (mkTaskAuthority "" "" "" true true true false [] tools [] 0 "").

Lemma resolved_authority_is_conjunction_witness :
  let layers := [sample_layer "config" ["read"; "write"]; sample_layer "task" ["read"]] in
  TaskAuthority_MayUseTool (at_Effective (ResolveAuthority layers)) "write" = false.
Proof.
  cbv zeta.
  destruct (resolved_authority_is_conjunction (sample_layer "config" ["read"; "write"])
    [sample_layer "task" ["read"]] "read" "any") as [H _]; [reflexivity|reflexivity|].
  rewrite H. reflexivity.
Defined.

(** Two disjoint allow lists widen instead of narrowing: their intersection is
    the empty list, which means "unrestricted", so every tool that neither side
    denies becomes allowed, also those that neither side allows. *)
Theorem disjoint_allowlists_allow_everything p c t :
  ta_AllowedTools p <> [] -> ta_AllowedTools c <> [] ->
  (forall x, x ∈ ta_AllowedTools p -> x ∉ ta_AllowedTools c) ->
  t ∉ ta_DeniedTools p -> t ∉ ta_DeniedTools c ->
  TaskAuthority_MayUseTool (NarrowAuthority p c) t = true.
Proof.
  intros Hp Hc Hd Hp' Hc'. rewrite MayUseTool_eq. cbn.
  assert (intersectStrings (ta_AllowedTools p) (ta_AllowedTools c) = []) as ->.
  { destruct (intersectStrings _ _) as [|x l] eqn:E; [done|].
    assert (x ∈ intersectStrings (ta_AllowedTools p) (ta_AllowedTools c)) as Hx
      by (rewrite E; by left).
    apply elem_of_intersect in Hx as [H1 H2]; auto. by destruct (Hd x). }
  rewrite denied_union. rewrite <- existsb_eqb, not_true_iff_false in Hp', Hc'.
  by rewrite Hp', Hc'.
Qed.

Lemma disjoint_allowlists_allow_everything_witness :
  let p := al_Authority (sample_layer "goal" ["read"]) in
  let c := al_Authority (sample_layer "task" ["write"]) in
  TaskAuthority_MayUseTool p "exec" = false /\ TaskAuthority_MayUseTool c "exec" = false
  /\ TaskAuthority_MayUseTool (NarrowAuthority p c) "exec" = true.
Proof.
  cbv zeta. split; [reflexivity|]. split; [reflexivity|].
  apply disjoint_allowlists_allow_everything; try done; cbn; try (apply not_elem_of_nil).
  intros x ->%list_elem_of_singleton H%list_elem_of_singleton. discriminate.
Defined.
