(* ===== verification/Delegation.v ===== *)
(** Delegation of a child task: internal/planner/delegation.go.

    The clock reading [time.Now().Unix()], used when the request carries no
    timestamp, is the argument [clock]. *)

From Stdlib Require Import Ascii String.
From stdpp Require Import base tactics decidable list gmap strings pretty.
From S2P Require Import Prelude Enums Verification Budget TaskModels Authority.

Record DelegationRequest := mkDelegationRequest {
  dr_ParentTask : TaskSpec;
  dr_ParentRun : TaskRun;
  dr_ParentUsage : TaskUsage;
  dr_ChildInstructions : string;
  dr_ChildTitle : string;
  dr_ChildAuthority : option TaskAuthority;
  dr_ChildBudget : option TaskBudget;
  dr_ChildExpectedOutputs : list TaskOutputSpec;
  dr_ChildAcceptanceCriteria : list TaskAcceptanceCriterion;
  dr_ChildVerification : option VerificationSpec;
  dr_AssignedAgent : string;
  dr_DelegationDepth : Z;
  dr_Now : Z
}.

Record DelegationResult := mkDelegationResult {
  dl_Task : TaskSpec;
  dl_EffectiveAuthority : TaskAuthority;
  dl_EffectiveBudget : TaskBudget;
  dl_AuthorityTrace : AuthorityTrace;
  dl_Warnings : list string
}.

(** [strings.IndexByte(s, '\n')]: the text before the first newline, or the
    whole text. *)
Fixpoint first_line (s : string) : string :=
  match s with
  | "" => ""
  | String c s => if Ascii.eqb c "010" then "" else String c (first_line s)
  end.

Definition deriveDelegationTitle (instructions : string) : string :=
  let instructions := TrimSpace instructions in
  if instructions ==? "" then "delegated task"
  else
    let instructions := first_line instructions in
    if Nat.ltb 80 (String.length instructions)
    then String.substring 0 77 instructions +:+ "..."
    else instructions.

Definition delegation_warnings (remaining : TaskBudget) : list string :=
  if negb (TaskBudget_IsZero remaining)
  then
    (if (0 <? tb_MaxTotalTokens remaining) && (tb_MaxTotalTokens remaining <? 100)
     then ["parent budget nearly exhausted: <100 tokens remaining"] else [])
    ++ (if (0 <? tb_MaxToolCalls remaining) && (tb_MaxToolCalls remaining <? 2)
        then ["parent budget nearly exhausted: <2 tool calls remaining"] else [])
  else [].

(** The child task of [BuildDelegatedTask]. *)
Definition delegated_task (req : DelegationRequest) (parent : TaskSpec) (now : Z)
    (childAuth : TaskAuthority) (childBudget : TaskBudget) : TaskSpec :=
  let title := TrimSpace (dr_ChildTitle req) in
  let title := if title ==? "" then deriveDelegationTitle (dr_ChildInstructions req) else title in
  mkTaskSpec 1
    (ts_TaskID parent +:+ "-del-" +:+ pretty now)
    (ts_GoalID parent) (ts_TaskID parent) (ts_PlanID parent) (ts_SessionID parent)
    title (TrimSpace (dr_ChildInstructions req))
    None (dr_ChildExpectedOutputs req) (dr_ChildAcceptanceCriteria req) []
    (TrimSpace (dr_AssignedAgent req)) "" ""
    TaskStatusPending (ts_Priority parent) childAuth (ts_MemoryScope parent)
    (ts_ToolProfile parent) (ts_EnabledTools parent) childBudget
    match dr_ChildVerification req with Some v => v | None => zero_verification end
    now now []
    (Some {["delegation_depth" := VInt (add64 (dr_DelegationDepth req) 1);
            "parent_run_id" := VString (tr_RunID (dr_ParentRun req))]}).

Definition child_authority (req : DelegationRequest) (parent : TaskSpec) : TaskAuthority :=
  match dr_ChildAuthority req with
  | None => ts_Authority parent
  | Some a => NarrowAuthority (ts_Authority parent) a
  end.

Definition child_budget (req : DelegationRequest) (parent : TaskSpec) : TaskBudget :=
  let remaining := TaskBudget_Remaining (ts_Budget parent) (dr_ParentUsage req) in
  match dr_ChildBudget req with
  | None => remaining
  | Some b => TaskBudget_Narrow remaining b
  end.

Definition depth_error (req : DelegationRequest) (maxDepth : Z) : error :=
  Errorf "delegation depth %d exceeds max %d" [ArgZ (dr_DelegationDepth req); ArgZ maxDepth].

Definition BuildDelegatedTask (clock : Z) (req : DelegationRequest) : result DelegationResult :=
  let parent := TaskSpec_Normalize (dr_ParentTask req) in
  let now := if dr_Now req =? 0 then clock else dr_Now req in
  if blank (dr_ChildInstructions req) then Err (Errorf "child_instructions is required" [])
  else if blank (ts_TaskID parent) then Err (Errorf "parent task_id is required" [])
  else
  let maxDepth := ta_MaxDelegationDepth (ts_Authority parent) in
  if (0 <? maxDepth) && (maxDepth <=? dr_DelegationDepth req)
  then Err (depth_error req maxDepth)
  else if negb (ta_CanDelegate (ts_Authority parent))
  then Err (Errorf "parent task does not have delegation permission" [])
  else
  let childAuth := child_authority req parent in
  let trace := ResolveAuthority
    [mkAuthorityLayer AuthSourceConfig "parent_authority" (ts_Authority parent);
     mkAuthorityLayer AuthSourceDelegation "child_requested" childAuth] in
  let remaining := TaskBudget_Remaining (ts_Budget parent) (dr_ParentUsage req) in
  let childBudget := child_budget req parent in
  Ok (mkDelegationResult (delegated_task req parent now childAuth childBudget)
        childAuth childBudget trace (delegation_warnings remaining)).

Definition ValidateDelegation (req : DelegationRequest) : option error :=
  let parent := TaskSpec_Normalize (dr_ParentTask req) in
  let maxDepth := ta_MaxDelegationDepth (ts_Authority parent) in
  first_error
    [ error_if (blank (dr_ChildInstructions req)) (Errorf "child_instructions is required" []);
      error_if (blank (ts_TaskID parent)) (Errorf "parent task_id is required" []);
      error_if (negb (ta_CanDelegate (ts_Authority parent)))
        (Errorf "parent does not have delegation permission" []);
      error_if ((0 <? maxDepth) && (maxDepth <=? dr_DelegationDepth req))
        (depth_error req maxDepth) ].

Definition FormatDelegationResult (r : DelegationResult) : string :=
  let auth := dl_EffectiveAuthority r in
  let budget := dl_EffectiveBudget r in
  "Delegated Task: " +:+ ts_TaskID (dl_Task r) +:+ newline
  +:+ "  Title: " +:+ ts_Title (dl_Task r) +:+ newline
  +:+ "  Parent: " +:+ ts_ParentTaskID (dl_Task r) +:+ newline
  +:+ "  Authority: mode=" +:+ ta_AutonomyMode auth +:+ " can_act=" +:+ boolStr (ta_CanAct auth)
  +:+ " can_delegate=" +:+ boolStr (ta_CanDelegate auth)
  +:+ " depth=" +:+ pretty (ta_MaxDelegationDepth auth) +:+ newline
  +:+ (if negb (TaskBudget_IsZero budget)
       then "  Budget: tokens=" +:+ pretty (tb_MaxTotalTokens budget)
            +:+ " tools=" +:+ pretty (tb_MaxToolCalls budget)
            +:+ " delegations=" +:+ pretty (tb_MaxDelegations budget) +:+ newline
       else "")
  +:+ (if Nat.ltb 0 (length (ts_ExpectedOutputs (dl_Task r)))
       then "  Expected outputs: " +:+ pretty (len (ts_ExpectedOutputs (dl_Task r))) +:+ newline
       else "")
  +:+ (if Nat.ltb 0 (length (ts_AcceptanceCriteria (dl_Task r)))
       then "  Acceptance criteria: " +:+ pretty (len (ts_AcceptanceCriteria (dl_Task r)))
            +:+ newline
       else "")
  +:+ String.concat "" (map (fun w => "  ⚠️  " +:+ w +:+ newline) (dl_Warnings r)).
Arguments BuildDelegatedTask : simpl never.

(** ** Lemmas *)

Lemma Normalize_authority t : ts_Authority (TaskSpec_Normalize t) = ts_Authority t.
Proof. by rewrite TaskSpec_Normalize_fields. Qed.
Lemma Normalize_budget t : ts_Budget (TaskSpec_Normalize t) = ts_Budget t.
Proof. by rewrite TaskSpec_Normalize_fields. Qed.
Lemma Normalize_lineage t :
  ts_TaskID (TaskSpec_Normalize t) = ts_TaskID t /\ ts_GoalID (TaskSpec_Normalize t) = ts_GoalID t
  /\ ts_PlanID (TaskSpec_Normalize t) = ts_PlanID t
  /\ ts_SessionID (TaskSpec_Normalize t) = ts_SessionID t.
Proof. by rewrite TaskSpec_Normalize_fields. Qed.

Definition delegation_now (clock : Z) (req : DelegationRequest) : Z :=
  if dr_Now req =? 0 then clock else dr_Now req.

(** What a successful call returns, and under which conditions. *)
Lemma build_ok clock req r :
  BuildDelegatedTask clock req = Ok r ->
  let parent := TaskSpec_Normalize (dr_ParentTask req) in
  (ta_CanDelegate (ts_Authority (dr_ParentTask req)) = true
   /\ let m := ta_MaxDelegationDepth (ts_Authority (dr_ParentTask req)) in
      (0 < m -> dr_DelegationDepth req < m))
  /\ dl_EffectiveAuthority r = child_authority req parent
  /\ dl_EffectiveBudget r = child_budget req parent
  /\ dl_Task r = delegated_task req parent (delegation_now clock req)
                   (child_authority req parent) (child_budget req parent).
Proof.
  unfold BuildDelegatedTask. rewrite Normalize_authority. cbv zeta.
  fold (delegation_now clock req).
  destruct (blank (dr_ChildInstructions req)); [discriminate|].
  destruct (blank (ts_TaskID _)); [discriminate|].
  destruct (_ && _) eqn:Hd; [discriminate|].
  destruct (ta_CanDelegate _); [|discriminate].
  intros <-%Ok_inj. split; [|split; [reflexivity|split; reflexivity]].
  split; [done|]. apply andb_false_iff in Hd as [Hd|Hd]; bool_to_prop; lia.
Qed.

(** The pre-flight check is exact: building the delegated task succeeds
    precisely when [ValidateDelegation] reports no error. *)
Theorem delegation_preflight_is_exact clock req :
  is_ok (BuildDelegatedTask clock req) = is_nil (ValidateDelegation req).
Proof.
  unfold BuildDelegatedTask, ValidateDelegation. cbv zeta.
  destruct (blank (dr_ChildInstructions req)); [reflexivity|].
  destruct (blank (ts_TaskID _)); [reflexivity|].
  destruct (_ && _); cbn; destruct (ta_CanDelegate _); reflexivity.
Qed.

(** [a] grants no more than [p] on the gates. *)
Definition no_wider (a p : TaskAuthority) : Prop :=
  autonomy_strictness (ta_AutonomyMode p) <= autonomy_strictness (ta_AutonomyMode a)
  /\ risk_severity (ta_RiskClass p) <= risk_severity (ta_RiskClass a)
  /\ (ta_CanAct a = true -> ta_CanAct p = true)
  /\ (ta_CanDelegate a = true -> ta_CanDelegate p = true)
  /\ (ta_CanEscalate a = true -> ta_CanEscalate p = true)
  /\ (ta_EscalationRequired p = true -> ta_EscalationRequired a = true)
  /\ (forall d, depth_ok (ta_MaxDelegationDepth a) d = true ->
               depth_ok (ta_MaxDelegationDepth p) d = true)
  /\ (forall t, t ∈ ta_DeniedTools p -> t ∈ ta_DeniedTools a).

#[export] Instance no_wider_refl : Reflexive no_wider.
Proof. intros a. repeat split; auto; lia. Qed.

#[export] Instance no_wider_trans : Transitive no_wider.
Proof.
  intros a b c (? & ? & ? & ? & ? & ? & ? & ?) (? & ? & ? & ? & ? & ? & ? & ?).
  repeat split; auto; lia.
Qed.

Lemma narrow_no_wider p c : no_wider (NarrowAuthority p c) p.
Proof.
  unfold no_wider. rewrite narrow_autonomy, narrow_risk. cbn. repeat split; try lia.
  - by destruct (ta_CanAct p).
  - by destruct (ta_CanDelegate p).
  - by destruct (ta_CanEscalate p).
  - by intros ->.
  - intros d. rewrite narrow_depth_ok. by intros [? _]%andb_prop.
  - intros t Ht. apply elem_of_union_strings. by left.
Qed.

(** A delegated task is contained in its parent: whatever authority the
    request asks for, the child's gates are no wider than the parent's, and it
    carries the parent's lineage (goal, plan, session, parent task), the
    effective authority and budget, and starts pending. *)
Theorem delegated_task_is_contained clock req r :
  BuildDelegatedTask clock req = Ok r ->
  no_wider (ts_Authority (dl_Task r)) (ts_Authority (dr_ParentTask req))
  /\ ts_Authority (dl_Task r) = dl_EffectiveAuthority r
  /\ ts_Budget (dl_Task r) = dl_EffectiveBudget r
  /\ ts_ParentTaskID (dl_Task r) = ts_TaskID (dr_ParentTask req)
  /\ ts_GoalID (dl_Task r) = ts_GoalID (dr_ParentTask req)
  /\ ts_PlanID (dl_Task r) = ts_PlanID (dr_ParentTask req)
  /\ ts_SessionID (dl_Task r) = ts_SessionID (dr_ParentTask req)
  /\ ts_Status (dl_Task r) = TaskStatusPending.
Proof.
  intros (_ & -> & -> & ->)%build_ok. cbn.
  destruct (Normalize_lineage (dr_ParentTask req)) as (-> & -> & -> & ->).
  split; [|repeat split]. unfold child_authority. rewrite Normalize_authority.
  destruct (dr_ChildAuthority req); [apply narrow_no_wider|reflexivity].
Qed.

(** *** Budget *)

Lemma Remaining_nonneg b u : nonneg_budget (TaskBudget_Remaining b u).
Proof.
  unfold nonneg_budget, TaskBudget_Remaining, remaining; cbn.
  repeat split; repeat case_if; bool_to_prop; lia.
Qed.

(** What the request's own budget says of a measurement. *)
Definition requested_check (req : DelegationRequest) (v : TaskUsage) : BudgetExceeded :=
  match dr_ChildBudget req with
  | None => nothing_exceeded
  | Some b => TaskBudget_CheckUsage b v
  end.

Lemma exceeded_or_nothing e : exceeded_or e nothing_exceeded = e.
Proof. destruct e; unfold exceeded_or; cbn. by rewrite !orb_false_r. Qed.

(** While the parent has something left in every limited dimension, the child's
    budget is exact: usage [v] of the child exceeds it precisely where the
    parent's usage and [v] together exceed the parent's budget, or where [v]
    exceeds the budget the request asked for. *)
Theorem delegated_budget_is_exact clock req r v :
  BuildDelegatedTask clock req = Ok r ->
  each_dimension has_room (ts_Budget (dr_ParentTask req)) (dr_ParentUsage req) v ->
  (forall b, dr_ChildBudget req = Some b -> nonneg_budget b) ->
  TaskBudget_CheckUsage (ts_Budget (dl_Task r)) v
  = exceeded_or
      (TaskBudget_CheckUsage (ts_Budget (dr_ParentTask req))
         (TaskUsage_Add (dr_ParentUsage req) v))
      (requested_check req v).
Proof.
  intros (_ & _ & _ & ->)%build_ok Hroom Hb. cbn. unfold child_budget, requested_check.
  rewrite Normalize_budget. destruct (dr_ChildBudget req) as [b|].
  - rewrite CheckUsage_narrow by (apply Remaining_nonneg || by apply Hb).
    by rewrite CheckUsage_remaining.
  - by rewrite CheckUsage_remaining, exceeded_or_nothing.
Qed.

(** Delegation by a parent that has used up every limited dimension hands the
    child an unlimited budget: unless the request sets limits of its own, no
    usage of the child is ever reported as exceeding. *)
Theorem exhausted_parent_delegates_unlimited clock req r v :
  BuildDelegatedTask clock req = Ok r ->
  each_dimension used_up (ts_Budget (dr_ParentTask req)) (dr_ParentUsage req) zero_usage ->
  dr_ChildBudget req = None ->
  TaskBudget_IsZero (ts_Budget (dl_Task r)) = true
  /\ TaskBudget_CheckUsage (ts_Budget (dl_Task r)) v = nothing_exceeded.
Proof.
  intros (_ & _ & _ & ->)%build_ok Hup Hb. cbn. unfold child_budget.
  rewrite Normalize_budget, Hb, Remaining_exhausted by done. split; reflexivity.
Qed.

(** *** Identifiers *)

(** The identifier of a delegated task is determined by the parent's
    identifier and the second of the call: two delegations of one parent get
    the same task identifier exactly when they happen in the same second,
    whatever they delegate. *)
Theorem delegated_ids_collide_within_a_second c1 c2 req1 req2 r1 r2 :
  BuildDelegatedTask c1 req1 = Ok r1 -> BuildDelegatedTask c2 req2 = Ok r2 ->
  ts_TaskID (dr_ParentTask req1) = ts_TaskID (dr_ParentTask req2) ->
  ts_TaskID (dl_Task r1) = ts_TaskID (dl_Task r2)
  <-> delegation_now c1 req1 = delegation_now c2 req2.
Proof.
  intros (_ & _ & _ & ->)%build_ok (_ & _ & _ & ->)%build_ok Hid. cbn.
  destruct (Normalize_lineage (dr_ParentTask req1)) as (-> & _).
  destruct (Normalize_lineage (dr_ParentTask req2)) as (-> & _).
  rewrite Hid. split; [|by intros ->].
  intros H. apply (inj (String.app _)) in H. apply (inj (String.app _)) in H.
  by apply (inj pretty) in H.
Qed.

(** *** Chains of delegations *)

(** [delegation_chain t d reqs]: [reqs] are successive delegations, the first by
    [t] at depth [d], each later one by the child of the one before at the depth
    recorded in that child, with well-formed requested authorities. *)
Inductive delegation_chain : TaskSpec -> Z -> list DelegationRequest -> Prop :=
  | chain_nil t d : delegation_chain t d []
  | chain_cons t d clock req r d' reqs :
      dr_ParentTask req = t -> dr_DelegationDepth req = d ->
      (forall a, dr_ChildAuthority req = Some a -> TaskAuthority_Validate a = None) ->
      BuildDelegatedTask clock req = Ok r ->
      map_read (ts_Meta (dl_Task r)) !! "delegation_depth" = Some (VInt d') ->
      delegation_chain (dl_Task r) d' reqs ->
      delegation_chain t d (req :: reqs).

Lemma Validate_depth a : TaskAuthority_Validate a = None -> 0 <= ta_MaxDelegationDepth a.
Proof.
  unfold TaskAuthority_Validate. rewrite first_error_None, !Forall_cons, !error_if_None.
  intros (_ & _ & H & _). by apply Z.ltb_ge in H.
Qed.

Lemma narrowDepth_limits p c :
  0 < p -> 0 <= c -> 0 < narrowDepth p c <= p.
Proof.
  unfold narrowDepth. intros. destruct (Z.eqb_spec p 0), (Z.eqb_spec c 0), (Z.ltb_spec p c); lia.
Qed.

(** Delegation cannot recurse without end: below a task with a depth limit [m],
    a chain of delegations starting at depth [d] has at most [m - d] links. *)
Theorem delegation_chain_is_bounded t d reqs :
  delegation_chain t d reqs ->
  0 <= d -> 0 < ta_MaxDelegationDepth (ts_Authority t) < 2 ^ 63 ->
  Z.of_nat (length reqs) <= Z.max 0 (ta_MaxDelegationDepth (ts_Authority t) - d).
Proof.
  induction 1 as [|t d clock req r d' reqs <- <- Hv Hb Hd' _ IH]; intros Hd [Hm Hmx]; [cbn; lia|].
  apply build_ok in Hb as ((_ & Hlim) & _ & _ & Ht). cbv zeta in Hlim.
  specialize (Hlim Hm). rewrite Ht in Hd'. cbn in Hd'.
  rewrite lookup_insert_eq in Hd'. injection Hd' as <-.
  rewrite add64_small in IH by (unfold int64_range; lia).
  assert (0 < ta_MaxDelegationDepth (ts_Authority (dl_Task r))
          <= ta_MaxDelegationDepth (ts_Authority (dr_ParentTask req))).
  { rewrite Ht. cbn. unfold child_authority. rewrite Normalize_authority.
    destruct (dr_ChildAuthority req) as [a|]; [|lia]. cbn.
    apply narrowDepth_limits; [done|]. apply Validate_depth. by apply Hv. }
  cbn [length]. lia.
Qed.

(** ** Concrete delegations *)

Definition sample_parent : TaskSpec :=
  zero_task <| ts_TaskID := "t1" |> <| ts_GoalID := "g1" |> <| ts_Title := "parent" |>
    <| ts_Instructions := "do it" |> <| ts_Authority := DefaultAuthority AutonomyFull |>
    <| ts_Budget := mkTaskBudget 0 0 1000 0 10 0 0 |>.

Definition sample_request (used : Z) : DelegationRequest :=
  mkDelegationRequest sample_parent zero_run (mkTaskUsage 0 0 used 0 used 0 0)
    "look it up" "" None None [] [] None "helper" 1 100.

(** The request is granted, whatever was used so far. *)
Lemma sample_built used : exists r, BuildDelegatedTask 0 (sample_request used) = Ok r.
Proof. eexists. unfold BuildDelegatedTask. cbv zeta. lazy beta iota delta [blank]. reflexivity. Qed.

Lemma delegated_task_is_contained_witness :
  exists r, BuildDelegatedTask 0 (sample_request 4) = Ok r
            /\ no_wider (ts_Authority (dl_Task r)) (ts_Authority sample_parent).
Proof.
  destruct (sample_built 4) as [r Hr]. exists r. split; [exact Hr|].
  apply (delegated_task_is_contained 0 (sample_request 4) r Hr).
Defined.

Lemma delegated_budget_is_exact_witness :
  exists r, BuildDelegatedTask 0 (sample_request 4) = Ok r
    /\ TaskBudget_CheckUsage (ts_Budget (dl_Task r)) (mkTaskUsage 0 0 0 0 7 0 0)
       = mkBudgetExceeded false false false false true false false.
Proof.
  destruct (sample_built 4) as [r Hr]. exists r. split; [exact Hr|].
  rewrite (delegated_budget_is_exact 0 (sample_request 4) r _ Hr).
  - reflexivity.
  - unfold each_dimension, has_room; cbn; lia.
  - discriminate.
Defined.

Lemma exhausted_parent_delegates_unlimited_witness :
  exists r, BuildDelegatedTask 0 (sample_request 1000) = Ok r
            /\ TaskBudget_IsZero (ts_Budget (dl_Task r)) = true.
Proof.
  destruct (sample_built 1000) as [r Hr]. exists r. split; [exact Hr|].
  apply (exhausted_parent_delegates_unlimited 0 (sample_request 1000) r zero_usage Hr).
  - unfold each_dimension, used_up; cbn; lia.
  - reflexivity.
Defined.

Lemma delegated_ids_collide_within_a_second_witness :
  exists r1 r2, BuildDelegatedTask 0 (sample_request 4) = Ok r1
    /\ BuildDelegatedTask 0 (sample_request 5) = Ok r2
    /\ ts_TaskID (dl_Task r1) = ts_TaskID (dl_Task r2).
Proof.
  destruct (sample_built 4) as [r1 H1], (sample_built 5) as [r2 H2]. exists r1, r2.
  split; [exact H1|]. split; [exact H2|].
  apply (delegated_ids_collide_within_a_second 0 0 _ _ _ _ H1 H2); reflexivity.
Defined.

Lemma sample_chain : delegation_chain sample_parent 1 [sample_request 4].
Proof.
  destruct (sample_built 4) as [r Hr]. pose proof Hr as (_ & _ & _ & Ht)%build_ok.
  eapply (chain_cons _ _ 0 _ r 2); try reflexivity.
  - discriminate.
  - exact Hr.
  - by rewrite Ht.
  - constructor.
Qed.

Lemma delegation_chain_is_bounded_witness :
  delegation_chain sample_parent 1 [sample_request 4]
  /\ Z.of_nat (length [sample_request 4]) <= 2.
Proof.
  split; [exact sample_chain|].
  apply (delegation_chain_is_bounded sample_parent 1 [sample_request 4] sample_chain); cbn; lia.
Defined.
