(* ===== verification/Compiler.v ===== *)
(** Compiling plan steps into tasks and reading task states back:
    internal/planner/compiler.go.

    The clock reading used when the request carries no timestamp is the
    argument [clock].  [PlanSpec.Normalize] and [SyncStepStates] write through
    the [Steps] slice they are given, so the caller's copy of the plan sees the
    new step statuses as well; the returned plan below carries them. *)

From Stdlib Require Import String.
From stdpp Require Import base tactics decidable list gmap strings relations.
From S2P Require Import Prelude Enums Verification Budget TaskModels Plans.

Record CompileRequest := mkCompileRequest {
  cr_Plan : PlanSpec;
  cr_Goal : GoalSpec;
  cr_Now : Z;
  cr_Actor : string
}.

Record CompileResult := mkCompileResult {
  cp_Tasks : list TaskSpec;
  cp_UpdatedPlan : PlanSpec;
  cp_StepTaskMap : gmap string string
}.

(** [fmt.Sprintf("task:%s:%s", planID, stepID)] *)
Definition compiled_task_id (planID stepID : string) : string :=
  "task:" +:+ planID +:+ ":" +:+ stepID.

Definition TaskIDForStep (planID stepID : string) : string :=
  compiled_task_id (TrimSpace planID) (TrimSpace stepID).

(** The map of the steps that already have a task. *)
Definition initial_step_tasks (steps : list PlanStep) : gmap string string :=
  fold_left (fun m step => if ps_TaskID step !=? "" then <[ps_StepID step := ps_TaskID step]> m
                           else m) steps ∅.

(** The task materialised for [step]; [taskDeps] are the tasks of its
    dependencies. *)
Definition compile_step (plan : PlanSpec) (goal : GoalSpec) (now : Z) (taskDeps : list string)
    (step : PlanStep) : TaskSpec :=
  mkTaskSpec 1
    (compiled_task_id (pl_PlanID plan) (ps_StepID step))
    (if gs_GoalID goal !=? "" then gs_GoalID goal else pl_GoalID plan)
    "" (pl_PlanID plan) "" (ps_Title step) (ps_Instructions step)
    None (ps_Outputs step) [] taskDeps
    (ps_Agent step) "" "" TaskStatusReady
    (if gs_Priority goal ==? "" then TaskPriorityMedium else gs_Priority goal)
    (gs_Authority goal) "" "" [] (gs_Budget goal) zero_verification now now []
    (Some {["plan_step_id" := VString (ps_StepID step)]}).

(** Whether the loop of [Compile] materialises the step. *)
Definition materialises (stepStatusByID : gmap string string) (step : PlanStep) : bool :=
  (ps_TaskID step ==? "") && (ps_Status step ==? PlanStepStatusPending)
  && forallb (dep_done stepStatusByID) (ps_DependsOn step).

(** The loop over the steps: the new tasks, the updated steps and the map. *)
Fixpoint compile_loop (plan : PlanSpec) (goal : GoalSpec) (now : Z)
    (stepStatusByID : gmap string string) (stepTaskMap : gmap string string)
    (steps : list PlanStep) : list TaskSpec * list PlanStep * gmap string string :=
  match steps with
  | [] => ([], [], stepTaskMap)
  | step :: steps =>
    if materialises stepStatusByID step then
      let taskDeps := omap (fun dep => stepTaskMap !! dep) (ps_DependsOn step) in
      let task := compile_step plan goal now taskDeps step in
      let '(tasks, updated, m) :=
        compile_loop plan goal now stepStatusByID
          (<[ps_StepID step := ts_TaskID task]> stepTaskMap) steps in
      (task :: tasks,
       (step <| ps_Status := PlanStepStatusReady |> <| ps_TaskID := ts_TaskID task |>) :: updated,
       m)
    else
      let '(tasks, updated, m) :=
        compile_loop plan goal now stepStatusByID stepTaskMap steps in
      (tasks, step :: updated, m)
  end.

Definition Compile (clock : Z) (req : CompileRequest) : result CompileResult :=
  let plan := PlanSpec_Normalize (cr_Plan req) in
  match PlanSpec_Validate plan with
  | Some e => Err (Wrapf "compile: invalid plan: %w" [] e)
  | None =>
    if PlanSpec_HasCycle plan
    then Err (Errorf "compile: plan has cyclic dependencies" [])
    else
      let now := if cr_Now req <=? 0 then clock else cr_Now req in
      let '(newTasks, updatedSteps, stepTaskMap) :=
        compile_loop plan (cr_Goal req) now (status_by_id (pl_Steps plan))
          (initial_step_tasks (pl_Steps plan)) (pl_Steps plan) in
      Ok (mkCompileResult newTasks
            (plan <| pl_Steps := updatedSteps |> <| pl_UpdatedAt := now |>) stepTaskMap)
  end.

(** ** Reading task states back *)

Definition taskStatusToPlanStepStatus (ts : string) : string :=
  go_switch ts
    [([TaskStatusInProgress], PlanStepStatusInProgress);
     ([TaskStatusCompleted], PlanStepStatusCompleted);
     ([TaskStatusFailed], PlanStepStatusFailed);
     ([TaskStatusCancelled], PlanStepStatusSkipped);
     ([TaskStatusBlocked; TaskStatusAwaitingApproval], PlanStepStatusBlocked)] "".

(** [allDone] and [anyFailed] after the loop of [inferPlanCompletion]. *)
Definition step_terminal (s : PlanStep) : bool :=
  go_switch (ps_Status s)
    [([PlanStepStatusCompleted; PlanStepStatusSkipped], true);
     ([PlanStepStatusFailed], true)] false.

Definition inferPlanCompletion (plan : PlanSpec) : PlanSpec :=
  if PlanSpec_IsTerminal plan then plan
  else
    let allDone := forallb step_terminal (pl_Steps plan) in
    let anyFailed := existsb (fun s => ps_Status s ==? PlanStepStatusFailed) (pl_Steps plan) in
    if allDone
    then if anyFailed then plan <| pl_Status := PlanStatusFailed |>
         else plan <| pl_Status := PlanStatusCompleted |>
    else plan.

(** One iteration of the loop of [SyncStepStates]: the step and whether it
    changed. *)
Definition sync_step (taskStates : gmap string string) (step : PlanStep) : PlanStep * bool :=
  if ps_TaskID step ==? "" then (step, false)
  else match taskStates !! ps_TaskID step with
       | None => (step, false)
       | Some taskStatus =>
         let newStepStatus := taskStatusToPlanStepStatus taskStatus in
         if (newStepStatus ==? "") || (newStepStatus ==? ps_Status step) then (step, false)
         else (step <| ps_Status := newStepStatus |>, true)
       end.

Definition SyncStepStates (clock : Z) (plan : PlanSpec) (taskStates : gmap string string)
  : PlanSpec * bool :=
  let steps := map (fun s => (sync_step taskStates s).1) (pl_Steps plan) in
  let changed := existsb (fun s => (sync_step taskStates s).2) (pl_Steps plan) in
  let plan := plan <| pl_Steps := steps |> in
  if changed
  then (inferPlanCompletion (plan <| pl_UpdatedAt := clock |>), changed)
  else (plan, changed).

(** ** What a compilation pass does *)

(** The step [s] once its task exists. *)
Definition mark_ready (plan : PlanSpec) (s : PlanStep) : PlanStep :=
  s <| ps_Status := PlanStepStatusReady |>
    <| ps_TaskID := compiled_task_id (pl_PlanID plan) (ps_StepID s) |>.

(** The tasks of the dependencies of [s], as far as they have one. *)
Definition task_deps (steps : list PlanStep) (s : PlanStep) : list string :=
  omap (fun dep => initial_step_tasks steps !! dep) (ps_DependsOn s).

#[export] Instance TaskOutputSpec_eq_dec : EqDecision TaskOutputSpec.
Proof. solve_decision. Defined.
#[export] Instance PlanStep_eq_dec : EqDecision PlanStep.
Proof. solve_decision. Defined.

Lemma omap_ext_in {A B} (f g : A -> option B) (l : list A) :
  (forall x, x ∈ l -> f x = g x) -> omap f l = omap g l.
Proof.
  induction l as [|x l IH]; intros H; [done|]. cbn.
  rewrite (H x) by by left. rewrite IH; [done|]. intros y Hy. apply H. by right.
Qed.

Lemma forallb_elem {A} (f : A -> bool) (l : list A) x : forallb f l = true -> x ∈ l -> f x = true.
Proof. rewrite forallb_forall, list_elem_of_In. auto. Qed.

(** A step about to be materialised is pending, so no step waiting for a finished
    dependency reads the entry the loop adds for it. *)
Lemma compile_loop_spec plan goal now sb (m0 m : gmap string string) steps :
  (forall s, s ∈ steps -> sb !! ps_StepID s = Some (ps_Status s)) ->
  (forall d, dep_done sb d = true -> m !! d = m0 !! d) ->
  let '(tasks, updated, _) := compile_loop plan goal now sb m steps in
  tasks = map (fun s => compile_step plan goal now
                          (omap (fun dep => m0 !! dep) (ps_DependsOn s)) s)
              (List.filter (materialises sb) steps)
  /\ updated = map (fun s => if materialises sb s then mark_ready plan s else s) steps.
Proof.
  revert m. induction steps as [|s steps IH]; intros m Hsb Hm; [done|].
  cbn [compile_loop List.filter map].
  assert (forall s', s' ∈ steps -> sb !! ps_StepID s' = Some (ps_Status s')) as Hsb'.
  { intros s' Hs'. apply Hsb. by right. }
  destruct (materialises sb s) eqn:Em.
  - specialize (IH (<[ps_StepID s := compiled_task_id (pl_PlanID plan) (ps_StepID s)]> m) Hsb').
    unfold materialises in Em. bool_to_prop.
    cbn [compile_step ts_TaskID].
    destruct (compile_loop _ _ _ _ _ steps) as [[tasks updated] m'].
    destruct IH as [-> ->].
    + intros d Hd. rewrite lookup_insert_ne; [auto|]. intros <-.
      unfold dep_done in Hd. rewrite Hsb in Hd by by left. cbn in Hd.
      by rewrite H1 in Hd.
    + split; [|done]. cbn [map]. f_equal. f_equal. apply omap_ext_in.
      intros d Hd. apply Hm. by eapply forallb_elem.
  - specialize (IH m Hsb' Hm). destruct (compile_loop _ _ _ _ _ steps) as [[tasks updated] m'].
    by destruct IH as [-> ->].
Qed.

Lemma Normalize_steps p : pl_Steps (PlanSpec_Normalize p) = map PlanStep_Normalize (pl_Steps p).
Proof. unfold PlanSpec_Normalize. cbn. by repeat case_if. Qed.

Lemma status_by_id_elem steps s :
  NoDup (map ps_StepID steps) -> s ∈ steps -> status_by_id steps !! ps_StepID s = Some (ps_Status s).
Proof. apply (index_by_nodup ps_Status). Qed.

(** The result of a successful compilation. *)
Lemma compile_ok clock req r :
  Compile clock req = Ok r ->
  let plan := PlanSpec_Normalize (cr_Plan req) in
  let now := if cr_Now req <=? 0 then clock else cr_Now req in
  let sb := status_by_id (pl_Steps plan) in
  (PlanSpec_Validate plan = None /\ PlanSpec_HasCycle plan = false)
  /\ cp_Tasks r = map (fun s => compile_step plan (cr_Goal req) now (task_deps (pl_Steps plan) s) s)
                      (List.filter (materialises sb) (pl_Steps plan))
  /\ cp_UpdatedPlan r
     = plan <| pl_Steps := map (fun s => if materialises sb s then mark_ready plan s else s)
                               (pl_Steps plan) |>
            <| pl_UpdatedAt := now |>.
Proof.
  unfold Compile. cbv zeta. generalize (PlanSpec_Normalize (cr_Plan req)). intros plan.
  destruct (PlanSpec_Validate plan) eqn:Hv; [discriminate|].
  destruct (PlanSpec_HasCycle plan) eqn:Hc; [discriminate|].
  generalize (if cr_Now req <=? 0 then clock else cr_Now req). intros now.
  pose proof (compile_loop_spec plan (cr_Goal req) now (status_by_id (pl_Steps plan))
    (initial_step_tasks (pl_Steps plan)) (initial_step_tasks (pl_Steps plan)) (pl_Steps plan)) as H.
  destruct (compile_loop _ _ _ _ _ _) as [[tasks updated] m].
  intros <-%Ok_inj. destruct H as [-> ->]; [|done|split; [done|]; split; reflexivity].
  intros s. apply status_by_id_elem. by destruct (plan_accepts _ Hv) as (_ & _ & ? & _).
Qed.

Lemma compiled_task_id_inj p s1 s2 : compiled_task_id p s1 = compiled_task_id p s2 -> s1 = s2.
Proof.
  unfold compiled_task_id. intros H.
  apply (inj (String.app _)) in H. apply (inj (String.app _)) in H.
  by apply (inj (String.app _)) in H.
Qed.

Lemma NoDup_map_filter {A B} (f : A -> B) (b : A -> bool) l :
  NoDup (map f l) -> NoDup (map f (List.filter b l)).
Proof.
  induction l as [|x l IH]; intros H; cbn; [constructor|].
  cbn in H. apply NoDup_cons in H as [Hx Hl]. destruct (b x); cbn; [|auto].
  apply NoDup_cons. split; [|auto]. intros (y & Hy & He)%elem_of_map. apply Hx.
  apply elem_of_map. exists y. split; [|done].
  rewrite elem_of_filter_b in Hy. tauto.
Qed.

Lemma NoDup_map_inj {A B C} (f : A -> B) (g : B -> C) l :
  (forall x y, g x = g y -> x = y) -> NoDup (map f l) -> NoDup (map (fun x => g (f x)) l).
Proof.
  intros Hg. induction l as [|x l IH]; intros H; cbn; [constructor|].
  cbn in H. apply NoDup_cons in H as [Hx Hl]. apply NoDup_cons. split; [|auto].
  intros (y & Hy & He)%elem_of_map. apply Hg in He. apply Hx.
  apply elem_of_map. by exists y.
Qed.

(** A successful compilation creates exactly the tasks that are due, each once:
    one ready task per ready step of the (normalised) plan that has no task yet,
    in plan order, under pairwise distinct identifiers, carrying the step's
    text, the goal's authority and budget, and the tasks of the step's
    dependencies; those steps become ready and point to their tasks, and no
    other step changes. *)
Theorem compile_creates_due_tasks clock req r :
  Compile clock req = Ok r ->
  let plan := PlanSpec_Normalize (cr_Plan req) in
  let now := if cr_Now req <=? 0 then clock else cr_Now req in
  let due := List.filter (fun s => ps_TaskID s ==? "") (PlanSpec_ReadySteps plan) in
  cp_Tasks r = map (fun s => compile_step plan (cr_Goal req) now (task_deps (pl_Steps plan) s) s) due
  /\ NoDup (map ts_TaskID (cp_Tasks r))
  /\ pl_Steps (cp_UpdatedPlan r)
     = map (fun s => if bool_decide (s ∈ due) then mark_ready plan s else s) (pl_Steps plan).
Proof.
  intros Hr plan now. pose proof Hr as ((Hv & _) & -> & ->)%compile_ok. fold plan now.
  destruct (plan_accepts _ Hv) as (_ & _ & Hnd & _).
  assert (List.filter (fun s => ps_TaskID s ==? "") (PlanSpec_ReadySteps plan)
          = List.filter (materialises (status_by_id (pl_Steps plan))) (pl_Steps plan)) as Hdue.
  { unfold PlanSpec_ReadySteps. generalize (status_by_id (pl_Steps plan)). intros sb.
    induction (pl_Steps plan) as [|s l IH]; [done|]. cbn. unfold materialises at 1.
    destruct (ps_Status s ==? _), (forallb _ _), (ps_TaskID s ==? "") eqn:E; cbn;
      rewrite ?E, IH; reflexivity. }
  rewrite Hdue. cbv zeta. split; [done|]. split.
  - rewrite map_map. cbn. apply (NoDup_map_inj ps_StepID (compiled_task_id (pl_PlanID plan))).
    + apply compiled_task_id_inj.
    + by apply NoDup_map_filter.
  - cbn. apply map_ext_in. intros s Hs. rewrite <- list_elem_of_In in Hs.
    rewrite (bool_decide_ext _ (materialises (status_by_id (pl_Steps plan)) s = true)).
    + by destruct (materialises _ s).
    + rewrite elem_of_filter_b. tauto.
Qed.

(** [Compile] succeeds exactly on the plans that are valid once normalised
    and in which no step transitively depends on itself. *)
Theorem compile_accepts_sound_plans clock req :
  (exists r, Compile clock req = Ok r)
  <-> PlanSpec_Validate (PlanSpec_Normalize (cr_Plan req)) = None
      /\ forall id, ~ tc (plan_edge (PlanSpec_Normalize (cr_Plan req))) id id.
Proof.
  transitivity (PlanSpec_Validate (PlanSpec_Normalize (cr_Plan req)) = None
                /\ PlanSpec_HasCycle (PlanSpec_Normalize (cr_Plan req)) = false).
  - split; [by intros (r & [? _]%compile_ok)|]. intros [Hv Hc]. unfold Compile.
    rewrite Hv, Hc. destruct (compile_loop _ _ _ _ _ _) as [[? ?] ?]. by eexists.
  - rewrite <- not_true_iff_false, HasCycle_iff.
    split; intros [Hv Hn]; (split; [exact Hv|]).
    + intros id Hid. apply Hn. by exists id.
    + intros (id & Hid). by apply (Hn id).
Qed.

(** *** Compiling again *)

Lemma mark_ready_id plan s : ps_StepID (mark_ready plan s) = ps_StepID s.
Proof. reflexivity. Qed.

Definition mark_if (plan : PlanSpec) (s : PlanStep) : PlanStep :=
  if materialises (status_by_id (pl_Steps plan)) s then mark_ready plan s else s.

Lemma mark_if_id plan s : ps_StepID (mark_if plan s) = ps_StepID s.
Proof. unfold mark_if. by case_match. Qed.
Lemma mark_if_deps plan s : ps_DependsOn (mark_if plan s) = ps_DependsOn s.
Proof. unfold mark_if. by case_match. Qed.

Lemma mark_if_validate plan s :
  PlanStep_Validate s = None -> PlanStep_Validate (mark_if plan s) = None.
Proof. intros H. unfold mark_if. case_match; [|done]. by apply (Validate_status s). Qed.

Lemma compiled_task_id_nonempty p s : (compiled_task_id p s ==? "") = false.
Proof. reflexivity. Qed.

(** Marking steps ready finishes no dependency. *)
Lemma mark_dep_done plan d :
  NoDup (map ps_StepID (pl_Steps plan)) ->
  dep_done (status_by_id (map (mark_if plan) (pl_Steps plan))) d = true ->
  dep_done (status_by_id (pl_Steps plan)) d = true.
Proof.
  intros Hnd. unfold dep_done at 1.
  destruct (status_by_id (map (mark_if plan) (pl_Steps plan)) !! d) as [st|] eqn:E; [|done].
  apply index_by_Some in E as (s' & (s & Hs & ->)%elem_of_map & <- & <-).
  rewrite mark_if_id. intros H. unfold dep_done. rewrite status_by_id_elem by done. cbn.
  revert H. unfold mark_if. by destruct (materialises _ s).
Qed.

Lemma not_due_again plan s :
  NoDup (map ps_StepID (pl_Steps plan)) -> s ∈ map (mark_if plan) (pl_Steps plan) ->
  materialises (status_by_id (map (mark_if plan) (pl_Steps plan))) s = false.
Proof.
  intros Hnd (s0 & Hs0 & ->)%elem_of_map. apply not_true_iff_false. intros H.
  unfold materialises in H. apply andb_prop in H as [[H1 H2]%andb_prop H3].
  rewrite mark_if_deps in H3. revert H1 H2. unfold mark_if.
  destruct (materialises (status_by_id (pl_Steps plan)) s0) eqn:E; [done|].
  intros H1 H2. unfold materialises in E. rewrite H1, H2 in E. cbn in E.
  apply not_true_iff_false in E. apply E. rewrite forallb_forall in H3 |- *.
  intros d Hd. apply mark_dep_done; auto.
Qed.

Lemma map_id_in {A} (f : A -> A) (l : list A) : (forall x, x ∈ l -> f x = x) -> map f l = l.
Proof.
  induction l as [|x l IH]; intros H; [done|]. cbn. rewrite (H x) by by left.
  rewrite IH; [done|]. intros y Hy. apply H. by right.
Qed.

Lemma filter_none {A} (b : A -> bool) (l : list A) :
  (forall x, x ∈ l -> b x = false) -> List.filter b l = [].
Proof.
  induction l as [|x l IH]; intros H; [done|]. cbn. rewrite (H x) by by left.
  apply IH. intros y Hy. apply H. by right.
Qed.

(** A plan that [Normalize] does not change. *)
Definition normal_plan (p : PlanSpec) : Prop :=
  pl_Version p <> 0 /\ 0 < pl_Revision p /\ PlanStatus_Valid (pl_Status p) = true
  /\ forall s, s ∈ pl_Steps p -> PlanStepStatus_Valid (ps_Status s) = true.

Lemma normal_plan_fix p : normal_plan p -> PlanSpec_Normalize p = p.
Proof.
  intros (Hv & Hr & Hs & Hst). unfold PlanSpec_Normalize.
  destruct (Z.eqb_spec (pl_Version p) 0); [done|].
  destruct (Z.leb_spec (pl_Revision p) 0); [lia|]. rewrite Hs. cbn [negb].
  by_fields. apply map_id_in. intros s Hin. unfold PlanStep_Normalize. by rewrite Hst.
Qed.

Lemma Normalize_normal p : normal_plan (PlanSpec_Normalize p).
Proof.
  assert (forall s, PlanStepStatus_Valid (ps_Status (PlanStep_Normalize s)) = true) as Hst.
  { intros s. unfold PlanStep_Normalize. by destruct (PlanStepStatus_Valid (ps_Status s)) eqn:E. }
  unfold normal_plan. rewrite Normalize_steps.
  unfold PlanSpec_Normalize. destruct p as [v ? ? ? rv st]; cbn.
  destruct (v =? 0) eqn:Ev; cbn; destruct (rv <=? 0) eqn:Er; cbn;
    destruct (PlanStatus_Valid st) eqn:E; cbn; bool_to_prop;
    (split; [lia|]); (split; [lia|]); (split; [done|]);
    intros s' (s & _ & ->)%elem_of_map; apply Hst.
Qed.

Lemma mark_normal plan now :
  normal_plan plan ->
  normal_plan (plan <| pl_Steps := map (mark_if plan) (pl_Steps plan) |> <| pl_UpdatedAt := now |>).
Proof.
  intros (? & ? & ? & Hst). repeat split; try done. cbn.
  intros s' (s & Hs & ->)%elem_of_map. unfold mark_if. case_match; [done|auto].
Qed.

(** Every plan a compilation returns is again a sound plan. *)
Lemma compiled_plan_sound clock req r :
  Compile clock req = Ok r ->
  let p := cp_UpdatedPlan r in
  PlanSpec_Normalize p = p /\ PlanSpec_Validate p = None /\ PlanSpec_HasCycle p = false
  /\ forall s, s ∈ pl_Steps p -> materialises (status_by_id (pl_Steps p)) s = false.
Proof.
  intros ((Hv & Hc) & _ & ->)%compile_ok. cbv zeta.
  pose proof (Normalize_normal (cr_Plan req)) as Hn.
  revert Hv Hc Hn. generalize (PlanSpec_Normalize (cr_Plan req)) as plan.
  generalize (if cr_Now req <=? 0 then clock else cr_Now req) as now.
  intros now plan Hv Hc Hn.
  change (fun s => if materialises (status_by_id (pl_Steps plan)) s then mark_ready plan s else s)
    with (mark_if plan).
  pose proof Hv as [Hh Hwf]%plan_validate_iff.
  split; [by apply normal_plan_fix, mark_normal|]. split; [|split].
  - apply plan_validate_iff. split; [exact Hh|]. cbn.
    apply update_wf; auto using mark_if_id, mark_if_deps. intros s _. apply mark_if_validate.
  - by eapply (update_acyclic (mark_if plan)); eauto using mark_if_id, mark_if_deps.
  - cbn. intros s. apply not_due_again. by destruct Hwf as (_ & _ & ? & _).
Qed.

(** Compilation is idempotent: compiling the plan a compilation returned
    succeeds again, creates no task and changes no step. *)
Theorem compile_is_idempotent clock req r clock' goal now' actor' :
  Compile clock req = Ok r ->
  exists r', Compile clock' (mkCompileRequest (cp_UpdatedPlan r) goal now' actor') = Ok r'
    /\ cp_Tasks r' = [] /\ pl_Steps (cp_UpdatedPlan r') = pl_Steps (cp_UpdatedPlan r).
Proof.
  intros (Hn & Hv & Hc & Hnone)%compiled_plan_sound.
  destruct (Compile clock' (mkCompileRequest (cp_UpdatedPlan r) goal now' actor')) as [r'|e] eqn:E.
  - exists r'. split; [done|]. apply compile_ok in E as (_ & -> & ->).
    cbn [cr_Plan cr_Goal cr_Now]. rewrite Hn. cbn. split.
    + rewrite filter_none; [done|]. intros s Hs. by apply Hnone.
    + apply map_id_in. intros s Hs. by rewrite Hnone.
  - exfalso. unfold Compile in E. cbn [cr_Plan cr_Goal cr_Now] in E. rewrite Hn, Hv, Hc in E.
    by destruct (compile_loop _ _ _ _ _ _) as [[? ?] ?].
Qed.

(** ** Reading task states back *)

(** The status the step has after a synchronisation. *)
Definition reported_status (taskStates : gmap string string) (s : PlanStep) : string :=
  if ps_TaskID s ==? "" then ps_Status s
  else match taskStates !! ps_TaskID s with
       | None => ps_Status s
       | Some ts => let st := taskStatusToPlanStepStatus ts in
                    if st ==? "" then ps_Status s else st
       end.

Lemma sync_step_spec states s :
  (sync_step states s).1 = s <| ps_Status := reported_status states s |>
  /\ (sync_step states s).2 = (reported_status states s !=? ps_Status s).
Proof.
  assert (s = s <| ps_Status := ps_Status s |>) as Hs by by destruct s.
  unfold sync_step, reported_status.
  destruct (ps_TaskID s ==? ""); [by rewrite String.eqb_refl|].
  destruct (states !! ps_TaskID s) as [ts|]; [|by rewrite String.eqb_refl].
  cbv zeta. destruct (taskStatusToPlanStepStatus ts ==? "") eqn:E1; cbn [orb].
  { by rewrite String.eqb_refl. }
  destruct (taskStatusToPlanStepStatus ts ==? ps_Status s) eqn:E2; cbn [fst snd]; [|done].
  apply String.eqb_eq in E2. by rewrite E2.
Qed.

Lemma infer_spec p :
  inferPlanCompletion p
  = p <| pl_Status :=
      if negb (PlanSpec_IsTerminal p) && forallb step_terminal (pl_Steps p)
      then if existsb (fun s => ps_Status s ==? PlanStepStatusFailed) (pl_Steps p)
           then PlanStatusFailed else PlanStatusCompleted
      else pl_Status p |>.
Proof.
  unfold inferPlanCompletion. destruct (PlanSpec_IsTerminal p); [by destruct p|]. cbn.
  destruct (forallb step_terminal (pl_Steps p)); [|by destruct p]. by destruct (existsb _ _).
Qed.

(** Synchronisation copies the state of its task into every step that has one
    and nothing else, reports a change exactly when some step changed, and then
    closes an open plan whose steps are all terminal: failed if one step failed,
    completed otherwise. *)
Theorem sync_reads_task_states clock plan states :
  let '(p', changed) := SyncStepStates clock plan states in
  pl_Steps p' = map (fun s => s <| ps_Status := reported_status states s |>) (pl_Steps plan)
  /\ (changed = true <-> exists s, s ∈ pl_Steps plan /\ reported_status states s <> ps_Status s)
  /\ pl_Status p'
     = (if changed && negb (PlanSpec_IsTerminal plan) && forallb step_terminal (pl_Steps p')
        then if existsb (fun s => ps_Status s ==? PlanStepStatusFailed) (pl_Steps p')
             then PlanStatusFailed else PlanStatusCompleted
        else pl_Status plan)
  /\ pl_UpdatedAt p' = (if changed then clock else pl_UpdatedAt plan).
Proof.
  unfold SyncStepStates.
  rewrite (map_ext _ (fun s => s <| ps_Status := reported_status states s |>)
             (fun s => proj1 (sync_step_spec states s))).
  assert (existsb (fun s => (sync_step states s).2) (pl_Steps plan) = true
          <-> exists s, s ∈ pl_Steps plan /\ reported_status states s <> ps_Status s) as Hch.
  { rewrite existsb_exists. setoid_rewrite list_elem_of_In.
    split; intros (s & Hs & H); exists s; (split; [done|]).
    - rewrite (proj2 (sync_step_spec states s)) in H. by bool_to_prop.
    - rewrite (proj2 (sync_step_spec states s)). by apply negb_true_iff, String.eqb_neq. }
  destruct (existsb _ (pl_Steps plan)).
  - rewrite infer_spec. cbn. by split; [|split].
  - cbn. by split; [|split].
Qed.

(** ** From the first compilation to a completed plan *)

(** The report of an executor that has completed every task of the plan. *)
Definition report_completed (steps : list PlanStep) : gmap string string :=
  gset_to_gmap TaskStatusCompleted (list_to_set (map ps_TaskID steps)).

(** One round: compile, let every task complete, synchronise. *)
Definition compile_and_run (clock : Z) (goal : GoalSpec) (p : PlanSpec) : option PlanSpec :=
  match Compile clock (mkCompileRequest p goal 0 "") with
  | Ok r => let p := cp_UpdatedPlan r in
            Some (SyncStepStates clock p (report_completed (pl_Steps p))).1
  | Err _ => None
  end.

Fixpoint rounds (clock : Z) (goal : GoalSpec) (n : nat) (p : PlanSpec) : option PlanSpec :=
  match n with
  | O => Some p
  | S n => compile_and_run clock goal p ≫= rounds clock goal n
  end.

(** A sound open plan whose steps are waiting to be compiled or finished. *)
Definition open_plan (p : PlanSpec) : Prop :=
  normal_plan p /\ PlanSpec_Validate p = None /\ PlanSpec_HasCycle p = false
  /\ PlanSpec_IsTerminal p = false
  /\ forall s, s ∈ pl_Steps p ->
       (ps_Status s = PlanStepStatusPending /\ ps_TaskID s = "") \/ step_finished s.

(** What one round does to a step. *)
Definition ran (p : PlanSpec) (s : PlanStep) : PlanStep :=
  let s := mark_if p s in
  if ps_TaskID s ==? "" then s else s <| ps_Status := PlanStepStatusCompleted |>.

Lemma reported_completed steps s :
  s ∈ steps ->
  s <| ps_Status := reported_status (report_completed steps) s |>
  = if ps_TaskID s ==? "" then s else s <| ps_Status := PlanStepStatusCompleted |>.
Proof.
  intros Hs. unfold reported_status, report_completed.
  destruct (ps_TaskID s ==? ""); [by destruct s|].
  replace (gset_to_gmap TaskStatusCompleted (list_to_set (map ps_TaskID steps)) !! ps_TaskID s)
    with (Some TaskStatusCompleted); [done|].
  symmetry. apply lookup_gset_to_gmap_Some. split; [|done].
  rewrite elem_of_list_to_set, elem_of_map. by exists s.
Qed.

Lemma compile_runs clock req :
  PlanSpec_Validate (PlanSpec_Normalize (cr_Plan req)) = None ->
  PlanSpec_HasCycle (PlanSpec_Normalize (cr_Plan req)) = false ->
  exists r, Compile clock req = Ok r.
Proof.
  intros Hv Hc. unfold Compile. rewrite Hv, Hc.
  destruct (compile_loop _ _ _ _ _ _) as [[? ?] ?]. by eexists.
Qed.

(** The plan after a synchronisation. *)
Lemma sync_plan clock p states :
  let p' := (SyncStepStates clock p states).1 in
  pl_Steps p' = map (fun s => s <| ps_Status := reported_status states s |>) (pl_Steps p)
  /\ (pl_PlanID p' = pl_PlanID p /\ pl_Title p' = pl_Title p
      /\ pl_Version p' = pl_Version p /\ pl_Revision p' = pl_Revision p)
  /\ (existsb (fun s => reported_status states s !=? ps_Status s) (pl_Steps p) = true ->
      pl_Status p' = if negb (PlanSpec_IsTerminal p) && forallb step_terminal (pl_Steps p')
        then if existsb (fun s => ps_Status s ==? PlanStepStatusFailed) (pl_Steps p')
             then PlanStatusFailed else PlanStatusCompleted
        else pl_Status p).
Proof.
  unfold SyncStepStates.
  rewrite (map_ext _ (fun s => s <| ps_Status := reported_status states s |>)
             (fun s => proj1 (sync_step_spec states s))).
  assert (existsb (fun s => (sync_step states s).2) (pl_Steps p)
          = existsb (fun s => reported_status states s !=? ps_Status s) (pl_Steps p)) as ->.
  { induction (pl_Steps p) as [|s l IH]; [done|]. cbn.
    by rewrite IH, (proj2 (sync_step_spec states s)). }
  cbv zeta. destruct (existsb _ (pl_Steps p)).
  - rewrite infer_spec. cbn. by repeat split.
  - cbn. by repeat split.
Qed.

Lemma mark_if_task p s :
  ps_TaskID (mark_if p s) = ps_TaskID s /\ mark_if p s = s
  \/ materialises (status_by_id (pl_Steps p)) s = true /\ mark_if p s = mark_ready p s.
Proof. unfold mark_if. destruct (materialises _ s); auto. Qed.

Lemma round_runs clock goal p :
  open_plan p ->
  exists p', compile_and_run clock goal p = Some p'
    /\ pl_Steps p' = map (ran p) (pl_Steps p)
    /\ (pl_PlanID p' = pl_PlanID p /\ pl_Title p' = pl_Title p
        /\ pl_Version p' = pl_Version p /\ pl_Revision p' = pl_Revision p)
    /\ ((exists s, s ∈ pl_Steps p
            /\ materialises (status_by_id (pl_Steps p)) s = true) ->
        pl_Status p' = if forallb step_terminal (pl_Steps p')
                       then if existsb (fun s => ps_Status s ==? PlanStepStatusFailed) (pl_Steps p')
                            then PlanStatusFailed else PlanStatusCompleted
                       else pl_Status p).
Proof.
  intros (Hn & Hv & Hc & Ht & _). apply normal_plan_fix in Hn.
  destruct (compile_runs clock (mkCompileRequest p goal 0 "")) as [r Hr]; [by cbn [cr_Plan]; rewrite Hn..|].
  unfold compile_and_run. rewrite Hr. eexists. split; [reflexivity|].
  apply compile_ok in Hr as (_ & _ & Hu). cbn [cr_Plan cr_Now] in Hu. rewrite Hn in Hu.
  cbv zeta in Hu.
  change (fun s => if materialises (status_by_id (pl_Steps p)) s then mark_ready p s else s)
    with (mark_if p) in Hu.
  destruct (sync_plan clock (cp_UpdatedPlan r)
    (report_completed (pl_Steps (cp_UpdatedPlan r)))) as (Hs & Hh & Hst).
  assert (pl_Steps (cp_UpdatedPlan r) = map (mark_if p) (pl_Steps p)) as Hsu by by rewrite Hu.
  split; [|split].
  - rewrite Hs, Hsu, map_map. apply map_ext_in. intros s Hin. rewrite <- list_elem_of_In in Hin.
    rewrite reported_completed; [done|]. apply elem_of_map. by exists s.
  - by rewrite Hu in Hh |- *.
  - intros (s & Hin & Hm). rewrite Hst.
    + assert (PlanSpec_IsTerminal (cp_UpdatedPlan r) = false) as -> by (rewrite Hu; exact Ht).
      assert (pl_Status (cp_UpdatedPlan r) = pl_Status p) as -> by by rewrite Hu.
      reflexivity.
    + rewrite Hsu. apply existsb_exists. exists (mark_if p s).
      split; [rewrite <- list_elem_of_In; apply elem_of_map; by exists s|].
      assert (mark_if p s ∈ map (mark_if p) (pl_Steps p)) as Hin'
        by (apply elem_of_map; by exists s).
      apply reported_completed in Hin'. revert Hin'.
      unfold mark_if. rewrite Hm. cbn. intros Hin'.
      apply (f_equal ps_Status) in Hin'. cbn in Hin'. by rewrite Hin'.
Qed.

Lemma ran_id p s : ps_StepID (ran p s) = ps_StepID s.
Proof. unfold ran. cbv zeta. case_match; [|cbn]; apply mark_if_id. Qed.
Lemma ran_deps p s : ps_DependsOn (ran p s) = ps_DependsOn s.
Proof. unfold ran. cbv zeta. case_match; [|cbn]; apply mark_if_deps. Qed.

Lemma ran_status p s :
  ran p s = s \/ ps_Status (ran p s) = PlanStepStatusCompleted.
Proof.
  unfold ran. cbv zeta. destruct (mark_if_task p s) as [[_ ->]|[_ ->]]; [|by right].
  case_match; [by left|by right].
Qed.

Lemma ran_validate p s : PlanStep_Validate s = None -> PlanStep_Validate (ran p s) = None.
Proof.
  intros H. unfold ran. cbv zeta. case_match; [by apply mark_if_validate|].
  apply (Validate_status (mark_if p s)); try done. by apply mark_if_validate.
Qed.

Lemma ran_materialised p s :
  materialises (status_by_id (pl_Steps p)) s = true ->
  ps_Status (ran p s) = PlanStepStatusCompleted.
Proof. intros H. unfold ran, mark_if. by rewrite H. Qed.

(** An open plan with a waiting step has a step that is due. *)
Lemma due_step p :
  open_plan p -> pending_steps p <> [] ->
  exists s, s ∈ pl_Steps p /\ ps_Status s = PlanStepStatusPending
            /\ materialises (status_by_id (pl_Steps p)) s = true.
Proof.
  intros (Hn & Hv & Hc & Ht & Hst) Hne.
  destruct (pending_steps p) as [|s l] eqn:E; [done|].
  assert (PlanSpec_ReadySteps p <> []) as Hr.
  { apply (no_deadlock p s); auto.
    - by apply plan_accepts.
    - intros x Hx. destruct (Hst x Hx) as [[? _]|]; auto.
    - rewrite E. by left. }
  destruct (PlanSpec_ReadySteps p) as [|d ds] eqn:Er; [done|].
  assert (d ∈ PlanSpec_ReadySteps p) as Hd by (rewrite Er; by left).
  apply ready_spec in Hd as (Hd & Hp & Hall). exists d. split; [done|]. split; [done|].
  unfold materialises. destruct (Hst d Hd) as [[_ ->]|[Hf|Hf]]; [|by rewrite Hf in Hp..].
  rewrite Hp. cbn. apply forallb_forall. intros x Hx. apply Hall. by apply list_elem_of_In.
Qed.

Lemma round_steps_open p steps :
  steps = map (ran p) (pl_Steps p) -> open_plan p ->
  forall s, s ∈ steps ->
    (ps_Status s = PlanStepStatusPending /\ ps_TaskID s = "") \/ step_finished s.
Proof.
  intros -> (_ & _ & _ & _ & Hst) s' (s & Hs & ->)%elem_of_map.
  destruct (ran_status p s) as [->|He]; [auto|]. right. by left.
Qed.

Lemma finished_terminal s : step_finished s -> step_terminal s = true.
Proof. by intros [H|H]; unfold step_terminal; rewrite H. Qed.

Lemma all_finished_terminal steps :
  (forall s, s ∈ steps -> step_finished s) -> forallb step_terminal steps = true.
Proof.
  intros H. apply forallb_forall. intros s Hs. apply finished_terminal, H.
  by apply list_elem_of_In.
Qed.

Lemma all_finished_ok steps :
  (forall s, s ∈ steps -> step_finished s) ->
  existsb (fun s => ps_Status s ==? PlanStepStatusFailed) steps = false.
Proof.
  intros H. apply not_true_iff_false. rewrite existsb_exists. intros (s & Hs & Hf).
  rewrite <- list_elem_of_In in Hs. apply String.eqb_eq in Hf.
  destruct (H s Hs) as [He|He]; rewrite He in Hf; discriminate.
Qed.

(** A round keeps the plan open as long as a step is waiting. *)
Lemma round_open p p1 :
  open_plan p -> pl_Steps p1 = map (ran p) (pl_Steps p) ->
  pl_PlanID p1 = pl_PlanID p /\ pl_Title p1 = pl_Title p
    /\ pl_Version p1 = pl_Version p /\ pl_Revision p1 = pl_Revision p ->
  pl_Status p1 = (if forallb step_terminal (pl_Steps p1)
                  then if existsb (fun s => ps_Status s ==? PlanStepStatusFailed) (pl_Steps p1)
                       then PlanStatusFailed else PlanStatusCompleted
                  else pl_Status p) ->
  pending_steps p1 <> [] -> open_plan p1.
Proof.
  intros Hopen Hs (Hid & Hti & Hve & Hre) Hst Hne.
  pose proof Hopen as ((Hn1 & Hn2 & Hn3 & Hn4) & Hv & Hc & Ht & _).
  assert (forallb step_terminal (pl_Steps p1) = false) as Hnt.
  { destruct (pending_steps p1) as [|x l] eqn:E; [done|].
    assert (x ∈ pending_steps p1) as [Hx Hp]%elem_of_pending by (rewrite E; by left).
    apply not_true_iff_false. intros Hall. apply (forallb_elem _ _ x) in Hall; [|done].
    unfold step_terminal in Hall. by rewrite Hp in Hall. }
  rewrite Hnt in Hst. pose proof Hv as [(? & ? & ?) Hwf]%plan_validate_iff.
  assert (forall s, s ∈ pl_Steps p1 -> PlanStepStatus_Valid (ps_Status s) = true) as Hval.
  { rewrite Hs. intros s' (s & Hin & ->)%elem_of_map.
    destruct (ran_status p s) as [->|He]; [auto|]. by rewrite He. }
  split; [|split; [|split; [|split]]].
  - unfold normal_plan. rewrite Hve, Hre, Hst. auto.
  - apply plan_validate_iff. unfold plan_header_ok. rewrite Hid, Hti, Hst. split; [auto|].
    rewrite Hs. apply update_wf; auto using ran_id, ran_deps. intros s _. apply ran_validate.
  - eapply (update_acyclic (ran p)); eauto using ran_id, ran_deps.
  - unfold PlanSpec_IsTerminal in *. by rewrite Hst.
  - by apply (round_steps_open p).
Qed.

(** C1: the compiler and the synchroniser drive a plan to completion: a sound open
    plan whose steps are waiting to be compiled or already finished, with at least
    one waiting, is completed, with every step completed or skipped, after at most
    as many rounds of "compile, complete every task, synchronise" as it has
    waiting steps. *)
Theorem rounds_complete_the_plan clock goal p :
  open_plan p -> pending_steps p <> [] ->
  exists n p', (n <= length (pending_steps p))%nat /\ rounds clock goal n p = Some p'
    /\ pl_Status p' = PlanStatusCompleted
    /\ forall s, s ∈ pl_Steps p' -> step_finished s.
Proof.
  induction p as [p IH] using (induction_ltof1 _ (fun p => length (pending_steps p))).
  intros Hopen Hne.
  destruct (round_runs clock goal p Hopen) as (p1 & Hrun & Hs & Hh & Hst).
  destruct (due_step p Hopen Hne) as (d & Hd & Hdp & Hdm).
  specialize (Hst (ex_intro _ d (conj Hd Hdm))).
  pose proof (round_open p p1 Hopen Hs Hh Hst) as Hopen1.
  assert (length (pending_steps p1) < length (pending_steps p))%nat as Hlt.
  { unfold pending_steps. rewrite Hs.
    apply (filter_map_length (fun s => ps_Status s ==? PlanStepStatusPending) (ran p)).
    - intros s _ H. by destruct (ran_status p s) as [He|He]; rewrite He in H.
    - exists d. split; [done|]. split; [by apply String.eqb_eq|]. by rewrite ran_materialised. }
  assert (forall s, s ∈ pl_Steps p1 -> (ps_Status s = PlanStepStatusPending /\ ps_TaskID s = "")
                                       \/ step_finished s) as Hst1.
  { apply (round_steps_open p); auto. }
  destruct (pending_steps p1) as [|x l] eqn:E.
  - assert (forall s, s ∈ pl_Steps p1 -> step_finished s) as Hfin.
    { intros s Hin. destruct (Hst1 s Hin) as [[Hp _]|]; [|done]. exfalso.
      apply (not_elem_of_nil s). rewrite <- E. by apply elem_of_pending. }
    exists 1%nat, p1. split; [cbn in Hlt; lia|]. split; [cbn; by rewrite Hrun|].
    split; [|done]. rewrite Hst, (all_finished_terminal _ Hfin). by rewrite (all_finished_ok _ Hfin).
  - destruct (IH p1) as (n & p' & Hn & Hr & Hfin); [red; cbv beta; by rewrite E|..].
    + by apply Hopen1.
    + by rewrite E.
    + exists (S n), p'. rewrite E in Hn. split; [cbn in *; lia|]. split; [|done].
      cbn. by rewrite Hrun.
Qed.

(** ** The tasks a compilation creates *)

Lemma outputs_named_ok id i outs :
  outputs_named id i outs = None ->
  first_blank os_Name "expected_outputs[%d].name is required" i outs = None.
Proof. revert i. induction outs as [|o l IH]; intros i; [done|]. cbn. case_if. apply IH. Qed.

(** The task compiled for a valid step under a goal of valid priority passes
    [TaskSpec.Validate] exactly when the step has instructions; steps need none
    to be valid, so a valid plan can compile to tasks that are not. *)
Theorem compiled_task_valid_iff_instructions plan goal now deps s :
  PlanStep_Validate s = None ->
  gs_Priority goal = "" \/ TaskPriority_Valid (gs_Priority goal) = true ->
  TaskSpec_Validate (compile_step plan goal now deps s) = None
  <-> blank (ps_Instructions s) = false.
Proof.
  unfold PlanStep_Validate. rewrite first_error_None, !Forall_cons, !error_if_None.
  intros (_ & Ht & _ & Ho & _) Hp.
  unfold TaskSpec_Validate. rewrite first_error_None, !Forall_cons, !error_if_None.
  rewrite TaskSpec_Normalize_fields. cbn.
  assert (TaskPriority_Valid (if gs_Priority goal ==? "" then TaskPriorityMedium
                              else gs_Priority goal) = true) as ->.
  { destruct Hp as [->|Hp]; [done|]. by case_match. }
  rewrite andb_false_r, Ht. apply outputs_named_ok in Ho. rewrite Ho.
  rewrite Forall_nil. split; [intuition|]. intros ->. repeat split.
  - by apply blank_nonspace.
  - by rewrite andb_false_r.
Qed.

(** ** Concrete compilations *)

Definition sample_goal : GoalSpec :=
  mkGoalSpec 1 "g1" "goal" "" "" "" GoalStatusActive TaskPriorityHigh [] [] zero_authority
    zero_budget 0 0 None.
Definition sample_compile : CompileRequest := mkCompileRequest sample_plan sample_goal 7 "op".

Lemma sample_compiles : exists r, Compile 0 sample_compile = Ok r.
Proof. apply compile_runs; vm_compute; reflexivity. Qed.

Lemma compile_creates_due_tasks_witness :
  exists r, Compile 0 sample_compile = Ok r /\ map ts_TaskID (cp_Tasks r) = ["task:p1:a"].
Proof.
  destruct sample_compiles as [r Hr]. exists r. split; [exact Hr|].
  destruct (compile_creates_due_tasks 0 sample_compile r Hr) as (-> & _ & _).
  vm_compute. reflexivity.
Defined.

Lemma compile_is_idempotent_witness :
  exists r r', Compile 0 sample_compile = Ok r
    /\ Compile 0 (mkCompileRequest (cp_UpdatedPlan r) sample_goal 8 "op") = Ok r'
    /\ cp_Tasks r' = [].
Proof.
  destruct sample_compiles as [r Hr].
  destruct (compile_is_idempotent 0 sample_compile r 0 sample_goal 8 "op" Hr) as (r' & Hr' & Ht & _).
  exists r, r'. split; [exact Hr|]. split; [exact Hr'|exact Ht].
Defined.

Lemma sample_plan_open : open_plan sample_plan.
Proof.
  split; [|split; [|split; [|split]]].
  - split; [done|]. split; [done|]. split; [done|]. cbn.
    intros s [->|[->|H]%elem_of_cons]%elem_of_cons; [done|done|]. by apply not_elem_of_nil in H.
  - vm_compute. reflexivity.
  - vm_compute. reflexivity.
  - reflexivity.
  - cbn. intros s [->|[->|H]%elem_of_cons]%elem_of_cons; [by left|by left|].
    by apply not_elem_of_nil in H.
Qed.

Lemma rounds_complete_the_plan_witness :
  exists n p', (n <= 2)%nat /\ rounds 5 sample_goal n sample_plan = Some p'
    /\ pl_Status p' = PlanStatusCompleted.
Proof.
  destruct (rounds_complete_the_plan 5 sample_goal sample_plan sample_plan_open)
    as (n & p' & Hn & Hr & Hs & _); [discriminate|].
  exists n, p'. split; [exact Hn|]. split; [exact Hr|exact Hs].
Defined.

Definition step_without_instructions : PlanStep :=
  mkPlanStep "a" "title" "" [] PlanStepStatusPending "" "" [] None.

Lemma compiled_task_valid_iff_instructions_witness :
  PlanStep_Validate step_without_instructions = None
  /\ TaskSpec_Validate (compile_step sample_plan sample_goal 7 [] step_without_instructions) <> None.
Proof.
  split; [reflexivity|]. intros H.
  apply (compiled_task_valid_iff_instructions sample_plan sample_goal 7 []
           step_without_instructions) in H; [discriminate|reflexivity|right; reflexivity].
Defined.

(** [TaskIDForStep] trims its arguments, [Compile] does not: for a plan identifier
    with surrounding blanks, which [Validate] accepts, they disagree. *)
Example task_id_for_step_trims :
  TaskIDForStep " p" "a" = "task:p:a" /\ compiled_task_id " p" "a" = "task: p:a".
Proof. split; reflexivity. Qed.

(** Two plans can compile to the same task identifier. *)
Example task_ids_of_two_plans_collide :
  compiled_task_id "p" "a:b" = compiled_task_id "p:a" "b".
Proof. reflexivity. Qed.
