(* ===== verification/Approval.v ===== *)
(** The plan approval gate: internal/planner/approval.go.

    A controller's mutex guards its approval log, and every method takes it for
    one append or one scan, so a concurrent history is a sequence of the
    operations below; each returns the new log with its results.  [clock] is
    the reading of [time.Now().Unix()].  [Approve] and [Reject] write into the
    [Meta] map of the plan they are given when it has one, so the caller's copy
    of the map gets the new keys too; the returned plan carries the map.
    [Amend], which calls the language model through [Planner.Replan], is in
    [Replan]. *)

From Stdlib Require Import String.
From stdpp Require Import base tactics decidable list gmap strings.
From S2P Require Import Prelude Enums Verification Budget TaskModels Plans.

(** The log [c.approvals], oldest first. *)
Record PlanController := mkPlanController {
  pc_approvals : list PlanApproval
}.

Definition NewPlanController : PlanController := mkPlanController [].

Definition record_approval (a : PlanApproval) (c : PlanController) : PlanController :=
  mkPlanController (pc_approvals c ++ [a]).

Record PlanPreview := mkPlanPreview {
  pp_Plan : PlanSpec;
  pp_ReadySteps : list PlanStep;
  pp_BlockedSteps : list PlanStep;
  pp_CompletedSteps : list PlanStep;
  pp_FailedSteps : list PlanStep;
  pp_TotalSteps : Z;
  pp_ApprovalHistory : list PlanApproval;
  pp_NeedsApproval : bool;
  pp_AutonomyMode : string
}.

Definition steps_with (status : string) (steps : list PlanStep) : list PlanStep :=
  List.filter (fun s => ps_Status s ==? status) steps.

(** The second loop of [Preview]: ready steps not yet seen. *)
Fixpoint add_unseen_steps (seen : gset string) (steps : list PlanStep) : list PlanStep :=
  match steps with
  | [] => []
  | s :: steps =>
    if decide (ps_StepID s ∈ seen) then add_unseen_steps seen steps
    else s :: add_unseen_steps ({[ps_StepID s]} ∪ seen) steps
  end.

Definition Preview (c : PlanController) (plan : PlanSpec) (mode : string) : PlanPreview :=
  let mode := if negb (AutonomyMode_Valid mode) then AutonomyFull else mode in
  let ready := steps_with PlanStepStatusReady (pl_Steps plan) in
  mkPlanPreview plan
    (ready ++ add_unseen_steps (step_ids ready) (PlanSpec_ReadySteps plan))
    (steps_with PlanStepStatusBlocked (pl_Steps plan))
    (steps_with PlanStepStatusCompleted (pl_Steps plan))
    (steps_with PlanStepStatusFailed (pl_Steps plan))
    (Z.of_nat (length (pl_Steps plan)))
    (List.filter (fun a => pa_PlanID a ==? pl_PlanID plan) (pc_approvals c))
    (AutonomyMode_RequiresPlanApproval mode && (pl_Status plan ==? PlanStatusDraft))
    mode.

Record ApproveRequest := mkApproveRequest {
  aq_Plan : PlanSpec;
  aq_Actor : string;
  aq_Reason : string;
  aq_Mode : string;
  aq_Now : Z
}.

Definition Approve (clock : Z) (req : ApproveRequest) (c : PlanController)
  : PlanController * result (PlanSpec * PlanApproval) :=
  if blank (aq_Actor req) then (c, Err (Errorf "approve: actor is required" []))
  else
  let plan := PlanSpec_Normalize (aq_Plan req) in
  if (pl_Status plan !=? PlanStatusDraft) && (pl_Status plan !=? PlanStatusRevising)
  then (c, Err (Errorf "approve: plan status is %q, expected draft or revising"
                  [ArgS (pl_Status plan)]))
  else
  let now := if aq_Now req <=? 0 then clock else aq_Now req in
  let approval := mkPlanApproval (pl_PlanID plan) (pl_Revision plan) PlanApprovalApproved
    (aq_Actor req) (aq_Reason req) now None in
  let meta := <["approved_at" := VInt64 now]>
                (<["approved_by" := VString (aq_Actor req)]> (map_read (pl_Meta plan))) in
  (record_approval approval c,
   Ok (plan <| pl_Status := PlanStatusActive |> <| pl_UpdatedAt := now |>
            <| pl_Meta := Some meta |>, approval)).

Record RejectRequest := mkRejectRequest {
  jq_Plan : PlanSpec;
  jq_Actor : string;
  jq_Reason : string;
  jq_Now : Z
}.

Definition Reject (clock : Z) (req : RejectRequest) (c : PlanController)
  : PlanController * result (PlanSpec * PlanApproval) :=
  if blank (jq_Actor req) then (c, Err (Errorf "reject: actor is required" []))
  else if blank (jq_Reason req) then (c, Err (Errorf "reject: reason is required" []))
  else
  let plan := PlanSpec_Normalize (jq_Plan req) in
  if PlanSpec_IsTerminal plan
  then (c, Err (Errorf "reject: plan is already terminal (%s)" [ArgS (pl_Status plan)]))
  else
  let now := if jq_Now req <=? 0 then clock else jq_Now req in
  let approval := mkPlanApproval (pl_PlanID plan) (pl_Revision plan) PlanApprovalRejected
    (jq_Actor req) (jq_Reason req) now None in
  let meta := <["rejected_reason" := VString (jq_Reason req)]>
                (<["rejected_by" := VString (jq_Actor req)]> (map_read (pl_Meta plan))) in
  (record_approval approval c,
   Ok (plan <| pl_Status := PlanStatusCancelled |> <| pl_UpdatedAt := now |>
            <| pl_Meta := Some meta |>, approval)).

(** The test of the backward scans of [MayCompile] and [MayExecuteStep]. *)
Definition same_revision (plan : PlanSpec) (a : PlanApproval) : bool :=
  (pa_PlanID a ==? pl_PlanID plan) && (pa_Revision a =? pl_Revision plan).

Definition MayCompile (c : PlanController) (plan : PlanSpec) (mode : string) : bool :=
  if pl_Status plan !=? PlanStatusActive then false
  else if AutonomyMode_RequiresPlanApproval mode
  then existsb (fun a => same_revision plan a && (pa_Decision a ==? PlanApprovalApproved))
         (rev (pc_approvals c))
  else true.

(** [a.Meta["step_id"].(string)] is [stepID]. *)
Definition names_step (a : PlanApproval) (stepID : string) : bool :=
  match map_read (pa_Meta a) !! "step_id" with
  | Some (VString meta) => meta ==? stepID
  | _ => false
  end.

Definition MayExecuteStep (c : PlanController) (plan : PlanSpec) (stepID mode : string) : bool :=
  if negb (MayCompile c plan mode) then false
  else if negb (AutonomyMode_RequiresStepApproval mode) then true
  else existsb (fun a => same_revision plan a
                         && (names_step a stepID && (pa_Decision a ==? PlanApprovalApproved)))
         (rev (pc_approvals c)).

Definition ApproveStep (clock : Z) (plan : PlanSpec) (stepID actor reason : string) (now : Z)
    (c : PlanController) : PlanController * result PlanApproval :=
  if blank actor then (c, Err (Errorf "approve_step: actor is required" []))
  else if blank stepID then (c, Err (Errorf "approve_step: step_id is required" []))
  else if negb (existsb (fun step => ps_StepID step ==? stepID) (pl_Steps plan))
  then (c, Err (Errorf "approve_step: step %q not found in plan" [ArgS stepID]))
  else
  let now := if now <=? 0 then clock else now in
  let approval := mkPlanApproval (pl_PlanID plan) (pl_Revision plan) PlanApprovalApproved
    actor reason now (Some {["step_id" := VString stepID]}) in
  (record_approval approval c, Ok approval).

Definition Approvals (c : PlanController) : list PlanApproval := pc_approvals c.

(** ** What the gate guarantees *)

(** A record that approves the plan's current revision. *)
Definition approves (plan : PlanSpec) (a : PlanApproval) : Prop :=
  pa_PlanID a = pl_PlanID plan /\ pa_Revision a = pl_Revision plan
  /\ pa_Decision a = PlanApprovalApproved.

Definition approves_step (plan : PlanSpec) (stepID : string) (a : PlanApproval) : Prop :=
  approves plan a /\ map_read (pa_Meta a) !! "step_id" = Some (VString stepID).

Lemma existsb_rev {A} (f : A -> bool) l :
  existsb f (rev l) = true <-> exists x, x ∈ l /\ f x = true.
Proof.
  rewrite existsb_exists. setoid_rewrite list_elem_of_In. by setoid_rewrite <- in_rev.
Qed.

Lemma same_revision_iff plan a :
  same_revision plan a = true <-> pa_PlanID a = pl_PlanID plan /\ pa_Revision a = pl_Revision plan.
Proof. unfold same_revision. by rewrite andb_true_iff, String.eqb_eq, Z.eqb_eq. Qed.

Lemma names_step_iff a s :
  names_step a s = true <-> map_read (pa_Meta a) !! "step_id" = Some (VString s).
Proof.
  unfold names_step. destruct (_ !! _) as [[]|]; try (split; discriminate).
  rewrite String.eqb_eq. split; congruence.
Qed.

Lemma MayCompile_iff c plan mode :
  MayCompile c plan mode = true
  <-> pl_Status plan = PlanStatusActive
      /\ (AutonomyMode_RequiresPlanApproval mode = true ->
          exists a, a ∈ pc_approvals c /\ approves plan a).
Proof.
  unfold MayCompile, approves. destruct (String.eqb_spec (pl_Status plan) PlanStatusActive); cbn [negb].
  2: { split; [discriminate|]. by intros [? _]. }
  destruct (AutonomyMode_RequiresPlanApproval mode).
  - rewrite existsb_rev. split.
    + intros (a & Ha & [[? ?]%same_revision_iff ?%String.eqb_eq]%andb_prop).
      split; [done|]. intros _. by exists a.
    + intros [_ H]. destruct (H eq_refl) as (a & Ha & ? & ? & ?). exists a.
      split; [done|]. by rewrite andb_true_iff, same_revision_iff, String.eqb_eq.
  - split; [|done]. by intros _.
Qed.

Lemma step_modes m :
  AutonomyMode_RequiresStepApproval m = true -> AutonomyMode_RequiresPlanApproval m = true.
Proof.
  unfold AutonomyMode_RequiresStepApproval, AutonomyMode_RequiresPlanApproval. cbn.
  destruct (m ==? AutonomyPlanApproval), (m ==? AutonomyStepApproval), (m ==? AutonomySupervised);
    cbn; congruence.
Qed.

(** The gate is exact: a step of an active plan may execute precisely when the
    mode asks for no approval, or only for a plan approval and the current revision
    has an approval, or for step approvals and the current revision has one that
    names this very step; plans that are not active never execute. *)
Theorem may_execute_step_spec c plan stepID mode :
  MayExecuteStep c plan stepID mode = true
  <-> pl_Status plan = PlanStatusActive
      /\ (AutonomyMode_RequiresPlanApproval mode = true ->
          exists a, a ∈ pc_approvals c /\ approves plan a)
      /\ (AutonomyMode_RequiresStepApproval mode = true ->
          exists a, a ∈ pc_approvals c /\ approves_step plan stepID a).
Proof.
  unfold MayExecuteStep. destruct (MayCompile c plan mode) eqn:Hm; cbn [negb].
  2: { split; [discriminate|]. intros (H1 & H2 & _).
       rewrite <- not_true_iff_false, MayCompile_iff in Hm. tauto. }
  apply MayCompile_iff in Hm as [Hact Hpl].
  destruct (AutonomyMode_RequiresStepApproval mode); cbn [negb]; [|by split].
  rewrite existsb_rev. unfold approves_step, approves. split.
  - intros (a & Ha & [[? ?]%same_revision_iff [?%names_step_iff ?%String.eqb_eq]%andb_prop]%andb_prop).
    split; [done|]. split; [done|]. intros _. by exists a.
  - intros (_ & _ & H). destruct (H eq_refl) as (a & Ha & (? & ? & ?) & ?). exists a.
    split; [done|]. rewrite !andb_true_iff, same_revision_iff, names_step_iff, String.eqb_eq. auto.
Qed.

(** One call of an operation that can change the controller. *)
Inductive gate_step : PlanController -> PlanController -> Prop :=
  | gate_approve clock req c : gate_step c (Approve clock req c).1
  | gate_reject clock req c : gate_step c (Reject clock req c).1
  | gate_approve_step clock plan id actor reason now c :
      gate_step c (ApproveStep clock plan id actor reason now c).1.

(** An operation leaves the log alone or appends one record, which names its
    actor. *)
Lemma gate_step_appends c c' :
  gate_step c c' ->
  c' = c \/ exists a, c' = record_approval a c /\ blank (pa_Actor a) = false
                      /\ (pa_Decision a = PlanApprovalApproved
                          \/ pa_Decision a = PlanApprovalRejected).
Proof.
  intros [clock req c0|clock req c0|clock plan id actor reason now c0];
    [unfold Approve|unfold Reject|unfold ApproveStep]; cbv zeta;
    repeat case_if; cbn; try (by left); right; eexists; (split; [reflexivity|]); cbn; auto.
Qed.

Lemma gate_log_grows c c' a : rtc gate_step c c' -> a ∈ pc_approvals c -> a ∈ pc_approvals c'.
Proof.
  induction 1 as [|c c1 c' H _ IH]; [done|]. intros Ha. apply IH.
  destruct (gate_step_appends _ _ H) as [->|(b & -> & _)]; [done|].
  cbn. apply elem_of_app. by left.
Qed.

Lemma gate_log_named c c' :
  rtc gate_step c c' ->
  Forall (fun a => blank (pa_Actor a) = false) (pc_approvals c) ->
  Forall (fun a => blank (pa_Actor a) = false) (pc_approvals c').
Proof.
  induction 1 as [|c c1 c' H _ IH]; [done|]. intros Hc. apply IH.
  destruct (gate_step_appends _ _ H) as [->|(b & -> & Hb & _)]; [done|].
  cbn. apply Forall_app. split; [done|]. by constructor.
Qed.

Lemma approve_ok clock req c c' plan a :
  Approve clock req c = (c', Ok (plan, a)) ->
  c' = record_approval a c /\ approves plan a /\ pl_Status plan = PlanStatusActive.
Proof.
  unfold Approve. cbv zeta. destruct (blank _); [discriminate|]. destruct (_ && _); [discriminate|].
  intros E. pose proof (f_equal fst E) as Ec. apply (f_equal snd), Ok_inj in E. cbn [fst snd] in Ec, E.
  pose proof (f_equal fst E) as Ep. apply (f_equal snd) in E. cbn [fst snd] in Ep, E. rewrite <- Ec, <- Ep, <- E. by repeat split.
Qed.

(** An approval is durable: the plan returned by a successful [Approve] may be
    compiled in every autonomy mode, right away and after any further operations
    on the controller, later rejections included. *)
Theorem approved_plan_may_compile clock req c c' plan a c'' mode :
  Approve clock req c = (c', Ok (plan, a)) -> rtc gate_step c' c'' ->
  MayCompile c'' plan mode = true.
Proof.
  intros (-> & Ha & Hs)%approve_ok Hr. apply MayCompile_iff. split; [done|]. intros _.
  exists a. split; [|done]. apply (gate_log_grows _ _ _ Hr). cbn. apply elem_of_app. right. by left.
Qed.

(** No compilation without an operator: if a controller reached by any history
    of operations lets a plan compile in a mode that requires plan approval, then
    the log holds an approval of exactly this plan and revision, recorded under a
    named actor. *)
Theorem compile_needs_an_operator c plan mode :
  rtc gate_step NewPlanController c -> AutonomyMode_RequiresPlanApproval mode = true ->
  MayCompile c plan mode = true ->
  exists a, a ∈ pc_approvals c /\ approves plan a /\ blank (pa_Actor a) = false.
Proof.
  intros Hr Hm [_ H]%MayCompile_iff. destruct (H Hm) as (a & Ha & Happ).
  exists a. split; [done|]. split; [done|].
  apply gate_log_named in Hr; [|constructor]. rewrite Forall_forall in Hr. by apply Hr.
Qed.

(** Approving one step approves the plan: after [ApproveStep] on an active plan
    that nobody approved, the whole plan may compile in every mode, and in plan
    approval mode every step of it may execute. *)
Theorem step_approval_opens_the_plan clock plan id actor reason now c c' a mode other :
  ApproveStep clock plan id actor reason now c = (c', Ok a) ->
  pl_Status plan = PlanStatusActive ->
  MayCompile c' plan mode = true
  /\ MayExecuteStep c' plan other AutonomyPlanApproval = true.
Proof.
  unfold ApproveStep. cbv zeta. destruct (blank actor); [discriminate|].
  destruct (blank id); [discriminate|]. destruct (negb _); [discriminate|].
  intros [= <- <-] Hs.
  assert (forall m, MayCompile (record_approval
    (mkPlanApproval (pl_PlanID plan) (pl_Revision plan) PlanApprovalApproved actor reason
       (if now <=? 0 then clock else now) (Some {["step_id" := VString id]})) c) plan m = true) as Hc.
  { intros m. apply MayCompile_iff. split; [done|]. intros _. eexists.
    split; [cbn; apply elem_of_app; right; by left|]. done. }
  split; [apply Hc|]. unfold MayExecuteStep. by rewrite Hc.
Qed.

(** ** Concrete histories *)

Definition draft_plan : PlanSpec := sample_plan <| pl_Status := PlanStatusDraft |>.
Definition approve_draft : ApproveRequest :=
  mkApproveRequest draft_plan "alice" "fine" AutonomyPlanApproval 5.

Lemma draft_approved :
  exists c plan a, Approve 0 approve_draft NewPlanController = (c, Ok (plan, a)).
Proof. vm_compute. do 3 eexists. reflexivity. Qed.

Lemma approved_plan_may_compile_witness :
  exists c plan a, Approve 0 approve_draft NewPlanController = (c, Ok (plan, a))
                   /\ MayCompile c plan AutonomySupervised = true.
Proof.
  destruct draft_approved as (c & plan & a & H). exists c, plan, a. split; [exact H|].
  apply (approved_plan_may_compile 0 approve_draft NewPlanController c plan a c
           AutonomySupervised H). apply rtc_refl.
Defined.

Lemma approved_history : rtc gate_step NewPlanController (Approve 0 approve_draft NewPlanController).1.
Proof. apply rtc_once. constructor. Qed.

Lemma compile_needs_an_operator_witness :
  exists a, a ∈ pc_approvals (Approve 0 approve_draft NewPlanController).1
            /\ approves sample_plan a /\ blank (pa_Actor a) = false.
Proof.
  apply (compile_needs_an_operator (Approve 0 approve_draft NewPlanController).1 sample_plan
           AutonomySupervised approved_history); vm_compute; reflexivity.
Defined.

Lemma step_approval_opens_the_plan_witness :
  MayExecuteStep (ApproveStep 0 sample_plan "a" "alice" "" 5 NewPlanController).1 sample_plan "b"
    AutonomyPlanApproval = true.
Proof.
  destruct (ApproveStep 0 sample_plan "a" "alice" "" 5 NewPlanController) as [c [a|e]] eqn:E.
  - apply (step_approval_opens_the_plan 0 sample_plan "a" "alice" "" 5 NewPlanController c a
             AutonomyPlanApproval "b" E). reflexivity.
  - vm_compute in E. discriminate.
Defined.
