(* ===== verification/LedgerModels.v ===== *)
(** Entries of the task ledger, their copies, filters and statistics, and the
    persistence interface: internal/tasks/ledger.go and stats.go. *)

From Stdlib Require Import String.
From stdpp Require Import base tactics decidable list gmap strings.
From S2P Require Import Prelude Enums Verification Budget TaskModels Lifecycle.

(** [type TaskSource string] *)
Definition TaskSourceACP : string := "acp".
Definition TaskSourceCron : string := "cron".
Definition TaskSourceWebhook : string := "webhook".
Definition TaskSourceWorkflow : string := "workflow".
Definition TaskSourceManual : string := "manual".
Definition TaskSourceDVM : string := "dvm".
Definition TaskSourceApproval : string := "approval".
Definition TaskSourceSandbox : string := "sandbox".
Definition TaskSourceFleet : string := "fleet".

Record LedgerEntry := mkLedgerEntry {
  le_Task : TaskSpec;
  le_Source : string;
  le_SourceRef : string;
  le_Runs : list TaskRun;
  le_CreatedAt : Z;
  le_UpdatedAt : Z
}.

Record RunEntry := mkRunEntry {
  re_Run : TaskRun;
  re_Source : string;
  re_SourceRef : string;
  re_CreatedAt : Z;
  re_UpdatedAt : Z
}.

#[export] Instance set_le_Task : Setter le_Task := fun v e =>
  mkLedgerEntry v (le_Source e) (le_SourceRef e) (le_Runs e) (le_CreatedAt e) (le_UpdatedAt e).
#[export] Instance set_le_Source : Setter le_Source := fun v e =>
  mkLedgerEntry (le_Task e) v (le_SourceRef e) (le_Runs e) (le_CreatedAt e) (le_UpdatedAt e).
#[export] Instance set_le_SourceRef : Setter le_SourceRef := fun v e =>
  mkLedgerEntry (le_Task e) (le_Source e) v (le_Runs e) (le_CreatedAt e) (le_UpdatedAt e).
#[export] Instance set_le_Runs : Setter le_Runs := fun v e =>
  mkLedgerEntry (le_Task e) (le_Source e) (le_SourceRef e) v (le_CreatedAt e) (le_UpdatedAt e).
#[export] Instance set_le_CreatedAt : Setter le_CreatedAt := fun v e =>
  mkLedgerEntry (le_Task e) (le_Source e) (le_SourceRef e) (le_Runs e) v (le_UpdatedAt e).
#[export] Instance set_le_UpdatedAt : Setter le_UpdatedAt := fun v e =>
  mkLedgerEntry (le_Task e) (le_Source e) (le_SourceRef e) (le_Runs e) (le_CreatedAt e) v.
#[export] Instance LedgerEntry_ext : RecordExt LedgerEntry (fun a b =>
  le_Task a = le_Task b /\ le_Source a = le_Source b /\ le_SourceRef a = le_SourceRef b
  /\ le_Runs a = le_Runs b /\ le_CreatedAt a = le_CreatedAt b /\ le_UpdatedAt a = le_UpdatedAt b).
Proof. intros [] []; cbn. intros H. decompose [and] H. by subst. Qed.

#[export] Instance set_re_Run : Setter re_Run := fun v e =>
  mkRunEntry v (re_Source e) (re_SourceRef e) (re_CreatedAt e) (re_UpdatedAt e).
#[export] Instance set_re_Source : Setter re_Source := fun v e =>
  mkRunEntry (re_Run e) v (re_SourceRef e) (re_CreatedAt e) (re_UpdatedAt e).
#[export] Instance set_re_SourceRef : Setter re_SourceRef := fun v e =>
  mkRunEntry (re_Run e) (re_Source e) v (re_CreatedAt e) (re_UpdatedAt e).
#[export] Instance set_re_CreatedAt : Setter re_CreatedAt := fun v e =>
  mkRunEntry (re_Run e) (re_Source e) (re_SourceRef e) v (re_UpdatedAt e).
#[export] Instance set_re_UpdatedAt : Setter re_UpdatedAt := fun v e =>
  mkRunEntry (re_Run e) (re_Source e) (re_SourceRef e) (re_CreatedAt e) v.
#[export] Instance RunEntry_ext : RecordExt RunEntry (fun a b =>
  re_Run a = re_Run b /\ re_Source a = re_Source b /\ re_SourceRef a = re_SourceRef b
  /\ re_CreatedAt a = re_CreatedAt b /\ re_UpdatedAt a = re_UpdatedAt b).
Proof. intros [] []; cbn. intros H. decompose [and] H. by subst. Qed.

(** ** Copies

    A copy differs from its source only in sharing: the one visible effect of
    the clone functions is that an empty map becomes nil. *)

Definition cloneAnyMap (src : gomap any) : gomap any := clone_map src.

Definition cloneVerificationSpec (spec : VerificationSpec) : VerificationSpec :=
  let spec := spec <| vs_Meta := cloneAnyMap (vs_Meta spec) |> in
  spec <| vs_Checks := map (fun check => check <| vc_Meta := cloneAnyMap (vc_Meta check) |>)
                           (vs_Checks spec) |>.

Definition cloneLedgerEntry (entry : LedgerEntry) : LedgerEntry :=
  let t := le_Task entry in
  entry <| le_Task := t <| ts_Inputs := cloneAnyMap (ts_Inputs t) |>
                        <| ts_Verification := cloneVerificationSpec (ts_Verification t) |>
                        <| ts_Meta := cloneAnyMap (ts_Meta t) |> |>.

Definition cloneRunEntry (entry : RunEntry) : RunEntry :=
  let r := re_Run entry in
  entry <| re_Run := r <| tr_Verification := cloneVerificationSpec (tr_Verification r) |>
                       <| tr_Meta := cloneAnyMap (tr_Meta r) |> |>.

(** ** Filters *)

Record ListTasksOptions := mkListTasksOptions {
  lo_Status : list string;
  lo_Source : list string;
  lo_AgentID : string;
  lo_GoalID : string;
  lo_ParentTaskID : string;
  lo_SessionID : string;
  lo_Limit : Z;
  lo_Offset : Z;
  lo_OrderBy : string;
  lo_OrderDesc : bool
}.

Record ListRunsOptions := mkListRunsOptions {
  ro_TaskID : string;
  ro_Status : list string;
  ro_AgentID : string;
  ro_Limit : Z;
  ro_Offset : Z;
  ro_OrderBy : string;
  ro_OrderDesc : bool;
  ro_IncludeMeta : bool
}.

(** [len(wanted) > 0] and no element equal to [s]: the entry is filtered out. *)
Definition misses (wanted : list string) (s : string) : bool :=
  Nat.ltb 0 (length wanted) && negb (existsb (fun w => s ==? w) wanted).

(** [wanted != "" && s != wanted] *)
Definition differs (wanted s : string) : bool := (wanted !=? "") && (s !=? wanted).

Definition matchesTaskFilter (entry : LedgerEntry) (opts : ListTasksOptions) : bool :=
  if misses (lo_Status opts) (ts_Status (le_Task entry)) then false
  else if misses (lo_Source opts) (le_Source entry) then false
  else if differs (lo_AgentID opts) (ts_AssignedAgent (le_Task entry)) then false
  else if differs (lo_GoalID opts) (ts_GoalID (le_Task entry)) then false
  else if differs (lo_ParentTaskID opts) (ts_ParentTaskID (le_Task entry)) then false
  else if differs (lo_SessionID opts) (ts_SessionID (le_Task entry)) then false
  else true.

Definition matchesRunFilter (entry : RunEntry) (opts : ListRunsOptions) : bool :=
  if differs (ro_TaskID opts) (tr_TaskID (re_Run entry)) then false
  else if misses (ro_Status opts) (tr_Status (re_Run entry)) then false
  else if differs (ro_AgentID opts) (tr_AgentID (re_Run entry)) then false
  else true.

Definition isTerminalRunStatus (status : string) : bool :=
  go_switch status
    [([TaskRunStatusCompleted; TaskRunStatusFailed; TaskRunStatusCancelled], true)] false.

(** ** Statistics *)

Record TaskStats := mkTaskStats {
  st_TotalTasks : Z;
  st_TotalRuns : Z;
  st_ByStatus : gmap string Z;
  st_BySource : gmap string Z;
  st_ActiveRuns : Z;
  st_CompletedToday : Z;
  st_FailedToday : Z
}.

(** [m[k]++] *)
Definition incr (k : string) (m : gmap string Z) : gmap string Z :=
  <[k := add64 (default 0 (m !! k)) 1]> m.

(** One iteration of each loop of [computeTaskStats]. *)
Definition count_task (entry : LedgerEntry) (st : TaskStats) : TaskStats :=
  mkTaskStats (add64 (st_TotalTasks st) 1) (st_TotalRuns st)
    (incr (ts_Status (le_Task entry)) (st_ByStatus st))
    (incr (le_Source entry) (st_BySource st))
    (st_ActiveRuns st) (st_CompletedToday st) (st_FailedToday st).

Definition count_run (todayStart : Z) (entry : RunEntry) (st : TaskStats) : TaskStats :=
  let s := tr_Status (re_Run entry) in
  let today := todayStart <=? tr_EndedAt (re_Run entry) in
  mkTaskStats (st_TotalTasks st) (add64 (st_TotalRuns st) 1) (st_ByStatus st) (st_BySource st)
    (if s ==? TaskRunStatusRunning then add64 (st_ActiveRuns st) 1 else st_ActiveRuns st)
    (if today && (s ==? TaskRunStatusCompleted) then add64 (st_CompletedToday st) 1
     else st_CompletedToday st)
    (if today && (s !=? TaskRunStatusCompleted) && (s ==? TaskRunStatusFailed)
     then add64 (st_FailedToday st) 1 else st_FailedToday st).

Definition zero_stats : TaskStats := mkTaskStats 0 0 ∅ ∅ 0 0 0.

(** [todayStart] is [now.Truncate(24 * time.Hour).Unix()].  Go visits the maps in
    an unspecified order; the counts do not depend on it. *)
Definition computeTaskStats (tasks : gmap string LedgerEntry) (runs : gmap string RunEntry)
    (todayStart : Z) : TaskStats :=
  let stats := foldr count_task zero_stats (map snd (map_to_list tasks)) in
  foldr (count_run todayStart) stats (map snd (map_to_list runs)).

(** ** The persistence interface

    A store keeps its own representation of what it is given; an error is the
    failure it reports.  [S] is the state of the store. *)

Class Store (S : Type) := {
  SaveTask : S -> LedgerEntry -> S * option error;
  LoadTask : S -> string -> S * result (option LedgerEntry);
  SaveRun : S -> RunEntry -> S * option error;
  LoadRun : S -> string -> S * result (option RunEntry)
}.

(** ** Lemmas *)

Lemma misses_spec wanted s : misses wanted s = false <-> wanted = [] \/ s ∈ wanted.
Proof.
  unfold misses. rewrite andb_false_iff, negb_false_iff, existsb_exists.
  setoid_rewrite String.eqb_eq. setoid_rewrite <- list_elem_of_In.
  destruct wanted; cbn; [split; auto|].
  split; [intros [|(x & ? & ->)]; [done|by right] | intros [|]; [done|right; by exists s]].
Qed.

Lemma differs_spec wanted s : differs wanted s = false <-> wanted = "" \/ s = wanted.
Proof.
  unfold differs. rewrite andb_false_iff, !negb_false_iff, !String.eqb_eq. done.
Qed.
