(* ===== verification/Ledger.v ===== *)
(** The task ledger: internal/tasks/ledger.go.

    [Ledger] is the in-memory cache (by task and by run identifier), the store
    behind it and the events emitted to the observers, latest last.  A cached
    entry is the value behind the pointer of Go's map.  An operation is the
    sequence of its critical sections: [l.mu] is released while the store is
    called, so the critical sections are definitions of their own
    ([..._locked], [..._rollback]) and the operations run them in order.
    [now] is the reading of [time.Now().Unix()]. *)

From Stdlib Require Import String.
From stdpp Require Import base tactics decidable list gmap strings relations.
From S2P Require Import Prelude Enums Verification Budget TaskModels Lifecycle LedgerModels.

(** A call of an observer. *)
Inductive Event :=
  | OnTaskCreated (entry : LedgerEntry)
  | OnTaskUpdated (entry : LedgerEntry) (transition : TaskTransition)
  | OnRunCreated (entry : RunEntry)
  | OnRunUpdated (entry : RunEntry) (transition : TaskRunTransition).

Record Ledger (S : Type) := mkLedger {
  l_tasks : gmap string LedgerEntry;
  l_runs : gmap string RunEntry;
  l_store : option S;
  l_events : list Event
}.
Arguments mkLedger {S}.
Arguments l_tasks {S}.
Arguments l_runs {S}.
Arguments l_store {S}.
Arguments l_events {S}.

#[export] Instance set_l_tasks {S} : Setter (R := Ledger S) l_tasks := fun v l =>
  mkLedger v (l_runs l) (l_store l) (l_events l).
#[export] Instance set_l_runs {S} : Setter (R := Ledger S) l_runs := fun v l =>
  mkLedger (l_tasks l) v (l_store l) (l_events l).
#[export] Instance set_l_store {S} : Setter (R := Ledger S) l_store := fun v l =>
  mkLedger (l_tasks l) (l_runs l) v (l_events l).
#[export] Instance set_l_events {S} : Setter (R := Ledger S) l_events := fun v l =>
  mkLedger (l_tasks l) (l_runs l) (l_store l) v.

Definition task_not_found (taskID : string) : error := Errorf "task %q not found" [ArgS taskID].
Definition run_not_found (runID : string) : error := Errorf "run %q not found" [ArgS runID].

(** [entry.Task.Transitions[len-1]] *)
Definition last_task_transition (t : TaskSpec) : TaskTransition :=
  List.last (ts_Transitions t) (mkTaskTransition "" "" 0 "" "" "" None).
Definition last_run_transition (r : TaskRun) : TaskRunTransition :=
  List.last (tr_Transitions r) (mkTaskRunTransition "" "" 0 "" "" "" None).

(** The canonical entry rebuilt from a run embedded in a task entry. *)
Definition embedded_run (entry : LedgerEntry) (run : TaskRun) : RunEntry :=
  mkRunEntry run (le_Source entry) (le_SourceRef entry) (le_CreatedAt entry) (le_UpdatedAt entry).

Section Operations.
Context {S : Type} `{Store S}.

(** ** Calling the store *)

(** [if l.store != nil { err := l.store.SaveTask(ctx, entry) ... }]: the ledger
    with the new state of the store, and the error if there is one. *)
Definition store_save_task (entry : LedgerEntry) (l : Ledger S) : Ledger S * option error :=
  match l_store l with
  | None => (l, None)
  | Some s => let '(s, err) := SaveTask s entry in (l <| l_store := Some s |>, err)
  end.

Definition store_save_run (entry : RunEntry) (l : Ledger S) : Ledger S * option error :=
  match l_store l with
  | None => (l, None)
  | Some s => let '(s, err) := SaveRun s entry in (l <| l_store := Some s |>, err)
  end.

Definition put_task (id : string) (entry : LedgerEntry) (l : Ledger S) : Ledger S :=
  l <| l_tasks := <[id := entry]> (l_tasks l) |>.
Definition put_run (id : string) (entry : RunEntry) (l : Ledger S) : Ledger S :=
  l <| l_runs := <[id := entry]> (l_runs l) |>.
Definition drop_task (id : string) (l : Ledger S) : Ledger S :=
  l <| l_tasks := delete id (l_tasks l) |>.
Definition drop_run (id : string) (l : Ledger S) : Ledger S :=
  l <| l_runs := delete id (l_runs l) |>.
Definition emit (e : Event) (l : Ledger S) : Ledger S :=
  l <| l_events := l_events l ++ [e] |>.

(** ** Creating and reading *)

Definition CreateTask (now : Z) (task : TaskSpec) (source sourceRef : string) (l : Ledger S)
  : Ledger S * result LedgerEntry :=
  let task := TaskSpec_Normalize task in
  match TaskSpec_Validate task with
  | Some e => (l, Err (Wrapf "invalid task: %w" [] e))
  | None =>
    let task := if ts_CreatedAt task =? 0 then task <| ts_CreatedAt := now |> else task in
    let task := task <| ts_UpdatedAt := now |> in
    let entry := mkLedgerEntry task source sourceRef [] now now in
    let id := ts_TaskID task in
    if decide (is_Some (l_tasks l !! id))
    then (l, Err (Errorf "task %q already exists" [ArgS id]))
    else
      let l := put_task id entry l in
      let '(l, err) := store_save_task entry l in
      match err with
      | Some e => (drop_task id l, Err (Wrapf "persist task %q: %w" [ArgS id] e))
      | None => (emit (OnTaskCreated entry) l, Ok entry)
      end
  end.

Definition GetTask (taskID : string) (l : Ledger S) : Ledger S * result LedgerEntry :=
  match l_tasks l !! taskID with
  | Some entry => (l, Ok entry)
  | None =>
    match l_store l with
    | None => (l, Err (task_not_found taskID))
    | Some s =>
      let '(s, r) := LoadTask s taskID in
      let l := l <| l_store := Some s |> in
      match r with
      | Err e => (l, Err e)
      | Ok None => (l, Err (task_not_found taskID))
      | Ok (Some entry) => (put_task taskID entry l, Ok entry)
      end
    end
  end.

Definition SnapshotTask (taskID : string) (l : Ledger S) : Ledger S * result LedgerEntry :=
  let '(l, r) := GetTask taskID l in
  match r with
  | Err e => (l, Err e)
  | Ok entry => (l, Ok (cloneLedgerEntry (default entry (l_tasks l !! taskID))))
  end.

Definition GetRun (runID : string) (l : Ledger S) : Ledger S * result RunEntry :=
  match l_runs l !! runID with
  | Some entry => (l, Ok entry)
  | None =>
    match l_store l with
    | None => (l, Err (run_not_found runID))
    | Some s =>
      let '(s, r) := LoadRun s runID in
      let l := l <| l_store := Some s |> in
      match r with
      | Err e => (l, Err e)
      | Ok None => (l, Err (run_not_found runID))
      | Ok (Some entry) => (put_run runID entry l, Ok entry)
      end
    end
  end.

(** The loop of [ensureTaskLoaded] over the embedded runs. *)
Definition add_embedded_runs (entry : LedgerEntry) (runs : gmap string RunEntry)
  : gmap string RunEntry :=
  fold_left (fun m run =>
    match m !! tr_RunID run with
    | Some _ => m
    | None => <[tr_RunID run := embedded_run entry run]> m
    end) (le_Runs entry) runs.

Definition ensureTaskLoaded (taskID : string) (l : Ledger S) : Ledger S * result LedgerEntry :=
  match l_tasks l !! taskID with
  | Some entry => (l, Ok entry)
  | None =>
    match l_store l with
    | None => (l, Err (task_not_found taskID))
    | Some s =>
      let '(s, r) := LoadTask s taskID in
      let l := l <| l_store := Some s |> in
      match r with
      | Err e => (l, Err e)
      | Ok None => (l, Err (task_not_found taskID))
      | Ok (Some entry) =>
        let '(l, entry) := match l_tasks l !! taskID with
                           | Some existing => (l, existing)
                           | None => (put_task taskID entry l, entry)
                           end in
        (l <| l_runs := add_embedded_runs entry (l_runs l) |>, Ok entry)
      end
    end
  end.

Definition ensureRunLoaded (runID : string) (l : Ledger S) : Ledger S * result RunEntry :=
  match l_runs l !! runID with
  | Some entry => (l, Ok entry)
  | None =>
    match l_store l with
    | None => (l, Err (run_not_found runID))
    | Some s =>
      let '(s, r) := LoadRun s runID in
      let l := l <| l_store := Some s |> in
      match r with
      | Err e => (l, Err e)
      | Ok None => (l, Err (run_not_found runID))
      | Ok (Some entry) =>
        match l_runs l !! runID with
        | Some existing => (l, Ok existing)
        | None => (put_run runID entry l, Ok entry)
        end
      end
    end
  end.

(** ** Saving snapshots *)

(** The critical section of [SaveTaskState]: the new entry. *)
Definition save_task_entry (now : Z) (task : TaskSpec) (source sourceRef : string)
    (entry : LedgerEntry) : LedgerEntry :=
  let source := if source ==? "" then le_Source entry else source in
  let source := if source ==? "" then TaskSourceManual else source in
  let sourceRef := if blank sourceRef then le_SourceRef entry else sourceRef in
  let entry := entry <| le_Task := task |> <| le_Source := source |>
                     <| le_SourceRef := sourceRef |> in
  let entry := if le_CreatedAt entry =? 0 then entry <| le_CreatedAt := ts_CreatedAt task |>
               else entry in
  let entry := entry <| le_UpdatedAt := ts_UpdatedAt task |> in
  if le_UpdatedAt entry =? 0
  then entry <| le_UpdatedAt := now |> <| le_Task := task <| ts_UpdatedAt := now |> |>
  else entry.

Definition SaveTaskState (now : Z) (task : TaskSpec) (source sourceRef : string) (l : Ledger S)
  : Ledger S * result LedgerEntry :=
  let task := TaskSpec_Normalize task in
  match TaskSpec_Validate task with
  | Some e => (l, Err (Wrapf "invalid task: %w" [] e))
  | None =>
    let id := ts_TaskID task in
    let original := cloneLedgerEntry <$> l_tasks l !! id in
    let entry := default (mkLedgerEntry zero_task "" "" [] (ts_CreatedAt task) 0)
                   (l_tasks l !! id) in
    let entry := save_task_entry now task source sourceRef entry in
    let snapshot := cloneLedgerEntry entry in
    let l := put_task id entry l in
    let '(l, err) := store_save_task snapshot l in
    match err with
    | Some e =>
      (match original with Some o => put_task id o l | None => drop_task id l end,
       Err (Wrapf "persist task snapshot %q: %w" [ArgS id] e))
    | None => (l, Ok snapshot)
    end
  end.

(** Replace the first run with this identifier, or append it. *)
Fixpoint replace_run (runID : string) (run : TaskRun) (runs : list TaskRun) : option (list TaskRun) :=
  match runs with
  | [] => None
  | r :: rest =>
    if tr_RunID r ==? runID then Some (run :: rest)
    else (cons r) <$> replace_run runID run rest
  end.

Definition upsert_run (run : TaskRun) (runs : list TaskRun) : list TaskRun :=
  default (runs ++ [run]) (replace_run (tr_RunID run) run runs).

Definition save_run_entry (now : Z) (run : TaskRun) (source sourceRef : string)
    (entry : RunEntry) : RunEntry :=
  let source := if source ==? "" then re_Source entry else source in
  let sourceRef := if blank sourceRef then re_SourceRef entry else sourceRef in
  let entry := entry <| re_Run := run |> <| re_Source := source |>
                     <| re_SourceRef := sourceRef |> in
  let entry := if re_CreatedAt entry =? 0 then entry <| re_CreatedAt := tr_StartedAt run |>
               else entry in
  if re_UpdatedAt entry =? 0 then entry <| re_UpdatedAt := now |> else entry.

Definition SaveRunState (now : Z) (run : TaskRun) (source sourceRef : string) (l : Ledger S)
  : Ledger S * result RunEntry :=
  let run := TaskRun_Normalize run in
  match TaskRun_Validate run with
  | Some e => (l, Err (Wrapf "invalid run: %w" [] e))
  | None =>
    let id := tr_RunID run in
    let original := cloneRunEntry <$> l_runs l !! id in
    let originalTask := cloneLedgerEntry <$> l_tasks l !! tr_TaskID run in
    let entry := default (mkRunEntry zero_run "" "" (tr_StartedAt run) 0) (l_runs l !! id) in
    let entry := save_run_entry now run source sourceRef entry in
    let l := put_run id entry l in
    let l := match l_tasks l !! tr_TaskID run with
             | Some te => put_task (tr_TaskID run) (te <| le_Runs := upsert_run run (le_Runs te) |>) l
             | None => l
             end in
    let snapshot := cloneRunEntry entry in
    let '(l, err) := store_save_run snapshot l in
    match err with
    | Some e =>
      let l := match original with Some o => put_run id o l | None => drop_run id l end in
      let l := match originalTask with Some o => put_task (tr_TaskID run) o l | None => l end in
      (l, Err (Wrapf "persist run snapshot %q: %w" [ArgS id] e))
    | None => (l, Ok snapshot)
    end
  end.

(** ** Status updates *)

(** First critical section of [updateTaskStatus]: the entry after the transition. *)
Definition update_task_locked (now : Z) (to actor source reason : string) (meta : gomap any)
    (entry : LedgerEntry) : LedgerEntry * option error :=
  let '(task, err) := TaskSpec_ApplyTransition (le_Task entry) to now actor source reason meta in
  match err with
  | Some e => (entry <| le_Task := task |>, Some e)
  | None => (entry <| le_Task := task |> <| le_UpdatedAt := now |>, None)
  end.

(** Its rollback when the store fails: it works on the entry as it is by then. *)
Definition update_task_rollback (transition : TaskTransition)
    (prevTaskUpdatedAt prevEntryUpdatedAt : Z) (entry : LedgerEntry) : LedgerEntry :=
  let t := le_Task entry in
  let t := if Nat.ltb 0 (length (ts_Transitions t))
           then t <| ts_Transitions := removelast (ts_Transitions t) |> else t in
  let t := t <| ts_Status := tt_From transition |> <| ts_UpdatedAt := prevTaskUpdatedAt |> in
  entry <| le_Task := t |> <| le_UpdatedAt := prevEntryUpdatedAt |>.

Definition updateTaskStatus (now : Z) (taskID to actor source reason : string)
    (meta : gomap any) (l : Ledger S) : Ledger S * result LedgerEntry :=
  let '(l, r) := ensureTaskLoaded taskID l in
  match r with
  | Err e => (l, Err e)
  | Ok loadedEntry =>
    let entry := default loadedEntry (l_tasks l !! taskID) in
    let '(moved, err) := update_task_locked now to actor source reason meta entry in
    let l := put_task taskID moved l in
    match err with
    | Some e => (l, Err e)
    | None =>
      let transition := last_task_transition (le_Task moved) in
      let '(l, err) := store_save_task moved l in
      match err with
      | Some e =>
        let current := default moved (l_tasks l !! taskID) in
        (put_task taskID (update_task_rollback transition (ts_UpdatedAt (le_Task entry))
                            (le_UpdatedAt entry) current) l,
         Err (Wrapf "persist task status update %q: %w" [ArgS taskID] e))
      | None => (emit (OnTaskUpdated moved transition) l, Ok moved)
      end
    end
  end.

Definition UpdateTaskStatus (now : Z) (taskID to actor source reason : string) (l : Ledger S)
  : Ledger S * result LedgerEntry :=
  updateTaskStatus now taskID to actor source reason None l.

Definition UpdateTaskStatusWithMeta (now : Z) (taskID to actor source reason : string)
    (meta : gomap any) (l : Ledger S) : Ledger S * result LedgerEntry :=
  updateTaskStatus now taskID to actor source reason meta l.

(** ** Runs *)

(** The critical section of [CreateRun] on the task entry, once the attempt
    [run] is built. *)
Definition create_run_entry (now : Z) (runID : string) (run : TaskRun) (te : LedgerEntry)
  : LedgerEntry :=
  te <| le_Runs := le_Runs te ++ [run] |>
     <| le_Task := (le_Task te) <| ts_CurrentRunID := runID |> <| ts_LastRunID := runID |> |>
     <| le_UpdatedAt := now |>.

Definition create_run_rollback (prevCurrentRunID prevLastRunID : string) (prevUpdatedAt : Z)
    (te : LedgerEntry) : LedgerEntry :=
  let te := if Nat.ltb 0 (length (le_Runs te)) then te <| le_Runs := removelast (le_Runs te) |>
            else te in
  te <| le_Task := (le_Task te) <| ts_CurrentRunID := prevCurrentRunID |>
                              <| ts_LastRunID := prevLastRunID |> |>
     <| le_UpdatedAt := prevUpdatedAt |>.

Definition CreateRun (now : Z) (taskID runID trigger actor source : string) (l : Ledger S)
  : Ledger S * result RunEntry :=
  let '(l, r) := ensureTaskLoaded taskID l in
  match r with
  | Err e => (l, Err e)
  | Ok _ =>
    match l_tasks l !! taskID with
    | None => (l, Err (task_not_found taskID))
    | Some te0 =>
      (* [NewTaskRunAttempt] normalises the checks of the task in place *)
      let te := te0 <| le_Task := task_checks_normalized (le_Task te0) |> in
      match NewTaskRunAttempt (le_Task te0) runID (le_Runs te0) now trigger actor source with
      | Err e => (put_task taskID te l, Err e)
      | Ok run =>
        let runEntry := mkRunEntry run (le_Source te) (le_SourceRef te) now now in
        let te' := create_run_entry now runID run te in
        let l := put_task taskID te' (put_run runID runEntry l) in
        let rollback l :=
          put_task taskID
            (create_run_rollback (ts_CurrentRunID (le_Task te)) (ts_LastRunID (le_Task te))
               (le_UpdatedAt te) (default te' (l_tasks l !! taskID)))
            (drop_run runID l) in
        let '(l, err) := store_save_run runEntry l in
        match err with
        | Some e => (rollback l, Err (Wrapf "persist run %q: %w" [ArgS runID] e))
        | None =>
          let '(l, err) := store_save_task te' l in
          match err with
          | Some e => (rollback l, Err (Wrapf "persist task %q with new run %q: %w"
                                          [ArgS taskID; ArgS runID] e))
          | None => (emit (OnRunCreated runEntry) l, Ok runEntry)
          end
        end
      end
    end
  end.

(** What [UpdateRunStatus] does to the task entry. *)
Definition note_run (now : Z) (runID : string) (run : TaskRun) (te : LedgerEntry) : LedgerEntry :=
  te <| le_Runs := default (le_Runs te) (replace_run runID run (le_Runs te)) |>
     <| le_Task := (le_Task te) <| ts_LastRunID := runID |> |>
     <| le_UpdatedAt := now |>.

(** Its rollback: the run as it was, and the task entry if it was cached. *)
Definition update_run_rollback (runID : string) (entry originalRun : RunEntry)
    (originalTask : option LedgerEntry) (l : Ledger S) : Ledger S :=
  let l := put_run runID (entry <| re_Run := re_Run originalRun |>
                                <| re_UpdatedAt := re_UpdatedAt originalRun |>) l in
  let id := tr_TaskID (re_Run originalRun) in
  match originalTask, l_tasks l !! id with
  | Some o, Some _ => put_task id o l
  | _, _ => l
  end.

Definition UpdateRunStatus (now : Z) (runID to actor source reason : string) (l : Ledger S)
  : Ledger S * result RunEntry :=
  let '(l, r) := ensureRunLoaded runID l in
  match r with
  | Err e => (l, Err e)
  | Ok loaded =>
    let '(l, r) := ensureTaskLoaded (tr_TaskID (re_Run loaded)) l in
    match r with
    | Err e => (l, Err e)
    | Ok _ =>
      match l_runs l !! runID with
      | None => (l, Err (run_not_found runID))
      | Some entry =>
        let originalRun := cloneRunEntry entry in
        let '(run, err) := TaskRun_ApplyTransition (re_Run entry) to now actor source reason None in
        match err with
        | Some e => (put_run runID (entry <| re_Run := run |>) l, Err e)
        | None =>
          let entry := entry <| re_Run := run |> <| re_UpdatedAt := now |> in
          let l := put_run runID entry l in
          let taskID := tr_TaskID run in
          let originalTask := cloneLedgerEntry <$> l_tasks l !! taskID in
          let task := note_run now runID run <$> l_tasks l !! taskID in
          let l := match task with Some te => put_task taskID te l | None => l end in
          let rollback := update_run_rollback runID entry originalRun originalTask in
          let transition := last_run_transition run in
          let '(l, err) := store_save_run (cloneRunEntry entry) l in
          match err with
          | Some e => (rollback l, Err (Wrapf "persist run status update %q: %w" [ArgS runID] e))
          | None =>
            let '(l, err) := match task with
                             | Some te => store_save_task (cloneLedgerEntry te) l
                             | None => (l, None)
                             end in
            match err with
            | Some e => (rollback l, Err (Wrapf "persist task snapshot for run %q: %w" [ArgS runID] e))
            | None => (emit (OnRunUpdated entry transition) l, Ok entry)
            end
          end
        end
      end
    end
  end.

(** ** Cancellation *)

(** The copies kept for the rollback: the cached runs of the task, then the
    embedded ones that are not cached.  (Go visits [l.runs] in an unspecified
    order, which matters only if two keys hold the same run identifier.) *)
Definition original_runs (taskID : string) (entry : LedgerEntry) (runs : gmap string RunEntry)
  : gmap string RunEntry :=
  let cached := fold_left (fun m re =>
      if tr_TaskID (re_Run re) ==? taskID then <[tr_RunID (re_Run re) := cloneRunEntry re]> m else m)
    (map snd (map_to_list runs)) ∅ in
  fold_left (fun m run =>
      if blank (tr_RunID run) then m
      else match m !! tr_RunID run with
           | Some _ => m
           | None => <[tr_RunID run := cloneRunEntry (embedded_run entry run)]> m
           end) (le_Runs entry) cached.

(** The loop over [entry.Runs]: the new embedded runs, the new [l.runs] and the
    entries to persist. *)
Fixpoint cancel_runs (now : Z) (actor reason : string) (entry : LedgerEntry)
    (todo : list TaskRun) (runs : gmap string RunEntry)
  : list TaskRun * gmap string RunEntry * list RunEntry :=
  match todo with
  | [] => ([], runs, [])
  | run :: todo =>
    let runID := tr_RunID run in
    if blank runID then
      let '(rs, runs, persist) := cancel_runs now actor reason entry todo runs in
      (run :: rs, runs, persist)
    else
      let runEntry := default (embedded_run entry run) (runs !! runID) in
      if negb (isTerminalRunStatus (tr_Status (re_Run runEntry))) then
        let '(run', _) := TaskRun_ApplyTransition (re_Run runEntry) TaskRunStatusCancelled now
                            actor "ledger" reason None in
        let runEntry := runEntry <| re_Run := run' |> <| re_UpdatedAt := now |> in
        let '(rs, runs, persist) :=
          cancel_runs now actor reason entry todo (<[runID := runEntry]> runs) in
        (run' :: rs, runs, runEntry :: persist)
      else
        let '(rs, runs, persist) :=
          cancel_runs now actor reason entry todo (<[runID := runEntry]> runs) in
        (run :: rs, runs, persist)
  end.

(** The task part of [CancelTask]: the entry and the transition, if any. *)
Definition cancel_entry (now : Z) (actor reason : string) (entry : LedgerEntry)
  : LedgerEntry * option TaskTransition :=
  let currentRunID := TrimSpace (ts_CurrentRunID (le_Task entry)) in
  let '(entry, transition) :=
    if AllowedTaskTransition (ts_Status (le_Task entry)) TaskStatusCancelled then
      let '(task, _) := TaskSpec_ApplyTransition (le_Task entry) TaskStatusCancelled now actor
                          "ledger" reason None in
      (entry <| le_Task := task |> <| le_UpdatedAt := now |>,
       if Nat.ltb 0 (length (ts_Transitions task)) then Some (last_task_transition task) else None)
    else (entry, None) in
  let entry :=
    if currentRunID !=? "" then
      entry <| le_Task := (le_Task entry) <| ts_CurrentRunID := "" |>
                            <| ts_LastRunID := currentRunID |> <| ts_UpdatedAt := now |> |>
            <| le_UpdatedAt := now |>
    else entry in
  (entry, transition).

(** [for _, runEntry := range runSnapshots { SaveRun ... }] *)
Fixpoint save_runs (entries : list RunEntry) (l : Ledger S) : Ledger S * option error :=
  match entries with
  | [] => (l, None)
  | re :: entries =>
    let '(l, err) := store_save_run re l in
    match err with
    | Some e => (l, Some (Wrapf "persist cancelled run %q: %w" [ArgS (tr_RunID (re_Run re))] e))
    | None => save_runs entries l
    end
  end.

Definition cancel_rollback (taskID : string) (original : LedgerEntry)
    (originalRuns : gmap string RunEntry) (l : Ledger S) : Ledger S :=
  let l := put_task taskID original l in
  l <| l_runs := map_imap (fun id current => Some (default current (originalRuns !! id))) (l_runs l) |>.

(** The notifications: one per snapshot that has a transition. *)
Definition cancel_events (snapshots : list RunEntry) (transitions : list TaskRunTransition)
    (task : LedgerEntry) (transition : option TaskTransition) : list Event :=
  zip_with OnRunUpdated snapshots transitions
  ++ match transition with Some tr => [OnTaskUpdated task tr] | None => [] end.

Definition CancelTask (now : Z) (taskID actor reason : string) (l : Ledger S)
  : Ledger S * option error :=
  let '(l, r) := ensureTaskLoaded taskID l in
  match r with
  | Err e => (l, Some e)
  | Ok _ =>
    match l_tasks l !! taskID with
    | None => (l, Some (task_not_found taskID))
    | Some entry =>
      let originalTask := cloneLedgerEntry entry in
      let originalRuns := original_runs taskID entry (l_runs l) in
      let '(embedded, runs, runsToPersist) :=
        cancel_runs now actor reason entry (le_Runs entry) (l_runs l) in
      let '(entry, taskTransition) :=
        cancel_entry now actor reason (entry <| le_Runs := embedded |>) in
      let l := put_task taskID entry (l <| l_runs := runs |>) in
      let runTransitions :=
        map (fun re => last_run_transition (re_Run re))
          (List.filter (fun re => Nat.ltb 0 (length (tr_Transitions (re_Run re)))) runsToPersist) in
      let runSnapshots := map cloneRunEntry runsToPersist in
      let taskSnapshot := cloneLedgerEntry entry in
      let '(l, err) := save_runs runSnapshots l in
      match err with
      | Some e => (cancel_rollback taskID originalTask originalRuns l, Some e)
      | None =>
        let '(l, err) := store_save_task taskSnapshot l in
        match err with
        | Some e => (cancel_rollback taskID originalTask originalRuns l,
                     Some (Wrapf "persist cancelled task %q: %w" [ArgS taskID] e))
        | None =>
          (l <| l_events := l_events l
                 ++ cancel_events runSnapshots runTransitions taskSnapshot taskTransition |>, None)
        end
      end
    end
  end.

Definition Stats (todayStart : Z) (l : Ledger S) : TaskStats :=
  computeTaskStats (l_tasks l) (l_runs l) todayStart.
End Operations.

(** ** Lineage *)

Section Lineage.
Variable tasks : gmap string LedgerEntry.

(** The identifiers of the entries whose parent is [id]; Go visits the map in an
    unspecified order. *)
Definition children (id : string) : list string :=
  map (fun e => ts_TaskID (le_Task e))
    (List.filter (fun e => ts_ParentTaskID (le_Task e) ==? id) (map snd (map_to_list tasks))).

(** The closure [collect]: [visited] and [lineage] so far. *)
Fixpoint collect (fuel : nat) (st : gset string * list LedgerEntry) (id : string)
  : option (gset string * list LedgerEntry) :=
  match fuel with
  | O => None
  | Datatypes.S fuel =>
    let '(visited, lineage) := st in
    if decide (id ∈ visited) then Some st
    else
      let visited := {[id]} ∪ visited in
      match tasks !! id with
      | None => Some (visited, lineage)
      | Some entry =>
        fold_left (fun st id => st ≫= fun st => collect fuel st id) (children id)
          (Some (visited, lineage ++ [entry]))
      end
  end.
End Lineage.

Definition GetTaskLineage_run {S} (taskID : string) (l : Ledger S) : option (list LedgerEntry) :=
  snd <$> collect (l_tasks l) (Datatypes.S (Datatypes.S (size (l_tasks l)))) (∅, []) taskID.

Definition GetTaskLineage {S} (taskID : string) (l : Ledger S) : list LedgerEntry :=
  default [] (GetTaskLineage_run taskID l).

Definition NewLedger {S} (store : option S) : Ledger S := mkLedger ∅ ∅ store [].
