(* ===== verification/LedgerInvariant.v ===== *)
(** The ledger only ever holds well-formed entries: every operation of Ledger.v
    keeps the cached tasks valid, in normal form and filed under their own identifiers,
    and the runs valid and filed under theirs up to white space, whichever calls of the
    store fail, as long as it only returns entries that were well formed when it was
    given them ([StoreLaws]). *)

From Stdlib Require Import String.
From stdpp Require Import base tactics decidable list gmap strings relations.
From S2P Require Import Prelude Enums Verification Budget TaskModels Lifecycle LedgerModels Ledger.

(** ** Well-formed values *)

Definition good_verification (v : VerificationSpec) : Prop :=
  VerificationSpec_Normalize v = v /\ VerificationSpec_Validate v = None.

Definition good_task (t : TaskSpec) : Prop :=
  TaskSpec_Normalize t = t /\ TaskSpec_Validate t = None.

Definition good_run (r : TaskRun) : Prop :=
  blank (tr_RunID r) = false /\ blank (tr_TaskID r) = false
  /\ TaskRunStatus_Valid (tr_Status r) = true /\ good_verification (tr_Verification r).

Definition task_entry_ok (id : string) (e : LedgerEntry) : Prop :=
  ts_TaskID (le_Task e) = id /\ good_task (le_Task e) /\ Forall good_run (le_Runs e).

(** A run is filed under its own identifier, or, by [CreateRun], under one with white
    space around it that the run itself is without. *)
Definition filed_under (id runID : string) : Prop := runID = id \/ runID = TrimSpace id.

Definition run_entry_ok (id : string) (e : RunEntry) : Prop :=
  filed_under id (tr_RunID (re_Run e)) /\ good_run (re_Run e).

Lemma own_run_entry_ok e : good_run (re_Run e) -> run_entry_ok (tr_RunID (re_Run e)) e.
Proof. split; [by left|done]. Qed.

Lemma run_entry_ok_own id e : run_entry_ok id e -> run_entry_ok (tr_RunID (re_Run e)) e.
Proof. intros [_ H]. by apply own_run_entry_ok. Qed.

(** *** The parts of a good task *)

(** What [Validate] and [Normalize] say of a task, part by part. *)
Definition task_parts (t : TaskSpec) : Prop :=
  (ts_Version t <> 0 /\ norm_priority (ts_Priority t) = ts_Priority t
   /\ norm_scope (ts_MemoryScope t) = ts_MemoryScope t)
  /\ (blank (ts_TaskID t) = false /\ blank (ts_Title t) = false
      /\ blank (ts_Instructions t) = false
      /\ first_blank os_Name "expected_outputs[%d].name is required" 0 (ts_ExpectedOutputs t) = None
      /\ first_blank ac_Description "acceptance_criteria[%d].description is required" 0
           (ts_AcceptanceCriteria t) = None)
  /\ TaskStatus_Valid (ts_Status t) = true
  /\ good_verification (ts_Verification t).

Lemma normal_checks v :
  VerificationSpec_Normalize v = v ->
  v <| vs_Checks := map VerificationCheck_Normalize (vs_Checks v) |> = v.
Proof. intros H. rewrite <- H at 1 2 3. apply checks_of_normalized. Qed.

Lemma norm_priority_ok p :
  norm_priority p = p -> negb (blank p) && negb (TaskPriority_Valid p) = false.
Proof.
  unfold norm_priority. destruct (blank p) eqn:Hb; [done|]. cbn.
  destruct (TaskPriority_Valid p) eqn:Hv; [done|]. cbn. intros H. exfalso.
  rewrite <- H in Hv. by vm_compute in Hv.
Qed.

Lemma good_task_parts t : good_task t <-> task_parts t.
Proof.
  unfold good_task, task_parts, good_verification. split.
  - intros [Hn Hv]. rewrite TaskSpec_Normalize_fields in Hn.
    pose proof (f_equal ts_Version Hn) as Hver. pose proof (f_equal ts_Status Hn) as Hst.
    pose proof (f_equal ts_Priority Hn) as Hpr. pose proof (f_equal ts_MemoryScope Hn) as Hsc.
    pose proof (f_equal ts_Verification Hn) as Hve. cbn in Hver, Hst, Hpr, Hsc, Hve.
    unfold TaskSpec_Validate in Hv.
    rewrite first_error_None, !Forall_cons, !error_if_None, wrap_error_None,
      normal_checks in Hv by done.
    destruct Hv as (? & ? & ? & _ & _ & _ & ? & ? & ? & _).
    repeat split; auto.
    + destruct (Z.eqb_spec (ts_Version t) 0); lia.
    + rewrite <- Hst. apply norm_task_status_valid.
  - intros ((Hver & Hpr & Hsc) & (? & ? & ? & ? & ?) & Hst & Hn & Hv).
    assert (TaskSpec_Normalize t = t) as Hnorm.
    { rewrite TaskSpec_Normalize_fields. by_fields; auto.
      - destruct (Z.eqb_spec (ts_Version t) 0); [done|done].
      - by apply norm_task_status_id. }
    split; [done|]. unfold TaskSpec_Validate.
    rewrite first_error_None, !Forall_cons, !error_if_None, wrap_error_None, normal_checks by done.
    rewrite Hnorm, Hst. repeat split; auto.
    + by rewrite andb_false_r.
    + by apply norm_priority_ok.
    + by destruct (ts_MemoryScope t ==? "").
Qed.

Lemma normalized_task_good t :
  TaskSpec_Validate (TaskSpec_Normalize t) = None -> good_task (TaskSpec_Normalize t).
Proof. intros H. split; [apply TaskSpec_Normalize_idem|done]. Qed.

(** A task stays good when only its bookkeeping changes. *)
Lemma good_task_update t t' :
  good_task t ->
  (ts_Version t', ts_TaskID t', ts_Title t', ts_Instructions t', ts_Priority t', ts_MemoryScope t',
   ts_ExpectedOutputs t', ts_AcceptanceCriteria t')
  = (ts_Version t, ts_TaskID t, ts_Title t, ts_Instructions t, ts_Priority t, ts_MemoryScope t,
     ts_ExpectedOutputs t, ts_AcceptanceCriteria t) ->
  TaskStatus_Valid (ts_Status t') = true -> good_verification (ts_Verification t') ->
  good_task t'.
Proof.
  rewrite !good_task_parts. unfold task_parts. intros (H1 & H2 & _ & _) [= -> -> -> -> -> -> -> ->].
  auto.
Qed.

Lemma good_task_status t : good_task t -> TaskStatus_Valid (ts_Status t) = true.
Proof. by intros (_ & _ & ? & _)%good_task_parts. Qed.
Lemma good_task_verification t : good_task t -> good_verification (ts_Verification t).
Proof. by intros (_ & _ & _ & ?)%good_task_parts. Qed.
#[export] Hint Resolve good_task_status good_task_verification : go.

Lemma normalized_run_good r :
  TaskRun_Validate (TaskRun_Normalize r) = None -> good_run (TaskRun_Normalize r).
Proof.
  unfold TaskRun_Validate. rewrite first_error_None, !Forall_cons, !error_if_None, wrap_error_None.
  rewrite TaskRun_Normalize_fields. unfold good_run, good_verification. cbn.
  intros (? & ? & _ & _ & ? & _). repeat split; auto.
  - apply norm_run_status_valid.
  - apply VerificationSpec_Normalize_idem.
Qed.

(** *** Copies *)

Lemma validate_checks_ext (f : VerificationCheck -> VerificationCheck) i seen cs :
  (forall c, VerificationCheck_Validate (f c) = VerificationCheck_Validate c) ->
  (forall c, vc_CheckID (f c) = vc_CheckID c) ->
  validate_checks i seen (map f cs) = validate_checks i seen cs.
Proof.
  intros Hv Hid. revert i seen. induction cs as [|c cs IH]; intros i seen; [done|].
  cbn [map validate_checks]. rewrite Hv, Hid. destruct (VerificationCheck_Validate c); [done|].
  by rewrite IH.
Qed.

Lemma clone_verification_good v : good_verification v -> good_verification (cloneVerificationSpec v).
Proof.
  intros [Hn Hv]. split.
  - pose proof (f_equal vs_Policy Hn) as Hp. pose proof (f_equal vs_Checks Hn) as Hc.
    unfold VerificationSpec_Normalize, cloneVerificationSpec in *. cbn in *. by_fields.
    + done.
    + rewrite map_map. rewrite <- Hc at 2. rewrite map_map. by apply map_ext.
  - unfold VerificationSpec_Validate, cloneVerificationSpec in *. cbn.
    rewrite length_map, validate_checks_ext; done.
Qed.

Lemma clone_task_entry_ok id e : task_entry_ok id e -> task_entry_ok id (cloneLedgerEntry e).
Proof.
  intros (Hid & Hg & Hr). split; [done|]. split; [|done].
  apply (good_task_update (le_Task e)); cbn; [done|done|by apply good_task_status|].
  apply clone_verification_good. by apply good_task_verification.
Qed.

Lemma clone_run_good r m :
  good_run r ->
  good_run (r <| tr_Verification := cloneVerificationSpec (tr_Verification r) |> <| tr_Meta := m |>).
Proof. intros (? & ? & ? & ?). repeat split; try done; by apply clone_verification_good. Qed.

Lemma clone_run_entry_ok id e : run_entry_ok id e -> run_entry_ok id (cloneRunEntry e).
Proof. intros [? ?]. split; [done|]. by apply clone_run_good. Qed.

(** *** Transitions *)

Lemma checks_normalized_good t : good_task t -> task_checks_normalized t = t.
Proof.
  intros [Hn _]%good_task_verification. unfold task_checks_normalized. by_fields.
  f_equal. by apply normal_checks.
Qed.

Lemma run_checks_normalized_good r : good_run r -> run_checks_normalized r = r.
Proof.
  intros (_ & _ & _ & Hn & _). unfold run_checks_normalized. by_fields.
  f_equal. by apply normal_checks.
Qed.

(** On a good task a transition moves it to a good task or changes nothing. *)
Lemma task_transition_good t to now actor source reason meta t' err :
  good_task t ->
  TaskSpec_ApplyTransition t to now actor source reason meta = (t', err) ->
  good_task t' /\ ts_TaskID t' = ts_TaskID t
  /\ (err = None /\ t' = task_moved t to now actor source reason meta
      /\ task_may_move t to now \/ (exists e, err = Some e) /\ t' = t).
Proof.
  intros Hg Happ.
  destruct (task_apply_cases t to now actor source reason meta) as [[Hm He]|[_ [e He]]];
    rewrite He in Happ; injection Happ as <- <-.
  - assert (ts_TaskID (task_moved t to now actor source reason meta) = ts_TaskID t) as Hid.
    { unfold task_moved. by rewrite TaskSpec_Normalize_fields. }
    split; [|split; [done|by left]].
    pose proof Hg as [Hn _]. apply (good_task_update t); [done|..]; unfold task_moved;
      rewrite Hn; cbn; [done| |by apply good_task_verification].
    destruct Hm as [Ha _]. apply allowed_task_to in Ha.
    apply orb_false_iff in Ha as [_ Ha]. by apply negb_false_iff in Ha.
  - rewrite checks_normalized_good by done. split; [done|]. split; [done|]. right. eauto.
Qed.

Lemma run_transition_good r to now actor source reason meta r' err :
  good_run r ->
  TaskRun_ApplyTransition r to now actor source reason meta = (r', err) ->
  good_run r' /\ tr_RunID r' = tr_RunID r /\ tr_TaskID r' = tr_TaskID r
  /\ (err = None /\ r' = run_moved r to now actor source reason meta
      /\ run_may_move r to now \/ (exists e, err = Some e) /\ r' = r).
Proof.
  intros Hg Happ.
  destruct (run_apply_cases r to now actor source reason meta) as [[Hm He]|[_ [e He]]];
    rewrite He in Happ; injection Happ as <- <-.
  - pose proof Hg as (? & ? & ? & Hn & ?).
    assert (good_run (run_moved r to now actor source reason meta)) as Hg'.
    { unfold good_run, good_verification, run_moved. rewrite TaskRun_Normalize_fields. cbn.
      rewrite !Hn. repeat split; auto.
      destruct Hm as [Ha _]. apply allowed_run_to in Ha.
      apply orb_false_iff in Ha as [_ Ha]. by apply negb_false_iff in Ha. }
    split; [done|]. unfold run_moved at 1 2. rewrite TaskRun_Normalize_fields. cbn.
    split; [done|]. split; [done|]. by left.
  - rewrite run_checks_normalized_good by done. repeat split; try apply Hg. right. eauto.
Qed.

Lemma new_attempt_good task runID priors now trigger actor source run :
  NewTaskRunAttempt task runID priors now trigger actor source = Ok run ->
  good_run run /\ tr_RunID run = TrimSpace runID /\ tr_TaskID run = ts_TaskID task.
Proof.
  unfold NewTaskRunAttempt.
  assert (ts_TaskID (TaskSpec_Normalize task) = ts_TaskID task) as Htid
    by (by rewrite TaskSpec_Normalize_fields).
  destruct (TaskSpec_Validate (TaskSpec_Normalize task)) eqn:Hv; [discriminate|].
  apply Validate_normalized_task in Hv as [Hid Hv].
  destruct (String.eqb_spec (TrimSpace runID) "") as [|Hrid]; [discriminate|].
  rewrite Htid. destruct (next_attempt _ _ priors 1) as [n|]; [|discriminate].
  case_if. intros Hrun. apply Ok_inj in Hrun as <-.
  unfold good_run, good_verification. cbn. rewrite TaskSpec_Normalize_fields. cbn.
  rewrite !VerificationSpec_Normalize_idem, blank_TrimSpace. repeat split; auto.
  unfold blank. by apply String.eqb_neq.
Qed.

(** ** What the ledger relies on: a store returns only what is well formed *)

Class StoreLaws (S : Type) `{Store S} := {
  store_ok : S -> Prop;
  save_task_ok s id e : store_ok s -> task_entry_ok id e -> store_ok (SaveTask s e).1;
  save_run_ok s id e : store_ok s -> run_entry_ok id e -> store_ok (SaveRun s e).1;
  load_task_ok s id : store_ok s ->
    store_ok (LoadTask s id).1
    /\ forall e, (LoadTask s id).2 = Ok (Some e) -> task_entry_ok id e;
  load_run_ok s id : store_ok s ->
    store_ok (LoadRun s id).1
    /\ forall e, (LoadRun s id).2 = Ok (Some e) -> run_entry_ok id e
}.

(** *** Rolling back a task transition *)

(** A first transition stamps the creation time of a task that had none; the
    rollback does not take that back. *)
Definition created_by (now : Z) (e : LedgerEntry) : LedgerEntry :=
  e <| le_Task := (le_Task e) <| ts_CreatedAt := if ts_CreatedAt (le_Task e) =? 0 then now
                                                 else ts_CreatedAt (le_Task e) |> |>.

Lemma last_task_moved t to now actor source reason meta :
  good_task t ->
  last_task_transition (task_moved t to now actor source reason meta)
  = mkTaskTransition (ts_Status t) to now (TrimSpace actor) (TrimSpace source) (TrimSpace reason)
      (clone_map meta).
Proof.
  intros Hg. unfold last_task_transition, task_moved. cbn. rewrite List.last_last.
  f_equal. by apply norm_task_status_id, good_task_status.
Qed.

Lemma update_rollback_exact id e now to actor source reason meta e' :
  task_entry_ok id e -> update_task_locked now to actor source reason meta e = (e', None) ->
  update_task_rollback (last_task_transition (le_Task e')) (ts_UpdatedAt (le_Task e))
    (le_UpdatedAt e) e' = created_by now e.
Proof.
  intros (_ & Hg & _). unfold update_task_locked.
  destruct (TaskSpec_ApplyTransition _ _ _ _ _ _ _) as [t' err] eqn:Ha.
  apply task_transition_good in Ha as (_ & _ & [(-> & -> & _)|[[x ->] _]]); [| |done]; [|done].
  intros [= <-]. cbn -[last_task_transition update_task_rollback task_moved].
  rewrite last_task_moved by done. pose proof Hg as [Hn _].
  unfold update_task_rollback, created_by, task_moved. rewrite Hn. cbn.
  rewrite length_app, Nat.add_comm. cbn. rewrite removelast_last. by_fields.
Qed.

Lemma update_task_locked_ok id e now to actor source reason meta e' err :
  task_entry_ok id e -> update_task_locked now to actor source reason meta e = (e', err) ->
  task_entry_ok id e'.
Proof.
  intros (Hid & Hg & Hr). unfold update_task_locked.
  destruct (TaskSpec_ApplyTransition _ _ _ _ _ _ _) as [t' er] eqn:Ha.
  apply task_transition_good in Ha as (Hg' & Hid' & _); [|done].
  destruct er; intros [= <- <-]; (split; [cbn; congruence|]); by split.
Qed.

Lemma created_by_ok id now e : task_entry_ok id e -> task_entry_ok id (created_by now e).
Proof.
  intros (Hid & Hg & Hr). split; [done|]. split; [|done].
  apply (good_task_update (le_Task e)); cbn; auto with go.
Qed.

Section Invariant.
Context {S : Type} `{StoreLaws S}.

Definition tasks_ok (m : gmap string LedgerEntry) : Prop :=
  forall id e, m !! id = Some e -> task_entry_ok id e.
Definition runs_ok (m : gmap string RunEntry) : Prop :=
  forall id e, m !! id = Some e -> run_entry_ok id e.

(** The invariant: well-formed tasks and runs under their own identifiers, and a
    well-formed store. *)
Definition ledger_ok (l : Ledger S) : Prop :=
  tasks_ok (l_tasks l) /\ runs_ok (l_runs l)
  /\ forall s, l_store l = Some s -> store_ok s.

Lemma tasks_ok_insert m id e : tasks_ok m -> task_entry_ok id e -> tasks_ok (<[id := e]> m).
Proof.
  intros Hm He k x. destruct (decide (k = id)) as [->|].
  - rewrite lookup_insert_eq. by intros [= <-].
  - rewrite lookup_insert_ne by done. apply Hm.
Qed.

Lemma runs_ok_insert m id e : runs_ok m -> run_entry_ok id e -> runs_ok (<[id := e]> m).
Proof.
  intros Hm He k x. destruct (decide (k = id)) as [->|].
  - rewrite lookup_insert_eq. by intros [= <-].
  - rewrite lookup_insert_ne by done. apply Hm.
Qed.

Lemma put_task_ok id e l : ledger_ok l -> task_entry_ok id e -> ledger_ok (put_task id e l).
Proof. intros (? & ? & ?) He. split; [by apply tasks_ok_insert|by split]. Qed.
Lemma put_run_ok id e l : ledger_ok l -> run_entry_ok id e -> ledger_ok (put_run id e l).
Proof. intros (? & ? & ?) He. split; [done|]. split; [by apply runs_ok_insert|done]. Qed.
Lemma drop_task_ok id l : ledger_ok l -> ledger_ok (drop_task id l).
Proof.
  intros (Ht & ? & ?). split; [|by split]. intros k x. cbn. intros [_ Hx]%lookup_delete_Some. by apply Ht.
Qed.
Lemma drop_run_ok id l : ledger_ok l -> ledger_ok (drop_run id l).
Proof.
  intros (? & Hr & ?). split; [done|]. split; [|done].
  intros k x. cbn. intros [_ Hx]%lookup_delete_Some. by apply Hr.
Qed.
Lemma emit_ok e l : ledger_ok l -> ledger_ok (emit e l).
Proof. done. Qed.

(** Calling the store keeps the invariant and changes neither the cache nor the
    events. *)
Lemma store_save_task_ok id e l l' err :
  ledger_ok l -> task_entry_ok id e -> store_save_task e l = (l', err) ->
  ledger_ok l' /\ l_tasks l' = l_tasks l /\ l_runs l' = l_runs l.
Proof.
  intros Hok He. pose proof Hok as (Ht & Hr & Hs). unfold store_save_task.
  destruct (l_store l) as [s|] eqn:El; [|by intros [= <- <-]].
  pose proof (save_task_ok s id e (Hs s eq_refl) He) as Hs'.
  destruct (SaveTask s e) as [s' er]. intros [= <- <-].
  split; [split; [exact Ht|split; [exact Hr|]]|done]. cbn. by intros x [= <-].
Qed.

Lemma store_save_run_ok id e l l' err :
  ledger_ok l -> run_entry_ok id e -> store_save_run e l = (l', err) ->
  ledger_ok l' /\ l_tasks l' = l_tasks l /\ l_runs l' = l_runs l.
Proof.
  intros Hok He. pose proof Hok as (Ht & Hr & Hs). unfold store_save_run.
  destruct (l_store l) as [s|] eqn:El; [|by intros [= <- <-]].
  pose proof (save_run_ok s id e (Hs s eq_refl) He) as Hs'.
  destruct (SaveRun s e) as [s' er]. intros [= <- <-].
  split; [split; [exact Ht|split; [exact Hr|]]|done]. cbn. by intros x [= <-].
Qed.

Lemma embedded_run_ok e run : good_run run -> run_entry_ok (tr_RunID run) (embedded_run e run).
Proof. intros Hg. by split; [left|]. Qed.

Lemma add_embedded_runs_ok e runs :
  Forall good_run (le_Runs e) -> runs_ok runs -> runs_ok (add_embedded_runs e runs).
Proof.
  unfold add_embedded_runs. intros Hr. revert runs.
  induction Hr as [|run rs Hrun _ IH]; intros runs Hok; [done|]. cbn.
  destruct (runs !! tr_RunID run); apply IH; [done|].
  apply runs_ok_insert; [done|]. by apply embedded_run_ok.
Qed.

(** Loading on demand keeps the invariant, and what it returns is the cached
    entry. *)
Lemma ensureTaskLoaded_ok id l l' r :
  ledger_ok l -> ensureTaskLoaded id l = (l', r) ->
  ledger_ok l' /\ forall e, r = Ok e -> l_tasks l' !! id = Some e /\ task_entry_ok id e.
Proof.
  intros Hok. pose proof Hok as (Ht & Hr & Hs). unfold ensureTaskLoaded.
  destruct (l_tasks l !! id) as [e|] eqn:E.
  { intros [= <- <-]. split; [done|]. intros e' [= <-]. auto. }
  destruct (l_store l) as [s|] eqn:El; [|intros [= <- <-]; by split].
  pose proof (load_task_ok s id (Hs s eq_refl)) as [Hs' Hl].
  destruct (LoadTask s id) as [s' res]. cbn in Hs', Hl.
  assert (ledger_ok (l <| l_store := Some s' |>)) as Hok'.
  { split; [done|]. split; [done|]. cbn. by intros x [= <-]. }
  destruct res as [[e|]|]; [|intros [= <- <-]; by split..].
  cbn. rewrite E. intros [= <- <-]. pose proof (Hl e eq_refl) as He. split.
  - split; [|split].
    + by apply tasks_ok_insert.
    + cbn. apply add_embedded_runs_ok; [apply He|done].
    + cbn. by intros x [= <-].
  - intros e' [= <-]. cbn. by rewrite lookup_insert_eq.
Qed.

Lemma ensureRunLoaded_ok id l l' r :
  ledger_ok l -> ensureRunLoaded id l = (l', r) ->
  ledger_ok l' /\ forall e, r = Ok e -> l_runs l' !! id = Some e /\ run_entry_ok id e.
Proof.
  intros Hok. pose proof Hok as (Ht & Hr & Hs). unfold ensureRunLoaded.
  destruct (l_runs l !! id) as [e|] eqn:E.
  { intros [= <- <-]. split; [done|]. intros e' [= <-]. auto. }
  destruct (l_store l) as [s|] eqn:El; [|intros [= <- <-]; by split].
  pose proof (load_run_ok s id (Hs s eq_refl)) as [Hs' Hl].
  destruct (LoadRun s id) as [s' res]. cbn in Hs', Hl.
  assert (ledger_ok (l <| l_store := Some s' |>)) as Hok'.
  { split; [done|]. split; [done|]. cbn. by intros x [= <-]. }
  destruct res as [[e|]|]; [|intros [= <- <-]; by split..].
  cbn. rewrite E. intros [= <- <-]. pose proof (Hl e eq_refl) as He. split.
  - by apply put_run_ok.
  - intros e' [= <-]. cbn. by rewrite lookup_insert_eq.
Qed.

(** *** Every operation keeps the invariant *)

Lemma CreateTask_ok now task source ref l : ledger_ok l -> ledger_ok (CreateTask now task source ref l).1.
Proof.
  intros Hok. unfold CreateTask.
  destruct (TaskSpec_Validate (TaskSpec_Normalize task)) eqn:Hv; [done|].
  apply normalized_task_good in Hv. revert Hv. generalize (TaskSpec_Normalize task) as t.
  intros t Hg. cbv zeta.
  set (t' := (if ts_CreatedAt t =? 0 then t <| ts_CreatedAt := now |> else t) <| ts_UpdatedAt := now |>).
  assert (task_entry_ok (ts_TaskID t') (mkLedgerEntry t' source ref [] now now)) as He.
  { split; [done|]. split; [|constructor]. apply (good_task_update t); [done|..]; unfold t';
      cbn; case_match; cbn; auto with go. }
  case_decide; [done|].
  destruct (store_save_task _ _) as [l' err] eqn:Es.
  destruct (store_save_task_ok _ _ _ _ _ (put_task_ok _ _ _ Hok He) He Es) as [Hok' _].
  destruct err; [by apply drop_task_ok|done].
Qed.

Lemma GetTask_ok id l l' r :
  ledger_ok l -> GetTask id l = (l', r) ->
  ledger_ok l' /\ forall e, r = Ok e -> l_tasks l' !! id = Some e /\ task_entry_ok id e.
Proof.
  intros Hok. pose proof Hok as (Ht & Hr & Hs). unfold GetTask.
  destruct (l_tasks l !! id) as [e|] eqn:E.
  { intros [= <- <-]. split; [done|]. intros e' [= <-]. auto. }
  destruct (l_store l) as [s|] eqn:El; [|intros [= <- <-]; by split].
  pose proof (load_task_ok s id (Hs s eq_refl)) as [Hs' Hl].
  destruct (LoadTask s id) as [s' res]. cbn in Hs', Hl.
  assert (ledger_ok (l <| l_store := Some s' |>)) as Hok'.
  { split; [done|]. split; [done|]. cbn. by intros x [= <-]. }
  destruct res as [[e|]|]; [|intros [= <- <-]; by split..].
  intros [= <- <-]. pose proof (Hl e eq_refl) as He. split; [by apply put_task_ok|].
  intros e' [= <-]. cbn. by rewrite lookup_insert_eq.
Qed.

Lemma GetRun_ok id l : ledger_ok l -> ledger_ok (GetRun id l).1.
Proof.
  intros Hok. pose proof Hok as (Ht & Hr & Hs). unfold GetRun.
  destruct (l_runs l !! id) as [e|] eqn:E; [done|].
  destruct (l_store l) as [s|] eqn:El; [|done].
  pose proof (load_run_ok s id (Hs s eq_refl)) as [Hs' Hl].
  destruct (LoadRun s id) as [s' res]. cbn in Hs', Hl.
  assert (ledger_ok (l <| l_store := Some s' |>)) as Hok'.
  { split; [done|]. split; [done|]. cbn. by intros x [= <-]. }
  destruct res as [[e|]|]; [|done..]. apply put_run_ok; auto.
Qed.

Lemma SnapshotTask_ok id l : ledger_ok l -> ledger_ok (SnapshotTask id l).1.
Proof.
  intros Hok. unfold SnapshotTask. destruct (GetTask id l) as [l' r] eqn:E.
  apply GetTask_ok in E as [? _]; [|done]. by destruct r.
Qed.

Lemma save_task_entry_ok now task source ref entry :
  good_task task -> Forall good_run (le_Runs entry) ->
  task_entry_ok (ts_TaskID task) (save_task_entry now task source ref entry).
Proof.
  intros Hg Hr. unfold save_task_entry. cbv zeta.
  destruct (le_CreatedAt _ =? 0); cbn; (destruct (ts_UpdatedAt task =? 0); cbn; [|done]);
    (split; [done|]); (split; [|done]); apply (good_task_update task); cbn; auto with go.
Qed.

Lemma SaveTaskState_ok now task source ref l :
  ledger_ok l -> ledger_ok (SaveTaskState now task source ref l).1.
Proof.
  intros Hok. pose proof Hok as (Ht & _). unfold SaveTaskState.
  destruct (TaskSpec_Validate (TaskSpec_Normalize task)) eqn:Hv; [done|].
  apply normalized_task_good in Hv. revert Hv. generalize (TaskSpec_Normalize task) as t.
  intros t Hg. cbv zeta.
  set (entry := default _ (l_tasks l !! ts_TaskID t)).
  assert (task_entry_ok (ts_TaskID t) (save_task_entry now t source ref entry)) as He.
  { apply save_task_entry_ok; [done|]. unfold entry.
    destruct (l_tasks l !! ts_TaskID t) as [e|] eqn:E; [by apply Ht in E as (_ & _ & ?)|constructor]. }
  destruct (store_save_task _ _) as [l' err] eqn:Es.
  destruct (store_save_task_ok _ _ _ _ _ (put_task_ok _ _ _ Hok He)
              (clone_task_entry_ok _ _ He) Es) as [Hok' _].
  destruct err as [e|]; [|done]. cbn.
  destruct (l_tasks l !! ts_TaskID t) as [o|] eqn:E; cbn; [|by apply drop_task_ok].
  apply put_task_ok; [done|]. by apply clone_task_entry_ok, Ht.
Qed.

Lemma replace_run_good id run runs rs :
  good_run run -> Forall good_run runs -> replace_run id run runs = Some rs -> Forall good_run rs.
Proof.
  intros Hg Hr. revert rs. induction Hr as [|r runs Hr0 Hr IH]; intros rs; [done|]. cbn.
  destruct (tr_RunID r ==? id); [intros [= <-]; by constructor|].
  destruct (replace_run id run runs) as [rs'|]; [|done]. cbn. intros [= <-]. constructor; auto.
Qed.

Lemma upsert_run_good run runs :
  good_run run -> Forall good_run runs -> Forall good_run (upsert_run run runs).
Proof.
  intros Hg Hr. unfold upsert_run. destruct (replace_run _ run runs) eqn:E; cbn.
  - by eapply replace_run_good.
  - apply Forall_app. split; [done|]. by constructor.
Qed.

Lemma save_run_entry_ok now run source ref entry :
  good_run run -> run_entry_ok (tr_RunID run) (save_run_entry now run source ref entry).
Proof.
  intros Hg. unfold save_run_entry. cbv zeta.
  destruct (re_CreatedAt _ =? 0); cbn; destruct (re_UpdatedAt entry =? 0); by apply own_run_entry_ok.
Qed.

Lemma SaveRunState_ok now run source ref l :
  ledger_ok l -> ledger_ok (SaveRunState now run source ref l).1.
Proof.
  intros Hok. pose proof Hok as (Ht & Hr & _). unfold SaveRunState.
  destruct (TaskRun_Validate (TaskRun_Normalize run)) eqn:Hv; [done|].
  apply normalized_run_good in Hv. revert Hv. generalize (TaskRun_Normalize run) as r.
  intros r Hg. cbv zeta. set (entry := default _ (l_runs l !! tr_RunID r)).
  pose proof (save_run_entry_ok now r source ref entry Hg) as He.
  set (l1 := put_run _ _ l). assert (ledger_ok l1) as Hok1 by by apply put_run_ok.
  change (l_tasks l1) with (l_tasks l).
  set (l2 := match l_tasks l !! tr_TaskID r with Some te => _ | None => l1 end).
  assert (ledger_ok l2) as Hok2.
  { unfold l2. destruct (l_tasks l !! tr_TaskID r) as [te|] eqn:E; [|done].
    apply put_task_ok; [done|]. apply Ht in E as (? & ? & ?).
    split; [done|]. split; [done|]. by apply upsert_run_good. }
  destruct (store_save_run _ l2) as [l' err] eqn:Es.
  destruct (store_save_run_ok _ _ _ _ _ Hok2 (clone_run_entry_ok _ _ He) Es) as [Hok' _].
  destruct err as [e|]; [|done]. cbn.
  assert (ledger_ok match cloneRunEntry <$> l_runs l !! tr_RunID r with
                    | Some o => put_run (tr_RunID r) o l' | None => drop_run (tr_RunID r) l' end) as Hok3.
  { destruct (l_runs l !! tr_RunID r) as [o|] eqn:E; cbn; [|by apply drop_run_ok].
    apply put_run_ok; [done|]. by apply clone_run_entry_ok, Hr. }
  destruct (l_tasks l !! tr_TaskID r) as [o|] eqn:E; cbn; [|done].
  apply put_task_ok; [done|]. by apply clone_task_entry_ok, Ht.
Qed.

Lemma updateTaskStatus_ok now id to actor source reason meta l :
  ledger_ok l -> ledger_ok (updateTaskStatus now id to actor source reason meta l).1.
Proof.
  intros Hok. unfold updateTaskStatus.
  destruct (ensureTaskLoaded id l) as [l1 r] eqn:El.
  destruct (ensureTaskLoaded_ok _ _ _ _ Hok El) as [Hok1 Hr]. destruct r as [e0|]; [|done].
  destruct (Hr e0 eq_refl) as [Hin He0]. rewrite Hin. change (default e0 (Some e0)) with e0.
  destruct (update_task_locked now to actor source reason meta e0) as [e1 err] eqn:Eu.
  pose proof (update_task_locked_ok _ _ _ _ _ _ _ _ _ _ He0 Eu) as He1.
  destruct err as [x|]; [cbn [fst]; by apply put_task_ok|].
  destruct (store_save_task e1 _) as [l2 err] eqn:Es.
  destruct (store_save_task_ok _ _ _ _ _ (put_task_ok _ _ _ Hok1 He1) He1 Es) as (Hok2 & Ht2 & _).
  destruct err as [x|]; [cbn [fst]|done]. rewrite Ht2. cbn [l_tasks put_task setf set_l_tasks].
  rewrite lookup_insert_eq. change (default e1 (Some e1)) with e1.
  apply put_task_ok; [done|].
  rewrite (update_rollback_exact _ _ _ _ _ _ _ _ _ He0 Eu). by apply created_by_ok.
Qed.

Lemma create_run_entry_ok id now runID run te :
  good_run run -> task_entry_ok id te -> task_entry_ok id (create_run_entry now runID run te).
Proof.
  intros Hg (Hid & Ht & Hr). split; [done|]. split.
  - apply (good_task_update (le_Task te)); cbn; auto with go.
  - cbn. apply Forall_app. split; [done|]. by constructor.
Qed.

(** The rollback of [CreateRun] undoes it exactly. *)
Lemma create_run_rollback_exact now runID run te :
  create_run_rollback (ts_CurrentRunID (le_Task te)) (ts_LastRunID (le_Task te)) (le_UpdatedAt te)
    (create_run_entry now runID run te) = te.
Proof.
  unfold create_run_rollback, create_run_entry. cbn. rewrite length_app, Nat.add_comm. cbn.
  rewrite removelast_last. destruct te as [[] ? ? ? ? ?]. by_fields.
Qed.

Lemma CreateRun_ok now id runID trigger actor source l :
  ledger_ok l -> ledger_ok (CreateRun now id runID trigger actor source l).1.
Proof.
  intros Hok. unfold CreateRun.
  destruct (ensureTaskLoaded id l) as [l1 r] eqn:El.
  destruct (ensureTaskLoaded_ok _ _ _ _ Hok El) as [Hok1 Hr]. destruct r as [e0|]; [|done].
  destruct (Hr e0 eq_refl) as [Hin He0]. rewrite Hin.
  rewrite checks_normalized_good by apply He0.
  replace (e0 <| le_Task := le_Task e0 |>) with e0 by by destruct e0.
  destruct (NewTaskRunAttempt _ _ _ _ _ _ _) as [run|x] eqn:En; [|cbn [fst]; by apply put_task_ok].
  apply new_attempt_good in En as (Hg & Hid & _). cbv zeta.
  assert (run_entry_ok runID (mkRunEntry run (le_Source e0) (le_SourceRef e0) now now)) as Hre
    by (split; [by right|done]).
  pose proof (create_run_entry_ok id now runID run e0 Hg He0) as Hte.
  set (l2 := put_task id _ _).
  assert (ledger_ok l2) as Hok2 by (apply put_task_ok; [by apply put_run_ok|done]).
  assert (forall l', ledger_ok l' -> l_tasks l' = l_tasks l2 ->
    ledger_ok (put_task id (create_run_rollback (ts_CurrentRunID (le_Task e0))
      (ts_LastRunID (le_Task e0)) (le_UpdatedAt e0)
      (default (create_run_entry now runID run e0) (l_tasks l' !! id))) (drop_run runID l'))) as Hback.
  { intros l' Hok' ->. cbn. rewrite lookup_insert_eq. cbn. rewrite create_run_rollback_exact.
    apply put_task_ok; [by apply drop_run_ok|done]. }
  destruct (store_save_run _ l2) as [l3 err] eqn:Es.
  destruct (store_save_run_ok _ _ _ _ _ Hok2 Hre Es) as (Hok3 & Ht3 & _).
  destruct err as [x|]; [by apply Hback|].
  destruct (store_save_task _ l3) as [l4 err] eqn:Es4.
  destruct (store_save_task_ok _ _ _ _ _ Hok3 Hte Es4) as (Hok4 & Ht4 & _).
  destruct err as [x|]; [|done]. apply Hback; [done|congruence].
Qed.

Lemma note_run_ok id now runID run te :
  good_run run -> task_entry_ok id te -> task_entry_ok id (note_run now runID run te).
Proof.
  intros Hg (Hid & Ht & Hr). split; [done|]. split.
  - apply (good_task_update (le_Task te)); cbn; auto with go.
  - cbn. destruct (replace_run runID run (le_Runs te)) eqn:E; cbn; [|done].
    by eapply replace_run_good.
Qed.

Lemma update_run_rollback_ok runID entry original task l :
  ledger_ok l -> run_entry_ok runID original ->
  match task with Some o => task_entry_ok (tr_TaskID (re_Run original)) o | None => True end ->
  ledger_ok (update_run_rollback runID entry original task l).
Proof.
  intros Hok Ho Ht. unfold update_run_rollback. cbv zeta.
  assert (ledger_ok (put_run runID (entry <| re_Run := re_Run original |>
    <| re_UpdatedAt := re_UpdatedAt original |>) l)) as Hok' by by apply put_run_ok.
  destruct task; [|done]. destruct (_ !! _); [|done]. by apply put_task_ok.
Qed.

Lemma UpdateRunStatus_ok now runID to actor source reason l :
  ledger_ok l -> ledger_ok (UpdateRunStatus now runID to actor source reason l).1.
Proof.
  intros Hok. unfold UpdateRunStatus.
  destruct (ensureRunLoaded runID l) as [l1 r] eqn:El.
  destruct (ensureRunLoaded_ok _ _ _ _ Hok El) as [Hok1 _]. destruct r as [e0|]; [|done].
  destruct (ensureTaskLoaded _ l1) as [l2 r] eqn:El2.
  destruct (ensureTaskLoaded_ok _ _ _ _ Hok1 El2) as [Hok2 _]. destruct r as [te0|]; [|done].
  pose proof Hok2 as (Ht & Hr & _).
  destruct (l_runs l2 !! runID) as [e|] eqn:Ee; [|done]. pose proof (Hr _ _ Ee) as He.
  destruct (TaskRun_ApplyTransition (re_Run e) to now actor source reason None) as [run err] eqn:Ea.
  pose proof He as [Hid Hg].
  apply run_transition_good in Ea as (Hg' & Hid' & Htid & _); [|done].
  destruct err as [x|].
  { cbn [fst]. apply put_run_ok; [done|]. split; [cbn; by rewrite Hid'|done]. }
  cbv zeta. set (e1 := e <| re_Run := run |> <| re_UpdatedAt := now |>).
  assert (run_entry_ok runID e1) as He1 by (split; [cbn; by rewrite Hid'|done]).
  set (l3 := put_run runID e1 l2). change (l_tasks l3) with (l_tasks l2).
  assert (ledger_ok l3) as Hok3 by by apply put_run_ok.
  set (back := update_run_rollback runID e1 _ _).
  assert (forall l', ledger_ok l' -> ledger_ok (back l')) as Hback.
  { intros l' Hl'. unfold back. apply update_run_rollback_ok; [done|by apply clone_run_entry_ok|].
    destruct (l_tasks l2 !! tr_TaskID run) as [o|] eqn:Eo; [|done].
    apply clone_task_entry_ok. change (task_entry_ok (tr_TaskID (re_Run e)) o).
    rewrite <- Htid. by apply Ht. }
  set (l4 := match note_run now runID run <$> l_tasks l2 !! tr_TaskID run with
             | Some te => put_task (tr_TaskID run) te l3 | None => l3 end).
  assert (ledger_ok l4) as Hok4.
  { unfold l4. destruct (l_tasks l2 !! tr_TaskID run) as [o|] eqn:Eo; cbn -[put_task]; [|done].
    apply put_task_ok; [done|]. by apply note_run_ok, Ht. }
  destruct (store_save_run _ l4) as [l5 err] eqn:Es.
  destruct (store_save_run_ok _ _ _ _ _ Hok4 (clone_run_entry_ok _ _ He1) Es) as (Hok5 & _).
  destruct err as [x|]; [by apply Hback|].
  destruct (l_tasks l2 !! tr_TaskID run) as [o|] eqn:Eo; cbn -[store_save_task cloneLedgerEntry back]; [|done].
  destruct (store_save_task _ l5) as [l6 err] eqn:Es6.
  assert (task_entry_ok (tr_TaskID run) (note_run now runID run o)) as Hn
    by by apply note_run_ok, Ht.
  destruct (store_save_task_ok _ _ _ _ _ Hok5 (clone_task_entry_ok _ _ Hn) Es6) as (Hok6 & _).
  destruct err as [x|]; [by apply Hback|done].
Qed.

(** *** Cancellation *)

Lemma cancel_runs_ok now actor reason entry todo runs rs runs' persist :
  Forall good_run todo -> runs_ok runs ->
  cancel_runs now actor reason entry todo runs = (rs, runs', persist) ->
  Forall good_run rs /\ runs_ok runs'
  /\ Forall (fun e => run_entry_ok (tr_RunID (re_Run e)) e) persist.
Proof.
  intros Ht. revert runs rs runs' persist.
  induction Ht as [|run todo Hg Ht IH]; intros runs rs runs' persist Hr Hc; cbn [cancel_runs] in Hc.
  { injection Hc as <- <- <-. split; [constructor|]. split; [done|constructor]. }
  destruct (blank (tr_RunID run)).
  { destruct (cancel_runs _ _ _ _ todo runs) as [[rs1 runs1] p1] eqn:E.
    injection Hc as <- <- <-. destruct (IH _ _ _ _ Hr E) as (? & ? & ?).
    split; [by constructor|done]. }
  cbv zeta in Hc. set (re := default (embedded_run entry run) (runs !! tr_RunID run)) in *.
  assert (run_entry_ok (tr_RunID run) re) as Hre.
  { unfold re. destruct (runs !! tr_RunID run) eqn:E; [by apply Hr|by apply embedded_run_ok]. }
  destruct (negb (isTerminalRunStatus (tr_Status (re_Run re)))).
  - destruct (TaskRun_ApplyTransition _ _ _ _ _ _ _) as [run' err] eqn:Ea. pose proof Hre as [Hid Hg0].
    apply run_transition_good in Ea as (Hg' & Hid' & _); [|done].
    destruct (cancel_runs _ _ _ _ todo _) as [[rs1 runs1] p1] eqn:E. injection Hc as <- <- <-.
    apply IH in E as (? & ? & ?); cycle 1.
    { apply runs_ok_insert; [done|]. split; [cbn; by rewrite Hid'|done]. }
    split; [by constructor|]. split; [done|]. constructor; [by apply own_run_entry_ok|done].
  - destruct (cancel_runs _ _ _ _ todo _) as [[rs1 runs1] p1] eqn:E. injection Hc as <- <- <-.
    apply IH in E as (? & ? & ?); [|by apply runs_ok_insert].
    split; [by constructor|done].
Qed.

Lemma cancel_entry_ok id now actor reason e e' tr :
  task_entry_ok id e -> cancel_entry now actor reason e = (e', tr) -> task_entry_ok id e'.
Proof.
  intros He. unfold cancel_entry. cbv zeta.
  set (p := if AllowedTaskTransition _ _ then _ else (e, None)).
  assert (task_entry_ok id p.1) as Hp.
  { unfold p. destruct (AllowedTaskTransition _ _); [|done].
    destruct (TaskSpec_ApplyTransition _ _ _ _ _ _ _) as [t' err] eqn:Ea.
    pose proof He as (Hid & Hg & Hr).
    apply task_transition_good in Ea as (Hg' & Hid' & _); [|done].
    split; [cbn; congruence|by split]. }
  destruct p as [e1 tr1]. cbn in Hp. intros [= <- <-].
  destruct (TrimSpace _ !=? ""); [|done]. destruct Hp as (? & Hg & ?).
  split; [done|]. split; [|done]. apply (good_task_update (le_Task e1)); cbn; auto with go.
Qed.

Lemma save_runs_ok entries l l' err :
  ledger_ok l -> Forall (fun e => run_entry_ok (tr_RunID (re_Run e)) e) entries ->
  save_runs entries l = (l', err) ->
  ledger_ok l' /\ l_tasks l' = l_tasks l /\ l_runs l' = l_runs l.
Proof.
  intros Hok He. revert l Hok. induction He as [|e entries He _ IH]; intros l Hok; cbn.
  { by intros [= <- <-]. }
  destruct (store_save_run e l) as [l1 er] eqn:Es.
  destruct (store_save_run_ok _ _ _ _ _ Hok He Es) as (Hok1 & Ht & Hr).
  destruct er; [by intros [= <- <-]|]. intros Hs. destruct (IH _ Hok1 Hs) as (? & ? & ?).
  split; [done|]. split; congruence.
Qed.

Lemma original_runs_ok taskID entry runs :
  Forall good_run (le_Runs entry) -> runs_ok runs -> runs_ok (original_runs taskID entry runs).
Proof.
  intros He Hr. unfold original_runs. cbv zeta.
  set (cached := fold_left _ (map snd (map_to_list runs)) ∅).
  assert (runs_ok cached) as Hc.
  { unfold cached.
    assert (Forall (fun re => run_entry_ok (tr_RunID (re_Run re)) re) (map snd (map_to_list runs)))
      as Hall.
    { apply Forall_forall. intros re Hre. rewrite list_elem_of_In, in_map_iff in Hre.
      destruct Hre as ([k x] & <- & Hx). rewrite <- list_elem_of_In in Hx.
      apply elem_of_map_to_list in Hx. by eapply run_entry_ok_own, Hr. }
    assert (runs_ok ∅) as H0' by (intros k x; by rewrite lookup_empty).
    revert H0'. generalize (∅ : gmap string RunEntry).
    induction Hall as [|re l Hre _ IH]; intros m Hm; [done|]. cbn.
    destruct (tr_TaskID (re_Run re) ==? taskID); apply IH; [|done].
    apply runs_ok_insert; [done|]. by apply clone_run_entry_ok. }
  revert Hc. generalize cached. clear cached. intros m Hm.
  revert m Hm. generalize He. generalize (le_Runs entry) as l.
  intros l Hl. induction Hl as [|run l Hg _ IH]; intros m Hm; [done|]. cbn.
  destruct (blank (tr_RunID run)); [by apply IH|].
  destruct (m !! tr_RunID run); apply IH; [done|].
  apply runs_ok_insert; [done|]. by apply clone_run_entry_ok, embedded_run_ok.
Qed.

Lemma cancel_rollback_ok taskID original originals l :
  ledger_ok l -> task_entry_ok taskID original -> runs_ok originals ->
  ledger_ok (cancel_rollback taskID original originals l).
Proof.
  intros (Ht & Hr & Hs) Ho Hos. split; [by apply tasks_ok_insert|]. split; [|done].
  intros id e. cbn. rewrite map_lookup_imap.
  destruct (l_runs l !! id) as [c|] eqn:E; [|done]. cbn. intros [= <-].
  destruct (originals !! id) eqn:Eo; cbn; [by apply Hos|by apply Hr].
Qed.

Lemma CancelTask_ok now id actor reason l :
  ledger_ok l -> ledger_ok (CancelTask now id actor reason l).1.
Proof.
  intros Hok. unfold CancelTask.
  destruct (ensureTaskLoaded id l) as [l1 r] eqn:El.
  destruct (ensureTaskLoaded_ok _ _ _ _ Hok El) as [Hok1 Hr1]. destruct r as [e0|]; [|done].
  destruct (Hr1 e0 eq_refl) as [Hin He0]. rewrite Hin.
  pose proof Hok1 as (Ht & Hr & Hs). pose proof He0 as (Hid & Hg & Hruns).
  destruct (cancel_runs _ _ _ _ _ _) as [[rs runs] persist] eqn:Ec.
  destruct (cancel_runs_ok _ _ _ _ _ _ _ _ _ Hruns Hr Ec) as (Hrs & Hruns' & Hp).
  destruct (cancel_entry _ _ _ _) as [e1 tr] eqn:Ee.
  assert (task_entry_ok id e1) as He1.
  { eapply cancel_entry_ok; [|exact Ee]. by split. }
  cbv zeta. set (l2 := put_task id e1 (l1 <| l_runs := runs |>)).
  assert (ledger_ok l2) as Hok2 by (apply put_task_ok; [|done]; by split).
  assert (runs_ok (original_runs id e0 (l_runs l1))) as Hor by by apply original_runs_ok.
  pose proof (clone_task_entry_ok _ _ He0) as Hc0.
  destruct (save_runs _ l2) as [l3 err] eqn:Es.
  apply save_runs_ok in Es as (Hok3 & _); [|done|].
  2: { apply Forall_map. eapply Forall_impl; [exact Hp|]. intros e. apply clone_run_entry_ok. }
  destruct err as [x|]; [by apply cancel_rollback_ok|].
  destruct (store_save_task _ l3) as [l4 err] eqn:Es4.
  destruct (store_save_task_ok _ _ _ _ _ Hok3 (clone_task_entry_ok _ _ He1) Es4) as (Hok4 & _).
  destruct err as [x|]; [by apply cancel_rollback_ok|done].
Qed.
End Invariant.
