(* ===== verification/Sorting.v ===== *)
(** Stable sorting by a comparison, [sort.SliceStable], and comparisons written
    as a chain of keys: [if left.K != right.K { return left.K < right.K }; ...].

    Where the comparison never calls two different elements equal, [sort.Slice]
    has the same result. *)

From Stdlib Require Import Ascii String Sorted.
From stdpp Require Import base tactics decidable list sorting strings.
From S2P Require Import Prelude.

Section Sort.
Context {A : Type} (less : A -> A -> bool).

(** [x] goes behind the elements that are not above it. *)
Fixpoint insert_sorted (x : A) (l : list A) : list A :=
  match l with
  | [] => [x]
  | y :: l => if less y x then y :: insert_sorted x l else x :: y :: l
  end.

Definition sort_by (l : list A) : list A := foldr insert_sorted [] l.

(** No element comes before one that is below it. *)
Definition in_order (l : list A) : Prop := StronglySorted (fun x y => less y x = false) l.
End Sort.

(** A comparison that sorts: a strict weak order. *)
Class WeakOrder {A} (less : A -> A -> bool) := {
  less_asym x y : less x y = true -> less y x = false;
  less_chain x y z : less y x = false -> less z y = false -> less z x = false
}.

Section Sorted.
Context {A : Type} (less : A -> A -> bool).

Lemma insert_sorted_perm x l : insert_sorted less x l ≡ₚ x :: l.
Proof.
  induction l as [|y l IH]; [done|]. cbn. destruct (less y x); [|done].
  rewrite IH. constructor.
Qed.

Lemma sort_by_perm l : sort_by less l ≡ₚ l.
Proof. induction l as [|x l IH]; [done|]. cbn. by rewrite insert_sorted_perm, IH. Qed.

Context `{!WeakOrder less}.

Lemma insert_sorted_ok x l : in_order less l -> in_order less (insert_sorted less x l).
Proof.
  unfold in_order. induction 1 as [|y l Hl IH Hy]; [repeat constructor|]. cbn.
  destruct (less y x) eqn:E.
  - constructor; [done|]. rewrite insert_sorted_perm. constructor; [by apply less_asym|done].
  - constructor; [by constructor|]. constructor; [done|].
    eapply Forall_impl; [exact Hy|]. cbn. intros z Hz. by eapply less_chain.
Qed.

Lemma sort_by_in_order l : in_order less (sort_by less l).
Proof. induction l as [|x l IH]; [constructor|]. cbn. by apply insert_sorted_ok. Qed.

Lemma sort_by_id l : in_order less l -> sort_by less l = l.
Proof.
  unfold in_order. induction 1 as [|x l _ IH Hx]; [done|].
  change (insert_sorted less x (sort_by less l) = x :: l). rewrite IH.
  destruct Hx as [|y l Hxy _]; [done|]. cbn. by rewrite Hxy.
Qed.

(** The head of a sorted list is minimal. *)
Lemma sort_by_head l x rest :
  sort_by less l = x :: rest -> forall y, y ∈ l -> y = x \/ less y x = false.
Proof.
  intros Hs y Hy. pose proof (sort_by_in_order l) as H. rewrite Hs in H. inv H.
  assert (y ∈ x :: rest) as Hy' by (by rewrite <- Hs, sort_by_perm).
  apply elem_of_cons in Hy' as [->|Hy']; [by left|right].
  match goal with H : Forall _ rest |- _ => rewrite Forall_forall in H; by apply H end.
Qed.
End Sorted.

(** ** Keys *)

(** A strict total order on keys. *)
Class KeyOrder {K} (lt : K -> K -> bool) := {
  key_irrefl x : lt x x = false;
  key_trans x y z : lt x y = true -> lt y z = true -> lt x z = true;
  key_total x y : x <> y -> lt x y = true \/ lt y x = true
}.

(** [if f(left) != f(right) { return lt(f(left), f(right)) }], and [next]. *)
Definition by_key {A K} `{EqDecision K} (lt : K -> K -> bool) (f : A -> K)
    (next : A -> A -> bool) (x y : A) : bool :=
  if decide (f x = f y) then next x y else lt (f x) (f y).

#[export] Instance Zltb_order : KeyOrder Z.ltb.
Proof. split; intros; repeat rewrite ?Z.ltb_lt, ?Z.ltb_ge in *; lia. Qed.

#[export] Instance Zgtb_order : KeyOrder (fun x y => y <? x).
Proof. split; intros; repeat rewrite ?Z.ltb_lt, ?Z.ltb_ge in *; lia. Qed.

#[export] Instance string_order : KeyOrder String.ltb.
Proof.
  assert (forall x y, String.ltb x y = true <-> String.compare x y = Lt) as Hlt.
  { intros. unfold String.ltb. by destruct (String.compare x y). }
  assert (forall a b, Ascii.compare a b = Lt <-> (byte a < byte b)%N) as Ha.
  { intros. apply N.compare_lt_iff. }
  split.
  - intros x. destruct (String.ltb x x) eqn:E; [|done]. apply Hlt in E.
    pose proof (String.compare_antisym x x) as H. by rewrite E in H.
  - intros x y z. rewrite !Hlt. revert y z.
    induction x as [|a x IH]; intros [|b y] [|c z]; cbn; try done.
    destruct (Ascii.compare a b) eqn:E1, (Ascii.compare b c) eqn:E2; try done.
    + apply Ascii.compare_eq_iff in E1, E2. subst.
      assert (Ascii.compare c c = Eq) as -> by (apply N.compare_refl). apply IH.
    + apply Ascii.compare_eq_iff in E1. subst. by rewrite E2.
    + apply Ascii.compare_eq_iff in E2. subst. by rewrite E1.
    + apply Ha in E1, E2. by rewrite (proj2 (Ha a c) (N.lt_trans _ _ _ E1 E2)).
  - intros x y Hne. rewrite !Hlt. destruct (String.compare x y) eqn:E; [|by left|].
    + by apply String.compare_eq_iff in E.
    + right. rewrite String.compare_antisym, E. done.
Qed.

#[export] Instance bool_order : KeyOrder (fun x y => x && negb y).
Proof. split; [intros []|intros [] [] []|intros [] []]; cbn; auto; congruence. Qed.

Section ByKey.
Context {A K : Type} `{EqDecision K} (lt : K -> K -> bool) `{!KeyOrder lt} (f : A -> K).
Context (next : A -> A -> bool) `{!WeakOrder next}.

#[export] Instance by_key_order : WeakOrder (by_key lt f next).
Proof.
  assert (forall x y, lt x y = true -> lt y x = false) as Hasym.
  { intros x y Hxy. destruct (lt y x) eqn:E; [|done].
    pose proof (key_trans _ _ _ Hxy E) as H. by rewrite key_irrefl in H. }
  split.
  - unfold by_key. intros x y. destruct (decide (f x = f y)) as [E|E].
    + rewrite decide_True by done. apply less_asym.
    + rewrite decide_False by done. apply Hasym.
  - unfold by_key. intros x y z.
    destruct (decide (f y = f x)) as [Exy|Exy], (decide (f z = f y)) as [Eyz|Eyz].
    + rewrite decide_True by congruence. apply less_chain.
    + rewrite Exy in Eyz |- *. rewrite decide_False by done. auto.
    + rewrite Eyz. rewrite decide_False by done. auto.
    + intros H1 H2. destruct (key_total _ _ Exy) as [?|Hxy]; [congruence|].
      destruct (key_total _ _ Eyz) as [?|Hyz]; [congruence|].
      pose proof (key_trans _ _ _ Hxy Hyz) as Hxz.
      destruct (decide (f z = f x)) as [E|E]; [|by apply Hasym].
      rewrite E in Hxz. by rewrite key_irrefl in Hxz.
Qed.
End ByKey.

(** The end of a chain: by position, or no difference. *)
#[export] Instance never_order {A} : WeakOrder (fun _ _ : A => false).
Proof. split; auto; discriminate. Qed.

#[export] Instance key_order_weak {A K} (lt : K -> K -> bool) (f : A -> K) :
  KeyOrder lt -> EqDecision K -> WeakOrder (fun x y => lt (f x) (f y)).
Proof.
  intros Hk Heq. pose proof (by_key_order lt f (fun _ _ => false)) as [H1 H2].
  assert (forall x y, by_key lt f (fun _ _ => false) x y = lt (f x) (f y)) as E.
  { intros. unfold by_key. destruct (decide (f x = f y)) as [->|]; [|done].
    by rewrite key_irrefl. }
  split; intros; rewrite <- E in *; eauto.
Qed.
