(* ===== verification/Listing.v ===== *)
(** Listing tasks and runs: [ListTasks] and [ListRuns] of internal/tasks/ledger.go with
    the ordering and the pages they share with the stores.

    With a store the ledger asks it and then files what it returns in its cache; on
    its own it lists the cache.  A map is visited in the order of [map_to_list] and
    sorted stably; [sort.Slice] may order entries with equal keys in any way. *)

From Stdlib Require Import String.
From stdpp Require Import base tactics decidable list gmap strings.
From S2P Require Import Prelude Enums Verification Budget TaskModels Lifecycle LedgerModels Ledger LedgerInvariant Sorting.

(** ** Ordering *)

Definition compare_strings (a b : string) : Z :=
  if a ==? b then 0 else if String.ltb a b then -1 else 1.

Definition task_cmp (orderBy : string) (a b : LedgerEntry) : Z :=
  go_switch (ToLower orderBy)
    [(["updated_at"], sub64 (le_UpdatedAt a) (le_UpdatedAt b));
     (["status"], compare_strings (ts_Status (le_Task a)) (ts_Status (le_Task b)))]
    (sub64 (le_CreatedAt a) (le_CreatedAt b)).

Definition run_cmp (orderBy : string) (a b : RunEntry) : Z :=
  go_switch (ToLower orderBy)
    [(["started_at"], sub64 (tr_StartedAt (re_Run a)) (tr_StartedAt (re_Run b)));
     (["ended_at"], sub64 (tr_EndedAt (re_Run a)) (tr_EndedAt (re_Run b)))]
    (sub64 (re_CreatedAt a) (re_CreatedAt b)).

Definition by_cmp {A} (cmp : A -> A -> Z) (desc : bool) (a b : A) : bool :=
  if desc then 0 <? cmp a b else cmp a b <? 0.

Definition sortTasks (entries : list LedgerEntry) (orderBy : string) (desc : bool) : list LedgerEntry :=
  sort_by (by_cmp (task_cmp orderBy) desc) entries.
Definition sortRuns (entries : list RunEntry) (orderBy : string) (desc : bool) : list RunEntry :=
  sort_by (by_cmp (run_cmp orderBy) desc) entries.

(** ** Pages *)

Definition default_limit (limit : Z) : Z := if limit <=? 0 then 100 else limit.

(** [None] is the panic of slicing from a negative offset. *)
Definition page {A} (offset limit : Z) (results : list A) : option (list A) :=
  if Z.of_nat (length results) <=? offset then Some []
  else if offset <? 0 then None
  else Some (take (Z.to_nat limit) (drop (Z.to_nat offset) results)).

Definition list_tasks (tasks : gmap string LedgerEntry) (opts : ListTasksOptions) : option (list LedgerEntry) :=
  page (lo_Offset opts) (default_limit (lo_Limit opts))
    (sortTasks (List.filter (fun e => matchesTaskFilter e opts) (map snd (map_to_list tasks)))
       (lo_OrderBy opts) (lo_OrderDesc opts)).

Definition list_runs (runs : gmap string RunEntry) (opts : ListRunsOptions) : option (list RunEntry) :=
  page (ro_Offset opts) (default_limit (ro_Limit opts))
    (sortRuns (List.filter (fun e => matchesRunFilter e opts) (map snd (map_to_list runs)))
       (ro_OrderBy opts) (ro_OrderDesc opts)).

(** A page only holds entries that the filter lets through. *)
Lemma page_elem {A} offset limit (l p : list A) x : page offset limit l = Some p -> x ∈ p -> x ∈ l.
Proof.
  unfold page. destruct (_ <=? offset); [intros [= <-] H; by apply not_elem_of_nil in H|].
  destruct (offset <? 0); [done|]. intros [= <-] H.
  rewrite <- (take_drop (Z.to_nat offset) l), elem_of_app. right.
  rewrite <- (take_drop (Z.to_nat limit) (drop _ l)), elem_of_app. by left.
Qed.

Lemma listed_task tasks opts es e :
  list_tasks tasks opts = Some es -> e ∈ es ->
  (exists id, tasks !! id = Some e) /\ matchesTaskFilter e opts = true.
Proof.
  intros Hp He. apply (page_elem _ _ _ _ _ Hp) in He. unfold sortTasks in He. rewrite sort_by_perm in He.
  apply elem_of_filter_b in He as [Hin Hm]. split; [|done].
  change (map snd (map_to_list tasks)) with (snd <$> map_to_list tasks) in Hin.
  apply list_elem_of_fmap in Hin as ([id e'] & -> & Hin). apply elem_of_map_to_list in Hin. eauto.
Qed.

Lemma listed_run runs opts es e :
  list_runs runs opts = Some es -> e ∈ es ->
  (exists id, runs !! id = Some e) /\ matchesRunFilter e opts = true.
Proof.
  intros Hp He. apply (page_elem _ _ _ _ _ Hp) in He. unfold sortRuns in He. rewrite sort_by_perm in He.
  apply elem_of_filter_b in He as [Hin Hm]. split; [|done].
  change (map snd (map_to_list runs)) with (snd <$> map_to_list runs) in Hin.
  apply list_elem_of_fmap in Hin as ([id e'] & -> & Hin). apply elem_of_map_to_list in Hin. eauto.
Qed.

(** A page from the start that is long enough for the whole cache leaves nothing out. *)
Lemma all_listed runs opts es id e :
  list_runs runs opts = Some es -> ro_Offset opts = 0 -> Z.of_nat (size runs) <= default_limit (ro_Limit opts) ->
  runs !! id = Some e -> matchesRunFilter e opts = true -> e ∈ es.
Proof.
  intros Hp Ho Hsize He Hm. unfold list_runs, page in Hp. rewrite Ho in Hp.
  set (l := sortRuns _ _ _) in Hp.
  assert (e ∈ l) as Hin.
  { unfold l, sortRuns. rewrite sort_by_perm, elem_of_filter_b. split; [|done].
    change (map snd (map_to_list runs)) with (snd <$> map_to_list runs).
    apply list_elem_of_fmap. exists (id, e). split; [done|]. by apply elem_of_map_to_list. }
  assert (Z.of_nat (length l) <= Z.of_nat (size runs)) as Hlen.
  { unfold l, sortRuns. rewrite sort_by_perm. rewrite <- length_map_to_list, <- (length_map snd).
    apply inj_le, filter_length_le. }
  destruct (Z.of_nat (length l) <=? 0) eqn:E.
  { apply Z.leb_le in E. destruct l; [by apply not_elem_of_nil in Hin|cbn in E; lia]. }
  injection Hp as <-. change (drop (Z.to_nat 0) l) with l. rewrite take_ge; [done|]. lia.
Qed.

(** ** The ledger *)

(** The listing half of the store interface; a panic is [None]. *)
Class ListingStore (S : Type) := {
  Store_ListTasks : S -> ListTasksOptions -> S * option (result (list LedgerEntry));
  Store_ListRuns : S -> ListRunsOptions -> S * option (result (list RunEntry))
}.

(** A listed entry and the runs it embeds replace those of the cache. *)
Definition refresh_task {S} (entry : LedgerEntry) (l : Ledger S) : Ledger S :=
  (put_task (ts_TaskID (le_Task entry)) entry l)
    <| l_runs := fold_left (fun m run => <[tr_RunID run := embedded_run entry run]> m) (le_Runs entry) (l_runs l) |>.

Definition refresh_run {S} (entry : RunEntry) (l : Ledger S) : Ledger S :=
  put_run (tr_RunID (re_Run entry)) entry l.

Definition with_task_limit (o : ListTasksOptions) : ListTasksOptions :=
  mkListTasksOptions (lo_Status o) (lo_Source o) (lo_AgentID o) (lo_GoalID o) (lo_ParentTaskID o)
    (lo_SessionID o) (default_limit (lo_Limit o)) (lo_Offset o) (lo_OrderBy o) (lo_OrderDesc o).

Definition with_run_limit (o : ListRunsOptions) : ListRunsOptions :=
  mkListRunsOptions (ro_TaskID o) (ro_Status o) (ro_AgentID o) (default_limit (ro_Limit o)) (ro_Offset o)
    (ro_OrderBy o) (ro_OrderDesc o) (ro_IncludeMeta o).

Section Listing.
Context {S : Type} `{Store S} `{ListingStore S}.

Definition ListTasks (opts : ListTasksOptions) (l : Ledger S) : Ledger S * option (result (list LedgerEntry)) :=
  let opts := with_task_limit opts in
  match l_store l with
  | Some s =>
    let '(s, r) := Store_ListTasks s opts in
    let l := l <| l_store := Some s |> in
    match r with
    | Some (Ok results) => (fold_left (fun l e => refresh_task e l) results l, Some (Ok results))
    | r => (l, r)
    end
  | None => (l, Ok <$> list_tasks (l_tasks l) opts)
  end.

Definition ListRuns (opts : ListRunsOptions) (l : Ledger S) : Ledger S * option (result (list RunEntry)) :=
  let opts := with_run_limit opts in
  match l_store l with
  | Some s =>
    let '(s, r) := Store_ListRuns s opts in
    let l := l <| l_store := Some s |> in
    match r with
    | Some (Ok results) => (fold_left (fun l e => refresh_run e l) results l, Some (Ok results))
    | r => (l, r)
    end
  | None => (l, Ok <$> list_runs (l_runs l) opts)
  end.
End Listing.

(** ** Listing keeps the ledger well formed *)

Class ListingLaws (S : Type) `{StoreLaws S} `{ListingStore S} := {
  listed_tasks_ok s opts : store_ok s ->
    store_ok (Store_ListTasks s opts).1
    /\ forall es, (Store_ListTasks s opts).2 = Some (Ok es) ->
         Forall (fun e => task_entry_ok (ts_TaskID (le_Task e)) e) es;
  listed_runs_ok s opts : store_ok s ->
    store_ok (Store_ListRuns s opts).1
    /\ forall es, (Store_ListRuns s opts).2 = Some (Ok es) ->
         Forall (fun e => run_entry_ok (tr_RunID (re_Run e)) e) es
}.

Section Laws.
Context {S : Type} `{ListingLaws S}.

Lemma refresh_task_ok e (l : Ledger S) :
  task_entry_ok (ts_TaskID (le_Task e)) e -> ledger_ok l -> ledger_ok (refresh_task e l).
Proof.
  intros He (Ht & Hr & Hs). split; [by apply tasks_ok_insert|]. split; [|done]. cbn.
  destruct He as (_ & _ & Hruns). revert Hr. generalize (l_runs l) as m.
  induction Hruns as [|run runs Hrun Hruns IH]; intros m Hm; cbn; [done|].
  apply IH, runs_ok_insert; [done|]. by apply embedded_run_ok.
Qed.

Lemma refresh_run_ok e (l : Ledger S) :
  run_entry_ok (tr_RunID (re_Run e)) e -> ledger_ok l -> ledger_ok (refresh_run e l).
Proof. intros He (Ht & Hr & Hs). split; [done|]. split; [by apply runs_ok_insert|done]. Qed.

Lemma ListTasks_ok opts (l : Ledger S) : ledger_ok l -> ledger_ok (ListTasks opts l).1.
Proof.
  intros Hok. unfold ListTasks. destruct (l_store l) as [s|] eqn:E; [|done].
  pose proof Hok as (Ht & Hr & Hs). destruct (listed_tasks_ok s (with_task_limit opts) (Hs _ E)) as [Hs' Hes].
  destruct (Store_ListTasks s (with_task_limit opts)) as [s' r]. cbn in Hs', Hes.
  assert (ledger_ok (l <| l_store := Some s' |>)) as Hl by (split; [done|]; split; [done|]; by intros ? [= <-]).
  destruct r as [[es|e]|]; try done. specialize (Hes es eq_refl). cbn. clear Hok Ht Hr Hs E Hs'.
  revert Hl. generalize (l <| l_store := Some s' |>). induction Hes as [|e es He Hes IH]; intros l' Hl; [done|].
  cbn. by apply IH, refresh_task_ok.
Qed.

Lemma ListRuns_ok opts (l : Ledger S) : ledger_ok l -> ledger_ok (ListRuns opts l).1.
Proof.
  intros Hok. unfold ListRuns. destruct (l_store l) as [s|] eqn:E; [|done].
  pose proof Hok as (Ht & Hr & Hs). destruct (listed_runs_ok s (with_run_limit opts) (Hs _ E)) as [Hs' Hes].
  destruct (Store_ListRuns s (with_run_limit opts)) as [s' r]. cbn in Hs', Hes.
  assert (ledger_ok (l <| l_store := Some s' |>)) as Hl by (split; [done|]; split; [done|]; by intros ? [= <-]).
  destruct r as [[es|e]|]; try done. specialize (Hes es eq_refl). cbn. clear Hok Ht Hr Hs E Hs'.
  revert Hl. generalize (l <| l_store := Some s' |>). induction Hes as [|e es He Hes IH]; intros l' Hl; [done|].
  cbn. by apply IH, refresh_run_ok.
Qed.
End Laws.
