(* ===== verification/LedgerProps.v ===== *)
(** What the ledger guarantees: reachable ledgers are well formed, a status
    update commits or rolls back, cancellation ends every embedded run, lineage
    is exact; and what its unlocked store calls allow. *)

From Stdlib Require Import String.
From stdpp Require Import base tactics decidable list gmap strings relations.
From S2P Require Import Prelude Enums Verification Budget TaskModels Lifecycle LedgerModels Ledger LedgerInvariant Sorting Listing.

(** ** Histories *)

Section Start.
Context {S : Type} `{StoreLaws S}.

Lemma new_ledger_ok store : (forall s, store = Some s -> store_ok s) -> ledger_ok (NewLedger store).
Proof.
  intros Hs. split; [|split; [|done]]; intros id e; cbn; by rewrite lookup_empty.
Qed.
End Start.

Section Histories.
Context {S : Type} `{ListingLaws S}.

(** One operation that may change the ledger, with any arguments and any answer of the
    store. *)
Inductive ledger_step : Ledger S -> Ledger S -> Prop :=
  | do_CreateTask l now task source ref : ledger_step l (CreateTask now task source ref l).1
  | do_GetTask l id : ledger_step l (GetTask id l).1
  | do_SnapshotTask l id : ledger_step l (SnapshotTask id l).1
  | do_GetRun l id : ledger_step l (GetRun id l).1
  | do_ListTasks l opts : ledger_step l (ListTasks opts l).1
  | do_ListRuns l opts : ledger_step l (ListRuns opts l).1
  | do_SaveTaskState l now task source ref : ledger_step l (SaveTaskState now task source ref l).1
  | do_SaveRunState l now run source ref : ledger_step l (SaveRunState now run source ref l).1
  | do_UpdateTaskStatus l now id to actor source reason meta :
      ledger_step l (updateTaskStatus now id to actor source reason meta l).1
  | do_CreateRun l now id runID trigger actor source :
      ledger_step l (CreateRun now id runID trigger actor source l).1
  | do_UpdateRunStatus l now runID to actor source reason :
      ledger_step l (UpdateRunStatus now runID to actor source reason l).1
  | do_CancelTask l now id actor reason : ledger_step l (CancelTask now id actor reason l).1.

Lemma ledger_step_ok l l' : ledger_step l l' -> ledger_ok l -> ledger_ok l'.
Proof.
  destruct 1; intros Hok.
  - by apply CreateTask_ok.
  - destruct (GetTask id l) as [l' r] eqn:E. by destruct (GetTask_ok _ _ _ _ Hok E).
  - by apply SnapshotTask_ok.
  - by apply GetRun_ok.
  - by apply ListTasks_ok.
  - by apply ListRuns_ok.
  - by apply SaveTaskState_ok.
  - by apply SaveRunState_ok.
  - by apply updateTaskStatus_ok.
  - by apply CreateRun_ok.
  - by apply UpdateRunStatus_ok.
  - by apply CancelTask_ok.
Qed.

(** C5: Over a store that only returns entries that were well formed when it was given
    them, whatever operations run one after the other and whichever of the calls of the
    store fail, every task the ledger holds is filed under its own identifier, passes
    validation and is in normal form with the runs it embeds, and every run has a valid
    status and a valid verification contract and is filed under its own identifier, or
    under one that only has white space around it. *)
Theorem ledger_always_well_formed store l :
  (forall s, store = Some s -> store_ok s) -> rtc ledger_step (NewLedger store) l ->
  (forall id e, l_tasks l !! id = Some e ->
     ts_TaskID (le_Task e) = id /\ TaskSpec_Validate (le_Task e) = None
     /\ TaskSpec_Normalize (le_Task e) = le_Task e /\ Forall good_run (le_Runs e))
  /\ (forall id e, l_runs l !! id = Some e ->
     (tr_RunID (re_Run e) = id \/ tr_RunID (re_Run e) = TrimSpace id)
     /\ blank (tr_RunID (re_Run e)) = false /\ blank (tr_TaskID (re_Run e)) = false
     /\ TaskRunStatus_Valid (tr_Status (re_Run e)) = true
     /\ VerificationSpec_Validate (tr_Verification (re_Run e)) = None).
Proof.
  intros Hs Hr. assert (ledger_ok l) as (Ht & Hrs & _).
  { apply new_ledger_ok in Hs. induction Hr; [done|]. eauto using ledger_step_ok. }
  split; intros id e He.
  - apply Ht in He as (? & (? & ?) & ?). auto.
  - apply Hrs in He as (? & (? & ? & ? & _ & ?)). auto.
Qed.
End Histories.

(** ** Status updates commit or roll back *)

Section Updates.
Context {S : Type} `{Store S}.

(** The store's answer to saving [e], and its state afterwards. *)
Definition save_answer (e : LedgerEntry) (l : Ledger S) : option error * option S :=
  match l_store l with
  | None => (None, None)
  | Some s => let '(s', err) := SaveTask s e in (err, Some s')
  end.

Lemma store_save_task_eq e (l : Ledger S) :
  store_save_task e l = (l <| l_store := (save_answer e l).2 |>, (save_answer e l).1).
Proof.
  unfold store_save_task, save_answer. destruct (l_store l) eqn:E.
  - by destruct (SaveTask s e).
  - f_equal. destruct l; cbn in *. by rewrite E.
Qed.

Lemma put_task_same id e (l : Ledger S) : l_tasks l !! id = Some e -> put_task id e l = l.
Proof. intros He. unfold put_task. destruct l as [t r s ev]; cbn in *. by rewrite insert_id. Qed.

(** C10: a status update of a cached task is all or nothing.  If the move is not
    allowed, the ledger is unchanged; if it is, the moved task is offered to the
    store: when the store takes it, cache and observers see the moved task with
    one more transition; when the store fails, no observer is notified and the
    cache holds the old entry again (with its creation time stamped). *)
Theorem status_update_commits_or_rolls_back now id to actor source reason meta l e :
  l_tasks l !! id = Some e -> task_entry_ok id e ->
  let moved := e <| le_Task := task_moved (le_Task e) to now actor source reason meta |>
                 <| le_UpdatedAt := now |> in
  let '(l', r) := updateTaskStatus now id to actor source reason meta l in
  (~ task_may_move (le_Task e) to now /\ l' = l /\ is_ok r = false)
  \/ (task_may_move (le_Task e) to now
      /\ match (save_answer moved l).1 with
         | None => r = Ok moved
                   /\ l' = emit (OnTaskUpdated moved (last_task_transition (le_Task moved)))
                             ((put_task id moved l) <| l_store := (save_answer moved l).2 |>)
         | Some _ => is_ok r = false
                     /\ l' = (put_task id (created_by now e) l)
                               <| l_store := (save_answer moved l).2 |>
         end).
Proof.
  intros Hin Hok moved. unfold updateTaskStatus, ensureTaskLoaded. rewrite Hin.
  change (default e (l_tasks l !! id)) with (from_option Datatypes.id e (l_tasks l !! id)).
  rewrite Hin. change (from_option Datatypes.id e (Some e)) with e.
  destruct (update_task_locked now to actor source reason meta e) as [e1 err] eqn:Eu.
  pose proof Eu as Eu'. unfold update_task_locked in Eu. pose proof Hok as (_ & Hg & _).
  destruct (TaskSpec_ApplyTransition (le_Task e) to now actor source reason meta) as [t' er] eqn:Ea.
  pose proof Ea as Ea'.
  apply task_transition_good in Ea as (_ & _ & [(-> & -> & Hm)|[[x ->] ->]]); [| |done].
  - injection Eu as <- <-. fold moved.
    rewrite store_save_task_eq. change (save_answer moved (put_task id moved l)) with (save_answer moved l).
    destruct (fst (save_answer moved l)); right; (split; [done|]); (split; [done|]); [|done].
    cbn [l_tasks put_task setf set_l_tasks set_l_store]. rewrite lookup_insert_eq.
    change (default moved (Some moved)) with moved.
    rewrite (update_rollback_exact id e now to actor source reason meta moved Hok Eu').
    unfold put_task. cbn. by rewrite insert_insert_eq.
  - injection Eu as <- <-. left. split.
    + intros Hm. destruct (task_apply_cases (le_Task e) to now actor source reason meta)
        as [[_ He]|[Hn _]]; [congruence|done].
    + split; [|done]. rewrite put_task_same; [done|]. rewrite Hin. f_equal. by destruct e.
Qed.

Lemma store_save_task_frame e (l l' : Ledger S) err :
  store_save_task e l = (l', err) -> exists s, l' = l <| l_store := s |>.
Proof. rewrite store_save_task_eq. intros [= <- _]. by eexists. Qed.

Lemma store_save_run_frame e (l l' : Ledger S) err :
  store_save_run e l = (l', err) -> exists s, l' = l <| l_store := s |>.
Proof.
  unfold store_save_run. destruct (l_store l) as [s|] eqn:E.
  - destruct (SaveRun s e) as [s' x]. intros [= <- _]. by eexists.
  - intros [= <- _]. exists None. destruct l; cbn in *. by rewrite E.
Qed.

(** Creating a run of a cached task under a new identifier is all or nothing.  On
    success the run is the next attempt of the task, filed in the run table,
    appended to the task's runs, made its current and last run, and announced to
    the observers; on any error (the attempt is refused, or the store fails on the
    run or on the task) the caches are what they were and no observer is called.
    What the store holds after a failure is up to the store. *)
Theorem create_run_commits_or_rolls_back now id runID trigger actor source l e :
  l_tasks l !! id = Some e -> task_entry_ok id e -> l_runs l !! runID = None ->
  let '(l', r) := CreateRun now id runID trigger actor source l in
  match r with
  | Ok re =>
    NewTaskRunAttempt (le_Task e) runID (le_Runs e) now trigger actor source = Ok (re_Run re)
    /\ l_tasks l' = <[id := create_run_entry now runID (re_Run re) e]> (l_tasks l)
    /\ l_runs l' = <[runID := re]> (l_runs l)
    /\ l_events l' = l_events l ++ [OnRunCreated re]
  | Err _ => l_tasks l' = l_tasks l /\ l_runs l' = l_runs l /\ l_events l' = l_events l
  end.
Proof.
  intros Hin Hok Hnew. unfold CreateRun, ensureTaskLoaded. rewrite Hin. cbn match. rewrite Hin.
  rewrite checks_normalized_good by apply Hok.
  replace (e <| le_Task := le_Task e |>) with e by by destruct e.
  destruct (NewTaskRunAttempt _ _ _ _ _ _ _) as [run|x] eqn:En;
    [|cbn; split; [by rewrite insert_id|done]].
  cbv zeta. set (re := mkRunEntry run _ _ _ _). set (te := create_run_entry now runID run e).
  set (back := fun l0 : Ledger S => put_task id (create_run_rollback (ts_CurrentRunID (le_Task e))
    (ts_LastRunID (le_Task e)) (le_UpdatedAt e) (default te (l_tasks l0 !! id))) (drop_run runID l0)).
  assert (forall s, let l0 := back ((put_task id te (put_run runID re l)) <| l_store := s |>) in
            l_tasks l0 = l_tasks l /\ l_runs l0 = l_runs l /\ l_events l0 = l_events l) as Hback.
  { intros s. cbn. rewrite lookup_insert_eq. cbn. unfold te. rewrite create_run_rollback_exact.
    rewrite insert_insert_eq, insert_id by done. by rewrite delete_insert_id. }
  destruct (store_save_run re _) as [l1 err1] eqn:E1. apply store_save_run_frame in E1 as [s1 ->].
  destruct err1 as [x|]; [apply Hback|].
  destruct (store_save_task te _) as [l2 err2] eqn:E2. apply store_save_task_frame in E2 as [s2 ->].
  destruct err2 as [x|]; [apply (Hback s2)|]. cbn. auto.
Qed.
End Updates.

(** *** Two updates interleaved *)

Lemma rollback_fields tr u1 u2 e :
  ts_Transitions (le_Task (update_task_rollback tr u1 u2 e)) = removelast (ts_Transitions (le_Task e))
  /\ ts_Status (le_Task (update_task_rollback tr u1 u2 e)) = tt_From tr.
Proof.
  unfold update_task_rollback. cbn. split; [|done].
  by destruct (ts_Transitions (le_Task e)) eqn:E; cbn; rewrite ?E.
Qed.

Lemma locked_fields e now to actor source reason meta e' :
  good_task (le_Task e) -> update_task_locked now to actor source reason meta e = (e', None) ->
  task_may_move (le_Task e) to now
  /\ exists tr, tt_From tr = ts_Status (le_Task e) /\ tt_To tr = to
       /\ last_task_transition (le_Task e') = tr
       /\ ts_Transitions (le_Task e') = ts_Transitions (le_Task e) ++ [tr].
Proof.
  intros Hg. unfold update_task_locked.
  destruct (TaskSpec_ApplyTransition _ _ _ _ _ _ _) as [t' er] eqn:Ea.
  apply task_transition_good in Ea as (_ & _ & [(-> & -> & Hm)|[[x ->] _]]); [| |done]; [|done].
  intros [= <-]. split; [done|]. cbn -[last_task_transition task_moved].
  rewrite last_task_moved by done. eexists (mkTaskTransition _ _ _ _ _ _ _).
  split; [reflexivity|]. split; [reflexivity|].
  split; [reflexivity|]. cbn. by rewrite norm_task_status_id by by apply good_task_status.
Qed.

(** The rollback of a failed update is not safe against a concurrent one: if a
    second update of the same task passes its critical section while the first
    waits for the store, and the first then fails and rolls back, the task is
    left with the first update's old status, while its history has lost the second
    update's transition and still holds the first's, although that was undone. *)
Theorem concurrent_rollback_breaks_history id e e1 e2 now1 to1 ac1 so1 re1 m1 now2 to2 ac2 so2 re2 m2 :
  task_entry_ok id e ->
  update_task_locked now1 to1 ac1 so1 re1 m1 e = (e1, None) ->
  update_task_locked now2 to2 ac2 so2 re2 m2 e1 = (e2, None) ->
  let e3 := update_task_rollback (last_task_transition (le_Task e1)) (ts_UpdatedAt (le_Task e))
              (le_UpdatedAt e) e2 in
  ts_Status (le_Task e3) = ts_Status (le_Task e)
  /\ ts_Transitions (le_Task e3) = ts_Transitions (le_Task e) ++ [last_task_transition (le_Task e1)]
  /\ tt_To (last_task_transition (le_Task e3)) <> ts_Status (le_Task e3).
Proof.
  intros Hok H1 H2. pose proof (update_task_locked_ok _ _ _ _ _ _ _ _ _ _ Hok H1) as (_ & Hg1 & _).
  destruct Hok as (_ & Hg & _).
  destruct (locked_fields _ _ _ _ _ _ _ _ Hg H1) as (Hm & tr1 & Hf1 & Ht1 & Hl1 & Htr1).
  destruct (locked_fields _ _ _ _ _ _ _ _ Hg1 H2) as (_ & tr2 & _ & _ & _ & Htr2).
  cbv zeta. rewrite Hl1. destruct (rollback_fields tr1 (ts_UpdatedAt (le_Task e)) (le_UpdatedAt e) e2)
    as [-> ->]. rewrite Htr2, removelast_last, Htr1. split; [done|]. split; [done|].
  unfold last_task_transition.
  destruct (rollback_fields tr1 (ts_UpdatedAt (le_Task e)) (le_UpdatedAt e) e2) as [-> _].
  rewrite Htr2, removelast_last, Htr1, List.last_last, Ht1, Hf1. intros ->.
  destruct Hm as [Ha _]. rewrite norm_task_status_id in Ha by by apply good_task_status.
  rewrite allowed_task_irrefl in Ha; [discriminate|].
  apply allowed_task_to, orb_false_iff in Ha as [Ha _]. by apply String.eqb_neq.
Qed.

(** ** Cancellation *)

Definition canonical (r : TaskRun) : Prop := tr_Status r ∈ TaskRunStatus_values.

Lemma cancel_allowed s :
  s ∈ TaskRunStatus_values -> isTerminalRunStatus s = false ->
  AllowedTaskRunTransition s TaskRunStatusCancelled = true.
Proof.
  intros Hs. assert (forallb (fun s => isTerminalRunStatus s
      || AllowedTaskRunTransition s TaskRunStatusCancelled) TaskRunStatus_values = true) as Hall
    by (vm_compute; reflexivity).
  rewrite forallb_forall in Hall. rewrite list_elem_of_In in Hs. specialize (Hall s Hs).
  cbv beta in Hall. intros H. by rewrite H in Hall.
Qed.

Lemma cancel_run_moves r now actor reason :
  good_run r -> canonical r -> isTerminalRunStatus (tr_Status r) = false -> 0 < now ->
  tr_Status (TaskRun_ApplyTransition r TaskRunStatusCancelled now actor "ledger" reason None).1
  = TaskRunStatusCancelled.
Proof.
  intros (_ & _ & Hv & _) Hc Ht Hn.
  destruct (run_apply_cases r TaskRunStatusCancelled now actor "ledger" reason None)
    as [[_ ->]|[Hno _]].
  - unfold run_moved. by rewrite TaskRun_Normalize_fields.
  - exfalso. apply Hno. split; [|split; [discriminate|done]].
    rewrite norm_run_status_id by done. by apply cancel_allowed.
Qed.

(** The identifiers the loop of [CancelTask] visits end up terminal; terminal runs
    stay, and the others are not touched. *)
Lemma cancel_runs_terminal now actor reason entry todo runs rs runs' persist :
  0 < now -> Forall (fun r => good_run r /\ canonical r) todo ->
  runs_ok runs -> (forall k re, runs !! k = Some re -> canonical (re_Run re)) ->
  cancel_runs now actor reason entry todo runs = (rs, runs', persist) ->
  (forall r, r ∈ todo -> exists re, runs' !! tr_RunID r = Some re
                                    /\ isTerminalRunStatus (tr_Status (re_Run re)) = true)
  /\ (forall k re, runs !! k = Some re -> isTerminalRunStatus (tr_Status (re_Run re)) = true ->
        runs' !! k = Some re)
  /\ (forall k, k ∉ map tr_RunID todo -> runs' !! k = runs !! k).
Proof.
  intros Hn Ht. revert runs rs runs' persist.
  induction Ht as [|run todo [Hg Hcan] Ht IH]; intros runs rs runs' persist Hr Hc Hcr;
    cbn [cancel_runs] in Hcr.
  { injection Hcr as <- <- <-. split; [|done]. intros r Hin. by apply not_elem_of_nil in Hin. }
  pose proof Hg as (Hid & _). rewrite Hid in Hcr. cbv zeta in Hcr.
  set (re := default (embedded_run entry run) (runs !! tr_RunID run)) in *.
  assert (run_entry_ok (tr_RunID run) re /\ canonical (re_Run re)) as [Hre Hcre].
  { unfold re. destruct (runs !! tr_RunID run) eqn:E; [by split; [apply Hr|eapply Hc]|].
    split; [by apply embedded_run_ok|done]. }
  (* both branches file an entry [re'] that is terminal under the identifier *)
  assert (exists re' rs' p', run_entry_ok (tr_RunID run) re' /\ canonical (re_Run re')
    /\ isTerminalRunStatus (tr_Status (re_Run re')) = true
    /\ (isTerminalRunStatus (tr_Status (re_Run re)) = true -> re' = re)
    /\ cancel_runs now actor reason entry todo (<[tr_RunID run := re']> runs) = (rs', runs', p'))
    as (re' & rs' & p' & Hok' & Hcan' & Hterm & Hsame & Hrec).
  { destruct (isTerminalRunStatus (tr_Status (re_Run re))) eqn:E; cbn [negb] in Hcr.
    - destruct (cancel_runs _ _ _ _ todo _) as [[rs1 runs1] p1] eqn:E1.
      injection Hcr as <- <- <-. by exists re, rs1, p1.
    - pose proof (cancel_run_moves (re_Run re) now actor reason (proj2 Hre) Hcre E Hn) as Hst.
      destruct (TaskRun_ApplyTransition _ _ _ _ _ _ _) as [run' err] eqn:Ea.
      destruct Hre as [Hid0 Hg0]. apply run_transition_good in Ea as (Hg' & Hid' & _); [|done].
      cbn in Hst.
      destruct (cancel_runs _ _ _ _ todo _) as [[rs1 runs1] p1] eqn:E1.
      injection Hcr as <- <- <-. eexists _, rs1, p1.
      split; [|split; [|split; [|split; [discriminate|exact E1]]]]; cbn.
      + split; [cbn; by rewrite Hid'|done].
      + unfold canonical. rewrite Hst. decide_member.
      + by rewrite Hst. }
  apply IH in Hrec as (H1 & H2 & H3).
  - split; [|split].
    + intros r [->|Hin]%elem_of_cons; [|by apply H1]. exists re'. split; [|done].
      apply H2; [by rewrite lookup_insert_eq|done].
    + intros k x Hk Hx. apply H2; [|done]. destruct (decide (k = tr_RunID run)) as [->|].
      * rewrite lookup_insert_eq. f_equal. assert (re = x) as Heq by (unfold re; by rewrite Hk).
        rewrite <- Heq. apply Hsame. by rewrite Heq.
      * by rewrite lookup_insert_ne.
    + intros k. cbn. rewrite not_elem_of_cons. intros [Hne Hk]. rewrite H3 by done.
      by rewrite lookup_insert_ne.
  - by apply runs_ok_insert.
  - intros k x. destruct (decide (k = tr_RunID run)) as [->|].
    + rewrite lookup_insert_eq. by intros [= <-].
    + rewrite lookup_insert_ne by done. apply Hc.
Qed.

Lemma cancel_entry_fields id now actor reason e e' tr :
  task_entry_ok id e -> 0 < now -> cancel_entry now actor reason e = (e', tr) ->
  ts_Status (le_Task e')
    = (if AllowedTaskTransition (ts_Status (le_Task e)) TaskStatusCancelled
       then TaskStatusCancelled else ts_Status (le_Task e))
  /\ blank (ts_CurrentRunID (le_Task e')) = true.
Proof.
  intros (_ & Hg & _) Hn. unfold cancel_entry. cbv zeta.
  set (p := if AllowedTaskTransition _ _ then _ else (e, None)).
  assert (ts_Status (le_Task p.1)
          = (if AllowedTaskTransition (ts_Status (le_Task e)) TaskStatusCancelled
             then TaskStatusCancelled else ts_Status (le_Task e))
          /\ ts_CurrentRunID (le_Task p.1) = ts_CurrentRunID (le_Task e)) as [Hst Hcur].
  { unfold p. destruct (AllowedTaskTransition (ts_Status (le_Task e)) TaskStatusCancelled) eqn:Ha;
      [|done].
    destruct (task_apply_cases (le_Task e) TaskStatusCancelled now actor "ledger" reason None)
      as [[_ ->]|[Hno _]].
    - cbn. unfold task_moved. by rewrite TaskSpec_Normalize_fields.
    - exfalso. apply Hno. split; [|split; [discriminate|done]].
      by rewrite norm_task_status_id by by apply good_task_status. }
  destruct p as [e1 tr1]. cbn [fst] in Hst, Hcur. intros [= <- <-].
  destruct (String.eqb_spec (TrimSpace (ts_CurrentRunID (le_Task e))) "") as [Hb|Hb]; cbn [negb].
  - split; [done|]. rewrite Hcur. unfold blank. by rewrite Hb.
  - cbn. by split.
Qed.

Section Cancellation.
Context {S : Type} `{Store S}.

Lemma save_runs_frame es (l l' : Ledger S) err :
  save_runs es l = (l', err) -> l_tasks l' = l_tasks l /\ l_runs l' = l_runs l.
Proof.
  revert l. induction es as [|e es IH]; intros l; cbn; [by intros [= <- _]|].
  unfold store_save_run. destruct (l_store l) as [s|].
  - destruct (SaveRun s e) as [s' [x|]]; [by intros [= <- _]|]. intros Hs.
    by apply IH in Hs.
  - apply IH.
Qed.

(** A successful [CancelTask] leaves no embedded run alive: every run recorded in
    the task entry is terminal in the run table, the task is cancelled if its
    status allows it and keeps its status otherwise, it has no current run, and
    no other task and no run outside the entry is touched.  (The statuses of the
    runs are assumed to have their declared spelling.) *)
Theorem cancel_ends_every_embedded_run now id actor reason (l l' : Ledger S) e :
  tasks_ok (l_tasks l) -> runs_ok (l_runs l) -> 0 < now -> l_tasks l !! id = Some e ->
  Forall canonical (le_Runs e) ->
  (forall k re, l_runs l !! k = Some re -> canonical (re_Run re)) ->
  CancelTask now id actor reason l = (l', None) ->
  (forall r, r ∈ le_Runs e -> exists re, l_runs l' !! tr_RunID r = Some re
                                /\ isTerminalRunStatus (tr_Status (re_Run re)) = true)
  /\ (exists e', l_tasks l' !! id = Some e'
        /\ ts_Status (le_Task e')
           = (if AllowedTaskTransition (ts_Status (le_Task e)) TaskStatusCancelled
              then TaskStatusCancelled else ts_Status (le_Task e))
        /\ blank (ts_CurrentRunID (le_Task e')) = true)
  /\ (forall k, k <> id -> l_tasks l' !! k = l_tasks l !! k)
  /\ (forall k, k ∉ map tr_RunID (le_Runs e) -> l_runs l' !! k = l_runs l !! k).
Proof.
  intros Hts Hrs Hn Hin Hcan Hcr. pose proof (Hts _ _ Hin) as He. pose proof He as (Hid & Hg & Hruns).
  unfold CancelTask, ensureTaskLoaded. rewrite Hin. cbv beta iota. rewrite Hin.
  destruct (cancel_runs _ _ _ _ _ _) as [[rs runs] persist] eqn:Ec.
  pose proof Ec as Ec'. apply cancel_runs_terminal in Ec' as (H1 & _ & H3); [|done| |done|done].
  2: { apply Forall_and. by split. }
  destruct (cancel_entry _ _ _ _) as [e1 tr] eqn:Ee.
  assert (task_entry_ok id (e <| le_Runs := rs |>)) as He'.
  { split; [done|]. split; [done|]. by destruct (cancel_runs_ok _ _ _ _ _ _ _ _ _ Hruns Hrs Ec). }
  destruct (cancel_entry_fields _ _ _ _ _ _ _ He' Hn Ee) as [Hst Hcur].
  destruct (save_runs _ _) as [l3 err] eqn:Es. apply save_runs_frame in Es as [Ht3 Hr3].
  destruct err as [x|]; [discriminate|]. rewrite store_save_task_eq.
  destruct (fst (save_answer _ _)); [discriminate|]. intros [= <-]. cbn.
  rewrite Ht3, Hr3. cbn. split; [exact H1|]. split; [|split; [|exact H3]].
  - exists e1. rewrite lookup_insert_eq. split; [done|]. by split.
  - intros k Hk. by rewrite lookup_insert_ne.
Qed.
End Cancellation.

(** ** A concrete store

    Maps that can be told to refuse the next saves of tasks. *)

Record MapStore := mkMapStore {
  ms_tasks : gmap string LedgerEntry;
  ms_runs : gmap string RunEntry;
  ms_refuse_tasks : bool
}.

#[export] Instance map_store : Store MapStore := {
  SaveTask s e :=
    if ms_refuse_tasks s then (s, Some (Errorf "disk full" []))
    else (mkMapStore (<[ts_TaskID (le_Task e) := e]> (ms_tasks s)) (ms_runs s) false, None);
  LoadTask s id := (s, Ok (ms_tasks s !! id));
  SaveRun s e :=
    (mkMapStore (ms_tasks s) (<[tr_RunID (re_Run e) := e]> (ms_runs s)) (ms_refuse_tasks s), None);
  LoadRun s id := (s, Ok (ms_runs s !! id))
}.

#[export] Instance map_store_laws : StoreLaws MapStore.
Proof.
  refine {| store_ok := fun s => tasks_ok (ms_tasks s) /\ runs_ok (ms_runs s) |}.
  - intros s id e [Ht Hr] [Hid He]. cbn. destruct (ms_refuse_tasks s); [done|]. split; [|done].
    apply tasks_ok_insert; [done|]. by split.
  - intros s id e [Ht Hr] [Hid He]. cbn. split; [done|]. apply runs_ok_insert; [done|]. by apply own_run_entry_ok.
  - intros s id [Ht Hr]. cbn. split; [done|]. intros e [= He]. by apply Ht.
  - intros s id [Ht Hr]. cbn. split; [done|]. intros e [= He]. by apply Hr.
Defined.

#[export] Instance map_listing : ListingStore MapStore := {
  Store_ListTasks s opts := (s, Ok <$> list_tasks (ms_tasks s) opts);
  Store_ListRuns s opts := (s, Ok <$> list_runs (ms_runs s) opts)
}.

#[export] Instance map_listing_laws : ListingLaws MapStore.
Proof.
  split; intros s opts [Ht Hr]; cbn; (split; [done|]); intros es Hes; apply Forall_forall; intros e He.
  - destruct (list_tasks (ms_tasks s) opts) as [es'|] eqn:E; [|discriminate Hes]. injection Hes as [= ->].
    destruct (listed_task _ _ _ _ E He) as [[id Hid] _]. destruct (Ht _ _ Hid) as [<- H]. by split.
  - destruct (list_runs (ms_runs s) opts) as [es'|] eqn:E; [|discriminate Hes]. injection Hes as [= ->].
    destruct (listed_run _ _ _ _ E He) as [[id Hid] _]. by eapply run_entry_ok_own, Hr.
Qed.

Definition empty_store : MapStore := mkMapStore ∅ ∅ false.
Definition full_store : MapStore := mkMapStore ∅ ∅ true.

Lemma empty_store_ok s : Some empty_store = Some s -> store_ok s.
Proof. intros [= <-]. split; intros id e; cbn; by rewrite lookup_empty. Qed.

(** ** Concrete histories *)

Definition ledger1 : Ledger MapStore :=
  (CreateTask 5 sample_task "manual" "" (NewLedger (Some empty_store))).1.
Definition ledger2 : Ledger MapStore := (CreateRun 6 "t1" "r1" "" "" "" ledger1).1.

Lemma ledger2_history : rtc ledger_step (NewLedger (Some empty_store)) ledger2.
Proof.
  eapply rtc_l; [apply (do_CreateTask _ 5 sample_task "manual" "")|].
  apply rtc_once. exact (do_CreateRun ledger1 6 "t1" "r1" "" "" "").
Qed.

(** The entry of the task in the ledger. *)
Definition entry_of (l : Ledger MapStore) (id : string) : LedgerEntry :=
  default (mkLedgerEntry zero_task "" "" [] 0 0) (l_tasks l !! id).

(** A run created under an identifier with white space, and a listing behind it. *)
Definition ledger3 : Ledger MapStore :=
  (ListTasks (mkListTasksOptions [] [] "" "" "" "" 0 0 "" false) (CreateRun 6 "t1" " r1" "" "" "" ledger1).1).1.

Lemma ledger3_history : rtc ledger_step (NewLedger (Some empty_store)) ledger3.
Proof.
  eapply rtc_l; [apply (do_CreateTask _ 5 sample_task "manual" "")|].
  eapply rtc_l; [exact (do_CreateRun ledger1 6 "t1" " r1" "" "" "")|].
  apply rtc_once, do_ListTasks.
Qed.

Lemma ledger_always_well_formed_witness :
  map fst (map_to_list (l_runs ledger3)) = ["r1"; " r1"]
  /\ exists e, l_tasks ledger3 !! "t1" = Some e
       /\ ts_TaskID (le_Task e) = "t1" /\ TaskSpec_Validate (le_Task e) = None
       /\ TaskSpec_Normalize (le_Task e) = le_Task e /\ Forall good_run (le_Runs e).
Proof.
  assert (l_tasks ledger3 !! "t1" = Some (entry_of ledger3 "t1")) as He by (vm_compute; reflexivity).
  split; [vm_compute; reflexivity|]. exists (entry_of ledger3 "t1"). split; [exact He|].
  exact (proj1 (ledger_always_well_formed (Some empty_store) ledger3 empty_store_ok ledger3_history) "t1" _ He).
Defined.

Lemma ledger2_ok : ledger_ok ledger2.
Proof.
  pose proof (new_ledger_ok (Some empty_store) empty_store_ok) as Hok.
  pose proof ledger2_history as Hr. induction Hr as [|l l1 l2 Hstep Hr IH]; [done|]. by eapply IH, ledger_step_ok.
Qed.

Lemma ledger2_entry : l_tasks ledger2 !! "t1" = Some (entry_of ledger2 "t1").
Proof. vm_compute. reflexivity. Qed.

Lemma ledger2_entry_ok : task_entry_ok "t1" (entry_of ledger2 "t1").
Proof. destruct ledger2_ok as [Ht _]. apply Ht, ledger2_entry. Qed.

Lemma status_update_commits_or_rolls_back_witness :
  is_ok (updateTaskStatus 9 "t1" TaskStatusReady "" "" "" None ledger2).2 = true.
Proof.
  pose proof (status_update_commits_or_rolls_back 9 "t1" TaskStatusReady "" "" "" None ledger2
    (entry_of ledger2 "t1") ledger2_entry ledger2_entry_ok) as H.
  destruct (updateTaskStatus 9 "t1" TaskStatusReady "" "" "" None ledger2) as [l' r].
  destruct H as [(Hn & _)|(_ & H)].
  - exfalso. apply Hn. split; [vm_compute; reflexivity|].
    split; [intros Hx; discriminate Hx|exact eq_refl].
  - destruct (fst (save_answer _ ledger2)) eqn:E; [vm_compute in E; discriminate|].
    destruct H as [-> _]. reflexivity.
Defined.

Lemma create_run_commits_or_rolls_back_witness :
  exists re, (CreateRun 7 "t1" "r2" "manual" "" "" ledger2).2 = Ok re
             /\ tr_Attempt (re_Run re) = 2
             /\ l_runs (CreateRun 7 "t1" "r2" "manual" "" "" ledger2).1 !! "r2" = Some re.
Proof.
  pose proof (create_run_commits_or_rolls_back 7 "t1" "r2" "manual" "" "" ledger2
    (entry_of ledger2 "t1") ledger2_entry ledger2_entry_ok) as H.
  destruct (CreateRun 7 "t1" "r2" "manual" "" "" ledger2) as [l' [re|x]] eqn:E;
    [|vm_compute in E; discriminate].
  exists re. split; [done|]. destruct H as (Ha & _ & Hr & _); [vm_compute; reflexivity|].
  split; [|cbn [fst]; rewrite Hr; apply lookup_insert_eq].
  apply (f_equal (fun r => match r with Ok run => tr_Attempt run | Err _ => 0 end)) in Ha.
  vm_compute in Ha. exact (eq_sym Ha).
Defined.

(** Two concurrent updates: pending to ready, then ready to in progress. *)
Definition moved_once : LedgerEntry :=
  (update_task_locked 9 TaskStatusReady "" "" "" None (entry_of ledger2 "t1")).1.
Definition moved_twice : LedgerEntry :=
  (update_task_locked 10 TaskStatusInProgress "" "" "" None moved_once).1.

Lemma concurrent_rollback_breaks_history_witness :
  let e := entry_of ledger2 "t1" in
  let e3 := update_task_rollback (last_task_transition (le_Task moved_once))
              (ts_UpdatedAt (le_Task e)) (le_UpdatedAt e) moved_twice in
  ts_Status (le_Task e3) = TaskStatusPending
  /\ tt_To (last_task_transition (le_Task e3)) <> ts_Status (le_Task e3).
Proof.
  destruct (concurrent_rollback_breaks_history "t1" (entry_of ledger2 "t1") moved_once moved_twice
    9 TaskStatusReady "" "" "" None 10 TaskStatusInProgress "" "" "" None ledger2_entry_ok)
    as (H1 & _ & H3); [vm_compute; reflexivity|vm_compute; reflexivity|].
  cbv zeta. split; [rewrite H1; vm_compute; reflexivity|exact H3].
Defined.

Definition run1 : RunEntry := default (mkRunEntry zero_run "" "" 0 0) (l_runs ledger2 !! "r1").

Lemma ledger2_runs : l_runs ledger2 = {["r1" := run1]}.
Proof. vm_compute. reflexivity. Qed.

Lemma ledger2_canonical k re : l_runs ledger2 !! k = Some re -> canonical (re_Run re).
Proof.
  rewrite ledger2_runs. intros [_ <-]%lookup_singleton_Some.
  apply (bool_decide_unpack _). vm_compute. exact I.
Qed.

Lemma cancel_ends_every_embedded_run_witness :
  exists re, l_runs (CancelTask 20 "t1" "" "" ledger2).1 !! "r1" = Some re
             /\ isTerminalRunStatus (tr_Status (re_Run re)) = true.
Proof.
  destruct (CancelTask 20 "t1" "" "" ledger2) as [l' [x|]] eqn:E;
    [vm_compute in E; discriminate|].
  destruct ledger2_ok as (Ht & Hr & _).
  destruct (cancel_ends_every_embedded_run 20 "t1" "" "" ledger2 l' (entry_of ledger2 "t1") Ht Hr)
    as [H _]; [lia|exact ledger2_entry| |exact ledger2_canonical|exact E|].
  - apply (bool_decide_unpack _). vm_compute. exact I.
  - apply (H (re_Run run1)). vm_compute. constructor.
Defined.

(** *** What the operations do not check *)

(** [CreateTask] looks for the identifier in the cache only: a fresh ledger over a
    store that already holds the task overwrites it. *)
Example create_task_overwrites_stored_task :
  let stored := mkLedgerEntry sample_completed "manual" "" [] 1 2 in
  let store := mkMapStore {["t1" := stored]} ∅ false in
  let '(l, r) := CreateTask 5 sample_task "manual" "" (NewLedger (Some store)) in
  is_ok r = true
  /\ (s ← l_store l; e ← ms_tasks s !! "t1"; Some (ts_Status (le_Task e))) = Some TaskStatusPending.
Proof. vm_compute. split; reflexivity. Qed.

(** [CreateRun] compares the new identifier with the runs of its own task only: a
    second task can take over the identifier of another task's run, whose entry
    in the run table is lost. *)
Example create_run_takes_over_identifier :
  let l := (CreateTask 7 (sample_task <| ts_TaskID := "t2" |>) "manual" "" ledger2).1 in
  let '(l', r) := CreateRun 8 "t2" "r1" "" "" "" l in
  is_ok r = true
  /\ (e ← l_runs l !! "r1"; Some (tr_TaskID (re_Run e))) = Some "t1"
  /\ (e ← l_runs l' !! "r1"; Some (tr_TaskID (re_Run e))) = Some "t2".
Proof. vm_compute. repeat split. Qed.

(** [CreateRun] files the run under the identifier as given, while the run itself
    carries the trimmed one. *)
Example create_run_untrimmed_key :
  let l := (CreateRun 6 "t1" " r1" "" "" "" ledger1).1 in
  l_runs l !! "r1" = None /\ (e ← l_runs l !! " r1"; Some (tr_RunID (re_Run e))) = Some "r1".
Proof. vm_compute. split; reflexivity. Qed.

(** A [CreateRun] that fails to save the task reports an error and forgets the run,
    but the store keeps it, and the next [GetRun] returns it. *)
Example failed_create_run_comes_back :
  let l := ledger1 <| l_store := (fun s => mkMapStore (ms_tasks s) (ms_runs s) true) <$> l_store ledger1 |> in
  let '(l1, r) := CreateRun 6 "t1" "r1" "" "" "" l in
  is_ok r = false /\ l_runs l1 !! "r1" = None /\ is_ok (GetRun "r1" l1).2 = true.
Proof. vm_compute. repeat split. Qed.

(** [CancelTask] cancels the runs embedded in the task entry: a run of the task that
    is only in the run table stays active. *)
Example cancel_misses_unembedded_run :
  let run := sample_run <| tr_RunID := "r9" |> <| tr_TaskID := "t1" |>
                        <| tr_Status := TaskRunStatusRunning |> in
  let l := (SaveRunState 4 run "" "" (NewLedger (Some (mkMapStore
              {["t1" := entry_of ledger1 "t1"]} ∅ false)))).1 in
  let '(l', err) := CancelTask 20 "t1" "" "" l in
  err = None /\ (e ← l_runs l' !! "r9"; Some (tr_Status (re_Run e))) = Some TaskRunStatusRunning.
Proof. vm_compute. repeat split. Qed.
