(* ===== verification/LedgerLineage.v ===== *)
(** Lineage queries of the ledger: the closure [collect] of [GetTaskLineage] visits
    exactly the tasks below the one it is asked for, each once. *)

From Stdlib Require Import String.
From stdpp Require Import base tactics decidable list gmap strings relations.
From S2P Require Import Prelude Enums Verification Budget TaskModels Lifecycle LedgerModels Ledger LedgerInvariant LedgerProps.

Section Lineage.
Variable tasks : gmap string LedgerEntry.

(** [b] is a direct subtask of [a], and both are in the table. *)
Definition parent_of (a b : string) : Prop :=
  is_Some (tasks !! a)
  /\ exists e, tasks !! b = Some e /\ ts_ParentTaskID (le_Task e) = a.

Hypothesis filed : forall id e, tasks !! id = Some e -> ts_TaskID (le_Task e) = id.

Lemma children_spec a b :
  is_Some (tasks !! a) -> b ∈ children tasks a <-> parent_of a b.
Proof.
  intros Ha. unfold children, parent_of. rewrite list_elem_of_fmap.
  setoid_rewrite elem_of_filter_b. setoid_rewrite list_elem_of_fmap.
  setoid_rewrite String.eqb_eq. split.
  - intros (e & -> & ((k & e') & -> & Hin%elem_of_map_to_list) & Hp).
    split; [done|]. exists e'. cbn. by rewrite (filed _ _ Hin).
  - intros [_ (e & He & Hp)]. exists e. split; [by rewrite (filed _ _ He)|].
    split; [|done]. exists (b, e). split; [done|]. by apply elem_of_map_to_list.
Qed.

(** What one visit, or a series of visits of the identifiers [from], adds to the
    visited set [V] and to the lineage [L]. *)
Record grown (from : list string) (V : gset string) (L : list LedgerEntry)
    (V' : gset string) (L' : list LedgerEntry) : Prop := mkGrown {
  grown_more : V ⊆ V';
  grown_from : forall r, r ∈ from -> r ∈ V';
  grown_reach : forall x, x ∈ V' -> x ∈ V \/ exists r, r ∈ from /\ rtc parent_of r x;
  grown_closed : forall x y, x ∈ V' -> x ∉ V -> parent_of x y -> y ∈ V';
  grown_list : exists M, L' = (L ++ M)%list
      /\ NoDup (map (fun e => ts_TaskID (le_Task e)) M)
      /\ forall e, e ∈ M <-> (exists x, x ∈ V' /\ (x ∉ V) /\ tasks !! x = Some e)
}.

Lemma grown_nil V L : grown [] V L V L.
Proof.
  constructor; try done.
  - intros r Hr. by apply not_elem_of_nil in Hr.
  - by left.
  - exists []. rewrite app_nil_r. split; [done|]. split; [constructor|].
    intros e. split; [intros He; by apply not_elem_of_nil in He|]. by intros (x & ? & ? & _).
Qed.

(** Visits compose. *)
Lemma grown_app f1 f2 V L V1 L1 V2 L2 :
  grown f1 V L V1 L1 -> grown f2 V1 L1 V2 L2 -> grown (f1 ++ f2) V L V2 L2.
Proof.
  intros [Hm1 Hf1 Hr1 Hc1 (M1 & -> & Hn1 & Hl1)] [Hm2 Hf2 Hr2 Hc2 (M2 & -> & Hn2 & Hl2)].
  constructor.
  - etrans; eauto.
  - intros r [?|?]%elem_of_app; auto.
  - intros x [[?|(r & ? & ?)]%Hr1|(r & ? & ?)]%Hr2; [by left| |]; right; exists r;
      rewrite elem_of_app; auto.
  - intros x y Hx Hn Hp. destruct (decide (x ∈ V1)); eauto.
  - exists (M1 ++ M2). rewrite app_assoc. split; [done|]. split.
    + rewrite map_app. apply NoDup_app. split; [done|]. split; [|done].
      intros i (e1 & -> & (x1 & ? & ? & H1)%Hl1)%list_elem_of_fmap
               (e2 & He & (x2 & ? & ? & H2)%Hl2)%list_elem_of_fmap.
      apply filed in H1, H2. assert (x1 = x2) as -> by congruence. done.
    + intros e. rewrite elem_of_app, Hl1, Hl2. split.
      * intros [(x & ? & ? & ?)|(x & ? & ? & ?)]; exists x; set_solver.
      * intros (x & ? & ? & ?). destruct (decide (x ∈ V1)); [left|right]; exists x; auto.
Qed.

(** Visiting an identifier that is not in the table only marks it. *)
Lemma grown_absent id V L : tasks !! id = None -> grown [id] V L ({[id]} ∪ V) L.
Proof.
  intros Hid. constructor.
  - set_solver.
  - set_solver.
  - intros x [->%elem_of_singleton|?]%elem_of_union; [right|by left].
    exists id. split; [by constructor|done].
  - intros x y [->%elem_of_singleton|?]%elem_of_union ? [[e He] _]; [congruence|done].
  - exists []. rewrite app_nil_r. split; [done|]. split; [constructor|].
    intros e. split; [intros He; by apply not_elem_of_nil in He|].
    intros (x & [->%elem_of_singleton|?]%elem_of_union & ? & ?); [congruence|done].
Qed.

(** Visiting an entry is listing it and visiting its children. *)
Lemma grown_entry id e V L V' L' :
  tasks !! id = Some e -> id ∉ V ->
  grown (children tasks id) ({[id]} ∪ V) (L ++ [e]) V' L' -> grown [id] V L V' L'.
Proof.
  intros Hid Hnew [Hm Hf Hr Hc (M & -> & Hn & Hl)].
  assert (is_Some (tasks !! id)) as Hs by by exists e.
  assert (id ∈ V') as Hin by set_solver.
  constructor.
  - set_solver.
  - by intros r ->%list_elem_of_singleton.
  - intros x [[->%elem_of_singleton|?]%elem_of_union|(r & Hrc & Hp)]%Hr; [right|by left|right];
      exists id; (split; [by constructor|]); [done|].
    eapply rtc_l; [|exact Hp]. by apply children_spec.
  - intros x y Hx Hn' Hp. destruct (decide (x = id)) as [->|].
    + apply Hf, children_spec; [done|exact Hp].
    + apply (Hc x); [done| |done]. set_solver.
  - exists (e :: M). split; [by rewrite <- app_assoc|]. split.
    + cbn. apply NoDup_cons. split; [|done].
      intros (e' & He' & (x & ? & Hx & H')%Hl)%list_elem_of_fmap.
      rewrite (filed _ _ Hid) in He'. apply filed in H'. set_solver.
    + intros e'. rewrite elem_of_cons, Hl. split.
      * intros [->|(x & ? & ? & ?)]; [by exists id|]. exists x. set_solver.
      * intros (x & Hx & Hxn & H'). destruct (decide (x = id)) as [->|]; [left; congruence|right].
        exists x. set_solver.
Qed.

(** The tasks not visited yet, which bound the depth of the recursion. *)
Definition unvisited (V : gset string) : nat := size (dom tasks ∖ V).

Lemma unvisited_mono V V' : V ⊆ V' -> (unvisited V' <= unvisited V)%nat.
Proof. intros H. unfold unvisited. apply subseteq_size. set_solver. Qed.

Lemma unvisited_visit id e V :
  tasks !! id = Some e -> id ∉ V -> (unvisited ({[id]} ∪ V) < unvisited V)%nat.
Proof.
  intros Hid Hn. unfold unvisited. apply subset_size. apply (elem_of_dom_2 (D := gset string)) in Hid. set_solver.
Qed.

(** With more fuel than unvisited tasks the closure returns, and its visit has the
    effect above; so has a series of visits. *)
Definition collects (fuel : nat) : Prop := forall V L id,
  (unvisited V < fuel)%nat ->
  exists V' L', collect tasks fuel (V, L) id = Some (V', L') /\ grown [id] V L V' L'.

Lemma collect_all fuel ids V L :
  collects fuel -> (unvisited V < fuel)%nat ->
  exists V' L', fold_left (fun st id => st ≫= fun st => collect tasks fuel st id) ids (Some (V, L))
                = Some (V', L')
                /\ grown ids V L V' L'.
Proof.
  intros Hc. revert V L. induction ids as [|id ids IH]; intros V L Hf; cbn.
  - exists V, L. split; [done|apply grown_nil].
  - destruct (Hc V L id Hf) as (V1 & L1 & -> & H1).
    destruct (IH V1 L1) as (V2 & L2 & -> & H2).
    + pose proof (unvisited_mono _ _ (grown_more _ _ _ _ _ H1)). lia.
    + exists V2, L2. split; [done|]. by apply (grown_app [id] ids V L V1 L1).
Qed.

Lemma collect_spec fuel : collects fuel.
Proof.
  induction fuel as [|fuel IH]; intros V L id Hf; [lia|]. cbn [collect].
  destruct (decide (id ∈ V)) as [Hin|Hnew].
  { exists V, L. split; [done|]. destruct (grown_nil V L) as [? ? ? ? Hl].
    constructor; try done; [by intros r ->%list_elem_of_singleton|by left]. }
  destruct (tasks !! id) as [e|] eqn:Hid.
  - destruct (collect_all fuel (children tasks id) ({[id]} ∪ V) (L ++ [e])) as (V' & L' & Hr & Hg).
    + done.
    + pose proof (unvisited_visit _ _ _ Hid Hnew). lia.
    + exists V', L'. split; [exact Hr|]. by apply (grown_entry id e).
  - eexists _, L. split; [done|]. by apply grown_absent.
Qed.
End Lineage.

(** The lineage of a task is exact, whatever the parent links look like (cycles
    included): the traversal ends within its fuel, and returns each task that can
    be reached from [taskID] through parent links, [taskID] included, exactly
    once. *)
Theorem lineage_is_exact {S} (l : Ledger S) taskID :
  tasks_ok (l_tasks l) ->
  exists lineage, GetTaskLineage_run taskID l = Some lineage
    /\ GetTaskLineage taskID l = lineage
    /\ NoDup (map (fun e => ts_TaskID (le_Task e)) lineage)
    /\ forall e, e ∈ lineage <-> exists id, l_tasks l !! id = Some e
                                   /\ rtc (parent_of (l_tasks l)) taskID id.
Proof.
  intros Hok. assert (forall id e, l_tasks l !! id = Some e -> ts_TaskID (le_Task e) = id) as Hf.
  { intros id e He. by apply Hok in He as [? _]. }
  destruct (collect_spec (l_tasks l) Hf (Datatypes.S (Datatypes.S (size (l_tasks l)))) ∅ [] taskID)
    as (V & L & Hr & [_ Hfr Hre Hc (M & -> & Hn & Hl)]).
  { unfold unvisited. rewrite difference_empty_L, size_dom. lia. }
  exists M. unfold GetTaskLineage, GetTaskLineage_run. rewrite Hr. split; [done|]. split; [done|].
  split; [done|]. intros e. rewrite Hl. split.
  - intros (x & [Hx|(r & ->%list_elem_of_singleton & Hp)]%Hre & _ & He);
      [by apply not_elem_of_empty in Hx|]. by exists x.
  - intros (x & He & Hp). exists x. split; [|split; [apply not_elem_of_empty|done]].
    revert Hp. apply (rtc_ind_r (fun x => x ∈ V)).
    + apply Hfr. by constructor.
    + intros y z _ Hyz Hy. by apply (Hc y); [|apply not_elem_of_empty|].
Qed.

(** Two tasks that are each other's parent, and a subtask of the second. *)
Definition family : Ledger MapStore :=
  let create id parent l :=
    (CreateTask 5 (sample_task <| ts_TaskID := id |> <| ts_ParentTaskID := parent |>)
       "manual" "" l).1 in
  create "t3" "t2" (create "t2" "t1" (create "t1" "t2" (NewLedger (Some empty_store)))).

Lemma family_ok : ledger_ok family.
Proof.
  unfold family. cbv zeta. do 3 apply CreateTask_ok. by apply new_ledger_ok, empty_store_ok.
Qed.

Lemma lineage_is_exact_witness :
  exists lineage, GetTaskLineage "t1" family = lineage
    /\ map (fun e => ts_TaskID (le_Task e)) lineage = ["t1"; "t2"; "t3"].
Proof.
  destruct (lineage_is_exact family "t1" (proj1 family_ok)) as (lineage & _ & H & _).
  exists lineage. split; [exact H|]. rewrite <- H. vm_compute. reflexivity.
Defined.
