(* ===== verification/WorkflowModels.v ===== *)
(** Workflows: the data of internal/tasks/workflow.go and its sequential parts.

    Each critical section of the orchestrator (what runs between taking and
    releasing [o.mu]) is one definition on the run it works on; [Workflow] puts
    them together as a transition system of concurrent scheduling goroutines.
    A [*StepRun] into [run.Steps] is an index into the list.  Values that the code
    boxes into a [map[string]any] as structs, and the JSON decoding of
    [decodeTaskUsage], are section variables. *)

From Stdlib Require Import String.
From stdpp Require Import base tactics decidable list gmap strings.
From S2P Require Import Prelude Enums Verification Budget TaskModels Lifecycle LedgerModels Ledger.

(** ** Statuses and step types *)

Definition WorkflowStatusPending : string := "pending".
Definition WorkflowStatusRunning : string := "running".
Definition WorkflowStatusPaused : string := "paused".
Definition WorkflowStatusCompleted : string := "completed".
Definition WorkflowStatusFailed : string := "failed".
Definition WorkflowStatusCancelled : string := "cancelled".

Definition StepStatusPending : string := "pending".
Definition StepStatusReady : string := "ready".
Definition StepStatusRunning : string := "running".
Definition StepStatusBlocked : string := "blocked".
Definition StepStatusCompleted : string := "completed".
Definition StepStatusFailed : string := "failed".
Definition StepStatusSkipped : string := "skipped".

Definition StepTypeAgentTurn : string := "agent_turn".
Definition StepTypeACPDispatch : string := "acp_dispatch".
Definition StepTypeGatewayCall : string := "gateway_call".
Definition StepTypeWait : string := "wait".
Definition StepTypeApproval : string := "approval".
Definition StepTypeParallel : string := "parallel".
Definition StepTypeConditional : string := "conditional".

(** ** Definitions *)

(** [Backoff] is the bit pattern of the float64. *)
Record RetryPolicy := mkRetryPolicy {
  rp_MaxAttempts : Z;
  rp_DelayMS : Z;
  rp_Backoff : Z
}.

Record InputSpec := mkInputSpec {
  in_Type : string;
  in_Description : string;
  in_Required : bool;
  in_Default : any
}.

Record OutputSpec := mkOutputSpec {
  out_Type : string;
  out_Description : string;
  out_FromStep : string
}.

(** A step and its configuration, which may hold nested steps. *)
Inductive StepDefinition := mkStepDefinition {
  sd_ID : string;
  sd_Name : string;
  sd_Type : string;
  sd_Dependencies : list string;
  sd_Config : StepConfig;
  sd_Timeout : Z;
  sd_RetryPolicy : option RetryPolicy;
  sd_OnFailure : string;
  sd_Condition : string;
  sd_Meta : gomap any
}
with StepConfig := mkStepConfig {
  sc_AgentID : string;
  sc_Instructions : string;
  sc_ToolProfile : string;
  sc_EnabledTools : list string;
  sc_PeerPubKey : string;
  sc_Method : string;
  sc_Params : gomap any;
  sc_Duration : Z;
  sc_Until : string;
  sc_ApprovalMessage : string;
  sc_Approvers : list string;
  sc_Substeps : list StepDefinition;
  sc_TrueStep : option StepDefinition;
  sc_FalseStep : option StepDefinition
}.

Record WorkflowDefinition := mkWorkflowDefinition {
  wd_Version : Z;
  wd_ID : string;
  wd_Name : string;
  wd_Description : string;
  wd_Steps : list StepDefinition;
  wd_Inputs : gmap string InputSpec;
  wd_Outputs : gmap string OutputSpec;
  wd_Authority : TaskAuthority;
  wd_Budget : TaskBudget;
  wd_Timeout : Z;
  wd_Meta : gomap any;
  wd_CreatedAt : Z;
  wd_UpdatedAt : Z
}.

(** ** Runs *)

(** An execution instance of a step. *)
Record StepRun := mkStepRun {
  sr_StepID : string;
  sr_StepName : string;
  sr_Type : string;
  sr_Status : string;
  sr_Attempt : Z;
  sr_TaskID : string;
  sr_RunID : string;
  sr_Input : gomap any;
  sr_Output : gomap any;
  sr_Error : string;
  sr_StartedAt : Z;
  sr_EndedAt : Z;
  sr_Meta : gomap any
}.

#[export] Instance set_sr_Status : Setter sr_Status := fun v r =>
  mkStepRun (sr_StepID r) (sr_StepName r) (sr_Type r) v (sr_Attempt r) (sr_TaskID r) (sr_RunID
    r) (sr_Input r) (sr_Output r) (sr_Error r) (sr_StartedAt r) (sr_EndedAt r) (sr_Meta r).
#[export] Instance set_sr_Attempt : Setter sr_Attempt := fun v r =>
  mkStepRun (sr_StepID r) (sr_StepName r) (sr_Type r) (sr_Status r) v (sr_TaskID r) (sr_RunID
    r) (sr_Input r) (sr_Output r) (sr_Error r) (sr_StartedAt r) (sr_EndedAt r) (sr_Meta r).
#[export] Instance set_sr_TaskID : Setter sr_TaskID := fun v r =>
  mkStepRun (sr_StepID r) (sr_StepName r) (sr_Type r) (sr_Status r) (sr_Attempt r) v (sr_RunID
    r) (sr_Input r) (sr_Output r) (sr_Error r) (sr_StartedAt r) (sr_EndedAt r) (sr_Meta r).
#[export] Instance set_sr_RunID : Setter sr_RunID := fun v r =>
  mkStepRun (sr_StepID r) (sr_StepName r) (sr_Type r) (sr_Status r) (sr_Attempt r) (sr_TaskID
    r) v (sr_Input r) (sr_Output r) (sr_Error r) (sr_StartedAt r) (sr_EndedAt r) (sr_Meta r).
#[export] Instance set_sr_Output : Setter sr_Output := fun v r =>
  mkStepRun (sr_StepID r) (sr_StepName r) (sr_Type r) (sr_Status r) (sr_Attempt r) (sr_TaskID
    r) (sr_RunID r) (sr_Input r) v (sr_Error r) (sr_StartedAt r) (sr_EndedAt r) (sr_Meta r).
#[export] Instance set_sr_Error : Setter sr_Error := fun v r =>
  mkStepRun (sr_StepID r) (sr_StepName r) (sr_Type r) (sr_Status r) (sr_Attempt r) (sr_TaskID
    r) (sr_RunID r) (sr_Input r) (sr_Output r) v (sr_StartedAt r) (sr_EndedAt r) (sr_Meta r).
#[export] Instance set_sr_StartedAt : Setter sr_StartedAt := fun v r =>
  mkStepRun (sr_StepID r) (sr_StepName r) (sr_Type r) (sr_Status r) (sr_Attempt r) (sr_TaskID
    r) (sr_RunID r) (sr_Input r) (sr_Output r) (sr_Error r) v (sr_EndedAt r) (sr_Meta r).
#[export] Instance set_sr_EndedAt : Setter sr_EndedAt := fun v r =>
  mkStepRun (sr_StepID r) (sr_StepName r) (sr_Type r) (sr_Status r) (sr_Attempt r) (sr_TaskID
    r) (sr_RunID r) (sr_Input r) (sr_Output r) (sr_Error r) (sr_StartedAt r) v (sr_Meta r).
#[export] Instance set_sr_Meta : Setter sr_Meta := fun v r =>
  mkStepRun (sr_StepID r) (sr_StepName r) (sr_Type r) (sr_Status r) (sr_Attempt r) (sr_TaskID
    r) (sr_RunID r) (sr_Input r) (sr_Output r) (sr_Error r) (sr_StartedAt r) (sr_EndedAt r) v.

(** An execution instance of a workflow. *)
Record WorkflowRun := mkWorkflowRun {
  wr_Version : Z;
  wr_RunID : string;
  wr_WorkflowID : string;
  wr_WorkflowName : string;
  wr_Status : string;
  wr_Inputs : gomap any;
  wr_Outputs : gomap any;
  wr_Steps : list StepRun;
  wr_CurrentStep : string;
  wr_Usage : TaskUsage;
  wr_Error : string;
  wr_StartedAt : Z;
  wr_EndedAt : Z;
  wr_CreatedAt : Z;
  wr_UpdatedAt : Z;
  wr_Meta : gomap any
}.

#[export] Instance set_wr_Status : Setter wr_Status := fun v r =>
  mkWorkflowRun (wr_Version r) (wr_RunID r) (wr_WorkflowID r) (wr_WorkflowName r) v (wr_Inputs
    r) (wr_Outputs r) (wr_Steps r) (wr_CurrentStep r) (wr_Usage r) (wr_Error r) (wr_StartedAt
    r) (wr_EndedAt r) (wr_CreatedAt r) (wr_UpdatedAt r) (wr_Meta r).
#[export] Instance set_wr_Steps : Setter wr_Steps := fun v r =>
  mkWorkflowRun (wr_Version r) (wr_RunID r) (wr_WorkflowID r) (wr_WorkflowName r) (wr_Status r)
    (wr_Inputs r) (wr_Outputs r) v (wr_CurrentStep r) (wr_Usage r) (wr_Error r) (wr_StartedAt
    r) (wr_EndedAt r) (wr_CreatedAt r) (wr_UpdatedAt r) (wr_Meta r).
#[export] Instance set_wr_CurrentStep : Setter wr_CurrentStep := fun v r =>
  mkWorkflowRun (wr_Version r) (wr_RunID r) (wr_WorkflowID r) (wr_WorkflowName r) (wr_Status r)
    (wr_Inputs r) (wr_Outputs r) (wr_Steps r) v (wr_Usage r) (wr_Error r) (wr_StartedAt r)
    (wr_EndedAt r) (wr_CreatedAt r) (wr_UpdatedAt r) (wr_Meta r).
#[export] Instance set_wr_Usage : Setter wr_Usage := fun v r =>
  mkWorkflowRun (wr_Version r) (wr_RunID r) (wr_WorkflowID r) (wr_WorkflowName r) (wr_Status r)
    (wr_Inputs r) (wr_Outputs r) (wr_Steps r) (wr_CurrentStep r) v (wr_Error r) (wr_StartedAt
    r) (wr_EndedAt r) (wr_CreatedAt r) (wr_UpdatedAt r) (wr_Meta r).
#[export] Instance set_wr_Error : Setter wr_Error := fun v r =>
  mkWorkflowRun (wr_Version r) (wr_RunID r) (wr_WorkflowID r) (wr_WorkflowName r) (wr_Status r)
    (wr_Inputs r) (wr_Outputs r) (wr_Steps r) (wr_CurrentStep r) (wr_Usage r) v (wr_StartedAt
    r) (wr_EndedAt r) (wr_CreatedAt r) (wr_UpdatedAt r) (wr_Meta r).
#[export] Instance set_wr_EndedAt : Setter wr_EndedAt := fun v r =>
  mkWorkflowRun (wr_Version r) (wr_RunID r) (wr_WorkflowID r) (wr_WorkflowName r) (wr_Status r)
    (wr_Inputs r) (wr_Outputs r) (wr_Steps r) (wr_CurrentStep r) (wr_Usage r) (wr_Error r)
    (wr_StartedAt r) v (wr_CreatedAt r) (wr_UpdatedAt r) (wr_Meta r).
#[export] Instance set_wr_UpdatedAt : Setter wr_UpdatedAt := fun v r =>
  mkWorkflowRun (wr_Version r) (wr_RunID r) (wr_WorkflowID r) (wr_WorkflowName r) (wr_Status r)
    (wr_Inputs r) (wr_Outputs r) (wr_Steps r) (wr_CurrentStep r) (wr_Usage r) (wr_Error r)
    (wr_StartedAt r) (wr_EndedAt r) (wr_CreatedAt r) v (wr_Meta r).


(** ** Pure helpers *)

(** [m[key(x)] = x] for the elements in order: a later element replaces an
    earlier one with the same key. *)
Definition index_last {A} (key : A -> string) (l : list A) : gmap string A :=
  fold_left (fun m x => <[key x := x]> m) l ∅.

(** [stepIndex[run.Steps[i].StepID] = &run.Steps[i]] *)
Definition step_index (steps : list StepRun) : gmap string nat :=
  fold_left (fun m p => <[sr_StepID p.2 := p.1]> m) (zip (seq 0 (length steps)) steps) ∅.

Definition def_index (def : WorkflowDefinition) : gmap string StepDefinition :=
  index_last sd_ID (wd_Steps def).

Definition dependencySatisfied (step : option StepRun) (def : option StepDefinition) : bool :=
  match step with
  | None => false
  | Some step =>
    go_switch (sr_Status step)
      [([StepStatusCompleted; StepStatusSkipped], true);
       ([StepStatusFailed],
        match def with Some d => sd_OnFailure d ==? "continue" | None => false end)] false
  end.

Definition workflowRunTerminal (status : string) : bool :=
  go_switch status
    [([WorkflowStatusCompleted; WorkflowStatusFailed; WorkflowStatusCancelled], true)] false.

Definition workflowStepTerminal (status : string) : bool :=
  go_switch status
    [([StepStatusCompleted; StepStatusFailed; StepStatusSkipped], true)] false.

(** [run.Inputs[condition]] is looked up under the condition as written. *)
Definition evaluateCondition (run : WorkflowRun) (condition : string) : bool :=
  go_switch (TrimSpace (ToLower condition))
    [([""; "true"; "1"; "yes"], true); (["false"; "0"; "no"], false)]
    match map_read (wr_Inputs run) !! condition with
    | Some (VBool b) => b
    | _ => false
    end.

(** The completion check at the end of [executeStep] and
    [finalizeWorkflowRunIfDone], which test the same statuses. *)
Definition open_step (s : StepRun) : bool :=
  (sr_Status s ==? StepStatusPending) || (sr_Status s ==? StepStatusReady)
  || (sr_Status s ==? StepStatusRunning) || (sr_Status s ==? StepStatusBlocked).

Definition failed_step (s : StepRun) : bool := sr_Status s ==? StepStatusFailed.

Definition close_run (now : Z) (run : WorkflowRun) : WorkflowRun :=
  run <| wr_Status := if existsb failed_step (wr_Steps run) then WorkflowStatusFailed
                      else WorkflowStatusCompleted |>
      <| wr_EndedAt := now |>.

Definition check_complete (now : Z) (run : WorkflowRun) : WorkflowRun :=
  if wr_Status run ==? WorkflowStatusRunning
  then if existsb open_step (wr_Steps run) then run else close_run now run
  else run.

Definition finalizeWorkflowRunIfDone (now : Z) (run : WorkflowRun) : WorkflowRun :=
  if wr_Status run !=? WorkflowStatusRunning then run
  else if negb (forallb (fun s => workflowStepTerminal (sr_Status s)) (wr_Steps run)) then run
  else close_run now run.

(** ** Registering and starting *)

Fixpoint check_step_ids (seen : gset string) (steps : list StepDefinition)
  : result (gset string) :=
  match steps with
  | [] => Ok seen
  | step :: steps =>
    if sd_ID step ==? "" then Err (Errorf "step ID is required" [])
    else if decide (sd_ID step ∈ seen)
    then Err (Errorf "duplicate step ID: %s" [ArgS (sd_ID step)])
    else check_step_ids ({[sd_ID step]} ∪ seen) steps
  end.

Fixpoint check_step_deps (seen : gset string) (steps : list StepDefinition) : option error :=
  match steps with
  | [] => None
  | step :: steps =>
    match List.find (fun dep => negb (bool_decide (dep ∈ seen))) (sd_Dependencies step) with
    | Some dep => Some (Errorf "step %q depends on unknown step %q" [ArgS (sd_ID step); ArgS dep])
    | None => check_step_deps seen steps
    end
  end.

(** The checks and the stamping of [RegisterDefinition]: the definition to file
    and save. *)
Definition checked_definition (now : Z) (def : WorkflowDefinition) : result WorkflowDefinition :=
  if wd_ID def ==? "" then Err (Errorf "workflow ID is required" [])
  else if wd_Name def ==? "" then Err (Errorf "workflow name is required" [])
  else if Nat.eqb (length (wd_Steps def)) 0
  then Err (Errorf "workflow must have at least one step" [])
  else
  match check_step_ids ∅ (wd_Steps def) with
  | Err e => Err e
  | Ok seen =>
    match check_step_deps seen (wd_Steps def) with
    | Some e => Err e
    | None =>
      Ok (mkWorkflowDefinition (if wd_Version def =? 0 then 1 else wd_Version def) (wd_ID def)
            (wd_Name def) (wd_Description def) (wd_Steps def) (wd_Inputs def) (wd_Outputs def)
            (wd_Authority def) (wd_Budget def) (wd_Timeout def) (wd_Meta def)
            (if wd_CreatedAt def =? 0 then now else wd_CreatedAt def) now)
    end
  end.

(** The loop of [StartRun] over the declared inputs.  [None] is the panic of an
    assignment to a nil map. *)
Fixpoint required_inputs (specs : list (string * InputSpec)) (inputs : gomap any)
  : option (result (gomap any)) :=
  match specs with
  | [] => Some (Ok inputs)
  | (name, spec) :: specs =>
    if in_Required spec then
      match map_read inputs !! name with
      | Some _ => required_inputs specs inputs
      | None =>
        match in_Default spec, inputs with
        | VNil, _ => Some (Err (Errorf "required input %q not provided" [ArgS name]))
        | _, None => None
        | d, Some m => required_inputs specs (Some (<[name := d]> m))
        end
      end
    else required_inputs specs inputs
  end.

Definition new_step_run (d : StepDefinition) : StepRun :=
  mkStepRun (sd_ID d) (sd_Name d) (sd_Type d) StepStatusPending 0 "" "" None None "" 0 0 None.

(** The run that [StartRun] files, saves and schedules; [runID] is generated from
    random bytes. *)
Definition new_run (now : Z) (runID workflowID : string) (def : WorkflowDefinition)
    (inputs : gomap any) : WorkflowRun :=
  mkWorkflowRun 1 runID workflowID (wd_Name def) WorkflowStatusRunning inputs None
    (map new_step_run (wd_Steps def)) "" zero_usage "" now 0 now now None.

(** ** Operator actions: the critical sections *)

Definition cancel_locked (now : Z) (reason : string) (run : WorkflowRun) : result WorkflowRun :=
  if (wr_Status run !=? WorkflowStatusRunning) && (wr_Status run !=? WorkflowStatusPaused)
  then Err (Errorf "workflow run %q is not active (status: %s)"
              [ArgS (wr_RunID run); ArgS (wr_Status run)])
  else Ok (run <| wr_Status := WorkflowStatusCancelled |> <| wr_EndedAt := now |>
               <| wr_UpdatedAt := now |> <| wr_Error := reason |>).

Definition pause_locked (now : Z) (run : WorkflowRun) : result WorkflowRun :=
  if wr_Status run !=? WorkflowStatusRunning
  then Err (Errorf "workflow run %q is not running" [ArgS (wr_RunID run)])
  else Ok (run <| wr_Status := WorkflowStatusPaused |> <| wr_UpdatedAt := now |>).

Definition resume_locked (now : Z) (run : WorkflowRun) : result WorkflowRun :=
  if wr_Status run !=? WorkflowStatusPaused
  then Err (Errorf "workflow run %q is not paused" [ArgS (wr_RunID run)])
  else Ok (run <| wr_Status := WorkflowStatusRunning |> <| wr_UpdatedAt := now |>).

(** ** Scheduling *)

Section Scan.
Variable stepIndex : gmap string nat.
Variable defIndex : gmap string StepDefinition.

Definition deps_satisfied (steps : list StepRun) (stepDef : StepDefinition) : bool :=
  forallb (fun depID =>
      dependencySatisfied (stepIndex !! depID ≫= fun i => steps !! i) (defIndex !! depID))
    (sd_Dependencies stepDef).

(** The loop of [scheduleReadySteps] over [run.Steps]: the steps with their new
    statuses, and the pointers [readySteps]. *)
Fixpoint scan_steps (todo : list nat) (steps : list StepRun) : list StepRun * list nat :=
  match todo with
  | [] => (steps, [])
  | i :: todo =>
    match steps !! i with
    | None => scan_steps todo steps
    | Some step =>
      if (sr_Status step !=? StepStatusPending) && (sr_Status step !=? StepStatusBlocked)
      then scan_steps todo steps
      else
      match defIndex !! sr_StepID step with
      | None => scan_steps todo steps
      | Some stepDef =>
        if deps_satisfied steps stepDef then
          let '(steps, ready) :=
            scan_steps todo (<[i := step <| sr_Status := StepStatusReady |>]> steps) in
          (steps, i :: ready)
        else if Nat.ltb 0 (length (sd_Dependencies stepDef))
        then scan_steps todo (<[i := step <| sr_Status := StepStatusBlocked |>]> steps)
        else scan_steps todo steps
      end
    end
  end.
End Scan.

(** The locked part of [scheduleReadySteps]; it does nothing unless the run is
    running. *)
Definition schedule_locked (def : WorkflowDefinition) (run : WorkflowRun)
  : WorkflowRun * list nat :=
  if wr_Status run !=? WorkflowStatusRunning then (run, [])
  else
    let '(steps, ready) := scan_steps (step_index (wr_Steps run)) (def_index def)
                             (seq 0 (length (wr_Steps run))) (wr_Steps run) in
    (run <| wr_Steps := steps |>, ready).

(** ** Executing a step *)

(** The error of a step's body: the sentinel [errStepBlocked], or another error
    with its text. *)
Inductive step_error :=
  | StepBlocked
  | StepFailed (msg : string).

(** The first critical section of [executeStep]. *)
Definition begin_step (now : Z) (i : nat) (run : WorkflowRun) : WorkflowRun :=
  match wr_Steps run !! i with
  | None => run
  | Some step =>
    run <| wr_Steps := <[i := step <| sr_Status := StepStatusRunning |>
                                   <| sr_Attempt := add64 (sr_Attempt step) 1 |>
                                   <| sr_StartedAt := now |>]> (wr_Steps run) |>
        <| wr_CurrentStep := sr_StepID step |> <| wr_UpdatedAt := now |>
  end.

(** What the branches on the error of [executeStep] do to the step. *)
Definition settle_step (def : StepDefinition) (err : option step_error) (step : StepRun) : StepRun :=
  match err with
  | None => step <| sr_Status := StepStatusCompleted |> <| sr_Error := "" |>
  | Some StepBlocked => step <| sr_Status := StepStatusBlocked |>
  | Some (StepFailed msg) =>
    let step := step <| sr_Error := msg |> in
    if match sd_RetryPolicy def with
       | Some p => sr_Attempt step <? rp_MaxAttempts p
       | None => false
       end then step <| sr_Status := StepStatusPending |>
    else if sd_OnFailure def ==? "continue" then step <| sr_Status := StepStatusFailed |>
    else if sd_OnFailure def ==? "skip" then step <| sr_Status := StepStatusSkipped |>
    else step <| sr_Status := StepStatusFailed |>
  end.

(** Whether the failure of the step fails the run at once. *)
Definition fails_run (def : StepDefinition) (err : option step_error) (step : StepRun) : bool :=
  match err with
  | Some (StepFailed _) =>
    negb match sd_RetryPolicy def with
         | Some p => sr_Attempt step <? rp_MaxAttempts p
         | None => false
         end
    && (sd_OnFailure def !=? "continue") && (sd_OnFailure def !=? "skip")
  | _ => false
  end.

Definition step_error_text (err : option step_error) : string :=
  match err with Some (StepFailed msg) => msg | Some StepBlocked => "step blocked" | None => "" end.

Section Finish.
(** [decodeTaskUsage] on a value and on a whole output map. *)
Variable decodeTaskUsage : any -> option TaskUsage.
Variable decodeOutputUsage : gmap string any -> option TaskUsage.

Definition stepUsageFromOutput (output : gmap string any) : option TaskUsage :=
  match decodeTaskUsage (default VNil (output !! "usage")) with
  | Some usage => Some usage
  | None => decodeOutputUsage output
  end.

Definition accumulateWorkflowUsage (run : WorkflowRun) (step : StepRun) : WorkflowRun :=
  if Nat.eqb (size (map_read (sr_Output step))) 0 then run
  else match stepUsageFromOutput (map_read (sr_Output step)) with
       | None => run
       | Some usage => run <| wr_Usage := TaskUsage_Add (wr_Usage run) usage |>
       end.

(** The second critical section of [executeStep]. *)
Definition finish_step (now : Z) (i : nat) (def : StepDefinition) (err : option step_error)
    (run : WorkflowRun) : WorkflowRun :=
  match wr_Steps run !! i with
  | None => run
  | Some step =>
    let step := step <| sr_EndedAt := now |> in
    let step' := settle_step def err step in
    let run := run <| wr_UpdatedAt := now |>
                   <| wr_Steps := <[i := step']> (wr_Steps run) |> in
    let run :=
      if fails_run def err step then
        run <| wr_Status := WorkflowStatusFailed |> <| wr_EndedAt := now |>
            <| wr_Error := "step " +:+ sr_StepID step +:+ " failed: " +:+ step_error_text err |>
      else run in
    check_complete now (accumulateWorkflowUsage run step')
  end.
End Finish.

(** ** The bodies of the built-in steps

    [step_outcome run d err]: executing the body of [d] may end with [err].  The
    executor is an interface, so any of its errors other than the sentinel is
    possible, and a wait step may fail on its deadline; substeps run
    concurrently and the first error to arrive is returned. *)

Definition builtin_types : list string :=
  [StepTypeWait; StepTypeApproval; StepTypeConditional; StepTypeParallel].

Definition branch (run : WorkflowRun) (d : StepDefinition) : option StepDefinition :=
  if evaluateCondition run (sd_Condition d) then sc_TrueStep (sd_Config d)
  else sc_FalseStep (sd_Config d).

Definition not_blocked (err : option step_error) : Prop :=
  match err with Some StepBlocked => False | _ => True end.

Inductive step_outcome (run : WorkflowRun) : StepDefinition -> option step_error -> Prop :=
  | outcome_wait d err :
      sd_Type d = StepTypeWait -> not_blocked err -> step_outcome run d err
  | outcome_approval d :
      sd_Type d = StepTypeApproval -> step_outcome run d (Some StepBlocked)
  | outcome_no_branch d :
      sd_Type d = StepTypeConditional -> branch run d = None -> step_outcome run d None
  | outcome_branch d b err :
      sd_Type d = StepTypeConditional -> branch run d = Some b -> step_outcome run b err ->
      step_outcome run d err
  | outcome_parallel d errs err :
      sd_Type d = StepTypeParallel -> Forall2 (step_outcome run) (sc_Substeps (sd_Config d)) errs ->
      (err = None /\ Forall (eq None) errs \/ err <> None /\ err ∈ errs) ->
      step_outcome run d err
  | outcome_executor d err :
      sd_Type d ∉ builtin_types -> not_blocked err -> step_outcome run d err.
