(* ===== verification/Workflow.v ===== *)
(** The workflow orchestrator of internal/tasks/workflow.go: its operations, the
    recovery of interrupted runs from the task ledger, and the execution of one
    run as a transition system of concurrent goroutines. *)

From Stdlib Require Import String.
From stdpp Require Import base tactics decidable list gmap strings relations.
From S2P Require Import Prelude Enums Verification Budget TaskModels Lifecycle LedgerModels Ledger WorkflowModels.

(** ** The orchestrator's tables

    The orchestrator's store is written after the critical section; the answers
    of its saves are arguments. *)

Record WorkflowOrchestrator := mkWorkflowOrchestrator {
  o_definitions : gmap string WorkflowDefinition;
  o_runs : gmap string WorkflowRun
}.

#[export] Instance set_o_definitions : Setter o_definitions := fun v o =>
  mkWorkflowOrchestrator v (o_runs o).
#[export] Instance set_o_runs : Setter o_runs := fun v o =>
  mkWorkflowOrchestrator (o_definitions o) v.

Definition RegisterDefinition (now : Z) (def : WorkflowDefinition) (save_err : option error)
    (o : WorkflowOrchestrator) : WorkflowOrchestrator * option error :=
  match checked_definition now def with
  | Err e => (o, Some e)
  | Ok def => (o <| o_definitions := <[wd_ID def := def]> (o_definitions o) |>, save_err)
  end.

Definition GetDefinition (id : string) (o : WorkflowOrchestrator) : result WorkflowDefinition :=
  match o_definitions o !! id with
  | None => Err (Errorf "workflow %q not found" [ArgS id])
  | Some def => Ok def
  end.

(** Go's order is unspecified. *)
Definition ListDefinitions (o : WorkflowOrchestrator) : list WorkflowDefinition :=
  map snd (map_to_list (o_definitions o)).

(** [None] is a panic; the inputs are visited in the order of [map_to_list] (Go's
    order is unspecified, which matters for the input an error names). *)
Definition StartRun (now : Z) (runID workflowID : string) (inputs : gomap any)
    (o : WorkflowOrchestrator) : option (WorkflowOrchestrator * result WorkflowRun) :=
  match GetDefinition workflowID o with
  | Err e => Some (o, Err e)
  | Ok def =>
    match required_inputs (map_to_list (wd_Inputs def)) inputs with
    | None => None
    | Some (Err e) => Some (o, Err e)
    | Some (Ok inputs) =>
      let run := new_run now runID workflowID def inputs in
      Some (o <| o_runs := <[runID := run]> (o_runs o) |>, Ok run)
    end
  end.

Definition workflow_run_not_found (runID : string) : error :=
  Errorf "workflow run %q not found" [ArgS runID].

Definition Workflow_GetRun (runID : string) (o : WorkflowOrchestrator) : result WorkflowRun :=
  match o_runs o !! runID with
  | None => Err (workflow_run_not_found runID)
  | Some run => Ok run
  end.

Definition ListRuns (workflowID status : string) (o : WorkflowOrchestrator) : list WorkflowRun :=
  List.filter (fun run =>
      negb ((workflowID !=? "") && (wr_WorkflowID run !=? workflowID))
      && negb ((status !=? "") && (wr_Status run !=? status)))
    (map snd (map_to_list (o_runs o))).

(** The part [CancelRun], [PauseRun] and [ResumeRun] share: look the run up and
    replace it by what the critical section makes of it. *)
Definition on_run (runID : string) (cs : WorkflowRun -> result WorkflowRun)
    (o : WorkflowOrchestrator) : WorkflowOrchestrator * option error :=
  match o_runs o !! runID with
  | None => (o, Some (workflow_run_not_found runID))
  | Some run =>
    match cs run with
    | Err e => (o, Some e)
    | Ok run => (o <| o_runs := <[runID := run]> (o_runs o) |>, None)
    end
  end.

Definition CancelRun (now : Z) (runID reason : string) (o : WorkflowOrchestrator)
  : WorkflowOrchestrator * option error :=
  on_run runID (cancel_locked now reason) o.

Definition PauseRun (now : Z) (runID : string) (save_err : option error)
    (o : WorkflowOrchestrator) : WorkflowOrchestrator * option error :=
  let '(o, err) := on_run runID (pause_locked now) o in
  (o, match err with Some e => Some e | None => save_err end).

(** The last component tells whether a scheduling goroutine is started. *)
Definition ResumeRun (now : Z) (runID : string) (save_err : option error)
    (o : WorkflowOrchestrator) : WorkflowOrchestrator * option error * bool :=
  let '(o, err) := on_run runID (resume_locked now) o in
  match err with
  | Some e => (o, Some e, false)
  | None =>
    match o_runs o !! runID with
    | None => (o, None, false)
    | Some run =>
      match GetDefinition (wr_WorkflowID run) o with
      | Err e => (o, Some e, false)
      | Ok _ => (o, save_err, true)
      end
    end
  end.

(** ** Recovery from the ledger *)

(** [workflowStepReconciliation] *)
Record StepOutcome := mkStepOutcome {
  so_stepID : string;
  so_task : option TaskSpec;
  so_run : option TaskRun
}.

#[export] Instance TaskUsage_eq_dec : EqDecision TaskUsage.
Proof. solve_decision. Defined.

Section Recovery.
Context {S : Type} `{Store S}.
(** A usage or a result reference boxed into a [map[string]any]. *)
Variable any_usage : TaskUsage -> any.
Variable any_result : TaskResultRef -> any.
(** The store's answer to saving a run. *)
Variable save_run : WorkflowRun -> option error.

Definition workflowStepOutputFromTaskRun (run : TaskRun) : gmap string any :=
  let out : gmap string any :=
    {["task_id" := VString (tr_TaskID run); "run_id" := VString (tr_RunID run);
      "status" := VString (tr_Status run)]} in
  let out := if negb (blank (tr_Error run)) then <["error" := VString (tr_Error run)]> out else out in
  let out := if bool_decide (tr_Usage run = zero_usage) then out
             else <["usage" := any_usage (tr_Usage run)]> out in
  if (rr_Kind (tr_Result run) !=? "") || (rr_ID (tr_Result run) !=? "")
  then <["result" := any_result (tr_Result run)]> out else out.

(** The fields both terminal cases of [workflowApplyRunReconciliation] copy. *)
Definition copy_run_times (run : TaskRun) (step : StepRun) : StepRun :=
  let step := if sr_StartedAt step =? 0 then step <| sr_StartedAt := tr_StartedAt run |> else step in
  let step := if 0 <? tr_EndedAt run then step <| sr_EndedAt := tr_EndedAt run |> else step in
  if sr_Attempt step =? 0 then step <| sr_Attempt := tr_Attempt run |> else step.

(** [None] is the result [false], which leaves the step alone. *)
Definition workflowApplyRunReconciliation (step : StepRun) (run : option TaskRun) : option StepRun :=
  match run with
  | None => None
  | Some run =>
    go_switch (tr_Status run)
      [([TaskRunStatusCompleted],
        Some (copy_run_times run
          (step <| sr_Status := StepStatusCompleted |>
                <| sr_Output := Some (workflowStepOutputFromTaskRun run) |> <| sr_Error := "" |>)));
       ([TaskRunStatusFailed; TaskRunStatusCancelled],
        Some (copy_run_times run
          (step <| sr_Status := StepStatusFailed |>
                <| sr_Output := Some (workflowStepOutputFromTaskRun run) |>
                <| sr_Error := if TrimSpace (tr_Error run) ==? ""
                               then "child task run " +:+ tr_RunID run +:+ " ended with status "
                                    +:+ tr_Status run
                               else TrimSpace (tr_Error run) |>)))]
      None
  end.

Definition output_with_task (step : StepRun) (task : TaskSpec) : gomap any :=
  Some (<["status" := VString (ts_Status task)]>
         (<["task_id" := VString (ts_TaskID task)]> (map_read (sr_Output step)))).

Definition workflowApplyTaskReconciliation (step : StepRun) (task : option TaskSpec)
  : option StepRun :=
  match task with
  | None => None
  | Some task =>
    let ended s := if sr_EndedAt s =? 0 then s <| sr_EndedAt := ts_UpdatedAt task |> else s in
    go_switch (ts_Status task)
      [([TaskStatusCompleted],
        Some (ended (step <| sr_Status := StepStatusCompleted |> <| sr_Error := "" |>
                          <| sr_Output := output_with_task step task |>)));
       ([TaskStatusFailed; TaskStatusCancelled],
        Some (ended (step <| sr_Status := StepStatusFailed |>
                          <| sr_Output := output_with_task step task |>
                          <| sr_Error := if sr_Error step ==? ""
                                         then "child task " +:+ ts_TaskID task
                                              +:+ " ended with status " +:+ ts_Status task
                                         else sr_Error step |>)))]
      None
  end.

(** The state of a step's child task and run in the ledger. *)
Definition reconcileStepFromLedger (step : StepRun) (l : Ledger S)
  : Ledger S * (StepOutcome * option error) :=
  let outcome := mkStepOutcome (sr_StepID step) None None in
  let taskID := TrimSpace (sr_TaskID step) in
  let with_run task runID l :=
    let outcome := mkStepOutcome (sr_StepID step) task None in
    if runID !=? "" then
      let '(l, r) := GetRun runID l in
      match r with
      | Err e => (l, (outcome, Some e))
      | Ok entry =>
        (l, (mkStepOutcome (sr_StepID step) task (Some (TaskRun_Normalize (re_Run entry))), None))
      end
    else (l, (outcome, None)) in
  if taskID !=? "" then
    let '(l, r) := GetTask taskID l in
    match r with
    | Err e => (l, (outcome, Some e))
    | Ok entry =>
      let task := TaskSpec_Normalize (le_Task entry) in
      let runID := TrimSpace (sr_RunID step) in
      let runID := if runID ==? "" then
                     if TrimSpace (ts_CurrentRunID task) ==? "" then TrimSpace (ts_LastRunID task)
                     else TrimSpace (ts_CurrentRunID task)
                   else runID in
      with_run (Some task) runID l
    end
  else with_run None (TrimSpace (sr_RunID step)) l.

Definition interrupted (s : StepRun) : bool :=
  (sr_Status s ==? StepStatusRunning) || (sr_Status s ==? StepStatusReady).

(** The first loop of [reconcileChildStepState]. *)
Fixpoint collect_outcomes (steps : list StepRun) (l : Ledger S)
  : Ledger S * list StepOutcome * option error :=
  match steps with
  | [] => (l, [], None)
  | step :: steps =>
    if workflowStepTerminal (sr_Status step) then collect_outcomes steps l
    else
      let '(l, (outcome, err)) := reconcileStepFromLedger step l in
      let '(l, outcomes, firstErr) := collect_outcomes steps l in
      match err with
      | Some e => (l, outcomes, Some e)
      | None =>
        (l, if bool_decide (is_Some (so_task outcome)) || bool_decide (is_Some (so_run outcome))
               || interrupted step
            then outcome :: outcomes else outcomes, firstErr)
      end
  end.

(** What an outcome makes of its step; [None] when nothing changes. *)
Definition apply_outcome (outcome : StepOutcome) (step : StepRun) : option StepRun :=
  if workflowStepTerminal (sr_Status step) then None
  else
    match workflowApplyRunReconciliation step (so_run outcome) with
    | Some step => Some step
    | None =>
      match workflowApplyTaskReconciliation step (so_task outcome) with
      | Some step => Some step
      | None =>
        if interrupted step
        then Some (step <| sr_Status := StepStatusPending |> <| sr_EndedAt := 0 |>
                        <| sr_Error := "" |>)
        else None
      end
    end.

(** The second loop: the new steps and whether one changed. *)
Fixpoint apply_outcomes (index : gmap string nat) (outcomes : list StepOutcome)
    (steps : list StepRun) : list StepRun * bool :=
  match outcomes with
  | [] => (steps, false)
  | outcome :: outcomes =>
    match index !! so_stepID outcome ≫= fun i => (fun s => (i, s)) <$> steps !! i with
    | None => apply_outcomes index outcomes steps
    | Some (i, step) =>
      match apply_outcome outcome step with
      | None => apply_outcomes index outcomes steps
      | Some step =>
        let '(steps, _) := apply_outcomes index outcomes (<[i := step]> steps) in (steps, true)
      end
    end
  end.

Definition reconcileChildStepState (now : Z) (run : WorkflowRun) (l : Ledger S)
  : Ledger S * WorkflowRun * bool * option error :=
  let '(l, outcomes, firstErr) := collect_outcomes (wr_Steps run) l in
  let '(steps, changed) := apply_outcomes (step_index (wr_Steps run)) outcomes (wr_Steps run) in
  if changed
  then (l, finalizeWorkflowRunIfDone now (run <| wr_Steps := steps |> <| wr_UpdatedAt := now |>),
        true, firstErr)
  else (l, run, false, firstErr).

Definition recoverableRuns (o : WorkflowOrchestrator) : list (WorkflowRun * WorkflowDefinition) :=
  omap (fun p => if workflowRunTerminal (wr_Status p.2) then None
                 else (fun def => (p.2, def)) <$> o_definitions o !! wr_WorkflowID p.2)
    (map_to_list (o_runs o)).

(** [RecoverNonTerminalRuns] over the recoverable runs: the reconciled runs, the
    ones to schedule, and the first error. *)
Fixpoint recover_runs (now : Z) (recoveries : list (WorkflowRun * WorkflowDefinition))
    (l : Ledger S) : Ledger S * list WorkflowRun * list (WorkflowRun * WorkflowDefinition) * option error :=
  match recoveries with
  | [] => (l, [], [], None)
  | (run, def) :: recoveries =>
    let '(l, run, changed, err) := reconcileChildStepState now run l in
    let err := match err with
               | Some e => Some e
               | None => if changed then save_run run else None
               end in
    let '(l, runs, scheduled, firstErr) := recover_runs now recoveries l in
    (l, run :: runs,
     if wr_Status run ==? WorkflowStatusRunning then (run, def) :: scheduled else scheduled,
     match err with Some e => Some e | None => firstErr end)
  end.
End Recovery.

(** ** Execution of a run

    [go scheduleReadySteps] starts a goroutine that takes the lock once to collect
    the ready steps and then executes them one after the other; after each step
    it starts another one while the run is running. *)

Inductive worker :=
  | WScan                              (* before the locked part of scheduleReadySteps *)
  | WQueue (todo : list nat)           (* between two calls of executeStep *)
  | WExec (i : nat) (todo : list nat)  (* in the body of step [i] *)
  | WAfter (todo : list nat).          (* at the last test of executeStep *)

#[export] Instance worker_eq_dec : EqDecision worker.
Proof. solve_decision. Defined.

Record WfState := mkWfState {
  ws_run : WorkflowRun;
  ws_workers : list worker
}.

(** What the executor writes into the step it was given (never its status) and
    into the run's time stamp. *)
Definition executor_writes (taskID runID : string) (output meta : gomap any) (now : Z) (i : nat)
    (run : WorkflowRun) : WorkflowRun :=
  match wr_Steps run !! i with
  | None => run
  | Some step =>
    run <| wr_Steps := <[i := step <| sr_TaskID := taskID |> <| sr_RunID := runID |>
                                   <| sr_Output := output |> <| sr_Meta := meta |>]> (wr_Steps run) |>
        <| wr_UpdatedAt := now |>
  end.

Section System.
(** The definition of the run, which is not registered again meanwhile. *)
Variable def : WorkflowDefinition.
Variable decodeTaskUsage : any -> option TaskUsage.
Variable decodeOutputUsage : gmap string any -> option TaskUsage.

(** The definition a step is executed with. *)
Definition step_def (run : WorkflowRun) (i : nat) : option StepDefinition :=
  wr_Steps run !! i ≫= fun s => def_index def !! sr_StepID s.

(** One atomic step of one goroutine. *)
Inductive worker_step : WorkflowRun -> worker -> WorkflowRun -> list worker -> Prop :=
  | step_scan run run' ready :
      schedule_locked def run = (run', ready) -> worker_step run WScan run' [WQueue ready]
  | step_exit run : worker_step run (WQueue []) run []
  | step_skip run i todo :
      step_def run i = None -> worker_step run (WQueue (i :: todo)) run [WQueue todo]
  | step_begin run i todo now :
      is_Some (step_def run i) ->
      worker_step run (WQueue (i :: todo)) (begin_step now i run) [WExec i todo]
  | step_writes run i todo taskID runID output meta now :
      worker_step run (WExec i todo) (executor_writes taskID runID output meta now i run)
        [WExec i todo]
  | step_finish run i todo d err now :
      step_def run i = Some d -> step_outcome run d err ->
      worker_step run (WExec i todo)
        (finish_step decodeTaskUsage decodeOutputUsage now i d err run) [WAfter todo]
  | step_after run todo :
      worker_step run (WAfter todo) run
        (WQueue todo :: if wr_Status run ==? WorkflowStatusRunning then [WScan] else []).

(** The system moves by a step of one goroutine or by an operator's action. *)
Inductive wf_step : WfState -> WfState -> Prop :=
  | wf_worker run pre w post run' ws :
      worker_step run w run' ws ->
      wf_step (mkWfState run (pre ++ w :: post)) (mkWfState run' (pre ++ ws ++ post))
  | wf_cancel run ws now reason run' :
      cancel_locked now reason run = Ok run' -> wf_step (mkWfState run ws) (mkWfState run' ws)
  | wf_pause run ws now run' :
      pause_locked now run = Ok run' -> wf_step (mkWfState run ws) (mkWfState run' ws)
  | wf_resume run ws now run' :
      resume_locked now run = Ok run' ->
      wf_step (mkWfState run ws) (mkWfState run' (WScan :: ws)).

Definition started (now : Z) (runID : string) (inputs : gomap any) : WfState :=
  mkWfState (new_run now runID (wd_ID def) def inputs) [WScan].
End System.
