(* ===== verification/WorkflowProps.v ===== *)
(** Lemmas on the critical sections of a workflow run, field by field: what a scan
    picks and blocks, what finishing a step does to the step and to the run. *)

From Stdlib Require Import String.
From stdpp Require Import base tactics decidable list gmap strings relations.
From S2P Require Import Prelude Enums Verification Budget TaskModels Lifecycle LedgerModels Ledger WorkflowModels Workflow.

(** ** Statuses *)

(** A step that a scan may pick. *)
Definition waiting (s : StepRun) : Prop :=
  sr_Status s = StepStatusPending \/ sr_Status s = StepStatusBlocked.

#[export] Instance waiting_dec s : Decision (waiting s).
Proof. apply _. Defined.

Lemma waiting_iff s :
  (sr_Status s !=? StepStatusPending) && (sr_Status s !=? StepStatusBlocked) = false <-> waiting s.
Proof. unfold waiting. rewrite andb_false_iff, !negb_false_iff, !String.eqb_eq. done. Qed.

(** [st] is a final step status. *)
Definition settled (st : string) : Prop := workflowStepTerminal st = true.

Lemma settled_cases st :
  settled st <-> st = StepStatusCompleted \/ st = StepStatusFailed \/ st = StepStatusSkipped.
Proof.
  unfold settled, workflowStepTerminal. cbn [go_switch existsb].
  destruct (String.eqb_spec st StepStatusCompleted), (String.eqb_spec st StepStatusFailed),
    (String.eqb_spec st StepStatusSkipped); cbn; intuition (try discriminate; congruence).
Qed.

Lemma waiting_unsettled s : waiting s -> ~ settled (sr_Status s).
Proof. intros [-> | ->]; by rewrite settled_cases; intuition discriminate. Qed.

Lemma satisfied_settled s d : dependencySatisfied (Some s) d = true -> settled (sr_Status s).
Proof.
  unfold dependencySatisfied, settled, workflowStepTerminal. cbn [go_switch existsb].
  destruct (_ ==? StepStatusCompleted), (_ ==? StepStatusFailed), (_ ==? StepStatusSkipped); done.
Qed.

Lemma satisfied_status s s' d :
  sr_Status s' = sr_Status s -> dependencySatisfied (Some s') d = dependencySatisfied (Some s) d.
Proof. unfold dependencySatisfied. by intros ->. Qed.

(** Settled steps stay as they are from [l] to [l']. *)
Definition keeps_settled (l l' : list StepRun) : Prop :=
  forall i s, l !! i = Some s -> settled (sr_Status s) ->
    exists s', l' !! i = Some s' /\ sr_Status s' = sr_Status s.

Lemma deps_satisfied_mono sI dI l l' d :
  keeps_settled l l' -> deps_satisfied sI dI l d = true -> deps_satisfied sI dI l' d = true.
Proof.
  unfold deps_satisfied. rewrite !forallb_forall. intros Hk H dep Hin. specialize (H dep Hin).
  destruct (sI !! dep) as [i|]; cbn in *; [|done].
  destruct (l !! i) as [s|] eqn:E; [|done].
  destruct (Hk i s E (satisfied_settled _ _ H)) as (s' & -> & Hs). by rewrite (satisfied_status s).
Qed.

Lemma keeps_settled_insert i s s' l :
  l !! i = Some s -> ~ settled (sr_Status s) -> keeps_settled l (<[i := s']> l).
Proof.
  intros Hi Hn j x Hj Hx. exists x. split; [|done]. rewrite list_lookup_insert_ne; [done|].
  intros ->. by simplify_eq.
Qed.

Lemma keeps_settled_uninsert i s s' l :
  l !! i = Some s -> ~ settled (sr_Status s') -> keeps_settled (<[i := s']> l) l.
Proof.
  intros Hi Hn j x Hj Hx. destruct (decide (i = j)) as [->|Hne].
  - rewrite list_lookup_insert_eq in Hj by by eapply lookup_lt_Some. by simplify_eq.
  - rewrite list_lookup_insert_ne in Hj by done. by exists x.
Qed.

(** ** The scan *)

Section Scan.
Variable sI : gmap string nat.
Variable dI : gmap string StepDefinition.

(** The step [s] has a definition whose dependencies are satisfied in [steps]. *)
Definition due (steps : list StepRun) (s : StepRun) : Prop :=
  exists d, dI !! sr_StepID s = Some d /\ deps_satisfied sI dI steps d = true.

(** What a scan makes of the step [s] at [i]. *)
Definition scanned (steps : list StepRun) (ready : list nat) (i : nat) (s s' : StepRun) : Prop :=
  sr_StepID s' = sr_StepID s /\ sr_Attempt s' = sr_Attempt s
  /\ (sr_Status s' = sr_Status s /\ (i ∉ ready)
      \/ waiting s /\ i ∈ ready /\ sr_Status s' = StepStatusReady /\ due steps s
      \/ waiting s /\ (i ∉ ready) /\ sr_Status s' = StepStatusBlocked).

(** The effect of a scan of the positions [todo]. *)
Record scan_ok (todo : list nat) (steps steps' : list StepRun) (ready : list nat) : Prop := mkScanOk {
  scan_length : length steps' = length steps;
  scan_step : forall i s, steps !! i = Some s ->
    exists s', steps' !! i = Some s' /\ scanned steps ready i s s';
  scan_nodup : NoDup ready;
  scan_todo : forall i, i ∈ ready -> i ∈ todo;
  scan_full : forall i s, i ∈ todo -> steps !! i = Some s -> waiting s -> due steps s -> i ∈ ready
}.

Lemma due_mono l l' s : keeps_settled l l' -> due l s -> due l' s.
Proof. intros Hk (d & Hd & Hok). exists d. split; [done|]. by eapply deps_satisfied_mono. Qed.

Lemma scan_ok_nil steps : scan_ok [] steps steps [].
Proof.
  split; [done| |apply NoDup_nil_2|done|intros i s Hin; by apply not_elem_of_nil in Hin].
  intros i s E. exists s. split; [done|]. split; [done|]. split; [done|].
  left. split; [done|apply not_elem_of_nil].
Qed.

Lemma scan_ok_skip i todo steps steps' ready :
  (forall s, steps !! i = Some s -> waiting s -> due steps s -> False) ->
  scan_ok todo steps steps' ready -> scan_ok (i :: todo) steps steps' ready.
Proof.
  intros Hno [H1 H2 H3 H4 H5]. constructor; try done.
  - intros j Hj. apply list_elem_of_further. auto.
  - intros j s [->|Hj]%elem_of_cons Hl Hw Hd; [|eauto]. by destruct (Hno s Hl).
Qed.

(** A picked or blocked step does not change what is due. *)
Lemma due_insert i s s' steps x :
  steps !! i = Some s -> waiting s -> ~ settled (sr_Status s') ->
  due (<[i := s']> steps) x <-> due steps x.
Proof.
  intros Hi Hw Hn. split; apply due_mono.
  - by eapply keeps_settled_uninsert.
  - eapply keeps_settled_insert; [done|by apply waiting_unsettled].
Qed.

Lemma scan_ok_set i st todo steps steps' ready s :
  steps !! i = Some s -> waiting s -> i ∉ todo ->
  st = StepStatusReady /\ due steps s \/ st = StepStatusBlocked /\ ~ due steps s ->
  scan_ok todo (<[i := s <| sr_Status := st |>]> steps) steps' ready ->
  scan_ok (i :: todo) steps steps' (if st ==? StepStatusReady then i :: ready else ready).
Proof.
  intros Hi Hw Hnt Hst [H1 H2 H3 H4 H5].
  assert (forall x, due (<[i := s <| sr_Status := st |>]> steps) x <-> due steps x) as Hdue.
  { intros x. eapply due_insert; [done|done|]. cbn.
    by destruct Hst as [[-> _]|[-> _]]; rewrite settled_cases; intuition discriminate. }
  assert (forall j, j ∈ (if st ==? StepStatusReady then i :: ready else ready)
                    <-> j ∈ ready \/ (j = i /\ st = StepStatusReady)) as Hrd.
  { intros j. destruct (String.eqb_spec st StepStatusReady); [rewrite elem_of_cons|]; naive_solver. }
  assert (i ∉ ready) as Hni by (intros ?%H4; done).
  constructor.
  - by rewrite H1, length_insert.
  - intros j x Hx. unfold scanned. setoid_rewrite Hrd. destruct (decide (j = i)) as [->|Hne].
    + destruct (H2 i (s <| sr_Status := st |>)) as (s' & E & Hid & Hat & Hs).
      { apply list_lookup_insert_eq. by eapply lookup_lt_Some. }
      simplify_eq. exists s'. split; [done|]. split; [done|]. split; [done|]. cbn in Hs.
      destruct Hst as [[-> Hd]|[-> Hd]]; right.
      * left. destruct Hs as [[Hs _]|[(_ & ? & _)|([? | ?] & _)]]; try done. tauto.
      * right. destruct Hs as [[Hs _]|[(_ & ? & _)|(_ & _ & Hs)]]; [|done|];
          (split; [done|]); (split; [|done]); naive_solver.
    + destruct (H2 j x) as (s' & E & Hid & Hat & Hs); [by rewrite list_lookup_insert_ne|].
      exists s'. split; [done|]. split; [done|]. split; [done|].
      pose proof (Hdue x). naive_solver.
  - destruct (st ==? _); [by constructor|done].
  - intros j [Hj|[-> _]]%Hrd; [apply list_elem_of_further; auto|apply list_elem_of_here].
  - intros j x [->|Hj]%elem_of_cons Hx Hwx Hdx; rewrite Hrd.
    + simplify_eq. destruct Hst as [[-> _]|[_ Hn]]; [by right|done].
    + destruct (decide (j = i)) as [->|Hne]; [done|]. left.
      apply (H5 j x Hj); [by rewrite list_lookup_insert_ne|done|by apply Hdue].
Qed.

Lemma scan_spec todo steps steps' ready :
  NoDup todo -> scan_steps sI dI todo steps = (steps', ready) -> scan_ok todo steps steps' ready.
Proof.
  intros Hnd. revert steps steps' ready.
  induction Hnd as [|i todo Hi Hnd IH]; intros steps steps' ready Hs; cbn [scan_steps] in Hs.
  { injection Hs as <- <-. apply scan_ok_nil. }
  destruct (steps !! i) as [s|] eqn:E; [|apply scan_ok_skip; [by rewrite E|auto]].
  destruct ((_ !=? _) && _) eqn:W.
  { apply scan_ok_skip; [|auto]. intros x Hx Hw%waiting_iff. congruence. }
  apply waiting_iff in W.
  destruct (dI !! sr_StepID s) as [d|] eqn:D.
  2: { apply scan_ok_skip; [|auto]. intros x Hx _ (d & Hd & _). congruence. }
  destruct (deps_satisfied sI dI steps d) eqn:Ok.
  - destruct (scan_steps _ _ _ _) as [st rd] eqn:Es in Hs. injection Hs as <- <-.
    apply (scan_ok_set i StepStatusReady todo steps st rd s); auto.
    left. split; [done|]. by exists d.
  - assert (~ due steps s) as Hnot by (intros (d' & Hd & ?); congruence).
    destruct (Nat.ltb _ _).
    + apply (scan_ok_set i StepStatusBlocked todo steps steps' ready s); auto.
    + apply scan_ok_skip; [|auto]. intros x Hx _ Hd. congruence.
Qed.
End Scan.

(** ** The critical sections, field by field *)

Lemma schedule_locked_spec def run run' ready :
  schedule_locked def run = (run', ready) ->
  wr_Status run' = wr_Status run
  /\ (wr_Status run <> WorkflowStatusRunning /\ run' = run /\ ready = []
      \/ wr_Status run = WorkflowStatusRunning
         /\ scan_ok (step_index (wr_Steps run)) (def_index def) (seq 0 (length (wr_Steps run)))
              (wr_Steps run) (wr_Steps run') ready).
Proof.
  unfold schedule_locked. destruct (String.eqb_spec (wr_Status run) WorkflowStatusRunning); cbn [negb].
  - destruct (scan_steps _ _ _ _) as [st rd] eqn:E. intros [= <- <-]. cbn. split; [done|].
    right. split; [done|]. eapply scan_spec; [apply NoDup_seq|exact E].
  - intros [= <- <-]. split; [done|]. by left.
Qed.

(** The status a finished step gets, from its attempts so far. *)
Definition settle_status (def : StepDefinition) (err : option step_error) (attempt : Z) : string :=
  match err with
  | None => StepStatusCompleted
  | Some StepBlocked => StepStatusBlocked
  | Some (StepFailed _) =>
    if match sd_RetryPolicy def with
       | Some p => attempt <? rp_MaxAttempts p
       | None => false
       end then StepStatusPending
    else if sd_OnFailure def ==? "skip" then StepStatusSkipped
    else StepStatusFailed
  end.

Lemma settle_step_fields d err s :
  sr_StepID (settle_step d err s) = sr_StepID s
  /\ sr_Attempt (settle_step d err s) = sr_Attempt s
  /\ sr_Status (settle_step d err s) = settle_status d err (sr_Attempt s).
Proof.
  unfold settle_step, settle_status. destruct err as [[|msg]|]; [done| |done].
  destruct (match sd_RetryPolicy d with Some p => _ | None => _ end) eqn:E; cbn; rewrite ?E; [done|].
  destruct (String.eqb_spec (sd_OnFailure d) "continue") as [->|]; [done|].
  by destruct (sd_OnFailure d ==? "skip").
Qed.

Section Fields.
Variable decodeTaskUsage : any -> option TaskUsage.
Variable decodeOutputUsage : gmap string any -> option TaskUsage.

Lemma accumulate_keeps run s :
  wr_Steps (accumulateWorkflowUsage decodeTaskUsage decodeOutputUsage run s) = wr_Steps run
  /\ wr_Status (accumulateWorkflowUsage decodeTaskUsage decodeOutputUsage run s) = wr_Status run.
Proof. unfold accumulateWorkflowUsage. destruct (Nat.eqb _ _); [done|]. by destruct (stepUsageFromOutput _ _ _). Qed.

Lemma check_complete_steps now run : wr_Steps (check_complete now run) = wr_Steps run.
Proof. unfold check_complete. destruct (_ ==? _); [|done]. by destruct (existsb _ _). Qed.

Lemma finish_steps now i d err run s :
  wr_Steps run !! i = Some s ->
  wr_Steps (finish_step decodeTaskUsage decodeOutputUsage now i d err run) = <[i := settle_step d err (s <| sr_EndedAt := now |>)]> (wr_Steps run).
Proof.
  intros E. unfold finish_step. rewrite E, check_complete_steps. cbv zeta.
  rewrite (proj1 (accumulate_keeps _ _)). by destruct (fails_run _ _ _).
Qed.

(** The status of a run after a step of it has finished. *)
Definition status_after (steps : list StepRun) (fails : bool) (st : string) : string :=
  let st := if fails then WorkflowStatusFailed else st in
  if st ==? WorkflowStatusRunning
  then if existsb open_step steps then st
       else if existsb failed_step steps then WorkflowStatusFailed else WorkflowStatusCompleted
  else st.

Lemma finish_status now i d err run s :
  wr_Steps run !! i = Some s ->
  wr_Status (finish_step decodeTaskUsage decodeOutputUsage now i d err run)
  = status_after (wr_Steps (finish_step decodeTaskUsage decodeOutputUsage now i d err run)) (fails_run d err s) (wr_Status run).
Proof.
  intros E. rewrite (finish_steps _ _ _ _ _ s) by done. unfold finish_step. rewrite E. cbv zeta.
  unfold check_complete, status_after. rewrite (proj1 (accumulate_keeps _ _)), (proj2 (accumulate_keeps _ _)).
  change (fails_run d err (s <| sr_EndedAt := now |>)) with (fails_run d err s).
  destruct (fails_run d err s); cbn [wr_Status setf set_wr_Status set_wr_Steps wr_Steps].
  - cbn. by rewrite (proj2 (accumulate_keeps _ _)).
  - cbn. destruct (wr_Status run ==? WorkflowStatusRunning) eqn:R;
      [|by rewrite (proj2 (accumulate_keeps _ _))].
    destruct (existsb open_step _); [by rewrite (proj2 (accumulate_keeps _ _))|].
    unfold close_run. cbn. by rewrite (proj1 (accumulate_keeps _ _)).
Qed.
End Fields.

(** ** Indexes *)

Lemma index_last_app {A} (key : A -> string) l x :
  index_last key (l ++ [x]) = <[key x := x]> (index_last key l).
Proof. unfold index_last. by rewrite fold_left_app. Qed.

Lemma index_last_Some {A} (key : A -> string) l id x :
  index_last key l !! id = Some x -> x ∈ l /\ key x = id.
Proof.
  induction l as [|y l IH] using rev_ind; [done|].
  rewrite index_last_app, lookup_insert_Some, elem_of_app, list_elem_of_singleton.
  intros [[<- <-]|[_ H]]; [auto|]. destruct (IH H). auto.
Qed.

Lemma index_last_is_Some {A} (key : A -> string) l id :
  is_Some (index_last key l !! id) <-> id ∈ map key l.
Proof.
  induction l as [|y l IH] using rev_ind.
  - split; [by intros [? [=]]|intros H; by apply not_elem_of_nil in H].
  - rewrite index_last_app, lookup_insert_is_Some, IH, map_app, elem_of_app. cbn.
    rewrite list_elem_of_singleton. destruct (decide (key y = id)); naive_solver.
Qed.

Lemma step_index_snoc l s :
  step_index (l ++ [s]) = <[sr_StepID s := length l]> (step_index l).
Proof.
  unfold step_index. rewrite length_app, seq_app, zip_with_app by by rewrite length_seq.
  by rewrite fold_left_app.
Qed.

Lemma step_index_Some l id i :
  step_index l !! id = Some i -> exists s, l !! i = Some s /\ sr_StepID s = id.
Proof.
  induction l as [|s l IH] using rev_ind; [done|].
  rewrite step_index_snoc, lookup_insert_Some. intros [[<- <-]|[_ H]].
  - exists s. split; [|done]. by apply list_lookup_middle.
  - destruct (IH H) as (x & Hx & ?). exists x. split; [|done]. by apply lookup_app_l_Some.
Qed.

Lemma step_index_is_Some l id : is_Some (step_index l !! id) <-> id ∈ map sr_StepID l.
Proof.
  induction l as [|s l IH] using rev_ind.
  - split; [by intros [? [=]]|intros H; by apply not_elem_of_nil in H].
  - rewrite step_index_snoc, lookup_insert_is_Some, IH, map_app, elem_of_app. cbn.
    rewrite list_elem_of_singleton. destruct (decide (sr_StepID s = id)); naive_solver.
Qed.

(** Only the identifiers matter for the index. *)
Lemma step_index_ids l l' : map sr_StepID l = map sr_StepID l' -> step_index l = step_index l'.
Proof.
  revert l'. induction l as [|s l IH] using rev_ind; intros l'.
  - destruct l'; [done|discriminate].
  - destruct l' as [|s' l' _] using rev_ind; rewrite !map_app; cbn; intros H.
    { by apply app_nil in H as [_ ?]. }
    apply app_inj_tail in H as [Hl Hs]. rewrite !step_index_snoc, (IH l' Hl), Hs.
    apply (f_equal length) in Hl. rewrite !length_map in Hl. by rewrite Hl.
Qed.

Lemma map_insert_id {A B} (f : A -> B) i x y (l : list A) :
  l !! i = Some x -> f y = f x -> map f (<[i := y]> l) = map f l.
Proof.
  intros Hi Hf. change (map f) with (fmap (M := list) f). rewrite list_fmap_insert, Hf. apply list_insert_id.
  by rewrite list_lookup_fmap, Hi.
Qed.
