(* ===== verification/WorkflowSafety.v ===== *)
(** Safety of the concurrent execution of a workflow run: in every interleaving of
    scheduling goroutines and operator actions a step is executed by one goroutine
    at a time and only after its dependencies, and a completed run has no failed
    step and stays as it is. *)

From Stdlib Require Import String.
From stdpp Require Import base tactics decidable list gmap strings relations.
From S2P Require Import Prelude Enums Verification Budget TaskModels Lifecycle LedgerModels Ledger WorkflowModels Workflow WorkflowProps.

(** ** Ownership of steps by goroutines *)

(** The steps that a goroutine will still execute, the one it is executing, and
    both. *)
Definition queued (w : worker) : list nat :=
  match w with WScan => [] | WQueue todo | WExec _ todo | WAfter todo => todo end.

Definition executing (w : worker) : list nat :=
  match w with WExec i _ => [i] | _ => [] end.

Definition owned (w : worker) : list nat := executing w ++ queued w.

Lemma elem_of_owned i ws :
  i ∈ ws ≫= owned <-> i ∈ ws ≫= queued \/ i ∈ ws ≫= executing.
Proof.
  rewrite !list_elem_of_bind. unfold owned. setoid_rewrite elem_of_app. naive_solver.
Qed.

(** The steps of a run and its goroutines are consistent. *)
Section Inv.
Variable def : WorkflowDefinition.

(** The step at [i] has the status [st], and its dependencies are satisfied. *)
Definition held (steps : list StepRun) (st : string) (i : nat) : Prop :=
  exists s, steps !! i = Some s /\ sr_Status s = st
            /\ due (step_index steps) (def_index def) steps s.

Record consistent (steps : list StepRun) (ws : list worker) : Prop := mkConsistent {
  cs_ids : map sr_StepID steps = map sd_ID (wd_Steps def);
  cs_nodup : NoDup (ws ≫= owned);
  cs_queued : forall i, i ∈ ws ≫= queued -> held steps StepStatusReady i;
  cs_exec : forall i, i ∈ ws ≫= executing -> held steps StepStatusRunning i
}.

#[export] Instance consistent_perm : Proper (eq ==> Permutation ==> iff) consistent.
Proof.
  assert (forall steps ws ws', Permutation ws ws' -> consistent steps ws -> consistent steps ws') as H.
  { intros steps ws ws' Hp [H1 H2 H3 H4]. split; [done| | |]; intros; rewrite <-Hp in *; auto. }
  intros steps _ <- ws ws' Hp. split; apply H; [done|by symmetry].
Qed.

Lemma consistent_known steps ws i s :
  consistent steps ws -> steps !! i = Some s -> is_Some (def_index def !! sr_StepID s).
Proof.
  intros H Hs. unfold def_index. rewrite index_last_is_Some, <-(cs_ids _ _ H).
  apply list_elem_of_In, in_map, list_elem_of_In. by eapply list_elem_of_lookup_2.
Qed.

Lemma held_keeps l l' st i s' :
  map sr_StepID l' = map sr_StepID l -> keeps_settled l l' ->
  l' !! i = Some s' -> sr_Status s' = st ->
  (exists s, l !! i = Some s /\ due (step_index l) (def_index def) l s /\ sr_StepID s' = sr_StepID s) ->
  held l' st i.
Proof.
  intros Hids Hk Hs' Hst (s & Hs & (d & Hd & Hok) & Hid). exists s'. split; [done|]. split; [done|].
  rewrite (step_index_ids _ _ Hids). exists d. rewrite Hid. split; [done|].
  by eapply deps_satisfied_mono.
Qed.

(** A step that is not final may change under the goroutine that owns it. *)
Lemma held_insert_ne l st i j s s' :
  l !! i = Some s -> ~ settled (sr_Status s) -> sr_StepID s' = sr_StepID s -> i <> j ->
  held l st j -> held (<[i := s']> l) st j.
Proof.
  intros Hi Hn Hid Hne (x & Hx & Hst & Hd). eapply held_keeps; [|by eapply keeps_settled_insert| |exact Hst|].
  - by eapply map_insert_id.
  - by rewrite list_lookup_insert_ne.
  - by exists x.
Qed.

Lemma held_insert_eq l st i s s' :
  l !! i = Some s -> ~ settled (sr_Status s) -> sr_StepID s' = sr_StepID s -> sr_Status s' = st ->
  due (step_index l) (def_index def) l s -> held (<[i := s']> l) st i.
Proof.
  intros Hi Hn Hid Hst Hd. eapply held_keeps; [|by eapply keeps_settled_insert| |exact Hst|].
  - by eapply map_insert_id.
  - apply list_lookup_insert_eq. by eapply lookup_lt_Some.
  - by exists s.
Qed.

(** The goroutine [w] becomes [w'] and changes only the step [i], which it owns and
    no longer queues. *)
Lemma consistent_update steps w w' rest i s s' :
  consistent steps (w :: rest) ->
  steps !! i = Some s -> ~ settled (sr_Status s) -> sr_StepID s' = sr_StepID s ->
  i ∈ owned w -> (i ∉ queued w') ->
  (owned w' ≡ₚ owned w \/ owned w ≡ₚ i :: owned w') ->
  (forall j, j ∈ queued w' -> j ∈ queued w) ->
  (forall j, j ∈ executing w' -> j = i /\ sr_Status s' = StepStatusRunning
             /\ due (step_index steps) (def_index def) steps s) ->
  consistent (<[i := s']> steps) (w' :: rest).
Proof.
  intros [H1 H2 H3 H4] Hi Hn Hid Hown Hnq Hperm Hq He.
  assert (forall j, j ∈ rest ≫= owned -> i <> j) as Hrest.
  { intros j Hj ->. cbn in H2. apply NoDup_app in H2 as (_ & Hd & _). by apply (Hd j). }
  split.
  - rewrite <-H1. by eapply map_insert_id.
  - cbn in *. destruct Hperm as [Hp|Hp]; [by rewrite Hp|]. rewrite Hp in H2. cbn in H2.
    by apply NoDup_cons in H2 as [_ ?].
  - intros j. cbn. rewrite elem_of_app. intros Hj.
    assert (i <> j) as Hne by (destruct Hj; [by intros ->|apply Hrest, elem_of_owned; auto]).
    eapply held_insert_ne; [done..|]. apply H3. cbn. rewrite elem_of_app. naive_solver.
  - intros j. cbn. rewrite elem_of_app. intros [Hj|Hj].
    + destruct (He j Hj) as (-> & Hs & Hd). by eapply held_insert_eq.
    + assert (i <> j) by (apply Hrest, elem_of_owned; auto).
      eapply held_insert_ne; [done..|]. apply H4. cbn. rewrite elem_of_app. auto.
Qed.

(** A scan. *)
Lemma scan_keeps sI dI todo steps steps' ready :
  scan_ok sI dI todo steps steps' ready -> keeps_settled steps steps'.
Proof.
  intros H i s Hs Hset. destruct (scan_step _ _ _ _ _ _ H i s Hs) as (s' & Hs' & _ & _ & Hc).
  exists s'. split; [done|]. destruct Hc as [[? _]|[(Hw & _)|(Hw & _)]]; [done|..];
    by apply waiting_unsettled in Hw.
Qed.

Lemma scan_ids sI dI todo steps steps' ready :
  scan_ok sI dI todo steps steps' ready -> map sr_StepID steps' = map sr_StepID steps.
Proof.
  intros H. apply list_eq_same_length with (length steps);
    [by rewrite length_map|by rewrite length_map, (scan_length _ _ _ _ _ _ H)|].
  intros i x y _. change (map sr_StepID) with (fmap (M := list) sr_StepID). rewrite !list_lookup_fmap.
  intros (s' & E & ->)%fmap_Some (s & E2 & ->)%fmap_Some.
  destruct (scan_step _ _ _ _ _ _ H i s E2) as (x & ? & ? & _). by simplify_eq.
Qed.

Lemma consistent_scan steps steps' ready rest :
  scan_ok (step_index steps) (def_index def) (seq 0 (length steps)) steps steps' ready ->
  consistent steps (WScan :: rest) -> consistent steps' (WQueue ready :: rest).
Proof.
  intros Hok [H1 H2 H3 H4]. pose proof (scan_keeps _ _ _ _ _ _ Hok) as Hk.
  pose proof (scan_ids _ _ _ _ _ _ Hok) as Hids. cbn in H2, H3, H4.
  assert (forall i st, held steps st i -> st <> StepStatusPending -> st <> StepStatusBlocked ->
            (i ∉ ready) /\ held steps' st i) as Hother.
  { intros i st (s & Hs & Hst & Hd) Hp Hb.
    destruct (scan_step _ _ _ _ _ _ Hok i s Hs) as (s' & Hs' & Hid & _ & Hc).
    assert (~ waiting s) as Hw by (intros [?|?]; congruence).
    destruct Hc as [[Hst' Hr]|[(? & _)|(? & _)]]; [|done..]. split; [done|].
    eapply held_keeps; [done|done|done|congruence|by exists s]. }
  split.
  - congruence.
  - cbn. apply NoDup_app. split; [apply Hok|]. split; [|done].
    intros i Hi [Hq|He]%elem_of_owned.
    + by destruct (Hother i _ (H3 i Hq)).
    + by destruct (Hother i _ (H4 i He)).
  - intros i. cbn. rewrite elem_of_app. intros [Hi|Hi].
    + assert (i < length steps)%nat as Hlt.
      { apply (scan_todo _ _ _ _ _ _ Hok), elem_of_seq in Hi. lia. }
      apply lookup_lt_is_Some_2 in Hlt as [s Hs].
      destruct (scan_step _ _ _ _ _ _ Hok i s Hs) as (s' & Hs' & Hid & _ & Hc).
      destruct Hc as [[_ ?]|[(Hw & _ & Hst & Hd)|(_ & ? & _)]]; [done| |done].
      eapply held_keeps; [done|done|done|done|by exists s].
    + by destruct (Hother i _ (H3 i Hi)).
  - intros i. cbn. intros Hi. by destruct (Hother i _ (H4 i Hi)).
Qed.
End Inv.

(** ** Every step of the system keeps the run consistent *)

Section Steps.
Variable def : WorkflowDefinition.
Variable decodeTaskUsage : any -> option TaskUsage.
Variable decodeOutputUsage : gmap string any -> option TaskUsage.
Local Definition finish := finish_step decodeTaskUsage decodeOutputUsage.

Lemma consistent_started now runID inputs :
  consistent def (wr_Steps (ws_run (started def now runID inputs)))
    (ws_workers (started def now runID inputs)).
Proof.
  cbn. split; cbn.
  - by rewrite map_map.
  - apply NoDup_nil_2.
  - intros i Hi. by apply not_elem_of_nil in Hi.
  - intros i Hi. by apply not_elem_of_nil in Hi.
Qed.

(** A goroutine that ends leaves the others as they are. *)
Lemma consistent_drop steps w rest :
  owned w = [] -> consistent def steps (w :: rest) -> consistent def steps rest.
Proof.
  intros Ho [H1 H2 H3 H4]. cbn in H2. rewrite Ho in H2.
  unfold owned in Ho. apply app_nil in Ho as [He Hq]. cbn in H3, H4. rewrite He in H4. rewrite Hq in H3.
  by split.
Qed.

(** Replacing a goroutine by one with the same steps. *)
Lemma consistent_same steps w w' rest :
  queued w' = queued w -> executing w' = executing w ->
  consistent def steps (w :: rest) -> consistent def steps (w' :: rest).
Proof.
  intros Hq He [H1 H2 H3 H4]. split; [done| | |]; cbn; unfold owned in *; cbn in H2, H3, H4.
  - by rewrite Hq, He.
  - by rewrite Hq.
  - by rewrite He.
Qed.

Lemma consistent_scan_add steps rest :
  consistent def steps rest -> consistent def steps (WScan :: rest).
Proof. intros [H1 H2 H3 H4]. by split. Qed.

(** The goroutine [w] works on the first step [i] that it owns. *)
Lemma consistent_head w w' steps rest i todo s s' :
  consistent def steps (w :: rest) -> steps !! i = Some s -> ~ settled (sr_Status s) ->
  sr_StepID s' = sr_StepID s -> owned w = i :: todo -> queued w' = todo ->
  (forall j, j ∈ queued w' -> j ∈ queued w) ->
  (executing w' = [] \/ executing w' = [i] /\ sr_Status s' = StepStatusRunning
     /\ due (step_index steps) (def_index def) steps s) ->
  consistent def (<[i := s']> steps) (w' :: rest).
Proof.
  intros H Hs Hn Hid Ho Hq Hsub He.
  pose proof (cs_nodup _ _ _ H) as Hnd. cbn in Hnd. rewrite Ho in Hnd.
  apply NoDup_cons in Hnd as [Hni _]. rewrite elem_of_app in Hni.
  eapply (consistent_update _ _ w w'); [exact H|exact Hs|done|done|..].
  - rewrite Ho. apply list_elem_of_here.
  - rewrite Hq. tauto.
  - rewrite Ho. unfold owned. rewrite Hq. destruct He as [->|[-> _]]; [by right|by left].
  - done.
  - destruct He as [->|(-> & Hst & Hd)]; intros j Hj; [by apply not_elem_of_nil in Hj|].
    by apply list_elem_of_singleton in Hj as ->.
Qed.

Lemma consistent_worker run w run' ws rest :
  worker_step def decodeTaskUsage decodeOutputUsage run w run' ws ->
  consistent def (wr_Steps run) (w :: rest) -> consistent def (wr_Steps run') (ws ++ rest).
Proof.
  intros Hstep H. destruct Hstep as
    [run run' ready Hs|run|run i todo Hn|run i todo now Hd|run i todo tid rid out meta now
    |run i todo d err now Hd Ho|run todo]; cbn [app].
  - destruct (schedule_locked_spec _ _ _ _ Hs) as [_ [(_ & -> & ->)|[_ Hok]]].
    + by apply (consistent_same _ WScan).
    + by eapply consistent_scan.
  - by apply (consistent_drop _ (WQueue [])).
  - exfalso. destruct (cs_queued _ _ _ H i) as (s & Hs & _); [cbn; rewrite elem_of_cons; auto|].
    pose proof (consistent_known _ _ _ _ _ H Hs) as [x Hx].
    unfold step_def in Hn. rewrite Hs in Hn. cbn in Hn. congruence.
  - destruct (cs_queued _ _ _ H i) as (s & Hs & Hst & Hdue); [cbn; rewrite elem_of_cons; auto|].
    unfold begin_step. rewrite Hs. cbn [wr_Steps setf set_wr_Steps set_wr_CurrentStep set_wr_UpdatedAt].
    eapply (consistent_head (WQueue (i :: todo)) (WExec i todo)); [exact H|exact Hs|..]; try done; [|by intros; cbn; rewrite ?elem_of_cons; auto|by right].
    rewrite Hst, settled_cases. intuition discriminate.
  - destruct (cs_exec _ _ _ H i) as (s & Hs & Hst & Hdue); [cbn; rewrite elem_of_cons; auto|].
    unfold executor_writes. rewrite Hs. cbn [wr_Steps setf set_wr_Steps set_wr_UpdatedAt].
    eapply (consistent_head (WExec i todo) (WExec i todo)); [exact H|exact Hs|..]; try done; [|by right].
    rewrite Hst, settled_cases. intuition discriminate.
  - destruct (cs_exec _ _ _ H i) as (s & Hs & Hst & Hdue); [cbn; rewrite elem_of_cons; auto|].
    rewrite (finish_steps _ _ _ _ _ _ _ s) by done.
    eapply (consistent_head (WExec i todo) (WAfter todo)); [exact H|exact Hs|..]; try done; [| |by left].
    + rewrite Hst, settled_cases. intuition discriminate.
    + exact (proj1 (settle_step_fields d err (s <| sr_EndedAt := now |>))).
  - assert (consistent def (wr_Steps run) (WQueue todo :: rest)) as H'
      by by apply (consistent_same _ (WAfter todo)).
    destruct (_ ==? _); [|done]. cbn.
    rewrite (Permutation_swap WScan (WQueue todo) rest). by apply consistent_scan_add.
Qed.

Lemma operator_steps now reason run run' :
  cancel_locked now reason run = Ok run' \/ pause_locked now run = Ok run'
  \/ resume_locked now run = Ok run' ->
  wr_Steps run' = wr_Steps run.
Proof.
  unfold cancel_locked, pause_locked, resume_locked.
  intros [H|[H|H]]; destruct (_ !=? _) in H; cbn [andb] in H; try destruct (_ !=? _) in H;
    try discriminate; apply Ok_inj in H as <-; done.
Qed.

Lemma consistent_step st st' :
  wf_step def decodeTaskUsage decodeOutputUsage st st' ->
  consistent def (wr_Steps (ws_run st)) (ws_workers st) ->
  consistent def (wr_Steps (ws_run st')) (ws_workers st').
Proof.
  intros [run pre w post run' ws Hw|run ws now reason run' Ho|run ws now run' Ho|run ws now run' Ho] H;
    cbn in *.
  - rewrite (Permutation_app_swap_app pre ws post). apply (consistent_worker _ _ _ _ _ Hw).
    by rewrite Permutation_middle.
  - by rewrite (operator_steps now reason run run') by auto.
  - by rewrite (operator_steps now "" run run') by auto.
  - rewrite (operator_steps now "" run run') by auto. by apply consistent_scan_add.
Qed.

Lemma consistent_reachable now runID inputs st :
  rtc (wf_step def decodeTaskUsage decodeOutputUsage) (started def now runID inputs) st ->
  consistent def (wr_Steps (ws_run st)) (ws_workers st).
Proof.
  intros Hr. pose proof (consistent_started now runID inputs) as H.
  induction Hr as [|st st' st'' Hs _ IH]; [done|]. apply IH. by eapply consistent_step.
Qed.
End Steps.

(** ** Completed runs *)

Definition step_statuses : list string :=
  [StepStatusPending; StepStatusReady; StepStatusRunning; StepStatusBlocked;
   StepStatusCompleted; StepStatusFailed; StepStatusSkipped].

Definition succeeded (s : StepRun) : Prop :=
  sr_Status s = StepStatusCompleted \/ sr_Status s = StepStatusSkipped.

Lemma succeeded_settled s : succeeded s -> settled (sr_Status s).
Proof. unfold succeeded. rewrite settled_cases. tauto. Qed.

(** The statuses of a run are the declared ones, and a completed run succeeded. *)
Record accounted (run : WorkflowRun) : Prop := mkAccounted {
  ac_status : Forall (fun s => sr_Status s ∈ step_statuses) (wr_Steps run);
  ac_completed : wr_Status run = WorkflowStatusCompleted -> Forall succeeded (wr_Steps run)
}.

Lemma closed_succeeded steps :
  Forall (fun s => sr_Status s ∈ step_statuses) steps ->
  existsb open_step steps = false -> existsb failed_step steps = false -> Forall succeeded steps.
Proof.
  rewrite !Forall_forall. intros Hst Ho Hf s Hs. specialize (Hst s Hs).
  assert (open_step s = false) as Hos.
  { apply not_true_is_false. intros E. apply not_true_iff_false in Ho. apply Ho, existsb_exists.
    exists s. split; [by apply list_elem_of_In|done]. }
  assert (failed_step s = false) as Hfs.
  { apply not_true_is_false. intros E. apply not_true_iff_false in Hf. apply Hf, existsb_exists.
    exists s. split; [by apply list_elem_of_In|done]. }
  unfold open_step, failed_step in *. rewrite !orb_false_iff, !String.eqb_neq in *.
  unfold step_statuses in Hst. rewrite !elem_of_cons in Hst. unfold succeeded.
  destruct Hos as [[[? ?] ?] ?].
  destruct Hst as [|[|[|[|[|[|[|Hn]]]]]]]; try tauto. by apply not_elem_of_nil in Hn.
Qed.

Lemma status_after_completed steps fails st :
  status_after steps fails st = WorkflowStatusCompleted ->
  (fails = false /\ st = WorkflowStatusCompleted)
  \/ existsb open_step steps = false /\ existsb failed_step steps = false.
Proof.
  unfold status_after. destruct fails; [done|]. destruct (_ ==? _); [|auto].
  destruct (existsb open_step steps) eqn:Ho; [auto|].
  destruct (existsb failed_step steps) eqn:Hf; [done|auto].
Qed.

Lemma settle_status_known d err n : settle_status d err n ∈ step_statuses.
Proof.
  apply (bool_decide_unpack _). unfold settle_status. destruct err as [[|msg]|]; [done| |done].
  destruct (match sd_RetryPolicy d with Some p => _ | None => _ end); [done|].
  by destruct (sd_OnFailure d ==? "skip").
Qed.

Section Completed.
Variable def : WorkflowDefinition.
Variable decodeTaskUsage : any -> option TaskUsage.
Variable decodeOutputUsage : gmap string any -> option TaskUsage.

(** A run whose steps have all succeeded has no work left. *)
Lemma succeeded_idle run w rest :
  consistent def (wr_Steps run) (w :: rest) -> Forall succeeded (wr_Steps run) -> owned w = [].
Proof.
  intros H Hs. destruct (owned w) as [|i l] eqn:E; [done|]. exfalso.
  assert (exists st, held def (wr_Steps run) st i /\ ~ settled st) as (st & (s & Hi & Hst & _) & Hn).
  { assert (i ∈ (w :: rest) ≫= owned) as Hi by (cbn; rewrite E; apply list_elem_of_here).
    apply elem_of_owned in Hi as [Hi|Hi].
    - eexists. split; [by eapply cs_queued|]. rewrite settled_cases. intuition discriminate.
    - eexists. split; [by eapply cs_exec|]. rewrite settled_cases. intuition discriminate. }
  apply Hn. rewrite <-Hst. apply succeeded_settled. rewrite Forall_forall in Hs.
  apply Hs. by eapply list_elem_of_lookup_2.
Qed.

Lemma completed_worker run w run' ws rest :
  worker_step def decodeTaskUsage decodeOutputUsage run w run' ws ->
  consistent def (wr_Steps run) (w :: rest) -> Forall succeeded (wr_Steps run) ->
  wr_Status run = WorkflowStatusCompleted -> run' = run.
Proof.
  intros Hstep H Hs Hst. pose proof (succeeded_idle _ _ _ H Hs) as Ho.
  destruct Hstep as [run run' ready Hsc|run|run i todo Hn|run i todo now Hd|run i todo tid rid out meta now
    |run i todo d err now Hd Hout|run todo]; try done.
  destruct (schedule_locked_spec _ _ _ _ Hsc) as [_ [(_ & -> & _)|[Hr _]]]; [done|by rewrite Hst in Hr].
Qed.

Lemma statuses_insert i s steps :
  Forall (fun s => sr_Status s ∈ step_statuses) steps -> sr_Status s ∈ step_statuses ->
  Forall (fun s => sr_Status s ∈ step_statuses) (<[i := s]> steps).
Proof. intros H Hs. by apply Forall_insert. Qed.

Lemma scan_statuses steps steps' ready :
  scan_ok (step_index steps) (def_index def) (seq 0 (length steps)) steps steps' ready ->
  Forall (fun s => sr_Status s ∈ step_statuses) steps ->
  Forall (fun s => sr_Status s ∈ step_statuses) steps'.
Proof.
  rewrite !Forall_lookup. intros Hok Hst i s' Hi.
  assert (i < length steps)%nat as Hlt.
  { rewrite <-(scan_length _ _ _ _ _ _ Hok). by eapply lookup_lt_Some. }
  apply lookup_lt_is_Some_2 in Hlt as [s Hs].
  destruct (scan_step _ _ _ _ _ _ Hok i s Hs) as (x & Hx & _ & _ & Hc). simplify_eq.
  destruct Hc as [[-> _]|[(_ & _ & -> & _)|(_ & _ & ->)]]; [by eapply Hst|by apply (bool_decide_unpack _)..].
Qed.

Lemma accounted_worker run w run' ws rest :
  worker_step def decodeTaskUsage decodeOutputUsage run w run' ws ->
  consistent def (wr_Steps run) (w :: rest) -> accounted run -> accounted run'.
Proof.
  intros Hstep H [Ha Hc]. destruct (decide (wr_Status run = WorkflowStatusCompleted)) as [Hst|Hst].
  { rewrite (completed_worker _ _ _ _ _ Hstep H (Hc Hst) Hst). by split. }
  destruct Hstep as [run run' ready Hsc|run|run i todo Hn|run i todo now Hd|run i todo tid rid out meta now
    |run i todo d err now Hd Hout|run todo]; try done.
  - destruct (schedule_locked_spec _ _ _ _ Hsc) as [Hs [(_ & -> & _)|[_ Hok]]]; [done|].
    split; [by eapply scan_statuses|]. congruence.
  - unfold begin_step. destruct (wr_Steps run !! i) as [s|] eqn:E; [|done].
    split; [|by intros ?]. cbn. apply statuses_insert; [done|]. by apply (bool_decide_unpack _).
  - unfold executor_writes. destruct (wr_Steps run !! i) as [s|] eqn:E; [|done].
    split; [|by intros ?]. cbn. apply statuses_insert; [done|]. cbn.
    rewrite Forall_lookup in Ha. by eapply Ha.
  - destruct (cs_exec _ _ _ H i) as (s & Hs & _); [cbn; rewrite elem_of_cons; auto|].
    assert (Forall (fun s => sr_Status s ∈ step_statuses)
              (wr_Steps (finish_step decodeTaskUsage decodeOutputUsage now i d err run))) as Hnew.
    { rewrite (finish_steps _ _ _ _ _ _ _ s) by done. apply statuses_insert; [done|].
      rewrite (proj2 (proj2 (settle_step_fields _ _ _))). apply settle_status_known. }
    split; [done|]. rewrite (finish_status _ _ _ _ _ _ _ s) by done.
    intros [[_ ?]|[Ho Hf]]%status_after_completed; [done|]. by apply closed_succeeded.
Qed.

Lemma operator_status now reason run run' :
  cancel_locked now reason run = Ok run' \/ pause_locked now run = Ok run'
  \/ resume_locked now run = Ok run' ->
  (wr_Status run = WorkflowStatusRunning \/ wr_Status run = WorkflowStatusPaused)
  /\ wr_Status run' <> WorkflowStatusCompleted.
Proof.
  unfold cancel_locked, pause_locked, resume_locked.
  destruct (String.eqb_spec (wr_Status run) WorkflowStatusRunning),
    (String.eqb_spec (wr_Status run) WorkflowStatusPaused); cbn;
    intros [H|[H|H]]; try discriminate; apply Ok_inj in H as <-; by auto.
Qed.

Lemma accounted_step st st' :
  wf_step def decodeTaskUsage decodeOutputUsage st st' ->
  consistent def (wr_Steps (ws_run st)) (ws_workers st) ->
  accounted (ws_run st) -> accounted (ws_run st').
Proof.
  intros [run pre w post run' ws Hw|run ws now reason run' Ho|run ws now run' Ho|run ws now run' Ho] H Ha;
    cbn in *.
  - eapply accounted_worker; [exact Hw| |done]. by rewrite Permutation_middle.
  - split; [rewrite (operator_steps now reason run run') by auto; apply Ha|].
    by intros ?%(operator_status now reason run); auto.
  - split; [rewrite (operator_steps now "" run run') by auto; apply Ha|].
    by intros ?%(operator_status now "" run); auto.
  - split; [rewrite (operator_steps now "" run run') by auto; apply Ha|].
    by intros ?%(operator_status now "" run); auto.
Qed.

Lemma accounted_reachable now runID inputs st :
  rtc (wf_step def decodeTaskUsage decodeOutputUsage) (started def now runID inputs) st ->
  accounted (ws_run st).
Proof.
  intros Hr. pose proof (consistent_started def now runID inputs) as H.
  assert (accounted (ws_run (started def now runID inputs))) as Ha.
  { split; [|done]. cbn. apply Forall_map, Forall_true. intros x. by apply (bool_decide_unpack _). }
  induction Hr as [|st st' st'' Hs _ IH]; [done|].
  apply IH; [by eapply consistent_step|by eapply accounted_step].
Qed.
End Completed.

(** ** The guarantees *)

(** What a dependency must have reached. *)
Definition dependency_met (def : WorkflowDefinition) (steps : list StepRun) (dep : string) : Prop :=
  exists j s, steps !! j = Some s /\ sr_StepID s = dep
    /\ (succeeded s \/ sr_Status s = StepStatusFailed
        /\ exists d, def_index def !! dep = Some d /\ sd_OnFailure d = "continue").

Lemma dependencySatisfied_cases s d :
  dependencySatisfied (Some s) d = true <->
  succeeded s \/ sr_Status s = StepStatusFailed /\ exists d', d = Some d' /\ sd_OnFailure d' = "continue".
Proof.
  unfold dependencySatisfied, succeeded. cbn [go_switch existsb].
  destruct (String.eqb_spec (sr_Status s) StepStatusCompleted) as [->|]; [cbn; tauto|].
  destruct (String.eqb_spec (sr_Status s) StepStatusSkipped) as [->|]; [cbn; tauto|].
  destruct (String.eqb_spec (sr_Status s) StepStatusFailed) as [->|]; cbn [orb].
  - destruct d as [d|]; [rewrite String.eqb_eq|]; naive_solver.
  - split; [done|]. tauto.
Qed.

Lemma held_dependencies def steps st i :
  held def steps st i ->
  exists s d, steps !! i = Some s /\ sr_Status s = st /\ def_index def !! sr_StepID s = Some d
    /\ Forall (dependency_met def steps) (sd_Dependencies d).
Proof.
  intros (s & Hs & Hst & d & Hd & Hok). exists s, d. split_and!; [done..|].
  apply Forall_forall. intros dep Hdep. unfold deps_satisfied in Hok. rewrite forallb_forall in Hok.
  specialize (Hok dep). rewrite <-list_elem_of_In in Hok. specialize (Hok Hdep).
  destruct (step_index steps !! dep) as [j|] eqn:Ej; cbn in Hok; [|done].
  destruct (step_index_Some _ _ _ Ej) as (t & Ht & Hid). rewrite Ht in Hok.
  apply dependencySatisfied_cases in Hok. exists j, t. naive_solver.
Qed.

(** C2: in every interleaving of scheduling goroutines, executors and operator
    actions of a workflow run, a step is executed or queued by at most one
    goroutine, and a step in execution is marked running and every step it depends
    on completed, was skipped, or failed with the policy to continue. *)
Theorem step_runs_once_after_dependencies def dec dec_out now runID inputs st :
  rtc (wf_step def dec dec_out) (started def now runID inputs) st ->
  NoDup (ws_workers st ≫= owned)
  /\ forall i, i ∈ ws_workers st ≫= executing ->
       exists s d, wr_Steps (ws_run st) !! i = Some s /\ sr_Status s = StepStatusRunning
         /\ def_index def !! sr_StepID s = Some d
         /\ Forall (dependency_met def (wr_Steps (ws_run st))) (sd_Dependencies d).
Proof.
  intros Hr. apply consistent_reachable in Hr. split; [apply Hr|].
  intros i Hi. by apply held_dependencies, (cs_exec _ _ _ Hr).
Qed.

(** A workflow run is only marked completed when every step completed or was
    skipped, and from then on no goroutine and no operator action changes it. *)
Theorem completed_run_is_final def dec dec_out now runID inputs st :
  rtc (wf_step def dec dec_out) (started def now runID inputs) st ->
  wr_Status (ws_run st) = WorkflowStatusCompleted ->
  Forall succeeded (wr_Steps (ws_run st))
  /\ forall st', rtc (wf_step def dec dec_out) st st' -> ws_run st' = ws_run st.
Proof.
  intros Hr Hst. pose proof (consistent_reachable _ _ _ _ _ _ _ Hr) as H.
  pose proof (accounted_reachable _ _ _ _ _ _ _ Hr) as Ha.
  split; [by apply Ha|]. clear Hr. intros st' Hr.
  induction Hr as [|st st1 st' Hs Hr IH]; [done|].
  pose proof (consistent_step _ _ _ _ _ Hs H) as H1. pose proof (accounted_step _ _ _ _ _ Hs H Ha) as Ha1.
  enough (ws_run st1 = ws_run st) as E by (rewrite <-E in *; auto).
  destruct Hs as [run pre w post run' ws Hw|run ws now' reason run' Ho|run ws now' run' Ho|run ws now' run' Ho];
    cbn in *.
  - eapply completed_worker; [exact Hw| |by apply Ha|done]. by rewrite Permutation_middle.
  - destruct (operator_status now' reason run run') as [[E|E] _]; [by auto|by rewrite E in Hst..].
  - destruct (operator_status now' "" run run') as [[E|E] _]; [by auto|by rewrite E in Hst..].
  - destruct (operator_status now' "" run run') as [[E|E] _]; [by auto|by rewrite E in Hst..].
Qed.

(** A workflow of two steps, the second after the first. *)
Definition no_config : StepConfig :=
  mkStepConfig "" "" "" [] "" "" None 0 "" "" [] [] None None.

Definition turn_step (id : string) (deps : list string) (retry : option RetryPolicy)
    (on_failure : string) : StepDefinition :=
  mkStepDefinition id "" StepTypeAgentTurn deps no_config 0 retry on_failure "" None.

Definition workflow_of (steps : list StepDefinition) : WorkflowDefinition :=
  mkWorkflowDefinition 1 "w" "w" "" steps ∅ ∅ zero_authority zero_budget 0 None 1 1.

Definition two_steps : WorkflowDefinition :=
  workflow_of [turn_step "a" [] None ""; turn_step "b" ["a"] None ""].

Lemma turn_may_end run id deps retry on_failure err :
  not_blocked err -> step_outcome run (turn_step id deps retry on_failure) err.
Proof. intros H. apply outcome_executor; [|done]. cbn. apply (bool_decide_unpack _). by vm_compute. Qed.

(** One move of the only goroutine of a state, the one at the head. *)
Ltac move_first := eapply rtc_l; [eapply (wf_worker _ _ _ _ [] _ []) |]; cbn [app].

Lemma two_steps_execution :
  exists st, rtc (wf_step two_steps (fun _ => None) (fun _ => None)) (started two_steps 1 "r" None) st
    /\ ws_workers st = [WExec 0 []].
Proof.
  eexists. split.
  - unfold started. move_first; [by eapply step_scan|]. move_first; [|apply rtc_refl].
    apply (step_begin _ _ _ _ _ _ 2). by eexists.
  - done.
Defined.

Lemma step_runs_once_after_dependencies_witness :
  exists st s, rtc (wf_step two_steps (fun _ => None) (fun _ => None)) (started two_steps 1 "r" None) st
    /\ wr_Steps (ws_run st) !! 0%nat = Some s /\ sr_Status s = StepStatusRunning.
Proof.
  destruct two_steps_execution as (st & Hr & Hw).
  destruct (step_runs_once_after_dependencies _ _ _ _ _ _ _ Hr) as [_ H].
  destruct (H 0%nat) as (s & d & Hs & Hst & _); [rewrite Hw; apply list_elem_of_here|].
  by exists st, s.
Defined.

Lemma completed_run_is_final_witness :
  exists st, let def := workflow_of [turn_step "a" [] None ""] in
    rtc (wf_step def (fun _ => None) (fun _ => None)) (started def 1 "r" None) st
    /\ wr_Status (ws_run st) = WorkflowStatusCompleted /\ Forall succeeded (wr_Steps (ws_run st)).
Proof.
  eexists. cbv zeta.
  match goal with |- ?A /\ ?B /\ ?C => assert (A /\ B) as [Hr Hst] end.
  - split.
    + unfold started. move_first; [by eapply step_scan|].
      move_first; [apply (step_begin _ _ _ _ _ _ 2); by eexists|].
      move_first; [|apply rtc_refl].
      eapply (step_finish _ _ _ _ _ _ _ None 3); [reflexivity|by apply turn_may_end].
    + vm_compute. reflexivity.
  - split; [exact Hr|]. split; [exact Hst|]. exact (proj1 (completed_run_is_final _ _ _ _ _ _ _ Hr Hst)).
Defined.
