(* ===== verification/WorkflowProgress.v ===== *)
(** Progress of the concurrent execution of a workflow run: attempts are bounded,
    every execution is finite unless a step blocks, and a run of an acyclic
    workflow that is never paused has ended when its goroutines have. *)

From Stdlib Require Import String Lia.
From stdpp Require Import base tactics decidable list gmap strings relations.
From S2P Require Import Prelude Enums Verification Budget TaskModels Lifecycle LedgerModels Ledger WorkflowModels Workflow WorkflowProps WorkflowSafety.

(** ** Bounded attempts *)

(** The attempts that the retry policy of a step allows. *)
Definition allowed_attempts (d : StepDefinition) : Z :=
  match sd_RetryPolicy d with Some p => Z.max 1 (rp_MaxAttempts p) | None => 1 end.

(** No step of the workflow ends with the sentinel error, as an approval does. *)
Definition never_blocks (def : WorkflowDefinition) : Prop :=
  forall d run, d ∈ wd_Steps def -> ~ step_outcome run d (Some StepBlocked).

(** A step with this status will be started (again). *)
Definition startable (st : string) : bool :=
  (st ==? StepStatusPending) || (st ==? StepStatusReady) || (st ==? StepStatusBlocked).

Lemma waiting_startable s : waiting s -> startable (sr_Status s) = true.
Proof. by intros [-> | ->]. Qed.

Section Attempts.
Variable def : WorkflowDefinition.
Variable decodeTaskUsage : any -> option TaskUsage.
Variable decodeOutputUsage : gmap string any -> option TaskUsage.
Hypothesis Hblocks : never_blocks def.
(** [MaxAttempts] is an int. *)
Hypothesis Hint : forall d, d ∈ wd_Steps def -> int64_range (allowed_attempts d).

Lemma def_index_Some id d : def_index def !! id = Some d -> d ∈ wd_Steps def /\ sd_ID d = id.
Proof. apply index_last_Some. Qed.

(** The step [s] of definition [d] is within its attempts. *)
Definition within (d : StepDefinition) (s : StepRun) : Prop :=
  0 <= sr_Attempt s /\ sr_Attempt s + (if startable (sr_Status s) then 1 else 0) <= allowed_attempts d.

Definition all_within (steps : list StepRun) : Prop :=
  forall i s d, steps !! i = Some s -> def_index def !! sr_StepID s = Some d -> within d s.

Lemma all_within_insert i s s' steps :
  steps !! i = Some s -> sr_StepID s' = sr_StepID s ->
  (forall d, def_index def !! sr_StepID s = Some d -> within d s -> within d s') ->
  all_within steps -> all_within (<[i := s']> steps).
Proof.
  intros Hi Hid Hw H j x d Hx Hd. destruct (decide (i = j)) as [<-|Hne].
  - rewrite list_lookup_insert_eq in Hx by by eapply lookup_lt_Some.
    injection Hx as <-. rewrite Hid in Hd. eauto.
  - rewrite list_lookup_insert_ne in Hx by done. eauto.
Qed.

Lemma settle_within d err n :
  err <> Some StepBlocked -> 0 <= n <= allowed_attempts d ->
  n + (if startable (settle_status d err n) then 1 else 0) <= allowed_attempts d.
Proof.
  unfold settle_status, allowed_attempts. intros Hb Hn.
  destruct err as [[|msg]|]; [done| |cbn; lia].
  destruct (sd_RetryPolicy d) as [p|].
  - destruct (Z.ltb_spec n (rp_MaxAttempts p)); [cbn; lia|].
    destruct (sd_OnFailure d ==? "skip"); cbn; lia.
  - destruct (sd_OnFailure d ==? "skip"); cbn; lia.
Qed.

Lemma step_def_Some run i d :
  step_def def run i = Some d ->
  exists s, wr_Steps run !! i = Some s /\ def_index def !! sr_StepID s = Some d.
Proof. unfold step_def. destruct (wr_Steps run !! i) as [s|]; cbn; [|done]. by exists s. Qed.

Lemma all_within_worker run w run' ws rest :
  worker_step def decodeTaskUsage decodeOutputUsage run w run' ws ->
  consistent def (wr_Steps run) (w :: rest) ->
  all_within (wr_Steps run) -> all_within (wr_Steps run').
Proof.
  intros Hstep H Hw. destruct Hstep as
    [run run' ready Hs|run|run i todo Hn|run i todo now Hd|run i todo tid rid out meta now
    |run i todo d err now Hd Ho|run todo]; try done.
  - destruct (schedule_locked_spec _ _ _ _ Hs) as [_ [(_ & -> & _)|[_ Hok]]]; [done|].
    intros i s' d Hi Hd.
    assert (i < length (wr_Steps run))%nat as Hlt.
    { rewrite <-(scan_length _ _ _ _ _ _ Hok). by eapply lookup_lt_Some. }
    apply lookup_lt_is_Some_2 in Hlt as [s Hs'].
    destruct (scan_step _ _ _ _ _ _ Hok i s Hs') as (x & Hx & Hid & Hat & Hc). simplify_eq.
    rewrite Hid in Hd. specialize (Hw i s d Hs' Hd). unfold within in *. rewrite Hat.
    destruct Hc as [[-> _]|[(Hwt & _ & -> & _)|(Hwt & _ & ->)]]; [done|..];
      by rewrite (waiting_startable _ Hwt) in Hw.
  - destruct (cs_queued _ _ _ H i) as (s & Hs & Hst & _); [cbn; rewrite elem_of_cons; auto|].
    unfold begin_step. rewrite Hs. cbn [wr_Steps setf set_wr_Steps set_wr_CurrentStep set_wr_UpdatedAt].
    eapply all_within_insert; [exact Hs|done| |done]. intros d Hdd [H0 H1]. rewrite Hst in H1. cbn in H1.
    pose proof (def_index_Some _ _ Hdd) as [Hin _]. apply Hint in Hin.
    unfold within. cbn. rewrite add64_small by (unfold int64_range in *; lia). lia.
  - unfold executor_writes. destruct (wr_Steps run !! i) as [s|] eqn:Hs; [|done].
    eapply all_within_insert; [exact Hs|done|by intros|done].
  - destruct (step_def_Some _ _ _ Hd) as (s & Hs & Hdd).
    destruct (cs_exec _ _ _ H i) as (s0 & Hs0 & Hst & _); [cbn; rewrite elem_of_cons; auto|].
    rewrite (finish_steps _ _ _ _ _ _ _ s) by done. simplify_eq.
    destruct (settle_step_fields d err (s <| sr_EndedAt := now |>)) as (Hid & Hat & Hset).
    eapply all_within_insert; [exact Hs|by rewrite Hid| |done]. intros d' Hdd' [H0 H1]. simplify_eq.
    unfold within. rewrite Hat, Hset. cbn [sr_Attempt setf set_sr_EndedAt].
    rewrite Hst in H1. cbn in H1. split; [done|]. apply settle_within; [|lia].
    intros ->. apply (Hblocks d run); [|done]. by apply def_index_Some in Hdd as [? _].
Qed.

Lemma all_within_step st st' :
  wf_step def decodeTaskUsage decodeOutputUsage st st' ->
  consistent def (wr_Steps (ws_run st)) (ws_workers st) ->
  all_within (wr_Steps (ws_run st)) -> all_within (wr_Steps (ws_run st')).
Proof.
  intros [run pre w post run' ws Hw|run ws now reason run' Ho|run ws now run' Ho|run ws now run' Ho] H Ha;
    cbn in *.
  - eapply all_within_worker; [exact Hw| |done]. by rewrite Permutation_middle.
  - by rewrite (operator_steps now reason run run') by auto.
  - by rewrite (operator_steps now "" run run') by auto.
  - by rewrite (operator_steps now "" run run') by auto.
Qed.

Lemma new_run_lookup now runID wid inputs i s :
  wr_Steps (new_run now runID wid def inputs) !! i = Some s ->
  exists d, wd_Steps def !! i = Some d /\ s = new_step_run d.
Proof.
  cbn. change (map new_step_run) with (fmap (M := list) new_step_run).
  rewrite list_lookup_fmap. intros (d & ? & ->)%fmap_Some. by exists d.
Qed.

Lemma all_within_started now runID inputs :
  all_within (wr_Steps (ws_run (started def now runID inputs))).
Proof.
  intros i s d (d' & _ & ->)%new_run_lookup Hd. unfold within, allowed_attempts. cbn.
  destruct (sd_RetryPolicy d); lia.
Qed.

Lemma all_within_reachable now runID inputs st :
  rtc (wf_step def decodeTaskUsage decodeOutputUsage) (started def now runID inputs) st ->
  all_within (wr_Steps (ws_run st)).
Proof.
  intros Hr. pose proof (consistent_started def now runID inputs) as H.
  pose proof (all_within_started now runID inputs) as Ha.
  induction Hr as [|st st' st'' Hs _ IH]; [done|].
  apply IH; [by eapply consistent_step|by eapply all_within_step].
Qed.
End Attempts.

(** ** A potential that every move of a goroutine decreases *)

Lemma sum_insert {A} (f : A -> nat) i x y (l : list A) :
  l !! i = Some x -> (sum_list_with f (<[i := y]> l) + f x = sum_list_with f l + f y)%nat.
Proof.
  revert i. induction l as [|z l IH]; intros [|i] H; [done|done| |].
  - injection H as ->. cbn. lia.
  - change (<[S i := y]> (z :: l)) with (z :: <[i := y]> l). cbn [sum_list_with].
    specialize (IH i H). lia.
Qed.

Section Potential.
Variable def : WorkflowDefinition.
Variable decodeTaskUsage : any -> option TaskUsage.
Variable decodeOutputUsage : gmap string any -> option TaskUsage.
Hypothesis Hblocks : never_blocks def.
Hypothesis Hint : forall d, d ∈ wd_Steps def -> int64_range (allowed_attempts d).

Definition attempts_left (s : StepRun) : nat :=
  match def_index def !! sr_StepID s with
  | Some d => Z.to_nat (allowed_attempts d - sr_Attempt s)
  | None => 0
  end.

Definition weight (w : worker) : nat :=
  match w with WScan => 2 | WQueue _ => 1 | WExec _ _ => 5 | WAfter _ => 4 end.

Definition potential (steps : list StepRun) (ws : list worker) : nat :=
  5 * sum_list_with attempts_left steps + sum_list_with weight ws.

#[export] Instance weight_perm : Proper (Permutation ==> eq) (sum_list_with weight).
Proof. intros l l' H. induction H; cbn; lia. Qed.

Lemma attempts_left_insert i s s' steps :
  steps !! i = Some s -> sr_StepID s' = sr_StepID s -> sr_Attempt s' = sr_Attempt s ->
  sum_list_with attempts_left (<[i := s']> steps) = sum_list_with attempts_left steps.
Proof.
  intros Hs Hid Hat. pose proof (sum_insert attempts_left i s s' steps Hs) as H.
  unfold attempts_left in H at 2 4. rewrite Hid, Hat in H. lia.
Qed.

Lemma attempts_left_scan sI dI todo steps steps' ready :
  scan_ok sI dI todo steps steps' ready ->
  sum_list_with attempts_left steps' = sum_list_with attempts_left steps.
Proof.
  intros Hok.
  assert (map attempts_left steps' = map attempts_left steps) as Hm.
  { apply list_eq_same_length with (length steps);
      [by rewrite length_map|by rewrite length_map, (scan_length _ _ _ _ _ _ Hok)|].
    intros i x y _. change (map attempts_left) with (fmap (M := list) attempts_left).
    rewrite !list_lookup_fmap. intros (s' & E & ->)%fmap_Some (s & E2 & ->)%fmap_Some.
    destruct (scan_step _ _ _ _ _ _ Hok i s E2) as (x & Hx & Hid & Hat & _). simplify_eq.
    unfold attempts_left. by rewrite Hid, Hat. }
  assert (forall l, sum_list_with attempts_left l = sum_list (map attempts_left l)) as Hsum
    by (intros l; induction l as [|z l IH]; cbn; [done|by rewrite IH]).
  by rewrite !Hsum, Hm.
Qed.

(** An executor's write, a move of [w] to itself, keeps the potential; all other
    moves of a goroutine decrease it. *)
Lemma potential_worker run w run' ws rest :
  worker_step def decodeTaskUsage decodeOutputUsage run w run' ws ->
  consistent def (wr_Steps run) (w :: rest) -> all_within def (wr_Steps run) ->
  (ws = [w] /\ potential (wr_Steps run') (ws ++ rest) = potential (wr_Steps run) (w :: rest))
  \/ (potential (wr_Steps run') (ws ++ rest) < potential (wr_Steps run) (w :: rest))%nat.
Proof.
  intros Hstep H Hw. unfold potential. destruct Hstep as
    [run run' ready Hs|run|run i todo Hn|run i todo now Hd|run i todo tid rid out meta now
    |run i todo d err now Hd Ho|run todo]; cbn [app].
  - right. destruct (schedule_locked_spec _ _ _ _ Hs) as [_ [(_ & -> & ->)|[_ Hok]]]; [cbn; lia|].
    rewrite (attempts_left_scan _ _ _ _ _ _ Hok). cbn. lia.
  - right. cbn. lia.
  - exfalso. destruct (cs_queued _ _ _ H i) as (s & Hs & _); [cbn; rewrite elem_of_cons; auto|].
    pose proof (consistent_known _ _ _ _ _ H Hs) as [x Hx].
    unfold step_def in Hn. rewrite Hs in Hn. cbn in Hn. congruence.
  - right. destruct (cs_queued _ _ _ H i) as (s & Hs & Hst & d & Hdd & _); [cbn; rewrite elem_of_cons; auto|].
    unfold begin_step. rewrite Hs. cbn [wr_Steps setf set_wr_Steps set_wr_CurrentStep set_wr_UpdatedAt].
    match goal with |- context [<[i := ?s']> _] =>
      assert (S (attempts_left s') <= attempts_left s)%nat as Hlt;
      [|pose proof (sum_insert attempts_left i s s' (wr_Steps run) Hs)] end.
    { destruct (Hw i s d Hs Hdd) as [H0 H1]. rewrite Hst in H1. cbn in H1.
      pose proof (def_index_Some def _ _ Hdd) as [Hin _]. apply Hint in Hin.
      unfold attempts_left. cbn. rewrite Hdd, add64_small by (unfold int64_range in *; lia). lia. }
    cbn [sum_list_with weight]. lia.
  - left. split; [done|]. unfold executor_writes. destruct (wr_Steps run !! i) as [s|] eqn:Hs; [|done].
    cbn [wr_Steps setf set_wr_Steps set_wr_UpdatedAt]. by erewrite attempts_left_insert.
  - right. destruct (step_def_Some def _ _ _ Hd) as (s & Hs & Hdd).
    rewrite (finish_steps _ _ _ _ _ _ _ s) by done.
    destruct (settle_step_fields d err (s <| sr_EndedAt := now |>)) as (Hid & Hat & _).
    rewrite (attempts_left_insert _ _ _ _ Hs Hid Hat). cbn. lia.
  - right. destruct (_ ==? _); cbn; lia.
Qed.

(** [execution n r st st']: from [st] to [st'] with [n] moves of goroutines that
    are not writes of executors, and [r] resumptions. *)
Inductive execution : nat -> nat -> WfState -> WfState -> Prop :=
  | exec_done st : execution 0 0 st st
  | exec_worker n r run pre w post run' ws st :
      worker_step def decodeTaskUsage decodeOutputUsage run w run' ws ->
      execution n r (mkWfState run' (pre ++ ws ++ post)) st ->
      execution (if decide (ws = [w]) then n else S n) r (mkWfState run (pre ++ w :: post)) st
  | exec_operator n r run run' ws st now reason :
      cancel_locked now reason run = Ok run' \/ pause_locked now run = Ok run' ->
      execution n r (mkWfState run' ws) st -> execution n r (mkWfState run ws) st
  | exec_resume n r run run' ws st now :
      resume_locked now run = Ok run' ->
      execution n r (mkWfState run' (WScan :: ws)) st -> execution n (S r) (mkWfState run ws) st.

Lemma execution_reaches n r st st' :
  execution n r st st' -> rtc (wf_step def decodeTaskUsage decodeOutputUsage) st st'.
Proof.
  induction 1 as [st|n r run pre w post run' ws st Hw _ IH|n r run run' ws st now reason Ho _ IH
    |n r run run' ws st now Ho _ IH]; [apply rtc_refl|..].
  - eapply rtc_l; [by apply wf_worker|done].
  - eapply rtc_l; [|done]. destruct Ho as [Ho|Ho]; [by eapply wf_cancel|by eapply wf_pause].
  - eapply rtc_l; [by eapply wf_resume|done].
Qed.

Lemma execution_bounded n r st st' :
  execution n r st st' ->
  consistent def (wr_Steps (ws_run st)) (ws_workers st) -> all_within def (wr_Steps (ws_run st)) ->
  (n <= potential (wr_Steps (ws_run st)) (ws_workers st) + 2 * r)%nat.
Proof.
  induction 1 as [st|n r run pre w post run' ws st Hw _ IH|n r run run' ws st now reason Ho _ IH
    |n r run run' ws st now Ho _ IH]; intros H Ha; cbn [ws_run ws_workers] in *; [lia| | |].
  - assert (consistent def (wr_Steps run) (w :: pre ++ post)) as Hc by by rewrite Permutation_middle.
    assert (n <= potential (wr_Steps run') (ws ++ pre ++ post) + 2 * r)%nat as Hn.
    { unfold potential in *. rewrite (Permutation_app_swap_app ws pre post). apply IH.
      - rewrite (Permutation_app_swap_app pre ws post). by eapply consistent_worker.
      - by eapply all_within_worker. }
    assert (potential (wr_Steps run) (pre ++ w :: post) = potential (wr_Steps run) (w :: pre ++ post)) as ->
      by (unfold potential; by rewrite <-Permutation_middle).
    destruct (potential_worker _ _ _ _ _ Hw Hc Ha) as [[-> E]|E].
    + rewrite decide_True by done. lia.
    + destruct (decide _); lia.
  - assert (wr_Steps run' = wr_Steps run) as E by (apply (operator_steps now reason); tauto).
    rewrite E in IH. auto.
  - assert (wr_Steps run' = wr_Steps run) as E by (apply (operator_steps now ""); tauto).
    rewrite E in IH. specialize (IH (consistent_scan_add _ _ _ H) Ha).
    unfold potential in *. cbn in IH. lia.
Qed.
End Potential.

(** ** Registered definitions *)

Lemma check_step_ids_spec seen steps seen' :
  check_step_ids seen steps = Ok seen' ->
  NoDup (map sd_ID steps) /\ (forall id, id ∈ map sd_ID steps -> id ∉ seen)
  /\ forall id, id ∈ seen' <-> id ∈ seen \/ id ∈ map sd_ID steps.
Proof.
  revert seen. induction steps as [|d steps IH]; cbn [check_step_ids map]; intros seen H.
  { apply Ok_inj in H as ->. split; [apply NoDup_nil_2|]. split; intros id.
    - intros Hid. by apply not_elem_of_nil in Hid.
    - rewrite elem_of_nil. tauto. }
  destruct (_ ==? _); [done|]. destruct (decide (sd_ID d ∈ seen)) as [|Hnin]; [done|].
  destruct (IH _ H) as (Hnd & Hfresh & Hall). setoid_rewrite elem_of_cons. split_and!.
  - apply NoDup_cons. split; [|done]. intros Hin. apply (Hfresh _ Hin). set_solver.
  - intros id [->|Hin]; [done|]. apply Hfresh in Hin. set_solver.
  - intros id. rewrite Hall. set_solver.
Qed.

Lemma check_step_deps_spec seen steps :
  check_step_deps seen steps = None <->
  forall d dep, d ∈ steps -> dep ∈ sd_Dependencies d -> dep ∈ seen.
Proof.
  induction steps as [|d steps IH]; cbn [check_step_deps].
  { split; [|done]. intros _ d dep Hd. by apply not_elem_of_nil in Hd. }
  destruct (List.find _ (sd_Dependencies d)) as [x|] eqn:F.
  - apply find_some in F as [Hx Hn]. split; [done|]. intros H.
    rewrite negb_true_iff, bool_decide_eq_false in Hn. destruct Hn.
    apply (H d x); [apply list_elem_of_here|by apply list_elem_of_In].
  - rewrite IH. split; intros H e dep; [rewrite elem_of_cons; intros [->|He]; [|by apply H]|].
    + intros Hdep%list_elem_of_In. pose proof (find_none _ _ F _ Hdep) as Hn. cbn in Hn.
      by rewrite negb_false_iff, bool_decide_eq_true in Hn.
    + intros He. apply (H e dep). by apply list_elem_of_further.
Qed.

(** What registration guarantees of a definition's steps. *)
Record registered (def : WorkflowDefinition) : Prop := mkRegistered {
  rg_nonempty : wd_Steps def <> [];
  rg_unique : NoDup (map sd_ID (wd_Steps def));
  rg_known : forall d dep, d ∈ wd_Steps def -> dep ∈ sd_Dependencies d ->
               dep ∈ map sd_ID (wd_Steps def)
}.

Lemma checked_definition_registered now def0 def :
  checked_definition now def0 = Ok def -> registered def.
Proof.
  unfold checked_definition. destruct (_ ==? _); [done|]. destruct (_ ==? _); [done|].
  destruct (Nat.eqb_spec (length (wd_Steps def0)) 0) as [|Hlen]; [done|].
  destruct (check_step_ids ∅ _) as [seen|] eqn:Hi; [|done].
  destruct (check_step_deps seen _) eqn:Hd; [done|]. intros H%Ok_inj. subst def.
  destruct (check_step_ids_spec _ _ _ Hi) as (Hnd & _ & Hall). split; cbn.
  - intros E. by rewrite E in Hlen.
  - done.
  - intros d dep Hdin Hdep. rewrite check_step_deps_spec in Hd.
    specialize (Hd d dep Hdin Hdep). rewrite Hall in Hd. set_solver.
Qed.

Lemma index_last_unique {A} (key : A -> string) (l : list A) x :
  NoDup (map key l) -> x ∈ l -> index_last key l !! key x = Some x.
Proof.
  induction l as [|y l IH] using rev_ind; intros Hnd Hx; [by apply not_elem_of_nil in Hx|].
  rewrite map_app in Hnd. apply NoDup_app in Hnd as (Hl & Hdis & _).
  rewrite index_last_app. rewrite elem_of_app, list_elem_of_singleton in Hx.
  destruct Hx as [Hx| ->]; [|by rewrite lookup_insert_eq].
  rewrite lookup_insert_ne; [auto|]. intros E. apply (Hdis (key x)).
  - apply list_elem_of_In, in_map. by apply list_elem_of_In.
  - cbn. rewrite E. apply list_elem_of_here.
Qed.

(** The moves of a run: attempts allowed to its steps. *)
Definition attempts_budget (def : WorkflowDefinition) : nat :=
  sum_list_with (fun d => Z.to_nat (allowed_attempts d)) (wd_Steps def).

Lemma attempts_left_new def now runID inputs :
  registered def ->
  sum_list_with (attempts_left def) (wr_Steps (ws_run (started def now runID inputs))) = attempts_budget def.
Proof.
  intros Hr. unfold attempts_budget. cbn.
  assert (forall l, (forall d, d ∈ l -> d ∈ wd_Steps def) ->
    sum_list_with (attempts_left def) (map new_step_run l)
    = sum_list_with (fun d => Z.to_nat (allowed_attempts d)) l) as H; [|by apply H].
  induction l as [|d l IH]; intros Hl; [done|]. cbn. f_equal.
  - unfold attempts_left. cbn. unfold def_index.
    rewrite (index_last_unique sd_ID) by (apply Hr || apply Hl, list_elem_of_here). f_equal. lia.
  - apply IH. intros e He. by apply Hl, list_elem_of_further.
Qed.

(** ** Idle runs have ended *)

(** The dependencies of the workflow have no cycle. *)
Definition acyclic (def : WorkflowDefinition) : Prop :=
  exists rank : string -> nat, forall d dep,
    d ∈ wd_Steps def -> dep ∈ sd_Dependencies d -> (rank dep < rank (sd_ID d))%nat.

Section Idle.
Variable def : WorkflowDefinition.
Variable decodeTaskUsage : any -> option TaskUsage.
Variable decodeOutputUsage : gmap string any -> option TaskUsage.

(** A scan will come. *)
Definition scan_pending (ws : list worker) : Prop :=
  exists w, w ∈ ws /\ match w with WScan | WAfter _ => True | _ => False end.

(** A running run is driven by its goroutines. *)
Record driven (steps : list StepRun) (ws : list worker) : Prop := mkDriven {
  dr_ready : forall i s, steps !! i = Some s -> sr_Status s = StepStatusReady -> i ∈ ws ≫= queued;
  dr_running : forall i s, steps !! i = Some s -> sr_Status s = StepStatusRunning ->
                 i ∈ ws ≫= executing;
  dr_due : forall i s, steps !! i = Some s -> waiting s ->
             due (step_index steps) (def_index def) steps s -> scan_pending ws;
  dr_failed : forall i s d, steps !! i = Some s -> sr_Status s = StepStatusFailed ->
                def_index def !! sr_StepID s = Some d -> sd_OnFailure d = "continue";
  dr_open : exists i s, steps !! i = Some s /\ ~ settled (sr_Status s)
}.

#[export] Instance driven_perm : Proper (eq ==> Permutation ==> iff) driven.
Proof.
  assert (forall steps ws ws', Permutation ws ws' -> driven steps ws -> driven steps ws') as H.
  { intros steps ws ws' Hp [H1 H2 H3 H4 H5].
    split; [intros; rewrite <-Hp; eauto..| |done|done].
    intros i s Hs Hw Hd. destruct (H3 i s Hs Hw Hd) as (w & Hin & ?). exists w. by rewrite <-Hp. }
  intros steps _ <- ws ws' Hp. split; apply H; [done|by symmetry].
Qed.

Lemma scan_keeps_back sI dI todo steps steps' ready :
  scan_ok sI dI todo steps steps' ready -> keeps_settled steps' steps.
Proof.
  intros Hok i s' Hs' Hset.
  assert (i < length steps)%nat as Hlt.
  { rewrite <-(scan_length _ _ _ _ _ _ Hok). by eapply lookup_lt_Some. }
  apply lookup_lt_is_Some_2 in Hlt as [s Hs].
  destruct (scan_step _ _ _ _ _ _ Hok i s Hs) as (x & Hx & _ & _ & Hc). simplify_eq.
  exists s. split; [done|]. destruct Hc as [[-> _]|[(_ & _ & E & _)|(_ & _ & E)]]; [done|..];
    rewrite E, settled_cases in Hset; by intuition discriminate.
Qed.

Lemma driven_scan steps steps' ready rest :
  scan_ok (step_index steps) (def_index def) (seq 0 (length steps)) steps steps' ready ->
  driven steps (WScan :: rest) -> driven steps' (WQueue ready :: rest).
Proof.
  intros Hok [H1 H2 H3 H4 (j & t & Ht & Hopen)]. cbn in H1, H2.
  assert (forall i s', steps' !! i = Some s' -> exists s, steps !! i = Some s
            /\ scanned (step_index steps) (def_index def) steps ready i s s') as Hback.
  { intros i s' Hs'.
    assert (i < length steps)%nat as Hlt.
    { rewrite <-(scan_length _ _ _ _ _ _ Hok). by eapply lookup_lt_Some. }
    apply lookup_lt_is_Some_2 in Hlt as [s Hs].
    destruct (scan_step _ _ _ _ _ _ Hok i s Hs) as (x & Hx & Hc). simplify_eq. by exists s. }
  split; cbn.
  - intros i s' Hs' Hst. destruct (Hback i s' Hs') as (s & Hs & _ & _ & Hc). rewrite elem_of_app.
    destruct Hc as [[E _]|[(_ & Hi & _)|(_ & _ & E)]]; [|by left|by rewrite Hst in E].
    right. eapply H1; [done|congruence].
  - intros i s' Hs' Hst. destruct (Hback i s' Hs') as (s & Hs & _ & _ & Hc).
    destruct Hc as [[E _]|[(_ & _ & E & _)|(_ & _ & E)]]; [|by rewrite Hst in E..].
    eapply H2; [done|congruence].
  - intros i s' Hs' Hw (d & Hd & Hdeps). exfalso.
    destruct (Hback i s' Hs') as (s & Hs & Hid & _ & Hc).
    assert (waiting s /\ (i ∉ ready)) as [Hws Hi].
    { destruct Hc as [[E Hi]|[(_ & _ & E & _)|(Hws & Hi & _)]]; [|by destruct Hw as [Hw|Hw]; rewrite Hw in E|done].
      split; [|done]. unfold waiting in *. by rewrite <-E. }
    apply Hi, (scan_full _ _ _ _ _ _ Hok i s); [|done..|].
    + apply elem_of_seq. apply lookup_lt_Some in Hs. lia.
    + exists d. rewrite <-Hid. split; [done|].
      rewrite (step_index_ids _ _ (scan_ids _ _ _ _ _ _ Hok)) in Hdeps.
      eapply deps_satisfied_mono; [|exact Hdeps]. by eapply scan_keeps_back.
  - intros i s' d Hs' Hst. destruct (Hback i s' Hs') as (s & Hs & Hid & _ & Hc). rewrite Hid.
    destruct Hc as [[E _]|[(_ & _ & E & _)|(_ & _ & E)]]; [|by rewrite Hst in E..].
    eapply H4; [done|congruence].
  - destruct (scan_step _ _ _ _ _ _ Hok j t Ht) as (t' & Ht' & _ & _ & Hc). exists j, t'.
    split; [done|]. destruct Hc as [[-> _]|[(_ & _ & -> & _)|(_ & _ & ->)]]; [done|..];
      rewrite settled_cases; by intuition discriminate.
Qed.

(** The goroutine [w] changes the step [i] and becomes [w']. *)
Lemma driven_insert steps i s s' w w' rest :
  steps !! i = Some s -> sr_StepID s' = sr_StepID s ->
  (sr_Status s' = StepStatusReady -> i ∈ queued w') ->
  (sr_Status s' = StepStatusRunning -> i ∈ executing w') ->
  (match w' with WAfter _ => True | WScan => False
   | _ => ~ waiting s' /\ ~ settled (sr_Status s') /\ match w with WQueue _ | WExec _ _ => True | _ => False end end) ->
  (forall d, sr_Status s' = StepStatusFailed -> def_index def !! sr_StepID s = Some d ->
     sd_OnFailure d = "continue") ->
  (exists j t, <[i := s']> steps !! j = Some t /\ ~ settled (sr_Status t)) ->
  (forall j, j ∈ queued w -> j = i \/ j ∈ queued w') ->
  (forall j, j ∈ executing w -> j = i \/ j ∈ executing w') ->
  driven steps (w :: rest) -> driven (<[i := s']> steps) (w' :: rest).
Proof.
  intros Hs Hid Hrd Hrn Hdue Hf Hopen Hq He [H1 H2 H3 H4 _]. cbn in H1, H2.
  assert (forall j x, <[i := s']> steps !! j = Some x -> j = i /\ x = s' \/ j <> i /\ steps !! j = Some x) as Hcase.
  { intros j x. destruct (decide (i = j)) as [->|Hne].
    - rewrite list_lookup_insert_eq by by eapply lookup_lt_Some. intros [= <-]. by left.
    - rewrite list_lookup_insert_ne by done. auto. }
  split; [..|done]; cbn; try setoid_rewrite elem_of_app.
  - intros j x [[-> ->]|[Hne Hx]]%Hcase Hst; [auto|].
    pose proof (H1 j x Hx Hst) as Hj. rewrite elem_of_app in Hj. naive_solver.
  - intros j x [[-> ->]|[Hne Hx]]%Hcase Hst; [auto|].
    pose proof (H2 j x Hx Hst) as Hj. rewrite elem_of_app in Hj. naive_solver.
  - intros j x Hx Hw Hd. destruct w' as [|todo|k todo|todo]; [done| | |eexists; split; [apply list_elem_of_here|done]].
    all: destruct Hdue as (Hnw & Hns & Hkind).
    all: apply Hcase in Hx as [[-> ->]|[Hne Hx]]; [done|].
    all: destruct (H3 j x Hx Hw) as (v & Hv & Hvk).
    all: try (destruct Hd as (d & Hd & Hdeps); exists d; split; [done|];
      rewrite (step_index_ids _ _ (map_insert_id _ _ _ _ _ Hs Hid)) in Hdeps;
      eapply deps_satisfied_mono; [|exact Hdeps]; by eapply keeps_settled_uninsert).
    all: rewrite elem_of_cons in Hv; destruct Hv as [->|Hv]; [by destruct w|].
    all: exists v; split; [by apply list_elem_of_further|done].
  - intros j x d [[-> ->]|[Hne Hx]]%Hcase Hst Hd; [|by eapply H4].
    rewrite Hid in Hd. auto.
Qed.

Lemma insert_open (steps : list StepRun) i s s' :
  steps !! i = Some s -> ~ settled (sr_Status s') ->
  exists j t, <[i := s']> steps !! j = Some t /\ ~ settled (sr_Status t).
Proof.
  intros Hs Hn. exists i, s'. split; [|done]. apply list_lookup_insert_eq. by eapply lookup_lt_Some.
Qed.

Lemma open_exists (steps : list StepRun) :
  existsb open_step steps = true -> exists j t, steps !! j = Some t /\ ~ settled (sr_Status t).
Proof.
  intros (t & Ht & Ho)%existsb_exists. apply list_elem_of_In, list_elem_of_lookup in Ht as [j Hj].
  exists j, t. split; [done|]. rewrite settled_cases. unfold open_step in Ho.
  intros [E|[E|E]]; by rewrite E in Ho.
Qed.

Lemma settle_status_not_working d err n :
  settle_status d err n <> StepStatusReady /\ settle_status d err n <> StepStatusRunning.
Proof.
  unfold settle_status. destruct err as [[|msg]|]; [done| |done].
  destruct (match sd_RetryPolicy d with Some p => _ | None => _ end); [done|].
  by destruct (sd_OnFailure d ==? "skip").
Qed.

Lemma settle_failed d err n s :
  settle_status d err n = StepStatusFailed -> fails_run d err s = false -> sr_Attempt s = n ->
  sd_OnFailure d = "continue".
Proof.
  unfold settle_status, fails_run. intros Hs Hf <-. destruct err as [[|msg]|]; try done.
  destruct (match sd_RetryPolicy d with Some p => _ | None => _ end); [done|].
  destruct (String.eqb_spec (sd_OnFailure d) "continue"); [done|].
  by destruct (sd_OnFailure d ==? "skip").
Qed.

Lemma driven_worker run w run' ws rest :
  worker_step def decodeTaskUsage decodeOutputUsage run w run' ws ->
  consistent def (wr_Steps run) (w :: rest) ->
  wr_Status run = WorkflowStatusRunning -> wr_Status run' = WorkflowStatusRunning ->
  driven (wr_Steps run) (w :: rest) -> driven (wr_Steps run') (ws ++ rest).
Proof.
  intros Hstep H Hst Hst' Hdr. destruct Hstep as
    [run run' ready Hs|run|run i todo Hn|run i todo now Hd|run i todo tid rid out meta now
    |run i todo d err now Hd Ho|run todo]; cbn [app].
  - destruct (schedule_locked_spec _ _ _ _ Hs) as [_ [(E & _)|[_ Hok]]]; [done|].
    by eapply driven_scan.
  - destruct Hdr as [H1 H2 H3 H4 H5]. split; [done|done| |done|done].
    intros i s Hs Hw Hd. destruct (H3 i s Hs Hw Hd) as (v & [->|Hv]%elem_of_cons & Hk); [done|].
    by exists v.
  - exfalso. destruct (cs_queued _ _ _ H i) as (s & Hs & _); [cbn; rewrite elem_of_cons; auto|].
    pose proof (consistent_known _ _ _ _ _ H Hs) as [x Hx].
    unfold step_def in Hn. rewrite Hs in Hn. cbn in Hn. congruence.
  - destruct (cs_queued _ _ _ H i) as (s & Hs & Hss & _); [cbn; rewrite elem_of_cons; auto|].
    unfold begin_step. rewrite Hs. cbn [wr_Steps setf set_wr_Steps set_wr_CurrentStep set_wr_UpdatedAt].
    eapply (driven_insert _ _ s _ (WQueue (i :: todo))); [exact Hs|done|done| | |done| | |by intros j ?%not_elem_of_nil|exact Hdr].
    + intros _. apply list_elem_of_here.
    + split; [by intros [?|?]|]. split; [|done]. rewrite settled_cases. cbn. by intuition discriminate.
    + eapply insert_open; [done|]. rewrite settled_cases. cbn. by intuition discriminate.
    + cbn. intros j. by rewrite elem_of_cons.
  - destruct (cs_exec _ _ _ H i) as (s & Hs & Hss & _); [cbn; rewrite elem_of_cons; auto|].
    unfold executor_writes. rewrite Hs. cbn [wr_Steps setf set_wr_Steps set_wr_UpdatedAt].
    assert (~ settled (sr_Status s)) as Hns by (rewrite Hss, settled_cases; by intuition discriminate).
    eapply (driven_insert _ _ s _ (WExec i todo)); [exact Hs|done| | | | | | | |exact Hdr].
    + cbn. by rewrite Hss.
    + intros _. apply list_elem_of_here.
    + unfold waiting. cbn. rewrite Hss. split; [by intros [?|?]|]. split; [|done].
      by rewrite Hss in Hns.
    + cbn. by rewrite Hss.
    + by eapply insert_open.
    + auto.
    + auto.
  - destruct (step_def_Some def _ _ _ Hd) as (s & Hs & Hdd).
    rewrite (finish_status _ _ _ _ _ _ _ s Hs), Hst in Hst'. unfold status_after in Hst'.
    destruct (fails_run d err s) eqn:Hf; [done|].
    destruct (existsb open_step _) eqn:Hop in Hst'; [|by destruct (existsb failed_step _) in Hst'].
    apply open_exists in Hop. revert Hop. rewrite (finish_steps _ _ _ _ _ _ _ s) by done. intros Hop.
    destruct (settle_step_fields d err (s <| sr_EndedAt := now |>)) as (Hid & Hat & Hset).
    destruct (settle_status_not_working d err (sr_Attempt s)) as [Hnr Hnx].
    eapply (driven_insert _ _ s _ (WExec i todo)); [exact Hs|exact Hid|by rewrite Hset|by rewrite Hset|done| |exact Hop| | |exact Hdr].
    + intros d' Hfl Hd'. simplify_eq. rewrite Hset in Hfl. by eapply settle_failed.
    + auto.
    + cbn. intros j. rewrite list_elem_of_singleton. auto.
  - rewrite Hst. cbn. destruct Hdr as [H1 H2 H3 H4 H5]. split; [done|done| |done|done].
    intros i s _ _ _. exists WScan. split; [|done]. by apply list_elem_of_further, list_elem_of_here.
Qed.

(** A run that is driven, or has ended. *)
Definition live (st : WfState) : Prop :=
  workflowRunTerminal (wr_Status (ws_run st)) = true
  \/ wr_Status (ws_run st) = WorkflowStatusRunning
     /\ driven (wr_Steps (ws_run st)) (ws_workers st).

(** A move that does not leave the run paused. *)
Definition unpaused (st st' : WfState) : Prop :=
  wf_step def decodeTaskUsage decodeOutputUsage st st'
  /\ wr_Status (ws_run st') <> WorkflowStatusPaused.

Lemma status_after_cases steps fails st :
  status_after steps fails st = st \/ workflowRunTerminal (status_after steps fails st) = true.
Proof.
  unfold status_after. destruct fails; [by right|]. destruct (_ ==? _); [|by left].
  destruct (existsb open_step steps); [by left|]. destruct (existsb failed_step steps); by right.
Qed.

Lemma worker_status run w run' ws :
  worker_step def decodeTaskUsage decodeOutputUsage run w run' ws ->
  wr_Status run' = wr_Status run \/ workflowRunTerminal (wr_Status run') = true.
Proof.
  intros Hstep. destruct Hstep as
    [run run' ready Hs|run|run i todo Hn|run i todo now Hd|run i todo tid rid out meta now
    |run i todo d err now Hd Ho|run todo]; try by left.
  - left. by destruct (schedule_locked_spec _ _ _ _ Hs) as [? _].
  - left. unfold begin_step. by destruct (wr_Steps run !! i).
  - left. unfold executor_writes. by destruct (wr_Steps run !! i).
  - destruct (step_def_Some def _ _ _ Hd) as (s & Hs & _).
    rewrite (finish_status _ _ _ _ _ _ _ s Hs). apply status_after_cases.
Qed.

Lemma live_step st st' :
  unpaused st st' -> consistent def (wr_Steps (ws_run st)) (ws_workers st) -> live st -> live st'.
Proof.
  intros [Hs Hp] H Hl.
  destruct Hs as [run pre w post run' ws Hw|run ws now reason run' Ho|run ws now run' Ho|run ws now run' Ho];
    unfold live in *; cbn [ws_run ws_workers] in *.
  - destruct (worker_status _ _ _ _ Hw) as [E|E]; [|by left].
    destruct Hl as [Hl|[Hl Hd]]; [left; by rewrite E|right]. rewrite E. split; [done|].
    rewrite (Permutation_app_swap_app pre ws post).
    eapply driven_worker; [exact Hw| |exact Hl|congruence|]; by rewrite Permutation_middle.
  - left. unfold cancel_locked in Ho. destruct (_ && _); [done|]. by apply Ok_inj in Ho as <-.
  - unfold pause_locked in Ho. destruct (_ !=? _); [done|]. by apply Ok_inj in Ho as <-.
  - unfold resume_locked in Ho.
    destruct (String.eqb_spec (wr_Status run) WorkflowStatusPaused) as [E|]; [|done].
    rewrite E in Hl. by destruct Hl as [Hl|[Hl _]].
Qed.

Lemma unpaused_reachable st st' :
  rtc unpaused st st' -> rtc (wf_step def decodeTaskUsage decodeOutputUsage) st st'.
Proof. apply rtc_subrel. by intros x y [H _]. Qed.

Lemma live_started now runID inputs : registered def -> live (started def now runID inputs).
Proof.
  intros Hr. right. split; [done|].
  assert (forall i s, wr_Steps (ws_run (started def now runID inputs)) !! i = Some s ->
            sr_Status s = StepStatusPending) as Hpend.
  { by intros i s (d & _ & ->)%new_run_lookup. }
  split.
  - intros i s Hs Hst. by rewrite (Hpend i s Hs) in Hst.
  - intros i s Hs Hst. by rewrite (Hpend i s Hs) in Hst.
  - intros i s _ _ _. exists WScan. split; [apply list_elem_of_here|done].
  - intros i s d Hs Hst. by rewrite (Hpend i s Hs) in Hst.
  - pose proof (rg_nonempty _ Hr) as Hne. cbn. destruct (wd_Steps def) as [|d l] eqn:E; [done|].
    exists 0%nat. eexists. split; [done|]. rewrite settled_cases. cbn. by intuition discriminate.
Qed.

Lemma live_reachable now runID inputs st :
  registered def -> rtc unpaused (started def now runID inputs) st -> live st.
Proof.
  intros Hr Hst. pose proof (live_started now runID inputs Hr) as Hl.
  pose proof (consistent_started def now runID inputs) as H.
  induction Hst as [|st st' st'' Hs _ IH]; [done|]. pose proof Hs as [Hw _].
  apply IH; [by eapply live_step|by eapply consistent_step].
Qed.

(** A run that is driven by no goroutine has no step left: of the steps without a
    final status one with the least rank would be due. *)
Lemma driven_idle steps :
  registered def -> acyclic def -> map sr_StepID steps = map sd_ID (wd_Steps def) ->
  Forall (fun s => sr_Status s ∈ step_statuses) steps -> ~ driven steps [].
Proof.
  intros Hr [rank Hrank] Hids Hst [H1 H2 H3 H4 (i & s & Hs & Hopen)].
  remember (rank (sr_StepID s)) as n eqn:Hn. revert i s Hs Hopen Hn.
  induction (lt_wf n) as [n _ IH]. intros i s Hs Hopen ->.
  assert (waiting s) as Hw.
  { rewrite Forall_lookup in Hst. pose proof (Hst i s Hs) as Hin. rewrite settled_cases in Hopen.
    unfold step_statuses in Hin. rewrite !elem_of_cons, elem_of_nil in Hin. unfold waiting.
    destruct Hin as [|[E|[E|[|Hin]]]]; [by auto| | |by auto|tauto].
    - apply (H1 i s Hs) in E. by apply not_elem_of_nil in E.
    - apply (H2 i s Hs) in E. by apply not_elem_of_nil in E. }
  assert (is_Some (def_index def !! sr_StepID s)) as [d Hd].
  { unfold def_index. rewrite index_last_is_Some, <-Hids. apply list_elem_of_In, in_map.
    apply list_elem_of_In. by eapply list_elem_of_lookup_2. }
  destruct (def_index_Some def _ _ Hd) as [Hin Hdid].
  destruct (H3 i s Hs Hw) as (w & Hnil & _); [|by apply not_elem_of_nil in Hnil].
  exists d. split; [done|]. unfold deps_satisfied. apply forallb_forall.
  intros dep Hdep%list_elem_of_In. pose proof (rg_known _ Hr d dep Hin Hdep) as Hknown.
  rewrite <-Hids in Hknown. apply step_index_is_Some in Hknown as [j Hj]. rewrite Hj. cbn.
  destruct (step_index_Some _ _ _ Hj) as (t & Ht & Htid). rewrite Ht.
  destruct (decide (settled (sr_Status t))) as [Hset|Hopen'].
  - apply dependencySatisfied_cases. apply settled_cases in Hset as [E|[E|E]].
    + left. by left.
    + right. split; [done|].
      assert (is_Some (def_index def !! sr_StepID t)) as [e He].
      { unfold def_index. rewrite index_last_is_Some, <-Hids. apply list_elem_of_In, in_map.
        apply list_elem_of_In. by eapply list_elem_of_lookup_2. }
      exists e. rewrite <-Htid. split; [done|]. by eapply H4.
    + left. by right.
  - exfalso. refine (IH (rank (sr_StepID t)) _ j t Ht Hopen' eq_refl).
    rewrite Htid, <-Hdid. by apply Hrank.
Qed.
End Idle.

(** ** The guarantees *)

(** No step of a workflow run is started more often than its retry policy
    allows (once without a policy), in any interleaving and whatever the executor
    returns, if no step of the workflow ends blocked as an approval does. *)
Theorem attempts_stay_within_policy def dec dec_out now runID inputs st i s d :
  never_blocks def -> (forall e, e ∈ wd_Steps def -> int64_range (allowed_attempts e)) ->
  rtc (wf_step def dec dec_out) (started def now runID inputs) st ->
  wr_Steps (ws_run st) !! i = Some s -> def_index def !! sr_StepID s = Some d ->
  0 <= sr_Attempt s <= allowed_attempts d.
Proof.
  intros Hb Hi Hr Hs Hd.
  destruct (all_within_reachable def dec dec_out Hb Hi now runID inputs st Hr i s d Hs Hd) as [H0 H1].
  destruct (startable _); lia.
Qed.

(** C4: every execution of a registered workflow is finite if no step ends blocked:
    its goroutines make at most five moves for each attempt that the retry
    policies allow, two for the start and two for each resumption, beside the
    writes of executors while they run. *)
Theorem workflow_execution_is_bounded def dec dec_out now0 def0 now runID inputs n r st :
  checked_definition now0 def0 = Ok def -> never_blocks def ->
  (forall e, e ∈ wd_Steps def -> int64_range (allowed_attempts e)) ->
  execution def dec dec_out n r (started def now runID inputs) st ->
  (n <= 5 * attempts_budget def + 2 + 2 * r)%nat.
Proof.
  intros Hc Hb Hi He. apply checked_definition_registered in Hc.
  pose proof (execution_bounded def dec dec_out Hb Hi _ _ _ _ He (consistent_started def now runID inputs)
    (all_within_started def now runID inputs)) as H.
  unfold potential in H. rewrite (attempts_left_new def) in H by done. cbn in H. lia.
Qed.

(** C3: a run of a registered workflow without dependency cycles that was never
    paused has ended (it completed, failed or was cancelled) as soon as its
    goroutines have: no step is left behind. *)
Theorem idle_workflow_run_is_terminal def dec dec_out now0 def0 now runID inputs st :
  checked_definition now0 def0 = Ok def -> acyclic def ->
  rtc (unpaused def dec dec_out) (started def now runID inputs) st ->
  ws_workers st = [] -> workflowRunTerminal (wr_Status (ws_run st)) = true.
Proof.
  intros Hc Ha Hr Hw. apply checked_definition_registered in Hc.
  destruct (live_reachable def dec dec_out _ _ _ _ Hc Hr) as [|[Hst Hd]]; [done|]. exfalso.
  apply unpaused_reachable in Hr. rewrite Hw in Hd.
  pose proof (consistent_reachable _ _ _ _ _ _ _ Hr) as H.
  pose proof (accounted_reachable _ _ _ _ _ _ _ Hr) as Hac.
  by eapply driven_idle; [exact Hc|exact Ha|apply H|apply Hac|].
Qed.

(** *** Concrete runs *)

Definition retried : WorkflowDefinition :=
  workflow_of [turn_step "a" [] (Some (mkRetryPolicy 3 0 0)) ""; turn_step "b" ["a"] None ""].

Lemma executor_steps_never_block def :
  Forall (fun d => sd_Type d ∉ builtin_types) (wd_Steps def) -> never_blocks def.
Proof.
  intros Hf d run Hd Ho. rewrite Forall_forall in Hf. specialize (Hf d Hd).
  unfold builtin_types in Hf. rewrite !elem_of_cons in Hf. inversion Ho; subst; tauto.
Qed.

Lemma retried_never_blocks : never_blocks retried.
Proof. apply executor_steps_never_block, (bool_decide_unpack _). by vm_compute. Qed.

Lemma retried_bounds e : e ∈ wd_Steps retried -> int64_range (allowed_attempts e).
Proof.
  cbn. rewrite !elem_of_cons, elem_of_nil. unfold int64_range.
  intros [->|[->|[]]]; cbn; lia.
Qed.

Lemma retried_registered : checked_definition 1 retried = Ok retried.
Proof. by vm_compute. Qed.

(** The first attempt of the first step has failed. *)
Lemma retried_execution :
  exists st, execution retried (fun _ => None) (fun _ => None) 3 0 (started retried 1 "r" None) st
    /\ exists s, wr_Steps (ws_run st) !! 0%nat = Some s /\ sr_Attempt s = 1
       /\ sr_Status s = StepStatusPending /\ def_index retried !! sr_StepID s = head (wd_Steps retried).
Proof.
  eexists. split.
  - unfold started.
    eapply (exec_worker retried _ _ 2 0 _ [] WScan [] _ [WQueue [0%nat]]); [by eapply step_scan|].
    eapply (exec_worker retried _ _ 1 0 _ [] (WQueue [0%nat]) [] _ [WExec 0 []]);
      [by apply (step_begin _ _ _ _ _ _ 2); eexists|].
    eapply (exec_worker retried _ _ 0 0 _ [] (WExec 0 []) [] _ [WAfter []]); [|apply exec_done].
    eapply (step_finish _ _ _ _ _ _ _ (Some (StepFailed "no")) 3); [reflexivity|by apply turn_may_end].
  - eexists. split; [by vm_compute|]. by vm_compute.
Defined.

Lemma attempts_stay_within_policy_witness :
  exists st s, rtc (wf_step retried (fun _ => None) (fun _ => None)) (started retried 1 "r" None) st
    /\ wr_Steps (ws_run st) !! 0%nat = Some s /\ 0 <= sr_Attempt s <= 3.
Proof.
  destruct retried_execution as (st & Hr%execution_reaches & s & Hs & _ & _ & Hd). exists st, s.
  split; [exact Hr|]. split; [exact Hs|].
  exact (attempts_stay_within_policy retried _ _ _ _ _ st 0%nat s _ retried_never_blocks retried_bounds
    Hr Hs Hd).
Defined.

Lemma workflow_execution_is_bounded_witness :
  exists st, execution retried (fun _ => None) (fun _ => None) 3 0 (started retried 1 "r" None) st
    /\ (3 <= 5 * attempts_budget retried + 2 + 2 * 0)%nat /\ attempts_budget retried = 4%nat.
Proof.
  destruct retried_execution as (st & He & _). exists st. split; [exact He|].
  split; [|reflexivity].
  exact (workflow_execution_is_bounded retried _ _ 1 retried _ _ _ _ _ _ retried_registered
    retried_never_blocks retried_bounds He).
Defined.

Definition single : WorkflowDefinition := workflow_of [turn_step "a" [] None ""].

Lemma idle_workflow_run_is_terminal_witness :
  exists st, rtc (unpaused single (fun _ => None) (fun _ => None)) (started single 1 "r" None) st
    /\ ws_workers st = [] /\ workflowRunTerminal (wr_Status (ws_run st)) = true.
Proof.
  assert (exists st, rtc (unpaused single (fun _ => None) (fun _ => None)) (started single 1 "r" None) st
            /\ ws_workers st = []) as (st & Hr & Hw).
  { eexists. split; [|shelve]. unfold started.
    eapply rtc_l; [split; [eapply (wf_worker _ _ _ _ [] WScan [] _ [WQueue [0%nat]])|]; [by eapply step_scan|done]|].
    eapply rtc_l; [split; [eapply (wf_worker _ _ _ _ [] (WQueue [0%nat]) [] _ [WExec 0 []])|];
      [apply (step_begin _ _ _ _ _ _ 2); by eexists|done]|].
    eapply rtc_l; [split; [eapply (wf_worker _ _ _ _ [] (WExec 0 []) [] _ [WAfter []])|];
      [eapply (step_finish _ _ _ _ _ _ _ None 3); [reflexivity|by apply turn_may_end]|by vm_compute]|].
    eapply rtc_l; [split; [eapply (wf_worker _ _ _ _ [] (WAfter []) [] _ [WQueue []]);
      exact (step_after single _ _ _ [])|by vm_compute]|].
    eapply rtc_l; [split; [eapply (wf_worker _ _ _ _ [] (WQueue []) [] _ []); apply step_exit|by vm_compute]|].
    apply rtc_refl. Unshelve. reflexivity. }
  exists st. split; [exact Hr|]. split; [exact Hw|].
  refine (idle_workflow_run_is_terminal single _ _ 1 single _ _ _ st _ _ Hr Hw); [by vm_compute|].
  exists (fun _ => 0%nat). intros d dep Hd Hdep. exfalso.
  apply list_elem_of_singleton in Hd as ->. by apply not_elem_of_nil in Hdep.
Defined.

(** *** Approval steps *)

Section Approval.
Variable def : WorkflowDefinition.
Variable decodeTaskUsage : any -> option TaskUsage.
Variable decodeOutputUsage : gmap string any -> option TaskUsage.
Variable d : StepDefinition.
Hypothesis Happroval : sd_Type d = StepTypeApproval.
Hypothesis Hd : def_index def !! sd_ID d = Some d.

Definition unsettled_approval (steps : list StepRun) : Prop :=
  forall i s, steps !! i = Some s -> sr_StepID s = sd_ID d -> ~ settled (sr_Status s).

Lemma approval_outcome run err : step_outcome run d err -> err = Some StepBlocked.
Proof.
  intros Ho. inversion Ho as [? ? Ht|? Ht|? Ht|? ? ? Ht|? ? ? Ht|? ? Ht]; subst; try done;
    rewrite Happroval in Ht; try done.
  destruct Ht. apply (bool_decide_unpack _). by vm_compute.
Qed.

Lemma unsettled_insert steps i s s' :
  steps !! i = Some s -> sr_StepID s' = sr_StepID s ->
  (sr_StepID s = sd_ID d -> ~ settled (sr_Status s) -> ~ settled (sr_Status s')) ->
  unsettled_approval steps -> unsettled_approval (<[i := s']> steps).
Proof.
  intros Hs Hid Hst H j x Hx Hxid. destruct (decide (i = j)) as [<-|Hne].
  - rewrite list_lookup_insert_eq in Hx by by eapply lookup_lt_Some. injection Hx as <-.
    rewrite Hid in Hxid. eauto.
  - rewrite list_lookup_insert_ne in Hx by done. eauto.
Qed.

Lemma unsettled_worker run w run' ws :
  worker_step def decodeTaskUsage decodeOutputUsage run w run' ws ->
  unsettled_approval (wr_Steps run) -> unsettled_approval (wr_Steps run').
Proof.
  intros Hstep H. destruct Hstep as
    [run run' ready Hs|run|run i todo Hn|run i todo now Hb|run i todo tid rid out meta now
    |run i todo e err now He Ho|run todo]; try done.
  - destruct (schedule_locked_spec _ _ _ _ Hs) as [_ [(_ & -> & _)|[_ Hok]]]; [done|].
    intros i s' Hs' Hid Hset. destruct (scan_keeps_back _ _ _ _ _ _ Hok i s' Hs' Hset) as (s & Hs0 & Hst).
    rewrite <-Hst in Hset. refine (H i s Hs0 _ Hset).
    destruct (scan_step _ _ _ _ _ _ Hok i s Hs0) as (x & Hx & Hidx & _). congruence.
  - unfold begin_step. destruct (wr_Steps run !! i) as [s|] eqn:Hs; [|done].
    eapply unsettled_insert; [exact Hs|done| |done]. intros _ _. rewrite settled_cases. cbn.
    by intuition discriminate.
  - unfold executor_writes. destruct (wr_Steps run !! i) as [s|] eqn:Hs; [|done].
    by eapply unsettled_insert.
  - destruct (step_def_Some def _ _ _ He) as (s & Hs & Hdd).
    rewrite (finish_steps _ _ _ _ _ _ _ s) by done.
    destruct (settle_step_fields e err (s <| sr_EndedAt := now |>)) as (Hid & Hat & Hset).
    eapply unsettled_insert; [exact Hs|exact Hid| |done]. intros Hsd _. rewrite Hset.
    rewrite Hsd, Hd in Hdd. injection Hdd as <-. apply approval_outcome in Ho as ->.
    rewrite settled_cases. cbn. by intuition discriminate.
Qed.

Lemma unsettled_reachable now runID inputs st :
  rtc (wf_step def decodeTaskUsage decodeOutputUsage) (started def now runID inputs) st ->
  unsettled_approval (wr_Steps (ws_run st)).
Proof.
  intros Hr.
  assert (unsettled_approval (wr_Steps (ws_run (started def now runID inputs)))) as H.
  { intros i s (x & _ & ->)%new_run_lookup _. rewrite settled_cases. cbn. by intuition discriminate. }
  induction Hr as [|st st' st'' Hs _ IH]; [done|]. apply IH.
  destruct Hs as [run pre w post run' ws Hw|run ws now' reason run' Ho|run ws now' run' Ho|run ws now' run' Ho];
    cbn in *.
  - by eapply unsettled_worker.
  - by rewrite (operator_steps now' reason run run') by auto.
  - by rewrite (operator_steps now' "" run run') by auto.
  - by rewrite (operator_steps now' "" run run') by auto.
Qed.
End Approval.

(** An approval step never gets a final status, whatever the operator does: it
    blocks, the next scan picks it again and it blocks again, and no operation of
    the orchestrator approves it; so a workflow with an approval step never
    completes. *)
Theorem approval_workflow_never_completes def dec dec_out now0 def0 now runID inputs st d :
  checked_definition now0 def0 = Ok def -> d ∈ wd_Steps def -> sd_Type d = StepTypeApproval ->
  rtc (wf_step def dec dec_out) (started def now runID inputs) st ->
  wr_Status (ws_run st) <> WorkflowStatusCompleted
  /\ forall i s, wr_Steps (ws_run st) !! i = Some s -> sr_StepID s = sd_ID d ->
       ~ settled (sr_Status s).
Proof.
  intros Hc Hd Ht Hr. apply checked_definition_registered in Hc.
  assert (def_index def !! sd_ID d = Some d) as Hdd
    by (unfold def_index; apply (index_last_unique sd_ID); [apply (rg_unique _ Hc)|exact Hd]).
  pose proof (unsettled_reachable def dec dec_out d Ht Hdd _ _ _ _ Hr) as Hu.
  split; [|exact Hu]. intros Hst.
  pose proof (ac_completed _ (accounted_reachable _ _ _ _ _ _ _ Hr) Hst) as Hs.
  pose proof (consistent_reachable _ _ _ _ _ _ _ Hr) as H.
  assert (sd_ID d ∈ map sr_StepID (wr_Steps (ws_run st))) as Hin.
  { rewrite (cs_ids _ _ _ H). apply list_elem_of_In, in_map. by apply list_elem_of_In. }
  apply list_elem_of_In, in_map_iff in Hin as (s & Hid & Hin%list_elem_of_In).
  apply list_elem_of_lookup in Hin as [i Hi]. apply (Hu i s Hi Hid), succeeded_settled.
  rewrite Forall_lookup in Hs. eauto.
Qed.

Definition approval_step : StepDefinition :=
  mkStepDefinition "ok" "" StepTypeApproval [] no_config 0 None "" "" None.

Lemma approval_workflow_never_completes_witness :
  wr_Status (ws_run (started (workflow_of [approval_step]) 1 "r" None)) <> WorkflowStatusCompleted.
Proof.
  refine (proj1 (approval_workflow_never_completes (workflow_of [approval_step]) (fun _ => None)
    (fun _ => None) 1 (workflow_of [approval_step]) 1 "r" None _ approval_step _ _ _ _)).
  - by vm_compute.
  - apply list_elem_of_here.
  - reflexivity.
  - apply rtc_refl.
Defined.
