(* ===== verification/WorkflowRecovery.v ===== *)
(** Recovery of an interrupted workflow run: every unfinished step gets the status
    that the ledger knows of its child, and finished steps are never touched. *)

From Stdlib Require Import String.
From stdpp Require Import base tactics decidable list gmap strings relations.
From S2P Require Import Prelude Enums Verification Budget TaskModels Lifecycle LedgerModels Ledger LedgerInvariant LedgerProps WorkflowModels Workflow WorkflowProps WorkflowSafety.

(** ** Specification of one step *)

(** What the status of a child run or task says of its step. *)
Definition run_verdict (run : option TaskRun) : option string :=
  run ≫= fun r =>
    go_switch (tr_Status r)
      [([TaskRunStatusCompleted], Some StepStatusCompleted);
       ([TaskRunStatusFailed; TaskRunStatusCancelled], Some StepStatusFailed)] None.

Definition task_verdict (task : option TaskSpec) : option string :=
  task ≫= fun t =>
    go_switch (ts_Status t)
      [([TaskStatusCompleted], Some StepStatusCompleted);
       ([TaskStatusFailed; TaskStatusCancelled], Some StepStatusFailed)] None.

(** The status of an unfinished step after recovery: the child's run decides, then
    its task; an interrupted step without a verdict starts over. *)
Definition recovered_status (outcome : StepOutcome) (step : StepRun) : string :=
  match run_verdict (so_run outcome), task_verdict (so_task outcome) with
  | Some st, _ => st
  | None, Some st => st
  | None, None => if interrupted step then StepStatusPending else sr_Status step
  end.

Section Recover.
Context {S : Type} `{Store S}.
Variable any_usage : TaskUsage -> any.
Variable any_result : TaskResultRef -> any.

Lemma copy_run_times_fields run step :
  sr_StepID (copy_run_times run step) = sr_StepID step
  /\ sr_Status (copy_run_times run step) = sr_Status step.
Proof.
  unfold copy_run_times. destruct (sr_StartedAt step =? 0); destruct (0 <? tr_EndedAt run); cbn;
    by destruct (sr_Attempt step =? 0).
Qed.

Lemma run_reconciliation_spec step run :
  match workflowApplyRunReconciliation any_usage any_result step run with
  | Some s => sr_StepID s = sr_StepID step /\ run_verdict run = Some (sr_Status s)
  | None => run_verdict run = None
  end.
Proof.
  destruct run as [r|]; cbn; [|done].
  destruct (tr_Status r ==? TaskRunStatusCompleted); cbn [orb].
  { by destruct (copy_run_times_fields r (step <| sr_Status := StepStatusCompleted |>
      <| sr_Output := Some (workflowStepOutputFromTaskRun any_usage any_result r) |>
      <| sr_Error := "" |>)) as [-> ->]. }
  destruct ((tr_Status r ==? TaskRunStatusFailed) || _); [|done].
  match goal with |- context [copy_run_times r ?s] =>
    by destruct (copy_run_times_fields r s) as [-> ->] end.
Qed.

Lemma task_reconciliation_spec step task :
  match workflowApplyTaskReconciliation step task with
  | Some s => sr_StepID s = sr_StepID step /\ task_verdict task = Some (sr_Status s)
  | None => task_verdict task = None
  end.
Proof.
  destruct task as [t|]; cbn; [|done].
  destruct (ts_Status t ==? TaskStatusCompleted); cbn [orb].
  { by destruct (sr_EndedAt step =? 0). }
  destruct ((ts_Status t ==? TaskStatusFailed) || _); [|done].
  by destruct (sr_EndedAt step =? 0).
Qed.

Local Definition settle_by (outcome : StepOutcome) (step : StepRun) : StepRun :=
  default step (apply_outcome any_usage any_result outcome step).

Lemma settle_by_spec outcome step :
  sr_StepID (settle_by outcome step) = sr_StepID step
  /\ (settled (sr_Status step) -> settle_by outcome step = step)
  /\ (~ settled (sr_Status step) -> sr_Status (settle_by outcome step) = recovered_status outcome step).
Proof.
  unfold settle_by, apply_outcome, settled, recovered_status.
  destruct (workflowStepTerminal (sr_Status step)); [done|].
  pose proof (run_reconciliation_spec step (so_run outcome)) as Hr.
  destruct (workflowApplyRunReconciliation _ _ _ _) as [s|]; [destruct Hr as [? ->]; done|rewrite Hr].
  pose proof (task_reconciliation_spec step (so_task outcome)) as Ht.
  destruct (workflowApplyTaskReconciliation _ _) as [s|]; [destruct Ht as [? ->]; done|rewrite Ht].
  by destruct (interrupted step).
Qed.

Lemma recovered_not_interrupted outcome step s :
  sr_Status s = recovered_status outcome step -> interrupted s = false.
Proof.
  unfold interrupted, recovered_status. intros ->.
  assert (forall st v, st = Some v -> (st = Some StepStatusCompleted \/ st = Some StepStatusFailed) ->
    (v ==? StepStatusRunning) || (v ==? StepStatusReady) = false) as H1.
  { intros st v -> [[= ->]|[= ->]]; done. }
  destruct (run_verdict (so_run outcome)) as [v|] eqn:Er.
  { apply (H1 (Some v) v eq_refl). rewrite <-Er. unfold run_verdict in *. destruct (so_run outcome) as [r|]; [|done].
    cbn in *. destruct (_ ==? TaskRunStatusCompleted); cbn [orb] in *; [by left|].
    destruct (_ || _); [by right|done]. }
  destruct (task_verdict (so_task outcome)) as [v|] eqn:Et.
  { apply (H1 (Some v) v eq_refl). rewrite <-Et. unfold task_verdict in *. destruct (so_task outcome) as [t|]; [|done].
    cbn in *. destruct (_ ==? TaskStatusCompleted); cbn [orb] in *; [by left|].
    destruct (_ || _); [by right|done]. }
  destruct (interrupted step) eqn:Ei; [reflexivity|exact Ei].
Qed.

(** ** The two loops *)

Lemma reconcileStepFromLedger_id step (l l' : Ledger S) outcome err :
  reconcileStepFromLedger step l = (l', (outcome, err)) -> so_stepID outcome = sr_StepID step.
Proof.
  unfold reconcileStepFromLedger. intros E.
  destruct (TrimSpace (sr_TaskID step) !=? "").
  - destruct (GetTask _ l) as [l1 [entry|e]]; [|by injection E as <- <- <-].
    cbv zeta in E. match type of E with (if ?c then _ else _) = _ => destruct c end;
      [|by injection E as <- <- <-].
    destruct (GetRun _ l1) as [l2 [re|e]]; by injection E as <- <- <-.
  - destruct (TrimSpace (sr_RunID step) !=? ""); [|by injection E as <- <- <-].
    destruct (GetRun _ l) as [l2 [re|e]]; by injection E as <- <- <-.
Qed.

(** The outcome comes from looking the children of [step] up. *)
Definition looked_up (step : StepRun) (outcome : StepOutcome) : Prop :=
  exists l l' : Ledger S, reconcileStepFromLedger step l = (l', (outcome, None)).

Lemma collect_outcomes_spec steps (l l' : Ledger S) outcomes err :
  collect_outcomes steps l = (l', outcomes, err) -> NoDup (map sr_StepID steps) ->
  NoDup (map so_stepID outcomes)
  /\ (forall o, o ∈ outcomes -> exists s, s ∈ steps /\ looked_up s o)
  /\ (err = None -> forall s, s ∈ steps -> ~ settled (sr_Status s) ->
        exists o, looked_up s o /\ (o ∈ outcomes \/ recovered_status o s = sr_Status s
          /\ sr_StepID s ∉ map so_stepID outcomes)).
Proof.
  revert l l' outcomes err. induction steps as [|step steps IH]; cbn [collect_outcomes]; intros l l' outs err E Hnd.
  { injection E as <- <- <-. split; [apply NoDup_nil_2|]. split.
    - intros o Ho. by apply not_elem_of_nil in Ho.
    - intros _ s Hs. by apply not_elem_of_nil in Hs. }
  cbn in Hnd. apply NoDup_cons in Hnd as [Hni Hnd].
  destruct (workflowStepTerminal (sr_Status step)) eqn:Ht.
  { destruct (IH _ _ _ _ E Hnd) as (H1 & H2 & H3). split; [done|]. split.
    - intros o Ho. destruct (H2 o Ho) as (s & ? & ?). exists s. split; [by apply list_elem_of_further|done].
    - intros He s [->|Hs]%elem_of_cons Hn; [done|by apply H3]. }
  destruct (reconcileStepFromLedger step l) as [l1 [o e]] eqn:Er.
  destruct (collect_outcomes steps l1) as [[l2 outs2] err2] eqn:Ec.
  destruct (IH _ _ _ _ Ec Hnd) as (H1 & H2 & H3).
  assert (sr_StepID step ∉ map so_stepID outs2) as Hfresh.
  { intros (o' & Hid & Ho')%list_elem_of_In%in_map_iff. apply list_elem_of_In in Ho'.
    destruct (H2 o' Ho') as (s & Hs & la & lb & Hl). apply Hni.
    rewrite <-Hid, (reconcileStepFromLedger_id _ _ _ _ _ Hl).
    apply list_elem_of_In, in_map. by apply list_elem_of_In. }
  assert (forall o', o' ∈ outs2 -> exists s, s ∈ step :: steps /\ looked_up s o') as H2'.
  { intros o' Ho'. destruct (H2 o' Ho') as (s & ? & ?). exists s. split; [by apply list_elem_of_further|done]. }
  destruct e as [e|].
  { injection E as <- <- <-. split; [done|]. split; [done|by intros ?]. }
  assert (looked_up step o) as Hlo by by exists l, l1.
  pose proof (reconcileStepFromLedger_id _ _ _ _ _ Er) as Hid.
  match type of E with (_, if ?c then _ else _, _) = _ => destruct c eqn:Hkeep end;
    injection E as <- <- <-.
  - split; [cbn; apply NoDup_cons; by rewrite Hid|]. split.
    + intros o' [->|Ho']%elem_of_cons; [|auto]. exists step. split; [apply list_elem_of_here|done].
    + intros He s [->|Hs]%elem_of_cons Hn; [exists o; split; [done|left; apply list_elem_of_here]|].
      destruct (H3 He s Hs Hn) as (o' & Hl & [Ho'|[Hrs Hnin]]); exists o'; (split; [done|]).
      * left. by apply list_elem_of_further.
      * right. split; [done|]. cbn. rewrite not_elem_of_cons. split; [|done]. rewrite Hid. intros Heq.
        apply Hni. rewrite <-Heq. apply list_elem_of_In, in_map. by apply list_elem_of_In.
  - split; [done|]. split; [done|].
    intros He s [->|Hs]%elem_of_cons Hn; [|by apply H3]. exists o. split; [done|]. right. split; [|done].
    rewrite !orb_false_iff, !bool_decide_eq_false in Hkeep. destruct Hkeep as [[Hk1 Hk2] Hk3].
    unfold recovered_status. destruct (so_run o); [by destruct Hk2|]. destruct (so_task o); [by destruct Hk1|].
    cbn. by rewrite Hk3.
Qed.

Lemma apply_outcomes_spec index outcomes steps :
  NoDup (map so_stepID outcomes) -> NoDup (map sr_StepID steps) -> index = step_index steps ->
  forall i s, steps !! i = Some s ->
  let s' := match List.find (fun o => so_stepID o ==? sr_StepID s) outcomes with
            | Some o => settle_by o s
            | None => s
            end in
  (apply_outcomes any_usage any_result index outcomes steps).1 !! i = Some s'.
Proof.
  intros Hnd. revert steps. induction outcomes as [|o outs IH]; intros steps Hids Hidx i s Hs; [done|].
  cbn in Hnd. apply NoDup_cons in Hnd as [Hni Hnd]. cbn [apply_outcomes List.find].
  assert (forall j x, steps !! j = Some x -> sr_StepID x = so_stepID o -> index !! so_stepID o = Some j) as Hat.
  { intros j x Hx Hxid. subst index.
    assert (is_Some (step_index steps !! so_stepID o)) as [k Hk].
    { apply step_index_is_Some. rewrite <-Hxid. apply list_elem_of_In, in_map.
      apply list_elem_of_In. by eapply list_elem_of_lookup_2. }
    destruct (step_index_Some _ _ _ Hk) as (y & Hy & Hyid). rewrite Hk. f_equal.
    eapply NoDup_lookup; [exact Hids| |]; change (map sr_StepID) with (fmap (M := list) sr_StepID);
      rewrite list_lookup_fmap; [by rewrite Hy|rewrite Hx; cbn; congruence]. }
  assert (forall t, sr_StepID t = so_stepID o -> List.find (fun o' => so_stepID o' ==? sr_StepID t) outs = None) as Hnone.
  { intros t Ht. destruct (List.find _ outs) as [o'|] eqn:F; [|done]. apply find_some in F as [Ho' E].
    apply String.eqb_eq in E. destruct Hni. rewrite <-Ht, <-E. apply list_elem_of_In. by apply in_map. }
  destruct (index !! so_stepID o ≫= _) as [[j x]|] eqn:Ej.
  - assert (index !! so_stepID o = Some j /\ steps !! j = Some x) as [Hj Hx].
    { destruct (index !! so_stepID o) as [k|]; [|done]. cbn in Ej.
      destruct (steps !! k) as [y|] eqn:Ey; [|done]. cbn in Ej. by injection Ej as <- <-. }
    assert (sr_StepID x = so_stepID o) as Hxid.
    { subst index. destruct (step_index_Some _ _ _ Hj) as (y & Hy & <-). congruence. }
    destruct (String.eqb_spec (so_stepID o) (sr_StepID s)) as [E|Hne].
    + pose proof (Hat i s Hs (eq_sym E)) as Hi. rewrite Hj in Hi. injection Hi as ->.
      rewrite Hs in Hx. injection Hx as <-. unfold settle_by.
      destruct (settle_by_spec o s) as [Hsid _]. unfold settle_by in Hsid.
      destruct (apply_outcome any_usage any_result o s) as [s1|]; cbn in *.
      * destruct (apply_outcomes any_usage any_result index outs (<[i := s1]> steps)) as [st ch] eqn:Ea.
        cbn. specialize (IH Hnd (<[i := s1]> steps)).
        rewrite (map_insert_id _ _ _ _ _ Hs Hsid) in IH.
        rewrite (step_index_ids _ _ (map_insert_id _ _ _ _ _ Hs Hsid)) in IH.
        specialize (IH Hids Hidx i s1). rewrite Ea in IH. cbn in IH.
        rewrite list_lookup_insert_eq in IH by by eapply lookup_lt_Some.
        rewrite IH by done. by rewrite (Hnone s1) by congruence.
      * rewrite (IH Hnd steps Hids Hidx i s Hs). by rewrite (Hnone s) by congruence.
    + assert (i <> j) as Hij by (intros ->; congruence).
      destruct (settle_by_spec o x) as [Hsid _]. unfold settle_by in Hsid.
      destruct (apply_outcome any_usage any_result o x) as [s1|]; cbn in *.
      * destruct (apply_outcomes any_usage any_result index outs (<[j := s1]> steps)) as [st ch] eqn:Ea.
        cbn. specialize (IH Hnd (<[j := s1]> steps)).
        rewrite (map_insert_id _ _ _ _ _ Hx Hsid) in IH.
        rewrite (step_index_ids _ _ (map_insert_id _ _ _ _ _ Hx Hsid)) in IH.
        specialize (IH Hids Hidx i s). rewrite Ea in IH. cbn in IH.
        rewrite list_lookup_insert_ne in IH by done. by rewrite IH.
      * by apply IH.
  - destruct (String.eqb_spec (so_stepID o) (sr_StepID s)) as [E|Hne]; [|by apply IH].
    exfalso. rewrite (Hat i s Hs (eq_sym E)) in Ej. cbn in Ej. by rewrite Hs in Ej.
Qed.

Lemma finalize_steps now run : wr_Steps (finalizeWorkflowRunIfDone now run) = wr_Steps run.
Proof.
  unfold finalizeWorkflowRunIfDone. destruct (_ !=? _); [done|]. by destruct (negb _).
Qed.

(** Nothing is applied when no outcome changes a step. *)
Lemma apply_outcomes_unchanged index outcomes steps :
  (apply_outcomes any_usage any_result index outcomes steps).2 = false ->
  (apply_outcomes any_usage any_result index outcomes steps).1 = steps.
Proof.
  induction outcomes as [|o outs IH]; [done|]. cbn [apply_outcomes].
  destruct (_ ≫= _) as [[j x]|]; [|done].
  destruct (apply_outcome any_usage any_result o x) as [s1|]; [|done].
  destruct (apply_outcomes any_usage any_result index outs (<[j := s1]> steps)) as [st b]. cbn. discriminate.
Qed.

Lemma reconciled_steps now run (l l' : Ledger S) run' changed err :
  reconcileChildStepState any_usage any_result now run l = (l', run', changed, err) ->
  exists outcomes, collect_outcomes (wr_Steps run) l = (l', outcomes, err)
    /\ wr_Steps run' = (apply_outcomes any_usage any_result (step_index (wr_Steps run)) outcomes (wr_Steps run)).1.
Proof.
  unfold reconcileChildStepState. destruct (collect_outcomes (wr_Steps run) l) as [[l1 outs] e].
  pose proof (apply_outcomes_unchanged (step_index (wr_Steps run)) outs (wr_Steps run)) as Hun.
  destruct (apply_outcomes _ _ _ _ _) as [steps ch] eqn:Ea. intros E. exists outs. cbn in Hun.
  destruct ch; injection E as <- <- <- <-; split; [reflexivity| |reflexivity|].
  - by rewrite finalize_steps, Ea.
  - by rewrite Ea, <-Hun.
Qed.

(** Recovering an interrupted workflow run leaves every finished step as it is,
    and, when all ledger lookups succeed, gives every other step the status that
    its child run, else its child task, has reached in the ledger, or starts it
    over; so no step stays marked as running. *)
Theorem recovery_settles_steps_by_their_children now run (l l' : Ledger S) run' changed err :
  reconcileChildStepState any_usage any_result now run l = (l', run', changed, err) ->
  NoDup (map sr_StepID (wr_Steps run)) ->
  forall i s, wr_Steps run !! i = Some s -> exists s', wr_Steps run' !! i = Some s'
    /\ (settled (sr_Status s) -> s' = s)
    /\ (~ settled (sr_Status s) -> err = None ->
          interrupted s' = false
          /\ exists o, looked_up s o /\ sr_Status s' = recovered_status o s).
Proof.
  intros E Hids i s Hs. destruct (reconciled_steps _ _ _ _ _ _ _ E) as (outs & Hc & Hsteps).
  destruct (collect_outcomes_spec _ _ _ _ _ Hc Hids) as (Hnd & Hfrom & Hall).
  pose proof (apply_outcomes_spec _ outs _ Hnd Hids eq_refl i s Hs) as Hi. cbv zeta in Hi.
  rewrite <-Hsteps in Hi. eexists. split; [exact Hi|].
  destruct (List.find _ outs) as [o|] eqn:F.
  - apply find_some in F as [Ho Hoid]. apply list_elem_of_In in Ho. apply String.eqb_eq in Hoid.
    destruct (settle_by_spec o s) as (_ & Hset & Hunset). split; [exact Hset|].
    intros Hn ->. specialize (Hunset Hn). split; [by eapply recovered_not_interrupted|].
    destruct (Hfrom o Ho) as (t & Ht & Hlook). exists o. split; [|exact Hunset].
    assert (t = s) as ->; [|done]. apply list_elem_of_lookup in Ht as [j Hj].
    assert (j = i) as ->; [|congruence].
    destruct Hlook as (la & lb & Hl). apply reconcileStepFromLedger_id in Hl.
    eapply NoDup_lookup; [exact Hids| |]; change (map sr_StepID) with (fmap (M := list) sr_StepID);
      rewrite list_lookup_fmap; [by rewrite Hj|rewrite Hs; cbn; congruence].
  - split; [done|]. intros Hn ->.
    destruct (Hall eq_refl s) as (o & Hl & [Ho|[Hrs _]]);
      [by eapply list_elem_of_lookup_2|done|exfalso|].
    + pose proof (find_none _ _ F o) as Hnone. rewrite <-list_elem_of_In in Hnone. specialize (Hnone Ho).
      destruct Hl as (la & lb & Hl). apply reconcileStepFromLedger_id in Hl. cbn in Hnone.
      by rewrite Hl, String.eqb_refl in Hnone.
    + split; [by eapply recovered_not_interrupted|]. by exists o.
Qed.
End Recover.

(** A run whose only step was interrupted while its child run completed. *)
Definition interrupted_step : StepRun :=
  mkStepRun "a" "" StepTypeAgentTurn StepStatusRunning 1 "" "r1" None None "" 5 0 None.

Definition interrupted_run : WorkflowRun :=
  mkWorkflowRun 1 "r" "w" "" WorkflowStatusRunning None None [interrupted_step] "a" zero_usage "" 1 0 1 1 None.

Definition child_ledger : Ledger MapStore :=
  (SaveRunState 4 (sample_run <| tr_RunID := "r1" |> <| tr_Status := TaskRunStatusCompleted |>
     <| tr_StartedAt := 2 |> <| tr_EndedAt := 3 |>) "" "" (NewLedger None)).1.

Lemma recovery_settles_steps_by_their_children_witness :
  exists s', wr_Steps (reconcileChildStepState (fun _ => VNil) (fun _ => VNil) 9 interrupted_run
                        child_ledger).1.1.2 !! 0%nat = Some s'
    /\ interrupted s' = false /\ sr_Status s' = StepStatusCompleted.
Proof.
  destruct (recovery_settles_steps_by_their_children (fun _ => VNil) (fun _ => VNil) 9 interrupted_run
    child_ledger child_ledger
    (reconcileChildStepState (fun _ => VNil) (fun _ => VNil) 9 interrupted_run child_ledger).1.1.2
    true None ltac:(vm_compute; reflexivity) ltac:(apply NoDup_singleton) 0%nat interrupted_step eq_refl)
    as (s' & Hs' & _ & Hn).
  destruct Hn as [Hi _]; [by vm_compute|done|]. exists s'. split; [exact Hs'|]. split; [exact Hi|].
  vm_compute in Hs'. injection Hs' as <-. reflexivity.
Defined.

(** A step whose child cannot be found stays marked as running: no scan picks it
    again, and the run stays open. *)
Example unknown_child_leaves_step_running :
  let '(_, run, changed, err) :=
    reconcileChildStepState (fun _ => VNil) (fun _ => VNil) 9 interrupted_run
      (NewLedger (S := MapStore) None) in
  changed = false /\ err <> None /\ run = interrupted_run
  /\ forall def, (schedule_locked def run).2 = [].
Proof.
  destruct (reconcileChildStepState _ _ _ _ _) as [[[l run] changed] err] eqn:E.
  vm_compute in E. injection E as <- <- <- <-.
  split; [done|]. split; [done|]. split; [done|]. intros def. reflexivity.
Qed.
