(* ===== verification/WorkflowExamples.v ===== *)
(** Concrete executions of workflow runs that end where the code does not mean them
    to end: a completed run that stays open after a pause, a cancellation that is
    overwritten or does not stop queued steps, and dependency cycles. *)

From Stdlib Require Import String.
From stdpp Require Import base tactics decidable list gmap strings relations.
From S2P Require Import Prelude Enums Verification Budget TaskModels Lifecycle LedgerModels Ledger WorkflowModels Workflow WorkflowProps WorkflowSafety WorkflowProgress.

Local Definition moves (def : WorkflowDefinition) : relation WfState :=
  rtc (wf_step def (fun _ => None) (fun _ => None)).

(** Compute the current state. *)
Ltac norm_state :=
  lazymatch goal with
  | |- rtc _ ?s _ => let s' := eval vm_compute in s in change s with s'
  | |- moves _ ?s _ => let s' := eval vm_compute in s in change s with s'; unfold moves
  | |- _ => idtac
  end.

(** The only goroutine moves and becomes [ws]. *)
Ltac worker_move ws := norm_state; eapply rtc_l; [eapply (wf_worker _ _ _ _ [] _ [] _ ws)|].

Ltac begin_move i todo :=
  worker_move [WExec i todo]; [apply (step_begin _ _ _ _ _ _ 2); by eexists|].
Ltac finish_move err todo :=
  worker_move [WAfter todo];
    [eapply (step_finish _ _ _ _ _ _ _ err 3); [reflexivity|by apply turn_may_end]|].

(** A run that is paused while its last step is in execution never completes: the
    completion check of the step does nothing, and no step is left to check again
    after the run is resumed. *)
Example paused_last_step_never_completes :
  exists st, moves single (started single 1 "r" None) st /\ ws_workers st = []
    /\ wr_Status (ws_run st) = WorkflowStatusRunning /\ Forall succeeded (wr_Steps (ws_run st)).
Proof.
  eexists. split; [|shelve]. 
  worker_move [WQueue [0%nat]]; [by eapply step_scan|]. begin_move 0%nat (@nil nat).
  norm_state; eapply rtc_l; [by apply (wf_pause _ _ _ _ _ 5)|]. finish_move (@None step_error) (@nil nat).
  worker_move [WQueue []]; [exact (step_after _ _ _ _ [])|].
  worker_move (@nil worker); [apply step_exit|].
  norm_state; eapply rtc_l; [by apply (wf_resume _ _ _ _ _ 6)|].
  worker_move [WQueue []]; [by eapply step_scan|].
  worker_move (@nil worker); [apply step_exit|]. norm_state; apply rtc_refl.
  Unshelve. split; [reflexivity|]. split; [by vm_compute|].
  apply Forall_singleton. by left.
Qed.

(** A step that fails after the run was cancelled marks the run failed. *)
Example failing_step_overwrites_cancellation :
  exists st st', moves single (started single 1 "r" None) st
    /\ wr_Status (ws_run st) = WorkflowStatusCancelled
    /\ moves single st st' /\ wr_Status (ws_run st') = WorkflowStatusFailed.
Proof.
  eexists. eexists. split; [|split; [shelve|split; [|shelve]]].
  - worker_move [WQueue [0%nat]]; [by eapply step_scan|]. begin_move 0%nat (@nil nat).
    norm_state; eapply rtc_l; [by apply (wf_cancel _ _ _ _ _ 5 "stop")|]. norm_state; apply rtc_refl.
  - finish_move (Some (StepFailed "no")) (@nil nat). norm_state; apply rtc_refl.
  Unshelve. all: by vm_compute.
Qed.

(** A cancelled run still starts the steps that were queued. *)
Example cancelled_run_starts_queued_step :
  let def := workflow_of [turn_step "a" [] None ""; turn_step "b" [] None ""] in
  exists st, moves def (started def 1 "r" None) st
    /\ wr_Status (ws_run st) = WorkflowStatusCancelled /\ ws_workers st = [WExec 1 []].
Proof.
  cbv zeta. eexists. split; [|shelve]. 
  worker_move [WQueue [0; 1]%nat]; [by eapply step_scan|]. begin_move 0%nat [1%nat].
  norm_state; eapply rtc_l; [by apply (wf_cancel _ _ _ _ _ 5 "stop")|].
  finish_move (@None step_error) [1%nat].
  worker_move [WQueue [1%nat]]; [exact (step_after _ _ _ _ [1%nat])|].
  begin_move 1%nat (@nil nat). norm_state; apply rtc_refl.
  Unshelve. split; [by vm_compute|reflexivity].
Qed.

(** Registration accepts a dependency cycle, and its run stays open without work. *)
Example cyclic_workflow_is_stuck :
  let def := workflow_of [turn_step "a" ["b"] None ""; turn_step "b" ["a"] None ""] in
  checked_definition 1 def = Ok def
  /\ exists st, moves def (started def 1 "r" None) st /\ ws_workers st = []
       /\ wr_Status (ws_run st) = WorkflowStatusRunning.
Proof.
  cbv zeta. split; [by vm_compute|]. eexists. split; [|shelve]. 
  worker_move [WQueue []]; [by eapply step_scan|].
  worker_move (@nil worker); [apply step_exit|]. norm_state; apply rtc_refl.
  Unshelve. split; [reflexivity|by vm_compute].
Qed.

(** A required input with a default panics when the inputs are nil. *)
Example start_with_nil_inputs_panics :
  let def := mkWorkflowDefinition 1 "w" "w" "" [turn_step "a" [] None ""]
    {["x" := mkInputSpec "string" "" true (VString "v")]} ∅ zero_authority zero_budget 0 None 1 1 in
  StartRun 1 "r" "w" None (mkWorkflowOrchestrator {["w" := def]} ∅) = None.
Proof. by vm_compute. Qed.
