(* ===== verification/Duration.v ===== *)
(** [time.Duration] of the Go library: a 64-bit number of nanoseconds, its text
    form, and its conversion from and to float64 (IEEE 754 double precision, by
    the specification floats of the Standard Library). *)

From Stdlib Require Import Ascii String Floats.SpecFloat.
From stdpp Require Import base tactics decidable list strings pretty.
From S2P Require Import Prelude.

Definition nanosecond : Z := 1.
Definition microsecond : Z := 1000.
Definition millisecond : Z := 10 ^ 6.
Definition second : Z := 10 ^ 9.
Definition minute : Z := 60 * second.
Definition hour : Z := 60 * minute.

(** [t.Unix()] of a time in nanoseconds *)
Definition unix (now : Z) : Z := now / second.

(** The fraction [v / 10^prec] without trailing zeros, and [v / 10^prec]. *)
Fixpoint fmtFrac (prec : nat) (v : Z) (print : bool) (acc : string) : string * Z :=
  match prec with
  | O => (if print then "." +:+ acc else acc, v)
  | S prec =>
    let digit := v mod 10 in
    let print := print || negb (digit =? 0) in
    fmtFrac prec (v / 10) print (if print then pretty digit +:+ acc else acc)
  end.

Definition with_fraction (prec : nat) (v : Z) (unit : string) : string :=
  let '(frac, n) := fmtFrac prec v false "" in pretty n +:+ frac +:+ unit.

(** [d.String()] *)
Definition Duration_String (d : Z) : string :=
  let u := Z.abs d in
  let sign := if d <? 0 then "-" else "" in
  if u =? 0 then "0s"
  else if u <? microsecond then sign +:+ with_fraction 0 u "ns"
  else if u <? millisecond then sign +:+ with_fraction 3 u "µs"
  else if u <? second then sign +:+ with_fraction 6 u "ms"
  else
    let '(frac, n) := fmtFrac 9 u false "" in
    sign
    +:+ (if hour <=? u then pretty (n / 3600) +:+ "h" else "")
    +:+ (if minute <=? u then pretty (n / 60 mod 60) +:+ "m" else "")
    +:+ pretty (n mod 60) +:+ frac +:+ "s".

Example duration_strings :
  map Duration_String [0; 5; 1500; 2000000; 1500000000; 30 * second; 90 * second; -hour]
  = ["0s"; "5ns"; "1.5µs"; "2ms"; "1.5s"; "30s"; "1m30s"; "-1h0m0s"].
Proof. vm_compute. reflexivity. Qed.

(** ** float64 *)

Definition float64 := spec_float.

Definition float64_of_int (z : Z) : float64 := binary_normalize 53 1024 z 0 false.

Definition mul_float64 (a b : float64) : float64 := SFmul 53 1024 a b.

(** Truncation towards zero; the conversion of values that an int64 cannot hold is
    left to the implementation by the language, and is an argument. *)
Definition int_of_float64 (unrepresentable : float64 -> Z) (f : float64) : Z :=
  let check z := if (- 2 ^ 63 <=? z) && (z <? 2 ^ 63) then z else unrepresentable f in
  match f with
  | S754_zero _ => 0
  | S754_finite s m e =>
    let n := if 0 <=? e then Z.pos m * 2 ^ e else Z.pos m / 2 ^ (- e) in
    check (if s then - n else n)
  | _ => unrepresentable f
  end.
