(* ===== verification/Journal.v ===== *)
(** The workflow journal: internal/planner/journal.go and the journal records of
    internal/store/state/models_workflow.go.

    A journal is an object behind a mutex, except for its sequence counter, which
    is atomic and read and bumped outside the mutex; the persister is called
    outside the mutex too.  [Append] and [Checkpoint] are therefore split into
    their atomic steps, which [JournalProps] interleaves; the definitions
    [Append] and [Checkpoint] run them in sequence.  A verification contract boxed
    into the data of an entry is a variable. *)

From Stdlib Require Import String.
From stdpp Require Import base tactics decidable list gmap strings pretty.
From S2P Require Import Prelude Enums Verification Budget TaskModels Authority.

(** ** Entry types *)

Definition JournalCheckpoint : string := "checkpoint".
Definition JournalStateTransition : string := "state_transition".
Definition JournalStepStart : string := "step_start".
Definition JournalStepComplete : string := "step_complete".
Definition JournalStepFail : string := "step_fail".
Definition JournalToolDispatch : string := "tool_dispatch".
Definition JournalToolResult : string := "tool_result".
Definition JournalDelegation : string := "delegation".
Definition JournalError : string := "error".
Definition JournalPendingAction : string := "pending_action".

Definition validJournalEntryTypes : list string :=
  [JournalCheckpoint; JournalStateTransition; JournalStepStart; JournalStepComplete;
   JournalStepFail; JournalToolDispatch; JournalToolResult;
   JournalDelegation; JournalError; JournalPendingAction].

Definition ValidJournalEntryType (t : string) : bool :=
  existsb (String.eqb t) validJournalEntryTypes.

(** ** Records *)

Record JournalEntry := mkJournalEntry {
  je_EntryID : string;
  je_TaskID : string;
  je_RunID : string;
  je_Sequence : Z;
  je_Type : string;
  je_CreatedAt : Z;
  je_Summary : string;
  je_Data : gomap any
}.

#[export] Instance set_je_Data : Setter je_Data := fun v r =>
  mkJournalEntry (je_EntryID r) (je_TaskID r) (je_RunID r) (je_Sequence r) (je_Type r)
    (je_CreatedAt r) (je_Summary r) v.

Record PendingAction := mkPendingAction {
  pn_ActionID : string;
  pn_Type : string;
  pn_Description : string;
  pn_Params : gomap any;
  pn_CreatedAt : Z
}.

#[export] Instance set_pn_Params : Setter pn_Params := fun v r =>
  mkPendingAction (pn_ActionID r) (pn_Type r) (pn_Description r) v (pn_CreatedAt r).

Record WorkflowCheckpoint := mkWorkflowCheckpoint {
  cp_StepID : string;
  cp_Attempt : Z;
  cp_Status : string;
  cp_Usage : TaskUsage;
  cp_Verification : VerificationSpec;
  cp_PendingActions : list PendingAction;
  cp_CreatedAt : Z;
  cp_Meta : gomap any
}.

#[export] Instance set_cp_Verification : Setter cp_Verification := fun v r =>
  mkWorkflowCheckpoint (cp_StepID r) (cp_Attempt r) (cp_Status r) (cp_Usage r) v
    (cp_PendingActions r) (cp_CreatedAt r) (cp_Meta r).
#[export] Instance set_cp_PendingActions : Setter cp_PendingActions := fun v r =>
  mkWorkflowCheckpoint (cp_StepID r) (cp_Attempt r) (cp_Status r) (cp_Usage r) (cp_Verification
    r) v (cp_CreatedAt r) (cp_Meta r).
#[export] Instance set_cp_CreatedAt : Setter cp_CreatedAt := fun v r =>
  mkWorkflowCheckpoint (cp_StepID r) (cp_Attempt r) (cp_Status r) (cp_Usage r) (cp_Verification
    r) (cp_PendingActions r) v (cp_Meta r).
#[export] Instance set_cp_Meta : Setter cp_Meta := fun v r =>
  mkWorkflowCheckpoint (cp_StepID r) (cp_Attempt r) (cp_Status r) (cp_Usage r) (cp_Verification
    r) (cp_PendingActions r) (cp_CreatedAt r) v.

(** The persisted counterparts. *)
Record WorkflowJournalEntryDoc := mkWorkflowJournalEntryDoc {
  jd_EntryID : string;
  jd_Sequence : Z;
  jd_Type : string;
  jd_CreatedAt : Z;
  jd_Summary : string;
  jd_Data : gomap any
}.


Record PendingActionDoc := mkPendingActionDoc {
  pd_ActionID : string;
  pd_Type : string;
  pd_Description : string;
  pd_Params : gomap any;
  pd_CreatedAt : Z
}.


Record WorkflowCheckpointDoc := mkWorkflowCheckpointDoc {
  cd_StepID : string;
  cd_Attempt : Z;
  cd_Status : string;
  cd_Usage : TaskUsage;
  cd_Verification : VerificationSpec;
  cd_PendingActions : list PendingActionDoc;
  cd_CreatedAt : Z;
  cd_Meta : gomap any
}.


Record WorkflowJournalDoc := mkWorkflowJournalDoc {
  jdoc_Version : Z;
  jdoc_TaskID : string;
  jdoc_RunID : string;
  jdoc_Entries : list WorkflowJournalEntryDoc;
  jdoc_Checkpoint : option WorkflowCheckpointDoc;
  jdoc_NextSeq : Z;
  jdoc_UpdatedAt : Z
}.


Record WorkflowJournal := mkWorkflowJournal {
  wj_taskID : string;
  wj_runID : string;
  wj_entries : list JournalEntry;
  wj_checkpoint : option WorkflowCheckpoint;
  wj_nextSeq : Z;
  wj_maxEntries : Z
}.

#[export] Instance set_wj_entries : Setter wj_entries := fun v r =>
  mkWorkflowJournal (wj_taskID r) (wj_runID r) v (wj_checkpoint r) (wj_nextSeq r)
    (wj_maxEntries r).
#[export] Instance set_wj_checkpoint : Setter wj_checkpoint := fun v r =>
  mkWorkflowJournal (wj_taskID r) (wj_runID r) (wj_entries r) v (wj_nextSeq r) (wj_maxEntries
    r).
#[export] Instance set_wj_nextSeq : Setter wj_nextSeq := fun v r =>
  mkWorkflowJournal (wj_taskID r) (wj_runID r) (wj_entries r) (wj_checkpoint r) v
    (wj_maxEntries r).
#[export] Instance set_wj_maxEntries : Setter wj_maxEntries := fun v r =>
  mkWorkflowJournal (wj_taskID r) (wj_runID r) (wj_entries r) (wj_checkpoint r) (wj_nextSeq r)
    v.

(** ** Copies *)

Definition cloneData (data : gomap any) : gomap any := clone_map data.

Definition cloneAnyMap (src : gomap any) : gomap any := clone_map src.

Definition cloneVerificationCheck (check : VerificationCheck) : VerificationCheck :=
  check <| vc_Meta := cloneAnyMap (vc_Meta check) |>.

Definition cloneVerificationSpec (spec : VerificationSpec) : VerificationSpec :=
  let spec := spec <| vs_Meta := cloneAnyMap (vs_Meta spec) |> in
  if Nat.eqb (length (vs_Checks spec)) 0 then spec
  else spec <| vs_Checks := map cloneVerificationCheck (vs_Checks spec) |>.

Definition clone_entry (e : JournalEntry) : JournalEntry := e <| je_Data := cloneData (je_Data e) |>.

Definition deepCopyEntries (entries : list JournalEntry) : list JournalEntry := map clone_entry entries.

Definition clone_action (a : PendingAction) : PendingAction := a <| pn_Params := cloneData (pn_Params a) |>.

(** The copy that [Checkpoint] keeps and [LatestCheckpoint] hands out. *)
Definition clone_checkpoint (cp : WorkflowCheckpoint) : WorkflowCheckpoint :=
  cp <| cp_Verification := cloneVerificationSpec (cp_Verification cp) |>
     <| cp_Meta := cloneData (cp_Meta cp) |>
     <| cp_PendingActions := map clone_action (cp_PendingActions cp) |>.

(** ** Snapshot and restore *)

Definition entry_to_doc (e : JournalEntry) : WorkflowJournalEntryDoc :=
  mkWorkflowJournalEntryDoc (je_EntryID e) (je_Sequence e) (je_Type e) (je_CreatedAt e)
    (je_Summary e) (cloneData (je_Data e)).

Definition entry_from_doc (taskID runID : string) (e : WorkflowJournalEntryDoc) : JournalEntry :=
  mkJournalEntry (jd_EntryID e) taskID runID (jd_Sequence e) (jd_Type e) (jd_CreatedAt e)
    (jd_Summary e) (cloneData (jd_Data e)).

Definition action_to_doc (a : PendingAction) : PendingActionDoc :=
  mkPendingActionDoc (pn_ActionID a) (pn_Type a) (pn_Description a) (cloneData (pn_Params a))
    (pn_CreatedAt a).

Definition action_from_doc (a : PendingActionDoc) : PendingAction :=
  mkPendingAction (pd_ActionID a) (pd_Type a) (pd_Description a) (cloneData (pd_Params a))
    (pd_CreatedAt a).

Definition checkpointToDoc (cp : WorkflowCheckpoint) : WorkflowCheckpointDoc :=
  mkWorkflowCheckpointDoc (cp_StepID cp) (cp_Attempt cp) (cp_Status cp) (cp_Usage cp)
    (cloneVerificationSpec (cp_Verification cp)) (map action_to_doc (cp_PendingActions cp))
    (cp_CreatedAt cp) (cloneData (cp_Meta cp)).

Definition checkpointFromDoc (doc : WorkflowCheckpointDoc) : WorkflowCheckpoint :=
  mkWorkflowCheckpoint (cd_StepID doc) (cd_Attempt doc) (cd_Status doc) (cd_Usage doc)
    (cloneVerificationSpec (cd_Verification doc)) (map action_from_doc (cd_PendingActions doc))
    (cd_CreatedAt doc) (cloneData (cd_Meta doc)).

(** [snapshotLocked]; [now] is the clock. *)
Definition Snapshot (now : Z) (j : WorkflowJournal) : WorkflowJournalDoc :=
  mkWorkflowJournalDoc 1 (wj_taskID j) (wj_runID j) (map entry_to_doc (wj_entries j))
    (checkpointToDoc <$> wj_checkpoint j) (wj_nextSeq j) now.

Definition DefaultMaxJournalEntries : Z := 500.

Definition NewWorkflowJournal (taskID runID : string) : WorkflowJournal :=
  mkWorkflowJournal taskID runID [] None 0 DefaultMaxJournalEntries.

Definition RestoreFromDoc (doc : WorkflowJournalDoc) : WorkflowJournal :=
  mkWorkflowJournal (jdoc_TaskID doc) (jdoc_RunID doc)
    (map (entry_from_doc (jdoc_TaskID doc) (jdoc_RunID doc)) (jdoc_Entries doc))
    (checkpointFromDoc <$> jdoc_Checkpoint doc) (jdoc_NextSeq doc) DefaultMaxJournalEntries.

(** ** Writing *)

Definition SetMaxEntries (n : Z) (j : WorkflowJournal) : WorkflowJournal :=
  if 0 <? n then j <| wj_maxEntries := n |> else j.

Definition trimLocked (j : WorkflowJournal) : WorkflowJournal :=
  if (0 <? wj_maxEntries j) && (wj_maxEntries j <? len (wj_entries j))
  then j <| wj_entries := drop (Z.to_nat (len (wj_entries j) - wj_maxEntries j)) (wj_entries j) |>
  else j.

(** [j.nextSeq.Add(1)] *)
Definition reserve (j : WorkflowJournal) : WorkflowJournal * Z :=
  let seq := add64 (wj_nextSeq j) 1 in (j <| wj_nextSeq := seq |>, seq).

Definition entry_id (runID : string) (seq : Z) : string :=
  "je-" +:+ runID +:+ "-" +:+ pretty seq.

Section Data.
(** A verification contract boxed into a [map[string]any]. *)
Variable any_verification : VerificationSpec -> any.

Definition has_verification (v : VerificationSpec) : bool :=
  negb (Nat.eqb (length (vs_Checks v)) 0) || (vs_Policy v !=? "") || negb (vs_VerifiedAt v =? 0)
  || (vs_VerifiedBy v !=? "") || negb (Nat.eqb (size (map_read (vs_Meta v))) 0).

Definition checkpointToData (cp : WorkflowCheckpoint) : gomap any :=
  let data : gmap string any :=
    {["step_id" := VString (cp_StepID cp); "attempt" := VInt (cp_Attempt cp);
      "status" := VString (cp_Status cp)]} in
  Some (if has_verification (cp_Verification cp)
        then <["verification" := any_verification (cloneVerificationSpec (cp_Verification cp))]> data
        else data).

(** What a call writes: an entry of a type with a summary and data, or a
    checkpoint whose time is set. *)
Inductive write :=
  | WriteEntry (entryType : string) (now : Z) (summary : string) (data : gomap any)
  | WriteCheckpoint (cp : WorkflowCheckpoint).

Definition write_entry (w : write) (j : WorkflowJournal) (seq : Z) : JournalEntry :=
  match w with
  | WriteEntry entryType now summary data =>
    mkJournalEntry (entry_id (wj_runID j) seq) (wj_taskID j) (wj_runID j) seq entryType now summary
      (cloneData data)
  | WriteCheckpoint cp =>
    mkJournalEntry (entry_id (wj_runID j) seq) (wj_taskID j) (wj_runID j) seq JournalCheckpoint
      (cp_CreatedAt cp)
      ("checkpoint: step=" +:+ cp_StepID cp +:+ " attempt=" +:+ pretty (cp_Attempt cp)
       +:+ " status=" +:+ cp_Status cp)
      (checkpointToData cp)
  end.

(** The critical section of [Append] and of [Checkpoint]. *)
Definition write_locked (w : write) (seq : Z) (j : WorkflowJournal) : WorkflowJournal :=
  let j' := j <| wj_entries := wj_entries j ++ [write_entry w j seq] |> in
  let j' := match w with
            | WriteEntry _ _ _ _ => j'
            | WriteCheckpoint cp => j' <| wj_checkpoint := Some (clone_checkpoint cp) |>
            end in
  trimLocked j'.

(** [persist]: the persister, when there is one, gets a snapshot. *)
Definition persist (now : Z) (persister : option (WorkflowJournalDoc -> option error))
    (j : WorkflowJournal) : option error :=
  match persister with
  | None => None
  | Some p => p (Snapshot now j)
  end.

Definition write_and_persist (w : write) (now : Z)
    (persister : option (WorkflowJournalDoc -> option error)) (j : WorkflowJournal)
  : WorkflowJournal * (string * option error) :=
  let '(j, seq) := reserve j in
  let j := write_locked w seq j in
  (j, (entry_id (wj_runID j) seq,
       Wrapf "journal persist: %w" [] <$> persist now persister j)).

(** [now] is the clock at the call, [later] when the snapshot is taken. *)
Definition Append (entryType summary : string) (data : gomap any) (now later : Z)
    (persister : option (WorkflowJournalDoc -> option error)) (j : WorkflowJournal)
  : WorkflowJournal * (string * option error) :=
  if negb (ValidJournalEntryType entryType)
  then (j, ("", Some (Errorf "invalid journal entry type %q" [ArgS entryType])))
  else write_and_persist (WriteEntry entryType now summary data) later persister j.

Definition stamped (cp : WorkflowCheckpoint) (now : Z) : WorkflowCheckpoint :=
  if cp_CreatedAt cp =? 0 then cp <| cp_CreatedAt := now |> else cp.

Definition Checkpoint (cp : WorkflowCheckpoint) (now later : Z)
    (persister : option (WorkflowJournalDoc -> option error)) (j : WorkflowJournal)
  : WorkflowJournal * (string * option error) :=
  write_and_persist (WriteCheckpoint (stamped cp now)) later persister j.
End Data.

(** ** Reading *)

Definition LatestCheckpoint (j : WorkflowJournal) : option WorkflowCheckpoint :=
  clone_checkpoint <$> wj_checkpoint j.

Definition Entries (j : WorkflowJournal) : list JournalEntry := deepCopyEntries (wj_entries j).

Definition EntriesByType (t : string) (j : WorkflowJournal) : list JournalEntry :=
  deepCopyEntries (List.filter (fun e => je_Type e ==? t) (wj_entries j)).

Definition EntriesSince (afterSeq : Z) (j : WorkflowJournal) : list JournalEntry :=
  deepCopyEntries (List.filter (fun e => afterSeq <? je_Sequence e) (wj_entries j)).

Definition Journal_Len (j : WorkflowJournal) : Z := len (wj_entries j).

Definition format_entry (e : JournalEntry) : string :=
  "  [" +:+ pretty (je_Sequence e) +:+ "] " +:+ je_Type e +:+ ": " +:+ je_Summary e +:+ newline.

Definition FormatJournal (j : option WorkflowJournal) : string :=
  match j with
  | None => "<nil journal>"
  | Some j =>
    let n := length (wj_entries j) in
    "Workflow Journal: task=" +:+ wj_taskID j +:+ " run=" +:+ wj_runID j +:+ " entries="
    +:+ pretty (Z.of_nat n) +:+ newline
    +:+ match wj_checkpoint j with
        | None => "  No checkpoint" +:+ newline
        | Some cp =>
          "  Latest checkpoint: step=" +:+ cp_StepID cp +:+ " attempt=" +:+ pretty (cp_Attempt cp)
          +:+ " status=" +:+ cp_Status cp +:+ " at=" +:+ pretty (cp_CreatedAt cp) +:+ newline
          +:+ (if Nat.eqb (length (cp_PendingActions cp)) 0 then ""
               else "  Pending actions: " +:+ pretty (len (cp_PendingActions cp)) +:+ newline)
        end
    +:+ (if Nat.ltb 5 n
         then "  ... (" +:+ pretty (Z.of_nat (n - 5)) +:+ " earlier entries omitted)" +:+ newline
         else "")
    +:+ String.concat "" (map format_entry (drop (n - 5) (wj_entries j)))
  end.
