(* ===== verification/JournalProps.v ===== *)
(** The workflow journal under concurrent calls: identifiers are unique, the log
    keeps the latest entries, and a snapshot restores to the journal it was taken
    of. *)

From Stdlib Require Import String.
From stdpp Require Import base tactics decidable list gmap strings pretty relations.
From S2P Require Import Prelude Enums Verification Budget TaskModels Authority Journal.

(** ** Copies *)

Lemma cloneVerificationCheck_idem c :
  cloneVerificationCheck (cloneVerificationCheck c) = cloneVerificationCheck c.
Proof. unfold cloneVerificationCheck, cloneAnyMap. destruct c. cbn. by rewrite clone_map_idem. Qed.

Lemma cloneVerificationSpec_fields v :
  cloneVerificationSpec v
  = mkVerificationSpec (vs_Policy v) (map cloneVerificationCheck (vs_Checks v)) (vs_VerifiedAt v)
      (vs_VerifiedBy v) (clone_map (vs_Meta v)).
Proof. destruct v as [p [|c cs] t b m]; reflexivity. Qed.

Lemma cloneVerificationSpec_idem v :
  cloneVerificationSpec (cloneVerificationSpec v) = cloneVerificationSpec v.
Proof.
  rewrite !cloneVerificationSpec_fields. cbn. f_equal; [|apply clone_map_idem].
  rewrite map_map. apply map_ext, cloneVerificationCheck_idem.
Qed.

Lemma clone_action_idem a : clone_action (clone_action a) = clone_action a.
Proof. unfold clone_action, cloneData. destruct a. cbn. by rewrite clone_map_idem. Qed.

Lemma clone_entry_idem e : clone_entry (clone_entry e) = clone_entry e.
Proof. unfold clone_entry, cloneData. destruct e. cbn. by rewrite clone_map_idem. Qed.

Lemma clone_checkpoint_fields cp :
  clone_checkpoint cp
  = mkWorkflowCheckpoint (cp_StepID cp) (cp_Attempt cp) (cp_Status cp) (cp_Usage cp)
      (cloneVerificationSpec (cp_Verification cp)) (map clone_action (cp_PendingActions cp))
      (cp_CreatedAt cp) (clone_map (cp_Meta cp)).
Proof. by destruct cp. Qed.

Lemma clone_checkpoint_idem cp : clone_checkpoint (clone_checkpoint cp) = clone_checkpoint cp.
Proof.
  rewrite !clone_checkpoint_fields. cbn.
  rewrite cloneVerificationSpec_idem, clone_map_idem. f_equal.
  rewrite map_map. apply map_ext, clone_action_idem.
Qed.

(** Storing and loading a checkpoint copies it. *)
Lemma checkpoint_from_to cp : checkpointFromDoc (checkpointToDoc cp) = clone_checkpoint cp.
Proof.
  unfold checkpointFromDoc, checkpointToDoc. rewrite clone_checkpoint_fields. cbn.
  rewrite cloneVerificationSpec_idem. unfold cloneData. rewrite clone_map_idem. f_equal.
  rewrite map_map. apply map_ext. intros a. destruct a. unfold action_from_doc, action_to_doc, clone_action.
  cbn. unfold cloneData. by rewrite clone_map_idem.
Qed.

Lemma entry_from_to e : entry_from_doc (je_TaskID e) (je_RunID e) (entry_to_doc e) = clone_entry e.
Proof. destruct e. unfold entry_from_doc, entry_to_doc, clone_entry, cloneData. cbn. by rewrite clone_map_idem. Qed.

(** ** Sane journals *)

(** The entries of a journal are its own and are copies, as is its checkpoint. *)
Definition own_entry (j : WorkflowJournal) (e : JournalEntry) : Prop :=
  je_TaskID e = wj_taskID j /\ je_RunID e = wj_runID j /\ clone_entry e = e
  /\ je_EntryID e = entry_id (wj_runID j) (je_Sequence e).

Definition sequences (j : WorkflowJournal) : list Z := map je_Sequence (wj_entries j).

Record sane (j : WorkflowJournal) : Prop := mkSane {
  sn_entries : Forall (own_entry j) (wj_entries j);
  sn_checkpoint : forall cp, wj_checkpoint j = Some cp -> clone_checkpoint cp = cp;
  sn_max : 0 < wj_maxEntries j;
  sn_range : Forall (fun s => 0 < s <= wj_nextSeq j) (sequences j)
}.

Lemma restore_snapshot now j :
  Forall (own_entry j) (wj_entries j) ->
  (forall cp, wj_checkpoint j = Some cp -> clone_checkpoint cp = cp) ->
  RestoreFromDoc (Snapshot now j) = j <| wj_maxEntries := DefaultMaxJournalEntries |>.
Proof.
  intros He Hc. destruct j as [t r es cp n m]. cbn in He, Hc. unfold RestoreFromDoc, Snapshot.
  cbn [wj_taskID wj_runID wj_entries wj_checkpoint wj_nextSeq jdoc_TaskID jdoc_RunID jdoc_Entries
       jdoc_Checkpoint jdoc_NextSeq].
  assert (map (entry_from_doc t r) (map entry_to_doc es) = es) as ->.
  { rewrite map_map. induction He as [|e l (Ht & Hr & Hcl & _) _ IH]; [done|]. cbn [map].
    cbn in Ht, Hr. rewrite IH, <-Ht, <-Hr, entry_from_to, Hcl. done. }
  assert (checkpointFromDoc <$> (checkpointToDoc <$> cp) = cp) as ->; [|done].
  destruct cp as [cp|]; [|done]. cbn. rewrite checkpoint_from_to. f_equal. by apply Hc.
Qed.

Lemma trim_entries j :
  0 < wj_maxEntries j ->
  trimLocked j = j <| wj_entries := drop (length (wj_entries j) - Z.to_nat (wj_maxEntries j)) (wj_entries j) |>.
Proof.
  intros Hm. unfold trimLocked, len. apply Z.ltb_lt in Hm as Hb. rewrite Hb. cbn [andb].
  destruct (Z.ltb_spec (wj_maxEntries j) (Z.of_nat (length (wj_entries j)))) as [Hlt|Hge].
  - repeat f_equal. lia.
  - replace (_ - _)%nat with 0%nat by lia. rewrite drop_0. by destruct j.
Qed.

Section Writes.
Variable any_verification : VerificationSpec -> any.
Local Definition write_at := write_locked any_verification.

Lemma cloneData_nonempty (m : gmap string any) k v : cloneData (Some (<[k := v]> m)) = Some (<[k := v]> m).
Proof.
  unfold cloneData, clone_map. change (map_read (Some (<[k := v]> m))) with (<[k := v]> m).
  destruct (Nat.eqb_spec (size (<[k := v]> m)) 0) as [E|]; [|done].
  apply map_size_empty_inv in E. by apply insert_non_empty in E.
Qed.

Lemma checkpointToData_copy cp : cloneData (checkpointToData any_verification cp) = checkpointToData any_verification cp.
Proof. unfold checkpointToData. destruct (has_verification _); apply cloneData_nonempty. Qed.

Lemma write_entry_own w j seq : own_entry j (write_entry any_verification w j seq).
Proof.
  destruct w as [ty now su da|cp]; unfold own_entry, write_entry, clone_entry; cbn; split_and!; try done.
  - unfold cloneData. by rewrite clone_map_idem.
  - by rewrite checkpointToData_copy.
Qed.

Lemma write_entry_seq w j seq : je_Sequence (write_entry any_verification w j seq) = seq.
Proof. by destruct w. Qed.

(** The log after a write: the latest entries up to the limit, the new one last. *)
Lemma write_locked_fields w seq j :
  0 < wj_maxEntries j ->
  let j' := write_locked any_verification w seq j in
  let all := wj_entries j ++ [write_entry any_verification w j seq] in
  wj_entries j' = drop (length all - Z.to_nat (wj_maxEntries j)) all
  /\ wj_taskID j' = wj_taskID j /\ wj_runID j' = wj_runID j /\ wj_nextSeq j' = wj_nextSeq j
  /\ wj_maxEntries j' = wj_maxEntries j
  /\ wj_checkpoint j' = match w with
                        | WriteEntry _ _ _ _ => wj_checkpoint j
                        | WriteCheckpoint cp => Some (clone_checkpoint cp)
                        end.
Proof.
  intros Hm. unfold write_locked. destruct w as [ty now su da|cp]; cbv zeta; rewrite trim_entries by done;
    by cbn.
Qed.
End Writes.

(** ** Concurrent calls *)

(** Where a call of [Append] or [Checkpoint] is: before its sequence number is
    drawn, before its critical section, before its snapshot, and before the
    persister is called. *)
Inductive caller :=
  | CStart (w : write)
  | CReserved (w : write) (seq : Z)
  | CWritten
  | CPersist (doc : WorkflowJournalDoc).

Record JournalState := mkJournalState {
  js_journal : WorkflowJournal;
  js_callers : list caller;
  js_persisted : option WorkflowJournalDoc
}.

Definition valid_write (w : write) : Prop :=
  match w with
  | WriteEntry ty _ _ _ => ValidJournalEntryType ty = true
  | WriteCheckpoint _ => True
  end.

Section System.
Variable any_verification : VerificationSpec -> any.

Inductive journal_step : JournalState -> JournalState -> Prop :=
  | call_starts j cs d w :
      valid_write w -> journal_step (mkJournalState j cs d) (mkJournalState j (cs ++ [CStart w]) d)
  | call_reserves j pre w post d :
      journal_step (mkJournalState j (pre ++ CStart w :: post) d)
        (mkJournalState (reserve j).1 (pre ++ CReserved w (reserve j).2 :: post) d)
  | call_writes j pre w seq post d :
      journal_step (mkJournalState j (pre ++ CReserved w seq :: post) d)
        (mkJournalState (write_locked any_verification w seq j) (pre ++ CWritten :: post) d)
  | call_snapshots j pre post d now :
      journal_step (mkJournalState j (pre ++ CWritten :: post) d)
        (mkJournalState j (pre ++ CPersist (Snapshot now j) :: post) d)
  | call_persists j pre doc post d :
      journal_step (mkJournalState j (pre ++ CPersist doc :: post) d)
        (mkJournalState j (pre ++ post) (Some doc))
  | call_fails j pre doc post d :
      journal_step (mkJournalState j (pre ++ CPersist doc :: post) d)
        (mkJournalState j (pre ++ post) d)
  | max_is_set j cs d n :
      journal_step (mkJournalState j cs d) (mkJournalState (SetMaxEntries n j) cs d).

Definition new_journal (taskID runID : string) : JournalState :=
  mkJournalState (NewWorkflowJournal taskID runID) [] None.

(** Sequence numbers drawn by calls that have not written yet. *)
Definition drawn (c : caller) : list Z :=
  match c with CReserved _ seq => [seq] | _ => [] end.

(** A document that a journal was saved as. *)
Definition good_doc (doc : WorkflowJournalDoc) : Prop :=
  exists j now, sane j /\ int64_range (wj_nextSeq j + 1) /\ doc = Snapshot now j.

Record orderly (n : nat) (st : JournalState) : Prop := mkOrderly {
  od_sane : sane (js_journal st);
  od_next : 0 <= wj_nextSeq (js_journal st) <= Z.of_nat n;
  od_unique : NoDup (sequences (js_journal st) ++ (js_callers st ≫= drawn));
  od_drawn : Forall (fun s => 0 < s <= wj_nextSeq (js_journal st)) (js_callers st ≫= drawn);
  od_docs : forall doc, CPersist doc ∈ js_callers st \/ js_persisted st = Some doc -> good_doc doc
}.

Lemma sane_reserve j :
  sane j -> int64_range (wj_nextSeq j + 1) -> sane (reserve j).1.
Proof.
  intros [H1 H2 H3 H4] Hr. unfold reserve. cbn. split; cbn; [|done|done|].
  - eapply Forall_impl; [exact H1|]. by intros e.
  - rewrite add64_small by done. eapply Forall_impl; [exact H4|]. cbn. lia.
Qed.

Lemma sane_write w seq j :
  sane j -> 0 < seq <= wj_nextSeq j -> sane (write_locked any_verification w seq j).
Proof.
  intros [H1 H2 H3 H4] Hs.
  destruct (write_locked_fields any_verification w seq j H3) as (He & Ht & Hr & Hn & Hm & Hc).
  split.
  - rewrite He. apply Forall_drop, Forall_app. unfold own_entry. rewrite Ht, Hr.
    split; [exact H1|]. apply Forall_singleton, write_entry_own.
  - rewrite Hc. destruct w; [exact H2|]. intros cp' [= <-]. apply clone_checkpoint_idem.
  - by rewrite Hm.
  - unfold sequences. rewrite He, Hn. change (map je_Sequence) with (fmap (M := list) je_Sequence).
    rewrite fmap_drop, fmap_app. apply Forall_drop, Forall_app. split; [exact H4|].
    apply Forall_singleton. by rewrite write_entry_seq.
Qed.

Lemma sequences_write w seq j :
  0 < wj_maxEntries j ->
  sequences (write_locked any_verification w seq j)
  = drop (length (sequences j ++ [seq]) - Z.to_nat (wj_maxEntries j)) (sequences j ++ [seq]).
Proof.
  intros Hm. destruct (write_locked_fields any_verification w seq j Hm) as (He & _).
  unfold sequences. rewrite He. change (map je_Sequence) with (fmap (M := list) je_Sequence).
  rewrite fmap_drop, fmap_app. cbn [fmap list_fmap].
  rewrite write_entry_seq, !length_app, length_fmap. reflexivity.
Qed.

Lemma nodup_drop_app {A} k (l l' : list A) : NoDup (l ++ l') -> NoDup (drop k l ++ l').
Proof. rewrite <-(take_drop k l) at 1. rewrite <-app_assoc, NoDup_app. by intros (_ & _ & ?). Qed.

Lemma orderly_step n st st' :
  journal_step st st' -> Z.of_nat (S n) < 2 ^ 63 -> orderly n st -> orderly (S n) st'.
Proof.
  intros Hstep Hn [H1 H2 H3 H4 H5]. destruct Hstep as
    [j cs d w Hw|j pre w post d|j pre w seq post d|j pre post d now|j pre doc post d|j pre doc post d|j cs d m];
    cbn [js_journal js_callers js_persisted] in *.
  - split; cbn; [done|lia| | |]; rewrite ?bind_app; cbn; rewrite ?app_nil_r; [done|done|].
    intros doc [[Hd|Hd%list_elem_of_singleton]%elem_of_app|Hd]; [auto|done|auto].
  - rewrite bind_app in H3, H4. cbn in H3, H4. split; cbn.
    + apply sane_reserve; [done|]. unfold int64_range. lia.
    + rewrite add64_small by (unfold int64_range; lia). lia.
    + rewrite bind_app. cbn. rewrite add64_small by (unfold int64_range; lia).
      change (sequences (j <| wj_nextSeq := _ |>)) with (sequences j).
      rewrite <-(Permutation_middle (pre ≫= drawn)), <-Permutation_middle. apply NoDup_cons. split; [|done].
      intros [Hin|Hin]%elem_of_app.
      * destruct H1 as [_ _ _ Hr]. rewrite Forall_forall in Hr. apply Hr in Hin. lia.
      * rewrite Forall_forall in H4. apply H4 in Hin. lia.
    + rewrite bind_app. cbn. rewrite add64_small by (unfold int64_range; lia).
      apply Forall_app in H4 as [Ha Hb]. apply Forall_app. split; [|constructor; [lia|]];
        eapply Forall_impl; try done; cbn; lia.
    + intros doc [Hd|Hd]; [|auto]. apply H5. left. rewrite elem_of_app, elem_of_cons in *. naive_solver.
  - rewrite bind_app in H3, H4. cbn in H3, H4. apply Forall_app in H4 as [Ha [Hs Hb]%Forall_cons].
    pose proof (sn_max _ H1) as Hm.
    destruct (write_locked_fields any_verification w seq j Hm) as (_ & _ & _ & Hnx & _).
    split; cbn [js_journal js_callers js_persisted].
    + by apply sane_write.
    + rewrite Hnx. lia.
    + rewrite sequences_write, bind_app by done. cbn. apply nodup_drop_app.
      by rewrite <-app_assoc, (app_assoc [seq]), (Permutation_app_comm [seq]), <-app_assoc.
    + rewrite Hnx, bind_app. cbn. by apply Forall_app.
    + intros doc [Hd|Hd]; [|auto]. apply H5. left. rewrite elem_of_app, elem_of_cons in *. naive_solver.
  - rewrite bind_app in *. cbn in *. split; cbn; rewrite ?bind_app; cbn; [done|lia|done|done|].
    intros doc' [[Hd|[[= ->]|Hd]%elem_of_cons]%elem_of_app|Hd].
    + apply H5. left. rewrite elem_of_app. auto.
    + exists j, now. split; [done|]. split; [|done]. unfold int64_range. lia.
    + apply H5. left. rewrite elem_of_app, elem_of_cons. auto.
    + auto.
  - rewrite bind_app in *. cbn in *. split; cbn; rewrite ?bind_app; cbn; [done|lia|done|done|].
    intros doc' [[Hd|Hd]%elem_of_app|[= ->]]; apply H5; left; rewrite elem_of_app, elem_of_cons; auto.
  - rewrite bind_app in *. cbn in *. split; cbn; rewrite ?bind_app; cbn; [done|lia|done|done|].
    intros doc' [[Hd|Hd]%elem_of_app|Hd]; [apply H5; left; rewrite elem_of_app, elem_of_cons; auto..|auto].
  - unfold SetMaxEntries. destruct (Z.ltb_spec 0 m); [|split; cbn; [done|lia|done|done|done]].
    split; cbn; [|lia|done|done|done]. destruct H1 as [Ha Hb Hc Hd]. by split.
Qed.

Lemma orderly_reachable n taskID runID st :
  Z.of_nat n < 2 ^ 63 -> nsteps journal_step n (new_journal taskID runID) st ->
  orderly n st /\ wj_runID (js_journal st) = runID.
Proof.
  intros Hn Hsteps.
  assert (forall k m st1 st2, nsteps journal_step k st1 st2 -> Z.of_nat (m + k) < 2 ^ 63 ->
    orderly m st1 -> orderly (m + k) st2 /\ wj_runID (js_journal st2) = wj_runID (js_journal st1)) as H.
  { intros k m st1 st2 Hk. revert m. induction Hk as [st1|k st1 st2 st3 Hs _ IH]; intros m Hm Ho.
    - by rewrite Nat.add_0_r.
    - destruct (IH (S m)) as [Ho3 Hr]; [lia|eapply orderly_step; [exact Hs|lia|done]|].
      rewrite Nat.add_succ_r. split; [done|]. rewrite Hr.
      destruct Ho as [Hsane _ _ _ _]. destruct Hs as
        [j cs d w Hw|j pre w post d|j pre w seq post d|j pre post d now|j pre doc post d|j pre doc post d|j cs d x];
        try done; cbn.
      + by destruct (write_locked_fields any_verification w seq j (sn_max _ Hsane)) as (_ & _ & ? & _).
      + unfold SetMaxEntries. by destruct (0 <? x). }
  apply (H n 0%nat _ _ Hsteps); [done|]. split; cbn; [|lia|apply NoDup_nil_2|done|].
  - split; cbn; [done|done|unfold DefaultMaxJournalEntries; lia|done].
  - intros doc [Hd|Hd]; [by apply not_elem_of_nil in Hd|done].
Qed.
End System.

Lemma entry_id_inj runID a b : entry_id runID a = entry_id runID b -> a = b.
Proof.
  unfold entry_id. intros H. apply (inj (String.append "je-")) in H. apply (inj (String.append runID)) in H.
  apply (inj (String.append "-")) in H. by apply (inj pretty) in H.
Qed.

(** However the calls of a journal interleave, its entries carry distinct
    sequence numbers, all drawn from its counter, and distinct identifiers built
    from them, as long as fewer than 2^63 steps have been made. *)
Theorem journal_entries_are_unique any_verification n taskID runID st :
  Z.of_nat n < 2 ^ 63 ->
  nsteps (journal_step any_verification) n (new_journal taskID runID) st ->
  NoDup (sequences (js_journal st))
  /\ NoDup (map je_EntryID (wj_entries (js_journal st)))
  /\ Forall (fun e => je_EntryID e = entry_id runID (je_Sequence e)
                      /\ 0 < je_Sequence e <= wj_nextSeq (js_journal st)) (wj_entries (js_journal st)).
Proof.
  intros Hn Hs. destruct (orderly_reachable _ _ _ _ _ Hn Hs) as [[H1 _ H3 _ _] Hrun].
  assert (NoDup (sequences (js_journal st))) as Hnd by by apply NoDup_app in H3 as (? & _).
  assert (Forall (fun e => je_EntryID e = entry_id runID (je_Sequence e)
    /\ 0 < je_Sequence e <= wj_nextSeq (js_journal st)) (wj_entries (js_journal st))) as Hall.
  { destruct H1 as [Ho _ _ Hr]. unfold sequences in Hr. rewrite Forall_map in Hr.
    rewrite Forall_forall in *. intros e He. destruct (Ho e He) as (_ & _ & _ & Hid).
    rewrite <-Hrun. split; [done|]. by apply Hr. }
  split; [done|]. split; [|done].
  assert (map je_EntryID (wj_entries (js_journal st))
          = map (entry_id runID) (sequences (js_journal st))) as ->.
  { unfold sequences. rewrite map_map. apply map_ext_Forall. eapply Forall_impl; [exact Hall|]. by intros e [? _]. }
  apply NoDup_fmap_2_strong; [|done]. intros a b _ _. apply entry_id_inj.
Qed.

(** A saved document is reproduced by restoring it, and the restored journal
    continues the numbering. *)
Lemma saved_doc_restores any_verification n taskID runID st doc :
  Z.of_nat n < 2 ^ 63 ->
  nsteps (journal_step any_verification) n (new_journal taskID runID) st ->
  js_persisted st = Some doc -> Snapshot (jdoc_UpdatedAt doc) (RestoreFromDoc doc) = doc.
Proof.
  intros Hn Hs Hd. destruct (orderly_reachable _ _ _ _ _ Hn Hs) as [[_ _ _ _ H5] _].
  destruct (H5 doc (or_intror Hd)) as (j & now & Hj & Hr & ->). by rewrite restore_snapshot by apply Hj.
Qed.

(** C15: a snapshot of a journal restores to that journal, but for the size limit,
    which falls back to the default; a document that was saved is reproduced by
    restoring it, and the restored journal draws a sequence number that none of
    its entries has. *)
Theorem journal_snapshot_restores any_verification n taskID runID st :
  Z.of_nat n < 2 ^ 63 ->
  nsteps (journal_step any_verification) n (new_journal taskID runID) st ->
  (forall now, RestoreFromDoc (Snapshot now (js_journal st))
               = (js_journal st) <| wj_maxEntries := DefaultMaxJournalEntries |>)
  /\ forall doc, js_persisted st = Some doc ->
       Snapshot (jdoc_UpdatedAt doc) (RestoreFromDoc doc) = doc
       /\ (reserve (RestoreFromDoc doc)).2 ∉ map jd_Sequence (jdoc_Entries doc).
Proof.
  intros Hn Hs. destruct (orderly_reachable _ _ _ _ _ Hn Hs) as [[H1 _ _ _ H5] _].
  split; [intros now; apply restore_snapshot; apply H1|].
  intros doc Hd. split; [by eapply saved_doc_restores|].
  destruct (H5 doc (or_intror Hd)) as (j & now & Hj & Hr & ->).
  rewrite restore_snapshot by apply Hj.
  unfold reserve. cbn. rewrite add64_small, map_map by done. intros Hin.
  destruct Hj as [_ _ _ Hrange]. rewrite Forall_forall in Hrange.
  apply Hrange in Hin. lia.
Qed.

(** ** Concrete executions *)

Definition note (summary : string) : write := WriteEntry JournalStepStart 5 summary None.

Definition boxed (v : VerificationSpec) : any := VNil.

Ltac journal_move := eapply nsteps_l.

Lemma one_call :
  exists st, nsteps (journal_step boxed) 5 (new_journal "t" "r") st
    /\ is_Some (js_persisted st) /\ Journal_Len (js_journal st) = 1.
Proof.
  eexists. split; [|shelve]. unfold new_journal.
  journal_move; [by apply (call_starts _ _ _ _ (note "a"))|]. cbn [app].
  journal_move; [apply (call_reserves _ _ [] _ [])|]. cbn [app].
  journal_move; [apply (call_writes _ _ [] _ _ [])|]. cbn [app].
  journal_move; [apply (call_snapshots _ _ [] [] _ 6)|]. cbn [app].
  journal_move; [apply (call_persists _ _ [] _ [])|]. apply nsteps_O.
  Unshelve. split; [by eexists|by vm_compute].
Defined.

Lemma journal_entries_are_unique_witness :
  exists st, nsteps (journal_step boxed) 5 (new_journal "t" "r") st
    /\ NoDup (sequences (js_journal st)) /\ Journal_Len (js_journal st) = 1.
Proof.
  destruct one_call as (st & Hs & _ & Hl). exists st. split; [exact Hs|]. split; [|exact Hl].
  refine (proj1 (journal_entries_are_unique boxed 5 "t" "r" st _ Hs)). by vm_compute.
Defined.

Lemma journal_snapshot_restores_witness :
  exists st doc, nsteps (journal_step boxed) 5 (new_journal "t" "r") st
    /\ js_persisted st = Some doc /\ Snapshot (jdoc_UpdatedAt doc) (RestoreFromDoc doc) = doc.
Proof.
  destruct one_call as (st & Hs & [doc Hd] & _). exists st, doc. split; [exact Hs|]. split; [exact Hd|].
  refine (proj1 (proj2 (journal_snapshot_restores boxed 5 "t" "r" st _ Hs) doc Hd)). by vm_compute.
Defined.

(** Two calls that both succeed can leave a saved document without one of their
    entries: the snapshot of the first is saved after that of the second. *)
Example concurrent_save_loses_entry :
  exists st, rtc (journal_step boxed) (new_journal "t" "r") st
    /\ js_callers st = [] /\ Journal_Len (js_journal st) = 2
    /\ (length ∘ jdoc_Entries <$> js_persisted st) = Some 1%nat.
Proof.
  eexists. split; [|shelve]. unfold new_journal.
  eapply rtc_l; [by apply (call_starts _ _ _ _ (note "a"))|]. cbn [app].
  eapply rtc_l; [by apply (call_starts _ _ _ _ (note "b"))|]. cbn [app].
  eapply rtc_l; [apply (call_reserves _ _ [] _ [_])|]. cbn [app].
  eapply rtc_l; [apply (call_writes _ _ [] _ _ [_])|]. cbn [app].
  eapply rtc_l; [apply (call_snapshots _ _ [] [_] _ 6)|]. cbn [app].
  eapply rtc_l; [apply (call_reserves _ _ [_] _ [])|]. cbn [app].
  eapply rtc_l; [apply (call_writes _ _ [_] _ _ [])|]. cbn [app].
  eapply rtc_l; [apply (call_snapshots _ _ [_] [] _ 7)|]. cbn [app].
  eapply rtc_l; [apply (call_persists _ _ [_] _ [])|]. cbn [app].
  eapply rtc_l; [apply (call_persists _ _ [] _ [])|]. apply rtc_refl.
  Unshelve. split; [done|]. split; by vm_compute.
Qed.

(** The sequence number is drawn before the critical section, so entries can be
    filed out of order: a reader that has seen all entries and asks for those since
    the last one misses an entry that is filed later. *)
Example reader_misses_entry :
  exists st st', rtc (journal_step boxed) (new_journal "t" "r") st
    /\ map je_Sequence (Entries (js_journal st)) = [2]
    /\ rtc (journal_step boxed) st st'
    /\ map je_Sequence (Entries (js_journal st')) = [2; 1]
    /\ EntriesSince 2 (js_journal st') = [].
Proof.
  eexists. eexists. split; [|split; [shelve|split; [|shelve]]].
  - unfold new_journal.
    eapply rtc_l; [by apply (call_starts _ _ _ _ (note "a"))|]. cbn [app].
    eapply rtc_l; [by apply (call_starts _ _ _ _ (note "b"))|]. cbn [app].
    eapply rtc_l; [apply (call_reserves _ _ [] _ [_])|]. cbn [app].
    eapply rtc_l; [apply (call_reserves _ _ [_] _ [])|]. cbn [app].
    eapply rtc_l; [apply (call_writes _ _ [_] _ _ [])|]. cbn [app]. apply rtc_refl.
  - eapply rtc_l; [apply (call_writes _ _ [] _ _ [_])|]. cbn [app]. apply rtc_refl.
  Unshelve. all: repeat split; by vm_compute.
Qed.
