(* ===== verification/Orphans.v ===== *)
(** Recovery of task runs after a restart: internal/planner/recovery.go.

    The repository behind [RunFetcher] answers each lookup with a value or an
    error and is a parameter. *)

From Stdlib Require Import String.
From stdpp Require Import base tactics decidable list gmap strings pretty relations.
From S2P Require Import Prelude Enums Verification Budget TaskModels Lifecycle Authority Duration Journal JournalProps.

Definition OrphanReasonDaemonRestart : string := "daemon_restart".
Definition OrphanReasonStale : string := "stale".
Definition OrphanReasonNoCheckpoint : string := "no_checkpoint".

Definition RecoveryResume : string := "resume".
Definition RecoveryFail : string := "fail".
Definition RecoveryRequiresAttention : string := "requires_attention".

Record OrphanedRun := mkOrphanedRun {
  or_Run : TaskRun;
  or_Task : TaskSpec;
  or_Journal : option WorkflowJournalDoc;
  or_Checkpoint : option WorkflowCheckpointDoc;
  or_Reason : string;
  or_Action : string;
  or_ActionNote : string;
  or_DetectedAt : Z
}.

#[export] Instance set_or_Action : Setter or_Action := fun v r =>
  mkOrphanedRun (or_Run r) (or_Task r) (or_Journal r) (or_Checkpoint r) (or_Reason r) v
    (or_ActionNote r) (or_DetectedAt r).
#[export] Instance set_or_ActionNote : Setter or_ActionNote := fun v r =>
  mkOrphanedRun (or_Run r) (or_Task r) (or_Journal r) (or_Checkpoint r) (or_Reason r)
    (or_Action r) v (or_DetectedAt r).

Record RecoverySummary := mkRecoverySummary {
  rs_Orphans : list OrphanedRun;
  rs_Resumed : Z;
  rs_Failed : Z;
  rs_NeedAttention : Z;
  rs_ScannedAt : Z;
  rs_Duration : Z
}.

#[export] Instance set_rs_Resumed : Setter rs_Resumed := fun v r =>
  mkRecoverySummary (rs_Orphans r) v (rs_Failed r) (rs_NeedAttention r) (rs_ScannedAt r)
    (rs_Duration r).
#[export] Instance set_rs_Failed : Setter rs_Failed := fun v r =>
  mkRecoverySummary (rs_Orphans r) (rs_Resumed r) v (rs_NeedAttention r) (rs_ScannedAt r)
    (rs_Duration r).
#[export] Instance set_rs_NeedAttention : Setter rs_NeedAttention := fun v r =>
  mkRecoverySummary (rs_Orphans r) (rs_Resumed r) (rs_Failed r) v (rs_ScannedAt r) (rs_Duration
    r).

(** Times are in nanoseconds; the clock is an argument of the operations. *)
Record RecoveryConfig := mkRecoveryConfig {
  rc_MaxOrphanAge : Z;
  rc_AutoResume : bool;
  rc_AutoFail : bool
}.

Definition DefaultRecoveryConfig : RecoveryConfig :=
  mkRecoveryConfig (24 * 3600 * second) true true.

Definition inFlightStatuses : list string :=
  [TaskRunStatusQueued; TaskRunStatusRunning; TaskRunStatusRetrying; TaskRunStatusBlocked;
   TaskRunStatusAwaitingApproval].

(** [inFlightStatuses()[s]] *)
Definition in_flight (s : string) : bool := existsb (String.eqb s) inFlightStatuses.

Definition last_update (run : TaskRun) : Z :=
  match last (tr_Transitions run) with
  | Some t => if tr_StartedAt run <? rt_At t then rt_At t else tr_StartedAt run
  | None => tr_StartedAt run
  end.

Definition runAgeSince (run : TaskRun) (nowUnix : Z) : Z :=
  if last_update run =? 0 then 0 else mul64 (sub64 nowUnix (last_update run)) second.

Definition classifyRecoveryAction (orphan : OrphanedRun) (cfg : RecoveryConfig) : string * string :=
  if or_Reason orphan ==? OrphanReasonStale then
    if rc_AutoFail cfg then (RecoveryFail, "run exceeded max orphan age; marked failed")
    else (RecoveryRequiresAttention, "run exceeded max orphan age; needs operator review")
  else
  match or_Checkpoint orphan with
  | None =>
    if rc_AutoFail cfg then (RecoveryFail, "no checkpoint available; marked failed")
    else (RecoveryRequiresAttention, "no checkpoint available; needs operator review")
  | Some cp =>
    if rc_AutoResume cfg
    then (RecoveryResume, "resuming from checkpoint: step=" +:+ cd_StepID cp +:+ " attempt="
                          +:+ pretty (cd_Attempt cp))
    else (RecoveryRequiresAttention, "checkpoint available (step=" +:+ cd_StepID cp
                                     +:+ "); needs operator approval to resume")
  end.

Section Detect.
(** [fetcher.GetTask] and [fetcher.GetWorkflowJournal]. *)
Variable fetch_task : string -> result TaskSpec.
Variable fetch_journal : string -> result WorkflowJournalDoc.

(** The body of the loop of [DetectOrphans]. *)
Definition orphan_of (cfg : RecoveryConfig) (nowUnix : Z) (run : TaskRun) : OrphanedRun :=
  let task := match fetch_task (tr_TaskID run) with Ok task => task | Err _ => zero_task end in
  let journal := match fetch_journal (tr_RunID run) with
                 | Ok doc => if jdoc_RunID doc !=? "" then Some doc else None
                 | Err _ => None
                 end in
  let stale := (0 <? rc_MaxOrphanAge cfg) && (rc_MaxOrphanAge cfg <? runAgeSince run nowUnix) in
  let orphan := mkOrphanedRun run task journal (journal ≫= jdoc_Checkpoint)
                  (if stale then OrphanReasonStale else OrphanReasonDaemonRestart) "" "" nowUnix in
  let '(action, note) := classifyRecoveryAction orphan cfg in
  orphan <| or_Action := action |> <| or_ActionNote := note |>.

Definition DetectOrphans (runs : list TaskRun) (cfg : RecoveryConfig) (nowUnix : Z)
  : list OrphanedRun :=
  map (orphan_of cfg nowUnix) (List.filter (fun run => in_flight (tr_Status run)) runs).
End Detect.

Definition count_action (s : RecoverySummary) (o : OrphanedRun) : RecoverySummary :=
  go_switch (or_Action o)
    [([RecoveryResume], s <| rs_Resumed := add64 (rs_Resumed s) 1 |>);
     ([RecoveryFail], s <| rs_Failed := add64 (rs_Failed s) 1 |>);
     ([RecoveryRequiresAttention], s <| rs_NeedAttention := add64 (rs_NeedAttention s) 1 |>)] s.

(** [Execute] of [RecoveryExecutor], between two readings of the clock. *)
Definition Execute (scannedAt duration : Z) (orphans : list OrphanedRun) : RecoverySummary :=
  fold_left count_action orphans (mkRecoverySummary orphans 0 0 0 scannedAt duration).

Definition PrepareResume (orphan : OrphanedRun) : option WorkflowJournal :=
  RestoreFromDoc <$> or_Journal orphan.

Definition MarkFailed (run : option TaskRun) (reason : string) (at_ : Z) (actor : string)
  : option TaskRun * option error :=
  match run with
  | None => (None, Some (Errorf "run is nil" []))
  | Some run =>
    let '(run, err) := TaskRun_ApplyTransition run TaskRunStatusFailed at_ actor "recovery" reason
                         (Some {["recovery" := VBool true]}) in
    (Some run, err)
  end.

Definition format_count (n : Z) (label : string) : string :=
  if 0 <? n then label +:+ pretty n +:+ newline else "".

Definition format_orphan (o : OrphanedRun) : string :=
  "  • run=" +:+ tr_RunID (or_Run o) +:+ " task=" +:+ tr_TaskID (or_Run o) +:+ " status="
  +:+ tr_Status (or_Run o) +:+ " → " +:+ or_Action o +:+ ": " +:+ or_ActionNote o +:+ newline.

Definition FormatRecoverySummary (s : RecoverySummary) : string :=
  "Recovery scan at " +:+ pretty (rs_ScannedAt s) +:+ ": " +:+ pretty (len (rs_Orphans s))
  +:+ " orphan(s) detected" +:+ newline
  +:+ format_count (rs_Resumed s) "  ✅ Resumed: "
  +:+ format_count (rs_Failed s) "  ❌ Failed: "
  +:+ format_count (rs_NeedAttention s) "  ⚠️  Needs attention: "
  +:+ (if Nat.eqb (length (rs_Orphans s)) 0 then "  No orphaned runs found." +:+ newline else "")
  +:+ String.concat "" (map format_orphan (rs_Orphans s))
  +:+ "  Duration: " +:+ Duration_String (rs_Duration s) +:+ newline.

Definition FormatOrphanedRun (o : OrphanedRun) : string :=
  "Orphaned Run: " +:+ tr_RunID (or_Run o) +:+ " (task=" +:+ tr_TaskID (or_Run o) +:+ ")" +:+ newline
  +:+ "  Status: " +:+ tr_Status (or_Run o) +:+ "  Attempt: " +:+ pretty (tr_Attempt (or_Run o)) +:+ newline
  +:+ "  Reason: " +:+ or_Reason o +:+ newline
  +:+ "  Action: " +:+ or_Action o +:+ newline
  +:+ (if or_ActionNote o !=? "" then "  Note: " +:+ or_ActionNote o +:+ newline else "")
  +:+ match or_Checkpoint o with
      | Some cp => "  Checkpoint: step=" +:+ cd_StepID cp +:+ " attempt=" +:+ pretty (cd_Attempt cp)
                   +:+ " status=" +:+ cd_Status cp +:+ newline
      | None => "  Checkpoint: none" +:+ newline
      end
  +:+ (if ts_TaskID (or_Task o) !=? ""
       then "  Task: " +:+ ts_Title (or_Task o) +:+ " (" +:+ ts_Status (or_Task o) +:+ ")" +:+ newline
       else "").

(** ** Theorems *)

Lemma in_flight_cases s :
  in_flight s = true <->
  s = TaskRunStatusQueued \/ s = TaskRunStatusRunning \/ s = TaskRunStatusRetrying
  \/ s = TaskRunStatusBlocked \/ s = TaskRunStatusAwaitingApproval.
Proof.
  unfold in_flight, inFlightStatuses. cbn [existsb]. rewrite !orb_true_iff, !String.eqb_eq.
  intuition discriminate.
Qed.

(** A run that was last updated too long ago. *)
Definition stale (cfg : RecoveryConfig) (now : Z) (run : TaskRun) : Prop :=
  0 < rc_MaxOrphanAge cfg /\ rc_MaxOrphanAge cfg < runAgeSince run now.

Section Detection.
Variable fetch_task : string -> result TaskSpec.
Variable fetch_journal : string -> result WorkflowJournalDoc.

Lemma orphan_of_fields cfg now run :
  let o := orphan_of fetch_task fetch_journal cfg now run in
  or_Run o = run
  /\ or_Journal o = match fetch_journal (tr_RunID run) with
                    | Ok doc => if jdoc_RunID doc !=? "" then Some doc else None
                    | Err _ => None
                    end
  /\ or_Checkpoint o = or_Journal o ≫= jdoc_Checkpoint
  /\ (stale cfg now run /\ or_Action o = (if rc_AutoFail cfg then RecoveryFail else RecoveryRequiresAttention)
      \/ ~ stale cfg now run
         /\ or_Action o = match or_Checkpoint o with
                          | None => if rc_AutoFail cfg then RecoveryFail else RecoveryRequiresAttention
                          | Some _ => if rc_AutoResume cfg then RecoveryResume else RecoveryRequiresAttention
                          end).
Proof.
  unfold orphan_of, stale. cbv zeta.
  generalize (match fetch_journal (tr_RunID run) with
              | Ok doc => if jdoc_RunID doc !=? "" then Some doc else None | Err _ => None end) as jr.
  intros jr. unfold classifyRecoveryAction. cbn [or_Reason or_Checkpoint].
  destruct (Z.ltb_spec 0 (rc_MaxOrphanAge cfg)), (Z.ltb_spec (rc_MaxOrphanAge cfg) (runAgeSince run now));
    cbn [andb].
  1: { change (OrphanReasonStale ==? OrphanReasonStale) with true. cbn iota.
       destruct (rc_AutoFail cfg); cbn; split_and!; try done; left; done. }
  all: change (OrphanReasonDaemonRestart ==? OrphanReasonStale) with false; cbn iota.
  all: destruct (jr ≫= jdoc_Checkpoint) as [cp|] eqn:E;
    [destruct (rc_AutoResume cfg)|destruct (rc_AutoFail cfg)]; cbn; split_and!; try done;
    right; (split; [lia|]); by rewrite ?E.
Qed.

(** The recovery scan finds exactly the runs in flight, in their order; it
    resumes a run if and only if resumption is enabled, the run is not stale and a
    checkpoint of it was saved, fails it if and only if failing is enabled and the
    run is stale or has no checkpoint, and leaves every other run to the operator. *)
Theorem recovery_decisions_are_exact runs cfg now :
  let orphans := DetectOrphans fetch_task fetch_journal runs cfg now in
  map or_Run orphans = List.filter (fun run => in_flight (tr_Status run)) runs
  /\ Forall (fun o =>
       (or_Action o = RecoveryResume <->
        rc_AutoResume cfg = true /\ ~ stale cfg now (or_Run o) /\ is_Some (or_Checkpoint o))
       /\ (or_Action o = RecoveryFail <->
           rc_AutoFail cfg = true /\ (stale cfg now (or_Run o) \/ or_Checkpoint o = None))
       /\ (or_Action o = RecoveryResume \/ or_Action o = RecoveryFail
           \/ or_Action o = RecoveryRequiresAttention)) orphans.
Proof.
  unfold DetectOrphans. split.
  - rewrite map_map. rewrite <-(map_id (List.filter _ runs)) at 2. apply map_ext. intros run.
    by destruct (orphan_of_fields cfg now run) as [? _].
  - apply Forall_map, Forall_true. intros run.
    destruct (orphan_of_fields cfg now run) as (Hr & _ & _ & Ha). rewrite Hr.
    destruct Ha as [[Hs ->]|[Hs ->]]; [|destruct (or_Checkpoint _)];
      destruct (rc_AutoFail cfg), (rc_AutoResume cfg);
      (split; [split|split; [split|]]); intros; try naive_solver; try discriminate.
Qed.
End Detection.

(** Every run that the scan finds can be failed: at any positive time the
    transition to failed is allowed from its status, and it ends the run then. *)
Theorem orphans_can_be_failed fetch_task fetch_journal runs cfg now o reason at_ actor :
  o ∈ DetectOrphans fetch_task fetch_journal runs cfg now -> 0 < at_ ->
  exists r, MarkFailed (Some (or_Run o)) reason at_ actor = (Some r, None)
    /\ tr_Status r = TaskRunStatusFailed /\ tr_EndedAt r = at_.
Proof.
  intros Ho Hat. unfold DetectOrphans in Ho.
  apply list_elem_of_In, in_map_iff in Ho as (run & <- & Hin). apply filter_In in Hin as [_ Hf].
  destruct (orphan_of_fields fetch_task fetch_journal cfg now run) as [-> _].
  unfold MarkFailed.
  destruct (run_apply_cases run TaskRunStatusFailed at_ actor "recovery" reason
    (Some {["recovery" := VBool true]})) as [[_ ->]|[Hn _]].
  - eexists. split; [done|]. by split.
  - destruct Hn. apply in_flight_cases in Hf. split; [|split; [done|done]].
    destruct Hf as [E|[E|[E|[E|E]]]]; rewrite E; reflexivity.
Qed.

(** A run in flight whose journal was saved with a checkpoint, by any history of
    concurrent calls, and that is not stale, is resumed with exactly the journal
    that was saved, but for the size limit. *)
Theorem interrupted_run_resumes_its_journal any_verification n taskID runID st doc
    fetch_task fetch_journal runs cfg now run :
  Z.of_nat n < 2 ^ 63 ->
  nsteps (journal_step any_verification) n (new_journal taskID runID) st ->
  js_persisted st = Some doc -> is_Some (jdoc_Checkpoint doc) ->
  fetch_journal runID = Ok doc -> jdoc_RunID doc <> "" ->
  run ∈ runs -> tr_RunID run = runID -> in_flight (tr_Status run) = true ->
  ~ stale cfg now run -> rc_AutoResume cfg = true ->
  exists o j, o ∈ DetectOrphans fetch_task fetch_journal runs cfg now /\ or_Run o = run
    /\ or_Action o = RecoveryResume /\ PrepareResume o = Some j
    /\ Snapshot (jdoc_UpdatedAt doc) j = doc.
Proof.
  intros Hn Hs Hd [cp Hcp] Hf Hne Hin Hid Hfl Hst Har.
  exists (orphan_of fetch_task fetch_journal cfg now run), (RestoreFromDoc doc).
  destruct (orphan_of_fields fetch_task fetch_journal cfg now run) as (Hrun & Hjr & Hcheck & Ha).
  apply String.eqb_neq in Hne. rewrite Hid, Hf, Hne in Hjr. cbn [negb] in Hjr.
  rewrite Hjr in Hcheck. cbn in Hcheck. rewrite Hcp in Hcheck. rewrite Hcheck, Har in Ha.
  destruct Ha as [[? _]|[_ Ha]]; [done|]. split_and!; [|done|done|by unfold PrepareResume; rewrite Hjr|].
  - unfold DetectOrphans. apply list_elem_of_In, in_map, filter_In. by rewrite <-list_elem_of_In.
  - by apply (saved_doc_restores any_verification n taskID runID st).
Qed.

(** ** Concrete runs *)

Definition busy_run : TaskRun :=
  sample_run <| tr_RunID := "r" |> <| tr_Status := TaskRunStatusRunning |> <| tr_StartedAt := 100 |>.

Definition busy_orphan : OrphanedRun :=
  orphan_of (fun _ => Ok zero_task) (fun _ => Err (Errorf "not found" []))
    DefaultRecoveryConfig 200 busy_run.

Lemma orphans_can_be_failed_witness :
  exists r, MarkFailed (Some (or_Run busy_orphan)) "gone" 300 "daemon" = (Some r, None)
    /\ tr_EndedAt r = 300.
Proof.
  destruct (orphans_can_be_failed (fun _ => Ok zero_task) (fun _ => Err (Errorf "not found" []))
    [busy_run] DefaultRecoveryConfig 200 busy_orphan "gone" 300 "daemon") as (r & Hr & _ & He).
  - apply list_elem_of_here.
  - lia.
  - exists r. split; [exact Hr|exact He].
Defined.

(** A run that was being verified when the daemon stopped is not found by the scan,
    although it has not ended. *)
Example verifying_run_is_not_recovered cfg now fetch_task fetch_journal :
  let run := busy_run <| tr_Status := TaskRunStatusVerifying |> in
  isTerminalTaskRunStatus (tr_Status run) = false
  /\ DetectOrphans fetch_task fetch_journal [run] cfg now = [].
Proof. by split. Qed.

(** A run without any time stamp has age 0 and is never stale. *)
Example undated_run_is_never_stale cfg now :
  ~ stale cfg now (busy_run <| tr_StartedAt := 0 |> <| tr_Transitions := [] |>).
Proof. unfold stale, runAgeSince. cbn. lia. Qed.

Definition half_way : WorkflowCheckpoint :=
  mkWorkflowCheckpoint "s1" 1 "running" zero_usage zero_verification [] 7 None.

Lemma saved_checkpoint :
  exists st, nsteps (journal_step boxed) 5 (new_journal "t" "r") st
    /\ exists doc, js_persisted st = Some doc /\ is_Some (jdoc_Checkpoint doc) /\ jdoc_RunID doc = "r".
Proof.
  eexists. split; [|shelve]. unfold new_journal.
  journal_move; [by apply (call_starts _ _ _ _ (WriteCheckpoint half_way))|]. cbn [app].
  journal_move; [apply (call_reserves _ _ [] _ [])|]. cbn [app].
  journal_move; [apply (call_writes _ _ [] _ _ [])|]. cbn [app].
  journal_move; [apply (call_snapshots _ _ [] [] _ 8)|]. cbn [app].
  journal_move; [apply (call_persists _ _ [] _ [])|]. apply nsteps_O.
  Unshelve. eexists. split; [reflexivity|]. split; [by eexists|reflexivity].
Defined.

Lemma interrupted_run_resumes_its_journal_witness :
  exists doc o j, o ∈ DetectOrphans (fun _ => Ok zero_task) (fun _ => Ok doc) [busy_run]
                        DefaultRecoveryConfig 200
    /\ or_Action o = RecoveryResume /\ PrepareResume o = Some j
    /\ Snapshot (jdoc_UpdatedAt doc) j = doc.
Proof.
  destruct saved_checkpoint as (st & Hs & doc & Hd & Hc & Hr).
  destruct (interrupted_run_resumes_its_journal boxed 5 "t" "r" st doc (fun _ => Ok zero_task)
    (fun _ => Ok doc) [busy_run] DefaultRecoveryConfig 200 busy_run) as (o & j & Ho & _ & Ha & Hp & Hj).
  - by vm_compute.
  - exact Hs.
  - exact Hd.
  - exact Hc.
  - reflexivity.
  - by rewrite Hr.
  - apply list_elem_of_here.
  - reflexivity.
  - reflexivity.
  - intros [_ H]. by vm_compute in H.
  - reflexivity.
  - by exists doc, o, j.
Defined.
