(* ===== verification/Idempotency.v ===== *)
(** Replay safety of tool calls: internal/planner/idempotency.go.

    The registry's mutex guards its table for one operation at a time, so a
    concurrent history is a sequence of the operations below.  The hexadecimal
    digest that makes up a key ([fmt.Sprintf] of the first half of a SHA-256 sum)
    is a variable. *)

From Stdlib Require Import String.
From stdpp Require Import base tactics decidable list gmap strings pretty relations.
From S2P Require Import Prelude.

(** [strings.Contains(s, sub)] and [strings.HasPrefix(s, prefix)] *)
Definition Contains (s sub : string) : bool :=
  match String.index 0 sub s with Some _ => true | None => false end.
Definition HasPrefix (s prefix : string) : bool := String.prefix prefix s.

(** ** Side effects *)

Definition SideEffectPure : string := "pure".
Definition SideEffectRetryable : string := "retryable".
Definition SideEffectSideEffectful : string := "side_effectful".

Definition validSideEffectClasses : list string :=
  [SideEffectPure; SideEffectRetryable; SideEffectSideEffectful].

Definition ValidSideEffectClass (c : string) : bool := existsb (String.eqb c) validSideEffectClasses.

Definition pure_prefixes : list string :=
  ["fetch"; "get"; "list"; "search"; "info"; "ping"; "resolve";
   "relay_list"; "relay_info"; "relay_ping";
   "nostr_fetch"; "nostr_profile"; "nostr_resolve";
   "nostr_follows"; "nostr_followers"; "nostr_wot";
   "nostr_relay_hints"; "nostr_watch_list"].

Definition retryable_keywords : list string :=
  ["update_profile"; "set_relay_list"; "update_config"; "set_"; "upsert"].

(** The last loop of the function returns the same class as the code after it. *)
Definition ClassifySideEffect (tool : string) : string :=
  let lower := ToLower tool in
  if existsb (fun prefix => (lower ==? prefix) || HasPrefix lower (prefix +:+ "_")) pure_prefixes
  then SideEffectPure
  else if existsb (Contains lower) retryable_keywords then SideEffectRetryable
  else SideEffectSideEffectful.

Definition IsSafeToReplay (tool : string) : bool :=
  let c := ClassifySideEffect tool in (c ==? SideEffectPure) || (c ==? SideEffectRetryable).

(** ** Keys *)

Record IdempotencyKey := mkIdempotencyKey {
  ik_Key : string;
  ik_TaskID : string;
  ik_RunID : string;
  ik_Tool : string;
  ik_Sequence : Z;
  ik_CreatedAt : Z
}.


Section Key.
(** The digest of a string. *)
Variable digest : string -> string.

Definition key_text (taskID runID tool : string) (sequence : Z) : string :=
  taskID +:+ ":" +:+ runID +:+ ":" +:+ tool +:+ ":" +:+ pretty sequence.

Definition GenerateIdempotencyKey (now : Z) (taskID runID tool : string) (sequence : Z)
  : IdempotencyKey :=
  mkIdempotencyKey ("idem-" +:+ digest (key_text taskID runID tool sequence)) taskID runID tool
    sequence now.
End Key.

(** ** The registry *)

Record IdempotencyOutcome := mkIdempotencyOutcome {
  io_Key : string;
  io_Tool : string;
  io_Status : string;
  io_ResultRef : string;
  io_CompletedAt : Z;
  io_Error : string;
  io_Meta : gomap any
}.


Record IdempotencyRegistry := mkIdempotencyRegistry {
  ir_outcomes : gmap string IdempotencyOutcome
}.

Definition NewIdempotencyRegistry : IdempotencyRegistry := mkIdempotencyRegistry ∅.

Definition Registry_Check (key : string) (r : IdempotencyRegistry) : option IdempotencyOutcome :=
  ir_outcomes r !! key.

Definition Record_ (outcome : IdempotencyOutcome) (r : IdempotencyRegistry)
  : IdempotencyRegistry * bool :=
  match ir_outcomes r !! io_Key outcome with
  | Some _ => (r, false)
  | None => (mkIdempotencyRegistry (<[io_Key outcome := outcome]> (ir_outcomes r)), true)
  end.

Definition MarkCompleted (key tool resultRef : string) (at_ : Z) (r : IdempotencyRegistry)
  : IdempotencyRegistry * bool :=
  Record_ (mkIdempotencyOutcome key tool "completed" resultRef at_ "" None) r.

Definition Registry_MarkFailed (key tool errMsg : string) (at_ : Z) (r : IdempotencyRegistry)
  : IdempotencyRegistry * bool :=
  Record_ (mkIdempotencyOutcome key tool "failed" "" at_ errMsg None) r.

Definition AlreadyExecuted (key : string) (r : IdempotencyRegistry) : bool :=
  match ir_outcomes r !! key with
  | Some o => io_Status o ==? "completed"
  | None => false
  end.

Definition Registry_Len (r : IdempotencyRegistry) : Z := Z.of_nat (size (ir_outcomes r)).

(** Go's order is unspecified. *)
Definition Outcomes (r : IdempotencyRegistry) : list IdempotencyOutcome :=
  map snd (map_to_list (ir_outcomes r)).

Definition RestoreOutcomes (outcomes : list IdempotencyOutcome) (r : IdempotencyRegistry)
  : IdempotencyRegistry :=
  fold_left (fun r o => (Record_ o r).1) outcomes r.

(** ** The dispatch guard *)

Record DispatchDecision := mkDispatchDecision {
  dd_Allowed : bool;
  dd_Reason : string;
  dd_IdempotencyKey : string;
  dd_PriorOutcome : option IdempotencyOutcome;
  dd_SideEffectClass : string
}.


Definition ShouldDispatch (idemKey : IdempotencyKey) (r : IdempotencyRegistry) : DispatchDecision :=
  let class := ClassifySideEffect (ik_Tool idemKey) in
  if (class ==? SideEffectPure) || (class ==? SideEffectRetryable)
  then mkDispatchDecision true
         ("tool " +:+ ik_Tool idemKey +:+ " is " +:+ class +:+ "; safe to execute") "" None class
  else
  match Registry_Check (ik_Key idemKey) r with
  | Some outcome =>
    if io_Status outcome ==? "completed"
    then mkDispatchDecision false
           ("tool " +:+ ik_Tool idemKey +:+ " already completed with key " +:+ ik_Key idemKey
            +:+ "; skipping duplicate") (ik_Key idemKey) (Some outcome) class
    else mkDispatchDecision true
           ("tool " +:+ ik_Tool idemKey +:+ " previously failed with key " +:+ ik_Key idemKey
            +:+ "; retry allowed") (ik_Key idemKey) (Some outcome) class
  | None =>
    mkDispatchDecision true
      ("tool " +:+ ik_Tool idemKey +:+ " is side-effectful; first execution with key "
       +:+ ik_Key idemKey) (ik_Key idemKey) None class
  end.

Definition FormatDispatchDecision (d : DispatchDecision) : string :=
  (if dd_Allowed d then "✅ ALLOW: " +:+ dd_Reason d else "🚫 SKIP: " +:+ dd_Reason d)
  +:+ (if dd_IdempotencyKey d !=? "" then " [key=" +:+ dd_IdempotencyKey d +:+ "]" else "").

(** ** First write wins *)

(** The operations that write the registry; each is a sequence of records. *)
Inductive registry_step : IdempotencyRegistry -> IdempotencyRegistry -> Prop :=
  | do_Record r o : registry_step r (Record_ o r).1
  | do_Restore r os : registry_step r (RestoreOutcomes os r).

Definition keeps_outcomes (r r' : IdempotencyRegistry) : Prop := ir_outcomes r ⊆ ir_outcomes r'.

Lemma record_keeps o r : keeps_outcomes r (Record_ o r).1.
Proof.
  unfold Record_, keeps_outcomes. destruct (ir_outcomes r !! io_Key o) eqn:E; [done|].
  by apply insert_subseteq.
Qed.

Lemma restore_keeps os r : keeps_outcomes r (RestoreOutcomes os r).
Proof.
  unfold RestoreOutcomes, keeps_outcomes. revert r.
  induction os as [|o os IH]; intros r; cbn [fold_left]; [done|].
  etransitivity; [apply (record_keeps o)|apply IH].
Qed.

Lemma registry_keeps r r' : rtc registry_step r r' -> keeps_outcomes r r'.
Proof.
  unfold keeps_outcomes. induction 1 as [r|r r1 r' Hs _ IH]; [done|]. etransitivity; [|exact IH].
  destruct Hs; [apply record_keeps|apply restore_keeps].
Qed.

(** The table after a history of records: the first outcome of each key. *)
Definition first_outcome (key : string) (os : list IdempotencyOutcome) : option IdempotencyOutcome :=
  List.find (fun o => io_Key o ==? key) os.

Lemma restored_lookup os r key :
  ir_outcomes (RestoreOutcomes os r) !! key
  = match ir_outcomes r !! key with Some o => Some o | None => first_outcome key os end.
Proof.
  unfold RestoreOutcomes, first_outcome. revert r.
  induction os as [|o os IH]; intros r; cbn [fold_left List.find].
  { by destruct (ir_outcomes r !! key). }
  rewrite IH. unfold Record_. destruct (ir_outcomes r !! io_Key o) as [x|] eqn:E; cbn.
  - destruct (String.eqb_spec (io_Key o) key) as [<-|]; [by rewrite E|done].
  - destruct (String.eqb_spec (io_Key o) key) as [<-|Hne].
    + by rewrite lookup_insert_eq, E.
    + by rewrite lookup_insert_ne.
Qed.

(** A registry built by any history of records decides every dispatch by the
    first record of its key: a call is refused exactly when its tool has side
    effects and that record was a completion, and once a completion is the first
    record of a key, no later operation lets a call with that key through. *)
Theorem dispatch_follows_first_record os key :
  let r := RestoreOutcomes os NewIdempotencyRegistry in
  (dd_Allowed (ShouldDispatch key r) = false <->
   IsSafeToReplay (ik_Tool key) = false
   /\ exists o, first_outcome (ik_Key key) os = Some o /\ io_Status o = "completed")
  /\ forall r', rtc registry_step r r' ->
       dd_Allowed (ShouldDispatch key r) = false -> dd_Allowed (ShouldDispatch key r') = false.
Proof.
  assert (forall r, dd_Allowed (ShouldDispatch key r) = false <->
    IsSafeToReplay (ik_Tool key) = false
    /\ exists o, ir_outcomes r !! ik_Key key = Some o /\ io_Status o = "completed") as H.
  { intros r. unfold ShouldDispatch, IsSafeToReplay, Registry_Check. cbv zeta.
    destruct (_ || _); [cbn; naive_solver|].
    destruct (ir_outcomes r !! ik_Key key) as [o|]; [|cbn; naive_solver].
    destruct (String.eqb_spec (io_Status o) "completed"); cbn; naive_solver. }
  cbv zeta. split.
  - rewrite H, restored_lookup. unfold NewIdempotencyRegistry. cbn. by rewrite lookup_empty.
  - intros r' Hr. rewrite !H. intros (Hs & o & Ho & Hc). split; [done|]. exists o. split; [|done].
    eapply lookup_weaken; [exact Ho|]. by apply registry_keeps.
Qed.

(** ** Where the protection ends *)

Definition zap_key (key : string) : IdempotencyKey := mkIdempotencyKey key "t" "r" "zap" 1 0.

(** A call that failed once, was retried and completed is let through again: the
    completion does not replace the recorded failure. *)
Example completed_retry_is_dispatched_again :
  let r := (Registry_MarkFailed "k" "zap" "timeout" 1 NewIdempotencyRegistry).1 in
  let '(r, stored) := MarkCompleted "k" "zap" "ref" 2 r in
  stored = false /\ AlreadyExecuted "k" r = false /\ dd_Allowed (ShouldDispatch (zap_key "k") r) = true.
Proof. by vm_compute. Qed.

(** Two runs of different tasks can share a key, whatever the digest. *)
Example keys_of_two_tasks_collide digest :
  ik_Key (GenerateIdempotencyKey digest 1 "a:b" "c" "zap" 1)
  = ik_Key (GenerateIdempotencyKey digest 1 "a" "b:c" "zap" 1).
Proof. reflexivity. Qed.

(** Tools with effects can be classified as safe by a part of their name. *)
Example effectful_names_pass_as_safe :
  ClassifySideEffect "asset_transfer" = SideEffectRetryable
  /\ ClassifySideEffect "delete_set_of_notes" = SideEffectRetryable
  /\ ClassifySideEffect "get_paid_now" = SideEffectPure.
Proof. by vm_compute. Qed.
