(* ===== verification/Retry.v ===== *)
(** Retry decisions: internal/planner/retry.go, with [IsBudgetFailure] of
    budget_outcome.go. *)

From Stdlib Require Import String Floats.SpecFloat.
From stdpp Require Import base tactics decidable list gmap strings pretty.
From S2P Require Import Prelude Duration Idempotency.

(** ** Failure classes *)

Definition FailureTransient : string := "transient".
Definition FailureProvider : string := "provider".
Definition FailurePermanent : string := "permanent".
Definition FailureBudget : string := "budget".
Definition FailureSideEffect : string := "side_effect".

Definition validFailureClasses : list string :=
  [FailureTransient; FailureProvider; FailurePermanent; FailureBudget; FailureSideEffect].

Definition ValidFailureClass (c : string) : bool := existsb (String.eqb c) validFailureClasses.

Definition IsBudgetFailure (errStr : string) : bool :=
  let lower := ToLower errStr in
  Contains lower "budget" && (Contains lower "exhaust" || Contains lower "exceed").

Definition permanent_keywords : list string :=
  ["unauthorized"; "forbidden"; "invalid"; "not found";
   "permission denied"; "not allowed"; "bad request";
   "unsupported"; "unrecognized"; "validation failed"].

Definition provider_keywords : list string :=
  ["overloaded"; "quota exceeded"; "rate limit";
   "model not available"; "capacity"; "throttl";
   "service unavailable"; "503"].

Definition side_effect_keywords : list string :=
  ["side effect uncertain"; "partial execution"; "idempotency conflict"; "duplicate"].

Definition ClassifyFailure (errStr : string) : string :=
  let lower := ToLower errStr in
  if IsBudgetFailure errStr then FailureBudget
  else if existsb (Contains lower) permanent_keywords then FailurePermanent
  else if existsb (Contains lower) provider_keywords then FailureProvider
  else if existsb (Contains lower) side_effect_keywords then FailureSideEffect
  else FailureTransient.

(** ** Policies *)

Definition RetryActionRetry : string := "retry".
Definition RetryActionFallback : string := "fallback".
Definition RetryActionEscalate : string := "escalate".
Definition RetryActionFail : string := "fail".
Definition RetryActionSkip : string := "skip".

Record RetryDecision := mkRetryDecision {
  rd_Action : string;
  rd_Reason : string;
  rd_BackoffDelay : Z;
  rd_AttemptsUsed : Z;
  rd_AttemptsMax : Z;
  rd_FailureClass : string;
  rd_SideEffectSafe : bool
}.

#[export] Instance set_rd_Action : Setter rd_Action := fun v r =>
  mkRetryDecision v (rd_Reason r) (rd_BackoffDelay r) (rd_AttemptsUsed r) (rd_AttemptsMax r)
    (rd_FailureClass r) (rd_SideEffectSafe r).
#[export] Instance set_rd_Reason : Setter rd_Reason := fun v r =>
  mkRetryDecision (rd_Action r) v (rd_BackoffDelay r) (rd_AttemptsUsed r) (rd_AttemptsMax r)
    (rd_FailureClass r) (rd_SideEffectSafe r).
#[export] Instance set_rd_BackoffDelay : Setter rd_BackoffDelay := fun v r =>
  mkRetryDecision (rd_Action r) (rd_Reason r) v (rd_AttemptsUsed r) (rd_AttemptsMax r)
    (rd_FailureClass r) (rd_SideEffectSafe r).

Definition ShouldRetry (d : RetryDecision) : bool := rd_Action d ==? RetryActionRetry.

Record RetryPolicy := mkRetryPolicy {
  ry_MaxAttempts : gmap string Z;
  ry_BaseBackoff : Z;
  ry_MaxBackoff : Z;
  ry_BackoffMultiplier : float64;
  ry_AllowSideEffectRetry : bool
}.

#[export] Instance set_ry_MaxAttempts : Setter ry_MaxAttempts := fun v r =>
  mkRetryPolicy v (ry_BaseBackoff r) (ry_MaxBackoff r) (ry_BackoffMultiplier r)
    (ry_AllowSideEffectRetry r).

Definition DefaultRetryPolicy : RetryPolicy :=
  mkRetryPolicy
    {[FailureTransient := 3; FailureProvider := 2; FailurePermanent := 0; FailureBudget := 0;
      FailureSideEffect := 0]}
    (1 * second) (30 * second) (float64_of_int 2) false.

Definition AggressiveRetryPolicy : RetryPolicy :=
  DefaultRetryPolicy <| ry_MaxAttempts :=
    <[FailureProvider := 3]> (<[FailureTransient := 5]> (ry_MaxAttempts DefaultRetryPolicy)) |>.

Definition ConservativeRetryPolicy : RetryPolicy :=
  DefaultRetryPolicy <| ry_MaxAttempts :=
    <[FailureProvider := 1]> (<[FailureTransient := 1]> (ry_MaxAttempts DefaultRetryPolicy)) |>.

(** ** The engine *)

Section Engine.
(** float64 values that do not fit an int64 are converted as the machine does. *)
Variable unrepresentable : float64 -> Z.
Variable policy : RetryPolicy.

Definition multiplier : float64 :=
  if SFleb (ry_BackoffMultiplier policy) (S754_zero false) then float64_of_int 2
  else ry_BackoffMultiplier policy.

(** The loop of [computeBackoff], with the number of its remaining rounds. *)
Fixpoint backoff_loop (rounds : nat) (backoff : Z) : Z :=
  match rounds with
  | O => backoff
  | S rounds =>
    let backoff := int_of_float64 unrepresentable (mul_float64 (float64_of_int backoff) multiplier) in
    if ry_MaxBackoff policy <? backoff then ry_MaxBackoff policy else backoff_loop rounds backoff
  end.

Definition computeBackoff (attempt : Z) : Z :=
  backoff_loop (Z.to_nat (attempt - 1)) (ry_BaseBackoff policy).

Definition of_attempts (attempt maxAttempts : Z) : string :=
  pretty attempt +:+ "/" +:+ pretty maxAttempts.

Definition Evaluate (errStr : string) (attempt : Z) (tool : string) : RetryDecision :=
  let class := ClassifyFailure errStr in
  let sideEffectSafe := IsSafeToReplay tool in
  let maxAttempts := default 0 (ry_MaxAttempts policy !! class) in
  let dec action reason delay :=
    mkRetryDecision action reason delay attempt maxAttempts class sideEffectSafe in
  if class ==? FailurePermanent
  then dec RetryActionFail "permanent failure; not retryable" 0
  else if class ==? FailureBudget
  then dec RetryActionEscalate "budget exhausted; escalating" 0
  else if (class ==? FailureSideEffect) && (negb (ry_AllowSideEffectRetry policy) || negb sideEffectSafe)
  then dec RetryActionSkip
         "side-effectful failure with uncertain outcome; skipping to avoid duplicate" 0
  else if negb sideEffectSafe && ((class ==? FailureTransient) || (class ==? FailureProvider))
  then dec RetryActionEscalate
         ("tool " +:+ tool +:+ " is side-effectful; escalating instead of retrying") 0
  else if maxAttempts <=? attempt then
    if class ==? FailureProvider
    then dec RetryActionFallback
           ("provider failure after " +:+ of_attempts attempt maxAttempts +:+ " attempts; falling back") 0
    else dec RetryActionFail ("max attempts reached (" +:+ of_attempts attempt maxAttempts +:+ ")") 0
  else
    let delay := computeBackoff attempt in
    dec RetryActionRetry
      ("retrying attempt " +:+ of_attempts (add64 attempt 1) maxAttempts +:+ " after "
       +:+ Duration_String delay) delay.
End Engine.

Definition FormatRetryDecision (d : RetryDecision) : string :=
  go_switch (rd_Action d)
    [([RetryActionRetry], "🔄 RETRY: " +:+ rd_Reason d);
     ([RetryActionFallback], "🔀 FALLBACK: " +:+ rd_Reason d);
     ([RetryActionEscalate], "⬆️  ESCALATE: " +:+ rd_Reason d);
     ([RetryActionFail], "❌ FAIL: " +:+ rd_Reason d);
     ([RetryActionSkip], "⏭️  SKIP: " +:+ rd_Reason d)] ""
  +:+ " [class=" +:+ rd_FailureClass d +:+ " attempts=" +:+ pretty (rd_AttemptsUsed d) +:+ "/"
  +:+ pretty (rd_AttemptsMax d) +:+ " safe=" +:+ (if rd_SideEffectSafe d then "true" else "false") +:+ "]".

(** ** When a retry is recommended *)

Lemma class_cases errStr :
  ClassifyFailure errStr = FailureBudget \/ ClassifyFailure errStr = FailurePermanent
  \/ ClassifyFailure errStr = FailureProvider \/ ClassifyFailure errStr = FailureSideEffect
  \/ ClassifyFailure errStr = FailureTransient.
Proof. unfold ClassifyFailure. repeat case_if; auto. Qed.

(** A retry is recommended exactly when the tool is safe to replay, the failure
    is transient, of the provider, or uncertain under a policy that allows
    retrying those, and attempts are left; the delay is then that of the attempt. *)
Theorem retry_is_safe_and_bounded unrepresentable policy errStr attempt tool :
  let d := Evaluate unrepresentable policy errStr attempt tool in
  (ShouldRetry d = true <->
   IsSafeToReplay tool = true
   /\ attempt < default 0 (ry_MaxAttempts policy !! ClassifyFailure errStr)
   /\ (ClassifyFailure errStr = FailureTransient \/ ClassifyFailure errStr = FailureProvider
       \/ ClassifyFailure errStr = FailureSideEffect /\ ry_AllowSideEffectRetry policy = true))
  /\ (ShouldRetry d = true -> rd_BackoffDelay d = computeBackoff unrepresentable policy attempt).
Proof.
  unfold Evaluate, ShouldRetry. cbv zeta. pose proof (class_cases errStr) as Hc.
  generalize (default 0 (ry_MaxAttempts policy !! ClassifyFailure errStr)) as m.
  revert Hc. generalize (ClassifyFailure errStr) as c. intros c Hc m.
  destruct Hc as [->|[->|[->|[->| ->]]]]; cbn;
    destruct (IsSafeToReplay tool), (ry_AllowSideEffectRetry policy); cbn;
    try (destruct (Z.leb_spec m attempt); cbn);
    (split; [split|]); try done; try (intros (? & ? & Hor); try lia; by destruct Hor as [?|[?|[? ?]]]);
    intros _; split_and!; auto.
Qed.

(** ** Backoff *)

(** Rounds of the loop under the default policy. *)
Lemma default_step unrepresentable n x y :
  int_of_float64 unrepresentable (mul_float64 (float64_of_int x) (multiplier DefaultRetryPolicy)) = y ->
  (30 * second <? y) = false ->
  backoff_loop unrepresentable DefaultRetryPolicy (S n) x
  = backoff_loop unrepresentable DefaultRetryPolicy n y.
Proof. intros H1 H2. cbn [backoff_loop]. rewrite H1. change (ry_MaxBackoff _) with (30 * second). by rewrite H2. Qed.

Lemma default_last unrepresentable n :
  backoff_loop unrepresentable DefaultRetryPolicy (S n) 16000000000 = 30 * second.
Proof.
  cbn [backoff_loop]. change (ry_MaxBackoff _) with (30 * second).
  replace (int_of_float64 _ _) with 32000000000 by (vm_compute; reflexivity). reflexivity.
Qed.

(** The delay never exceeds the larger of the base and the cap, and under the
    default policy the delay of attempt [n] is 2^(n-1) seconds up to 30 seconds. *)
Theorem backoff_is_capped_exponential unrepresentable policy attempt :
  computeBackoff unrepresentable policy attempt <= Z.max (ry_BaseBackoff policy) (ry_MaxBackoff policy)
  /\ (1 <= attempt ->
      computeBackoff unrepresentable DefaultRetryPolicy attempt
      = Z.min (2 ^ (attempt - 1) * second) (30 * second)).
Proof.
  split.
  - unfold computeBackoff. generalize (ry_BaseBackoff policy) as b. intros b.
    assert (forall n x, x <= Z.max b (ry_MaxBackoff policy) ->
      backoff_loop unrepresentable policy n x <= Z.max b (ry_MaxBackoff policy)) as H; [|apply H; lia].
    induction n as [|n IH]; intros x Hx; cbn; [done|].
    destruct (Z.ltb_spec (ry_MaxBackoff policy)
      (int_of_float64 unrepresentable (mul_float64 (float64_of_int x) (multiplier policy)))); [lia|].
    apply IH. lia.
  - intros Ha. unfold computeBackoff. remember (Z.to_nat (attempt - 1)) as n eqn:En.
    replace (attempt - 1) with (Z.of_nat n) by lia. clear En.
    do 5 (destruct n as [|n]; [vm_compute; reflexivity|]).
    transitivity (30 * second).
    + change (ry_BaseBackoff DefaultRetryPolicy) with (1 * second).
      do 4 erewrite default_step by (vm_compute; reflexivity). by rewrite default_last.
    + assert (32 <= 2 ^ Z.of_nat (S (S (S (S (S n)))))).
      { change 32 with (2 ^ 5). apply Z.pow_le_mono_r; lia. }
      unfold second. lia.
Qed.

(** The cap is only looked at from the second attempt on. *)
Example first_delay_can_exceed_cap :
  let policy := mkRetryPolicy ∅ (60 * second) (30 * second) (float64_of_int 2) false in
  computeBackoff (fun _ => 0) policy 1 = 60 * second.
Proof. reflexivity. Qed.

Lemma backoff_is_capped_exponential_witness :
  1 <= 4 /\ computeBackoff (fun _ => 0) DefaultRetryPolicy 4 = Z.min (2 ^ (4 - 1) * second) (30 * second).
Proof.
  split; [lia|]. apply (proj2 (backoff_is_capped_exponential (fun _ => 0) DefaultRetryPolicy 4)). lia.
Defined.
