(* ===== verification/Workers.v ===== *)
(** Delegated workers: internal/planner/worker_lifecycle.go and worker_sla.go.

    A tracker's mutex guards its state for one operation at a time.  The monitor
    holds pointers to trackers that their owners keep using, so trackers live in
    a heap and a monitor entry holds an address.  [%q] quoting is not modelled,
    and with it the formatting of events and cancellations. *)

From Stdlib Require Import String.
From stdpp Require Import base tactics decidable list gmap strings pretty relations.
From S2P Require Import Prelude Enums Verification Budget TaskModels Duration.

(** ** States *)

Definition WorkerStatePending : string := "pending".
Definition WorkerStateAccepted : string := "accepted".
Definition WorkerStateRejected : string := "rejected".
Definition WorkerStateRunning : string := "running".
Definition WorkerStateProgress : string := "progress".
Definition WorkerStateBlocked : string := "blocked".
Definition WorkerStateCompleted : string := "completed".
Definition WorkerStateFailed : string := "failed".
Definition WorkerStateCancelled : string := "cancelled".
Definition WorkerStateTimedOut : string := "timed_out".

Definition validWorkerStates : list string :=
  [WorkerStatePending; WorkerStateAccepted; WorkerStateRejected; WorkerStateRunning;
   WorkerStateProgress; WorkerStateBlocked; WorkerStateCompleted; WorkerStateFailed;
   WorkerStateCancelled; WorkerStateTimedOut].

Definition ValidWorkerState (s : string) : bool := existsb (String.eqb s) validWorkerStates.

Definition WorkerState_IsTerminal (s : string) : bool :=
  go_switch s
    [([WorkerStateRejected; WorkerStateCompleted; WorkerStateFailed; WorkerStateCancelled;
       WorkerStateTimedOut], true)] false.

Definition allowedWorkerTransition (from to : string) : bool :=
  go_switch from
    [([WorkerStatePending],
      go_switch to [([WorkerStateAccepted; WorkerStateRejected; WorkerStateCancelled;
        WorkerStateTimedOut], true)] false);
     ([WorkerStateAccepted],
      go_switch to [([WorkerStateRunning; WorkerStateBlocked; WorkerStateFailed;
        WorkerStateCancelled; WorkerStateTimedOut], true)] false);
     ([WorkerStateRunning],
      go_switch to [([WorkerStateProgress; WorkerStateBlocked; WorkerStateCompleted;
        WorkerStateFailed; WorkerStateCancelled; WorkerStateTimedOut], true)] false);
     ([WorkerStateProgress],
      go_switch to [([WorkerStateProgress; WorkerStateRunning; WorkerStateBlocked;
        WorkerStateCompleted; WorkerStateFailed; WorkerStateCancelled; WorkerStateTimedOut],
        true)] false);
     ([WorkerStateBlocked],
      go_switch to [([WorkerStateRunning; WorkerStateAccepted; WorkerStateFailed;
        WorkerStateCancelled; WorkerStateTimedOut], true)] false)] false.

(** ** Events *)

(** [PercentComplete] is the bit pattern of the float64. *)
Record ProgressInfo := mkProgressInfo {
  pi_PercentComplete : Z;
  pi_StepID : string;
  pi_StepTotal : Z;
  pi_StepCurrent : Z;
  pi_Message : string
}.


Record RejectInfo := mkRejectInfo {
  ri_Reason : string;
  ri_Recoverable : bool;
  ri_Suggestion : string
}.


Record WorkerEvent := mkWorkerEvent {
  we_EventID : string;
  we_TaskID : string;
  we_RunID : string;
  we_GoalID : string;
  we_StepID : string;
  we_WorkerID : string;
  we_State : string;
  we_Message : string;
  we_Progress : option ProgressInfo;
  we_RejectInfo : option RejectInfo;
  we_ResultRef : string;
  we_Error : string;
  we_Usage : TaskUsage;
  we_CreatedAt : Z;
  we_Meta : gomap any
}.

#[export] Instance set_we_Progress : Setter we_Progress := fun v r =>
  mkWorkerEvent (we_EventID r) (we_TaskID r) (we_RunID r) (we_GoalID r) (we_StepID r)
    (we_WorkerID r) (we_State r) (we_Message r) v (we_RejectInfo r) (we_ResultRef r) (we_Error
    r) (we_Usage r) (we_CreatedAt r) (we_Meta r).
#[export] Instance set_we_RejectInfo : Setter we_RejectInfo := fun v r =>
  mkWorkerEvent (we_EventID r) (we_TaskID r) (we_RunID r) (we_GoalID r) (we_StepID r)
    (we_WorkerID r) (we_State r) (we_Message r) (we_Progress r) v (we_ResultRef r) (we_Error r)
    (we_Usage r) (we_CreatedAt r) (we_Meta r).
#[export] Instance set_we_ResultRef : Setter we_ResultRef := fun v r =>
  mkWorkerEvent (we_EventID r) (we_TaskID r) (we_RunID r) (we_GoalID r) (we_StepID r)
    (we_WorkerID r) (we_State r) (we_Message r) (we_Progress r) (we_RejectInfo r) v (we_Error
    r) (we_Usage r) (we_CreatedAt r) (we_Meta r).
#[export] Instance set_we_Error : Setter we_Error := fun v r =>
  mkWorkerEvent (we_EventID r) (we_TaskID r) (we_RunID r) (we_GoalID r) (we_StepID r)
    (we_WorkerID r) (we_State r) (we_Message r) (we_Progress r) (we_RejectInfo r) (we_ResultRef
    r) v (we_Usage r) (we_CreatedAt r) (we_Meta r).
#[export] Instance set_we_Usage : Setter we_Usage := fun v r =>
  mkWorkerEvent (we_EventID r) (we_TaskID r) (we_RunID r) (we_GoalID r) (we_StepID r)
    (we_WorkerID r) (we_State r) (we_Message r) (we_Progress r) (we_RejectInfo r) (we_ResultRef
    r) (we_Error r) v (we_CreatedAt r) (we_Meta r).
#[export] Instance set_we_Meta : Setter we_Meta := fun v r =>
  mkWorkerEvent (we_EventID r) (we_TaskID r) (we_RunID r) (we_GoalID r) (we_StepID r)
    (we_WorkerID r) (we_State r) (we_Message r) (we_Progress r) (we_RejectInfo r) (we_ResultRef
    r) (we_Error r) (we_Usage r) (we_CreatedAt r) v.

Inductive WorkerEventOption :=
  | WithProgress (info : ProgressInfo)
  | WithRejectInfo (info : RejectInfo)
  | WithResultRef (ref : string)
  | WithError (err : string)
  | WithUsage (usage : TaskUsage)
  | WithMeta (meta : gomap any).

Definition apply_option (e : WorkerEvent) (opt : WorkerEventOption) : WorkerEvent :=
  match opt with
  | WithProgress info => e <| we_Progress := Some info |>
  | WithRejectInfo info => e <| we_RejectInfo := Some info |>
  | WithResultRef ref => e <| we_ResultRef := ref |>
  | WithError err => e <| we_Error := err |>
  | WithUsage usage => e <| we_Usage := usage |>
  | WithMeta meta => e <| we_Meta := meta |>
  end.

(** ** The tracker *)

Record WorkerTracker := mkWorkerTracker {
  wt_taskID : string;
  wt_runID : string;
  wt_workerID : string;
  wt_state : string;
  wt_events : list WorkerEvent;
  wt_lastHeartbeat : Z;
  wt_heartbeatTimeout : Z;
  wt_nextEventID : Z
}.

#[export] Instance set_wt_state : Setter wt_state := fun v r =>
  mkWorkerTracker (wt_taskID r) (wt_runID r) (wt_workerID r) v (wt_events r) (wt_lastHeartbeat
    r) (wt_heartbeatTimeout r) (wt_nextEventID r).
#[export] Instance set_wt_events : Setter wt_events := fun v r =>
  mkWorkerTracker (wt_taskID r) (wt_runID r) (wt_workerID r) (wt_state r) v (wt_lastHeartbeat
    r) (wt_heartbeatTimeout r) (wt_nextEventID r).
#[export] Instance set_wt_lastHeartbeat : Setter wt_lastHeartbeat := fun v r =>
  mkWorkerTracker (wt_taskID r) (wt_runID r) (wt_workerID r) (wt_state r) (wt_events r) v
    (wt_heartbeatTimeout r) (wt_nextEventID r).
#[export] Instance set_wt_nextEventID : Setter wt_nextEventID := fun v r =>
  mkWorkerTracker (wt_taskID r) (wt_runID r) (wt_workerID r) (wt_state r) (wt_events r)
    (wt_lastHeartbeat r) (wt_heartbeatTimeout r) v.

Definition NewWorkerTracker (now : Z) (taskID runID workerID : string) (heartbeatTimeout : Z)
  : WorkerTracker :=
  mkWorkerTracker taskID runID workerID WorkerStatePending [] now heartbeatTimeout 0.

Definition event_id (runID : string) (n : Z) : string := "we-" +:+ runID +:+ "-" +:+ pretty n.

Definition new_event (t : WorkerTracker) (state msg : string) (now : Z)
    (opts : list WorkerEventOption) : WorkerEvent :=
  fold_left apply_option opts
    (mkWorkerEvent (event_id (wt_runID t) (wt_nextEventID t)) (wt_taskID t) (wt_runID t) "" ""
       (wt_workerID t) state msg None None "" "" zero_usage now None).

Definition RecordEvent (state msg : string) (now : Z) (opts : list WorkerEventOption)
    (t : WorkerTracker) : WorkerTracker * result WorkerEvent :=
  if WorkerState_IsTerminal (wt_state t)
  then (t, Err (Errorf "worker %s is in terminal state %s" [ArgS (wt_workerID t); ArgS (wt_state t)]))
  else if negb (allowedWorkerTransition (wt_state t) state)
  then (t, Err (Errorf "illegal worker transition %s → %s" [ArgS (wt_state t); ArgS state]))
  else
    let t := t <| wt_nextEventID := add64 (wt_nextEventID t) 1 |> in
    let event := new_event t state msg now opts in
    (t <| wt_state := state |> <| wt_lastHeartbeat := now |>
       <| wt_events := wt_events t ++ [event] |>, Ok event).

Definition Heartbeat (now : Z) (t : WorkerTracker) : WorkerTracker := t <| wt_lastHeartbeat := now |>.

(** [time.Duration(now-then) * time.Second] *)
Definition elapsed_since (now since : Z) : Z := mul64 (sub64 now since) second.

Definition CheckTimeout (now : Z) (t : WorkerTracker) : bool :=
  if WorkerState_IsTerminal (wt_state t) || (wt_heartbeatTimeout t =? 0) then false
  else wt_heartbeatTimeout t <? elapsed_since now (wt_lastHeartbeat t).

Definition MarkTimedOut (now : Z) (t : WorkerTracker) : WorkerTracker * result WorkerEvent :=
  RecordEvent WorkerStateTimedOut "heartbeat timeout exceeded" now [] t.

(** ** Service levels *)

Record WorkerSLA := mkWorkerSLA {
  sl_MaxDuration : Z;
  sl_HeartbeatInterval : Z;
  sl_HeartbeatGrace : Z;
  sl_MaxTokens : Z;
  sl_MaxToolCalls : Z;
  sl_AllowPartialResult : bool
}.


Definition DefaultWorkerSLA : WorkerSLA :=
  mkWorkerSLA (5 * minute) (30 * second) (10 * second) 0 0 true.

Definition WorkerSLA_Validate (s : WorkerSLA) : option error :=
  if sl_MaxDuration s <=? 0 then Some (Errorf "max_duration must be positive" [])
  else if sl_HeartbeatInterval s <=? 0 then Some (Errorf "heartbeat_interval must be positive" [])
  else if sl_MaxDuration s <? sl_HeartbeatInterval s
  then Some (Errorf "heartbeat_interval (%s) exceeds max_duration (%s)"
               [ArgS (Duration_String (sl_HeartbeatInterval s)); ArgS (Duration_String (sl_MaxDuration s))])
  else None.

Definition EffectiveHeartbeatTimeout (s : WorkerSLA) : Z :=
  add64 (sl_HeartbeatInterval s) (sl_HeartbeatGrace s).

Definition CancelReasonParent : string := "parent_cancelled".
Definition CancelReasonTimeout : string := "timeout".
Definition CancelReasonBudget : string := "budget_exceeded".
Definition CancelReasonSuperseded : string := "superseded".
Definition CancelReasonOperator : string := "operator".

Definition TakeoverReasonTimeout : string := "timeout".
Definition TakeoverReasonRejected : string := "rejected".
Definition TakeoverReasonFailed : string := "failed".
Definition TakeoverReasonPartial : string := "partial_insufficient".

Definition SLAActionCancel : string := "cancel".
Definition SLAActionTakeover : string := "takeover".
Definition SLAActionWarn : string := "warn".
Definition SLAActionIgnore : string := "ignore".

Record CancelRequest := mkCancelRequest {
  cr_TaskID : string;
  cr_RunID : string;
  cr_Reason : string;
  cr_Message : string;
  cr_GracePeriod : Z;
  cr_IssuedAt : Z
}.


Record PartialResult := mkPartialResult {
  pr_WorkerID : string;
  pr_RunID : string;
  pr_Output : string;
  pr_ResultRef : string;
  pr_Progress : option ProgressInfo;
  pr_Usage : TaskUsage;
  pr_Reason : string;
  pr_IsUsable : bool;
  pr_CompletedAt : Z;
  pr_Meta : gomap any
}.


Record TakeoverRequest := mkTakeoverRequest {
  tk_TaskID : string;
  tk_RunID : string;
  tk_PreviousWorker : string;
  tk_NewWorker : string;
  tk_Reason : string;
  tk_PriorResult : option PartialResult;
  tk_Attempt : Z;
  tk_MaxTakeovers : Z;
  tk_IssuedAt : Z
}.


Record SLAViolation := mkSLAViolation {
  sv_Type : string;
  sv_WorkerID : string;
  sv_TaskID : string;
  sv_RunID : string;
  sv_Message : string;
  sv_DetectedAt : Z
}.


(** An entry of the monitor: the address of a tracker. *)
Record workerSLAState := mkworkerSLAState {
  ws_tracker : nat;
  ws_startedAt : Z;
  ws_cancelled : bool;
  ws_takeover : bool
}.

#[export] Instance set_ws_cancelled : Setter ws_cancelled := fun v r =>
  mkworkerSLAState (ws_tracker r) (ws_startedAt r) v (ws_takeover r).
#[export] Instance set_ws_takeover : Setter ws_takeover := fun v r =>
  mkworkerSLAState (ws_tracker r) (ws_startedAt r) (ws_cancelled r) v.

Record SLAMonitor := mkSLAMonitor {
  sm_sla : WorkerSLA;
  sm_trackers : gmap string workerSLAState;
  sm_violations : list SLAViolation
}.

#[export] Instance set_sm_trackers : Setter sm_trackers := fun v r =>
  mkSLAMonitor (sm_sla r) v (sm_violations r).
#[export] Instance set_sm_violations : Setter sm_violations := fun v r =>
  mkSLAMonitor (sm_sla r) (sm_trackers r) v.

Definition NewSLAMonitor (sla : WorkerSLA) : SLAMonitor := mkSLAMonitor sla ∅ [].

(** The trackers by address; a registered address is never freed. *)
Definition heap := gmap nat WorkerTracker.

Definition Register (h : heap) (tracker : nat) (startedAt : Z) (m : SLAMonitor) : SLAMonitor :=
  match h !! tracker with
  | None => m
  | Some t => m <| sm_trackers :=
      <[wt_workerID t := mkworkerSLAState tracker startedAt false false]> (sm_trackers m) |>
  end.

(** The violations of one worker. *)
Definition worker_violations (sla : WorkerSLA) (now : Z) (workerID : string) (ws : workerSLAState)
    (t : WorkerTracker) : list SLAViolation :=
  if WorkerState_IsTerminal (wt_state t) || ws_cancelled ws then []
  else
    let violation type msg := mkSLAViolation type workerID (wt_taskID t) (wt_runID t) msg now in
    let timeout := EffectiveHeartbeatTimeout sla in
    let silent := elapsed_since now (wt_lastHeartbeat t) in
    let running := elapsed_since now (ws_startedAt ws) in
    (if (0 <? timeout) && (timeout <? silent)
     then [violation "heartbeat_timeout" ("no heartbeat for " +:+ Duration_String silent +:+ " (limit: "
                                          +:+ Duration_String timeout +:+ ")")]
     else [])
    ++ (if (0 <? sl_MaxDuration sla) && (sl_MaxDuration sla <? running)
        then [violation "duration_exceeded" ("running for " +:+ Duration_String running +:+ " (limit: "
                                             +:+ Duration_String (sl_MaxDuration sla) +:+ ")")]
        else []).

(** The order of the workers is unspecified. *)
Definition SLA_Check (h : heap) (now : Z) (m : SLAMonitor) : SLAMonitor * list SLAViolation :=
  let violations :=
    flat_map (fun p => match h !! ws_tracker p.2 with
                       | Some t => worker_violations (sm_sla m) now p.1 p.2 t
                       | None => []
                       end) (map_to_list (sm_trackers m)) in
  (m <| sm_violations := sm_violations m ++ violations |>, violations).

Definition MarkCancelled (workerID : string) (m : SLAMonitor) : SLAMonitor :=
  match sm_trackers m !! workerID with
  | None => m
  | Some ws => m <| sm_trackers := <[workerID := ws <| ws_cancelled := true |>]> (sm_trackers m) |>
  end.

Definition MarkTakeover (workerID : string) (m : SLAMonitor) : SLAMonitor :=
  match sm_trackers m !! workerID with
  | None => m
  | Some ws => m <| sm_trackers := <[workerID := ws <| ws_takeover := true |>]> (sm_trackers m) |>
  end.

Definition DecideSLAAction (violation : SLAViolation) (sla : WorkerSLA)
    (takeoverAttempt maxTakeovers : Z) : string :=
  go_switch (sv_Type violation)
    [(["heartbeat_timeout"],
      if takeoverAttempt <? maxTakeovers then SLAActionTakeover else SLAActionCancel);
     (["duration_exceeded"],
      if sl_AllowPartialResult sla then SLAActionCancel else SLAActionCancel);
     (["budget_exceeded"], SLAActionCancel)] SLAActionWarn.

Definition BuildCancelRequest (violation : SLAViolation) (sla : WorkerSLA) : CancelRequest :=
  mkCancelRequest (sv_TaskID violation) (sv_RunID violation)
    (go_switch (sv_Type violation)
       [(["heartbeat_timeout"], CancelReasonTimeout);
        (["duration_exceeded"], CancelReasonTimeout);
        (["budget_exceeded"], CancelReasonBudget)] CancelReasonTimeout)
    (sv_Message violation)
    (if sl_AllowPartialResult sla then 10 * second else 0)
    (sv_DetectedAt violation).

Definition BuildTakeoverRequest (violation : SLAViolation) (partial : option PartialResult)
    (attempt maxTakeovers : Z) : TakeoverRequest :=
  mkTakeoverRequest (sv_TaskID violation) (sv_RunID violation) (sv_WorkerID violation) ""
    (go_switch (sv_Type violation) [(["heartbeat_timeout"], TakeoverReasonTimeout)]
       TakeoverReasonTimeout)
    partial attempt maxTakeovers (sv_DetectedAt violation).

Definition FormatSLAViolation (v : SLAViolation) : string :=
  "[SLA] type=" +:+ sv_Type v +:+ " worker=" +:+ sv_WorkerID v +:+ " task=" +:+ sv_TaskID v
  +:+ ": " +:+ sv_Message v.

Definition FormatTakeoverRequest (t : TakeoverRequest) : string :=
  "Takeover: task=" +:+ tk_TaskID t +:+ " prev=" +:+ tk_PreviousWorker t +:+ " reason="
  +:+ tk_Reason t +:+ " attempt=" +:+ pretty (tk_Attempt t) +:+ "/" +:+ pretty (tk_MaxTakeovers t)
  +:+ (if tk_NewWorker t !=? "" then " new=" +:+ tk_NewWorker t else "")
  +:+ match tk_PriorResult t with Some _ => " has_prior_result=true" | None => "" end.
