(* ===== verification/WorkerProps.v ===== *)
(** Theorems on delegated workers: the event log of a tracker follows the state
    machine, silent workers are timed out for good, and the monitor reports
    exactly the breaches of the service level. *)

From Stdlib Require Import String.
From stdpp Require Import base tactics decidable list gmap strings pretty relations.
From S2P Require Import Prelude Enums Verification Budget TaskModels Duration Workers.

(** ** The state machine *)

(** What the owners of a tracker do to it. *)
Inductive tracker_step : WorkerTracker -> WorkerTracker -> Prop :=
  | do_RecordEvent t state msg now opts : tracker_step t (RecordEvent state msg now opts t).1
  | do_Heartbeat t now : tracker_step t (Heartbeat now t)
  | do_MarkTimedOut t now : tracker_step t (MarkTimedOut now t).1.

(** [states] is a walk of the transition table from [from]. *)
Fixpoint walk (from : string) (states : list string) : Prop :=
  match states with
  | [] => True
  | s :: states => allowedWorkerTransition from s = true /\ walk s states
  end.

Definition end_of (from : string) (states : list string) : string := default from (last states).

Lemma walk_snoc from states s :
  walk from (states ++ [s]) <-> walk from states /\ allowedWorkerTransition (end_of from states) s = true.
Proof.
  unfold end_of. revert from. induction states as [|x states IH]; intros from; cbn.
  - tauto.
  - rewrite IH. destruct states as [|y l]; cbn; [tauto|].
    destruct (last (y :: l)) as [z|] eqn:E; [tauto|]. by apply last_None in E.
Qed.

Lemma apply_options_keep opts e :
  we_State (fold_left apply_option opts e) = we_State e
  /\ we_EventID (fold_left apply_option opts e) = we_EventID e.
Proof.
  revert e. induction opts as [|o opts IH]; intros e; cbn; [done|].
  destruct (IH (apply_option e o)) as [-> ->]. by destruct o.
Qed.

(** A transition of the table leads to a known state, and never out of a terminal
    one. *)
Lemma allowed_known from to :
  allowedWorkerTransition from to = true -> to ∈ validWorkerStates /\ WorkerState_IsTerminal from = false.
Proof.
  unfold allowedWorkerTransition, WorkerState_IsTerminal. cbn [go_switch existsb].
  intros H. split.
  - assert (existsb (String.eqb to) validWorkerStates = true) as Hv.
    { unfold validWorkerStates. cbn [existsb].
      repeat match type of H with
      | context [(?a ==? ?b)] => destruct (String.eqb_spec a b); subst; cbn in H |- *; try done
      end. }
    apply existsb_exists in Hv as (x & Hx & ->%String.eqb_eq). by apply list_elem_of_In.
  - repeat match type of H with
    | context [(from ==? ?b)] => destruct (String.eqb_spec from b); subst; cbn in H |- *; try done
    end.
Qed.

Definition numbered (runID : string) (n : nat) : list string :=
  map (fun k => event_id runID (Z.of_nat k)) (seq 1 n).
Arguments numbered : simpl never.

(** The log of a tracker. *)
Record logged (t : WorkerTracker) : Prop := mkLogged {
  lg_walk : walk WorkerStatePending (map we_State (wt_events t));
  lg_state : wt_state t = end_of WorkerStatePending (map we_State (wt_events t));
  lg_next : wt_nextEventID t = Z.of_nat (length (wt_events t));
  lg_ids : map we_EventID (wt_events t) = numbered (wt_runID t) (length (wt_events t))
}.

Lemma RecordEvent_cases state msg now opts t :
  (WorkerState_IsTerminal (wt_state t) = false /\ allowedWorkerTransition (wt_state t) state = true
   /\ exists e, RecordEvent state msg now opts t
        = (t <| wt_nextEventID := add64 (wt_nextEventID t) 1 |> <| wt_state := state |>
             <| wt_lastHeartbeat := now |> <| wt_events := wt_events t ++ [e] |>, Ok e)
      /\ we_State e = state /\ we_EventID e = event_id (wt_runID t) (add64 (wt_nextEventID t) 1))
  \/ (WorkerState_IsTerminal (wt_state t) = true \/ allowedWorkerTransition (wt_state t) state = false)
     /\ exists err, RecordEvent state msg now opts t = (t, Err err).
Proof.
  unfold RecordEvent. destruct (WorkerState_IsTerminal (wt_state t)); [right; eauto|].
  destruct (allowedWorkerTransition (wt_state t) state); cbn [negb]; [|right; eauto].
  left. split; [done|]. split; [done|]. eexists. split; [reflexivity|].
  unfold new_event. match goal with |- context [fold_left apply_option opts ?e] =>
    destruct (apply_options_keep opts e) as [-> ->] end. done.
Qed.

Lemma numbered_snoc runID n : numbered runID (S n) = numbered runID n ++ [event_id runID (Z.of_nat (S n))].
Proof. unfold numbered. by rewrite seq_S, map_app. Qed.

Lemma logged_record state msg now opts t :
  Z.of_nat (S (length (wt_events t))) < 2 ^ 63 ->
  logged t -> logged (RecordEvent state msg now opts t).1.
Proof.
  intros Hn [H1 H2 H3 H4].
  destruct (RecordEvent_cases state msg now opts t) as [(_ & Ha & e & -> & Hs & Hid)|[_ [err ->]]]; [|by split].
  assert (add64 (wt_nextEventID t) 1 = Z.of_nat (S (length (wt_events t)))) as Hnext.
  { rewrite H3, add64_small by (unfold int64_range; lia). lia. }
  rewrite Hnext in *. split; cbn; rewrite ?map_app; cbn.
  - rewrite walk_snoc, Hs, <-H2. done.
  - unfold end_of. by rewrite last_snoc.
  - rewrite length_app. cbn. lia.
  - rewrite length_app, Nat.add_1_r, numbered_snoc, H4, Hid. done.
Qed.

Lemma events_grow t t' : tracker_step t t' ->
  (length (wt_events t) <= length (wt_events t'))%nat /\ wt_runID t' = wt_runID t.
Proof.
  intros [x state msg now opts|x now|x now]; [|done|]; unfold MarkTimedOut.
  - destruct (RecordEvent_cases state msg now opts x) as [(_ & _ & e & -> & _)|[_ [err ->]]]; [|done].
    cbn. rewrite length_app. split; [lia|done].
  - match goal with |- context [RecordEvent ?s ?m ?n ?o x] =>
      destruct (RecordEvent_cases s m n o x) as [(_ & _ & e & -> & _)|[_ [err ->]]] end; [|done].
    cbn. rewrite length_app. split; [lia|done].
Qed.

Lemma events_grow_rtc t t' : rtc tracker_step t t' ->
  (length (wt_events t) <= length (wt_events t'))%nat.
Proof. induction 1 as [|t t1 t' H _ IH]; [done|]. apply events_grow in H as [? _]. lia. Qed.

Lemma logged_reachable now taskID runID workerID timeout t :
  rtc tracker_step (NewWorkerTracker now taskID runID workerID timeout) t ->
  Z.of_nat (length (wt_events t)) < 2 ^ 63 - 1 -> logged t /\ wt_runID t = runID.
Proof.
  intros Hr Hn.
  assert (forall t0 t', rtc tracker_step t0 t' -> Z.of_nat (length (wt_events t')) < 2 ^ 63 - 1 ->
    logged t0 -> logged t' /\ wt_runID t' = wt_runID t0) as H.
  { clear. induction 1 as [t|t t1 t' Hs Hr IH]; intros Hn Hl; [done|].
    pose proof (events_grow_rtc _ _ Hr). destruct (events_grow _ _ Hs) as [? <-].
    apply IH; [done|]. destruct Hs as [x state msg now opts|x now|x now].
    - apply logged_record; [lia|done].
    - destruct Hl as [H1 H2 H3 H4]. by split.
    - apply logged_record; [lia|done]. }
  apply (H _ _ Hr Hn). by split.
Qed.

(** A terminal tracker keeps its state and log. *)
Lemma terminal_final t t' :
  rtc tracker_step t t' -> WorkerState_IsTerminal (wt_state t) = true ->
  wt_state t' = wt_state t /\ wt_events t' = wt_events t.
Proof.
  induction 1 as [t|t t1 t' Hs _ IH]; intros Ht; [done|].
  assert (wt_state t1 = wt_state t /\ wt_events t1 = wt_events t) as [E1 E2].
  { destruct Hs as [x state msg now opts|x now|x now]; [|done|]; unfold MarkTimedOut, RecordEvent; by rewrite Ht. }
  rewrite E1 in IH. destruct (IH Ht) as [-> ->]. done.
Qed.

(** The event log of a tracked worker is a walk of the transition table from
    pending to the current state, its events are numbered from 1 without gaps, and
    once a terminal state is reached neither state nor log change, whatever is
    called afterwards. *)
Theorem worker_log_follows_table now taskID runID workerID timeout t :
  rtc tracker_step (NewWorkerTracker now taskID runID workerID timeout) t ->
  Z.of_nat (length (wt_events t)) < 2 ^ 63 - 1 ->
  walk WorkerStatePending (map we_State (wt_events t))
  /\ wt_state t = end_of WorkerStatePending (map we_State (wt_events t))
  /\ map we_EventID (wt_events t) = numbered runID (length (wt_events t))
  /\ (WorkerState_IsTerminal (wt_state t) = true ->
      forall t', rtc tracker_step t t' -> wt_state t' = wt_state t /\ wt_events t' = wt_events t).
Proof.
  intros Hr Hn. destruct (logged_reachable _ _ _ _ _ _ Hr Hn) as [[H1 H2 _ H4] Hrun].
  split; [done|]. split; [done|]. split; [by rewrite <-Hrun|].
  intros Ht t' Hr'. by apply terminal_final.
Qed.

(** Every state that is not terminal can time out. *)
Lemma known_state_times_out s :
  s ∈ validWorkerStates -> WorkerState_IsTerminal s = false ->
  allowedWorkerTransition s WorkerStateTimedOut = true.
Proof.
  unfold validWorkerStates. rewrite !elem_of_cons, elem_of_nil. intros H Ht.
  repeat (destruct H as [->|H]; [first [done|discriminate Ht]|]). done.
Qed.

Lemma logged_known t : logged t -> wt_state t ∈ validWorkerStates.
Proof.
  intros [H1 H2 _ _]. rewrite H2. unfold end_of.
  destruct (map we_State (wt_events t)) as [|s l _] using rev_ind; [apply (bool_decide_unpack _); by vm_compute|].
  rewrite last_snoc. cbn. apply walk_snoc in H1 as [_ H1]. by apply allowed_known in H1 as [? _].
Qed.

(** A worker that is not in a terminal state and has been silent for longer than
    its heartbeat timeout is detected, and timing it out succeeds and is final;
    as long as the silence is no longer than a duration can express. *)
Theorem silent_worker_times_out now0 taskID runID workerID timeout t now :
  rtc tracker_step (NewWorkerTracker now0 taskID runID workerID timeout) t ->
  Z.of_nat (length (wt_events t)) < 2 ^ 63 - 1 ->
  WorkerState_IsTerminal (wt_state t) = false ->
  wt_heartbeatTimeout t <> 0 -> 0 <= now - wt_lastHeartbeat t <= 9223372036 ->
  wt_heartbeatTimeout t < (now - wt_lastHeartbeat t) * second ->
  CheckTimeout now t = true
  /\ exists t1 e, MarkTimedOut now t = (t1, Ok e) /\ wt_state t1 = WorkerStateTimedOut
     /\ forall t', rtc tracker_step t1 t' -> wt_state t' = WorkerStateTimedOut.
Proof.
  intros Hr Hn Ht Hz Hrange Hlate. destruct (logged_reachable _ _ _ _ _ _ Hr Hn) as [Hl _]. split.
  - unfold CheckTimeout, elapsed_since. rewrite Ht. apply Z.eqb_neq in Hz. rewrite Hz. cbn [orb].
    rewrite sub64_small, mul64_small by (unfold int64_range, second in *; lia). by apply Z.ltb_lt.
  - pose proof (known_state_times_out _ (logged_known _ Hl) Ht) as Ha. unfold MarkTimedOut.
    destruct (RecordEvent_cases WorkerStateTimedOut "heartbeat timeout exceeded" now [] t)
      as [(_ & _ & e & -> & _)|[[?|?] _]]; [|congruence..].
    eexists _, e. split; [done|]. split; [done|].
    intros t' Hr'. by destruct (terminal_final _ _ Hr' eq_refl) as [-> _].
Qed.

(** ** The monitor *)

(** A breach of the service level, without the limits of machine integers. *)
Definition breach (sla : WorkerSLA) (now : Z) (ws : workerSLAState) (t : WorkerTracker) (type : string) : Prop :=
  type = "heartbeat_timeout"
  /\ 0 < sl_HeartbeatInterval sla + sl_HeartbeatGrace sla < (now - wt_lastHeartbeat t) * second
  \/ type = "duration_exceeded"
     /\ 0 < sl_MaxDuration sla < (now - ws_startedAt ws) * second.

(** Times that a 64-bit duration can hold. *)
Definition measurable (sla : WorkerSLA) (now : Z) (ws : workerSLAState) (t : WorkerTracker) : Prop :=
  int64_range (sl_HeartbeatInterval sla + sl_HeartbeatGrace sla)
  /\ -9223372036 <= now - wt_lastHeartbeat t <= 9223372036
  /\ -9223372036 <= now - ws_startedAt ws <= 9223372036.

Lemma worker_violations_spec sla now id ws t type :
  measurable sla now ws t ->
  (exists v, v ∈ worker_violations sla now id ws t /\ sv_Type v = type)
  <-> WorkerState_IsTerminal (wt_state t) = false /\ ws_cancelled ws = false /\ breach sla now ws t type.
Proof.
  intros (Hh & Hs & Hd). unfold worker_violations, breach, EffectiveHeartbeatTimeout, elapsed_since.
  destruct (WorkerState_IsTerminal (wt_state t)); cbn [orb].
  { split; [intros (v & Hv & _); by apply not_elem_of_nil in Hv|by intros [? _]]. }
  destruct (ws_cancelled ws).
  { split; [intros (v & Hv & _); by apply not_elem_of_nil in Hv|by intros (_ & ? & _)]. }
  rewrite (add64_small (sl_HeartbeatInterval sla)) by done.
  rewrite !sub64_small, !mul64_small by (unfold int64_range, second in *; lia).
  setoid_rewrite elem_of_app. split.
  - intros (v & [Hv|Hv] & <-); (split; [done|]; split; [done|]).
    + destruct (Z.ltb_spec 0 (sl_HeartbeatInterval sla + sl_HeartbeatGrace sla)), (Z.ltb_spec
        (sl_HeartbeatInterval sla + sl_HeartbeatGrace sla) ((now - wt_lastHeartbeat t) * second));
        cbn in Hv; try (by apply not_elem_of_nil in Hv).
      apply list_elem_of_singleton in Hv as ->. left. done.
    + destruct (Z.ltb_spec 0 (sl_MaxDuration sla)), (Z.ltb_spec (sl_MaxDuration sla)
        ((now - ws_startedAt ws) * second)); cbn in Hv; try (by apply not_elem_of_nil in Hv).
      apply list_elem_of_singleton in Hv as ->. right. done.
  - intros (_ & _ & [[-> [Ha Hb]]|[-> [Ha Hb]]]); apply Z.ltb_lt in Ha as ->; apply Z.ltb_lt in Hb as ->.
    + eexists. split; [left; apply list_elem_of_singleton; reflexivity|done].
    + eexists. split; [right; apply list_elem_of_singleton; reflexivity|done].
Qed.

Lemma worker_violations_id sla now id ws t v :
  v ∈ worker_violations sla now id ws t -> sv_WorkerID v = id.
Proof.
  unfold worker_violations. destruct (_ || _); [by intros ?%not_elem_of_nil|].
  rewrite elem_of_app. intros [Hv|Hv]; destruct (_ && _) in Hv;
    first [by apply not_elem_of_nil in Hv|by apply list_elem_of_singleton in Hv as ->].
Qed.

(** A check of the monitor reports a breach of a type for a worker if and only
    if the worker is registered and neither finished nor cancelled, and its
    silence, or its running time, exceeds the limit; and it appends what it
    reports to the recorded violations. *)
Theorem sla_check_is_exact h now m id type :
  (forall id ws, sm_trackers m !! id = Some ws -> exists t, h !! ws_tracker ws = Some t
     /\ measurable (sm_sla m) now ws t) ->
  ((exists v, v ∈ (SLA_Check h now m).2 /\ sv_WorkerID v = id /\ sv_Type v = type) <->
   exists ws t, sm_trackers m !! id = Some ws /\ h !! ws_tracker ws = Some t
     /\ WorkerState_IsTerminal (wt_state t) = false /\ ws_cancelled ws = false
     /\ breach (sm_sla m) now ws t type)
  /\ sm_violations (SLA_Check h now m).1 = sm_violations m ++ (SLA_Check h now m).2.
Proof.
  intros Hm. split; [|done]. unfold SLA_Check. cbn. split.
  - intros (v & Hv & Hid & Ht). apply list_elem_of_In, in_flat_map in Hv as ([k ws] & Hk & Hv).
    apply list_elem_of_In, elem_of_map_to_list in Hk. apply list_elem_of_In in Hv. cbn in Hv.
    destruct (Hm k ws Hk) as (t & Ht' & Hms). rewrite Ht' in Hv.
    pose proof (worker_violations_id _ _ _ _ _ _ Hv) as Hkid. rewrite Hid in Hkid. subst k.
    destruct (proj1 (worker_violations_spec _ now id _ _ type Hms)) as (? & ? & ?); [by exists v|].
    by exists ws, t.
  - intros (ws & t & Hws & Ht & Hnt & Hc & Hb). destruct (Hm id ws Hws) as (t' & Ht' & Hms).
    rewrite Ht in Ht'. injection Ht' as <-.
    destruct (proj2 (worker_violations_spec _ now id _ _ type Hms)) as (v & Hv & Hty); [done|].
    exists v. split; [|split; [by eapply worker_violations_id|done]].
    apply list_elem_of_In, in_flat_map. exists (id, ws). cbn. rewrite Ht.
    by rewrite <-!list_elem_of_In, elem_of_map_to_list.
Qed.

(** ** Concrete workers *)

Definition idle_worker (runID : string) : WorkerTracker := NewWorkerTracker 100 "t" runID "w" (30 * second).

Definition accepted_worker : WorkerTracker :=
  (RecordEvent WorkerStateAccepted "" 110 [] (idle_worker "r")).1.

Lemma accepted_reachable : rtc tracker_step (idle_worker "r") accepted_worker.
Proof. apply rtc_once, do_RecordEvent. Qed.

Lemma worker_log_follows_table_witness :
  map we_EventID (wt_events accepted_worker) = numbered "r" 1 /\ wt_state accepted_worker = WorkerStateAccepted.
Proof.
  destruct (worker_log_follows_table 100 "t" "r" "w" (30 * second) accepted_worker accepted_reachable)
    as (_ & _ & Hids & _); [by vm_compute|]. split; [exact Hids|reflexivity].
Defined.

Lemma silent_worker_times_out_witness :
  CheckTimeout 200 accepted_worker = true
  /\ exists t1 e, MarkTimedOut 200 accepted_worker = (t1, Ok e) /\ wt_state t1 = WorkerStateTimedOut.
Proof.
  destruct (silent_worker_times_out 100 "t" "r" "w" (30 * second) accepted_worker 200 accepted_reachable)
    as (Hc & t1 & e & Hm & Hs & _); [by vm_compute|by vm_compute|by vm_compute|by vm_compute|by vm_compute|].
  split; [exact Hc|]. by exists t1, e.
Defined.

Definition watched : SLAMonitor :=
  Register {[0%nat := accepted_worker]} 0 100 (NewSLAMonitor DefaultWorkerSLA).

Lemma sla_check_is_exact_witness :
  exists v, v ∈ (SLA_Check {[0%nat := accepted_worker]} 200 watched).2
    /\ sv_WorkerID v = "w" /\ sv_Type v = "heartbeat_timeout".
Proof.
  apply (proj1 (sla_check_is_exact {[0%nat := accepted_worker]} 200 watched "w" "heartbeat_timeout"
    ltac:(intros id ws Hws; change (sm_trackers watched) with
            ({["w" := mkworkerSLAState 0 100 false false]} : gmap string workerSLAState) in Hws;
          apply lookup_singleton_Some in Hws as [_ <-]; exists accepted_worker;
          split; [reflexivity|unfold measurable; vm_compute; repeat split; discriminate]))).
  exists (mkworkerSLAState 0 100 false false), accepted_worker.
  split; [reflexivity|]. split; [reflexivity|]. split; [reflexivity|]. split; [reflexivity|].
  left. by vm_compute.
Defined.

(** A worker that is registered for a second run is no longer watched for the
    first. *)
Example second_run_hides_first :
  let h : heap := {[0%nat := accepted_worker; 1%nat := NewWorkerTracker 195 "t2" "r2" "w" 0]} in
  let m := Register h 0 100 (NewSLAMonitor DefaultWorkerSLA) in
  length (SLA_Check h 200 m).2 = 1%nat
  /\ (SLA_Check h 200 (Register h 1 195 m)).2 = [].
Proof. by vm_compute. Qed.

(** Marking a takeover has no effect on later checks: the worker that was replaced
    is reported again. *)
Example taken_over_worker_is_reported_again :
  let h : heap := {[0%nat := accepted_worker]} in
  length (SLA_Check h 200 (MarkTakeover "w" watched)).2 = 1%nat.
Proof. by vm_compute. Qed.
