(* ===== verification/Runes.v ===== *)
(** Go strings as texts of runes: the UTF-8 encoding and decoding that [range]
    over a string, [strings.Builder.WriteRune] and package [regexp] use.

    A rune is a Z.  Decoding follows [utf8.DecodeRune]: a byte that starts no
    well-formed sequence is one [RuneError] (U+FFFD). *)

From Stdlib Require Import Ascii String.
From stdpp Require Import base tactics decidable list strings.
From S2P Require Import Prelude.

Definition RuneError : Z := 65533.

Definition code (c : ascii) : Z := Z.of_N (byte c).
Definition char (z : Z) : ascii := ascii_of_N (Z.to_N z).

Definition between (lo x hi : Z) : bool := (lo <=? x) && (x <=? hi).

(** The values of the second byte after the first byte [x], by sequence length. *)
Definition second2 (x y : Z) : bool := between 194 x 223 && between 128 y 191.

Definition second3 (x y : Z) : bool :=
  between 224 x 239
  && between (if x =? 224 then 160 else 128) y (if x =? 237 then 159 else 191).

Definition second4 (x y : Z) : bool :=
  between 240 x 244
  && between (if x =? 240 then 144 else 128) y (if x =? 244 then 143 else 191).

Definition tail_byte (z : Z) : bool := between 128 z 191.

Fixpoint decode (l : list ascii) : list Z :=
  match l with
  | [] => []
  | a :: l1 =>
    let x := code a in
    if x <? 128 then x :: decode l1 else
    match l1 with
    | [] => [RuneError]
    | b :: l2 =>
      let y := code b in
      if second2 x y then ((x - 192) * 64 + (y - 128)) :: decode l2 else
      match l2 with
      | [] => RuneError :: decode l1
      | c :: l3 =>
        let z := code c in
        if second3 x y && tail_byte z
        then ((x - 224) * 4096 + (y - 128) * 64 + (z - 128)) :: decode l3 else
        match l3 with
        | [] => RuneError :: decode l1
        | d :: l4 =>
          let w := code d in
          if second4 x y && tail_byte z && tail_byte w
          then ((x - 240) * 262144 + (y - 128) * 4096 + (z - 128) * 64 + (w - 128)) :: decode l4
          else RuneError :: decode l1
        end
      end
    end
  end.

Definition runes (s : string) : list Z := decode (list_ascii_of_string s).

(** A Unicode scalar value: a code point other than a surrogate. *)
Definition scalar (r : Z) : bool := between 0 r 55295 || between 57344 r 1114111.

(** [WriteRune] of a scalar value. *)
Definition encode_rune (r : Z) : list ascii :=
  if r <? 128 then [char r]
  else if r <? 2048 then [char (192 + r / 64); char (128 + r mod 64)]
  else if r <? 65536
  then [char (224 + r / 4096); char (128 + r / 64 mod 64); char (128 + r mod 64)]
  else [char (240 + r / 262144); char (128 + r / 4096 mod 64); char (128 + r / 64 mod 64);
        char (128 + r mod 64)].

Definition encode (l : list Z) : list ascii := flat_map encode_rune l.

Definition text (l : list Z) : string := string_of_list_ascii (encode l).

(** ** Lemmas *)

Lemma code_char z : 0 <= z < 256 -> code (char z) = z.
Proof.
  intros H. unfold code, char, byte.
  assert (Z.to_N z < 256)%N as Hz by lia.
  rewrite N_ascii_embedding by exact Hz. lia.
Qed.

Lemma code_range c : 0 <= code c < 256.
Proof.
  unfold code, byte. pose proof (N_ascii_bounded c). lia.
Qed.

Lemma char_code c : char (code c) = c.
Proof.
  unfold char, code, byte. rewrite N2Z.id. apply ascii_N_embedding.
Qed.

Lemma between_spec lo x hi : between lo x hi = true <-> lo <= x <= hi.
Proof. unfold between. rewrite andb_true_iff, !Z.leb_le. lia. Qed.

Lemma between_false lo x hi : between lo x hi = false <-> x < lo \/ hi < x.
Proof. unfold between. rewrite andb_false_iff, !Z.leb_gt. lia. Qed.

Section Utf8.
#[local] Ltac Zify.zify_post_hook ::= Z.to_euclidean_division_equations.

(** Decide the byte ranges of the goal, which hold by arithmetic. *)
#[local] Ltac ranges :=
  repeat match goal with
  | |- context [?x <? ?y] =>
    first [ rewrite (proj2 (Z.ltb_lt x y)) by lia | rewrite (proj2 (Z.ltb_ge x y)) by lia ]
  | |- context [?x =? ?y] =>
    first [ rewrite (proj2 (Z.eqb_eq x y)) by lia | rewrite (proj2 (Z.eqb_neq x y)) by lia
          | destruct (Z.eqb_spec x y) ]
  | |- context [between ?l ?x ?h] =>
    first [ rewrite (proj2 (between_spec l x h)) by lia
          | rewrite (proj2 (between_false l x h)) by lia ]
  end; cbn [andb orb].

Lemma decode_encode_rune r l :
  scalar r = true -> decode (encode_rune r ++ l) = r :: decode l.
Proof.
  unfold scalar. rewrite orb_true_iff, !between_spec. intros Hr. unfold encode_rune.
  destruct (Z.ltb_spec r 128); [|destruct (Z.ltb_spec r 2048); [|destruct (Z.ltb_spec r 65536)]];
    cbn [app decode]; rewrite !code_char by lia; unfold second2, second3, second4, tail_byte;
    ranges; f_equal; lia.
Qed.

Lemma decode_encode l : Forall (fun r => scalar r = true) l -> decode (encode l) = l.
Proof.
  induction 1 as [|r l Hr _ IH]; [done|]. cbn [encode flat_map].
  rewrite decode_encode_rune by done. f_equal. exact IH.
Qed.

Lemma runes_text l : Forall (fun r => scalar r = true) l -> runes (text l) = l.
Proof.
  intros. unfold runes, text. rewrite list_ascii_of_string_of_list_ascii. by apply decode_encode.
Qed.

Lemma decode_scalar l : Forall (fun r => scalar r = true) (decode l).
Proof.
  induction l as [l IH] using (induction_ltof1 _ (@length ascii)).
  destruct l as [|a l1]; [done|]. cbn [decode].
  pose proof (code_range a).
  destruct (Z.ltb_spec (code a) 128).
  { constructor; [|apply IH; unfold ltof; cbn; lia].
    unfold scalar. rewrite orb_true_iff, !between_spec. lia. }
  destruct l1 as [|b l2]; [repeat constructor|].
  destruct (second2 (code a) (code b)) eqn:E2.
  { unfold second2 in E2. rewrite andb_true_iff, !between_spec in E2.
    constructor; [|apply IH; unfold ltof; cbn; lia].
    unfold scalar. rewrite orb_true_iff, !between_spec. lia. }
  destruct l2 as [|c l3]; [constructor; [done|]; apply IH; unfold ltof; cbn; lia|].
  destruct (second3 (code a) (code b) && tail_byte (code c)) eqn:E3.
  { unfold second3, tail_byte in E3. rewrite !andb_true_iff, !between_spec in E3.
    constructor; [|apply IH; unfold ltof; cbn; lia].
    unfold scalar. rewrite orb_true_iff, !between_spec.
    destruct (Z.eqb_spec (code a) 224), (Z.eqb_spec (code a) 237); lia. }
  destruct l3 as [|d l4]; [constructor; [done|]; apply IH; unfold ltof; cbn; lia|].
  destruct (second4 (code a) (code b) && tail_byte (code c) && tail_byte (code d)) eqn:E4.
  2: { constructor; [done|]; apply IH; unfold ltof; cbn; lia. }
  unfold second4, tail_byte in E4. rewrite !andb_true_iff, !between_spec in E4.
  constructor; [|apply IH; unfold ltof; cbn; lia].
  unfold scalar. rewrite orb_true_iff, !between_spec.
  destruct (Z.eqb_spec (code a) 240), (Z.eqb_spec (code a) 244); lia.
Qed.
End Utf8.

Lemma runes_scalar s : Forall (fun r => scalar r = true) (runes s).
Proof. apply decode_scalar. Qed.

Lemma encode_app l1 l2 : encode (l1 ++ l2) = encode l1 ++ encode l2.
Proof. unfold encode. by rewrite flat_map_app. Qed.

(** Decoding ASCII text. *)
Lemma decode_ascii a l : code a < 128 -> decode (a :: l) = code a :: decode l.
Proof. intros H. cbn [decode]. by rewrite (proj2 (Z.ltb_lt _ _) H). Qed.

(** [decode] reads well-formed text in blocks: text made of scalar values may be
    decoded part by part. *)
Lemma decode_encode_app l rest :
  Forall (fun r => scalar r = true) l -> decode (encode l ++ rest) = l ++ decode rest.
Proof.
  induction 1 as [|r l Hr _ IH]; [done|]. cbn [encode flat_map].
  rewrite <- app_assoc, decode_encode_rune by done. cbn. by f_equal.
Qed.

Example runes_utf8 : runes "aé→😀" = [97; 233; 8594; 128512].
Proof. reflexivity. Qed.

(** A lone continuation byte and a truncated sequence. *)
Example runes_invalid :
  decode [char 128; char 97; char 226; char 134] = [RuneError; 97; RuneError; RuneError].
Proof. reflexivity. Qed.
