(* ===== verification/Regexp.v ===== *)
(** Package [regexp] as the program uses it: the interface its clients are
    modelled against, and an instance that compiles and matches the syntax the
    program's own patterns are written in; [globToRegex] of
    internal/permissions/rule.go.

    The instance has literals, [.], classes, the escapes [\s \d \w] and their
    complements, groups, alternatives, [* + ?] with their non-greedy forms, [^]
    and [$].  It refuses the rest of Go's syntax (counted repetition, flags, named
    groups, word boundaries, POSIX classes). *)

From Stdlib Require Import Ascii String.
From stdpp Require Import base tactics decidable list strings.
From S2P Require Import Prelude Runes.

(** [regexp.Compile] and [Regexp.MatchString]. *)
Class Regexp := {
  regexp : Type;
  compile : string -> result regexp;
  MatchString : regexp -> string -> bool
}.

(** ** Globs *)

Definition star : Z := 42.
Definition question : Z := 63.
Definition backslash : Z := 92.

(** The characters [. + ( ) [ ] { } ^ $ | \]. *)
Definition glob_special : list Z := [46; 43; 40; 41; 91; 93; 123; 125; 94; 36; 124; 92].

Definition glob_rune (ch : Z) : list Z :=
  if ch =? star then [46; star]
  else if ch =? question then [46]
  else if existsb (Z.eqb ch) glob_special then [backslash; ch]
  else [ch].

Definition globToRegex (glob : string) : string := text (flat_map glob_rune (runes glob)).

(** What a glob means: a star stands for any runes and a question mark for one,
    except a line feed, which the dot of a regular expression does not match. *)
Fixpoint glob_match (p s : list Z) : bool :=
  match p with
  | [] => match s with [] => true | _ :: _ => false end
  | c :: p =>
    if c =? star then
      (fix skip s := glob_match p s
         || match s with [] => false | x :: s => negb (x =? 10) && skip s end) s
    else match s with
         | [] => false
         | x :: s => (if c =? question then negb (x =? 10) else x =? c) && glob_match p s
         end
  end.

(** A pattern compiled from a glob, as the program writes it:
    [regexp.Compile("^" + globToRegex(glob) + "$")]. *)
Definition compile_glob `{Regexp} (glob : string) : result regexp :=
  compile ("^" +:+ globToRegex glob +:+ "$").

(** What the permission engine relies on: a glob always compiles, to a regular
    expression that matches what the glob means. *)
Class GlobLaw (R : Regexp) := {
  glob_compiles g : exists re, compile_glob g = Ok re;
  glob_matches g re s :
    compile_glob g = Ok re -> MatchString re s = glob_match (runes g) (runes s)
}.

(** ** Syntax *)

(** A set of runes: ranges, or the runes outside them. *)
Record rune_set := mkRuneSet { negated : bool; ranges : list (Z * Z) }.

Definition in_set (p : rune_set) (c : Z) : bool :=
  xorb (negated p) (existsb (fun r => between r.1 c r.2) (ranges p)).

Inductive re :=
  | REmpty
  | RSet (p : rune_set)
  | RBegin
  | REnd
  | RSeq (a b : re)
  | RAlt (a b : re)
  | RStar (a : re).

Definition RRune (c : Z) : re := RSet (mkRuneSet false [(c, c)]).
Definition RDot : re := RSet (mkRuneSet true [(10, 10)]).

(** *** Meaning: [denotes r (b, s) (b', s')] when [r] matches the text between
    [s] and its suffix [s'], [b] telling whether [s] is the whole text. *)
Inductive denotes : re -> bool * list Z -> bool * list Z -> Prop :=
  | d_empty b s : denotes REmpty (b, s) (b, s)
  | d_set p b c s : in_set p c = true -> denotes (RSet p) (b, c :: s) (false, s)
  | d_begin s : denotes RBegin (true, s) (true, s)
  | d_end b : denotes REnd (b, []) (b, [])
  | d_seq r1 r2 x y z : denotes r1 x y -> denotes r2 y z -> denotes (RSeq r1 r2) x z
  | d_left r1 r2 x y : denotes r1 x y -> denotes (RAlt r1 r2) x y
  | d_right r1 r2 x y : denotes r2 x y -> denotes (RAlt r1 r2) x y
  | d_done r x : denotes (RStar r) x x
  | d_more r x y z : denotes r x y -> denotes (RStar r) y z -> denotes (RStar r) x z.

(** *** The matcher: a prefix of [s] matched by [r], and the rest accepted by [k] *)
Fixpoint run (r : re) (b : bool) (s : list Z) (k : bool -> list Z -> bool) {struct r} : bool :=
  match r with
  | REmpty => k b s
  | RSet p => match s with [] => false | c :: s => in_set p c && k false s end
  | RBegin => b && k b s
  | REnd => match s with [] => k b s | _ :: _ => false end
  | RSeq r1 r2 => run r1 b s (fun b s => run r2 b s k)
  | RAlt r1 r2 => run r1 b s k || run r2 b s k
  | RStar r =>
    (fix loop (n : nat) (b : bool) (s : list Z) : bool :=
       k b s
       || match n with
          | O => false
          | S n => run r b s (fun b' s' => Nat.ltb (length s') (length s) && loop n b' s')
          end) (length s) b s
  end.

(** The search for a match at any position. *)
Fixpoint search (r : re) (b : bool) (s : list Z) : bool :=
  run r b s (fun _ _ => true) || match s with [] => false | _ :: s => search r false s end.

(** *** The parser *)

(** A group being read: the alternatives that are finished and the items of the
    current one, both latest first. *)
Record frame := mkFrame { alts : list re; items : list re }.

Definition empty_frame : frame := mkFrame [] [].

Definition sequence (l : list re) : re := fold_left (fun r a => RSeq a r) l REmpty.

Definition close_alt (f : frame) : frame := mkFrame (sequence (items f) :: alts f) [].

Definition frame_re (f : frame) : re :=
  fold_left (fun r a => RAlt a r) (alts f) (sequence (items f)).

Definition push (a : re) (f : frame) : frame := mkFrame (alts f) (a :: items f).

(** Whether a repetition may follow: not at the start, after an item, after an
    operator (a [?] makes it non-greedy, which changes no match), not any more. *)
Inductive repeat_state := NoItem | Item | Repeated | NonGreedy.

Definition digits : list (Z * Z) := [(48, 57)].
Definition word : list (Z * Z) := [(48, 57); (65, 90); (95, 95); (97, 122)].
Definition space : list (Z * Z) := [(9, 10); (12, 13); (32, 32)].

(** The class an escaped letter stands for. *)
Definition perl_class (c : Z) : option rune_set :=
  if c =? 100 then Some (mkRuneSet false digits)
  else if c =? 68 then Some (mkRuneSet true digits)
  else if c =? 119 then Some (mkRuneSet false word)
  else if c =? 87 then Some (mkRuneSet true word)
  else if c =? 115 then Some (mkRuneSet false space)
  else if c =? 83 then Some (mkRuneSet true space)
  else None.

(** The rune an escape stands for: control characters and punctuation. *)
Definition escaped_rune (c : Z) : option Z :=
  if c =? 97 then Some 7 else if c =? 102 then Some 12 else if c =? 110 then Some 10
  else if c =? 114 then Some 13 else if c =? 116 then Some 9 else if c =? 118 then Some 11
  else if between 33 c 126 && negb (existsb (fun r => between r.1 c r.2) word) then Some c
  else if c =? 95 then Some c
  else None.

(** Reading the pattern in order; inside a class, [Some (negated, first, ranges)]. *)
Fixpoint parse (s : list Z) (cls : option (bool * bool * list (Z * Z))) (rep : repeat_state)
    (f : frame) (outer : list frame) {struct s} : option re :=
  match cls with
  | None =>
    match s with
    | [] => match outer with [] => Some (frame_re f) | _ :: _ => None end
    | c :: s =>
      let item a := parse s None Item (push a f) outer in
      let operator op :=
        match rep, items f with
        | Item, a :: l => parse s None Repeated (mkFrame (alts f) (op a :: l)) outer
        | Repeated, _ => if c =? question then parse s None NonGreedy f outer else None
        | _, _ => None
        end in
      if c =? 46 then item RDot
      else if c =? 94 then item RBegin
      else if c =? 36 then item REnd
      else if c =? star then operator RStar
      else if c =? 43 then operator (fun a => RSeq a (RStar a))
      else if c =? question then operator (fun a => RAlt a REmpty)
      else if c =? 124 then parse s None NoItem (close_alt f) outer
      else if c =? 40 then
        match s with
        | q :: colon :: s' =>
          if q =? question then
            if colon =? 58 then parse s' None NoItem empty_frame (f :: outer) else None
          else parse s None NoItem empty_frame (f :: outer)
        | _ => parse s None NoItem empty_frame (f :: outer)
        end
      else if c =? 41 then
        match outer with
        | [] => None
        | g :: outer => parse s None Item (push (frame_re f) g) outer
        end
      else if c =? 91 then
        match s with
        | n :: s' => if n =? 94 then parse s' (Some (true, true, [])) NoItem f outer
                     else parse s (Some (false, true, [])) NoItem f outer
        | [] => None
        end
      else if c =? 123 then None
      else if c =? backslash then
        match s with
        | [] => None
        | d :: s =>
          match perl_class d, escaped_rune d with
          | Some p, _ => parse s None Item (push (RSet p) f) outer
          | None, Some r => parse s None Item (push (RRune r) f) outer
          | None, None => None
          end
        end
      else item (RRune c)
    end
  | Some (neg, first, acc) =>
    match s with
    | [] => None
    | c :: s =>
      if negb first && (c =? 93)
      then parse s None Item (push (RSet (mkRuneSet neg acc)) f) outer
      else if c =? 91 then
        match s with
        | d :: _ => if d =? 58 then None else parse s (Some (neg, false, (c, c) :: acc)) NoItem f outer
        | [] => None
        end
      else if c =? backslash then
        match s with
        | [] => None
        | d :: s =>
          match perl_class d with
          | Some p => if negated p then None
                      else parse s (Some (neg, false, ranges p ++ acc)) NoItem f outer
          | None =>
            match escaped_rune d with
            | None => None
            | Some lo =>
              match s with
              | dash :: hi :: s' =>
                if (dash =? 45) && negb (hi =? 93)
                then if hi =? backslash then None else
                     if hi <? lo then None
                     else parse s' (Some (neg, false, (lo, hi) :: acc)) NoItem f outer
                else parse s (Some (neg, false, (lo, lo) :: acc)) NoItem f outer
              | _ => parse s (Some (neg, false, (lo, lo) :: acc)) NoItem f outer
              end
            end
          end
        end
      else
        match s with
        | dash :: hi :: s' =>
          if (dash =? 45) && negb (hi =? 93)
          then if hi =? backslash then None else
               if hi <? c then None
               else parse s' (Some (neg, false, (c, hi) :: acc)) NoItem f outer
          else parse s (Some (neg, false, (c, c) :: acc)) NoItem f outer
        | _ => parse s (Some (neg, false, (c, c) :: acc)) NoItem f outer
        end
    end
  end.

Definition compile_re (pattern : string) : option re :=
  parse (runes pattern) None NoItem empty_frame [].

Definition match_re (r : re) (s : string) : bool := search r true (runes s).

#[export] Instance go_regexp : Regexp := {|
  regexp := re;
  compile := fun pattern => match compile_re pattern with
                            | Some r => Ok r
                            | None => Err (Errorf "error parsing regexp: `%s`" [ArgS pattern])
                            end;
  MatchString := match_re |}.

(** Patterns of the program on texts they do and do not match. *)
Definition matches_pattern (pattern s : string) : option bool :=
  (fun r => match_re r s) <$> compile_re pattern.

Example patterns :
  map (fun p => matches_pattern p.1 p.2)
    [("rm\s+(-[a-zA-Z]*r[a-zA-Z]*f|(-[a-zA-Z]*f[a-zA-Z]*r))\s+/[^.]", "sudo rm  -rf /etc");
     ("rm\s+(-[a-zA-Z]*r[a-zA-Z]*f|(-[a-zA-Z]*f[a-zA-Z]*r))\s+/[^.]", "rm -r /etc");
     ("^read|^get|^list|^show", "get_x"); ("^read|^get|^list|^show", "target");
     ("(>|>>)\s*~?/?\.(bashrc|zshrc|profile|bash_profile)", "echo x >> ~/.zshrc");
     ("dd\s+.*of=/dev/[sh]d", "dd if=a of=/dev/sda"); ("^bash$", "bash2"); ("[0-7]*7", "x")]
  = [Some true; Some false; Some true; Some false; Some true; Some true; Some false; Some false].
Proof. vm_compute. reflexivity. Qed.

Example bad_patterns :
  map compile_re ["a**"; "(a"; "a)"; "*a"; "[z-a]"; "[a"; "a\"] = repeat None 7.
Proof. vm_compute. reflexivity. Qed.

(** ** The matcher decides the meaning *)

Lemma denotes_suffix r x y :
  denotes r x y -> x = y \/ (length y.2 < length x.2)%nat.
Proof. induction 1; cbn in *; intuition (subst; auto with lia). Qed.

(** A repetition matches by steps that consume. *)
Lemma star_split r x y :
  denotes (RStar r) x y ->
  x = y \/ exists m, denotes r x m /\ (length m.2 < length x.2)%nat /\ denotes (RStar r) m y.
Proof.
  intros H. remember (RStar r) as r' eqn:Er. induction H; simplify_eq; [by left|].
  destruct (denotes_suffix _ _ _ H) as [->|]; [by apply IHdenotes2|]. right. eauto.
Qed.

Lemma run_denotes r b s k :
  run r b s k = true <-> exists b' s', denotes r (b, s) (b', s') /\ k b' s' = true.
Proof.
  revert b s k. induction r as [|p| | |r1 IH1 r2 IH2|r1 IH1 r2 IH2|r IH]; intros b s k; cbn [run].
  - split; [eauto using d_empty|]. intros (? & ? & H & ?). by inv H.
  - destruct s as [|c s]; [split; [done|intros (? & ? & H & ?); inv H]|].
    rewrite andb_true_iff. split; [intros []; eauto using d_set|].
    intros (? & ? & H & ?). inv H. auto.
  - rewrite andb_true_iff. split; [intros [-> ?]; eauto using d_begin|].
    intros (? & ? & H & ?). inv H. auto.
  - destruct s; (split; [try done; eauto using d_end|intros (? & ? & H & ?); by inv H]).
  - rewrite IH1. split.
    + intros (b1 & s1 & H1 & H2). apply IH2 in H2 as (b2 & s2 & ? & ?). eauto using d_seq.
    + intros (b2 & s2 & H & ?). inv H. destruct y as [b1 s1].
      exists b1, s1. split; [done|]. apply IH2. eauto.
  - rewrite orb_true_iff, IH1, IH2. split.
    + intros [(? & ? & ? & ?)|(? & ? & ? & ?)]; eauto using d_left, d_right.
    + intros (? & ? & H & ?). inv H; eauto.
  - enough (forall n b s, (length s <= n)%nat ->
      (fix loop n b s := k b s || match n with
         | O => false
         | S n => run r b s (fun b' s' => Nat.ltb (length s') (length s) && loop n b' s')
         end) n b s = true
      <-> exists b' s', denotes (RStar r) (b, s) (b', s') /\ k b' s' = true) as Hl by (by apply Hl).
    clear b s. intros n. induction n as [|n IHn]; intros b s Hs; rewrite orb_true_iff.
    + split; [intros [?|?]; [eauto using d_done|done]|]. intros (b' & s' & H & Hk).
      destruct (star_split _ _ _ H) as [[= <- <-]|(m & _ & Hm & _)]; [auto|cbn in Hm; lia].
    + rewrite IH. split.
      * intros [?|(b1 & s1 & H1 & H2)]; [eauto using d_done|].
        rewrite andb_true_iff, Nat.ltb_lt in H2. destruct H2 as [Hlt H2].
        apply IHn in H2 as (b' & s' & ? & ?); [|lia]. eauto using d_more.
      * intros (b' & s' & H & Hk).
        destruct (star_split _ _ _ H) as [[= <- <-]|([b1 s1] & ? & Hm & ?)]; [auto|].
        right. exists b1, s1. cbn in Hm. rewrite andb_true_iff, Nat.ltb_lt.
        repeat split; auto. apply IHn; [lia|]. eauto.
Qed.

(** A search matches when some part of the text does. *)
Lemma search_denotes r b s :
  search r b s = true
  <-> exists p s1 s2 b', s = p ++ s1 /\ denotes r (b && Nat.eqb (length p) 0, s1) (b', s2).
Proof.
  revert b. induction s as [|c s IH]; intros b; cbn [search]; rewrite orb_true_iff, run_denotes.
  - split.
    + intros [(b' & s' & ? & _)|?]; [|done]. exists [], [], s', b'. by rewrite andb_true_r.
    + intros (p & s1 & s2 & b' & Hs & H). left.
      symmetry in Hs. apply app_eq_nil in Hs as [-> ->]. rewrite andb_true_r in H. eauto.
  - rewrite IH. split.
    + intros [(b' & s' & ? & _)|(p & s1 & s2 & b' & -> & ?)].
      * exists [], (c :: s), s', b'. by rewrite andb_true_r.
      * exists (c :: p), s1, s2, b'. by rewrite andb_false_r.
    + intros ([|x p] & s1 & s2 & b' & Hs & H).
      * left. cbn in Hs. subst. rewrite andb_true_r in H. eauto.
      * right. injection Hs as <- ->. exists p, s1, s2, b'. by rewrite andb_false_r in H.
Qed.

(** ** Globs compile to what they mean *)

Definition glob_item (c : Z) : re :=
  if c =? star then RStar RDot else if c =? question then RDot else RRune c.

Lemma glob_special_spec c : existsb (Z.eqb c) glob_special = true <-> c ∈ glob_special.
Proof.
  rewrite existsb_exists, list_elem_of_In. split; [intros (x & ? & ->%Z.eqb_eq)|]; auto.
  intros H. exists c. by rewrite Z.eqb_refl.
Qed.

(** Reading what a glob is translated to adds its items. *)
Lemma parse_glob p rep f outer rest :
  (forall rep f, parse (36 :: rest) None rep f outer = parse rest None Item (push REnd f) outer) ->
  parse (flat_map glob_rune p ++ 36 :: rest) None rep f outer
  = parse rest None Item (mkFrame (alts f) (REnd :: rev (map glob_item p) ++ items f)) outer.
Proof.
  intros Hend. revert rep f. induction p as [|c p IH]; intros rep f; [apply Hend|].
  assert (parse (flat_map glob_rune (c :: p) ++ 36 :: rest) None rep f outer
    = parse (flat_map glob_rune p ++ 36 :: rest) None (if c =? star then Repeated else Item)
        (push (glob_item c) f) outer) as ->.
  2: { rewrite IH. cbn [alts items push map rev]. by rewrite <- app_assoc. }
  cbn [flat_map]. unfold glob_rune, glob_item.
  destruct (Z.eqb_spec c star) as [->|Hstar]; [done|].
  destruct (Z.eqb_spec c question) as [->|Hq]; [done|].
  destruct (existsb (Z.eqb c) glob_special) eqn:Hs.
  - apply glob_special_spec in Hs. unfold glob_special in Hs.
    repeat (apply elem_of_cons in Hs as [->|Hs]; [reflexivity|]). by apply elem_of_nil in Hs.
  - assert (forall x, x ∈ glob_special -> (c =? x) = false) as Hne.
    { intros x Hx. apply Z.eqb_neq. intros ->. apply glob_special_spec in Hx. congruence. }
    cbn [app parse]. apply Z.eqb_neq in Hstar, Hq.
    rewrite Hstar, Hq, !Hne by (unfold glob_special; rewrite list_elem_of_In; cbn; tauto). done.
Qed.

(** The matcher on the items of a glob followed by the end of the text. *)
Definition glob_re (p : list Z) : re := foldr RSeq (RSeq REnd REmpty) (map glob_item p).

Lemma run_dot b s k :
  run RDot b s k = match s with [] => false | c :: s => negb (c =? 10) && k false s end.
Proof.
  destruct s as [|c s]; [done|]. cbn [run RDot]. unfold in_set, between; cbn.
  rewrite orb_false_r. destruct (Z.eqb_spec c 10) as [->|]; [done|].
  destruct (Z.leb_spec 10 c), (Z.leb_spec c 10); cbn; try done; lia.
Qed.

Lemma run_rune x b s k :
  run (RRune x) b s k = match s with [] => false | c :: s => (c =? x) && k false s end.
Proof.
  destruct s as [|c s]; [done|]. cbn [run RRune]. unfold in_set, between; cbn.
  rewrite orb_false_r. destruct (Z.eqb_spec c x) as [->|]; [by rewrite Z.leb_refl|].
  destruct (Z.leb_spec x c), (Z.leb_spec c x); cbn; try done; lia.
Qed.

Lemma run_glob p b s : run (glob_re p) b s (fun _ _ => true) = glob_match p s.
Proof.
  revert b s. induction p as [|c p IH]; intros b s; [by destruct s|].
  cbn [glob_re map foldr run glob_match]. fold (glob_re p). unfold glob_item.
  destruct (c =? star).
  - cbn [run]. enough (forall n b, n = length s -> _ n b s = _ s) as Hl by (by apply Hl).
    induction s as [|x s IHs]; intros n b' ->; cbn [length]; rewrite IH; [done|].
    rewrite run_dot. f_equal. f_equal. cbn [length].
    rewrite (proj2 (Nat.ltb_lt _ _)) by lia. cbn. by apply IHs.
  - destruct (c =? question); [rewrite run_dot|rewrite run_rune];
      (destruct s as [|x s]; [done|]); by rewrite IH.
Qed.

Lemma search_anchored r s : search (RSeq RBegin r) true s = run r true s (fun _ _ => true).
Proof.
  assert (forall s, search (RSeq RBegin r) false s = false) as Hf.
  { intros s'. induction s' as [|x s' IH]; [done|]. cbn. exact IH. }
  destruct s as [|x s]; cbn [search run]; rewrite ?Hf; cbn; by rewrite orb_false_r.
Qed.

Lemma sequence_items l acc :
  fold_left (fun r a => RSeq a r) (rev l) acc = foldr RSeq acc l.
Proof. by rewrite <- fold_left_rev_right, rev_involutive. Qed.

Lemma list_ascii_app s1 s2 :
  list_ascii_of_string (s1 +:+ s2) = list_ascii_of_string s1 ++ list_ascii_of_string s2.
Proof.
  induction s1 as [|c s1 IH]; [done|].
  change (String c s1 +:+ s2) with (String c (s1 +:+ s2)). cbn. by rewrite IH.
Qed.

(** The text of the pattern, rune by rune. *)
Lemma runes_pattern glob :
  runes ("^" +:+ globToRegex glob +:+ "$") = 94 :: flat_map glob_rune (runes glob) ++ [36].
Proof.
  assert (Forall (fun r => scalar r = true) (flat_map glob_rune (runes glob))) as Hs.
  { pose proof (runes_scalar glob) as H. induction H as [|c l Hc _ IH]; [constructor|].
    cbn [flat_map]. apply Forall_app. split; [|exact IH]. unfold glob_rune.
    destruct (c =? star), (c =? question), (existsb (Z.eqb c) glob_special); repeat constructor; exact Hc. }
  unfold globToRegex, text, runes. rewrite !list_ascii_app, list_ascii_of_string_of_list_ascii.
  rewrite (decode_encode_app [94]) by (repeat constructor). cbn [app]. f_equal.
  by rewrite decode_encode_app.
Qed.

Lemma compile_glob_spec glob :
  compile_glob glob = Ok (RSeq RBegin (glob_re (runes glob))).
Proof.
  unfold compile_glob, compile, go_regexp, compile_re. rewrite runes_pattern.
  change (parse (94 :: flat_map glob_rune (runes glob) ++ [36]) None NoItem empty_frame [])
    with (parse (flat_map glob_rune (runes glob) ++ [36]) None Item (mkFrame [] [RBegin]) []).
  rewrite parse_glob by reflexivity. cbn [parse alts items].
  unfold frame_re, sequence. cbn [alts items fold_left].
  rewrite fold_left_app, sequence_items. reflexivity.
Qed.

Lemma match_glob glob s :
  match_re (RSeq RBegin (glob_re (runes glob))) s = glob_match (runes glob) (runes s).
Proof. unfold match_re. by rewrite search_anchored, run_glob. Qed.

(** C14: The translation of globs to regular expressions is right: for every glob, whatever
    its runes, the text the program builds compiles, and the compiled expression
    accepts exactly the names that the glob means, a star standing for any runes
    of one line and a question mark for one of them. *)
Theorem glob_translation_is_exact glob s :
  exists re, compile_glob glob = Ok re /\ MatchString re s = glob_match (runes glob) (runes s).
Proof. eexists. split; [apply compile_glob_spec|apply match_glob]. Qed.

#[export] Instance go_glob_law : GlobLaw go_regexp.
Proof.
  split; intros.
  - rewrite compile_glob_spec. eauto.
  - rewrite compile_glob_spec in H. simplify_eq. apply match_glob.
Qed.
