(* ===== verification/Permissions.v ===== *)
(** Permission rules: internal/permissions/rule.go, the evaluation order of
    internal/permissions/evaluator.go and the tool categories of
    internal/permissions/classification.go.

    A rule caches the regular expressions compiled from its patterns.  The engine
    stores a private copy of a rule, compiled when it is added, and never changes
    its patterns, so the cached expression of a pattern is what compiling the
    pattern gives; [Matches] compiles where the code reads the cache.  Instants
    are nanoseconds. *)

From Stdlib Require Import String Sorted.
From stdpp Require Import base tactics decidable list gmap strings pretty sorting.
From S2P Require Import Prelude Runes Regexp Sorting.

(** ** Behaviors, scopes, categories *)

Definition BehaviorAllow : string := "allow".
Definition BehaviorAsk : string := "ask".
Definition BehaviorDeny : string := "deny".

Definition Behavior_IsValid (b : string) : bool :=
  go_switch b [([BehaviorAllow; BehaviorAsk; BehaviorDeny], true)] false.

Definition Priority (b : string) : Z :=
  go_switch b [([BehaviorDeny], 3); ([BehaviorAsk], 2); ([BehaviorAllow], 1)] 0.

Definition ScopeGlobal : string := "global".
Definition ScopeUser : string := "user".
Definition ScopeProject : string := "project".
Definition ScopeAgent : string := "agent".
Definition ScopeSession : string := "session".

Definition AllScopes : list string :=
  [ScopeGlobal; ScopeUser; ScopeProject; ScopeAgent; ScopeSession].

Definition Precedence (s : string) : Z :=
  go_switch s [([ScopeGlobal], 1); ([ScopeUser], 2); ([ScopeProject], 3); ([ScopeAgent], 4);
               ([ScopeSession], 5)] 0.

Definition Scope_IsValid (s : string) : bool := 0 <? Precedence s.

Definition CategoryBuiltin : string := "builtin".
Definition CategoryPlugin : string := "plugin".
Definition CategoryMCP : string := "mcp".
Definition CategoryExec : string := "exec".
Definition CategoryNetwork : string := "network".
Definition CategoryFilesystem : string := "filesystem".
Definition CategoryRemoteAgent : string := "remote_agent".

Definition ToolOriginBuiltin : string := "builtin".
Definition ToolOriginPlugin : string := "plugin".
Definition ToolOriginMCP : string := "mcp".

Definition Origin_IsValid (o : string) : bool :=
  go_switch o [([""; ToolOriginBuiltin; ToolOriginPlugin; ToolOriginMCP], true)] false.

(** ** Rules *)

Record Rule := mkRule {
  ru_ID : string;
  ru_Scope : string;
  ru_Behavior : string;
  ru_ToolPattern : string;
  ru_ContentPattern : string;
  ru_Category : string;
  ru_Origin : string;
  ru_OriginName : string;
  ru_Description : string;
  ru_CreatedAt : Z;
  ru_CreatedBy : string;
  ru_ExpiresAt : option Z;
  ru_Enabled : bool;
  ru_AgentID : string;
  ru_Immutable : bool
}.

#[export] Instance set_ru_Scope : Setter ru_Scope := fun v r =>
  mkRule (ru_ID r) v (ru_Behavior r) (ru_ToolPattern r) (ru_ContentPattern r) (ru_Category r)
    (ru_Origin r) (ru_OriginName r) (ru_Description r) (ru_CreatedAt r) (ru_CreatedBy r)
    (ru_ExpiresAt r) (ru_Enabled r) (ru_AgentID r) (ru_Immutable r).
#[export] Instance set_ru_ContentPattern : Setter ru_ContentPattern := fun v r =>
  mkRule (ru_ID r) (ru_Scope r) (ru_Behavior r) (ru_ToolPattern r) v (ru_Category r) (ru_Origin
    r) (ru_OriginName r) (ru_Description r) (ru_CreatedAt r) (ru_CreatedBy r) (ru_ExpiresAt r)
    (ru_Enabled r) (ru_AgentID r) (ru_Immutable r).
#[export] Instance set_ru_Category : Setter ru_Category := fun v r =>
  mkRule (ru_ID r) (ru_Scope r) (ru_Behavior r) (ru_ToolPattern r) (ru_ContentPattern r) v
    (ru_Origin r) (ru_OriginName r) (ru_Description r) (ru_CreatedAt r) (ru_CreatedBy r)
    (ru_ExpiresAt r) (ru_Enabled r) (ru_AgentID r) (ru_Immutable r).
#[export] Instance set_ru_Origin : Setter ru_Origin := fun v r =>
  mkRule (ru_ID r) (ru_Scope r) (ru_Behavior r) (ru_ToolPattern r) (ru_ContentPattern r)
    (ru_Category r) v (ru_OriginName r) (ru_Description r) (ru_CreatedAt r) (ru_CreatedBy r)
    (ru_ExpiresAt r) (ru_Enabled r) (ru_AgentID r) (ru_Immutable r).
#[export] Instance set_ru_OriginName : Setter ru_OriginName := fun v r =>
  mkRule (ru_ID r) (ru_Scope r) (ru_Behavior r) (ru_ToolPattern r) (ru_ContentPattern r)
    (ru_Category r) (ru_Origin r) v (ru_Description r) (ru_CreatedAt r) (ru_CreatedBy r)
    (ru_ExpiresAt r) (ru_Enabled r) (ru_AgentID r) (ru_Immutable r).
#[export] Instance set_ru_Description : Setter ru_Description := fun v r =>
  mkRule (ru_ID r) (ru_Scope r) (ru_Behavior r) (ru_ToolPattern r) (ru_ContentPattern r)
    (ru_Category r) (ru_Origin r) (ru_OriginName r) v (ru_CreatedAt r) (ru_CreatedBy r)
    (ru_ExpiresAt r) (ru_Enabled r) (ru_AgentID r) (ru_Immutable r).
#[export] Instance set_ru_CreatedBy : Setter ru_CreatedBy := fun v r =>
  mkRule (ru_ID r) (ru_Scope r) (ru_Behavior r) (ru_ToolPattern r) (ru_ContentPattern r)
    (ru_Category r) (ru_Origin r) (ru_OriginName r) (ru_Description r) (ru_CreatedAt r) v
    (ru_ExpiresAt r) (ru_Enabled r) (ru_AgentID r) (ru_Immutable r).
#[export] Instance set_ru_ExpiresAt : Setter ru_ExpiresAt := fun v r =>
  mkRule (ru_ID r) (ru_Scope r) (ru_Behavior r) (ru_ToolPattern r) (ru_ContentPattern r)
    (ru_Category r) (ru_Origin r) (ru_OriginName r) (ru_Description r) (ru_CreatedAt r)
    (ru_CreatedBy r) v (ru_Enabled r) (ru_AgentID r) (ru_Immutable r).
#[export] Instance set_ru_AgentID : Setter ru_AgentID := fun v r =>
  mkRule (ru_ID r) (ru_Scope r) (ru_Behavior r) (ru_ToolPattern r) (ru_ContentPattern r)
    (ru_Category r) (ru_Origin r) (ru_OriginName r) (ru_Description r) (ru_CreatedAt r)
    (ru_CreatedBy r) (ru_ExpiresAt r) (ru_Enabled r) v (ru_Immutable r).
#[export] Instance set_ru_Immutable : Setter ru_Immutable := fun v r =>
  mkRule (ru_ID r) (ru_Scope r) (ru_Behavior r) (ru_ToolPattern r) (ru_ContentPattern r)
    (ru_Category r) (ru_Origin r) (ru_OriginName r) (ru_Description r) (ru_CreatedAt r)
    (ru_CreatedBy r) (ru_ExpiresAt r) (ru_Enabled r) (ru_AgentID r) v.

Definition ForAgent (agentID : string) (r : Rule) : Rule := r <| ru_AgentID := agentID |>.
Definition AsImmutable (r : Rule) : Rule := r <| ru_Immutable := true |>.

(** [now] is the clock. *)
Definition NewRule (now : Z) (id scope behavior toolPattern : string) : Rule :=
  mkRule id scope behavior toolPattern "" "" "" "" "" now "" None true "" false.

Definition WithContentPattern (pattern : string) (r : Rule) : Rule :=
  r <| ru_ContentPattern := pattern |>.
Definition WithCategory (cat : string) (r : Rule) : Rule := r <| ru_Category := cat |>.
Definition WithOrigin (origin : string) (r : Rule) : Rule := r <| ru_Origin := origin |>.
Definition WithOriginName (pattern : string) (r : Rule) : Rule := r <| ru_OriginName := pattern |>.
Definition WithDescription (desc : string) (r : Rule) : Rule := r <| ru_Description := desc |>.
Definition WithExpiry (t : Z) (r : Rule) : Rule := r <| ru_ExpiresAt := Some t |>.
Definition WithCreatedBy (creator : string) (r : Rule) : Rule := r <| ru_CreatedBy := creator |>.

Record ToolRequest := mkToolRequest {
  rq_ToolName : string;
  rq_Category : string;
  rq_Origin : string;
  rq_OriginName : string;
  rq_Content : string;
  rq_Metadata : gomap any;
  rq_UserID : string;
  rq_ProjectID : string;
  rq_AgentID : string;
  rq_SessionID : string;
  rq_RunID : string;
  rq_ExecutionID : string;
  rq_Timestamp : Z
}.

#[export] Instance set_rq_Category : Setter rq_Category := fun v r =>
  mkToolRequest (rq_ToolName r) v (rq_Origin r) (rq_OriginName r) (rq_Content r) (rq_Metadata
    r) (rq_UserID r) (rq_ProjectID r) (rq_AgentID r) (rq_SessionID r) (rq_RunID r)
    (rq_ExecutionID r) (rq_Timestamp r).
#[export] Instance set_rq_Origin : Setter rq_Origin := fun v r =>
  mkToolRequest (rq_ToolName r) (rq_Category r) v (rq_OriginName r) (rq_Content r) (rq_Metadata
    r) (rq_UserID r) (rq_ProjectID r) (rq_AgentID r) (rq_SessionID r) (rq_RunID r)
    (rq_ExecutionID r) (rq_Timestamp r).
#[export] Instance set_rq_OriginName : Setter rq_OriginName := fun v r =>
  mkToolRequest (rq_ToolName r) (rq_Category r) (rq_Origin r) v (rq_Content r) (rq_Metadata r)
    (rq_UserID r) (rq_ProjectID r) (rq_AgentID r) (rq_SessionID r) (rq_RunID r) (rq_ExecutionID
    r) (rq_Timestamp r).
#[export] Instance set_rq_Content : Setter rq_Content := fun v r =>
  mkToolRequest (rq_ToolName r) (rq_Category r) (rq_Origin r) (rq_OriginName r) v (rq_Metadata
    r) (rq_UserID r) (rq_ProjectID r) (rq_AgentID r) (rq_SessionID r) (rq_RunID r)
    (rq_ExecutionID r) (rq_Timestamp r).
#[export] Instance set_rq_Metadata : Setter rq_Metadata := fun v r =>
  mkToolRequest (rq_ToolName r) (rq_Category r) (rq_Origin r) (rq_OriginName r) (rq_Content r)
    v (rq_UserID r) (rq_ProjectID r) (rq_AgentID r) (rq_SessionID r) (rq_RunID r)
    (rq_ExecutionID r) (rq_Timestamp r).
#[export] Instance set_rq_UserID : Setter rq_UserID := fun v r =>
  mkToolRequest (rq_ToolName r) (rq_Category r) (rq_Origin r) (rq_OriginName r) (rq_Content r)
    (rq_Metadata r) v (rq_ProjectID r) (rq_AgentID r) (rq_SessionID r) (rq_RunID r)
    (rq_ExecutionID r) (rq_Timestamp r).
#[export] Instance set_rq_ProjectID : Setter rq_ProjectID := fun v r =>
  mkToolRequest (rq_ToolName r) (rq_Category r) (rq_Origin r) (rq_OriginName r) (rq_Content r)
    (rq_Metadata r) (rq_UserID r) v (rq_AgentID r) (rq_SessionID r) (rq_RunID r)
    (rq_ExecutionID r) (rq_Timestamp r).
#[export] Instance set_rq_AgentID : Setter rq_AgentID := fun v r =>
  mkToolRequest (rq_ToolName r) (rq_Category r) (rq_Origin r) (rq_OriginName r) (rq_Content r)
    (rq_Metadata r) (rq_UserID r) (rq_ProjectID r) v (rq_SessionID r) (rq_RunID r)
    (rq_ExecutionID r) (rq_Timestamp r).
#[export] Instance set_rq_SessionID : Setter rq_SessionID := fun v r =>
  mkToolRequest (rq_ToolName r) (rq_Category r) (rq_Origin r) (rq_OriginName r) (rq_Content r)
    (rq_Metadata r) (rq_UserID r) (rq_ProjectID r) (rq_AgentID r) v (rq_RunID r)
    (rq_ExecutionID r) (rq_Timestamp r).
#[export] Instance set_rq_RunID : Setter rq_RunID := fun v r =>
  mkToolRequest (rq_ToolName r) (rq_Category r) (rq_Origin r) (rq_OriginName r) (rq_Content r)
    (rq_Metadata r) (rq_UserID r) (rq_ProjectID r) (rq_AgentID r) (rq_SessionID r) v
    (rq_ExecutionID r) (rq_Timestamp r).
#[export] Instance set_rq_ExecutionID : Setter rq_ExecutionID := fun v r =>
  mkToolRequest (rq_ToolName r) (rq_Category r) (rq_Origin r) (rq_OriginName r) (rq_Content r)
    (rq_Metadata r) (rq_UserID r) (rq_ProjectID r) (rq_AgentID r) (rq_SessionID r) (rq_RunID r)
    v (rq_Timestamp r).

Definition NewToolRequest (now : Z) (toolName category : string) : ToolRequest :=
  mkToolRequest toolName category "" "" "" (Some ∅) "" "" "" "" "" "" now.

Definition Request_WithContent (content : string) (r : ToolRequest) : ToolRequest :=
  r <| rq_Content := content |>.
Definition Request_WithOrigin (origin originName : string) (r : ToolRequest) : ToolRequest :=
  r <| rq_Origin := origin |> <| rq_OriginName := originName |>.
Definition WithContext (userID projectID agentID sessionID : string) (r : ToolRequest)
  : ToolRequest :=
  r <| rq_UserID := userID |> <| rq_ProjectID := projectID |> <| rq_AgentID := agentID |>
    <| rq_SessionID := sessionID |>.
Definition WithExecution (runID executionID : string) (r : ToolRequest) : ToolRequest :=
  r <| rq_RunID := runID |> <| rq_ExecutionID := executionID |>.

Abbreviation RuleSet := (gmap string (list Rule)).

Section Matching.
Context `{R : Regexp}.

(** The compiled patterns of a rule: of the tool, the content and the origin name. *)
Record Compiled := mkCompiled {
  co_tool : regexp;
  co_content : option regexp;
  co_originName : option regexp
}.

Definition optional_pattern (pattern : string) (comp : result regexp) (format : string)
  : result (option regexp) :=
  if pattern ==? "" then Ok None
  else match comp with
       | Err e => Err (Wrapf format [ArgS pattern] e)
       | Ok re => Ok (Some re)
       end.

Definition Compile (r : Rule) : result Compiled :=
  if negb (Origin_IsValid (ru_Origin r))
  then Err (Errorf "invalid origin %q" [ArgS (ru_Origin r)])
  else
  match compile_glob (ru_ToolPattern r) with
  | Err e => Err (Wrapf "invalid tool pattern %q: %w" [ArgS (ru_ToolPattern r)] e)
  | Ok tool =>
    match optional_pattern (ru_ContentPattern r) (compile (ru_ContentPattern r))
            "invalid content pattern %q: %w" with
    | Err e => Err e
    | Ok content =>
      match optional_pattern (ru_OriginName r) (compile_glob (ru_OriginName r))
              "invalid origin_name pattern %q: %w" with
      | Err e => Err e
      | Ok originName => Ok (mkCompiled tool content originName)
      end
    end
  end.

Definition IsExpired (now : Z) (r : Rule) : bool :=
  match ru_ExpiresAt r with None => false | Some t => t <? now end.

Definition IsActive (now : Z) (r : Rule) : bool := ru_Enabled r && negb (IsExpired now r).

Definition optional_match (re : option regexp) (s : string) : bool :=
  match re with None => true | Some re => MatchString re s end.

Definition Matches (now : Z) (req : ToolRequest) (r : Rule) : bool :=
  if negb (IsActive now r) then false
  else match Compile r with
  | Err _ => false
  | Ok c =>
    if (ru_AgentID r !=? "") && (ru_AgentID r !=? rq_AgentID req) then false
    else if (ru_Category r !=? "") && (ru_Category r !=? rq_Category req) then false
    else if (ru_Origin r !=? "") && (ru_Origin r !=? rq_Origin req) then false
    else if negb (optional_match (co_originName c) (rq_OriginName req)) then false
    else if negb (MatchString (co_tool c) (rq_ToolName req)) then false
    else optional_match (co_content c) (rq_Content req)
  end.

(** ** Rule sets *)

Definition RulesForScope (scope : string) (rs : RuleSet) : list Rule := default [] (rs !! scope).

Definition RuleSet_AddRule (rule : Rule) (rs : RuleSet) : RuleSet * option error :=
  match Compile rule with
  | Err e => (rs, Some e)
  | Ok _ => (<[ru_Scope rule := RulesForScope (ru_Scope rule) rs ++ [rule]]> rs, None)
  end.

(** The rules of a scope before and after the first one with the identifier. *)
Fixpoint split_rule (ruleID : string) (rules : list Rule) : option (list Rule * Rule * list Rule) :=
  match rules with
  | [] => None
  | r :: rules =>
    if ru_ID r ==? ruleID then Some ([], r, rules)
    else match split_rule ruleID rules with
         | Some (l, x, l') => Some (r :: l, x, l')
         | None => None
         end
  end.

(** [range rs.rules] visits the scopes in an order that Go leaves open. *)
Fixpoint RuleSet_RemoveRule (order : list string) (ruleID : string) (rs : RuleSet)
  : RuleSet * bool :=
  match order with
  | [] => (rs, false)
  | scope :: order =>
    match split_rule ruleID (RulesForScope scope rs) with
    | Some (l, _, l') => (<[scope := l ++ l']> rs, true)
    | None => RuleSet_RemoveRule order ruleID rs
    end
  end.

Fixpoint RuleSet_GetRule (order : list string) (ruleID : string) (rs : RuleSet) : option Rule :=
  match order with
  | [] => None
  | scope :: order =>
    match split_rule ruleID (RulesForScope scope rs) with
    | Some (_, r, _) => Some r
    | None => RuleSet_GetRule order ruleID rs
    end
  end.

Definition AllRules (rs : RuleSet) : list Rule :=
  flat_map (fun scope => RulesForScope scope rs) AllScopes.

Definition MatchingRules (now : Z) (req : ToolRequest) (rs : RuleSet) : list Rule :=
  flat_map (fun scope => List.filter (Matches now req) (RulesForScope scope rs)) AllScopes.
End Matching.

(** ** The evaluation order *)

Record EvaluationRule := mkEvaluationRule {
  ev_ID : string;
  ev_Behavior : string;
  ev_ScopePrecedence : Z;
  ev_Specificity : Z;
  ev_Immutable : bool
}.

Record EvaluationResult := mkEvaluationResult {
  es_Behavior : string;
  es_Winner : Z;
  es_Order : list nat;
  es_Matched : bool;
  es_ImmutableDeny : bool
}.


Definition immutable_deny (r : EvaluationRule) : bool :=
  ev_Immutable r && (ev_Behavior r ==? BehaviorDeny).

(** The comparison of [sort.SliceStable], on an index and its rule. *)
Definition evaluates_before : nat * EvaluationRule -> nat * EvaluationRule -> bool :=
  by_key (fun x y => x && negb y) (fun p => immutable_deny p.2)
  (by_key (fun x y => y <? x) (fun p => ev_ScopePrecedence p.2)
  (by_key (fun x y => y <? x) (fun p => Priority (ev_Behavior p.2))
  (by_key (fun x y => y <? x) (fun p => ev_Specificity p.2)
  (by_key String.ltb (fun p => ev_ID p.2)
  (fun x y => Z.of_nat x.1 <? Z.of_nat y.1))))).

Definition indexed {A} (l : list A) : list (nat * A) := zip (seq 0 (length l)) l.

Definition ordered_rules (rules : list EvaluationRule) : list (nat * EvaluationRule) :=
  sort_by evaluates_before
    (List.filter (fun p => Behavior_IsValid (ev_Behavior p.2)) (indexed rules)).

Definition ResolveEvaluation (defaultBehavior : string) (rules : list EvaluationRule)
  : EvaluationResult :=
  match ordered_rules rules with
  | [] => mkEvaluationResult defaultBehavior (-1) [] false false
  | (winner, winningRule) :: _ =>
    mkEvaluationResult (ev_Behavior winningRule) (Z.of_nat winner)
      (map fst (ordered_rules rules)) true (immutable_deny winningRule)
  end.

(** ** Tool categories *)

Record Classifier := mkClassifier {
  cl_patterns : list (string * string);
  cl_overrides : gmap string string;
  cl_riskMapping : gmap string string
}.

#[export] Instance set_cl_overrides : Setter cl_overrides := fun v r =>
  mkClassifier (cl_patterns r) v (cl_riskMapping r).
#[export] Instance set_cl_riskMapping : Setter cl_riskMapping := fun v r =>
  mkClassifier (cl_patterns r) (cl_overrides r) v.

Definition RiskLow : string := "low".
Definition RiskMedium : string := "medium".
Definition RiskHigh : string := "high".
Definition RiskCritical : string := "critical".

(** [registerDefaults]; every pattern compiles ([default_patterns_compile]). *)
Definition default_patterns : list (string * string) :=
  map (fun p => (p, CategoryMCP)) ["^mcp:"; "^mcp_"]
  ++ map (fun p => (p, CategoryPlugin)) ["^plugin:"; "^plugin_"]
  ++ map (fun p => (p, CategoryExec))
       ["^bash$"; "^shell$"; "^exec$"; "^run$"; "^command$"; "^powershell$"; "^repl$"; "^terminal$"]
  ++ map (fun p => (p, CategoryFilesystem))
       ["^read"; "^write"; "^file"; "^edit"; "^create"; "^delete"; "^mkdir"; "^rmdir"; "^list_dir";
        "^glob"; "^grep"; "^search"]
  ++ map (fun p => (p, CategoryNetwork))
       ["^http"; "^fetch"; "^curl"; "^wget"; "^api"; "^web"; "^request"; "^download"; "^upload"]
  ++ map (fun p => (p, CategoryRemoteAgent)) ["^agent"; "^remote"; "^delegate"; "^spawn"].

Definition NewClassifier : Classifier :=
  mkClassifier default_patterns ∅
    {[CategoryBuiltin := RiskMedium; CategoryPlugin := RiskMedium; CategoryMCP := RiskMedium;
      CategoryExec := RiskHigh; CategoryNetwork := RiskMedium; CategoryFilesystem := RiskMedium;
      CategoryRemoteAgent := RiskHigh]}.

Section Classify.
Context `{R : Regexp}.

Definition pattern_matches (pattern s : string) : bool :=
  match compile pattern with Ok re => MatchString re s | Err _ => false end.

Definition Classify (toolName : string) (c : Classifier) : string :=
  match cl_overrides c !! toolName with
  | Some cat => cat
  | None =>
    match List.find (fun p => pattern_matches p.1 (ToLower toolName)) (cl_patterns c) with
    | Some p => p.2
    | None => CategoryBuiltin
    end
  end.
End Classify.

Definition SetOverride (toolName category : string) (c : Classifier) : Classifier :=
  c <| cl_overrides := <[toolName := category]> (cl_overrides c) |>.
Definition RemoveOverride (toolName : string) (c : Classifier) : Classifier :=
  c <| cl_overrides := delete toolName (cl_overrides c) |>.
Definition GetRiskLevel (category : string) (c : Classifier) : string :=
  default RiskMedium (cl_riskMapping c !! category).
Definition SetRiskLevel (category level : string) (c : Classifier) : Classifier :=
  c <| cl_riskMapping := <[category := level]> (cl_riskMapping c) |>.

Example default_patterns_compile :
  forallb (fun p => is_ok (compile p.1)) default_patterns = true.
Proof. vm_compute. reflexivity. Qed.

Example classified :
  map (fun t => Classify t NewClassifier) ["Bash"; "mcp:files"; "bash_exec"; "grep"; "web_fetch"; "x"]
  = [CategoryExec; CategoryMCP; CategoryBuiltin; CategoryFilesystem; CategoryNetwork; CategoryBuiltin].
Proof. vm_compute. reflexivity. Qed.
