(* ===== verification/PermissionEngine.v ===== *)
(** The permission engine: internal/permissions/engine.go, with the log of
    internal/permissions/audit.go.

    Every method of the engine holds its lock from beginning to end and is one
    definition, so a concurrent history is a sequence of them.  A call reads the
    clock once here ([now]).  The log is the list of all events recorded, whether
    still buffered or written out. *)

From Stdlib Require Import Ascii String.
From stdpp Require Import base tactics decidable list gmap strings pretty.
From S2P Require Import Prelude Runes Regexp Sorting Permissions Duration.

Record EngineConfig := mkEngineConfig {
  gc_DefaultBehavior : string;
  gc_AuditEnabled : bool;
  gc_AuditPath : string;
  gc_CacheEnabled : bool;
  gc_CacheTTL : Z;
  gc_RulesPath : string;
  gc_AutoClassify : bool
}.

#[export] Instance set_gc_DefaultBehavior : Setter gc_DefaultBehavior := fun v r =>
  mkEngineConfig v (gc_AuditEnabled r) (gc_AuditPath r) (gc_CacheEnabled r) (gc_CacheTTL r)
    (gc_RulesPath r) (gc_AutoClassify r).
#[export] Instance set_gc_AuditEnabled : Setter gc_AuditEnabled := fun v r =>
  mkEngineConfig (gc_DefaultBehavior r) v (gc_AuditPath r) (gc_CacheEnabled r) (gc_CacheTTL r)
    (gc_RulesPath r) (gc_AutoClassify r).
#[export] Instance set_gc_CacheEnabled : Setter gc_CacheEnabled := fun v r =>
  mkEngineConfig (gc_DefaultBehavior r) (gc_AuditEnabled r) (gc_AuditPath r) v (gc_CacheTTL r)
    (gc_RulesPath r) (gc_AutoClassify r).
#[export] Instance set_gc_CacheTTL : Setter gc_CacheTTL := fun v r =>
  mkEngineConfig (gc_DefaultBehavior r) (gc_AuditEnabled r) (gc_AuditPath r) (gc_CacheEnabled
    r) v (gc_RulesPath r) (gc_AutoClassify r).

Definition engine_config (behavior : string) : EngineConfig :=
  mkEngineConfig behavior true "audit" true (5 * minute) "" true.

Definition DefaultEngineConfig : EngineConfig := engine_config BehaviorAsk.
Definition AutonomousEngineConfig : EngineConfig := engine_config BehaviorAllow.
Definition PermissiveEngineConfig : EngineConfig := engine_config BehaviorAllow.
Definition RestrictiveEngineConfig : EngineConfig := engine_config BehaviorDeny.

(** A text built by [fmt.Sprintf] with [%q] is kept as its format string and its
    arguments, like an error. *)
Abbreviation message := error.
Definition text_of (s : string) : message := Errorf s [].

(** ** The log *)

Definition AuditEventDecision : string := "decision".
Definition AuditEventRuleAdded : string := "rule_added".
Definition AuditEventRuleRemoved : string := "rule_removed".

Record AuditEvent := mkAuditEvent {
  ae_ID : string;
  ae_Type : string;
  ae_Timestamp : Z;
  ae_ToolName : string;
  ae_Category : string;
  ae_Origin : string;
  ae_OriginName : string;
  ae_Behavior : string;
  ae_Reason : message;
  ae_RuleID : string;
  ae_UserID : string;
  ae_ProjectID : string;
  ae_AgentID : string;
  ae_SessionID : string;
  ae_RunID : string;
  ae_ExecutionID : string;
  ae_Details : gomap any
}.

#[export] Instance set_ae_ID : Setter ae_ID := fun v r =>
  mkAuditEvent v (ae_Type r) (ae_Timestamp r) (ae_ToolName r) (ae_Category r) (ae_Origin r)
    (ae_OriginName r) (ae_Behavior r) (ae_Reason r) (ae_RuleID r) (ae_UserID r) (ae_ProjectID
    r) (ae_AgentID r) (ae_SessionID r) (ae_RunID r) (ae_ExecutionID r) (ae_Details r).
Record Auditor := mkAuditor {
  au_counter : Z;
  au_events : list AuditEvent
}.


Definition NewAuditor : Auditor := mkAuditor 0 [].

Definition LogEvent (event : AuditEvent) (a : Auditor) : Auditor * string :=
  let id := add64 (au_counter a) 1 in
  let event := event <| ae_ID := "audit-" +:+ pretty (ae_Timestamp event) +:+ "-" +:+ pretty id |> in
  (mkAuditor id (au_events a ++ [event]), ae_ID event).

Definition rule_event (now : Z) (type ruleID : string) (details : gomap any) : AuditEvent :=
  mkAuditEvent "" type now "" "" "" "" "" (text_of "") ruleID "" "" "" "" "" "" details.

Definition truncate (s : string) (maxLen : Z) : string :=
  if Z.of_nat (String.length s) <=? maxLen then s
  else String.substring 0 (Z.to_nat (maxLen - 3)) s +:+ "...".

(** ** Decisions *)

Record Decision := mkDecision {
  dn_Behavior : string;
  dn_Reason : message;
  dn_MatchedRules : list Rule;
  dn_Scope : string;
  dn_Timestamp : Z;
  dn_AuditID : string
}.

#[export] Instance set_dn_Behavior : Setter dn_Behavior := fun v r =>
  mkDecision v (dn_Reason r) (dn_MatchedRules r) (dn_Scope r) (dn_Timestamp r) (dn_AuditID r).
#[export] Instance set_dn_Reason : Setter dn_Reason := fun v r =>
  mkDecision (dn_Behavior r) v (dn_MatchedRules r) (dn_Scope r) (dn_Timestamp r) (dn_AuditID
    r).
#[export] Instance set_dn_MatchedRules : Setter dn_MatchedRules := fun v r =>
  mkDecision (dn_Behavior r) (dn_Reason r) v (dn_Scope r) (dn_Timestamp r) (dn_AuditID r).
#[export] Instance set_dn_Scope : Setter dn_Scope := fun v r =>
  mkDecision (dn_Behavior r) (dn_Reason r) (dn_MatchedRules r) v (dn_Timestamp r) (dn_AuditID
    r).
#[export] Instance set_dn_AuditID : Setter dn_AuditID := fun v r =>
  mkDecision (dn_Behavior r) (dn_Reason r) (dn_MatchedRules r) (dn_Scope r) (dn_Timestamp r) v.

Definition IsAllowed (d : Decision) : bool := dn_Behavior d ==? BehaviorAllow.
Definition RequiresConfirmation (d : Decision) : bool := dn_Behavior d ==? BehaviorAsk.
Definition IsDenied (d : Decision) : bool := dn_Behavior d ==? BehaviorDeny.

Definition decision_event (now : Z) (req : ToolRequest) (d : Decision) : AuditEvent :=
  mkAuditEvent "" AuditEventDecision now (rq_ToolName req) (rq_Category req) (rq_Origin req)
    (rq_OriginName req) (dn_Behavior d) (dn_Reason d) "" (rq_UserID req) (rq_ProjectID req)
    (rq_AgentID req) (rq_SessionID req) (rq_RunID req) (rq_ExecutionID req)
    (Some {["content" := VString (truncate (rq_Content req) 200);
            "matched_rules" := VInt (Z.of_nat (length (dn_MatchedRules d)));
            "scope" := VString (dn_Scope d)]}).

Definition LogDecision (now : Z) (req : ToolRequest) (d : Decision) (a : Auditor)
  : Auditor * string := LogEvent (decision_event now req d) a.

(** ** The engine *)

Record agentAllowlist := mkagentAllowlist {
  al_toolPatterns : list string;
  al_categories : gset string
}.

Record cachedDecision := mkcachedDecision {
  ca_Decision : Decision;
  ca_ExpiresAt : Z
}.

Record Engine := mkEngine {
  en_cfg : EngineConfig;
  en_ruleSet : RuleSet;
  en_auditor : option Auditor;
  en_cache : gmap string cachedDecision;
  en_classify : option Classifier;
  en_allowlists : gmap string agentAllowlist
}.

#[export] Instance set_en_cfg : Setter en_cfg := fun v r =>
  mkEngine v (en_ruleSet r) (en_auditor r) (en_cache r) (en_classify r) (en_allowlists r).
#[export] Instance set_en_ruleSet : Setter en_ruleSet := fun v r =>
  mkEngine (en_cfg r) v (en_auditor r) (en_cache r) (en_classify r) (en_allowlists r).
#[export] Instance set_en_auditor : Setter en_auditor := fun v r =>
  mkEngine (en_cfg r) (en_ruleSet r) v (en_cache r) (en_classify r) (en_allowlists r).
#[export] Instance set_en_cache : Setter en_cache := fun v r =>
  mkEngine (en_cfg r) (en_ruleSet r) (en_auditor r) v (en_classify r) (en_allowlists r).
#[export] Instance set_en_classify : Setter en_classify := fun v r =>
  mkEngine (en_cfg r) (en_ruleSet r) (en_auditor r) (en_cache r) v (en_allowlists r).
#[export] Instance set_en_allowlists : Setter en_allowlists := fun v r =>
  mkEngine (en_cfg r) (en_ruleSet r) (en_auditor r) (en_cache r) (en_classify r) v.

Definition NewEngine (cfg : EngineConfig) : Engine :=
  mkEngine cfg ∅ (if gc_AuditEnabled cfg then Some NewAuditor else None) ∅
    (if gc_AutoClassify cfg then Some NewClassifier else None) ∅.

Definition clearCache (e : Engine) : Engine := e <| en_cache := ∅ |>.
Definition ClearCache : Engine -> Engine := clearCache.

Definition AuditEnabled (e : Engine) : bool := match en_auditor e with Some _ => true | None => false end.

Definition log_event (event : AuditEvent) (e : Engine) : Engine :=
  match en_auditor e with
  | None => e
  | Some a => e <| en_auditor := Some (LogEvent event a).1 |>
  end.

(** *** The cache *)

Definition content_hash (content : string) : Z :=
  fold_left (fun h c => add64 (mul64 31 h) c) (runes content) 0.

Definition hex_digit (n : Z) : string :=
  String (char (if n <? 10 then 48 + n else 87 + n)) "".

(** [%x] of an int: a sign and at most sixteen digits. *)
Fixpoint hex_digits (fuel : nat) (n : Z) (acc : string) : string :=
  match fuel with
  | O => acc
  | S fuel => if n <? 16 then hex_digit n +:+ acc
              else hex_digits fuel (n / 16) (hex_digit (n mod 16) +:+ acc)
  end.

Definition hex (n : Z) : string :=
  if n <? 0 then "-" +:+ hex_digits 17 (- n) "" else hex_digits 17 n "".

Definition cacheKey (req : ToolRequest) : string :=
  let contentHash := if rq_Content req ==? "" then "" else hex (content_hash (rq_Content req)) in
  rq_ToolName req +:+ ":" +:+ rq_Category req +:+ ":" +:+ rq_Origin req +:+ ":"
  +:+ rq_OriginName req +:+ ":" +:+ rq_UserID req +:+ ":" +:+ rq_ProjectID req +:+ ":"
  +:+ rq_AgentID req +:+ ":" +:+ rq_SessionID req +:+ ":" +:+ contentHash.

Definition getCached (now : Z) (key : string) (e : Engine) : Engine * option Decision :=
  match en_cache e !! key with
  | None => (e, None)
  | Some cached =>
    if ca_ExpiresAt cached <? now
    then (e <| en_cache := delete key (en_cache e) |>, None)
    else (e, Some (ca_Decision cached))
  end.

Definition setCached (now : Z) (key : string) (d : Decision) (e : Engine) : Engine :=
  e <| en_cache := <[key := mkcachedDecision d (now + gc_CacheTTL (en_cfg e))]> (en_cache e) |>.

(** *** Decisions *)

Definition permissionRuleSpecificity (rule : Rule) : Z :=
  let one (c : bool) := if c then 1 else 0 in
  one (ru_AgentID rule !=? "") + one (ru_Category rule !=? "") + one (ru_Origin rule !=? "")
  + one (ru_OriginName rule !=? "") + one (ru_ContentPattern rule !=? "")
  + one ((ru_ToolPattern rule !=? "") && (ru_ToolPattern rule !=? "*")).

Definition candidate (rule : Rule) : EvaluationRule :=
  mkEvaluationRule (ru_ID rule) (ru_Behavior rule) (Precedence (ru_Scope rule))
    (permissionRuleSpecificity rule) (ru_Immutable rule).

(** [rules[index]] for each index of the order; the indices are those of rules. *)
Definition orderPermissionRules (rules : list Rule) (order : list nat) : list Rule :=
  omap (fun i => rules !! i) order.

Definition cloneToolRequest (now : Z) (req : option ToolRequest) : ToolRequest :=
  match req with
  | None => NewToolRequest now "" ""
  | Some req => req <| rq_Metadata := Some (map_read (rq_Metadata req)) |>
  end.

Section Engine.
Context `{R : Regexp}.

Definition permits (a : option agentAllowlist) (req : ToolRequest) : bool :=
  match a with
  | None => true
  | Some a =>
    if (rq_Category req !=? "") && bool_decide (rq_Category req ∈ al_categories a) then true
    else existsb (fun p => match compile_glob p with
                           | Ok re => MatchString re (rq_ToolName req)
                           | Err _ => false
                           end) (al_toolPatterns a)
  end.

Definition makeDecision (now : Z) (req : ToolRequest) (matches : list Rule) (e : Engine) : Decision :=
  let resolved := ResolveEvaluation (gc_DefaultBehavior (en_cfg e)) (map candidate matches) in
  let orderedMatches := orderPermissionRules matches (es_Order resolved) in
  let topRule := matches !! Z.to_nat (es_Winner resolved) in
  let decide_by behavior scope reason rules :=
    mkDecision behavior reason rules scope now "" in
  match es_ImmutableDeny resolved, topRule with
  | true, Some topRule =>
    decide_by BehaviorDeny (ru_Scope topRule)
      (Errorf "immutable safety rule %q denies this operation (non-overridable)" [ArgS (ru_ID topRule)])
      orderedMatches
  | _, _ =>
    if negb (permits (en_allowlists e !! rq_AgentID req) req)
    then decide_by BehaviorDeny ""
           (Errorf "tool %q is not in the allowlist for agent %q"
              [ArgS (rq_ToolName req); ArgS (rq_AgentID req)])
           orderedMatches
    else
    match es_Matched resolved, topRule with
    | true, Some topRule =>
      decide_by (es_Behavior resolved) (ru_Scope topRule)
        (Errorf "matched rule %q (scope: %s, pattern: %s)"
           [ArgS (ru_ID topRule); ArgS (ru_Scope topRule); ArgS (ru_ToolPattern topRule)])
        orderedMatches
    | _, _ => decide_by (es_Behavior resolved) "" (text_of "no matching rules; using default behavior") []
    end
  end.

(** The request as it is evaluated: a copy, with a category. *)
Definition evaluated (now : Z) (req : option ToolRequest) (e : Engine) : ToolRequest :=
  let req := cloneToolRequest now req in
  match en_classify e with
  | Some c => if rq_Category req ==? "" then req <| rq_Category := Classify (rq_ToolName req) c |>
              else req
  | None => req
  end.

(** The part of [Evaluate] after a cache miss. *)
Definition decide_request (now : Z) (req : ToolRequest) (e : Engine) : Engine * Decision :=
  let decision := makeDecision now req (MatchingRules now req (en_ruleSet e)) e in
  let '(e, decision) :=
    match en_auditor e with
    | None => (e, decision)
    | Some a =>
      let '(a, id) := LogDecision now req decision a in
      (e <| en_auditor := Some a |>, decision <| dn_AuditID := id |>)
    end in
  (if gc_CacheEnabled (en_cfg e) then setCached now (cacheKey req) decision e else e, decision).

Definition Evaluate (now : Z) (req : option ToolRequest) (e : Engine) : Engine * Decision :=
  let req := evaluated now req e in
  if gc_CacheEnabled (en_cfg e) then
    let '(e, cached) := getCached now (cacheKey req) e in
    match cached with
    | Some d => (e, d)
    | None => decide_request now req e
    end
  else decide_request now req e.

Definition EvaluatePreview (now : Z) (req : option ToolRequest) (e : Engine) : Decision :=
  let req := evaluated now req e in
  makeDecision now req (MatchingRules now req (en_ruleSet e)) e.

(** [EvaluateBatch]: the calls of [Evaluate] one after the other, each at its
    own time. *)
Fixpoint EvaluateBatch (requests : list (Z * option ToolRequest)) (e : Engine)
  : Engine * list Decision :=
  match requests with
  | [] => (e, [])
  | (now, req) :: requests =>
    let '(e, d) := Evaluate now req e in
    let '(e, ds) := EvaluateBatch requests e in
    (e, d :: ds)
  end.

(** *** Rules *)

Definition AddRule (now : Z) (rule : option Rule) (e : Engine) : Engine * option error :=
  match rule with
  | None => (e, Some (Errorf "rule cannot be nil" []))
  | Some rule =>
    match RuleSet_AddRule rule (en_ruleSet e) with
    | (_, Some err) => (e, Some err)
    | (rs, None) =>
      (log_event (rule_event now AuditEventRuleAdded (ru_ID rule)
         (Some {["scope" := VString (ru_Scope rule); "behavior" := VString (ru_Behavior rule);
                 "tool_pattern" := VString (ru_ToolPattern rule)]}))
         (clearCache (e <| en_ruleSet := rs |>)), None)
    end
  end.

(** The two orders are those in which [GetRule] and [RemoveRule] of the rule set
    visit the scopes. *)
Definition RemoveRule (order order' : list string) (now : Z) (ruleID : string) (e : Engine)
  : Engine * bool :=
  if match RuleSet_GetRule order ruleID (en_ruleSet e) with
     | Some rule => ru_Immutable rule
     | None => false
     end then (e, false)
  else
  match RuleSet_RemoveRule order' ruleID (en_ruleSet e) with
  | (_, false) => (e, false)
  | (rs, true) =>
    (log_event (rule_event now AuditEventRuleRemoved ruleID None)
       (clearCache (e <| en_ruleSet := rs |>)), true)
  end.

Definition GetRule (order : list string) (ruleID : string) (e : Engine) : option Rule :=
  RuleSet_GetRule order ruleID (en_ruleSet e).

Definition ListRules (scope : string) (e : Engine) : list Rule :=
  if scope ==? "" then AllRules (en_ruleSet e) else RulesForScope scope (en_ruleSet e).

(** [for _, rule := range rules { if err := e.AddRule(rule); err != nil { return err } }] *)
Fixpoint add_rules (now : Z) (rules : list Rule) (e : Engine) : Engine * option error :=
  match rules with
  | [] => (e, None)
  | r :: rules =>
    match AddRule now (Some r) e with
    | (e, Some err) => (e, Some err)
    | (e, None) => add_rules now rules e
    end
  end.

(** *** Allowlists *)

Fixpoint check_patterns (agentID : string) (patterns : list string) : option error :=
  match patterns with
  | [] => None
  | p :: patterns =>
    match compile_glob p with
    | Err err => Some (Wrapf "invalid allowlist pattern %q for agent %s: %w" [ArgS p; ArgS agentID] err)
    | Ok _ => check_patterns agentID patterns
    end
  end.

Definition SetAgentAllowlist (agentID : string) (tools categories : list string) (e : Engine)
  : Engine * option error :=
  if Nat.eqb (length tools) 0 && Nat.eqb (length categories) 0
  then (clearCache (e <| en_allowlists := delete agentID (en_allowlists e) |>), None)
  else
  match check_patterns agentID tools with
  | Some err => (e, Some err)
  | None =>
    let al := mkagentAllowlist tools
                (list_to_set (List.filter (fun cat => cat !=? "") categories)) in
    (clearCache (e <| en_allowlists := <[agentID := al]> (en_allowlists e) |>), None)
  end.

(** *** Built-in rules *)

Section Rules.
Variable now : Z.

Definition rule (id scope behavior toolPattern : string) : Rule := NewRule now id scope behavior toolPattern.

Definition DefaultGlobalRules : list Rule :=
  [ WithDescription "Allow read-only filesystem operations"
      (WithContentPattern "^read|^get|^list|^show"
        (WithCategory CategoryFilesystem (rule "global-allow-read" ScopeGlobal BehaviorAllow "*")));
    WithDescription "Require confirmation for write operations"
      (WithContentPattern "^write|^create|^delete|^update"
        (WithCategory CategoryFilesystem (rule "global-ask-write" ScopeGlobal BehaviorAsk "*")));
    WithDescription "Require confirmation for shell commands"
      (WithCategory CategoryExec (rule "global-ask-exec" ScopeGlobal BehaviorAsk "bash"));
    WithDescription "Require confirmation for command execution"
      (WithCategory CategoryExec (rule "global-ask-exec-cmd" ScopeGlobal BehaviorAsk "exec"));
    WithDescription "Block recursive deletion from root"
      (WithContentPattern "rm\s+-rf\s+/" (rule "global-deny-rm-rf" ScopeGlobal BehaviorDeny "bash"));
    WithDescription "Block sudo commands"
      (WithContentPattern "^sudo\s+" (rule "global-deny-sudo" ScopeGlobal BehaviorDeny "bash"));
    WithDescription "Require confirmation for network operations"
      (WithCategory CategoryNetwork (rule "global-ask-network" ScopeGlobal BehaviorAsk "*"));
    WithDescription "Require confirmation for MCP tools"
      (WithOrigin ToolOriginMCP (rule "global-ask-mcp" ScopeGlobal BehaviorAsk "*"));
    WithDescription "Require confirmation for legacy MCP-category tools"
      (WithCategory CategoryMCP (rule "global-ask-mcp-category" ScopeGlobal BehaviorAsk "mcp:*"));
    WithDescription "Require confirmation for remote agent operations"
      (WithCategory CategoryRemoteAgent (rule "global-ask-remote" ScopeGlobal BehaviorAsk "*")) ].

Definition safety_rule (id pattern description : string) : Rule :=
  AsImmutable (WithDescription description
    (WithContentPattern pattern (rule id ScopeGlobal BehaviorDeny "bash"))).

Definition CriticalSafetyRules : list Rule :=
  [ safety_rule "safety-deny-rm-rf-root"
      "rm\s+(-[a-zA-Z]*r[a-zA-Z]*f|(-[a-zA-Z]*f[a-zA-Z]*r))\s+/[^.]"
      "Block recursive deletion from root filesystem";
    safety_rule "safety-deny-mkfs" "mkfs\s" "Block filesystem creation commands";
    safety_rule "safety-deny-fdisk" "fdisk\s" "Block partition table modifications";
    safety_rule "safety-deny-dd-disk" "dd\s+.*of=/dev/[sh]d" "Block direct disk writes with dd";
    safety_rule "safety-deny-dd-zero" "dd\s+.*if=/dev/zero.*of=/dev/" "Block zeroing disk devices";
    safety_rule "safety-deny-chmod-777-system" "chmod\s+(-[a-zA-Z]*R[a-zA-Z]*)?\s*777\s+/"
      "Block recursive chmod 777 on root";
    safety_rule "safety-deny-rm-etc" "rm\s+.*/(etc|boot|usr|lib|bin|sbin)/"
      "Block deletion of system directories" ].

Definition ask_rule (id pattern description : string) : Rule :=
  WithDescription description (WithContentPattern pattern (rule id ScopeGlobal BehaviorAsk "bash")).

Definition PermissiveRules : list Rule :=
  CriticalSafetyRules ++
  [ ask_rule "permissive-ask-sudo" "^sudo\s+" "Confirm sudo commands";
    ask_rule "permissive-ask-curl-sh" "(curl|wget).*\|\s*(ba)?sh" "Confirm piping downloads to shell";
    ask_rule "permissive-ask-ssh" "(>|>>)\s*~?/?.*\.ssh/" "Confirm SSH directory modifications";
    ask_rule "permissive-ask-shell-config" "(>|>>)\s*~?/?\.(bashrc|zshrc|profile|bash_profile)"
      "Confirm shell configuration changes";
    ask_rule "permissive-ask-force-push" "git\s+push\s+.*--force" "Confirm force push";
    ask_rule "permissive-ask-git-reset" "git\s+reset\s+--hard" "Confirm hard reset" ].

Definition LoadDefaultRules (e : Engine) : Engine * option error := add_rules now DefaultGlobalRules e.
Definition LoadCriticalSafetyRules (e : Engine) : Engine * option error :=
  add_rules now CriticalSafetyRules e.
Definition LoadPermissiveRules (e : Engine) : Engine * option error := add_rules now PermissiveRules e.

Definition NewAutonomousEngine : Engine := (LoadCriticalSafetyRules (NewEngine AutonomousEngineConfig)).1.
Definition NewPermissiveEngine : Engine := (LoadPermissiveRules (NewEngine PermissiveEngineConfig)).1.
Definition NewRestrictiveEngine : Engine := (LoadDefaultRules (NewEngine RestrictiveEngineConfig)).1.
Definition NewStandardEngine : Engine := (LoadDefaultRules (NewEngine DefaultEngineConfig)).1.

(** *** Overrides for a session or an agent *)

Definition AllowAllForSession (e : Engine) : Engine * option error :=
  AddRule now (Some (WithDescription "Session override: allow all operations"
    (rule "session-allow-all" ScopeSession BehaviorAllow "*"))) e.

Definition AllowCategoryForSession (category : string) (e : Engine) : Engine * option error :=
  AddRule now (Some (WithDescription ("Session override: allow all " +:+ category +:+ " operations")
    (WithCategory category (rule ("session-allow-" +:+ category) ScopeSession BehaviorAllow "*")))) e.

Definition AllowToolForSession (toolPattern : string) (e : Engine) : Engine * option error :=
  AddRule now (Some (WithDescription ("Session override: allow " +:+ toolPattern)
    (rule ("session-allow-" +:+ toolPattern) ScopeSession BehaviorAllow toolPattern))) e.

Definition AllowCommandForSession (commandPattern : string) (e : Engine) : Engine * option error :=
  AddRule now (Some (WithDescription ("Session override: allow commands matching " +:+ commandPattern)
    (WithContentPattern commandPattern
      (rule "session-allow-cmd" ScopeSession BehaviorAllow "bash")))) e.

Definition agent_rule (agentID suffix behavior toolPattern : string) : Rule :=
  ForAgent agentID (rule ("agent-" +:+ agentID +:+ "-" +:+ suffix) ScopeAgent behavior toolPattern).

Definition AllowAllForAgent (agentID : string) (e : Engine) : Engine * option error :=
  AddRule now (Some (WithDescription ("Allow all operations for agent " +:+ agentID)
    (agent_rule agentID "allow-all" BehaviorAllow "*"))) e.

Definition DenyAllForAgent (agentID : string) (e : Engine) : Engine * option error :=
  AddRule now (Some (WithDescription ("Deny all operations for agent " +:+ agentID)
    (agent_rule agentID "deny-all" BehaviorDeny "*"))) e.

Definition AllowCategoryForAgent (agentID category : string) (e : Engine) : Engine * option error :=
  AddRule now (Some (WithDescription ("Allow " +:+ category +:+ " operations for agent " +:+ agentID)
    (WithCategory category (agent_rule agentID ("allow-" +:+ category) BehaviorAllow "*")))) e.

Definition DenyCategoryForAgent (agentID category : string) (e : Engine) : Engine * option error :=
  AddRule now (Some (WithDescription ("Deny " +:+ category +:+ " operations for agent " +:+ agentID)
    (WithCategory category (agent_rule agentID ("deny-" +:+ category) BehaviorDeny "*")))) e.

Definition AllowToolForAgent (agentID toolPattern : string) (e : Engine) : Engine * option error :=
  AddRule now (Some (WithDescription ("Allow " +:+ toolPattern +:+ " for agent " +:+ agentID)
    (agent_rule agentID ("allow-" +:+ toolPattern) BehaviorAllow toolPattern))) e.

Definition AskForAgent (agentID : string) (e : Engine) : Engine * option error :=
  AddRule now (Some (WithDescription
    ("Require confirmation for all operations from agent " +:+ agentID)
    (agent_rule agentID "ask-all" BehaviorAsk "*"))) e.

(** [if err := step(); err != nil { return err }; next()] *)
Definition and_then (step next : Engine -> Engine * option error) (e : Engine) : Engine * option error :=
  match step e with (e, Some err) => (e, Some err) | (e, None) => next e end.

Definition ConfigureAgentProfile (agentID profile : string) (e : Engine) : Engine * option error :=
  go_switch profile
    [(["autonomous"], AllowAllForAgent agentID e);
     (["permissive"],
      and_then (AllowAllForAgent agentID)
        (AddRule now (Some (WithDescription ("Ask before exec for agent " +:+ agentID)
           (WithCategory CategoryExec (agent_rule agentID "ask-exec" BehaviorAsk "*"))))) e);
     (["restrictive"], AskForAgent agentID e);
     (["readonly"],
      and_then (AllowCategoryForAgent agentID CategoryFilesystem)
        (and_then (DenyCategoryForAgent agentID CategoryExec)
          (AddRule now (Some (WithDescription ("Deny writes for readonly agent " +:+ agentID)
             (WithContentPattern "^write|^create|^delete|^update"
               (agent_rule agentID "deny-write" BehaviorDeny "*")))))) e)]
    (e, Some (Errorf "unknown agent profile: %s" [ArgS profile])).
End Rules.
End Engine.

(** *** Statistics *)

Record EngineStats := mkEngineStats {
  gs_TotalRules : Z;
  gs_RulesByScope : gmap string Z;
  gs_RulesByBehavior : gmap string Z;
  gs_CacheSize : Z;
  gs_AuditEntries : Z
}.

Definition count_by {A} (key : A -> string) (l : list A) (m : gmap string Z) : gmap string Z :=
  fold_left (fun m x => <[key x := add64 (default 0 (m !! key x)) 1]> m) l m.

Definition Stats (e : Engine) : EngineStats :=
  let rules scope := RulesForScope scope (en_ruleSet e) in
  fold_left (fun st scope =>
      mkEngineStats (add64 (gs_TotalRules st) (Z.of_nat (length (rules scope))))
        (<[scope := Z.of_nat (length (rules scope))]> (gs_RulesByScope st))
        (count_by ru_Behavior (rules scope) (gs_RulesByBehavior st))
        (gs_CacheSize st) (gs_AuditEntries st))
    AllScopes
    (mkEngineStats 0 ∅ ∅ (Z.of_nat (size (en_cache e)))
       match en_auditor e with Some a => au_counter a | None => 0 end).
