(* ===== verification/PermissionProps.v ===== *)
(** The permission engine decides by the documented precedence, keeps its safety
    rules and its allowlists, and what its cache does to that. *)

From Stdlib Require Import Ascii String Sorted.
From stdpp Require Import base tactics decidable list gmap strings pretty sorting relations.
From S2P Require Import Prelude Runes Regexp Sorting Permissions Duration PermissionEngine.

(** ** The evaluation order *)

#[export] Instance position_order : WeakOrder (fun x y : nat * EvaluationRule => Z.of_nat x.1 <? Z.of_nat y.1).
Proof. apply (key_order_weak Z.ltb (fun x : nat * EvaluationRule => Z.of_nat x.1)); apply _. Qed.

#[export] Instance evaluates_before_order : WeakOrder evaluates_before.
Proof. unfold evaluates_before. apply _. Qed.

Definition valid_rules (rules : list EvaluationRule) : list (nat * EvaluationRule) :=
  List.filter (fun p => Behavior_IsValid (ev_Behavior p.2)) (indexed rules).

Lemma indexed_lookup {A} (l : list A) i x : (i, x) ∈ indexed l <-> l !! i = Some x.
Proof.
  unfold indexed. rewrite list_elem_of_lookup. split.
  - intros (k & Hk). rewrite lookup_zip_Some in Hk. cbn in Hk. destruct Hk as [Hs Hx].
    apply lookup_seq in Hs as [-> _]. done.
  - intros Hx. exists i. rewrite lookup_zip_Some. cbn. split; [|done].
    apply lookup_seq. split; [done|]. by apply lookup_lt_Some in Hx.
Qed.

Lemma valid_rules_spec rules i r :
  (i, r) ∈ valid_rules rules <-> rules !! i = Some r /\ Behavior_IsValid (ev_Behavior r) = true.
Proof. unfold valid_rules. by rewrite elem_of_filter_b, indexed_lookup. Qed.

(** What it means that a rule is not evaluated before another one. *)
Lemma not_before p w :
  evaluates_before p w = false ->
  (immutable_deny p.2 = true -> immutable_deny w.2 = true)
  /\ (immutable_deny p.2 = immutable_deny w.2 ->
      ev_ScopePrecedence p.2 <= ev_ScopePrecedence w.2
      /\ (ev_ScopePrecedence p.2 = ev_ScopePrecedence w.2 ->
          Priority (ev_Behavior p.2) <= Priority (ev_Behavior w.2))).
Proof.
  unfold evaluates_before, by_key at 1. intros H.
  destruct (decide (immutable_deny p.2 = immutable_deny w.2)) as [E|E].
  2: { destruct (immutable_deny p.2), (immutable_deny w.2); done. }
  split; [congruence|]. intros _. unfold by_key at 1 in H.
  destruct (decide (ev_ScopePrecedence p.2 = ev_ScopePrecedence w.2)) as [Es|Es].
  2: { apply Z.ltb_ge in H. split; [lia|done]. }
  split; [lia|]. intros _. unfold by_key at 1 in H.
  destruct (decide (Priority (ev_Behavior p.2) = Priority (ev_Behavior w.2))); [lia|].
  apply Z.ltb_ge in H. lia.
Qed.

(** The winner of an evaluation with a valid rule. *)
Lemma resolve_winner dflt rules :
  valid_rules rules <> [] ->
  exists i w, (i, w) ∈ valid_rules rules
    /\ ResolveEvaluation dflt rules
       = mkEvaluationResult (ev_Behavior w) (Z.of_nat i) (map fst (ordered_rules rules)) true
           (immutable_deny w)
    /\ forall p, p ∈ valid_rules rules ->
         (immutable_deny p.2 = true -> immutable_deny w = true)
         /\ (immutable_deny p.2 = immutable_deny w ->
             ev_ScopePrecedence p.2 <= ev_ScopePrecedence w
             /\ (ev_ScopePrecedence p.2 = ev_ScopePrecedence w ->
                 Priority (ev_Behavior p.2) <= Priority (ev_Behavior w))).
Proof.
  intros Hne. pose proof (sort_by_perm evaluates_before (valid_rules rules)) as Hp.
  change (sort_by evaluates_before (valid_rules rules)) with (ordered_rules rules) in Hp.
  unfold ResolveEvaluation. destruct (ordered_rules rules) as [|[i w] rest] eqn:E.
  { apply Permutation_nil in Hp. congruence. }
  exists i, w. split; [rewrite <- Hp; by left|]. split; [done|].
  intros p Hin. destruct (sort_by_head evaluates_before _ _ _ E p Hin) as [->|H].
  - cbn. split; [done|]. intros _. split; [lia|done].
  - by apply not_before in H.
Qed.

Lemma resolve_no_rule dflt rules :
  valid_rules rules = [] -> ResolveEvaluation dflt rules = mkEvaluationResult dflt (-1) [] false false.
Proof.
  intros Hn. unfold ResolveEvaluation, ordered_rules. change (List.filter _ _) with (valid_rules rules).
  by rewrite Hn.
Qed.

Lemma immutable_deny_behavior r : immutable_deny r = true -> ev_Behavior r = BehaviorDeny.
Proof. unfold immutable_deny. intros ?. by bool_to_prop. Qed.

(** The flags of the result, and the winner it names. *)
Lemma resolve_flags dflt rules :
  (es_ImmutableDeny (ResolveEvaluation dflt rules) = true
   <-> exists i r, rules !! i = Some r /\ immutable_deny r = true)
  /\ (es_ImmutableDeny (ResolveEvaluation dflt rules) = true ->
      es_Matched (ResolveEvaluation dflt rules) = true)
  /\ (es_Matched (ResolveEvaluation dflt rules) = true -> exists w,
        rules !! Z.to_nat (es_Winner (ResolveEvaluation dflt rules)) = Some w
        /\ es_Behavior (ResolveEvaluation dflt rules) = ev_Behavior w).
Proof.
  assert (forall i r, rules !! i = Some r -> immutable_deny r = true -> (i, r) ∈ valid_rules rules)
    as Hv.
  { intros i r Hi Hr. apply valid_rules_spec. split; [done|].
    by rewrite (immutable_deny_behavior _ Hr). }
  destruct (decide (valid_rules rules = [])) as [Hn|Hne].
  - rewrite (resolve_no_rule _ _ Hn). cbn. split; [|done]. split; [done|].
    intros (i & r & Hi & Hr). specialize (Hv i r Hi Hr). rewrite Hn in Hv. by apply elem_of_nil in Hv.
  - destruct (resolve_winner dflt rules Hne) as (i & w & Hin & -> & Hmax). cbn.
    apply valid_rules_spec in Hin as [Hi Hw]. split; [|split; [done|]].
    + split; [intros Ew; eauto|]. intros (j & r & Hj & Hr). apply (Hmax (j, r)); auto.
    + intros _. exists w. by rewrite Nat2Z.id.
Qed.

(** *** The documented precedence, spelled out *)

Definition final_deny (r : EvaluationRule) : Prop := ev_Immutable r = true /\ ev_Behavior r = BehaviorDeny.

#[export] Instance final_deny_dec r : base.Decision (final_deny r).
Proof. unfold final_deny. apply _. Defined.

(** An immutable deny is above the other rules; then the higher scope, the more
    restrictive behavior, the more specific rule and the smaller identifier decide, and
    at last the position. *)
Definition outranks (x y : nat * EvaluationRule) : Prop :=
  let '(i, a) := x in let '(j, b) := y in
  (final_deny a /\ ~ final_deny b)
  \/ (final_deny a <-> final_deny b)
     /\ (ev_ScopePrecedence b < ev_ScopePrecedence a
         \/ ev_ScopePrecedence a = ev_ScopePrecedence b
            /\ (Priority (ev_Behavior b) < Priority (ev_Behavior a)
                \/ Priority (ev_Behavior a) = Priority (ev_Behavior b)
                   /\ (ev_Specificity b < ev_Specificity a
                       \/ ev_Specificity a = ev_Specificity b
                          /\ (String.ltb (ev_ID a) (ev_ID b) = true
                              \/ ev_ID a = ev_ID b /\ (i < j)%nat)))).

Lemma immutable_deny_spec r : immutable_deny r = true <-> final_deny r.
Proof. unfold immutable_deny, final_deny. by rewrite andb_true_iff, String.eqb_eq. Qed.

Lemma key_not_before {K} (lt : K -> K -> bool) `{KeyOrder K lt} a b : lt b a = false -> a <> b -> lt a b = true.
Proof. intros Hn Hne. destruct (key_total a b Hne) as [?|E]; [done|congruence]. Qed.

Lemma not_before_outranks x y : x.1 <> y.1 -> evaluates_before y x = false -> outranks x y.
Proof.
  destruct x as [i a], y as [j b]. cbn [fst]. intros Hne. unfold evaluates_before, outranks.
  assert ((final_deny a <-> final_deny b) <-> immutable_deny b = immutable_deny a) as Himm.
  { rewrite <- !immutable_deny_spec. destruct (immutable_deny a), (immutable_deny b); intuition congruence. }
  rewrite Himm. unfold by_key at 1. cbn [snd]. case_decide as E1.
  2: { intros H. left. rewrite <- !immutable_deny_spec. destruct (immutable_deny a), (immutable_deny b); done. }
  right. split; [done|]. unfold by_key at 1 in H. cbn [snd] in H. case_decide as E2; [|left; apply Z.ltb_ge in H; lia].
  right. split; [done|]. unfold by_key at 1 in H. cbn [snd] in H. case_decide as E3; [|left; apply Z.ltb_ge in H; lia].
  right. split; [done|]. unfold by_key at 1 in H. cbn [snd] in H. case_decide as E4; [|left; apply Z.ltb_ge in H; lia].
  right. split; [done|]. unfold by_key at 1 in H. cbn [fst snd] in H. case_decide as E5.
  - right. split; [done|]. apply Z.ltb_ge in H. lia.
  - left. apply (key_not_before String.ltb); [exact H|intros E; by apply E5].
Qed.

Lemma ordered_outranks l :
  NoDup (map fst l) -> in_order evaluates_before l -> StronglySorted outranks l.
Proof.
  intros Hd Hs. induction Hs as [|x l Hs IH Hx]; [constructor|]. apply NoDup_cons in Hd as [Hn Hd].
  constructor; [by apply IH|]. rewrite Forall_forall in Hx |- *. intros y Hy. apply not_before_outranks; [|by apply Hx].
  intros E. apply Hn. rewrite E. by apply (list_elem_of_fmap_2 fst).
Qed.

Lemma ordered_rules_nodup rules : NoDup (map fst (ordered_rules rules)).
Proof.
  assert (map fst (ordered_rules rules) ≡ₚ map fst (valid_rules rules)) as -> by (apply Permutation_map, sort_by_perm).
  unfold valid_rules.
  assert (NoDup (map fst (indexed rules))) as H.
  { unfold indexed. change (NoDup (fst <$> zip (seq 0 (length rules)) rules)).
    rewrite fst_zip by (by rewrite length_seq). apply NoDup_seq. }
  revert H. generalize (indexed rules). induction l as [|x l IH]; [done|]. cbn. intros [Hn Hd]%NoDup_cons.
  case_match; [|by apply IH]. cbn. constructor; [|by apply IH].
  intros Hin. apply Hn. apply list_elem_of_In, in_map_iff in Hin as (y & <- & Hy).
  apply filter_In in Hy as [Hy _]. apply list_elem_of_In, in_map_iff. eauto.
Qed.

(** C13: The evaluation of matched rules is the documented precedence.  The order
    reported is that of the rules with a valid behavior, each before those it outranks:
    immutable denies first, then by scope, deny before ask before allow, by specificity,
    by identifier and by position.  The winner is the first of them, which gives the
    behavior; without a valid rule there is none and the default stands. *)
Theorem evaluation_is_documented_precedence dflt rules :
  let result := ResolveEvaluation dflt rules in
  exists order,
    es_Order result = map fst order
    /\ (forall i r, (i, r) ∈ order <-> rules !! i = Some r /\ Behavior_IsValid (ev_Behavior r) = true)
    /\ StronglySorted outranks order
    /\ (Priority BehaviorAllow < Priority BehaviorAsk < Priority BehaviorDeny)
    /\ match order with
       | [] => result = mkEvaluationResult dflt (-1) [] false false
       | (i, w) :: _ =>
         es_Winner result = Z.of_nat i /\ es_Behavior result = ev_Behavior w
         /\ es_Matched result = true /\ es_ImmutableDeny result = bool_decide (final_deny w)
       end.
Proof.
  cbv zeta. exists (ordered_rules rules).
  pose proof (sort_by_perm evaluates_before (valid_rules rules)) as Hp.
  change (sort_by evaluates_before (valid_rules rules)) with (ordered_rules rules) in Hp.
  split; [unfold ResolveEvaluation; by destruct (ordered_rules rules) as [|[i w] rest]|].
  split; [intros i r; by rewrite Hp, valid_rules_spec|].
  split; [apply ordered_outranks; [apply ordered_rules_nodup|apply sort_by_in_order, _]|].
  split; [done|]. unfold ResolveEvaluation. destruct (ordered_rules rules) as [|[i w] rest]; [done|].
  cbn. split; [done|]. split; [done|]. split; [done|].
  apply eq_true_iff_eq. by rewrite bool_decide_eq_true, immutable_deny_spec.
Qed.

(** ** Decisions *)

Definition denies_immutably (r : Rule) : bool := ru_Immutable r && (ru_Behavior r ==? BehaviorDeny).

Lemma candidates_deny dflt matches :
  es_ImmutableDeny (ResolveEvaluation dflt (map candidate matches))
  = existsb denies_immutably matches.
Proof.
  apply eq_true_iff_eq. rewrite (proj1 (resolve_flags _ _)), existsb_exists. split.
  - intros (i & r & Hi & Hr). rewrite list_lookup_fmap in Hi.
    destruct (matches !! i) as [x|] eqn:Ex; [|done]. cbn in Hi. simplify_eq.
    exists x. split; [|done]. apply list_elem_of_In. by eapply list_elem_of_lookup_2.
  - intros (x & Hx & Hd). apply list_elem_of_In, list_elem_of_lookup in Hx as (i & Hi).
    exists i, (candidate x). by rewrite list_lookup_fmap, Hi.
Qed.

Section Engine.
Context `{R : Regexp}.

Lemma makeDecision_behavior now req matches e :
  dn_Behavior (makeDecision now req matches e)
  = if existsb denies_immutably matches then BehaviorDeny
    else if permits (en_allowlists e !! rq_AgentID req) req
    then es_Behavior (ResolveEvaluation (gc_DefaultBehavior (en_cfg e)) (map candidate matches))
    else BehaviorDeny.
Proof.
  rewrite <- (candidates_deny (gc_DefaultBehavior (en_cfg e))).
  destruct (resolve_flags (gc_DefaultBehavior (en_cfg e)) (map candidate matches))
    as (_ & Himm & Hw).
  unfold makeDecision. set (res := ResolveEvaluation _ _) in *.
  destruct (es_ImmutableDeny res).
  - destruct (Hw (Himm eq_refl)) as (w & Hl & _). rewrite list_lookup_fmap in Hl.
    by destruct (matches !! _).
  - destruct (permits _ _); cbn [negb]; [|done].
    destruct (es_Matched res); [|done]. by destruct (matches !! _).
Qed.

Lemma MatchingRules_spec now req rs r :
  r ∈ MatchingRules now req rs
  <-> exists scope, scope ∈ AllScopes /\ r ∈ RulesForScope scope rs /\ Matches now req r = true.
Proof.
  unfold MatchingRules. rewrite list_elem_of_In, in_flat_map.
  f_equiv. intros s. by rewrite <- !list_elem_of_In, elem_of_filter_b.
Qed.

(** An immutable deny among the matching rules decides. *)
Lemma immutable_match_denies now req e r :
  r ∈ MatchingRules now req (en_ruleSet e) -> denies_immutably r = true ->
  dn_Behavior (makeDecision now req (MatchingRules now req (en_ruleSet e)) e) = BehaviorDeny.
Proof.
  intros Hin Hd. rewrite makeDecision_behavior.
  assert (existsb denies_immutably (MatchingRules now req (en_ruleSet e)) = true) as ->; [|done].
  apply existsb_exists. exists r. by rewrite <- list_elem_of_In.
Qed.

(** *** Histories of an engine: one step per call *)

(** [range] visits every scope of the rule set once. *)
Definition visits (order : list string) (rs : RuleSet) : Prop := order ≡ₚ elements (dom rs).

(** [rule_ok] and [request_ok] restrict the rules added and the requests
    evaluated. *)
Inductive engine_step (rule_ok : Rule -> Prop) (request_ok : ToolRequest -> Prop)
  : Engine -> Engine -> Prop :=
  | step_add now rule e :
      (forall r, rule = Some r -> rule_ok r) ->
      engine_step rule_ok request_ok e (AddRule now rule e).1
  | step_remove order order' now id e :
      visits order (en_ruleSet e) -> visits order' (en_ruleSet e) ->
      engine_step rule_ok request_ok e (RemoveRule order order' now id e).1
  | step_evaluate now req e :
      request_ok (evaluated now req e) -> engine_step rule_ok request_ok e (Evaluate now req e).1
  | step_allowlist agentID tools categories e :
      engine_step rule_ok request_ok e (SetAgentAllowlist agentID tools categories e).1
  | step_clear e : engine_step rule_ok request_ok e (ClearCache e).

(** What a call leaves as it was. *)
Lemma evaluate_keeps now req e :
  en_ruleSet (Evaluate now req e).1 = en_ruleSet e
  /\ en_allowlists (Evaluate now req e).1 = en_allowlists e
  /\ en_cfg (Evaluate now req e).1 = en_cfg e
  /\ en_classify (Evaluate now req e).1 = en_classify e.
Proof.
  assert (forall q e, let e' := (decide_request now q e).1 in
    en_ruleSet e' = en_ruleSet e /\ en_allowlists e' = en_allowlists e
    /\ en_cfg e' = en_cfg e /\ en_classify e' = en_classify e) as Hd.
  { intros q e0. unfold decide_request, LogDecision. cbn.
    destruct (en_auditor e0); cbn; by destruct (gc_CacheEnabled _). }
  unfold Evaluate, getCached. destruct (gc_CacheEnabled _); [|apply Hd].
  destruct (en_cache e !! _) as [c|]; [|apply Hd].
  destruct (ca_ExpiresAt c <? now); [|done].
  pose proof (Hd (evaluated now req e)
    (e <| en_cache := delete (cacheKey (evaluated now req e)) (en_cache e) |>)) as H. exact H.
Qed.

Lemma split_rule_spec id rules l x l' :
  split_rule id rules = Some (l, x, l') -> rules = l ++ x :: l' /\ ru_ID x = id.
Proof.
  revert l x l'. induction rules as [|r rules IH]; intros l x l'; cbn; [done|].
  destruct (ru_ID r ==? id) eqn:E; [intros; simplify_eq; by bool_to_prop|].
  destruct (split_rule id rules) as [[[l1 y] l2]|]; [|done].
  intros. simplify_eq. destruct (IH _ _ _ eq_refl) as [-> ->]. done.
Qed.

Lemma split_rule_none id rules x : split_rule id rules = None -> x ∈ rules -> ru_ID x <> id.
Proof.
  induction rules as [|r rules IH]; cbn; [intros _ H; by apply elem_of_nil in H|].
  destruct (ru_ID r ==? id) eqn:E; [done|]. destruct (split_rule id rules) as [[[] ?]|]; [done|].
  intros _ [->|H]%elem_of_cons; [by bool_to_prop|auto].
Qed.

Lemma get_rule_finds order id rs scope x :
  scope ∈ order -> x ∈ RulesForScope scope rs -> ru_ID x = id ->
  exists y s, RuleSet_GetRule order id rs = Some y /\ ru_ID y = id /\ y ∈ RulesForScope s rs.
Proof.
  intros Hs Hx Hid. induction order as [|s order IH]; [by apply elem_of_nil in Hs|]. cbn.
  destruct (split_rule id (RulesForScope s rs)) as [[[l y] l']|] eqn:E.
  - apply split_rule_spec in E as [E ?]. exists y, s. repeat split; auto. rewrite E, elem_of_app, elem_of_cons. auto.
  - apply elem_of_cons in Hs as [->|Hs]; [|auto]. by destruct (split_rule_none _ _ _ E Hx).
Qed.

(** A removal takes away one rule, which has the identifier. *)
Lemma remove_rule_spec order id rs rs' :
  RuleSet_RemoveRule order id rs = (rs', true) ->
  exists scope l x l', RulesForScope scope rs = l ++ x :: l' /\ ru_ID x = id
    /\ rs' = <[scope := l ++ l']> rs.
Proof.
  induction order as [|s order IH]; cbn; [done|].
  destruct (split_rule id (RulesForScope s rs)) as [[[l x] l']|] eqn:E; [|auto].
  intros. simplify_eq. apply split_rule_spec in E as [? ?]. eauto 10.
Qed.

Lemma rules_insert scope scope' l rs :
  RulesForScope scope' (<[scope := l]> rs) = if decide (scope = scope') then l else RulesForScope scope' rs.
Proof.
  unfold RulesForScope. destruct (decide (scope = scope')) as [->|H];
    [by rewrite lookup_insert_eq|by rewrite lookup_insert_ne].
Qed.

Lemma remove_keeps_others order id rs rs' scope r :
  RuleSet_RemoveRule order id rs = (rs', true) -> ru_ID r <> id ->
  r ∈ RulesForScope scope rs -> r ∈ RulesForScope scope rs'.
Proof.
  intros (s & l & x & l' & Hl & Hx & ->)%remove_rule_spec Hne Hr. rewrite rules_insert.
  destruct (decide (s = scope)) as [->|]; [|done]. rewrite Hl, elem_of_app, elem_of_cons in Hr. rewrite elem_of_app.
  destruct Hr as [?|[->|?]]; auto. done.
Qed.

Lemma remove_only_shrinks order id rs rs' scope r :
  RuleSet_RemoveRule order id rs = (rs', true) ->
  r ∈ RulesForScope scope rs' -> r ∈ RulesForScope scope rs.
Proof.
  intros (s & l & x & l' & Hl & Hx & ->)%remove_rule_spec. rewrite rules_insert.
  destruct (decide (s = scope)) as [->|]; [|done]. rewrite Hl, !elem_of_app, elem_of_cons. tauto.
Qed.

(** A rule is protected: it is present, and all rules with its identifier are
    immutable. *)
Definition protected (r : Rule) (e : Engine) : Prop :=
  r ∈ RulesForScope (ru_Scope r) (en_ruleSet e)
  /\ forall scope x, x ∈ RulesForScope scope (en_ruleSet e) -> ru_ID x = ru_ID r ->
       ru_Immutable x = true.

Lemma in_dom scope (rs : RuleSet) r : r ∈ RulesForScope scope rs -> scope ∈ dom rs.
Proof.
  unfold RulesForScope. intros H. destruct (rs !! scope) as [l|] eqn:E.
  - by apply elem_of_dom_2 in E.
  - by apply elem_of_nil in H.
Qed.

(** What adding a rule does, whichever way it ends. *)
Lemma add_rule_cases now rule e :
  ((AddRule now rule e).1 = e /\ exists err, (AddRule now rule e).2 = Some err)
  \/ exists x, rule = Some x /\ (AddRule now rule e).2 = None
     /\ en_ruleSet (AddRule now rule e).1
        = <[ru_Scope x := RulesForScope (ru_Scope x) (en_ruleSet e) ++ [x]]> (en_ruleSet e)
     /\ en_cache (AddRule now rule e).1 = ∅
     /\ en_cfg (AddRule now rule e).1 = en_cfg e
     /\ en_allowlists (AddRule now rule e).1 = en_allowlists e
     /\ en_classify (AddRule now rule e).1 = en_classify e.
Proof.
  destruct rule as [x|]; [|left; cbn; eauto]. unfold AddRule, RuleSet_AddRule.
  destruct (Compile x); [|left; cbn; eauto]. right. exists x. cbn.
  unfold log_event. cbn. by destruct (en_auditor e).
Qed.

Lemma remove_cases order order' now id e :
  (RemoveRule order order' now id e).1 = e
  \/ exists rs, match RuleSet_GetRule order id (en_ruleSet e) with
                | Some rule => ru_Immutable rule
                | None => false
                end = false
     /\ RuleSet_RemoveRule order' id (en_ruleSet e) = (rs, true)
     /\ en_ruleSet (RemoveRule order order' now id e).1 = rs
     /\ en_cache (RemoveRule order order' now id e).1 = ∅
     /\ en_cfg (RemoveRule order order' now id e).1 = en_cfg e
     /\ en_allowlists (RemoveRule order order' now id e).1 = en_allowlists e
     /\ en_classify (RemoveRule order order' now id e).1 = en_classify e.
Proof.
  unfold RemoveRule. destruct (match RuleSet_GetRule _ _ _ with Some _ => _ | None => _ end); [by left|].
  destruct (RuleSet_RemoveRule _ _ _) as [rs []] eqn:E; [right|by left].
  exists rs. cbn. unfold log_event. cbn. by destruct (en_auditor e).
Qed.

Lemma allowlist_keeps agentID tools categories e :
  (SetAgentAllowlist agentID tools categories e).1 = e
  \/ en_ruleSet (SetAgentAllowlist agentID tools categories e).1 = en_ruleSet e
     /\ en_cache (SetAgentAllowlist agentID tools categories e).1 = ∅
     /\ en_cfg (SetAgentAllowlist agentID tools categories e).1 = en_cfg e
     /\ en_classify (SetAgentAllowlist agentID tools categories e).1 = en_classify e.
Proof.
  unfold SetAgentAllowlist. destruct (Nat.eqb _ 0 && _); [by right|].
  destruct (check_patterns _ _); [by left|by right].
Qed.

(** No step takes a protected rule away, when every rule added under its
    identifier is immutable itself. *)
Lemma step_protects r ok e e' :
  engine_step (fun x => ru_ID x = ru_ID r -> ru_Immutable x = true) ok e e' ->
  protected r e -> protected r e'.
Proof.
  intros Hstep [Hr Hid].
  destruct Hstep as [now rule e Hok|order order' now id e Ho Ho'|now req e _|agentID tools cats e|e].
  - destruct (add_rule_cases now rule e) as [[-> _]|(x & Hx & _ & Hrs & _)]; [by split|].
    unfold protected. rewrite Hrs. split.
    + rewrite rules_insert. case_decide as Hd; [rewrite Hd, elem_of_app; auto|done].
    + intros scope y. rewrite rules_insert. case_decide; [|apply Hid].
      rewrite elem_of_app, list_elem_of_singleton. intros [Hy|Hy]; [eauto|subst; auto].
  - destruct (remove_cases order order' now id e) as [->|(rs & Hg & Hrm & Hrs & _)]; [by split|].
    unfold protected. rewrite Hrs. split.
    + eapply remove_keeps_others; [exact Hrm| |done]. intros <-.
      destruct (get_rule_finds order (ru_ID r) (en_ruleSet e) (ru_Scope r) r)
        as (y & s & Hy & Hyid & Hin); [|done..|].
      { rewrite Ho. apply elem_of_elements. by eapply in_dom. }
      rewrite Hy, (Hid s y) in Hg by done. done.
    + intros scope x Hx. by eapply Hid, remove_only_shrinks.
  - unfold protected. by rewrite (proj1 (evaluate_keeps now req e)).
  - destruct (allowlist_keeps agentID tools cats e) as [->|[Hrs _]]; [by split|].
    unfold protected. by rewrite Hrs.
  - done.
Qed.

Lemma steps_protect r ok e e' :
  rtc (engine_step (fun x => ru_ID x = ru_ID r -> ru_Immutable x = true) ok) e e' ->
  protected r e -> protected r e'.
Proof. induction 1; eauto using step_protects. Qed.

Lemma decide_request_behavior now q e :
  dn_Behavior (decide_request now q e).2
  = dn_Behavior (makeDecision now q (MatchingRules now q (en_ruleSet e)) e).
Proof. unfold decide_request. by destruct (en_auditor e). Qed.

Lemma makeDecision_ext now q matches e e' :
  en_cfg e = en_cfg e' -> en_allowlists e = en_allowlists e' ->
  makeDecision now q matches e = makeDecision now q matches e'.
Proof. unfold makeDecision. by intros -> ->. Qed.

(** Without an entry that is still alive, [Evaluate] decides as the preview does. *)
Lemma evaluate_uncached now req e :
  gc_CacheEnabled (en_cfg e) = false
  \/ (forall c, en_cache e !! cacheKey (evaluated now req e) = Some c -> ca_ExpiresAt c < now) ->
  dn_Behavior (Evaluate now req e).2 = dn_Behavior (EvaluatePreview now req e).
Proof.
  intros H. unfold Evaluate, EvaluatePreview, getCached.
  destruct (gc_CacheEnabled (en_cfg e)); [|apply decide_request_behavior].
  destruct H as [|H]; [done|].
  destruct (en_cache e !! _) as [c|] eqn:Ec; [|apply decide_request_behavior].
  rewrite (proj2 (Z.ltb_lt _ _)) by (by apply H). by rewrite decide_request_behavior.
Qed.

Lemma evaluate_after_clear now req e :
  en_cache e = ∅ -> dn_Behavior (Evaluate now req e).2 = dn_Behavior (EvaluatePreview now req e).
Proof.
  intros He. apply evaluate_uncached. right. intros c Hc. by rewrite He, lookup_empty in Hc.
Qed.

(** What an allowlist of tool patterns and categories admits. *)
Definition admits (tools categories : list string) (q : ToolRequest) : bool :=
  existsb (fun cat => (rq_Category q ==? cat) && (cat !=? "")) categories
  || existsb (fun p => match compile_glob p with
                       | Ok re => MatchString re (rq_ToolName q)
                       | Err _ => false
                       end) tools.

Definition allowlist (tools categories : list string) : agentAllowlist :=
  mkagentAllowlist tools (list_to_set (List.filter (fun cat => cat !=? "") categories)).

Lemma permits_admits tools categories q :
  permits (Some (allowlist tools categories)) q = admits tools categories q.
Proof.
  unfold permits, admits. cbn [al_toolPatterns al_categories allowlist].
  assert ((rq_Category q !=? "")
    && bool_decide (rq_Category q ∈ (list_to_set (List.filter (fun cat => cat !=? "") categories) : gset string))
    = existsb (fun cat => (rq_Category q ==? cat) && (cat !=? "")) categories) as ->;
    [|by destruct (existsb _ categories)].
  apply eq_true_iff_eq. rewrite andb_true_iff, bool_decide_eq_true, existsb_exists.
  rewrite elem_of_list_to_set, elem_of_filter_b, list_elem_of_In. split.
  - intros (Hc & Hin & _). exists (rq_Category q). by rewrite String.eqb_refl.
  - intros (cat & Hin & Hb). bool_to_prop. subst cat.
    assert ((rq_Category q !=? "") = true) by (by apply negb_true_iff, String.eqb_neq). auto.
Qed.

(** A successful call of [SetAgentAllowlist] with something to allow. *)
Lemma set_allowlist_ok agentID tools categories e e' :
  SetAgentAllowlist agentID tools categories e = (e', None) -> tools ++ categories <> [] ->
  e' = clearCache (e <| en_allowlists := <[agentID := allowlist tools categories]> (en_allowlists e) |>).
Proof.
  unfold SetAgentAllowlist. intros He Hne.
  destruct (Nat.eqb (length tools) 0 && Nat.eqb (length categories) 0) eqn:El.
  { bool_to_prop. destruct tools, categories; done. }
  destruct (check_patterns agentID tools); [done|]. by injection He as <-.
Qed.

(** An agent's allowlist is exclusive: whatever the rules say, a request that
    the list does not admit is denied, and one that it admits is decided by the
    rules alone. *)
Theorem allowlist_is_exclusive agentID tools categories e now req e' :
  SetAgentAllowlist agentID tools categories e = (e', None) ->
  tools ++ categories <> [] -> rq_AgentID (evaluated now req e') = agentID ->
  dn_Behavior (Evaluate now req e').2
  = if admits tools categories (evaluated now req e')
    then dn_Behavior (Evaluate now req (clearCache (e <| en_allowlists := ∅ |>))).2
    else BehaviorDeny.
Proof.
  intros He Hne Hag. apply set_allowlist_ok in He; [subst e'|done].
  set (e1 := clearCache (e <| en_allowlists := <[agentID := _]> _ |>)) in *.
  set (e2 := clearCache (e <| en_allowlists := ∅ |>)).
  rewrite !evaluate_after_clear by done. unfold EvaluatePreview.
  change (evaluated now req e2) with (evaluated now req e1). set (q := evaluated now req e1) in *.
  rewrite !makeDecision_behavior.
  change (en_ruleSet e2) with (en_ruleSet e1). change (en_cfg e2) with (en_cfg e1).
  change (en_allowlists e1)
    with (<[agentID := allowlist tools categories]> (en_allowlists e)).
  change (en_allowlists e2) with (∅ : gmap string agentAllowlist).
  rewrite Hag, lookup_insert_eq, lookup_empty, permits_admits.
  destruct (admits _ _ _); [done|]. by destruct (existsb denies_immutably _).
Qed.

(** ** The cache *)

(** What a decision depends on. *)
Definition same_view (q1 q2 : ToolRequest) : Prop :=
  rq_ToolName q1 = rq_ToolName q2 /\ rq_Category q1 = rq_Category q2
  /\ rq_Origin q1 = rq_Origin q2 /\ rq_OriginName q1 = rq_OriginName q2
  /\ rq_Content q1 = rq_Content q2 /\ rq_AgentID q1 = rq_AgentID q2.

Definition permanent (r : Rule) : Prop := ru_ExpiresAt r = None.

(** The behavior of an engine on an evaluated request. *)
Definition behavior (e : Engine) (now : Z) (q : ToolRequest) : string :=
  dn_Behavior (makeDecision now q (MatchingRules now q (en_ruleSet e)) e).

Lemma matches_view now now' q1 q2 r :
  same_view q1 q2 -> permanent r -> Matches now q1 r = Matches now' q2 r.
Proof.
  intros (E1 & E2 & E3 & E4 & E5 & E6) Hr. unfold Matches, IsActive, IsExpired.
  by rewrite Hr, E1, E2, E3, E4, E5, E6.
Qed.

Lemma flat_map_ext_in {A B} (f g : A -> list B) l :
  (forall x, x ∈ l -> f x = g x) -> flat_map f l = flat_map g l.
Proof.
  induction l as [|x l IH]; intros H; [done|]. cbn. rewrite H by (by left). f_equal.
  apply IH. intros y Hy. apply H. by right.
Qed.

Lemma behavior_view e now now' q1 q2 :
  same_view q1 q2 -> (forall s r, r ∈ RulesForScope s (en_ruleSet e) -> permanent r) ->
  behavior e now q1 = behavior e now' q2.
Proof.
  intros Hv Hp. unfold behavior. rewrite !makeDecision_behavior.
  assert (MatchingRules now q1 (en_ruleSet e) = MatchingRules now' q2 (en_ruleSet e)) as ->.
  { unfold MatchingRules. apply flat_map_ext_in. intros s _. apply filter_ext_in. intros r Hr.
    apply matches_view; [done|]. eapply (Hp s). by apply list_elem_of_In. }
  destruct Hv as (E1 & E2 & _ & _ & _ & E6). unfold permits. by rewrite E1, E2, E6.
Qed.

(** Every entry of the cache is the decision on an admissible request with its
    key, and no rule expires. *)
Definition cache_agrees (ok : ToolRequest -> Prop) (e : Engine) : Prop :=
  (forall s r, r ∈ RulesForScope s (en_ruleSet e) -> permanent r)
  /\ forall k c, en_cache e !! k = Some c -> exists q,
       ok q /\ cacheKey q = k /\ forall now, dn_Behavior (ca_Decision c) = behavior e now q.

Lemma behavior_ext e e' now q :
  en_cfg e = en_cfg e' -> en_allowlists e = en_allowlists e' -> en_ruleSet e = en_ruleSet e' ->
  behavior e now q = behavior e' now q.
Proof. unfold behavior. intros ? ? <-. f_equal. by apply makeDecision_ext. Qed.

Lemma same_view_refl q : same_view q q.
Proof. repeat split. Qed.

(** The entries after an evaluation: old ones, and the decision on this request. *)
Lemma evaluate_entries now req e k c :
  en_cache (Evaluate now req e).1 !! k = Some c ->
  en_cache e !! k = Some c
  \/ k = cacheKey (evaluated now req e)
     /\ dn_Behavior (ca_Decision c) = behavior e now (evaluated now req e).
Proof.
  assert (forall q e0, en_cache (decide_request now q e0).1 !! k = Some c ->
    en_cache e0 !! k = Some c \/ k = cacheKey q /\ dn_Behavior (ca_Decision c) = behavior e0 now q)
    as Hd.
  { intros q e0. unfold behavior. rewrite <- decide_request_behavior.
    unfold decide_request. destruct (en_auditor e0); cbn; destruct (gc_CacheEnabled _);
      cbn; auto; rewrite lookup_insert; case_decide; intros; simplify_eq; auto. }
  unfold Evaluate, getCached. set (q := evaluated now req e).
  destruct (gc_CacheEnabled _); [|apply Hd].
  destruct (en_cache e !! cacheKey q) as [c'|]; [|apply Hd].
  destruct (ca_ExpiresAt c' <? now); [|auto]. intros H. apply Hd in H as [H|H]; [|right].
  - left. cbn in H. rewrite lookup_delete in H. by case_decide.
  - destruct H as [-> H]. split; [done|]. rewrite H. by apply behavior_ext.
Qed.

Lemma step_agrees ok e e' :
  engine_step permanent ok e e' -> cache_agrees ok e -> cache_agrees ok e'.
Proof.
  intros Hstep [Hp Hc].
  assert (forall e1, (forall s r, r ∈ RulesForScope s (en_ruleSet e1) -> permanent r) ->
    en_cache e1 = ∅ -> cache_agrees ok e1) as Hempty.
  { intros e1 Hp1 He1. split; [done|]. intros k c H. by rewrite He1, lookup_empty in H. }
  destruct Hstep as [now rule e Hok|order order' now id e _ _|now req e Hq|agentID tools cats e|e].
  - destruct (add_rule_cases now rule e) as [[-> _]|(x & Hx & _ & Hrs & Hca & _)]; [by split|].
    apply Hempty; [|done]. rewrite Hrs. intros s r. rewrite rules_insert.
    case_decide; [|apply Hp]. rewrite elem_of_app, list_elem_of_singleton.
    intros [?| ->]; [eauto|by apply Hok].
  - destruct (remove_cases order order' now id e) as [->|(rs & _ & Hrm & Hrs & Hca & _)]; [by split|].
    apply Hempty; [|done]. rewrite Hrs. intros s r Hr. by eapply Hp, remove_only_shrinks.
  - destruct (evaluate_keeps now req e) as (Hrs & Hal & Hcfg & _).
    split; [by rewrite Hrs|]. intros k c [H|[-> H]]%evaluate_entries.
    + destruct (Hc k c H) as (q & ? & ? & Hb). exists q. split; [done|split; [done|]]. intros t.
      rewrite (Hb t). by apply behavior_ext.
    + exists (evaluated now req e). split; [done|split; [done|]]. intros t. rewrite H.
      rewrite (behavior_view e now t _ _ (same_view_refl _) Hp). by apply behavior_ext.
  - destruct (allowlist_keeps agentID tools cats e) as [->|(Hrs & Hca & _)]; [by split|].
    apply Hempty; [by rewrite Hrs|done].
  - by apply Hempty.
Qed.

(** Every cached decision denies, or was made for a request that [r] does not match. *)
Definition cached_without (r : Rule) (ok : ToolRequest -> Prop) (e : Engine) : Prop :=
  forall k c, en_cache e !! k = Some c ->
    dn_Behavior (ca_Decision c) = BehaviorDeny
    \/ exists moment q, ok q /\ cacheKey q = k /\ Matches moment q r = false.

Lemma protected_denies r now q e :
  denies_immutably r = true -> ru_Scope r ∈ AllScopes -> protected r e -> Matches now q r = true ->
  behavior e now q = BehaviorDeny.
Proof.
  intros Hd Hs [Hr _] Hm. apply (immutable_match_denies _ _ _ r); [|done]. apply MatchingRules_spec. eauto.
Qed.

Lemma step_cached_without r ok e e' :
  denies_immutably r = true -> ru_Scope r ∈ AllScopes ->
  engine_step (fun x => ru_ID x = ru_ID r -> ru_Immutable x = true) ok e e' ->
  protected r e -> cached_without r ok e -> cached_without r ok e'.
Proof.
  intros Hd Hs Hstep Hp Hc.
  assert (forall e1, en_cache e1 = ∅ -> cached_without r ok e1) as Hempty.
  { intros e1 He k c H. by rewrite He, lookup_empty in H. }
  destruct Hstep as [now rule e _|order order' now id e _ _|now req e Hq|agentID tools cats e|e].
  - destruct (add_rule_cases now rule e) as [[-> _]|(x & _ & _ & _ & Hca & _)]; [done|by apply Hempty].
  - destruct (remove_cases order order' now id e) as [->|(rs & _ & _ & _ & Hca & _)]; [done|by apply Hempty].
  - intros k c [H|[-> H]]%evaluate_entries; [by apply Hc|].
    destruct (Matches now (evaluated now req e) r) eqn:Em; [left|right; eauto].
    rewrite H. by eapply protected_denies.
  - destruct (allowlist_keeps agentID tools cats e) as [->|(_ & Hca & _)]; [done|by apply Hempty].
  - by apply Hempty.
Qed.

(** C11: An immutable deny rule of the engine cannot be argued away.  Take an engine that
    holds the rule in one of the known scopes and has nothing cached, as it is after the
    rule was added, and any calls since then (rules added, as long as those with its
    identifier are immutable too, rules removed, requests evaluated, allowlists set, the
    cache cleared).  A request that the rule matches is denied by the preview; it is
    denied by an evaluation, too, unless that is served a cached decision which is
    still alive and was made for another request with the same cache key, one that the
    rule does not match. *)
Theorem safety_rule_always_denies r ok e0 e now req :
  denies_immutably r = true -> ru_Scope r ∈ AllScopes -> protected r e0 -> en_cache e0 = ∅ ->
  rtc (engine_step (fun x => ru_ID x = ru_ID r -> ru_Immutable x = true) ok) e0 e ->
  Matches now (evaluated now req e) r = true ->
  dn_Behavior (EvaluatePreview now req e) = BehaviorDeny
  /\ (dn_Behavior (Evaluate now req e).2 = BehaviorDeny
      \/ exists c moment q,
           gc_CacheEnabled (en_cfg e) = true
           /\ en_cache e !! cacheKey (evaluated now req e) = Some c /\ now <= ca_ExpiresAt c
           /\ (Evaluate now req e).2 = ca_Decision c
           /\ ok q /\ cacheKey q = cacheKey (evaluated now req e) /\ Matches moment q r = false).
Proof.
  intros Hd Hs Hp Hempty Hsteps Hm.
  assert (protected r e /\ cached_without r ok e) as [Hp' Hc].
  { assert (cached_without r ok e0) as H0 by (intros k c H; by rewrite Hempty, lookup_empty in H).
    clear Hempty Hm. induction Hsteps as [|e1 e2 e3 Hstep _ IH]; [done|].
    apply IH; [by eapply step_protects|by eapply step_cached_without]. }
  pose proof (protected_denies r now (evaluated now req e) e Hd Hs Hp' Hm) as Hpre.
  split; [exact Hpre|]. unfold Evaluate, getCached.
  destruct (gc_CacheEnabled (en_cfg e)) eqn:Ecache; [|left; by rewrite decide_request_behavior].
  destruct (en_cache e !! _) as [c|] eqn:Ec; [|left; by rewrite decide_request_behavior].
  destruct (Z.ltb_spec (ca_ExpiresAt c) now); [left; by rewrite decide_request_behavior|].
  destruct (Hc _ _ Ec) as [Hdeny|(moment & q & ? & ? & ?)]; [by left|right]. by exists c, moment, q.
Qed.

(** The cache is transparent under two conditions: no rule ever expires, and
    two requests with one cache key agree on all that rules look at.  Then, after
    any calls, an evaluation decides as the rules do at that moment. *)
Theorem cache_is_transparent ok e0 e now req :
  (forall q1 q2, ok q1 -> ok q2 -> cacheKey q1 = cacheKey q2 -> same_view q1 q2) ->
  (forall s r, r ∈ RulesForScope s (en_ruleSet e0) -> permanent r) -> en_cache e0 = ∅ ->
  rtc (engine_step permanent ok) e0 e -> ok (evaluated now req e) ->
  dn_Behavior (Evaluate now req e).2 = dn_Behavior (EvaluatePreview now req e).
Proof.
  intros Hsep Hp Hempty Hsteps Hok.
  assert (cache_agrees ok e) as [Hp' Hc].
  { assert (cache_agrees ok e0) as H0
      by (split; [done|]; intros k c H; by rewrite Hempty, lookup_empty in H).
    clear Hp Hempty Hok. induction Hsteps; eauto using step_agrees. }
  unfold Evaluate, getCached. destruct (gc_CacheEnabled _) eqn:Ecache.
  2: { by rewrite decide_request_behavior. }
  destruct (en_cache e !! _) as [c|] eqn:Ec; [|by rewrite decide_request_behavior].
  destruct (ca_ExpiresAt c <? now); [by rewrite decide_request_behavior|]. cbn.
  destruct (Hc _ _ Ec) as (q & Hq & Hk & Hb). rewrite (Hb now).
  by apply behavior_view; [apply Hsep|].
Qed.

(** While a cached decision lives, every request with the same key gets it,
    whatever the request asks for: the key holds a 64-bit polynomial hash of the
    content, whose collisions are easy to write down. *)
Theorem one_key_one_decision now now' q1 q2 e :
  gc_CacheEnabled (en_cfg e) = true -> en_cache e = ∅ ->
  cacheKey (evaluated now q1 e) = cacheKey (evaluated now' q2 e) ->
  now' <= now + gc_CacheTTL (en_cfg e) ->
  (Evaluate now' q2 (Evaluate now q1 e).1).2 = (Evaluate now q1 e).2.
Proof.
  intros Hon Hempty Hkey Hlive. destruct (evaluate_keeps now q1 e) as (_ & _ & Hcfg & Hcl).
  assert (evaluated now' q2 (Evaluate now q1 e).1 = evaluated now' q2 e) as Hev.
  { unfold evaluated. by rewrite Hcl. }
  unfold Evaluate at 1. rewrite Hcfg, Hon, Hev, <- Hkey.
  unfold Evaluate, getCached. rewrite Hon, Hempty, lookup_empty.
  unfold decide_request. destruct (en_auditor e); cbn; rewrite Hon; cbn;
    rewrite lookup_insert_eq; cbn; by rewrite (proj2 (Z.ltb_ge _ _)) by lia.
Qed.

(** ** The log *)

(** An evaluation that is not served from the cache is logged once, under the
    identifier it returns; one that is leaves the log alone. *)
Theorem evaluation_is_logged now req e a :
  en_auditor e = Some a ->
  (exists c, en_cache e !! cacheKey (evaluated now req e) = Some c /\ now <= ca_ExpiresAt c
     /\ (Evaluate now req e).2 = ca_Decision c /\ en_auditor (Evaluate now req e).1 = Some a)
  \/ exists ev, let d := (Evaluate now req e).2 in
       en_auditor (Evaluate now req e).1
         = Some (mkAuditor (add64 (au_counter a) 1) (au_events a ++ [ev]))
       /\ ae_ID ev = dn_AuditID d /\ ae_Behavior ev = dn_Behavior d /\ ae_Reason ev = dn_Reason d
       /\ ae_Type ev = AuditEventDecision
       /\ ae_ToolName ev = rq_ToolName (evaluated now req e).
Proof.
  intros Ha.
  assert (forall q e0, en_auditor e0 = Some a -> exists ev, let d := (decide_request now q e0).2 in
       en_auditor (decide_request now q e0).1
         = Some (mkAuditor (add64 (au_counter a) 1) (au_events a ++ [ev]))
       /\ ae_ID ev = dn_AuditID d /\ ae_Behavior ev = dn_Behavior d /\ ae_Reason ev = dn_Reason d
       /\ ae_Type ev = AuditEventDecision /\ ae_ToolName ev = rq_ToolName q) as Hd.
  { intros q e0 He. unfold decide_request. rewrite He. eexists. cbn.
    split; [by destruct (gc_CacheEnabled _)|]. done. }
  unfold Evaluate, getCached. destruct (gc_CacheEnabled _); [|right; by apply Hd].
  destruct (en_cache e !! _) as [c|] eqn:Ec; [|right; by apply Hd].
  destruct (Z.ltb_spec (ca_ExpiresAt c) now); [right; by apply Hd|]. left. exists c. auto.
Qed.
End Engine.
