(* ===== verification/PermissionConfig.v ===== *)
(** Engines built from configuration: internal/permissions/config.go and the
    permission records of internal/store/state/models_config.go.

    A configuration's map of agents is the list of its entries in the order in
    which [range] visits them, which Go leaves open.  Reading and writing the file
    are not modelled; the parsers of package [time] are variables. *)

From Stdlib Require Import String.
From stdpp Require Import base tactics decidable list gmap strings pretty.
From S2P Require Import Prelude Runes Regexp Sorting Permissions Duration PermissionEngine PermissionProps.

Record AgentConfig := mkAgentConfig {
  ag_Profile : string;
  ag_Allow : list string;
  ag_Deny : list string;
  ag_Ask : list string;
  ag_AllowCategories : list string;
  ag_DenyCategories : list string;
  ag_Enabled : option bool
}.

Record RuleConfig := mkRuleConfig {
  rl_ID : string;
  rl_Behavior : string;
  rl_Tool : string;
  rl_Content : string;
  rl_Category : string;
  rl_Origin : string;
  rl_OriginName : string;
  rl_Agent : string;
  rl_Scope : string;
  rl_Description : string;
  rl_Enabled : option bool;
  rl_ExpiresAt : string
}.

Record GlobalConfig := mkGlobalConfig {
  gl_DefaultBehavior : string;
  gl_AuditEnabled : option bool;
  gl_CacheEnabled : option bool;
  gl_CacheTTL : string
}.

Record Config := mkConfig {
  cn_Version : string;
  cn_DefaultProfile : string;
  cn_Agents : list (string * AgentConfig);
  cn_Rules : list RuleConfig;
  cn_GlobalSettings : GlobalConfig
}.

Record AgentPermissions := mkAgentPermissions {
  ap_Behavior : string;
  ap_AllowedTools : list string;
  ap_AllowCategories : list string;
  ap_DenyPatterns : list string;
  ap_AskPatterns : list string
}.

Record PermissionRule := mkPermissionRule {
  pr_ID : string;
  pr_Behavior : string;
  pr_Tool : string;
  pr_Content : string;
  pr_Category : string;
  pr_Origin : string;
  pr_OriginName : string;
  pr_Agent : string;
  pr_Description : string
}.

Record PermissionsConfig := mkPermissionsConfig {
  pc_DefaultBehavior : string;
  pc_AuditEnabled : option bool;
  pc_Agents : list (string * AgentPermissions);
  pc_Rules : list PermissionRule
}.


Definition DefaultConfig : Config :=
  mkConfig "1" "standard" [] [] (mkGlobalConfig "ask" None None "").

(** [if x != "" { r = f(r) }] *)
Definition when_set (x : string) (f : string -> Rule -> Rule) (r : Rule) : Rule :=
  if x ==? "" then r else f x r.

(** [if c.Enabled != nil && !*c.Enabled { continue }] *)
Definition disabled (enabled : option bool) : bool :=
  match enabled with Some b => negb b | None => false end.

Section Build.
Context `{R : Regexp}.
(** [time.Parse(time.RFC3339, s)] and [time.ParseDuration(s)] *)
Variable parse_time : string -> result Z.
Variable parse_duration : string -> result Z.
Variable now : Z.

(** A loop that stops at the first error. *)
Fixpoint for_each {A} (step : A -> Engine -> Engine * option error) (l : list A) (e : Engine)
  : Engine * option error :=
  match l with
  | [] => (e, None)
  | x :: l => and_then (step x) (for_each step l) e
  end.

Definition applyAgentConfig (agentID : string) (cfg : AgentConfig) : Engine -> Engine * option error :=
  and_then (fun e => if ag_Profile cfg ==? "" then (e, None)
                     else ConfigureAgentProfile now agentID (ag_Profile cfg) e)
  (and_then (for_each (AllowToolForAgent now agentID) (ag_Allow cfg))
  (and_then (for_each (fun pattern =>
      AddRule now (Some (agent_rule now agentID ("deny-" +:+ pattern) BehaviorDeny pattern))) (ag_Deny cfg))
  (and_then (for_each (fun pattern =>
      AddRule now (Some (agent_rule now agentID ("ask-" +:+ pattern) BehaviorAsk pattern))) (ag_Ask cfg))
  (and_then (for_each (AllowCategoryForAgent now agentID) (ag_AllowCategories cfg))
            (for_each (DenyCategoryForAgent now agentID) (ag_DenyCategories cfg)))))).

Definition ruleFromConfig (cfg : RuleConfig) : result Rule :=
  if negb (Behavior_IsValid (rl_Behavior cfg))
  then Err (Errorf "invalid behavior: %s" [ArgS (rl_Behavior cfg)])
  else
  let scope := if rl_Scope cfg ==? "" then ScopeGlobal else rl_Scope cfg in
  if negb (Scope_IsValid scope) then Err (Errorf "invalid scope: %s" [ArgS (rl_Scope cfg)])
  else
  let r := NewRule now (rl_ID cfg) scope (rl_Behavior cfg) (rl_Tool cfg) in
  let r := when_set (rl_Content cfg) WithContentPattern r in
  let r := when_set (rl_Category cfg) WithCategory r in
  let r := when_set (rl_Origin cfg) WithOrigin r in
  let r := when_set (rl_OriginName cfg) WithOriginName r in
  let r := when_set (rl_Agent cfg) ForAgent r in
  let r := when_set (rl_Description cfg) WithDescription r in
  if rl_ExpiresAt cfg ==? "" then Ok r
  else match parse_time (rl_ExpiresAt cfg) with
       | Err err => Err (Wrapf "invalid expires_at: %w" [] err)
       | Ok t => Ok (WithExpiry t r)
       end.

(** One custom rule of the configuration. *)
Definition add_configured (id : string) (rule : result Rule) (e : Engine) : Engine * option error :=
  match rule with
  | Err err => (e, Some (Wrapf "invalid rule %s: %w" [ArgS id] err))
  | Ok rule =>
    match AddRule now (Some rule) e with
    | (e, Some err) => (e, Some (Wrapf "adding rule %s: %w" [ArgS id] err))
    | (e, None) => (e, None)
    end
  end.

Definition configure_agent {C} (apply : string -> C -> Engine -> Engine * option error)
    (agent : string * C) (e : Engine) : Engine * option error :=
  match apply agent.1 agent.2 e with
  | (e, Some err) => (e, Some (Wrapf "configuring agent %s: %w" [ArgS agent.1] err))
  | (e, None) => (e, None)
  end.

Definition to_result (p : Engine * option error) : result Engine :=
  match p with (_, Some err) => Err err | (e, None) => Ok e end.

(** An empty [CacheTTL], or one that does not parse, leaves the default. *)
Definition settings_config (g : GlobalConfig) : EngineConfig :=
  let c := DefaultEngineConfig in
  let c := if gl_DefaultBehavior g ==? "" then c else c <| gc_DefaultBehavior := gl_DefaultBehavior g |> in
  let c := match gl_AuditEnabled g with Some b => c <| gc_AuditEnabled := b |> | None => c end in
  let c := match gl_CacheEnabled g with Some b => c <| gc_CacheEnabled := b |> | None => c end in
  if gl_CacheTTL g ==? "" then c
  else match parse_duration (gl_CacheTTL g) with Ok ttl => c <| gc_CacheTTL := ttl |> | Err _ => c end.

(** The errors of the three loaders are dropped. *)
Definition load_profile (profile : string) (e : Engine) : Engine :=
  go_switch profile
    [(["autonomous"], (LoadCriticalSafetyRules now e).1);
     (["permissive"], (LoadPermissiveRules now e).1);
     (["restrictive"; "standard"; ""], (LoadDefaultRules now e).1)] e.

Definition NewEngineFromConfig (cfg : Config) : result Engine :=
  let engine := load_profile (cn_DefaultProfile cfg) (NewEngine (settings_config (cn_GlobalSettings cfg))) in
  to_result
    (and_then
       (for_each (fun agent e => if disabled (ag_Enabled agent.2) then (e, None)
                                 else configure_agent applyAgentConfig agent e) (cn_Agents cfg))
       (for_each (fun r e => if disabled (rl_Enabled r) then (e, None)
                             else add_configured (rl_ID r) (ruleFromConfig r) e) (cn_Rules cfg))
       engine).

(** *** The section of the main configuration *)

(** The rule of the permissive set, for one agent. *)
Definition agent_ask_rule (agentID : string) (r : Rule) : Rule :=
  when_set (ru_ContentPattern r) WithContentPattern
    (agent_rule now agentID (ru_ID r) BehaviorAsk (ru_ToolPattern r)).

(** [for i, pattern := range patterns], each a rule on the content of any tool. *)
Definition pattern_rules (agentID suffix behavior : string) (patterns : list string)
  : Engine -> Engine * option error :=
  for_each (fun p => AddRule now (Some (WithContentPattern p.2
      (agent_rule now agentID (suffix +:+ "-" +:+ pretty (Z.of_nat p.1)) behavior "*"))))
    (indexed patterns).

Definition apply_behavior (agentID behavior : string) (e : Engine) : Engine * option error :=
  go_switch behavior
    [(["autonomous"], AllowAllForAgent now agentID e);
     (["permissive"],
      and_then (AllowAllForAgent now agentID)
        (for_each (fun r => AddRule now (Some (agent_ask_rule agentID r)))
          (List.filter (fun r => ru_Behavior r ==? BehaviorAsk) (PermissiveRules now))) e);
     (["restrictive"], AskForAgent now agentID e)] (e, None).

Definition applyStateAgentConfig (agentID : string) (cfg : AgentPermissions)
  : Engine -> Engine * option error :=
  and_then (apply_behavior agentID (ap_Behavior cfg))
  (and_then (fun e => if Nat.ltb 0 (length (ap_AllowedTools cfg)) || Nat.ltb 0 (length (ap_AllowCategories cfg))
                      then SetAgentAllowlist agentID (ap_AllowedTools cfg) (ap_AllowCategories cfg) e
                      else (e, None))
  (and_then (pattern_rules agentID "deny" BehaviorDeny (ap_DenyPatterns cfg))
            (pattern_rules agentID "ask" BehaviorAsk (ap_AskPatterns cfg)))).

Definition ruleFromStateConfig (cfg : PermissionRule) : result Rule :=
  if negb (Behavior_IsValid (pr_Behavior cfg))
  then Err (Errorf "invalid behavior: %s" [ArgS (pr_Behavior cfg)])
  else
  let r := NewRule now (pr_ID cfg) ScopeGlobal (pr_Behavior cfg) (pr_Tool cfg) in
  let r := when_set (pr_Content cfg) WithContentPattern r in
  let r := when_set (pr_Category cfg) WithCategory r in
  let r := when_set (pr_Origin cfg) WithOrigin r in
  let r := when_set (pr_OriginName cfg) WithOriginName r in
  let r := when_set (pr_Agent cfg) (fun a r => (ForAgent a r) <| ru_Scope := ScopeAgent |>) r in
  Ok (when_set (pr_Description cfg) WithDescription r).

Definition state_config (cfg : PermissionsConfig) : EngineConfig :=
  let c := DefaultEngineConfig <| gc_DefaultBehavior := BehaviorAsk |> in
  let c := if pc_DefaultBehavior cfg ==? "" then c else c <| gc_DefaultBehavior := pc_DefaultBehavior cfg |> in
  match pc_AuditEnabled cfg with Some b => c <| gc_AuditEnabled := b |> | None => c end.

Definition load_safety (e : Engine) : Engine * option error :=
  match LoadCriticalSafetyRules now e with
  | (e, Some err) => (e, Some (Wrapf "loading safety rules: %w" [] err))
  | (e, None) => (e, None)
  end.

Definition NewEngineFromStateConfig (cfg : PermissionsConfig) : result Engine :=
  to_result
    (and_then load_safety
    (and_then (for_each (configure_agent applyStateAgentConfig) (pc_Agents cfg))
              (for_each (fun r => add_configured (pr_ID r) (ruleFromStateConfig r)) (pc_Rules cfg)))
    (NewEngine (state_config cfg))).
End Build.

(** ** What a configured engine guarantees *)

Section Guarded.
Context `{R : Regexp}.
Variable now : Z.

(** Building steps only add rules and keep the configuration. *)
Definition grows (e e' : Engine) : Prop :=
  (forall s r, r ∈ RulesForScope s (en_ruleSet e) -> r ∈ RulesForScope s (en_ruleSet e'))
  /\ en_cfg e' = en_cfg e /\ en_classify e' = en_classify e /\ (en_cache e = ∅ -> en_cache e' = ∅).

#[local] Instance grows_preorder : PreOrder grows.
Proof.
  split.
  - repeat split; auto.
  - intros e1 e2 e3 (A1 & A2 & A3 & A4) (B1 & B2 & B3 & B4). repeat split; auto; congruence.
Qed.

Definition keeps_allowlist (id : string) (e e' : Engine) : Prop :=
  en_allowlists e' !! id = en_allowlists e !! id.

#[local] Instance keeps_allowlist_preorder id : PreOrder (keeps_allowlist id).
Proof. split; [done|]. unfold keeps_allowlist. intros ???; congruence. Qed.

(** A relation between an engine and what a step makes of it, errors included. *)
Definition always (Q : Engine -> Engine -> Prop) (step : Engine -> Engine * option error) : Prop :=
  forall e, Q e (step e).1.

Section Steps.
Context (Q : Engine -> Engine -> Prop) `{!PreOrder Q}.

Lemma always_and_then step next : always Q step -> always Q next -> always Q (and_then step next).
Proof.
  intros Hs Hn e. unfold and_then. specialize (Hs e). destruct (step e) as [e1 [err|]]; [done|].
  etrans; [exact Hs|apply Hn].
Qed.

Lemma always_for_each {A} (step : A -> Engine -> Engine * option error) l :
  (forall x, x ∈ l -> always Q (step x)) -> always Q (for_each step l).
Proof.
  induction l as [|x l IH]; intros H; [intros e; reflexivity|]. cbn [for_each].
  apply always_and_then; [apply H; by left|]. apply IH. intros y Hy. apply H. by right.
Qed.

Lemma always_add_rules rules :
  (forall r, always Q (AddRule now (Some r))) -> always Q (add_rules now rules).
Proof.
  intros H. induction rules as [|r rules IH]; intros e; [reflexivity|]. cbn [add_rules].
  specialize (H r e). destruct (AddRule now (Some r) e) as [e1 [err|]]; [done|].
  etrans; [exact H|apply IH].
Qed.

Lemma always_configure {C} apply (agent : string * C) :
  always Q (apply agent.1 agent.2) -> always Q (configure_agent apply agent).
Proof.
  intros H e. unfold configure_agent. specialize (H e).
  by destruct (apply agent.1 agent.2 e) as [e1 [err|]].
Qed.

Hypothesis adds : forall r, always Q (AddRule now r).

Lemma always_configured id rule : always Q (add_configured now id rule).
Proof.
  intros e. unfold add_configured. destruct rule as [r|err]; [|reflexivity].
  pose proof (adds (Some r) e) as H. by destruct (AddRule now (Some r) e) as [e1 [err|]].
Qed.

Lemma always_behavior id b : always Q (apply_behavior now id b).
Proof.
  intros e. unfold apply_behavior.
  assert (always Q (and_then (AllowAllForAgent now id)
    (for_each (fun r => AddRule now (Some (agent_ask_rule now id r)))
      (List.filter (fun r => ru_Behavior r ==? BehaviorAsk) (PermissiveRules now))))) as Hp.
  { apply always_and_then; [apply adds|]. apply always_for_each. intros. apply adds. }
  cbn [go_switch]. destruct (existsb _ ["autonomous"]); [apply adds|].
  destruct (existsb _ ["permissive"]); [apply Hp|].
  destruct (existsb _ ["restrictive"]); [apply adds|reflexivity].
Qed.

(** An agent's section, given what setting its allowlist does. *)
Lemma always_agent id c :
  always Q (SetAgentAllowlist id (ap_AllowedTools c) (ap_AllowCategories c)) ->
  always Q (applyStateAgentConfig now id c).
Proof.
  intros Hset. unfold applyStateAgentConfig.
  repeat apply always_and_then; [apply always_behavior| | |].
  - intros e. destruct (_ || _); [apply Hset|reflexivity].
  - apply always_for_each. intros. apply adds.
  - apply always_for_each. intros. apply adds.
Qed.
End Steps.

Lemma add_grows r : always grows (AddRule now r).
Proof.
  intros e. destruct (add_rule_cases now r e) as [[-> _]|(x & _ & _ & Hrs & Hca & Hcfg & _ & Hcl)];
    [reflexivity|].
  split; [|auto]. intros s y Hy. rewrite Hrs, rules_insert. case_decide as Hd; [|done].
  rewrite Hd, elem_of_app. auto.
Qed.

Lemma add_keeps_allowlist id r : always (keeps_allowlist id) (AddRule now r).
Proof.
  intros e. unfold keeps_allowlist.
  destruct (add_rule_cases now r e) as [[-> _]|(x & _ & _ & _ & _ & _ & -> & _)]; done.
Qed.

Lemma set_grows id tools cats : always grows (SetAgentAllowlist id tools cats).
Proof.
  intros e. destruct (allowlist_keeps id tools cats e) as [->|(Hrs & Hca & Hcfg & Hcl)];
    [reflexivity|]. split; [by rewrite Hrs|auto].
Qed.

Lemma set_keeps_others id id' tools cats :
  id <> id' -> always (keeps_allowlist id) (SetAgentAllowlist id' tools cats).
Proof.
  intros Hne e. unfold keeps_allowlist, SetAgentAllowlist.
  destruct (Nat.eqb _ 0 && _); [cbn; by rewrite lookup_delete_ne|].
  destruct (check_patterns _ _); [done|]. cbn. by rewrite lookup_insert_ne.
Qed.

Lemma and_then_ok step next e e' :
  and_then step next e = (e', None) -> exists e1, step e = (e1, None) /\ next e1 = (e', None).
Proof. unfold and_then. destruct (step e) as [e1 [err|]]; [done|]. eauto. Qed.

Lemma add_rules_present rules e e' :
  add_rules now rules e = (e', None) ->
  forall r, r ∈ rules -> r ∈ RulesForScope (ru_Scope r) (en_ruleSet e').
Proof.
  revert e. induction rules as [|x rules IH]; intros e H r Hr; [by apply elem_of_nil in Hr|].
  cbn [add_rules] in H. destruct (AddRule now (Some x) e) as [e1 [err|]] eqn:E; [done|].
  apply elem_of_cons in Hr as [->|Hr]; [|by eapply IH].
  pose proof (always_add_rules grows rules (fun r => add_grows (Some r)) e1) as [Hg _].
  rewrite H in Hg. apply Hg.
  destruct (add_rule_cases now (Some x) e) as [[_ [err Herr]]|(y & [= <-] & _ & Hrs & _)].
  { by rewrite E in Herr. }
  rewrite E in Hrs. cbn in Hrs. rewrite Hrs, rules_insert. rewrite decide_True by done.
  rewrite elem_of_app, list_elem_of_singleton. auto.
Qed.

(** An agent's own section sets its allowlist. *)
Lemma agent_sets_allowlist id c e e' :
  applyStateAgentConfig now id c e = (e', None) ->
  ap_AllowedTools c ++ ap_AllowCategories c <> [] ->
  en_allowlists e' !! id = Some (allowlist (ap_AllowedTools c) (ap_AllowCategories c)).
Proof.
  unfold applyStateAgentConfig. intros H Hne.
  apply and_then_ok in H as (e1 & _ & H). apply and_then_ok in H as (e2 & H2 & H).
  assert (always (keeps_allowlist id) (and_then
    (pattern_rules now id "deny" BehaviorDeny (ap_DenyPatterns c))
    (pattern_rules now id "ask" BehaviorAsk (ap_AskPatterns c)))) as Hk.
  { apply always_and_then; [apply _| |]; apply always_for_each; try apply _;
      intros; apply add_keeps_allowlist. }
  specialize (Hk e2). rewrite H in Hk. cbn [fst] in Hk. unfold keeps_allowlist in Hk. rewrite Hk.
  assert (Nat.ltb 0 (length (ap_AllowedTools c)) || Nat.ltb 0 (length (ap_AllowCategories c)) = true)
    as Hl by (destruct (ap_AllowedTools c), (ap_AllowCategories c); done).
  rewrite Hl in H2. apply set_allowlist_ok in H2 as ->; [|done]. cbn. by rewrite lookup_insert_eq.
Qed.

Lemma agents_keep_others id l :
  (forall c, (id, c) ∉ l) ->
  always (keeps_allowlist id) (for_each (configure_agent (applyStateAgentConfig now)) l).
Proof.
  intros Hid. apply always_for_each; [apply _|]. intros [id' c] Hin.
  apply always_configure. apply always_agent; [apply _|apply add_keeps_allowlist|].
  apply set_keeps_others. intros ->. by apply (Hid c).
Qed.

Lemma agents_set_allowlists l e e' id c :
  for_each (configure_agent (applyStateAgentConfig now)) l e = (e', None) ->
  NoDup l.*1 -> (id, c) ∈ l -> ap_AllowedTools c ++ ap_AllowCategories c <> [] ->
  en_allowlists e' !! id = Some (allowlist (ap_AllowedTools c) (ap_AllowCategories c)).
Proof.
  revert e. induction l as [|[id1 c1] l IH]; intros e H Hnd Hin Hne; [by apply elem_of_nil in Hin|].
  cbn [for_each] in H. apply and_then_ok in H as (e1 & H1 & H). cbn in Hnd. inv Hnd.
  apply elem_of_cons in Hin as [Heq|Hin]; [|by eapply IH]. simplify_eq.
  assert (keeps_allowlist id1 e1 e') as ->.
  - change e' with (e', @None error).1. rewrite <- H. apply agents_keep_others.
    intros c Hc. by match goal with Hn : id1 ∉ l.*1 |- _ =>
      apply Hn, (list_elem_of_fmap_2' fst _ (id1, c)) end.
  - unfold configure_agent in H1. cbn [fst snd] in H1.
    destruct (applyStateAgentConfig now id1 c1 e) as [e2 [err|]] eqn:E; [done|]. simplify_eq.
    by eapply agent_sets_allowlist.
Qed.

Lemma rules_always Q (P : PreOrder Q) l :
  (forall r, always Q (AddRule now r)) ->
  always Q (for_each (fun r => add_configured now (pr_ID r) (ruleFromStateConfig now r)) l).
Proof. intros H. apply always_for_each; [done|]. intros r _. by apply always_configured. Qed.

Lemma agents_grow l : always grows (for_each (configure_agent (applyStateAgentConfig now)) l).
Proof.
  apply always_for_each; [apply _|]. intros [id c] _. apply always_configure.
  apply always_agent; [apply _|apply add_grows|apply set_grows].
Qed.

Lemma critical_rules_deny r :
  r ∈ CriticalSafetyRules now -> ru_Scope r = ScopeGlobal /\ denies_immutably r = true.
Proof. intros H. repeat (apply elem_of_cons in H as [->|H]; [done|]). by apply elem_of_nil in H. Qed.

(** What a successful build leaves in the engine. *)
Lemma configured_engine_state cfg e :
  NewEngineFromStateConfig now cfg = Ok e -> NoDup (pc_Agents cfg).*1 ->
  en_cache e = ∅ /\ en_cfg e = state_config cfg
  /\ (forall r, r ∈ CriticalSafetyRules now -> r ∈ RulesForScope (ru_Scope r) (en_ruleSet e))
  /\ (forall id c, (id, c) ∈ pc_Agents cfg -> ap_AllowedTools c ++ ap_AllowCategories c <> [] ->
        en_allowlists e !! id = Some (allowlist (ap_AllowedTools c) (ap_AllowCategories c))).
Proof.
  unfold NewEngineFromStateConfig, to_result. intros H Hnd.
  set (e0 := NewEngine (state_config cfg)) in *.
  destruct (and_then (load_safety now) _ e0) as [e' [err|]] eqn:E in H; [done|]. injection H as ->.
  apply and_then_ok in E as (e1 & E1 & E). apply and_then_ok in E as (e2 & E2 & E3).
  unfold load_safety, LoadCriticalSafetyRules in E1.
  destruct (add_rules now (CriticalSafetyRules now) e0) as [ec [err|]] eqn:Ec; [done|]. simplify_eq.
  pose proof (always_add_rules grows (CriticalSafetyRules now) (fun r => add_grows (Some r)) e0) as H1.
  pose proof (agents_grow (pc_Agents cfg) e1) as H2.
  pose proof (rules_always grows _ (pc_Rules cfg) add_grows e2) as H3.
  rewrite Ec in H1. rewrite E2 in H2. rewrite E3 in H3. cbn [fst] in H1, H2, H3.
  assert (grows e0 e) as (_ & Hcfg & _ & Hempty) by (etrans; [exact H1|]; etrans; [exact H2|exact H3]).
  split; [by apply Hempty|]. split; [done|]. split.
  - intros r Hr. apply H3, H2. by eapply add_rules_present.
  - intros id c Hin Hne.
    pose proof (rules_always (keeps_allowlist id) _ (pc_Rules cfg) (add_keeps_allowlist id) e2) as Hk.
    rewrite E3 in Hk. cbn [fst] in Hk. unfold keeps_allowlist in Hk. rewrite Hk.
    by eapply agents_set_allowlists.
Qed.

(** An engine built from the configuration's permission section is guarded,
    whatever the section says: every request that a critical safety rule matches
    is denied; an agent with an allowlist is denied what the list does not admit;
    and an admitted request that no rule matches gets the configured default, to
    ask when there is none. *)
Theorem configured_engine_is_guarded cfg e :
  NewEngineFromStateConfig now cfg = Ok e -> NoDup (pc_Agents cfg).*1 ->
  (forall t req r, r ∈ CriticalSafetyRules now -> Matches t (evaluated t req e) r = true ->
     dn_Behavior (Evaluate t req e).2 = BehaviorDeny)
  /\ (forall id c t req, (id, c) ∈ pc_Agents cfg ->
        ap_AllowedTools c ++ ap_AllowCategories c <> [] ->
        rq_AgentID (evaluated t req e) = id ->
        admits (ap_AllowedTools c) (ap_AllowCategories c) (evaluated t req e) = false ->
        dn_Behavior (Evaluate t req e).2 = BehaviorDeny)
  /\ (forall t req, MatchingRules t (evaluated t req e) (en_ruleSet e) = [] ->
        permits (en_allowlists e !! rq_AgentID (evaluated t req e)) (evaluated t req e) = true ->
        dn_Behavior (Evaluate t req e).2
        = if pc_DefaultBehavior cfg ==? "" then BehaviorAsk else pc_DefaultBehavior cfg).
Proof.
  intros H Hnd. destruct (configured_engine_state cfg e H Hnd) as (Hempty & Hcfg & Hcrit & Hal).
  split; [|split].
  - intros t req r Hr Hm. rewrite evaluate_after_clear by done.
    destruct (critical_rules_deny r Hr) as [Hs Hd]. apply (immutable_match_denies _ _ _ r); [|done].
    apply MatchingRules_spec. exists (ru_Scope r). split; [rewrite Hs; left|auto].
  - intros id c t req Hin Hne Hid Had. rewrite evaluate_after_clear by done. unfold EvaluatePreview.
    rewrite makeDecision_behavior, Hid, (Hal id c), permits_admits, Had by done.
    by destruct (existsb _ _).
  - intros t req Hm Hp. rewrite evaluate_after_clear by done. unfold EvaluatePreview.
    rewrite makeDecision_behavior, Hm, Hp, Hcfg. cbn.
    unfold state_config. destruct (pc_DefaultBehavior cfg ==? ""), (pc_AuditEnabled cfg); done.
Qed.
End Guarded.
