(* ===== verification/PermissionExamples.v ===== *)
(** Concrete runs of the permission engine: instances of the theorems of
    [PermissionProps], and requests on which the engine does not do what its
    comments promise. *)

From Stdlib Require Import String.
From stdpp Require Import base tactics decidable list gmap strings pretty relations.
From S2P Require Import Prelude Runes Regexp Sorting Permissions Duration PermissionEngine PermissionProps PermissionConfig.

(** A shell command of a session. *)
Definition command (session content : string) : option ToolRequest :=
  Some (WithContext "" "" "" session
    (Request_WithContent content (NewToolRequest 0 "bash" CategoryExec))).

Definition autonomous : Engine := NewAutonomousEngine 0.

Lemma autonomous_rules : en_ruleSet autonomous = {[ScopeGlobal := CriticalSafetyRules 0]}.
Proof. vm_compute. reflexivity. Qed.

Definition mkfs_rule : Rule :=
  safety_rule 0 "safety-deny-mkfs" "mkfs\s" "Block filesystem creation commands".

Lemma mkfs_protected : protected mkfs_rule autonomous.
Proof.
  unfold protected. rewrite autonomous_rules. unfold RulesForScope. split.
  - change (ru_Scope mkfs_rule) with ScopeGlobal. rewrite lookup_singleton_eq. right. left.
  - intros scope x. destruct (decide (ScopeGlobal = scope)) as [<-|H].
    + rewrite lookup_singleton_eq. cbn [default CriticalSafetyRules]. intros Hx Hid.
      repeat (apply elem_of_cons in Hx as [->|Hx]; [done|]). by apply elem_of_nil in Hx.
    + rewrite lookup_singleton_ne by done. intros Hx. by apply elem_of_nil in Hx.
Qed.

(** The engine after a session override and an attempt to remove the rule. *)
Definition argued : Engine :=
  (RemoveRule [ScopeGlobal; ScopeSession] [ScopeGlobal; ScopeSession] 2 "safety-deny-mkfs"
    (AllowAllForSession 1 autonomous).1).1.

Example argued_commands :
  map dn_Behavior (EvaluateBatch
    [(3, command "s1" "rm -rf /etc/passwd"); (4, command "s1" "mkfs /dev/sda"); (5, command "s1" "ls -la")]
    argued).2 = [BehaviorDeny; BehaviorDeny; BehaviorAllow].
Proof. vm_compute. reflexivity. Qed.

(** ** Where the engine falls short of its comments *)

(** [engine.go:436] says the key includes the content because the content decides:
    a command that is denied goes through after a harmless one with the same
    hash, "s " and "r?" having the same value. *)
Example denied_command_runs_after_harmless_one :
  dn_Behavior (EvaluatePreview 2 (command "s1" "mkfs /dev/sda") autonomous) = BehaviorDeny
  /\ map dn_Behavior (EvaluateBatch
       [(1, command "s1" "mkfr?/dev/sda"); (2, command "s1" "mkfs /dev/sda")] autonomous).2
     = [BehaviorAllow; BehaviorAllow].
Proof. split; vm_compute; reflexivity. Qed.

(** The key joins its parts with colons, which agent and session names may
    contain: a decision on one agent is reused for another. *)
Definition agent_request (agent session : string) : option ToolRequest :=
  Some (WithContext "" "" agent session (NewToolRequest 0 "write_file" CategoryFilesystem)).

Example other_agents_decision_is_reused :
  let e := (SetAgentAllowlist "main" ["read_file"] [] autonomous).1 in
  dn_Behavior (EvaluatePreview 2 (agent_request "main" "sub:1") e) = BehaviorDeny
  /\ map dn_Behavior (EvaluateBatch
       [(1, agent_request "main:sub" "1"); (2, agent_request "main" "sub:1")] e).2
     = [BehaviorAllow; BehaviorAllow].
Proof. split; vm_compute; reflexivity. Qed.

(** A rule that has expired is honoured as long as a decision it made is cached. *)
Example expired_rule_is_honoured :
  let e := (AddRule 0 (Some (WithExpiry second
              (NewRule 0 "for-a-second" ScopeSession BehaviorAllow "deploy")))
              (NewEngine DefaultEngineConfig)).1 in
  let deploy := Some (NewToolRequest 0 "deploy" CategoryBuiltin) in
  dn_Behavior (EvaluatePreview minute deploy e) = BehaviorAsk
  /\ map dn_Behavior (EvaluateBatch [(1, deploy); (minute, deploy)] e).2
     = [BehaviorAllow; BehaviorAllow].
Proof. split; vm_compute; reflexivity. Qed.

(** The package comment promises comprehensive logging of decisions: a decision
    served from the cache leaves no entry, though it belongs to another run. *)
Example cached_decision_is_not_logged :
  let e := (EvaluateBatch [(1, command "s1" "ls"); (2, command "s1" "ls")] autonomous).1 in
  (fun a => List.filter (fun ev => ae_Type ev ==? AuditEventDecision) (au_events a))
    <$> en_auditor e
  = (fun a => List.filter (fun ev => ae_Type ev ==? AuditEventDecision) (au_events a))
    <$> en_auditor (Evaluate 1 (command "s1" "ls") autonomous).1.
Proof. vm_compute. reflexivity. Qed.

(** [engine.go:210] says immutable rules cannot be removed: with a second rule of
    the same identifier in another scope, one of Go's iteration orders finds the
    second rule and another one removes the first. *)
Example immutable_rule_is_removed :
  let e := (AddRule 1 (Some (NewRule 1 "safety-deny-mkfs" ScopeSession BehaviorAllow "none"))
              autonomous).1 in
  let e' := (RemoveRule [ScopeSession; ScopeGlobal] [ScopeGlobal; ScopeSession] 2
               "safety-deny-mkfs" e).1 in
  dn_Behavior (EvaluatePreview 3 (command "s1" "mkfs /dev/sda") e) = BehaviorDeny
  /\ dn_Behavior (EvaluatePreview 3 (command "s1" "mkfs /dev/sda") e') = BehaviorAllow.
Proof. split; vm_compute; reflexivity. Qed.

(** [AllowAllForSession] is said to hold for the current session: its rule names
    no session and opens every session of the engine. *)
Example session_override_opens_every_session :
  let e := NewStandardEngine 0 in
  dn_Behavior (EvaluatePreview 2 (command "other" "make") e) = BehaviorAsk
  /\ dn_Behavior (EvaluatePreview 2 (command "other" "make") (AllowAllForSession 1 e).1)
     = BehaviorAllow.
Proof. split; vm_compute; reflexivity. Qed.

(** The profile "readonly" is said to deny writes: its pattern looks for a verb
    at the start of the content, which holds the JSON arguments of the tool. *)
Example readonly_agent_writes :
  let e := (ConfigureAgentProfile 0 "ro" "readonly" (NewStandardEngine 0)).1 in
  let write := Some (WithContext "" "" "ro" "s1"
    (Request_WithContent "{'path': '/etc/motd'}" (NewToolRequest 0 "write_file" CategoryFilesystem))) in
  dn_Behavior (Evaluate 1 write e).2 = BehaviorAllow.
Proof. vm_compute. reflexivity. Qed.

(** A default behavior that is misspelt is neither allowed, asked nor denied. *)
Example misspelt_default :
  let d := (Evaluate 1 (command "s1" "ls") (NewEngine (engine_config "denny"))).2 in
  (IsAllowed d, RequiresConfirmation d, IsDenied d) = (false, false, false).
Proof. vm_compute. reflexivity. Qed.

(** ** The theorems at concrete inputs *)

Lemma safety_rule_always_denies_witness :
  dn_Behavior (EvaluatePreview 4 (command "s1" "mkfs /dev/sda") argued) = BehaviorDeny
  /\ dn_Behavior (Evaluate 4 (command "s1" "mkfs /dev/sda") argued).2 = BehaviorDeny.
Proof.
  destruct (safety_rule_always_denies mkfs_rule (fun _ => True) autonomous argued 4
    (command "s1" "mkfs /dev/sda")) as [H1 [H2|(c & moment & q & _ & Hc & _)]].
  - reflexivity.
  - left.
  - exact mkfs_protected.
  - vm_compute. reflexivity.
  - eapply rtc_l; [apply (step_add _ _ 1 (Some (WithDescription "Session override: allow all operations"
      (rule 1 "session-allow-all" ScopeSession BehaviorAllow "*")))); intros r [= <-]; vm_compute; discriminate|].
    eapply rtc_l; [|apply rtc_refl]. apply step_remove; vm_compute; reflexivity.
  - vm_compute. reflexivity.
  - by split.
  - vm_compute in Hc. discriminate Hc.
Defined.

Definition limited : Engine :=
  (SetAgentAllowlist "main" ["read_*"] [CategoryNetwork] autonomous).1.

Lemma allowlist_is_exclusive_witness :
  dn_Behavior (Evaluate 2 (agent_request "main" "s1") limited).2 = BehaviorDeny.
Proof.
  rewrite (allowlist_is_exclusive "main" ["read_*"] [CategoryNetwork] autonomous 2
    (agent_request "main" "s1") limited).
  - vm_compute. reflexivity.
  - vm_compute. reflexivity.
  - discriminate.
  - vm_compute. reflexivity.
Defined.

(** Requests that differ in nothing but their time. *)
Definition listing (q : ToolRequest) : Prop := same_view q (evaluated 1 (command "s1" "ls") autonomous).

Definition listed : Engine := (Evaluate 1 (command "s1" "ls") autonomous).1.

Lemma cache_is_transparent_witness :
  dn_Behavior (Evaluate 2 (command "s1" "ls") listed).2
  = dn_Behavior (EvaluatePreview 2 (command "s1" "ls") listed).
Proof.
  apply (cache_is_transparent listing autonomous).
  - intros q1 q2 (A1 & A2 & A3 & A4 & A5 & A6) (B1 & B2 & B3 & B4 & B5 & B6) _.
    repeat split; congruence.
  - rewrite autonomous_rules. intros s r. unfold RulesForScope.
    destruct (decide (ScopeGlobal = s)) as [<-|H].
    + rewrite lookup_singleton_eq. cbn [default CriticalSafetyRules]. intros Hr.
      repeat (apply elem_of_cons in Hr as [->|Hr]; [reflexivity|]). by apply elem_of_nil in Hr.
    + rewrite lookup_singleton_ne by done. intros Hr. by apply elem_of_nil in Hr.
  - vm_compute. reflexivity.
  - apply rtc_once. apply step_evaluate. vm_compute. repeat split.
  - vm_compute. repeat split.
Defined.

Lemma one_key_one_decision_witness :
  dn_Behavior (EvaluatePreview 2 (command "s1" "mkfs /dev/sda") autonomous) = BehaviorDeny
  /\ (Evaluate 2 (command "s1" "mkfs /dev/sda")
        (Evaluate 1 (command "s1" "mkfr?/dev/sda") autonomous).1).2
     = (Evaluate 1 (command "s1" "mkfr?/dev/sda") autonomous).2.
Proof.
  split; [vm_compute; reflexivity|]. apply one_key_one_decision.
  - vm_compute. reflexivity.
  - vm_compute. reflexivity.
  - vm_compute. reflexivity.
  - vm_compute. discriminate.
Defined.

(** An agent that may do anything, but only with two tools. *)
Definition scoped_config : PermissionsConfig :=
  mkPermissionsConfig "" (Some false)
    [("scoped", mkAgentPermissions "autonomous" ["read_file"; "list_dir"] [] [] [])] [].

Definition scoped : Engine :=
  match NewEngineFromStateConfig 0 scoped_config with
  | Ok e => e
  | Err _ => NewEngine DefaultEngineConfig
  end.

Example scoped_decisions :
  map dn_Behavior (EvaluateBatch
    [(1, Some (WithContext "" "" "scoped" "" (NewToolRequest 0 "read_file" CategoryFilesystem)));
     (2, agent_request "scoped" ""); (3, agent_request "other" ""); (4, command "s" "fdisk -l")]
    scoped).2 = [BehaviorAllow; BehaviorDeny; BehaviorAsk; BehaviorDeny].
Proof. vm_compute. reflexivity. Qed.

Lemma configured_engine_is_guarded_witness :
  dn_Behavior (Evaluate 1 (command "s" "mkfs /dev/sda") scoped).2 = BehaviorDeny
  /\ dn_Behavior (Evaluate 1 (agent_request "scoped" "") scoped).2 = BehaviorDeny
  /\ dn_Behavior (Evaluate 1 (agent_request "other" "") scoped).2 = BehaviorAsk.
Proof.
  destruct (configured_engine_is_guarded 0 scoped_config scoped) as (H1 & H2 & H3).
  - vm_compute. reflexivity.
  - vm_compute. repeat constructor. intros H. inversion H.
  - split; [|split].
    + apply (H1 _ _ mkfs_rule); [right; left|vm_compute; reflexivity].
    + apply (H2 "scoped" (mkAgentPermissions "autonomous" ["read_file"; "list_dir"] [] [] []));
        [left|discriminate|vm_compute; reflexivity|vm_compute; reflexivity].
    + apply H3; vm_compute; reflexivity.
Defined.
