(* ===== verification/Paths.v ===== *)
(** [filepath.Base] and [filepath.Match] (on Unix, where package [path] has the
    same functions), as the execution policy and the tool policy use them.

    A pattern is a text of runes, a name a sequence of bytes: a star may stop
    between any two bytes, which matters for [?] and classes after it.  A
    malformed pattern matches nothing, the callers' reading of
    [ErrBadPattern]. *)

From Stdlib Require Import Ascii String.
From stdpp Require Import base tactics decidable list strings.
From S2P Require Import Prelude Runes.

(** [utf8.DecodeRuneInString] on a non-empty string. *)
Definition next_rune (l : list ascii) : option (Z * list ascii) :=
  match l with
  | [] => None
  | a :: l1 =>
    let x := code a in
    let invalid := Some (RuneError, l1) in
    if x <? 128 then Some (x, l1) else
    match l1 with
    | [] => invalid
    | b :: l2 =>
      let y := code b in
      if second2 x y then Some ((x - 192) * 64 + (y - 128), l2) else
      match l2 with
      | [] => invalid
      | c :: l3 =>
        let z := code c in
        if second3 x y && tail_byte z
        then Some ((x - 224) * 4096 + (y - 128) * 64 + (z - 128), l3) else
        match l3 with
        | [] => invalid
        | d :: l4 =>
          let w := code d in
          if second4 x y && tail_byte z && tail_byte w
          then Some ((x - 240) * 262144 + (y - 128) * 4096 + (z - 128) * 64 + (w - 128), l4)
          else invalid
        end
      end
    end
  end.

Lemma next_rune_decode l :
  decode l = match next_rune l with None => [] | Some (r, l') => r :: decode l' end.
Proof.
  destruct l as [|a l1]; [done|]. cbn [decode next_rune]. destruct (code a <? 128); [done|].
  destruct l1 as [|b l2]; [done|]. cbv beta iota. destruct (second2 _ _); [done|].
  destruct l2 as [|c l3]; [done|]. cbv beta iota. destruct (second3 _ _ && _); [done|].
  destruct l3 as [|d l4]; [done|]. cbv beta iota. by destruct (second4 _ _ && _ && _).
Qed.

Definition slash : ascii := "/"%char.

Definition is_slash (c : ascii) : bool := Ascii.eqb c slash.

Fixpoint drop_slashes (l : list ascii) : list ascii :=
  match l with
  | c :: l' => if is_slash c then drop_slashes l' else l
  | [] => []
  end.

Fixpoint until_slash (l : list ascii) : list ascii :=
  match l with
  | c :: l => if is_slash c then [] else c :: until_slash l
  | [] => []
  end.

(** [filepath.Base], read from the end of the path. *)
Definition Base (path : string) : string :=
  if path ==? "" then "."
  else match drop_slashes (rev (list_ascii_of_string path)) with
       | [] => "/"
       | l => string_of_list_ascii (rev (until_slash l))
       end.

(** ** Patterns *)

Inductive path_item :=
  | PStar
  | PAny
  | PByte (c : ascii)
  | PClass (negated : bool) (ranges : list (Z * Z)).

(** Reading a pattern; inside a class, [Some (negated, ranges)]. *)
Fixpoint path_items (s : list Z) (cls : option (bool * list (Z * Z))) : option (list path_item) :=
  match cls, s with
  | None, [] => Some []
  | None, c :: s =>
    if c =? 42 then option_map (cons PStar) (path_items s None)
    else if c =? 63 then option_map (cons PAny) (path_items s None)
    else if c =? 91 then
      match s with
      | n :: s' => if n =? 94 then path_items s' (Some (true, [])) else path_items s (Some (false, []))
      | [] => None
      end
    else if c =? 92 then
      match s with
      | [] => None
      | d :: s => option_map (app (map PByte (encode_rune d))) (path_items s None)
      end
    else option_map (app (map PByte (encode_rune c))) (path_items s None)
  | Some _, [] => None
  | Some (neg, acc), c :: s =>
    if (c =? 93) && Nat.ltb 0 (length acc)
    then option_map (cons (PClass neg acc)) (path_items s None)
    else if (c =? 45) || (c =? 93) then None
    else
    if c =? 92 then
      match s with
      | [] => None
      | lo :: s =>
        match s with
        | d :: s' =>
          if d =? 45 then
            match s' with
            | h :: s'' =>
              if (h =? 45) || (h =? 93) then None
              else if h =? 92
              then match s'' with
                   | k :: s3 => path_items s3 (Some (neg, (lo, k) :: acc))
                   | [] => None
                   end
              else path_items s'' (Some (neg, (lo, h) :: acc))
            | [] => None
            end
          else path_items s (Some (neg, (lo, lo) :: acc))
        | [] => None
        end
      end
    else
      match s with
      | d :: s' =>
        if d =? 45 then
          match s' with
          | h :: s'' =>
            if (h =? 45) || (h =? 93) then None
            else if h =? 92
            then match s'' with
                 | k :: s3 => path_items s3 (Some (neg, (c, k) :: acc))
                 | [] => None
                 end
            else path_items s'' (Some (neg, (c, h) :: acc))
          | [] => None
          end
        else path_items s (Some (neg, (c, c) :: acc))
      | [] => None
      end
  end.

(** [matchChunk]: the rest of the name after the items of a chunk. *)
Fixpoint match_chunk (chunk : list path_item) (s : list ascii) : option (list ascii) :=
  match chunk with
  | [] => Some s
  | PStar :: _ => None
  | PAny :: chunk =>
    match s, next_rune s with
    | a :: _, Some (_, s') => if is_slash a then None else match_chunk chunk s'
    | _, _ => None
    end
  | PByte c :: chunk =>
    match s with a :: s => if Ascii.eqb c a then match_chunk chunk s else None | [] => None end
  | PClass neg ranges :: chunk =>
    match next_rune s with
    | Some (r, s') =>
      if eqb (existsb (fun p => between p.1 r p.2) ranges) neg then None else match_chunk chunk s'
    | None => None
    end
  end.

(** [scanChunk], for the whole pattern: the chunks, each with whether stars
    precede it. *)
Fixpoint chunks (items : list path_item) : list (bool * list path_item) :=
  match items with
  | [] => []
  | PStar :: items =>
    match chunks items with
    | (_, chunk) :: rest => (true, chunk) :: rest
    | [] => [(true, [])]
    end
  | i :: items =>
    match chunks items with
    | (false, chunk) :: rest => (false, i :: chunk) :: rest
    | rest => (false, [i]) :: rest
    end
  end.

(** The loop of [Match]: a chunk is matched at its first possible place. *)
Fixpoint match_chunks (cs : list (bool * list path_item)) (name : list ascii) : bool :=
  match cs with
  | [] => match name with [] => true | _ :: _ => false end
  | (star, chunk) :: cs =>
    let goes_on t := match t, cs with [], _ => true | _ :: _, _ :: _ => true | _ :: _, [] => false end in
    match star, chunk with
    | true, [] => forallb (fun c => negb (is_slash c)) name
    | _, _ =>
      let later :=
        (fix skip (name : list ascii) : bool :=
           match name with
           | [] => false
           | a :: name =>
             if is_slash a then false
             else match match_chunk chunk name with
                  | Some t => if goes_on t then match_chunks cs t else skip name
                  | None => skip name
                  end
           end) name in
      match match_chunk chunk name with
      | Some t => if goes_on t then match_chunks cs t else star && later
      | None => star && later
      end
    end
  end.

Definition path_match (pattern name : string) : bool :=
  match path_items (runes pattern) None with
  | Some items => match_chunks (chunks items) (list_ascii_of_string name)
  | None => false
  end.

Example path_matches :
  map (fun p => path_match p.1 p.2)
    [("*.go", "a.go"); ("*.go", "a/b.go"); ("/usr/*/git", "/usr/bin/git"); ("a?c", "abc");
     ("[a-c]x", "bx"); ("[^a-c]x", "bx"); ("*", ""); ("", ""); ("*??b", "→b"); ("a[", "a[");
     ("\*", "*"); ("**b*", "abba")]
  = [true; false; true; true; true; false; true; true; true; false; true; true].
Proof. vm_compute. reflexivity. Qed.

Example bases : map Base [""; "/"; "a/b/"; "/usr/bin/git"; "git"] = ["."; "/"; "b"; "git"; "git"].
Proof. vm_compute. reflexivity. Qed.
