(* ===== verification/ExecPolicy.v ===== *)
(** The host execution policy: internal/permissions/exec_policy.go.

    A policy is a dynamic value read from configuration.  JSON decoding of a
    signature, JSON encoding of an entry (the sort key of a list) and the digest
    of the effective policy are variables. *)

From Stdlib Require Import Ascii String Floats.SpecFloat.
From stdpp Require Import base tactics decidable list gmap strings pretty.
From S2P Require Import Prelude Runes Regexp Sorting Permissions Paths Duration.

(** ** Dynamic values *)

Inductive pvalue :=
  | PNil
  | PBool (b : bool)
  | PInt (z : Z)
  | PInt64 (z : Z)
  | PFloat (f : float64)
  | PNumber (s : string)
  | PString (s : string)
  | PStrings (l : list string)
  | PList (l : list pvalue)
  | PMap (m : gmap string pvalue).

Abbreviation policy := (gmap string pvalue).

Definition asPolicyMap (v : pvalue) : option policy :=
  match v with PMap m => Some m | _ => None end.

(** [m[key]], nil when there is none. *)
Definition field (m : policy) (key : string) : pvalue := default PNil (m !! key).

Definition as_string (v : pvalue) : option string :=
  match v with PString s => Some s | _ => None end.

(** [s, _ := v.(string)] *)
Definition string_or_empty (v : pvalue) : string := default "" (as_string v).

(** ** Levels *)

Definition ExecSecurityDeny : string := "deny".
Definition ExecSecurityAllowlist : string := "allowlist".
Definition ExecSecurityFull : string := "full".

Definition ExecAskOff : string := "off".
Definition ExecAskOnMiss : string := "on-miss".
Definition ExecAskAlways : string := "always".

Definition security_rank (s : string) : Z :=
  go_switch s [([ExecSecurityDeny], 0); ([ExecSecurityAllowlist], 1); ([ExecSecurityFull], 2)] 0.

Definition ask_rank (s : string) : Z :=
  go_switch s [([ExecAskOff], 0); ([ExecAskOnMiss], 1); ([ExecAskAlways], 2)] 0.

Definition stricterSecurity (a b : string) : string :=
  if security_rank a <=? security_rank b then a else b.

Definition stricterAsk (a b : string) : string := if ask_rank b <=? ask_rank a then a else b.

Definition minPositive (values : list Z) : Z :=
  fold_left (fun out value => if (0 <? value) && ((out =? 0) || (value <? out)) then value else out)
    values 0.

Record ExecAllowlistEntry := mkExecAllowlistEntry {
  xe_Pattern : string;
  xe_ArgPattern : string;
  xe_Signature : string
}.

Record EffectiveExecPolicy := mkEffectiveExecPolicy {
  xp_Security : string;
  xp_Ask : string;
  xp_AskFallback : string;
  xp_TimeoutMS : Z;
  xp_AutoReview : bool;
  xp_Allowlist : list ExecAllowlistEntry;
  xp_Fingerprint : string
}.

#[export] Instance set_xp_Fingerprint : Setter xp_Fingerprint := fun v r =>
  mkEffectiveExecPolicy (xp_Security r) (xp_Ask r) (xp_AskFallback r) (xp_TimeoutMS r)
    (xp_AutoReview r) (xp_Allowlist r) v.
Record ExecPolicyRequest := mkExecPolicyRequest {
  xr_Tool : string;
  xr_AgentID : string;
  xr_Argv : list string;
  xr_ExecutablePath : string;
  xr_Signature : string;
  xr_AllowAlwaysSafe : bool;
  xr_Permission : string;
  xr_PromptAvailable : bool;
  xr_DefaultTimeoutMS : Z
}.

#[export] Instance set_xr_DefaultTimeoutMS : Setter xr_DefaultTimeoutMS := fun v r =>
  mkExecPolicyRequest (xr_Tool r) (xr_AgentID r) (xr_Argv r) (xr_ExecutablePath r)
    (xr_Signature r) (xr_AllowAlwaysSafe r) (xr_Permission r) (xr_PromptAvailable r) v.
Record ExecPolicyDecision := mkExecPolicyDecision {
  xd_Behavior : string;
  xd_Reason : string;
  xd_AllowlistMatched : bool;
  xd_LegacySignature : bool;
  xd_FallbackApplied : bool;
  xd_Effective : EffectiveExecPolicy
}.

#[export] Instance set_xd_Behavior : Setter xd_Behavior := fun v r =>
  mkExecPolicyDecision v (xd_Reason r) (xd_AllowlistMatched r) (xd_LegacySignature r)
    (xd_FallbackApplied r) (xd_Effective r).
#[export] Instance set_xd_Reason : Setter xd_Reason := fun v r =>
  mkExecPolicyDecision (xd_Behavior r) v (xd_AllowlistMatched r) (xd_LegacySignature r)
    (xd_FallbackApplied r) (xd_Effective r).
#[export] Instance set_xd_FallbackApplied : Setter xd_FallbackApplied := fun v r =>
  mkExecPolicyDecision (xd_Behavior r) (xd_Reason r) (xd_AllowlistMatched r)
    (xd_LegacySignature r) v (xd_Effective r).
Record execPolicyLayer := mkexecPolicyLayer {
  xl_security : string;
  xl_ask : string;
  xl_fallback : string;
  xl_timeoutMS : Z;
  xl_autoReview : bool;
  xl_applies : bool;
  xl_allowlist : list ExecAllowlistEntry;
  xl_alwaysSigs : list string
}.

#[export] Instance set_xl_security : Setter xl_security := fun v r =>
  mkexecPolicyLayer v (xl_ask r) (xl_fallback r) (xl_timeoutMS r) (xl_autoReview r) (xl_applies
    r) (xl_allowlist r) (xl_alwaysSigs r).
#[export] Instance set_xl_ask : Setter xl_ask := fun v r =>
  mkexecPolicyLayer (xl_security r) v (xl_fallback r) (xl_timeoutMS r) (xl_autoReview r)
    (xl_applies r) (xl_allowlist r) (xl_alwaysSigs r).
#[export] Instance set_xl_fallback : Setter xl_fallback := fun v r =>
  mkexecPolicyLayer (xl_security r) (xl_ask r) v (xl_timeoutMS r) (xl_autoReview r) (xl_applies
    r) (xl_allowlist r) (xl_alwaysSigs r).
#[export] Instance set_xl_timeoutMS : Setter xl_timeoutMS := fun v r =>
  mkexecPolicyLayer (xl_security r) (xl_ask r) (xl_fallback r) v (xl_autoReview r) (xl_applies
    r) (xl_allowlist r) (xl_alwaysSigs r).
#[export] Instance set_xl_autoReview : Setter xl_autoReview := fun v r =>
  mkexecPolicyLayer (xl_security r) (xl_ask r) (xl_fallback r) (xl_timeoutMS r) v (xl_applies
    r) (xl_allowlist r) (xl_alwaysSigs r).
#[export] Instance set_xl_applies : Setter xl_applies := fun v r =>
  mkexecPolicyLayer (xl_security r) (xl_ask r) (xl_fallback r) (xl_timeoutMS r) (xl_autoReview
    r) v (xl_allowlist r) (xl_alwaysSigs r).
#[export] Instance set_xl_allowlist : Setter xl_allowlist := fun v r =>
  mkexecPolicyLayer (xl_security r) (xl_ask r) (xl_fallback r) (xl_timeoutMS r) (xl_autoReview
    r) (xl_applies r) v (xl_alwaysSigs r).
#[export] Instance set_xl_alwaysSigs : Setter xl_alwaysSigs := fun v r =>
  mkexecPolicyLayer (xl_security r) (xl_ask r) (xl_fallback r) (xl_timeoutMS r) (xl_autoReview
    r) (xl_applies r) (xl_allowlist r) v.

(** ** Values *)

(** [strings.Split(s, ",")] *)
Fixpoint split_comma (s : string) (acc : string) : list string :=
  match s with
  | "" => [acc]
  | String c s => if Ascii.eqb c ","%char then acc :: split_comma s ""
                  else split_comma s (acc +:+ String c "")
  end.

Fixpoint digits_value (l : list ascii) (acc : Z) : option Z :=
  match l with
  | [] => Some acc
  | c :: l => if between 48 (code c) 57 then digits_value l (acc * 10 + (code c - 48)) else None
  end.

(** [json.Number.Int64], which is [strconv.ParseInt(s, 10, 64)]. *)
Definition parse_int64 (s : string) : option Z :=
  let digits l := match l with [] => None | _ :: _ => digits_value l 0 end in
  match match list_ascii_of_string s with
        | c :: l => if code c =? 45 then Z.opp <$> digits l
                    else if code c =? 43 then digits l
                    else digits (c :: l)
        | [] => None
        end with
  | Some z => if between (- 2 ^ 63) z (2 ^ 63 - 1) then Some z else None
  | None => None
  end.

Definition parseExecSecurity (v : pvalue) : result string :=
  match as_string v with
  | None => Err (Errorf "security must be a string" [])
  | Some s =>
    go_switch (ToLower (TrimSpace s))
      [([ExecSecurityDeny], Ok ExecSecurityDeny); ([ExecSecurityAllowlist], Ok ExecSecurityAllowlist);
       ([ExecSecurityFull], Ok ExecSecurityFull)] (Err (Errorf "invalid security %q" [ArgS s]))
  end.

Definition parseExecAsk (v : pvalue) : result string :=
  match as_string v with
  | None => Err (Errorf "ask must be a string" [])
  | Some s =>
    go_switch (ToLower (TrimSpace s))
      [([ExecAskOff], Ok ExecAskOff); ([ExecAskOnMiss], Ok ExecAskOnMiss);
       ([ExecAskAlways], Ok ExecAskAlways)] (Err (Errorf "invalid ask %q" [ArgS s]))
  end.

Fixpoint string_items (i : Z) (l : list pvalue) : result (list string) :=
  match l with
  | [] => Ok []
  | v :: l =>
    match as_string v with
    | Some s =>
      if blank s then Err (Errorf "entry %d must be a non-empty string" [ArgZ i])
      else match string_items (i + 1) l with Ok r => Ok (TrimSpace s :: r) | Err e => Err e end
    | None => Err (Errorf "entry %d must be a non-empty string" [ArgZ i])
    end
  end.

(** The values and whether the field was there. *)
Definition policyStringSlice (raw : pvalue) : result (list string * bool) :=
  match raw with
  | PNil => Ok ([], false)
  | PString s => Ok (List.filter (fun item => item !=? "") (map TrimSpace (split_comma s "")), true)
  | PStrings l => Ok (l, true)
  | PList l => match string_items 0 l with Ok r => Ok (r, true) | Err e => Err e end
  | _ => Err (Errorf "must be a string or array of strings" [])
  end.

Definition wrap {A} (format : string) (r : result A) : result A :=
  match r with Ok a => Ok a | Err e => Err (Wrapf format [] e) end.

(** [if value, exists := m[key]; exists { x = parse(value) }] *)
Definition if_present {A} (m : policy) (key : string) (parse : pvalue -> result A) (dflt : A)
  : result A :=
  match m !! key with None => Ok dflt | Some v => parse v end.

Definition mergePolicyMap (dst src : policy) : policy := src ∪ dst.

Definition flattenExecPolicy (raw : policy) (agentID : string) : result policy :=
  let out := delete "agents" (delete "defaults" raw) in
  match match raw !! "defaults" with
        | None => Ok out
        | Some d => match asPolicyMap d with
                    | None => Err (Errorf "defaults must be an object" [])
                    | Some m => Ok (mergePolicyMap out m)
                    end
        end with
  | Err e => Err e
  | Ok out =>
    match raw !! "agents" with
    | None => Ok out
    | Some v =>
      match asPolicyMap v with
      | None => Err (Errorf "agents must be an object" [])
      | Some agents =>
        let out := match asPolicyMap (field agents "*") with
                   | Some wildcard => mergePolicyMap out wildcard
                   | None => out
                   end in
        Ok match asPolicyMap (field agents agentID) with
           | Some exact => if agentID !=? "" then mergePolicyMap out exact else out
           | None => out
           end
      end
    end
  end.

Definition matchPolicyPatternList (patterns : list string) (value : string) : bool :=
  existsb (fun p => (p ==? value) || path_match p value) patterns.

Definition signatureIn (signature : string) (sets : list (list string)) : bool :=
  if signature ==? "" then false
  else existsb (fun set => existsb (fun v => v ==? signature) set) sets.

Section Policy.
Context `{R : Regexp}.
(** [json.Unmarshal] into a list of strings. *)
Variable json_strings : string -> option (list string).
Variable entry_json : ExecAllowlistEntry -> string.
Variable digest : EffectiveExecPolicy -> string.
(** float64 values that do not fit an int are converted as the machine does. *)
Variable unrepresentable : float64 -> Z.

Definition positivePolicyInt (v : pvalue) : option Z :=
  match v with
  | PInt n => if 0 <? n then Some n else None
  | PInt64 n => if (0 <? n) && (n <=? 2 ^ 63 - 1) then Some n else None
  | PFloat f =>
    let n := int_of_float64 unrepresentable f in
    if SFltb (S754_zero false) f && SFeqb f (float64_of_int n) then Some n else None
  | PNumber s =>
    match parse_int64 s with Some i => if 0 <? i then Some i else None | None => None end
  | _ => None
  end.

Definition isCanonicalExecSignature (value : string) : bool :=
  match json_strings value with
  | Some (first :: _ :: _) => first ==? "exec"
  | _ => false
  end.

(** One element of an allowlist; [i] is its position. *)
Definition parse_entry (i : Z) (value : pvalue) : result ExecAllowlistEntry :=
  match value with
  | PString item =>
    let item := TrimSpace item in
    if item ==? "" then Err (Errorf "allowlist[%d] is empty" [ArgZ i])
    else Ok (if isCanonicalExecSignature item then mkExecAllowlistEntry "" "" item
             else mkExecAllowlistEntry item "" "")
  | PMap m =>
    let pattern := TrimSpace (string_or_empty (field m "pattern")) in
    let argPattern := string_or_empty (field m "argPattern") in
    let argPattern := TrimSpace (if argPattern ==? "" then string_or_empty (field m "arg_pattern")
                                 else argPattern) in
    if pattern ==? "" then Err (Errorf "allowlist[%d].pattern is required" [ArgZ i])
    else if argPattern ==? "" then Ok (mkExecAllowlistEntry pattern "" "")
    else match compile argPattern with
         | Err e => Err (Wrapf "allowlist[%d].argPattern is invalid: %w" [ArgZ i] e)
         | Ok _ => Ok (mkExecAllowlistEntry pattern argPattern "")
         end
  | _ => Err (Errorf "allowlist[%d] must be a string or object" [ArgZ i])
  end.

Fixpoint parse_entries (i : Z) (values : list pvalue) : result (list ExecAllowlistEntry) :=
  match values with
  | [] => Ok []
  | v :: values =>
    match parse_entry i v with
    | Err e => Err e
    | Ok x => match parse_entries (i + 1) values with Ok l => Ok (x :: l) | Err e => Err e end
    end
  end.

(** Entries with one JSON text are equal, so that the order is determined. *)
Definition parseExecAllowlist (raw : pvalue) : result (list ExecAllowlistEntry) :=
  let parsed values :=
    match parse_entries 0 values with
    | Ok l => Ok (sort_by (fun x y => String.ltb (entry_json x) (entry_json y)) l)
    | Err e => Err e
    end in
  match raw with
  | PNil => Ok []
  | PList values => parsed values
  | PStrings l => parsed (map PString l)
  | _ => Err (Errorf "allowlist must be an array" [])
  end.

Definition matchExecAllowlist (entries : list ExecAllowlistEntry) (req : ExecPolicyRequest) : bool :=
  let argumentText := String.concat " " (drop 1 (xr_Argv req)) in
  let argvExecutable := default "" (head (xr_Argv req)) in
  let candidates := List.filter (fun c => c !=? "")
    [xr_Tool req; Base argvExecutable; argvExecutable; Base (xr_ExecutablePath req);
     xr_ExecutablePath req] in
  existsb (fun entry =>
      ((xe_Signature entry !=? "") && (xe_Signature entry ==? xr_Signature req))
      || ((xe_Pattern entry !=? "")
          && existsb (fun c => (xe_Pattern entry ==? c) || path_match (xe_Pattern entry) c) candidates
          && ((xe_ArgPattern entry ==? "") || pattern_matches (xe_ArgPattern entry) argumentText)))
    entries.

(** The result of a [mode]. *)
Definition apply_mode (mode : string) (layer : execPolicyLayer) : result execPolicyLayer :=
  let levels security ask := layer <| xl_security := security |> <| xl_ask := ask |> in
  go_switch mode
    [(["deny"], Ok (levels ExecSecurityDeny ExecAskOff));
     (["allowlist"], Ok (levels ExecSecurityAllowlist ExecAskOff));
     (["ask"], Ok (levels ExecSecurityAllowlist ExecAskOnMiss));
     (["auto"], Ok ((levels ExecSecurityAllowlist ExecAskOnMiss) <| xl_autoReview := true |>));
     (["full"], Ok (levels ExecSecurityFull ExecAskOff));
     (["allow"], Ok (levels ExecSecurityFull ExecAskOff))]
    (Err (Errorf "invalid mode %q" [ArgS mode])).

(** The fields that override the mode, one after the other. *)
Definition apply_levels (flat : policy) (layer : execPolicyLayer) : result execPolicyLayer :=
  match if_present flat "security" parseExecSecurity (xl_security layer) with
  | Err e => Err e
  | Ok security =>
    match if_present flat "ask" parseExecAsk (xl_ask layer) with
    | Err e => Err e
    | Ok ask =>
      let fallback_key := match flat !! "askFallback" with Some _ => "askFallback" | None => "ask_fallback" end in
      match wrap "askFallback: %w" (if_present flat fallback_key parseExecSecurity (xl_fallback layer)) with
      | Err e => Err e
      | Ok fallback =>
        match if_present flat "timeout_ms"
                (fun v => match positivePolicyInt v with
                          | Some n => Ok n
                          | None => Err (Errorf "timeout_ms must be a positive integer" [])
                          end) (xl_timeoutMS layer) with
        | Err e => Err e
        | Ok timeout =>
          Ok (layer <| xl_security := security |> <| xl_ask := ask |> <| xl_fallback := fallback |>
                    <| xl_timeoutMS := timeout |>)
        end
      end
    end
  end.

(** The tools a layer is about, its allowlist and its signatures. *)
Definition apply_lists (flat : policy) (mode tool : string) (layer : execPolicyLayer)
  : result execPolicyLayer :=
  match wrap "tools: %w" (policyStringSlice (field flat "tools")) with
  | Err e => Err e
  | Ok (tools, toolsPresent) =>
    let layer := layer <| xl_applies := negb toolsPresent || matchPolicyPatternList tools tool |> in
    let layer := if toolsPresent && (mode ==? "")
                 then layer <| xl_security := ExecSecurityAllowlist |> <| xl_ask := ExecAskOnMiss |>
                 else layer in
    match parseExecAllowlist (field flat "allowlist") with
    | Err e => Err e
    | Ok allowlist =>
      let layer := layer <| xl_allowlist := allowlist |> in
      let layer := if Nat.ltb 0 (length allowlist) && (mode ==? "")
                      && match flat !! "security" with None => true | Some _ => false end
                   then layer <| xl_security := ExecSecurityAllowlist |> else layer in
      match wrap "allow_always_signatures: %w" (policyStringSlice (field flat "allow_always_signatures")) with
      | Err e => Err e
      | Ok (sigs, _) => Ok (layer <| xl_alwaysSigs := sigs |>)
      end
    end
  end.

Definition no_layer (defaultTimeout : Z) : execPolicyLayer :=
  mkexecPolicyLayer ExecSecurityFull ExecAskOff ExecSecurityDeny defaultTimeout false false [] [].

Definition parseExecPolicyLayer (raw : policy) (agentID tool : string) (defaultTimeout : Z)
  : result execPolicyLayer :=
  match flattenExecPolicy raw agentID with
  | Err e => Err e
  | Ok flat =>
    if Nat.eqb (size flat) 0 then Ok (no_layer defaultTimeout)
    else
    let mode := ToLower (TrimSpace (string_or_empty (field flat "mode"))) in
    match match flat !! "mode" with
          | Some _ => apply_mode mode (no_layer defaultTimeout)
          | None => Ok (no_layer defaultTimeout)
          end with
    | Err e => Err e
    | Ok layer =>
      match apply_levels flat layer with
      | Err e => Err e
      | Ok layer =>
        match apply_lists flat mode tool layer with
        | Err e => Err e
        | Ok layer =>
          Ok (if xl_applies layer then layer
              else layer <| xl_security := ExecSecurityFull |> <| xl_ask := ExecAskOff |>
                         <| xl_fallback := ExecSecurityFull |> <| xl_allowlist := [] |>
                         <| xl_alwaysSigs := [] |>)
        end
      end
    end
  end.

(** ** Decisions *)

Definition fingerprintExecPolicy (p : EffectiveExecPolicy) : string :=
  "sha256:" +:+ digest (p <| xp_Fingerprint := "" |>).

Definition effective_policy (caller host : execPolicyLayer) (defaultTimeout : Z) : EffectiveExecPolicy :=
  let security := stricterSecurity (xl_security caller) (xl_security host) in
  let p := mkEffectiveExecPolicy security (stricterAsk (xl_ask caller) (xl_ask host))
    (stricterSecurity security (stricterSecurity (xl_fallback caller) (xl_fallback host)))
    (minPositive [xl_timeoutMS caller; xl_timeoutMS host; defaultTimeout])
    (xl_autoReview caller || xl_autoReview host) (xl_allowlist caller ++ xl_allowlist host) "" in
  p <| xp_Fingerprint := fingerprintExecPolicy p |>.

Definition ApplyExecAskFallback (d : ExecPolicyDecision) : ExecPolicyDecision :=
  let d := d <| xd_FallbackApplied := true |> in
  let answer behavior reason := d <| xd_Behavior := behavior |> <| xd_Reason := reason |> in
  go_switch (xp_AskFallback (xd_Effective d))
    [([ExecSecurityFull],
      answer BehaviorAllow "exec approval unavailable; full fallback permits execution");
     ([ExecSecurityAllowlist],
      if xd_AllowlistMatched d
      then answer BehaviorAllow "exec approval unavailable; allowlist fallback matched"
      else answer BehaviorDeny "exec approval unavailable; allowlist fallback missed")]
    (answer BehaviorDeny "exec approval unavailable; deny fallback").

Definition layer_match (layer : execPolicyLayer) (req : ExecPolicyRequest) : bool :=
  negb (xl_applies layer) || (xl_security layer ==? ExecSecurityFull)
  || matchExecAllowlist (xl_allowlist layer) req.

Definition legacy_match (caller host : execPolicyLayer) (req : ExecPolicyRequest) : bool :=
  xr_AllowAlwaysSafe req && signatureIn (xr_Signature req) [xl_alwaysSigs caller; xl_alwaysSigs host].

(** The switch of [EvaluateExecPolicy]. *)
Definition decide_exec (effective : EffectiveExecPolicy) (allowlistMatch : bool) (permission : string)
  : string * string :=
  if permission ==? BehaviorDeny then (BehaviorDeny, "denied by tool permission policy")
  else if xp_Security effective ==? ExecSecurityDeny
  then (BehaviorDeny, "effective exec security is deny")
  else if xp_Ask effective ==? ExecAskAlways
  then (BehaviorAsk, "effective exec ask policy is always")
  else if xp_Security effective ==? ExecSecurityFull
  then (BehaviorAllow, "effective exec security is full")
  else if allowlistMatch then (BehaviorAllow, "execution matched effective allowlist")
  else if (xp_Ask effective ==? ExecAskOnMiss) || (permission ==? BehaviorAsk)
  then (BehaviorAsk, "execution missed effective allowlist")
  else (BehaviorDeny, "execution missed allowlist and prompting is disabled").

(** The decision on two parsed layers. *)
Definition evaluate_layers (caller host : execPolicyLayer) (req : ExecPolicyRequest)
  : ExecPolicyDecision :=
  let effective := effective_policy caller host (xr_DefaultTimeoutMS req) in
  let legacyMatch := legacy_match caller host req in
  let allowlistMatch := legacyMatch || (layer_match caller req && layer_match host req) in
  let '(behavior, reason) := decide_exec effective allowlistMatch (xr_Permission req) in
  let decision := mkExecPolicyDecision behavior reason allowlistMatch legacyMatch false effective in
  if (behavior ==? BehaviorAsk) && negb (xr_PromptAvailable req)
  then ApplyExecAskFallback decision else decision.

Definition with_default_timeout (req : ExecPolicyRequest) : ExecPolicyRequest :=
  if xr_DefaultTimeoutMS req <=? 0 then req <| xr_DefaultTimeoutMS := 5 * 60 * 1000 |> else req.

Definition EvaluateExecPolicy (callerPolicy hostPolicy : policy) (req : ExecPolicyRequest)
  : result ExecPolicyDecision :=
  let req := with_default_timeout req in
  match wrap "caller exec policy: %w"
          (parseExecPolicyLayer callerPolicy (xr_AgentID req) (xr_Tool req) (xr_DefaultTimeoutMS req)) with
  | Err e => Err e
  | Ok caller =>
    match wrap "execution-host exec policy: %w"
            (parseExecPolicyLayer hostPolicy (xr_AgentID req) (xr_Tool req) (xr_DefaultTimeoutMS req)) with
    | Err e => Err e
    | Ok host => Ok (evaluate_layers caller host req)
    end
  end.
End Policy.

(** ** The caller's policy: [callerExecPolicy] of cmd/metiqd/exec_approval_binding.go

    [None] is a panic: the assignment to an entry of a nil map, which the clone of
    an absent configuration section is.  [defaultTools] lists the set's elements. *)

Definition callerExecPolicy (raw : pvalue) (defaultTools : list string) (fullProfile : bool)
    (permission : string) (permissionActive : bool) : option policy :=
  if permissionActive then
    if permission ==? BehaviorAsk
    then Some {["mode" := PString "ask"; "tools" := PList [PString "*"]]}
    else Some {["mode" := PString "full"]}
  else if fullProfile then Some {["mode" := PString "full"]}
  else
    match asPolicyMap raw with
    | None => None
    | Some m =>
      Some match m !! "tools" with
           | Some _ => m
           | None => <["tools" := PList (map PString (sort_by String.ltb defaultTools))]> m
           end
    end.
