(* ===== verification/ExecPolicyProps.v ===== *)
(** The execution policy: no layer adds a permission that the other one withholds,
    with the exceptions the code makes, and what reaches the operator. *)

From Stdlib Require Import Ascii String.
From stdpp Require Import base tactics decidable list gmap strings pretty.
From S2P Require Import Prelude Runes Regexp Sorting Permissions Paths Duration ExecPolicy.

(** ** Levels *)

Definition valid_security (s : string) : Prop :=
  s = ExecSecurityDeny \/ s = ExecSecurityAllowlist \/ s = ExecSecurityFull.

Definition valid_ask (s : string) : Prop := s = ExecAskOff \/ s = ExecAskOnMiss \/ s = ExecAskAlways.

Definition valid_layer (l : execPolicyLayer) : Prop :=
  valid_security (xl_security l) /\ valid_ask (xl_ask l) /\ valid_security (xl_fallback l).

(** A policy that does not concern the tool. *)
Definition neutral_layer (defaultTimeout : Z) : execPolicyLayer :=
  mkexecPolicyLayer ExecSecurityFull ExecAskOff ExecSecurityFull defaultTimeout false false [] [].

Section Parse.
Context `{R : Regexp}.
Variable json_strings : string -> option (list string).
Variable entry_json : ExecAllowlistEntry -> string.
Variable unrepresentable : float64 -> Z.

Lemma parse_security_valid v s : parseExecSecurity v = Ok s -> valid_security s.
Proof.
  unfold parseExecSecurity, valid_security. destruct (as_string v) as [x|]; [|done].
  cbn [go_switch]. repeat (destruct (existsb _ _); [intros [= <-]; auto|]). done.
Qed.

Lemma parse_ask_valid v s : parseExecAsk v = Ok s -> valid_ask s.
Proof.
  unfold parseExecAsk, valid_ask. destruct (as_string v) as [x|]; [|done].
  cbn [go_switch]. repeat (destruct (existsb _ _); [intros [= <-]; auto|]). done.
Qed.

Lemma if_present_valid {A} (P : A -> Prop) m key parse dflt a :
  (forall v a, parse v = Ok a -> P a) -> P dflt -> if_present m key parse dflt = Ok a -> P a.
Proof. unfold if_present. intros Hp Hd. destruct (m !! key); [apply Hp|by intros [= <-]]. Qed.

Lemma wrap_ok {A} format (r : result A) a : wrap format r = Ok a -> r = Ok a.
Proof. by destruct r. Qed.

Lemma apply_mode_valid mode l l' : apply_mode mode l = Ok l' -> valid_layer l -> valid_layer l'.
Proof.
  unfold apply_mode. cbn [go_switch]. intros H (_ & _ & Hf).
  repeat (destruct (existsb _ _);
    [apply Ok_inj in H; subst l';
     split; [unfold valid_security; cbn; auto|split; [unfold valid_ask; cbn; auto|exact Hf]]|]).
  done.
Qed.

Lemma apply_levels_valid flat l l' :
  apply_levels unrepresentable flat l = Ok l' -> valid_layer l -> valid_layer l'.
Proof.
  unfold apply_levels. intros H (Hs & Ha & Hf).
  destruct (if_present flat "security" _ _) as [s|] eqn:E1; [|done].
  destruct (if_present flat "ask" _ _) as [a|] eqn:E2; [|done].
  destruct (wrap _ _) as [f|] eqn:E3; [|done]. apply wrap_ok in E3.
  destruct (if_present flat "timeout_ms" _ _) as [t|]; [|done].
  apply Ok_inj in H. subst l'. split; [|split]; cbn.
  - by eapply (if_present_valid valid_security), E1; [apply parse_security_valid|].
  - by eapply (if_present_valid valid_ask), E2; [apply parse_ask_valid|].
  - by eapply (if_present_valid valid_security), E3; [apply parse_security_valid|].
Qed.

Lemma apply_lists_valid flat mode tool l l' :
  apply_lists json_strings entry_json flat mode tool l = Ok l' -> valid_layer l -> valid_layer l'.
Proof.
  unfold apply_lists. intros H (Hs & Ha & Hf). destruct (wrap _ _) as [[tools p]|]; [|done].
  destruct (parseExecAllowlist _ _ _) as [al|]; [|done].
  destruct (wrap "allow_always_signatures: %w" _) as [[sigs q]|]; [|done].
  apply Ok_inj in H. subst l'.
  assert (valid_security ExecSecurityAllowlist /\ valid_ask ExecAskOnMiss) as [H1 H2]
    by (unfold valid_security, valid_ask; auto).
  destruct (p && _), (Nat.ltb _ _ && _ && _); done.
Qed.

Lemma no_layer_valid t : valid_layer (no_layer t).
Proof. unfold valid_layer, valid_security, valid_ask; cbn; auto. Qed.

(** A parsed layer has known levels; one that does not apply is neutral. *)
Lemma parse_layer_valid raw agentID tool t l :
  parseExecPolicyLayer json_strings entry_json unrepresentable raw agentID tool t = Ok l ->
  valid_layer l.
Proof.
  unfold parseExecPolicyLayer. destruct (flattenExecPolicy raw agentID) as [flat|]; [|done].
  destruct (Nat.eqb _ 0); [intros [= <-]; apply no_layer_valid|].
  destruct (match flat !! "mode" with Some _ => _ | None => _ end) as [l1|] eqn:E1; [|done].
  destruct (apply_levels _ flat l1) as [l2|] eqn:E2; [|done].
  destruct (apply_lists _ _ flat _ tool l2) as [l3|] eqn:E3; [|done]. intros H.
  assert (valid_layer l1) as V1.
  { destruct (flat !! "mode"); [by eapply apply_mode_valid, no_layer_valid|].
    injection E1 as <-. apply no_layer_valid. }
  assert (valid_layer l3) as V3 by (by eapply apply_lists_valid, apply_levels_valid, V1).
  apply Ok_inj in H. subst l. destruct (xl_applies l3); [done|].
  unfold valid_layer, valid_security, valid_ask; cbn; auto.
Qed.
End Parse.

(** ** Merging layers *)

(** The behavior, as a function of the merged levels and the facts that count. *)
Definition behavior_of (security ask fallback : string) (matched deny asks prompt : bool) : string :=
  let b := if deny then BehaviorDeny
    else if security ==? ExecSecurityDeny then BehaviorDeny
    else if ask ==? ExecAskAlways then BehaviorAsk
    else if security ==? ExecSecurityFull then BehaviorAllow
    else if matched then BehaviorAllow
    else if (ask ==? ExecAskOnMiss) || asks then BehaviorAsk else BehaviorDeny in
  if (b ==? BehaviorAsk) && negb prompt then
    if fallback ==? ExecSecurityFull then BehaviorAllow
    else if (fallback ==? ExecSecurityAllowlist) && matched then BehaviorAllow else BehaviorDeny
  else b.

Definition merged_fallback (caller host : execPolicyLayer) : string :=
  stricterSecurity (stricterSecurity (xl_security caller) (xl_security host))
    (stricterSecurity (xl_fallback caller) (xl_fallback host)).

Definition securities : list string := [ExecSecurityDeny; ExecSecurityAllowlist; ExecSecurityFull].
Definition asks : list string := [ExecAskOff; ExecAskOnMiss; ExecAskAlways].
Definition bools : list bool := [true; false].

Lemma valid_security_in s : valid_security s -> In s securities.
Proof. unfold valid_security, securities; cbn; intuition. Qed.
Lemma valid_ask_in s : valid_ask s -> In s asks.
Proof. unfold valid_ask, asks; cbn; intuition. Qed.
Lemma bools_all b : In b bools.
Proof. destruct b; cbn; auto. Qed.

(** [all l f] tests every element. *)
Definition all {A} (l : list A) (f : A -> bool) : bool := forallb f l.

Lemma all_elim {A} (l : list A) f x : all l f = true -> In x l -> f x = true.
Proof. intros H. by apply forallb_forall. Qed.

(** The finite statement behind the next theorem: what two layers allow, each
    allows beside a neutral one, on the left or on the right; [legacy] tells that
    the signature is among those of the layer that is kept, [mc] and [mh] are the
    matches of the two layers. *)
Definition merge_is_tight : bool :=
  all securities (fun sc => all securities (fun sh => all asks (fun ac => all asks (fun ah =>
  all securities (fun fc => all securities (fun fh =>
  all bools (fun legacy => all bools (fun mc => all bools (fun mh =>
  all bools (fun deny => all bools (fun ask => all bools (fun prompt =>
    let b sc sh ac ah fc fh matched :=
      behavior_of (stricterSecurity sc sh) (stricterAsk ac ah)
        (stricterSecurity (stricterSecurity sc sh) (stricterSecurity fc fh)) matched deny ask prompt in
    let full := ExecSecurityFull in
    implb (b sc sh ac ah fc fh (legacy || (mc && mh)) ==? BehaviorAllow)
      ((b full sh ExecAskOff ah full fh (legacy || mh) ==? BehaviorAllow)
       && (b sc full ac ExecAskOff fc full (legacy || mc) ==? BehaviorAllow)))))))))))))).

Lemma merge_is_tight_holds : merge_is_tight = true.
Proof. vm_compute. reflexivity. Qed.

Lemma tight_at sc sh ac ah fc fh legacy mc mh deny ask prompt :
  In sc securities -> In sh securities -> In ac asks -> In ah asks ->
  In fc securities -> In fh securities ->
  let b sc sh ac ah fc fh matched :=
    behavior_of (stricterSecurity sc sh) (stricterAsk ac ah)
      (stricterSecurity (stricterSecurity sc sh) (stricterSecurity fc fh)) matched deny ask prompt in
  implb (b sc sh ac ah fc fh (legacy || (mc && mh)) ==? BehaviorAllow)
    ((b ExecSecurityFull sh ExecAskOff ah ExecSecurityFull fh (legacy || mh) ==? BehaviorAllow)
     && (b sc ExecSecurityFull ac ExecAskOff fc ExecSecurityFull (legacy || mc) ==? BehaviorAllow))
  = true.
Proof.
  intros I1 I2 I3 I4 I5 I6.
  pose proof (all_elim _ _ _ merge_is_tight_holds I1) as T.
  pose proof (all_elim _ _ _ T I2) as T2. pose proof (all_elim _ _ _ T2 I3) as T3.
  pose proof (all_elim _ _ _ T3 I4) as T4. pose proof (all_elim _ _ _ T4 I5) as T5.
  pose proof (all_elim _ _ _ T5 I6) as T6.
  pose proof (all_elim _ _ _ T6 (bools_all legacy)) as T7.
  pose proof (all_elim _ _ _ T7 (bools_all mc)) as T8.
  pose proof (all_elim _ _ _ T8 (bools_all mh)) as T9.
  pose proof (all_elim _ _ _ T9 (bools_all deny)) as T10.
  pose proof (all_elim _ _ _ T10 (bools_all ask)) as T11.
  exact (all_elim _ _ _ T11 (bools_all prompt)).
Qed.

Section Merge.
Context `{R : Regexp}.
Variable digest : EffectiveExecPolicy -> string.

Lemma evaluate_behavior caller host req :
  xd_Behavior (evaluate_layers digest caller host req)
  = behavior_of (stricterSecurity (xl_security caller) (xl_security host))
      (stricterAsk (xl_ask caller) (xl_ask host)) (merged_fallback caller host)
      (legacy_match caller host req || (layer_match caller req && layer_match host req))
      (xr_Permission req ==? BehaviorDeny) (xr_Permission req ==? BehaviorAsk)
      (xr_PromptAvailable req).
Proof.
  unfold evaluate_layers, merged_fallback.
  set (e := effective_policy digest caller host (xr_DefaultTimeoutMS req)).
  change (stricterSecurity (stricterSecurity _ _) _) with (xp_AskFallback e).
  change (stricterSecurity (xl_security caller) (xl_security host)) with (xp_Security e).
  change (stricterAsk _ _) with (xp_Ask e).
  clearbody e. destruct e as [s a f t ar al fp]. unfold decide_exec, behavior_of.
  cbn [xp_Security xp_Ask xp_AskFallback].
  set (matched := legacy_match _ _ _ || _). clearbody matched.
  set (perm := xr_Permission req).
  destruct (perm ==? BehaviorDeny); [done|]. destruct (s ==? ExecSecurityDeny); [done|].
  destruct (a ==? ExecAskAlways), (s ==? ExecSecurityFull), matched, (a ==? ExecAskOnMiss),
    (perm ==? BehaviorAsk), (xr_PromptAvailable req); try done;
    unfold ApplyExecAskFallback, go_switch; cbn -[String.eqb]; rewrite ?orb_false_r;
    destruct (f ==? ExecSecurityFull); try done; by destruct (f ==? ExecSecurityAllowlist).
Qed.

(** The signature of the request was approved for ever in this layer. *)
Definition remembers (l : execPolicyLayer) (req : ExecPolicyRequest) : bool :=
  xr_AllowAlwaysSafe req && signatureIn (xr_Signature req) [xl_alwaysSigs l].

Lemma legacy_remembers caller host req :
  legacy_match caller host req = remembers caller req || remembers host req.
Proof.
  unfold legacy_match, remembers, signatureIn.
  destruct (xr_AllowAlwaysSafe req), (xr_Signature req ==? ""); cbn; try done.
  by rewrite !orb_false_r.
Qed.

Lemma tight caller host req t :
  valid_layer caller -> valid_layer host ->
  xd_Behavior (evaluate_layers digest caller host req) = BehaviorAllow ->
  (remembers caller req = false ->
   xd_Behavior (evaluate_layers digest (neutral_layer t) host req) = BehaviorAllow) /\
  (remembers host req = false ->
   xd_Behavior (evaluate_layers digest caller (neutral_layer t) req) = BehaviorAllow).
Proof.
  intros (C1 & C2 & C3) (H1 & H2 & H3). rewrite !evaluate_behavior, !legacy_remembers.
  assert (layer_match (neutral_layer t) req = true) as N by done.
  assert (remembers (neutral_layer t) req = false) as M.
  { unfold remembers, signatureIn. cbn. destruct (_ ==? ""), (xr_AllowAlwaysSafe req); done. }
  rewrite N, M, !orb_false_r, !andb_true_r. cbn [orb andb].
  unfold merged_fallback. cbn [xl_security xl_ask xl_fallback neutral_layer]. intros HA.
  set (legacy := remembers caller req || remembers host req) in HA.
  set (b sc sh ac ah fc fh matched :=
    behavior_of (stricterSecurity sc sh) (stricterAsk ac ah)
      (stricterSecurity (stricterSecurity sc sh) (stricterSecurity fc fh)) matched
      (xr_Permission req ==? BehaviorDeny) (xr_Permission req ==? BehaviorAsk)
      (xr_PromptAvailable req)).
  assert (implb (b (xl_security caller) (xl_security host) (xl_ask caller) (xl_ask host)
      (xl_fallback caller) (xl_fallback host)
      (legacy || (layer_match caller req && layer_match host req)) ==? BehaviorAllow)
    ((b ExecSecurityFull (xl_security host) ExecAskOff (xl_ask host) ExecSecurityFull
        (xl_fallback host) (legacy || layer_match host req) ==? BehaviorAllow)
     && (b (xl_security caller) ExecSecurityFull (xl_ask caller) ExecAskOff (xl_fallback caller)
        ExecSecurityFull (legacy || layer_match caller req) ==? BehaviorAllow)) = true) as T.
  { refine (tight_at (xl_security caller) (xl_security host) (xl_ask caller) (xl_ask host)
      (xl_fallback caller) (xl_fallback host) legacy (layer_match caller req)
      (layer_match host req) _ _ _ _ _ _ _ _ _);
      auto using valid_security_in, valid_ask_in. }
  unfold b in T. rewrite HA in T. cbn [implb String.eqb] in T.
  apply andb_true_iff in T as [T1 T2]. apply String.eqb_eq in T1, T2. subst legacy.
  split; intros L; rewrite L in *; cbn [orb] in *; [exact T1|].
  rewrite orb_false_r in T2. exact T2.
Qed.
End Merge.

(** ** Policies *)

(** A policy that is about no tool. *)
Definition about_no_tool : policy := {["tools" := PList []]}.

Section Policies.
Context `{R : Regexp}.
Variable json_strings : string -> option (list string).
Variable entry_json : ExecAllowlistEntry -> string.
Variable digest : EffectiveExecPolicy -> string.
Variable unrepresentable : float64 -> Z.

Let parse := parseExecPolicyLayer json_strings entry_json unrepresentable.
Let evaluate := EvaluateExecPolicy json_strings entry_json digest unrepresentable.

Lemma about_no_tool_neutral agentID tool t :
  parse about_no_tool agentID tool t = Ok (neutral_layer t).
Proof. vm_compute. reflexivity. Qed.

(** The signature of the request is in the policy's [allow_always_signatures]. *)
Definition remembered (p : policy) (req : ExecPolicyRequest) : bool :=
  match parse p (xr_AgentID req) (xr_Tool req) (xr_DefaultTimeoutMS (with_default_timeout req)) with
  | Ok l => remembers l req
  | Err _ => false
  end.

(** C12: Execution policies are combined so that a layer only tightens: what the two policies of
    the caller and of the execution host allow together, the host's policy allows
    with a caller that has nothing to say about the tool, and the caller's policy
    allows with such a host; the only exception is a command whose signature the
    other layer has approved for ever. *)
Theorem exec_layers_only_tighten caller host req d :
  evaluate caller host req = Ok d -> xd_Behavior d = BehaviorAllow ->
  (remembered caller req = false ->
   exists d', evaluate about_no_tool host req = Ok d' /\ xd_Behavior d' = BehaviorAllow) /\
  (remembered host req = false ->
   exists d', evaluate caller about_no_tool req = Ok d' /\ xd_Behavior d' = BehaviorAllow).
Proof.
  unfold evaluate, EvaluateExecPolicy, remembered.
  assert (forall p l, wrap p (Ok l) = (Ok l : result execPolicyLayer)) as W by done.
  assert (xr_AgentID (with_default_timeout req) = xr_AgentID req
    /\ xr_Tool (with_default_timeout req) = xr_Tool req
    /\ forall l, remembers l (with_default_timeout req) = remembers l req) as (-> & -> & Hr).
  { unfold with_default_timeout. by destruct (xr_DefaultTimeoutMS req <=? 0). }
  set (t := xr_DefaultTimeoutMS (with_default_timeout req)).
  fold parse. rewrite !about_no_tool_neutral, !W.
  destruct (parse caller _ _ _) as [c|] eqn:Ec; [|done].
  destruct (parse host _ _ _) as [h|] eqn:Eh; [|done]. rewrite !W. intros [= <-] HA.
  assert (valid_layer c) as Vc by (by eapply parse_layer_valid).
  assert (valid_layer h) as Vh by (by eapply parse_layer_valid).
  destruct (tight digest c h (with_default_timeout req) t Vc Vh HA) as [T1 T2].
  rewrite Hr in T1, T2. split; intros L; eexists; eauto.
Qed.

(** *** The caller's policy under the permission engine *)

Definition asking_policy : policy := {["mode" := PString "ask"; "tools" := PList [PString "*"]]}.

Definition no_slash (s : string) : bool := forallb (fun c => negb (is_slash c)) (list_ascii_of_string s).

Lemma star_matches tool : matchPolicyPatternList ["*"] tool = no_slash tool.
Proof.
  unfold matchPolicyPatternList. cbn [existsb]. rewrite orb_false_r.
  change (path_match "*" tool) with (no_slash tool).
  destruct (String.eqb_spec "*" tool) as [<-|]; done.
Qed.

Lemma asking_policy_layer agentID tool t :
  parse asking_policy agentID tool t
  = Ok (if no_slash tool
        then mkexecPolicyLayer ExecSecurityAllowlist ExecAskOnMiss ExecSecurityDeny t false true [] []
        else neutral_layer t).
Proof.
  transitivity (Ok (let m := matchPolicyPatternList ["*"] tool in
    if m
    then mkexecPolicyLayer ExecSecurityAllowlist ExecAskOnMiss ExecSecurityDeny t false m [] []
    else mkexecPolicyLayer ExecSecurityFull ExecAskOff ExecSecurityFull t false m [] []) : result execPolicyLayer).
  - vm_compute. reflexivity.
  - rewrite star_matches. cbv zeta. by destruct (no_slash tool).
Qed.

Lemma asking_never_allows h req t :
  valid_layer h -> xr_Permission req = BehaviorAsk -> remembers h req = false ->
  let d := evaluate_layers digest
    (mkexecPolicyLayer ExecSecurityAllowlist ExecAskOnMiss ExecSecurityDeny t false true [] []) h req in
  xd_Behavior d <> BehaviorAllow /\ (xd_Behavior d = BehaviorAsk -> xr_PromptAvailable req = true).
Proof.
  intros (Hs & Ha & Hf) Hp Hm. cbv zeta. rewrite evaluate_behavior, legacy_remembers, Hm, Hp.
  assert (remembers (mkexecPolicyLayer ExecSecurityAllowlist ExecAskOnMiss ExecSecurityDeny t false
    true [] []) req = false) as ->.
  { unfold remembers, signatureIn. cbn. destruct (_ ==? ""), (xr_AllowAlwaysSafe req); done. }
  unfold layer_match at 1, merged_fallback.
  cbn [xl_applies xl_security xl_ask xl_fallback xl_allowlist matchExecAllowlist existsb negb orb].
  change (ExecSecurityAllowlist ==? ExecSecurityFull) with false. cbn [orb andb].
  destruct Hs as [->|[->| ->]], Ha as [->|[->| ->]], Hf as [->|[->| ->]],
    (xr_PromptAvailable req); vm_compute; done.
Qed.

Lemma request_default_timeout req :
  let req' := with_default_timeout req in
  xr_AgentID req' = xr_AgentID req /\ xr_Tool req' = xr_Tool req /\
  xr_Permission req' = xr_Permission req /\ xr_PromptAvailable req' = xr_PromptAvailable req /\
  forall l, remembers l req' = remembers l req.
Proof. unfold with_default_timeout. by destruct (xr_DefaultTimeoutMS req <=? 0). Qed.

Lemma empty_policy_layer agentID tool t : parse ∅ agentID tool t = Ok (no_layer t).
Proof. vm_compute. reflexivity. Qed.

(** A tool for which the permission engine says ask is not run without a prompt, whatever
    the host's policy, unless the host has the command's signature approved for
    ever: the answer is ask, when a prompt is available, or deny.  This holds of
    tools whose name has no slash; the policy the daemon makes for the caller
    names the tools by the pattern [*], which a name with a slash does not match,
    so that such a tool (every tool of a plugin) is allowed on a host without a
    policy. *)
Theorem asked_tools_wait_for_a_prompt raw defaultTools full caller host req d :
  callerExecPolicy raw defaultTools full BehaviorAsk true = Some caller ->
  xr_Permission req = BehaviorAsk -> evaluate caller host req = Ok d ->
  (no_slash (xr_Tool req) = true -> remembered host req = false ->
   xd_Behavior d <> BehaviorAllow /\ (xd_Behavior d = BehaviorAsk -> xr_PromptAvailable req = true)) /\
  (no_slash (xr_Tool req) = false -> host = ∅ -> xd_Behavior d = BehaviorAllow).
Proof.
  intros Hc Hp. change (callerExecPolicy _ _ _ _ _) with (Some asking_policy) in Hc.
  assert (caller = asking_policy) as -> by congruence. clear Hc.
  unfold evaluate, EvaluateExecPolicy, remembered.
  destruct (request_default_timeout req) as (Ha & Ht & Hq & Hav & Hr). rewrite Ha, Ht.
  set (t := xr_DefaultTimeoutMS (with_default_timeout req)). fold parse.
  rewrite asking_policy_layer.
  destruct (parse host _ _ _) as [h|] eqn:Eh; [|done]. cbn [wrap]. intros [= <-]. split.
  - intros -> Hm. rewrite <- Hav. apply asking_never_allows;
      [by eapply parse_layer_valid|congruence|by rewrite Hr].
  - intros -> ->. rewrite empty_policy_layer in Eh. apply Ok_inj in Eh. subst h.
    rewrite evaluate_behavior, Hq, Hp. by destruct (legacy_match _ _ _ || _), (xr_PromptAvailable _).
Qed.
End Policies.

(** ** Witnesses and examples *)

#[local] Existing Instance go_regexp.

Definition no_json (s : string) : option (list string) := None.
Definition entry_text (e : ExecAllowlistEntry) : string :=
  xe_Pattern e +:+ "|" +:+ xe_ArgPattern e +:+ "|" +:+ xe_Signature e.
Definition plain_digest (p : EffectiveExecPolicy) : string := xp_Security p +:+ xp_Ask p.
Definition zero_int (f : float64) : Z := 0.

Definition run_plain := EvaluateExecPolicy no_json entry_text plain_digest zero_int.

Definition bash_request : ExecPolicyRequest :=
  mkExecPolicyRequest "bash" "main" ["git"; "status"] "/usr/bin/git" "sig" true BehaviorAllow true 0.

Definition host_policy : policy :=
  {["mode" := PString "ask"; "allowlist" := PList [PString "git"]]}.
Definition caller_policy : policy :=
  {["mode" := PString " Ask "; "tools" := PList [PString "bash"];
    "allowlist" := PList [PMap {["pattern" := PString "/usr/bin/*"; "argPattern" := PString "^status"]}]]}.

Definition answer (r : result ExecPolicyDecision) : option string :=
  match r with Ok d => Some (xd_Behavior d) | Err _ => None end.

Definition both_allow : ExecPolicyDecision :=
  match run_plain caller_policy host_policy bash_request with
  | Ok d => d
  | Err _ => mkExecPolicyDecision "" "" false false false (effective_policy plain_digest (no_layer 0) (no_layer 0) 0)
  end.

Lemma exec_layers_only_tighten_witness :
  exists d', run_plain about_no_tool host_policy bash_request = Ok d' /\ xd_Behavior d' = BehaviorAllow.
Proof.
  refine (proj1 (exec_layers_only_tighten no_json entry_text plain_digest zero_int
    caller_policy host_policy bash_request both_allow _ _) _); vm_compute; reflexivity.
Defined.

Definition ask_request (tool : string) : ExecPolicyRequest :=
  mkExecPolicyRequest tool "main" ["git"; "status"] "" "sig" false BehaviorAsk true 0.

Definition asked_decision : ExecPolicyDecision :=
  match run_plain asking_policy ∅ (ask_request "bash") with Ok d => d | Err _ => both_allow end.

Lemma asked_tools_wait_for_a_prompt_witness :
  xd_Behavior asked_decision <> BehaviorAllow.
Proof.
  refine (proj1 (proj1 (asked_tools_wait_for_a_prompt no_json entry_text plain_digest zero_int
    PNil [] false asking_policy ∅ (ask_request "bash") asked_decision _ _ _) _ _));
    vm_compute; reflexivity.
Defined.

(** A plugin's tool runs without the prompt. *)
Example plugin_tool_is_not_asked_about :
  answer (run_plain asking_policy ∅ (ask_request "bash")) = Some BehaviorAsk /\
  answer (run_plain asking_policy ∅ (ask_request "git-plugin/push")) = Some BehaviorAllow.
Proof. split; vm_compute; reflexivity. Qed.

(** What the caller has approved for ever passes the host's allowlist. *)
Example caller_signature_passes_the_host :
  let caller := {["allow_always_signatures" := PStrings ["sig"]]} in
  let host := {["mode" := PString "allowlist"; "allowlist" := PList [PString "ls"]]} in
  answer (run_plain ∅ host bash_request) = Some BehaviorDeny /\
  answer (run_plain caller host bash_request) = Some BehaviorAllow.
Proof. split; vm_compute; reflexivity. Qed.

(** Without a configured section the caller's policy cannot be made. *)
Example absent_section_panics defaultTools :
  callerExecPolicy PNil defaultTools false BehaviorAllow false = None.
Proof. reflexivity. Qed.

(** An empty policy denies when no prompt is available, a policy about other tools
    permits. *)
Example empty_policy_is_stricter_than_an_inapplicable_one :
  let caller := {["mode" := PString "full"; "ask" := PString "always"; "askFallback" := PString "full"]} in
  let unattended := mkExecPolicyRequest "bash" "main" [] "" "" false BehaviorAllow false 0 in
  answer (run_plain caller ∅ unattended) = Some BehaviorDeny /\
  answer (run_plain caller about_no_tool unattended) = Some BehaviorAllow.
Proof. split; vm_compute; reflexivity. Qed.

(** A policy with an unknown level is an error, whichever layer it is in. *)
Example misspelt_levels :
  answer (run_plain {["security" := PString "ful"]} ∅ bash_request) = None /\
  answer (run_plain ∅ {["timeout_ms" := PInt 0]} bash_request) = None /\
  answer (run_plain ∅ {["security" := PString " FULL "]} bash_request) = Some BehaviorAllow.
Proof. repeat split; vm_compute; reflexivity. Qed.

(** A list of tools without a mode overrides an explicit denial: adding the list
    turns it into a question. *)
Example tools_list_lifts_denial :
  answer (run_plain {["security" := PString "deny"]} ∅ bash_request) = Some BehaviorDeny /\
  answer (run_plain {["security" := PString "deny"; "tools" := PList [PString "bash"]]} ∅ bash_request)
  = Some BehaviorAsk.
Proof. split; vm_compute; reflexivity. Qed.
