(* ===== verification/Usage.v ===== *)
(** Measured usage and its collector: internal/planner/usage.go.

    The collector's methods are single critical sections, so a collector is a
    value and a concurrent history a sequence of calls.  The text summaries print
    floating-point numbers and are left out. *)

From Stdlib Require Import String.
From stdpp Require Import base tactics decidable list strings pretty.
From S2P Require Import Prelude Budget.

Definition UsageSourceProvider : string := "provider".
Definition UsageSourceSynthetic : string := "synthetic".
Definition UsageSourceMixed : string := "mixed".

Record TurnUsage := mkTurnUsage {
  tn_InputTokens : Z;
  tn_OutputTokens : Z;
  tn_SyntheticInputTokens : Z;
  tn_SyntheticOutputTokens : Z;
  tn_ToolCalls : Z;
  tn_Delegations : Z;
  tn_WallClockMS : Z;
  tn_CostMicrosUSD : Z;
  tn_Source : string;
  tn_RecordedAt : Z
}.

#[export] Instance set_tn_Source : Setter tn_Source := fun v r =>
  mkTurnUsage (tn_InputTokens r) (tn_OutputTokens r) (tn_SyntheticInputTokens r)
    (tn_SyntheticOutputTokens r) (tn_ToolCalls r) (tn_Delegations r) (tn_WallClockMS r)
    (tn_CostMicrosUSD r) v (tn_RecordedAt r).
#[export] Instance set_tn_RecordedAt : Setter tn_RecordedAt := fun v r =>
  mkTurnUsage (tn_InputTokens r) (tn_OutputTokens r) (tn_SyntheticInputTokens r)
    (tn_SyntheticOutputTokens r) (tn_ToolCalls r) (tn_Delegations r) (tn_WallClockMS r)
    (tn_CostMicrosUSD r) (tn_Source r) v.

Definition EffectiveInputTokens (t : TurnUsage) : Z :=
  if 0 <? tn_InputTokens t then tn_InputTokens t else tn_SyntheticInputTokens t.

Definition EffectiveOutputTokens (t : TurnUsage) : Z :=
  if 0 <? tn_OutputTokens t then tn_OutputTokens t else tn_SyntheticOutputTokens t.

Definition has_provider (t : TurnUsage) : bool := (0 <? tn_InputTokens t) || (0 <? tn_OutputTokens t).

Definition classifySource (t : TurnUsage) : string :=
  let hasSynthetic := (0 <? tn_SyntheticInputTokens t) || (0 <? tn_SyntheticOutputTokens t) in
  if has_provider t && negb hasSynthetic then UsageSourceProvider
  else if negb (has_provider t) && hasSynthetic then UsageSourceSynthetic
  else if has_provider t && hasSynthetic then UsageSourceMixed
  else UsageSourceProvider.

Record UsageCollector := mkUsageCollector {
  uc_turns : list TurnUsage;
  uc_runID : string;
  uc_taskID : string
}.

#[export] Instance set_uc_turns : Setter uc_turns := fun v r =>
  mkUsageCollector v (uc_runID r) (uc_taskID r).

Definition NewUsageCollector (runID taskID : string) : UsageCollector := mkUsageCollector [] runID taskID.

(** [now] is the reading of the clock. *)
Definition RecordTurn (now : Z) (turn : TurnUsage) (c : UsageCollector) : UsageCollector :=
  let turn := if tn_RecordedAt turn =? 0 then turn <| tn_RecordedAt := now |> else turn in
  let turn := if tn_Source turn ==? "" then turn <| tn_Source := classifySource turn |> else turn in
  c <| uc_turns := uc_turns c ++ [turn] |>.

#[export] Instance set_tu_Delegations : Setter tu_Delegations := fun v r =>
  mkTaskUsage (tu_PromptTokens r) (tu_CompletionTokens r) (tu_TotalTokens r) (tu_WallClockMS r)
    (tu_ToolCalls r) v (tu_CostMicrosUSD r).

(** The body of the loop of [Cumulative]. *)
Definition add_turn (usage : TaskUsage) (turn : TurnUsage) : TaskUsage :=
  mkTaskUsage
    (add64 (tu_PromptTokens usage) (EffectiveInputTokens turn))
    (add64 (tu_CompletionTokens usage) (EffectiveOutputTokens turn))
    (add64 (tu_TotalTokens usage) (add64 (EffectiveInputTokens turn) (EffectiveOutputTokens turn)))
    (add64 (tu_WallClockMS usage) (tn_WallClockMS turn))
    (add64 (tu_ToolCalls usage) (tn_ToolCalls turn))
    (add64 (tu_Delegations usage) (tn_Delegations turn))
    (add64 (tu_CostMicrosUSD usage) (tn_CostMicrosUSD turn)).

Definition Cumulative (c : UsageCollector) : TaskUsage := fold_left add_turn (uc_turns c) zero_usage.

Definition TurnCount (c : UsageCollector) : Z := Z.of_nat (length (uc_turns c)).
Definition Turns (c : UsageCollector) : list TurnUsage := uc_turns c.
Definition HasProviderData (c : UsageCollector) : bool := existsb has_provider (uc_turns c).

Record SourceBreakdown := mkSourceBreakdown {
  sb_ProviderTurns : Z;
  sb_SyntheticTurns : Z;
  sb_MixedTurns : Z;
  sb_TotalTurns : Z
}.


Definition count_source (source : string) (l : list TurnUsage) : Z :=
  Z.of_nat (length (List.filter (fun t => classifySource t ==? source) l)).

Definition Breakdown (c : UsageCollector) : SourceBreakdown :=
  mkSourceBreakdown (count_source UsageSourceProvider (uc_turns c))
    (count_source UsageSourceSynthetic (uc_turns c)) (count_source UsageSourceMixed (uc_turns c))
    (Z.of_nat (length (uc_turns c))).

Definition AggregateUsage (usages : list TaskUsage) : TaskUsage := fold_left TaskUsage_Add usages zero_usage.

Record UsageSummary := mkUsageSummary {
  us_Usage : TaskUsage;
  us_Budget : TaskBudget;
  us_Exceeded : BudgetExceeded;
  us_Remaining : TaskBudget;
  us_Source : SourceBreakdown
}.


Definition Summarize (budget : TaskBudget) (c : UsageCollector) : UsageSummary :=
  let usage := Cumulative c in
  mkUsageSummary usage budget (TaskBudget_CheckUsage budget usage) (TaskBudget_Remaining budget usage)
    (Breakdown c).

(** An integer limit; zero prints as infinite. *)
Definition fmtLimit (v : Z) : string := if v =? 0 then "∞" else pretty v.

Definition joinReasons (reasons : list string) : string := String.concat ", " reasons.

(** ** Lemmas *)

Lemma Cumulative_RecordTurn now turn c :
  Cumulative (RecordTurn now turn c) = add_turn (Cumulative c) turn.
Proof.
  unfold RecordTurn, Cumulative. cbn [setf set_uc_turns uc_turns]. rewrite fold_left_app. cbn [fold_left].
  generalize (fold_left add_turn (uc_turns c) zero_usage) as u. intros u.
  destruct (tn_RecordedAt turn =? 0), (tn_Source _ ==? ""); reflexivity.
Qed.

(** Every turn has exactly one source. *)
Lemma breakdown_is_partition c :
  let b := Breakdown c in
  sb_ProviderTurns b + sb_SyntheticTurns b + sb_MixedTurns b = sb_TotalTurns b.
Proof.
  cbn. unfold count_source. induction (uc_turns c) as [|t l IH]; [done|]. cbn [List.filter].
  assert (classifySource t = UsageSourceProvider \/ classifySource t = UsageSourceSynthetic
    \/ classifySource t = UsageSourceMixed) as [->|[->| ->]]
    by (unfold classifySource; repeat case_if; auto);
    cbn -[Z.of_nat]; lia.
Qed.
