(* ===== verification/BudgetControl.v ===== *)
(** Budget enforcement: internal/planner/budget_enforcement.go, the outcome of an
    exhausted budget (budget_outcome.go), the status kept for operators
    (budget_status.go), and the daemon's use of the resolver
    (cmd/metiqd/task_runner.go).

    Thresholds and percentages are IEEE doubles; the clock is an argument. *)

From Stdlib Require Import String Floats.SpecFloat.
From stdpp Require Import base tactics decidable list gmap strings pretty.
From S2P Require Import Prelude Enums Budget TaskModels BudgetGuard Duration Idempotency Usage.

(** ** Verdicts *)

Definition BudgetAllow : string := "allow".
Definition BudgetWarn : string := "warn".
Definition BudgetBlock : string := "block".
Definition BudgetSkip : string := "skip".

Record BudgetDecision := mkBudgetDecision {
  bn_Verdict : string;
  bn_Reason : string;
  bn_ExceededDimensions : list string;
  bn_WarningDimensions : list string;
  bn_Usage : TaskUsage;
  bn_Budget : TaskBudget
}.


Definition Allowed (d : BudgetDecision) : bool :=
  (bn_Verdict d ==? BudgetAllow) || (bn_Verdict d ==? BudgetWarn) || (bn_Verdict d ==? BudgetSkip).

(** An enforcer is its warning threshold; 0.8 is the double nearest to it. *)
Definition BudgetEnforcer : Type := float64.
Definition threshold_08 : float64 := S754_finite false 7205759403792794 (-53).
Definition NewBudgetEnforcer : BudgetEnforcer := threshold_08.
Definition NewBudgetEnforcerWithThreshold (threshold : float64) : BudgetEnforcer :=
  if SFleb threshold (S754_zero false) || SFltb (float64_of_int 1) threshold then threshold_08
  else threshold.

Definition skip (reason : string) : BudgetDecision :=
  mkBudgetDecision BudgetSkip reason [] [] zero_usage zero_budget.

(** One test of [checkWarnings]. *)
Definition warn_dim (e : BudgetEnforcer) (limit used : Z) (name : string) : list string :=
  if (0 <? limit) && SFltb (mul_float64 (float64_of_int limit) e) (float64_of_int used)
  then [name] else [].

Definition checkWarnings (e : BudgetEnforcer) (budget : TaskBudget) (usage : TaskUsage) : list string :=
  warn_dim e (tb_MaxTotalTokens budget) (tu_TotalTokens usage) "total_tokens"
  ++ warn_dim e (tb_MaxPromptTokens budget) (tu_PromptTokens usage) "prompt_tokens"
  ++ warn_dim e (tb_MaxCompletionTokens budget) (tu_CompletionTokens usage) "completion_tokens"
  ++ warn_dim e (tb_MaxToolCalls budget) (tu_ToolCalls usage) "tool_calls"
  ++ warn_dim e (tb_MaxDelegations budget) (tu_Delegations usage) "delegations"
  ++ warn_dim e (tb_MaxCostMicrosUSD budget) (tu_CostMicrosUSD usage) "cost_micros_usd".

Definition CheckTurnStartFromUsage (e : BudgetEnforcer) (budget : TaskBudget) (usage : TaskUsage)
  : BudgetDecision :=
  if TaskBudget_IsZero budget then skip "no budget set"
  else
    let exceeded := TaskBudget_CheckUsage budget usage in
    if BudgetExceeded_Any exceeded
    then mkBudgetDecision BudgetBlock
           ("budget exhausted: " +:+ joinReasons (BudgetExceeded_Reasons exceeded))
           (BudgetExceeded_Reasons exceeded) [] usage budget
    else
    match checkWarnings e budget usage with
    | [] => mkBudgetDecision BudgetAllow "within budget" [] [] usage budget
    | warnings => mkBudgetDecision BudgetWarn
                    ("budget nearing limit: " +:+ String.concat ", " warnings) [] warnings usage budget
    end.

Definition CheckTurnStart (e : BudgetEnforcer) (budget : TaskBudget) (c : UsageCollector)
  : BudgetDecision := CheckTurnStartFromUsage e budget (Cumulative c).

Definition CheckToolDispatch (budget : TaskBudget) (c : UsageCollector) : BudgetDecision :=
  if TaskBudget_IsZero budget then skip "no budget set"
  else
    let usage := Cumulative c in
    let projected := usage <| tu_ToolCalls := add64 (tu_ToolCalls usage) 1 |> in
    if be_ToolCalls (TaskBudget_CheckUsage budget projected)
    then mkBudgetDecision BudgetBlock
           ("tool call would exceed budget (" +:+ pretty (add64 (tu_ToolCalls usage) 1) +:+ "/"
            +:+ pretty (tb_MaxToolCalls budget) +:+ ")") ["tool_calls"] [] usage budget
    else
    let currentExceeded := TaskBudget_CheckUsage budget usage in
    if BudgetExceeded_Any currentExceeded
    then mkBudgetDecision BudgetBlock
           ("budget already exhausted: " +:+ joinReasons (BudgetExceeded_Reasons currentExceeded))
           (BudgetExceeded_Reasons currentExceeded) [] usage budget
    else mkBudgetDecision BudgetAllow
           ("tool call permitted (" +:+ pretty (tu_ToolCalls usage) +:+ "/"
            +:+ fmtLimit (tb_MaxToolCalls budget) +:+ ")") [] [] usage budget.

(** The decision and the child's budget. *)
Definition CheckDelegation (parentBudget : TaskBudget) (c : UsageCollector) (childBudget : TaskBudget)
  : BudgetDecision * TaskBudget :=
  if TaskBudget_IsZero parentBudget then (skip "no parent budget set", childBudget)
  else
    let usage := Cumulative c in
    let projected := usage <| tu_Delegations := add64 (tu_Delegations usage) 1 |> in
    if be_Delegations (TaskBudget_CheckUsage parentBudget projected)
    then (mkBudgetDecision BudgetBlock
            ("delegation would exceed budget (" +:+ pretty (add64 (tu_Delegations usage) 1) +:+ "/"
             +:+ pretty (tb_MaxDelegations parentBudget) +:+ ")") ["delegations"] [] usage parentBudget,
          zero_budget)
    else
    let currentExceeded := TaskBudget_CheckUsage parentBudget usage in
    if BudgetExceeded_Any currentExceeded
    then (mkBudgetDecision BudgetBlock
            ("parent budget already exhausted: " +:+ joinReasons (BudgetExceeded_Reasons currentExceeded))
            (BudgetExceeded_Reasons currentExceeded) [] usage parentBudget,
          zero_budget)
    else (mkBudgetDecision BudgetAllow
            ("delegation permitted (" +:+ pretty (tu_Delegations usage) +:+ "/"
             +:+ fmtLimit (tb_MaxDelegations parentBudget) +:+ ")") [] [] usage parentBudget,
          TaskBudget_Narrow (TaskBudget_Remaining parentBudget usage) childBudget).

Definition wall_clock (ms : Z) : TaskUsage := mkTaskUsage 0 0 0 ms 0 0 0.

(** [clock] is [time.Now().UnixMilli()]. *)
Definition CheckRuntime (unrepresentable : float64 -> Z) (e : BudgetEnforcer) (budget : TaskBudget)
    (startedAt now clock : Z) : BudgetDecision :=
  if tb_MaxRuntimeMS budget =? 0 then skip "no runtime budget set"
  else
    let now := if now =? 0 then clock else now in
    let elapsed := sub64 now startedAt in
    let elapsed := if elapsed <? 0 then 0 else elapsed in
    let progress := "(" +:+ pretty elapsed +:+ "ms/" +:+ pretty (tb_MaxRuntimeMS budget) +:+ "ms)" in
    if tb_MaxRuntimeMS budget <? elapsed
    then mkBudgetDecision BudgetBlock ("runtime exceeded " +:+ progress) ["runtime_ms"] []
           (wall_clock elapsed) budget
    else if int_of_float64 unrepresentable (mul_float64 (float64_of_int (tb_MaxRuntimeMS budget)) e)
            <? elapsed
    then mkBudgetDecision BudgetWarn ("runtime nearing limit " +:+ progress) [] ["runtime_ms"]
           (wall_clock elapsed) budget
    else mkBudgetDecision BudgetAllow ("runtime within budget " +:+ progress) [] []
           (wall_clock elapsed) budget.

Definition CheckAll (unrepresentable : float64 -> Z) (e : BudgetEnforcer) (budget : TaskBudget)
    (c : UsageCollector) (startedAt now clock : Z) : BudgetDecision :=
  let turn := CheckTurnStart e budget c in
  if bn_Verdict turn ==? BudgetBlock then turn
  else
    let runtime := CheckRuntime unrepresentable e budget startedAt now clock in
    if bn_Verdict runtime ==? BudgetBlock then runtime
    else
    let warned d := bn_Verdict d ==? BudgetWarn in
    if warned turn || warned runtime
    then mkBudgetDecision BudgetWarn
           (String.concat "; " ((if warned turn then [bn_Reason turn] else [])
                                ++ (if warned runtime then [bn_Reason runtime] else [])))
           [] (bn_WarningDimensions turn ++ bn_WarningDimensions runtime) (bn_Usage turn) budget
    else turn.

(** ** What an exhausted budget leads to *)

Definition ExhaustionTokens : string := "tokens_exhausted".
Definition ExhaustionRuntime : string := "runtime_exhausted".
Definition ExhaustionCost : string := "cost_exhausted".
Definition ExhaustionToolCalls : string := "tool_calls_exhausted".
Definition ExhaustionDelegation : string := "delegations_exhausted".

Definition ActionFail : string := "fail".
Definition ActionEscalate : string := "escalate".
Definition ActionReplan : string := "replan".
Definition ActionFallback : string := "fallback".
Definition ActionBlock : string := "block".

Record ExhaustionEvent := mkExhaustionEvent {
  eh_EventID : string;
  eh_TaskID : string;
  eh_RunID : string;
  eh_Reasons : list string;
  eh_Action : string;
  eh_ActionReason : string;
  eh_Usage : TaskUsage;
  eh_Budget : TaskBudget;
  eh_AutonomyMode : string;
  eh_CreatedAt : Z;
  eh_Meta : gomap any
}.


(** The rules, by reason and mode. *)
Definition ExhaustionPolicy : Type := gmap (string * string) string.
Definition NewExhaustionPolicy (rules : gmap (string * string) string) : ExhaustionPolicy := rules.
Definition Exhaustion_Lookup (reason mode : string) (p : ExhaustionPolicy) : option string :=
  p !! (reason, mode).

Definition fullModeExhaustion (reason : string) : string :=
  go_switch reason
    [([ExhaustionTokens], ActionFallback); ([ExhaustionRuntime], ActionFail);
     ([ExhaustionToolCalls], ActionReplan); ([ExhaustionDelegation], ActionReplan)] ActionFail.

Definition planApprovalExhaustion (reason : string) : string :=
  go_switch reason
    [([ExhaustionTokens], ActionEscalate); ([ExhaustionRuntime], ActionEscalate);
     ([ExhaustionToolCalls], ActionReplan); ([ExhaustionDelegation], ActionEscalate)] ActionEscalate.

Definition stepApprovalExhaustion (reason : string) : string :=
  if reason ==? ExhaustionDelegation then ActionReplan else ActionEscalate.

Definition resolveDefaultExhaustionAction (reason mode : string) : string :=
  if reason ==? ExhaustionCost then ActionEscalate
  else go_switch mode
    [([AutonomyFull], fullModeExhaustion reason);
     ([AutonomyPlanApproval], planApprovalExhaustion reason);
     ([AutonomyStepApproval], stepApprovalExhaustion reason);
     ([AutonomySupervised], ActionEscalate)] ActionEscalate.

Definition exhaustion_reasons : list string :=
  [ExhaustionTokens; ExhaustionRuntime; ExhaustionCost; ExhaustionToolCalls; ExhaustionDelegation].
Definition all_modes : list string :=
  [AutonomyFull; AutonomyPlanApproval; AutonomyStepApproval; AutonomySupervised].

Definition DefaultExhaustionPolicy : ExhaustionPolicy :=
  NewExhaustionPolicy (list_to_map
    (flat_map (fun mode => map (fun reason =>
        ((reason, mode), resolveDefaultExhaustionAction reason mode)) exhaustion_reasons) all_modes)).

(** [append] of the reason of one exceeded dimension. *)
Definition add_reason (reasons : list string) (dim : string) : list string :=
  go_switch dim
    [(["total_tokens"; "prompt_tokens"; "completion_tokens"],
      if existsb (String.eqb ExhaustionTokens) reasons then reasons else reasons ++ [ExhaustionTokens]);
     (["runtime_ms"], reasons ++ [ExhaustionRuntime]);
     (["cost_micros_usd"], reasons ++ [ExhaustionCost]);
     (["tool_calls"], reasons ++ [ExhaustionToolCalls]);
     (["delegations"], reasons ++ [ExhaustionDelegation])] reasons.

Definition classifyExhaustionReasons (decision : BudgetDecision) : list string :=
  match fold_left add_reason (bn_ExceededDimensions decision) [] with
  | [] => [ExhaustionTokens]
  | reasons => reasons
  end.

Definition reasonPriority (r : string) : Z :=
  go_switch r
    [([ExhaustionCost], 5); ([ExhaustionTokens], 4); ([ExhaustionRuntime], 3);
     ([ExhaustionToolCalls], 2); ([ExhaustionDelegation], 1)] 0.

Definition selectPrimaryReason (reasons : list string) : string :=
  match reasons with
  | [] => ExhaustionTokens
  | best :: rest =>
    fold_left (fun best r => if reasonPriority best <? reasonPriority r then r else best) rest best
  end.

Definition buildActionReason (action reason mode : string) : string :=
  let parts := "reason=" +:+ reason +:+ ", mode=" +:+ mode in
  go_switch action
    [([ActionFail], "budget failure: " +:+ parts +:+ " (unrecoverable under " +:+ mode +:+ ")");
     ([ActionEscalate], "escalating to operator: " +:+ parts);
     ([ActionReplan], "triggering replan: " +:+ parts);
     ([ActionFallback], "switching to fallback: " +:+ parts);
     ([ActionBlock], "blocking for budget increase: " +:+ parts)] ("unknown action: " +:+ parts).

Record OutcomeResolver := mkOutcomeResolver {
  oz_policy : ExhaustionPolicy;
  oz_nextID : Z
}.

#[export] Instance set_oz_nextID : Setter oz_nextID := fun v r =>
  mkOutcomeResolver (oz_policy r) v.

Definition NewOutcomeResolver (policy : option ExhaustionPolicy) : OutcomeResolver :=
  mkOutcomeResolver (default DefaultExhaustionPolicy policy) 0.

Definition ResolveOutcome (decision : BudgetDecision) (taskID runID mode : string) (now clock : Z)
    (r : OutcomeResolver) : OutcomeResolver * option ExhaustionEvent :=
  if bn_Verdict decision !=? BudgetBlock then (r, None)
  else
    let now := if now =? 0 then clock else now in
    let reasons := classifyExhaustionReasons decision in
    let primaryReason := selectPrimaryReason reasons in
    let action := default ActionFail (Exhaustion_Lookup primaryReason mode (oz_policy r)) in
    let id := add64 (oz_nextID r) 1 in
    (r <| oz_nextID := id |>,
     Some (mkExhaustionEvent ("exhaust-" +:+ pretty id) taskID runID reasons action
       (buildActionReason action primaryReason mode) (bn_Usage decision) (bn_Budget decision) mode now
       None)).

(** *** The task runner of the daemon *)

Definition taskRunnerExceededDimensions (exceeded : BudgetExceeded) : list string :=
  let dim (b : bool) name := if b then [name] else [] in
  dim (be_PromptTokens exceeded) "prompt_tokens"
  ++ dim (be_CompletionTokens exceeded) "completion_tokens"
  ++ dim (be_TotalTokens exceeded) "total_tokens"
  ++ dim (be_RuntimeMS exceeded) "runtime_ms"
  ++ dim (be_ToolCalls exceeded) "tool_calls"
  ++ dim (be_Delegations exceeded) "delegations"
  ++ dim (be_CostMicrosUSD exceeded) "cost_micros_usd".

Definition taskRunnerBudgetEventFromExceeded (guard : option BudgetGuard) (exceeded : BudgetExceeded)
    (task : TaskSpec) (clock : Z) : option ExhaustionEvent :=
  if negb (match guard with Some _ => true | None => false end) || negb (BudgetExceeded_Any exceeded)
  then None
  else
    let decision := mkBudgetDecision BudgetBlock
      ("budget exhausted: " +:+ String.concat ", " (BudgetExceeded_Reasons exceeded))
      (taskRunnerExceededDimensions exceeded) [] (BudgetGuard_Usage guard) (BudgetGuard_Budget guard) in
    let mode := TaskAuthority_EffectiveAutonomyMode (TaskAuthority_Normalize (ts_Authority task))
                  AutonomyFull in
    (ResolveOutcome decision (BudgetGuard_TaskID guard) (BudgetGuard_RunID guard) mode clock clock
       (NewOutcomeResolver None)).2.

(** ** Status for operators *)

Record BudgetStatus := mkBudgetStatus {
  bs_TaskID : string;
  bs_RunID : string;
  bs_Budget : TaskBudget;
  bs_Usage : TaskUsage;
  bs_Remaining : TaskBudget;
  bs_Exceeded : BudgetExceeded;
  bs_PercentUsed : gmap string float64;
  bs_Status : string;
  bs_ExhaustionHistory : list ExhaustionEvent;
  bs_Source : SourceBreakdown;
  bs_ComputedAt : Z
}.


Definition pctOf (used max : Z) : float64 :=
  if max =? 0 then S754_zero false
  else mul_float64 (SFdiv 53 1024 (float64_of_int used) (float64_of_int max)) (float64_of_int 100).

Definition percent_dim (name : string) (used max : Z) (m : gmap string float64) : gmap string float64 :=
  if 0 <? max then <[name := pctOf used max]> m else m.

Definition computePercentUsed (budget : TaskBudget) (usage : TaskUsage) : gmap string float64 :=
  percent_dim "cost_micros_usd" (tu_CostMicrosUSD usage) (tb_MaxCostMicrosUSD budget)
  (percent_dim "runtime_ms" (tu_WallClockMS usage) (tb_MaxRuntimeMS budget)
  (percent_dim "delegations" (tu_Delegations usage) (tb_MaxDelegations budget)
  (percent_dim "tool_calls" (tu_ToolCalls usage) (tb_MaxToolCalls budget)
  (percent_dim "completion_tokens" (tu_CompletionTokens usage) (tb_MaxCompletionTokens budget)
  (percent_dim "prompt_tokens" (tu_PromptTokens usage) (tb_MaxPromptTokens budget)
  (percent_dim "total_tokens" (tu_TotalTokens usage) (tb_MaxTotalTokens budget) ∅)))))).

Definition hasHighUsage (pct : gmap string float64) : bool :=
  existsb (fun kv => SFleb (float64_of_int 80) kv.2) (map_to_list pct).

Record BudgetTracker := mkBudgetTracker {
  bt_taskID : string;
  bt_runID : string;
  bt_budget : TaskBudget;
  bt_collector : UsageCollector;
  bt_exhaustions : list ExhaustionEvent
}.

#[export] Instance set_bt_budget : Setter bt_budget := fun v r =>
  mkBudgetTracker (bt_taskID r) (bt_runID r) v (bt_collector r) (bt_exhaustions r).
#[export] Instance set_bt_collector : Setter bt_collector := fun v r =>
  mkBudgetTracker (bt_taskID r) (bt_runID r) (bt_budget r) v (bt_exhaustions r).
#[export] Instance set_bt_exhaustions : Setter bt_exhaustions := fun v r =>
  mkBudgetTracker (bt_taskID r) (bt_runID r) (bt_budget r) (bt_collector r) v.

Definition NewBudgetTracker (taskID runID : string) (budget : TaskBudget) : BudgetTracker :=
  mkBudgetTracker taskID runID budget (NewUsageCollector runID taskID) [].

Definition Tracker_RecordTurn (now : Z) (turn : TurnUsage) (t : BudgetTracker) : BudgetTracker :=
  t <| bt_collector := RecordTurn now turn (bt_collector t) |>.
Definition RecordExhaustion (event : ExhaustionEvent) (t : BudgetTracker) : BudgetTracker :=
  t <| bt_exhaustions := bt_exhaustions t ++ [event] |>.
Definition UpdateBudget (newBudget : TaskBudget) (t : BudgetTracker) : BudgetTracker :=
  t <| bt_budget := newBudget |>.

Definition Status (now : Z) (t : BudgetTracker) : BudgetStatus :=
  let budget := bt_budget t in
  let usage := Cumulative (bt_collector t) in
  let exceeded := TaskBudget_CheckUsage budget usage in
  let percentUsed := computePercentUsed budget usage in
  let status :=
    if BudgetExceeded_Any exceeded then "EXCEEDED"
    else if hasHighUsage percentUsed then "WARNING"
    else if TaskBudget_IsZero budget then "NO_BUDGET" else "OK" in
  mkBudgetStatus (bt_taskID t) (bt_runID t) budget usage (TaskBudget_Remaining budget usage) exceeded
    percentUsed status (bt_exhaustions t) (Breakdown (bt_collector t)) now.

(** The registry maps keys to trackers, which their owners go on updating: it
    holds references into a heap. *)
Definition trackers : Type := gmap nat BudgetTracker.
Definition BudgetRegistry : Type := gmap string nat.
Definition NewBudgetRegistry : BudgetRegistry := ∅.

Definition trackerKey (taskID runID : string) : string :=
  if runID ==? "" then taskID else taskID +:+ ":" +:+ runID.

Definition Budget_Register (h : trackers) (ref : nat) (r : BudgetRegistry) : BudgetRegistry :=
  match h !! ref with
  | Some t => <[trackerKey (bt_taskID t) (bt_runID t) := ref]> r
  | None => r
  end.

Definition Budget_Get (taskID runID : string) (r : BudgetRegistry) : option nat :=
  r !! trackerKey taskID runID.

(** The registered_trackers trackers with their keys, in the order of a map traversal. *)
Definition registered_trackers (h : trackers) (r : BudgetRegistry) : list (string * BudgetTracker) :=
  omap (fun kr => (fun t => (kr.1, t)) <$> h !! kr.2) (map_to_list r).

Definition StatusAll (now : Z) (h : trackers) (r : BudgetRegistry) : list BudgetStatus :=
  map (fun kt => Status now kt.2) (registered_trackers h r).

Definition StatusForTask (now : Z) (h : trackers) (taskID : string) (r : BudgetRegistry)
  : list BudgetStatus :=
  map (fun kt => Status now kt.2)
    (List.filter (fun kt => (kt.1 ==? taskID) || HasPrefix kt.1 (taskID +:+ ":")) (registered_trackers h r)).

Definition ExceededTasks (now : Z) (h : trackers) (r : BudgetRegistry) : list BudgetStatus :=
  List.filter (fun s => BudgetExceeded_Any (bs_Exceeded s)) (StatusAll now h r).

Definition Budget_Remove (taskID runID : string) (r : BudgetRegistry) : BudgetRegistry :=
  delete (trackerKey taskID runID) r.

Definition Budget_Count (r : BudgetRegistry) : Z := Z.of_nat (size r).
