(* ===== verification/Modes.v ===== *)
(** The autonomy modes and risk classes of normalised authorities: every policy
    matrix of the planner is total on them. *)

From Stdlib Require Import String.
From stdpp Require Import base tactics decidable list strings.
From S2P Require Import Prelude Enums TaskModels.

Lemma NormalizeAutonomyMode_known m : NormalizeAutonomyMode m ∈ AutonomyMode_values.
Proof.
  unfold NormalizeAutonomyMode. destruct (ParseAutonomyMode m) as [v []] eqn:E.
  - by eapply (enum_sound (parse := ParseAutonomyMode)).
  - apply (bool_decide_unpack _). reflexivity.
Qed.

Lemma NormalizeRiskClass_known r : NormalizeRiskClass r ∈ RiskClass_values.
Proof.
  unfold NormalizeRiskClass. destruct (ParseRiskClass r) as [v []] eqn:E.
  - by eapply (enum_sound (parse := ParseRiskClass)).
  - apply (bool_decide_unpack _). reflexivity.
Qed.

(** The mode that the planner evaluates an authority under. *)
Definition effective_mode (a : TaskAuthority) : string :=
  TaskAuthority_EffectiveAutonomyMode (TaskAuthority_Normalize a) AutonomyFull.

(** The risk class it takes when the caller has no other. *)
Definition effective_risk (a : TaskAuthority) : string :=
  let r := ta_RiskClass (TaskAuthority_Normalize a) in if r ==? "" then RiskClassLow else r.

Lemma Normalize_mode a :
  ta_AutonomyMode (TaskAuthority_Normalize a)
  = let m := if (ta_AutonomyMode a ==? "") && (ta_ApprovalMode a !=? "")
             then migrateApprovalMode (ta_ApprovalMode a) else ta_AutonomyMode a in
    if m ==? "" then "" else NormalizeAutonomyMode m.
Proof.
  unfold TaskAuthority_Normalize.
  destruct ((ta_AutonomyMode a ==? "") && (ta_ApprovalMode a !=? ""));
    cbn [setf set_ta_AutonomyMode set_ta_ApprovalMode ta_AutonomyMode];
    destruct (String.eqb_spec (migrateApprovalMode (ta_ApprovalMode a)) "") as [E1|];
    destruct (String.eqb_spec (ta_AutonomyMode a) "") as [E2|]; rewrite ?E1, ?E2;
    cbn [negb]; destruct (ta_RiskClass _ !=? ""); cbn; rewrite ?E1, ?E2; done.
Qed.

Lemma effective_mode_known a : effective_mode a ∈ AutonomyMode_values.
Proof.
  unfold effective_mode, TaskAuthority_EffectiveAutonomyMode. rewrite Normalize_mode. cbv zeta.
  match goal with |- context [NormalizeAutonomyMode ?x] => generalize x; intros m end.
  destruct (m ==? "") eqn:E.
  - apply (bool_decide_unpack _). reflexivity.
  - pose proof (NormalizeAutonomyMode_known m) as H.
    destruct (String.eqb_spec (NormalizeAutonomyMode m) "") as [F|]; cbn [negb]; [|done].
    rewrite F in H. apply (bool_decide_pack _) in H. vm_compute in H. done.
Qed.

Lemma Normalize_risk a :
  ta_RiskClass (TaskAuthority_Normalize a)
  = if ta_RiskClass a ==? "" then "" else NormalizeRiskClass (ta_RiskClass a).
Proof.
  unfold TaskAuthority_Normalize.
  match goal with |- context [if ?c then ?x else a] => set (b := if c then x else a) end.
  assert (ta_RiskClass b = ta_RiskClass a) as <- by (subst b; by case_if).
  generalize b. clear b. intros b. cbv zeta.
  match goal with |- context [if ?c then ?x else b] => set (d := if c then x else b) end.
  assert (ta_RiskClass d = ta_RiskClass b) as <- by (subst d; by case_if).
  generalize d. intros e. destruct (String.eqb_spec (ta_RiskClass e) "") as [F|]; cbn; [by rewrite F|done].
Qed.

Lemma effective_risk_known a : effective_risk a ∈ RiskClass_values.
Proof.
  unfold effective_risk. rewrite Normalize_risk. cbv zeta.
  destruct (ta_RiskClass a ==? "") eqn:E; cbn [String.eqb].
  - apply (bool_decide_unpack _). reflexivity.
  - pose proof (NormalizeRiskClass_known (ta_RiskClass a)) as H.
    destruct (NormalizeRiskClass (ta_RiskClass a) ==? "");
      [apply (bool_decide_unpack _); reflexivity|done].
Qed.
