(* ===== verification/BudgetControlProps.v ===== *)
(** What budget enforcement guarantees: work that passes the gates stays within
    the budget, the daemon's exhaustion events are exact, and the enforcer's own
    blocks are misread. *)

From Stdlib Require Import Ascii String Floats.SpecFloat.
From stdpp Require Import base tactics decidable list gmap strings pretty relations.
From S2P Require Import Prelude Enums Budget TaskModels BudgetGuard Duration Idempotency Usage BudgetControl Modes.

(** ** The gates *)

Lemma turn_gate_allows e budget usage :
  Allowed (CheckTurnStartFromUsage e budget usage) = true ->
  TaskBudget_IsZero budget = true \/ BudgetExceeded_Any (TaskBudget_CheckUsage budget usage) = false.
Proof.
  unfold CheckTurnStartFromUsage. destruct (TaskBudget_IsZero budget); [by left|]. intros H; right; revert H.
  destruct (BudgetExceeded_Any _); [intros [=]|done].
Qed.

Lemma tool_gate_allows budget c :
  Allowed (CheckToolDispatch budget c) = true ->
  TaskBudget_IsZero budget = true
  \/ over (tb_MaxToolCalls budget) (add64 (tu_ToolCalls (Cumulative c)) 1) = false
     /\ BudgetExceeded_Any (TaskBudget_CheckUsage budget (Cumulative c)) = false.
Proof.
  unfold CheckToolDispatch. destruct (TaskBudget_IsZero budget); [by left|]. intros H; right; revert H.
  rewrite CheckUsage_over. cbn [be_ToolCalls setf set_tu_ToolCalls tu_ToolCalls].
  destruct (over _ _); [intros [=]|]. destruct (BudgetExceeded_Any _); [intros [=]|done].
Qed.

Lemma delegation_gate_allows budget c child :
  Allowed (CheckDelegation budget c child).1 = true ->
  TaskBudget_IsZero budget = true
  \/ over (tb_MaxDelegations budget) (add64 (tu_Delegations (Cumulative c)) 1) = false
     /\ BudgetExceeded_Any (TaskBudget_CheckUsage budget (Cumulative c)) = false.
Proof.
  unfold CheckDelegation. destruct (TaskBudget_IsZero budget); [by left|]. intros H; right; revert H.
  rewrite CheckUsage_over. cbn [be_Delegations setf set_tu_Delegations tu_Delegations].
  destruct (over _ _); [intros [=]|]. destruct (BudgetExceeded_Any _); [intros [=]|done].
Qed.

(** Work that asks the gate first: a model turn with any consumption, one tool
    call, one delegation. *)
Inductive gated (budget : TaskBudget) (c : UsageCollector) : UsageCollector -> Prop :=
  | gated_turn e now turn :
      Allowed (CheckTurnStart e budget c) = true ->
      tn_ToolCalls turn = 0 -> tn_Delegations turn = 0 ->
      gated budget c (RecordTurn now turn c)
  | gated_tool now turn :
      Allowed (CheckToolDispatch budget c) = true ->
      tn_ToolCalls turn = 1 -> tn_Delegations turn = 0 ->
      gated budget c (RecordTurn now turn c)
  | gated_delegation now turn child :
      Allowed (CheckDelegation budget c child).1 = true ->
      tn_ToolCalls turn = 0 -> tn_Delegations turn = 1 ->
      gated budget c (RecordTurn now turn c).

Definition counts_within (budget : TaskBudget) (u : TaskUsage) : Prop :=
  over (tb_MaxToolCalls budget) (tu_ToolCalls u) = false
  /\ over (tb_MaxDelegations budget) (tu_Delegations u) = false
  /\ int64_range (tu_ToolCalls u) /\ int64_range (tu_Delegations u).

Lemma zero_budget_over budget :
  TaskBudget_IsZero budget = true -> tb_MaxToolCalls budget = 0 /\ tb_MaxDelegations budget = 0.
Proof. unfold TaskBudget_IsZero. intros H. bool_to_prop. done. Qed.

Lemma add64_zero x : int64_range x -> add64 x 0 = x.
Proof. intros H. rewrite add64_small; rewrite Z.add_0_r; done. Qed.

Lemma gated_counts budget c c' :
  gated budget c c' -> counts_within budget (Cumulative c) -> counts_within budget (Cumulative c').
Proof.
  intros Hg (Ht & Hd & Rt & Rd).
  destruct Hg as [e now turn _ T D|now turn G T D|now turn child G T D];
    rewrite Cumulative_RecordTurn; unfold counts_within; cbn [add_turn tu_ToolCalls tu_Delegations];
    rewrite T, D, ?add64_zero by done; split_and!; auto; try apply wrap64_range.
  - destruct (tool_gate_allows _ _ G) as [Z|[? _]]; [|done].
    by rewrite (proj1 (zero_budget_over _ Z)).
  - destruct (delegation_gate_allows _ _ _ G) as [Z|[? _]]; [|done].
    by rewrite (proj2 (zero_budget_over _ Z)).
Qed.

Lemma gated_not_exceeded budget c c' :
  gated budget c c' ->
  TaskBudget_IsZero budget = true \/ BudgetExceeded_Any (TaskBudget_CheckUsage budget (Cumulative c)) = false.
Proof.
  intros [e now turn G _ _|now turn G _ _|now turn child G _ _].
  - by eapply turn_gate_allows.
  - destruct (tool_gate_allows _ _ G) as [?|[_ ?]]; auto.
  - destruct (delegation_gate_allows _ _ _ G) as [?|[_ ?]]; auto.
Qed.

(** C17: Work that asks the gates keeps to its budget: however turns, tool calls and
    delegations follow each other, each after an allowing answer, the counts of
    tool calls and delegations never exceed their limits, and nothing more is
    admitted once any dimension is exceeded, so that an overrun of tokens or cost
    is that of one turn. *)
Theorem gated_work_stays_in_budget budget runID taskID c :
  rtc (gated budget) (NewUsageCollector runID taskID) c ->
  (0 < tb_MaxToolCalls budget -> tu_ToolCalls (Cumulative c) <= tb_MaxToolCalls budget)
  /\ (0 < tb_MaxDelegations budget -> tu_Delegations (Cumulative c) <= tb_MaxDelegations budget)
  /\ (TaskBudget_IsZero budget = false ->
      BudgetExceeded_Any (TaskBudget_CheckUsage budget (Cumulative c)) = true ->
      forall c', ~ gated budget c c').
Proof.
  intros Hr. assert (counts_within budget (Cumulative c)) as (Ht & Hd & _).
  { revert Hr. apply (rtc_ind_r (fun c => counts_within budget (Cumulative c))).
    - unfold counts_within, over, int64_range. cbn. rewrite !andb_false_iff, !Z.ltb_ge. lia.
    - intros x y _ Hs. by apply gated_counts. }
  unfold over in Ht, Hd. split; [|split].
  - intros H. apply andb_false_iff in Ht as [Ht|Ht]; apply Z.ltb_ge in Ht; lia.
  - intros H. apply andb_false_iff in Hd as [Hd|Hd]; apply Z.ltb_ge in Hd; lia.
  - intros Hz He c' Hg. apply gated_not_exceeded in Hg as [?|?]; congruence.
Qed.

(** Two dispatches that both ask before either is recorded overrun the limit: the
    check and the record are two critical sections. *)
Example concurrent_dispatches_overrun :
  let budget := mkTaskBudget 0 0 0 0 1 0 0 in
  let call := mkTurnUsage 0 0 0 0 1 0 0 0 "" 1 in
  let c := NewUsageCollector "r" "t" in
  Allowed (CheckToolDispatch budget c) = true
  /\ be_ToolCalls (TaskBudget_CheckUsage budget
       (Cumulative (RecordTurn 1 call (RecordTurn 1 call c)))) = true.
Proof. split; reflexivity. Qed.

(** A parent that has just used up its tokens delegates without a limit on them. *)
Example used_up_parent_delegates_unlimited :
  let parent := mkTaskBudget 0 0 100 0 0 0 0 in
  let c := RecordTurn 1 (mkTurnUsage 60 40 0 0 0 0 0 0 "" 1) (NewUsageCollector "r" "t") in
  let '(d, child) := CheckDelegation parent c zero_budget in
  Allowed d = true /\ TaskBudget_IsZero child = true.
Proof. split; reflexivity. Qed.

(** ** Exhaustion events of the daemon *)

(** What a reason stands for. *)
Definition exhausted (r : string) (e : BudgetExceeded) : bool :=
  go_switch r
    [([ExhaustionTokens], be_PromptTokens e || be_CompletionTokens e || be_TotalTokens e);
     ([ExhaustionRuntime], be_RuntimeMS e); ([ExhaustionCost], be_CostMicrosUSD e);
     ([ExhaustionToolCalls], be_ToolCalls e); ([ExhaustionDelegation], be_Delegations e)] false.

(** The reasons of the daemon's decision, most important first. *)
Definition by_priority : list string :=
  [ExhaustionCost; ExhaustionTokens; ExhaustionRuntime; ExhaustionToolCalls; ExhaustionDelegation].

Definition primary (e : BudgetExceeded) : string :=
  default ExhaustionTokens (head (List.filter (fun r => exhausted r e) by_priority)).

Definition daemon_decision (e : BudgetExceeded) : BudgetDecision :=
  mkBudgetDecision BudgetBlock "" (taskRunnerExceededDimensions e) [] zero_usage zero_budget.

Definition daemon_reasons (e : BudgetExceeded) : list string :=
  classifyExhaustionReasons (daemon_decision e).

(** The seven verdicts are finitely many. *)
Ltac each_verdict e :=
  destruct e as [[] [] [] [] [] [] []].

Lemma daemon_reasons_exact e :
  BudgetExceeded_Any e = true ->
  daemon_reasons e ≡ₚ List.filter (fun r => exhausted r e) by_priority
  /\ selectPrimaryReason (daemon_reasons e) = primary e.
Proof.
  intros H. each_verdict e; try discriminate H; clear H;
    (split; [|vm_compute; reflexivity]);
    apply (bool_decide_unpack _); vm_compute; reflexivity.
Qed.

Lemma default_policy_total reason mode :
  In reason by_priority -> In mode AutonomyMode_values ->
  Exhaustion_Lookup reason mode DefaultExhaustionPolicy
  = Some (resolveDefaultExhaustionAction reason mode).
Proof.
  intros Hr Hm. assert (forallb (fun r => forallb (fun m =>
    bool_decide (Exhaustion_Lookup r m DefaultExhaustionPolicy
                 = Some (resolveDefaultExhaustionAction r m))) AutonomyMode_values) by_priority = true) as H
    by (vm_compute; reflexivity).
  rewrite forallb_forall in H. specialize (H _ Hr). rewrite forallb_forall in H.
  specialize (H _ Hm). by apply bool_decide_eq_true in H.
Qed.

Lemma primary_known e : In (primary e) by_priority.
Proof. each_verdict e; vm_compute; tauto. Qed.

(** The daemon's exhaustion event is exact: there is one exactly when a dimension is
    exceeded, it names the exceeded dimensions and no others, and its action is
    the policy's for the most important of them under the task's mode; so an
    exceeded cost always goes to the operator, as does everything in supervised
    mode. *)
Theorem exhaustion_event_is_exact g exceeded task clock :
  match taskRunnerBudgetEventFromExceeded (Some g) exceeded task clock with
  | None => BudgetExceeded_Any exceeded = false
  | Some ev =>
    BudgetExceeded_Any exceeded = true
    /\ eh_Reasons ev ≡ₚ List.filter (fun r => exhausted r exceeded) by_priority
    /\ eh_Action ev = resolveDefaultExhaustionAction (primary exceeded) (effective_mode (ts_Authority task))
    /\ (be_CostMicrosUSD exceeded = true \/ effective_mode (ts_Authority task) = AutonomySupervised ->
        eh_Action ev = ActionEscalate)
  end.
Proof.
  unfold taskRunnerBudgetEventFromExceeded. cbn [negb orb].
  destruct (BudgetExceeded_Any exceeded) eqn:HA; cbn [negb]; [|done].
  unfold ResolveOutcome. cbn [bn_Verdict negb String.eqb Ascii.eqb].
  change (classifyExhaustionReasons _) with (daemon_reasons exceeded).
  destruct (daemon_reasons_exact exceeded HA) as [Hp ->].
  cbn [snd NewOutcomeResolver oz_policy default eh_Reasons eh_Action].
  change (TaskAuthority_EffectiveAutonomyMode _ _) with (effective_mode (ts_Authority task)).
  pose proof (effective_mode_known (ts_Authority task)) as Hm. rewrite list_elem_of_In in Hm.
  rewrite (default_policy_total _ _ (primary_known exceeded) Hm). cbn [default].
  split_and!; [done|done|done|]. intros [Hc|Hs].
  - assert (primary exceeded = ExhaustionCost) as -> by (each_verdict exceeded; by try discriminate Hc).
    reflexivity.
  - rewrite Hs. unfold resolveDefaultExhaustionAction. by case_if.
Qed.

(** ** The enforcer's blocks *)

(** The enforcer's own blocks are misread: it reports sentences ("cost exceeded") where
    the resolver looks for dimensions ("cost_micros_usd"), so that whatever a
    blocked turn has exhausted, the event says tokens and takes the action for
    tokens; under full autonomy an exceeded cost then switches to a cheaper model
    instead of going to the operator. *)
Theorem blocked_turn_reads_as_tokens e budget usage taskID runID mode now clock r :
  bn_Verdict (CheckTurnStartFromUsage e budget usage) = BudgetBlock ->
  exists ev, (ResolveOutcome (CheckTurnStartFromUsage e budget usage) taskID runID mode now clock r).2
             = Some ev
    /\ eh_Reasons ev = [ExhaustionTokens]
    /\ eh_Action ev = default ActionFail (Exhaustion_Lookup ExhaustionTokens mode (oz_policy r)).
Proof.
  unfold ResolveOutcome. intros ->. cbn [negb String.eqb Ascii.eqb].
  assert (forall v, classifyExhaustionReasons
    (mkBudgetDecision BudgetBlock "" (BudgetExceeded_Reasons v) [] usage budget) = [ExhaustionTokens]) as H
    by (intros v; each_verdict v; reflexivity).
  assert (classifyExhaustionReasons (CheckTurnStartFromUsage e budget usage) = [ExhaustionTokens]) as ->.
  { unfold CheckTurnStartFromUsage. destruct (TaskBudget_IsZero budget); [done|].
    destruct (BudgetExceeded_Any _); [apply H|]. by destruct (checkWarnings _ _ _). }
  eexists. split; [reflexivity|]. split; reflexivity.
Qed.

(** ** Witnesses and examples *)

Definition costly : TaskBudget := mkTaskBudget 0 0 0 0 2 1 100.
Definition start : UsageCollector := NewUsageCollector "r1" "t1".
Definition one_tool : TurnUsage := mkTurnUsage 0 0 0 0 1 0 0 0 "" 1.

Lemma gated_work_stays_in_budget_witness :
  tu_ToolCalls (Cumulative (RecordTurn 1 one_tool (RecordTurn 1 one_tool start))) <= 2.
Proof.
  refine (proj1 (gated_work_stays_in_budget costly "r1" "t1" _ _) _); [|cbn; lia].
  eapply rtc_l; [apply (gated_tool costly start 1 one_tool); reflexivity|].
  eapply rtc_l; [apply (gated_tool costly _ 1 one_tool); reflexivity|apply rtc_refl].
Defined.

Definition over_cost : TaskUsage := mkTaskUsage 0 0 0 0 0 0 101.

Lemma blocked_turn_reads_as_tokens_witness :
  exists ev, (ResolveOutcome (CheckTurnStartFromUsage NewBudgetEnforcer costly over_cost) "t1" "r1"
                AutonomyFull 1 1 (NewOutcomeResolver None)).2 = Some ev
    /\ eh_Reasons ev = [ExhaustionTokens] /\ eh_Action ev = ActionFallback.
Proof.
  exact (blocked_turn_reads_as_tokens NewBudgetEnforcer costly over_cost "t1" "r1" AutonomyFull 1 1
    (NewOutcomeResolver None) eq_refl).
Defined.

(** A mode that is none of the constants has no rule, and fails even on cost. *)
Example cost_fails_without_a_mode :
  option_map eh_Action (ResolveOutcome (daemon_decision (mkBudgetExceeded false false false false false false true))
    "t1" "r1" "" 1 1 (NewOutcomeResolver None)).2 = Some ActionFail.
Proof. vm_compute. reflexivity. Qed.

(** The keys of the registry join identifiers with a colon: a run of one task and
    another task share a key, and one task's listing shows the other. *)
Example trackers_of_two_tasks_collide :
  trackerKey "a" "b" = trackerKey "a:b" ""
  /\ let h : trackers := {[1%nat := NewBudgetTracker "a:b" "" costly]} in
     map bs_TaskID (StatusForTask 1 h "a" (Budget_Register h 1 NewBudgetRegistry)) = ["a:b"].
Proof. split; vm_compute; reflexivity. Qed.

(** Thresholds on doubles: eighty of a hundred do not warn, eighty-one do. *)
Example warning_threshold :
  map (fun n => bn_Verdict (CheckTurnStartFromUsage NewBudgetEnforcer (mkTaskBudget 0 0 100 0 0 0 0)
                              (mkTaskUsage 0 0 n 0 0 0 0))) [80; 81; 100; 101]
  = [BudgetAllow; BudgetWarn; BudgetWarn; BudgetBlock].
Proof. vm_compute. reflexivity. Qed.
