(* ===== verification/Governance.v ===== *)
(** Governance of autonomous work: internal/planner/autonomy.go (audited changes
    of the autonomy mode), governance.go (the matrix of verdicts by mode, risk and
    action) and enforcement.go (commands, delegations and tools).

    Texts are kept as formats with their arguments.  The operator's formatted
    history ([InspectMode]) is left out. *)

From Stdlib Require Import String.
From stdpp Require Import base tactics decidable list gmap strings pretty.
From S2P Require Import Prelude Enums TaskModels Authority Idempotency.

(** ** Changes of the autonomy mode *)

Definition ApplyHot : string := "hot".
Definition ApplyNextRun : string := "next_run".
Definition ApplyRestart : string := "restart".

Record AutonomyEvent := mkAutonomyEvent {
  ay_EventID : string;
  ay_OldMode : string;
  ay_NewMode : string;
  ay_Actor : string;
  ay_Reason : string;
  ay_Scope : string;
  ay_ApplyMode : string;
  ay_CreatedAt : Z;
  ay_Meta : gomap any
}.

Record TransitionPolicy := mkTransitionPolicy {
  tp_AllowTighten : bool;
  tp_AllowLoosen : bool;
  tp_RequireReason : bool
}.


Definition DefaultTransitionPolicy : TransitionPolicy := mkTransitionPolicy true false true.
Definition OperatorTransitionPolicy : TransitionPolicy := mkTransitionPolicy true true true.

Definition classifyTransition (old new : string) : string :=
  let oldRank := default 3 (autonomyRank old) in
  let newRank := default 3 (autonomyRank new) in
  if oldRank <? newRank then "tighten" else if newRank <? oldRank then "loosen" else "same".

Definition determineApplyMode (old new : string) : string :=
  go_switch (classifyTransition old new) [(["tighten"], ApplyHot); (["loosen"], ApplyNextRun)] ApplyHot.

Record AutonomyController := mkAutonomyController {
  ac_policy : TransitionPolicy;
  ac_events : list AutonomyEvent;
  ac_nextID : Z
}.

#[export] Instance set_ac_events : Setter ac_events := fun v r =>
  mkAutonomyController (ac_policy r) v (ac_nextID r).
#[export] Instance set_ac_nextID : Setter ac_nextID := fun v r =>
  mkAutonomyController (ac_policy r) (ac_events r) v.

Definition NewAutonomyController (policy : TransitionPolicy) : AutonomyController :=
  mkAutonomyController policy [] 0.

Record TransitionRequest := mkTransitionRequest {
  tq_OldMode : string;
  tq_NewMode : string;
  tq_Actor : string;
  tq_Reason : string;
  tq_Scope : string;
  tq_Now : Z;
  tq_Meta : gomap any
}.


(** The checks before the lock is taken. *)
Definition transition_error (policy : TransitionPolicy) (req : TransitionRequest) : option error :=
  let modes := [ArgS (tq_OldMode req); ArgS (tq_NewMode req)] in
  let direction := classifyTransition (tq_OldMode req) (tq_NewMode req) in
  first_error
    [ error_if (blank (tq_Actor req)) (Errorf "transition: actor is required" []);
      error_if (negb (AutonomyMode_Valid (tq_OldMode req)) && (tq_OldMode req !=? ""))
        (Errorf "transition: invalid old_mode %q" [ArgS (tq_OldMode req)]);
      error_if (negb (AutonomyMode_Valid (tq_NewMode req)))
        (Errorf "transition: invalid new_mode %q" [ArgS (tq_NewMode req)]);
      error_if (tp_RequireReason policy && blank (tq_Reason req))
        (Errorf "transition: reason is required by policy" []);
      error_if ((direction ==? "tighten") && negb (tp_AllowTighten policy))
        (Errorf "transition: tightening (%s → %s) not permitted by policy" modes);
      error_if ((direction ==? "loosen") && negb (tp_AllowLoosen policy))
        (Errorf "transition: loosening (%s → %s) not permitted by policy" modes) ].

Definition Transition (clock : Z) (req : TransitionRequest) (c : AutonomyController)
  : AutonomyController * result AutonomyEvent :=
  match transition_error (ac_policy c) req with
  | Some err => (c, Err err)
  | None =>
    let now := if tq_Now req <=? 0 then clock else tq_Now req in
    let id := add64 (ac_nextID c) 1 in
    let event := mkAutonomyEvent ("aut-" +:+ pretty id) (tq_OldMode req) (tq_NewMode req)
      (tq_Actor req) (tq_Reason req) (tq_Scope req)
      (determineApplyMode (tq_OldMode req) (tq_NewMode req)) now (tq_Meta req) in
    ((c <| ac_nextID := id |>) <| ac_events := ac_events c ++ [event] |>, Ok event)
  end.

Definition Events (c : AutonomyController) : list AutonomyEvent := ac_events c.

Definition EventsForScope (scope : string) (c : AutonomyController) : list AutonomyEvent :=
  List.filter (fun e => ay_Scope e ==? scope) (ac_events c).

Definition CurrentMode (scope defaultMode : string) (c : AutonomyController) : string :=
  fold_left (fun mode e => if ay_Scope e ==? scope then ay_NewMode e else mode) (ac_events c) defaultMode.

Definition TransitionDirection (old new : string) : string := classifyTransition old new.
Definition IsHotApplicable (old new : string) : bool := determineApplyMode old new ==? ApplyHot.

(** ** The matrix of verdicts *)

Definition ActionToolCall : string := "tool_call".
Definition ActionDelegation : string := "delegation".
Definition ActionPlanExecution : string := "plan_execution".
Definition ActionStepExecution : string := "step_execution".
Definition ActionPublish : string := "publish".
Definition ActionFinancial : string := "financial".

Definition VerdictAllow : string := "allow".
Definition VerdictRequireApproval : string := "require_approval".
Definition VerdictRequireEscalation : string := "require_escalation".
Definition VerdictDeny : string := "deny".

Record GovernanceDecision := mkGovernanceDecision {
  gd_Verdict : string;
  gd_Reason : error;
  gd_Action : string;
  gd_RiskClass : string;
  gd_AutonomyMode : string
}.


Definition Governance_Allowed (d : GovernanceDecision) : bool := gd_Verdict d ==? VerdictAllow.

(** The rules, by mode, risk and action. *)
Definition GovernancePolicy : Type := gmap (string * string * string) string.
Definition NewGovernancePolicy (rules : gmap (string * string * string) string) : GovernancePolicy := rules.
Definition Governance_Lookup (mode risk action : string) (p : GovernancePolicy) : option string :=
  p !! (mode, risk, action).

Definition fullModeVerdict (risk action : string) : string :=
  if ((action ==? ActionFinancial) || (action ==? ActionPublish)) && (risk ==? RiskClassHigh)
  then VerdictRequireApproval
  else if (action ==? ActionDelegation) && (risk ==? RiskClassHigh) then VerdictRequireApproval
  else VerdictAllow.

Definition planApprovalVerdict (risk action : string) : string :=
  if action ==? ActionPlanExecution then VerdictRequireApproval
  else if risk ==? RiskClassHigh
  then go_switch action [([ActionToolCall], VerdictRequireEscalation)] VerdictRequireApproval
  else if (risk ==? RiskClassMedium) && ((action ==? ActionFinancial) || (action ==? ActionPublish))
  then VerdictRequireApproval
  else VerdictAllow.

Definition stepApprovalVerdict (risk action : string) : string :=
  if (action ==? ActionPlanExecution) || (action ==? ActionStepExecution) then VerdictRequireApproval
  else if risk ==? RiskClassHigh then VerdictRequireEscalation
  else if risk ==? RiskClassMedium
  then go_switch action
         [([ActionFinancial; ActionPublish; ActionDelegation], VerdictRequireApproval)] VerdictAllow
  else VerdictAllow.

Definition supervisedVerdict (risk : string) : string :=
  if risk ==? RiskClassHigh then VerdictRequireEscalation else VerdictRequireApproval.

Definition resolveDefaultVerdict (mode risk action : string) : string :=
  if risk ==? RiskClassCritical then VerdictRequireEscalation
  else go_switch mode
    [([AutonomyFull], fullModeVerdict risk action);
     ([AutonomyPlanApproval], planApprovalVerdict risk action);
     ([AutonomyStepApproval], stepApprovalVerdict risk action);
     ([AutonomySupervised], supervisedVerdict risk)] VerdictRequireEscalation.

Definition action_classes : list string :=
  [ActionToolCall; ActionDelegation; ActionPlanExecution; ActionStepExecution; ActionPublish;
   ActionFinancial].

Definition DefaultGovernancePolicy : GovernancePolicy :=
  NewGovernancePolicy (list_to_map
    (flat_map (fun mode => flat_map (fun risk => map (fun action =>
        ((mode, risk, action), resolveDefaultVerdict mode risk action)) action_classes)
      RiskClass_values) AutonomyMode_values)).

(** An engine is its policy. *)
Definition GovernanceEngine : Type := GovernancePolicy.
Definition NewGovernanceEngine (policy : option GovernancePolicy) : GovernanceEngine :=
  default DefaultGovernancePolicy policy.

Record ActionRequest := mkActionRequest {
  aq_Action : string;
  aq_Tool : string;
  aq_TargetAgent : string;
  aq_Authority : TaskAuthority;
  aq_RiskOverride : string
}.


Definition request_risk (req : ActionRequest) (auth : TaskAuthority) : string :=
  let risk := if aq_RiskOverride req ==? "" then ta_RiskClass auth else aq_RiskOverride req in
  if risk ==? "" then RiskClassLow else risk.

Definition checkHardGates (req : ActionRequest) (auth : TaskAuthority) : option GovernanceDecision :=
  let deny reason := Some (mkGovernanceDecision VerdictDeny reason (aq_Action req)
    (request_risk req auth) (TaskAuthority_EffectiveAutonomyMode auth AutonomyFull)) in
  let action := aq_Action req in
  if negb (ta_CanAct auth)
     && ((action ==? ActionToolCall) || (action ==? ActionPublish) || (action ==? ActionFinancial))
  then deny (Errorf "can_act is false in effective authority" [])
  else if (action ==? ActionToolCall) && (aq_Tool req !=? "")
          && negb (TaskAuthority_MayUseTool auth (aq_Tool req))
  then deny (Errorf "tool %q not permitted by authority" [ArgS (aq_Tool req)])
  else if action ==? ActionDelegation then
    if negb (ta_CanDelegate auth) then deny (Errorf "can_delegate is false in effective authority" [])
    else if (aq_TargetAgent req !=? "") && negb (TaskAuthority_MayDelegateTo auth (aq_TargetAgent req))
    then deny (Errorf "delegation to %q not permitted by authority" [ArgS (aq_TargetAgent req)])
    else None
  else None.

Definition buildReason (verdict mode risk action : string) : error :=
  let parts := [ArgS ("mode=" +:+ mode +:+ ", risk=" +:+ risk +:+ ", action=" +:+ action)] in
  go_switch verdict
    [([VerdictAllow], Errorf "allowed: %s" parts);
     ([VerdictRequireApproval], Errorf "approval required: %s" parts);
     ([VerdictRequireEscalation], Errorf "escalation required: %s" parts);
     ([VerdictDeny], Errorf "denied: %s" parts)] (Errorf "unknown verdict: %s" parts).

Definition Governance_Evaluate (req : ActionRequest) (e : GovernanceEngine) : GovernanceDecision :=
  let auth := TaskAuthority_Normalize (aq_Authority req) in
  let mode := TaskAuthority_EffectiveAutonomyMode auth AutonomyFull in
  let risk := request_risk req auth in
  match checkHardGates req auth with
  | Some denied => denied
  | None =>
    let decide verdict reason := mkGovernanceDecision verdict reason (aq_Action req) risk mode in
    if ta_EscalationRequired auth
    then decide VerdictRequireEscalation (Errorf "escalation_required is set on effective authority" [])
    else
    let verdict := default VerdictRequireEscalation (Governance_Lookup mode risk (aq_Action req) e) in
    decide verdict (buildReason verdict mode risk (aq_Action req))
  end.

Definition Governance_MayAct (auth : TaskAuthority) (tool : string) (e : GovernanceEngine) : bool :=
  Governance_Allowed (Governance_Evaluate (mkActionRequest ActionToolCall tool "" auth "") e).

Definition Governance_MayDelegate (auth : TaskAuthority) (target : string) (e : GovernanceEngine) : bool :=
  Governance_Allowed (Governance_Evaluate (mkActionRequest ActionDelegation "" target auth "") e).

Definition ClassifyToolRisk (tool : string) : string :=
  let lower := ToLower tool in
  if existsb (Contains lower) ["zap"; "pay"; "invoice"] then RiskClassHigh
  else if existsb (Contains lower) ["publish"; "send_dm"; "broadcast"] then RiskClassMedium
  else if existsb (Contains lower) ["delete"; "remove"; "drop"] then RiskClassHigh
  else if existsb (Contains lower) ["fetch"; "list"; "get"; "info"; "search"; "profile"] then RiskClassLow
  else RiskClassMedium.

Definition EvaluateToolCall (auth : TaskAuthority) (tool : string) (e : GovernanceEngine)
  : GovernanceDecision :=
  Governance_Evaluate (mkActionRequest ActionToolCall tool "" auth (ClassifyToolRisk tool)) e.

(** ** Enforcement *)

Definition CommandRead : string := "read".
Definition CommandSession : string := "session".
Definition CommandRouting : string := "routing".
Definition CommandConfig : string := "config".
Definition CommandExport : string := "export".

Definition commandClassifications : gmap string string :=
  list_to_map
   [("help", CommandRead); ("status", CommandRead); ("info", CommandRead);
    ("new", CommandSession); ("reset", CommandSession); ("kill", CommandSession);
    ("stop", CommandSession); ("focus", CommandRouting); ("unfocus", CommandRouting);
    ("spawn", CommandRouting); ("set", CommandConfig); ("unset", CommandConfig);
    ("model", CommandConfig); ("fast", CommandConfig); ("export", CommandExport);
    ("compact", CommandExport)].

Definition ClassifyCommand (name : string) : string :=
  default CommandRead (commandClassifications !! ToLower name).

Record EnforcementResult := mkEnforcementResult {
  ef_Allowed : bool;
  ef_Reason : error;
  ef_Suggestion : string
}.


Definition allow (reason : error) : EnforcementResult := mkEnforcementResult true reason "".
Definition refuse (reason : error) (suggestion : string) : EnforcementResult :=
  mkEnforcementResult false reason suggestion.

Definition ask_to_act : string := "request operator approval to enable actions".

Definition enforceRouting (auth : TaskAuthority) (command : string) : EnforcementResult :=
  if negb (ta_CanAct auth) then refuse (Errorf "/%s requires can_act=true" [ArgS command]) ask_to_act
  else if (command ==? "spawn") && negb (ta_CanDelegate auth)
  then refuse (Errorf "/spawn requires can_delegate=true" [])
         "request operator approval to enable delegation"
  else
  let mode := TaskAuthority_EffectiveAutonomyMode auth AutonomyFull in
  if mode ==? AutonomySupervised
  then refuse (Errorf "/%s blocked in supervised mode" [ArgS command])
         "request operator approval before routing changes"
  else allow (Errorf "/%s permitted (can_act=true, mode=%s)" [ArgS command; ArgS mode]).

Definition enforceConfig (auth : TaskAuthority) (command : string) : EnforcementResult :=
  if negb (ta_CanAct auth) then refuse (Errorf "/%s requires can_act=true" [ArgS command]) ask_to_act
  else
  let mode := TaskAuthority_EffectiveAutonomyMode auth AutonomyFull in
  if (mode ==? AutonomySupervised) || (mode ==? AutonomyStepApproval)
  then refuse (Errorf "/%s blocked in %s mode" [ArgS command; ArgS mode])
         "config changes require plan_approval or full autonomy"
  else allow (Errorf "/%s permitted (can_act=true, mode=%s)" [ArgS command; ArgS mode]).

Definition MayRunCommand (auth : TaskAuthority) (command : string) : EnforcementResult :=
  go_switch (ClassifyCommand command)
    [([CommandRead; CommandExport], allow (Errorf "/%s is a read/export command" [ArgS command]));
     ([CommandSession],
      if negb (ta_CanAct auth)
      then refuse (Errorf "/%s requires can_act=true" [ArgS command]) ask_to_act
      else allow (Errorf "/%s permitted (can_act=true)" [ArgS command]));
     ([CommandRouting], enforceRouting auth command);
     ([CommandConfig], enforceConfig auth command)]
    (allow (Errorf "unclassified command defaults to allowed" [])).

Definition verdictSuggestion (v : string) : string :=
  go_switch v
    [([VerdictRequireApproval], "request operator approval");
     ([VerdictRequireEscalation], "escalate to a higher authority");
     ([VerdictDeny], "this action is not permitted")] "".

(** An enforcement engine is the governance engine behind it. *)
Definition EnforcementEngine : Type := GovernanceEngine.
Definition NewEnforcementEngine (gov : option GovernanceEngine) : EnforcementEngine :=
  default (NewGovernanceEngine None) gov.

Definition MayDelegate (auth : TaskAuthority) (targetAgent : string) (currentDepth : Z)
    (e : EnforcementEngine) : EnforcementResult :=
  if negb (ta_CanDelegate auth)
  then refuse (Errorf "can_delegate is false in effective authority" [])
         "request operator approval to enable delegation"
  else if negb (TaskAuthority_MayDelegateTo auth targetAgent)
  then refuse (Errorf "agent %q not in allowed_agents list" [ArgS targetAgent])
         "update authority to include this agent"
  else if (0 <? ta_MaxDelegationDepth auth) && (ta_MaxDelegationDepth auth <=? currentDepth)
  then refuse (Errorf "delegation depth %d would exceed max_delegation_depth %d"
                 [ArgZ (add64 currentDepth 1); ArgZ (ta_MaxDelegationDepth auth)])
         "reduce delegation chain or increase max_delegation_depth"
  else
  let govDec := Governance_Evaluate (mkActionRequest ActionDelegation "" targetAgent auth "") e in
  if negb (Governance_Allowed govDec)
  then refuse (Wrapf "governance policy: %s" [] (gd_Reason govDec)) (verdictSuggestion (gd_Verdict govDec))
  else allow (Errorf "delegation to %q permitted (depth=%d/%d)"
                [ArgS targetAgent; ArgZ currentDepth; ArgZ (ta_MaxDelegationDepth auth)]).

Definition MayUseTool (auth : TaskAuthority) (tool : string) (e : EnforcementEngine)
  : EnforcementResult :=
  if negb (ta_CanAct auth)
  then refuse (Errorf "can_act is false in effective authority" []) ask_to_act
  else if negb (TaskAuthority_MayUseTool auth tool)
  then refuse (Errorf "tool %q not permitted by authority" [ArgS tool])
         "update allowed_tools or remove from denied_tools"
  else
  let govDec := EvaluateToolCall auth tool e in
  if negb (Governance_Allowed govDec)
  then refuse (Wrapf "governance policy: %s" [] (gd_Reason govDec)) (verdictSuggestion (gd_Verdict govDec))
  else allow (Errorf "tool %q permitted" [ArgS tool]).

Definition planner_truncate (s : string) (max : nat) : string :=
  if Nat.leb (String.length s) max then s else String.substring 0 max s +:+ "...".

Definition MayAcceptACPTask (auth : TaskAuthority) (senderPubkey : string) : EnforcementResult :=
  if negb (ta_CanAct auth)
  then refuse (Errorf "can_act is false — cannot accept ACP tasks" [])
         "enable can_act to process inbound ACP work"
  else allow (Errorf "ACP task from %s permitted" [ArgS (planner_truncate senderPubkey 16)]).

Definition MaySendACPDelegate (auth : TaskAuthority) (peerPubkey : string) (currentDepth : Z)
    (e : EnforcementEngine) : EnforcementResult := MayDelegate auth peerPubkey currentDepth e.
