(* ===== verification/GovernanceProps.v ===== *)
(** Theorems on governance: the gates of the engines are monotone in the authority,
    so the effective authority of a chain opens no gate that one of its layers
    closes, under the conditions that narrowing needs; what an allowed tool call or delegation implies; and the modes that a
    tighten-only controller leaves behind.  Examples of what the code does not
    guard against close the file. *)

From Stdlib Require Import String.
From stdpp Require Import base tactics decidable list gmap strings.
From S2P Require Import Prelude Enums TaskModels Authority Modes Governance.

(** ** Stricter authorities *)

Definition mode_rank (a : TaskAuthority) : Z := default 3 (autonomyRank (effective_mode a)).
Definition risk_rank (a : TaskAuthority) : Z := default 3 (riskRank (effective_risk a)).

(** [x] is at least as strict as [a] in what does not depend on the allow lists. *)
Record stricter (x a : TaskAuthority) : Prop := {
  st_act : ta_CanAct x = true -> ta_CanAct a = true;
  st_delegate : ta_CanDelegate x = true -> ta_CanDelegate a = true;
  st_escalation : ta_EscalationRequired a = true -> ta_EscalationRequired x = true;
  st_mode : mode_rank a <= mode_rank x;
  st_risk : risk_rank a <= risk_rank x
}.

#[export] Instance stricter_refl : Reflexive stricter.
Proof. intros a. split; auto; lia. Qed.

#[export] Instance stricter_trans : Transitive stricter.
Proof. intros a b c [] []. split; auto; lia. Qed.

(** Authorities as normalisation and narrowing leave them. *)
Record canonical_authority (a : TaskAuthority) : Prop := {
  ca_mode : In (ta_AutonomyMode a) AutonomyMode_values
            \/ ta_AutonomyMode a = "" /\ ta_ApprovalMode a = "";
  ca_risk : In (ta_RiskClass a) ("" :: RiskClass_values)
}.

Lemma known_mode_kept m : In m AutonomyMode_values -> NormalizeAutonomyMode m = m.
Proof. intros [<-|[<-|[<-|[<-|[]]]]]; reflexivity. Qed.

Lemma known_risk_kept r : In r RiskClass_values -> NormalizeRiskClass r = r.
Proof. intros [<-|[<-|[<-|[<-|[]]]]]; reflexivity. Qed.

Lemma known_mode_nonempty m : In m AutonomyMode_values -> (m ==? "") = false.
Proof. intros [<-|[<-|[<-|[<-|[]]]]]; reflexivity. Qed.

Lemma Normalize_canonical a : canonical_authority (TaskAuthority_Normalize a).
Proof.
  split.
  - rewrite Normalize_mode. cbv zeta.
    match goal with |- context [if ?x ==? "" then _ else _] => destruct (x ==? "") eqn:E end.
    + right. split; [done|]. unfold TaskAuthority_Normalize.
      destruct (ta_AutonomyMode a ==? "") eqn:Em, (ta_ApprovalMode a ==? "") eqn:Ea; cbn in *;
        rewrite ?Em, ?Ea, ?E in *; try done; bool_to_prop; repeat case_if; done.
    + left. apply list_elem_of_In, NormalizeAutonomyMode_known.
  - rewrite Normalize_risk. destruct (ta_RiskClass a ==? ""); [by left|].
    right. apply list_elem_of_In, NormalizeRiskClass_known.
Qed.

Lemma canonical_mode a : canonical_authority a -> effective_mode a = TaskAuthority_EffectiveAutonomyMode a AutonomyFull.
Proof.
  intros [Hm _]. unfold effective_mode, TaskAuthority_EffectiveAutonomyMode. rewrite Normalize_mode.
  destruct Hm as [Hm|[-> ->]]; [|done].
  rewrite (known_mode_nonempty _ Hm). cbn [andb negb].
  by rewrite (known_mode_nonempty _ Hm), (known_mode_kept _ Hm), (known_mode_nonempty _ Hm).
Qed.

Lemma canonical_risk a : canonical_authority a ->
  effective_risk a = if ta_RiskClass a ==? "" then RiskClassLow else ta_RiskClass a.
Proof.
  intros [_ Hr]. unfold effective_risk. rewrite Normalize_risk.
  destruct Hr as [<-|Hr]; [done|]. rewrite (known_risk_kept _ Hr).
  cbv zeta. by destruct (ta_RiskClass a ==? "") eqn:E; rewrite ?E.
Qed.

(** The ranks of canonical_authority authorities are the clamped strictness of the fields. *)
Lemma canonical_ranks a : canonical_authority a ->
  mode_rank a = Z.max 0 (autonomy_strictness (ta_AutonomyMode a))
  /\ risk_rank a = Z.max 0 (risk_severity (ta_RiskClass a)).
Proof.
  intros Ha. unfold mode_rank, risk_rank. rewrite canonical_mode, canonical_risk by done.
  destruct Ha as [Hm Hr]. unfold TaskAuthority_EffectiveAutonomyMode. split.
  - destruct Hm as [[<-|[<-|[<-|[<-|[]]]]]|[-> _]]; reflexivity.
  - destruct Hr as [<-|[<-|[<-|[<-|[<-|[]]]]]]; reflexivity.
Qed.

Lemma narrow_canonical p c : canonical_authority p -> canonical_authority c -> canonical_authority (NarrowAuthority p c).
Proof.
  intros [Hp Hrp] [Hc Hrc]. split; cbn.
  - destruct (ta_AutonomyMode p ==? "") eqn:E1, (ta_AutonomyMode c ==? "") eqn:E2; cbn [andb negb].
    + right. bool_to_prop. by rewrite E2.
    + destruct Hc as [Hc|[Hc _]]; [by left|]. by rewrite Hc in E2.
    + destruct Hp as [Hp|[Hp _]]; [by left|]. by rewrite Hp in E1.
    + left. unfold moreRestrictiveAutonomy.
      destruct Hp as [Hp|[Hp _]]; [|by rewrite Hp in E1].
      destruct Hc as [Hc|[Hc _]]; [|by rewrite Hc in E2]. by case_if.
  - unfold higherRisk. repeat case_if; done.
Qed.

(** ** Narrowing is strict *)

Lemma narrow_stricter p c :
  canonical_authority p -> canonical_authority c ->
  stricter (NarrowAuthority p c) p /\ stricter (NarrowAuthority p c) c.
Proof.
  intros Hp Hc.
  destruct (canonical_ranks p Hp) as [Mp Rp], (canonical_ranks c Hc) as [Mc Rc].
  destruct (canonical_ranks _ (narrow_canonical p c Hp Hc)) as [Mn Rn].
  rewrite narrow_autonomy in Mn. rewrite narrow_risk in Rn.
  split; split; try (rewrite ?Mn, ?Mp, ?Mc, ?Rn, ?Rp, ?Rc; lia); cbn;
    by destruct (ta_CanAct p), (ta_CanDelegate p), (ta_EscalationRequired p).
Qed.

Lemma fold_narrow_stricter eff layers :
  canonical_authority eff ->
  canonical_authority (fold_narrow eff layers)
  /\ stricter (fold_narrow eff layers) eff
  /\ forall l, In l layers -> stricter (fold_narrow eff layers) (TaskAuthority_Normalize (al_Authority l)).
Proof.
  unfold fold_narrow. revert eff.
  induction layers as [|l layers IH]; intros eff Hc; cbn [fold_left].
  { split_and!; [done|reflexivity|]. intros l []. }
  set (child := TaskAuthority_Normalize (al_Authority l)).
  assert (canonical_authority child) as Hcc by apply Normalize_canonical.
  destruct (narrow_stricter eff child Hc Hcc) as [S1 S2].
  destruct (IH (NarrowAuthority eff child)) as (C & S & SL); [by apply narrow_canonical|].
  split_and!; [done|by etrans|]. intros x [<-|Hx]; [by etrans|by apply SL].
Qed.

(** The effective authority of a chain and the authority of one of its layers. *)
Section Chain.
Variables (first : AuthorityLayer) (rest : list AuthorityLayer) (l : AuthorityLayer).
Hypothesis member : In l (first :: rest).

Definition effective : TaskAuthority := at_Effective (ResolveAuthority (first :: rest)).
Definition own : TaskAuthority := TaskAuthority_Normalize (al_Authority l).

Lemma effective_canonical : canonical_authority effective.
Proof. unfold effective. rewrite resolve_effective. apply fold_narrow_stricter, Normalize_canonical. Qed.

Lemma effective_stricter : stricter effective own.
Proof.
  unfold effective. rewrite resolve_effective.
  destruct (fold_narrow_stricter (TaskAuthority_Normalize (al_Authority first)) rest) as (_ & S & SL);
    [apply Normalize_canonical|].
  destruct member as [E|Hin]; [unfold own; by rewrite <- E|by apply SL].
Qed.

Lemma of_each_layer (f : TaskAuthority -> bool) :
  (forall a, f (TaskAuthority_Normalize a) = f a) ->
  f effective = forallb (fun l => f (al_Authority l)) (first :: rest) -> f effective = true -> f own = true.
Proof.
  intros Hf -> Hall. unfold own. rewrite Hf. rewrite forallb_forall in Hall. by apply Hall.
Qed.

Lemma effective_tool t0 t :
  forallb (fun l => allow_ok (ta_AllowedTools (al_Authority l)) t0) (first :: rest) = true ->
  TaskAuthority_MayUseTool effective t = true -> TaskAuthority_MayUseTool own t = true.
Proof.
  intros H. apply (of_each_layer (fun a => TaskAuthority_MayUseTool a t)).
  { intros a. by rewrite !MayUseTool_eq, Normalize_denied, Normalize_tools. }
  apply (resolve_forallb (fun a => TaskAuthority_MayUseTool a t) (fun a => allow_ok (ta_AllowedTools a) t0)); [| | |done].
  - intros a. by rewrite !MayUseTool_eq, Normalize_denied, Normalize_tools.
  - intros a. by rewrite Normalize_tools.
  - intros p c Hp Hc. split; [by eapply narrow_tool|by apply intersect_keeps].
Qed.

Lemma effective_agent g0 g :
  forallb (fun l => allow_ok (ta_AllowedAgents (al_Authority l)) g0) (first :: rest) = true ->
  TaskAuthority_MayDelegateTo effective g = true -> TaskAuthority_MayDelegateTo own g = true.
Proof.
  intros H. apply (of_each_layer (fun a => TaskAuthority_MayDelegateTo a g)).
  { intros a. by rewrite !MayDelegateTo_eq, Normalize_delegate, Normalize_agents. }
  apply (resolve_forallb (fun a => TaskAuthority_MayDelegateTo a g) (fun a => allow_ok (ta_AllowedAgents a) g0)); [| | |done].
  - intros a. by rewrite !MayDelegateTo_eq, Normalize_delegate, Normalize_agents.
  - intros a. by rewrite Normalize_agents.
  - intros p c Hp Hc. split; [by eapply narrow_agent|by apply intersect_keeps].
Qed.

Lemma Normalize_depth a : ta_MaxDelegationDepth (TaskAuthority_Normalize a) = ta_MaxDelegationDepth a.
Proof. by apply authority_normalize_keeps. Qed.

Lemma effective_depth d :
  depth_ok (ta_MaxDelegationDepth effective) d = true -> depth_ok (ta_MaxDelegationDepth own) d = true.
Proof.
  apply (of_each_layer (fun a => depth_ok (ta_MaxDelegationDepth a) d)); [intros a; by rewrite Normalize_depth|].
  apply (resolve_forallb (fun a => depth_ok (ta_MaxDelegationDepth a) d) (fun _ => true)); [intros a; by rewrite Normalize_depth|done| |by apply forallb_forall].
  intros p c _ _. cbn. by rewrite narrow_depth_ok.
Qed.

Lemma effective_depth_limit :
  forallb (fun l => 0 <=? ta_MaxDelegationDepth (al_Authority l)) (first :: rest) = true ->
  0 <= ta_MaxDelegationDepth effective.
Proof.
  intros H. apply Z.leb_le. change ((fun a => 0 <=? ta_MaxDelegationDepth a) effective = true).
  unfold effective. rewrite (resolve_forallb (fun a => 0 <=? ta_MaxDelegationDepth a) (fun a => 0 <=? ta_MaxDelegationDepth a)); [done| | | |done].
  - intros a. by rewrite Normalize_depth.
  - intros a. by rewrite Normalize_depth.
  - intros p c Hp Hc. cbn. rewrite Hp, Hc. apply Z.leb_le in Hp, Hc.
    assert ((0 <=? narrowDepth (ta_MaxDelegationDepth p) (ta_MaxDelegationDepth c)) = true) as ->; [|done].
    apply Z.leb_le. unfold narrowDepth. repeat case_if; lia.
Qed.
End Chain.

(** ** The gates are monotone *)

(** What the matrix lets through. *)
Definition matrix_allows (e : GovernanceEngine) (mode risk action : string) : bool :=
  default VerdictRequireEscalation (Governance_Lookup mode risk action e) ==? VerdictAllow.

(** The hard gates of a request. *)
Definition gates_open (req : ActionRequest) : bool :=
  let auth := aq_Authority req in let action := aq_Action req in
  (ta_CanAct auth
   || negb ((action ==? ActionToolCall) || (action ==? ActionPublish) || (action ==? ActionFinancial)))
  && (negb ((action ==? ActionToolCall) && (aq_Tool req !=? "")) || TaskAuthority_MayUseTool auth (aq_Tool req))
  && (negb (action ==? ActionDelegation)
      || (ta_CanDelegate auth
          && ((aq_TargetAgent req ==? "") || TaskAuthority_MayDelegateTo auth (aq_TargetAgent req)))).

Lemma Normalize_escalation a :
  ta_EscalationRequired (TaskAuthority_Normalize a) = ta_EscalationRequired a.
Proof. by apply authority_normalize_keeps. Qed.

Definition evaluated_risk (req : ActionRequest) : string :=
  if aq_RiskOverride req ==? "" then effective_risk (aq_Authority req) else aq_RiskOverride req.

Lemma request_risk_eq req :
  request_risk req (TaskAuthority_Normalize (aq_Authority req)) = evaluated_risk req.
Proof. unfold request_risk, evaluated_risk. by destruct (aq_RiskOverride req ==? "") eqn:E; rewrite ?E. Qed.

Lemma Normalize_may_use a t :
  TaskAuthority_MayUseTool (TaskAuthority_Normalize a) t = TaskAuthority_MayUseTool a t.
Proof. rewrite !MayUseTool_eq. by autorewrite with go. Qed.

Lemma Normalize_may_delegate a g :
  TaskAuthority_MayDelegateTo (TaskAuthority_Normalize a) g = TaskAuthority_MayDelegateTo a g.
Proof. rewrite !MayDelegateTo_eq. by autorewrite with go. Qed.

Lemma hard_gates_exact req :
  match checkHardGates req (TaskAuthority_Normalize (aq_Authority req)) with
  | None => gates_open req = true
  | Some d => gates_open req = false /\ gd_Verdict d = VerdictDeny
  end.
Proof.
  unfold checkHardGates, gates_open.
  rewrite Normalize_act, Normalize_delegate, Normalize_may_use, Normalize_may_delegate.
  generalize (aq_Action req ==? ActionPublish), (aq_Action req ==? ActionFinancial),
    (TaskAuthority_MayUseTool (aq_Authority req) (aq_Tool req)),
    (TaskAuthority_MayDelegateTo (aq_Authority req) (aq_TargetAgent req)).
  intros publish financial tool agent.
  destruct (aq_Action req ==? ActionDelegation) eqn:E.
  - bool_to_prop. rewrite E. change (ActionDelegation ==? ActionToolCall) with false. cbn [andb orb negb].
    destruct (ta_CanAct (aq_Authority req)), publish, financial; cbn [andb orb negb];
      try (split; reflexivity);
      destruct (ta_CanDelegate (aq_Authority req)), (aq_TargetAgent req ==? ""), agent; cbn;
      try (split; reflexivity); reflexivity.
  - destruct (ta_CanAct (aq_Authority req)), (aq_Action req ==? ActionToolCall), publish, financial;
      cbn [andb orb negb]; try (split; reflexivity); try reflexivity;
      destruct (aq_Tool req ==? ""), tool; cbn; try (split; reflexivity); reflexivity.
Qed.

(** A request is allowed exactly when its gates are open, no escalation is
    required and the matrix has "allow" for its mode and risk. *)
Lemma evaluate_allowed req e :
  Governance_Allowed (Governance_Evaluate req e)
  = gates_open req && negb (ta_EscalationRequired (aq_Authority req))
    && matrix_allows e (effective_mode (aq_Authority req)) (evaluated_risk req) (aq_Action req).
Proof.
  unfold Governance_Evaluate. rewrite request_risk_eq, Normalize_escalation.
  change (TaskAuthority_EffectiveAutonomyMode _ _) with (effective_mode (aq_Authority req)).
  pose proof (hard_gates_exact req) as H.
  destruct (checkHardGates _ _) as [d|].
  - destruct H as [-> Hd]. unfold Governance_Allowed. by rewrite Hd.
  - rewrite H. by destruct (ta_EscalationRequired (aq_Authority req)).
Qed.

Definition ranks_below (m n : string) : bool := default 3 (autonomyRank m) <=? default 3 (autonomyRank n).
Definition risks_below (r s : string) : bool := default 3 (riskRank r) <=? default 3 (riskRank s).

Lemma matrix_keys mode risk action :
  matrix_allows DefaultGovernancePolicy mode risk action = true ->
  In risk RiskClass_values /\ In action action_classes.
Proof.
  unfold matrix_allows, Governance_Lookup. intros Ha.
  destruct (DefaultGovernancePolicy !! (mode, risk, action)) as [v|] eqn:E; [|done].
  apply elem_of_list_to_map_2, list_elem_of_In, in_flat_map in E as (? & _ & E).
  apply in_flat_map in E as (? & ? & E). apply in_map_iff in E as (? & E & ?). by injection E as _ <- <- _.
Qed.

(** The default matrix is antitone in the mode and in the risk. *)
Lemma default_matrix_antitone m n r s action :
  In m AutonomyMode_values -> In n AutonomyMode_values ->
  In r RiskClass_values -> In s RiskClass_values -> ranks_below m n = true -> risks_below r s = true ->
  matrix_allows DefaultGovernancePolicy n s action = true ->
  matrix_allows DefaultGovernancePolicy m r action = true.
Proof.
  intros Hm Hn Hr Hs Hmn Hrs Ha.
  destruct (matrix_keys _ _ _ Ha) as [_ Hin].
  assert (forallb (fun a => forallb (fun m => forallb (fun n => forallb (fun r => forallb (fun s =>
      negb (ranks_below m n) || negb (risks_below r s) || negb (matrix_allows DefaultGovernancePolicy n s a)
      || matrix_allows DefaultGovernancePolicy m r a)
    RiskClass_values) RiskClass_values) AutonomyMode_values) AutonomyMode_values) action_classes = true) as H
    by (vm_compute; reflexivity).
  rewrite forallb_forall in H; specialize (H action Hin).
  rewrite forallb_forall in H; specialize (H m Hm).
  rewrite forallb_forall in H; specialize (H n Hn).
  rewrite forallb_forall in H; specialize (H r Hr).
  rewrite forallb_forall in H; specialize (H s Hs).
  cbv beta in H. rewrite Hmn, Hrs, Ha in H. exact H.
Qed.

(** What a request needs of the allow lists. *)
Definition lists_monotone (action tool target : string) (x a : TaskAuthority) : Prop :=
  (action = ActionToolCall -> tool <> "" ->
   TaskAuthority_MayUseTool x tool = true -> TaskAuthority_MayUseTool a tool = true)
  /\ (action = ActionDelegation -> target <> "" ->
      TaskAuthority_MayDelegateTo x target = true -> TaskAuthority_MayDelegateTo a target = true).

Lemma gates_open_mono action tool target risk x a :
  stricter x a -> lists_monotone action tool target x a ->
  gates_open (mkActionRequest action tool target x risk) = true ->
  gates_open (mkActionRequest action tool target a risk) = true.
Proof.
  intros S [HT HG]. unfold gates_open; cbn.
  pose proof (st_act _ _ S). pose proof (st_delegate _ _ S).
  destruct (String.eqb_spec action ActionToolCall) as [Ea|Ea], (String.eqb_spec tool "") as [Et|Et],
    (String.eqb_spec action ActionDelegation) as [Ed|Ed], (String.eqb_spec target "") as [Eg|Eg]; cbn;
    rewrite ?andb_true_iff, ?orb_true_iff, ?andb_true_iff, ?orb_true_iff; intuition auto.
Qed.

(** Under the default policy, what a stricter authority may do the other may. *)
Lemma evaluate_mono action tool target risk x a :
  stricter x a -> lists_monotone action tool target x a ->
  Governance_Allowed (Governance_Evaluate (mkActionRequest action tool target x risk) DefaultGovernancePolicy) = true ->
  Governance_Allowed (Governance_Evaluate (mkActionRequest action tool target a risk) DefaultGovernancePolicy) = true.
Proof.
  intros S L. rewrite !evaluate_allowed, !andb_true_iff. cbn. intros [[Hg He] Hm].
  split_and!.
  - by apply (gates_open_mono action tool target risk x a).
  - destruct (ta_EscalationRequired a) eqn:E; [|done]. by rewrite (st_escalation _ _ S E) in He.
  - unfold evaluated_risk in *; cbn in *.
    assert (In risk RiskClass_values \/ (risk ==? "") = true) as Hr.
    { destruct (risk ==? "") eqn:E; [by right|left].
      by destruct (matrix_keys _ _ _ Hm). }
    assert (forall y, In (effective_mode y) AutonomyMode_values /\ In (effective_risk y) RiskClass_values) as K
      by (intros y; split; apply list_elem_of_In; [apply effective_mode_known|apply effective_risk_known]).
    destruct (K x), (K a).
    revert Hm. destruct (risk ==? "") eqn:E.
    + apply default_matrix_antitone; auto; apply Z.leb_le; [apply (st_mode _ _ S)|apply (st_risk _ _ S)].
    + destruct Hr as [Hr|]; [|done].
      apply default_matrix_antitone; auto; apply Z.leb_le; [apply (st_mode _ _ S)|done].
Qed.

Lemma may_delegate_mono agent depth x a :
  stricter x a ->
  (TaskAuthority_MayDelegateTo x agent = true -> TaskAuthority_MayDelegateTo a agent = true) ->
  (forall d, depth_ok (ta_MaxDelegationDepth x) d = true -> depth_ok (ta_MaxDelegationDepth a) d = true) ->
  0 <= ta_MaxDelegationDepth x ->
  ef_Allowed (MayDelegate x agent depth DefaultGovernancePolicy) = true ->
  ef_Allowed (MayDelegate a agent depth DefaultGovernancePolicy) = true.
Proof.
  intros S G P D. unfold MayDelegate.
  pose proof (evaluate_mono ActionDelegation "" agent "" x a S) as E.
  pose proof (st_delegate _ _ S) as C. specialize (P (depth + 1)). unfold depth_ok in P.
  destruct (ta_CanDelegate x); cbn [negb]; [|done]. rewrite C by done. cbn [negb].
  destruct (TaskAuthority_MayDelegateTo x agent) eqn:Ex; cbn [negb]; [|done]. rewrite G by done. cbn [negb].
  destruct ((0 <? ta_MaxDelegationDepth x) && (ta_MaxDelegationDepth x <=? depth)) eqn:X; [done|].
  assert ((0 <? ta_MaxDelegationDepth a) && (ta_MaxDelegationDepth a <=? depth) = false) as ->
    by (rewrite orb_true_iff, orb_true_iff in P; bool_to_prop; lia).
  destruct (Governance_Allowed (Governance_Evaluate (mkActionRequest _ _ _ x _) _)); [|done].
  rewrite E; [done|split; [done|auto]|done].
Qed.

Lemma may_use_mono tool x a :
  stricter x a -> (TaskAuthority_MayUseTool x tool = true -> TaskAuthority_MayUseTool a tool = true) ->
  ef_Allowed (MayUseTool x tool DefaultGovernancePolicy) = true ->
  ef_Allowed (MayUseTool a tool DefaultGovernancePolicy) = true.
Proof.
  intros S T. unfold MayUseTool, EvaluateToolCall.
  pose proof (evaluate_mono ActionToolCall tool "" (ClassifyToolRisk tool) x a S) as E.
  pose proof (st_act _ _ S) as C.
  destruct (ta_CanAct x); cbn [negb]; [|done]. rewrite C by done. cbn [negb].
  destruct (TaskAuthority_MayUseTool x tool) eqn:Ex; cbn [negb]; [|done]. rewrite T by done. cbn [negb].
  destruct (Governance_Allowed (Governance_Evaluate (mkActionRequest _ _ _ x _) _)); [|done].
  rewrite E; [done|split; [auto|done]|done].
Qed.

Definition routing_ok (m : string) : bool := negb (m ==? AutonomySupervised).
Definition config_ok (m : string) : bool := negb ((m ==? AutonomySupervised) || (m ==? AutonomyStepApproval)).

Lemma modes_antitone (f : string -> bool) m n :
  f = routing_ok \/ f = config_ok -> In m AutonomyMode_values -> In n AutonomyMode_values ->
  ranks_below m n = true -> f n = true -> f m = true.
Proof.
  intros Hf Hm Hn. destruct Hf as [-> | ->];
    destruct Hm as [<-|[<-|[<-|[<-|[]]]]], Hn as [<-|[<-|[<-|[<-|[]]]]]; by vm_compute.
Qed.

Lemma may_run_mono command x a :
  canonical_authority x -> canonical_authority a -> stricter x a ->
  ef_Allowed (MayRunCommand x command) = true -> ef_Allowed (MayRunCommand a command) = true.
Proof.
  intros Hx Ha S. unfold MayRunCommand, enforceRouting, enforceConfig.
  rewrite <- !canonical_mode by done.
  pose proof (st_act _ _ S) as C. pose proof (st_delegate _ _ S) as D.
  assert (forall f, f = routing_ok \/ f = config_ok -> f (effective_mode x) = true -> f (effective_mode a) = true) as M.
  { intros f Hf. apply modes_antitone; [done| | |apply Z.leb_le, (st_mode _ _ S)];
      apply list_elem_of_In, effective_mode_known. }
  pose proof (M routing_ok (or_introl eq_refl)) as M1. pose proof (M config_ok (or_intror eq_refl)) as M2.
  unfold routing_ok, config_ok in M1, M2.
  cbn [go_switch existsb].
  repeat match goal with |- context [ClassifyCommand command ==? ?c] =>
    destruct (ClassifyCommand command ==? c); cbn [orb] end; try done;
    (destruct (ta_CanAct x); cbn [negb]; [rewrite C by done; cbn [negb]|done]); try done.
  - destruct (command ==? "spawn"); cbn [andb].
    + destruct (ta_CanDelegate x); cbn [negb]; [rewrite D by done; cbn [negb]|done].
      destruct (effective_mode x ==? AutonomySupervised), (effective_mode a ==? AutonomySupervised); auto.
    + destruct (effective_mode x ==? AutonomySupervised), (effective_mode a ==? AutonomySupervised); auto.
  - destruct ((effective_mode x ==? AutonomySupervised) || (effective_mode x ==? AutonomyStepApproval)),
      ((effective_mode a ==? AutonomySupervised) || (effective_mode a ==? AutonomyStepApproval)); auto.
Qed.

(** C18: The effective authority of a chain opens no gate that a layer closes: under the
    default policy what the engines allow under the effective authority is allowed under
    the authority of every layer alone.  This holds for every slash command, and for
    every action that is no call of a named tool and no delegation to a named agent; for
    tools it holds if some tool is in the allow lists of all layers, for delegation, at
    any depth, if some agent is and no layer has a negative depth limit. *)
Theorem effective_authority_opens_no_gate first rest l :
  let layers := first :: rest in
  let eff := at_Effective (ResolveAuthority layers) in
  let own := TaskAuthority_Normalize (al_Authority l) in
  let e := DefaultGovernancePolicy in
  let common_tool := exists t, forallb (fun l => allow_ok (ta_AllowedTools (al_Authority l)) t) layers = true in
  let common_agent := exists g, forallb (fun l => allow_ok (ta_AllowedAgents (al_Authority l)) g) layers = true in
  In l layers ->
  (forall command, ef_Allowed (MayRunCommand eff command) = true -> ef_Allowed (MayRunCommand own command) = true)
  /\ (forall action tool target risk,
       (action = ActionToolCall -> tool <> "" -> common_tool) ->
       (action = ActionDelegation -> target <> "" -> common_agent) ->
       Governance_Allowed (Governance_Evaluate (mkActionRequest action tool target eff risk) e) = true ->
       Governance_Allowed (Governance_Evaluate (mkActionRequest action tool target own risk) e) = true)
  /\ (common_tool -> forall tool,
       ef_Allowed (MayUseTool eff tool e) = true -> ef_Allowed (MayUseTool own tool e) = true)
  /\ (common_agent -> forallb (fun l => 0 <=? ta_MaxDelegationDepth (al_Authority l)) layers = true ->
      forall agent depth,
        ef_Allowed (MayDelegate eff agent depth e) = true -> ef_Allowed (MayDelegate own agent depth e) = true).
Proof.
  cbv zeta. intros Hin.
  pose proof (effective_stricter first rest l Hin) as S.
  split_and!.
  - intros command. by apply may_run_mono; [apply effective_canonical|apply Normalize_canonical|].
  - intros action tool target risk Ht Hg. apply evaluate_mono; [done|]. split.
    + intros E Hne. destruct (Ht E Hne) as [t0 H]. by eapply effective_tool.
    + intros E Hne. destruct (Hg E Hne) as [g0 H]. by eapply effective_agent.
  - intros [t0 H] tool. apply may_use_mono; [done|]. by eapply effective_tool.
  - intros [g0 H] Hd agent depth. apply may_delegate_mono; [done|by eapply effective_agent| |].
    + intros d. by apply effective_depth.
    + by apply effective_depth_limit.
Qed.

Definition layer (source mode risk : string) : AuthorityLayer :=
  mkAuthorityLayer source source
    (mkTaskAuthority mode "" risk true true true false [] ["read"; "write"] [] 3 "").

Definition config_layer : AuthorityLayer := layer "config" AutonomyFull RiskClassLow.
Definition task_layer : AuthorityLayer := layer "task" " Step_Approval " RiskClassMedium.

Lemma effective_authority_opens_no_gate_witness :
  ef_Allowed (MayUseTool (at_Effective (ResolveAuthority [config_layer; task_layer])) "read"
                DefaultGovernancePolicy) = true
  /\ ef_Allowed (MayUseTool (TaskAuthority_Normalize (al_Authority task_layer)) "read"
                   DefaultGovernancePolicy) = true.
Proof.
  assert (ef_Allowed (MayUseTool (at_Effective (ResolveAuthority [config_layer; task_layer])) "read"
                DefaultGovernancePolicy) = true) as A by (vm_compute; reflexivity).
  split; [exact A|].
  refine (proj1 (proj2 (proj2 (effective_authority_opens_no_gate config_layer [task_layer] task_layer
    (or_intror (or_introl eq_refl))))) _ "read" A).
  exists "read". vm_compute. reflexivity.
Defined.

(** Narrowing is stricter than its layers together: a layer with full autonomy and
    high risk and one with plan approval and low risk both let a tool call through;
    their combination, plan approval at high risk, does not. *)
Example narrowing_is_stricter :
  let layers := [layer "a" AutonomyFull RiskClassHigh; layer "b" AutonomyPlanApproval RiskClassLow] in
  map (fun a => gd_Verdict (Governance_Evaluate (mkActionRequest ActionToolCall "read" "" a "")
                              DefaultGovernancePolicy))
    (at_Effective (ResolveAuthority layers) :: map al_Authority layers)
  = [VerdictRequireEscalation; VerdictAllow; VerdictAllow].
Proof. vm_compute. reflexivity. Qed.

(** ** Changes of the autonomy mode *)

Definition strictness (mode : string) : Z := default 3 (autonomyRank mode).

Lemma classify_ranks old new :
  classifyTransition old new
  = if strictness old <? strictness new then "tighten"
    else if strictness new <? strictness old then "loosen" else "same".
Proof. reflexivity. Qed.

Lemma transition_ok clock req c c' ev :
  Transition clock req c = (c', Ok ev) ->
  transition_error (ac_policy c) req = None
  /\ ac_events c' = ac_events c ++ [ev] /\ ac_policy c' = ac_policy c
  /\ ay_Scope ev = tq_Scope req /\ ay_OldMode ev = tq_OldMode req /\ ay_NewMode ev = tq_NewMode req
  /\ ay_Actor ev = tq_Actor req /\ ay_Reason ev = tq_Reason req.
Proof. unfold Transition. destruct (transition_error _ _) eqn:E; [done|]. intros [= <- <-]. by split_and!. Qed.

Lemma current_mode_app scope dflt c c' ev :
  ac_events c' = ac_events c ++ [ev] ->
  CurrentMode scope dflt c' = if ay_Scope ev ==? scope then ay_NewMode ev else CurrentMode scope dflt c.
Proof. intros E. unfold CurrentMode. by rewrite E, fold_left_app. Qed.

(** The checks of a transition under the default policy. *)
Lemma default_policy_checks req :
  transition_error DefaultTransitionPolicy req = None ->
  strictness (tq_OldMode req) <= strictness (tq_NewMode req)
  /\ AutonomyMode_Valid (tq_NewMode req) = true
  /\ blank (tq_Actor req) = false /\ blank (tq_Reason req) = false.
Proof.
  unfold transition_error. rewrite first_error_None, !Forall_cons. intros (A & _ & V & R & _ & L & _).
  rewrite !error_if_None in *. cbn in R. split_and!; [|by destruct (AutonomyMode_Valid _)|done|done].
  rewrite classify_ranks in L. destruct (Z.ltb_spec (strictness (tq_OldMode req)) (strictness (tq_NewMode req)));
    [lia|]. by destruct (Z.ltb_spec (strictness (tq_NewMode req)) (strictness (tq_OldMode req))); [|lia].
Qed.

Section Transitions.
Variable dflt : string -> string.

(** The change of a caller who names the current mode of the scope, taking the
    scope's own default where nothing was recorded yet. *)
Inductive truthful (c c' : AutonomyController) : Prop :=
| truthful_change clock req ev :
    tq_OldMode req = CurrentMode (tq_Scope req) (dflt (tq_Scope req)) c ->
    Transition clock req c = (c', Ok ev) -> truthful c c'.

(** Every event continues the log of its scope and loosens nothing. *)
Fixpoint log_tightens (mode : string -> string) (events : list AutonomyEvent) : Prop :=
  match events with
  | [] => True
  | ev :: rest =>
    ay_OldMode ev = mode (ay_Scope ev) /\ strictness (ay_OldMode ev) <= strictness (ay_NewMode ev)
    /\ AutonomyMode_Valid (ay_NewMode ev) = true
    /\ blank (ay_Actor ev) = false /\ blank (ay_Reason ev) = false
    /\ log_tightens (fun s => if ay_Scope ev ==? s then ay_NewMode ev else mode s) rest
  end.

Definition replay_modes (mode : string -> string) (events : list AutonomyEvent) (scope : string) : string :=
  fold_left (fun m e => if ay_Scope e ==? scope then ay_NewMode e else m) events (mode scope).

Lemma log_tightens_snoc mode events ev :
  log_tightens mode events ->
  ay_OldMode ev = replay_modes mode events (ay_Scope ev) ->
  strictness (ay_OldMode ev) <= strictness (ay_NewMode ev) -> AutonomyMode_Valid (ay_NewMode ev) = true ->
  blank (ay_Actor ev) = false -> blank (ay_Reason ev) = false ->
  log_tightens mode (events ++ [ev]).
Proof.
  revert mode. induction events as [|x events IH]; intros mode; cbn; [tauto|].
  intros (?&?&?&?&?&H). intros. split_and!; auto.
Qed.

Lemma log_tightens_strict mode events scope :
  log_tightens mode events -> strictness (mode scope) <= strictness (replay_modes mode events scope).
Proof.
  revert mode. induction events as [|x events IH]; intros mode; cbn; [lia|].
  intros (O & S & _ & _ & _ & H). specialize (IH _ H). unfold replay_modes in *. cbn in *.
  destruct (ay_Scope x ==? scope) eqn:E; [|done]. bool_to_prop. subst scope. rewrite <- O in *.
  etrans; [exact S|exact IH].
Qed.

(** A controller under the default policy only tightens: as long as callers name the
    current mode of the scope they change, the log is a chain in every scope, each
    of its events has an actor, a reason and a valid mode that is no looser than the
    one before, and so no scope is ever looser than it began. *)
Theorem default_policy_only_tightens c :
  rtc truthful (NewAutonomyController DefaultTransitionPolicy) c ->
  log_tightens dflt (Events c)
  /\ forall scope, strictness (dflt scope) <= strictness (CurrentMode scope (dflt scope) c).
Proof.
  intros H.
  assert (ac_policy c = DefaultTransitionPolicy /\ log_tightens dflt (ac_events c)) as [_ L].
  { revert c H. apply (rtc_ind_r (fun c => ac_policy c = DefaultTransitionPolicy
                                         /\ log_tightens dflt (ac_events c))); [done|].
    intros c c' _ [clock req ev Ho Hs] [P L].
    destruct (transition_ok _ _ _ _ _ Hs) as (Hc & Hv & Hp & E1 & E2 & E3 & E4 & E5).
    split; [by rewrite Hp|]. rewrite P in Hc. destruct (default_policy_checks _ Hc) as (?&?&?&?).
    rewrite Hv. apply log_tightens_snoc; rewrite ?E1, ?E2, ?E3, ?E4, ?E5; auto. }
  split; [done|]. intros scope. by apply log_tightens_strict.
Qed.

End Transitions.

Definition change (old new : string) : TransitionRequest :=
  mkTransitionRequest old new "operator" "incident" "config" 7 None.

Lemma default_policy_only_tightens_witness :
  let c := (Transition 0 (change AutonomyFull AutonomySupervised)
              (NewAutonomyController DefaultTransitionPolicy)).1 in
  strictness AutonomyFull <= strictness (CurrentMode "config" AutonomyFull c).
Proof.
  intros c. refine (proj2 (default_policy_only_tightens (fun _ => AutonomyFull) c _) "config").
  apply rtc_once. by eapply (truthful_change _ _ _ 0 (change AutonomyFull AutonomySupervised)).
Defined.

(** The controller takes the caller's word for the old mode: naming the loosest
    mode, a caller loosens a supervised scope although the policy forbids it. *)
Example untruthful_caller_loosens :
  let c := (Transition 0 (change AutonomyFull AutonomySupervised)
              (NewAutonomyController DefaultTransitionPolicy)).1 in
  CurrentMode "config" AutonomyFull (Transition 0 (change AutonomyFull AutonomyPlanApproval) c).1
  = AutonomyPlanApproval.
Proof. vm_compute. reflexivity. Qed.

(** A mode that differs from the constant by case or white space is valid but has
    the rank of an unknown one: full autonomy passes as the strictest mode. *)
Example misspelt_full_tightens :
  AutonomyMode_Valid " Full" = true /\ NormalizeAutonomyMode " Full" = AutonomyFull
  /\ TransitionDirection AutonomySupervised " Full" = "same"
  /\ TransitionDirection AutonomyStepApproval " Full" = "tighten".
Proof. split_and!; vm_compute; reflexivity. Qed.

(** ** What the engines let through *)

Definition full_authority (risk : string) : TaskAuthority :=
  mkTaskAuthority AutonomyFull "" risk true false true false [] [] [] 3 "".

(** The classification folds case, the test for "spawn" does not. *)
Example capital_spawn_skips_can_delegate :
  map (fun c => (ClassifyCommand c, ef_Allowed (MayRunCommand (full_authority RiskClassLow) c)))
    ["spawn"; "Spawn"] = [(CommandRouting, false); (CommandRouting, true)].
Proof. vm_compute. reflexivity. Qed.

(** The comment on the default policy has full autonomy escalate high risk and
    financial and publish actions approved from medium risk on. *)
Example full_mode_is_looser_than_documented :
  map (fun q => resolveDefaultVerdict AutonomyFull q.1 q.2)
    [(RiskClassHigh, ActionToolCall); (RiskClassMedium, ActionFinancial); (RiskClassMedium, ActionPublish)]
  = [VerdictAllow; VerdictAllow; VerdictAllow].
Proof. vm_compute. reflexivity. Qed.

(** The risk guessed from a tool's name replaces the risk of the authority, so a
    critical authority still uses tools. *)
Example tool_risk_replaces_authority_risk :
  let a := full_authority RiskClassCritical in
  gd_Verdict (Governance_Evaluate (mkActionRequest ActionToolCall "read_file" "" a "") DefaultGovernancePolicy)
  = VerdictRequireEscalation
  /\ ef_Allowed (MayUseTool a "read_file" DefaultGovernancePolicy) = true.
Proof. split; vm_compute; reflexivity. Qed.
