(* ===== verification/Feedback.v ===== *)
(** Feedback, proposals and retrospectives: store/state/models_feedback.go and
    internal/planner/feedback.go, proposal.go and retrospective.go.

    The collector, the proposal builder and the retrospective engine hold their
    mutex during the operations given here, which are therefore functions on their
    states; the clock is an argument.  Texts for people ([Format...], the icons)
    are left out, except those that become fields of a record. *)

From Stdlib Require Import String.
From stdpp Require Import base tactics decidable list gmap strings pretty.
From S2P Require Import Prelude Enums Verification Budget TaskModels Idempotency.

(** ** Feedback records *)

Definition FeedbackSourceOperator : string := "operator".
Definition FeedbackSourceVerification : string := "verification".
Definition FeedbackSourceReview : string := "review".
Definition FeedbackSourceAgent : string := "agent".
Definition FeedbackSourceSystem : string := "system".

Definition ValidFeedbackSource (s : string) : bool :=
  go_switch s [([FeedbackSourceOperator; FeedbackSourceVerification; FeedbackSourceReview; FeedbackSourceAgent; FeedbackSourceSystem], true)] false.

Arguments ValidFeedbackSource : simpl never.

Definition FeedbackSeverityInfo : string := "info".
Definition FeedbackSeverityWarning : string := "warning".
Definition FeedbackSeverityError : string := "error".
Definition FeedbackSeverityCritical : string := "critical".

Definition ValidFeedbackSeverity (s : string) : bool :=
  go_switch s [([FeedbackSeverityInfo; FeedbackSeverityWarning; FeedbackSeverityError; FeedbackSeverityCritical], true)] false.

Arguments ValidFeedbackSeverity : simpl never.

Definition FeedbackCategoryCorrectness : string := "correctness".
Definition FeedbackCategoryPerformance : string := "performance".
Definition FeedbackCategoryStyle : string := "style".
Definition FeedbackCategoryPolicy : string := "policy".
Definition FeedbackCategorySafety : string := "safety".
Definition FeedbackCategoryGeneral : string := "general".

Definition ValidFeedbackCategory (c : string) : bool :=
  go_switch c [([FeedbackCategoryCorrectness; FeedbackCategoryPerformance; FeedbackCategoryStyle; FeedbackCategoryPolicy; FeedbackCategorySafety; FeedbackCategoryGeneral], true)] false.

Arguments ValidFeedbackCategory : simpl never.

Record FeedbackRecord := mkFeedbackRecord {
  fr_Version : Z;
  fr_FeedbackID : string;
  fr_GoalID : string;
  fr_TaskID : string;
  fr_RunID : string;
  fr_StepID : string;
  fr_Source : string;
  fr_Severity : string;
  fr_Category : string;
  fr_Summary : string;
  fr_Detail : string;
  fr_Author : string;
  fr_SessionID : string;
  fr_CreatedAt : Z;
  fr_Meta : gomap any
}.

#[export] Instance set_fr_FeedbackID : Setter fr_FeedbackID := fun v r =>
  mkFeedbackRecord (fr_Version r) v (fr_GoalID r) (fr_TaskID r) (fr_RunID r) (fr_StepID r)
    (fr_Source r) (fr_Severity r) (fr_Category r) (fr_Summary r) (fr_Detail r) (fr_Author r)
    (fr_SessionID r) (fr_CreatedAt r) (fr_Meta r).
#[export] Instance set_fr_CreatedAt : Setter fr_CreatedAt := fun v r =>
  mkFeedbackRecord (fr_Version r) (fr_FeedbackID r) (fr_GoalID r) (fr_TaskID r) (fr_RunID r)
    (fr_StepID r) (fr_Source r) (fr_Severity r) (fr_Category r) (fr_Summary r) (fr_Detail r)
    (fr_Author r) (fr_SessionID r) v (fr_Meta r).

Definition FeedbackRecord_Normalize (f : FeedbackRecord) : FeedbackRecord :=
  mkFeedbackRecord
    (if fr_Version f =? 0 then 1 else fr_Version f)
    (TrimSpace (fr_FeedbackID f))
    (TrimSpace (fr_GoalID f)) (TrimSpace (fr_TaskID f)) (TrimSpace (fr_RunID f)) (TrimSpace (fr_StepID f))
    (if ValidFeedbackSource (fr_Source f) then fr_Source f else FeedbackSourceSystem)
    (if ValidFeedbackSeverity (fr_Severity f) then fr_Severity f else FeedbackSeverityInfo)
    (if ValidFeedbackCategory (fr_Category f) then fr_Category f else FeedbackCategoryGeneral)
    (TrimSpace (fr_Summary f)) (TrimSpace (fr_Detail f))
    (TrimSpace (fr_Author f)) (TrimSpace (fr_SessionID f))
    (fr_CreatedAt f) (fr_Meta f).

Definition FeedbackRecord_Validate (f : FeedbackRecord) : option error :=
  first_error
    [ error_if (blank (fr_FeedbackID f)) (Errorf "feedback_id is required" []);
      error_if (blank (fr_Summary f)) (Errorf "summary is required" []);
      error_if (negb (ValidFeedbackSource (fr_Source f))) (Errorf "invalid source %q" [ArgS (fr_Source f)]);
      error_if (negb (ValidFeedbackSeverity (fr_Severity f)))
        (Errorf "invalid severity %q" [ArgS (fr_Severity f)]);
      error_if (negb (ValidFeedbackCategory (fr_Category f)))
        (Errorf "invalid category %q" [ArgS (fr_Category f)]);
      error_if ((fr_GoalID f ==? "") && (fr_TaskID f ==? "") && (fr_RunID f ==? ""))
        (Errorf "at least one of goal_id, task_id, or run_id is required" []) ].

Definition FeedbackRecord_HasLinkage (f : FeedbackRecord) : bool :=
  (fr_GoalID f !=? "") || (fr_TaskID f !=? "") || (fr_RunID f !=? "").

(** ** The collector *)

Record FeedbackCollector := mkFeedbackCollector {
  fc_records : list FeedbackRecord;
  fc_nextID : Z;
  fc_prefix : string
}.

#[export] Instance set_fc_records : Setter fc_records := fun v r =>
  mkFeedbackCollector v (fc_nextID r) (fc_prefix r).
#[export] Instance set_fc_nextID : Setter fc_nextID := fun v r =>
  mkFeedbackCollector (fc_records r) v (fc_prefix r).

Definition NewFeedbackCollector (prefix : string) : FeedbackCollector :=
  mkFeedbackCollector [] 0 (if prefix ==? "" then "fb" else prefix).

Definition Feedback_generateID (c : FeedbackCollector) : FeedbackCollector * string :=
  let id := add64 (fc_nextID c) 1 in
  (c <| fc_nextID := id |>, fc_prefix c +:+ "-" +:+ pretty id).

Definition captureLocked (clock : Z) (rec : FeedbackRecord) (c : FeedbackCollector)
  : FeedbackCollector * FeedbackRecord :=
  let '(c, rec) :=
    if fr_FeedbackID rec ==? ""
    then let '(c, id) := Feedback_generateID c in (c, rec <| fr_FeedbackID := id |>) else (c, rec) in
  let rec := if fr_CreatedAt rec =? 0 then rec <| fr_CreatedAt := clock |> else rec in
  let rec := FeedbackRecord_Normalize rec in
  (c <| fc_records := fc_records c ++ [rec] |>, rec).

Definition Capture (clock : Z) (rec : FeedbackRecord) (c : FeedbackCollector)
  : FeedbackCollector * FeedbackRecord := captureLocked clock rec c.

Definition CaptureValidated (clock : Z) (rec : FeedbackRecord) (c : FeedbackCollector)
  : FeedbackCollector * result FeedbackRecord :=
  let '(c, rec) := captureLocked clock rec c in
  match FeedbackRecord_Validate rec with
  | Some err => (c <| fc_records := removelast (fc_records c) |>, Err (Wrapf "feedback validation: %w" [] err))
  | None => (c, Ok rec)
  end.

Definition Feedback_Count (c : FeedbackCollector) : Z := Z.of_nat (length (fc_records c)).
Definition FilterByTask (taskID : string) (c : FeedbackCollector) : list FeedbackRecord :=
  List.filter (fun r => fr_TaskID r ==? taskID) (fc_records c).
Definition FilterByRun (runID : string) (c : FeedbackCollector) : list FeedbackRecord :=
  List.filter (fun r => fr_RunID r ==? runID) (fc_records c).
Definition FilterByGoal (goalID : string) (c : FeedbackCollector) : list FeedbackRecord :=
  List.filter (fun r => fr_GoalID r ==? goalID) (fc_records c).

Definition severityOrder : list (list string * option Z) :=
  [([FeedbackSeverityInfo], Some 0); ([FeedbackSeverityWarning], Some 1);
   ([FeedbackSeverityError], Some 2); ([FeedbackSeverityCritical], Some 3)].
Definition severityRank (s : string) : Z := default 0 (go_switch s severityOrder None).

Definition FilterBySeverity (minSeverity : string) (c : FeedbackCollector) : list FeedbackRecord :=
  List.filter (fun r => severityRank minSeverity <=? severityRank (fr_Severity r)) (fc_records c).

(** The helpers return the zero record when the collector refuses theirs. *)
Definition zero_feedback : FeedbackRecord :=
  mkFeedbackRecord 0 "" "" "" "" "" "" "" "" "" "" "" "" 0 None.
Definition captured (r : FeedbackCollector * result FeedbackRecord) : FeedbackCollector * FeedbackRecord :=
  match r with (c, Ok rec) => (c, rec) | (c, Err _) => (c, zero_feedback) end.

Definition CaptureOperatorFeedback (clock : Z) (taskID runID goalID summary severity author : string)
    (c : FeedbackCollector) : FeedbackCollector * FeedbackRecord :=
  captured (CaptureValidated clock
    (mkFeedbackRecord 0 "" goalID taskID runID "" FeedbackSourceOperator severity FeedbackCategoryGeneral
       summary "" author "" 0 None) c).

Definition CaptureVerificationFailure (clock : Z) (taskID runID goalID checkID reason : string)
    (c : FeedbackCollector) : FeedbackCollector * FeedbackRecord :=
  captured (CaptureValidated clock
    (mkFeedbackRecord 0 "" goalID taskID runID "" FeedbackSourceVerification FeedbackSeverityError
       FeedbackCategoryCorrectness ("verification check " +:+ checkID +:+ " failed: " +:+ reason) "" "" ""
       0 (Some {["check_id" := VString checkID]})) c).

Definition CaptureReviewFeedback (clock : Z)
    (taskID runID goalID summary detail category severity reviewer : string)
    (c : FeedbackCollector) : FeedbackCollector * FeedbackRecord :=
  captured (CaptureValidated clock
    (mkFeedbackRecord 0 "" goalID taskID runID "" FeedbackSourceReview severity category summary detail
       reviewer "" 0 None) c).

(** ** Proposals *)

Definition ProposalKindPrompt : string := "prompt".
Definition ProposalKindPolicy : string := "policy".

Definition ValidProposalKind (k : string) : bool :=
  go_switch k [([ProposalKindPrompt; ProposalKindPolicy], true)] false.

Arguments ValidProposalKind : simpl never.

Definition ProposalStatusDraft : string := "draft".
Definition ProposalStatusPending : string := "pending".
Definition ProposalStatusApproved : string := "approved".
Definition ProposalStatusRejected : string := "rejected".
Definition ProposalStatusApplied : string := "applied".
Definition ProposalStatusReverted : string := "reverted".
Definition ProposalStatusSuperseded : string := "superseded".

Definition ValidProposalStatus (s : string) : bool :=
  go_switch s [([ProposalStatusDraft; ProposalStatusPending; ProposalStatusApproved; ProposalStatusRejected; ProposalStatusApplied; ProposalStatusReverted; ProposalStatusSuperseded], true)] false.

Arguments ValidProposalStatus : simpl never.

Definition IsProposalTerminal (s : string) : bool :=
  (s ==? ProposalStatusRejected) || (s ==? ProposalStatusReverted) || (s ==? ProposalStatusSuperseded).

Record PolicyProposal := mkPolicyProposal {
  pp_Version : Z;
  pp_ProposalID : string;
  pp_Kind : string;
  pp_Status : string;
  pp_Title : string;
  pp_Summary : string;
  pp_TargetField : string;
  pp_TargetAgent : string;
  pp_CurrentValue : string;
  pp_ProposedValue : string;
  pp_FeedbackIDs : list string;
  pp_EvidenceIDs : list string;
  pp_Rationale : string;
  pp_GoalID : string;
  pp_TaskID : string;
  pp_RunID : string;
  pp_CreatedBy : string;
  pp_ReviewedBy : string;
  pp_ReviewedAt : Z;
  pp_ReviewNote : string;
  pp_AppliedAt : Z;
  pp_AppliedBy : string;
  pp_RevertedAt : Z;
  pp_RevertedBy : string;
  pp_CreatedAt : Z;
  pp_UpdatedAt : Z;
  pp_Meta : gomap any
}.

#[export] Instance set_pp_Status : Setter pp_Status := fun v r =>
  mkPolicyProposal (pp_Version r) (pp_ProposalID r) (pp_Kind r) v (pp_Title r) (pp_Summary r)
    (pp_TargetField r) (pp_TargetAgent r) (pp_CurrentValue r) (pp_ProposedValue r)
    (pp_FeedbackIDs r) (pp_EvidenceIDs r) (pp_Rationale r) (pp_GoalID r) (pp_TaskID r)
    (pp_RunID r) (pp_CreatedBy r) (pp_ReviewedBy r) (pp_ReviewedAt r) (pp_ReviewNote r)
    (pp_AppliedAt r) (pp_AppliedBy r) (pp_RevertedAt r) (pp_RevertedBy r) (pp_CreatedAt r)
    (pp_UpdatedAt r) (pp_Meta r).
#[export] Instance set_pp_ReviewedBy : Setter pp_ReviewedBy := fun v r =>
  mkPolicyProposal (pp_Version r) (pp_ProposalID r) (pp_Kind r) (pp_Status r) (pp_Title r)
    (pp_Summary r) (pp_TargetField r) (pp_TargetAgent r) (pp_CurrentValue r) (pp_ProposedValue
    r) (pp_FeedbackIDs r) (pp_EvidenceIDs r) (pp_Rationale r) (pp_GoalID r) (pp_TaskID r)
    (pp_RunID r) (pp_CreatedBy r) v (pp_ReviewedAt r) (pp_ReviewNote r) (pp_AppliedAt r)
    (pp_AppliedBy r) (pp_RevertedAt r) (pp_RevertedBy r) (pp_CreatedAt r) (pp_UpdatedAt r)
    (pp_Meta r).
#[export] Instance set_pp_ReviewedAt : Setter pp_ReviewedAt := fun v r =>
  mkPolicyProposal (pp_Version r) (pp_ProposalID r) (pp_Kind r) (pp_Status r) (pp_Title r)
    (pp_Summary r) (pp_TargetField r) (pp_TargetAgent r) (pp_CurrentValue r) (pp_ProposedValue
    r) (pp_FeedbackIDs r) (pp_EvidenceIDs r) (pp_Rationale r) (pp_GoalID r) (pp_TaskID r)
    (pp_RunID r) (pp_CreatedBy r) (pp_ReviewedBy r) v (pp_ReviewNote r) (pp_AppliedAt r)
    (pp_AppliedBy r) (pp_RevertedAt r) (pp_RevertedBy r) (pp_CreatedAt r) (pp_UpdatedAt r)
    (pp_Meta r).
#[export] Instance set_pp_ReviewNote : Setter pp_ReviewNote := fun v r =>
  mkPolicyProposal (pp_Version r) (pp_ProposalID r) (pp_Kind r) (pp_Status r) (pp_Title r)
    (pp_Summary r) (pp_TargetField r) (pp_TargetAgent r) (pp_CurrentValue r) (pp_ProposedValue
    r) (pp_FeedbackIDs r) (pp_EvidenceIDs r) (pp_Rationale r) (pp_GoalID r) (pp_TaskID r)
    (pp_RunID r) (pp_CreatedBy r) (pp_ReviewedBy r) (pp_ReviewedAt r) v (pp_AppliedAt r)
    (pp_AppliedBy r) (pp_RevertedAt r) (pp_RevertedBy r) (pp_CreatedAt r) (pp_UpdatedAt r)
    (pp_Meta r).
#[export] Instance set_pp_AppliedAt : Setter pp_AppliedAt := fun v r =>
  mkPolicyProposal (pp_Version r) (pp_ProposalID r) (pp_Kind r) (pp_Status r) (pp_Title r)
    (pp_Summary r) (pp_TargetField r) (pp_TargetAgent r) (pp_CurrentValue r) (pp_ProposedValue
    r) (pp_FeedbackIDs r) (pp_EvidenceIDs r) (pp_Rationale r) (pp_GoalID r) (pp_TaskID r)
    (pp_RunID r) (pp_CreatedBy r) (pp_ReviewedBy r) (pp_ReviewedAt r) (pp_ReviewNote r) v
    (pp_AppliedBy r) (pp_RevertedAt r) (pp_RevertedBy r) (pp_CreatedAt r) (pp_UpdatedAt r)
    (pp_Meta r).
#[export] Instance set_pp_AppliedBy : Setter pp_AppliedBy := fun v r =>
  mkPolicyProposal (pp_Version r) (pp_ProposalID r) (pp_Kind r) (pp_Status r) (pp_Title r)
    (pp_Summary r) (pp_TargetField r) (pp_TargetAgent r) (pp_CurrentValue r) (pp_ProposedValue
    r) (pp_FeedbackIDs r) (pp_EvidenceIDs r) (pp_Rationale r) (pp_GoalID r) (pp_TaskID r)
    (pp_RunID r) (pp_CreatedBy r) (pp_ReviewedBy r) (pp_ReviewedAt r) (pp_ReviewNote r)
    (pp_AppliedAt r) v (pp_RevertedAt r) (pp_RevertedBy r) (pp_CreatedAt r) (pp_UpdatedAt r)
    (pp_Meta r).
#[export] Instance set_pp_RevertedAt : Setter pp_RevertedAt := fun v r =>
  mkPolicyProposal (pp_Version r) (pp_ProposalID r) (pp_Kind r) (pp_Status r) (pp_Title r)
    (pp_Summary r) (pp_TargetField r) (pp_TargetAgent r) (pp_CurrentValue r) (pp_ProposedValue
    r) (pp_FeedbackIDs r) (pp_EvidenceIDs r) (pp_Rationale r) (pp_GoalID r) (pp_TaskID r)
    (pp_RunID r) (pp_CreatedBy r) (pp_ReviewedBy r) (pp_ReviewedAt r) (pp_ReviewNote r)
    (pp_AppliedAt r) (pp_AppliedBy r) v (pp_RevertedBy r) (pp_CreatedAt r) (pp_UpdatedAt r)
    (pp_Meta r).
#[export] Instance set_pp_RevertedBy : Setter pp_RevertedBy := fun v r =>
  mkPolicyProposal (pp_Version r) (pp_ProposalID r) (pp_Kind r) (pp_Status r) (pp_Title r)
    (pp_Summary r) (pp_TargetField r) (pp_TargetAgent r) (pp_CurrentValue r) (pp_ProposedValue
    r) (pp_FeedbackIDs r) (pp_EvidenceIDs r) (pp_Rationale r) (pp_GoalID r) (pp_TaskID r)
    (pp_RunID r) (pp_CreatedBy r) (pp_ReviewedBy r) (pp_ReviewedAt r) (pp_ReviewNote r)
    (pp_AppliedAt r) (pp_AppliedBy r) (pp_RevertedAt r) v (pp_CreatedAt r) (pp_UpdatedAt r)
    (pp_Meta r).
#[export] Instance set_pp_UpdatedAt : Setter pp_UpdatedAt := fun v r =>
  mkPolicyProposal (pp_Version r) (pp_ProposalID r) (pp_Kind r) (pp_Status r) (pp_Title r)
    (pp_Summary r) (pp_TargetField r) (pp_TargetAgent r) (pp_CurrentValue r) (pp_ProposedValue
    r) (pp_FeedbackIDs r) (pp_EvidenceIDs r) (pp_Rationale r) (pp_GoalID r) (pp_TaskID r)
    (pp_RunID r) (pp_CreatedBy r) (pp_ReviewedBy r) (pp_ReviewedAt r) (pp_ReviewNote r)
    (pp_AppliedAt r) (pp_AppliedBy r) (pp_RevertedAt r) (pp_RevertedBy r) (pp_CreatedAt r) v
    (pp_Meta r).
#[export] Instance set_pp_Meta : Setter pp_Meta := fun v r =>
  mkPolicyProposal (pp_Version r) (pp_ProposalID r) (pp_Kind r) (pp_Status r) (pp_Title r)
    (pp_Summary r) (pp_TargetField r) (pp_TargetAgent r) (pp_CurrentValue r) (pp_ProposedValue
    r) (pp_FeedbackIDs r) (pp_EvidenceIDs r) (pp_Rationale r) (pp_GoalID r) (pp_TaskID r)
    (pp_RunID r) (pp_CreatedBy r) (pp_ReviewedBy r) (pp_ReviewedAt r) (pp_ReviewNote r)
    (pp_AppliedAt r) (pp_AppliedBy r) (pp_RevertedAt r) (pp_RevertedBy r) (pp_CreatedAt r)
    (pp_UpdatedAt r) v.

Definition PolicyProposal_Normalize (p : PolicyProposal) : PolicyProposal :=
  mkPolicyProposal
    (if pp_Version p =? 0 then 1 else pp_Version p)
    (TrimSpace (pp_ProposalID p)) (pp_Kind p)
    (if ValidProposalStatus (pp_Status p) then pp_Status p else ProposalStatusDraft)
    (TrimSpace (pp_Title p)) (TrimSpace (pp_Summary p))
    (TrimSpace (pp_TargetField p)) (TrimSpace (pp_TargetAgent p))
    (pp_CurrentValue p) (pp_ProposedValue p) (pp_FeedbackIDs p) (pp_EvidenceIDs p)
    (TrimSpace (pp_Rationale p)) (TrimSpace (pp_GoalID p)) (TrimSpace (pp_TaskID p)) (TrimSpace (pp_RunID p))
    (TrimSpace (pp_CreatedBy p)) (TrimSpace (pp_ReviewedBy p)) (pp_ReviewedAt p) (TrimSpace (pp_ReviewNote p))
    (pp_AppliedAt p) (pp_AppliedBy p) (pp_RevertedAt p) (pp_RevertedBy p)
    (pp_CreatedAt p) (pp_UpdatedAt p) (pp_Meta p).

Definition PolicyProposal_Validate (p : PolicyProposal) : option error :=
  first_error
    [ error_if (blank (pp_ProposalID p)) (Errorf "proposal_id is required" []);
      error_if (blank (pp_Title p)) (Errorf "title is required" []);
      error_if (blank (pp_ProposedValue p)) (Errorf "proposed_value is required" []);
      error_if (negb (ValidProposalKind (pp_Kind p))) (Errorf "invalid kind %q" [ArgS (pp_Kind p)]);
      error_if (negb (ValidProposalStatus (pp_Status p))) (Errorf "invalid status %q" [ArgS (pp_Status p)]);
      error_if (blank (pp_TargetField p)) (Errorf "target_field is required" []) ].

Definition PolicyProposal_HasProvenance (p : PolicyProposal) : bool :=
  negb (Nat.eqb (length (pp_FeedbackIDs p)) 0) || negb (Nat.eqb (length (pp_EvidenceIDs p)) 0)
  || (pp_Rationale p !=? "").

Record ProposalBuilder := mkProposalBuilder {
  pb_nextID : Z;
  pb_prefix : string
}.

#[export] Instance set_pb_nextID : Setter pb_nextID := fun v r =>
  mkProposalBuilder v (pb_prefix r).

Definition NewProposalBuilder (prefix : string) : ProposalBuilder :=
  mkProposalBuilder 0 (if prefix ==? "" then "prop" else prefix).

Definition Proposal_generateIDLocked (b : ProposalBuilder) : ProposalBuilder * string :=
  let id := add64 (pb_nextID b) 1 in
  (b <| pb_nextID := id |>, pb_prefix b +:+ "-" +:+ pretty id).

(** The first of the records that has the link. *)
Definition first_linkage (f : FeedbackRecord -> string) (feedback : list FeedbackRecord) : string :=
  fold_left (fun acc fb => if acc ==? "" then f fb else acc) feedback "".

Definition FromFeedback (clock : Z)
    (kind title targetField currentValue proposedValue rationale : string)
    (feedback : list FeedbackRecord) (b : ProposalBuilder) : ProposalBuilder * PolicyProposal :=
  let '(b, id) := Proposal_generateIDLocked b in
  (b, mkPolicyProposal 1 id kind ProposalStatusDraft title "" targetField "" currentValue proposedValue
        (map fr_FeedbackID feedback) [] rationale
        (first_linkage fr_GoalID feedback) (first_linkage fr_TaskID feedback)
        (first_linkage fr_RunID feedback) "" "" 0 "" 0 "" 0 "" clock 0 None).

Definition FromEvidence (clock : Z)
    (kind title targetField currentValue proposedValue rationale : string)
    (evidenceIDs : list string) (b : ProposalBuilder) : ProposalBuilder * PolicyProposal :=
  let '(b, id) := Proposal_generateIDLocked b in
  (b, mkPolicyProposal 1 id kind ProposalStatusDraft title "" targetField "" currentValue proposedValue
        [] evidenceIDs rationale "" "" "" "" "" 0 "" 0 "" 0 "" clock 0 None).

(** The operations of the lifecycle return the proposal, changed or not, and an
    error. *)

Definition SubmitForReview (p : PolicyProposal) (now : Z) : PolicyProposal * option error :=
  if pp_Status p !=? ProposalStatusDraft
  then (p, Some (Errorf "can only submit draft proposals, got %q" [ArgS (pp_Status p)]))
  else ((p <| pp_Status := ProposalStatusPending |>) <| pp_UpdatedAt := now |>, None).

Definition ApproveProposal (p : PolicyProposal) (reviewer note : string) (now : Z)
  : PolicyProposal * option error :=
  if pp_Status p !=? ProposalStatusPending
  then (p, Some (Errorf "can only approve pending proposals, got %q" [ArgS (pp_Status p)]))
  else if blank reviewer then (p, Some (Errorf "reviewer is required" []))
  else (((((p <| pp_Status := ProposalStatusApproved |>) <| pp_ReviewedBy := reviewer |>)
          <| pp_ReviewedAt := now |>) <| pp_ReviewNote := note |>) <| pp_UpdatedAt := now |>, None).

Definition RejectProposal (p : PolicyProposal) (reviewer reason : string) (now : Z)
  : PolicyProposal * option error :=
  if pp_Status p !=? ProposalStatusPending
  then (p, Some (Errorf "can only reject pending proposals, got %q" [ArgS (pp_Status p)]))
  else if blank reviewer then (p, Some (Errorf "reviewer is required" []))
  else if blank reason then (p, Some (Errorf "rejection reason is required" []))
  else (((((p <| pp_Status := ProposalStatusRejected |>) <| pp_ReviewedBy := reviewer |>)
          <| pp_ReviewedAt := now |>) <| pp_ReviewNote := reason |>) <| pp_UpdatedAt := now |>, None).

Definition MarkApplied (p : PolicyProposal) (appliedBy : string) (now : Z) : PolicyProposal * option error :=
  if pp_Status p !=? ProposalStatusApproved
  then (p, Some (Errorf "can only apply approved proposals, got %q" [ArgS (pp_Status p)]))
  else ((((p <| pp_Status := ProposalStatusApplied |>) <| pp_AppliedAt := now |>)
         <| pp_AppliedBy := appliedBy |>) <| pp_UpdatedAt := now |>, None).

Definition MarkReverted (p : PolicyProposal) (revertedBy : string) (now : Z) : PolicyProposal * option error :=
  if pp_Status p !=? ProposalStatusApplied
  then (p, Some (Errorf "can only revert applied proposals, got %q" [ArgS (pp_Status p)]))
  else ((((p <| pp_Status := ProposalStatusReverted |>) <| pp_RevertedAt := now |>)
         <| pp_RevertedBy := revertedBy |>) <| pp_UpdatedAt := now |>, None).

(** The proposal is passed by value but its metadata by reference: the note is
    written into the map of the caller's copy, unless that is nil.  The result is
    the caller's copy after the call, the returned proposal and the error. *)
Definition SupersedeProposal (p : PolicyProposal) (supersededBy : string) (now : Z)
  : PolicyProposal * PolicyProposal * option error :=
  if IsProposalTerminal (pp_Status p)
  then (p, p, Some (Errorf "cannot supersede terminal proposal (status=%q)" [ArgS (pp_Status p)]))
  else
    let meta := Some (<["superseded_by" := VString supersededBy]> (map_read (pp_Meta p))) in
    let caller := match pp_Meta p with None => p | Some _ => p <| pp_Meta := meta |> end in
    (caller,
     ((p <| pp_Status := ProposalStatusSuperseded |>) <| pp_Meta := meta |>) <| pp_UpdatedAt := now |>,
     None).

(** ** Retrospectives *)

Definition RetroTriggerRunCompleted : string := "run_completed".
Definition RetroTriggerRunFailed : string := "run_failed".
Definition RetroTriggerBudgetExhausted : string := "budget_exhausted".
Definition RetroTriggerVerifyFailed : string := "verification_failed".
Definition RetroTriggerOperator : string := "operator_requested".

Definition ValidRetroTrigger (t : string) : bool :=
  go_switch t [([RetroTriggerRunCompleted; RetroTriggerRunFailed; RetroTriggerBudgetExhausted; RetroTriggerVerifyFailed; RetroTriggerOperator], true)] false.

Arguments ValidRetroTrigger : simpl never.

Definition RetroOutcomeSuccess : string := "success".
Definition RetroOutcomePartial : string := "partial".
Definition RetroOutcomeFailure : string := "failure".

Definition ValidRetroOutcome (o : string) : bool :=
  go_switch o [([RetroOutcomeSuccess; RetroOutcomePartial; RetroOutcomeFailure], true)] false.

Arguments ValidRetroOutcome : simpl never.

Record Retrospective := mkRetrospective {
  rt_Version : Z;
  rt_RetroID : string;
  rt_GoalID : string;
  rt_TaskID : string;
  rt_RunID : string;
  rt_AgentID : string;
  rt_Trigger : string;
  rt_Outcome : string;
  rt_Summary : string;
  rt_WhatWorked : list string;
  rt_WhatFailed : list string;
  rt_Improvements : list string;
  rt_FeedbackIDs : list string;
  rt_ProposalIDs : list string;
  rt_Usage : TaskUsage;
  rt_DurationMS : Z;
  rt_CreatedAt : Z;
  rt_CreatedBy : string;
  rt_Meta : gomap any
}.


Definition Retrospective_Normalize (r : Retrospective) : Retrospective :=
  mkRetrospective (if rt_Version r =? 0 then 1 else rt_Version r)
    (TrimSpace (rt_RetroID r)) (TrimSpace (rt_GoalID r)) (TrimSpace (rt_TaskID r)) (TrimSpace (rt_RunID r))
    (TrimSpace (rt_AgentID r)) (rt_Trigger r) (rt_Outcome r) (TrimSpace (rt_Summary r))
    (rt_WhatWorked r) (rt_WhatFailed r) (rt_Improvements r) (rt_FeedbackIDs r) (rt_ProposalIDs r)
    (rt_Usage r) (rt_DurationMS r) (rt_CreatedAt r) (TrimSpace (rt_CreatedBy r)) (rt_Meta r).

Definition Retrospective_Validate (r : Retrospective) : option error :=
  first_error
    [ error_if (rt_RetroID r ==? "") (Errorf "retro_id is required" []);
      error_if (rt_Summary r ==? "") (Errorf "summary is required" []);
      error_if (negb (ValidRetroTrigger (rt_Trigger r))) (Errorf "invalid trigger %q" [ArgS (rt_Trigger r)]);
      error_if (negb (ValidRetroOutcome (rt_Outcome r))) (Errorf "invalid outcome %q" [ArgS (rt_Outcome r)]);
      error_if (rt_CreatedAt r <=? 0) (Errorf "created_at must be positive" []) ].

Definition Retrospective_HasLinkage (r : Retrospective) : bool :=
  (rt_GoalID r !=? "") || (rt_TaskID r !=? "") || (rt_RunID r !=? "").
Definition Retrospective_HasProposals (r : Retrospective) : bool :=
  negb (Nat.eqb (length (rt_ProposalIDs r)) 0).
Definition Retrospective_HasFeedback (r : Retrospective) : bool :=
  negb (Nat.eqb (length (rt_FeedbackIDs r)) 0).

Record RetroPolicy := mkRetroPolicy {
  rp_OnRunCompleted : bool;
  rp_OnRunFailed : bool;
  rp_OnBudgetExhausted : bool;
  rp_OnVerificationFailed : bool;
  rp_MinDurationMS : Z
}.


Definition DefaultRetroPolicy : RetroPolicy := mkRetroPolicy false true true true 0.
Definition AllRetroPolicy : RetroPolicy := mkRetroPolicy true true true true 0.

Definition isBudgetError (errStr : string) : bool :=
  let lower := ToLower errStr in
  Contains lower "budget" && (Contains lower "exhaust" || Contains lower "exceed").

Definition DetermineTrigger (run : TaskRun) : string :=
  go_switch (tr_Status run)
    [([TaskRunStatusCompleted],
      if VerificationSpec_AnyRequiredFailed (tr_Verification run) then RetroTriggerVerifyFailed
      else RetroTriggerRunCompleted);
     ([TaskRunStatusFailed],
      if isBudgetError (tr_Error run) then RetroTriggerBudgetExhausted
      else if VerificationSpec_AnyRequiredFailed (tr_Verification run) then RetroTriggerVerifyFailed
      else RetroTriggerRunFailed)] RetroTriggerRunFailed.

Definition ClassifyOutcome (run : TaskRun) : string :=
  go_switch (tr_Status run)
    [([TaskRunStatusCompleted],
      if VerificationSpec_AnyRequiredFailed (tr_Verification run) then RetroOutcomePartial
      else RetroOutcomeSuccess);
     ([TaskRunStatusFailed], RetroOutcomeFailure)] RetroOutcomeFailure.

(** The time between start and end, in seconds, as milliseconds. *)
Definition run_milliseconds (run : TaskRun) : Z := mul64 (sub64 (tr_EndedAt run) (tr_StartedAt run)) 1000.

Definition ShouldGenerate (policy : RetroPolicy) (run : TaskRun) : bool :=
  if (0 <? rp_MinDurationMS policy) && (0 <? tr_EndedAt run) && (0 <? tr_StartedAt run)
     && (run_milliseconds run <? rp_MinDurationMS policy)
  then false
  else go_switch (DetermineTrigger run)
    [([RetroTriggerRunCompleted], rp_OnRunCompleted policy);
     ([RetroTriggerRunFailed], rp_OnRunFailed policy);
     ([RetroTriggerBudgetExhausted], rp_OnBudgetExhausted policy);
     ([RetroTriggerVerifyFailed], rp_OnVerificationFailed policy)] false.

Record RetroInput := mkRetroInput {
  ri_Run : TaskRun;
  ri_Feedback : list FeedbackRecord;
  ri_Proposals : list PolicyProposal;
  ri_WhatWorked : list string;
  ri_WhatFailed : list string;
  ri_Improvements : list string
}.

Record RetrospectiveEngine := mkRetrospectiveEngine {
  re_nextID : Z;
  re_prefix : string
}.


Definition NewRetrospectiveEngine (prefix : string) : RetrospectiveEngine :=
  mkRetrospectiveEngine 0 (if prefix ==? "" then "retro" else prefix).

Definition Retro_generateID (e : RetrospectiveEngine) : RetrospectiveEngine * string :=
  let id := add64 (re_nextID e) 1 in
  (mkRetrospectiveEngine id (re_prefix e), re_prefix e +:+ "-" +:+ pretty id).

Definition truncateStr (s : string) (max : nat) : string :=
  if Nat.leb (String.length s) max then s else String.substring 0 (max - 3) s +:+ "...".

Definition count_checks (status : string) (run : TaskRun) : Z :=
  Z.of_nat (length (List.filter (fun c => vc_Status c ==? status) (vs_Checks (tr_Verification run)))).

(** [if cond { out = append(out, text) }] *)
Definition note_if (cond : bool) (text : string) : list string := if cond then [text] else [].

Definition deriveFromRun (run : TaskRun) (feedback : list FeedbackRecord) : list string * list string :=
  let passed := count_checks VerificationStatusPassed run in
  let failed := count_checks VerificationStatusFailed run in
  (note_if (tr_Status run ==? TaskRunStatusCompleted) "Run completed successfully"
   ++ note_if (0 <? tu_TotalTokens (tr_Usage run))
        ("Used " +:+ pretty (tu_TotalTokens (tr_Usage run)) +:+ " total tokens")
   ++ note_if (0 <? passed) (pretty passed +:+ " verification check(s) passed"),
   note_if (tr_Status run ==? TaskRunStatusFailed)
     (if tr_Error run !=? "" then "Run failed" +:+ ": " +:+ truncateStr (tr_Error run) 120 else "Run failed")
   ++ note_if (0 <? failed) (pretty failed +:+ " verification check(s) failed")
   ++ map (fun fb => truncateStr (fr_Summary fb) 100)
        (List.filter (fun fb => (fr_Severity fb ==? FeedbackSeverityError)
                                || (fr_Severity fb ==? FeedbackSeverityCritical)) feedback)).

Definition deriveImprovements (feedback : list FeedbackRecord) (proposals : list PolicyProposal)
  : list string :=
  map (fun p => "Proposal: " +:+ truncateStr (pp_Title p) 100)
    (List.filter (fun p => pp_Title p !=? "") proposals)
  ++ map (fun fb => "Review: " +:+ truncateStr (fr_Detail fb) 100)
       (List.filter (fun fb => (fr_Source fb ==? FeedbackSourceReview) && (fr_Detail fb !=? "")) feedback).

Definition buildSummary (run : TaskRun) (trigger outcome : string) : string :=
  "Retrospective for run " +:+ tr_RunID run
  +:+ (if tr_TaskID run !=? "" then " (task " +:+ tr_TaskID run +:+ ")" else "")
  +:+ ": " +:+ outcome
  +:+ go_switch trigger
        [([RetroTriggerBudgetExhausted], " — budget exhausted");
         ([RetroTriggerVerifyFailed], " — verification failed");
         ([RetroTriggerRunFailed],
          if tr_Error run !=? "" then " — " +:+ truncateStr (tr_Error run) 80 else "")] "".

Definition retro_duration (run : TaskRun) : Z :=
  if 0 <? tu_WallClockMS (tr_Usage run) then tu_WallClockMS (tr_Usage run)
  else if (0 <? tr_EndedAt run) && (0 <? tr_StartedAt run) then run_milliseconds run else 0.

Definition Generate (clock : Z) (input : RetroInput) (now : Z) (e : RetrospectiveEngine)
  : RetrospectiveEngine * result Retrospective :=
  let now := if now <=? 0 then clock else now in
  let run := ri_Run input in
  let trigger := DetermineTrigger run in
  let outcome := ClassifyOutcome run in
  let feedbackIDs := List.filter (fun id => id !=? "") (map fr_FeedbackID (ri_Feedback input)) in
  let proposalIDs := List.filter (fun id => id !=? "") (map pp_ProposalID (ri_Proposals input)) in
  let '(whatWorked, whatFailed) :=
    if Nat.eqb (length (ri_WhatWorked input)) 0 && Nat.eqb (length (ri_WhatFailed input)) 0
    then deriveFromRun run (ri_Feedback input) else (ri_WhatWorked input, ri_WhatFailed input) in
  let improvements :=
    if Nat.eqb (length (ri_Improvements input)) 0
    then deriveImprovements (ri_Feedback input) (ri_Proposals input) else ri_Improvements input in
  let '(e, id) := Retro_generateID e in
  let retro := Retrospective_Normalize
    (mkRetrospective 1 id (tr_GoalID run) (tr_TaskID run) (tr_RunID run) (tr_AgentID run) trigger outcome
       (buildSummary run trigger outcome) whatWorked whatFailed improvements feedbackIDs proposalIDs
       (tr_Usage run) (retro_duration run) now "system" None) in
  match Retrospective_Validate retro with
  | Some err => (e, Err (Wrapf "generate retrospective: %w" [] err))
  | None => (e, Ok retro)
  end.

Definition isTerminalRun (run : TaskRun) : bool :=
  go_switch (tr_Status run)
    [([TaskRunStatusCompleted; TaskRunStatusFailed; TaskRunStatusCancelled], true)] false.

Definition GenerateValidated (clock : Z) (input : RetroInput) (now : Z) (e : RetrospectiveEngine)
  : RetrospectiveEngine * result Retrospective :=
  if negb (isTerminalRun (ri_Run input))
  then (e, Err (Errorf "run %s is not terminal (status=%s)"
                  [ArgS (tr_RunID (ri_Run input)); ArgS (tr_Status (ri_Run input))]))
  else Generate clock input now e.
