(* ===== verification/FeedbackProps.v ===== *)
(** Theorems on feedback, proposals and retrospectives: the life of a proposal
    refines an abstract review protocol, the collector holds what it validated, and
    every terminal run has a retrospective. *)

From Stdlib Require Import Ascii String.
From stdpp Require Import base tactics decidable list gmap strings pretty.
From S2P Require Import Prelude Enums Verification Budget TaskModels Idempotency Feedback.

(** ** The review protocol *)

Inductive review := Draft | Pending | Approved | Rejected | Applied | Reverted | Superseded.

Definition review_text (s : review) : string :=
  match s with
  | Draft => ProposalStatusDraft | Pending => ProposalStatusPending | Approved => ProposalStatusApproved
  | Rejected => ProposalStatusRejected | Applied => ProposalStatusApplied
  | Reverted => ProposalStatusReverted | Superseded => ProposalStatusSuperseded
  end.

(** The operations on a proposal, with their arguments. *)
Inductive proposal_op :=
  | Submit (now : Z)
  | Approve (reviewer note : string) (now : Z)
  | Reject (reviewer reason : string) (now : Z)
  | Apply (appliedBy : string) (now : Z)
  | RevertOp (revertedBy : string) (now : Z)
  | Supersede (supersededBy : string) (now : Z).

Definition run_op (o : proposal_op) (p : PolicyProposal) : PolicyProposal * option error :=
  match o with
  | Submit now => SubmitForReview p now
  | Approve r n now => ApproveProposal p r n now
  | Reject r n now => RejectProposal p r n now
  | Apply who now => MarkApplied p who now
  | RevertOp who now => MarkReverted p who now
  | Supersede who now => ((SupersedeProposal p who now).1.2, (SupersedeProposal p who now).2)
  end.

(** The protocol: the state of a proposal and who reviewed it, and what may happen to
    it.  A review is signed, and a rejection has a reason. *)
Definition protocol_step (o : proposal_op) (st : review * string) : option (review * string) :=
  match o, st.1 with
  | Submit _, Draft => Some (Pending, st.2)
  | Approve reviewer _ _, Pending => if blank reviewer then None else Some (Approved, reviewer)
  | Reject reviewer reason _, Pending =>
    if blank reviewer || blank reason then None else Some (Rejected, reviewer)
  | Apply _ _, Approved => Some (Applied, st.2)
  | RevertOp _ _, Applied => Some (Reverted, st.2)
  | Supersede _ _, (Draft | Pending | Approved | Applied) => Some (Superseded, st.2)
  | _, _ => None
  end.

(** Operations tried one after the other: what is there after each, and whether it was
    done. *)
Fixpoint protocol (ops : list proposal_op) (st : review * string) : list (review * string * bool) :=
  match ops with
  | [] => []
  | o :: ops =>
    match protocol_step o st with
    | Some st => (st, true) :: protocol ops st
    | None => (st, false) :: protocol ops st
    end
  end.

Fixpoint history (ops : list proposal_op) (p : PolicyProposal) : list (PolicyProposal * bool) :=
  match ops with
  | [] => []
  | o :: ops => let '(p, err) := run_op o p in (p, is_nil err) :: history ops p
  end.

(** The change and its provenance: all that is reviewed. *)
Definition content (p : PolicyProposal) :=
  (pp_ProposalID p, pp_Kind p, pp_Title p, pp_TargetField p, pp_TargetAgent p, pp_CurrentValue p,
   (pp_ProposedValue p, pp_FeedbackIDs p, pp_EvidenceIDs p, pp_Rationale p, pp_CreatedAt p)).

(** What a proposal shows of the state of the protocol. *)
Definition shows (p : PolicyProposal) : string * string := (pp_Status p, pp_ReviewedBy p).
Definition showing (st : review * string) : string * string := (review_text st.1, st.2).

(** An operation does what the protocol does; one that the protocol does not have is
    an error and changes nothing. *)
Lemma run_op_exact o p st :
  shows p = showing st ->
  match protocol_step o st with
  | Some st' => exists p', run_op o p = (p', None) /\ shows p' = showing st' /\ content p' = content p
  | None => exists e, run_op o p = (p, Some e)
  end.
Proof.
  destruct st as [s who]. intros [= Hs <-].
  destruct o; cbn; unfold SubmitForReview, ApproveProposal, RejectProposal, MarkApplied,
    MarkReverted, SupersedeProposal, IsProposalTerminal; rewrite Hs; destruct s; cbn;
    repeat match goal with |- context [if blank ?x then _ else _] => destruct (blank x) eqn:?; cbn end;
    try (eexists; reflexivity); eexists; (split; [reflexivity|]); split; done.
Qed.

(** C19: The operations on a proposal implement the review protocol.  Whatever operations
    are tried on a proposal, one after the other, exactly those are done that the protocol
    has from where the proposal then is, and after each the proposal shows the state and
    the reviewer that the protocol has; what is proposed stays as it was, with its
    provenance; and a rejected, reverted or superseded proposal never changes again. *)
Theorem proposal_life_refines_review ops p st :
  shows p = showing st ->
  map (fun pb => (shows pb.1, pb.2)) (history ops p) = map (fun sb => (showing sb.1, sb.2)) (protocol ops st)
  /\ Forall (fun pb => content pb.1 = content p) (history ops p)
  /\ (IsProposalTerminal (pp_Status p) = true -> Forall (fun pb => pb = (p, false)) (history ops p)).
Proof.
  intros Hs.
  assert (IsProposalTerminal (pp_Status p) = true -> forall o, protocol_step o st = None) as Hterm.
  { destruct st as [s who]. injection Hs as -> _. intros T o. destruct o, s; done. }
  revert p st Hs Hterm. induction ops as [|o ops IH]; intros p st Hs Hterm; cbn [history protocol]; [done|].
  pose proof (run_op_exact o p st Hs) as Ho. destruct (protocol_step o st) as [st'|] eqn:Est.
  - destruct Ho as (p' & -> & Hs' & Hc). cbn [is_nil].
    destruct (IH p' st' Hs') as (H1 & H2 & _).
    { destruct st' as [s' who]. injection Hs' as -> _. intros T o'. destruct o', s'; done. }
    split; [cbn; by rewrite H1, Hs'|]. split.
    + constructor; [done|]. eapply Forall_impl; [exact H2|]. cbn. intros x ->. done.
    + intros T. by rewrite Hterm in Est.
  - destruct Ho as [e ->]. cbn [is_nil]. destruct (IH p st Hs Hterm) as (H1 & H2 & H3).
    split; [cbn; by rewrite H1, Hs|]. split; [by constructor|]. intros T. constructor; [done|by apply H3].
Qed.

Definition draft : PolicyProposal :=
  (FromEvidence 7 ProposalKindPolicy "Raise limit" "turn_timeout_secs" "30" "60" "timeouts" ["run-1"]
     (NewProposalBuilder "")).2.

Lemma proposal_life_refines_review_witness :
  map (fun pb => (shows pb.1, pb.2))
    (history [Apply "bob" 8; Submit 8; Approve "  " "ok" 9; Approve "alice" "ok" 9; Submit 10; Apply "bob" 11;
              RevertOp "bob" 12; Supersede "prop-2" 13] draft)
  = [((ProposalStatusDraft, ""), false); ((ProposalStatusPending, ""), true); ((ProposalStatusPending, ""), false);
     ((ProposalStatusApproved, "alice"), true); ((ProposalStatusApproved, "alice"), false);
     ((ProposalStatusApplied, "alice"), true); ((ProposalStatusReverted, "alice"), true);
     ((ProposalStatusReverted, "alice"), false)].
Proof. rewrite (proj1 (proposal_life_refines_review _ draft (Draft, "") eq_refl)). reflexivity. Defined.

(** A superseded proposal was passed by value, but the note is written into the
    metadata that the caller's copy shares. *)
Example supersede_writes_the_callers_metadata :
  let p := draft <| pp_Meta := Some ∅ |> in
  let '(caller, returned, _) := SupersedeProposal p "prop-2" 9 in
  pp_Status caller = ProposalStatusDraft
  /\ map_read (pp_Meta caller) !! "superseded_by" = Some (VString "prop-2").
Proof. split; vm_compute; reflexivity. Qed.

(** ** The collector *)

Lemma known_or_default (valid : string -> bool) d s :
  valid d = true ->
  (if valid (if valid s then s else d) then if valid s then s else d else d) = if valid s then s else d.
Proof. intros H. by destruct (valid s) eqn:E; rewrite ?E, ?H. Qed.

Lemma feedback_normal_idem f : FeedbackRecord_Normalize (FeedbackRecord_Normalize f) = FeedbackRecord_Normalize f.
Proof.
  unfold FeedbackRecord_Normalize; cbn. autorewrite with go.
  rewrite !known_or_default by reflexivity. by destruct (fr_Version f =? 0) eqn:E; rewrite ?E.
Qed.

Definition sound_record (f : FeedbackRecord) : Prop :=
  FeedbackRecord_Validate f = None /\ FeedbackRecord_Normalize f = f.

Lemma capture_appends clock rec c :
  exists c' r, captureLocked clock rec c = (c', r)
    /\ fc_records c' = fc_records c ++ [r] /\ FeedbackRecord_Normalize r = r.
Proof.
  unfold captureLocked, Feedback_generateID.
  destruct (fr_FeedbackID rec ==? ""); cbn;
    (do 2 eexists; split; [reflexivity|]; split; [reflexivity|apply feedback_normal_idem]).
Qed.

(** The collector of validated feedback holds only sound records: whatever is
    captured, each record is normalised and valid, so it has an identifier, a
    summary, known source, severity and category and a link to a goal, task or run;
    a refused record leaves no trace in the list and a captured one is appended. *)
Theorem validated_feedback_is_sound clock rec c :
  Forall sound_record (fc_records c) ->
  let '(c', r) := CaptureValidated clock rec c in
  Forall sound_record (fc_records c')
  /\ match r with
     | Ok f => fc_records c' = fc_records c ++ [f] /\ FeedbackRecord_HasLinkage f = true
     | Err _ => fc_records c' = fc_records c
     end.
Proof.
  intros Hc. unfold CaptureValidated.
  destruct (capture_appends clock rec c) as (c' & r & -> & Hr & Hn).
  destruct (FeedbackRecord_Validate r) as [e|] eqn:V; cbn; rewrite Hr.
  - by rewrite removelast_last.
  - split; [by apply Forall_app; split; [|by repeat constructor]|]. split; [done|].
    unfold FeedbackRecord_Validate in V. rewrite first_error_None, !Forall_cons, error_if_None in V.
    destruct V as (_ & _ & _ & _ & _ & V & _). rewrite error_if_None in V.
    unfold FeedbackRecord_HasLinkage. by destruct (fr_GoalID r ==? ""), (fr_TaskID r ==? ""), (fr_RunID r ==? "").
Qed.

Definition feedback_note (summary taskID : string) : FeedbackRecord :=
  mkFeedbackRecord 0 "" "" taskID "" "" "operator" "warning" "style" summary "" "" "" 0 None.

Lemma validated_feedback_is_sound_witness :
  Forall sound_record (fc_records (CaptureValidated 7 (feedback_note " slow " "t1 ") (NewFeedbackCollector "")).1).
Proof.
  pose proof (validated_feedback_is_sound 7 (feedback_note " slow " "t1 ") (NewFeedbackCollector "")
                (List.Forall_nil _)) as H.
  destruct (CaptureValidated 7 (feedback_note " slow " "t1 ") (NewFeedbackCollector "")) as [c' r]. exact (proj1 H).
Defined.

(** The helpers are said to make valid records always; without a link they return
    an empty record and nothing is kept. *)
Example unlinked_feedback_is_dropped :
  let '(c, r) := CaptureOperatorFeedback 7 "" "" "" "too slow" FeedbackSeverityWarning "alice"
                   (NewFeedbackCollector "") in
  fc_records c = [] /\ r = zero_feedback.
Proof. split; vm_compute; reflexivity. Qed.

(** An identifier supplied by a caller can be the one that the collector makes next. *)
Example feedback_identifiers_collide :
  let c := (Capture 7 ((feedback_note "a" "t1") <| fr_FeedbackID := "fb-1" |>) (NewFeedbackCollector "")).1 in
  map fr_FeedbackID (fc_records (Capture 7 (feedback_note "b" "t1") c).1) = ["fb-1"; "fb-1"].
Proof. vm_compute. reflexivity. Qed.

(** ** Retrospectives *)

Lemma trim_front_keeps sp2 sp3 d l :
  is_space1 d = false -> (forall x, sp2 d x = false /\ sp2 x d = false) ->
  (forall x y, sp3 d x y = false /\ sp3 x d y = false /\ sp3 x y d = false) ->
  In d l -> In d (trim_front sp2 sp3 l).
Proof.
  intros H1 H2 H3. induction l as [l IH] using (induction_ltof1 _ (@length ascii)). intros Hin.
  destruct l as [|a [|b [|c l]]]; cbn in *; [done| | |].
  - destruct (is_space1 a) eqn:E; [|done]. destruct Hin as [->|[]]. congruence.
  - destruct (is_space1 a) eqn:E.
    { apply (IH [b]); [unfold ltof; cbn; lia|]. destruct Hin as [->|?]; [congruence|done]. }
    destruct (sp2 a b) eqn:E2; [|done].
    destruct Hin as [->|[->|[]]]; [by rewrite (proj1 (H2 b)) in E2|by rewrite (proj2 (H2 a)) in E2].
  - destruct (is_space1 a) eqn:E.
    { apply (IH (b :: c :: l)); [unfold ltof; cbn; lia|]. destruct Hin as [->|?]; [congruence|done]. }
    destruct (sp2 a b) eqn:E2.
    { apply (IH (c :: l)); [unfold ltof; cbn; lia|].
      destruct Hin as [->|[->|?]]; [by rewrite (proj1 (H2 b)) in E2|by rewrite (proj2 (H2 a)) in E2|done]. }
    destruct (sp3 a b c) eqn:E3; [|done]. apply IH; [unfold ltof; cbn; lia|].
    destruct Hin as [->|[->|[->|?]]]; [| | |done]; exfalso.
    + by rewrite (proj1 (H3 b c)) in E3.
    + by rewrite (proj1 (proj2 (H3 a c))) in E3.
    + by rewrite (proj2 (proj2 (H3 a b))) in E3.
Qed.

(** A string with an ASCII character other than white space is not blank. *)
Lemma blank_contains d s :
  is_space1 d = false -> (byte d < 128)%N -> In d (list_ascii_of_string s) -> blank s = false.
Proof.
  intros H1 Hd Hin.
  assert (forall n : N, (128 <= n)%N -> N.eqb (byte d) n = false) as Hn by (intros; apply N.eqb_neq; lia).
  assert (forall m : N, (128 <= m)%N -> N.leb m (byte d) = false) as Hm by (intros; apply N.leb_gt; lia).
  assert (In d (trim_right_bytes (trim_left_bytes (list_ascii_of_string s)))) as K.
  { unfold trim_right_bytes, trim_left_bytes. apply -> in_rev.
    apply trim_front_keeps; [done| | |apply -> in_rev; apply trim_front_keeps; [done| | |done]];
      intros; unfold is_space2, is_space3; rewrite ?Hn, ?Hm by done; repeat split; cbn;
      by rewrite ?andb_false_r, ?orb_false_r, ?andb_false_r. }
  unfold blank, TrimSpace. destruct (trim_right_bytes _) as [|a l]; [done|]. done.
Qed.

Definition run_succeeded (run : TaskRun) : bool :=
  (tr_Status run ==? TaskRunStatusCompleted) && negb (VerificationSpec_AnyRequiredFailed (tr_Verification run)).

Lemma outcome_cases run :
  ValidRetroTrigger (DetermineTrigger run) = true /\ ValidRetroOutcome (ClassifyOutcome run) = true
  /\ (ClassifyOutcome run ==? RetroOutcomeSuccess) = run_succeeded run
  /\ ShouldGenerate DefaultRetroPolicy run = negb (run_succeeded run).
Proof.
  unfold ShouldGenerate, ClassifyOutcome, run_succeeded. cbn [DefaultRetroPolicy rp_MinDurationMS Z.ltb Z.compare andb].
  unfold DetermineTrigger.
  generalize (VerificationSpec_AnyRequiredFailed (tr_Verification run)), (isBudgetError (tr_Error run)).
  intros failed budget. cbn [go_switch existsb orb].
  destruct (tr_Status run ==? TaskRunStatusCompleted); cbn [orb andb].
  - destruct failed; split_and!; reflexivity.
  - destruct (tr_Status run ==? TaskRunStatusFailed); cbn [orb andb]; [|split_and!; reflexivity].
    destruct budget, failed; split_and!; reflexivity.
Qed.

#[local] Arguments DetermineTrigger : simpl never.
#[local] Arguments ClassifyOutcome : simpl never.
#[local] Arguments ShouldGenerate : simpl never.
#[local] Arguments buildSummary : simpl never.

Lemma retro_id_not_blank e : blank (Retro_generateID e).2 = false.
Proof.
  cbn. apply (blank_contains "-"%char); [reflexivity|reflexivity|].
  induction (re_prefix e) as [|c s IH]; cbn; [by left|by right].
Qed.

(** Every terminal run has its retrospective: with a clock that has left zero the
    engine never refuses a completed, failed or cancelled run; the record is valid,
    names the run, and its outcome is success exactly for a completed run none of
    whose required checks failed, which are exactly the runs that the default policy
    passes over. *)
Theorem terminal_run_has_a_retrospective clock input now e :
  0 < clock -> isTerminalRun (ri_Run input) = true ->
  exists e' r, GenerateValidated clock input now e = (e', Ok r)
    /\ Retrospective_Validate r = None
    /\ rt_RunID r = TrimSpace (tr_RunID (ri_Run input))
    /\ (rt_Outcome r ==? RetroOutcomeSuccess) = run_succeeded (ri_Run input)
    /\ ShouldGenerate DefaultRetroPolicy (ri_Run input) = negb (rt_Outcome r ==? RetroOutcomeSuccess).
Proof.
  intros Hc Ht. unfold GenerateValidated, Generate. rewrite Ht. cbn [negb].
  destruct (if _ && _ then deriveFromRun _ _ else _) as [worked failed].
  pose proof (retro_id_not_blank e) as Hid. cbn in Hid. cbn [Retro_generateID].
  destruct (outcome_cases (ri_Run input)) as (T & O & S & P).
  match goal with |- context [Retrospective_Validate ?r] => assert (Retrospective_Validate r = None) as V end.
  { unfold Retrospective_Validate. apply first_error_None. cbn.
    rewrite T, O. unfold blank in Hid. rewrite Hid.
    assert (blank (buildSummary (ri_Run input) (DetermineTrigger (ri_Run input))
                     (ClassifyOutcome (ri_Run input))) = false) as Hs
      by (by apply (blank_nonspace "R"%char)).
    unfold blank in Hs. rewrite Hs. cbn.
    repeat constructor. apply error_if_None. destruct (Z.leb_spec now 0); apply Z.leb_gt; lia. }
  rewrite V. do 2 eexists. split; [reflexivity|]. cbn. split_and!; [done|done|by rewrite S|].
  by rewrite P, S.
Qed.

Definition failed_run : TaskRun :=
  mkTaskRun 1 "r1" "t1" "" "" "" "" 1 TaskRunStatusFailed 0 0 "" "" (mkTaskResultRef "" "" "" "")
    "Budget exceeded" zero_usage zero_verification [] None.

Lemma terminal_run_has_a_retrospective_witness :
  exists e' r, GenerateValidated 7 (mkRetroInput failed_run [] [] [] [] []) 0 (NewRetrospectiveEngine "") = (e', Ok r)
    /\ Retrospective_Validate r = None.
Proof.
  destruct (terminal_run_has_a_retrospective 7 (mkRetroInput failed_run [] [] [] [] []) 0
              (NewRetrospectiveEngine "")) as (e' & r & H & V & _); [reflexivity|reflexivity|].
  exists e', r. split; [exact H|exact V].
Defined.

(** A failure with "budget" and "exceed" in its text counts as an exhausted budget,
    a cancelled run as a failed one. *)
Example triggers :
  map DetermineTrigger [failed_run; failed_run <| tr_Status := TaskRunStatusCancelled |>]
  = [RetroTriggerBudgetExhausted; RetroTriggerRunFailed].
Proof. vm_compute. reflexivity. Qed.
