(* ===== verification/PolicyVersion.v ===== *)
(** Versions of prompts and policies: internal/planner/policy_version.go.

    A log holds its mutex during each operation, except [RevertToPrevious], which
    looks for the active version in one critical section and reverts in another;
    its two halves are [find_previous] and [Revert].  The registry hands out
    pointers to its logs, which are the keys of its map here.  Reasons are kept as
    formats with their arguments; the texts for people are left out. *)

From Stdlib Require Import String.
From stdpp Require Import base tactics decidable list gmap strings pretty.
From S2P Require Import Prelude Enums Governance Feedback.

Record PolicyVersion := mkPolicyVersion {
  pv_VersionID : string;
  pv_Sequence : Z;
  pv_Field : string;
  pv_AgentID : string;
  pv_Value : string;
  pv_PreviousID : string;
  pv_ProposalID : string;
  pv_AppliedBy : string;
  pv_Reason : error;
  pv_ApplyMode : string;
  pv_CreatedAt : Z;
  pv_Active : bool
}.

#[export] Instance set_pv_Active : Setter pv_Active := fun v r =>
  mkPolicyVersion (pv_VersionID r) (pv_Sequence r) (pv_Field r) (pv_AgentID r) (pv_Value r)
    (pv_PreviousID r) (pv_ProposalID r) (pv_AppliedBy r) (pv_Reason r) (pv_ApplyMode r)
    (pv_CreatedAt r) v.
Record PolicyVersionLog := mkPolicyVersionLog {
  pl_field : string;
  pl_agentID : string;
  pl_versions : list PolicyVersion;
  pl_activeID : string;
  pl_nextSeq : Z;
  pl_prefix : string
}.

#[export] Instance set_pl_versions : Setter pl_versions := fun v r =>
  mkPolicyVersionLog (pl_field r) (pl_agentID r) v (pl_activeID r) (pl_nextSeq r) (pl_prefix
    r).
#[export] Instance set_pl_activeID : Setter pl_activeID := fun v r =>
  mkPolicyVersionLog (pl_field r) (pl_agentID r) (pl_versions r) v (pl_nextSeq r) (pl_prefix
    r).
#[export] Instance set_pl_nextSeq : Setter pl_nextSeq := fun v r =>
  mkPolicyVersionLog (pl_field r) (pl_agentID r) (pl_versions r) (pl_activeID r) v (pl_prefix
    r).

Definition NewPolicyVersionLog (field agentID prefix : string) : PolicyVersionLog :=
  mkPolicyVersionLog field agentID [] "" 0 (if prefix ==? "" then "pv" else prefix).

Definition generateIDLocked (l : PolicyVersionLog) : PolicyVersionLog * string * Z :=
  let seq := add64 (pl_nextSeq l) 1 in
  (l <| pl_nextSeq := seq |>, pl_prefix l +:+ "-" +:+ pretty seq, seq).

Definition zero_version : PolicyVersion :=
  mkPolicyVersion "" 0 "" "" "" "" "" "" (Errorf "" []) "" 0 false.

(** The last active version. *)
Definition findActiveLocked (l : PolicyVersionLog) : PolicyVersion :=
  default zero_version (List.find pv_Active (rev (pl_versions l))).

Definition PolicyVersionLog_Current (l : PolicyVersionLog) : PolicyVersion := findActiveLocked l.

Definition Versions (l : PolicyVersionLog) : list PolicyVersion := pl_versions l.
Definition PolicyVersionLog_Len (l : PolicyVersionLog) : Z := Z.of_nat (length (pl_versions l)).

Definition GetByID (versionID : string) (l : PolicyVersionLog) : option PolicyVersion :=
  List.find (fun v => pv_VersionID v ==? versionID) (pl_versions l).

Definition deactivate (v : PolicyVersion) : PolicyVersion :=
  if pv_Active v then v <| pv_Active := false |> else v.

Definition deactivateCurrentLocked (l : PolicyVersionLog) : PolicyVersionLog :=
  (l <| pl_versions := map deactivate (pl_versions l) |>) <| pl_activeID := "" |>.

Definition classifyApplyMode (field : string) : string :=
  go_switch field
    [(["system_prompt"; "default_autonomy"; "dm.policy"; "relays.read"; "relays.write";
       "session"; "heartbeat"; "tts"; "secrets"; "memory_scope"; "enabled_tools"; "thinking_level";
       "turn_timeout_secs"; "max_context_tokens"], ApplyHot);
     (["default_model"; "providers"; "extensions"], ApplyRestart)] ApplyNextRun.

(** The common end of the three operations: deactivate the current version and
    append the new one as the active. *)
Definition append_version (value proposalID appliedBy : string) (reason : error) (now : Z)
    (l : PolicyVersionLog) : PolicyVersionLog * PolicyVersion :=
  let prevID := pl_activeID l in
  let '(l, id, seq) := generateIDLocked (deactivateCurrentLocked l) in
  let v := mkPolicyVersion id seq (pl_field l) (pl_agentID l) value prevID proposalID appliedBy reason
             (classifyApplyMode (pl_field l)) now true in
  ((l <| pl_versions := pl_versions l ++ [v] |>) <| pl_activeID := id |>, v).

Definition ApplyProposal (proposal : PolicyProposal) (appliedBy : string) (now : Z) (l : PolicyVersionLog)
  : PolicyVersionLog * result PolicyVersion :=
  if pp_Status proposal !=? ProposalStatusApproved
  then (l, Err (Errorf "can only apply approved proposals, got %q" [ArgS (pp_Status proposal)]))
  else if TrimSpace (pp_TargetField proposal) !=? pl_field l
  then (l, Err (Errorf "proposal targets %q, log tracks %q"
                  [ArgS (pp_TargetField proposal); ArgS (pl_field l)]))
  else
    let '(l, v) := append_version (pp_ProposedValue proposal) (pp_ProposalID proposal) appliedBy
      (Errorf "applied from proposal %s: %s" [ArgS (pp_ProposalID proposal); ArgS (pp_Title proposal)]) now l in
    (l, Ok v).

Definition ApplyDirect (value appliedBy : string) (reason : error) (now : Z) (l : PolicyVersionLog)
  : PolicyVersionLog * PolicyVersion := append_version value "" appliedBy reason now l.

Definition PolicyVersion_Revert (targetVersionID revertedBy : string) (reason : error) (now : Z)
    (l : PolicyVersionLog) : PolicyVersionLog * result PolicyVersion :=
  match GetByID targetVersionID l with
  | None => (l, Err (Errorf "version %q not found" [ArgS targetVersionID]))
  | Some target =>
    let '(l, v) := append_version (pv_Value target) "" revertedBy
      (Wrapf "reverted to %s: %s" [ArgS targetVersionID] reason) now l in
    (l, Ok v)
  end.

(** The first half of [RevertToPrevious]: the version to go back to. *)
Definition find_previous (l : PolicyVersionLog) : result string :=
  let cur := findActiveLocked l in
  if pv_VersionID cur ==? "" then Err (Errorf "no active version to revert from" [])
  else if pv_PreviousID cur ==? "" then Err (Errorf "no previous version to revert to" [])
  else Ok (pv_PreviousID cur).

(** [RevertToPrevious] when no other operation comes between its halves. *)
Definition RevertToPrevious (revertedBy : string) (reason : error) (now : Z) (l : PolicyVersionLog)
  : PolicyVersionLog * result PolicyVersion :=
  match find_previous l with
  | Err e => (l, Err e)
  | Ok id => PolicyVersion_Revert id revertedBy reason now l
  end.

(** ** The registry *)

Definition PolicyVersionRegistry : Type := gmap string PolicyVersionLog.
Definition NewPolicyVersionRegistry : PolicyVersionRegistry := ∅.

Definition logKey (field agentID : string) : string :=
  if agentID ==? "" then field else field +:+ ":" +:+ agentID.

Definition LogFor (field agentID : string) (r : PolicyVersionRegistry) : PolicyVersionRegistry * string :=
  let key := logKey field agentID in
  match r !! key with
  | Some _ => (r, key)
  | None => (<[key := NewPolicyVersionLog field agentID ("pv-" +:+ key)]> r, key)
  end.

Definition ActiveVersions (r : PolicyVersionRegistry) : list PolicyVersion :=
  List.filter (fun cur => pv_VersionID cur !=? "") (map (fun kv => PolicyVersionLog_Current kv.2) (map_to_list r)).

Definition AllLogs (r : PolicyVersionRegistry) : list string := (map_to_list r).*1.
