(* ===== verification/PolicyVersionProps.v ===== *)
(** Theorems on the versions of a policy field: a log is linear, with its last entry
    the only active one, and reverting restores the value that a version had. *)

From Stdlib Require Import String.
From stdpp Require Import base tactics decidable list gmap strings pretty.
From S2P Require Import Prelude Enums Governance Feedback PolicyVersion.

(** ** The invariant of a log *)

Definition entries (l : PolicyVersionLog) : Z := Z.of_nat (length (pl_versions l)).

Definition version_id (l : PolicyVersionLog) (n : Z) : string := pl_prefix l +:+ "-" +:+ pretty n.

(** The identifier of the [n]-th version, empty for the one before the first. *)
Definition id_or_none (l : PolicyVersionLog) (n : Z) : string :=
  if n =? 0 then "" else version_id l n.

Record linear (l : PolicyVersionLog) : Prop := {
  li_seq : pl_nextSeq l = entries l;
  li_active : pl_activeID l = id_or_none l (entries l);
  li_entry : forall i v, pl_versions l !! i = Some v ->
    let n := Z.of_nat i in
    pv_Sequence v = n + 1 /\ pv_VersionID v = version_id l (n + 1)
    /\ pv_PreviousID v = id_or_none l n /\ pv_Active v = (n + 1 =? entries l)
    /\ pv_Field v = pl_field l /\ pv_AgentID v = pl_agentID l
    /\ pv_ApplyMode v = classifyApplyMode (pl_field l)
}.

(** What stays of a log when it log_extends: everything but the active marks. *)
Definition log_extends (l l' : PolicyVersionLog) : Prop :=
  pl_field l' = pl_field l /\ pl_agentID l' = pl_agentID l /\ pl_prefix l' = pl_prefix l
  /\ map deactivate (pl_versions l) `prefix_of` map deactivate (pl_versions l').

Lemma deactivate_idem v : deactivate (deactivate v) = deactivate v.
Proof. unfold deactivate. by destruct (pv_Active v) eqn:E; cbn; rewrite ?E. Qed.

Lemma version_id_app s n l : pl_prefix l = s -> version_id l n = s +:+ "-" +:+ pretty n.
Proof. by intros <-. Qed.

Section Append.
Context (value proposalID appliedBy : string) (reason : error) (now : Z) (l : PolicyVersionLog).
Let l' : PolicyVersionLog := (append_version value proposalID appliedBy reason now l).1.
Let v : PolicyVersion := (append_version value proposalID appliedBy reason now l).2.

Lemma append_versions : pl_versions l' = map deactivate (pl_versions l) ++ [v].
Proof. reflexivity. Qed.

Lemma append_entries : entries l' = entries l + 1.
Proof. unfold entries. rewrite append_versions, length_app, length_map. cbn. lia. Qed.

Lemma append_extends : log_extends l l'.
Proof.
  split_and!; [done|done|done|]. rewrite append_versions, map_app, map_map.
  rewrite (map_ext _ _ deactivate_idem). by apply prefix_app_r.
Qed.

Lemma append_linear : linear l -> entries l' < 2 ^ 63 -> linear l'.
Proof.
  intros [Hs Ha He] Hb. rewrite append_entries in Hb.
  assert (0 <= entries l) by (unfold entries; lia).
  assert (add64 (pl_nextSeq l) 1 = entries l + 1) as Hn
    by (rewrite Hs; apply add64_small; unfold int64_range; lia).
  split.
  - rewrite append_entries. exact Hn.
  - rewrite append_entries. unfold id_or_none. destruct (Z.eqb_spec (entries l + 1) 0); [lia|].
    cbn. by rewrite Hn.
  - intros i w. rewrite append_versions, append_entries. intros [Hw|[Hi Hw]]%lookup_app_Some.
    + apply list_lookup_fmap_Some in Hw as (u & -> & Hu).
      destruct (He i u Hu) as (E1 & E2 & E3 & E4 & E5 & E6 & E7).
      apply lookup_lt_Some in Hu.
      unfold deactivate. destruct (pv_Active u) eqn:A; cbn; rewrite ?A;
        split_and!; try done; symmetry; apply Z.eqb_neq; unfold entries; lia.
    + rewrite length_map in Hi, Hw. apply list_lookup_singleton_Some in Hw as [Hw <-].
      assert (Z.of_nat i = entries l) as -> by (unfold entries; lia).
      cbn. rewrite Hn. split_and!; try done. symmetry. by apply Z.eqb_refl.
Qed.

Lemma append_current : PolicyVersionLog_Current l' = v.
Proof.
  unfold PolicyVersionLog_Current, findActiveLocked. rewrite append_versions, rev_app_distr. reflexivity.
Qed.

Lemma append_last : exists u, pl_versions l' !! length (pl_versions l) = Some u /\ PolicyVersionLog_Current l' = u.
Proof.
  exists v. split; [|apply append_current].
  by rewrite append_versions, lookup_app_r, length_map, Nat.sub_diag by (rewrite length_map; lia).
Qed.
End Append.

Lemma version_id_not_empty l n : (version_id l n ==? "") = false.
Proof. unfold version_id. by destruct (pl_prefix l). Qed.

(** Every operation that succeeds appends one version; one that fails changes
    nothing. *)
Inductive log_step (l l' : PolicyVersionLog) : Prop :=
  | step_direct value who reason now : l' = (ApplyDirect value who reason now l).1 -> log_step l l'
  | step_proposal p who now : l' = (ApplyProposal p who now l).1 -> log_step l l'
  | step_revert id who reason now : l' = (PolicyVersion_Revert id who reason now l).1 -> log_step l l'.

Lemma log_step_append l l' :
  log_step l l' -> l' = l \/ exists value pid who reason now,
    l' = (append_version value pid who reason now l).1.
Proof.
  intros [value who reason now -> |p who now -> |id who reason now ->].
  - right. by do 5 eexists.
  - unfold ApplyProposal. repeat case_if; auto.
    destruct (append_version _ _ _ _ _ _) as [l1 v] eqn:E. right. do 5 eexists. by rewrite E.
  - unfold PolicyVersion_Revert. destruct (GetByID id l); auto.
    destruct (append_version _ _ _ _ _ _) as [l1 v] eqn:E. right. do 5 eexists. by rewrite E.
Qed.

Lemma log_steps_linear f a p l :
  rtc log_step (NewPolicyVersionLog f a p) l -> entries l < 2 ^ 63 ->
  linear l /\ log_extends (NewPolicyVersionLog f a p) l.
Proof.
  revert l. apply (rtc_ind_r (fun l => entries l < 2 ^ 63 -> linear l /\ log_extends (NewPolicyVersionLog f a p) l)).
  - intros _. split; [|split_and!; done]. split; [done|done|]. intros i v Hv. cbn in Hv. by rewrite lookup_nil in Hv.
  - intros l l' _ Hs IH Hb. apply log_step_append in Hs as [->|(value & pid & who & reason & now & ->)]; [auto|].
    pose proof (append_entries value pid who reason now l) as Hl. rewrite Hl in Hb.
    destruct IH as [L G]; [lia|]. split; [apply append_linear; [done|by rewrite Hl]|].
    destruct (append_extends value pid who reason now l) as (?&?&?&?), G as (?&?&?&?).
    split_and!; try congruence. by etrans.
Qed.

Lemma version_id_inj l m n : version_id l m = version_id l n -> m = n.
Proof. unfold version_id. intros H. by apply (inj _), (inj _), (inj _) in H. Qed.

Lemma find_some_lookup {A} (f : A -> bool) (l : list A) x :
  List.find f l = Some x -> f x = true /\ exists i, l !! i = Some x.
Proof.
  intros [Hin Hf]%find_some. split; [done|]. by apply list_elem_of_lookup, list_elem_of_In.
Qed.

(** In a linear log an identifier finds its version. *)
Lemma linear_get l i v :
  linear l -> pl_versions l !! i = Some v -> GetByID (pv_VersionID v) l = Some v.
Proof.
  intros L Hi. unfold GetByID. destruct (List.find _ _) as [w|] eqn:F.
  - apply find_some_lookup in F as [Hw [j Hj]]. apply String.eqb_eq in Hw.
    destruct (li_entry l L i v Hi) as (_ & Ev & _), (li_entry l L j w Hj) as (_ & Ew & _).
    rewrite Ev, Ew in Hw. apply version_id_inj in Hw. assert (j = i) as -> by lia. congruence.
  - apply list_elem_of_lookup_2, list_elem_of_In in Hi.
    pose proof (List.find_none _ _ F v Hi) as H. cbn in H. by rewrite String.eqb_refl in H.
Qed.

(** C20: A version log is linear: whatever mixture of direct changes, proposals and
    reverts it has been through, its versions are numbered from 1 without gaps, each
    points to the one before it, the last one and no other is active and is what
    [Current] returns, and nothing that was recorded is lost or rewritten. *)
Theorem version_log_is_linear f a p l l' :
  rtc log_step (NewPolicyVersionLog f a p) l -> log_step l l' -> entries l' < 2 ^ 63 ->
  linear l' /\ log_extends l l' /\ last (pl_versions l') = (if entries l' =? 0 then None
                                                     else Some (PolicyVersionLog_Current l')).
Proof.
  intros Hr Hs Hb.
  destruct (log_steps_linear f a p l') as [L _]; [by eapply rtc_r|done|].
  split; [done|]. split.
  - apply log_step_append in Hs as [->|(value & pid & who & reason & now & ->)]; [by split_and!|].
    apply append_extends.
  - unfold PolicyVersionLog_Current, findActiveLocked. destruct L as [_ _ He].
    destruct (pl_versions l') as [|w ws _] eqn:E using rev_ind.
    { unfold entries. by rewrite E. }
    assert (pv_Active w = true) as A.
    { assert ((ws ++ [w]) !! length ws = Some w) as Hw by (by rewrite lookup_app_r, Nat.sub_diag by lia).
      destruct (He _ w Hw) as (_ & _ & _ & -> & _).
      unfold entries. rewrite E, length_app. cbn. apply Z.eqb_eq. lia. }
    rewrite last_snoc. destruct (Z.eqb_spec (entries l') 0) as [N|].
    { unfold entries in N. rewrite E, length_app in N. cbn in N. lia. }
    rewrite rev_app_distr. cbn. by rewrite A.
Qed.

Definition first_log : PolicyVersionLog := NewPolicyVersionLog "system_prompt" "" "".
Definition direct (value : string) (l : PolicyVersionLog) : PolicyVersionLog :=
  (ApplyDirect value "op" (Errorf "edit" []) 7 l).1.

Lemma version_log_is_linear_witness :
  linear (direct "b" (direct "a" first_log)).
Proof.
  refine (proj1 (version_log_is_linear "system_prompt" "" "" (direct "a" first_log)
    (direct "b" (direct "a" first_log)) _ _ _)).
  - apply rtc_once. by eapply step_direct.
  - by eapply step_direct.
  - vm_compute. reflexivity.
Defined.

(** Reverting restores: going back to any version of a log makes its value current
    again, in a new version that records the operator and the version it replaced;
    and undoing a change just made gives back the value from before the change. *)
Theorem revert_restores_the_value f a p l :
  rtc log_step (NewPolicyVersionLog f a p) l -> entries l + 2 < 2 ^ 63 ->
  (forall i v who reason now, pl_versions l !! i = Some v ->
     exists l' r, PolicyVersion_Revert (pv_VersionID v) who reason now l = (l', Ok r)
       /\ PolicyVersionLog_Current l' = r /\ pv_Value r = pv_Value v /\ pv_AppliedBy r = who
       /\ pv_PreviousID r = pl_activeID l)
  /\ (forall value who reason now who' reason' now', pl_versions l <> [] ->
     exists l' r, RevertToPrevious who' reason' now' (ApplyDirect value who reason now l).1 = (l', Ok r)
       /\ PolicyVersionLog_Current l' = r /\ pv_Value r = pv_Value (PolicyVersionLog_Current l)).
Proof.
  intros Hr Hb. destruct (log_steps_linear f a p l Hr) as [L _]; [lia|].
  assert (forall i v who reason now m, linear m -> pl_versions m !! i = Some v ->
     exists l' r, PolicyVersion_Revert (pv_VersionID v) who reason now m = (l', Ok r)
       /\ PolicyVersionLog_Current l' = r /\ pv_Value r = pv_Value v /\ pv_AppliedBy r = who
       /\ pv_PreviousID r = pl_activeID m) as R.
  { intros i v who reason now m Lm Hv. unfold PolicyVersion_Revert. rewrite (linear_get m i v Lm Hv).
    pose proof (append_current (pv_Value v) "" who (Wrapf "reverted to %s: %s" [ArgS (pv_VersionID v)] reason)
                  now m) as C.
    destruct (append_version _ _ _ _ _ _) as [l' r] eqn:E. cbn in C.
    exists l', r. split; [done|]. split; [done|]. by injection E as _ <-. }
  split; [intros; by eapply R|].
  intros value who reason now who' reason' now' Hne.
  destruct (pl_versions l) as [|w ws _] eqn:E using rev_ind; [done|]. clear Hne.
  unfold RevertToPrevious.
  set (m := (ApplyDirect value who reason now l).1).
  assert (linear m) as Lm by (apply append_linear; [done|rewrite append_entries; lia]).
  assert (entries l = Z.of_nat (length ws) + 1) as Hn by (unfold entries; rewrite E, length_app; cbn; lia).
  assert (pl_versions l !! length ws = Some w) as Hw by (by rewrite E, lookup_app_r, Nat.sub_diag by lia).
  destruct (li_entry l L _ w Hw) as (_ & Ew & _ & Aw & _).
  rewrite Hn, Z.eqb_refl in Aw.
  destruct (append_last value "" who reason now l) as (u & Hu & Hc). fold (ApplyDirect value who reason now l) in *.
  fold m in Hu, Hc.
  destruct (li_entry m Lm _ u Hu) as (_ & Eu & Pu & _).
  assert (find_previous m = Ok (pv_VersionID w)) as ->.
  { unfold find_previous. fold (PolicyVersionLog_Current m). rewrite Hc, Eu, Pu, Ew.
    rewrite version_id_not_empty. rewrite E, length_app. cbn [length].
    unfold id_or_none. destruct (Z.eqb_spec (Z.of_nat (length ws + 1)) 0); [lia|].
    rewrite version_id_not_empty. do 2 f_equal. lia. }
  destruct (R (length ws) (deactivate w) who' reason' now' m Lm) as (l' & r & H & C & V & _).
  { unfold m, ApplyDirect. rewrite append_versions, lookup_app_l, list_lookup_fmap, Hw
      by (rewrite length_map, E, length_app; cbn; lia). done. }
  assert (pv_VersionID (deactivate w) = pv_VersionID w /\ pv_Value (deactivate w) = pv_Value w) as [Hi Hv]
    by (unfold deactivate; by destruct (pv_Active w)).
  rewrite Hi in H. exists l', r. split_and!; [done|done|]. rewrite V, Hv. f_equal. symmetry.
  unfold PolicyVersionLog_Current, findActiveLocked. rewrite E, rev_app_distr. cbn. by rewrite Aw.
Qed.

Lemma revert_restores_the_value_witness :
  exists l' r, RevertToPrevious "op" (Errorf "undo" []) 9 (direct "b" (direct "a" first_log)) = (l', Ok r)
    /\ PolicyVersionLog_Current l' = r /\ pv_Value r = "a".
Proof.
  refine (proj2 (revert_restores_the_value "system_prompt" "" "" (direct "a" first_log) _ _)
            "b" "op" (Errorf "edit" []) 7 "op" (Errorf "undo" []) 9 _).
  - apply rtc_once. by eapply step_direct.
  - vm_compute. reflexivity.
  - done.
Defined.

(** ** What the log does not promise *)

(** A second step back goes forward: the reverting version points to the one it
    replaced. *)
Example second_revert_goes_forward :
  let back l := (RevertToPrevious "op" (Errorf "undo" []) 9 l).1 in
  let l := direct "c" (direct "b" (direct "a" first_log)) in
  map (fun l => pv_Value (PolicyVersionLog_Current l)) [l; back l; back (back l)] = ["c"; "b"; "c"].
Proof. vm_compute. reflexivity. Qed.

Definition agent_proposal : PolicyProposal :=
  mkPolicyProposal 1 "prop-1" ProposalKindPrompt ProposalStatusApproved "Tone" "" "system_prompt" "agent-a" ""
    "be brief" [] [] "" "" "" "" "" "alice" 5 "" 0 "" 0 "" 4 5 None.

(** A log takes a proposal for another agent, and takes it as often as it is asked:
    applying leaves the proposal approved. *)
Example proposal_for_another_agent_is_applied :
  let log := NewPolicyVersionLog "system_prompt" "agent-b" "" in
  let l1 := (ApplyProposal agent_proposal "op" 8 log).1 in
  let l2 := (ApplyProposal agent_proposal "op" 9 l1).1 in
  map pv_Value (Versions l2) = ["be brief"; "be brief"]
  /\ pv_AgentID (PolicyVersionLog_Current l2) = "agent-b" /\ pp_TargetAgent agent_proposal = "agent-a".
Proof. split_and!; vm_compute; reflexivity. Qed.

(** The key of the registry joins field and agent with a colon: a field with a colon
    shares the log of another field and agent. *)
Example registry_keys_collide :
  let r := (LogFor "relays" "read" NewPolicyVersionRegistry).1 in
  (LogFor "relays:read" "" r).1 = r /\ logKey "relays:read" "" = logKey "relays" "read".
Proof. split; vm_compute; reflexivity. Qed.

(** Between the halves of [RevertToPrevious] another change can come: it is undone
    together with the one that was to be. *)
Example change_during_revert_is_lost :
  let l := direct "b" (direct "a" first_log) in
  match find_previous l with
  | Ok id => pv_Value (PolicyVersionLog_Current
               (PolicyVersion_Revert id "op" (Errorf "undo" []) 9 (direct "urgent" l)).1) = "a"
  | Err _ => False
  end.
Proof. vm_compute. reflexivity. Qed.
