(* ===== verification/FloatOrder.v ===== *)
(** Facts on the doubles that the program compares: the strict order of the
    specification floats, and the numbers that are neither negative nor NaN. *)

From Stdlib Require Import ZArith Floats.SpecFloat Lia.
From stdpp Require Import base tactics decidable numbers.
From S2P Require Import Prelude Duration.

(** ** The order *)

(** Comparing two finite numbers of one sign is lexicographic, exponent first. *)
Definition finite_key (m : positive) (e : Z) : Z * Z := (e, Z.pos m).
Definition key_lt (a b : Z * Z) : Prop := a.1 < b.1 \/ a.1 = b.1 /\ a.2 < b.2.

Lemma finite_lt m1 e1 m2 e2 :
  SFltb (S754_finite false m1 e1) (S754_finite false m2 e2) = true
  <-> key_lt (finite_key m1 e1) (finite_key m2 e2).
Proof.
  unfold SFltb, key_lt. cbn. fold (Pos.compare m1 m2).
  destruct (Z.compare_spec e1 e2), (Pos.compare_spec m1 m2); split; intros; try done; lia.
Qed.

Lemma negative_lt m1 e1 m2 e2 :
  SFltb (S754_finite true m1 e1) (S754_finite true m2 e2) = true
  <-> key_lt (finite_key m2 e2) (finite_key m1 e1).
Proof.
  unfold SFltb, key_lt. cbn. fold (Pos.compare m1 m2).
  destruct (Z.compare_spec e1 e2), (Pos.compare_spec m1 m2); split; intros; try done; lia.
Qed.

Ltac destruct_signs := repeat match goal with s : bool |- _ => destruct s end.

Lemma SFltb_trans a b c : SFltb a b = true -> SFltb b c = true -> SFltb a c = true.
Proof.
  destruct a as [sa|sa| |sa ma ea], b as [sb|sb| |sb mb eb], c as [sc|sc| |sc mc ec];
    destruct_signs; try done; rewrite ?finite_lt, ?negative_lt; unfold key_lt; lia.
Qed.

Definition is_nan (a : float64) : bool := match a with S754_nan => true | _ => false end.

(** The order is a weak one on the numbers. *)
Lemma SFltb_weak a b x :
  is_nan x = false -> SFltb a b = true -> SFltb a x = false -> SFltb x b = true.
Proof.
  destruct a as [sa|sa| |sa ma ea], b as [sb|sb| |sb mb eb], x as [sx|sx| |sx mx ex]; intros N;
    destruct_signs; try done; rewrite <- ?not_true_iff_false, ?finite_lt, ?negative_lt; unfold key_lt; lia.
Qed.

Lemma SFltb_irrefl a : SFltb a a = false.
Proof.
  destruct a as [[]|[]| |[] m e]; try done; apply not_true_iff_false;
    rewrite ?finite_lt, ?negative_lt; unfold key_lt; lia.
Qed.

(** ** Numbers that are not negative *)

Definition plain (a : float64) : bool :=
  match a with
  | S754_zero s | S754_infinity s | S754_finite s _ _ => negb s
  | S754_nan => false
  end.

Lemma plain_not_nan a : plain a = true -> is_nan a = false.
Proof. by destruct a. Qed.

Lemma shr_1_nonneg r : 0 <= shr_m r -> 0 <= shr_m (shr_1 r).
Proof. destruct r as [[|[p|p|]|[p|p|]] b s]; cbn; lia. Qed.

Lemma iter_shr_nonneg n r : 0 <= shr_m r -> 0 <= shr_m (SpecFloat.iter_pos shr_1 n r).
Proof. revert r. induction n; intros r H; cbn; eauto using shr_1_nonneg. Qed.

Lemma shr_fexp_nonneg m e l : 0 <= m -> 0 <= shr_m (shr_fexp 53 1024 m e l).1.
Proof.
  intros H. unfold shr_fexp, shr.
  assert (0 <= shr_m (shr_record_of_loc m l)) as Hr by (destruct l as [|[]]; exact H).
  destruct (fexp _ _ _ - e); cbn; auto using iter_shr_nonneg.
Qed.

Lemma round_plain m e l : 0 <= m -> plain (binary_round_aux 53 1024 false m e l) = true.
Proof.
  intros H. unfold binary_round_aux.
  pose proof (shr_fexp_nonneg m e l H) as H1. destruct (shr_fexp 53 1024 m e l) as [r1 e1]. cbn in H1.
  set (m2 := round_nearest_even (shr_m r1) (loc_of_shr_record r1)).
  assert (0 <= m2) as H2.
  { unfold m2, round_nearest_even. destruct (loc_of_shr_record r1) as [|[]]; try lia. case_match; lia. }
  pose proof (shr_fexp_nonneg m2 e1 loc_Exact H2) as H3. destruct (shr_fexp 53 1024 m2 e1 loc_Exact) as [r2 e2].
  cbn in H3. destruct (shr_m r2); [done| |lia]. by case_match.
Qed.

Lemma normalize_plain m e : 0 <= m -> plain (binary_normalize 53 1024 m e false) = true.
Proof.
  intros H. destruct m as [|m|m]; [done| |lia]. cbn. unfold binary_round.
  destruct (shl_align _ _ _). apply round_plain. lia.
Qed.

Lemma add_plain a b : plain a = true -> plain b = true -> plain (SFadd 53 1024 a b) = true.
Proof.
  destruct a as [[]|[]| |[] ma ea], b as [[]|[]| |[] mb eb]; try done.
  intros _ _. cbn [SFadd cond_Zopp]. apply normalize_plain. lia.
Qed.

Lemma mul_plain a m e : plain a = true -> plain (mul_float64 a (S754_finite false m e)) = true.
Proof.
  destruct a as [[]|[]| |[] ma ea]; try done. intros _.
  cbn [mul_float64 SFmul xorb]. apply round_plain. lia.
Qed.
