(* ===== verification/PeerRouting.v ===== *)
(** Routing of tasks to peers: internal/planner/peer_routing.go.

    Scores are doubles, by the specification floats of the Standard Library.  Texts
    are kept as formats with their arguments; the score of a text is left out. *)

From Stdlib Require Import String Floats.SpecFloat.
From stdpp Require Import base tactics decidable list gmap strings.
From S2P Require Import Prelude Enums Duration Authority.

Record PeerCapability := mkPeerCapability {
  pc_AgentID : string;
  pc_Name : string;
  pc_Model : string;
  pc_ToolProfile : string;
  pc_EnabledTools : list string;
  pc_AutonomyMode : string;
  pc_CanDelegate : bool;
  pc_CanVerify : bool;
  pc_MaxTokens : Z;
  pc_MaxToolCalls : Z;
  pc_RiskClass : string;
  pc_Tags : list string;
  pc_Available : bool;
  pc_Meta : gomap any
}.

Record TaskRequirements := mkTaskRequirements {
  rq_RequiredTools : list string;
  rq_RequiredTags : list string;
  rq_MinAutonomy : string;
  rq_NeedsDelegation : bool;
  rq_NeedsVerification : bool;
  rq_MinTokenBudget : Z;
  rq_MinToolCallBudget : Z;
  rq_MaxRiskClass : string;
  rq_AllowedAgents : list string
}.


Definition HasTool (tool : string) (p : PeerCapability) : bool :=
  if Nat.eqb (length (pc_EnabledTools p)) 0 then true
  else existsb (fun t => t ==? tool) (pc_EnabledTools p).

Definition HasTag (tag : string) (p : PeerCapability) : bool :=
  let tag := ToLower (TrimSpace tag) in
  existsb (fun t => ToLower (TrimSpace t) ==? tag) (pc_Tags p).

Record RoutingDecision := mkRoutingDecision {
  rd_AgentID : string;
  rd_Eligible : bool;
  rd_Score : float64;
  rd_Reasons : list error;
  rd_Rejections : list error
}.

Record RoutingResult := mkRoutingResult {
  rr_Selected : option RoutingDecision;
  rr_Candidates : list RoutingDecision;
  rr_Explanation : error
}.


(** What one requirement adds to a decision: an entry of the rejections, which makes
    the peer ineligible, or of the reasons. *)
Inductive check_result :=
  | Reject (why : error)
  | Reason (why : error)
  | Silent.

Definition reject_if (cond : bool) (why : error) : check_result := if cond then Reject why else Silent.

Definition tool_check (peer : PeerCapability) (tool : string) : check_result :=
  if negb (HasTool tool peer) then Reject (Errorf "missing required tool %q" [ArgS tool])
  else Reason (Errorf "has tool %q" [ArgS tool]).

Definition tag_check (peer : PeerCapability) (tag : string) : check_result :=
  if negb (HasTag tag peer) then Reject (Errorf "missing required tag %q" [ArgS tag])
  else Reason (Errorf "has tag %q" [ArgS tag]).

(** A missing key of the rank maps reads as 0. *)
Definition autonomy_check (peer : PeerCapability) (reqs : TaskRequirements) : check_result :=
  if (rq_MinAutonomy reqs !=? "") && (pc_AutonomyMode peer !=? "") then
    let peerRank := default 0 (autonomyRank (pc_AutonomyMode peer)) in
    let reqRank := default 0 (autonomyRank (rq_MinAutonomy reqs)) in
    if reqRank <? peerRank
    then Reject (Errorf "autonomy %q below required %q"
                   [ArgS (pc_AutonomyMode peer); ArgS (rq_MinAutonomy reqs)])
    else Reason (Errorf "autonomy %q meets requirement" [ArgS (pc_AutonomyMode peer)])
  else Silent.

Definition budget_check (format : string) (required offered : Z) : check_result :=
  reject_if ((0 <? required) && (0 <? offered) && (offered <? required))
    (Errorf format [ArgZ offered; ArgZ required]).

Definition risk_check (peer : PeerCapability) (reqs : TaskRequirements) : check_result :=
  reject_if ((rq_MaxRiskClass reqs !=? "") && (pc_RiskClass peer !=? "")
             && (default 0 (riskRank (rq_MaxRiskClass reqs)) <? default 0 (riskRank (pc_RiskClass peer))))
    (Errorf "risk class %q exceeds max %q" [ArgS (pc_RiskClass peer); ArgS (rq_MaxRiskClass reqs)]).

Definition peer_checks (peer : PeerCapability) (reqs : TaskRequirements) : list check_result :=
  map (tool_check peer) (rq_RequiredTools reqs)
  ++ map (tag_check peer) (rq_RequiredTags reqs)
  ++ [ autonomy_check peer reqs;
       reject_if (rq_NeedsDelegation reqs && negb (pc_CanDelegate peer)) (Errorf "cannot delegate" []);
       reject_if (rq_NeedsVerification reqs && negb (pc_CanVerify peer)) (Errorf "cannot verify" []);
       budget_check "token budget %d below required %d" (rq_MinTokenBudget reqs) (pc_MaxTokens peer);
       budget_check "tool call budget %d below required %d" (rq_MinToolCallBudget reqs) (pc_MaxToolCalls peer);
       risk_check peer reqs ].

Definition rejections (cs : list check_result) : list error :=
  omap (fun c => match c with Reject e => Some e | _ => None end) cs.
Definition reasons (cs : list check_result) : list error :=
  omap (fun c => match c with Reason e => Some e | _ => None end) cs.

(** The doubles 0.1 and 0.05. *)
Definition float_0_1 : float64 := S754_finite false 7205759403792794 (-56).
Definition float_0_05 : float64 := S754_finite false 7205759403792794 (-57).
Definition add_float64 (a b : float64) : float64 := SFadd 53 1024 a b.

Definition bonus (cond : bool) (amount score : float64) : float64 :=
  if cond then add_float64 score amount else score.

Definition peer_score (peer : PeerCapability) (reqs : TaskRequirements) : float64 :=
  let score := bonus (pc_CanDelegate peer) float_0_1 (float64_of_int 1) in
  let score := bonus (pc_CanVerify peer) float_0_1 score in
  let score :=
    bonus ((0 <? pc_MaxTokens peer) && (0 <? rq_MinTokenBudget reqs)
           && SFltb (float64_of_int 2)
                (SFdiv 53 1024 (float64_of_int (pc_MaxTokens peer)) (float64_of_int (rq_MinTokenBudget reqs))))
      float_0_1 score in
  if negb (Nat.eqb (length (rq_RequiredTags reqs)) 0) then
    let matched := Z.of_nat (length (List.filter (fun tag => HasTag tag peer) (rq_RequiredTags reqs))) in
    add_float64 score (mul_float64 (float64_of_int matched) float_0_05)
  else score.

Definition evaluatePeer (peer : PeerCapability) (reqs : TaskRequirements) : RoutingDecision :=
  let rejected why := mkRoutingDecision (pc_AgentID peer) false (S754_zero false) [] [why] in
  if negb (pc_Available peer) then rejected (Errorf "peer not available" [])
  else if negb (Nat.eqb (length (rq_AllowedAgents reqs)) 0)
          && negb (existsb (fun a => a ==? pc_AgentID peer) (rq_AllowedAgents reqs))
  then rejected (Errorf "not in allowed_agents list" [])
  else
    let checks := peer_checks peer reqs in
    mkRoutingDecision (pc_AgentID peer) (Nat.eqb (length (rejections checks)) 0) (peer_score peer reqs)
      (reasons checks) (rejections checks).

(** The loop that keeps the first of the best. *)
Definition best_eligible (decisions : list RoutingDecision) : option RoutingDecision :=
  fold_left (fun best d =>
    if rd_Eligible d
       && match best with None => true | Some b => SFltb (rd_Score b) (rd_Score d) end
    then Some d else best) decisions None.

Definition RoutePeers (peers : list PeerCapability) (reqs : TaskRequirements) : RoutingResult :=
  let decisions := map (fun peer => evaluatePeer peer reqs) peers in
  let best := best_eligible decisions in
  mkRoutingResult best decisions
    match best with
    | Some d => Errorf "selected %s (score=%.2f)" [ArgS (rd_AgentID d)]
    | None => Errorf "no eligible peer found" []
    end.
