(* ===== verification/PeerRoutingProps.v ===== *)
(** Theorems on peer routing: the selected peer is the first of the best among those
    that meet the requirements, in the order of the doubles that score them. *)

From Stdlib Require Import String Floats.SpecFloat.
From stdpp Require Import base tactics decidable list gmap strings.
From S2P Require Import Prelude Enums Duration Authority FloatOrder PeerRouting.

(** ** Requirements *)

(** A rank, and 0 for a text that is none of the constants. *)
Definition rank0 (r : option Z) : Z := default 0 r.

(** What the requirements ask of a peer. *)
Record suitable (p : PeerCapability) (reqs : TaskRequirements) : Prop := {
  su_available : pc_Available p = true;
  su_agent : rq_AllowedAgents reqs = [] \/ pc_AgentID p ∈ rq_AllowedAgents reqs;
  su_tools : forall t, t ∈ rq_RequiredTools reqs -> pc_EnabledTools p = [] \/ t ∈ pc_EnabledTools p;
  su_tags : forall t, t ∈ rq_RequiredTags reqs ->
              exists u, u ∈ pc_Tags p /\ ToLower (TrimSpace u) = ToLower (TrimSpace t);
  su_autonomy : rq_MinAutonomy reqs = "" \/ pc_AutonomyMode p = ""
                \/ rank0 (autonomyRank (pc_AutonomyMode p)) <= rank0 (autonomyRank (rq_MinAutonomy reqs));
  su_delegate : rq_NeedsDelegation reqs = true -> pc_CanDelegate p = true;
  su_verify : rq_NeedsVerification reqs = true -> pc_CanVerify p = true;
  su_tokens : 0 < rq_MinTokenBudget reqs -> 0 < pc_MaxTokens p -> rq_MinTokenBudget reqs <= pc_MaxTokens p;
  su_calls : 0 < rq_MinToolCallBudget reqs -> 0 < pc_MaxToolCalls p ->
             rq_MinToolCallBudget reqs <= pc_MaxToolCalls p;
  su_risk : rq_MaxRiskClass reqs = "" \/ pc_RiskClass p = ""
            \/ rank0 (riskRank (pc_RiskClass p)) <= rank0 (riskRank (rq_MaxRiskClass reqs))
}.

Definition rejects (c : check_result) : bool := match c with Reject _ => true | _ => false end.

Lemma no_rejections cs : Nat.eqb (length (rejections cs)) 0 = true <-> Forall (fun c => rejects c = false) cs.
Proof.
  induction cs as [|[] cs IH]; cbn; rewrite ?Forall_cons; [by split|..]; cbn; [by split; intros; destruct_and?| |];
    by rewrite IH; split; [|intros [_ ?]].
Qed.

Lemma HasTool_iff p t : HasTool t p = true <-> pc_EnabledTools p = [] \/ t ∈ pc_EnabledTools p.
Proof.
  unfold HasTool. destruct (pc_EnabledTools p) as [|x l] eqn:E; cbn [length Nat.eqb]; [by split; [left|]|].
  rewrite (existsb_eqb (x :: l) t). split; [by right|by intros [|]].
Qed.

Lemma HasTag_iff p t :
  HasTag t p = true <-> exists u, u ∈ pc_Tags p /\ ToLower (TrimSpace u) = ToLower (TrimSpace t).
Proof.
  unfold HasTag. rewrite existsb_exists. split.
  - intros (u & Hu & E%String.eqb_eq). exists u. by rewrite list_elem_of_In.
  - intros (u & Hu & E). exists u. by rewrite <- list_elem_of_In, String.eqb_eq.
Qed.

Lemma reject_if_false c e : rejects (reject_if c e) = false <-> c = false.
Proof. by destruct c. Qed.

Lemma agent_allowed l a :
  negb (Nat.eqb (length l) 0) && negb (existsb (fun x => x ==? a) l) = false <-> l = [] \/ a ∈ l.
Proof.
  rewrite <- existsb_eqb. destruct l; cbn [length Nat.eqb negb andb]; [by split; [left|]|].
  destruct (existsb _ _); split; intros; try done; [by right|by destruct H].
Qed.

Lemma rank_check (a b : string) (r s : Z) :
  (a !=? "") && (b !=? "") && (r <? s) = false <-> a = "" \/ b = "" \/ s <= r.
Proof.
  destruct (String.eqb_spec a ""), (String.eqb_spec b ""), (Z.ltb_spec r s); cbn;
    (split; [intros; first [done|by left|by right; left|by right; right]
            |intros K; first [done|destruct K as [K|[K|K]]; first [done|lia]]]).
Qed.

Lemma budget_check_ok f r o : rejects (budget_check f r o) = false <-> (0 < r -> 0 < o -> r <= o).
Proof.
  unfold budget_check. rewrite reject_if_false.
  destruct (Z.ltb_spec 0 r), (Z.ltb_spec 0 o), (Z.ltb_spec o r); cbn; split; intros; try done; lia.
Qed.

(** A decision is "eligible" exactly for the peers that meet the requirements. *)
Lemma eligible_iff p reqs : rd_Eligible (evaluatePeer p reqs) = true <-> suitable p reqs.
Proof.
  unfold evaluatePeer. destruct (pc_Available p) eqn:A; cbn [negb]; [|split; [done|intros []; congruence]].
  destruct (negb _ && negb _) eqn:G.
  { split; [done|]. intros [_ H _ _ _ _ _ _ _ _]. apply agent_allowed in H. by rewrite G in H. }
  cbn [rd_Eligible]. rewrite no_rejections. unfold peer_checks.
  rewrite !Forall_app, !Forall_map, !Forall_cons, !Forall_forall. cbn [compose].
  apply agent_allowed in G. rewrite !reject_if_false, !budget_check_ok. unfold risk_check.
  rewrite reject_if_false, rank_check.
  assert (rejects (autonomy_check p reqs) = false <->
          rq_MinAutonomy reqs = "" \/ pc_AutonomyMode p = ""
          \/ rank0 (autonomyRank (pc_AutonomyMode p)) <= rank0 (autonomyRank (rq_MinAutonomy reqs))) as ->.
  { rewrite <- rank_check. unfold autonomy_check, rank0.
    destruct ((rq_MinAutonomy reqs !=? "") && (pc_AutonomyMode p !=? "")); [cbn; by case_if|done]. }
  split.
  - intros (T & K & M & D & V & B & C & R & _). split; try done.
    + intros t Ht. apply HasTool_iff. specialize (T t Ht). unfold tool_check in T. by destruct (HasTool t p).
    + intros t Ht. apply HasTag_iff. specialize (K t Ht). unfold tag_check in K. by destruct (HasTag t p).
    + intros N. rewrite N in D. by destruct (pc_CanDelegate p).
    + intros N. rewrite N in V. by destruct (pc_CanVerify p).
  - intros [_ _ T K M D V B C R]. split_and!; try done.
    + intros t Ht. unfold tool_check. by rewrite (proj2 (HasTool_iff p t)) by auto.
    + intros t Ht. unfold tag_check. by rewrite (proj2 (HasTag_iff p t)) by auto.
    + destruct (rq_NeedsDelegation reqs); [by rewrite D|done].
    + destruct (rq_NeedsVerification reqs); [by rewrite V|done].
    + by intros x Hx%elem_of_nil.
Qed.

(** ** The selection *)

Lemma score_plain p reqs : plain (peer_score p reqs) = true.
Proof.
  assert (forall c a s, plain a = true -> plain s = true -> plain (bonus c a s) = true) as B
    by (intros [] a s Ha Hs; [by apply add_plain|done]).
  unfold peer_score. cbv zeta.
  match goal with |- plain (if _ then add_float64 ?x _ else _) = true => assert (plain x = true) as H end.
  { repeat apply B; try reflexivity. }
  case_match; [|done]. apply add_plain; [done|]. apply mul_plain, normalize_plain. lia.
Qed.

Lemma evaluated_plain p reqs : plain (rd_Score (evaluatePeer p reqs)) = true.
Proof. unfold evaluatePeer. case_if; [done|]. case_if; [done|]. apply score_plain. Qed.

(** The first of the best of a list of decisions. *)
Definition first_best (ds : list RoutingDecision) (best : option RoutingDecision) : Prop :=
  match best with
  | None => forall j d, ds !! j = Some d -> rd_Eligible d = false
  | Some b => exists i, ds !! i = Some b /\ rd_Eligible b = true
      /\ forall j d, ds !! j = Some d -> rd_Eligible d = true ->
           SFltb (rd_Score b) (rd_Score d) = false
           /\ ((j < i)%nat -> SFltb (rd_Score d) (rd_Score b) = true)
  end.

Lemma best_eligible_snoc ds d :
  best_eligible (ds ++ [d])
  = if rd_Eligible d
       && match best_eligible ds with None => true | Some b => SFltb (rd_Score b) (rd_Score d) end
    then Some d else best_eligible ds.
Proof. unfold best_eligible. by rewrite fold_left_app. Qed.

Lemma lookup_snoc {A} (l : list A) x i y :
  (l ++ [x]) !! i = Some y <-> l !! i = Some y \/ i = length l /\ y = x.
Proof.
  rewrite lookup_app_Some. split.
  - intros [?|[Hi H]]; [by left|right]. apply list_lookup_singleton_Some in H as [? ->]. split; [lia|done].
  - intros [?|[-> ->]]; [by left|right]. by rewrite Nat.sub_diag.
Qed.

Lemma best_eligible_first ds :
  Forall (fun d => plain (rd_Score d) = true) ds -> first_best ds (best_eligible ds).
Proof.
  induction ds as [|d ds IH] using rev_ind; [by intros _ j d Hd; rewrite lookup_nil in Hd|].
  intros [Hp Hd]%Forall_app. specialize (IH Hp). apply Forall_cons in Hd as [Hd _].
  rewrite best_eligible_snoc. destruct (rd_Eligible d) eqn:E; cbn [andb].
  2:{ destruct (best_eligible ds) as [b|]; cbn in *.
      - destruct IH as (i & Hi & Eb & Hb). exists i. split_and!; [apply lookup_snoc; by left|done|].
        intros j x [Hx|[_ ->]]%lookup_snoc Ex; [by eapply Hb|congruence].
      - intros j x [Hx|[_ ->]]%lookup_snoc; [by eapply IH|done]. }
  destruct (best_eligible ds) as [b|]; cbn in IH.
  - destruct IH as (i & Hi & Eb & Hb). destruct (SFltb (rd_Score b) (rd_Score d)) eqn:L.
    + exists (length ds). split_and!; [apply lookup_snoc; by right|done|].
      intros j x [Hx|[-> ->]]%lookup_snoc Ex; [|split; [apply SFltb_irrefl|lia]].
      destruct (Hb j x Hx Ex) as [Hn _].
      assert (SFltb (rd_Score x) (rd_Score d) = true) as Hlt.
      { eapply SFltb_weak; [apply plain_not_nan|done|done].
        rewrite Forall_forall in Hp. by eapply Hp, list_elem_of_lookup_2. }
      split; [|done]. destruct (SFltb (rd_Score d) (rd_Score x)) eqn:G; [|done].
      pose proof (SFltb_trans _ _ _ Hlt G) as F. by rewrite SFltb_irrefl in F.
    + exists i. split_and!; [apply lookup_snoc; by left|done|].
      intros j x [Hx|[-> ->]]%lookup_snoc Ex; [by eapply Hb|]. split; [done|].
      apply lookup_lt_Some in Hi. lia.
  - exists (length ds). split_and!; [apply lookup_snoc; by right|done|].
    intros j x [Hx|[-> ->]]%lookup_snoc Ex; [by rewrite (IH j x Hx) in Ex|split; [apply SFltb_irrefl|lia]].
Qed.

(** Routing selects the first of the best: the selected decision is that of a peer that
    meets every requirement, no such peer scores higher, and those listed before it
    score strictly lower; nothing is selected exactly when no peer meets the
    requirements. *)
Theorem routing_selects_first_of_best peers reqs :
  match rr_Selected (RoutePeers peers reqs) with
  | None => forall j q, peers !! j = Some q -> ~ suitable q reqs
  | Some d => exists i p, peers !! i = Some p /\ d = evaluatePeer p reqs /\ suitable p reqs
      /\ forall j q, peers !! j = Some q -> suitable q reqs ->
           SFltb (rd_Score d) (peer_score q reqs) = false
           /\ ((j < i)%nat -> SFltb (peer_score q reqs) (rd_Score d) = true)
  end.
Proof.
  unfold RoutePeers. cbn [rr_Selected].
  pose proof (best_eligible_first (map (fun peer => evaluatePeer peer reqs) peers)) as H.
  unfold first_best in H.
  assert (forall j q, peers !! j = Some q ->
            map (fun peer => evaluatePeer peer reqs) peers !! j = Some (evaluatePeer q reqs)) as M
    by (intros j q Hq; rewrite list_lookup_fmap, Hq; done).
  assert (forall q, suitable q reqs -> rd_Score (evaluatePeer q reqs) = peer_score q reqs) as S.
  { intros q [A G _ _ _ _ _ _ _ _]. unfold evaluatePeer. rewrite A.
    apply agent_allowed in G. by rewrite G. }
  destruct (best_eligible _) as [d|].
  - destruct H as (i & Hi & Ed & Hb); [apply Forall_map, Forall_forall; intros; apply evaluated_plain|].
    apply list_lookup_fmap_Some in Hi as (p & -> & Hp).
    exists i, p. split_and!; [done|done|by apply eligible_iff|].
    intros j q Hq Sq. rewrite <- (S q Sq). apply Hb; [by apply M|by apply eligible_iff].
  - intros j q Hq Sq%eligible_iff. rewrite (H) with (j := j) in Sq; [done| |by apply M].
    apply Forall_map, Forall_forall. intros; apply evaluated_plain.
Qed.

(** ** Examples *)

Definition peer (id mode risk : string) (delegate : bool) : PeerCapability :=
  mkPeerCapability id "" "" "" [] mode delegate false 0 0 risk ["Reviewer "] true None.
Definition needs (mode risk : string) (tags : list string) : TaskRequirements :=
  mkTaskRequirements [] tags mode false false 0 0 risk [].

Example first_of_equals_is_selected :
  option_map rd_AgentID (rr_Selected (RoutePeers
    [peer "a" AutonomySupervised "" true; peer "b" AutonomyFull "" false; peer "c" AutonomyFull "" true;
     peer "d" AutonomyFull "" true] (needs AutonomyFull "" ["reviewer"]))) = Some "c".
Proof. vm_compute. reflexivity. Qed.

(** Elsewhere a mode or risk that is none of the constants counts as the strictest;
    here the missing key reads as 0, the most permissive mode and the lowest risk. *)
Example unknown_modes_and_risks_pass :
  map (fun p => rd_Eligible (evaluatePeer p (needs AutonomyFull RiskClassLow [])))
    [peer "a" AutonomySupervised RiskClassLow true; peer "b" "Supervised" RiskClassLow true;
     peer "c" AutonomyFull RiskClassCritical true; peer "d" AutonomyFull "CRITICAL" true]
  = [false; true; false; true].
Proof. vm_compute. reflexivity. Qed.


(** The score is documented to lie between 0 and 1. *)
Example score_exceeds_one :
  SFltb (float64_of_int 1) (rd_Score (evaluatePeer (peer "a" "" "" true) (needs "" "" []))) = true.
Proof. vm_compute. reflexivity. Qed.
