(* ===== verification/Replan.v ===== *)
(** Generating and revising plans: internal/planner/planner.go and replan.go, and the
    operation [Amend] of approval.go that calls them.

    The provider, which asks a language model, is a function from a turn to a text
    or an error, and the turn leaves out the constant system prompt; decoding JSON
    is a parameter, with the errors as texts.  The clock is read once per call.
    Loops over Go maps follow the order of [map_to_list]. *)

From Stdlib Require Import String.
From stdpp Require Import base tactics decidable list gmap strings pretty.
From S2P Require Import Prelude Enums Verification Budget TaskModels Plans Authority Idempotency Approval.

(** ** The planner *)

Record PlannerTurn := mkPlannerTurn {
  pt_SessionID : string;
  pt_TurnID : string;
  pt_UserText : string
}.

Record Planner := mkPlanner {
  pn_provider : option (PlannerTurn -> result string);
  pn_model : string
}.

Record PlanRequest := mkPlanRequest {
  pq_Goal : GoalSpec;
  pq_Context : string;
  pq_MaxSteps : Z;
  pq_SessionID : string
}.


(** One line of a prompt, and one that is left out when [cond] fails. *)
Definition line (text : string) : string := text +:+ newline.
Definition line_if (cond : bool) (text : string) : string := if cond then line text else "".
Definition some_items (l : list string) : bool := negb (Nat.eqb (length l) 0).

Definition buildPlannerPrompt (goal : GoalSpec) (extraContext : string) (maxSteps : Z) : string :=
  line "Generate a structured plan for the following goal." +:+ newline
  +:+ line ("Goal ID: " +:+ gs_GoalID goal) +:+ line ("Title: " +:+ gs_Title goal)
  +:+ line_if (gs_Instructions goal !=? "") ("Instructions: " +:+ gs_Instructions goal)
  +:+ line_if (some_items (gs_Constraints goal)) ("Constraints: " +:+ String.concat "; " (gs_Constraints goal))
  +:+ line_if (some_items (gs_SuccessCriteria goal))
        ("Success criteria: " +:+ String.concat "; " (gs_SuccessCriteria goal))
  +:+ line_if (gs_Priority goal !=? "") ("Priority: " +:+ gs_Priority goal)
  +:+ (if extraContext !=? "" then newline +:+ line "Additional context:" +:+ line extraContext else "")
  +:+ newline +:+ line ("Maximum steps: " +:+ pretty maxSteps)
  +:+ newline +:+ "Respond with the JSON plan only.".

(** ** Reading the answer *)

(** [strings.Index], [strings.LastIndex] and the slices [s[n:]], [s[:n]]. *)
Definition Index (s sub : string) : option nat := String.index 0 sub s.
Fixpoint LastIndex (s sub : string) : option nat :=
  match s with
  | "" => if String.prefix sub "" then Some 0%nat else None
  | String _ rest =>
    match LastIndex rest sub with
    | Some n => Some (S n)
    | None => if String.prefix sub s then Some 0%nat else None
    end
  end.
Definition slice_from (n : nat) (s : string) : string := String.substring n (String.length s - n) s.
Definition slice_to (n : nat) (s : string) : string := String.substring 0 n s.
Definition TrimPrefix (s prefix : string) : string :=
  if HasPrefix s prefix then slice_from (String.length prefix) s else s.

Definition fence : string := "```".

(** The text inside a markdown fence that comes before any brace. *)
Definition strip_fence (text : string) : string :=
  match Index text fence with
  | None => text
  | Some idx =>
    if Contains (slice_to idx text) "{" then text
    else
      let inner := slice_from (idx + 3) text in
      let inner := if HasPrefix inner "json" then slice_from 4 inner else inner in
      let inner := TrimPrefix inner newline in
      let inner := match LastIndex inner fence with Some end_ => slice_to end_ inner | None => inner end in
      TrimSpace inner
  end.

(** The decoded answer; [Steps] is still JSON. *)
Record RawPlan := mkRawPlan {
  rw_PlanID : string;
  rw_Title : string;
  rw_Steps : string;
  rw_Assumptions : list string;
  rw_Risks : list string;
  rw_RollbackStrategy : string
}.


Section Planning.
Variable decode : string -> string + RawPlan.
Variable decode_steps : string -> string + list PlanStep.

(** A plan, or the text of the parse error. *)
Definition parsePlanResponse (text : string) (goal : GoalSpec) : string + PlanSpec :=
  match decode (strip_fence (TrimSpace text)) with
  | inl err => inl ("json decode: " +:+ err)
  | inr raw =>
    match decode_steps (rw_Steps raw) with
    | inl err => inl ("steps decode: " +:+ err)
    | inr steps =>
      let planID := TrimSpace (rw_PlanID raw) in
      let planID := if planID ==? "" then "plan:" +:+ gs_GoalID goal else planID in
      let title := TrimSpace (rw_Title raw) in
      let title := if title ==? "" then "Plan for: " +:+ gs_Title goal else title in
      inr (mkPlanSpec 1 planID "" title 1 PlanStatusDraft steps (rw_Assumptions raw) (rw_Risks raw)
             (rw_RollbackStrategy raw) 0 0 None)
    end
  end.

Definition fallbackPlan (goal : GoalSpec) (rawOutput parseErr : string) : PlanSpec :=
  let truncated := if Nat.ltb 500 (String.length rawOutput) then slice_to 500 rawOutput +:+ "…" else rawOutput in
  mkPlanSpec 1 ("plan:" +:+ gs_GoalID goal) "" ("Plan for: " +:+ gs_Title goal +:+ " (needs review)") 1
    PlanStatusDraft
    [mkPlanStep "review" "Review planner output"
       ("The planner could not produce a structured plan. Parse error: " +:+ parseErr +:+ newline +:+ newline
        +:+ "Raw output:" +:+ newline +:+ truncated)
       [] PlanStepStatusBlocked "" "" [] (Some {["parse_error" := VString parseErr]})]
    [] [] "" 0 0 (Some {["fallback" := VBool true; "parse_error" := VString parseErr]}).

(** The fields that [GeneratePlan] sets on the parsed plan. *)
Definition stamp_plan (p : Planner) (goal : GoalSpec) (now : Z) (plan : PlanSpec) : PlanSpec :=
  mkPlanSpec (pl_Version plan) (pl_PlanID plan) (gs_GoalID goal) (pl_Title plan) (pl_Revision plan)
    (pl_Status plan) (pl_Steps plan) (pl_Assumptions plan) (pl_Risks plan) (pl_RollbackStrategy plan)
    (if pl_CreatedAt plan =? 0 then now else pl_CreatedAt plan) now
    (Some (if pn_model p !=? ""
           then <["planner_model" := VString (pn_model p)]> (map_read (pl_Meta plan))
           else map_read (pl_Meta plan))).

(** The last checks of both ways to a plan. *)
Definition checked_plan (invalid cyclic : string) (plan : PlanSpec) : result PlanSpec :=
  match PlanSpec_Validate plan with
  | Some err => Err (Wrapf invalid [] err)
  | None => if PlanSpec_HasCycle plan then Err (Errorf cyclic []) else Ok plan
  end.

Definition GeneratePlan (now : Z) (p : Planner) (req : PlanRequest) : result PlanSpec :=
  match pn_provider p with
  | None => Err (Errorf "planner: provider is nil" [])
  | Some generate =>
    let goal := GoalSpec_Normalize (pq_Goal req) in
    match GoalSpec_Validate goal with
    | Some err => Err (Wrapf "planner: invalid goal: %w" [] err)
    | None =>
      let maxSteps := if pq_MaxSteps req <=? 0 then 10 else pq_MaxSteps req in
      let prompt := buildPlannerPrompt goal (pq_Context req) maxSteps in
      match generate (mkPlannerTurn (pq_SessionID req) ("planner:" +:+ gs_GoalID goal) prompt) with
      | Err err => Err (Wrapf "planner: provider error: %w" [] err)
      | Ok text =>
        let plan := match parsePlanResponse text goal with
                    | inl parseErr => fallbackPlan goal text parseErr
                    | inr plan => plan
                    end in
        checked_plan "planner: generated plan is invalid: %w"
          "planner: generated plan has cyclic dependencies"
          (PlanSpec_Normalize (stamp_plan p goal now plan))
      end
    end
  end.

(** ** Replanning *)

Definition ReplanTriggerStepFailed : string := "step_failed".
Definition ReplanTriggerStepBlocked : string := "step_blocked".
Definition ReplanTriggerPlanFailed : string := "plan_failed".
Definition ReplanTriggerManual : string := "manual".
Definition ReplanPolicyAuto : string := "auto".
Definition ReplanPolicyApproval : string := "approval".
Definition ReplanPolicyDisabled : string := "disabled".

Record ReplanRequest := mkReplanRequest {
  rn_CurrentPlan : PlanSpec;
  rn_Goal : GoalSpec;
  rn_Trigger : string;
  rn_Reason : string;
  rn_Evidence : gomap string;
  rn_Context : string;
  rn_SessionID : string;
  rn_Actor : string;
  rn_Now : Z
}.

Record PlanRevision := mkPlanRevision {
  rv_PlanID : string;
  rv_FromVersion : Z;
  rv_ToVersion : Z;
  rv_Trigger : string;
  rv_Reason : string;
  rv_Actor : string;
  rv_CreatedAt : Z;
  rv_StepsAdded : list string;
  rv_StepsRemoved : list string;
  rv_StepsChanged : list string;
  rv_Evidence : gomap string;
  rv_Meta : gomap any
}.

#[export] Instance set_rv_Evidence : Setter rv_Evidence := fun v r =>
  mkPlanRevision (rv_PlanID r) (rv_FromVersion r) (rv_ToVersion r) (rv_Trigger r) (rv_Reason r)
    (rv_Actor r) (rv_CreatedAt r) (rv_StepsAdded r) (rv_StepsRemoved r) (rv_StepsChanged r) v
    (rv_Meta r).

Definition NeedsReplan (plan : PlanSpec) : option string :=
  if PlanSpec_IsTerminal plan && (pl_Status plan !=? PlanStatusFailed) then None
  else if pl_Status plan ==? PlanStatusFailed then Some ReplanTriggerPlanFailed
  else
    let hasFailed := existsb (fun s => ps_Status s ==? PlanStepStatusFailed) (pl_Steps plan) in
    let hasBlocked := existsb (fun s => ps_Status s ==? PlanStepStatusBlocked) (pl_Steps plan) in
    if hasFailed then Some ReplanTriggerStepFailed
    else if hasBlocked && Nat.eqb (length (PlanSpec_ReadySteps plan)) 0
    then Some ReplanTriggerStepBlocked
    else None.

Definition stepDiffers (a b : PlanStep) : bool :=
  if (ps_Title a !=? ps_Title b) || (ps_Instructions a !=? ps_Instructions b) || (ps_Status a !=? ps_Status b)
  then true
  else if (ps_Agent a !=? ps_Agent b) || (ps_TaskID a !=? ps_TaskID b) then true
  else if negb (Nat.eqb (length (ps_DependsOn a)) (length (ps_DependsOn b))) then true
  else
    let depSet : gset string := list_to_set (ps_DependsOn a) in
    existsb (fun d => negb (bool_decide (d ∈ depSet))) (ps_DependsOn b).

Definition DiffPlans (old new : PlanSpec) (trigger reason actor : string) (at_ : Z) : PlanRevision :=
  let oldSteps := index_by id (pl_Steps old) in
  let newSteps := index_by id (pl_Steps new) in
  let missing (m : gmap string PlanStep) (id : string) := bool_decide (m !! id = None) in
  mkPlanRevision (pl_PlanID new) (pl_Revision old) (pl_Revision new) trigger reason actor at_
    (List.filter (missing oldSteps) (map_to_list newSteps).*1)
    (List.filter (missing newSteps) (map_to_list oldSteps).*1)
    (map fst (List.filter (fun kv => match oldSteps !! kv.1 with
                                     | Some oldStep => stepDiffers oldStep kv.2
                                     | None => false
                                     end) (map_to_list newSteps)))
    None None.

Definition finished_step (s : PlanStep) : bool :=
  (ps_Status s ==? PlanStepStatusCompleted) || (ps_Status s ==? PlanStepStatusSkipped).

Definition carryForwardCompleted (old new : PlanSpec) : PlanSpec :=
  let completedSteps := index_by id (List.filter finished_step (pl_Steps old)) in
  if Nat.eqb (size completedSteps) 0 then new
  else
    let newStepIDs := step_ids (pl_Steps new) in
    new <| pl_Steps :=
      map (fun step => default step (completedSteps !! ps_StepID step)) (pl_Steps new)
      ++ map snd (List.filter (fun kv => bool_decide (kv.1 ∉ newStepIDs)) (map_to_list completedSteps)) |>.

Definition buildReplanContext (plan : PlanSpec) (req : ReplanRequest) : string :=
  line "This is a REPLAN request. A previous plan has encountered issues." +:+ newline
  +:+ line ("Trigger: " +:+ rn_Trigger req)
  +:+ line_if (rn_Reason req !=? "") ("Reason: " +:+ rn_Reason req)
  +:+ newline +:+ line "--- Previous plan state ---"
  +:+ line ("Plan: " +:+ pl_PlanID plan +:+ " (revision " +:+ pretty (pl_Revision plan) +:+ ", status: "
            +:+ pl_Status plan +:+ ")")
  +:+ String.concat "" (map (fun step =>
        line ("  [" +:+ ps_Status step +:+ "] " +:+ ps_StepID step +:+ " — " +:+ ps_Title step
              +:+ match map_read (rn_Evidence req) !! ps_StepID step with
                  | Some evidence => " (failure: " +:+ evidence +:+ ")"
                  | None => ""
                  end)) (pl_Steps plan))
  +:+ (if some_items (pl_Assumptions plan)
       then newline +:+ line "Original assumptions:"
            +:+ String.concat "" (map (fun a => line ("  - " +:+ a)) (pl_Assumptions plan))
       else "")
  +:+ newline +:+ line "--- Instructions ---"
  +:+ line "Generate a revised plan that:"
  +:+ line "- Preserves step IDs for completed steps where possible."
  +:+ line "- Replaces or restructures failed/blocked steps."
  +:+ line "- Updates assumptions based on what was learned."
  +:+ line "- Adds new steps only when necessary."
  +:+ (if rn_Context req !=? "" then newline +:+ line "Additional context:" +:+ line (rn_Context req) else "").

(** The identity of the current plan on the new one. *)
Definition next_revision (current : PlanSpec) (now : Z) (plan : PlanSpec) : PlanSpec :=
  mkPlanSpec (pl_Version plan) (pl_PlanID current) (pl_GoalID current) (pl_Title plan)
    (add64 (pl_Revision current) 1) PlanStatusActive (pl_Steps plan) (pl_Assumptions plan) (pl_Risks plan)
    (pl_RollbackStrategy plan) (pl_CreatedAt current) now (pl_Meta plan).

Definition Replan (clock : Z) (p : Planner) (req : ReplanRequest) : result (PlanSpec * PlanRevision) :=
  match pn_provider p with
  | None => Err (Errorf "replan: provider is nil" [])
  | Some _ =>
    let current := PlanSpec_Normalize (rn_CurrentPlan req) in
    let goal := GoalSpec_Normalize (rn_Goal req) in
    let now := if rn_Now req <=? 0 then clock else rn_Now req in
    match GeneratePlan clock p
            (mkPlanRequest goal (buildReplanContext current req)
               (add64 (Z.of_nat (length (pl_Steps current))) 3) (rn_SessionID req)) with
    | Err err => Err (Wrapf "replan: %w" [] err)
    | Ok newPlan =>
      let newPlan := PlanSpec_Normalize (carryForwardCompleted current (next_revision current now newPlan)) in
      match checked_plan "replan: revised plan invalid: %w" "replan: revised plan has cyclic dependencies"
              newPlan with
      | Err err => Err err
      | Ok newPlan =>
        Ok (newPlan, (DiffPlans current newPlan (rn_Trigger req) (rn_Reason req) (rn_Actor req) now)
                       <| rv_Evidence := rn_Evidence req |>)
      end
    end
  end.

(** ** Amending a plan *)

Record AmendRequest := mkAmendRequest {
  am_Plan : PlanSpec;
  am_Goal : GoalSpec;
  am_Actor : string;
  am_Feedback : string;
  am_SessionID : string;
  am_Now : Z
}.


Definition Amend (clock : Z) (planner : option Planner) (req : AmendRequest) (c : PlanController)
  : PlanController * result (PlanSpec * PlanApproval) :=
  if blank (am_Actor req) then (c, Err (Errorf "amend: actor is required" []))
  else if blank (am_Feedback req) then (c, Err (Errorf "amend: feedback is required" []))
  else match planner with
  | None => (c, Err (Errorf "amend: planner is nil" []))
  | Some p =>
    let plan := PlanSpec_Normalize (am_Plan req) in
    if PlanSpec_IsTerminal plan
    then (c, Err (Errorf "amend: plan is already terminal (%s)" [ArgS (pl_Status plan)]))
    else
    let now := if am_Now req <=? 0 then clock else am_Now req in
    let approval := mkPlanApproval (pl_PlanID plan) (pl_Revision plan) PlanApprovalAmended
      (am_Actor req) (am_Feedback req) now None in
    let c := record_approval approval c in
    match Replan clock p
            (mkReplanRequest plan (am_Goal req) ReplanTriggerManual
               ("Operator amendment: " +:+ am_Feedback req) None (am_Feedback req) (am_SessionID req)
               (am_Actor req) now) with
    | Err err => (c, Err (Wrapf "amend: %w" [] err))
    | Ok (newPlan, _) => (c, Ok (newPlan <| pl_Status := PlanStatusDraft |>, approval))
    end
  end.

End Planning.
