(* ===== verification/ReplanProps.v ===== *)
(** Theorems on planning: what the planner returns is a sound plan whatever the
    language model answers, a revision keeps the finished work and reports its
    changes exactly, and an amended plan waits for an approval of its own. *)

From Stdlib Require Import Ascii String.
From stdpp Require Import base tactics decidable list gmap strings pretty.
From S2P Require Import Prelude Enums Verification Budget TaskModels Plans Authority Idempotency Approval Replan.

(** ** Sound plans *)

Definition sound_plan (p : PlanSpec) : Prop :=
  plan_header_ok p /\ steps_wf (pl_Steps p) /\ ~ exists id, tc (plan_edge p) id id.

Lemma checked_plan_ok i c p q : checked_plan i c p = Ok q -> q = p /\ sound_plan p.
Proof.
  unfold checked_plan. destruct (PlanSpec_Validate p) as [e|] eqn:V; [done|].
  destruct (PlanSpec_HasCycle p) eqn:C; [done|]. intros [= <-]. split; [done|].
  apply plan_validate_iff in V as [H S]. split_and!; [done|done|].
  intros X. apply HasCycle_iff in X. congruence.
Qed.

Lemma step_normal_idem s : PlanStep_Normalize (PlanStep_Normalize s) = PlanStep_Normalize s.
Proof.
  unfold PlanStep_Normalize. destruct (PlanStepStatus_Valid (ps_Status s)) eqn:E; cbn; by rewrite ?E.
Qed.

Lemma step_normal_id s : ps_StepID (PlanStep_Normalize s) = ps_StepID s.
Proof. unfold PlanStep_Normalize. by case_if. Qed.

Lemma Normalize_plan_steps p : pl_Steps (PlanSpec_Normalize p) = map PlanStep_Normalize (pl_Steps p).
Proof. unfold PlanSpec_Normalize. by repeat case_if. Qed.

(** What [Normalize] keeps of a plan. *)
Lemma Normalize_plan_keeps {B} (f : PlanSpec -> B) p :
  (forall p v, f (p <| pl_Version := v |>) = f p) -> (forall p v, f (p <| pl_Revision := v |>) = f p) ->
  (forall p v, f (p <| pl_Status := v |>) = f p) -> (forall p v, f (p <| pl_Steps := v |>) = f p) ->
  f (PlanSpec_Normalize p) = f p.
Proof. intros H1 H2 H3 H4. unfold PlanSpec_Normalize. repeat case_if; by rewrite ?H4, ?H3, ?H2, ?H1. Qed.

Lemma Normalize_revision p : 0 < pl_Revision p -> pl_Revision (PlanSpec_Normalize p) = pl_Revision p.
Proof.
  intros H. unfold PlanSpec_Normalize.
  assert (forall p', pl_Revision p' = pl_Revision p -> (pl_Revision p' <=? 0) = false) as K
    by (intros p' ->; apply Z.leb_gt; lia).
  destruct (pl_Version p =? 0); rewrite K by done; by case_if.
Qed.

Lemma Normalize_positive p : 0 < pl_Revision (PlanSpec_Normalize p).
Proof.
  destruct (Z.leb_spec (pl_Revision p) 0) as [H|H]; [|by rewrite Normalize_revision].
  unfold PlanSpec_Normalize. destruct (pl_Version p =? 0); cbn;
    (destruct (Z.leb_spec (pl_Revision p) 0); [|lia]); by case_if.
Qed.

Lemma Normalize_status p :
  PlanStatus_Valid (pl_Status p) = true -> pl_Status (PlanSpec_Normalize p) = pl_Status p.
Proof.
  intros H. unfold PlanSpec_Normalize.
  assert (forall p', pl_Status p' = pl_Status p -> PlanStatus_Valid (pl_Status p') = true) as K by (by intros p' ->).
  destruct (pl_Version p =? 0), (_ <=? 0); rewrite K by done; done.
Qed.

(** ** Carrying finished steps forward *)

Section Carry.
Context (old new : PlanSpec).
Hypothesis Hold : NoDup (map ps_StepID (pl_Steps old)).

Lemma finished_nodup : NoDup (map ps_StepID (List.filter finished_step (pl_Steps old))).
Proof.
  revert Hold. generalize (pl_Steps old). induction l as [|s l IH]; cbn; [done|].
  intros [Hn Hd]%NoDup_cons. case_if; [|by apply IH]. apply NoDup_cons. split; [|by apply IH].
  intros Hin. apply Hn. apply elem_of_map in Hin as (x & Hx & ->). apply elem_of_map.
  apply list_elem_of_In, filter_In in Hx as [Hx _]. exists x. by rewrite list_elem_of_In.
Qed.

Lemma finished_lookup s :
  s ∈ pl_Steps old -> finished_step s = true ->
  index_by id (List.filter finished_step (pl_Steps old)) !! ps_StepID s = Some s.
Proof.
  intros Hs Hf. apply (index_by_nodup id); [apply finished_nodup|].
  apply list_elem_of_In, filter_In. by rewrite <- list_elem_of_In.
Qed.

Lemma carried s : s ∈ pl_Steps old -> finished_step s = true -> s ∈ pl_Steps (carryForwardCompleted old new).
Proof.
  intros Hs Hf. pose proof (finished_lookup s Hs Hf) as HL. unfold carryForwardCompleted.
  destruct (Nat.eqb_spec (size (index_by id (List.filter finished_step (pl_Steps old)))) 0) as [Hz|_].
  { apply map_size_empty_inv in Hz. by rewrite Hz, lookup_empty in HL. }
  cbn. apply elem_of_app. destruct (decide (ps_StepID s ∈ step_ids (pl_Steps new))) as [Hi|Hi].
  - left. apply elem_of_step_ids in Hi as (t & Ht & E). apply elem_of_map. exists t. split; [done|].
    by rewrite E, HL.
  - right. apply elem_of_map. exists (ps_StepID s, s). split; [|done].
    apply list_elem_of_In, filter_In. split; [|by apply bool_decide_eq_true].
    by apply list_elem_of_In, elem_of_map_to_list.
Qed.

(** Nothing else is added: a step of the result is new or finished. *)
Lemma carried_only s :
  s ∈ pl_Steps (carryForwardCompleted old new) -> s ∈ pl_Steps new \/ s ∈ pl_Steps old /\ finished_step s = true.
Proof.
  assert (forall x t, index_by id (List.filter finished_step (pl_Steps old)) !! x = Some t ->
    t ∈ pl_Steps old /\ finished_step t = true) as K.
  { intros x t H. apply (index_by_Some id) in H as (u & Hu & _ & <-).
    apply list_elem_of_In, filter_In in Hu as [Hu ?]. by rewrite list_elem_of_In. }
  unfold carryForwardCompleted. case_if; [by left|]. cbn. intros [H|H]%elem_of_app.
  - apply elem_of_map in H as (t & Ht & ->).
    destruct (index_by id _ !! ps_StepID t) as [u|] eqn:E; cbn; [right; by eapply K|by left].
  - apply elem_of_map in H as ([x t] & H & ->). apply list_elem_of_In, filter_In in H as [H _].
    apply list_elem_of_In, elem_of_map_to_list in H. right. by eapply K.
Qed.
End Carry.

(** ** Differences *)

Lemma stepDiffers_refl s : stepDiffers s s = false.
Proof.
  unfold stepDiffers. rewrite !String.eqb_refl, Nat.eqb_refl. cbn.
  apply not_true_iff_false. rewrite existsb_exists. intros (d & Hd & Hb).
  apply list_elem_of_In in Hd. rewrite bool_decide_eq_true_2 in Hb by by apply elem_of_list_to_set. done.
Qed.

Lemma index_id_iff steps x s :
  NoDup (map ps_StepID steps) -> index_by id steps !! x = Some s <-> s ∈ steps /\ ps_StepID s = x.
Proof.
  intros Hn. split.
  - intros (t & ? & ? & <-)%index_by_Some. done.
  - intros [Hs <-]. by apply (index_by_nodup id).
Qed.

Definition has_step (p : PlanSpec) (x : string) : Prop := exists s, s ∈ pl_Steps p /\ ps_StepID s = x.

Section Diff.
Context (old new : PlanSpec).
Hypothesis Hold : NoDup (map ps_StepID (pl_Steps old)).
Hypothesis Hnew : NoDup (map ps_StepID (pl_Steps new)).

Lemma missing_iff p q x :
  NoDup (map ps_StepID (pl_Steps p)) -> NoDup (map ps_StepID (pl_Steps q)) ->
  x ∈ List.filter (fun y => bool_decide (index_by id (pl_Steps p) !! y = None))
        (map_to_list (index_by id (pl_Steps q))).*1
  <-> has_step q x /\ ~ has_step p x.
Proof.
  intros Hp Hq. rewrite list_elem_of_In, filter_In, <- list_elem_of_In, bool_decide_eq_true.
  rewrite list_elem_of_fmap. split.
  - intros [([y s] & -> & H) N]. cbn in *. apply elem_of_map_to_list, index_id_iff in H as [H E]; [|done].
    split; [by exists s|]. intros (t & Ht & Et).
    assert (index_by id (pl_Steps p) !! y = Some t) by (by apply index_id_iff). congruence.
  - intros [(s & Hs & <-) N]. split.
    + exists (ps_StepID s, s). split; [done|]. apply elem_of_map_to_list. by apply index_id_iff.
    + destruct (index_by id (pl_Steps p) !! ps_StepID s) as [t|] eqn:E; [|done].
      apply index_id_iff in E; [|done]. exfalso. apply N. by exists t.
Qed.

(** The three lists of a revision are what they say. *)
Definition exact_diff (r : PlanRevision) : Prop :=
  forall x, (x ∈ rv_StepsAdded r <-> has_step new x /\ ~ has_step old x)
  /\ (x ∈ rv_StepsRemoved r <-> has_step old x /\ ~ has_step new x)
  /\ (x ∈ rv_StepsChanged r <-> exists s t, s ∈ pl_Steps old /\ t ∈ pl_Steps new
        /\ ps_StepID s = x /\ ps_StepID t = x /\ stepDiffers s t = true).

Lemma DiffPlans_exact trigger reason actor at_ : exact_diff (DiffPlans old new trigger reason actor at_).
Proof.
  intros x. cbn. split; [by apply missing_iff|]. split; [by apply missing_iff|].
  rewrite (elem_of_map fst). split.
  - intros ([y t] & H & ->). apply list_elem_of_In, filter_In in H as [H D]. cbn in *.
    apply list_elem_of_In, elem_of_map_to_list, index_id_iff in H as [Ht Et]; [|done].
    destruct (index_by id (pl_Steps old) !! y) as [s|] eqn:E; [|done].
    apply index_id_iff in E as [Hs Es]; [|done]. by exists s, t.
  - intros (s & t & Hs & Ht & Es & Et & D). exists (x, t). split; [|done].
    apply list_elem_of_In, filter_In. cbn. split.
    + apply list_elem_of_In, elem_of_map_to_list, index_id_iff; done.
    + by rewrite (proj2 (index_id_iff (pl_Steps old) x s Hold) (conj Hs Es)).
Qed.
End Diff.

(** ** Revisions *)

Section Planning.
Context (decode : string -> string + RawPlan) (decode_steps : string -> string + list PlanStep).

Lemma generate_ok now p req plan :
  GeneratePlan decode decode_steps now p req = Ok plan ->
  sound_plan plan /\ pl_GoalID plan = gs_GoalID (GoalSpec_Normalize (pq_Goal req)).
Proof.
  unfold GeneratePlan. destruct (pn_provider p) as [generate|]; [|done].
  destruct (GoalSpec_Validate _); [done|]. destruct (generate _) as [text|]; [|done].
  intros [-> S]%checked_plan_ok. split; [done|].
  by rewrite (Normalize_plan_keeps pl_GoalID).
Qed.

(** What a successful [Replan] returns. *)
Lemma replan_ok clock p req plan rev :
  Replan decode decode_steps clock p req = Ok (plan, rev) ->
  let current := PlanSpec_Normalize (rn_CurrentPlan req) in
  let now := if rn_Now req <=? 0 then clock else rn_Now req in
  exists generated, sound_plan generated
    /\ plan = PlanSpec_Normalize (carryForwardCompleted current (next_revision current now generated))
    /\ sound_plan plan
    /\ rev = (DiffPlans current plan (rn_Trigger req) (rn_Reason req) (rn_Actor req) now)
               <| rv_Evidence := rn_Evidence req |>.
Proof.
  unfold Replan. destruct (pn_provider p) as [g|]; [|done].
  destruct (GeneratePlan _ _ _ _ _) as [generated|] eqn:G; [|done].
  destruct (checked_plan _ _ _) as [q|] eqn:C; [|done]. intros [= <- <-]. cbn.
  apply checked_plan_ok in C as [-> S]. exists generated. split_and!; [|done|done|done].
  by apply generate_ok in G as [? _].
Qed.

Lemma carry_keeps {B} (f : PlanSpec -> B) old new :
  (forall p v, f (p <| pl_Steps := v |>) = f p) -> f (carryForwardCompleted old new) = f new.
Proof. intros H. unfold carryForwardCompleted. case_if; [done|apply H]. Qed.

Lemma next_number p :
  pl_Revision (PlanSpec_Normalize p) < 2 ^ 63 - 1 ->
  0 < add64 (pl_Revision (PlanSpec_Normalize p)) 1
  /\ add64 (pl_Revision (PlanSpec_Normalize p)) 1 = pl_Revision (PlanSpec_Normalize p) + 1.
Proof.
  intros H. pose proof (Normalize_positive p). rewrite add64_small by (unfold int64_range; lia). lia.
Qed.

(** C21: A revision keeps the finished work: when replanning succeeds the revised plan is
    valid, acyclic and active, with the identity, goal and creation time of the
    current one and the next revision number; every completed or skipped step of the
    current plan is in it unchanged; and the revision record lists exactly the steps
    that were added, removed and changed. *)
Theorem replan_keeps_finished_work clock p req plan rev :
  let current := PlanSpec_Normalize (rn_CurrentPlan req) in
  NoDup (map ps_StepID (pl_Steps current)) -> pl_Revision current < 2 ^ 63 - 1 ->
  Replan decode decode_steps clock p req = Ok (plan, rev) ->
  sound_plan plan /\ pl_Status plan = PlanStatusActive
  /\ pl_PlanID plan = pl_PlanID current /\ pl_GoalID plan = pl_GoalID current
  /\ pl_CreatedAt plan = pl_CreatedAt current /\ pl_Revision plan = pl_Revision current + 1
  /\ (forall s, s ∈ pl_Steps current -> step_finished s -> s ∈ pl_Steps plan)
  /\ exact_diff current plan rev.
Proof.
  intros current Hn Hb H. pose proof (next_number _ Hb) as [Hrev Hnext]. fold current in Hrev, Hnext.
  apply replan_ok in H as (g & Sg & -> & S & ->). fold current in S |- *.
  set (now := if rn_Now req <=? 0 then clock else rn_Now req) in *.
  split; [done|]. split.
  { rewrite Normalize_status; by rewrite (carry_keeps pl_Status). }
  split; [by rewrite (Normalize_plan_keeps pl_PlanID), (carry_keeps pl_PlanID)|].
  split; [by rewrite (Normalize_plan_keeps pl_GoalID), (carry_keeps pl_GoalID)|].
  split; [by rewrite (Normalize_plan_keeps pl_CreatedAt), (carry_keeps pl_CreatedAt)|].
  split; [by rewrite <- Hnext, Normalize_revision; rewrite (carry_keeps pl_Revision)|].
  split.
  - intros s Hs Hf. rewrite Normalize_plan_steps. apply elem_of_map. exists s. split.
    + apply carried; [done|done|]. unfold finished_step. destruct Hf as [-> | ->]; reflexivity.
    + unfold current in Hs. rewrite Normalize_plan_steps in Hs. apply elem_of_map in Hs as (t & _ & ->).
      by rewrite step_normal_idem.
  - apply DiffPlans_exact; [done|]. apply S.
Qed.

(** ** Amendments *)

(** An amended plan waits for an approval of its own: the amendment is recorded under
    a named operator even when replanning fails; the plan that comes back is a draft
    of the next revision, so no mode lets it compile, and when it is later set
    active the modes that ask for approval still wait for a record of that revision,
    as long as the log holds none of a revision not yet made. *)
Theorem amended_plan_waits_for_approval clock planner req c c' plan a mode :
  let current := PlanSpec_Normalize (am_Plan req) in
  pl_Revision current < 2 ^ 63 - 1 ->
  (forall x, x ∈ pc_approvals c -> pa_PlanID x = pl_PlanID current -> pa_Revision x <= pl_Revision current) ->
  Amend decode decode_steps clock planner req c = (c', Ok (plan, a)) ->
  pc_approvals c' = pc_approvals c ++ [a] /\ pa_Decision a = PlanApprovalAmended /\ blank (pa_Actor a) = false
  /\ pl_Revision plan = pl_Revision current + 1 /\ sound_plan (plan <| pl_Status := PlanStatusActive |>)
  /\ MayCompile c' plan mode = false
  /\ (AutonomyMode_RequiresPlanApproval mode = true ->
      MayCompile c' (plan <| pl_Status := PlanStatusActive |>) mode = false).
Proof.
  intros current Hb Hlog. pose proof (next_number _ Hb) as [Hpos Hnext]. fold current in Hpos, Hnext.
  unfold Amend.
  destruct (blank (am_Actor req)) eqn:Ha; [done|]. destruct (blank (am_Feedback req)); [done|].
  destruct planner as [p|]; [|done]. fold current.
  destruct (PlanSpec_IsTerminal current); [done|].
  destruct (Replan _ _ _ _ _) as [[plan' rev]|] eqn:R; [|done]. intros [= <- <- <-].
  apply replan_ok in R as (g & _ & Hplan & S & _). cbn [rn_CurrentPlan] in Hplan.
  assert (pl_Revision (PlanSpec_Normalize current) = pl_Revision current
          /\ pl_PlanID (PlanSpec_Normalize current) = pl_PlanID current) as [Ec Ei].
  { split; [|by rewrite (Normalize_plan_keeps pl_PlanID)]. apply Normalize_revision, Normalize_positive. }
  assert (pl_Revision plan' = pl_Revision current + 1) as Er.
  { rewrite <- Hnext, Hplan, Normalize_revision; rewrite (carry_keeps pl_Revision); cbn [next_revision pl_Revision];
      by rewrite ?Ec. }
  assert (pl_PlanID plan' = pl_PlanID current) as Ep.
  { by rewrite Hplan, (Normalize_plan_keeps pl_PlanID), (carry_keeps pl_PlanID). }
  assert (plan' <| pl_Status := PlanStatusDraft |> <| pl_Status := PlanStatusActive |> = plan') as Es.
  { assert (pl_Status plan' = PlanStatusActive) as K.
    { rewrite Hplan, Normalize_status; by rewrite (carry_keeps pl_Status). }
    destruct plan'; cbn in *. by rewrite K. }
  split_and!; [done|done|done|done|by rewrite Es|done|].
  intros Hm. apply not_true_iff_false. intros [_ H]%MayCompile_iff. destruct (H Hm) as (x & Hx & E1 & E2 & E3).
  rewrite Es in *. cbn in Hx. apply elem_of_app in Hx as [Hx|Hx%list_elem_of_singleton].
  - rewrite Ep in E1. specialize (Hlog x Hx E1). lia.
  - by subst x.
Qed.

(** A malformed answer is put before a person: whatever the model writes, if the
    provider answers, the goal is valid and the text cannot be parsed, generating a
    plan succeeds with a single blocked step that holds the answer and the error, and
    that plan has nothing ready and asks to be replanned. *)
Theorem malformed_answer_needs_review now p req generate text err :
  let goal := GoalSpec_Normalize (pq_Goal req) in
  pn_provider p = Some generate -> GoalSpec_Validate goal = None ->
  (forall turn, generate turn = Ok text) -> parsePlanResponse decode decode_steps text goal = inl err ->
  exists plan, GeneratePlan decode decode_steps now p req = Ok plan
    /\ map ps_StepID (pl_Steps plan) = ["review"] /\ PlanSpec_ReadySteps plan = []
    /\ NeedsReplan plan = Some ReplanTriggerStepBlocked
    /\ map_read (pl_Meta plan) !! "parse_error" = Some (VString err).
Proof.
  intros goal Hp Hg Ht Hparse. unfold GeneratePlan. rewrite Hp. fold goal. rewrite Hg, Ht, Hparse.
  set (q := PlanSpec_Normalize (stamp_plan p goal now (fallbackPlan goal text err))).
  assert (exists i, pl_Steps q = [mkPlanStep "review" "Review planner output" i [] PlanStepStatusBlocked "" "" []
                                    (Some {["parse_error" := VString err]})]) as [i Hi]
    by (eexists; unfold q; rewrite Normalize_plan_steps; reflexivity).
  assert (sound_plan q) as (Hh & Hw & Hc).
  { split; [|split].
    - unfold plan_header_ok, q. rewrite (Normalize_plan_keeps pl_PlanID), (Normalize_plan_keeps pl_Title) by done.
      rewrite Normalize_status by reflexivity. cbn [stamp_plan fallbackPlan pl_PlanID pl_Title pl_Status].
      split_and!; [by apply (blank_nonspace "p"%char)|by apply (blank_nonspace "P"%char)|by right].
    - rewrite Hi. split_and!; [done| |by apply NoDup_singleton|].
      + by repeat constructor.
      + intros s d ->%list_elem_of_singleton Hd. by apply not_elem_of_nil in Hd.
    - assert (forall x y, ~ plan_edge q x y) as N.
      { intros x y (s & Hs & _ & Hy)%plan_edge_step. rewrite Hi in Hs.
        apply list_elem_of_singleton in Hs as ->. by apply not_elem_of_nil in Hy. }
      intros [x Hx]. by inversion Hx as [? ? E|? ? ? E]; apply N in E. }
  exists q. split.
  { unfold checked_plan. rewrite (proj2 (plan_validate_iff q)) by done.
    destruct (PlanSpec_HasCycle q) eqn:E; [|done]. apply HasCycle_iff in E. done. }
  assert (pl_Status q = PlanStatusDraft) as Hs by (unfold q; by rewrite Normalize_status).
  assert (PlanSpec_ReadySteps q = []) as Hr by (unfold PlanSpec_ReadySteps; by rewrite Hi).
  split_and!; [by rewrite Hi|done| |].
  - unfold NeedsReplan, PlanSpec_IsTerminal. by rewrite Hs, Hr, Hi.
  - unfold q. rewrite (Normalize_plan_keeps pl_Meta) by done. cbn [stamp_plan pl_Meta fallbackPlan map_read default].
    destruct (pn_model p !=? ""); vm_compute; reflexivity.
Qed.

End Planning.

(** ** Witnesses and examples *)

(** A decoder for tests: the answer names one of three lists of steps. *)
Definition test_decode (text : string) : string + RawPlan :=
  if Contains text "{" then inr (mkRawPlan "" "" text [] [] "") else inl "no JSON".
Definition new_steps (text : string) : string + list PlanStep :=
  inr [mkPlanStep "fetch" "Fetch again" "" [] "" "" "" [] None;
       mkPlanStep "parse" "Parse it" "" ["fetch"] "" "" "" [] None;
       mkPlanStep "ship" "Ship it" "" ["parse"] (if Contains text "done" then "completed" else "") "" "" [] None].
Definition test_planner (text : string) : Planner := mkPlanner (Some (fun _ => Ok text)) "".
Definition test_goal : GoalSpec :=
  mkGoalSpec 1 "g1" "Ship" "" "" "" "" "" [] [] (mkTaskAuthority "" "" "" true true true false [] [] [] 0 "")
    (mkTaskBudget 0 0 0 0 0 0 0) 0 0 None.
Definition current_plan : PlanSpec :=
  mkPlanSpec 1 "p1" "g1" "Old" 3 PlanStatusActive
    [mkPlanStep "fetch" "Fetch" "" [] PlanStepStatusCompleted "t1" "" [] None;
     mkPlanStep "old" "Try" "" ["fetch"] PlanStepStatusFailed "t2" "" [] None] [] [] "" 4 5 None.
Definition test_request : ReplanRequest :=
  mkReplanRequest current_plan test_goal ReplanTriggerStepFailed "" None "" "" "alice" 9.

Lemma replanned : exists plan rev, Replan test_decode new_steps 7 (test_planner "```json {} ```") test_request = Ok (plan, rev).
Proof. vm_compute. by do 2 eexists. Qed.

Lemma replan_keeps_finished_work_witness :
  exists plan rev, Replan test_decode new_steps 7 (test_planner "```json {} ```") test_request = Ok (plan, rev)
    /\ pl_Revision plan = 4.
Proof.
  destruct replanned as (plan & rev & H). exists plan, rev. split; [exact H|].
  pose proof (replan_keeps_finished_work test_decode new_steps 7 (test_planner "```json {} ```") test_request
                plan rev) as T.
  cbv zeta in T. destruct T as (_ & _ & _ & _ & _ & T & _); [|reflexivity|exact H|exact T].
  apply (bool_decide_unpack _). vm_compute. reflexivity.
Defined.

Example revision_of_the_test :
  match Replan test_decode new_steps 7 (test_planner "```json {} ```") test_request with
  | Ok (plan, rev) =>
    map (fun s => (ps_StepID s, ps_Status s, ps_TaskID s)) (pl_Steps plan)
    = [("fetch", PlanStepStatusCompleted, "t1"); ("parse", PlanStepStatusPending, "");
       ("ship", PlanStepStatusPending, "")]
    /\ (rv_StepsRemoved rev, rv_StepsChanged rev) = (["old"], []) /\ length (rv_StepsAdded rev) = 2%nat
  | Err _ => False
  end.
Proof. vm_compute. split_and!; reflexivity. Qed.

Definition test_amendment : AmendRequest := mkAmendRequest current_plan test_goal "alice" "use the mirror" "" 9.

Lemma amended : exists c plan a,
  Amend test_decode new_steps 7 (Some (test_planner "{}")) test_amendment NewPlanController = (c, Ok (plan, a)).
Proof. vm_compute. by do 3 eexists. Qed.

Lemma amended_plan_waits_for_approval_witness :
  exists c plan a,
    Amend test_decode new_steps 7 (Some (test_planner "{}")) test_amendment NewPlanController = (c, Ok (plan, a))
    /\ MayCompile c plan AutonomyFull = false.
Proof.
  destruct amended as (c & plan & a & H). exists c, plan, a. split; [exact H|].
  pose proof (amended_plan_waits_for_approval test_decode new_steps 7 (Some (test_planner "{}")) test_amendment
                NewPlanController c plan a AutonomyFull) as T.
  cbv zeta in T. destruct T as (_ & _ & _ & _ & _ & T & _); [reflexivity| |exact H|exact T].
  intros x Hx. exfalso. by apply not_elem_of_nil in Hx.
Defined.

Lemma malformed_answer_needs_review_witness :
  exists plan, GeneratePlan test_decode new_steps 7 (test_planner "Sure! Here it is.")
                 (mkPlanRequest test_goal "" 0 "") = Ok plan
    /\ map ps_StepID (pl_Steps plan) = ["review"].
Proof.
  destruct (malformed_answer_needs_review test_decode new_steps 7 (test_planner "Sure! Here it is.")
              (mkPlanRequest test_goal "" 0 "") (fun _ => Ok "Sure! Here it is.") "Sure! Here it is."
              "json decode: no JSON") as (plan & H & S & _);
    [reflexivity|vm_compute; reflexivity|reflexivity|vm_compute; reflexivity|].
  exists plan. split; [exact H|exact S].
Defined.

(** The model's word is taken for the status of a step: a step that it calls
    completed was never executed, and the next ones become ready. *)
Example model_may_complete_steps :
  match GeneratePlan test_decode new_steps 7 (test_planner "{done}") (mkPlanRequest test_goal "" 0 "") with
  | Ok plan => map ps_Status (pl_Steps plan) = [PlanStepStatusPending; PlanStepStatusPending; PlanStepStatusCompleted]
  | Err _ => False
  end.
Proof. vm_compute. reflexivity. Qed.

(** Blocked steps are to trigger a replan only when they prevent progress, but a
    step in progress does not count: the plan is replanned under a running step. *)
Example replan_under_a_running_step :
  NeedsReplan (current_plan <| pl_Steps :=
    [mkPlanStep "a" "A" "" [] PlanStepStatusInProgress "t1" "" [] None;
     mkPlanStep "b" "B" "" [] PlanStepStatusBlocked "" "" [] None] |>) = Some ReplanTriggerStepBlocked.
Proof. vm_compute. reflexivity. Qed.
