(* ===== verification/Verifier.v ===== *)
(** Evaluation of verification contracts: internal/planner/verifier.go,
    verifier_runtime.go and reviewer.go.

    A check is settled by an executor registered for its type, by a recorded verdict
    or by a reviewer.  The evaluator of a [Verifier], the executors that are not
    built in and the reviewers are functions that return a verdict or an error, of
    which only the text is kept.  [EvaluateAll] runs its executors in goroutines and
    collects their results from a channel; the order in which they arrive is an
    argument of [evaluate_arriving].  Durations are arguments, since they are only
    reported.  Loops over Go maps follow the order of [map_to_list].

    Normalising a specification rewrites its slice of checks in place, and [Verifier]
    and the recording functions then write into that slice; they return the caller's
    value after the call where it differs from the result. *)

From Stdlib Require Import String SpecFloat.
From stdpp Require Import base tactics decidable list gmap strings pretty.
From S2P Require Import Prelude Enums Verification Budget TaskModels Authority Duration Idempotency Sorting.

#[export] Instance set_vc_Result : Setter vc_Result := fun v r =>
  mkVerificationCheck (vc_CheckID r) (vc_Type r) (vc_Description r) (vc_Required r) (vc_Status
    r) v (vc_Evidence r) (vc_EvaluatedAt r) (vc_EvaluatedBy r) (vc_Meta r).
#[export] Instance set_vc_Evidence : Setter vc_Evidence := fun v r =>
  mkVerificationCheck (vc_CheckID r) (vc_Type r) (vc_Description r) (vc_Required r) (vc_Status
    r) (vc_Result r) v (vc_EvaluatedAt r) (vc_EvaluatedBy r) (vc_Meta r).
#[export] Instance set_vc_EvaluatedAt : Setter vc_EvaluatedAt := fun v r =>
  mkVerificationCheck (vc_CheckID r) (vc_Type r) (vc_Description r) (vc_Required r) (vc_Status
    r) (vc_Result r) (vc_Evidence r) v (vc_EvaluatedBy r) (vc_Meta r).
#[export] Instance set_vc_EvaluatedBy : Setter vc_EvaluatedBy := fun v r =>
  mkVerificationCheck (vc_CheckID r) (vc_Type r) (vc_Description r) (vc_Required r) (vc_Status
    r) (vc_Result r) (vc_Evidence r) (vc_EvaluatedAt r) v (vc_Meta r).
#[export] Instance set_vs_VerifiedAt : Setter vs_VerifiedAt := fun v r =>
  mkVerificationSpec (vs_Policy r) (vs_Checks r) v (vs_VerifiedBy r) (vs_Meta r).
#[export] Instance set_vs_VerifiedBy : Setter vs_VerifiedBy := fun v r =>
  mkVerificationSpec (vs_Policy r) (vs_Checks r) (vs_VerifiedAt r) v (vs_Meta r).

(** ** The verifier *)

Record VerificationResult := mkVerificationResult {
  vr_Passed : bool;
  vr_Blocking : list string;
  vr_Summary : string;
  vr_UpdatedSpec : VerificationSpec
}.

#[export] Instance set_vr_UpdatedSpec : Setter vr_UpdatedSpec := fun v r =>
  mkVerificationResult (vr_Passed r) (vr_Blocking r) (vr_Summary r) v.

(** [VerificationCheckSchema] and its siblings. *)
Definition VerificationCheckSchema : string := "schema".
Definition VerificationCheckEvidence : string := "evidence".
Definition VerificationCheckCustom : string := "custom".
Definition VerificationCheckReview : string := "review".
Definition VerificationCheckTest : string := "test".

(** What an evaluator returns: passed, result, evidence and the text of its error. *)
Definition CheckEvaluator : Type :=
  VerificationCheck -> TaskSpec -> bool * string * string * option string.
Definition Verifier : Type := option CheckEvaluator.
Definition NewVerifier (evaluator : option CheckEvaluator) : Verifier := evaluator.

(** A task seen through the slice of checks that its evaluation writes to. *)
Definition with_checks (task : TaskSpec) (checks : list VerificationCheck) : TaskSpec :=
  task <| ts_Verification := ((ts_Verification task) <| vs_Checks := checks |>) |>.

Definition unverified (spec : VerificationSpec) : bool :=
  (vs_Policy spec ==? VerificationPolicyNone) || Nat.eqb (length (vs_Checks spec)) 0.

Definition check_failed (c : VerificationCheck) : bool :=
  (vc_Status c ==? VerificationStatusFailed) || (vc_Status c ==? VerificationStatusError).

Definition count {A} (p : A -> bool) (l : list A) : Z := Z.of_nat (length (List.filter p l)).

Definition tally_text (passed total failed pending : Z) (may_pass : bool) (blocking : list string) : string :=
  pretty passed +:+ "/" +:+ pretty total +:+ " passed, " +:+ pretty failed +:+ " failed, "
  +:+ pretty pending +:+ " pending"
  +:+ (if may_pass then "" else "; blocked by: " +:+ String.concat ", " blocking).

Definition summarize (spec : VerificationSpec) : VerificationResult :=
  let checks := vs_Checks spec in
  let blocking := map vc_CheckID
    (List.filter (fun c => negb (check_passed_or_skipped c) && vc_Required c) checks) in
  let passed := count check_passed_or_skipped checks in
  let failed := count (fun c => negb (check_passed_or_skipped c) && check_failed c) checks in
  let pending := count (fun c => negb (check_passed_or_skipped c) && negb (check_failed c)) checks in
  let allPassed := if vs_Policy spec ==? VerificationPolicyAdvisory then true
                   else Nat.eqb (length blocking) 0 in
  mkVerificationResult allPassed blocking
    (tally_text passed (Z.of_nat (length checks)) failed pending allPassed blocking) spec.

Definition settle_check (c : VerificationCheck) (status result evidence : string) (now : Z) (actor : string)
  : VerificationCheck :=
  ((((c <| vc_Status := status |>) <| vc_Result := result |>) <| vc_Evidence := evidence |>)
   <| vc_EvaluatedAt := now |>) <| vc_EvaluatedBy := actor |>.

Definition verdict_status (passed : bool) : string :=
  if passed then VerificationStatusPassed else VerificationStatusFailed.

(** The loop of [Evaluate]: [done] is settled, and the evaluator sees the task through
    the slice as written so far. *)
Fixpoint evaluate_checks (ev : CheckEvaluator) (task : TaskSpec) (actor : string) (now : Z)
    (done rest : list VerificationCheck) : list VerificationCheck :=
  match rest with
  | [] => done
  | check :: rest =>
    let check' :=
      if VerificationStatus_IsTerminal (vc_Status check) then check
      else match ev check (with_checks task (done ++ check :: rest)) with
           | (_, _, evidence, Some err) =>
             settle_check check VerificationStatusError ("evaluator error: " +:+ err) evidence now actor
           | (passed, result, evidence, None) =>
             settle_check check (verdict_status passed) result evidence now actor
           end in
    evaluate_checks ev task actor now (done ++ [check']) rest
  end.

(** The task of the caller after the call, and the result. *)
Definition Verifier_Evaluate (v : Verifier) (task : TaskSpec) (actor : string) (now clock : Z)
  : TaskSpec * VerificationResult :=
  let spec := VerificationSpec_Normalize (ts_Verification task) in
  let now := if now <=? 0 then clock else now in
  if unverified spec
  then (with_checks task (vs_Checks spec), mkVerificationResult true [] "no verification required" spec)
  else
    let checks := match v with
                  | None => vs_Checks spec
                  | Some ev => evaluate_checks ev task actor now [] (vs_Checks spec)
                  end in
    let result := summarize (spec <| vs_Checks := checks |>) in
    (with_checks task checks,
     if vr_Passed result && (vs_VerifiedAt spec =? 0)
     then result <| vr_UpdatedSpec := (
            ((vr_UpdatedSpec result) <| vs_VerifiedAt := now |>) <| vs_VerifiedBy := actor |>) |>
     else result).

Definition Verifier_MayComplete (task : TaskSpec) : VerificationResult :=
  let spec := VerificationSpec_Normalize (ts_Verification task) in
  if unverified spec then mkVerificationResult true [] "no verification required" spec
  else summarize spec.

(** The first check of the list that satisfies [p], replaced. *)
Fixpoint update_first {A} (p : A -> bool) (f : A -> A) (l : list A) : option (list A) :=
  match l with
  | [] => None
  | x :: l => if p x then Some (f x :: l) else (x ::.) <$> update_first p f l
  end.

Definition RecordCheckResult (spec : VerificationSpec) (checkID : string) (passed : bool)
    (result_ evidence actor : string) (now clock : Z) : VerificationSpec * option error :=
  let spec := VerificationSpec_Normalize spec in
  if blank checkID then (spec, Some (Errorf "check_id is required" []))
  else
    let now := if now <=? 0 then clock else now in
    match update_first (fun c => vc_CheckID c ==? checkID)
            (fun c => settle_check c (verdict_status passed) result_ evidence now actor) (vs_Checks spec) with
    | None => (spec, Some (Errorf "check_id %q not found in verification spec" [ArgS checkID]))
    | Some checks => (spec <| vs_Checks := checks |>, None)
    end.

Definition criterion_check (i : nat) (c : TaskAcceptanceCriterion) : VerificationCheck :=
  mkVerificationCheck ("ac-" +:+ pretty (Z.of_nat i + 1))
    (if ac_Type c !=? "" then ac_Type c else VerificationCheckReview) (ac_Description c) (ac_Required c)
    VerificationStatusPending "" "" 0 "" None.

Definition BuildFromAcceptanceCriteria (criteria : list TaskAcceptanceCriterion) (policy : string)
  : VerificationSpec :=
  if Nat.eqb (length criteria) 0 then mkVerificationSpec VerificationPolicyNone [] 0 "" None
  else mkVerificationSpec policy (imap criterion_check criteria) 0 "" None.

(** What [ValidateCompletionGate] says of a required check, if it blocks. *)
Definition blocking_text (c : VerificationCheck) : list string :=
  if negb (vc_Required c) then []
  else go_switch (vc_Status c)
    [([VerificationStatusPassed; VerificationStatusSkipped], []);
     ([VerificationStatusPending], [vc_CheckID c +:+ ": not yet evaluated"]);
     ([VerificationStatusRunning], [vc_CheckID c +:+ ": still running"]);
     ([VerificationStatusFailed], [vc_CheckID c +:+ ": failed — " +:+ vc_Result c]);
     ([VerificationStatusError], [vc_CheckID c +:+ ": error — " +:+ vc_Result c])] [].

Definition ValidateCompletionGate (task : TaskSpec) : option error :=
  let spec := VerificationSpec_Normalize (ts_Verification task) in
  go_switch (vs_Policy spec)
    [([VerificationPolicyNone; VerificationPolicyAdvisory], None);
     ([VerificationPolicyRequired],
      if Nat.eqb (length (vs_Checks spec)) 0
      then Some (Errorf "verification policy is 'required' but no checks are defined" [])
      else
        let blocking := concat (map blocking_text (vs_Checks spec)) in
        error_if (negb (Nat.eqb (length blocking) 0))
          (Errorf "verification blocks completion: %s" [ArgS (String.concat "; " blocking)]))]
    (Some (Errorf "unknown verification policy %q" [ArgS (vs_Policy spec)])).

(** ** The outputs of a task, executors and the runtime *)

Record TaskArtifact := mkTaskArtifact {
  af_Name : string;
  af_Type : string;
  af_Content : string;
  af_Ref : string;
  af_Meta : gomap any
}.

#[export] Instance set_af_Meta : Setter af_Meta := fun v r =>
  mkTaskArtifact (af_Name r) (af_Type r) (af_Content r) (af_Ref r) v.

Record ToolCallResult := mkToolCallResult {
  tl_ToolName : string;
  tl_Input : gomap any;
  tl_Output : string;
  tl_Error : string;
  tl_Duration : Z
}.

#[export] Instance set_tl_Input : Setter tl_Input := fun v r =>
  mkToolCallResult (tl_ToolName r) v (tl_Output r) (tl_Error r) (tl_Duration r).

Record TaskOutputs := mkTaskOutputs {
  op_RawOutput : string;
  op_StructuredOutput : gomap any;
  op_Artifacts : list TaskArtifact;
  op_ToolResults : gomap ToolCallResult
}.


Record CheckOutcome := mkCheckOutcome {
  oc_Passed : bool;
  oc_Result : string;
  oc_Evidence : string;
  oc_Details : gomap any
}.


Record CheckExecutor := mkCheckExecutor {
  ce_Type : string;
  ce_Execute : VerificationCheck -> TaskSpec -> TaskOutputs -> string + CheckOutcome
}.

Definition VerifierRuntime : Type := gmap string CheckExecutor.
Definition NewVerifierRuntime : VerifierRuntime := ∅.
Definition Runtime_Register (executor : CheckExecutor) (r : VerifierRuntime) : VerifierRuntime :=
  <[ce_Type executor := executor]> r.
Definition HasExecutor (t : string) (r : VerifierRuntime) : bool := bool_decide (is_Some (r !! t)).

Record CheckResult := mkCheckResult {
  cx_CheckID : string;
  cx_Type : string;
  cx_Required : bool;
  cx_Outcome : CheckOutcome;
  cx_Error : string;
  cx_Pending : bool;
  cx_Duration : Z
}.


Record RuntimeResult := mkRuntimeResult {
  rx_Passed : bool;
  rx_CheckResults : list CheckResult;
  rx_UpdatedSpec : VerificationSpec;
  rx_Summary : string;
  rx_Duration : Z
}.


(** The copies an executor is given.  A copied map is nil when the original is empty;
    a copied slice cannot be told from the original. *)
Definition clone_values (m : gomap any) : gomap any := clone_map m.

Definition clone_check (check : VerificationCheck) : VerificationCheck :=
  check <| vc_Meta := clone_values (vc_Meta check) |>.

Definition clone_spec (spec : VerificationSpec) : VerificationSpec :=
  (spec <| vs_Meta := clone_values (vs_Meta spec) |>) <| vs_Checks := map clone_check (vs_Checks spec) |>.

Definition cloneTaskSpecForVerification (task : TaskSpec) : TaskSpec :=
  ((task <| ts_Inputs := clone_values (ts_Inputs task) |>)
   <| ts_Meta := clone_values (ts_Meta task) |>)
  <| ts_Verification := clone_spec (ts_Verification task) |>.

Definition cloneTaskOutputs (outputs : TaskOutputs) : TaskOutputs :=
  mkTaskOutputs (op_RawOutput outputs) (clone_values (op_StructuredOutput outputs))
    (map (fun a => a <| af_Meta := clone_values (af_Meta a) |>) (op_Artifacts outputs))
    ((fun m : gmap string ToolCallResult => (fun r => r <| tl_Input := clone_values (tl_Input r) |>) <$> m)
       <$> clone_map (op_ToolResults outputs)).

(** The result of a check that was settled before. *)
Definition terminal_result (check : VerificationCheck) : CheckResult :=
  mkCheckResult (vc_CheckID check) (vc_Type check) (vc_Required check)
    (mkCheckOutcome (check_passed_or_skipped check) (vc_Result check) (vc_Evidence check) None)
    (if vc_Status check ==? VerificationStatusError
     then if vc_Result check ==? "" then "verification error" else vc_Result check else "")
    false 0.

Definition pending_result (check : VerificationCheck) : CheckResult :=
  mkCheckResult (vc_CheckID check) (vc_Type check) (vc_Required check) (mkCheckOutcome false "" "" None)
    "" true 0.

Definition to_pending (check : VerificationCheck) : VerificationCheck :=
  if vc_Status check ==? VerificationStatusRunning
  then check <| vc_Status := VerificationStatusPending |> else check.

Definition zero_result : CheckResult :=
  mkCheckResult "" "" false (mkCheckOutcome false "" "" None) "" false 0.

(** The executor a check is handed to: none for a settled check. *)
Definition executor_of (r : VerifierRuntime) (check : VerificationCheck) : option CheckExecutor :=
  if VerificationStatus_IsTerminal (vc_Status check) then None else r !! vc_Type check.

(** What the loop of [EvaluateAll] leaves at the place of a check: the check and its
    result, which is still zero when a goroutine has been started for it. *)
Definition slot (r : VerifierRuntime) (check : VerificationCheck) : VerificationCheck * CheckResult :=
  if VerificationStatus_IsTerminal (vc_Status check) then (check, terminal_result check)
  else match r !! vc_Type check with
       | None => (to_pending check, pending_result check)
       | Some _ => (check, zero_result)
       end.

(** The body of a goroutine. *)
Definition run_check (task : TaskSpec) (outputs : TaskOutputs) (actor : string) (now : Z)
    (check : VerificationCheck) (executor : CheckExecutor) (duration : Z)
  : VerificationCheck * CheckResult :=
  let result outcome err :=
    mkCheckResult (vc_CheckID check) (vc_Type check) (vc_Required check) outcome err false duration in
  match ce_Execute executor (clone_check check) (cloneTaskSpecForVerification task) (cloneTaskOutputs outputs) with
  | inl err =>
    let text := "executor error: " +:+ err in
    (settle_check check VerificationStatusError text "" now actor,
     result (mkCheckOutcome false text "" None) err)
  | inr outcome =>
    (settle_check check (verdict_status (oc_Passed outcome)) (oc_Result outcome) (oc_Evidence outcome) now actor,
     result outcome "")
  end.

(** The goroutines of a pass: the index of each check that has an executor and what is
    sent for it. *)
Definition executions (r : VerifierRuntime) (task : TaskSpec) (outputs : TaskOutputs) (actor : string) (now : Z)
    (durations : nat -> Z) (checks : list VerificationCheck) : list (nat * (VerificationCheck * CheckResult)) :=
  omap (fun x => (fun ex => (x.1, run_check task outputs actor now x.2 ex (durations x.1)))
                 <$> executor_of r x.2) (imap pair checks).

(** The receiving loop: results are stored by index as they arrive. *)
Definition receive {A} (slots : list A) (arrivals : list (nat * A)) : list A :=
  fold_left (fun slots er => <[er.1 := er.2]> slots) arrivals slots.

Definition cx_blocks (cr : CheckResult) : bool :=
  cx_Required cr && (cx_Pending cr || (cx_Error cr !=? "") || negb (oc_Passed (cx_Outcome cr))).
Definition cx_passed (cr : CheckResult) : bool :=
  negb (cx_Pending cr) && (cx_Error cr ==? "") && oc_Passed (cx_Outcome cr).
Definition cx_failed (cr : CheckResult) : bool :=
  negb (cx_Pending cr) && ((cx_Error cr !=? "") || negb (oc_Passed (cx_Outcome cr))).

(** The end of [EvaluateAll]. *)
Definition conclude (spec : VerificationSpec) (results : list CheckResult) (actor : string) (now duration : Z)
  : RuntimeResult :=
  let blocking := map cx_CheckID (List.filter cx_blocks results) in
  let passed := if vs_Policy spec ==? VerificationPolicyAdvisory then true
                else Nat.eqb (length blocking) 0 in
  let spec := if VerificationSpec_AllRequiredPassed spec
              then (spec <| vs_VerifiedAt := now |>) <| vs_VerifiedBy := actor |>
              else (spec <| vs_VerifiedAt := 0 |>) <| vs_VerifiedBy := "" |> in
  mkRuntimeResult passed results spec
    (tally_text (count cx_passed results) (Z.of_nat (length results)) (count cx_failed results)
       (count cx_Pending results) passed blocking) duration.

Definition evaluate_arriving (r : VerifierRuntime) (task : TaskSpec) (actor : string) (now duration : Z)
    (arrivals : list (nat * (VerificationCheck * CheckResult))) : RuntimeResult :=
  let spec := VerificationSpec_Normalize (ts_Verification task) in
  if unverified spec
  then mkRuntimeResult true [] ((spec <| vs_VerifiedAt := 0 |>) <| vs_VerifiedBy := "" |>)
         "no verification required" duration
  else
    let slots := receive (map (slot r) (vs_Checks spec)) arrivals in
    conclude (spec <| vs_Checks := map fst slots |>) (map snd slots) actor now duration.

(** [EvaluateAll] with the results arriving in the order of the checks.  The executors
    are given copies of the task, whose checks have been normalised in place. *)
Definition pass_executions (r : VerifierRuntime) (task : TaskSpec) (outputs : TaskOutputs) (actor : string)
    (now : Z) (durations : nat -> Z) : list (nat * (VerificationCheck * CheckResult)) :=
  let checks := vs_Checks (VerificationSpec_Normalize (ts_Verification task)) in
  executions r (with_checks task checks) outputs actor now durations checks.

Definition EvaluateAll (r : VerifierRuntime) (task : TaskSpec) (outputs : TaskOutputs) (actor : string)
    (now clock duration : Z) (durations : nat -> Z) : RuntimeResult :=
  let now := if now <=? 0 then clock else now in
  evaluate_arriving r task actor now duration (pass_executions r task outputs actor now durations).

(** The data of reviews. *)
Record ReviewConstraints := mkReviewConstraints {
  rk_MaxDuration : Z;
  rk_RequireEvidence : bool;
  rk_RequireConfidence : bool
}.


Record ReviewRequest := mkReviewRequest {
  rw_TaskID : string;
  rw_RunID : string;
  rw_ReviewerID : string;
  rw_WorkerID : string;
  rw_Outputs : TaskOutputs;
  rw_AcceptanceCriteria : list TaskAcceptanceCriterion;
  rw_VerificationSpec : VerificationSpec;
  rw_Instructions : string;
  rw_Constraints : ReviewConstraints;
  rw_RequestedAt : Z
}.

#[export] Instance set_rw_Instructions : Setter rw_Instructions := fun v r =>
  mkReviewRequest (rw_TaskID r) (rw_RunID r) (rw_ReviewerID r) (rw_WorkerID r) (rw_Outputs r)
    (rw_AcceptanceCriteria r) (rw_VerificationSpec r) v (rw_Constraints r) (rw_RequestedAt r).

Record ReviewEvidence := mkReviewEvidence {
  re_Ref : string;
  re_Excerpt : string;
  re_Comment : string;
  re_Supports : bool
}.


Record CriterionResult := mkCriterionResult {
  cn_Description : string;
  cn_Passed : bool;
  cn_Comment : string
}.


Record ReviewResult := mkReviewResult {
  rs_TaskID : string;
  rs_RunID : string;
  rs_ReviewerID : string;
  rs_Verdict : string;
  rs_Comments : string;
  rs_Confidence : float64;
  rs_Evidence : list ReviewEvidence;
  rs_CriteriaResults : list CriterionResult;
  rs_ReviewedAt : Z;
  rs_Duration : Z;
  rs_Meta : gomap any
}.


Record ReviewSpec := mkReviewSpec {
  rz_ReviewerID : string;
  rz_ReviewerType : string;
  rz_AutoAssign : bool;
  rz_RequireSignoff : bool
}.


(** ** The built-in executors *)

Section Executors.

(** The strings among the elements of a [[]any] value. *)
Variable string_items : string -> list string.
(** [float64] as a dynamic value: its bits. *)
Variable float_bits : float64 -> Z.
(** The quoting of [%q]. *)
Variable quote : string -> string.

Definition trimmed_items (items : list string) : list string :=
  List.filter (fun s => s !=? "") (map TrimSpace items).

(** [stringList]; a missing key reads as nil. *)
Definition stringList (raw : option any) : list string :=
  match raw with
  | Some (VString v) => trimmed_items [v]
  | Some (VStrings v) => trimmed_items v
  | Some (VComposite v) => trimmed_items (string_items v)
  | _ => []
  end.

(** [v, _ := check.Meta[key].(string)] *)
Definition meta_string (meta : gomap any) (key : string) : string :=
  match map_read meta !! key with Some (VString s) => s | _ => "" end.

Definition boolMeta (meta : gomap any) (key : string) : option bool :=
  match map_read meta !! key with
  | Some (VBool b) => Some b
  | Some (VString s) =>
    go_switch (ToLower (TrimSpace s))
      [(["true"; "yes"; "approved"; "accepted"; "pass"; "passed"], Some true);
       (["false"; "no"; "rejected"; "denied"; "fail"; "failed"], Some false)] None
  | _ => None
  end.

Definition strings_before : string -> string -> bool := String.ltb.
Definition sorted_text (names : list string) : string := String.concat ", " (sort_by strings_before names).
Definition mapKeys (m : gomap any) : string := sorted_text (map fst (map_to_list (map_read m))).
Definition artifactMapKeys (artifacts : list TaskArtifact) : string := sorted_text (map af_Name artifacts).

Definition check_pass (result evidence : string) : string + CheckOutcome := inr (mkCheckOutcome true result evidence None).
Definition check_refuse (result : string) : string + CheckOutcome := inr (mkCheckOutcome false result "" None).
Definition check_refuse_with (result : string) (details : gmap string any) : string + CheckOutcome :=
  inr (mkCheckOutcome false result "" (Some details)).
Definition size_text {A} (l : list A) : string := pretty (Z.of_nat (length l)).

Definition schema_execute (check : VerificationCheck) (task : TaskSpec) (outputs : TaskOutputs)
  : string + CheckOutcome :=
  match op_StructuredOutput outputs with
  | None => check_refuse "no structured output to validate"
  | Some fields =>
    let requiredFields := stringList (map_read (vc_Meta check) !! "required_fields") in
    let evidence := "fields: " +:+ mapKeys (Some fields) in
    if Nat.eqb (length requiredFields) 0 then
      if Nat.eqb (size fields) 0 then check_refuse "structured output is empty"
      else check_pass ("structured output has " +:+ pretty (Z.of_nat (size fields)) +:+ " fields") evidence
    else
      let missing := List.filter (fun f => bool_decide (fields !! f = None)) requiredFields in
      if Nat.eqb (length missing) 0
      then check_pass ("all " +:+ size_text requiredFields +:+ " required fields present") evidence
      else check_refuse_with ("missing required fields: " +:+ String.concat ", " missing)
             {["missing_fields" := VStrings missing; "total_fields" := VInt (Z.of_nat (size fields))]}
  end.
Definition SchemaCheckExecutor : CheckExecutor := mkCheckExecutor VerificationCheckSchema schema_execute.

Definition evidence_execute (check : VerificationCheck) (task : TaskSpec) (outputs : TaskOutputs)
  : string + CheckOutcome :=
  let requiredArtifacts := stringList (map_read (vc_Meta check) !! "required_artifacts") in
  let artifacts := op_Artifacts outputs in
  if Nat.eqb (length requiredArtifacts) 0 then
    if Nat.eqb (length artifacts) 0 && (op_RawOutput outputs ==? "")
    then check_refuse "no output or artifacts to verify"
    else check_pass ("output present with " +:+ size_text artifacts +:+ " artifacts") (op_RawOutput outputs)
  else
    let missing := List.filter (fun name => negb (existsb (String.eqb name) (map af_Name artifacts)))
                     requiredArtifacts in
    if Nat.eqb (length missing) 0
    then check_pass ("all " +:+ size_text requiredArtifacts +:+ " required artifacts present")
           ("artifacts: " +:+ artifactMapKeys artifacts)
    else check_refuse_with ("missing required artifacts: " +:+ String.concat ", " missing)
           {["missing_artifacts" := VStrings missing; "present_artifacts" := VString (artifactMapKeys artifacts)]}.
Definition EvidenceCheckExecutor : CheckExecutor := mkCheckExecutor VerificationCheckEvidence evidence_execute.

(** The results of the tool calls, in some order of iteration. *)
Definition tool_results (outputs : TaskOutputs) : list (string * ToolCallResult) :=
  map_to_list (map_read (op_ToolResults outputs)).

Definition failed_call (x : string * ToolCallResult) : list string :=
  if tl_Error x.2 !=? "" then [tl_ToolName x.2 +:+ "(" +:+ x.1 +:+ "): " +:+ tl_Error x.2] else [].

Definition tool_called (results : list (string * ToolCallResult)) (name : string) : bool :=
  existsb (fun x => tl_ToolName x.2 ==? name) results.
Definition tool_succeeded (results : list (string * ToolCallResult)) (name : string) : bool :=
  existsb (fun x => (tl_ToolName x.2 ==? name) && (tl_Error x.2 ==? "")) results.

Definition part (l : list string) (what : string) : list string :=
  if Nat.eqb (length l) 0 then [] else [what +:+ String.concat ", " l].
Definition detail (l : list string) (key : string) (m : gmap string any) : gmap string any :=
  if Nat.eqb (length l) 0 then m else <[key := VStrings l]> m.

Definition test_execute (check : VerificationCheck) (task : TaskSpec) (outputs : TaskOutputs)
  : string + CheckOutcome :=
  let results := tool_results outputs in
  if Nat.eqb (length results) 0 then check_refuse "no tool results to verify"
  else
  let requiredTools := stringList (map_read (vc_Meta check) !! "required_tools") in
  if Nat.eqb (length requiredTools) 0 then
    let failures := sort_by strings_before (concat (map failed_call results)) in
    if Nat.eqb (length failures) 0 then check_pass ("all " +:+ size_text results +:+ " tool calls succeeded") ""
    else check_refuse_with (size_text failures +:+ " tool calls failed") {["failures" := VStrings failures]}
  else
    let missing := List.filter (fun n => negb (tool_called results n)) requiredTools in
    let failed := List.filter (fun n => tool_called results n && negb (tool_succeeded results n)) requiredTools in
    if Nat.eqb (length missing) 0 && Nat.eqb (length failed) 0
    then check_pass ("all " +:+ size_text requiredTools +:+ " required tools succeeded") ""
    else check_refuse_with ("required tools did not succeed ("
           +:+ String.concat "; " (part missing "not called: " ++ part failed "called but failed: ") +:+ ")")
           (detail failed "failed_tools" (detail missing "missing_tools" ∅)).
Definition ToolOutputCheckExecutor : CheckExecutor := mkCheckExecutor VerificationCheckTest test_execute.

Definition review_meta_execute (check : VerificationCheck) (task : TaskSpec) (outputs : TaskOutputs)
  : string + CheckOutcome :=
  let meta := vc_Meta check in
  let either a b := if meta_string meta a ==? "" then meta_string meta b else meta_string meta a in
  let comment := either "comment" "reason" in
  let details : gmap string any := {["reviewer" := VString (either "reviewer" "reviewed_by")]} in
  match match boolMeta meta "approved" with Some b => Some b | None => boolMeta meta "accepted" end with
  | None => check_refuse "review check requires explicit approved=true metadata"
  | Some false => inr (mkCheckOutcome false "review was not approved" comment (Some details))
  | Some true => inr (mkCheckOutcome true "review approved" comment (Some details))
  end.
Definition MetadataReviewCheckExecutor : CheckExecutor :=
  mkCheckExecutor VerificationCheckReview review_meta_execute.

(** The first result of the tool, in an order of iteration. *)
Definition dry_run_over (tool : string) (results : list (string * ToolCallResult)) : string + CheckOutcome :=
  match List.find (fun x => tl_ToolName x.2 ==? tool) results with
  | None => check_refuse ("dry-run tool " +:+ tool +:+ " was not called")
  | Some x =>
    if tl_Error x.2 !=? "" then check_refuse ("dry-run of " +:+ tool +:+ " failed: " +:+ tl_Error x.2)
    else check_pass ("dry-run of " +:+ tool +:+ " succeeded") (tl_Output x.2)
  end.

Definition evaluateDryRun (check : VerificationCheck) (outputs : TaskOutputs) : string + CheckOutcome :=
  let dryRunTool := meta_string (vc_Meta check) "tool" in
  if dryRunTool ==? "" then check_refuse "dry_run check missing 'tool' in meta"
  else dry_run_over dryRunTool (tool_results outputs).

(** Whether the text was found; the expected text is quoted. *)
Definition evaluateOutputContains (check : VerificationCheck) (outputs : TaskOutputs) : string + CheckOutcome :=
  let expected := meta_string (vc_Meta check) "contains" in
  if expected ==? "" then check_refuse "output_contains check missing 'contains' in meta"
  else if Contains (op_RawOutput outputs) expected then check_pass ("output contains " +:+ quote expected) ""
  else check_refuse ("output does not contain " +:+ quote expected).

Definition evaluateOutputNotEmpty (outputs : TaskOutputs) : string + CheckOutcome :=
  if negb (blank (op_RawOutput outputs)) || negb (Nat.eqb (size (map_read (op_StructuredOutput outputs))) 0)
  then check_pass "output is non-empty" "" else check_refuse "output is empty".

Definition custom_execute (check : VerificationCheck) (task : TaskSpec) (outputs : TaskOutputs)
  : string + CheckOutcome :=
  let evaluator := meta_string (vc_Meta check) "evaluator" in
  if evaluator ==? "dry_run" then evaluateDryRun check outputs
  else if evaluator ==? "output_contains" then evaluateOutputContains check outputs
  else if evaluator ==? "output_not_empty" then evaluateOutputNotEmpty outputs
  else check_refuse ("unknown custom evaluator " +:+ quote evaluator).
Definition DryRunCheckExecutor : CheckExecutor := mkCheckExecutor VerificationCheckCustom custom_execute.

Definition DefaultVerifierRuntime : VerifierRuntime :=
  Runtime_Register DryRunCheckExecutor
    (Runtime_Register ToolOutputCheckExecutor
      (Runtime_Register EvidenceCheckExecutor (Runtime_Register SchemaCheckExecutor NewVerifierRuntime))).

(** ** Reviews *)

Definition ReviewApproved : string := "approved".
Definition ReviewRejected : string := "rejected".
Definition ReviewRevise : string := "revise".

Definition ReviewVerdict_Valid (v : string) : bool :=
  go_switch v [([ReviewApproved; ReviewRejected; ReviewRevise], true)] false.
Definition IsApproval (v : string) : bool := v ==? ReviewApproved.


Definition ReviewerFunc : Type := ReviewRequest -> string + ReviewResult.
Definition ReviewPipeline : Type := option ReviewerFunc.
Definition NewReviewPipeline (executor : option ReviewerFunc) : ReviewPipeline := executor.

Definition RequestReview (task : TaskSpec) (runID workerID : string) (outputs : TaskOutputs)
    (reviewSpec : ReviewSpec) (now : Z) : ReviewRequest :=
  mkReviewRequest (ts_TaskID task) runID
    (if rz_ReviewerID reviewSpec ==? "" then "auto" else rz_ReviewerID reviewSpec) workerID outputs
    (ts_AcceptanceCriteria task) (ts_Verification task) "" (mkReviewConstraints 0 false false) now.

Definition ExecuteReview (p : ReviewPipeline) (req : ReviewRequest) : string + ReviewResult :=
  match p with
  | None => inl "no reviewer executor configured"
  | Some executor => executor req
  end.

Definition zero_float64 : float64 := S754_zero false.

Definition ValidateReviewResult (result_ : ReviewResult) (constraints : ReviewConstraints) : option error :=
  first_error
    [ error_if (negb (ReviewVerdict_Valid (rs_Verdict result_)))
        (Errorf "invalid review verdict %q" [ArgS (rs_Verdict result_)]);
      error_if (rk_RequireEvidence constraints && Nat.eqb (length (rs_Evidence result_)) 0)
        (Errorf "review verdict requires evidence" []);
      error_if (rk_RequireConfidence constraints && SFleb (rs_Confidence result_) zero_float64)
        (Errorf "review verdict requires confidence score" []) ].

(** [Execute] of the executor made by [NewReviewCheckExecutor]; [clock] is the time of
    the request. *)
Definition review_execute (pipeline : option ReviewPipeline) (spec : ReviewSpec) (clock : Z)
    (check : VerificationCheck) (task : TaskSpec) (outputs : TaskOutputs) : string + CheckOutcome :=
  match pipeline with
  | None => inl "no review pipeline configured"
  | Some p =>
    let workerID := if ts_AssignedAgent task ==? "" then ts_TaskID task else ts_AssignedAgent task in
    let req := RequestReview task (ts_CurrentRunID task) workerID outputs spec clock in
    match ExecuteReview p (req <| rw_Instructions := vc_Description check |>) with
    | inl err => inl ("review execution failed: " +:+ err)
    | inr r =>
      inr (mkCheckOutcome (IsApproval (rs_Verdict r))
             ("reviewer " +:+ rs_ReviewerID r +:+ ": " +:+ rs_Verdict r) (rs_Comments r)
             (Some {["verdict" := VString (rs_Verdict r); "reviewer" := VString (rs_ReviewerID r);
                     "confidence" := VFloat (float_bits (rs_Confidence r))]}))
    end
  end.

Definition NewReviewCheckExecutor (pipeline : option ReviewPipeline) (spec : ReviewSpec) (clock : Z)
  : CheckExecutor :=
  mkCheckExecutor VerificationCheckReview (review_execute pipeline spec clock).

Definition formatReviewEvidence (evidence : list ReviewEvidence) : string :=
  String.concat "; " (map (fun e => "[" +:+ re_Ref e +:+ "] " +:+ re_Comment e) evidence).

(** The result is written into the slice of the caller as well. *)
Definition ApplyReviewResult (spec : VerificationSpec) (r : ReviewResult) (now : Z) : VerificationSpec :=
  let spec := VerificationSpec_Normalize spec in
  match update_first
          (fun c => (vc_Type c ==? VerificationCheckReview) && negb (VerificationStatus_IsTerminal (vc_Status c)))
          (fun c => settle_check c (verdict_status (IsApproval (rs_Verdict r)))
                      (rs_Verdict r +:+ ": " +:+ rs_Comments r) (formatReviewEvidence (rs_Evidence r)) now
                      (rs_ReviewerID r)) (vs_Checks spec) with
  | None => spec
  | Some checks => spec <| vs_Checks := checks |>
  end.

End Executors.
