(* ===== verification/VerificationGate.v ===== *)
(** Gates on verified work: internal/planner/verification_gate.go and
    verification_telemetry.go, and the executor of internal/tasks/verification.go that
    the task runner of the daemon calls before it completes a task.

    The runtime, its executors and their durations are those of [Verifier].  A
    telemetry keeps the events it emitted and those it sent to its sink, if it has
    one; each method is called by one goroutine here. *)

From Stdlib Require Import String SpecFloat.
From stdpp Require Import base tactics decidable list gmap strings pretty.
From S2P Require Import Prelude Enums Verification Budget TaskModels Authority Duration Idempotency Verifier.

(** ** Gate results and risks *)

Definition GateAllow : string := "allow".
Definition GateBlock : string := "block".
Definition GateEscalate : string := "escalate".
Definition GateReplan : string := "replan".

Record GateResult := mkGateResult {
  gr_Decision : string;
  gr_Reason : string;
  gr_FailedChecks : list string;
  gr_Suggestion : string;
  gr_UpdatedSpec : VerificationSpec
}.

#[export] Instance set_gr_UpdatedSpec : Setter gr_UpdatedSpec := fun v r =>
  mkGateResult (gr_Decision r) (gr_Reason r) (gr_FailedChecks r) (gr_Suggestion r) v.

Definition GateResult_Allowed (g : GateResult) : bool := gr_Decision g ==? GateAllow.

Definition ActionRiskNone : string := "none".
Definition ActionRiskLow : string := "low".
Definition ActionRiskMedium : string := "medium".
Definition ActionRiskHigh : string := "high".
Definition ActionRiskCritical : string := "critical".

Definition ToolRiskClassifier : Type := string -> gomap any -> string.

Definition knownToolRisks : gmap string string := list_to_map
  (map (fun t => (t, ActionRiskHigh)) ["nostr_publish"; "nostr_send_dm"; "nostr_zap_send"]
   ++ map (fun t => (t, ActionRiskMedium)) ["config_set"; "config_unset"; "memory_compact"]
   ++ map (fun t => (t, ActionRiskLow))
        ["nostr_fetch"; "nostr_profile"; "nostr_followers"; "nostr_follows"; "relay_info"; "relay_list";
         "relay_ping"; "memory_search"; "nostr_resolve_nip05"; "nostr_relay_hints"; "nostr_wot_distance";
         "nostr_watch_list"]).

Definition mentions (patterns : list string) (s : string) : bool := existsb (Contains s) patterns.

Definition DefaultToolRiskClassifier : ToolRiskClassifier := fun toolName _ =>
  match knownToolRisks !! toolName with
  | Some risk => risk
  | None =>
    let lower := ToLower toolName in
    if mentions ["publish"; "send"; "zap"; "delete"] lower then ActionRiskHigh
    else if mentions ["set"; "config"; "unset"; "update"; "write"; "create"] lower then ActionRiskMedium
    else if mentions ["fetch"; "get"; "list"; "search"; "read"; "info"] lower then ActionRiskLow
    else ActionRiskMedium
  end.

(** ** The gate *)

(** The specification a result carries when the code leaves it out. *)
Definition zero_spec : VerificationSpec := mkVerificationSpec "" [] 0 "" None.

Record VerificationGate := mkVerificationGate {
  vg_runtime : VerifierRuntime;
  vg_classifier : ToolRiskClassifier
}.

Definition gate (decision reason suggestion : string) : GateResult :=
  mkGateResult decision reason [] suggestion zero_spec.

Definition risky (risk : string) : bool :=
  (risk ==? ActionRiskMedium) || (risk ==? ActionRiskHigh) || (risk ==? ActionRiskCritical).

Definition MayExecuteTool (auth : TaskAuthority) (spec : VerificationSpec) (toolName : string)
    (params : gomap any) (g : VerificationGate) : GateResult :=
  let spec := VerificationSpec_Normalize spec in
  if vs_Policy spec ==? VerificationPolicyNone then gate GateAllow "no verification policy" ""
  else
  let risk := vg_classifier g toolName params in
  if (risk ==? ActionRiskNone) || (risk ==? ActionRiskLow)
  then gate GateAllow ("tool " +:+ toolName +:+ " is " +:+ risk +:+ " risk") ""
  else
  let mode := TaskAuthority_EffectiveAutonomyMode auth AutonomyFull in
  if mode ==? AutonomyFull then
    if risk ==? ActionRiskCritical
    then gate GateEscalate
           ("tool " +:+ toolName +:+ " is critical risk — escalation required even in full autonomy")
           "request operator approval for critical actions"
    else gate GateAllow ("full autonomy permits " +:+ risk +:+ " risk tool " +:+ toolName) ""
  else if mode ==? AutonomyPlanApproval then
    if risky risk && negb (VerificationSpec_AllRequiredPassed spec)
    then gate GateBlock ("tool " +:+ toolName +:+ " is " +:+ risk +:+ " risk and verification not complete")
           "complete verification checks before executing risky tools"
    else gate GateAllow
           ("plan_approval permits " +:+ risk +:+ " risk tool " +:+ toolName +:+ " (verification passed)") ""
  else if mode ==? AutonomyStepApproval then
    if risky risk
    then gate GateEscalate
           ("tool " +:+ toolName +:+ " is " +:+ risk +:+ " risk — step approval requires operator review")
           "request step-level approval"
    else gate GateAllow ("step_approval permits low risk tool " +:+ toolName) ""
  else if mode ==? AutonomySupervised
  then gate GateEscalate ("supervised mode requires approval for tool " +:+ toolName)
         "request operator approval"
  else gate GateAllow "default allow" "".

Definition decideFailureResponse (mode : string) (failedChecks : list string) (summary : string)
  : GateResult :=
  let answer decision suffix suggestion :=
    mkGateResult decision ("verification failed: " +:+ summary +:+ suffix) failedChecks suggestion zero_spec in
  go_switch mode
    [([AutonomyFull], answer GateReplan " — replanning to address failures"
        "review failed checks and adjust approach");
     ([AutonomyPlanApproval], answer GateBlock " — blocked until resolved"
        "fix failing checks or request operator override");
     ([AutonomyStepApproval; AutonomySupervised], answer GateEscalate " — escalating to operator"
        "operator review required for failed verification")]
    (answer GateBlock "" "").

(** The three classes of unfinished results, in the order of the [switch]. *)
Definition pending_ids (results : list CheckResult) : list string :=
  map cx_CheckID (List.filter cx_Pending results).
Definition error_ids (results : list CheckResult) : list string :=
  map cx_CheckID (List.filter (fun cr => negb (cx_Pending cr) && (cx_Error cr !=? "")) results).
Definition failed_ids (results : list CheckResult) : list string :=
  map cx_CheckID (List.filter (fun cr => negb (cx_Pending cr) && (cx_Error cr ==? "")
                                         && negb (oc_Passed (cx_Outcome cr))) results).

Definition Gate_MayComplete (task : TaskSpec) (outputs : TaskOutputs) (actor : string)
    (now clock duration : Z) (durations : nat -> Z) (g : VerificationGate) : GateResult :=
  let spec := VerificationSpec_Normalize (ts_Verification task) in
  if unverified spec then gate GateAllow "no verification required for completion" ""
  else
  let r := EvaluateAll (vg_runtime g) task outputs actor now clock duration durations in
  if rx_Passed r
  then (gate GateAllow "all verification checks passed" "") <| gr_UpdatedSpec := rx_UpdatedSpec r |>
  else
  let failedChecks := failed_ids (rx_CheckResults r) in
  let allBlocking := failedChecks ++ pending_ids (rx_CheckResults r) ++ error_ids (rx_CheckResults r) in
  let mode := TaskAuthority_EffectiveAutonomyMode (ts_Authority task) AutonomyFull in
  if vs_Policy spec ==? VerificationPolicyAdvisory
  then mkGateResult GateAllow
         ("advisory: " +:+ size_text failedChecks +:+ " checks failed but completion allowed")
         failedChecks "" (rx_UpdatedSpec r)
  else (decideFailureResponse mode allBlocking (rx_Summary r)) <| gr_UpdatedSpec := rx_UpdatedSpec r |>.

Definition FormatGateResult (r : GateResult) : string :=
  "Gate: " +:+ gr_Decision r +:+ " — " +:+ gr_Reason r
  +:+ (if Nat.eqb (length (gr_FailedChecks r)) 0 then ""
       else " (failed: " +:+ String.concat ", " (gr_FailedChecks r) +:+ ")")
  +:+ (if gr_Suggestion r ==? "" then "" else " → " +:+ gr_Suggestion r).

(** ** Telemetry *)

Definition VerifEventStarted : string := "verification.started".
Definition VerifEventCheckRun : string := "verification.check.run".
Definition VerifEventCheckPass : string := "verification.check.pass".
Definition VerifEventCheckFail : string := "verification.check.fail".
Definition VerifEventCheckErr : string := "verification.check.error".
Definition VerifEventCompleted : string := "verification.completed".
Definition VerifEventGateBlock : string := "verification.gate.block".
Definition VerifEventGateAllow : string := "verification.gate.allow".
Definition VerifEventReview : string := "verification.review".

Record VerificationEvent := mkVerificationEvent {
  ve_Type : string;
  ve_TaskID : string;
  ve_RunID : string;
  ve_GoalID : string;
  ve_StepID : string;
  ve_CheckID : string;
  ve_CheckType : string;
  ve_Status : string;
  ve_Result : string;
  ve_Evidence : string;
  ve_ReviewerID : string;
  ve_Confidence : float64;
  ve_Duration : Z;
  ve_GateAction : string;
  ve_CreatedAt : Z;
  ve_Meta : gomap any
}.


Record CheckDetail := mkCheckDetail {
  cy_CheckID : string;
  cy_Type : string;
  cy_Required : bool;
  cy_Status : string;
  cy_Result : string;
  cy_Evidence : string;
  cy_EvaluatedBy : string;
  cy_EvaluatedAt : Z
}.


Record VerificationSummary := mkVerificationSummary {
  vy_TaskID : string;
  vy_RunID : string;
  vy_Policy : string;
  vy_TotalChecks : Z;
  vy_PassedChecks : Z;
  vy_FailedChecks : Z;
  vy_PendingChecks : Z;
  vy_ErrorChecks : Z;
  vy_Passed : bool;
  vy_VerifiedAt : Z;
  vy_VerifiedBy : string;
  vy_Duration : Z;
  vy_CheckDetails : list CheckDetail;
  vy_GateDecision : string
}.


Record VerificationTelemetry := mkVerificationTelemetry {
  vt_sink : bool;
  vt_events : list VerificationEvent;
  vt_sent : list VerificationEvent
}.


Definition NewVerificationTelemetry (sink : bool) : VerificationTelemetry :=
  mkVerificationTelemetry sink [] [].

Definition Telemetry_Emit (event : VerificationEvent) (t : VerificationTelemetry) : VerificationTelemetry :=
  mkVerificationTelemetry (vt_sink t) (vt_events t ++ [event])
    (if vt_sink t then vt_sent t ++ [event] else vt_sent t).

Definition Telemetry_Events (t : VerificationTelemetry) : list VerificationEvent := vt_events t.

Definition statusFromOutcome (cr : CheckResult) : string :=
  if cx_Error cr !=? "" then "error" else if oc_Passed (cx_Outcome cr) then "passed" else "failed".

Definition started_event (taskID runID : string) (r : RuntimeResult) (now : Z) : VerificationEvent :=
  mkVerificationEvent VerifEventStarted taskID runID "" "" "" "" "" "" "" "" zero_float64 0 "" now
    (Some {["total_checks" := VInt (Z.of_nat (length (rx_CheckResults r)))]}).

Definition check_event (taskID runID : string) (now : Z) (cr : CheckResult) : VerificationEvent :=
  mkVerificationEvent
    (if oc_Passed (cx_Outcome cr) then VerifEventCheckPass
     else if cx_Error cr !=? "" then VerifEventCheckErr
     else if negb (oc_Passed (cx_Outcome cr)) then VerifEventCheckFail else VerifEventCheckRun)
    taskID runID "" "" (cx_CheckID cr) (cx_Type cr) (statusFromOutcome cr) (oc_Result (cx_Outcome cr))
    (oc_Evidence (cx_Outcome cr)) "" zero_float64 (cx_Duration cr) "" now None.

Definition completed_event (taskID runID : string) (r : RuntimeResult) (now : Z) : VerificationEvent :=
  mkVerificationEvent VerifEventCompleted taskID runID "" "" "" "" (if rx_Passed r then "passed" else "failed")
    (rx_Summary r) "" "" zero_float64 (rx_Duration r) "" now None.

Definition EmitRuntimeEvents (taskID runID : string) (r : RuntimeResult) (now : Z)
    (t : option VerificationTelemetry) : option VerificationTelemetry :=
  let emit t event := Telemetry_Emit event t in
  (fun t => Telemetry_Emit (completed_event taskID runID r now)
     (fold_left emit (map (check_event taskID runID now) (rx_CheckResults r))
       (Telemetry_Emit (started_event taskID runID r now) t))) <$> t.

Definition EmitGateEvent (taskID runID : string) (g : GateResult) (now : Z)
    (t : option VerificationTelemetry) : option VerificationTelemetry :=
  Telemetry_Emit (mkVerificationEvent (if negb (GateResult_Allowed g) then VerifEventGateBlock
                                       else VerifEventGateAllow)
    taskID runID "" "" "" "" "" (gr_Reason g) "" "" zero_float64 0 (gr_Decision g) now
    (Some {["failed_checks" := VStrings (gr_FailedChecks g); "suggestion" := VString (gr_Suggestion g)]})) <$> t.

Definition EmitReviewEvent (taskID runID : string) (review : ReviewResult) (now : Z)
    (t : option VerificationTelemetry) : option VerificationTelemetry :=
  Telemetry_Emit (mkVerificationEvent VerifEventReview taskID runID "" "" "" "" (rs_Verdict review)
    (rs_Comments review) "" (rs_ReviewerID review) (rs_Confidence review) (rs_Duration review) "" now None) <$> t.

Definition check_detail (c : VerificationCheck) : CheckDetail :=
  mkCheckDetail (vc_CheckID c) (vc_Type c) (vc_Required c) (vc_Status c) (vc_Result c) (vc_Evidence c)
    (vc_EvaluatedBy c) (vc_EvaluatedAt c).

Definition BuildVerificationSummary (taskID runID : string) (spec : VerificationSpec)
    (result_ : option RuntimeResult) (g : option GateResult) : VerificationSummary :=
  let spec := VerificationSpec_Normalize spec in
  let checks := vs_Checks spec in
  let has s c := vc_Status c ==? s in
  let failed := count (has VerificationStatusFailed) checks in
  let errors := count (has VerificationStatusError) checks in
  let pending := count (fun c => negb (check_passed_or_skipped c) && negb (has VerificationStatusFailed c)
                                 && negb (has VerificationStatusError c)) checks in
  let '(passed, at_, by_, duration) :=
    match result_ with
    | Some r =>
      (rx_Passed r,
       (if vs_VerifiedAt (rx_UpdatedSpec r) =? 0 then vs_VerifiedAt spec else vs_VerifiedAt (rx_UpdatedSpec r)),
       (if vs_VerifiedBy (rx_UpdatedSpec r) ==? "" then vs_VerifiedBy spec else vs_VerifiedBy (rx_UpdatedSpec r)),
       rx_Duration r)
    | None => ((failed =? 0) && (errors =? 0) && (pending =? 0), vs_VerifiedAt spec, vs_VerifiedBy spec, 0)
    end in
  mkVerificationSummary taskID runID (vs_Policy spec) (Z.of_nat (length checks))
    (count check_passed_or_skipped checks) failed pending errors passed at_ by_ duration
    (map check_detail checks) (match g with None => "" | Some g => gr_Decision g end).

(** ** The executor of the task runner *)

Record VerificationExecution := mkVerificationExecution {
  vx_RuntimeResult : RuntimeResult;
  vx_Gate : GateResult;
  vx_Events : list VerificationEvent;
  vx_Summary : VerificationSummary
}.


Definition check_incomplete (cr : CheckResult) : bool :=
  cx_Pending cr || (cx_Error cr !=? "") || negb (oc_Passed (cx_Outcome cr)).

Definition verificationBlockingChecks (r : RuntimeResult) : list string :=
  map cx_CheckID (List.filter (fun cr => cx_Required cr && check_incomplete cr) (rx_CheckResults r)).

Definition VerificationGateFromRuntimeResult (task : TaskSpec) (r : RuntimeResult) : GateResult :=
  if rx_Passed r then (gate GateAllow (rx_Summary r) "") <| gr_UpdatedSpec := rx_UpdatedSpec r |>
  else mkGateResult GateBlock (rx_Summary r) (verificationBlockingChecks r)
         "resolve failed verification checks before completing the task" (rx_UpdatedSpec r).

(** [runtime] is the configured runtime, or the default one in its place; [clock] is
    the reading of the configured clock, and [time] that of [EvaluateAll]. *)
Definition Verification_Execute (runtime : VerifierRuntime) (task : TaskSpec) (run : TaskRun)
    (outputs : TaskOutputs) (actor : string) (clock time duration : Z) (durations : nat -> Z)
  : VerificationExecution :=
  let actor := if blank actor then "task_runner" else actor in
  let task := TaskSpec_Normalize task in
  let run := TaskRun_Normalize run in
  let r := EvaluateAll runtime task outputs actor clock time duration durations in
  let g := VerificationGateFromRuntimeResult task r in
  let t := EmitGateEvent (ts_TaskID task) (tr_RunID run) g clock
             (EmitRuntimeEvents (ts_TaskID task) (tr_RunID run) r clock
                (Some (NewVerificationTelemetry false))) in
  mkVerificationExecution r g (match t with None => [] | Some t => Telemetry_Events t end)
    (BuildVerificationSummary (ts_TaskID task) (tr_RunID run) (rx_UpdatedSpec r) (Some r) (Some g)).
