(* ===== verification/VerifierProps.v ===== *)
(** Properties of the verification runtime, the gates built on it, and their agreement
    with the lifecycle of tasks. *)

From Stdlib Require Import String.
From stdpp Require Import base tactics decidable list gmap strings pretty.
From S2P Require Import Prelude Enums Verification Budget TaskModels Lifecycle Authority Modes Idempotency Verifier VerificationGate.

(** ** Collecting results by index *)

Lemma receive_length {A} arrivals (slots : list A) : length (receive slots arrivals) = length slots.
Proof.
  unfold receive. revert slots. induction arrivals as [|x l IH]; intros slots; cbn; [done|].
  by rewrite IH, length_insert.
Qed.

Lemma receive_other {A} arrivals (slots : list A) i :
  i ∉ arrivals.*1 -> receive slots arrivals !! i = slots !! i.
Proof.
  unfold receive. revert slots. induction arrivals as [|x l IH]; intros slots Hi; cbn; [done|].
  cbn in Hi. apply not_elem_of_cons in Hi as [Hx Hl]. rewrite IH by done. by apply list_lookup_insert_ne.
Qed.

Lemma receive_lookup {A} arrivals (slots : list A) i a :
  NoDup arrivals.*1 -> (i, a) ∈ arrivals -> (i < length slots)%nat -> receive slots arrivals !! i = Some a.
Proof.
  revert slots. induction arrivals as [|x l IH]; intros slots Hnd Hin Hlt; [by apply not_elem_of_nil in Hin|].
  cbn in Hnd. apply NoDup_cons in Hnd as [Hx Hnd].
  change (receive slots (x :: l)) with (receive (<[x.1:=x.2]> slots) l).
  apply elem_of_cons in Hin as [<-|Hin]; cbn in Hx |- *.
  - rewrite receive_other by done. by apply list_lookup_insert_eq.
  - apply IH; [done..|]. by rewrite length_insert.
Qed.

Lemma omap_keys {A B} (f : nat * A -> option (nat * B)) l :
  (forall x y, f x = Some y -> y.1 = x.1) -> NoDup l.*1 -> NoDup (omap f l).*1.
Proof.
  intros Hf. induction l as [|x l IH]; cbn; [done|]. intros [Hx Hnd]%NoDup_cons.
  destruct (f x) as [y|] eqn:E; [|by apply IH]. cbn. rewrite (Hf _ _ E). apply NoDup_cons. split; [|by apply IH].
  contradict Hx. apply list_elem_of_fmap in Hx as (z & Hz & Hin). apply list_elem_of_omap in Hin as (w & Hw & Hwf).
  apply list_elem_of_fmap. exists w. split; [|done]. by rewrite Hz, (Hf _ _ Hwf).
Qed.

Lemma indexed_nodup {A} (l : list A) : NoDup (imap pair l).*1.
Proof.
  apply NoDup_alt. intros i j x. rewrite !list_lookup_fmap, !list_lookup_imap.
  destruct (l !! i), (l !! j); cbn; congruence.
Qed.

Lemma elem_of_indexed {A} (l : list A) i a : (i, a) ∈ imap pair l <-> l !! i = Some a.
Proof.
  rewrite elem_of_lookup_imap. split.
  - intros (j & b & [= -> ->] & H). exact H.
  - intros H. eauto.
Qed.

(** ** What a pass does to each check *)

Section Pass.
Context (r : VerifierRuntime) (task : TaskSpec) (outputs : TaskOutputs) (actor : string) (now : Z)
        (durations : nat -> Z).

(** The check and the result that a pass leaves for the [i]-th check. *)
Definition pass_settled (i : nat) (check : VerificationCheck) : VerificationCheck * CheckResult :=
  match executor_of r check with
  | Some ex => run_check task outputs actor now check ex (durations i)
  | None => slot r check
  end.

Lemma executions_spec checks i p :
  (i, p) ∈ executions r task outputs actor now durations checks
  <-> exists c ex, checks !! i = Some c /\ executor_of r c = Some ex
                   /\ p = run_check task outputs actor now c ex (durations i).
Proof.
  unfold executions. rewrite list_elem_of_omap. split.
  - intros ([j c] & Hin%elem_of_indexed & Hf). cbn in Hf.
    destruct (executor_of r c) as [ex|] eqn:E; [|done]. injection Hf as -> <-. eauto.
  - intros (c & ex & Hl & He & ->). exists (i, c). rewrite elem_of_indexed. cbn. by rewrite He.
Qed.

Lemma executions_nodup checks : NoDup (executions r task outputs actor now durations checks).*1.
Proof.
  apply omap_keys; [|apply indexed_nodup]. intros x y. destruct (executor_of r x.2); [|done].
  by intros [= <-].
Qed.

Lemma received checks arrivals :
  arrivals ≡ₚ executions r task outputs actor now durations checks ->
  receive (map (slot r) checks) arrivals = imap pass_settled checks.
Proof.
  intros Hp. assert (NoDup arrivals.*1) as Hnd.
  { rewrite Hp. apply executions_nodup. }
  apply list_eq. intros i. rewrite list_lookup_imap. destruct (checks !! i) as [c|] eqn:Hc; cbn.
  - unfold pass_settled. destruct (executor_of r c) as [ex|] eqn:E.
    + apply receive_lookup; [done| |].
      * rewrite Hp. apply executions_spec. eauto.
      * rewrite length_map. by eapply lookup_lt_Some.
    + rewrite receive_other.
      * change (map (slot r) checks) with (slot r <$> checks). by rewrite list_lookup_fmap, Hc.
      * rewrite list_elem_of_fmap. intros ([j p] & -> & Hin). rewrite Hp in Hin.
        apply executions_spec in Hin as (c' & ex & Hl & He & _). cbn in Hc. congruence.
  - apply lookup_ge_None. rewrite receive_length, length_map. by apply lookup_ge_None.
Qed.

End Pass.

(** ** The verdict *)

Lemma terminal_cases s :
  VerificationStatus_IsTerminal s = true ->
  s = VerificationStatusPassed \/ s = VerificationStatusFailed
  \/ s = VerificationStatusSkipped \/ s = VerificationStatusError.
Proof.
  intros H. apply go_switch_true in H as [[H _]|H]; [|discriminate].
  rewrite list_elem_of_In in H. cbn in H. intuition congruence.
Qed.

Lemma open_not_passed c :
  VerificationStatus_IsTerminal (vc_Status c) = false -> check_passed_or_skipped c = false.
Proof.
  unfold check_passed_or_skipped. destruct (String.eqb_spec (vc_Status c) VerificationStatusPassed) as [->|_]; [done|].
  by destruct (String.eqb_spec (vc_Status c) VerificationStatusSkipped) as [->|_].
Qed.

Lemma to_pending_open c :
  VerificationStatus_IsTerminal (vc_Status c) = false -> check_passed_or_skipped (to_pending c) = false.
Proof. unfold to_pending. destruct (vc_Status c ==? VerificationStatusRunning); [done|]. apply open_not_passed. Qed.

Lemma verdict_blocks c p result evidence now actor :
  check_passed_or_skipped (settle_check c (verdict_status p) result evidence now actor) = p.
Proof. by destruct p. Qed.

(** Results and updated checks agree: a result blocks exactly when its check is
    required and has not passed. *)
Definition agree (x : VerificationCheck * CheckResult) : Prop :=
  cx_CheckID x.2 = vc_CheckID x.1
  /\ cx_blocks x.2 = vc_Required x.1 && negb (check_passed_or_skipped x.1).

Lemma settled_agrees r task outputs actor now durations i c :
  agree (pass_settled r task outputs actor now durations i c).
Proof.
  unfold agree, pass_settled, executor_of, slot. destruct (VerificationStatus_IsTerminal (vc_Status c)) eqn:T.
  - unfold cx_blocks, terminal_result. cbn -[check_passed_or_skipped]. split; [done|]. f_equal.
    unfold check_passed_or_skipped. destruct (terminal_cases _ T) as [->|[->|[->| ->]]]; try done.
    cbn. destruct (vc_Result c ==? "") eqn:E; cbn; by rewrite ?E.
  - destruct (r !! vc_Type c) as [ex|].
    + unfold run_check. destruct (ce_Execute ex _ _ _) as [err|o].
      * split; [done|]. unfold cx_blocks. cbn. by rewrite orb_true_r.
      * split; [done|]. unfold cx_blocks. cbn -[check_passed_or_skipped settle_check].
        rewrite verdict_blocks. by cbn.
    + unfold cx_blocks, pending_result. cbn -[check_passed_or_skipped].
      rewrite to_pending_open by done. unfold to_pending. by destruct (vc_Status c ==? VerificationStatusRunning).
Qed.

Lemma no_blocks (l : list (VerificationCheck * CheckResult)) :
  Forall agree l ->
  Nat.eqb (length (map cx_CheckID (List.filter cx_blocks (map snd l)))) 0 = all_required_passed (map fst l).
Proof.
  induction 1 as [|[c cr] l [_ Hb] Hl IH]; cbn -[check_passed_or_skipped]; [done|].
  cbn in Hb. rewrite Hb. unfold check_passed_or_skipped in *. rewrite negb_orb.
  destruct (vc_Required c); cbn; [|exact IH].
  destruct (vc_Status c ==? VerificationStatusPassed), (vc_Status c ==? VerificationStatusSkipped); cbn; auto.
Qed.

(** The stamp of a concluded pass. *)
Definition verdict_stamped (spec : VerificationSpec) (actor : string) (now : Z) : Prop :=
  if VerificationSpec_AllRequiredPassed spec then vs_VerifiedAt spec = now /\ vs_VerifiedBy spec = actor
  else vs_VerifiedAt spec = 0 /\ vs_VerifiedBy spec = "".

Lemma conclude_exact spec slots actor now duration :
  Forall agree slots ->
  let res := conclude (spec <| vs_Checks := map fst slots |>) (map snd slots) actor now duration in
  vs_Checks (rx_UpdatedSpec res) = map fst slots /\ rx_CheckResults res = map snd slots
  /\ vs_Policy (rx_UpdatedSpec res) = vs_Policy spec
  /\ rx_Passed res = (vs_Policy spec ==? VerificationPolicyAdvisory)
                     || VerificationSpec_AllRequiredPassed (rx_UpdatedSpec res)
  /\ verdict_stamped (rx_UpdatedSpec res) actor now.
Proof.
  intros Ha. cbv zeta. unfold conclude, verdict_stamped. cbn [rx_UpdatedSpec rx_CheckResults rx_Passed].
  rewrite (no_blocks _ Ha). unfold VerificationSpec_AllRequiredPassed.
  change (vs_Checks (spec <| vs_Checks := map fst slots |>)) with (map fst slots).
  destruct (all_required_passed (map fst slots)) eqn:E; cbn; rewrite E;
    destruct (vs_Policy spec ==? VerificationPolicyAdvisory); repeat split; done.
Qed.

(** ** A whole pass *)

(** The status a pass gives a check: that of its executor's verdict, or the old one. *)
Definition expected_status (r : VerifierRuntime) (task : TaskSpec) (outputs : TaskOutputs)
    (c : VerificationCheck) : string :=
  match executor_of r c with
  | Some ex =>
    match ce_Execute ex (clone_check c) (cloneTaskSpecForVerification task) (cloneTaskOutputs outputs) with
    | inl _ => VerificationStatusError
    | inr outcome => verdict_status (oc_Passed outcome)
    end
  | None => if vc_Status c ==? VerificationStatusRunning then VerificationStatusPending else vc_Status c
  end.

Lemma settled_check r task outputs actor now durations i c :
  let c' := (pass_settled r task outputs actor now durations i c).1 in
  vc_CheckID c' = vc_CheckID c /\ vc_Type c' = vc_Type c /\ vc_Required c' = vc_Required c
  /\ vc_Status c' = expected_status r task outputs c
  /\ (VerificationStatus_IsTerminal (vc_Status c) = true -> c' = c).
Proof.
  cbv zeta. unfold pass_settled, expected_status, executor_of, slot.
  destruct (VerificationStatus_IsTerminal (vc_Status c)) eqn:T; cbn.
  - repeat split; auto. by destruct (String.eqb_spec (vc_Status c) VerificationStatusRunning) as [E|_]; [rewrite E in T|].
  - destruct (r !! vc_Type c) as [ex|]; cbn.
    + unfold run_check. by destruct (ce_Execute ex _ _ _).
    + unfold to_pending. by destruct (vc_Status c ==? VerificationStatusRunning).
Qed.

Lemma settled_normal r task outputs actor now durations i c :
  VerificationCheck_Normalize c = c ->
  VerificationCheck_Normalize (pass_settled r task outputs actor now durations i c).1
  = (pass_settled r task outputs actor now durations i c).1.
Proof.
  intros Hc. assert (NormalizeVerificationStatus (vc_Status c) = vc_Status c) as Hs.
  { exact (f_equal vc_Status Hc). }
  assert (forall x, NormalizeVerificationStatus (vc_Status x) = vc_Status x -> VerificationCheck_Normalize x = x)
    as Hfix by (intros [] H; unfold VerificationCheck_Normalize; cbn in *; by rewrite H).
  apply Hfix. destruct (settled_check r task outputs actor now durations i c) as (_ & _ & _ & -> & _).
  unfold expected_status. destruct (executor_of r c) as [ex|].
  - destruct (ce_Execute ex _ _ _) as [|o]; [done|]. by destruct (oc_Passed o).
  - by destruct (vc_Status c ==? VerificationStatusRunning).
Qed.

Lemma pass_concludes r task outputs actor now duration durations arrivals :
  let spec := VerificationSpec_Normalize (ts_Verification task) in
  let seen := with_checks task (vs_Checks spec) in
  arrivals ≡ₚ pass_executions r task outputs actor now durations ->
  unverified spec = false ->
  exists slots, slots = imap (pass_settled r seen outputs actor now durations) (vs_Checks spec)
    /\ Forall agree slots
    /\ evaluate_arriving r task actor now duration arrivals
       = conclude (spec <| vs_Checks := map fst slots |>) (map snd slots) actor now duration.
Proof.
  cbv zeta. intros Hp Hu. eexists. split; [done|]. split.
  - apply Forall_forall. intros x (i & c & -> & _)%elem_of_lookup_imap. apply settled_agrees.
  - unfold evaluate_arriving. rewrite Hu. unfold pass_executions in Hp.
    by rewrite (received _ _ _ _ _ _ _ _ Hp).
Qed.

(** C22: A verification pass is exact, in whatever order its goroutines finish: the
    outcome does not depend on that order; a settled check keeps its verdict, a check
    with an executor gets that of its executor, an erring one included, and any other
    stays open; the pass succeeds exactly when the policy is advisory or every
    required check has passed, and only then is the contract verdict_stamped as verified. *)
Theorem verification_pass_is_exact r task outputs actor now duration durations arrivals :
  let spec := VerificationSpec_Normalize (ts_Verification task) in
  let seen := with_checks task (vs_Checks spec) in
  let res := evaluate_arriving r task actor now duration arrivals in
  let updated := rx_UpdatedSpec res in
  arrivals ≡ₚ pass_executions r task outputs actor now durations ->
  unverified spec = false ->
  res = evaluate_arriving r task actor now duration (pass_executions r task outputs actor now durations)
  /\ length (vs_Checks updated) = length (vs_Checks spec)
  /\ (forall i c, vs_Checks spec !! i = Some c -> exists c', vs_Checks updated !! i = Some c'
        /\ vc_CheckID c' = vc_CheckID c /\ vc_Type c' = vc_Type c /\ vc_Required c' = vc_Required c
        /\ vc_Status c' = expected_status r seen outputs c
        /\ (VerificationStatus_IsTerminal (vc_Status c) = true -> c' = c))
  /\ rx_Passed res = (vs_Policy spec ==? VerificationPolicyAdvisory) || VerificationSpec_AllRequiredPassed updated
  /\ verdict_stamped updated actor now.
Proof.
  cbv zeta. intros Hp Hu.
  destruct (pass_concludes r task outputs actor now duration durations arrivals Hp Hu) as (slots & Hs & Ha & He).
  destruct (pass_concludes r task outputs actor now duration durations _ (Permutation_refl _) Hu)
    as (slots' & Hs' & _ & He').
  rewrite He, He', Hs', <- Hs. destruct (conclude_exact (VerificationSpec_Normalize (ts_Verification task))
    slots actor now duration Ha) as (Hc & _ & _ & Hv & Hst).
  cbv zeta in Hc, Hv, Hst. rewrite Hc. split; [done|]. split; [|split; [|split; [exact Hv|exact Hst]]].
  - by rewrite length_map, Hs, length_imap.
  - intros i c Hi. eexists. split; [|apply settled_check].
    change (map fst slots) with (fst <$> slots). by rewrite list_lookup_fmap, Hs, list_lookup_imap, Hi.
Qed.

(** ** The gates *)

Lemma normal_spec_fix policy checks at_ by_ meta :
  NormalizeVerificationPolicy policy = policy -> map VerificationCheck_Normalize checks = checks ->
  let v := mkVerificationSpec policy checks at_ by_ meta in VerificationSpec_Normalize v = v.
Proof. intros Hp Hc. cbv zeta. unfold VerificationSpec_Normalize. by_fields; done. Qed.

Lemma normalized_checks_fix v :
  map VerificationCheck_Normalize (vs_Checks (VerificationSpec_Normalize v))
  = vs_Checks (VerificationSpec_Normalize v).
Proof. apply map_check_normalize_idem. Qed.

Lemma map_fix {A} (f : A -> A) l : map f l = l <-> Forall (fun x => f x = x) l.
Proof.
  induction l as [|x l IH]; cbn; [done|]. rewrite Forall_cons, <- IH. split; [by intros [= -> ->]|].
  intros [-> ->]. done.
Qed.

Lemma updated_normal r task outputs actor now clock duration durations :
  let updated := rx_UpdatedSpec (EvaluateAll r task outputs actor now clock duration durations) in
  VerificationSpec_Normalize updated = updated
  /\ vs_Policy updated = vs_Policy (VerificationSpec_Normalize (ts_Verification task)).
Proof.
  cbv zeta. unfold EvaluateAll. set (t := if now <=? 0 then clock else now).
  destruct (unverified (VerificationSpec_Normalize (ts_Verification task))) eqn:Hu.
  - unfold evaluate_arriving. rewrite Hu. cbn [rx_UpdatedSpec]. split; [|done].
    apply normal_spec_fix; [apply NormalizeVerificationPolicy_idem|apply normalized_checks_fix].
  - destruct (pass_concludes r task outputs actor t duration durations _ (Permutation_refl _) Hu)
      as (slots & Hs & Ha & ->).
    destruct (conclude_exact (VerificationSpec_Normalize (ts_Verification task)) slots actor t duration Ha)
      as (Hc & _ & Hp & _ & _). cbv zeta in Hc, Hp. split; [|exact Hp].
    match goal with |- VerificationSpec_Normalize ?x = ?x => destruct x as [p cs a b m] end.
    cbn in Hc, Hp. subst p cs. apply normal_spec_fix; [apply NormalizeVerificationPolicy_idem|].
    apply map_fix, Forall_forall. intros c Hin. change (map fst slots) with (fst <$> slots) in Hin.
    apply list_elem_of_fmap in Hin as (x & -> & Hin). rewrite Hs in Hin.
    apply elem_of_lookup_imap in Hin as (i & c & -> & Hi). apply settled_normal.
    pose proof (proj1 (map_fix _ _) (normalized_checks_fix (ts_Verification task))) as Hn.
    rewrite Forall_forall in Hn. apply Hn. by eapply list_elem_of_lookup_2.
Qed.

Lemma evaluate_verdict r task outputs actor now clock duration durations :
  let res := EvaluateAll r task outputs actor now clock duration durations in
  let spec := VerificationSpec_Normalize (ts_Verification task) in
  rx_Passed res = unverified spec || (vs_Policy spec ==? VerificationPolicyAdvisory)
                  || VerificationSpec_AllRequiredPassed (rx_UpdatedSpec res).
Proof.
  cbv zeta. unfold EvaluateAll. set (t := if now <=? 0 then clock else now).
  destruct (unverified (VerificationSpec_Normalize (ts_Verification task))) eqn:Hu.
  - unfold evaluate_arriving. by rewrite Hu.
  - destruct (pass_concludes r task outputs actor t duration durations _ (Permutation_refl _) Hu)
      as (slots & _ & Ha & ->). by apply conclude_exact.
Qed.

Lemma summarize_verdict spec :
  vr_Passed (summarize spec)
  = (vs_Policy spec ==? VerificationPolicyAdvisory) || VerificationSpec_AllRequiredPassed spec.
Proof.
  unfold summarize, VerificationSpec_AllRequiredPassed. cbn [vr_Passed].
  destruct (vs_Policy spec ==? VerificationPolicyAdvisory); [done|]. cbn [orb].
  induction (vs_Checks spec) as [|c cs IH]; [done|]. cbn -[check_passed_or_skipped].
  unfold check_passed_or_skipped in *. rewrite negb_orb, andb_comm.
  destruct (vc_Required c); cbn; [|exact IH].
  by destruct (vc_Status c ==? VerificationStatusPassed), (vc_Status c ==? VerificationStatusSkipped).
Qed.

Lemma NormalizeVerificationPolicy_known s : NormalizeVerificationPolicy s ∈ VerificationPolicy_values.
Proof.
  unfold NormalizeVerificationPolicy. destruct (ParseVerificationPolicy s) as [v []] eqn:E.
  - by eapply (enum_sound (parse := ParseVerificationPolicy)).
  - apply (bool_decide_unpack _). reflexivity.
Qed.

Lemma NormalizeVerificationStatus_known s : NormalizeVerificationStatus s ∈ VerificationStatus_values.
Proof.
  unfold NormalizeVerificationStatus. destruct (ParseVerificationStatus s) as [v []] eqn:E.
  - by eapply (enum_sound (parse := ParseVerificationStatus)).
  - apply (bool_decide_unpack _). reflexivity.
Qed.

Lemma blocking_text_iff c :
  VerificationCheck_Normalize c = c ->
  Nat.eqb (length (blocking_text c)) 0 = negb (vc_Required c) || check_passed_or_skipped c.
Proof.
  intros Hc. unfold blocking_text. destruct (vc_Required c); cbn [negb orb]; [|done].
  assert (vc_Status c ∈ VerificationStatus_values) as Hs.
  { rewrite <- Hc. apply NormalizeVerificationStatus_known. }
  rewrite list_elem_of_In in Hs. unfold check_passed_or_skipped. cbn in Hs.
  by destruct Hs as [<-|[<-|[<-|[<-|[<-|[<-|[]]]]]]].
Qed.

Lemma no_blocking_text cs :
  map VerificationCheck_Normalize cs = cs ->
  Nat.eqb (length (concat (map blocking_text cs))) 0 = all_required_passed cs.
Proof.
  intros H%map_fix. induction H as [|c cs Hc H IH]; [done|]. cbn [map concat all_required_passed].
  rewrite length_app. pose proof (blocking_text_iff c Hc) as Hb. unfold check_passed_or_skipped in Hb.
  destruct (vc_Required c); cbn [negb orb] in Hb |- *.
  - destruct (length (blocking_text c)); cbn in Hb |- *; [rewrite IH|];
      by destruct (vc_Status c ==? VerificationStatusPassed), (vc_Status c ==? VerificationStatusSkipped).
  - destruct (length (blocking_text c)); [exact IH|done].
Qed.

(** Every required check that is not passed is among [ids]. *)
Definition names_unfinished (spec : VerificationSpec) (ids : list string) : Prop :=
  forall c, c ∈ vs_Checks spec -> vc_Required c = true -> check_passed_or_skipped c = false -> vc_CheckID c ∈ ids.

(** How a failed verification is answered under a mode. *)
Definition failure_answer (mode : string) : string :=
  if mode ==? AutonomyFull then GateReplan
  else if (mode ==? AutonomyStepApproval) || (mode ==? AutonomySupervised) then GateEscalate else GateBlock.

Lemma decide_failure_exact mode failed summary :
  gr_Decision (decideFailureResponse mode failed summary) = failure_answer mode
  /\ gr_FailedChecks (decideFailureResponse mode failed summary) = failed.
Proof.
  unfold decideFailureResponse, failure_answer, go_switch, existsb.
  destruct (String.eqb_spec mode AutonomyFull) as [->|_]; [done|].
  destruct (String.eqb_spec mode AutonomyPlanApproval) as [->|_]; [done|].
  destruct (String.eqb_spec mode AutonomyStepApproval) as [->|_]; [done|].
  by destruct (mode ==? AutonomySupervised).
Qed.

Lemma unfinished_named r task outputs actor now clock duration durations :
  let res := EvaluateAll r task outputs actor now clock duration durations in
  unverified (VerificationSpec_Normalize (ts_Verification task)) = false ->
  names_unfinished (rx_UpdatedSpec res)
    (failed_ids (rx_CheckResults res) ++ pending_ids (rx_CheckResults res) ++ error_ids (rx_CheckResults res))
  /\ names_unfinished (rx_UpdatedSpec res) (verificationBlockingChecks res).
Proof.
  cbv zeta. intros Hu. unfold EvaluateAll. set (t := if now <=? 0 then clock else now).
  destruct (pass_concludes r task outputs actor t duration durations _ (Permutation_refl _) Hu)
    as (slots & _ & Ha & ->).
  destruct (conclude_exact (VerificationSpec_Normalize (ts_Verification task)) slots actor t duration Ha)
    as (Hc & Hr & _). cbv zeta in Hc, Hr.
  unfold names_unfinished, verificationBlockingChecks. rewrite Hc, Hr. clear Hc Hr.
  assert (forall c, c ∈ map fst slots -> vc_Required c = true -> check_passed_or_skipped c = false ->
          exists cr, cr ∈ map snd slots /\ cx_CheckID cr = vc_CheckID c /\ cx_blocks cr = true) as H.
  { intros c Hin Hq Hp. change (map fst slots) with (fst <$> slots) in Hin.
    apply list_elem_of_fmap in Hin as (x & -> & Hx). rewrite Forall_forall in Ha. destruct (Ha x Hx) as [Hi Hb].
    exists x.2. rewrite Hi, Hb, Hq, Hp. repeat split. change (map snd slots) with (snd <$> slots).
    apply list_elem_of_fmap. eauto. }
  split; intros c Hin Hq Hp; destruct (H c Hin Hq Hp) as (cr & Hcr & Hid & Hb); rewrite <- Hid; unfold cx_blocks in Hb.
  - unfold failed_ids, pending_ids, error_ids. rewrite !elem_of_app, !list_elem_of_In, !in_map_iff.
    setoid_rewrite filter_In. rewrite list_elem_of_In in Hcr.
    destruct (cx_Pending cr) eqn:E1; [right; left; eauto|].
    destruct (cx_Error cr ==? "") eqn:E2.
    + left. exists cr. rewrite E1, E2. cbn in Hb |- *. destruct (oc_Passed (cx_Outcome cr)); [|auto].
      by rewrite andb_false_r in Hb.
    + right. right. exists cr. by rewrite E1, E2.
  - rewrite list_elem_of_In, in_map_iff. setoid_rewrite filter_In. rewrite list_elem_of_In in Hcr. eauto.
Qed.

Lemma decide_failure_spec mode failed summary spec :
  gr_Decision ((decideFailureResponse mode failed summary) <| gr_UpdatedSpec := spec |>) = failure_answer mode
  /\ gr_FailedChecks ((decideFailureResponse mode failed summary) <| gr_UpdatedSpec := spec |>) = failed.
Proof. exact (decide_failure_exact mode failed summary). Qed.

Lemma failure_answer_blocks mode : (failure_answer mode ==? GateAllow) = false.
Proof. unfold failure_answer. by repeat case_if. Qed.

Lemma updated_nonempty r task outputs actor now clock duration durations :
  unverified (VerificationSpec_Normalize (ts_Verification task)) = false ->
  Nat.eqb (length (vs_Checks (rx_UpdatedSpec
    (EvaluateAll r task outputs actor now clock duration durations)))) 0 = false.
Proof.
  intros Hu. unfold EvaluateAll. set (t := if now <=? 0 then clock else now).
  destruct (pass_concludes r task outputs actor t duration durations _ (Permutation_refl _) Hu)
    as (slots & Hs & Ha & ->).
  destruct (conclude_exact (VerificationSpec_Normalize (ts_Verification task)) slots actor t duration Ha) as (Hk & _).
  cbv zeta in Hk. rewrite Hk, length_map, Hs, length_imap. unfold unverified in Hu.
  by apply orb_false_iff in Hu as [_ Hu].
Qed.

(** C23: No completion without the verdict: for a contract that requires verification and
    has checks, the completion gate, the gate of the task runner, the verifier's gate
    and the validation of the contract all agree with the verdict of the pass, which
    is that every required check has passed; and when the gates refuse they name every
    required check that has not passed, the completion gate answering with
    replanning, a block or escalation as the autonomy mode demands. *)
Theorem completion_gates_agree g task outputs actor now clock duration durations :
  let spec := VerificationSpec_Normalize (ts_Verification task) in
  let res := EvaluateAll (vg_runtime g) task outputs actor now clock duration durations in
  let updated := rx_UpdatedSpec res in
  let task' := task <| ts_Verification := updated |> in
  let answer := Gate_MayComplete task outputs actor now clock duration durations g in
  let runner := VerificationGateFromRuntimeResult task res in
  vs_Policy spec = VerificationPolicyRequired -> vs_Checks spec <> [] ->
  rx_Passed res = VerificationSpec_AllRequiredPassed updated
  /\ GateResult_Allowed answer = rx_Passed res
  /\ GateResult_Allowed runner = rx_Passed res
  /\ vr_Passed (Verifier_MayComplete task') = rx_Passed res
  /\ is_nil (ValidateCompletionGate task') = rx_Passed res
  /\ (rx_Passed res = false ->
      gr_Decision answer = failure_answer (TaskAuthority_EffectiveAutonomyMode (ts_Authority task) AutonomyFull)
      /\ names_unfinished updated (gr_FailedChecks answer)
      /\ names_unfinished updated (gr_FailedChecks runner)).
Proof.
  cbv zeta. intros Hp Hc. set (spec := VerificationSpec_Normalize (ts_Verification task)) in *.
  set (res := EvaluateAll _ _ _ _ _ _ _ _).
  assert (unverified spec = false) as Hu.
  { unfold unverified. rewrite Hp. by destruct (vs_Checks spec). }
  assert (rx_Passed res = VerificationSpec_AllRequiredPassed (rx_UpdatedSpec res)) as Hv.
  { unfold res. rewrite evaluate_verdict. fold spec. by rewrite Hu, Hp. }
  destruct (updated_normal (vg_runtime g) task outputs actor now clock duration durations) as [Hn Hpol].
  destruct (unfinished_named (vg_runtime g) task outputs actor now clock duration durations Hu) as [Hf1 Hf2].
  fold res in Hn, Hpol, Hf1, Hf2. fold spec in Hpol. rewrite Hp in Hpol.
  pose proof (updated_nonempty (vg_runtime g) task outputs actor now clock duration durations Hu) as Hl.
  fold res in Hl.
  split; [exact Hv|]. unfold Gate_MayComplete, Verifier_MayComplete, ValidateCompletionGate,
    VerificationGateFromRuntimeResult.
  change (ts_Verification (task <| ts_Verification := rx_UpdatedSpec res |>)) with (rx_UpdatedSpec res).
  fold spec. fold res. rewrite Hn, Hu, Hp. unfold unverified. rewrite Hpol, Hl.
  split; [|split; [|split; [|split]]].
  - destruct (rx_Passed res); [done|]. cbn [String.eqb]. unfold GateResult_Allowed.
    change (VerificationPolicyRequired ==? VerificationPolicyAdvisory) with false. cbv iota.
    rewrite (proj1 (decide_failure_spec _ _ _ _)). apply failure_answer_blocks.
  - by destruct (rx_Passed res).
  - change (VerificationPolicyRequired ==? VerificationPolicyNone) with false. cbn [orb].
    rewrite summarize_verdict, Hpol. by rewrite Hv.
  - cbn [go_switch existsb]. change (VerificationPolicyRequired ==? VerificationPolicyNone) with false.
    change (VerificationPolicyRequired ==? VerificationPolicyAdvisory) with false.
    change (VerificationPolicyRequired ==? VerificationPolicyRequired) with true. cbn [orb].
    rewrite no_blocking_text, Hv; [|exact (f_equal vs_Checks Hn)].
    unfold VerificationSpec_AllRequiredPassed. by destruct (all_required_passed _).
  - intros F. rewrite F. change (VerificationPolicyRequired ==? VerificationPolicyAdvisory) with false. cbv iota.
    split; [|split]; [apply decide_failure_spec|rewrite (proj2 (decide_failure_spec _ _ _ _)); exact Hf1|exact Hf2].
Qed.

(** The gate of the task runner opens exactly when the lifecycle would let the task with
    the updated contract complete. *)
Lemma execution_verdict runtime task run outputs actor clock time duration durations :
  let v := Verification_Execute runtime task run outputs actor clock time duration durations in
  let updated := rx_UpdatedSpec (vx_RuntimeResult v) in
  VerificationSpec_Normalize updated = updated
  /\ (GateResult_Allowed (vx_Gate v) = true
       <-> (vs_Policy updated = VerificationPolicyRequired -> VerificationSpec_AllRequiredPassed updated = true)).
Proof.
  cbv zeta. unfold Verification_Execute. cbn [vx_RuntimeResult vx_Gate].
  set (t := TaskSpec_Normalize task). set (who' := if blank actor then _ else actor).
  pose proof (evaluate_verdict runtime t outputs who' clock time duration durations) as Hv. cbv zeta in Hv.
  destruct (updated_normal runtime t outputs who' clock time duration durations) as [Hn Hp]. cbv zeta in Hn, Hp.
  set (res := EvaluateAll runtime t outputs who' clock time duration durations) in *.
  split; [exact Hn|].
  assert (GateResult_Allowed (VerificationGateFromRuntimeResult t res) = rx_Passed res) as ->.
  { unfold VerificationGateFromRuntimeResult. by destruct (rx_Passed res). }
  rewrite Hv, Hp, !orb_true_iff, String.eqb_eq.
  destruct (unverified (VerificationSpec_Normalize (ts_Verification t))) eqn:Hu.
  - split; [|auto]. intros _ HR. unfold res, EvaluateAll, evaluate_arriving. rewrite Hu.
    unfold unverified in Hu. rewrite HR in Hu. cbn [rx_UpdatedSpec].
    by destruct (vs_Checks (VerificationSpec_Normalize (ts_Verification t))) eqn:E; [unfold VerificationSpec_AllRequiredPassed; cbn; rewrite E|].
  - apply orb_false_iff in Hu as [Hnone%String.eqb_neq _].
    pose proof (NormalizeVerificationPolicy_known (vs_Policy (ts_Verification t))) as Hk.
    change (NormalizeVerificationPolicy (vs_Policy (ts_Verification t)))
      with (vs_Policy (VerificationSpec_Normalize (ts_Verification t))) in Hk.
    assert (VerificationPolicyRequired <> VerificationPolicyAdvisory) by discriminate.
    rewrite list_elem_of_In in Hk. destruct Hk as [E|[E|[E|[]]]]; rewrite <- E in *; intuition congruence.
Qed.

(** A verification pass keeps a contract valid. *)
Lemma settled_valid r task outputs actor now durations i c :
  VerificationCheck_Validate c = None ->
  VerificationCheck_Validate (pass_settled r task outputs actor now durations i c).1 = None.
Proof.
  intros Hc. destruct (settled_check r task outputs actor now durations i c) as (Hid & _ & _ & Hs & _).
  assert (vc_Description (pass_settled r task outputs actor now durations i c).1 = vc_Description c) as Hd.
  { unfold pass_settled, slot. repeat case_match; try done; cbn.
    - unfold run_check. by destruct (ce_Execute _ _ _ _).
    - unfold to_pending. by case_match. }
  unfold VerificationCheck_Validate in *. rewrite Hid, Hd, Hs. cbn in Hc |- *.
  destruct (error_if (blank (vc_CheckID c)) _); [done|]. destruct (error_if (blank (vc_Description c)) _); [done|].
  unfold expected_status. destruct (executor_of r c) as [ex|].
  - destruct (ce_Execute ex _ _ _) as [|o]; [done|]. by destruct (oc_Passed o).
  - by destruct (vc_Status c ==? VerificationStatusRunning).
Qed.

Lemma updated_valid runtime task run outputs actor clock time duration durations :
  VerificationSpec_Normalize (ts_Verification task) = ts_Verification task ->
  VerificationSpec_Validate (ts_Verification task) = None ->
  VerificationSpec_Validate (rx_UpdatedSpec (vx_RuntimeResult
    (Verification_Execute runtime task run outputs actor clock time duration durations))) = None.
Proof.
  intros Hn Hv. unfold Verification_Execute. cbn [vx_RuntimeResult]. set (t := TaskSpec_Normalize task).
  assert (VerificationSpec_Normalize (ts_Verification t) = ts_Verification task) as Ht
    by (unfold t; rewrite TaskSpec_Normalize_fields; cbn; by rewrite Hn, Hn).
  set (who' := if blank actor then _ else actor). unfold EvaluateAll. set (at_ := if clock <=? 0 then _ else _).
  destruct (unverified (VerificationSpec_Normalize (ts_Verification t))) eqn:Hu.
  - unfold evaluate_arriving. rewrite Hu. cbn [rx_UpdatedSpec]. by rewrite Ht.
  - destruct (pass_concludes runtime t outputs who' at_ duration durations _ (Permutation_refl _) Hu) as (slots & Hs & Ha & ->).
    destruct (conclude_exact (VerificationSpec_Normalize (ts_Verification t)) slots who' at_ duration Ha) as (Hc & _ & Hp & _).
    cbv zeta in Hc, Hp. revert Hv. unfold VerificationSpec_Validate. rewrite Hc, Hp, Ht, Hs, Ht.
    rewrite !first_error_None, !Forall_cons, !error_if_None, !validate_checks_None, length_map, length_imap.
    intros (H1 & H2 & (H3 & H4) & _). split; [done|]. split; [done|]. split; [|constructor]. split.
    + apply Forall_forall. intros c Hin. apply list_elem_of_fmap in Hin as (x & -> & Hin).
      apply elem_of_lookup_imap in Hin as (i & c & -> & Hi). split; [|apply not_elem_of_empty]. apply settled_valid.
      rewrite Forall_forall in H3. apply H3. by eapply list_elem_of_lookup_2.
    + replace (map vc_CheckID (map fst (imap _ _))) with (map vc_CheckID (vs_Checks (ts_Verification task))); [done|].
      symmetry. apply list_eq. intros i. rewrite !list_lookup_fmap, list_lookup_imap.
      destruct (vs_Checks (ts_Verification task) !! i); cbn; [|done]. f_equal. apply settled_check.
Qed.

(** C24: What the runner allows, the lifecycle accepts: after the verification of a task
    that is being verified, storing the updated contract and moving the task to
    completed succeeds exactly when the gate of the task runner allowed it, whatever
    the policy, the executors and the outputs are. *)
Theorem verified_work_completes runtime task run outputs actor clock time duration durations
    at_ who source reason meta :
  let v := Verification_Execute runtime task run outputs actor clock time duration durations in
  let task' := (TaskSpec_Normalize task)
    <| ts_Verification := VerificationSpec_Normalize (rx_UpdatedSpec (vx_RuntimeResult v)) |> in
  ts_Status task = TaskStatusVerifying -> 0 < at_ ->
  is_nil (TaskSpec_ApplyTransition task' TaskStatusCompleted at_ who source reason meta).2
  = GateResult_Allowed (vx_Gate v).
Proof.
  cbv zeta. intros Hs Hat.
  destruct (execution_verdict runtime task run outputs actor clock time duration durations) as [Hn Hv]. cbv zeta in Hn, Hv.
  set (v := Verification_Execute _ _ _ _ _ _ _ _ _) in *. rewrite Hn.
  set (updated := rx_UpdatedSpec (vx_RuntimeResult v)) in *. set (task' := _ <| ts_Verification := updated |>).
  assert (ts_Status task' = TaskStatusVerifying) as Hst.
  { unfold task'. rewrite TaskSpec_Normalize_fields. cbn. by rewrite Hs. }
  pose proof (task_apply_transition_spec task' TaskStatusCompleted at_ who source reason meta) as Ha.
  revert Ha. destruct (TaskSpec_ApplyTransition _ _ _ _ _ _ _) as [t' e]. intros [Ha _]. cbn [snd]. rewrite Ha.
  apply eq_true_iff_eq. rewrite bool_decide_eq_true, Hv. unfold task_may_move. rewrite Hst.
  change (ts_Verification task') with updated. rewrite Hn.
  split; [intros (_ & H & _); auto|]. intros H. split; [by vm_compute|]. split; [auto|lia].
Qed.

(** ** Witnesses and concrete runs *)

Definition check_of (id type : string) (required : bool) (meta : gomap any) : VerificationCheck :=
  mkVerificationCheck id type "d" required VerificationStatusPending "" "" 0 "" meta.
Definition contract (policy : string) (checks : list VerificationCheck) : TaskSpec :=
  sample_task <| ts_Status := TaskStatusVerifying |>
    <| ts_Verification := mkVerificationSpec policy checks 0 "" None |>.
Definition verifiers : VerifierRuntime := DefaultVerifierRuntime (fun _ => []) (fun s => s).
Definition says (text : string) : TaskOutputs := mkTaskOutputs text None [] None.
Definition not_empty : gomap any := Some {["evaluator" := VString "output_not_empty"]}.
Definition three_checks : TaskSpec :=
  contract VerificationPolicyRequired
    [check_of "a" VerificationCheckCustom true not_empty; check_of "b" VerificationCheckTest false None;
     check_of "c" VerificationCheckReview false None].

Lemma verification_pass_is_exact_witness :
  let arrivals := rev (pass_executions verifiers three_checks (says "done") "me" 5 (fun _ => 0)) in
  let res := evaluate_arriving verifiers three_checks "me" 5 0 arrivals in
  map vc_Status (vs_Checks (rx_UpdatedSpec res)) = ["passed"; "failed"; "pending"]
  /\ rx_Passed res = true /\ verdict_stamped (rx_UpdatedSpec res) "me" 5.
Proof.
  cbv zeta. split; [vm_compute; reflexivity|]. split; [vm_compute; reflexivity|].
  refine (proj2 (proj2 (proj2 (proj2 (verification_pass_is_exact verifiers three_checks (says "done") "me" 5 0
    (fun _ => 0) (rev (pass_executions verifiers three_checks (says "done") "me" 5 (fun _ => 0))) _ _))))).
  - symmetry. apply Permutation_rev.
  - vm_compute. reflexivity.
Defined.

Definition default_gate : VerificationGate := mkVerificationGate verifiers DefaultToolRiskClassifier.

Lemma completion_gates_agree_witness :
  let answer := Gate_MayComplete three_checks (says "") "me" 5 5 0 (fun _ => 0) default_gate in
  gr_Decision answer = GateReplan
  /\ GateResult_Allowed answer
     = rx_Passed (EvaluateAll verifiers three_checks (says "") "me" 5 5 0 (fun _ => 0)).
Proof.
  cbv zeta. split; [vm_compute; reflexivity|].
  refine (proj1 (proj2 (completion_gates_agree default_gate three_checks (says "") "me" 5 5 0 (fun _ => 0) _ _)));
    [vm_compute; reflexivity|discriminate].
Defined.

Lemma verified_work_completes_witness :
  let v := Verification_Execute verifiers three_checks zero_run (says "done") "" 5 5 0 (fun _ => 0) in
  GateResult_Allowed (vx_Gate v) = true
  /\ is_nil (TaskSpec_ApplyTransition
       ((TaskSpec_Normalize three_checks)
          <| ts_Verification := VerificationSpec_Normalize (rx_UpdatedSpec (vx_RuntimeResult v)) |>)
       TaskStatusCompleted 9 "" "" "" None).2 = GateResult_Allowed (vx_Gate v).
Proof.
  cbv zeta. split; [vm_compute; reflexivity|].
  exact (verified_work_completes verifiers three_checks zero_run (says "done") "" 5 5 0 (fun _ => 0)
           9 "" "" "" None eq_refl ltac:(reflexivity)).
Defined.

(** A contract that requires verification and has no checks passes the gate that its
    own validation refuses. *)
Example empty_contract_passes_the_gate :
  let task := contract VerificationPolicyRequired [] in
  GateResult_Allowed (Gate_MayComplete task (says "") "me" 5 5 0 (fun _ => 0) default_gate) = true
  /\ is_nil (ValidateCompletionGate task) = false.
Proof. vm_compute. auto. Qed.

(** Under an advisory policy a failing pass is answered as a passed one: the branch that
    lists the failures is never reached. *)
Example advisory_failures_are_not_reported :
  let task := contract VerificationPolicyAdvisory [check_of "a" VerificationCheckTest true None] in
  let answer := Gate_MayComplete task (says "") "me" 5 5 0 (fun _ => 0) default_gate in
  gr_Reason answer = "all verification checks passed" /\ gr_FailedChecks answer = []
  /\ map vc_Status (vs_Checks (gr_UpdatedSpec answer)) = ["failed"].
Proof. vm_compute. auto. Qed.

(** A check that nobody evaluated is reported as a failed one. *)
Example pending_check_is_reported_failed :
  let e := check_event "t" "r" 5 (pending_result (check_of "a" VerificationCheckReview true None)) in
  ve_Type e = VerifEventCheckFail /\ ve_Status e = "failed".
Proof. vm_compute. auto. Qed.

Example default_runtime_has_no_reviews : HasExecutor VerificationCheckReview verifiers = false.
Proof. vm_compute. reflexivity. Qed.

(** Two calls of one tool: the verdict of a dry run is that of the call the iteration
    over the map meets first. *)
Example dry_run_depends_on_map_order :
  let good := mkToolCallResult "t" None "" "" 0 in
  let bad := mkToolCallResult "t" None "" "boom" 0 in
  (exists o, dry_run_over "t" [("1", good); ("2", bad)] = inr o /\ oc_Passed o = true)
  /\ (exists o, dry_run_over "t" [("2", bad); ("1", good)] = inr o /\ oc_Passed o = false).
Proof. vm_compute. eauto 10. Qed.

(** An output of no fields is copied to a nil map, so the executor calls it missing. *)
Example empty_output_is_called_missing :
  let task := contract VerificationPolicyRequired [check_of "a" VerificationCheckSchema true None] in
  let res := EvaluateAll verifiers task (mkTaskOutputs "" (Some ∅) [] None) "me" 5 5 0 (fun _ => 0) in
  map vc_Result (vs_Checks (rx_UpdatedSpec res)) = ["no structured output to validate"].
Proof. vm_compute. reflexivity. Qed.

Definition auth_of (mode : string) : TaskAuthority := zero_authority <| ta_AutonomyMode := mode |>.

(** A critical tool is escalated in full autonomy, and allowed under plan approval once
    the checks have passed. *)
Example critical_tool_under_plan_approval :
  let g := mkVerificationGate verifiers (fun _ _ => ActionRiskCritical) in
  let spec := mkVerificationSpec VerificationPolicyRequired
                [(check_of "a" VerificationCheckTest true None) <| vc_Status := VerificationStatusPassed |>] 0 "" None in
  gr_Decision (MayExecuteTool (auth_of AutonomyFull) spec "t" None g) = GateEscalate
  /\ gr_Decision (MayExecuteTool (auth_of AutonomyPlanApproval) spec "t" None g) = GateAllow.
Proof. vm_compute. auto. Qed.

(** The completion gate also names the failed checks that are not required. *)
Example optional_failure_is_named :
  gr_FailedChecks (Gate_MayComplete three_checks (says "") "me" 5 5 0 (fun _ => 0) default_gate) = ["a"; "b"; "c"].
Proof. vm_compute. reflexivity. Qed.
