(* ===== verification/FileStore.v ===== *)
(** The file store behind the task ledger: internal/tasks/store.go.

    The state is the maps in memory, the flag and the time of the last write, and the
    file.  A write goes to a temporary file that is renamed, so it replaces the whole
    document or leaves it alone; [fs_io] holds the answers of the writes to come, of
    which an empty list means that they succeed, and [fs_now] is the clock in
    nanoseconds.  What decoding a written document gives back is a parameter.

    The store keeps the pointers it is given.  After [CreateTask], a status update or
    [CreateRun] it shares the entry with the ledger; here it holds the value as of the
    save, which is what it holds in the code after [SaveTaskState], [SaveRunState]
    and [UpdateRunStatus], whose arguments are copies. *)

From Stdlib Require Import String.
From stdpp Require Import base tactics decidable list gmap strings.
From S2P Require Import Prelude Enums Verification Budget TaskModels Lifecycle LedgerModels Ledger LedgerInvariant Duration Sorting Listing.

(** [StoreDoc], whose version is constant and whose time is not read back. *)
Record StoreDoc := mkStoreDoc {
  sd_Version : Z;
  sd_Tasks : gomap LedgerEntry;
  sd_Runs : gomap RunEntry;
  sd_UpdatedAt : Z
}.

Definition storeVersion : Z := 1.

Record FileStore := mkFileStore {
  fs_tasks : gmap string LedgerEntry;
  fs_runs : gmap string RunEntry;
  fs_dirty : bool;
  fs_lastSave : option Z;
  fs_disk : option StoreDoc;
  fs_now : Z;
  fs_io : list (option error)
}.

#[export] Instance set_fs_tasks : Setter fs_tasks := fun v r =>
  mkFileStore v (fs_runs r) (fs_dirty r) (fs_lastSave r) (fs_disk r) (fs_now r) (fs_io r).
#[export] Instance set_fs_runs : Setter fs_runs := fun v r =>
  mkFileStore (fs_tasks r) v (fs_dirty r) (fs_lastSave r) (fs_disk r) (fs_now r) (fs_io r).
#[export] Instance set_fs_dirty : Setter fs_dirty := fun v r =>
  mkFileStore (fs_tasks r) (fs_runs r) v (fs_lastSave r) (fs_disk r) (fs_now r) (fs_io r).
#[export] Instance set_fs_now : Setter fs_now := fun v r =>
  mkFileStore (fs_tasks r) (fs_runs r) (fs_dirty r) (fs_lastSave r) (fs_disk r) v (fs_io r).

(** ** Opening *)

(** [load] after [NewFileStore] has made empty maps: reading the file fails, or gives
    nothing, or the document that decoding it yields. *)
Definition FileStore_load (file : result (option (result StoreDoc))) (s : FileStore) : FileStore * option error :=
  match file with
  | Err e => (s, Some (Wrapf "read store file: %w" [] e))
  | Ok None => (s, None)
  | Ok (Some (Err e)) => (s, Some (Wrapf "unmarshal store: %w" [] e))
  | Ok (Some (Ok doc)) =>
    ((s <| fs_tasks := default (fs_tasks s) (sd_Tasks doc) |>)
      <| fs_runs := default (fs_runs s) (sd_Runs doc) |>, None)
  end.

Definition empty_file_store (disk : option StoreDoc) (now : Z) (io : list (option error)) : FileStore :=
  mkFileStore ∅ ∅ false None disk now io.

(** A failed load is logged and the store starts empty.  [disk] is the file as it is,
    [file] what reading it gives. *)
Definition NewFileStore (mkdir : option error) (disk : option StoreDoc)
    (file : result (option (result StoreDoc))) (now : Z) (io : list (option error)) : result FileStore :=
  match mkdir with
  | Some e => Err (Wrapf "create store directory: %w" [] e)
  | None => Ok (FileStore_load file (empty_file_store disk now io)).1
  end.

(** ** Writing *)

Definition FileStore_save (s : FileStore) : FileStore * option error :=
  match fs_io s with
  | Some e :: io =>
    (mkFileStore (fs_tasks s) (fs_runs s) (fs_dirty s) (fs_lastSave s) (fs_disk s) (fs_now s) io, Some e)
  | io =>
    (mkFileStore (fs_tasks s) (fs_runs s) false (Some (fs_now s))
       (Some (mkStoreDoc storeVersion (Some (fs_tasks s)) (Some (fs_runs s)) (unix (fs_now s))))
       (fs_now s) (tail io), None)
  end.

Definition recently_saved (s : FileStore) : bool :=
  match fs_lastSave s with Some at_ => fs_now s - at_ <? second | None => false end.

Definition flush (s : FileStore) : FileStore * option error :=
  if negb (fs_dirty s) then (s, None)
  else if recently_saved s then (s, None)
  else FileStore_save s.

Definition Close (s : FileStore) : FileStore * option error :=
  if fs_dirty s then FileStore_save s else (s, None).

Definition FileStore_SaveTask (s : FileStore) (entry : LedgerEntry) : FileStore * option error :=
  flush ((s <| fs_tasks := <[ts_TaskID (le_Task entry) := entry]> (fs_tasks s) |>) <| fs_dirty := true |>).

Definition FileStore_SaveRun (s : FileStore) (entry : RunEntry) : FileStore * option error :=
  flush ((s <| fs_runs := <[tr_RunID (re_Run entry) := entry]> (fs_runs s) |>) <| fs_dirty := true |>).

Definition FileStore_LoadTask (s : FileStore) (taskID : string) : FileStore * result (option LedgerEntry) :=
  (s, Ok (fs_tasks s !! taskID)).
Definition FileStore_LoadRun (s : FileStore) (runID : string) : FileStore * result (option RunEntry) :=
  (s, Ok (fs_runs s !! runID)).

Definition FileStore_ListTasks (s : FileStore) (opts : ListTasksOptions)
  : FileStore * option (result (list LedgerEntry)) := (s, Ok <$> list_tasks (fs_tasks s) opts).
Definition FileStore_ListRuns (s : FileStore) (opts : ListRunsOptions)
  : FileStore * option (result (list RunEntry)) := (s, Ok <$> list_runs (fs_runs s) opts).

Definition FileStore_Stats (todayStart : Z) (s : FileStore) : TaskStats :=
  computeTaskStats (fs_tasks s) (fs_runs s) todayStart.

(** [for _, run := range entry.Runs { delete(s.runs, run.RunID) }] *)
Definition delete_runs (runs : list TaskRun) (m : gmap string RunEntry) : gmap string RunEntry :=
  fold_left (fun m run => delete (tr_RunID run) m) runs m.

Definition DeleteTask (taskID : string) (s : FileStore) : FileStore * option error :=
  match fs_tasks s !! taskID with
  | None => (s, None)
  | Some entry =>
    flush (((s <| fs_runs := delete_runs (le_Runs entry) (fs_runs s) |>)
             <| fs_tasks := delete taskID (fs_tasks s) |>) <| fs_dirty := true |>)
  end.

(** ** Pruning *)

Definition isTerminalTaskStatus (status : string) : bool :=
  go_switch status [([TaskStatusCompleted; TaskStatusFailed; TaskStatusCancelled], true)] false.

Definition run_expired (cutoff : Z) (entry : RunEntry) : bool :=
  isTerminalRunStatus (tr_Status (re_Run entry)) && (tr_EndedAt (re_Run entry) <? cutoff).

Definition task_expired (cutoff : Z) (entry : LedgerEntry) : bool :=
  isTerminalTaskStatus (ts_Status (le_Task entry)) && (le_UpdatedAt entry <? cutoff)
  && forallb (fun run => isTerminalRunStatus (tr_Status run)) (le_Runs entry).

(** The number of entries pruned; the error of the final write is dropped. *)
Definition Prune (olderThan : Z) (s : FileStore) : FileStore * Z :=
  let cutoff := unix (fs_now s - olderThan) in
  let runs := filter (fun kv => run_expired cutoff kv.2 = false) (fs_runs s) in
  let expired := filter (fun kv => task_expired cutoff kv.2 = true) (fs_tasks s) in
  let tasks := filter (fun kv => task_expired cutoff kv.2 = false) (fs_tasks s) in
  let runs' := fold_left (fun m kv => delete_runs (le_Runs kv.2) m) (map_to_list expired) runs in
  let pruned := Z.of_nat (size (fs_runs s)) - Z.of_nat (size runs) + Z.of_nat (size expired) in
  if 0 <? pruned
  then ((FileStore_save (((s <| fs_runs := runs' |>) <| fs_tasks := tasks |>) <| fs_dirty := true |>)).1, pruned)
  else (s, pruned).

(** ** The interface of the ledger *)

#[export] Instance file_store : Store FileStore := {
  SaveTask := FileStore_SaveTask;
  LoadTask := FileStore_LoadTask;
  SaveRun := FileStore_SaveRun;
  LoadRun := FileStore_LoadRun
}.

#[export] Instance file_listing : ListingStore FileStore := {
  Store_ListTasks := FileStore_ListTasks;
  Store_ListRuns := FileStore_ListRuns
}.
