(* ===== verification/FileStoreProps.v ===== *)
(** The file store keeps the promises of the store interface, and what its file holds. *)

From Stdlib Require Import String.
From stdpp Require Import base tactics decidable list gmap strings relations.
From S2P Require Import Prelude Enums Verification Budget TaskModels Lifecycle LedgerModels Ledger LedgerInvariant Duration Sorting Listing FileStore.

(** ** The promises of the interface *)

Lemma save_keeps s :
  fs_tasks (FileStore_save s).1 = fs_tasks s /\ fs_runs (FileStore_save s).1 = fs_runs s.
Proof. unfold FileStore_save. by destruct (fs_io s) as [|[e|] io]. Qed.

Lemma flush_keeps s : fs_tasks (flush s).1 = fs_tasks s /\ fs_runs (flush s).1 = fs_runs s.
Proof. unfold flush. destruct (negb (fs_dirty s)); [done|]. destruct (recently_saved s); [done|]. apply save_keeps. Qed.

(** A store all of whose entries are well formed and under their own identifiers. *)
Definition file_store_ok (s : FileStore) : Prop := tasks_ok (fs_tasks s) /\ runs_ok (fs_runs s).

Lemma SaveTask_memory s e :
  fs_tasks (FileStore_SaveTask s e).1 = <[ts_TaskID (le_Task e) := e]> (fs_tasks s)
  /\ fs_runs (FileStore_SaveTask s e).1 = fs_runs s.
Proof. exact (flush_keeps ((s <| fs_tasks := <[ts_TaskID (le_Task e) := e]> (fs_tasks s) |>) <| fs_dirty := true |>)). Qed.

Lemma SaveRun_memory s e :
  fs_tasks (FileStore_SaveRun s e).1 = fs_tasks s
  /\ fs_runs (FileStore_SaveRun s e).1 = <[tr_RunID (re_Run e) := e]> (fs_runs s).
Proof. exact (flush_keeps ((s <| fs_runs := <[tr_RunID (re_Run e) := e]> (fs_runs s) |>) <| fs_dirty := true |>)). Qed.

#[export] Instance file_store_laws : StoreLaws FileStore.
Proof.
  refine {| store_ok := file_store_ok |}.
  - intros s id e [Ht Hr] [Hid He]. change (file_store_ok (FileStore_SaveTask s e).1). unfold file_store_ok.
    destruct (SaveTask_memory s e) as [-> ->]. split; [|done]. apply tasks_ok_insert; [done|]. by split.
  - intros s id e [Ht Hr] [Hid He]. change (file_store_ok (FileStore_SaveRun s e).1). unfold file_store_ok.
    destruct (SaveRun_memory s e) as [-> ->]. split; [done|]. apply runs_ok_insert; [done|]. by apply own_run_entry_ok.
  - intros s id [Ht Hr]. cbn. split; [done|]. intros e [= He]. by apply Ht.
  - intros s id [Ht Hr]. cbn. split; [done|]. intros e [= He]. by apply Hr.
Defined.

#[export] Instance file_listing_laws : ListingLaws FileStore.
Proof.
  split.
  - intros s opts [Ht Hr]. cbn. split; [done|]. intros es Hes. apply Forall_forall. intros e He.
    destruct (list_tasks (fs_tasks s) opts) as [es'|] eqn:E; [|discriminate Hes]. injection Hes as [= ->].
    destruct (listed_task _ _ _ _ E He) as [[id Hid] _]. destruct (Ht _ _ Hid) as [<- H]. by split.
  - intros s opts [Ht Hr]. cbn. split; [done|]. intros es Hes. apply Forall_forall. intros e He.
    destruct (list_runs (fs_runs s) opts) as [es'|] eqn:E; [|discriminate Hes]. injection Hes as [= ->].
    destruct (listed_run _ _ _ _ E He) as [[id Hid] _]. by eapply run_entry_ok_own, Hr.
Qed.

(** ** What the file holds *)

(** The maps a document has. *)
Definition content (disk : option StoreDoc) : gmap string LedgerEntry * gmap string RunEntry :=
  match disk with
  | None => (∅, ∅)
  | Some doc => (default ∅ (sd_Tasks doc), default ∅ (sd_Runs doc))
  end.

Definition memory (s : FileStore) : gmap string LedgerEntry * gmap string RunEntry := (fs_tasks s, fs_runs s).

(** What encoding and decoding a document gives is not the store's own: [decode] is the
    document, or the error, that reading a file with a given document yields. *)
Section Decoding.
Context (decode : StoreDoc -> result StoreDoc).

(** What [load] reads from the file [disk]. *)
Definition reads (disk : option StoreDoc) : result (option (result StoreDoc)) := Ok (decode <$> disk).

(** The maps a store opened on the file starts with: none when it cannot be decoded. *)
Definition recovered (disk : option StoreDoc) : gmap string LedgerEntry * gmap string RunEntry :=
  match decode <$> disk with Some (Ok doc) => content (Some doc) | _ => (∅, ∅) end.

(** Decoding gives back the maps of the document. *)
Definition faithful (doc : StoreDoc) : Prop := exists doc', decode doc = Ok doc' /\ content (Some doc') = content (Some doc).

(** The operations on an open store, and time that passes between them. *)
Inductive file_step (s : FileStore) : FileStore -> Prop :=
  | file_SaveTask e : file_step s (FileStore_SaveTask s e).1
  | file_SaveRun e : file_step s (FileStore_SaveRun s e).1
  | file_DeleteTask id : file_step s (DeleteTask id s).1
  | file_Prune older : file_step s (Prune older s).1
  | file_Close : file_step s (Close s).1
  | file_time d : 0 <= d -> file_step s (s <| fs_now := fs_now s + d |>).

(** The maps the store has held in memory since it was opened on [disk], from the first to
    the latest. *)
Inductive held (disk : option StoreDoc) : list (gmap string LedgerEntry * gmap string RunEntry) -> FileStore -> Prop :=
  | held_open now io s : NewFileStore None disk (reads disk) now io = Ok s -> held disk [memory s] s
  | held_step h s s' : held disk h s -> file_step s s' -> held disk (h ++ [memory s']) s'.

(** How one operation may change the file: not at all, or to the maps it leaves in
    memory, and then at the current time. *)
Definition writes (s s' : FileStore) : Prop :=
  (fs_disk s' = fs_disk s /\ fs_lastSave s' = fs_lastSave s
   /\ (fs_dirty s' = fs_dirty s /\ memory s' = memory s \/ fs_dirty s' = true))
  \/ (content (fs_disk s') = memory s' /\ fs_lastSave s' = Some (fs_now s) /\ fs_dirty s' = false).

Lemma save_writes s :
  let s' := (FileStore_save s).1 in
  memory s' = memory s /\ fs_now s' = fs_now s
  /\ match (FileStore_save s).2 with
     | Some _ => fs_disk s' = fs_disk s /\ fs_lastSave s' = fs_lastSave s /\ fs_dirty s' = fs_dirty s
     | None => content (fs_disk s') = memory s /\ fs_lastSave s' = Some (fs_now s) /\ fs_dirty s' = false
     end.
Proof. cbv zeta. unfold FileStore_save. by destruct (fs_io s) as [|[e|] io]. Qed.

(** Saving after the maps have changed. *)
Lemma save_step s t :
  fs_now t = fs_now s -> fs_disk t = fs_disk s -> fs_lastSave t = fs_lastSave s -> fs_dirty t = true ->
  writes s (FileStore_save t).1.
Proof.
  intros Hn Hd Hl Hdirty. destruct (save_writes t) as (Hm & _ & Hw). cbv zeta in Hm, Hw.
  destruct (FileStore_save t).2.
  - left. destruct Hw as (-> & -> & ->). rewrite Hd, Hl. auto.
  - right. destruct Hw as (-> & -> & ->). rewrite Hm, Hn. auto.
Qed.

Lemma flush_step s t :
  fs_now t = fs_now s -> fs_disk t = fs_disk s -> fs_lastSave t = fs_lastSave s -> fs_dirty t = true ->
  writes s (flush t).1.
Proof.
  intros Hn Hd Hl Hdirty. unfold flush. rewrite Hdirty. cbn [negb].
  destruct (recently_saved t); [left; cbn; rewrite Hd, Hl; auto|]. by apply save_step.
Qed.

Lemma unchanged s : writes s s.
Proof. left. auto. Qed.

Lemma file_step_writes s s' : file_step s s' -> writes s s'.
Proof.
  intros [e|e|id|older| |d Hd].
  - unfold FileStore_SaveTask. by apply flush_step.
  - unfold FileStore_SaveRun. by apply flush_step.
  - unfold DeleteTask. destruct (fs_tasks s !! id); [by apply flush_step|apply unchanged].
  - unfold Prune. destruct (0 <? _); [|apply unchanged]. by apply save_step.
  - unfold Close. destruct (fs_dirty s) eqn:E; [by apply save_step|apply unchanged].
  - left. auto.
Qed.

Lemma opened_store disk now io s :
  NewFileStore None disk (reads disk) now io = Ok s ->
  memory s = recovered disk /\ fs_disk s = disk /\ fs_dirty s = false.
Proof.
  unfold NewFileStore, recovered, reads. destruct disk as [doc|]; [|by intros [= <-]].
  cbn. destruct (decode doc); by intros [= <-].
Qed.

Lemma faithful_recovered doc : faithful doc -> recovered (Some doc) = content (Some doc).
Proof. intros (doc' & Hd & Hc). unfold recovered. cbn. by rewrite Hd. Qed.

Lemma reopened disk now io :
  exists s, NewFileStore None disk (reads disk) now io = Ok s /\ memory s = recovered disk.
Proof.
  destruct (NewFileStore None disk (reads disk) now io) as [s|] eqn:E; [|done].
  exists s. split; [done|]. by apply opened_store in E as (? & _).
Qed.

Lemma closed_file disk m :
  content disk = m -> (forall doc, disk = Some doc -> content (Some doc) = m -> faithful doc) -> recovered disk = m.
Proof. intros <- Hf. destruct disk as [doc|]; [|done]. by apply faithful_recovered, Hf. Qed.

(** C25: The file is crash consistent: whatever operations run and whichever writes fail,
    the file is the one the store was opened on, or holds, as a whole, the maps the store
    had in memory at some moment since; while the store is not marked dirty, it holds
    those of now, or nothing has been changed since they were read from it.  A store
    opened later, whether after a crash or a [Close], starts with what decoding the file
    gives; after a [Close] that succeeded these are the maps of the closed store, for a
    decoder that gives back the maps of the document [Close] left.  ([encoding/json]
    does not for every document: an integer in untyped metadata comes back as a float, and
    a map that is present but empty is left out.) *)
Theorem file_store_is_crash_consistent disk h s :
  held disk h s ->
  (fs_disk s = disk \/ content (fs_disk s) ∈ h)
  /\ (fs_dirty s = false -> content (fs_disk s) = memory s \/ fs_disk s = disk /\ memory s = recovered disk)
  /\ (forall now io, exists s', NewFileStore None (fs_disk s) (reads (fs_disk s)) now io = Ok s'
        /\ memory s' = recovered (fs_disk s))
  /\ forall s' now io, Close s = (s', None) ->
       (forall doc, fs_disk s' = Some doc -> content (Some doc) = memory s -> faithful doc) ->
       exists s'', NewFileStore None (fs_disk s') (reads (fs_disk s')) now io = Ok s'' /\ memory s'' = memory s.
Proof.
  intros Hh.
  assert ((fs_disk s = disk \/ content (fs_disk s) ∈ h)
    /\ (fs_dirty s = false -> content (fs_disk s) = memory s \/ fs_disk s = disk /\ memory s = recovered disk)) as [Hin Hclean].
  { induction Hh as [now io s Ho|h s s' Hh [IH1 IH2] Hs].
    - destruct (opened_store _ _ _ _ Ho) as (-> & -> & _). auto.
    - rewrite elem_of_app, list_elem_of_singleton.
      destruct (file_step_writes _ _ Hs) as [(-> & _ & [[-> ->]|Hd])|(-> & _ & _)]; [tauto| |auto].
      split; [tauto|]. rewrite Hd. discriminate. }
  split; [done|]. split; [done|]. split; [intros now io; apply reopened|]. intros s' now io Hc Hf.
  destruct (reopened (fs_disk s') now io) as (s'' & -> & Hm). exists s''. split; [done|]. rewrite Hm.
  assert (content (fs_disk s') = memory s \/ fs_disk s' = disk /\ memory s = recovered disk) as [Hs|[-> ->]]; [|exact (closed_file _ _ Hs Hf)|done].
  unfold Close in Hc. destruct (fs_dirty s); [|injection Hc as <-; auto]. left.
  pose proof (save_writes s) as (_ & _ & Hw). cbv zeta in Hw. rewrite Hc in Hw. apply Hw.
Qed.
End Decoding.

(** ** Pruning *)

Lemma delete_runs_lookup runs m id e :
  delete_runs runs m !! id = Some e <-> m !! id = Some e /\ id ∉ map tr_RunID runs.
Proof.
  unfold delete_runs. revert m. induction runs as [|r runs IH]; intros m; cbn.
  - split; [intros H; by split; [|apply not_elem_of_nil]|by intros [? _]].
  - rewrite IH, lookup_delete_Some, not_elem_of_cons. intuition congruence.
Qed.

Lemma delete_all_runs_lookup (es : list (string * LedgerEntry)) m id e :
  fold_left (fun m kv => delete_runs (le_Runs kv.2) m) es m !! id = Some e
  <-> m !! id = Some e /\ forall kv, kv ∈ es -> id ∉ map tr_RunID (le_Runs kv.2).
Proof.
  revert m. induction es as [|kv es IH]; intros m; cbn.
  - split; [intros H; split; [done|]; intros kv Hkv; by apply not_elem_of_nil in Hkv|by intros [? _]].
  - rewrite IH, delete_runs_lookup. setoid_rewrite elem_of_cons. split.
    + intros ([He Hk] & H). split; [done|]. intros kv' [->|Hin]; auto.
    + intros (He & H). auto 7.
Qed.

(** The entries a boolean test drops from a map, and an empty selection. *)
Section Selection.
Context {A : Type} (p : A -> bool) (m : gmap string A).

Lemma expired_size :
  Z.of_nat (size m) - Z.of_nat (size (filter (fun kv => p kv.2 = false) m))
  = Z.of_nat (size (filter (fun kv => p kv.2 = true) m)).
Proof.
  rewrite <- (map_filter_union_complement (fun kv => p kv.2 = true) m) at 1.
  rewrite map_size_disj_union by apply map_disjoint_filter_complement.
  assert (filter (fun kv => ~ p kv.2 = true) m = filter (fun kv => p kv.2 = false) m) as ->; [|lia].
  apply map_filter_ext. intros i x _. cbn. by rewrite not_true_iff_false.
Qed.

Lemma not_expired : filter (fun kv => p kv.2 = true) m = ∅ -> forall id e, m !! id = Some e -> p e = false.
Proof.
  intros Hm id e He. apply not_true_is_false. intros Hp.
  assert (filter (fun kv => p kv.2 = true) m !! id = Some e) as Hin by by rewrite map_lookup_filter_Some.
  by rewrite Hm, lookup_empty in Hin.
Qed.
End Selection.

(** Some expired task embeds the run. *)
Definition swept (cutoff : Z) (tasks : gmap string LedgerEntry) (id : string) : Prop :=
  exists taskID e, tasks !! taskID = Some e /\ task_expired cutoff e = true /\ id ∈ map tr_RunID (le_Runs e).

Lemma pruned_maps cutoff (s : FileStore) :
  let runs := filter (fun kv => run_expired cutoff kv.2 = false) (fs_runs s) in
  let expired := filter (fun kv => task_expired cutoff kv.2 = true) (fs_tasks s) in
  (forall id e, fold_left (fun m kv => delete_runs (le_Runs kv.2) m) (map_to_list expired) runs !! id = Some e
    <-> fs_runs s !! id = Some e /\ run_expired cutoff e = false /\ ~ swept cutoff (fs_tasks s) id).
Proof.
  cbv zeta. intros id e. rewrite delete_all_runs_lookup, map_lookup_filter_Some. cbn. unfold swept.
  setoid_rewrite (fun kv => elem_of_map_to_list' (filter (fun kv => task_expired cutoff kv.2 = true) (fs_tasks s)) kv).
  setoid_rewrite map_lookup_filter_Some. cbn. split.
  - intros [[He Hx] Hs]. split; [done|]. split; [done|]. intros (t & te & Ht & Hte & Hin).
    exact (Hs (t, te) (conj Ht Hte) Hin).
  - intros (He & Hx & Hs). split; [done|]. intros [t te] [Ht Hte] Hin. apply Hs. by exists t, te.
Qed.

(** Pruning removes exactly what has expired: a task leaves the store when it is
    completed, failed or cancelled, was last updated before the cutoff and embeds only
    terminal runs; a run leaves it when it is terminal and ended before the cutoff, or
    when an expired task embeds it.  The count is that of the expired entries, and
    when it is zero the store, its file included, is untouched. *)
Theorem prune_removes_exactly_the_expired older s :
  let cutoff := unix (fs_now s - older) in
  let '(s', n) := Prune older s in
  (forall id e, fs_tasks s' !! id = Some e <-> fs_tasks s !! id = Some e /\ task_expired cutoff e = false)
  /\ (forall id e, fs_runs s' !! id = Some e
        <-> fs_runs s !! id = Some e /\ run_expired cutoff e = false /\ ~ swept cutoff (fs_tasks s) id)
  /\ n = Z.of_nat (size (filter (fun kv => run_expired cutoff kv.2 = true) (fs_runs s)))
         + Z.of_nat (size (filter (fun kv => task_expired cutoff kv.2 = true) (fs_tasks s)))
  /\ (n = 0 -> s' = s).
Proof.
  cbv zeta. unfold Prune. set (cutoff := unix (fs_now s - older)).
  pose proof (pruned_maps cutoff s) as Hruns. cbv zeta in Hruns.
  set (runs := filter (fun kv => run_expired cutoff kv.2 = false) (fs_runs s)) in *.
  set (expired := filter (fun kv => task_expired cutoff kv.2 = true) (fs_tasks s)) in *.
  assert (Z.of_nat (size (fs_runs s)) - Z.of_nat (size runs)
          = Z.of_nat (size (filter (fun kv => run_expired cutoff kv.2 = true) (fs_runs s)))) as Hsize by apply expired_size.
  assert (forall id e, fs_tasks s !! id = Some e /\ task_expired cutoff e = false
    <-> filter (fun kv => task_expired cutoff kv.2 = false) (fs_tasks s) !! id = Some e) as Htasks
    by (intros; by rewrite map_lookup_filter_Some).
  destruct (Z.ltb_spec 0 (Z.of_nat (size (fs_runs s)) - Z.of_nat (size runs) + Z.of_nat (size expired))) as [Hn|Hn].
  - match goal with |- context [FileStore_save ?t] => destruct (save_keeps t) as [-> ->] end.
    split; [intros; by rewrite Htasks|]. split; [exact Hruns|]. split; [by rewrite Hsize|lia].
  - assert (size (filter (fun kv => run_expired cutoff kv.2 = true) (fs_runs s)) = 0%nat /\ size expired = 0%nat)
      as [Hr0 He0] by lia.
    apply map_size_empty_inv in Hr0, He0. split; [|split; [|split; [by rewrite Hsize|done]]].
    + intros id e. split; [|by intros [? _]]. intros He. split; [done|]. by apply (not_expired _ _ He0 id).
    + intros id e. split; [|by intros [? _]]. intros He. split; [done|]. split; [by apply (not_expired _ _ Hr0 id)|].
      intros (t & te & Ht & Hx & _). by rewrite (not_expired _ _ He0 t te Ht) in Hx.
Qed.

(** ** Concrete histories *)

Definition opened (disk : option StoreDoc) (now : Z) (io : list (option error)) : FileStore :=
  match NewFileStore None disk (reads Ok disk) now io with
  | Ok s => s
  | Err _ => empty_file_store disk now io
  end.

Definition a_task (id status : string) (updated : Z) (runs : list TaskRun) : LedgerEntry :=
  mkLedgerEntry (sample_task <| ts_TaskID := id |> <| ts_Status := status |>) "manual" "" runs 1 updated.
Definition a_run (id status : string) (ended : Z) : TaskRun :=
  sample_run <| tr_RunID := id |> <| tr_TaskID := "t1" |> <| tr_Status := status |> <| tr_EndedAt := ended |>.
Definition run_of (r : TaskRun) : RunEntry := mkRunEntry r "manual" "" 1 2.

Definition at_second (n : Z) : Z := n * second.

(** A save, another one half a second later, and a clean shutdown. *)
Definition file1 : FileStore := opened None (at_second 100) [].
Definition file2 : FileStore := (FileStore_SaveTask file1 (a_task "t1" TaskStatusPending 100 [])).1.
Definition file3 : FileStore := file2 <| fs_now := fs_now file2 + 500000000 |>.
Definition file4 : FileStore := (FileStore_SaveTask file3 (a_task "t2" TaskStatusPending 100 [])).1.
Definition file5 : FileStore := (Close file4).1.

Definition file_history : list (gmap string LedgerEntry * gmap string RunEntry) :=
  [memory file1; memory file2; memory file3; memory file4].

Lemma file4_held : held Ok None file_history file4.
Proof.
  assert (held Ok None [memory file1] file1) as H1
    by (eapply (held_open Ok None (at_second 100) []); vm_compute; reflexivity).
  assert (held Ok None [memory file1; memory file2] file2) as H2 by exact (held_step _ _ _ _ _ H1 (file_SaveTask _ _)).
  assert (held Ok None [memory file1; memory file2; memory file3] file3) as H3
    by (refine (held_step _ _ _ _ _ H2 (file_time _ _ _)); done).
  exact (held_step _ _ _ _ _ H3 (file_SaveTask _ _)).
Qed.

(** With a decoder that gives the document back. *)
Lemma file_store_is_crash_consistent_witness :
  (fs_disk file4 = None \/ content (fs_disk file4) ∈ file_history)
  /\ exists s'', NewFileStore None (fs_disk file5) (reads Ok (fs_disk file5)) (at_second 200) [] = Ok s''
       /\ memory s'' = memory file4.
Proof.
  split; [exact (proj1 (file_store_is_crash_consistent Ok None _ _ file4_held))|].
  apply (proj2 (proj2 (proj2 (file_store_is_crash_consistent Ok None _ _ file4_held)))); [vm_compute; reflexivity|].
  intros doc _ _. by exists doc.
Defined.

(** A file that cannot be decoded opens as an empty store, and the next save overwrites
    it. *)
Example unreadable_file_is_overwritten :
  let refuse := fun _ : StoreDoc => Err (A := StoreDoc) (Errorf "invalid character" []) in
  match NewFileStore None (fs_disk file5) (reads refuse (fs_disk file5)) (at_second 200) [] with
  | Ok s => memory s = (∅, ∅)
            /\ dom (content (fs_disk (FileStore_SaveTask s (a_task "t3" TaskStatusPending 200 [])).1)).1 = {["t3"]}
  | Err _ => False
  end.
Proof. vm_compute. split; reflexivity. Qed.

Definition loaded_task (disk : option StoreDoc) (id : string) : bool := bool_decide (is_Some ((content disk).1 !! id)).

(** A save within a second of the last write is acknowledged but not written, and
    nothing writes it later unless another call comes: a crash loses it. *)
Example acknowledged_save_is_lost :
  (FileStore_SaveTask file3 (a_task "t2" TaskStatusPending 100 [])).2 = None
  /\ loaded_task (fs_disk file4) "t1" = true /\ loaded_task (fs_disk file4) "t2" = false
  /\ loaded_task (fs_disk file5) "t2" = true.
Proof. vm_compute. repeat split. Qed.

(** A refused save stays in memory: the ledger reports the failure and forgets the
    task, and the next save writes it after all. *)
Example refused_save_is_written_later :
  let l := NewLedger (Some (opened None (at_second 100) [Some (Errorf "disk full" [])])) in
  let '(l1, r) := CreateTask 100 sample_task "manual" "" l in
  let '(l2, r2) := CreateTask 100 (sample_task <| ts_TaskID := "t2" |>) "manual" "" l1 in
  is_ok r = false /\ l_tasks l1 !! "t1" = None /\ is_ok r2 = true
  /\ ((fun s => loaded_task (fs_disk s) "t1") <$> l_store l2) = Some true.
Proof. vm_compute. repeat split. Qed.

(** [SaveRunState] saves the run but not the task that embeds it, and [ListTasks]
    files the runs that the stored task embeds: the listing takes a cancelled run
    back to running.  (The store has its own copy of the task since the update.) *)
Example listing_reverts_a_saved_run :
  let l := (CreateTask 100 sample_task "manual" "" (NewLedger (Some file1))).1 in
  let l := (CreateRun 101 "t1" "r1" "" "" "" l).1 in
  let l := (UpdateRunStatus 101 "r1" TaskRunStatusRunning "" "" "" l).1 in
  let status l := (fun e => tr_Status (re_Run e)) <$> l_runs l !! "r1" in
  match GetRun "r1" l with
  | (l, Ok e) =>
    let done := (re_Run e) <| tr_Status := TaskRunStatusCancelled |> <| tr_EndedAt := 102 |> in
    let l1 := (SaveRunState 102 done "" "" l).1 in
    let l2 := (ListTasks (mkListTasksOptions [] [] "" "" "" "" 0 0 "" false) l1).1 in
    status l1 = Some TaskRunStatusCancelled /\ status l2 = Some TaskRunStatusRunning
  | _ => False
  end.
Proof. vm_compute. split; reflexivity. Qed.

(** The store forgets what it prunes, the ledger in front of it does not: the next
    status update of the pruned task saves it again. *)
Example pruned_task_comes_back :
  let done := a_task "t1" TaskStatusFailed 10 [] in
  let l := NewLedger (Some (FileStore_SaveTask file1 done).1) in
  let l := (GetTask "t1" l).1 in
  match l_store l with
  | Some s =>
    let '(s, n) := Prune (at_second 50) s in
    let '(l, r) := SaveTaskState 101 (le_Task done) "" "" (l <| l_store := Some s |>) in
    n = 1 /\ fs_tasks s !! "t1" = None /\ is_ok r = true
    /\ is_Some (l_store l ≫= fun s => fs_tasks s !! "t1")
  | None => False
  end.
Proof. vm_compute. repeat split. by eexists. Qed.

(** A terminal task that embeds an active run stays; an expired one takes with it a
    run that has only just ended, and a finished run whose end was never recorded
    counts as ended at the epoch. *)
Example prune_keeps_the_active :
  let s := mkFileStore {["t1" := a_task "t1" TaskStatusFailed 10 [a_run "r1" TaskRunStatusRunning 0];
                         "t2" := a_task "t2" TaskStatusFailed 10 [a_run "r2" TaskRunStatusFailed 20]]}
             {["r2" := run_of (a_run "r2" TaskRunStatusFailed 90); "r3" := run_of (a_run "r3" TaskRunStatusFailed 0)]}
             false None None (at_second 100) [] in
  let '(s', n) := Prune (at_second 50) s in
  n = 2 /\ elements (dom (fs_tasks s')) = ["t1"] /\ elements (dom (fs_runs s')) = []
  /\ loaded_task (fs_disk s') "t1" = true.
Proof. vm_compute. repeat split. Qed.

(** Slicing from a negative offset panics. *)
Example negative_offset_panics :
  (FileStore_ListTasks (FileStore_SaveTask file1 (a_task "t1" TaskStatusPending 100 [])).1
     (mkListTasksOptions [] [] "" "" "" "" 0 (-1) "" false)).2 = None.
Proof. vm_compute. reflexivity. Qed.

(** The comparison is a subtraction, which wraps: of two creation times further apart
    than the range the later one sorts first. *)
Example comparison_overflows :
  let early := mkLedgerEntry sample_task "manual" "" [] (-2) 0 in
  let late := mkLedgerEntry sample_task "manual" "" [] 9223372036854775807 0 in
  sortTasks [early; late] "" false = [late; early].
Proof. vm_compute. reflexivity. Qed.
