(* ===== verification/TaskService.v ===== *)
(** The task service in front of the ledger: internal/tasks/service.go.

    The state of a service is its ledger.  An operation is a sequence of ledger
    operations that stops at the first error, written with [let*].  [clock] is the
    reading of the clock in nanoseconds during the operation, and [quote] is
    [strconv.Quote], which the service only sees through the text of errors.

    [GetTask] and the status updates return the cached entry itself.  Where the code
    keeps such a pointer, the model reads the cache again ([live_task]), and where it
    writes to the metadata of a copy, whose map is that of the cached entry, the model
    writes to both. *)

From Stdlib Require Import Ascii String.
From stdpp Require Import base tactics decidable list gmap strings pretty.
From S2P Require Import Prelude Enums Verification Budget TaskModels Lifecycle LedgerModels Ledger LedgerInvariant Duration Idempotency Sorting Listing.

(** ** Sequencing *)

Definition and_then {S A B} (m : Ledger S -> Ledger S * result A) (k : A -> Ledger S -> Ledger S * result B)
    (l : Ledger S) : Ledger S * result B :=
  match m l with
  | (l, Ok a) => k a l
  | (l, Err e) => (l, Err e)
  end.

Definition return_ {S A} (a : A) (l : Ledger S) : Ledger S * result A := (l, Ok a).
Definition fail_ {S A} (e : error) (l : Ledger S) : Ledger S * result A := (l, Err e).

Declare Scope ledger_scope.
Notation "'let*' x ':=' m 'in' k" := (and_then m (fun x => k))
  (at level 10, x pattern, m at level 100, k at level 200) : ledger_scope.
Open Scope ledger_scope.

(** ** Text of errors *)

Definition format_arg (quote : string -> string) (verb : ascii) (a : arg) : string :=
  match a with
  | ArgS s => if Ascii.eqb verb "q" then quote s else s
  | ArgZ z => pretty z
  end.

(** [fmt.Errorf]: [%w] is the text of the wrapped error, any other verb takes the
    next argument. *)
Fixpoint format_error (quote : string -> string) (inner : string) (args : list arg) (format : string) : string :=
  match format with
  | EmptyString => ""
  | String "%" (String verb format) =>
    if Ascii.eqb verb "w" then inner +:+ format_error quote inner args format
    else match args with
         | a :: args => format_arg quote verb a +:+ format_error quote inner args format
         | [] => format_error quote inner [] format
         end
  | String c format => String c (format_error quote inner args format)
  end.

Fixpoint error_text (quote : string -> string) (e : error) : string :=
  match e with
  | Errorf format args => format_error quote "" args format
  | Wrapf format args inner => format_error quote (error_text quote inner) args format
  end.

Definition isTaskNotFoundError (quote : string -> string) (e : error) (taskID : string) : bool :=
  Contains (error_text quote e) ("task " +:+ quote (TrimSpace taskID) +:+ " not found").

(** ** Requests *)

Definition ResumeDecisionResume : string := TaskApprovalDecisionResume.
Definition ResumeDecisionApproved : string := TaskApprovalDecisionApproved.
Definition ResumeDecisionRejected : string := TaskApprovalDecisionRejected.
Definition ResumeDecisionAmended : string := TaskApprovalDecisionAmended.

Definition normalizeResumeDecision (decision : string) : string * bool := ParseTaskApprovalDecision decision.

Definition defaultResumeReason (decision : string) : string :=
  go_switch decision
    [([ResumeDecisionApproved], "approved via control rpc");
     ([ResumeDecisionRejected], "rejected via control rpc");
     ([ResumeDecisionAmended], "amended via control rpc")]
    "resumed via control rpc".

Definition set_nonblank (key value : string) (m : gmap string any) : gmap string any :=
  if value !=? "" then <[key := VString value]> m else m.

Definition approvalDecisionMeta (decision actor reason : string) (at_ : Z) : gmap string any :=
  let meta := {["approval_decision" := VString decision]} in
  let meta := set_nonblank "approval_actor" (TrimSpace actor) meta in
  let meta := set_nonblank "approval_reason" (TrimSpace reason) meta in
  let meta := if 0 <? at_ then <["approval_at" := VInt64 at_]> meta else meta in
  if decision ==? ResumeDecisionAmended then set_nonblank "amendment_note" (TrimSpace reason) meta else meta.

Definition normalizeServiceTaskSpec (task : TaskSpec) : TaskSpec :=
  let task := task <| ts_Title := TrimSpace (ts_Title task) |> in
  let task := task <| ts_Instructions := TrimSpace (ts_Instructions task) |> in
  let task := task <| ts_TaskID := TrimSpace (ts_TaskID task) |> in
  let task := task <| ts_GoalID := TrimSpace (ts_GoalID task) |> in
  let task := task <| ts_ParentTaskID := TrimSpace (ts_ParentTaskID task) |> in
  let task := task <| ts_PlanID := TrimSpace (ts_PlanID task) |> in
  let task := task <| ts_SessionID := TrimSpace (ts_SessionID task) |> in
  let task := task <| ts_AssignedAgent := TrimSpace (ts_AssignedAgent task) |> in
  let task := task <| ts_ToolProfile := TrimSpace (ts_ToolProfile task) |> in
  let task := task <| ts_CurrentRunID := TrimSpace (ts_CurrentRunID task) |> in
  let task := task <| ts_LastRunID := TrimSpace (ts_LastRunID task) |> in
  TaskSpec_Normalize task.

(** The task of a request, under a generated identifier if it has none. *)
Definition requested_task (clock : Z) (task : TaskSpec) : TaskSpec :=
  let task := normalizeServiceTaskSpec task in
  if ts_TaskID task ==? "" then task <| ts_TaskID := "task-" +:+ pretty clock |> else task.

(** The status a caller asks for, pending when it is not one. *)
Definition requested_status (task : TaskSpec) : string :=
  if negb (TaskStatus_Valid (ts_Status task)) then TaskStatusPending else ts_Status task.

(** The task as the service files it: without runs, pending, and with the one
    transition that created it. *)
Definition new_task (now : Z) (source actor : string) (task : TaskSpec) : TaskSpec :=
  let task := (task <| ts_CurrentRunID := "" |>) <| ts_LastRunID := "" |> in
  let task := if ts_CreatedAt task =? 0 then task <| ts_CreatedAt := now |> else task in
  ((task <| ts_UpdatedAt := now |>) <| ts_Status := TaskStatusPending |>)
    <| ts_Transitions := [mkTaskTransition "" TaskStatusPending now actor source "task created" None] |>.

(** The marks [annotateTaskDecision] leaves in the metadata of a task. *)
Definition decision_marks (decision actor reason : string) (at_ : Z) (m : gmap string any) : gmap string any :=
  let m := <["approval_decision" := VString decision]> m in
  let m := <["approval_actor" := VString (TrimSpace actor)]> m in
  let m := <["approval_reason" := VString (TrimSpace reason)]> m in
  let m := <["approval_at" := VInt64 at_]> m in
  if decision ==? ResumeDecisionAmended then <["amendment_note" := VString (TrimSpace reason)]> m else m.

(** [for k, v := range meta { last.Meta[k] = v }] on the last transition. *)
Fixpoint mark_last (meta : gmap string any) (trs : list TaskTransition) : list TaskTransition :=
  match trs with
  | [] => []
  | [last] => [last <| tt_Meta := Some (meta ∪ map_read (tt_Meta last)) |>]
  | tr :: trs => tr :: mark_last meta trs
  end.

(** Writing to the metadata of a copy of a task also writes to the cached entry, which
    shares the map, unless that has none. *)
Definition shared_meta (f : gmap string any -> gmap string any) (e : LedgerEntry) : LedgerEntry :=
  match ts_Meta (le_Task e) with
  | Some m => e <| le_Task := (le_Task e) <| ts_Meta := Some (f m) |> |>
  | None => e
  end.

Section Service.
Context {S : Type} `{Store S} `{ListingStore S}.

(** The entry behind a pointer into the cache. *)
Definition live_task (taskID : string) (entry : LedgerEntry) (l : Ledger S) : LedgerEntry :=
  default entry (l_tasks l !! taskID).

Definition edit_task (taskID : string) (f : LedgerEntry -> LedgerEntry) (l : Ledger S) : Ledger S :=
  match l_tasks l !! taskID with
  | Some e => put_task taskID (f e) l
  | None => l
  end.

Definition NewService (store : option S) (ledger : option (Ledger S)) : Ledger S :=
  default (NewLedger store) ledger.

(** ** Creating and reading *)

Definition Service_CreateTask (clock : Z) (task : TaskSpec) (source sourceRef actor : string) (l : Ledger S)
  : Ledger S * result LedgerEntry :=
  let source := if source ==? "" then TaskSourceManual else source in
  let actor := TrimSpace actor in
  let now := unix clock in
  let task := requested_task clock task in
  let requested := requested_status task in
  let task := new_task now source actor task in
  if requested !=? TaskStatusPending
  then match TaskSpec_ApplyTransition task requested now actor source "task created" None with
       | (_, Some e) => (l, Err e)
       | (task, None) => CreateTask now task source sourceRef l
       end
  else CreateTask now task source sourceRef l.

(** [ListRuns], of which a panic is not a result of the service. *)
Definition runs_of_task (taskID : string) (limit : Z) (l : Ledger S) : Ledger S * option (result (list RunEntry)) :=
  ListRuns (mkListRunsOptions taskID [] "" limit 0 "created_at" true false) l.

Definition Service_GetTask (taskID : string) (runsLimit : Z) (l : Ledger S)
  : Ledger S * option (result (TaskSpec * list TaskRun)) :=
  let taskID := TrimSpace taskID in
  if taskID ==? "" then (l, Some (Err (Errorf "task_id is required" [])))
  else
    let runsLimit := if runsLimit <=? 0 then 20 else runsLimit in
    match GetTask taskID l with
    | (l, Err e) => (l, Some (Err e))
    | (l, Ok entry) =>
      match runs_of_task taskID runsLimit l with
      | (l, Some (Ok runs)) => (l, Some (Ok (le_Task (live_task taskID entry l), map re_Run runs)))
      | (l, Some (Err e)) => (l, Some (Err e))
      | (l, None) => (l, None)
      end
    end.

(** ** Resuming *)

Definition annotateTaskDecision (clock : Z) (entry : LedgerEntry) (decision actor reason : string) (l : Ledger S)
  : Ledger S * result LedgerEntry :=
  let at_ := unix clock in
  let marks := decision_marks decision actor reason at_ in
  let meta := approvalDecisionMeta decision actor reason at_ in
  let task := TaskSpec_Normalize (le_Task entry) in
  let task := task <| ts_Meta := Some (marks (map_read (ts_Meta task))) |> in
  let task := task <| ts_Transitions := mark_last meta (ts_Transitions task) |> in
  let task := task <| ts_UpdatedAt := at_ |> in
  let mark_live e :=
    let e := shared_meta marks e in
    e <| le_Task := (le_Task e) <| ts_Transitions := mark_last meta (ts_Transitions (le_Task e)) |> |> in
  SaveTaskState at_ task (le_Source entry) (le_SourceRef entry) (edit_task (ts_TaskID task) mark_live l).

(** The status an operator's decision moves the task to, with the decision as metadata. *)
Definition decide_task (clock : Z) (taskID to decision actor reason : string) (l : Ledger S)
  : Ledger S * result LedgerEntry :=
  UpdateTaskStatusWithMeta (unix clock) taskID to actor "tasks.service" reason
    (Some (approvalDecisionMeta decision actor reason (unix clock))) l.

Definition rejectTaskResume (clock : Z) (entry : LedgerEntry) (actor reason decision : string)
  : Ledger S -> Ledger S * result (option RunEntry * LedgerEntry) :=
  let taskID := ts_TaskID (le_Task entry) in
  let* entry :=
    (if ts_Status (le_Task entry) !=? TaskStatusBlocked
     then if negb (AllowedTaskTransition (ts_Status (le_Task entry)) TaskStatusBlocked)
          then fail_ (Errorf "cannot reject task %q from status %q" [ArgS taskID; ArgS (ts_Status (le_Task entry))])
          else let* entry := decide_task clock taskID TaskStatusBlocked decision actor reason in
               annotateTaskDecision clock entry decision actor reason
     else annotateTaskDecision clock entry decision actor reason) in
  let currentRunID := TrimSpace (ts_CurrentRunID (le_Task entry)) in
  let* _ :=
    (if currentRunID !=? ""
     then let* existing := GetRun currentRunID in
          let status := tr_Status (re_Run existing) in
          if negb (isTerminalRunStatus status) && (status !=? TaskRunStatusBlocked)
             && AllowedTaskRunTransition status TaskRunStatusBlocked
          then let* _ := UpdateRunStatus (unix clock) currentRunID TaskRunStatusBlocked actor "tasks.service" reason in
               return_ tt
          else return_ tt
     else return_ tt) in
  let* entry := GetTask taskID in
  return_ (None, entry).

Definition annotated (decision : string) : bool :=
  (decision ==? ResumeDecisionApproved) || (decision ==? ResumeDecisionAmended).

(** The first half of a resumption: the task is ready. *)
Definition make_ready (clock : Z) (taskID decision actor reason : string) (entry : LedgerEntry)
  : Ledger S -> Ledger S * result LedgerEntry :=
  let annotate entry :=
    if annotated decision then annotateTaskDecision clock entry decision actor reason else return_ entry in
  if ts_Status (le_Task entry) !=? TaskStatusReady
  then if negb (AllowedTaskTransition (ts_Status (le_Task entry)) TaskStatusReady)
       then fail_ (Errorf "cannot resume task %q from status %q" [ArgS taskID; ArgS (ts_Status (le_Task entry))])
       else let* entry := decide_task clock taskID TaskStatusReady decision actor reason in annotate entry
  else annotate entry.

(** The second half: the current run is queued again if it can be, and otherwise the
    task gets a new one. *)
Definition requeue (clock : Z) (taskID currentRunID decision actor reason : string)
  : Ledger S -> Ledger S * result RunEntry :=
  let* queued :=
    (if currentRunID !=? ""
     then let* existing := GetRun currentRunID in
          let status := tr_Status (re_Run existing) in
          if status ==? TaskRunStatusQueued then return_ (Some existing)
          else if AllowedTaskRunTransition status TaskRunStatusQueued
          then let* run := UpdateRunStatus (unix clock) currentRunID TaskRunStatusQueued actor "tasks.service" reason in
               return_ (Some run)
          else return_ None
     else return_ None) in
  match queued with
  | Some run => return_ run
  | None => CreateRun (unix clock) taskID ("taskrun-" +:+ pretty clock) decision actor "tasks.service"
  end.

Definition ResumeTask (clock : Z) (taskID decision actor reason : string)
  : Ledger S -> Ledger S * result (option RunEntry * LedgerEntry) :=
  let taskID := TrimSpace taskID in
  if taskID ==? "" then fail_ (Errorf "task_id is required" [])
  else
  let '(decision, ok) := normalizeResumeDecision decision in
  if negb ok then fail_ (Errorf "resume decision %q is invalid" [ArgS decision])
  else
  let actor := TrimSpace actor in
  let reason := TrimSpace reason in
  let reason := if reason ==? "" then defaultResumeReason decision else reason in
  let* entry := GetTask taskID in
  if decision ==? ResumeDecisionRejected then rejectTaskResume clock entry actor reason decision
  else
  let* entry := make_ready clock taskID decision actor reason entry in
  let* run := requeue clock taskID (TrimSpace (ts_CurrentRunID (le_Task entry))) decision actor reason in
  let* entry := GetTask taskID in
  return_ (Some run, entry).

(** ** Worker runs *)

(** [if task.Status != to && AllowedTaskTransition(task.Status, to) { UpdateTaskStatus ... }] *)
Definition advance_task (clock : Z) (to actor source reason : string) (entry : LedgerEntry)
  : Ledger S -> Ledger S * result LedgerEntry :=
  if (ts_Status (le_Task entry) !=? to) && AllowedTaskTransition (ts_Status (le_Task entry)) to
  then UpdateTaskStatus (unix clock) (ts_TaskID (le_Task entry)) to actor source reason
  else return_ entry.

Definition advance_run (clock : Z) (to actor source reason : string) (entry : RunEntry)
  : Ledger S -> Ledger S * result RunEntry :=
  if (tr_Status (re_Run entry) !=? to) && AllowedTaskRunTransition (tr_Status (re_Run entry)) to
  then UpdateRunStatus (unix clock) (tr_RunID (re_Run entry)) to actor source reason
  else return_ entry.

(** The task of a worker run when the ledger does not know it. *)
Definition create_worker_task (clock : Z) (task : TaskSpec) (source sourceRef actor : string)
  : Ledger S -> Ledger S * result LedgerEntry :=
  let requested := requested_status task in
  let task := (((task <| ts_Status := TaskStatusPending |>) <| ts_CurrentRunID := "" |>) <| ts_LastRunID := "" |>)
                <| ts_Transitions := [] |> in
  let* entry := Service_CreateTask clock task source sourceRef actor in
  if requested !=? TaskStatusPending then advance_task clock requested actor source "task created" entry
  else return_ entry.

(** The task of a worker run when the ledger knows it: the fields of the caller, with
    the run linkage and, unless the caller gives one, the history of the known task. *)
Definition merge_worker_task (task : TaskSpec) (entry : LedgerEntry) : TaskSpec :=
  let known := le_Task entry in
  let task := (task <| ts_CurrentRunID := ts_CurrentRunID known |>) <| ts_LastRunID := ts_LastRunID known |> in
  let task := if ts_CreatedAt task =? 0 then task <| ts_CreatedAt := ts_CreatedAt known |> else task in
  if Nat.eqb (length (ts_Transitions task)) 0 then task <| ts_Transitions := ts_Transitions known |> else task.

(** Looking up the task; only a task that does not exist is created. *)
Definition worker_task (quote : string -> string) (clock : Z) (task : TaskSpec) (source sourceRef actor : string)
    (l : Ledger S) : Ledger S * result LedgerEntry :=
  match GetTask (ts_TaskID task) l with
  | (l, Err e) =>
    if isTaskNotFoundError quote e (ts_TaskID task) then create_worker_task clock task source sourceRef actor l
    else (l, Err e)
  | (l, Ok entry) => SaveTaskState (unix clock) (merge_worker_task task entry) source sourceRef l
  end.

Definition with_times (now : Z) (task : TaskSpec) : TaskSpec :=
  let task := if ts_CreatedAt task =? 0 then task <| ts_CreatedAt := now |> else task in
  if ts_UpdatedAt task =? 0 then task <| ts_UpdatedAt := now |> else task.

(** The run of a started worker: the parent is recorded and the run is set going. *)
Definition launch (clock : Z) (source sourceRef actor parent : string) (run : RunEntry)
  : Ledger S -> Ledger S * result RunEntry :=
  let* run :=
    (if parent !=? ""
     then SaveRunState (unix clock) ((re_Run run) <| tr_ParentRunID := parent |>) source sourceRef
     else return_ run) in
  advance_run clock TaskRunStatusRunning actor source "worker run started" run.

Definition StartWorkerRun (quote : string -> string) (clock : Z) (task : TaskSpec)
    (source sourceRef runID trigger actor reason parentRunID : string)
  : Ledger S -> Ledger S * result (TaskSpec * TaskRun) :=
  let source := if source ==? "" then TaskSourceManual else source in
  let actor := TrimSpace actor in
  let reason := TrimSpace reason in
  let reason := if reason ==? "" then "worker task started" else reason in
  let runID := TrimSpace runID in
  let runID := if runID ==? "" then "taskrun-" +:+ pretty clock else runID in
  let task := normalizeServiceTaskSpec task in
  if ts_TaskID task ==? "" then fail_ (Errorf "task_id is required" [])
  else
  let task := with_times (unix clock) task in
  let* entry := worker_task quote clock task source sourceRef actor in
  let* entry := advance_task clock TaskStatusInProgress actor source reason entry in
  let* run := CreateRun (unix clock) (ts_TaskID (le_Task entry)) runID (TrimSpace trigger) actor source in
  let* run := launch clock source sourceRef actor (TrimSpace parentRunID) run in
  let* entry := GetTask (ts_TaskID (le_Task entry)) in
  return_ (le_Task entry, re_Run run).

(** The outcome of a worker run: [None] for success, and otherwise the text of the
    error of its turn. *)
Definition target_run_status (turnErr : option string) : string :=
  match turnErr with None => TaskRunStatusCompleted | Some _ => TaskRunStatusFailed end.
Definition target_task_status (turnErr : option string) : string :=
  match turnErr with None => TaskStatusCompleted | Some _ => TaskStatusFailed end.

(** The transition tried on a copy of the task before anything is saved. *)
Definition preflight (now : Z) (to actor reason : string) (entry : LedgerEntry) : option error :=
  if (ts_Status (le_Task entry) !=? to) && AllowedTaskTransition (ts_Status (le_Task entry)) to
  then (TaskSpec_ApplyTransition (le_Task entry) to now actor (le_Source entry) reason None).2
  else None.

(** The marks a finished turn leaves in the metadata of its task. *)
Definition finish_marks (turnErr : option string) (historyEntryIDs : list string) (m : gmap string any)
  : gmap string any :=
  match turnErr with
  | Some _ => m
  | None =>
    let m := match m !! "verification_status" with
             | Some _ => m
             | None => <["verification_status" := VString "pending"]> m
             end in
    match historyEntryIDs with
    | [] => m
    | _ => <["result_history_entry_id" := VString (List.last historyEntryIDs "")]> m
    end
  end.

Definition FinishWorkerRun (clock : Z) (taskID runID : string) (result : TaskResultRef) (usage : TaskUsage)
    (actor : string) (turnErr : option string) (historyEntryIDs : list string)
  : Ledger S -> Ledger S * Prelude.result (TaskSpec * TaskRun) :=
  let taskID := TrimSpace taskID in
  let runID := TrimSpace runID in
  if taskID ==? "" then fail_ (Errorf "task_id is required" [])
  else if runID ==? "" then fail_ (Errorf "run_id is required" [])
  else
  let actor := TrimSpace actor in
  let actor := if actor ==? "" then "worker" else actor in
  let now := unix clock in
  let* runEntry := GetRun runID in
  let run := TaskRun_Normalize (re_Run runEntry) in
  let run := (run <| tr_Result := result |>) <| tr_Usage := usage |> in
  let run := match turnErr with Some e => run <| tr_Error := TrimSpace e |> | None => run end in
  let runReason := match turnErr with Some _ => tr_Error run | None => "worker run completed" end in
  let taskReason := match turnErr with Some _ => tr_Error run | None => "worker task completed" end in
  let target := target_task_status turnErr in
  let* found := GetTask taskID in
  match preflight now target actor taskReason found with
  | Some e => fail_ e
  | None =>
    let* runEntry := SaveRunState now run (re_Source runEntry) (re_SourceRef runEntry) in
    let* runEntry :=
      (if (tr_Status (re_Run runEntry) !=? target_run_status turnErr)
          && AllowedTaskRunTransition (tr_Status (re_Run runEntry)) (target_run_status turnErr)
       then UpdateRunStatus now runID (target_run_status turnErr) actor (re_Source runEntry) runReason
       else return_ runEntry) in
    let* entry := (fun l => (edit_task taskID (shared_meta (finish_marks turnErr historyEntryIDs)) l,
                             Ok (live_task taskID found l))) in
    let task := TaskSpec_Normalize (le_Task entry) in
    let task := task <| ts_Meta := Some (finish_marks turnErr historyEntryIDs (map_read (ts_Meta task))) |> in
    let* entry := SaveTaskState now task (le_Source entry) (le_SourceRef entry) in
    let* entry :=
      (if (ts_Status (le_Task entry) !=? target) && AllowedTaskTransition (ts_Status (le_Task entry)) target
       then UpdateTaskStatus now taskID target actor (le_Source entry) taskReason
       else return_ entry) in
    let task := TaskSpec_Normalize (le_Task entry) in
    let task := ((task <| ts_CurrentRunID := "" |>) <| ts_LastRunID := runID |>) <| ts_UpdatedAt := now |> in
    let* entry := SaveTaskState now task (le_Source entry) (le_SourceRef entry) in
    return_ (le_Task entry, re_Run runEntry)
  end.

Definition Service_CancelTask (clock : Z) (taskID actor reason : string) (l : Ledger S) : Ledger S * option error :=
  let taskID := TrimSpace taskID in
  if taskID ==? "" then (l, Some (Errorf "task_id is required" []))
  else
    let reason := TrimSpace reason in
    let reason := if reason ==? "" then "task cancelled" else reason in
    CancelTask (unix clock) taskID (TrimSpace actor) reason l.
End Service.

(** ** A missing service *)

(** A nil service, or one without a ledger, refuses every operation. *)
Definition on_service {S A} (op : Ledger S -> Ledger S * result A) (s : option (Ledger S))
  : option (Ledger S) * result A :=
  match s with
  | None => (None, Err (Errorf "task service is nil" []))
  | Some l => let '(l, r) := op l in (Some l, r)
  end.
