(* ===== verification/TaskServiceProps.v ===== *)
(** What the operations of the task service do: a small program logic for ledger
    operations, the effects of each of them, and the theorems on resuming tasks and on
    worker runs. *)

From Stdlib Require Import Ascii String.
From stdpp Require Import base tactics decidable list gmap strings pretty relations.
From S2P Require Import Prelude Identifiers Enums Verification Budget TaskModels Lifecycle LedgerModels Ledger LedgerInvariant LedgerProps Duration Idempotency Sorting Listing TaskService.

(** ** Generated identifiers *)

Lemma generated_id_trimmed (clock : Z) : TrimSpace ("taskrun-" +:+ pretty clock) = "taskrun-" +:+ pretty clock.
Proof. apply TrimSpace_plain, plain_app; [by repeat constructor|apply plain_pretty]. Qed.

Section Logic.
Context {S : Type} `{StoreLaws S}.
Implicit Types l : Ledger S.

(** ** A program logic *)

(** From [l], the operation keeps the ledger well formed, and when it succeeds its
    result and the ledger it leaves satisfy [Q]. *)
Definition spec {A} (m : Ledger S -> Ledger S * result A) l (Q : Ledger S -> A -> Prop) : Prop :=
  ledger_ok (m l).1 /\ forall a, (m l).2 = Ok a -> Q (m l).1 a.

Lemma spec_then {A B} (m : Ledger S -> Ledger S * result A) (k : A -> Ledger S -> Ledger S * result B) l Q R :
  spec m l Q -> (forall l1 a, ledger_ok l1 -> Q l1 a -> spec (k a) l1 R) -> spec (and_then m k) l R.
Proof.
  intros [Hok HQ] Hk. unfold spec, and_then. destruct (m l) as [l1 [a|e]]; cbn in *; [|by split].
  apply Hk; auto.
Qed.

Lemma spec_return {A} (a : A) l (Q : Ledger S -> A -> Prop) : ledger_ok l -> Q l a -> spec (return_ a) l Q.
Proof. intros Hok HQ. split; [done|]. by intros ? [= <-]. Qed.

Lemma spec_fail {A} e l (Q : Ledger S -> A -> Prop) : ledger_ok l -> spec (fail_ e) l Q.
Proof. by split. Qed.

Lemma spec_if {A} (b : bool) (m1 m2 : Ledger S -> Ledger S * result A) l Q :
  (b = true -> spec m1 l Q) -> (b = false -> spec m2 l Q) -> spec (if b then m1 else m2) l Q.
Proof. destruct b; auto. Qed.

Lemma spec_weaken {A} (m : Ledger S -> Ledger S * result A) l (Q R : Ledger S -> A -> Prop) :
  spec m l Q -> (forall l1 a, ledger_ok l1 -> Q l1 a -> R l1 a) -> spec m l R.
Proof. intros [Hok HQ] HR. split; [done|]. auto. Qed.

(** ** What operations leave alone *)

(** The part of a cached task that only a change of its status or a new run moves. *)
Definition face (e : LedgerEntry) : string * string :=
  (ts_Status (le_Task e), ts_CurrentRunID (le_Task e)).

Definition faces_kept l l' : Prop :=
  forall id e, l_tasks l !! id = Some e -> exists e',
    l_tasks l' !! id = Some e' /\ face e' = face e /\ ts_Verification (le_Task e') = ts_Verification (le_Task e).
Definition runs_kept l l' : Prop :=
  forall id e, l_runs l !! id = Some e -> l_runs l' !! id = Some e.
Definition no_new_run l l' : Prop :=
  forall re, OnRunCreated re ∈ l_events l' -> OnRunCreated re ∈ l_events l.

(** Of the cached runs, at most [runID] is changed. *)
Definition only_run (runID : string) l l' : Prop :=
  forall id e, id <> runID -> l_runs l !! id = Some e -> l_runs l' !! id = Some e.

(** Reading: entries may be loaded into the cache, nothing else happens. *)
Definition quiet l l' : Prop := faces_kept l l' /\ runs_kept l l' /\ l_events l' = l_events l.

#[export] Instance faces_kept_preorder : PreOrder faces_kept.
Proof.
  split.
  - intros l id e He. eauto.
  - intros l1 l2 l3 H1 H2 id e He. apply H1 in He as (e' & He & Hf & Hv). apply H2 in He as (e'' & He & Hf' & Hv').
    exists e''. split; [done|]. split; congruence.
Qed.
#[export] Instance runs_kept_preorder : PreOrder runs_kept.
Proof. split; [by intros l id e|]. intros l1 l2 l3 H1 H2 id e He. auto. Qed.
#[export] Instance only_run_preorder runID : PreOrder (only_run runID).
Proof. split; [by intros l id e|]. intros l1 l2 l3 H1 H2 id e Hne He. auto. Qed.
Lemma runs_kept_only runID l l' : runs_kept l l' -> only_run runID l l'.
Proof. intros H1 id e _. apply H1. Qed.
#[export] Instance no_new_run_preorder : PreOrder no_new_run.
Proof. split; [by intros l re|]. intros l1 l2 l3 H1 H2 re Hre. auto. Qed.
#[export] Instance quiet_preorder : PreOrder quiet.
Proof.
  split; [by intros l; repeat split|]. intros l1 l2 l3 (F1 & R1 & E1) (F2 & R2 & E2).
  split; [by transitivity l2|]. split; [by transitivity l2|congruence].
Qed.

Lemma same_tasks_kept l l' : l_tasks l' = l_tasks l -> faces_kept l l'.
Proof. intros E id e He. rewrite E. eauto. Qed.
Lemma same_runs_kept l l' : l_runs l' = l_runs l -> runs_kept l l'.
Proof. intros E id e He. by rewrite E. Qed.
Lemma same_events l l' : l_events l' = l_events l -> no_new_run l l'.
Proof. intros E re. by rewrite E. Qed.

Lemma insert_faces_kept l l' id e :
  l_tasks l' = <[id := e]> (l_tasks l) -> (forall e0, l_tasks l !! id = Some e0 -> face e = face e0 /\ ts_Verification (le_Task e) = ts_Verification (le_Task e0)) ->
  faces_kept l l'.
Proof.
  intros E Hf k x Hx. rewrite E. destruct (decide (k = id)) as [->|Hne].
  - rewrite lookup_insert_eq. exists e. split; [done|]. auto.
  - rewrite lookup_insert_ne by done. eauto.
Qed.

Lemma quiet_no_new_run l l' : quiet l l' -> no_new_run l l'.
Proof. intros (_ & _ & E). by apply same_events. Qed.

Lemma store_frame (m : Ledger S -> Ledger S * option error) l l' err :
  (forall l1 x, m l = (l1, x) -> exists s, l1 = l <| l_store := s |>) -> m l = (l', err) ->
  l_tasks l' = l_tasks l /\ l_runs l' = l_runs l /\ l_events l' = l_events l.
Proof. intros Hf Hm. by apply Hf in Hm as [s ->]. Qed.

Lemma save_task_frame e l l' err :
  store_save_task e l = (l', err) -> l_tasks l' = l_tasks l /\ l_runs l' = l_runs l /\ l_events l' = l_events l.
Proof. apply store_frame. intros l1 x. apply store_save_task_frame. Qed.
Lemma save_run_frame e l l' err :
  store_save_run e l = (l', err) -> l_tasks l' = l_tasks l /\ l_runs l' = l_runs l /\ l_events l' = l_events l.
Proof. apply store_frame. intros l1 x. apply store_save_run_frame. Qed.

(** ** The effects of the ledger operations *)

Lemma GetTask_spec id l :
  ledger_ok l -> spec (GetTask id) l (fun l' e => l_tasks l' !! id = Some e /\ quiet l l').
Proof.
  intros Hok. unfold spec. destruct (GetTask id l) as [l' r] eqn:E.
  destruct (GetTask_ok _ _ _ _ Hok E) as [Hok' Hr]. split; [done|]. cbn. intros e ->.
  split; [by apply Hr|]. revert E. unfold GetTask. destruct (l_tasks l !! id) eqn:E0; [by intros [= <-]|].
  destruct (l_store l) as [s|]; [|done]. destruct (LoadTask s id) as [s' [[e1|]|]]; try done.
  intros [= <- _]. split; [|by split; [apply same_runs_kept|]].
  eapply insert_faces_kept; [reflexivity|]. cbn. by rewrite E0.
Qed.

Lemma GetRun_spec id l :
  ledger_ok l -> spec (GetRun id) l (fun l' e => l_runs l' !! id = Some e /\ quiet l l').
Proof.
  intros Hok. unfold spec. pose proof (GetRun_ok id l Hok) as Hok'. split; [done|]. clear Hok'.
  intros e. unfold GetRun. destruct (l_runs l !! id) as [e0|] eqn:E0; [by intros [= <-]|].
  destruct (l_store l) as [s|]; [|done]. destruct (LoadRun s id) as [s' [[e1|]|]]; try done.
  intros [= <-]. cbn. rewrite lookup_insert_eq. split; [done|]. split; [by apply same_tasks_kept|].
  split; [|done]. intros k x Hx. cbn. rewrite lookup_insert_ne; [done|]. congruence.
Qed.

(** A task as it is filed: the update time is filled in when it is missing. *)
Definition filed_as (t : TaskSpec) (e : LedgerEntry) : Prop :=
  le_Task e = t <| ts_UpdatedAt := ts_UpdatedAt (le_Task e) |>.

Lemma save_task_entry_filed now t source ref e : filed_as t (save_task_entry now t source ref e).
Proof.
  unfold filed_as, save_task_entry. cbv zeta. repeat case_match; cbn; destruct t; reflexivity.
Qed.

Lemma SaveTaskState_spec now task source ref l :
  ledger_ok l ->
  spec (SaveTaskState now task source ref) l (fun l' e => exists e0,
    e = cloneLedgerEntry e0 /\ filed_as (TaskSpec_Normalize task) e0
    /\ l_tasks l' = <[ts_TaskID task := e0]> (l_tasks l)
    /\ l_runs l' = l_runs l /\ l_events l' = l_events l).
Proof.
  intros Hok. split; [by apply SaveTaskState_ok|]. intros a.
  assert (ts_TaskID (TaskSpec_Normalize task) = ts_TaskID task) as Hid by (by rewrite TaskSpec_Normalize_fields).
  unfold SaveTaskState. destruct (TaskSpec_Validate _); [done|]. cbv zeta. rewrite Hid.
  set (e0 := save_task_entry _ _ _ _ _). destruct (store_save_task _ _) as [l' [x|]] eqn:Es; [done|].
  apply save_task_frame in Es as (Ht & Hr & He). intros [= <-]. exists e0. cbn [fst].
  split; [done|]. split; [apply save_task_entry_filed|]. by rewrite Ht, Hr, He.
Qed.

Lemma ensureTaskLoaded_cached id l e : l_tasks l !! id = Some e -> ensureTaskLoaded id l = (l, Ok e).
Proof. intros He. unfold ensureTaskLoaded. by rewrite He. Qed.
Lemma ensureRunLoaded_cached id l e : l_runs l !! id = Some e -> ensureRunLoaded id l = (l, Ok e).
Proof. intros He. unfold ensureRunLoaded. by rewrite He. Qed.

Lemma updateTaskStatus_spec now id to actor source reason meta l e0 :
  ledger_ok l -> l_tasks l !! id = Some e0 ->
  spec (updateTaskStatus now id to actor source reason meta) l (fun l' e =>
    task_may_move (le_Task e0) to now
    /\ le_Task e = task_moved (le_Task e0) to now actor source reason meta
    /\ le_Source e = le_Source e0 /\ le_SourceRef e = le_SourceRef e0
    /\ l_tasks l' = <[id := e]> (l_tasks l) /\ l_runs l' = l_runs l
    /\ exists tr, l_events l' = l_events l ++ [OnTaskUpdated e tr]).
Proof.
  intros Hok He0. split; [by apply updateTaskStatus_ok|]. intros e.
  unfold updateTaskStatus. rewrite (ensureTaskLoaded_cached _ _ _ He0), He0.
  change (default e0 (Some e0)) with e0. unfold update_task_locked.
  destruct (task_apply_cases (le_Task e0) to now actor source reason meta) as [[Hm ->]|(_ & x & ->)]; [|done].
  cbv beta iota zeta. set (moved := _ <| le_UpdatedAt := now |>).
  destruct (store_save_task _ _) as [l' [x|]] eqn:Es; [done|]. apply save_task_frame in Es as (Ht & Hr & He).
  intros [= <-]. cbn [fst]. split; [done|]. split; [done|]. split; [done|]. split; [done|].
  split; [exact Ht|]. split; [exact Hr|]. eexists. change (l_events (emit ?x ?l)) with (l_events l ++ [x]).
  cbn. by rewrite He.
Qed.

Lemma CreateRun_spec now id runID trigger actor source l e0 :
  ledger_ok l -> l_tasks l !! id = Some e0 -> TrimSpace runID = runID ->
  spec (CreateRun now id runID trigger actor source) l (fun l' re =>
    NewTaskRunAttempt (le_Task e0) runID (le_Runs e0) now trigger actor source = Ok (re_Run re)
    /\ l_tasks l' = <[id := create_run_entry now runID (re_Run re) e0]> (l_tasks l)
    /\ l_runs l' = <[runID := re]> (l_runs l)
    /\ l_events l' = l_events l ++ [OnRunCreated re]).
Proof.
  intros Hok He0 Htrim. split; [by apply CreateRun_ok|]. intros re.
  pose proof Hok as (Ht & _). pose proof (Ht _ _ He0) as Hoke.
  unfold CreateRun. rewrite (ensureTaskLoaded_cached _ _ _ He0), He0.
  rewrite checks_normalized_good by apply Hoke. replace (e0 <| le_Task := le_Task e0 |>) with e0 by by destruct e0.
  destruct (NewTaskRunAttempt _ _ _ _ _ _ _) as [run|x]; [|done]. cbv zeta.
  destruct (store_save_run _ _) as [l1 [x|]] eqn:E1; [done|]. apply save_run_frame in E1 as (Ht1 & Hr1 & He1).
  destruct (store_save_task _ _) as [l2 [x|]] eqn:E2; [done|]. apply save_task_frame in E2 as (Ht2 & Hr2 & He2).
  intros [= <-]. cbn [fst]. split; [done|]. unfold emit. cbn. rewrite Ht2, Ht1, Hr2, Hr1, He2, He1. done.
Qed.

Lemma SaveRunState_spec now run source ref l :
  ledger_ok l ->
  spec (SaveRunState now run source ref) l (fun l' re => exists e0,
    re = cloneRunEntry e0 /\ re_Run e0 = TaskRun_Normalize run
    /\ l_runs l' = <[tr_RunID run := e0]> (l_runs l)
    /\ faces_kept l l' /\ l_events l' = l_events l).
Proof.
  intros Hok. split; [by apply SaveRunState_ok|]. intros a.
  assert (tr_RunID (TaskRun_Normalize run) = tr_RunID run) as Hid by (by rewrite TaskRun_Normalize_fields).
  unfold SaveRunState. destruct (TaskRun_Validate _); [done|]. cbv zeta. rewrite Hid.
  set (e0 := save_run_entry _ _ _ _ _). set (l1 := put_run _ e0 l). change (l_tasks l1) with (l_tasks l).
  set (taskID := tr_TaskID (TaskRun_Normalize run)).
  destruct (store_save_run _ _) as [l' [x|]] eqn:Es; [done|].
  apply save_run_frame in Es as (Ht & Hr & He). intros [= <-]. exists e0. cbn [fst].
  split; [done|]. split; [unfold e0, save_run_entry; cbv zeta; by repeat case_match|].
  rewrite Hr, He. destruct (l_tasks l !! taskID) as [te|] eqn:E;
    [|split; [done|]; split; [by apply same_tasks_kept|done]].
  split; [done|]. split; [|done]. eapply insert_faces_kept; [by rewrite Ht|]. rewrite E. by intros ? [= <-].
Qed.

Lemma add_embedded_runs_kept entry runs id e :
  runs !! id = Some e -> add_embedded_runs entry runs !! id = Some e.
Proof.
  unfold add_embedded_runs. revert runs. induction (le_Runs entry) as [|r rs IH]; intros runs He; [done|]. cbn.
  apply IH. destruct (runs !! tr_RunID r) eqn:Er; [done|]. rewrite lookup_insert_ne; [done|]. congruence.
Qed.

Lemma store_quiet s l : quiet l (l <| l_store := s |>).
Proof. split; [by apply same_tasks_kept|]. split; [by apply same_runs_kept|done]. Qed.

Lemma ensureTaskLoaded_quiet id l l' r : ensureTaskLoaded id l = (l', r) -> quiet l l'.
Proof.
  unfold ensureTaskLoaded. destruct (l_tasks l !! id) as [e|] eqn:E; [by intros [= <- _]|].
  destruct (l_store l) as [s|]; [|by intros [= <- _]].
  destruct (LoadTask s id) as [s' [[e1|]|]]; [|intros [= <- _]; apply store_quiet..].
  cbn. rewrite E. intros [= <- _]. split; [|split; [|done]].
  - eapply insert_faces_kept; [reflexivity|]. by rewrite E.
  - intros k x Hx. cbn. by apply add_embedded_runs_kept.
Qed.

Lemma UpdateRunStatus_spec now runID to actor source reason l e0 :
  ledger_ok l -> l_runs l !! runID = Some e0 ->
  spec (UpdateRunStatus now runID to actor source reason) l (fun l' re =>
    run_may_move (re_Run e0) to now
    /\ re_Run re = run_moved (re_Run e0) to now actor source reason None
    /\ l_runs l' !! runID = Some re /\ faces_kept l l' /\ no_new_run l l' /\ only_run runID l l').
Proof.
  intros Hok He0. split; [by apply UpdateRunStatus_ok|]. intros re.
  unfold UpdateRunStatus. rewrite (ensureRunLoaded_cached _ _ _ He0).
  destruct (ensureTaskLoaded _ l) as [l1 [te|]] eqn:El; [|done].
  apply ensureTaskLoaded_quiet in El as Hq. pose proof Hq as (HF & HR & HE). rewrite (HR _ _ He0).
  destruct (run_apply_cases (re_Run e0) to now actor source reason None) as [[Hm ->]|(_ & x & ->)]; [|done].
  set (run := run_moved _ _ _ _ _ _ _). set (e1 := (e0 <| re_Run := run |>) <| re_UpdatedAt := now |>). cbv zeta.
  set (l2 := put_run runID e1 l1). change (l_tasks l2) with (l_tasks l1).
  set (task := note_run now runID run <$> l_tasks l1 !! tr_TaskID run).
  assert (forall l3, l3 = match task with Some te => put_task (tr_TaskID run) te l2 | None => l2 end ->
    faces_kept l1 l3 /\ l_runs l3 = <[runID := e1]> (l_runs l1) /\ l_events l3 = l_events l1) as H3.
  { intros l3 ->. unfold task. destruct (l_tasks l1 !! tr_TaskID run) as [t|] eqn:Et; cbn;
      [|split; [by apply same_tasks_kept|done]].
    split; [|done]. eapply insert_faces_kept; [reflexivity|].
    intros x Hx. by injection (eq_trans (eq_sym Et) Hx) as <-. }
  specialize (H3 _ eq_refl). revert H3. generalize (match task with Some te => put_task (tr_TaskID run) te l2 | None => l2 end).
  intros l3 (HF3 & HR3 & HE3).
  destruct (store_save_run _ l3) as [l4 [x|]] eqn:E1; [done|]. apply save_run_frame in E1 as (Ht4 & Hr4 & He4).
  match goal with |- context [match ?m with (_, _) => _ end] => destruct m as [l5 [x|]] eqn:E5 end; [done|].
  assert (l_tasks l5 = l_tasks l4 /\ l_runs l5 = l_runs l4 /\ l_events l5 = l_events l4) as (Ht5 & Hr5 & He5).
  { destruct task; [by apply save_task_frame in E5|]. by injection E5 as <-. }
  intros [= <-]. cbn [fst]. split; [done|]. split; [done|].
  split; [cbn; by rewrite Hr5, Hr4, HR3, lookup_insert_eq|]. split.
  - transitivity l1; [done|]. transitivity l3; [done|]. apply same_tasks_kept. cbn. congruence.
  - split; [|intros k x Hne Hx; cbn; rewrite Hr5, Hr4, HR3, lookup_insert_ne by congruence; by apply HR].
    intros re' Hin. cbn in Hin. rewrite He5, He4, HE3, HE in Hin. apply elem_of_app in Hin as [|Hin]; [done|].
    by apply list_elem_of_singleton in Hin.
Qed.

(** ** Resuming *)

(** A cached entry has a valid status, so filing it again keeps its face. *)
Lemma filed_face task e :
  TaskStatus_Valid (ts_Status task) = true -> filed_as (TaskSpec_Normalize task) e ->
  face e = (ts_Status task, ts_CurrentRunID task).
Proof.
  intros Hv Hf. unfold face, filed_as in *. rewrite Hf, TaskSpec_Normalize_fields. cbn.
  by rewrite norm_task_status_id.
Qed.

Lemma cached_status id e l : ledger_ok l -> l_tasks l !! id = Some e -> TaskStatus_Valid (ts_Status (le_Task e)) = true.
Proof. intros (Ht & _) He. apply Ht in He as (_ & Hg & _). by apply good_task_status. Qed.

Lemma cached_normal id e l : ledger_ok l -> l_tasks l !! id = Some e ->
  ts_TaskID (le_Task e) = id /\ TaskSpec_Normalize (le_Task e) = le_Task e.
Proof. intros (Ht & _) He. by apply Ht in He as (Hid & (Hn & _) & _). Qed.

Lemma edit_task_ok id f l :
  (forall e, task_entry_ok id e -> task_entry_ok id (f e)) -> ledger_ok l -> ledger_ok (edit_task id f l).
Proof.
  intros Hf Hok. unfold edit_task. destruct (l_tasks l !! id) as [e|] eqn:E; [|done].
  apply put_task_ok; [done|]. apply Hf. destruct Hok as (Ht & _). by apply Ht.
Qed.

(** Metadata and history may be rewritten without breaking a task. *)
Lemma annotations_ok id m trs e :
  task_entry_ok id e ->
  task_entry_ok id (e <| le_Task := ((le_Task e) <| ts_Meta := m |>) <| ts_Transitions := trs |> |>).
Proof.
  intros (Hid & Hg & Hr). split; [done|]. split; [|done]. apply (good_task_update (le_Task e)); cbn; auto with go.
Qed.

Lemma annotate_spec clock id e decision actor reason l :
  ledger_ok l -> l_tasks l !! id = Some e ->
  spec (annotateTaskDecision clock e decision actor reason) l (fun l' e' =>
    face e' = face e /\ (exists e0, l_tasks l' !! id = Some e0 /\ face e0 = face e)
    /\ runs_kept l l' /\ l_events l' = l_events l).
Proof.
  intros Hok He. pose proof (cached_status _ _ _ Hok He) as Hv. destruct (cached_normal _ _ _ Hok He) as [Hid Hn].
  unfold annotateTaskDecision. cbv zeta. rewrite !Hn.
  set (task := ((_ <| ts_Meta := _ |>) <| ts_Transitions := _ |>) <| ts_UpdatedAt := _ |>).
  change (ts_TaskID task) with (ts_TaskID (le_Task e)). rewrite Hid.
  set (mark := fun e1 : LedgerEntry => _).
  assert (ledger_ok (edit_task id mark l)) as Hok1.
  { apply edit_task_ok; [|done]. intros x Hx. unfold mark, shared_meta. cbv zeta.
    destruct (ts_Meta (le_Task x)) as [m|] eqn:Em.
    - refine (annotations_ok id _ _ x Hx).
    - pose proof (annotations_ok id None (mark_last (approvalDecisionMeta decision actor reason (unix clock))
        (ts_Transitions (le_Task x))) x Hx) as Hx'. rewrite <- Em in Hx'.
      replace ((le_Task x) <| ts_Meta := ts_Meta (le_Task x) |>) with (le_Task x) in Hx' by by destruct (le_Task x).
      exact Hx'. }
  assert (l_runs (edit_task id mark l) = l_runs l /\ l_events (edit_task id mark l) = l_events l) as [Hr1 He1]
    by (unfold edit_task; rewrite He; done).
  pose proof (SaveTaskState_spec (unix clock) task (le_Source e) (le_SourceRef e) _ Hok1) as Hs.
  destruct Hs as [Hs1 Hs2]. split; [exact Hs1|]. intros e' He'. apply Hs2 in He' as (e0 & -> & Hf & Ht & Hr & Hev).
  apply filed_face in Hf; [|exact Hv]. split; [exact Hf|]. split.
  - exists e0. rewrite Ht. change (ts_TaskID task) with (ts_TaskID (le_Task e)). rewrite Hid, lookup_insert_eq. by split.
  - split; [|congruence]. apply same_runs_kept. congruence.
Qed.

Lemma moved_face t to now actor source reason meta :
  ts_Status (task_moved t to now actor source reason meta) = to
  /\ ts_CurrentRunID (task_moved t to now actor source reason meta) = ts_CurrentRunID t.
Proof. unfold task_moved. by rewrite TaskSpec_Normalize_fields. Qed.

Lemma task_moved_id t to now actor source reason meta :
  ts_TaskID (task_moved t to now actor source reason meta) = ts_TaskID t.
Proof. unfold task_moved. by rewrite TaskSpec_Normalize_fields. Qed.
Lemma run_moved_status r to now actor source reason meta :
  tr_Status (run_moved r to now actor source reason meta) = to.
Proof. unfold run_moved. by rewrite TaskRun_Normalize_fields. Qed.

Lemma update_no_new_run l l' e tr : l_events l' = l_events l ++ [OnTaskUpdated e tr] -> no_new_run l l'.
Proof.
  intros E re. rewrite E, elem_of_app. intros [|Hin]; [done|]. by apply list_elem_of_singleton in Hin.
Qed.

Lemma decide_spec clock id to decision actor reason e l :
  ledger_ok l -> l_tasks l !! id = Some e ->
  spec (decide_task clock id to decision actor reason) l (fun l' e' =>
    face e' = (to, ts_CurrentRunID (le_Task e)) /\ l_tasks l' !! id = Some e'
    /\ runs_kept l l' /\ no_new_run l l').
Proof.
  intros Hok He. eapply spec_weaken; [by apply updateTaskStatus_spec|].
  intros l1 e' _ (_ & Ht & _ & _ & Htasks & Hruns & tr & Hev).
  destruct (moved_face (le_Task e) to (unix clock) actor "tasks.service" reason
              (Some (approvalDecisionMeta decision actor reason (unix clock)))) as [H1 H2].
  split; [unfold face; by rewrite Ht, H1, H2|]. rewrite Htasks, lookup_insert_eq. split; [done|].
  split; [by apply same_runs_kept|by eapply update_no_new_run].
Qed.

(** The task [id] is cached with the status and the current run given. *)
Definition stands (id status current : string) l : Prop :=
  exists e, l_tasks l !! id = Some e /\ face e = (status, current).

Lemma stands_kept id status current l l' : faces_kept l l' -> stands id status current l -> stands id status current l'.
Proof. intros HF (e & He & Hf). apply HF in He as (e' & He' & Hf' & _). exists e'. split; [done|congruence]. Qed.

Lemma make_ready_spec clock id decision actor reason e l :
  ledger_ok l -> l_tasks l !! id = Some e ->
  spec (make_ready clock id decision actor reason e) l (fun l' e' =>
    face e' = (TaskStatusReady, ts_CurrentRunID (le_Task e))
    /\ stands id TaskStatusReady (ts_CurrentRunID (le_Task e)) l' /\ runs_kept l l').
Proof.
  intros Hok He. unfold make_ready. cbv zeta.
  assert (forall e1 l1, ledger_ok l1 -> l_tasks l1 !! id = Some e1 ->
    face e1 = (TaskStatusReady, ts_CurrentRunID (le_Task e)) -> runs_kept l l1 ->
    spec (if annotated decision then annotateTaskDecision clock e1 decision actor reason else return_ e1) l1
      (fun l' e' => face e' = (TaskStatusReady, ts_CurrentRunID (le_Task e))
                    /\ stands id TaskStatusReady (ts_CurrentRunID (le_Task e)) l' /\ runs_kept l l')) as Ha.
  { intros e1 l1 Hok1 He1 Hf1 Hk1. apply spec_if; intros _.
    - eapply spec_weaken; [by eapply annotate_spec|]. cbv beta. intros l2 e2 _ (Hf & (e0 & He0 & Hf0) & Hk2 & _).
      split; [congruence|]. split; [|by transitivity l1]. exists e0. split; [done|congruence].
    - apply spec_return; [done|]. split; [done|]. split; [by exists e1|done]. }
  apply spec_if; intros Hb.
  - apply spec_if; intros _; [by apply spec_fail|]. eapply spec_then; [by eapply decide_spec|].
    cbv beta. intros l1 e1 Hok1 (Hf1 & He1 & Hk1 & _). by apply Ha.
  - apply Ha; [done|done| |done]. unfold face. f_equal. by destruct (String.eqb_spec (ts_Status (le_Task e)) TaskStatusReady).
Qed.

Lemma run_key l k re : ledger_ok l -> l_runs l !! k = Some re -> TrimSpace k = k -> tr_RunID (re_Run re) = k.
Proof. intros (_ & Hr & _) He Hk. apply Hr in He as [[E|E] _]; congruence. Qed.

(** A queued run is found, or made, and is the current one of the task. *)
Lemma requeue_spec clock id status current decision actor reason l :
  ledger_ok l -> stands id status current l ->
  spec (requeue clock id (TrimSpace current) decision actor reason) l (fun l' re =>
    tr_Status (re_Run re) = TaskRunStatusQueued /\ l_runs l' !! tr_RunID (re_Run re) = Some re
    /\ only_run (tr_RunID (re_Run re)) l l'
    /\ exists current', TrimSpace current' = tr_RunID (re_Run re) /\ stands id status current' l').
Proof.
  intros Hok Hst. unfold requeue. cbv zeta.
  eapply (spec_then _ _ _ (fun l' found => stands id status current l'
    /\ only_run (TrimSpace current) l l' /\ (found = None -> runs_kept l l')
    /\ forall re, found = Some re -> tr_Status (re_Run re) = TaskRunStatusQueued
         /\ l_runs l' !! TrimSpace current = Some re)).
  - apply spec_if; intros _; [|by apply spec_return]. eapply spec_then; [by apply GetRun_spec|].
    cbv beta. intros l1 re Hok1 (He1 & (HF1 & HR1 & _)). pose proof (stands_kept _ _ _ _ _ HF1 Hst) as Hst1.
    apply spec_if; intros Hq.
    + apply spec_return; [done|]. split; [done|]. split; [by apply runs_kept_only|]. split; [done|].
      intros ? [= <-]. split; [by apply String.eqb_eq|done].
    + apply spec_if; intros _.
      2: { apply spec_return; [done|]. split; [done|]. split; [by apply runs_kept_only|]. by split. }
      eapply spec_then; [by eapply UpdateRunStatus_spec|].
      cbv beta. intros l2 re2 Hok2 (_ & Hm & He2 & HF2 & _ & Hothers). apply spec_return; [done|].
      split; [by eapply stands_kept|]. split; [transitivity l1; [by apply runs_kept_only|done]|]. split; [done|].
      intros ? [= <-]. by rewrite Hm, run_moved_status.
  - cbv beta. intros l1 [re|] Hok1 (Hst1 & Hothers & Hnone & Hre).
    + destruct (Hre re eq_refl) as [Hq He]. apply spec_return; [done|]. split; [done|].
      rewrite (run_key _ _ _ Hok1 He (TrimSpace_idem _)). split; [done|]. split; [done|]. by exists current.
    + destruct Hst1 as (e & He & Hf). pose proof (generated_id_trimmed clock) as Hid.
      eapply spec_weaken; [by eapply CreateRun_spec|]. cbv beta. intros l2 re _ (Hn & Ht & Hr & _).
      apply new_attempt_good in Hn as Hg. destruct Hg as (_ & Hrid & _). rewrite Hid in Hrid.
      rewrite Hrid, Hr, lookup_insert_eq. split; [|split; [done|split]].
      * unfold NewTaskRunAttempt in Hn. repeat case_match; try done. by apply Ok_inj in Hn as <-.
      * intros k x Hne Hx. rewrite Hr, lookup_insert_ne by congruence. by apply Hnone.
      * exists ("taskrun-" +:+ pretty clock). split; [done|]. eexists. rewrite Ht, lookup_insert_eq. split; [done|].
        unfold face, create_run_entry. cbn. f_equal. by injection Hf.
Qed.

(** A run at rest: it has ended or waits. *)
Definition at_rest (re : RunEntry) : Prop :=
  isTerminalRunStatus (tr_Status (re_Run re)) = true \/ tr_Status (re_Run re) = TaskRunStatusBlocked.

Lemma not_blockable re :
  negb (isTerminalRunStatus (tr_Status (re_Run re))) && (tr_Status (re_Run re) !=? TaskRunStatusBlocked)
    && AllowedTaskRunTransition (tr_Status (re_Run re)) TaskRunStatusBlocked = false ->
  canonical (re_Run re) -> at_rest re.
Proof.
  unfold at_rest, canonical. generalize (tr_Status (re_Run re)) as s. intros s Hb Hc.
  assert (forallb (fun s => isTerminalRunStatus s || (s ==? TaskRunStatusBlocked)
    || AllowedTaskRunTransition s TaskRunStatusBlocked) TaskRunStatus_values = true) as Hall by (vm_compute; reflexivity).
  rewrite forallb_forall in Hall. rewrite list_elem_of_In in Hc. specialize (Hall s Hc). cbv beta in Hall.
  destruct (isTerminalRunStatus s); [by left|]. destruct (String.eqb_spec s TaskRunStatusBlocked); [by right|].
  cbn in Hall, Hb. congruence.
Qed.

Lemma reject_spec clock id decision actor reason e l :
  ledger_ok l -> l_tasks l !! id = Some e ->
  spec (rejectTaskResume clock e actor reason decision) l (fun l' '(run, e') =>
    run = None /\ l_tasks l' !! id = Some e' /\ ts_Status (le_Task e') = TaskStatusBlocked /\ no_new_run l l'
    /\ (TrimSpace (ts_CurrentRunID (le_Task e')) <> "" -> exists re,
         l_runs l' !! TrimSpace (ts_CurrentRunID (le_Task e')) = Some re /\ (canonical (re_Run re) -> at_rest re))
    /\ only_run (TrimSpace (ts_CurrentRunID (le_Task e'))) l l').
Proof.
  intros Hok He. unfold rejectTaskResume. cbv zeta. destruct (cached_normal _ _ _ Hok He) as [-> _].
  set (current := ts_CurrentRunID (le_Task e)).
  apply (spec_then _ _ _ (fun l' e' => face e' = (TaskStatusBlocked, current)
    /\ stands id TaskStatusBlocked current l' /\ no_new_run l l' /\ runs_kept l l')).
  { assert (forall e1 l1, ledger_ok l1 -> l_tasks l1 !! id = Some e1 -> face e1 = (TaskStatusBlocked, current) ->
      no_new_run l l1 -> runs_kept l l1 -> spec (annotateTaskDecision clock e1 decision actor reason) l1 (fun l' e' =>
        face e' = (TaskStatusBlocked, current) /\ stands id TaskStatusBlocked current l' /\ no_new_run l l'
        /\ runs_kept l l')) as Ha.
    { intros e1 l1 Hok1 He1 Hf1 Hn1 Hk1. eapply spec_weaken; [by eapply annotate_spec|]. cbv beta.
      intros l2 e2 _ (Hf & (e0 & He0 & Hf0) & Hk2 & Hev). split; [congruence|]. split; [exists e0; split; [done|congruence]|].
      split; [|by transitivity l1]. transitivity l1; [done|by apply same_events]. }
    apply spec_if; intros Hb.
    - apply spec_if; intros _; [by apply spec_fail|]. eapply spec_then; [by eapply decide_spec|].
      cbv beta. intros l1 e1 Hok1 (Hf1 & He1 & Hk1 & Hn1). by apply Ha.
    - apply Ha; [done|done| |done|done]. unfold face. f_equal. by destruct (String.eqb_spec (ts_Status (le_Task e)) TaskStatusBlocked). }
  cbv beta. intros l1 e1 Hok1 (Hf1 & Hst1 & Hn1 & Hk1). injection Hf1 as Hs1 ->.
  apply (spec_then _ _ _ (fun l' _ => stands id TaskStatusBlocked current l' /\ no_new_run l l'
    /\ only_run (TrimSpace current) l l'
    /\ (TrimSpace current <> "" -> exists re, l_runs l' !! TrimSpace current = Some re
         /\ (canonical (re_Run re) -> at_rest re)))).
  { apply (runs_kept_only (TrimSpace current)) in Hk1.
    apply spec_if; intros Hc; [|apply spec_return; [done|]; split; [done|]; split; [done|]; split; [done|];
      by destruct (String.eqb_spec (TrimSpace current) "")].
    eapply spec_then; [by apply GetRun_spec|]. cbv beta. intros l2 re Hok2 (He2 & Hq).
    pose proof (quiet_no_new_run _ _ Hq) as Hn2. destruct Hq as (HF2 & HR2 & _). apply (runs_kept_only (TrimSpace current)) in HR2.
    apply spec_if; intros Hb.
    - eapply spec_then; [by eapply UpdateRunStatus_spec|]. cbv beta. intros l3 re3 Hok3 (_ & Hm & He3 & HF3 & Hn3 & Ho3).
      apply spec_return; [done|]. split; [eapply stands_kept; [|done]; by transitivity l2|].
      split; [transitivity l1; [done|]; by transitivity l2|].
      split; [transitivity l1; [done|]; by transitivity l2|]. intros _. exists re3. split; [done|]. intros _. right.
      by rewrite Hm, run_moved_status.
    - apply spec_return; [done|]. split; [by eapply stands_kept|]. split; [by transitivity l1|]. split; [by transitivity l1|].
      intros _. exists re. split; [done|]. by apply not_blockable. }
  cbv beta. intros l2 _ Hok2 ((e2 & He2 & Hf2) & Hn2 & Ho2 & Hrun). eapply spec_then; [by apply GetTask_spec|].
  cbv beta. intros l3 e3 Hok3 (He3 & Hq). pose proof (quiet_no_new_run _ _ Hq) as Hn3. destruct Hq as (HF & HR & _).
  apply HF in He2 as (e2' & He2' & Hf2' & _). assert (face e3 = (TaskStatusBlocked, current)) as Hf3 by congruence.
  injection Hf3 as Hs3 Hc3. apply spec_return; [done|]. rewrite Hc3. split; [done|]. split; [done|]. split; [done|].
  split; [by transitivity l2|]. split; [|transitivity l2; [done|by apply runs_kept_only]].
  intros Hne. destruct (Hrun Hne) as (re & Hre & Hrest). eauto.
Qed.

(** What a successful decision leaves behind. *)
Definition decided (id : string) (rejected : bool) l l' (run : option RunEntry) (e : LedgerEntry) : Prop :=
  let current := TrimSpace (ts_CurrentRunID (le_Task e)) in
  l_tasks l' !! id = Some e /\ only_run current l l'
  /\ if rejected
     then ts_Status (le_Task e) = TaskStatusBlocked /\ run = None /\ no_new_run l l'
          /\ (current <> "" -> exists re, l_runs l' !! current = Some re /\ (canonical (re_Run re) -> at_rest re))
     else ts_Status (le_Task e) = TaskStatusReady
          /\ exists re, run = Some re /\ l_runs l' !! current = Some re /\ tr_RunID (re_Run re) = current
                /\ tr_Status (re_Run re) = TaskRunStatusQueued.

Lemma ResumeTask_spec clock taskID decision actor reason l :
  ledger_ok l ->
  spec (ResumeTask clock taskID decision actor reason) l (fun l' '(run, e) =>
    decided (TrimSpace taskID) ((ParseTaskApprovalDecision decision).1 ==? TaskApprovalDecisionRejected) l l' run e).
Proof.
  intros Hok. unfold ResumeTask, normalizeResumeDecision. cbv zeta.
  apply spec_if; intros _; [by apply spec_fail|].
  destruct (ParseTaskApprovalDecision decision) as [d ok]. cbn [fst].
  apply spec_if; intros _; [by apply spec_fail|].
  set (act := TrimSpace actor). set (why := if _ ==? "" then _ else _). set (id := TrimSpace taskID).
  eapply spec_then; [by apply GetTask_spec|]. cbv beta. intros l1 e1 Hok1 (He1 & Hq1).
  apply quiet_no_new_run in Hq1 as Hn1. unfold decided.
  change (d ==? ResumeDecisionRejected) with (d ==? TaskApprovalDecisionRejected).
  destruct (d ==? TaskApprovalDecisionRejected).
  - eapply spec_weaken; [by apply reject_spec|]. cbv beta. intros l2 [run e] _ (-> & He & Hs & Hn & Hc & Ho).
    split; [done|]. split; [transitivity l1; [apply runs_kept_only, Hq1|done]|].
    split; [done|]. split; [done|]. split; [by transitivity l1|done].
  - eapply spec_then; [by eapply make_ready_spec|]. cbv beta. intros l2 e2 Hok2 (Hf2 & Hst2).
    destruct Hst2 as [Hst2 Hk2]. injection Hf2 as _ ->. eapply spec_then; [by eapply requeue_spec|].
    cbv beta. intros l3 re Hok3 (Hq & Hre & Ho & cur & Hcur & (e3 & He3 & Hf3)).
    eapply spec_then; [by apply GetTask_spec|]. cbv beta. intros l4 e4 Hok4 (He4 & (HF & HR & _)).
    apply HF in He3 as (e3' & He3' & Hf3' & _). assert (face e4 = (TaskStatusReady, cur)) as Hf4 by congruence.
    injection Hf4 as Hs4 Hc4. apply spec_return; [done|]. split; [done|]. rewrite Hc4, Hcur. split.
    { transitivity l1; [apply runs_kept_only, Hq1|]. transitivity l2; [by apply runs_kept_only|].
      transitivity l3; [done|by apply runs_kept_only]. }
    split; [done|]. exists re. split; [done|]. split; [by apply HR|]. by split.
Qed.

(** C26: An operator's decision is carried out in full or reported as an error: when
    [ResumeTask] succeeds with a rejection, the task is blocked, no run was created
    and its current run has ended or is blocked (a run the ledger holds under an unusual
    spelling of its status apart); with any other decision the task is ready
    and its current run, the one returned, is queued.  Every other run that was cached,
    an earlier one of the task that is still active included, stays as it was. *)
Theorem resume_carries_out_the_decision clock taskID decision actor reason l l' run e :
  ledger_ok l -> ResumeTask clock taskID decision actor reason l = (l', Ok (run, e)) ->
  let id := TrimSpace taskID in
  let current := TrimSpace (ts_CurrentRunID (le_Task e)) in
  l_tasks l' !! id = Some e
  /\ (forall rid re, rid <> current -> l_runs l !! rid = Some re -> l_runs l' !! rid = Some re)
  /\ if (ParseTaskApprovalDecision decision).1 ==? TaskApprovalDecisionRejected
     then ts_Status (le_Task e) = TaskStatusBlocked /\ run = None /\ no_new_run l l'
          /\ (current <> "" -> exists re, l_runs l' !! current = Some re /\ (canonical (re_Run re) -> at_rest re))
     else ts_Status (le_Task e) = TaskStatusReady
          /\ exists re, run = Some re /\ l_runs l' !! current = Some re /\ tr_RunID (re_Run re) = current
                /\ tr_Status (re_Run re) = TaskRunStatusQueued.
Proof.
  intros Hok Hrun. destruct (ResumeTask_spec clock taskID decision actor reason l Hok) as [_ Hs].
  rewrite Hrun in Hs. exact (Hs _ eq_refl).
Qed.

(** ** Creating tasks *)

Lemma CreateTask_spec now task source ref l :
  ledger_ok l ->
  spec (CreateTask now task source ref) l (fun l' e =>
    le_Task e = ((TaskSpec_Normalize task) <| ts_CreatedAt := ts_CreatedAt (le_Task e) |>) <| ts_UpdatedAt := now |>
    /\ l_tasks l !! ts_TaskID task = None /\ l_tasks l' = <[ts_TaskID task := e]> (l_tasks l)
    /\ l_runs l' = l_runs l /\ l_events l' = l_events l ++ [OnTaskCreated e]).
Proof.
  intros Hok. split; [by apply CreateTask_ok|]. intros e.
  assert (ts_TaskID (TaskSpec_Normalize task) = ts_TaskID task) as Hid by (by rewrite TaskSpec_Normalize_fields).
  unfold CreateTask. destruct (TaskSpec_Validate _); [done|]. cbv zeta.
  set (t := (if _ =? 0 then _ else _) <| ts_UpdatedAt := now |>).
  assert (t = ((TaskSpec_Normalize task) <| ts_CreatedAt := ts_CreatedAt t |>) <| ts_UpdatedAt := now |>) as Ht
    by (unfold t; case_match; by destruct (TaskSpec_Normalize task)).
  assert (ts_TaskID t = ts_TaskID task) as -> by by rewrite Ht. case_decide as Hd; [done|].
  destruct (store_save_task _ _) as [l' [x|]] eqn:Es; [done|]. apply save_task_frame in Es as (Htk & Hr & He).
  intros [= <-]. cbn [fst]. split; [exact Ht|]. split; [by apply eq_None_not_Some|].
  unfold emit. cbn. by rewrite Htk, Hr, He.
Qed.

(** The replayable part of a created task. *)
Definition begun (requested : string) (t : TaskSpec) : Prop :=
  ts_Status t = requested /\ ts_CurrentRunID t = "" /\ ts_LastRunID t = ""
  /\ replay AllowedTaskTransition "" (task_log (ts_Transitions t)) = Some requested.

Lemma begun_normal requested t : begun requested t -> TaskStatus_Valid requested = true -> begun requested (TaskSpec_Normalize t).
Proof.
  intros (Hs & Hc & Hl & Ht) Hv. unfold begun. rewrite TaskSpec_Normalize_fields. cbn.
  by rewrite norm_task_status_id by congruence.
Qed.

Lemma new_task_begun now source actor task :
  0 < now -> begun TaskStatusPending (new_task now source actor task).
Proof.
  intros Hn. unfold begun, new_task. cbv zeta. split; [by case_match|]. split; [by case_match|]. split; [by case_match|].
  cbn. destruct (Z.ltb_spec 0 now); [done|lia].
Qed.

Lemma begun_moves requested t now actor source reason meta :
  begun TaskStatusPending t -> task_may_move t requested now ->
  begun requested (task_moved t requested now actor source reason meta).
Proof.
  intros (Hs & Hc & Hl & Ht) (Ha & _ & Hn). unfold begun, task_moved. rewrite TaskSpec_Normalize_fields. cbn.
  split; [done|]. split; [done|]. split; [done|]. unfold task_log. rewrite map_app, replay_app. fold (task_log (ts_Transitions t)).
  rewrite Ht. rewrite Hs in *. change (norm_task_status TaskStatusPending) with TaskStatusPending in *.
  cbn. rewrite Ha. by destruct (Z.ltb_spec 0 now); [|lia].
Qed.

Lemma Service_CreateTask_spec clock task source sourceRef actor l :
  ledger_ok l -> 0 < unix clock ->
  spec (Service_CreateTask clock task source sourceRef actor) l (fun l' e =>
    let t := requested_task clock task in
    ts_TaskID (le_Task e) = ts_TaskID t /\ begun (requested_status t) (le_Task e)
    /\ l_tasks l !! ts_TaskID t = None /\ l_tasks l' = <[ts_TaskID t := e]> (l_tasks l)
    /\ l_runs l' = l_runs l /\ l_events l' = l_events l ++ [OnTaskCreated e]).
Proof.
  intros Hok Hnow. unfold Service_CreateTask. cbv zeta.
  generalize (requested_task clock task). intros t. set (act := TrimSpace actor). set (src := if source ==? "" then TaskSourceManual else source).
  assert (TaskStatus_Valid (requested_status t) = true) as Hv
    by (unfold requested_status; destruct (TaskStatus_Valid (ts_Status t)) eqn:E; [done|reflexivity]).
  assert (forall t', ts_TaskID t' = ts_TaskID t -> begun (requested_status t) t' ->
    spec (CreateTask (unix clock) t' src sourceRef) l (fun l' e =>
      ts_TaskID (le_Task e) = ts_TaskID t /\ begun (requested_status t) (le_Task e)
      /\ l_tasks l !! ts_TaskID t = None /\ l_tasks l' = <[ts_TaskID t := e]> (l_tasks l)
      /\ l_runs l' = l_runs l /\ l_events l' = l_events l ++ [OnTaskCreated e])) as Hc.
  { intros t' Hid Hb. eapply spec_weaken; [by apply CreateTask_spec|]. cbv beta. rewrite Hid.
    intros l' e _ (He & Hfresh & Ht & Hr & Hev). apply begun_normal in Hb; [|done]. split.
    - rewrite He, TaskSpec_Normalize_fields. exact Hid.
    - split; [|done]. destruct Hb as (H1 & H2 & H3 & H4). rewrite He. unfold begun. cbn. auto. }
  assert (ts_TaskID (new_task (unix clock) src act t) = ts_TaskID t) as Hid by (unfold new_task; cbv zeta; by case_match).
  pose proof (new_task_begun (unix clock) src act t Hnow) as Hb.
  destruct (String.eqb_spec (requested_status t) TaskStatusPending) as [Hp|Hp]; cbn [negb].
  - apply Hc; [done|]. by rewrite Hp.
  - destruct (task_apply_cases (new_task (unix clock) src act t) (requested_status t) (unix clock) act src "task created" None)
      as [[Hm ->]|(_ & x & ->)]; [|by split].
    apply Hc; [|by apply begun_moves]. by rewrite task_moved_id.
Qed.

(** A task the service creates is new to the cache, has no runs, and has a history
    from its creation as pending to the status asked for that follows the transition
    table; its creation is the one event announced. *)
Theorem created_task_has_its_history clock task source sourceRef actor l l' e :
  ledger_ok l -> 0 < unix clock ->
  Service_CreateTask clock task source sourceRef actor l = (l', Ok e) ->
  let t := requested_task clock task in
  ts_Status (le_Task e) = requested_status t
  /\ replay AllowedTaskTransition "" (task_log (ts_Transitions (le_Task e))) = Some (requested_status t)
  /\ ts_CurrentRunID (le_Task e) = "" /\ ts_LastRunID (le_Task e) = ""
  /\ l_tasks l !! ts_TaskID t = None /\ l_tasks l' = <[ts_TaskID t := e]> (l_tasks l)
  /\ l_runs l' = l_runs l /\ l_events l' = l_events l ++ [OnTaskCreated e].
Proof.
  intros Hok Hnow Hrun. destruct (Service_CreateTask_spec clock task source sourceRef actor l Hok Hnow) as [_ Hs].
  rewrite Hrun in Hs. destruct (Hs _ eq_refl) as (_ & (H1 & H2 & H3 & H4) & H5). auto.
Qed.

(** ** Worker runs *)

(** An entry for task [id] that shows what the cache holds. *)
Definition mirrors (id : string) (e : LedgerEntry) l : Prop :=
  ts_TaskID (le_Task e) = id /\ stands id (ts_Status (le_Task e)) (ts_CurrentRunID (le_Task e)) l.

Lemma cached_mirrors id e l : ledger_ok l -> l_tasks l !! id = Some e -> mirrors id e l.
Proof. intros Hok He. split; [by apply (cached_normal id e l)|by exists e]. Qed.

(** The status is the one wanted unless the table forbids it. *)
Definition task_reaches (to : string) (status : string) : Prop :=
  status = to \/ AllowedTaskTransition status to = false.
Definition task_after (to : string) (status : string) : string :=
  if AllowedTaskTransition status to then to else status.

Lemma task_after_reaches to status : task_reaches to (task_after to status).
Proof. unfold task_reaches, task_after. destruct (AllowedTaskTransition status to) eqn:E; [by left|by right]. Qed.
Definition run_reaches (to : string) (status : string) : Prop :=
  status = to \/ AllowedTaskRunTransition status to = false.

Lemma update_if_allowed_spec clock id to actor source reason e l :
  ledger_ok l -> mirrors id e l ->
  spec (if (ts_Status (le_Task e) !=? to) && AllowedTaskTransition (ts_Status (le_Task e)) to
        then UpdateTaskStatus (unix clock) id to actor source reason else return_ e) l (fun l' e' =>
    mirrors id e' l' /\ ts_CurrentRunID (le_Task e') = ts_CurrentRunID (le_Task e)
    /\ ts_Status (le_Task e') = task_after to (ts_Status (le_Task e)) /\ l_runs l' = l_runs l).
Proof.
  intros Hok Hm. unfold task_after. apply spec_if; intros Hb.
  - apply andb_true_iff in Hb as [_ Ha]. rewrite Ha. destruct Hm as (Hid & e0 & He0 & Hf0).
    eapply spec_weaken; [by apply updateTaskStatus_spec|]. cbv beta. intros l1 e1 Hok1 (_ & Ht & _ & _ & Htasks & Hruns & _).
    destruct (moved_face (le_Task e0) to (unix clock) actor source reason None) as [Hs Hc]. rewrite <- Ht in Hs, Hc.
    split; [apply cached_mirrors; [done|]; by rewrite Htasks, lookup_insert_eq|].
    injection Hf0 as _ Hc0. split; [congruence|]. by split.
  - apply spec_return; [done|]. split; [done|]. split; [done|]. split; [|done].
    destruct (String.eqb_spec (ts_Status (le_Task e)) to) as [E|]; cbn [negb andb] in Hb; [by case_match|by rewrite Hb].
Qed.

Lemma advance_task_spec clock id to actor source reason e l :
  ledger_ok l -> mirrors id e l ->
  spec (advance_task clock to actor source reason e) l (fun l' e' =>
    mirrors id e' l' /\ ts_CurrentRunID (le_Task e') = ts_CurrentRunID (le_Task e)
    /\ ts_Status (le_Task e') = task_after to (ts_Status (le_Task e)) /\ l_runs l' = l_runs l).
Proof. intros Hok Hm. unfold advance_task. destruct Hm as [<- Hm]. by apply update_if_allowed_spec. Qed.

(** Saving a task under [id] whose status is valid leaves an entry that mirrors it. *)
Lemma save_spec now task source ref l :
  ledger_ok l ->
  spec (SaveTaskState now task source ref) l (fun l' e =>
    mirrors (ts_TaskID task) e l' /\ l_runs l' = l_runs l
    /\ ts_Status (le_Task e) = norm_task_status (ts_Status task)
    /\ ts_CurrentRunID (le_Task e) = ts_CurrentRunID task /\ ts_LastRunID (le_Task e) = ts_LastRunID task).
Proof.
  intros Hok. eapply spec_weaken; [by apply SaveTaskState_spec|]. cbv beta.
  intros l1 e _ (e0 & -> & Hf & Ht & Hr & _). unfold filed_as in Hf. rewrite TaskSpec_Normalize_fields in Hf.
  assert (ts_TaskID (le_Task e0) = ts_TaskID task /\ ts_Status (le_Task e0) = norm_task_status (ts_Status task)
    /\ ts_CurrentRunID (le_Task e0) = ts_CurrentRunID task /\ ts_LastRunID (le_Task e0) = ts_LastRunID task)
    as (H1 & H2 & H3 & H4) by by rewrite Hf.
  split; [|auto]. split; [exact H1|]. exists e0. rewrite Ht, lookup_insert_eq. by split.
Qed.

Lemma create_worker_task_spec clock task source ref actor l :
  ledger_ok l -> 0 < unix clock -> TrimSpace (ts_TaskID task) = ts_TaskID task -> ts_TaskID task <> "" ->
  spec (create_worker_task clock task source ref actor) l (fun l' e => mirrors (ts_TaskID task) e l').
Proof.
  intros Hok Hnow Htrim Hne. unfold create_worker_task. cbv zeta. set (t := _ <| ts_Transitions := [] |>).
  assert (ts_TaskID (requested_task clock t) = ts_TaskID task) as Hid.
  { unfold requested_task, normalizeServiceTaskSpec. cbv zeta. rewrite TaskSpec_Normalize_fields. cbn.
    rewrite Htrim. destruct (String.eqb_spec (ts_TaskID task) ""); [done|]. reflexivity. }
  eapply spec_then; [by apply Service_CreateTask_spec|]. cbv beta zeta. rewrite Hid.
  intros l1 e Hok1 (_ & _ & _ & Ht & _). assert (mirrors (ts_TaskID task) e l1) as Hm
    by (apply cached_mirrors; [done|]; by rewrite Ht, lookup_insert_eq).
  apply spec_if; intros _; [|by apply spec_return].
  eapply spec_weaken; [by apply advance_task_spec|]. by intros l2 e2 _ (? & _).
Qed.

Lemma worker_task_spec quote clock task source ref actor l :
  ledger_ok l -> 0 < unix clock -> TrimSpace (ts_TaskID task) = ts_TaskID task -> ts_TaskID task <> "" ->
  spec (worker_task quote clock task source ref actor) l (fun l' e => mirrors (ts_TaskID task) e l').
Proof.
  intros Hok Hnow Htrim Hne. pose proof (GetTask_spec (ts_TaskID task) l Hok) as [Hok1 _].
  unfold worker_task. unfold spec at 1. destruct (GetTask (ts_TaskID task) l) as [l1 [e|x]]; cbn [fst] in Hok1.
  - assert (ts_TaskID (merge_worker_task task e) = ts_TaskID task) as Hid
      by (unfold merge_worker_task; cbv zeta; by repeat case_match).
    pose proof (save_spec (unix clock) (merge_worker_task task e) source ref l1 Hok1) as [H1 H2]. split; [done|].
    intros e' He'. rewrite <- Hid. by apply H2.
  - destruct (isTaskNotFoundError quote x (ts_TaskID task)); [|by split]. by apply create_worker_task_spec.
Qed.

(** A run of the task [id] as [StartWorkerRun] makes it. *)
Definition worker_run (id runID parent status : string) (r : TaskRun) : Prop :=
  tr_RunID r = runID /\ tr_TaskID r = id /\ tr_ParentRunID r = parent /\ tr_Status r = status.

Lemma new_attempt_fields task runID priors now trigger actor source run :
  NewTaskRunAttempt task runID priors now trigger actor source = Ok run ->
  worker_run (ts_TaskID task) (TrimSpace runID) "" TaskRunStatusQueued run.
Proof.
  intros Hn. apply new_attempt_good in Hn as Hg. destruct Hg as (_ & H1 & H2).
  split; [done|]. split; [done|]. unfold NewTaskRunAttempt in Hn. repeat case_match; try done. by apply Ok_inj in Hn as <-.
Qed.

Lemma moved_worker_run id runID parent status r to now actor source reason :
  worker_run id runID parent status r -> worker_run id runID parent to (run_moved r to now actor source reason None).
Proof. unfold worker_run, run_moved. rewrite TaskRun_Normalize_fields. cbn. tauto. Qed.

Lemma filed_worker_run id runID parent status r :
  TaskRunStatus_Valid status = true -> worker_run id runID parent status r ->
  worker_run id runID parent status (TaskRun_Normalize r).
Proof.
  intros Hv (H1 & H2 & H3 & H4). unfold worker_run. rewrite TaskRun_Normalize_fields. cbn.
  by rewrite norm_run_status_id by congruence.
Qed.

Lemma launch_spec clock source ref actor id runID parent run l :
  ledger_ok l -> worker_run id runID "" TaskRunStatusQueued (re_Run run) -> l_runs l !! runID = Some run ->
  spec (launch clock source ref actor parent run) l (fun l' re =>
    worker_run id runID parent TaskRunStatusRunning (re_Run re) /\ l_runs l' !! runID = Some re /\ faces_kept l l').
Proof.
  intros Hok Hr Hrun. unfold launch.
  apply (spec_then _ _ _ (fun l' re => worker_run id runID parent TaskRunStatusQueued (re_Run re)
    /\ faces_kept l l' /\ exists e0, l_runs l' !! runID = Some e0 /\ worker_run id runID parent TaskRunStatusQueued (re_Run e0))).
  - apply spec_if; intros Hp.
    + eapply spec_weaken; [by apply SaveRunState_spec|]. cbv beta. intros l1 re _ (e0 & -> & He0 & Hruns & HF & _).
      assert (worker_run id runID parent TaskRunStatusQueued (re_Run e0)) as Hr0.
      { rewrite He0. apply filed_worker_run; [done|]. destruct Hr as (H1 & H2 & H3 & H4). by split. }
      split; [exact Hr0|]. split; [done|]. exists e0. rewrite Hruns. destruct Hr as (Hid & _).
      change (tr_RunID ((re_Run run) <| tr_ParentRunID := parent |>)) with (tr_RunID (re_Run run)).
      rewrite Hid, lookup_insert_eq. by split.
    + apply spec_return; [done|]. apply negb_false_iff, String.eqb_eq in Hp as ->. split; [done|]. split; [done|]. eauto.
  - cbv beta. intros l1 re Hok1 (Hre & HF & e0 & He0 & Hr0). unfold advance_run.
    destruct Hre as (Hid & _ & _ & Hq). rewrite Hq, Hid.
    change ((TaskRunStatusQueued !=? TaskRunStatusRunning) && AllowedTaskRunTransition TaskRunStatusQueued TaskRunStatusRunning)
      with true. cbv iota.
    eapply spec_weaken; [by eapply UpdateRunStatus_spec|]. cbv beta. intros l2 re2 _ (_ & Hm & He2 & HF2 & _).
    split; [rewrite Hm; by eapply moved_worker_run|]. split; [done|]. by transitivity l1.
Qed.

(** What a started worker run looks like. *)
Definition started (task : TaskSpec) (id runID parent : string) l (t : TaskSpec) (r : TaskRun) : Prop :=
  ts_TaskID t = id /\ ts_CurrentRunID t = runID /\ task_reaches TaskStatusInProgress (ts_Status t)
  /\ worker_run id runID parent TaskRunStatusRunning r /\ (exists re, l_runs l !! runID = Some re /\ re_Run re = r)
  /\ exists e, l_tasks l !! id = Some e /\ le_Task e = t.

Lemma with_times_id now task : ts_TaskID (with_times now task) = ts_TaskID task.
Proof. unfold with_times. destruct (ts_CreatedAt task =? 0); cbv zeta; by case_match. Qed.

Lemma StartWorkerRun_spec quote clock task source ref runID trigger actor reason parent l :
  ledger_ok l -> 0 < unix clock ->
  let runID' := if TrimSpace runID ==? "" then "taskrun-" +:+ pretty clock else TrimSpace runID in
  spec (StartWorkerRun quote clock task source ref runID trigger actor reason parent) l (fun l' '(t, r) =>
    started task (TrimSpace (ts_TaskID task)) runID' (TrimSpace parent) l' t r).
Proof.
  intros Hok Hnow. cbv zeta. set (runID' := if _ ==? "" then _ else _). unfold StartWorkerRun. cbv zeta. fold runID'.
  set (src := if source ==? "" then _ else _). set (act := TrimSpace actor). set (why := if TrimSpace reason ==? "" then _ else _).
  set (t := normalizeServiceTaskSpec task).
  assert (ts_TaskID t = TrimSpace (ts_TaskID task)) as Hid
    by (unfold t, normalizeServiceTaskSpec; cbv zeta; by rewrite TaskSpec_Normalize_fields).
  clearbody t. pose proof (with_times_id (unix clock) t) as Hid'.
  assert (TrimSpace runID' = runID') as Htrim by (unfold runID'; case_match; [apply generated_id_trimmed|apply TrimSpace_idem]).
  rewrite <- Hid. apply spec_if; intros Hne; [by apply spec_fail|]. apply String.eqb_neq in Hne.
  eapply spec_then.
  { apply worker_task_spec; [done|done| |]; rewrite Hid'; [rewrite Hid; apply TrimSpace_idem|done]. }
  cbv beta. rewrite Hid'. intros l1 e1 Hok1 Hm1. eapply spec_then; [by apply advance_task_spec|].
  cbv beta. intros l2 e2 Hok2 (Hm2 & _ & Hreach & _). destruct Hm2 as (Hid2 & e0 & He0 & Hf0). rewrite Hid2.
  eapply spec_then; [by eapply CreateRun_spec|]. cbv beta. intros l3 run Hok3 (Hn & Htasks & Hruns & _).
  apply new_attempt_fields in Hn. rewrite Htrim in Hn. destruct (cached_normal _ _ _ Hok2 He0) as [Hid0 _]. rewrite Hid0 in Hn.
  assert (stands (ts_TaskID t) (ts_Status (le_Task e2)) runID' l3) as Hst3.
  { eexists. rewrite Htasks, lookup_insert_eq. split; [done|]. injection Hf0 as Hs0 _. unfold face, create_run_entry. cbn. by rewrite Hs0. }
  eapply spec_then; [eapply launch_spec; [done|exact Hn|by rewrite Hruns, lookup_insert_eq]|].
  cbv beta. intros l4 re Hok4 (Hre & Hre4 & HF4). apply (stands_kept _ _ _ _ _ HF4) in Hst3.
  eapply spec_then; [by apply GetTask_spec|]. cbv beta. intros l5 e5 Hok5 (He5 & (HF5 & HR5 & _)).
  apply (stands_kept _ _ _ _ _ HF5) in Hst3 as (e5' & He5' & Hf5). replace e5' with e5 in Hf5 by congruence.
  injection Hf5 as Hs5 Hc5. apply spec_return; [done|]. unfold started. rewrite Hs5, Hc5.
  split; [by apply (cached_normal (ts_TaskID t) e5 l5)|]. split; [done|]. split; [rewrite Hreach; apply task_after_reaches|]. split; [done|].
  split; [exists re; split; [by apply HR5|done]|]. by exists e5.
Qed.

(** When [StartWorkerRun] succeeds, whether the task was known or not, the run it
    returns is a running run of the task under the identifier asked for, filed in the
    run table with its parent, it is the current run of the task, and the task is in
    progress unless the table forbids that from the status it has. *)
Theorem started_worker_run_is_running quote clock task source sourceRef runID trigger actor reason parent l l' t r :
  ledger_ok l -> 0 < unix clock ->
  StartWorkerRun quote clock task source sourceRef runID trigger actor reason parent l = (l', Ok (t, r)) ->
  let id := TrimSpace (ts_TaskID task) in
  let runID' := if TrimSpace runID ==? "" then "taskrun-" +:+ pretty clock else TrimSpace runID in
  (tr_Status r = TaskRunStatusRunning /\ tr_RunID r = runID' /\ tr_TaskID r = id /\ tr_ParentRunID r = TrimSpace parent)
  /\ (exists re, l_runs l' !! runID' = Some re /\ re_Run re = r)
  /\ (exists e, l_tasks l' !! id = Some e /\ le_Task e = t)
  /\ ts_TaskID t = id /\ ts_CurrentRunID t = runID'
  /\ (ts_Status t = TaskStatusInProgress \/ AllowedTaskTransition (ts_Status t) TaskStatusInProgress = false).
Proof.
  intros Hok Hnow Hrun. pose proof (StartWorkerRun_spec quote clock task source sourceRef runID trigger actor reason parent l Hok Hnow) as Hs.
  cbv zeta in Hs. destruct Hs as [_ Hs]. rewrite Hrun in Hs. destruct (Hs _ eq_refl) as (H1 & H2 & H3 & (H4 & H5 & H6 & H7) & H8 & H9).
  cbv zeta. auto 10.
Qed.

(** ** Finishing worker runs *)

Lemma shared_meta_ok id f e : task_entry_ok id e -> task_entry_ok id (shared_meta f e).
Proof.
  intros He. unfold shared_meta. destruct (ts_Meta (le_Task e)) as [m|]; [|done].
  pose proof (annotations_ok id (Some (f m)) (ts_Transitions (le_Task e)) e He) as Hx.
  replace (((le_Task e) <| ts_Meta := Some (f m) |>) <| ts_Transitions := ts_Transitions (le_Task e) |>)
    with ((le_Task e) <| ts_Meta := Some (f m) |>) in Hx by by destruct (le_Task e). exact Hx.
Qed.

(** The run of a finished turn carries its result and its usage. *)
Definition carries (runID : string) (res : TaskResultRef) (usage : TaskUsage) (r : TaskRun) : Prop :=
  tr_RunID r = runID /\ tr_Result r = res /\ tr_Usage r = usage.

Lemma carries_normal runID res usage r : carries runID res usage r -> carries runID res usage (TaskRun_Normalize r).
Proof. unfold carries. by rewrite TaskRun_Normalize_fields. Qed.
Lemma carries_moved runID res usage r to now actor source reason :
  carries runID res usage r -> carries runID res usage (run_moved r to now actor source reason None).
Proof. unfold carries, run_moved. by rewrite TaskRun_Normalize_fields. Qed.

(** Saving the run with its result and ending it. *)
Lemma end_run_spec now runID res usage run source ref to actor reason l :
  ledger_ok l -> carries runID res usage run ->
  spec (and_then (SaveRunState now run source ref) (fun re =>
    if (tr_Status (re_Run re) !=? to) && AllowedTaskRunTransition (tr_Status (re_Run re)) to
    then UpdateRunStatus now runID to actor (re_Source re) reason else return_ re)) l (fun l' re =>
    carries runID res usage (re_Run re) /\ run_reaches to (tr_Status (re_Run re)) /\ faces_kept l l').
Proof.
  intros Hok Hc. eapply spec_then; [by apply SaveRunState_spec|]. cbv beta.
  intros l1 re Hok1 (e0 & -> & He0 & Hruns & HF & _). apply carries_normal in Hc as Hc0. rewrite <- He0 in Hc0.
  apply spec_if; intros Hb.
  - assert (l_runs l1 !! runID = Some e0) as Hl by (destruct Hc as (<- & _); by rewrite Hruns, lookup_insert_eq).
    eapply spec_weaken; [by eapply UpdateRunStatus_spec|]. cbv beta. intros l2 re2 _ (_ & Hm & _ & HF2 & _).
    rewrite Hm. split; [by apply carries_moved|]. split; [|by transitivity l1]. left. unfold run_moved.
    by rewrite TaskRun_Normalize_fields.
  - apply spec_return; [done|]. split; [exact Hc0|]. split; [|done]. unfold run_reaches.
    destruct (String.eqb_spec (tr_Status (re_Run (cloneRunEntry e0))) to); [by left|by right].
Qed.

Lemma and_then_assoc {A B C} (m : Ledger S -> Ledger S * result A) (k : A -> Ledger S -> Ledger S * result B)
    (h : B -> Ledger S -> Ledger S * result C) l :
  and_then m (fun a => and_then (k a) h) l = and_then (and_then m k) h l.
Proof. unfold and_then. by destruct (m l) as [l1 [a|e]]. Qed.

Lemma spec_assoc {A B C} (m : Ledger S -> Ledger S * result A) (k : A -> Ledger S -> Ledger S * result B)
    (h : B -> Ledger S -> Ledger S * result C) l Q :
  spec (and_then (and_then m k) h) l Q -> spec (and_then m (fun a => and_then (k a) h)) l Q.
Proof. unfold spec. by rewrite and_then_assoc. Qed.

(** Reading the cache again and writing to the shared metadata. *)
Lemma reread_spec id f found l :
  ledger_ok l -> is_Some (l_tasks l !! id) ->
  spec (fun l => (edit_task id (shared_meta f) l, Ok (live_task id found l))) l (fun l' e =>
    l_tasks l !! id = Some e /\ exists e', l_tasks l' !! id = Some e' /\ face e' = face e).
Proof.
  intros Hok [e He]. split; [by apply edit_task_ok; [intros ?; apply shared_meta_ok|]|]. cbn. intros ? [= <-].
  unfold live_task, edit_task. rewrite He. split; [done|]. exists (shared_meta f e). cbn. rewrite lookup_insert_eq.
  split; [done|]. unfold shared_meta. by destruct (ts_Meta (le_Task e)).
Qed.

(** The settled end of a worker run. *)
Definition finished (id runID : string) (res : TaskResultRef) (usage : TaskUsage) (turnErr : option string)
    l (t : TaskSpec) (r : TaskRun) : Prop :=
  ts_TaskID t = id /\ ts_CurrentRunID t = "" /\ ts_LastRunID t = runID
  /\ task_reaches (target_task_status turnErr) (ts_Status t)
  /\ carries runID res usage r /\ run_reaches (target_run_status turnErr) (tr_Status r)
  /\ stands id (ts_Status t) "" l.

Lemma FinishWorkerRun_spec clock taskID runID res usage actor turnErr history l :
  ledger_ok l ->
  spec (FinishWorkerRun clock taskID runID res usage actor turnErr history) l (fun l' '(t, r) =>
    finished (TrimSpace taskID) (TrimSpace runID) res usage turnErr l' t r
    /\ forall e, l_tasks l !! TrimSpace taskID = Some e ->
         ts_Status t = task_after (target_task_status turnErr) (ts_Status (le_Task e))).
Proof.
  intros Hok. unfold FinishWorkerRun. cbv zeta. set (id := TrimSpace taskID). set (rid := TrimSpace runID).
  set (act := if TrimSpace actor ==? "" then _ else _). set (now := unix clock).
  apply spec_if; intros _; [by apply spec_fail|]. apply spec_if; intros _; [by apply spec_fail|].
  eapply spec_then; [by apply GetRun_spec|]. cbv beta. intros l1 re Hok1 (Hre & HF1 & _).
  set (run := match turnErr with Some e => (_ <| tr_Error := TrimSpace e |>) | None => _ end).
  assert (carries rid res usage run) as Hc.
  { pose proof (run_key _ _ _ Hok1 Hre (TrimSpace_idem _)) as Hk. unfold carries, run. rewrite TaskRun_Normalize_fields. by destruct turnErr. }
  clearbody run. set (why := match turnErr with Some _ => tr_Error run | None => "worker run completed" end).
  set (why' := match turnErr with Some _ => tr_Error run | None => "worker task completed" end).
  eapply spec_then; [by apply GetTask_spec|]. cbv beta. intros l2 found Hok2 (Hfound & HF2 & _).
  destruct (preflight _ _ _ _ _); [by apply spec_fail|].
  apply spec_assoc. eapply spec_then; [by apply end_run_spec|]. cbv beta. intros l3 re3 Hok3 (Hc3 & Hr3 & HF3).
  destruct (HF3 _ _ Hfound) as (e3 & He3 & [= Hf3 _] & _).
  eapply spec_then; [by apply reread_spec|]. cbv beta. intros l4 e4 Hok4 (He4 & _).
  destruct (cached_normal _ _ _ Hok3 He4) as [Hid4 Hn4]. rewrite !Hn4.
  eapply spec_then; [by apply save_spec|]. cbv beta. intros l5 e5 Hok5 (Hm5 & _ & Hs5 & _).
  change (mirrors (ts_TaskID (le_Task e4)) e5 l5) in Hm5. rewrite Hid4 in Hm5.
  eapply spec_then; [by apply update_if_allowed_spec|]. cbv beta. intros l6 e6 Hok6 ((Hid6 & e6' & He6' & Hf6) & _ & Hreach & _).
  pose proof (cached_status _ _ _ Hok6 He6') as Hv. injection Hf6 as Hf6 _. rewrite Hf6 in Hv.
  eapply spec_then; [by apply save_spec|]. cbv beta. rewrite TaskSpec_Normalize_fields. intros l7 e7 Hok7 (Hm7 & _ & Hs7 & Hc7 & Hl7).
  apply spec_return; [done|]. cbn in Hm7, Hs7, Hc7, Hl7. rewrite !norm_task_status_id in Hs7 by (rewrite ?norm_task_status_id; done).
  destruct Hm7 as (Hid7 & Hst7). rewrite Hc7 in Hst7. unfold finished. rewrite Hs7 in Hst7 |- *. rewrite Hid6 in Hid7, Hst7.
  assert (ts_Status (le_Task e5) = ts_Status (le_Task found)) as Hsame.
  { rewrite Hs5. cbn. rewrite He3 in He4. injection He4 as <-. rewrite norm_task_status_id by exact (cached_status _ _ _ Hok3 He3). congruence. }
  rewrite Hsame in Hreach. split.
  - split; [exact Hid7|]. split; [exact Hc7|]. split; [exact Hl7|]. split; [rewrite Hreach; apply task_after_reaches|].
    split; [exact Hc3|]. split; [exact Hr3|exact Hst7].
  - intros e He. rewrite Hreach. f_equal. apply HF1 in He as (ea & Hea & [= Ea _] & _).
    apply HF2 in Hea as (eb & Heb & [= Eb _] & _). congruence.
Qed.

(** When [FinishWorkerRun] succeeds, the run it returns carries the result and the
    usage of the turn and has ended as the turn did, the task has no current run and
    has followed its run, each unless its table forbids that from the status it has,
    and the cache holds the task so. *)
Theorem finished_worker_run_is_recorded clock taskID runID res usage actor turnErr history l l' t r :
  ledger_ok l -> FinishWorkerRun clock taskID runID res usage actor turnErr history l = (l', Ok (t, r)) ->
  let runStatus := match turnErr with None => TaskRunStatusCompleted | Some _ => TaskRunStatusFailed end in
  let taskStatus := match turnErr with None => TaskStatusCompleted | Some _ => TaskStatusFailed end in
  (tr_RunID r = TrimSpace runID /\ tr_Result r = res /\ tr_Usage r = usage)
  /\ (tr_Status r = runStatus \/ AllowedTaskRunTransition (tr_Status r) runStatus = false)
  /\ (ts_TaskID t = TrimSpace taskID /\ ts_CurrentRunID t = "" /\ ts_LastRunID t = TrimSpace runID)
  /\ (ts_Status t = taskStatus \/ AllowedTaskTransition (ts_Status t) taskStatus = false)
  /\ exists e, l_tasks l' !! TrimSpace taskID = Some e
       /\ ts_Status (le_Task e) = ts_Status t /\ ts_CurrentRunID (le_Task e) = "".
Proof.
  intros Hok Hrun. destruct (FinishWorkerRun_spec clock taskID runID res usage actor turnErr history l Hok) as [_ Hs].
  rewrite Hrun in Hs. destruct (Hs _ eq_refl) as ((H1 & H2 & H3 & H4 & H5 & H6 & e & He & Hf) & _). cbv zeta.
  split; [done|]. split; [done|]. split; [done|]. split; [done|]. exists e. by injection Hf.
Qed.

Lemma finish_refused clock taskID runID res usage actor history l e re :
  l_tasks l !! TrimSpace taskID = Some e -> l_runs l !! TrimSpace runID = Some re -> ledger_ok l ->
  AllowedTaskTransition (ts_Status (le_Task e)) TaskStatusCompleted = true ->
  vs_Policy (ts_Verification (le_Task e)) = VerificationPolicyRequired ->
  VerificationSpec_AllRequiredPassed (ts_Verification (le_Task e)) = false ->
  exists x, FinishWorkerRun clock taskID runID res usage actor None history l = (l, Err x).
Proof.
  intros He Hre Hok Ha Hp Hv. unfold FinishWorkerRun. cbv zeta.
  destruct (TrimSpace taskID ==? ""); [by eexists|]. destruct (TrimSpace runID ==? ""); [by eexists|].
  unfold and_then at 1, GetRun. rewrite Hre. unfold and_then at 1, GetTask. rewrite He.
  assert (ts_Status (le_Task e) <> TaskStatusCompleted) as Hne by (intros E; rewrite E in Ha; discriminate).
  unfold preflight, target_task_status. apply String.eqb_neq in Hne as ->. cbn [negb andb]. rewrite Ha.
  destruct (task_apply_cases (le_Task e) TaskStatusCompleted (unix clock)
    (if TrimSpace actor ==? "" then "worker" else TrimSpace actor) (le_Source e) "worker task completed" None)
    as [[(_ & Hm & _) _]|(_ & x & ->)]; [|by eexists].
  destruct Hok as (Ht & _). apply Ht in He as (_ & Hg & _). destruct (good_task_verification _ Hg) as [Hn _].
  rewrite Hn in Hm. rewrite (Hm eq_refl Hp) in Hv. discriminate.
Qed.

(** C27: A worker cannot complete a task whose verification is required and has not
    passed.  When the status of the task lets it complete, [FinishWorkerRun] is refused
    before anything is saved, and the ledger, its store and its events are untouched;
    from any other status, a finish that succeeds leaves the status of the task as it
    was. *)
Theorem unverified_worker_is_refused clock taskID runID res usage actor history l e re :
  l_tasks l !! TrimSpace taskID = Some e -> l_runs l !! TrimSpace runID = Some re -> ledger_ok l ->
  vs_Policy (ts_Verification (le_Task e)) = VerificationPolicyRequired ->
  VerificationSpec_AllRequiredPassed (ts_Verification (le_Task e)) = false ->
  (AllowedTaskTransition (ts_Status (le_Task e)) TaskStatusCompleted = true ->
   exists x, FinishWorkerRun clock taskID runID res usage actor None history l = (l, Err x))
  /\ forall l' t r, FinishWorkerRun clock taskID runID res usage actor None history l = (l', Ok (t, r)) ->
       ts_Status t = ts_Status (le_Task e)
       /\ exists e', l_tasks l' !! TrimSpace taskID = Some e' /\ ts_Status (le_Task e') = ts_Status (le_Task e).
Proof.
  intros He Hre Hok Hp Hv.
  assert (AllowedTaskTransition (ts_Status (le_Task e)) TaskStatusCompleted = true ->
    exists x, FinishWorkerRun clock taskID runID res usage actor None history l = (l, Err x)) as Hrefused.
  { intros Ha. by eapply finish_refused. }
  split; [exact Hrefused|]. intros l' t r Hrun.
  destruct (FinishWorkerRun_spec clock taskID runID res usage actor None history l Hok) as [_ Hs]. rewrite Hrun in Hs.
  destruct (Hs _ eq_refl) as ((_ & _ & _ & _ & _ & _ & e' & He' & [= Hf _]) & Ht). specialize (Ht e He).
  assert (ts_Status t = ts_Status (le_Task e)) as Hst.
  { rewrite Ht. unfold task_after, target_task_status. destruct (AllowedTaskTransition _ TaskStatusCompleted); [|done].
    destruct (Hrefused eq_refl) as [x Hx]. congruence. }
  split; [exact Hst|]. exists e'. split; [exact He'|congruence].
Qed.
End Logic.

(** ** Concrete histories *)

Definition at_time (n : Z) : Z := n * second.

Definition service0 : Ledger MapStore := NewService (Some empty_store) None.
Definition service1 : Ledger MapStore := (Service_CreateTask (at_time 100) sample_task "" "" "op" service0).1.

Lemma service0_ok : ledger_ok service0.
Proof. exact (new_ledger_ok (Some empty_store) empty_store_ok). Qed.
Lemma service1_ok : ledger_ok service1.
Proof. by apply (Service_CreateTask_spec (at_time 100) sample_task "" "" "op" service0 service0_ok). Qed.

(** The value of an operation that succeeds. *)
Definition value {A} (d : A) (r : result A) : A := match r with Ok a => a | Err _ => d end.
Definition no_entry : LedgerEntry := mkLedgerEntry zero_task "" "" [] 0 0.

Definition created_entry : LedgerEntry :=
  value no_entry (Service_CreateTask (at_time 100) sample_task "" "" "op" service0).2.

Lemma service1_created :
  Service_CreateTask (at_time 100) sample_task "" "" "op" service0 = (service1, Ok created_entry).
Proof. vm_compute. reflexivity. Qed.

Lemma created_task_has_its_history_witness :
  0 < unix (at_time 100)
  /\ replay AllowedTaskTransition "" (task_log (ts_Transitions (le_Task created_entry))) = Some TaskStatusPending.
Proof.
  assert (0 < unix (at_time 100)) as Hnow by (vm_compute; reflexivity). split; [exact Hnow|].
  exact (proj1 (proj2 (created_task_has_its_history (at_time 100) sample_task "" "" "op" service0 service1 created_entry
    service0_ok Hnow service1_created))).
Defined.

Definition resumed : Ledger MapStore * result (option RunEntry * LedgerEntry) :=
  ResumeTask (at_time 101) " t1" "Approved" "op" "" service1.

Definition resumed_run : option RunEntry := (value (None, no_entry) resumed.2).1.
Definition resumed_task : LedgerEntry := (value (None, no_entry) resumed.2).2.

Lemma resumed_succeeds :
  ResumeTask (at_time 101) " t1" "Approved" "op" "" service1
  = (resumed.1, Ok (resumed_run, resumed_task)).
Proof. vm_compute. reflexivity. Qed.

Lemma resume_carries_out_the_decision_witness :
  l_tasks resumed.1 !! "t1" = Some resumed_task /\ ts_Status (le_Task resumed_task) = TaskStatusReady
  /\ (tr_Status ∘ re_Run <$> resumed_run) = Some TaskRunStatusQueued.
Proof.
  destruct (resume_carries_out_the_decision (at_time 101) " t1" "Approved" "op" "" service1 resumed.1 resumed_run resumed_task
    service1_ok resumed_succeeds) as [Ht Hd].
  assert (TrimSpace " t1" = "t1") as E1 by (vm_compute; reflexivity). rewrite E1 in Ht.
  assert (((ParseTaskApprovalDecision "Approved").1 ==? TaskApprovalDecisionRejected) = false) as E2 by (vm_compute; reflexivity).
  rewrite E2 in Hd. split; [exact Ht|]. destruct Hd as (_ & Hs & (re & Hre & _ & _ & Hq)). split; [exact Hs|]. rewrite Hre. exact (f_equal Some Hq).
Defined.

(** Quoting of the identifiers used here. *)
Definition quote (s : string) : string := String "034" (s +:+ String "034" "").

Definition started1 : Ledger MapStore * result (TaskSpec * TaskRun) :=
  StartWorkerRun quote (at_time 102) sample_task "acp" "" "w1" "" "worker" "" "p1" service0.

Definition started_task : TaskSpec := (value (zero_task, zero_run) started1.2).1.
Definition started_run : TaskRun := (value (zero_task, zero_run) started1.2).2.

Lemma started1_succeeds :
  StartWorkerRun quote (at_time 102) sample_task "acp" "" "w1" "" "worker" "" "p1" service0
  = (started1.1, Ok (started_task, started_run)).
Proof. vm_compute. reflexivity. Qed.
Lemma clock_runs : 0 < unix (at_time 102).
Proof. vm_compute. reflexivity. Qed.

Lemma started_worker_run_is_running_witness :
  tr_Status started_run = TaskRunStatusRunning /\ tr_RunID started_run = "w1" /\ tr_TaskID started_run = "t1"
  /\ tr_ParentRunID started_run = "p1".
Proof.
  exact (proj1 (started_worker_run_is_running quote (at_time 102) sample_task "acp" "" "w1" "" "worker" "" "p1" service0
    started1.1 started_task started_run service0_ok clock_runs started1_succeeds)).
Defined.

Definition a_result : TaskResultRef := mkTaskResultRef "task_run" "w1" "" "".
Definition no_usage : TaskUsage := mkTaskUsage 0 0 0 0 0 0 0.

Lemma started1_ok : ledger_ok started1.1.
Proof.
  exact (proj1 (StartWorkerRun_spec quote (at_time 102) sample_task "acp" "" "w1" "" "worker" "" "p1" service0 service0_ok clock_runs)).
Qed.

Definition finished1 : Ledger MapStore * result (TaskSpec * TaskRun) :=
  FinishWorkerRun (at_time 110) "t1" "w1" a_result no_usage "worker" (Some "no model") [] started1.1.

Definition finished_task : TaskSpec := (value (zero_task, zero_run) finished1.2).1.
Definition finished_run : TaskRun := (value (zero_task, zero_run) finished1.2).2.

Lemma finished1_succeeds :
  FinishWorkerRun (at_time 110) "t1" "w1" a_result no_usage "worker" (Some "no model") [] started1.1
  = (finished1.1, Ok (finished_task, finished_run)).
Proof. vm_compute. reflexivity. Qed.

Lemma finished_worker_run_is_recorded_witness :
  (tr_Status finished_run = TaskRunStatusFailed
   \/ AllowedTaskRunTransition (tr_Status finished_run) TaskRunStatusFailed = false)
  /\ ts_TaskID finished_task = "t1" /\ ts_CurrentRunID finished_task = "" /\ ts_LastRunID finished_task = "w1".
Proof.
  destruct (finished_worker_run_is_recorded (at_time 110) "t1" "w1" a_result no_usage "worker" (Some "no model") []
    started1.1 finished1.1 finished_task finished_run started1_ok finished1_succeeds) as (_ & H1 & H2 & _).
  split; [exact H1|exact H2].
Defined.

(** A task whose one required check waits for a reviewer. *)
Definition a_check (status : string) : VerificationCheck :=
  mkVerificationCheck "c1" "review" "looks good" true status "" "" 0 "" None.
Definition gated_task (status : string) : TaskSpec :=
  sample_task <| ts_Verification := mkVerificationSpec VerificationPolicyRequired [a_check status] 0 "" None |>.

Definition gated_ledger : Ledger MapStore :=
  (StartWorkerRun quote (at_time 102) (gated_task VerificationStatusPending) "acp" "" "w1" "" "worker" "" "" service0).1.
Definition gated_entry : LedgerEntry := default no_entry (l_tasks gated_ledger !! "t1").
Definition gated_run : RunEntry := default (mkRunEntry zero_run "" "" 0 0) (l_runs gated_ledger !! "w1").

Lemma gated_ledger_ok : ledger_ok gated_ledger.
Proof.
  exact (proj1 (StartWorkerRun_spec quote (at_time 102) (gated_task VerificationStatusPending) "acp" "" "w1" "" "worker" "" ""
    service0 service0_ok clock_runs)).
Qed.

Lemma unverified_worker_is_refused_witness :
  AllowedTaskTransition (ts_Status (le_Task gated_entry)) TaskStatusCompleted = true
  /\ exists x, FinishWorkerRun (at_time 110) "t1" "w1" a_result no_usage "" None [] gated_ledger = (gated_ledger, Err x).
Proof.
  assert (AllowedTaskTransition (ts_Status (le_Task gated_entry)) TaskStatusCompleted = true) as Ha by (vm_compute; reflexivity).
  split; [exact Ha|].
  refine (proj1 (unverified_worker_is_refused (at_time 110) "t1" "w1" a_result no_usage "" [] gated_ledger gated_entry gated_run
    _ _ gated_ledger_ok _ _) Ha); vm_compute; reflexivity.
Defined.

(** The status, the current run and the history of a cached task. *)
Definition task_view (l : Ledger MapStore) (id : string) : option (string * string * list (string * string)) :=
  (fun e => (ts_Status (le_Task e), ts_CurrentRunID (le_Task e), map (fun x => (tt_From x, tt_To x)) (ts_Transitions (le_Task e))))
    <$> l_tasks l !! id.
Definition run_view (l : Ledger MapStore) (id : string) : option (string * string) :=
  (fun e => (tr_Status (re_Run e), rr_ID (tr_Result (re_Run e)))) <$> l_runs l !! id.

(** Starting a run of a completed task with a document that says nothing about its
    status: the status is overwritten, so that the task is in progress again although
    completed tasks are final, and its history no longer follows the table. *)
Example restart_reopens_a_completed_task :
  let l1 := (StartWorkerRun quote (at_time 102) sample_task "acp" "" "w1" "" "worker" "" "" service0).1 in
  let l2 := (FinishWorkerRun (at_time 103) "t1" "w1" a_result no_usage "" None [] l1).1 in
  let '(l3, r) := StartWorkerRun quote (at_time 104) sample_task "acp" "" "w2" "" "worker" "" "" l2 in
  task_view l2 "t1" = Some ("completed", "", [("", "pending"); ("pending", "in_progress"); ("in_progress", "completed")])
  /\ is_ok r = true
  /\ task_view l3 "t1" = Some ("in_progress", "w2",
       [("", "pending"); ("pending", "in_progress"); ("in_progress", "completed"); ("pending", "in_progress")]).
Proof. vm_compute. repeat split. Qed.

(** The run keeps the checks the task had when it was created: a task whose required
    check passes afterwards cannot be finished by its worker, and the attempt leaves
    the result in a run that is still running. *)
Example run_checks_are_not_refreshed :
  let passed := (le_Task gated_entry) <| ts_Verification := mkVerificationSpec VerificationPolicyRequired
                                       [a_check VerificationStatusPassed] 0 "" None |> in
  let l := (SaveTaskState 105 passed "" "" gated_ledger).1 in
  let '(l', r) := FinishWorkerRun (at_time 110) "t1" "w1" a_result no_usage "" None [] l in
  r = Err (Errorf "cannot complete task run: required verification checks have not passed" [])
  /\ run_view l' "w1" = Some ("running", "w1").
Proof. vm_compute. split; reflexivity. Qed.

(** A blocked task cannot complete: finishing its run completes the run, reports
    success and leaves the task blocked without a current run. *)
Example finish_leaves_a_blocked_task :
  let l := (UpdateTaskStatus 105 "t1" TaskStatusBlocked "" "" "" started1.1).1 in
  let '(l', r) := FinishWorkerRun (at_time 110) "t1" "w1" a_result no_usage "" None [] l in
  is_ok r = true /\ run_view l' "w1" = Some ("completed", "w1")
  /\ (fun v => (v.1.1, v.1.2)) <$> task_view l' "t1" = Some ("blocked", "").
Proof. vm_compute. repeat split. Qed.

(** Resuming a blocked task whose run is still running queues a second run. *)
Example resume_leaves_the_old_run_active :
  let l := (UpdateTaskStatus 105 "t1" TaskStatusBlocked "" "" "" started1.1).1 in
  let '(l', r) := ResumeTask (at_time 110) "t1" "" "op" "" l in
  is_ok r = true /\ fst <$> run_view l' "w1" = Some "running"
  /\ (fun v => (v.1.1, v.1.2)) <$> task_view l' "t1" = Some ("ready", "taskrun-110000000000")
  /\ fst <$> run_view l' "taskrun-110000000000" = Some "queued".
Proof. vm_compute. repeat split. Qed.

(** When the store refuses the annotation of a decision, the decision is reported as
    failed; the cached task keeps its marks, because they were written into the map
    the copy shares with it. *)
Example refused_decision_leaves_its_marks :
  let task := (sample_task <| ts_Status := TaskStatusReady |>) <| ts_Meta := Some {["origin" := VString "cli"]} |> in
  let l := (SaveTaskState 100 task "" "" service0).1 in
  let l := l <| l_store := Some full_store |> in
  let '(l', r) := ResumeTask (at_time 110) "t1" "approved" "op" "" l in
  is_ok r = false
  /\ (e ← l_tasks l' !! "t1"; map_read (ts_Meta (le_Task e)) !! "approval_decision") = Some (VString "approved").
Proof. vm_compute. repeat split. Qed.

(** The result of the turn is saved before the run is ended: when the store refuses
    the task after that, an error is reported and the run, still running, keeps the
    result. *)
Example finish_stops_halfway :
  let l := started1.1 <| l_store := (fun s => mkMapStore (ms_tasks s) (ms_runs s) true) <$> l_store started1.1 |> in
  let '(l', r) := FinishWorkerRun (at_time 110) "t1" "w1" a_result no_usage "" (Some "boom") [] l in
  is_ok r = false /\ fst <$> run_view l' "w1" = Some "running"
  /\ rr_ID ∘ tr_Result ∘ re_Run <$> (s ← l_store l'; ms_runs s !! "w1") = Some "w1".
Proof. vm_compute. repeat split. Qed.

(** A rejection blocks the run that is current; one that was left active before stays
    active, and the rejection is reported as carried out. *)
Example rejection_leaves_an_older_run_active :
  let l := (UpdateTaskStatus 105 "t1" TaskStatusBlocked "" "" "" started1.1).1 in
  let l := (ResumeTask (at_time 110) "t1" "" "op" "" l).1 in
  let '(l', r) := ResumeTask (at_time 111) "t1" "rejected" "op" "" l in
  is_ok r = true /\ fst <$> run_view l' "w1" = Some "running"
  /\ (fun v => (v.1.1, v.1.2)) <$> task_view l' "t1" = Some ("blocked", "taskrun-110000000000")
  /\ fst <$> run_view l' "taskrun-110000000000" = Some "blocked".
Proof. vm_compute. repeat split. Qed.

(** For a blocked task, whose status cannot become completed, the check before the first
    save passes: the result is saved with the run, whose own required check then stops
    the finish. *)
Example unverified_result_of_a_blocked_task_is_saved :
  let l := (UpdateTaskStatus 105 "t1" TaskStatusBlocked "" "" "" gated_ledger).1 in
  let '(l', r) := FinishWorkerRun (at_time 110) "t1" "w1" a_result no_usage "" None [] l in
  is_ok r = false /\ run_view l "w1" = Some ("running", "") /\ run_view l' "w1" = Some ("running", "w1")
  /\ (fun v => v.1.1) <$> task_view l' "t1" = Some "blocked".
Proof. vm_compute. repeat split. Qed.
