(* ===== verification/Suspend.v ===== *)
(** Suspending and resuming the daemon: internal/gateway/suspend/suspend.go, its wire
    response in cmd/metiqd/control_rpc_gateway_lifecycle.go, and the runtime wrapper of
    cmd/metiqd/suspend_runtime.go.

    A coordinator is guarded by a mutex and every method is one critical section; a
    method called on a nil coordinator is one on [None].  A write of the ledger goes to
    a temporary file that is renamed, so it replaces the record or leaves it alone: an
    operation takes the errors of its writes, if any, and its readings of the clock as
    arguments. *)

From Stdlib Require Import Ascii String.
From stdpp Require Import base tactics decidable list gmap strings pretty.
From S2P Require Import Prelude Sorting.

Definition StateIdle : string := "idle".
Definition StatePreparing : string := "preparing".
Definition StateSuspended : string := "suspended".
Definition StateResuming : string := "resuming".

Definition ledgerVersion : Z := 1.

Definition ErrAdmissionClosed : error := Errorf "gateway interactive work admission is suspended" [].

(** ** The state *)

Record InFlight := mkInFlight {
  if_AgentRuns : Z;
  if_ActiveSessions : Z;
  if_InteractiveLeases : Z
}.

Definition InFlight_Empty (f : InFlight) : bool :=
  (if_AgentRuns f =? 0) && (if_ActiveSessions f =? 0) && (if_InteractiveLeases f =? 0).

(** [Record]. *)
Record SuspendRecord := mkSuspendRecord {
  sr_State : string;
  sr_SuspensionID : string;
  sr_SinceMs : Z;
  sr_Reason : string;
  sr_UpdatedAtMs : Z
}.

#[export] Instance set_sr_State : Setter sr_State := fun v r =>
  mkSuspendRecord v (sr_SuspensionID r) (sr_SinceMs r) (sr_Reason r) (sr_UpdatedAtMs r).
#[export] Instance set_sr_UpdatedAtMs : Setter sr_UpdatedAtMs := fun v r =>
  mkSuspendRecord (sr_State r) (sr_SuspensionID r) (sr_SinceMs r) (sr_Reason r) v.

Definition idle_record (at_ : Z) : SuspendRecord := mkSuspendRecord StateIdle "" 0 "" at_.

(** The coordinator, and the record in its ledger file if there is one. *)
Record Coordinator := mkCoordinator {
  sc_rec : SuspendRecord;
  sc_seq : Z;
  sc_storagePath : string;
  sc_pausableWorkers : list string;
  sc_activeWork : Z;
  sc_file : option SuspendRecord
}.

#[export] Instance set_sc_rec : Setter sc_rec := fun v r =>
  mkCoordinator v (sc_seq r) (sc_storagePath r) (sc_pausableWorkers r) (sc_activeWork r) (sc_file r).
#[export] Instance set_sc_seq : Setter sc_seq := fun v r =>
  mkCoordinator (sc_rec r) v (sc_storagePath r) (sc_pausableWorkers r) (sc_activeWork r) (sc_file r).
#[export] Instance set_sc_pausableWorkers : Setter sc_pausableWorkers := fun v r =>
  mkCoordinator (sc_rec r) (sc_seq r) (sc_storagePath r) v (sc_activeWork r) (sc_file r).
#[export] Instance set_sc_activeWork : Setter sc_activeWork := fun v r =>
  mkCoordinator (sc_rec r) (sc_seq r) (sc_storagePath r) (sc_pausableWorkers r) v (sc_file r).
#[export] Instance set_sc_file : Setter sc_file := fun v r =>
  mkCoordinator (sc_rec r) (sc_seq r) (sc_storagePath r) (sc_pausableWorkers r) (sc_activeWork r) v.

(** ** Starting *)

Definition normalizeRecoveredRecord (rec : SuspendRecord) : SuspendRecord :=
  go_switch (TrimSpace (sr_State rec))
    [([StateSuspended; StatePreparing],
      if blank (sr_SuspensionID rec) then idle_record 0 else rec <| sr_State := StateSuspended |>)]
    (idle_record 0).

(** [raw] is what reading the ledger gives: an error, no file, or the version and the
    record that decoding it yields. *)
Definition NewCoordinatorAt (path : string) (raw : result (option (result (Z * SuspendRecord)))) : result Coordinator :=
  let path := TrimSpace path in
  if path ==? "" then Ok (mkCoordinator (idle_record 0) 0 path [] 0 None)
  else match raw with
  | Err e => Err (Wrapf "read suspend ledger: %w" [] e)
  | Ok None => Ok (mkCoordinator (idle_record 0) 0 path [] 0 None)
  | Ok (Some (Err e)) => Err (Wrapf "decode suspend ledger: %w" [] e)
  | Ok (Some (Ok (version, rec))) =>
    if negb (version =? ledgerVersion) then Err (Errorf "unsupported suspend ledger version %d" [ArgZ version])
    else Ok (mkCoordinator (normalizeRecoveredRecord rec) 0 path [] 0 (Some rec))
  end.

Definition RegisterPausableWorker (name : string) (c : option Coordinator) : option Coordinator :=
  match c with
  | None => None
  | Some c =>
    let name := TrimSpace name in
    if name ==? "" then Some c
    else if bool_decide (name ∈ sc_pausableWorkers c) then Some c
    else Some (c <| sc_pausableWorkers := sort_by String.ltb (sc_pausableWorkers c ++ [name]) |>)
  end.

Definition PausableWorkers (c : option Coordinator) : list string := from_option sc_pausableWorkers [] c.

(** ** The gate and its leases *)

Definition AcceptingWork (c : option Coordinator) : bool :=
  match c with None => true | Some c => sr_State (sc_rec c) ==? StateIdle end.

(** A lease of a coordinator, or of none, and whether it has been released. *)
Record Lease := mkLease {
  ls_coordinator : bool;
  ls_once : bool
}.

Definition BeginWork (c : option Coordinator) : option Coordinator * result Lease :=
  match c with
  | None => (None, Ok (mkLease false false))
  | Some c =>
    if sr_State (sc_rec c) !=? StateIdle then (Some c, Err ErrAdmissionClosed)
    else (Some (c <| sc_activeWork := add64 (sc_activeWork c) 1 |>), Ok (mkLease true false))
  end.

Definition persistLocked (io : option error) (rec : SuspendRecord) (c : Coordinator) : Coordinator * option error :=
  if sc_storagePath c ==? "" then (c, None)
  else match io with
  | Some e => (c, Some e)
  | None => (c <| sc_file := Some rec |>, None)
  end.

(** What [Release] runs once. *)
Definition release_once (now : Z) (io : option error) (c : Coordinator) : Coordinator * option error :=
  let c := if 0 <? sc_activeWork c then c <| sc_activeWork := sub64 (sc_activeWork c) 1 |> else c in
  if (sc_activeWork c =? 0) && (sr_State (sc_rec c) ==? StatePreparing) then
    let suspended := ((sc_rec c) <| sr_State := StateSuspended |>) <| sr_UpdatedAtMs := now |> in
    match persistLocked io suspended c with
    | (c, Some e) => (c, Some e)
    | (c, None) => (c <| sc_rec := suspended |>, None)
    end
  else (c, None).

Definition Release (now : Z) (io : option error) (l : Lease) (c : Coordinator) : Lease * Coordinator * option error :=
  if negb (ls_coordinator l) || ls_once l then (l, c, None)
  else let '(c, err) := release_once now io c in (mkLease true true, c, err).

Definition ActiveWork (c : option Coordinator) : Z := from_option sc_activeWork 0 c.

Definition Coordinator_State (c : option Coordinator) : SuspendRecord := from_option sc_rec (idle_record 0) c.

Definition Suspended (c : option Coordinator) : bool :=
  match c with None => false | Some c => sr_State (sc_rec c) ==? StateSuspended end.

(** ** Suspending and resuming *)

Definition unavailable : error := Errorf "suspend coordinator unavailable" [].

Definition suspension_id (now seq : Z) : string := "suspend-" +:+ pretty now +:+ "-" +:+ pretty seq.

(** The record together with the error. *)
Definition prepare (now1 now2 : Z) (io1 io2 : option error) (reason : string) (c : Coordinator)
  : Coordinator * (SuspendRecord * option error) :=
  let state := sr_State (sc_rec c) in
  if (state ==? StatePreparing) || (state ==? StateSuspended) then (c, (sc_rec c, None))
  else if state !=? StateIdle then
    (c, (sc_rec c, Some (Errorf "cannot prepare suspension from state %q" [ArgS state])))
  else
    let c := c <| sc_seq := add64 (sc_seq c) 1 |> in
    let preparing := mkSuspendRecord StatePreparing (suspension_id now1 (sc_seq c)) now1 (TrimSpace reason) now1 in
    match persistLocked io1 preparing c with
    | (c, Some e) => (c, (sc_rec c, Some e))
    | (c, None) =>
      let c := c <| sc_rec := preparing |> in
      if 0 <? sc_activeWork c then (c, (sc_rec c, None))
      else
        let suspended := (preparing <| sr_State := StateSuspended |>) <| sr_UpdatedAtMs := now2 |> in
        match persistLocked io2 suspended c with
        | (c, Some e) => (c, (sc_rec c, Some e))
        | (c, None) => let c := c <| sc_rec := suspended |> in (c, (sc_rec c, None))
        end
    end.

Definition resume (now1 now2 : Z) (io1 io2 : option error) (suspensionID : string) (c : Coordinator)
  : Coordinator * (SuspendRecord * option error) :=
  let state := sr_State (sc_rec c) in
  let id := TrimSpace suspensionID in
  if (state !=? StateSuspended) && (state !=? StatePreparing) then
    (c, (sc_rec c, Some (Errorf "cannot resume: no active suspension (state %q)" [ArgS state])))
  else if (id !=? "") && (id !=? sr_SuspensionID (sc_rec c)) then
    (c, (sc_rec c, Some (Errorf "suspension id mismatch: active %q, requested %q"
                           [ArgS (sr_SuspensionID (sc_rec c)); ArgS id])))
  else
    let resuming := ((sc_rec c) <| sr_State := StateResuming |>) <| sr_UpdatedAtMs := now1 |> in
    match persistLocked io1 resuming c with
    | (c, Some e) => (c, (sc_rec c, Some e))
    | (c, None) =>
      let c := c <| sc_rec := resuming |> in
      match persistLocked io2 (idle_record now2) c with
      | (c, Some e) => (c, (sc_rec c, Some e))
      | (c, None) => let c := c <| sc_rec := idle_record now2 |> in (c, (sc_rec c, None))
      end
    end.

(** The nil test in front of both. *)
Definition on_coordinator (f : Coordinator -> Coordinator * (SuspendRecord * option error)) (c : option Coordinator)
  : option Coordinator * (SuspendRecord * option error) :=
  match c with
  | None => (None, (mkSuspendRecord "" "" 0 "" 0, Some unavailable))
  | Some c => let '(c, r) := f c in (Some c, r)
  end.

Definition Prepare (now1 now2 : Z) (io1 io2 : option error) (reason : string) := on_coordinator (prepare now1 now2 io1 io2 reason).
Definition Resume (now1 now2 : Z) (io1 io2 : option error) (suspensionID : string) :=
  on_coordinator (resume now1 now2 io1 io2 suspensionID).

(** ** The wire response *)

(** The entries of [suspendResult] that tell of the suspension. *)
Record SuspendResult := mkSuspendResult {
  su_state : string;
  su_interactiveActive : bool;
  su_inFlight : InFlight;
  su_quiesced : bool;
  su_suspensionId : option string;
  su_since : option Z;
  su_reason : option string;
  su_pausedWorkers : list string
}.

Definition suspendResult (rec : SuspendRecord) (inFlight : InFlight) (pausedWorkers : list string) : SuspendResult :=
  let suspended := sr_State rec ==? StateSuspended in
  let active := sr_State rec !=? StateIdle in
  mkSuspendResult (sr_State rec) (sr_State rec ==? StateIdle) inFlight (suspended && InFlight_Empty inFlight)
    (if sr_SuspensionID rec !=? "" then Some (sr_SuspensionID rec) else None)
    (if negb (sr_SinceMs rec =? 0) then Some (sr_SinceMs rec) else None)
    (if sr_Reason rec !=? "" then Some (sr_Reason rec) else None)
    (if active && negb (Nat.eqb (length pausedWorkers) 0) then pausedWorkers else []).

(** ** Turns behind the gate *)

(** [withLease]: a turn of an admitted context runs as it is, any other one under a
    lease of its own.  [run] is the turn, which may use the coordinator. *)
Definition withLease {A} (admitted : bool) (now : Z) (io : option error)
    (run : Coordinator -> Coordinator * result A) (c : Coordinator) : Coordinator * result A :=
  if admitted then run c
  else match BeginWork (Some c) with
  | (_, Err e) => (c, Err e)
  | (c', Ok lease) =>
    let '(c, r) := run (default c c') in
    let '(_, c, _) := Release now io lease c in (c, r)
  end.
