(* ===== verification/SuspendProps.v ===== *)
(** A suspension survives crashes, drains what was admitted, and ends only by a resume. *)

From Stdlib Require Import Ascii String.
From stdpp Require Import base tactics decidable list gmap strings pretty relations.
From S2P Require Import Prelude Identifiers Sorting Suspend.

(** ** Histories *)

(** What a new process reads back of a written ledger is the record written. *)
Definition reread (file : option SuspendRecord) : result (option (result (Z * SuspendRecord))) :=
  Ok ((fun rec => Ok (ledgerVersion, rec)) <$> file).

(** A coordinator with the number of leases it has handed out and not got back.  Fewer
    than 2^63 are out at any time.  A crash loses the leases with the process. *)
Inductive suspend_step : Coordinator * nat -> Coordinator * nat -> Prop :=
  | step_begin c c' lease n :
      BeginWork (Some c) = (Some c', Ok lease) -> Z.of_nat n + 1 < 2 ^ 63 -> suspend_step (c, n) (c', Datatypes.S n)
  | step_release now io c n : suspend_step (c, Datatypes.S n) ((release_once now io c).1, n)
  | step_prepare now1 now2 io1 io2 reason c n : suspend_step (c, n) ((prepare now1 now2 io1 io2 reason c).1, n)
  | step_resume now1 now2 io1 io2 id c n : suspend_step (c, n) ((resume now1 now2 io1 io2 id c).1, n)
  | step_register name c c' n : RegisterPausableWorker name (Some c) = Some c' -> suspend_step (c, n) (c', n)
  | step_restart c c' n : NewCoordinatorAt (sc_storagePath c) (reread (sc_file c)) = Ok c' -> suspend_step (c, n) (c', 0%nat).

Definition suspend_start (path : string) (s : Coordinator * nat) : Prop :=
  exists c, NewCoordinatorAt path (Ok None) = Ok c /\ s = (c, 0%nat).

(** ** The invariant *)

(** A suspension is in effect. *)
Definition in_effect (r : SuspendRecord) : Prop := sr_State r = StatePreparing \/ sr_State r = StateSuspended.
#[export] Instance in_effect_dec r : Decision (in_effect r).
Proof. unfold in_effect. apply _. Defined.

(** The record a new process starts with. *)
Definition recovered (file : option SuspendRecord) : SuspendRecord := from_option normalizeRecoveredRecord (idle_record 0) file.

(** The ledger file tells a new process whether a suspension is in effect, and which. *)
Definition file_tells (file : option SuspendRecord) (r : SuspendRecord) : Prop :=
  (in_effect r -> sr_State (recovered file) = StateSuspended /\ sr_SuspensionID (recovered file) = sr_SuspensionID r)
  /\ (~ in_effect r -> sr_State (recovered file) = StateIdle).

Definition known_state (s : string) : Prop :=
  s = StateIdle \/ s = StatePreparing \/ s = StateSuspended \/ s = StateResuming.

Definition coordinator_ok (s : Coordinator * nat) : Prop :=
  let '(c, n) := s in
  known_state (sr_State (sc_rec c)) /\ sc_activeWork c = Z.of_nat n /\ Z.of_nat n < 2 ^ 63
  /\ (sr_State (sc_rec c) = StateSuspended -> n = 0%nat)
  /\ (in_effect (sc_rec c) -> blank (sr_SuspensionID (sc_rec c)) = false)
  /\ TrimSpace (sc_storagePath c) = sc_storagePath c
  /\ (sc_storagePath c <> "" -> file_tells (sc_file c) (sc_rec c)).

Lemma recovered_cases r :
  sr_State (normalizeRecoveredRecord r) = StateIdle
  \/ (sr_State (normalizeRecoveredRecord r) = StateSuspended /\ blank (sr_SuspensionID (normalizeRecoveredRecord r)) = false).
Proof.
  unfold normalizeRecoveredRecord, go_switch. destruct (existsb _ _); [|by left].
  destruct (blank (sr_SuspensionID r)) eqn:E; [by left|by right].
Qed.

(** A record written with an identifier is recovered as suspended, one that is idle or
    resuming as idle. *)
Lemma written_in_effect r :
  in_effect r -> blank (sr_SuspensionID r) = false -> file_tells (Some r) r.
Proof.
  intros Hr Hid. split; [intros _|done]. cbn. unfold normalizeRecoveredRecord, go_switch.
  destruct r as [st id since why at_]; cbn in *. destruct Hr as [Hr|Hr]; cbn in Hr; subst st; vm_compute (existsb _ _); by rewrite Hid.
Qed.
Lemma written_out_of_effect r : sr_State r = StateIdle \/ sr_State r = StateResuming -> file_tells (Some r) r.
Proof.
  intros Hr. destruct r as [st id since why at_]; cbn in *. split.
  - intros [He|He]; cbn in He; destruct Hr; subst; discriminate.
  - intros _. by destruct Hr; subst.
Qed.

(** A write replaces the record or leaves the coordinator as it is. *)
Lemma persist_cases io rec c c' err :
  persistLocked io rec c = (c', err) ->
  match err with
  | Some _ => c' = c
  | None => exists f, c' = c <| sc_file := f |> /\ (sc_storagePath c <> "" -> f = Some rec)
  end.
Proof.
  unfold persistLocked. destruct (String.eqb_spec (sc_storagePath c) "") as [E|E].
  - intros [= <- <-]. exists (sc_file c). by destruct c.
  - destruct io; intros [= <- <-]; eauto.
Qed.

Lemma suspension_id_not_blank now seq : blank (suspension_id now seq) = false.
Proof. unfold suspension_id. by apply blank_nonspace. Qed.

Lemma suspension_id_trimmed now seq : TrimSpace (suspension_id now seq) = suspension_id now seq.
Proof.
  apply TrimSpace_plain. unfold suspension_id.
  repeat apply plain_app; try apply plain_pretty; by repeat constructor.
Qed.

(** ** Every step keeps it *)

(** Taking a record over once it is written. *)
Lemma take_over c n rec io c' :
  coordinator_ok (c, n) -> persistLocked io rec c = (c', None) ->
  known_state (sr_State rec) -> (sr_State rec = StateSuspended -> n = 0%nat) ->
  (in_effect rec -> blank (sr_SuspensionID rec) = false) ->
  coordinator_ok (c' <| sc_rec := rec |>, n).
Proof.
  intros (Hk & Ha & Hn & _ & _ & Hp & _) Hw Hrec Hs Hid. apply persist_cases in Hw as (f & -> & Hf).
  do 6 (split; [done|]). cbn. intros Hpath. rewrite (Hf Hpath). destruct (decide (in_effect rec)) as [He|Hne].
  - by apply written_in_effect; auto.
  - apply written_out_of_effect. unfold known_state, in_effect in *. intuition.
Qed.

Lemma seq_ok c n v : coordinator_ok (c, n) -> coordinator_ok (c <| sc_seq := v |>, n).
Proof. done. Qed.
Lemma workers_ok c n v : coordinator_ok (c, n) -> coordinator_ok (c <| sc_pausableWorkers := v |>, n).
Proof. done. Qed.

Lemma failed_write c n io rec c' e :
  coordinator_ok (c, n) -> persistLocked io rec c = (c', Some e) -> coordinator_ok (c', n).
Proof. by intros Hok ->%persist_cases. Qed.

Lemma prepare_ok now1 now2 io1 io2 reason c n :
  coordinator_ok (c, n) -> coordinator_ok ((prepare now1 now2 io1 io2 reason c).1, n).
Proof.
  intros Hok. unfold prepare. case_match; [done|]. case_match; [done|].
  set (c1 := c <| sc_seq := _ |>). assert (coordinator_ok (c1, n)) as Hok1 by done. clearbody c1. cbv zeta.
  set (rec := mkSuspendRecord _ _ _ _ _). destruct (persistLocked io1 rec c1) as [c2 [e|]] eqn:E1; [by eapply failed_write|].
  assert (coordinator_ok (c2 <| sc_rec := rec |>, n)) as Hok2.
  { eapply take_over; [exact Hok1|exact E1|..]; [by right; left|done|]. intros _. apply suspension_id_not_blank. }
  destruct (0 <? sc_activeWork (c2 <| sc_rec := rec |>)) eqn:Ew; [done|].
  destruct (persistLocked io2 _ _) as [c3 [e|]] eqn:E2; [by eapply failed_write|].
  eapply take_over; [exact Hok2|exact E2|..]; [by right; right; left| |intros _; apply suspension_id_not_blank].
  intros _. apply Z.ltb_ge in Ew. destruct Hok2 as (_ & Ha & _). lia.
Qed.

Lemma resume_ok now1 now2 io1 io2 id c n :
  coordinator_ok (c, n) -> coordinator_ok ((resume now1 now2 io1 io2 id c).1, n).
Proof.
  intros Hok. unfold resume. case_match; [done|]. case_match; [done|].
  destruct (persistLocked io1 _ c) as [c1 [e|]] eqn:E1; [by eapply failed_write|].
  eapply take_over in E1 as Hok1; [|exact Hok|by right; right; right|done|by intros [?|?]].
  destruct (persistLocked io2 _ _) as [c2 [e|]] eqn:E2; [by eapply failed_write|].
  eapply take_over in E2; [exact E2|exact Hok1|by left|done|by intros [?|?]].
Qed.

Lemma release_ok now io c n : coordinator_ok (c, Datatypes.S n) -> coordinator_ok ((release_once now io c).1, n).
Proof.
  intros Hok. unfold release_once. destruct Hok as (Hk & Ha & Hn & Hs & Hid & Hp & Hf).
  rewrite (proj2 (Z.ltb_lt 0 (sc_activeWork c))) by lia. set (c1 := c <| sc_activeWork := _ |>).
  assert (coordinator_ok (c1, n)) as Hok1.
  { unfold coordinator_ok. change (sc_activeWork c1) with (sub64 (sc_activeWork c) 1).
    rewrite Ha. unfold sub64. rewrite wrap64_id by (unfold int64_range; lia).
    split; [done|]. split; [lia|]. split; [lia|]. split; [|done]. intros Hst. by specialize (Hs Hst). }
  clearbody c1. destruct (_ && _) eqn:Ew; [|done].
  apply andb_true_iff in Ew as [Ew%Z.eqb_eq Est%String.eqb_eq]. destruct (persistLocked io _ c1) as [c2 [e|]] eqn:E1; [by eapply failed_write|].
  eapply take_over; [exact Hok1|exact E1|..]; [by right; right; left| |].
  - intros _. destruct Hok1 as (_ & Ha1 & _). lia.
  - intros _. destruct Hok1 as (_ & _ & _ & _ & Hid1 & _). apply Hid1. by left.
Qed.

Lemma restart_ok path file c :
  TrimSpace path = path -> NewCoordinatorAt path (reread file) = Ok c -> coordinator_ok (c, 0%nat).
Proof.
  intros Hpath. unfold NewCoordinatorAt. rewrite Hpath. destruct (String.eqb_spec path "") as [->|Hne].
  - intros [= <-]. split; [by left|]. do 3 (split; [done|]). split; [by intros [?|?]|done].
  - assert (file_tells file (recovered file)) as Hf.
    { split; [|destruct file as [rec|]; [|done]; cbn [recovered from_option]; intros Hn; destruct (recovered_cases rec) as [|[]]; [done|]].
      - destruct file as [rec|]; cbn [recovered from_option]; [|by intros [?|?]]. intros He. split; [|done].
        destruct (recovered_cases rec) as [E|[]]; [|done]. destruct He as [He|He]; by rewrite E in He.
      - exfalso. apply Hn. by right. }
    assert (coordinator_ok (mkCoordinator (recovered file) 0 path [] 0 file, 0%nat)) as Hok.
    { assert (known_state (sr_State (recovered file)) /\ (in_effect (recovered file) -> blank (sr_SuspensionID (recovered file)) = false))
        as [Hk Hid].
      { destruct file as [rec|]; cbn [recovered from_option]; [|by split; [left|intros [?|?]]].
        destruct (recovered_cases rec) as [E|[E Hid]]; [|by split; [right; right; left|]].
        split; [by left|]. intros [He|He]; by rewrite E in He. }
      split; [done|]. do 3 (split; [done|]). do 2 (split; [done|]). done. }
    destruct file as [rec|]; by intros [= <-].
Qed.

Lemma suspend_step_ok s s' : suspend_step s s' -> coordinator_ok s -> coordinator_ok s'.
Proof.
  intros Hs Hok. destruct Hs as [c c' lease n Hb Hn|now io c n|now1 now2 io1 io2 reason c n|now1 now2 io1 io2 id c n|name c c' n Hr|c c' n Hr].
  - unfold BeginWork in Hb. destruct (String.eqb_spec (sr_State (sc_rec c)) StateIdle) as [Hst|]; [|done].
    injection Hb as <- _. destruct Hok as (Hk & Ha & Hn0 & Hs & Hrest). unfold coordinator_ok.
    change (sc_activeWork (c <| sc_activeWork := add64 (sc_activeWork c) 1 |>)) with (add64 (sc_activeWork c) 1).
    rewrite Ha. unfold add64. rewrite wrap64_id by (unfold int64_range; lia).
    split; [done|]. split; [lia|]. split; [lia|]. split; [|done]. cbn. by rewrite Hst.
  - by apply release_ok.
  - by apply prepare_ok.
  - by apply resume_ok.
  - unfold RegisterPausableWorker in Hr. repeat case_match; injection Hr as <-; done.
  - eapply restart_ok; [|exact Hr]. apply Hok.
Qed.

Lemma reachable_ok path s0 s : suspend_start path s0 -> rtc suspend_step s0 s -> coordinator_ok s.
Proof.
  intros (c & Hc & ->) Hr. assert (coordinator_ok (c, 0%nat)) as H0.
  { eapply (restart_ok (TrimSpace path) None); [apply TrimSpace_idem|]. unfold NewCoordinatorAt in *. by rewrite TrimSpace_idem. }
  revert H0. induction Hr as [|s1 s2 s3 Hs _ IH]; [done|]. intros H0. apply IH. by eapply suspend_step_ok.
Qed.

(** ** What the coordinator guarantees *)

(** C30: Whatever prepares, resumes, admissions, releases, failed writes and crashes came
    before, a new process that starts from the ledger file opens, and it is suspended
    under the same identifier, with its gate closed, exactly when a suspension was in
    effect; otherwise it accepts work. *)
Theorem suspension_survives_crashes path s0 c n :
  suspend_start path s0 -> rtc suspend_step s0 (c, n) -> sc_storagePath c <> "" ->
  exists c', NewCoordinatorAt (sc_storagePath c) (reread (sc_file c)) = Ok c'
  /\ (in_effect (sc_rec c) ->
      Suspended (Some c') = true /\ sr_SuspensionID (sc_rec c') = sr_SuspensionID (sc_rec c) /\ AcceptingWork (Some c') = false)
  /\ (~ in_effect (sc_rec c) -> AcceptingWork (Some c') = true).
Proof.
  intros Hs Hr Hpath. destruct (reachable_ok _ _ _ Hs Hr) as (_ & _ & _ & _ & _ & Htrim & Hf).
  destruct (Hf Hpath) as [Hin Hout]. exists (mkCoordinator (recovered (sc_file c)) 0 (sc_storagePath c) [] 0 (sc_file c)).
  split; [|split].
  - unfold NewCoordinatorAt. rewrite Htrim. destruct (String.eqb_spec (sc_storagePath c) ""); [done|]. by destruct (sc_file c).
  - intros [Hst Hid]%Hin. unfold Suspended, AcceptingWork. cbn [sc_rec]. by rewrite Hst.
  - intros Hst%Hout. unfold AcceptingWork. cbn [sc_rec]. by rewrite Hst.
Qed.

(** [n] leases come back, whose writes succeed. *)
Fixpoint drained_by (now : Z) (n : nat) (c : Coordinator) : Coordinator :=
  match n with
  | O => c
  | Datatypes.S n => drained_by now n (release_once now None c).1
  end.

Lemma persist_succeeds rec c : exists f, persistLocked None rec c = (c <| sc_file := f |>, None).
Proof. unfold persistLocked. case_match; [exists (sc_file c); by destruct c|eauto]. Qed.

(** The return of a lease while the suspension is being prepared. *)
Lemma release_one now n c :
  sr_State (sc_rec c) = StatePreparing -> sc_activeWork c = Z.of_nat n + 1 -> Z.of_nat n + 1 < 2 ^ 63 ->
  let c1 := (release_once now None c).1 in
  sr_State (sc_rec c1) = (if Z.of_nat n =? 0 then StateSuspended else StatePreparing)
  /\ sr_SuspensionID (sc_rec c1) = sr_SuspensionID (sc_rec c) /\ sc_activeWork c1 = Z.of_nat n.
Proof.
  intros Hst Ha Hn. unfold release_once. rewrite (proj2 (Z.ltb_lt 0 (sc_activeWork c))) by lia.
  set (c1 := c <| sc_activeWork := _ |>). cbv zeta.
  assert (sc_activeWork c1 = Z.of_nat n) as Ha1.
  { change (sub64 (sc_activeWork c) 1 = Z.of_nat n). unfold sub64. rewrite wrap64_id; unfold int64_range; lia. }
  rewrite Ha1. change (sc_rec c1) with (sc_rec c). rewrite Hst. destruct (Z.of_nat n =? 0); [|done].
  change (true && _) with true. cbv iota.
  destruct (persist_succeeds (((sc_rec c) <| sr_State := StateSuspended |>) <| sr_UpdatedAtMs := now |>) c1) as [f ->]. done.
Qed.

(** The leases of a suspension that is being prepared drain it. *)
Lemma preparing_drains now n c :
  sr_State (sc_rec c) = StatePreparing -> sc_activeWork c = Z.of_nat n + 1 -> Z.of_nat n + 1 < 2 ^ 63 ->
  let c' := drained_by now (Datatypes.S n) c in
  sr_State (sc_rec c') = StateSuspended /\ sr_SuspensionID (sc_rec c') = sr_SuspensionID (sc_rec c).
Proof.
  revert c. induction n as [|n IH]; intros c Hst Ha Hn; destruct (release_one now _ c Hst Ha Hn) as (H1 & H2 & H3); [done|].
  destruct (IH (release_once now None c).1) as [H4 H5]; [|lia..|].
  - rewrite H1. by rewrite (proj2 (Z.eqb_neq _ _)) by lia.
  - cbv zeta. change (drained_by now (Datatypes.S (Datatypes.S n)) c)
      with (drained_by now (Datatypes.S n) (release_once now None c).1). by rewrite H5.
Qed.

Lemma in_effect_closed c : in_effect (sc_rec c) -> AcceptingWork (Some c) = false.
Proof. unfold AcceptingWork. by intros [->| ->]. Qed.

(** Preparing from idle, and resuming by the identifier, when writes succeed. *)
Lemma prepare_succeeds now1 now2 reason c :
  sr_State (sc_rec c) = StateIdle ->
  exists c1, prepare now1 now2 None None reason c = (c1, (sc_rec c1, None))
  /\ sr_State (sc_rec c1) = (if 0 <? sc_activeWork c then StatePreparing else StateSuspended)
  /\ sr_SuspensionID (sc_rec c1) = suspension_id now1 (add64 (sc_seq c) 1) /\ sc_activeWork c1 = sc_activeWork c.
Proof.
  intros Hst. unfold prepare. rewrite Hst. cbv zeta. cbn [String.eqb orb negb].
  set (c0 := c <| sc_seq := _ |>). set (rec := mkSuspendRecord _ _ _ _ _).
  change (_ || _) with false. cbv iota. destruct (persist_succeeds rec c0) as [f ->].
  set (c1 := (c0 <| sc_file := f |>) <| sc_rec := rec |>). change (sc_activeWork c1) with (sc_activeWork c).
  destruct (0 <? sc_activeWork c); [by exists c1|].
  destruct (persist_succeeds ((rec <| sr_State := StateSuspended |>) <| sr_UpdatedAtMs := now2 |>) c1) as [f' ->]. by eexists.
Qed.

Lemma resume_succeeds now1 now2 c :
  in_effect (sc_rec c) -> blank (sr_SuspensionID (sc_rec c)) = false ->
  TrimSpace (sr_SuspensionID (sc_rec c)) = sr_SuspensionID (sc_rec c) ->
  exists c1, resume now1 now2 None None (sr_SuspensionID (sc_rec c)) c = (c1, (idle_record now2, None))
  /\ sc_rec c1 = idle_record now2.
Proof.
  intros He Hid Htrim. unfold resume. rewrite Htrim, String.eqb_refl, andb_false_r.
  replace ((sr_State (sc_rec c) !=? StateSuspended) && (sr_State (sc_rec c) !=? StatePreparing)) with false
    by (destruct He as [-> | ->]; reflexivity).
  cbv zeta. set (rec := (_ <| sr_State := _ |>) <| sr_UpdatedAtMs := _ |>). destruct (persist_succeeds rec c) as [f ->].
  set (c1 := (c <| sc_file := f |>) <| sc_rec := rec |>). destruct (persist_succeeds (idle_record now2) c1) as [f' ->]. by eexists.
Qed.

(** C31: A suspension runs its course: while it is in effect no work is admitted, a daemon
    that reports itself suspended has no work admitted before left, and when writes
    succeed, preparing from idle closes the gate under a new identifier, the return of
    the leases that are out suspends the daemon under it, and a resume that names it
    opens the gate again. *)
Theorem suspension_runs_its_course path s0 c n :
  suspend_start path s0 -> rtc suspend_step s0 (c, n) ->
  ActiveWork (Some c) = Z.of_nat n
  /\ (Suspended (Some c) = true -> n = 0%nat)
  /\ (in_effect (sc_rec c) -> BeginWork (Some c) = (Some c, Err ErrAdmissionClosed))
  /\ (AcceptingWork (Some c) = true -> forall now1 now2 reason now3 now4 now5,
      let '(c1, (rec, err)) := prepare now1 now2 None None reason c in
      let c2 := drained_by now3 n c1 in
      let '(c3, (rec3, err3)) := resume now4 now5 None None (sr_SuspensionID rec) c2 in
      err = None /\ sr_SuspensionID rec = suspension_id now1 (add64 (sc_seq c) 1) /\ AcceptingWork (Some c1) = false
      /\ Suspended (Some c2) = true /\ sr_SuspensionID (sc_rec c2) = sr_SuspensionID rec
      /\ err3 = None /\ AcceptingWork (Some c3) = true).
Proof.
  intros Hs Hr. destruct (reachable_ok _ _ _ Hs Hr) as (_ & Ha & Hn & Hd & _).
  split; [exact Ha|]. split; [unfold Suspended; intros Hst%String.eqb_eq; auto|].
  split; [intros He%in_effect_closed; unfold BeginWork, AcceptingWork in *; by rewrite He|].
  intros Hacc now1 now2 reason now3 now4 now5. unfold AcceptingWork in Hacc. apply String.eqb_eq in Hacc.
  destruct (prepare_succeeds now1 now2 reason c Hacc) as (c1 & -> & Hst1 & Hid1 & Ha1).
  assert (sr_State (sc_rec (drained_by now3 n c1)) = StateSuspended
    /\ sr_SuspensionID (sc_rec (drained_by now3 n c1)) = sr_SuspensionID (sc_rec c1)) as [Hst2 Hid2].
  { destruct n as [|n].
    - rewrite Ha in Hst1. done.
    - apply preparing_drains; [|lia..]. rewrite Hst1. by rewrite (proj2 (Z.ltb_lt _ _)) by lia. }
  cbv zeta. rewrite <- Hid2. destruct (resume_succeeds now4 now5 (drained_by now3 n c1)) as (c3 & -> & Hc3).
  { by right. }
  { rewrite Hid2, Hid1. apply suspension_id_not_blank. }
  { rewrite Hid2, Hid1. apply suspension_id_trimmed. }
  unfold Suspended, AcceptingWork. rewrite Hst1, Hst2, Hc3, Hid2. repeat split; try done. by destruct (0 <? _).
Qed.

(** ** Concrete histories *)

Definition started_at (path : string) : Coordinator := mkCoordinator (idle_record 0) 0 path [] 0 None.
Definition working : Coordinator := (started_at "l.json") <| sc_activeWork := 1 |>.
Definition held_back : Coordinator := (prepare 10 11 None None "upgrade" working).1.

Lemma started_starts : suspend_start "l.json" (started_at "l.json", 0%nat).
Proof. by exists (started_at "l.json"). Qed.
Lemma working_reached : rtc suspend_step (started_at "l.json", 0%nat) (working, 1%nat).
Proof. apply rtc_once. by refine (step_begin _ _ (mkLease true false) _ _ _). Qed.
Lemma held_back_reached : rtc suspend_step (started_at "l.json", 0%nat) (held_back, 1%nat).
Proof. eapply rtc_r; [exact working_reached|]. exact (step_prepare 10 11 None None "upgrade" working 1). Qed.

Lemma suspension_survives_crashes_witness :
  exists c', NewCoordinatorAt (sc_storagePath held_back) (reread (sc_file held_back)) = Ok c'
  /\ Suspended (Some c') = true /\ AcceptingWork (Some c') = false.
Proof.
  assert (sc_storagePath held_back <> "") as Hp by (vm_compute; discriminate).
  destruct (suspension_survives_crashes "l.json" _ held_back 1 started_starts held_back_reached Hp) as (c' & Hc & Hin & _).
  exists c'. split; [exact Hc|]. destruct Hin as (H1 & _ & H3); [left; vm_compute; reflexivity|]. split; [exact H1|exact H3].
Defined.

Lemma suspension_runs_its_course_witness :
  AcceptingWork (Some working) = true
  /\ let '(c1, (rec, err)) := prepare 10 11 None None "upgrade" working in
     Suspended (Some (drained_by 12 1 c1)) = true.
Proof.
  assert (AcceptingWork (Some working) = true) as Ha by (vm_compute; reflexivity). split; [exact Ha|].
  destruct (suspension_runs_its_course "l.json" _ working 1 started_starts working_reached) as (_ & _ & _ & H).
  exact (proj1 (proj2 (proj2 (proj2 (H Ha 10 11 "upgrade" 12 13 14))))).
Defined.

Definition disk_full : option error := Some (Errorf "disk full" []).

(** When the write of the last release fails, nothing is left to advance the suspension:
    preparing it again reports success without suspending. *)
Example failed_release_strands_the_suspension :
  let c := (release_once 12 disk_full held_back).1 in
  sc_activeWork c = 0 /\ sr_State (sc_rec c) = StatePreparing
  /\ prepare 20 21 None None "again" c = (c, (sc_rec c, None)).
Proof. vm_compute. by repeat split. Qed.

(** When the second write of a resume fails, the coordinator neither resumes nor prepares
    and its gate stays closed, although a new process would open it. *)
Example failed_resume_wedges_the_daemon :
  let c := (resume 20 21 None disk_full "" (prepare 10 11 None None "" (started_at "l.json")).1).1 in
  AcceptingWork (Some c) = false
  /\ is_Some (resume 30 31 None None "" c).2.2 /\ is_Some (prepare 30 31 None None "" c).2.2
  /\ sr_State (recovered (sc_file c)) = StateIdle.
Proof. vm_compute. repeat split; eauto. Qed.

(** A suspension that is still being prepared can be resumed while leases are out. *)
Example resume_before_drained :
  let c := (resume 20 21 None None "" held_back).1 in AcceptingWork (Some c) = true /\ sc_activeWork c = 1.
Proof. vm_compute. by split. Qed.

(** Without a storage path a crash ends the suspension. *)
Example suspension_in_memory_is_lost :
  let c := (prepare 10 11 None None "" (started_at "")).1 in
  Suspended (Some c) = true
  /\ exists c', NewCoordinatorAt (sc_storagePath c) (reread (sc_file c)) = Ok c' /\ AcceptingWork (Some c') = true.
Proof. vm_compute. split; [done|]. by eexists. Qed.

(** A turn is refused while the gate is closed, and gives its lease back when it runs. *)
Example turn_behind_the_gate :
  (withLease false 12 None (fun c => (c, Ok tt)) held_back).2 = Err ErrAdmissionClosed
  /\ (withLease true 12 None (fun c => (c, Ok tt)) held_back).2 = Ok tt
  /\ withLease false 12 None (fun c => (c, Ok (ActiveWork (Some c)))) (started_at "") = (started_at "", Ok 1).
Proof. vm_compute. by repeat split. Qed.
