(* ===== verification/TaskRunner.v ===== *)
(** The task runner of the daemon: cmd/metiqd/task_runner.go.

    The runner observes queued runs, executes each in a goroutine of its own and ends
    it by the verdict of the verification or of the budget.  Its table of active runs
    is guarded by a mutex; an operation on it is one critical section.  Everything it
    does to tasks and runs goes through the ledger, as sequences of ledger operations.

    The turn of the agent is an argument: it sees the ledger and the budget guard,
    which its tools share, and returns both as it leaves them with its result.  What
    the runner writes besides tasks and runs (transcripts, session telemetry, metrics,
    memory artifacts) is not modelled. *)

From Stdlib Require Import Ascii String.
From stdpp Require Import base tactics decidable list gmap strings pretty.
From S2P Require Import Prelude Identifiers Suspend Enums WorkflowModels Verification Budget TaskModels Lifecycle BudgetGuard Authority LedgerModels Ledger LedgerInvariant Duration Idempotency Sorting Usage BudgetControl Verifier VerificationGate Listing TaskService.

(** ** Which runs, for whom *)

Definition taskRunnerSourceAllowed (source : string) : bool :=
  go_switch source
    [([TaskSourceManual; TaskSourceWorkflow; TaskSourceCron; TaskSourceWebhook], true);
     ([TaskSourceACP], false)] false.

Definition taskRunnerSessionID (task : TaskSpec) (run : TaskRun) : string :=
  if TrimSpace (ts_SessionID task) !=? "" then TrimSpace (ts_SessionID task)
  else if TrimSpace (ts_TaskID task) !=? "" then "task:" +:+ TrimSpace (ts_TaskID task)
  else "task:" +:+ TrimSpace (tr_TaskID run).

Definition taskRunnerAgentID (task : TaskSpec) (run : TaskRun) : string :=
  let agentID := TrimSpace (tr_AgentID run) in
  defaultAgentID (if agentID ==? "" then TrimSpace (ts_AssignedAgent task) else agentID).

Definition taskRunnerTaskTerminal (status : string) : bool :=
  go_switch status [([TaskStatusCompleted; TaskStatusFailed; TaskStatusCancelled], true)] false.

Definition taskWorkflowStepType (task : TaskSpec) : string :=
  match map_read (ts_Meta task) !! "workflow_step_type" with
  | Some (VString raw) => TrimSpace raw
  | _ => ""
  end.

Record TraceContext := mkTraceContext {
  tc_GoalID : string;
  tc_TaskID : string;
  tc_RunID : string;
  tc_ParentTaskID : string;
  tc_ParentRunID : string
}.

Definition taskRunnerTraceContext (task : TaskSpec) (run : TaskRun) : TraceContext :=
  mkTraceContext (TrimSpace (ts_GoalID task)) (TrimSpace (ts_TaskID task)) (TrimSpace (tr_RunID run))
    (TrimSpace (ts_ParentTaskID task)) (TrimSpace (tr_ParentRunID run)).

Definition taskRunnerPromptContext (task : TaskSpec) : string :=
  let title := TrimSpace (ts_Title task) in
  let goalID := TrimSpace (ts_GoalID task) in
  let criteria := map (fun c => "- " +:+ TrimSpace (ac_Description c))
    (List.filter (fun c => TrimSpace (ac_Description c) !=? "") (ts_AcceptanceCriteria task)) in
  let parts := if title !=? "" then ["Task title: " +:+ title] else [] in
  let parts := parts ++ if goalID !=? "" then ["Goal ID: " +:+ goalID] else [] in
  let parts := parts ++
    if Nat.eqb (length criteria) 0 then []
    else ["Acceptance criteria:" +:+ newline +:+ String.concat newline criteria] in
  String.concat (newline +:+ newline) parts.

Record QueuedRun := mkQueuedRun {
  qr_Task : TaskSpec;
  qr_Run : TaskRun;
  qr_Source : string;
  qr_SourceRef : string;
  qr_SessionID : string;
  qr_AgentID : string
}.

(** ** The table of active runs *)

Record ActiveRun := mkActiveRun {
  av_RunID : string;
  av_TaskID : string;
  av_SessionID : string
}.

(** The table, the counter of the wait group, the flag, and the cancellations issued
    so far, of a run and its cause, latest last. *)
Record taskRunner := mkTaskRunner {
  kr_active : gmap string ActiveRun;
  kr_activeWG : Z;
  kr_shuttingDown : bool;
  kr_cancelled : list (string * string)
}.

Definition errTaskRunnerShutdown : string := "task runner shutdown".
Definition errTaskRunCancelled : string := "task run cancelled".

(** The answer of [beginActiveRun]: it is refused, with the cause its context is
    cancelled for if it got that far, or the run is active. *)
Definition beginActiveRun (queued : QueuedRun) (r : taskRunner) : taskRunner * bool :=
  let runID := TrimSpace (tr_RunID (qr_Run queued)) in
  if runID ==? "" then (r, false)
  else if kr_shuttingDown r then (r, false)
  else match kr_active r !! runID with
  | Some _ => (r, false)
  | None =>
    (mkTaskRunner
       (<[runID := mkActiveRun runID (TrimSpace (ts_TaskID (qr_Task queued))) (TrimSpace (qr_SessionID queued))]>
          (kr_active r))
       (kr_activeWG r + 1) (kr_shuttingDown r) (kr_cancelled r), true)
  end.

(** The closure that ends the active run [runID]. *)
Definition finishActive (runID : string) (r : taskRunner) : taskRunner :=
  mkTaskRunner (delete runID (kr_active r)) (kr_activeWG r - 1) (kr_shuttingDown r) (kr_cancelled r).

Definition cancelActiveRun (runID cause : string) (r : taskRunner) : taskRunner * bool :=
  let runID := TrimSpace runID in
  if runID ==? "" then (r, false)
  else
    let cause := if cause ==? "" then errTaskRunCancelled else cause in
    match kr_active r !! runID with
    | None => (r, false)
    | Some active =>
      (mkTaskRunner (kr_active r) (kr_activeWG r) (kr_shuttingDown r) (kr_cancelled r ++ [(av_RunID active, cause)]), true)
    end.

(** The first critical section of [Shutdown], with the runs it then cancels. *)
Definition beginShutdown (r : taskRunner) : taskRunner * list ActiveRun :=
  (mkTaskRunner (kr_active r) (kr_activeWG r) true (kr_cancelled r), map snd (map_to_list (kr_active r))).

(** The tasks of the runs, without duplicates. *)
Definition cancelledTasks (active : list ActiveRun) : gset string :=
  list_to_set (List.filter (fun id => id !=? "") (map (fun a => TrimSpace (av_TaskID a)) active)).

Definition cancelAll (active : list ActiveRun) (r : taskRunner) : taskRunner :=
  mkTaskRunner (kr_active r) (kr_activeWG r) (kr_shuttingDown r)
    (kr_cancelled r ++ map (fun a => (av_RunID a, errTaskRunnerShutdown)) active).

(** [activeWG.Wait()] returns. *)
Definition drained (r : taskRunner) : bool := kr_activeWG r =? 0.

(** ** Budgets *)

Definition taskRunnerBudgetStatuses (action : string) : string * string :=
  go_switch action
    [([ActionFail], (TaskRunStatusFailed, TaskStatusFailed));
     ([ActionEscalate], (TaskRunStatusAwaitingApproval, TaskStatusAwaitingApproval));
     ([ActionBlock; ActionReplan; ActionFallback], (TaskRunStatusBlocked, TaskStatusBlocked))]
    (TaskRunStatusFailed, TaskStatusFailed).

Definition taskRunnerBudgetOutcomeReason (event : ExhaustionEvent) : string :=
  let parts := ["budget exhausted"] in
  let parts := parts ++ if eh_Action event !=? "" then ["action=" +:+ eh_Action event] else [] in
  let parts := parts ++ if Nat.eqb (length (eh_Reasons event)) 0 then []
                        else ["reasons=" +:+ String.concat "," (eh_Reasons event)] in
  let parts := parts ++ if eh_ActionReason event !=? "" then [eh_ActionReason event] else [] in
  String.concat ": " parts.

Definition taskRunnerBudgetExceededError (reasons : list string) : error :=
  let reason := String.concat ", " reasons in
  Errorf "budget exhausted: %s" [ArgS (if reason ==? "" then "budget exceeded" else reason)].

(** A tool call through the guard: it is refused when its reservation is, and otherwise
    passed on. *)
Definition budget_tool_execute {A} (base : A) (guard : option BudgetGuard)
  : option BudgetGuard * result A :=
  match BudgetGuard_TryReserveUsage (mkTaskUsage 0 0 0 0 1 0 0) guard with
  | (guard, (_, true)) => (guard, Ok base)
  | (guard, (exceeded, false)) => (guard, Err (taskRunnerBudgetExceededError (BudgetExceeded_Reasons exceeded)))
  end.

(** [wrapTaskBudgetToolExecutor]: a task without a budget uses its tools as they are. *)
Definition wrapTaskBudgetToolExecutor {A} (base : A) (guard : option BudgetGuard) : option BudgetGuard * result A :=
  if match guard with None => true | Some _ => TaskBudget_IsZero (BudgetGuard_Budget guard) end
  then (guard, Ok base)
  else budget_tool_execute base guard.

(** ** Results of turns *)

Record ToolTrace := mkToolTrace {
  tx_CallID : string;
  tx_Name : string;
  tx_Args : gomap any;
  tx_Result : string;
  tx_Error : string
}.

Record TurnResult := mkTurnResult {
  tn_Text : string;
  tn_ToolTraces : list ToolTrace;
  tn_InputTokens : Z;
  tn_OutputTokens : Z
}.

Definition zero_turn : TurnResult := mkTurnResult "" [] 0 0.

(** [elapsed] is the time since the start in milliseconds, if it has one. *)
Definition taskRunnerUsage (result : TurnResult) (elapsed : option Z) : TaskUsage :=
  mkTaskUsage (tn_InputTokens result) (tn_OutputTokens result)
    (add64 (tn_InputTokens result) (tn_OutputTokens result)) (default 0 elapsed) 0 0 0.

(** The results of tools by call identifier; a missing one is made up from the index,
    and of two calls with one identifier the later one stays. *)
Fixpoint tool_results_from (i : Z) (traces : list ToolTrace) (m : gmap string ToolCallResult)
  : gmap string ToolCallResult :=
  match traces with
  | [] => m
  | t :: traces =>
    let callID := TrimSpace (tx_CallID t) in
    let callID := if callID ==? "" then "tool-" +:+ pretty i else callID in
    tool_results_from (i + 1) traces
      (<[callID := mkToolCallResult (tx_Name t) (tx_Args t) (tx_Result t) (tx_Error t) 0]> m)
  end.

(** [parse] is [json.Unmarshal] of an object. *)
Definition taskRunnerVerificationOutputs (parse : string -> option (gmap string any)) (result : TurnResult) : TaskOutputs :=
  let raw := TrimSpace (tn_Text result) in
  mkTaskOutputs raw (if HasPrefix raw "{" then parse raw else None) []
    (clone_map (Some (tool_results_from 1 (tn_ToolTraces result) ∅))).

Definition taskRunnerVerificationMeta (meta : gomap any) (status : string) (execution : VerificationExecution)
  : gmap string any :=
  let out := <["verification_status" := VString status]> (map_read meta) in
  let out := <["verification_summary" := VString (rx_Summary (vx_RuntimeResult execution))]> out in
  let out := <["verification_gate" := VString (gr_Decision (vx_Gate execution))]> out in
  let out := <["verification_failed_checks" := VStrings (gr_FailedChecks (vx_Gate execution))]> out in
  let out := <["verification_policy" := VString (vs_Policy (rx_UpdatedSpec (vx_RuntimeResult execution)))]> out in
  <["verification_checked_at" := VInt64 (vy_VerifiedAt (vx_Summary execution))]> out.

(** ** Ending runs *)

(** The text a nested value of the metadata stands for. *)
Class Encoding := { usage_text : TaskUsage -> string; budget_text : TaskBudget -> string }.

Definition taskRunnerBudgetMeta `{Encoding} (meta : gomap any) (event : ExhaustionEvent) : gmap string any :=
  let out := <["budget_exhausted" := VBool true]> (map_read meta) in
  let out := <["budget_event_id" := VString (eh_EventID event)]> out in
  let out := <["budget_action" := VString (eh_Action event)]> out in
  let out := <["budget_action_reason" := VString (eh_ActionReason event)]> out in
  let out := <["budget_reasons" := VStrings (eh_Reasons event)]> out in
  let out := <["budget_usage" := VComposite (usage_text (eh_Usage event))]> out in
  <["budget_limit" := VComposite (budget_text (eh_Budget event))]> out.

(** What a verification pass needs besides the task: the runtime, how objects are
    parsed, and the clocks and durations it reads. *)
Record Verifying := mkVerifying {
  vf_runtime : VerifierRuntime;
  vf_parse : string -> option (gmap string any);
  vf_time : Z;
  vf_duration : Z;
  vf_durations : nat -> Z
}.

Section Runner.
Context {S : Type} `{Store S} `{ListingStore S} `{Encoding}.

(** [if err { log }]: the operation's effect, its result dropped. *)
Definition logged {A} (m : Ledger S -> Ledger S * result A) (l : Ledger S) : Ledger S := (m l).1.

Definition update_run_if_allowed (clock : Z) (runID status to actor reason : string)
  : Ledger S -> Ledger S * result (option RunEntry) :=
  if (status !=? to) && AllowedTaskRunTransition status to
  then let* entry := UpdateRunStatus (unix clock) runID to actor "task_runner" reason in return_ (Some entry)
  else return_ None.

Definition update_task_if_allowed (clock : Z) (taskID status to actor reason : string)
  : Ledger S -> Ledger S * result (option LedgerEntry) :=
  if (status !=? to) && AllowedTaskTransition status to
  then let* entry := UpdateTaskStatus (unix clock) taskID to actor "task_runner" reason in return_ (Some entry)
  else return_ None.

(** The first part of a verified finish: the result is saved, and run and task go to
    verifying where they may; the task and the run to verify. *)
Definition enter_verification (clock : Z) (queued : QueuedRun) (resultRef : TaskResultRef) (usage : TaskUsage)
    (actor : string) : Ledger S -> Ledger S * result (TaskSpec * TaskRun) :=
  let* runEntry := GetRun (tr_RunID (qr_Run queued)) in
  let run := TaskRun_Normalize (re_Run runEntry) in
  let run := ((run <| tr_Result := resultRef |>) <| tr_Usage := usage |>) <| tr_Error := "" |> in
  let* _ := SaveRunState (unix clock) run (re_Source runEntry) (re_SourceRef runEntry) in
  let* moved := update_run_if_allowed clock (tr_RunID run) (tr_Status run) TaskRunStatusVerifying actor
                  "task run output ready for verification" in
  let run := match moved with Some entry => TaskRun_Normalize (re_Run entry) | None => run end in
  let* taskEntry := GetTask (ts_TaskID (qr_Task queued)) in
  let task := TaskSpec_Normalize (le_Task taskEntry) in
  let* moved := update_task_if_allowed clock (ts_TaskID task) (ts_Status task) TaskStatusVerifying actor
                  "task output ready for verification" in
  return_ (match moved with Some entry => TaskSpec_Normalize (le_Task entry) | None => task end, run).

(** The statuses, the mark and the reason a verdict leads to. *)
Definition verdict_status_mark (g : GateResult) : string := if GateResult_Allowed g then "passed" else "failed".
Definition verdict_run_status (g : GateResult) : string :=
  if GateResult_Allowed g then TaskRunStatusCompleted else TaskRunStatusFailed.
Definition verdict_task_status (g : GateResult) : string :=
  if GateResult_Allowed g then TaskStatusCompleted else TaskStatusFailed.
Definition verdict_reason (g : GateResult) : string :=
  if negb (GateResult_Allowed g) && (gr_Reason g ==? "") then "verification failed" else gr_Reason g.

(** The second part: the verdict is recorded in the run and in the task. *)
Definition record_verdict (clock : Z) (queued : QueuedRun) (resultRef : TaskResultRef) (usage : TaskUsage)
    (historyEntryIDs : list string) (x : VerificationExecution)
  : Ledger S -> Ledger S * result (TaskSpec * TaskRun) :=
  let updated := VerificationSpec_Normalize (rx_UpdatedSpec (vx_RuntimeResult x)) in
  let mark := verdict_status_mark (vx_Gate x) in
  let* runEntry := GetRun (tr_RunID (qr_Run queued)) in
  let run := TaskRun_Normalize (re_Run runEntry) in
  let run := ((run <| tr_Result := resultRef |>) <| tr_Usage := usage |>) <| tr_Verification := updated |> in
  let run := run <| tr_Meta := Some (taskRunnerVerificationMeta (tr_Meta run) mark x) |> in
  let run := if verdict_run_status (vx_Gate x) ==? TaskRunStatusFailed
             then run <| tr_Error := verdict_reason (vx_Gate x) |> else run in
  let* _ := SaveRunState (unix clock) run (re_Source runEntry) (re_SourceRef runEntry) in
  let* taskEntry := GetTask (ts_TaskID (qr_Task queued)) in
  let task := (TaskSpec_Normalize (le_Task taskEntry)) <| ts_Verification := updated |> in
  let meta := taskRunnerVerificationMeta (ts_Meta task) mark x in
  let meta := match historyEntryIDs with
              | [] => meta
              | _ => <["result_history_entry_id" := VString (List.last historyEntryIDs "")]> meta
              end in
  let task := task <| ts_Meta := Some meta |> in
  let* _ := SaveTaskState (unix clock) task (le_Source taskEntry) (le_SourceRef taskEntry) in
  return_ (task, run).

Definition actor_of (agentID : string) : string :=
  if TrimSpace agentID ==? "" then "task_runner" else TrimSpace agentID.

Definition verify_outputs (v : Verifying) (clock : Z) (task : TaskSpec) (run : TaskRun) (result : TurnResult)
    (actor : string) : VerificationExecution :=
  Verification_Execute (vf_runtime v) task run (taskRunnerVerificationOutputs (vf_parse v) result) actor
    (unix clock) (vf_time v) (vf_duration v) (vf_durations v).

Definition finishVerifiedQueuedRun (v : Verifying) (clock : Z) (queued : QueuedRun) (result : TurnResult)
    (resultRef : TaskResultRef) (usage : TaskUsage) (historyEntryIDs : list string)
  : Ledger S -> Ledger S * Prelude.result unit :=
  let actor := actor_of (qr_AgentID queued) in
  let* (task, run) := enter_verification clock queued resultRef usage actor in
  let x := verify_outputs v clock task run result actor in
  let reason := verdict_reason (vx_Gate x) in
  let* (task, run) := record_verdict clock queued resultRef usage historyEntryIDs x in
  let* _ := update_run_if_allowed clock (tr_RunID run) (tr_Status run) (verdict_run_status (vx_Gate x)) actor reason in
  let* _ := update_task_if_allowed clock (ts_TaskID task) (ts_Status task) (verdict_task_status (vx_Gate x)) actor reason in
  let* taskEntry := GetTask (ts_TaskID (qr_Task queued)) in
  let task := TaskSpec_Normalize (le_Task taskEntry) in
  let task := ((task <| ts_CurrentRunID := "" |>) <| ts_LastRunID := tr_RunID (qr_Run queued) |>)
                <| ts_UpdatedAt := unix clock |> in
  let* _ := SaveTaskState (unix clock) task (le_Source taskEntry) (le_SourceRef taskEntry) in
  return_ tt.

(** ** Exhausted budgets *)

Definition apply_budget_outcome (clock : Z) (queued : QueuedRun) (event : ExhaustionEvent) (usage : TaskUsage)
  : Ledger S -> Ledger S * result unit :=
  let actor := if blank (qr_AgentID queued) then "task_runner" else qr_AgentID queued in
  let reason := taskRunnerBudgetOutcomeReason event in
  let* runEntry := GetRun (tr_RunID (qr_Run queued)) in
  let run := TaskRun_Normalize (re_Run runEntry) in
  let run := ((run <| tr_Usage := usage |>) <| tr_Error := reason |>)
               <| tr_Meta := Some (taskRunnerBudgetMeta (tr_Meta run) event) |> in
  let* _ := SaveRunState (unix clock) run (re_Source runEntry) (re_SourceRef runEntry) in
  let '(targetRun, targetTask) := taskRunnerBudgetStatuses (eh_Action event) in
  let* _ := update_run_if_allowed clock (tr_RunID run) (tr_Status run) targetRun actor reason in
  let* taskEntry := GetTask (ts_TaskID (qr_Task queued)) in
  let task := TaskSpec_Normalize (le_Task taskEntry) in
  let task := task <| ts_Meta := Some (taskRunnerBudgetMeta (ts_Meta task) event) |> in
  let task := if targetRun ==? TaskRunStatusFailed
              then (task <| ts_CurrentRunID := "" |>) <| ts_LastRunID := tr_RunID run |>
              else if blank (ts_CurrentRunID task) then task <| ts_CurrentRunID := tr_RunID run |> else task in
  let* _ := SaveTaskState (unix clock) task (le_Source taskEntry) (le_SourceRef taskEntry) in
  if (ts_Status task !=? targetTask) && AllowedTaskTransition (ts_Status task) targetTask
  then let* _ := UpdateTaskStatusWithMeta (unix clock) (ts_TaskID task) targetTask actor "task_runner" reason
                   (Some {["budget_action" := VString (eh_Action event); "budget_event_id" := VString (eh_EventID event)]}) in
       return_ tt
  else return_ tt.

Definition applyBudgetOutcome (clock : Z) (queued : QueuedRun) (event : ExhaustionEvent) (usage : TaskUsage)
  : Ledger S -> Ledger S := logged (apply_budget_outcome clock queued event usage).

(** [budgetGuardForRun]: the guard counts the runs of the task that [ListRuns] finds. *)
Definition budgetGuardForRun (task : TaskSpec) (run : TaskRun) (l : Ledger S)
  : Ledger S * option (result (option BudgetGuard)) :=
  match ListRuns (mkListRunsOptions (tr_TaskID run) [] "" 1000 0 "" false false) l with
  | (l, Some (Ok runs)) =>
    (l, Some (Ok (Some (NewBudgetGuard task run (map (fun e => TaskRun_Normalize (re_Run e)) runs)))))
  | (l, Some (Err e)) => (l, Some (Err e))
  | (l, None) => (l, None)
  end.

(** ** One run *)

(** The end of a turn: its usage goes to the guard, an exhausted budget decides before
    the error of the turn, and both before the verification.  [error_text] is the text
    of the error of the turn. *)
Definition finishQueuedRun (v : Verifying) (clock : Z) (queued : QueuedRun) (result : TurnResult)
    (turnErr : option string) (elapsed : option Z) (historyEntryIDs : list string) (guard : option BudgetGuard)
    (l : Ledger S) : Ledger S :=
  let usage := taskRunnerUsage result elapsed in
  let current := BudgetGuard_CurrentUsage guard in
  let usage := match guard with
               | None => usage
               | Some _ => mkTaskUsage (tu_PromptTokens usage) (tu_CompletionTokens usage) (tu_TotalTokens usage)
                             (tu_WallClockMS usage) (tu_ToolCalls current) (tu_Delegations current)
                             (tu_CostMicrosUSD current)
               end in
  let guard := BudgetGuard_SetCurrentUsage usage guard in
  let resultRef := match historyEntryIDs with
                   | [] => mkTaskResultRef "task_run" (tr_RunID (qr_Run queued)) "" ""
                   | _ => mkTaskResultRef "transcript_entry" (List.last historyEntryIDs "") "" ""
                   end in
  match taskRunnerBudgetEventFromExceeded guard (BudgetGuard_Check guard) (qr_Task queued) (unix clock) with
  | Some event => applyBudgetOutcome clock queued event usage l
  | None =>
    match turnErr with
    | None => logged (finishVerifiedQueuedRun v clock queued result resultRef usage historyEntryIDs) l
    | Some _ =>
      logged (FinishWorkerRun clock (ts_TaskID (qr_Task queued)) (tr_RunID (qr_Run queued)) resultRef usage
                (qr_AgentID queued) turnErr historyEntryIDs) l
    end
  end.

(** What the agent does in a turn: the ledger and the guard as it leaves them, its
    result, the text of its error if it fails, the identifiers of the history entries
    that were persisted, and how long it took. *)
Record Turn := mkTurn {
  tu_ledger : Ledger S;
  tu_guard : option BudgetGuard;
  tu_result : TurnResult;
  tu_error : option string;
  tu_history : list string;
  tu_elapsed : Z
}.

(** The surroundings of an execution: the verification, the clock, whether the turn of
    the session could be acquired, and the agent, if its runtime exists. *)
Record Surroundings := mkSurroundings {
  su_verifying : Verifying;
  su_clock : Z;
  su_acquire : option string;
  su_agent : option (QueuedRun -> Ledger S -> option BudgetGuard -> Turn)
}.

(** Once the run has been set going. *)
Definition run_turn (env : Surroundings) (queued : QueuedRun) (guard : option BudgetGuard) (l : Ledger S) : Ledger S :=
  match su_agent env with
  | None =>
    finishQueuedRun (su_verifying env) (su_clock env) queued zero_turn
      (Some ("no runtime for agent " +:+ qr_AgentID queued)) (Some 0) [] guard l
  | Some agent =>
    let turn := agent queued l guard in
    finishQueuedRun (su_verifying env) (su_clock env) queued (tu_result turn) (tu_error turn)
      (Some (tu_elapsed turn)) (tu_history turn) (tu_guard turn) (tu_ledger turn)
  end.

Definition set_going (env : Surroundings) (queued : QueuedRun) (guard : option BudgetGuard) (l : Ledger S) : Ledger S :=
  let now := unix (su_clock env) in
  match UpdateRunStatus now (tr_RunID (qr_Run queued)) TaskRunStatusRunning (qr_AgentID queued) "task_runner"
          "queued task run started" l with
  | (l, Err _) => l
  | (l, Ok _) =>
    let l := logged (update_task_if_allowed (su_clock env) (ts_TaskID (qr_Task queued)) (ts_Status (qr_Task queued))
                       TaskStatusInProgress (qr_AgentID queued) "queued task run started") l in
    run_turn env queued guard l
  end.

(** The execution of a queued run that has become active. *)
Definition execute_active (quote : string -> string) (env : Surroundings) (queued : QueuedRun) (l : Ledger S) : Ledger S :=
  match GetRun (tr_RunID (qr_Run queued)) l with
  | (l, Err _) => l
  | (l, Ok freshRun) =>
  match GetTask (tr_TaskID (re_Run freshRun)) l with
  | (l, Err _) => l
  | (l, Ok freshTask) =>
    let run := TaskRun_Normalize (re_Run freshRun) in
    let task := TaskSpec_Normalize (le_Task freshTask) in
    let agentID := if (qr_AgentID queued ==? "") || (qr_AgentID queued ==? defaultAgentID "")
                   then taskRunnerAgentID task run else qr_AgentID queued in
    let queued := mkQueuedRun task run (qr_Source queued) (qr_SourceRef queued) (qr_SessionID queued) agentID in
    if (tr_Status run !=? TaskRunStatusQueued) || taskRunnerTaskTerminal (ts_Status task) then l
    else
    match budgetGuardForRun task run l with
    | (l, None) => l
    | (l, Some (Err e)) =>
      finishQueuedRun (su_verifying env) (su_clock env) queued zero_turn (Some (error_text quote e)) (Some 0) [] None l
    | (l, Some (Ok guard)) =>
      match taskRunnerBudgetEventFromExceeded guard (BudgetGuard_Check guard) task (unix (su_clock env)) with
      | Some event => applyBudgetOutcome (su_clock env) queued event (tr_Usage run) l
      | None =>
        match su_acquire env with
        | Some err =>
          finishQueuedRun (su_verifying env) (su_clock env) queued zero_turn (Some err) (Some 0) [] guard l
        | None => set_going env queued guard l
        end
      end
    end
  end
  end.

(** [executeQueuedRun], between its two critical sections on the table. *)
Definition executeQueuedRun (quote : string -> string) (env : Surroundings) (queued : QueuedRun)
    (r : taskRunner) (l : Ledger S) : taskRunner * Ledger S :=
  let task := TaskSpec_Normalize (qr_Task queued) in
  let run := TaskRun_Normalize (qr_Run queued) in
  let sessionID := TrimSpace (qr_SessionID queued) in
  let sessionID := if sessionID ==? "" then taskRunnerSessionID task run else sessionID in
  let queued := mkQueuedRun task run (qr_Source queued) (qr_SourceRef queued) sessionID
                  (defaultAgentID (qr_AgentID queued)) in
  match beginActiveRun queued r with
  | (r, false) => (r, l)
  | (r, true) => (finishActive (TrimSpace (tr_RunID run)) r, execute_active quote env queued l)
  end.

(** ** Observing queued runs *)

Definition prepareQueuedRun (entry : RunEntry) (l : Ledger S) : Ledger S * option QueuedRun :=
  let run := TaskRun_Normalize (re_Run entry) in
  if blank (tr_RunID run) || blank (tr_TaskID run) then (l, None)
  else if tr_Status run !=? TaskRunStatusQueued then (l, None)
  else if negb (taskRunnerSourceAllowed (re_Source entry)) then (l, None)
  else match GetTask (tr_TaskID run) l with
  | (l, Err _) => (l, None)
  | (l, Ok taskEntry) =>
    let task := TaskSpec_Normalize (le_Task taskEntry) in
    if (taskWorkflowStepType task !=? "") && (taskWorkflowStepType task !=? StepTypeAgentTurn) then (l, None)
    else (l, Some (mkQueuedRun task run (re_Source entry) (re_SourceRef entry)
                     (taskRunnerSessionID task run) (taskRunnerAgentID task run)))
  end.

(** A run handed to the executor holds a lease of the suspend coordinator; while the
    gate is closed it is left queued. *)
Definition observeQueuedRun (entry : RunEntry) (c : option Coordinator) (l : Ledger S)
  : option Coordinator * Ledger S * option (QueuedRun * Lease) :=
  match prepareQueuedRun entry l with
  | (l, None) => (c, l, None)
  | (l, Some queued) =>
    match BeginWork c with
    | (c, Err _) => (c, l, None)
    | (c, Ok lease) => (c, l, Some (queued, lease))
    end
  end.

(** What an event of the ledger makes the runner do: cancel an active run, or hand a
    queued one to the executor. *)
Definition on_event (e : Event) (r : taskRunner) (c : option Coordinator) (l : Ledger S)
  : taskRunner * (option Coordinator * Ledger S * option (QueuedRun * Lease)) :=
  match e with
  | OnTaskCreated _ | OnTaskUpdated _ _ => (r, (c, l, None))
  | OnRunCreated entry => (r, observeQueuedRun entry c l)
  | OnRunUpdated entry transition =>
    if rt_To transition ==? TaskRunStatusCancelled
    then ((cancelActiveRun (tr_RunID (re_Run entry)) errTaskRunCancelled r).1, (c, l, None))
    else if rt_To transition !=? TaskRunStatusQueued then (r, (c, l, None))
    else (r, observeQueuedRun entry c l)
  end.

(** [ResumeQueued], over the runs the listing returns. *)
Fixpoint observe_all (entries : list RunEntry) (c : option Coordinator) (l : Ledger S)
  : option Coordinator * Ledger S * list (QueuedRun * Lease) :=
  match entries with
  | [] => (c, l, [])
  | e :: entries =>
    let '(c, l, q) := observeQueuedRun e c l in
    let '(c, l, qs) := observe_all entries c l in
    (c, l, option_list q ++ qs)
  end.

Definition ResumeQueued (c : option Coordinator) (l : Ledger S)
  : option Coordinator * Ledger S * option (result (list (QueuedRun * Lease))) :=
  match ListRuns (mkListRunsOptions "" [TaskRunStatusQueued] "" 1000 0 "" false false) l with
  | (l, Some (Ok entries)) => let '(c, l, qs) := observe_all entries c l in (c, l, Some (Ok qs))
  | (l, Some (Err e)) => (c, l, Some (Err e))
  | (l, None) => (c, l, None)
  end.

(** The execution of a run that holds a lease, which it gives back however it ends. *)
Definition execute_admitted (quote : string -> string) (env : Surroundings) (now : Z) (io : option error)
    (queued : QueuedRun) (lease : Lease) (r : taskRunner) (c : Coordinator) (l : Ledger S)
  : taskRunner * Coordinator * Ledger S :=
  let '(r, l) := executeQueuedRun quote env queued r l in
  let '(_, c, _) := Release now io lease c in
  (r, c, l).

(** [gateway.suspend.resume]: the coordinator resumes, and the runs that wait are
    observed again. *)
Definition resume_daemon (now1 now2 : Z) (io1 io2 : option error) (suspensionID : string)
    (c : option Coordinator) (l : Ledger S)
  : option Coordinator * Ledger S * option (result (list (QueuedRun * Lease))) :=
  match Resume now1 now2 io1 io2 suspensionID c with
  | (c, (_, Some e)) => (c, l, Some (Err e))
  | (c, (_, None)) => ResumeQueued c l
  end.

(** [Shutdown] up to the wait: the tasks of the active runs are cancelled in the ledger,
    then the runs themselves. *)
Definition Shutdown (clock : Z) (r : taskRunner) (l : Ledger S) : taskRunner * Ledger S :=
  let '(r, active) := beginShutdown r in
  let l := fold_left (fun l taskID =>
             (Service_CancelTask clock taskID "task_runner" "daemon shutdown cancelled active task run" l).1)
             (elements (cancelledTasks active)) l in
  (cancelAll active r, l).
End Runner.
