(* ===== verification/TaskRunnerProps.v ===== *)
(** What the task runner guarantees: its table of active runs is exclusive, a verified run
    ends by the verdict of its gate, and queued runs wait behind the gate of the suspend
    coordinator. *)

From Stdlib Require Import Ascii String.
From stdpp Require Import base tactics decidable list gmap strings pretty relations.
From S2P Require Import Prelude Identifiers Suspend SuspendProps Enums WorkflowModels Verification Budget TaskModels Lifecycle BudgetGuard Authority LedgerModels Ledger LedgerInvariant LedgerProps Duration Idempotency Sorting Usage BudgetControl Verifier VerificationGate VerifierProps Listing FileStore FileStoreProps TaskService TaskServiceProps TaskRunner.

(** ** Active runs *)

(** The runner together with the executions under way, by run identifier.  An execution
    lasts from a granted [beginActiveRun] to its [finishActive]. *)
Inductive runner_step : taskRunner * list string -> taskRunner * list string -> Prop :=
  | step_begin queued r r' ex :
      beginActiveRun queued r = (r', true) -> runner_step (r, ex) (r', TrimSpace (tr_RunID (qr_Run queued)) :: ex)
  | step_refused queued r r' ex :
      beginActiveRun queued r = (r', false) -> runner_step (r, ex) (r', ex)
  | step_finish r ex1 id ex2 : runner_step (r, ex1 ++ id :: ex2) (finishActive id r, ex1 ++ ex2)
  | step_cancel runID cause r ex : runner_step (r, ex) ((cancelActiveRun runID cause r).1, ex)
  | step_shutdown r ex : runner_step (r, ex) ((beginShutdown r).1, ex)
  | step_cancel_all active r ex : runner_step (r, ex) (cancelAll active r, ex).

Definition idle_runner : taskRunner := mkTaskRunner ∅ 0 false [].

(** The table lists the executions, each once, and the wait group counts them. *)
Definition table_ok (s : taskRunner * list string) : Prop :=
  let '(r, ex) := s in
  NoDup ex /\ (forall id, is_Some (kr_active r !! id) <-> id ∈ ex) /\ kr_activeWG r = Z.of_nat (length ex).

Lemma runner_step_ok s s' : runner_step s s' -> table_ok s -> table_ok s'.
Proof.
  intros Hs. destruct Hs as [queued r r' ex Hb|queued r r' ex Hb|r ex1 id ex2|runID cause r ex|r ex|active r ex];
    cbn [table_ok]; intros (Hnd & Hdom & Hwg).
  - unfold beginActiveRun in Hb. set (id := TrimSpace (tr_RunID (qr_Run queued))) in *.
    destruct (id ==? ""); [done|]. destruct (kr_shuttingDown r); [done|].
    destruct (kr_active r !! id) as [a|] eqn:E; [done|]. injection Hb as <-. cbn [kr_active kr_activeWG].
    assert (id ∉ ex) as Hnew by (rewrite <- Hdom, E; by intros [? ?]).
    split; [by constructor|]. split; [|rewrite Hwg; cbn; lia].
    intros k. rewrite lookup_insert_is_Some, elem_of_cons, Hdom. split; [|intros [->|]; [by left|]].
    + intros [->|[_ ?]]; auto.
    + destruct (decide (id = k)); auto.
  - unfold beginActiveRun in Hb. repeat case_match; by injection Hb as <-.
  - cbn [kr_active kr_activeWG finishActive].
    assert (ex1 ++ id :: ex2 ≡ₚ id :: (ex1 ++ ex2)) as Hp by by rewrite Permutation_middle.
    rewrite Hp in Hnd. apply NoDup_cons in Hnd as [Hnew Hnd]. split; [done|]. split.
    + intros k. rewrite lookup_delete_is_Some, Hdom, Hp, elem_of_cons. split; [by intros [? [->|]]|].
      intros Hin. split; [|by right]. by intros ->.
    + rewrite Hwg, Hp. cbn. lia.
  - unfold cancelActiveRun. destruct (TrimSpace runID ==? ""); [done|].
    by destruct (kr_active r !! TrimSpace runID).
  - done.
  - done.
Qed.

(** C29: At any moment a run has at most one execution: the table of active runs lists
    exactly the executions under way, the wait of [Shutdown] is over exactly when
    there are none, and after [Shutdown] no new one begins. *)
Theorem active_runs_are_exclusive r ex :
  rtc runner_step (idle_runner, []) (r, ex) ->
  NoDup ex /\ (forall id, is_Some (kr_active r !! id) <-> id ∈ ex)
  /\ (drained r = true <-> ex = [])
  /\ (kr_shuttingDown r = true -> forall queued, beginActiveRun queued r = (r, false)).
Proof.
  intros Hr. assert (table_ok (r, ex)) as (Hnd & Hdom & Hwg).
  { assert (table_ok (idle_runner, [])) as H0.
    { split; [constructor|]. split; [|done]. intros id. cbn. rewrite lookup_empty, elem_of_nil. by split; [intros []|]. }
    revert H0. induction Hr as [|s1 s2 s3 Hs _ IH]; [done|]. intros H0. apply IH. by eapply runner_step_ok. }
  split; [done|]. split; [done|]. split.
  - unfold drained. rewrite Hwg, Z.eqb_eq. destruct ex; cbn; [done|]. split; [lia|done].
  - intros Hs queued. unfold beginActiveRun. rewrite Hs. by destruct (TrimSpace _ ==? "").
Qed.

(** Two runs, the first of which ends after the shutdown. *)
Definition queued_of (runID : string) : QueuedRun :=
  mkQueuedRun sample_task (zero_run <| tr_RunID := runID |>) "manual" "" "s" "main".
Definition runner2 : taskRunner := (beginActiveRun (queued_of "r2") (beginActiveRun (queued_of "r1") idle_runner).1).1.
Definition runner3 : taskRunner := (beginShutdown runner2).1.
Definition runner4 : taskRunner := finishActive "r1" runner3.

Lemma runner4_reached : rtc runner_step (idle_runner, []) (runner4, ["r2"]).
Proof.
  eapply rtc_l; [refine (step_begin (queued_of "r1") _ _ _ _); vm_compute; reflexivity|].
  eapply rtc_l; [refine (step_begin (queued_of "r2") _ runner2 _ _); vm_compute; reflexivity|].
  eapply rtc_l; [apply step_shutdown|]. apply rtc_once. exact (step_finish runner3 ["r2"] "r1" []).
Qed.

Lemma active_runs_are_exclusive_witness :
  kr_shuttingDown runner4 = true /\ drained runner4 = false
  /\ beginActiveRun (queued_of "r3") runner4 = (runner4, false).
Proof.
  assert (kr_shuttingDown runner4 = true) as Hs by (vm_compute; reflexivity). split; [exact Hs|].
  split; [vm_compute; reflexivity|].
  exact (proj2 (proj2 (proj2 (active_runs_are_exclusive runner4 ["r2"] runner4_reached))) Hs (queued_of "r3")).
Defined.

(** ** Operations that cannot fail without a store *)

Section Verdicts.
Context {S : Type} `{StoreLaws S}.
Implicit Types l : Ledger S.

(** [spec], and the operation succeeds when there is no store to refuse it. *)
Definition surely {A} (m : Ledger S -> Ledger S * result A) l (Q : Ledger S -> A -> Prop) : Prop :=
  spec m l Q /\ (l_store l = None -> l_store (m l).1 = None /\ is_ok (m l).2 = true).

Lemma surely_then {A B} (m : Ledger S -> Ledger S * result A) (k : A -> Ledger S -> Ledger S * result B) l Q R :
  surely m l Q -> (forall l1 a, ledger_ok l1 -> Q l1 a -> surely (k a) l1 R) -> surely (and_then m k) l R.
Proof.
  intros [Hm Ht] Hk. split; [eapply spec_then; [exact Hm|]; intros; by apply Hk|].
  intros Hs. destruct (Ht Hs) as [Hs1 Hok1]. unfold spec, and_then in *. destruct (m l) as [l1 [a|e]]; [|done].
  cbn in *. destruct Hm as [Hl1 HQ]. by apply Hk; auto.
Qed.

Lemma surely_return {A} (a : A) l (Q : Ledger S -> A -> Prop) : ledger_ok l -> Q l a -> surely (return_ a) l Q.
Proof. intros Hok HQ. split; [by apply spec_return|done]. Qed.

Lemma surely_if {A} (b : bool) (m1 m2 : Ledger S -> Ledger S * result A) l Q :
  (b = true -> surely m1 l Q) -> (b = false -> surely m2 l Q) -> surely (if b then m1 else m2) l Q.
Proof. destruct b; auto. Qed.

Lemma surely_weaken {A} (m : Ledger S -> Ledger S * result A) l (Q R : Ledger S -> A -> Prop) :
  surely m l Q -> (forall l1 a, ledger_ok l1 -> Q l1 a -> R l1 a) -> surely m l R.
Proof. intros [Hm Ht] HR. split; [by eapply spec_weaken|done]. Qed.

(** Reading what is cached changes nothing. *)
Lemma surely_GetRun {B} id e (k : RunEntry -> Ledger S -> Ledger S * result B) l Q :
  l_runs l !! id = Some e -> surely (k e) l Q -> surely (and_then (GetRun id) k) l Q.
Proof. intros He Hk. unfold surely, spec, and_then, GetRun in *. by rewrite He. Qed.
Lemma surely_GetTask {B} id e (k : LedgerEntry -> Ledger S -> Ledger S * result B) l Q :
  l_tasks l !! id = Some e -> surely (k e) l Q -> surely (and_then (GetTask id) k) l Q.
Proof. intros He Hk. unfold surely, spec, and_then, GetTask in *. by rewrite He. Qed.

Lemma no_store_task e l : l_store l = None -> store_save_task e l = (l, None).
Proof. intros Hs. unfold store_save_task. by rewrite Hs. Qed.
Lemma no_store_run e l : l_store l = None -> store_save_run e l = (l, None).
Proof. intros Hs. unfold store_save_run. by rewrite Hs. Qed.

Lemma SaveTaskState_surely now task source ref l :
  ledger_ok l -> good_task task ->
  surely (SaveTaskState now task source ref) l (fun l' e => exists e0,
    e = cloneLedgerEntry e0 /\ filed_as task e0 /\ l_tasks l' = <[ts_TaskID task := e0]> (l_tasks l)
    /\ l_runs l' = l_runs l).
Proof.
  intros Hok [Hn Hv]. split.
  - eapply spec_weaken; [by apply SaveTaskState_spec|]. cbv beta. rewrite Hn. intros l1 e _ (e0 & H1 & H2 & H3 & H4 & _). eauto.
  - intros Hs. unfold SaveTaskState. rewrite Hn, Hv. cbv zeta. rewrite no_store_task by done. by cbn.
Qed.

Lemma SaveRunState_surely now run source ref l :
  ledger_ok l -> good_run run -> 0 <= tr_Attempt run -> TaskRun_Normalize run = run ->
  surely (SaveRunState now run source ref) l (fun l' re => exists e0,
    re = cloneRunEntry e0 /\ re_Run e0 = run /\ l_runs l' = <[tr_RunID run := e0]> (l_runs l) /\ faces_kept l l').
Proof.
  intros Hok (H1 & H2 & H3 & _ & H4) Hatt Hn. split.
  - eapply spec_weaken; [by apply SaveRunState_spec|]. cbv beta. rewrite Hn. intros l1 re _ (e0 & ? & ? & ? & ? & _). eauto.
  - intros Hs. unfold SaveRunState. rewrite Hn.
    assert (TaskRun_Validate run = None) as ->.
    { unfold TaskRun_Validate. rewrite first_error_None, !Forall_cons, !error_if_None, wrap_error_None, H3, andb_false_r.
      repeat split; try done. by apply Z.ltb_ge. }
    cbv zeta. destruct (l_tasks _ !! tr_TaskID run); (rewrite no_store_run; [|exact Hs]); done.
Qed.

Lemma update_task_surely clock id e to actor reason l :
  ledger_ok l -> l_tasks l !! id = Some e -> (ts_Status (le_Task e) <> to -> task_may_move (le_Task e) to (unix clock)) ->
  surely (update_task_if_allowed clock id (ts_Status (le_Task e)) to actor reason) l (fun l' o => exists e',
    l_tasks l' !! id = Some e' /\ ts_Status (le_Task e') = to
    /\ ts_CurrentRunID (le_Task e') = ts_CurrentRunID (le_Task e)
    /\ ts_Verification (le_Task e') = ts_Verification (le_Task e)
    /\ o = (if ts_Status (le_Task e) !=? to then Some e' else None) /\ (o = None -> e' = e) /\ l_runs l' = l_runs l).
Proof.
  intros Hok He Hmove. unfold update_task_if_allowed. destruct (cached_normal _ _ _ Hok He) as [Hid Hn].
  pose proof (cached_status _ _ _ Hok He) as Hv.
  destruct (String.eqb_spec (ts_Status (le_Task e)) to) as [Heq|Hne]; cbn [negb andb].
  - apply surely_return; [done|]. exists e. repeat split; done.
  - pose proof (Hmove Hne) as Hm. pose proof Hm as (Ha & _). rewrite norm_task_status_id in Ha by done. rewrite Ha.
    eapply (surely_then _ _ _ (fun l1 e1 => l_tasks l1 = <[id := e1]> (l_tasks l) /\ l_runs l1 = l_runs l
      /\ le_Task e1 = task_moved (le_Task e) to (unix clock) actor "task_runner" reason None)).
    + split.
      * eapply spec_weaken; [by apply updateTaskStatus_spec|]. cbv beta. intros l1 e1 _ (_ & ? & _ & _ & ? & ? & _). auto.
      * intros Hs. unfold UpdateTaskStatus, updateTaskStatus. rewrite (ensureTaskLoaded_cached _ _ _ He), He.
        change (default e (Some e)) with e. unfold update_task_locked.
        destruct (task_apply_cases (le_Task e) to (unix clock) actor "task_runner" reason None) as [[_ ->]|[Hno _]]; [|done].
        cbv beta iota zeta. rewrite no_store_task by done. by split.
    + cbv beta. intros l1 e1 Hok1 (Ht1 & Hr1 & Hm1). apply surely_return; [done|]. exists e1.
      rewrite Ht1, lookup_insert_eq. destruct (moved_face (le_Task e) to (unix clock) actor "task_runner" reason None) as [Hst Hc].
      rewrite Hm1, Hst, Hc. repeat split; try done. unfold task_moved. by rewrite Hn.
Qed.

(** Two versions of a run that differ in what a change of status may change. *)
Definition same_work (r r' : TaskRun) : Prop :=
  (tr_RunID r', tr_TaskID r', tr_Attempt r', tr_Result r', tr_Usage r', tr_Verification r')
  = (tr_RunID r, tr_TaskID r, tr_Attempt r, tr_Result r, tr_Usage r, tr_Verification r).

Lemma run_moved_work r to now actor source reason meta :
  TaskRun_Normalize r = r ->
  let r' := run_moved r to now actor source reason meta in
  same_work r r' /\ tr_Status r' = to /\ (TaskRunStatus_Valid to = true -> TaskRun_Normalize r' = r').
Proof.
  intros Hn. cbv zeta. unfold same_work, run_moved. rewrite Hn. cbn. split; [done|]. split; [done|]. intros Hv.
  rewrite TaskRun_Normalize_fields in Hn |- *. pose proof (f_equal tr_Version Hn) as H1. pose proof (f_equal tr_Verification Hn) as H2.
  pose proof (f_equal tr_Attempt Hn) as H3. cbn in H1, H2, H3 |- *. by_fields; try done. by rewrite norm_run_status_id.
Qed.

Lemma cached_run_status id e l : ledger_ok l -> l_runs l !! id = Some e -> TaskRunStatus_Valid (tr_Status (re_Run e)) = true.
Proof. intros (_ & Hr & _) He. by apply Hr in He as (_ & _ & _ & ? & _). Qed.

Lemma update_run_surely clock rid e to actor reason l :
  ledger_ok l -> l_runs l !! rid = Some e -> TaskRun_Normalize (re_Run e) = re_Run e ->
  is_Some (l_tasks l !! tr_TaskID (re_Run e)) -> TaskRunStatus_Valid to = true ->
  (tr_Status (re_Run e) <> to -> run_may_move (re_Run e) to (unix clock)) ->
  surely (update_run_if_allowed clock rid (tr_Status (re_Run e)) to actor reason) l (fun l' o => exists e',
    l_runs l' !! rid = Some e' /\ tr_Status (re_Run e') = to /\ same_work (re_Run e) (re_Run e')
    /\ TaskRun_Normalize (re_Run e') = re_Run e' /\ (o = None -> e' = e) /\ (forall x, o = Some x -> x = e')
    /\ faces_kept l l').
Proof.
  intros Hok He Hn [te Hte] Hvto Hmove. unfold update_run_if_allowed.
  pose proof (cached_run_status _ _ _ Hok He) as Hv.
  destruct (String.eqb_spec (tr_Status (re_Run e)) to) as [Heq|Hne]; cbn [negb andb].
  - apply surely_return; [done|]. exists e. repeat split; done.
  - pose proof (Hmove Hne) as Hm. pose proof Hm as (Ha & _). rewrite norm_run_status_id in Ha by done. rewrite Ha.
    destruct (run_moved_work (re_Run e) to (unix clock) actor "task_runner" reason None Hn) as (Hw & Hst & Hnorm).
    eapply (surely_then _ _ _ (fun l1 e1 => l_runs l1 !! rid = Some e1 /\ faces_kept l l1
      /\ re_Run e1 = run_moved (re_Run e) to (unix clock) actor "task_runner" reason None)).
    + split; [eapply spec_weaken; [by eapply UpdateRunStatus_spec|]; cbv beta; by intros l1 e1 _ (_ & ? & ? & ? & _)|].
      intros Hs. unfold UpdateRunStatus. rewrite (ensureRunLoaded_cached _ _ _ He), (ensureTaskLoaded_cached _ _ _ Hte), He.
      destruct (run_apply_cases (re_Run e) to (unix clock) actor "task_runner" reason None) as [[_ ->]|[Hno _]]; [|done].
      cbv zeta. match goal with |- context [l_tasks ?x !! ?k] => destruct (l_tasks x !! k) as [o|] end;
        cbn -[store_save_run store_save_task cloneRunEntry cloneLedgerEntry]; rewrite no_store_run by done;
        [rewrite no_store_task by done|]; done.
    + cbv beta. intros l1 e1 Hok1 (He1 & HF1 & Hr1). apply surely_return; [done|]. exists e1. rewrite Hr1, Hst.
      repeat split; try done; [by apply Hnorm|]. by intros x [= <-].
Qed.

(** ** A verified finish *)

(** The task [id] and its run [rid] as they stand in the cache. *)
Definition on_duty (id rid taskStatus runStatus : string) (e : LedgerEntry) (re : RunEntry) l : Prop :=
  l_tasks l !! id = Some e /\ l_runs l !! rid = Some re /\ tr_RunID (re_Run re) = rid /\ tr_TaskID (re_Run re) = id
  /\ 0 <= tr_Attempt (re_Run re) /\ ts_Status (le_Task e) = taskStatus /\ tr_Status (re_Run re) = runStatus.

Lemma cached_run_good id e l : ledger_ok l -> l_runs l !! id = Some e -> good_run (re_Run e).
Proof. intros (_ & Hr & _) He. by apply Hr in He as [_ ?]. Qed.
Lemma cached_task_good id e l : ledger_ok l -> l_tasks l !! id = Some e -> good_task (le_Task e).
Proof. intros (Ht & _) He. by apply Ht in He as (_ & ? & _). Qed.

Definition in_hand (taskStatus runStatus : string) : Prop :=
  (taskStatus = TaskStatusInProgress \/ taskStatus = TaskStatusVerifying)
  /\ (runStatus = TaskRunStatusRunning \/ runStatus = TaskRunStatusVerifying).

(** Editing the contents of a run keeps it good. *)
Lemma edited_run_good r r' :
  good_run r ->
  (tr_RunID r', tr_TaskID r', tr_Version r', tr_Attempt r', tr_Status r')
  = (tr_RunID r, tr_TaskID r, tr_Version (TaskRun_Normalize r), tr_Attempt (TaskRun_Normalize r), tr_Status r) ->
  good_verification (tr_Verification r') ->
  good_run r' /\ 0 <= tr_Attempt r' /\ TaskRun_Normalize r' = r'.
Proof.
  intros (H1 & H2 & H3 & _). rewrite TaskRun_Normalize_fields. cbn. intros [= E1 E2 E3 E4 E5] Hv.
  split; [unfold good_run; by rewrite E1, E2, E5|]. split; [rewrite E4; case_match; lia|]. destruct Hv as [Hv _].
  rewrite TaskRun_Normalize_fields. by_fields; try done.
  - rewrite E3. by repeat case_match.
  - rewrite E4. repeat case_match; lia.
  - rewrite E5. by apply norm_run_status_id.
Qed.

(** Where a status must change, from work or from verification. *)
Lemma work_to_verifying_run r now :
  tr_Status r = TaskRunStatusRunning \/ tr_Status r = TaskRunStatusVerifying -> 0 < now ->
  tr_Status r <> TaskRunStatusVerifying -> run_may_move r TaskRunStatusVerifying now.
Proof. intros [E|E] Hnow Hne; [|done]. unfold run_may_move. rewrite E. split; [by vm_compute|]. split; [by intros ?|done]. Qed.
Lemma work_to_verifying_task t now :
  ts_Status t = TaskStatusInProgress \/ ts_Status t = TaskStatusVerifying -> 0 < now ->
  ts_Status t <> TaskStatusVerifying -> task_may_move t TaskStatusVerifying now.
Proof. intros [E|E] Hnow Hne; [|done]. unfold task_may_move. rewrite E. split; [by vm_compute|]. split; [by intros ?|done]. Qed.

Lemma enter_verification_surely clock queued id rid st rst e re res usage actor l :
  ledger_ok l -> 0 < unix clock -> in_hand st rst -> on_duty id rid st rst e re l ->
  ts_TaskID (qr_Task queued) = id -> tr_RunID (qr_Run queued) = rid ->
  surely (enter_verification clock queued res usage actor) l (fun l' '(t, r) => exists e' re',
    on_duty id rid TaskStatusVerifying TaskRunStatusVerifying e' re' l' /\ t = le_Task e'
    /\ ts_Verification (le_Task e') = ts_Verification (le_Task e) /\ r = re_Run re').
Proof.
  intros Hok Hnow [Hst Hrst] (He & Hre & Hrid & Htid & Hatt & Hs & Hrs) Hqt Hqr. unfold enter_verification. rewrite Hqt, Hqr.
  eapply surely_GetRun; [exact Hre|]. cbv zeta.
  pose proof (cached_run_good _ _ _ Hok Hre) as Hg.
  set (run := (((TaskRun_Normalize (re_Run re)) <| tr_Result := res |>) <| tr_Usage := usage |>) <| tr_Error := "" |>).
  destruct (edited_run_good (re_Run re) run Hg) as (Hrg & Hra & Hrn).
  { unfold run. rewrite TaskRun_Normalize_fields. cbn. by rewrite norm_run_status_id by apply Hg. }
  { unfold run. rewrite TaskRun_Normalize_fields. cbn. destruct Hg as (_ & _ & _ & Hv). by rewrite (proj1 Hv). }
  assert (tr_RunID run = rid /\ tr_TaskID run = id /\ tr_Status run = rst) as (Er & Et & Es).
  { unfold run. rewrite TaskRun_Normalize_fields. cbn. rewrite norm_run_status_id by apply Hg. done. }
  clearbody run. eapply surely_then; [by apply SaveRunState_surely|]. cbv beta. rewrite Er.
  intros l1 _ Hok1 (re1 & _ & Hre1 & Hr1 & HF1). destruct (HF1 _ _ He) as (e1 & He1 & [= Hf1 _] & Hv1).
  assert (l_runs l1 !! rid = Some re1) as Hl1 by (by rewrite Hr1, lookup_insert_eq). clear Hr1. rewrite <- Hre1 in *.
  eapply surely_then; [apply update_run_surely; try done|].
  { rewrite Et. eauto. }
  { apply work_to_verifying_run; [by rewrite Es|done]. }
  cbv beta. intros l2 o Hok2 (re2 & Hre2 & Hst2 & Hw2 & Hn2 & Ho1 & Ho2 & HF2).
  assert ((match o with Some entry => TaskRun_Normalize (re_Run entry) | None => re_Run re1 end) = re_Run re2) as ->.
  { destruct o as [x|]; [by rewrite (Ho2 _ eq_refl), Hn2|by rewrite Ho1]. }
  destruct (HF2 _ _ He1) as (e2 & He2 & [= Hf2 _] & Hv2). destruct (cached_normal _ _ _ Hok2 He2) as [Hid2 Hne2].
  eapply surely_GetTask; [exact He2|]. rewrite Hne2, Hid2.
  eapply surely_then; [apply update_task_surely; try done|].
  { apply work_to_verifying_task; [by rewrite Hf2, Hf1, Hs|done]. }
  cbv beta. intros l3 o3 Hok3 (e3 & He3 & Hst3 & _ & Hv3 & Ho3 & Hno3 & Hr3).
  apply surely_return; [done|]. exists e3, re2. destruct (cached_normal _ _ _ Hok3 He3) as [_ Hne3].
  unfold on_duty. rewrite Hr3. injection Hw2 as E1 E2 E3 _ _ _. rewrite E1, E2, E3, Et, Hv3, Hv2, Hv1.
  repeat split; try done. rewrite Ho3. case_match; [done|]. by rewrite Hno3.
Qed.

(** The verdict [x] is filed with the run and with the task. *)
Definition verdict_filed (x : VerificationExecution) (res : TaskResultRef) (usage : TaskUsage) (e : LedgerEntry) (re : RunEntry) : Prop :=
  ts_Verification (le_Task e) = rx_UpdatedSpec (vx_RuntimeResult x)
  /\ tr_Verification (re_Run re) = rx_UpdatedSpec (vx_RuntimeResult x)
  /\ tr_Result (re_Run re) = res /\ tr_Usage (re_Run re) = usage.

Lemma record_verdict_surely clock queued id rid e re res usage ids x l :
  ledger_ok l -> on_duty id rid TaskStatusVerifying TaskRunStatusVerifying e re l ->
  ts_TaskID (qr_Task queued) = id -> tr_RunID (qr_Run queued) = rid ->
  good_verification (rx_UpdatedSpec (vx_RuntimeResult x)) ->
  surely (record_verdict clock queued res usage ids x) l (fun l' '(t, r) => exists e' re',
    on_duty id rid TaskStatusVerifying TaskRunStatusVerifying e' re' l' /\ verdict_filed x res usage e' re'
    /\ ts_TaskID t = id /\ ts_Status t = TaskStatusVerifying /\ r = re_Run re' /\ TaskRun_Normalize r = r).
Proof.
  intros Hok (He & Hre & Hrid & Htid & Hatt & Hs & Hrs) Hqt Hqr Hu. unfold record_verdict. rewrite Hqt, Hqr, (proj1 Hu). cbv zeta.
  set (u := rx_UpdatedSpec _) in *. eapply surely_GetRun; [exact Hre|].
  pose proof (cached_run_good _ _ _ Hok Hre) as Hg.
  set (run := if verdict_run_status (vx_Gate x) ==? TaskRunStatusFailed then _ else _).
  assert ((tr_RunID run, tr_TaskID run, tr_Version run, tr_Attempt run, tr_Status run)
    = (tr_RunID (re_Run re), tr_TaskID (re_Run re), tr_Version (TaskRun_Normalize (re_Run re)),
       tr_Attempt (TaskRun_Normalize (re_Run re)), tr_Status (re_Run re))
    /\ tr_Verification run = u /\ tr_Result run = res /\ tr_Usage run = usage) as (Erun & Ev & Eres & Eusage).
  { unfold run. rewrite TaskRun_Normalize_fields. case_match; cbn; rewrite norm_run_status_id by apply Hg; done. }
  clearbody run. destruct (edited_run_good (re_Run re) run Hg Erun) as (Hrg & Hra & Hrn); [by rewrite Ev|].
  injection Erun as Er Et _ _ Es. rewrite Hrid in Er. rewrite Htid in Et. rewrite Hrs in Es.
  eapply surely_then; [by apply SaveRunState_surely|]. cbv beta. rewrite Er.
  intros l1 _ Hok1 (re1 & _ & Hre1 & Hr1 & HF1). destruct (HF1 _ _ He) as (e1 & He1 & [= Hf1 _] & _).
  assert (l_runs l1 !! rid = Some re1) as Hl1 by (by rewrite Hr1, lookup_insert_eq). clear Hr1. rewrite <- Hre1 in *.
  destruct (cached_normal _ _ _ Hok1 He1) as [Hid1 Hne1]. eapply surely_GetTask; [exact He1|]. rewrite Hne1.
  set (task := ((le_Task e1) <| ts_Verification := u |>) <| ts_Meta := _ |>).
  assert (good_task task) as Htg.
  { apply (good_task_update (le_Task e1)); [by eapply cached_task_good|done| |done].
    by apply (cached_status _ _ _ Hok1 He1). }
  assert (ts_TaskID task = id /\ ts_Status task = TaskStatusVerifying /\ ts_Verification task = u) as (Eid & Est & Eu).
  { split; [exact Hid1|]. split; [|done]. change (ts_Status (le_Task e1) = TaskStatusVerifying). by rewrite Hf1. }
  clearbody task. eapply surely_then; [by apply SaveTaskState_surely|]. cbv beta. rewrite Eid.
  intros l2 _ Hok2 (e2 & _ & Hfiled & Ht2 & Hr2). apply surely_return; [done|]. exists e2, re1.
  unfold on_duty, verdict_filed. rewrite Ht2, Hr2, lookup_insert_eq, Hfiled. change u with (rx_UpdatedSpec (vx_RuntimeResult x)) in *. cbn.
  rewrite Est, Eu. repeat split; done.
Qed.

(** From verification, a verdict's statuses are within reach. *)
Lemma verdict_moves_run x r now :
  let u := rx_UpdatedSpec (vx_RuntimeResult x) in
  (GateResult_Allowed (vx_Gate x) = true -> vs_Policy u = VerificationPolicyRequired -> VerificationSpec_AllRequiredPassed u = true) ->
  VerificationSpec_Normalize u = u -> tr_Verification r = u -> tr_Status r = TaskRunStatusVerifying -> 0 < now ->
  run_may_move r (verdict_run_status (vx_Gate x)) now /\ TaskRunStatus_Valid (verdict_run_status (vx_Gate x)) = true.
Proof.
  cbv zeta. intros Hg Hn Hv Hs Hnow. unfold run_may_move, verdict_run_status. rewrite Hs, Hv, Hn.
  destruct (GateResult_Allowed (vx_Gate x)); (split; [|by vm_compute]); (split; [by vm_compute|split; [|done]]);
    [auto|by intros ?].
Qed.
Lemma verdict_moves_task x t now :
  let u := rx_UpdatedSpec (vx_RuntimeResult x) in
  (GateResult_Allowed (vx_Gate x) = true -> vs_Policy u = VerificationPolicyRequired -> VerificationSpec_AllRequiredPassed u = true) ->
  VerificationSpec_Normalize u = u -> ts_Verification t = u -> ts_Status t = TaskStatusVerifying -> 0 < now ->
  task_may_move t (verdict_task_status (vx_Gate x)) now.
Proof.
  cbv zeta. intros Hg Hn Hv Hs Hnow. unfold task_may_move, verdict_task_status. rewrite Hs, Hv, Hn.
  destruct (GateResult_Allowed (vx_Gate x)); (split; [by vm_compute|split; [|done]]); [auto|by intros ?].
Qed.

(** Taking a task off its run keeps it good. *)
Lemma closed_task_good t rid now :
  good_task t -> good_task (((t <| ts_CurrentRunID := "" |>) <| ts_LastRunID := rid |>) <| ts_UpdatedAt := now |>).
Proof.
  intros Hg. by apply (good_task_update t); [..|apply (good_task_status t Hg)|apply (good_task_verification t Hg)].
Qed.

(** C28: A verified finish follows the gate: the contract verified is the one of the task,
    and when the finish succeeds the updated contract is filed with the task and its run,
    the run carries the result and the usage, both are completed if the gate of the
    verdict allows it and failed otherwise, and the task has no current run.  Without a
    store that could refuse a save, the finish always succeeds. *)
Theorem verified_run_follows_the_gate v clock queued result res usage ids id rid st rst e re l :
  ledger_ok l -> 0 < unix clock -> in_hand st rst -> on_duty id rid st rst e re l ->
  ts_TaskID (qr_Task queued) = id -> tr_RunID (qr_Run queued) = rid ->
  surely (finishVerifiedQueuedRun v clock queued result res usage ids) l (fun l' _ => exists t r e' re',
    let x := verify_outputs v clock t r result (actor_of (qr_AgentID queued)) in
    ts_Status t = TaskStatusVerifying /\ ts_Verification t = ts_Verification (le_Task e)
    /\ on_duty id rid (verdict_task_status (vx_Gate x)) (verdict_run_status (vx_Gate x)) e' re' l'
    /\ verdict_filed x res usage e' re'
    /\ ts_CurrentRunID (le_Task e') = "" /\ ts_LastRunID (le_Task e') = rid).
Proof.
  intros Hok Hnow Hwork Hduty Hqt Hqr. unfold finishVerifiedQueuedRun. cbv zeta.
  eapply surely_then; [by eapply enter_verification_surely|]. cbv beta.
  intros l1 [t r] Hok1 (e1 & re1 & Hduty1 & -> & Hv1 & ->).
  set (x := verify_outputs _ _ _ _ _ _).
  pose proof (cached_task_good _ _ _ Hok1 (proj1 Hduty1)) as Hg1.
  destruct (execution_verdict (vf_runtime v) (le_Task e1) (re_Run re1) (taskRunnerVerificationOutputs (vf_parse v) result)
    (actor_of (qr_AgentID queued)) (unix clock) (vf_time v) (vf_duration v) (vf_durations v)) as [Hun Hgate].
  fold (verify_outputs v clock (le_Task e1) (re_Run re1) result (actor_of (qr_AgentID queued))) in Hun, Hgate. fold x in Hun, Hgate.
  apply proj1 in Hgate.
  assert (good_verification (rx_UpdatedSpec (vx_RuntimeResult x))) as Hu.
  { split; [done|]. destruct (good_task_verification _ Hg1) as [? ?]. unfold x, verify_outputs. by apply updated_valid. }
  assert (verify_outputs v clock (le_Task e1) (re_Run re1) result (actor_of (qr_AgentID queued)) = x) as Hx by reflexivity.
  clearbody x.
  eapply surely_then; [by eapply record_verdict_surely|]. cbv beta.
  intros l2 [t r] Hok2 (e2 & re2 & (He2 & Hre2 & Hrid2 & Htid2 & Hatt2 & Hs2 & Hrs2) & (Hf1 & Hf2 & Hf3 & Hf4) & Ht1 & Ht2 & -> & Hrn2).
  rewrite Hrid2, Ht1, Ht2.
  destruct (verdict_moves_run x (re_Run re2) (unix clock) Hgate Hun Hf2 Hrs2 Hnow) as [Hmr Hvr].
  eapply surely_then; [by eapply update_run_surely; eauto; rewrite Htid2|]. cbv beta.
  intros l3 _ Hok3 (re3 & Hre3 & Hst3 & Hw3 & _ & _ & _ & HF3).
  destruct (HF3 _ _ He2) as (e3 & He3 & [= Hs3 _] & Hv3).
  eapply surely_then.
  { rewrite <- Hs2, <- Hs3. eapply update_task_surely; [done|exact He3|]. intros _.
    by apply verdict_moves_task; [done|done|rewrite Hv3|rewrite Hs3|]. }
  cbv beta. intros l4 _ Hok4 (e4 & He4 & Hs4 & _ & Hv4 & _ & _ & Hr4).
  eapply surely_GetTask; [rewrite Hqt; exact He4|]. destruct (cached_normal _ _ _ Hok4 He4) as [Hid4 Hn4]. rewrite Hn4.
  set (task := (((le_Task e4) <| ts_CurrentRunID := "" |>) <| ts_LastRunID := _ |>) <| ts_UpdatedAt := _ |>).
  assert (good_task task) as Htg.
  { pose proof (cached_task_good _ _ _ Hok4 He4) as Hg4.
    by apply closed_task_good. }
  eapply surely_then; [by apply SaveTaskState_surely|]. cbv beta.
  intros l5 _ Hok5 (e5 & _ & Hfiled & Ht5 & Hr5). apply surely_return; [done|].
  exists (le_Task e1), (re_Run re1), e5, re3. rewrite Hx. injection Hw3 as E1 E2 E3 E4 E5 E6.
  assert (ts_TaskID task = id /\ ts_Status task = verdict_task_status (vx_Gate x) /\ ts_CurrentRunID task = ""
    /\ ts_LastRunID task = rid /\ ts_Verification task = rx_UpdatedSpec (vx_RuntimeResult x)) as (F1 & F2 & F3 & F4 & F5).
  { split; [exact Hid4|]. split; [exact Hs4|]. split; [done|]. split; [exact Hqr|].
    change (ts_Verification (le_Task e4) = rx_UpdatedSpec (vx_RuntimeResult x)). congruence. }
  clearbody task. destruct Hduty1 as (_ & _ & _ & _ & _ & Hd & _).
  unfold on_duty, verdict_filed. rewrite Ht5, Hr5, Hr4, F1, lookup_insert_eq, Hfiled, E1, E2, E3, E4, E5, E6. cbn.
  by repeat split.
Qed.
End Verdicts.

(** ** A verified finish on a concrete ledger *)

(** A ledger without a store, with a task at work whose required check waits for a
    reviewer. *)
Definition duty_ledger : Ledger MapStore :=
  (StartWorkerRun quote (at_time 102) (gated_task VerificationStatusPending) "manual" "" "w1" "" "worker" "" ""
     (NewLedger None)).1.
Definition duty_task : LedgerEntry := default no_entry (l_tasks duty_ledger !! "t1").
Definition duty_run : RunEntry := default (mkRunEntry zero_run "" "" 0 0) (l_runs duty_ledger !! "w1").
Definition duty_queued : QueuedRun := mkQueuedRun (le_Task duty_task) (re_Run duty_run) "manual" "" "s" "worker".
Definition verifying0 : Verifying := mkVerifying verifiers (fun _ => None) 1 1 (fun _ => 1).
Definition duty_answer : TurnResult := mkTurnResult "done" [] 1 2.

Lemma duty_ledger_ok : ledger_ok duty_ledger.
Proof.
  refine (proj1 (StartWorkerRun_spec quote (at_time 102) (gated_task VerificationStatusPending) "manual" "" "w1" "" "worker" "" ""
    (NewLedger None) _ clock_runs)). by apply new_ledger_ok.
Qed.

Lemma on_duty1 : on_duty "t1" "w1" TaskStatusInProgress TaskRunStatusRunning duty_task duty_run duty_ledger.
Proof.
  split; [vm_compute; reflexivity|]. split; [vm_compute; reflexivity|]. split; [vm_compute; reflexivity|].
  split; [vm_compute; reflexivity|]. split; [vm_compute; discriminate|]. split; vm_compute; reflexivity.
Qed.

Lemma verified_run_follows_the_gate_witness :
  l_store duty_ledger = None
  /\ is_ok (finishVerifiedQueuedRun verifying0 (at_time 110) duty_queued duty_answer a_result no_usage [] duty_ledger).2 = true.
Proof.
  assert (l_store duty_ledger = None) as Hs by (vm_compute; reflexivity). split; [exact Hs|].
  assert (0 < unix (at_time 110)) as Hnow by (vm_compute; reflexivity).
  assert (ts_TaskID (qr_Task duty_queued) = "t1") as Ht by (vm_compute; reflexivity).
  assert (tr_RunID (qr_Run duty_queued) = "w1") as Hr by (vm_compute; reflexivity).
  exact (proj2 (proj2 (verified_run_follows_the_gate verifying0 (at_time 110) duty_queued duty_answer a_result no_usage []
    "t1" "w1" _ _ duty_task duty_run duty_ledger duty_ledger_ok Hnow
    (conj (or_introl eq_refl) (or_introl eq_refl)) on_duty1 Ht Hr) Hs)).
Defined.

(** The runner has no executor for reviews: the finish succeeds, and the task fails with
    its check still pending. *)
Example review_without_reviewer_fails_the_task :
  let l := (finishVerifiedQueuedRun verifying0 (at_time 110) duty_queued duty_answer a_result no_usage [] duty_ledger).1 in
  let task := le_Task (default no_entry (l_tasks l !! "t1")) in
  ts_Status task = TaskStatusFailed /\ map vc_Status (vs_Checks (ts_Verification task)) = [VerificationStatusPending].
Proof. vm_compute. by split. Qed.

(** Two calls of tools under one identifier leave one result, and a call without an
    identifier can take the place of one that has it. *)
Example tool_results_collide :
  let call id out := mkToolTrace id "t" None out "" in
  map (fun kv => (kv.1, tl_Output kv.2)) (map_to_list (tool_results_from 1 [call "a" "first"; call "a" "second"] ∅))
  = [("a", "second")]
  /\ map (fun kv => (kv.1, tl_Output kv.2)) (map_to_list (tool_results_from 1 [call "tool-2" "named"; call "" "unnamed"] ∅))
  = [("tool-2", "unnamed")].
Proof. vm_compute. by split. Qed.

Section Gate.
Context {S : Type} `{ListingLaws S}.
Implicit Types l : Ledger S.

(** ** Runs behind the gate *)

(** Which runs the runner takes. *)
Definition waiting (entry : RunEntry) (q : QueuedRun) : Prop :=
  tr_Status (qr_Run q) = TaskRunStatusQueued /\ taskRunnerSourceAllowed (re_Source entry) = true
  /\ qr_Run q = TaskRun_Normalize (re_Run entry) /\ blank (tr_RunID (qr_Run q)) = false.

Lemma prepareQueuedRun_spec entry l :
  ledger_ok l ->
  let '(l', o) := prepareQueuedRun entry l in
  ledger_ok l' /\ quiet l l' /\ (forall q, o = Some q -> waiting entry q).
Proof.
  intros Hok. unfold prepareQueuedRun.
  assert (ledger_ok l /\ quiet l l /\ forall q, None = Some q -> waiting entry q) as Hnone by done.
  destruct (blank (tr_RunID _) || blank _) eqn:Eb; [exact Hnone|]. apply orb_false_iff in Eb as [Eb _].
  destruct (String.eqb_spec (tr_Status (TaskRun_Normalize (re_Run entry))) TaskRunStatusQueued) as [Es|]; [|exact Hnone]. cbn [negb].
  destruct (taskRunnerSourceAllowed (re_Source entry)) eqn:Esrc; [|exact Hnone]. cbn [negb].
  destruct (GetTask_spec (tr_TaskID (TaskRun_Normalize (re_Run entry))) l Hok) as [Hok' HQ].
  destruct (GetTask _ l) as [l' [te|e]] eqn:E; cbn [fst snd] in *.
  - destruct (HQ _ eq_refl) as [_ Hq]. destruct (_ && _); (split; [done|]); (split; [exact Hq|]); intros q; [done|]. by intros [= <-].
  - split; [done|]. split; [|done]. revert E. unfold GetTask. destruct (l_tasks l !! _) eqn:E0; [done|].
    destruct (l_store l) as [s|]; [|by intros [= <- _]].
    destruct (LoadTask s _) as [s' [[e1|]|]]; try done; intros [= <- _]; apply store_quiet.
Qed.

Lemma observe_spec entry c l :
  ledger_ok l ->
  let '(c', l', o) := observeQueuedRun entry c l in
  ledger_ok l' /\ quiet l l'
  /\ (forall q lease, o = Some (q, lease) -> waiting entry q /\ AcceptingWork c = true /\ BeginWork c = (c', Ok lease))
  /\ (o = None -> c' = c).
Proof.
  intros Hok. unfold observeQueuedRun. pose proof (prepareQueuedRun_spec entry l Hok) as Hp.
  destruct (prepareQueuedRun entry l) as [l' [q|]]; destruct Hp as (Hok' & Hq & Hw).
  - destruct (BeginWork c) as [c' [lease|e]] eqn:Eb.
    + split; [done|]. split; [done|]. split; [|done].
      intros q' lease' [= <- <-]. split; [by apply Hw|]. split; [|done]. unfold BeginWork in Eb.
      destruct c as [c|]; [|done]. unfold AcceptingWork. by destruct (sr_State _ ==? StateIdle).
    + split; [done|]. split; [done|]. split; [done|]. intros _. unfold BeginWork in Eb.
      destruct c as [c|]; [|done]. destruct (sr_State _ ==? StateIdle); [done|]. by injection Eb as <- _.
  - split; [done|]. split; [done|]. by split.
Qed.

Lemma observe_all_spec entries c l :
  ledger_ok l ->
  let '(c', l', qs) := observe_all entries (Some c) l in
  ledger_ok l' /\ quiet l l'
  /\ Forall (fun q => exists entry, entry ∈ entries /\ waiting entry q.1) qs
  /\ (AcceptingWork (Some c) = false -> qs = [] /\ c' = Some c)
  /\ exists c2, c' = Some c2 /\ sc_rec c2 = sc_rec c
     /\ (0 <= sc_activeWork c -> sc_activeWork c + Z.of_nat (length entries) < 2 ^ 63 ->
         sc_activeWork c2 = sc_activeWork c + Z.of_nat (length qs)).
Proof.
  revert c l. induction entries as [|e entries IH]; intros c l Hok; cbn [observe_all].
  - split; [done|]. split; [done|]. split; [constructor|]. split; [done|]. exists c. cbn. by rewrite Z.add_0_r.
  - pose proof (observe_spec e (Some c) l Hok) as He. destruct (observeQueuedRun e (Some c) l) as [[c1 l1] o].
    destruct He as (Hok1 & Hq1 & Hsome & Hnone). destruct o as [[q lease]|].
    + destruct (Hsome _ _ eq_refl) as (Hw & Hacc & Hb). unfold BeginWork in Hb.
      destruct (String.eqb_spec (sr_State (sc_rec c)) StateIdle) as [Hst|]; [|done]. cbn [negb] in Hb. injection Hb as <- <-.
      set (c1 := c <| sc_activeWork := add64 (sc_activeWork c) 1 |>). pose proof (IH c1 l1 Hok1) as Hr.
      destruct (observe_all entries (Some c1) l1) as [[c2 l2] qs]. destruct Hr as (Hok2 & Hq2 & HF & _ & Hc2).
      split; [done|]. split; [by transitivity l1|]. split; [|split; [congruence|]].
      * cbn. constructor; [exists e; split; [by left|done]|]. eapply Forall_impl; [exact HF|]. cbn.
        intros x (e' & Hin & ?). exists e'. split; [by right|done].
      * change (length (option_list (Some (q, mkLease true false)) ++ qs)) with (Datatypes.S (length qs)). cbn [length].
        destruct Hc2 as (c3 & -> & Hr3 & Ha3). exists c3. split; [done|]. split; [exact Hr3|]. intros H0' Hb.
        assert (sc_activeWork c1 = sc_activeWork c + 1) as Ha1 by (apply wrap64_id; unfold int64_range; lia). lia.
    + rewrite (Hnone eq_refl). pose proof (IH c l1 Hok1) as Hr.
      destruct (observe_all entries (Some c) l1) as [[c2 l2] qs]. destruct Hr as (Hok2 & Hq2 & HF & Hcl & Hc2).
      split; [done|]. split; [by transitivity l1|]. split; [|split; [done|]].
      * cbn. eapply Forall_impl; [exact HF|]. cbn. intros x (e' & Hin & ?). exists e'. split; [by right|done].
      * change (length (option_list None ++ qs)) with (length qs). cbn [length].
        destruct Hc2 as (c3 & -> & Hr3 & Ha3). exists c3. split; [done|]. split; [exact Hr3|]. intros H0' Hb. apply Ha3; lia.
Qed.

(** *** What a resume hands over *)

(** The ledger asked for tasks, any number of times. *)
Definition asked : Ledger S -> Ledger S -> Prop := rtc (fun l l' => exists id, l' = (GetTask id l).1).

Lemma asked_keeps l l' id e : asked l l' -> l_tasks l !! id = Some e -> l_tasks l' !! id = Some e.
Proof.
  intros Ha. revert e. induction Ha as [|l l1 l' [k ->] Ha IH]; intros e He; [done|]. apply IH. unfold GetTask.
  destruct (l_tasks l !! k) eqn:Ek; [done|]. destruct (l_store l) as [s|]; [|done].
  destruct (LoadTask s k) as [s' [[e1|]|]]; try done. cbn. rewrite lookup_insert_ne; congruence.
Qed.

Definition agent_turn (te : LedgerEntry) : Prop :=
  taskWorkflowStepType (TaskSpec_Normalize (le_Task te)) = ""
  \/ taskWorkflowStepType (TaskSpec_Normalize (le_Task te)) = StepTypeAgentTurn.

(** A run that waits for the runner, whatever its task. *)
Definition queued_here (entry : RunEntry) : Prop :=
  let run := TaskRun_Normalize (re_Run entry) in
  blank (tr_RunID run) = false /\ blank (tr_TaskID run) = false /\ tr_Status run = TaskRunStatusQueued
  /\ taskRunnerSourceAllowed (re_Source entry) = true.

(** The run [entry] is handed over with its task. *)
Definition admitted (l : Ledger S) (qs : list (QueuedRun * Lease)) (entry : RunEntry) : Prop :=
  exists q lease te, (q, lease) ∈ qs /\ qr_Run q = TaskRun_Normalize (re_Run entry)
  /\ qr_Task q = TaskSpec_Normalize (le_Task te) /\ agent_turn te
  /\ exists lx, asked l lx /\ (GetTask (tr_TaskID (TaskRun_Normalize (re_Run entry))) lx).2 = Ok te.

(** The ledger does not give the task of [entry], or one of another kind. *)
Definition out_of_reach (l : Ledger S) (entry : RunEntry) : Prop :=
  exists lx, asked l lx /\ forall te, (GetTask (tr_TaskID (TaskRun_Normalize (re_Run entry))) lx).2 = Ok te -> ~ agent_turn te.

Lemma within_reach l entry te :
  l_tasks l !! tr_TaskID (TaskRun_Normalize (re_Run entry)) = Some te -> agent_turn te -> ~ out_of_reach l entry.
Proof.
  intros Hte Hturn (lx & Ha & Hno). apply (Hno te); [|done]. unfold GetTask. by rewrite (asked_keeps _ _ _ _ Ha Hte).
Qed.

Lemma prepare_asks entry l : asked l (prepareQueuedRun entry l).1.
Proof.
  unfold prepareQueuedRun. repeat (case_match; [apply rtc_refl|]). case_match eqn:E.
  apply rtc_once. exists (tr_TaskID (TaskRun_Normalize (re_Run entry))). rewrite E. repeat case_match; done.
Qed.

Lemma prepare_hands entry l :
  queued_here entry ->
  (exists q te, (prepareQueuedRun entry l).2 = Some q /\ qr_Run q = TaskRun_Normalize (re_Run entry)
     /\ qr_Task q = TaskSpec_Normalize (le_Task te) /\ agent_turn te
     /\ (GetTask (tr_TaskID (TaskRun_Normalize (re_Run entry))) l).2 = Ok te)
  \/ (prepareQueuedRun entry l).2 = None
     /\ forall te, (GetTask (tr_TaskID (TaskRun_Normalize (re_Run entry))) l).2 = Ok te -> ~ agent_turn te.
Proof.
  intros (Hid & Htask & Hst & Hsrc). unfold prepareQueuedRun. rewrite Hid, Htask, Hst, Hsrc. cbn [orb negb].
  change (TaskRunStatusQueued !=? TaskRunStatusQueued) with false. cbv iota.
  destruct (GetTask _ l) as [l' [te|e]]; cbn [snd]; [|by right].
  destruct (_ && _) eqn:E; [right|left].
  - split; [done|]. intros te' [= <-] [Hs|Hs]; unfold TaskSpec_Normalize in *; rewrite Hs in E; done.
  - eexists _, te. split; [reflexivity|]. split; [done|]. split; [done|]. split; [|done].
    apply andb_false_iff in E as [E|E]; apply negb_false_iff, String.eqb_eq in E; [by left|by right].
Qed.

(** With the gate open, the runs handed over are those listed, in that order, that wait and
    whose task can be had. *)
Lemma observe_all_hands entries c l :
  sr_State (sc_rec c) = StateIdle ->
  let qs := (observe_all entries (Some c) l).2 in
  sublist (map (fun q => qr_Run q.1) qs) (map (fun entry => TaskRun_Normalize (re_Run entry)) entries)
  /\ forall entry, entry ∈ entries -> queued_here entry -> admitted l qs entry \/ out_of_reach l entry.
Proof.
  cbv zeta. revert c l. induction entries as [|e entries IH]; intros c l Hopen; cbn [observe_all].
  { split; [constructor|]. intros entry Hin. by apply not_elem_of_nil in Hin. }
  unfold observeQueuedRun. pose proof (prepare_asks e l) as Ha. pose proof (prepare_hands e l) as Hh.
  destruct (prepareQueuedRun e l) as [l1 o] eqn:Ep. cbn [fst snd] in Ha, Hh.
  assert (forall c1, sr_State (sc_rec c1) = StateIdle -> forall front,
    (forall q, o = Some q -> qr_Run q = TaskRun_Normalize (re_Run e)) ->
    (forall q, o = Some q -> exists lease, front = [(q, lease)]) -> (o = None -> front = []) ->
    let qs := front ++ (observe_all entries (Some c1) l1).2 in
    sublist (map (fun q => qr_Run q.1) qs) (map (fun entry => TaskRun_Normalize (re_Run entry)) (e :: entries))
    /\ forall entry, entry ∈ e :: entries -> queued_here entry -> admitted l qs entry \/ out_of_reach l entry) as Hgo.
  { intros c1 Hc1 front Hrun Hsome Hnone. cbv zeta. destruct (IH c1 l1 Hc1) as [Hsub Hall].
    set (qs := (observe_all entries (Some c1) l1).2) in *. split.
    - destruct o as [q|]; [|rewrite Hnone by done; by constructor].
      destruct (Hsome q eq_refl) as [lease ->]. cbn. rewrite (Hrun q eq_refl). by constructor.
    - intros entry [->|Hin]%elem_of_cons Hq.
      + destruct (Hh Hq) as [(q & te & -> & Hr & Ht & Hturn & Hget)|[_ Hno]]; [left|right].
        * destruct (Hsome q eq_refl) as [lease ->]. exists q, lease, te. split; [by left|].
          do 3 (split; [done|]). exists l. split; [apply rtc_refl|done].
        * exists l. split; [apply rtc_refl|done].
      + destruct (Hall entry Hin Hq) as [(q & lease & te & Hqin & Hr & Ht & Hturn & lx & Hlx & Hget)|(lx & Hlx & Hno)]; [left|right].
        * exists q, lease, te. rewrite elem_of_app. split; [by right|]. do 3 (split; [done|]).
          exists lx. split; [by etransitivity|done].
        * exists lx. split; [by etransitivity|done]. }
  destruct o as [q|].
  - cbn [BeginWork]. rewrite Hopen. change (StateIdle !=? StateIdle) with false. cbv iota.
    set (c1 := c <| sc_activeWork := _ |>). specialize (Hgo c1 Hopen [(q, mkLease true false)]).
    destruct (observe_all entries (Some c1) l1) as [[c2 l2] qs]. apply Hgo; try done.
    + intros q' [= <-]. revert Ep. unfold prepareQueuedRun. repeat case_match; intros [= _ <-]; done.
    + intros q' [= <-]. by eexists.
  - specialize (Hgo c Hopen []). destruct (observe_all entries (Some c) l1) as [[c2 l2] qs]. by apply Hgo.
Qed.

(** Without a store, the listing of the queued runs has every one that is cached. *)
Lemma queued_runs_listed l :
  let '(l1, r) := ListRuns (mkListRunsOptions "" [TaskRunStatusQueued] "" 1000 0 "" false false) l in
  forall entries, r = Some (Ok entries) -> l_store l = None -> Z.of_nat (size (l_runs l)) <= 1000 ->
  l1 = l /\ forall rid entry, l_runs l !! rid = Some entry -> tr_Status (re_Run entry) = TaskRunStatusQueued -> entry ∈ entries.
Proof.
  unfold ListRuns. destruct (l_store l) as [s|].
  { destruct (Store_ListRuns s _) as [s' [[es|e]|]]; done. }
  intros entries Hr _ Hsize. split; [done|]. intros rid entry He Hq.
  destruct (list_runs (l_runs l) _) as [es|] eqn:El; [|done]. injection Hr as <-.
  eapply all_listed; [exact El|done|exact Hsize|exact He|]. unfold matchesRunFilter. cbn -[TaskRunStatusQueued].
  by rewrite Hq.
Qed.

Lemma resume_opens now1 now2 io1 io2 id c c1 rec :
  resume now1 now2 io1 io2 id c = (c1, (rec, None)) -> sr_State (sc_rec c1) = StateIdle /\ sc_activeWork c1 = sc_activeWork c.
Proof.
  unfold resume. case_match; [done|]. case_match; [done|].
  destruct (persistLocked io1 _ c) as [c2 [e|]] eqn:E1; [done|]. apply persist_cases in E1 as (f & -> & _).
  destruct (persistLocked io2 _ _) as [c3 [e|]] eqn:E2; [done|]. apply persist_cases in E2 as (f' & -> & _). by intros [= <- _].
Qed.

Context `{Encoding}.

(** C32: The gate decides what runs: while a suspension is in effect an event of the ledger
    hands no run to the executor, takes no lease and leaves what is cached as it is, so
    that a queued run stays queued.  A successful resume of the daemon lists the queued
    runs, up to a thousand of them (without a store: every one that is cached, when no more
    than that are), and hands over, in the order of the list, only waiting runs of sources
    the runner serves, and each of those whose task the ledger gives and is for an agent to
    work on, a cached one always; each with a lease that the coordinator counts.  An
    execution gives its lease back. *)
Theorem gate_decides_what_runs (c : Coordinator) l :
  ledger_ok l ->
  (in_effect (sc_rec c) -> forall e r,
    let x := (on_event e r (Some c) l).2 in x.2 = None /\ x.1.1 = Some c /\ quiet l x.1.2)
  /\ (forall now1 now2 io1 io2 id c' l' qs,
      resume_daemon now1 now2 io1 io2 id (Some c) l = (c', l', Some (Ok qs)) ->
      AcceptingWork c' = true
      /\ exists l1 entries,
         ListRuns (mkListRunsOptions "" [TaskRunStatusQueued] "" 1000 0 "" false false) l = (l1, Some (Ok entries))
      /\ (l_store l = None -> Z.of_nat (size (l_runs l)) <= 1000 ->
          l1 = l /\ forall rid entry, l_runs l !! rid = Some entry -> tr_Status (re_Run entry) = TaskRunStatusQueued -> entry ∈ entries)
      /\ sublist (map (fun q => qr_Run q.1) qs) (map (fun entry => TaskRun_Normalize (re_Run entry)) entries)
      /\ Forall (fun q => exists entry, entry ∈ entries /\ waiting entry q.1) qs
      /\ (forall entry, entry ∈ entries -> queued_here entry -> admitted l1 qs entry \/ out_of_reach l1 entry)
      /\ (forall entry te, entry ∈ entries -> queued_here entry ->
          l_tasks l1 !! tr_TaskID (TaskRun_Normalize (re_Run entry)) = Some te -> agent_turn te -> admitted l1 qs entry)
      /\ (0 <= sc_activeWork c -> sc_activeWork c + Z.of_nat (length entries) < 2 ^ 63 ->
          ActiveWork c' = sc_activeWork c + Z.of_nat (length qs)))
  /\ (forall quote env now io queued r l2, AcceptingWork (Some c) = true -> 0 <= sc_activeWork c < 2 ^ 63 - 1 ->
      exists c1 lease, BeginWork (Some c) = (Some c1, Ok lease)
      /\ (execute_admitted quote env now io queued lease r c1 l2).1.2 = c).
Proof.
  intros Hok. split; [|split].
  - intros He%in_effect_closed e r.
    assert (forall entry, let x := observeQueuedRun entry (Some c) l in x.2 = None /\ x.1.1 = Some c /\ quiet l x.1.2) as Ho.
    { intros entry. cbv zeta. pose proof (observe_spec entry (Some c) l Hok) as Hs. destruct (observeQueuedRun _ _ _) as [[c' l'] [[q lease]|]].
      - destruct Hs as (_ & _ & Hs & _). destruct (Hs _ _ eq_refl) as (_ & Hacc & _). congruence.
      - destruct Hs as (_ & Hq & _ & Hn). split; [done|]. split; [by apply Hn|done]. }
    assert (@None (QueuedRun * Lease) = None /\ Some c = Some c /\ quiet l l) as Hno
      by (split; [reflexivity|split; reflexivity]).
    destruct e as [entry|entry tr|entry|entry tr]; cbv zeta; cbn [on_event fst snd]; [exact Hno|exact Hno|apply Ho|].
    destruct (rt_To tr ==? TaskRunStatusCancelled); [exact Hno|]. destruct (rt_To tr !=? TaskRunStatusQueued); [exact Hno|apply Ho].
  - intros now1 now2 io1 io2 id c' l' qs. unfold resume_daemon, Resume, on_coordinator.
    destruct (resume now1 now2 io1 io2 id c) as [c1 [rec [e|]]] eqn:Er; [done|].
    destruct (resume_opens _ _ _ _ _ _ _ _ Er) as [Hst Ha]. unfold ResumeQueued.
    pose proof (ListRuns_ok (mkListRunsOptions "" [TaskRunStatusQueued] "" 1000 0 "" false false) l Hok) as Hok1.
    pose proof (queued_runs_listed l) as Hall.
    destruct (ListRuns (mkListRunsOptions "" [TaskRunStatusQueued] "" 1000 0 "" false false) l) as [l1 [[entries|e]|]]; [|done|done].
    pose proof (observe_all_spec entries c1 l1 Hok1) as Ho. pose proof (observe_all_hands entries c1 l1 Hst) as Hh.
    destruct (observe_all entries (Some c1) l1) as [[c2 l2] qs'].
    intros [= <- <- <-]. destruct Ho as (_ & _ & HF & _ & Hc). destruct Hh as [Hsub Hhands].
    destruct Hc as (c3 & -> & Hr3 & Ha3). unfold AcceptingWork. rewrite Hr3, Hst. split; [done|].
    exists l1, entries. split; [done|]. split; [by apply Hall|]. do 3 (split; [done|]). split.
    + intros entry te Hin Hq Hte Hturn. destruct (Hhands entry Hin Hq) as [|Hout]; [done|]. by destruct (within_reach _ _ _ Hte Hturn).
    + rewrite <- Ha. exact Ha3.
  - intros quote env now io queued r l2 Hacc Hw. unfold BeginWork. unfold AcceptingWork in Hacc. rewrite Hacc.
    cbn [negb]. eexists _, _. split; [reflexivity|]. unfold execute_admitted.
    destruct (executeQueuedRun quote env queued r l2) as [r' l']. unfold Release, release_once. cbn [ls_coordinator ls_once negb orb].
    set (c1 := c <| sc_activeWork := _ |>).
    assert (sc_activeWork c1 = sc_activeWork c + 1) as Ha1 by (apply wrap64_id; unfold int64_range; lia).
    rewrite (proj2 (Z.ltb_lt 0 (sc_activeWork c1))) by lia. set (c2 := c1 <| sc_activeWork := _ |>).
    assert (c2 = c) as ->.
    { unfold c2. rewrite Ha1. unfold sub64. rewrite wrap64_id by (unfold int64_range; lia).
      replace (sc_activeWork c + 1 - 1) with (sc_activeWork c) by lia. by destruct c. }
    apply String.eqb_eq in Hacc. by rewrite Hacc, andb_false_r.
Qed.
End Gate.

(** A queued run waits while the daemon is suspended, and is handed over by the resume. *)
#[local] Instance plain_encoding : Encoding := {| usage_text _ := "usage"; budget_text _ := "budget" |}.
Definition queue_ledger : Ledger FileStore :=
  (CreateRun 6 "t1" "r1" "manual" "" "manual" (CreateTask 5 sample_task "manual" "" (NewLedger None)).1).1.
Definition queue_entry : RunEntry := default (mkRunEntry zero_run "" "" 0 0) (l_runs queue_ledger !! "r1").
Definition paused : Coordinator := (prepare 10 11 None None "" (started_at "l.json")).1.
Definition resumed : option Coordinator * Ledger FileStore * option (result (list (QueuedRun * Lease))) :=
  resume_daemon 20 21 None None "" (Some paused) queue_ledger.
Definition handed_over : list (QueuedRun * Lease) :=
  match resumed.2 with Some (Ok qs) => qs | _ => [] end.

Lemma queue_ledger_ok : ledger_ok queue_ledger.
Proof.
  assert (ledger_ok (NewLedger (@None FileStore))) as H0 by by apply new_ledger_ok.
  exact (CreateRun_ok 6 "t1" "r1" "manual" "" "manual" _ (CreateTask_ok 5 sample_task "manual" "" _ H0)).
Qed.

Lemma resumed_hands_over :
  resume_daemon 20 21 None None "" (Some paused) queue_ledger = (resumed.1.1, resumed.1.2, Some (Ok handed_over)).
Proof. vm_compute. reflexivity. Qed.

Lemma gate_decides_what_runs_witness :
  (on_event (OnRunCreated queue_entry) idle_runner (Some paused) queue_ledger).2.2 = None
  /\ AcceptingWork resumed.1.1 = true /\ map (fun q => tr_RunID (qr_Run q.1)) handed_over = ["r1"].
Proof.
  destruct (gate_decides_what_runs paused queue_ledger queue_ledger_ok) as (H1 & H2 & _).
  assert (in_effect (sc_rec paused)) as He by (right; vm_compute; reflexivity).
  split; [exact (proj1 (H1 He (OnRunCreated queue_entry) idle_runner))|].
  split; [exact (proj1 (H2 20 21 None None "" _ _ _ resumed_hands_over))|vm_compute; reflexivity].
Defined.
