(* ===== verification/AutoReply.v ===== *)
(** Serialising the turns of a session and staging what arrives meanwhile:
    internal/autoreply (session_turns.go, queue.go, steering_mailbox.go).

    The session queue and the steering mailbox stage messages in the same way; here both
    are boxes of items of a class [Staged].  Every method of theirs is one critical
    section.  Times are in nanoseconds and differences of them do not overflow; counts
    of messages are unbounded integers. *)

From Stdlib Require Import Ascii String.
From stdpp Require Import base tactics decidable list gmap strings.
From S2P Require Import Prelude Sorting.

(** ** Staged messages *)

Definition QueueDropSummarize : string := "summarize".
Definition QueueDropOldest : string := "oldest".
Definition QueueDropNewest : string := "newest".

Definition maxDroppedLines : nat := 100.
Definition defaultSeenTTL : Z := 10 * 60 * 1000000000.

(** [truncate], which cuts between bytes. *)
Definition cut_text (s : string) (n : nat) : string :=
  if (String.length s <=? n)%nat then s else substring 0 n s +:+ "…".

Class Staged (M : Type) := {
  st_EventID : M -> string;
  st_Text : M -> string;
  st_SummaryLine : M -> string;
  (** The item as it is filed at a time. *)
  st_filed : Z -> M -> M;
  st_with_text : string -> M -> M
}.

Record Box (M : Type) := mkBox {
  bx_items : list M;
  bx_droppedLines : list string;
  bx_cap : Z;
  bx_dropPolicy : string;
  bx_recentIDs : gmap string Z;
  bx_seenTTL : Z
}.
Arguments mkBox {M} _ _ _ _ _ _.
Arguments bx_items {M} _.
Arguments bx_droppedLines {M} _.
Arguments bx_cap {M} _.
Arguments bx_dropPolicy {M} _.
Arguments bx_recentIDs {M} _.
Arguments bx_seenTTL {M} _.

Record SteeringMailboxEnqueueOutcome := mkEnqueueOutcome {
  eo_Accepted : bool;
  eo_Deduped : bool;
  eo_Dropped : Z;
  eo_Overflowed : bool
}.

Section Box.
Context {M : Type} `{Staged M}.

Definition NewBox (cap : Z) (policy : string) : Box M :=
  mkBox [] [] cap (if policy ==? "" then QueueDropSummarize else policy) ∅ defaultSeenTTL.

Definition pruneRecentIDs (now : Z) (b : Box M) : Box M :=
  if bx_seenTTL b <=? 0 then b
  else mkBox (bx_items b) (bx_droppedLines b) (bx_cap b) (bx_dropPolicy b)
         (filter (fun kv : string * Z => ~ bx_seenTTL b < now - kv.2) (bx_recentIDs b)) (bx_seenTTL b).

(** An item with the identifier is staged, or one was accepted within the window. *)
Definition seen_before (now : Z) (id : string) (b : Box M) : bool :=
  (id !=? "")
  && (existsb (fun item => (st_EventID item !=? "") && (st_EventID item ==? id)) (bx_items b)
      || match bx_recentIDs b !! id with
         | Some seenAt => now - seenAt <=? bx_seenTTL b
         | None => false
         end).

Definition full (b : Box M) : bool := (0 <? bx_cap b) && (bx_cap b <=? Z.of_nat (length (bx_items b))).

Definition summary_of (m : M) : string :=
  if st_SummaryLine m ==? "" then cut_text (st_Text m) 80 else st_SummaryLine m.

Definition last_lines (lines : list string) : list string :=
  if (maxDroppedLines <? length lines)%nat then drop (length lines - maxDroppedLines) lines else lines.

(** Making room in a full box: [None] when the policy refuses the new item. *)
Definition make_room (b : Box M) : option (Box M * Z) :=
  if bx_dropPolicy b ==? QueueDropNewest then None
  else match bx_items b with
  | [] => Some (b, 0)
  | oldest :: items =>
    let lines := if bx_dropPolicy b ==? QueueDropOldest then bx_droppedLines b
                 else last_lines (bx_droppedLines b ++ [summary_of oldest]) in
    Some (mkBox items lines (bx_cap b) (bx_dropPolicy b) (bx_recentIDs b) (bx_seenTTL b), 1)
  end.

Definition put_item (now : Z) (m : M) (b : Box M) : Box M :=
  mkBox (bx_items b ++ [st_filed now m]) (bx_droppedLines b) (bx_cap b) (bx_dropPolicy b)
    (if st_EventID m !=? "" then <[st_EventID m := now]> (bx_recentIDs b) else bx_recentIDs b) (bx_seenTTL b).

Definition box_enqueue (now : Z) (m : M) (b : Box M) : Box M * SteeringMailboxEnqueueOutcome :=
  let b := pruneRecentIDs now b in
  if seen_before now (st_EventID m) b then (b, mkEnqueueOutcome false true 0 false)
  else if full b then
    match make_room b with
    | None => (b, mkEnqueueOutcome false false 1 true)
    | Some (b, dropped) => (put_item now m b, mkEnqueueOutcome true false dropped true)
    end
  else (put_item now m b, mkEnqueueOutcome true false 0 false).

Definition newline : string := String "010" "".

(** The summaries of what was dropped, in front of the first item. *)
Definition with_header (title : string) (dropped : list string) (items : list M) : list M :=
  match dropped, items with
  | _ :: _, first :: items =>
    st_with_text (title +:+ newline +:+ String.concat newline dropped +:+ newline +:+ newline +:+ st_Text first) first :: items
  | _, _ => items
  end.

Definition emptied (b : Box M) : Box M :=
  mkBox [] [] (bx_cap b) (bx_dropPolicy b) (bx_recentIDs b) (bx_seenTTL b).

Definition box_configure (cap : Z) (policy : string) (b : Box M) : Box M :=
  mkBox (bx_items b) (bx_droppedLines b) cap (if policy ==? "" then bx_dropPolicy b else policy)
    (bx_recentIDs b) (bx_seenTTL b).

Definition box_len (b : Box M) : Z := Z.of_nat (length (bx_items b)).
End Box.

(** ** Session queues *)

Record PendingTurn := mkPendingTurn {
  pt_Text : string;
  pt_EventID : string;
  pt_SenderID : string;
  pt_AgentID : string;
  pt_ToolProfile : string;
  pt_EnabledTools : list string;
  pt_CreatedAt : Z;
  pt_EnqueuedAt : option Z;
  pt_SummaryLine : string
}.

Definition pt_filed (now : Z) (pt : PendingTurn) : PendingTurn :=
  mkPendingTurn (pt_Text pt) (pt_EventID pt) (pt_SenderID pt) (pt_AgentID pt) (pt_ToolProfile pt)
    (pt_EnabledTools pt) (pt_CreatedAt pt) (Some now)
    (if pt_SummaryLine pt ==? "" then cut_text (pt_Text pt) 80 else pt_SummaryLine pt).

Definition pt_with_text (text : string) (pt : PendingTurn) : PendingTurn :=
  mkPendingTurn text (pt_EventID pt) (pt_SenderID pt) (pt_AgentID pt) (pt_ToolProfile pt)
    (pt_EnabledTools pt) (pt_CreatedAt pt) (pt_EnqueuedAt pt) (pt_SummaryLine pt).

#[export] Instance pending_staged : Staged PendingTurn := {
  st_EventID := pt_EventID; st_Text := pt_Text; st_SummaryLine := pt_SummaryLine;
  st_filed := pt_filed; st_with_text := pt_with_text
}.

Definition SessionQueue : Type := Box PendingTurn.

Definition NewSessionQueue : Z -> string -> SessionQueue := NewBox.

Definition Enqueue (now : Z) (pt : PendingTurn) (q : SessionQueue) : SessionQueue * bool :=
  let '(q, outcome) := box_enqueue now pt q in (q, eo_Accepted outcome).

Definition Dequeue (q : SessionQueue) : SessionQueue * list PendingTurn :=
  match bx_items q with
  | [] => (q, [])
  | items => (emptied q, with_header "[Some messages were dropped while agent was busy]" (bx_droppedLines q) items)
  end.

Definition Queue_Configure : Z -> string -> SessionQueue -> SessionQueue := box_configure.
Definition Queue_Len : SessionQueue -> Z := box_len.

(** A registry hands out pointers to its queues: the queues by address, the addresses
    by session, and the next free address. *)
Record SessionQueueRegistry := mkSessionQueueRegistry {
  qr_heap : gmap nat SessionQueue;
  qr_queues : gmap string nat;
  qr_next : nat;
  qr_defaultCap : Z;
  qr_dropPolicy : string
}.

Definition NewSessionQueueRegistry (defaultCap : Z) (policy : string) : SessionQueueRegistry :=
  mkSessionQueueRegistry ∅ ∅ 0 defaultCap policy.

Definition Registry_Get (sessionID : string) (r : SessionQueueRegistry) : SessionQueueRegistry * nat :=
  match qr_queues r !! sessionID with
  | Some p => (r, p)
  | None =>
    (mkSessionQueueRegistry (<[qr_next r := NewSessionQueue (qr_defaultCap r) (qr_dropPolicy r)]> (qr_heap r))
       (<[sessionID := qr_next r]> (qr_queues r)) (qr_next r + 1) (qr_defaultCap r) (qr_dropPolicy r), qr_next r)
  end.

Definition Registry_Delete (sessionID : string) (r : SessionQueueRegistry) : SessionQueueRegistry :=
  mkSessionQueueRegistry (qr_heap r) (delete sessionID (qr_queues r)) (qr_next r) (qr_defaultCap r) (qr_dropPolicy r).

(** A method of the queue at an address. *)
Definition on_queue {A} (p : nat) (dflt : A) (f : SessionQueue -> SessionQueue * A) (r : SessionQueueRegistry)
  : SessionQueueRegistry * A :=
  match qr_heap r !! p with
  | None => (r, dflt)
  | Some q =>
    let '(q, a) := f q in
    (mkSessionQueueRegistry (<[p := q]> (qr_heap r)) (qr_queues r) (qr_next r) (qr_defaultCap r) (qr_dropPolicy r), a)
  end.

Record QueueRegistryStats := mkQueueRegistryStats {
  qs_Sessions : Z;
  qs_PendingTurns : Z
}.

Definition Registry_Stats (r : SessionQueueRegistry) : QueueRegistryStats :=
  let queues := omap (fun sp => qr_heap r !! sp.2) (map_to_list (qr_queues r)) in
  mkQueueRegistryStats (Z.of_nat (length queues)) (fold_right Z.add 0 (map Queue_Len queues)).

(** ** Steering mailboxes *)

Definition SteeringPriorityNormal : string := "normal".
Definition SteeringPriorityUrgent : string := "urgent".

Record SteeringMessage := mkSteeringMessage {
  sm_Text : string;
  sm_EventID : string;
  sm_SenderID : string;
  sm_ChannelID : string;
  sm_ThreadID : string;
  sm_AgentID : string;
  sm_ToolProfile : string;
  sm_EnabledTools : list string;
  sm_CreatedAt : Z;
  sm_EnqueuedAt : option Z;
  sm_Source : string;
  sm_Priority : string;
  sm_SummaryLine : string
}.

(** What filing fills in: priority, summary and, given one, the time. *)
Definition sm_filled (at_ : option Z) (m : SteeringMessage) : SteeringMessage :=
  mkSteeringMessage (sm_Text m) (sm_EventID m) (sm_SenderID m) (sm_ChannelID m) (sm_ThreadID m) (sm_AgentID m)
    (sm_ToolProfile m) (sm_EnabledTools m) (sm_CreatedAt m) at_ (sm_Source m)
    (if sm_Priority m ==? "" then SteeringPriorityNormal else sm_Priority m)
    (if sm_SummaryLine m ==? "" then cut_text (sm_Text m) 80 else sm_SummaryLine m).

Definition sm_with_text (text : string) (m : SteeringMessage) : SteeringMessage :=
  mkSteeringMessage text (sm_EventID m) (sm_SenderID m) (sm_ChannelID m) (sm_ThreadID m) (sm_AgentID m)
    (sm_ToolProfile m) (sm_EnabledTools m) (sm_CreatedAt m) (sm_EnqueuedAt m) (sm_Source m) (sm_Priority m) (sm_SummaryLine m).

#[export] Instance steering_staged : Staged SteeringMessage := {
  st_EventID := sm_EventID; st_Text := sm_Text; st_SummaryLine := sm_SummaryLine;
  st_filed now := sm_filled (Some now); st_with_text := sm_with_text
}.

Record SteeringMailboxStats := mkSteeringMailboxStats {
  ss_Enqueued : Z;
  ss_Drained : Z;
  ss_Deduped : Z;
  ss_Dropped : Z
}.

Record SteeringMailbox := mkSteeringMailbox {
  mb_box : Box SteeringMessage;
  mb_stats : SteeringMailboxStats
}.

Definition NewSteeringMailbox (cap : Z) (policy : string) : SteeringMailbox :=
  mkSteeringMailbox (NewBox cap policy) (mkSteeringMailboxStats 0 0 0 0).

(** The statistics after an outcome. *)
Definition counted (o : SteeringMailboxEnqueueOutcome) (s : SteeringMailboxStats) : SteeringMailboxStats :=
  mkSteeringMailboxStats (ss_Enqueued s + (if eo_Accepted o then 1 else 0)) (ss_Drained s)
    (ss_Deduped s + (if eo_Deduped o then 1 else 0)) (ss_Dropped s + eo_Dropped o).

Definition EnqueueWithOutcome (now : Z) (msg : SteeringMessage) (m : SteeringMailbox) : SteeringMailbox * SteeringMailboxEnqueueOutcome :=
  let '(b, outcome) := box_enqueue now msg (mb_box m) in
  (mkSteeringMailbox b (counted outcome (mb_stats m)), outcome).

Definition Mailbox_Enqueue (now : Z) (msg : SteeringMessage) (m : SteeringMailbox) : SteeringMailbox * bool :=
  let '(m, outcome) := EnqueueWithOutcome now msg m in (m, eo_Accepted outcome).

Definition steeringPriorityRank (priority : string) : Z := if priority ==? SteeringPriorityUrgent then 0 else 1.

(** [time.Time.Before], the zero time before every other. *)
Definition time_before (a b : option Z) : bool :=
  match a, b with
  | None, Some _ => true
  | Some a, Some b => a <? b
  | _, None => false
  end.

Definition drains_before : SteeringMessage -> SteeringMessage -> bool :=
  by_key Z.ltb (fun m => steeringPriorityRank (sm_Priority m))
    (by_key Z.ltb sm_CreatedAt (fun x y => time_before (sm_EnqueuedAt x) (sm_EnqueuedAt y))).

Definition Drain (m : SteeringMailbox) : SteeringMailbox * list SteeringMessage :=
  match bx_items (mb_box m) with
  | [] => (m, [])
  | items =>
    let s := mb_stats m in
    (mkSteeringMailbox (emptied (mb_box m))
       (mkSteeringMailboxStats (ss_Enqueued s) (ss_Drained s + Z.of_nat (length items)) (ss_Deduped s) (ss_Dropped s)),
     with_header "[Some steering messages were dropped while agent was busy]" (bx_droppedLines (mb_box m))
       (sort_by drains_before items))
  end.

(** The loop of [RestoreDrained], with the identifiers staged so far. *)
Fixpoint restore_items (now : Z) (items : list SteeringMessage) (existing : gset string) (b : Box SteeringMessage)
  : Box SteeringMessage * Z :=
  match items with
  | [] => (b, 0)
  | item :: items =>
    if (sm_EventID item !=? "") && bool_decide (sm_EventID item ∈ existing) then restore_items now items existing b
    else
      let item := sm_filled (Some (default now (sm_EnqueuedAt item))) item in
      let b' := mkBox (bx_items b ++ [item]) (bx_droppedLines b) (bx_cap b) (bx_dropPolicy b)
                  (if sm_EventID item !=? "" then <[sm_EventID item := now]> (bx_recentIDs b) else bx_recentIDs b)
                  (bx_seenTTL b) in
      let existing := if sm_EventID item !=? "" then {[sm_EventID item]} ∪ existing else existing in
      let '(b', n) := restore_items now items existing b' in
      (b', n + 1)
  end.

Definition staged_ids (items : list SteeringMessage) : gset string :=
  list_to_set (List.filter (fun id => id !=? "") (map sm_EventID items)).

Definition RestoreDrained (now : Z) (items : list SteeringMessage) (m : SteeringMailbox) : SteeringMailbox * Z :=
  match items with
  | [] => (m, 0)
  | _ =>
    let b := pruneRecentIDs now (mb_box m) in
    let '(b, n) := restore_items now items (staged_ids (bx_items b)) b in
    (mkSteeringMailbox b (mb_stats m), n)
  end.

Definition Mailbox_Clear (m : SteeringMailbox) : SteeringMailbox := mkSteeringMailbox (emptied (mb_box m)) (mb_stats m).
Definition Mailbox_Configure (cap : Z) (policy : string) (m : SteeringMailbox) : SteeringMailbox :=
  mkSteeringMailbox (box_configure cap policy (mb_box m)) (mb_stats m).
Definition Mailbox_Len (m : SteeringMailbox) : Z := box_len (mb_box m).

(** The registry of mailboxes, with its pointers as that of queues. *)
Record SteeringMailboxRegistry := mkSteeringMailboxRegistry {
  mr_heap : gmap nat SteeringMailbox;
  mr_mailboxes : gmap string nat;
  mr_next : nat;
  mr_defaultCap : Z;
  mr_dropPolicy : string
}.

Definition NewSteeringMailboxRegistry (defaultCap : Z) (policy : string) : SteeringMailboxRegistry :=
  mkSteeringMailboxRegistry ∅ ∅ 0 defaultCap policy.

Definition Mailboxes_Get (sessionID : string) (r : SteeringMailboxRegistry) : SteeringMailboxRegistry * nat :=
  match mr_mailboxes r !! sessionID with
  | Some p => (r, p)
  | None =>
    (mkSteeringMailboxRegistry (<[mr_next r := NewSteeringMailbox (mr_defaultCap r) (mr_dropPolicy r)]> (mr_heap r))
       (<[sessionID := mr_next r]> (mr_mailboxes r)) (mr_next r + 1) (mr_defaultCap r) (mr_dropPolicy r), mr_next r)
  end.

Definition Mailboxes_GetIfExists (sessionID : string) (r : SteeringMailboxRegistry) : option nat :=
  mr_mailboxes r !! sessionID.

Definition Mailboxes_Delete (sessionID : string) (r : SteeringMailboxRegistry) : SteeringMailboxRegistry :=
  mkSteeringMailboxRegistry (mr_heap r) (delete sessionID (mr_mailboxes r)) (mr_next r) (mr_defaultCap r) (mr_dropPolicy r).

(** A method of the mailbox at an address. *)
Definition on_mailbox {A} (p : nat) (dflt : A) (f : SteeringMailbox -> SteeringMailbox * A) (r : SteeringMailboxRegistry)
  : SteeringMailboxRegistry * A :=
  match mr_heap r !! p with
  | None => (r, dflt)
  | Some m =>
    let '(m, a) := f m in
    (mkSteeringMailboxRegistry (<[p := m]> (mr_heap r)) (mr_mailboxes r) (mr_next r) (mr_defaultCap r) (mr_dropPolicy r), a)
  end.

Definition Mailboxes_Clear (sessionID : string) (r : SteeringMailboxRegistry) : SteeringMailboxRegistry :=
  match mr_mailboxes r !! sessionID with
  | None => r
  | Some p => (on_mailbox p tt (fun m => (Mailbox_Clear m, tt)) r).1
  end.

Definition Mailboxes_RestoreDrained (now : Z) (sessionID : string) (items : list SteeringMessage)
    (r : SteeringMailboxRegistry) : SteeringMailboxRegistry * Z :=
  match items with
  | [] => (r, 0)
  | _ => let '(r, p) := Mailboxes_Get sessionID r in on_mailbox p 0 (RestoreDrained now items) r
  end.

Definition Mailboxes_Stats (r : SteeringMailboxRegistry) : QueueRegistryStats :=
  let mailboxes := omap (fun sp => mr_heap r !! sp.2) (map_to_list (mr_mailboxes r)) in
  mkQueueRegistryStats (Z.of_nat (length mailboxes)) (fold_right Z.add 0 (map Mailbox_Len mailboxes)).

(** ** Session turns *)

Record sessionRecord := mkSessionRecord {
  se_id : string;
  se_agentID : string;
  se_createdAt : Z
}.

(** The sessions whose mutex is held, the sessions that are known, and those marked
    active. *)
Record SessionTurns := mkSessionTurns {
  tn_locked : gset string;
  tn_known : gmap string sessionRecord;
  tn_active : gset string
}.

Definition NewSessionTurns : SessionTurns := mkSessionTurns ∅ ∅ ∅.

Definition Track (now : Z) (sessionID agentID : string) (s : SessionTurns) : SessionTurns :=
  mkSessionTurns (tn_locked s) (<[sessionID := mkSessionRecord sessionID agentID now]> (tn_known s)) (tn_active s).

Definition IsKnown (sessionID : string) (s : SessionTurns) : bool := bool_decide (is_Some (tn_known s !! sessionID)).

(** In no particular order; the time in seconds. *)
Definition KnownSessions (s : SessionTurns) : list (string * string * Z) :=
  map (fun r => (se_id r.2, se_agentID r.2, se_createdAt r.2 / 1000000000)) (map_to_list (tn_known s)).

(** The atomic steps: [TryLock] of the session's mutex, marking it active, unmarking
    it, and [Unlock]. *)
Definition try_lock (sessionID : string) (s : SessionTurns) : SessionTurns * bool :=
  if bool_decide (sessionID ∈ tn_locked s) then (s, false)
  else (mkSessionTurns ({[sessionID]} ∪ tn_locked s) (tn_known s) (tn_active s), true).
Definition mark_active (sessionID : string) (s : SessionTurns) : SessionTurns :=
  mkSessionTurns (tn_locked s) (tn_known s) ({[sessionID]} ∪ tn_active s).
Definition unmark_active (sessionID : string) (s : SessionTurns) : SessionTurns :=
  mkSessionTurns (tn_locked s) (tn_known s) (tn_active s ∖ {[sessionID]}).
Definition unlock (sessionID : string) (s : SessionTurns) : SessionTurns :=
  mkSessionTurns (tn_locked s ∖ {[sessionID]}) (tn_known s) (tn_active s).

Definition TryAcquire (sessionID : string) (s : SessionTurns) : SessionTurns * bool :=
  match try_lock sessionID s with
  | (s, false) => (s, false)
  | (s, true) => (mark_active sessionID s, true)
  end.

(** The closure [TryAcquire] returns. *)
Definition release (sessionID : string) (s : SessionTurns) : SessionTurns := unlock sessionID (unmark_active sessionID s).

Definition ActiveCount (s : SessionTurns) : Z := Z.of_nat (size (tn_active s)).

(** [Acquire] polls: an event is the end of the context, or a tick with the registry as
    it is then.  [None] while it waits. *)
Fixpoint acquire_poll (sessionID : string) (events : list (option SessionTurns)) : option (result SessionTurns) :=
  match events with
  | [] => None
  | None :: _ => Some (Err (Errorf "context done" []))
  | Some s :: events =>
    match TryAcquire sessionID s with
    | (s, true) => Some (Ok s)
    | (_, false) => acquire_poll sessionID events
    end
  end.

Definition Acquire (sessionID : string) (s : SessionTurns) (events : list (option SessionTurns)) : option (result SessionTurns) :=
  match TryAcquire sessionID s with
  | (s, true) => Some (Ok s)
  | (_, false) => acquire_poll sessionID events
  end.
