(* ===== verification/AutoReplyProps.v ===== *)
(** What session turns, session queues and steering mailboxes guarantee. *)

From Stdlib Require Import Ascii String Sorted.
From stdpp Require Import base tactics decidable list gmap strings relations sorting.
From S2P Require Import Prelude Sorting AutoReply.

(** ** One turn per session *)

(** Where a goroutine is: after [TryLock], holding the turn, or leaving it. *)
Inductive turn_pc :=
  | Entering (session : string)
  | Holding (session : string)
  | Leaving (session : string).

Definition session_of (pc : turn_pc) : string :=
  match pc with Entering s | Holding s | Leaving s => s end.

Definition turns_state : Type := SessionTurns * gmap nat turn_pc.

(** The interleaved steps of goroutines that call each closure they are given once. *)
Inductive turn_step : turns_state -> turns_state -> Prop :=
  | step_track now sessionID agentID s g : turn_step (s, g) (Track now sessionID agentID s, g)
  | step_lock i sessionID s s' g :
      g !! i = None -> try_lock sessionID s = (s', true) -> turn_step (s, g) (s', <[i := Entering sessionID]> g)
  | step_busy sessionID s s' g : try_lock sessionID s = (s', false) -> turn_step (s, g) (s', g)
  | step_mark i sessionID s g :
      g !! i = Some (Entering sessionID) -> turn_step (s, g) (mark_active sessionID s, <[i := Holding sessionID]> g)
  | step_unmark i sessionID s g :
      g !! i = Some (Holding sessionID) -> turn_step (s, g) (unmark_active sessionID s, <[i := Leaving sessionID]> g)
  | step_unlock i sessionID s g :
      g !! i = Some (Leaving sessionID) -> turn_step (s, g) (unlock sessionID s, delete i g).

Definition turns_ok (x : turns_state) : Prop :=
  let '(s, g) := x in
  (forall i j pi pj, g !! i = Some pi -> g !! j = Some pj -> session_of pi = session_of pj -> i = j)
  /\ (forall id, id ∈ tn_locked s <-> exists i p, g !! i = Some p /\ session_of p = id)
  /\ (forall id, id ∈ tn_active s <-> exists i, g !! i = Some (Holding id)).

(** A goroutine whose session stays the same moves on. *)
Lemma turn_moves i p p' (g : gmap nat turn_pc) s active :
  g !! i = Some p -> session_of p' = session_of p -> turns_ok (s, g) ->
  (forall id, id ∈ active <-> exists j, <[i := p']> g !! j = Some (Holding id)) ->
  turns_ok (mkSessionTurns (tn_locked s) (tn_known s) active, <[i := p']> g).
Proof.
  intros Hi Hp (Huniq & Hlock & _) Hact. split; [|split; [|exact Hact]].
  - intros j k pj pk Hj Hk He. apply lookup_insert_Some in Hj as [[<- <-]|[_ Hj]], Hk as [[<- <-]|[_ Hk]]; try done.
    + eapply Huniq; [exact Hi|exact Hk|congruence].
    + eapply Huniq; [exact Hj|exact Hi|congruence].
    + by eapply Huniq.
  - intros id. cbn. rewrite Hlock. split; intros (j & q & Hj & Hq).
    + destruct (decide (i = j)) as [<-|Hne]; [exists i, p'|exists j, q]; rewrite ?lookup_insert_eq, ?lookup_insert_ne by done.
      * split; [done|]. congruence.
      * done.
    + apply lookup_insert_Some in Hj as [[<- <-]|[_ Hj]]; [exists i, p|exists j, q]; split; congruence.
Qed.

Lemma turn_step_ok x y : turn_step x y -> turns_ok x -> turns_ok y.
Proof.
  intros Hs Hok.
  destruct Hs as [now id a s g|i id s s' g Hi Ht|id s s' g Ht|i id s g Hi|i id s g Hi|i id s g Hi]; [done|..].
  - unfold try_lock in Ht. case_bool_decide as Hin; [done|]. injection Ht as <-. destruct Hok as (Huniq & Hlock & Hact).
    assert (forall j p, g !! j = Some p -> session_of p <> id) as Hfresh by (intros j p Hj E; apply Hin, Hlock; eauto).
    split; [|split].
    + intros j k pj pk Hj Hk He. apply lookup_insert_Some in Hj as [[<- <-]|[_ Hj]], Hk as [[<- <-]|[_ Hk]]; try done;
        [by apply Hfresh in Hk; cbn in He|by apply Hfresh in Hj; cbn in He|by eapply Huniq].
    + intros id'. cbn. rewrite elem_of_union, elem_of_singleton, Hlock. split.
      * intros [->|(j & p & Hj & Hp)]; [exists i, (Entering id); by rewrite lookup_insert_eq|]. exists j, p.
        split; [|done]. rewrite lookup_insert_ne; [done|]. congruence.
      * intros (j & p & Hj & Hp). apply lookup_insert_Some in Hj as [[<- <-]|[_ Hj]]; [by left|right; eauto].
    + intros id'. cbn. rewrite Hact. split; intros [j Hj].
      * exists j. rewrite lookup_insert_ne; [done|]. congruence.
      * apply lookup_insert_Some in Hj as [[_ ?]|[_ Hj]]; [done|eauto].
  - unfold try_lock in Ht. case_bool_decide; by injection Ht as <-.
  - eapply turn_moves; [exact Hi|done|done|]. destruct Hok as (_ & _ & Hact). intros id'.
    rewrite elem_of_union, elem_of_singleton, Hact. split.
    + intros [->|[j Hj]]; [exists i; by rewrite lookup_insert_eq|]. exists j. rewrite lookup_insert_ne; [done|]. congruence.
    + intros [j Hj]. apply lookup_insert_Some in Hj as [[<- [= <-]]|[_ Hj]]; [by left|right; eauto].
  - eapply turn_moves; [exact Hi|done|done|]. destruct Hok as (Huniq & _ & Hact). intros id'.
    rewrite elem_of_difference, elem_of_singleton, Hact. split.
    + intros [[j Hj] Hne]. exists j. rewrite lookup_insert_ne; [done|]. intros ->. congruence.
    + intros [j Hj]. apply lookup_insert_Some in Hj as [[_ ?]|[Hne Hj]]; [done|]. split; [eauto|].
      intros ->. by apply Hne, (Huniq i j _ _ Hi Hj).
  - destruct Hok as (Huniq & Hlock & Hact). split; [|split].
    + intros j k pj pk Hj Hk. apply lookup_delete_Some in Hj as [_ Hj], Hk as [_ Hk]. by apply Huniq.
    + intros id'. cbn. rewrite elem_of_difference, elem_of_singleton, Hlock. split.
      * intros [(j & p & Hj & Hp) Hne]. exists j, p. split; [|done]. rewrite lookup_delete_ne; [done|].
        intros ->. rewrite Hi in Hj. injection Hj as <-. by apply Hne.
      * intros (j & p & Hj & Hp). apply lookup_delete_Some in Hj as [Hne Hj]. split; [eauto|].
        intros ->. by apply Hne, (Huniq i j _ _ Hi Hj).
    + intros id'. cbn. rewrite Hact. split; intros [j Hj].
      * exists j. rewrite lookup_delete_ne; [done|]. congruence.
      * apply lookup_delete_Some in Hj as [_ Hj]. eauto.
Qed.

(** However the steps of goroutines interleave, at most one of them is in the turn of
    a session, from its lock to its unlock; a session is refused exactly while some
    goroutine is in its turn; and the sessions counted as active are exactly those whose
    turn is held. *)
Theorem one_turn_per_session s g :
  rtc turn_step (NewSessionTurns, ∅) (s, g) ->
  (forall i j pi pj, g !! i = Some pi -> g !! j = Some pj -> session_of pi = session_of pj -> i = j)
  /\ (forall id, (TryAcquire id s).2 = false <-> exists i p, g !! i = Some p /\ session_of p = id)
  /\ (forall id, id ∈ tn_active s <-> exists i, g !! i = Some (Holding id)).
Proof.
  intros Hr. assert (turns_ok (s, g)) as (Huniq & Hlock & Hact).
  { assert (turns_ok (NewSessionTurns, ∅)) as H0.
    { split; [by intros i j p q Hi; rewrite lookup_empty in Hi|]. cbn.
      split; intros id; (split; [by intros ?%not_elem_of_empty|]); intros [i Hi]; [destruct Hi as (p & Hi & _)|];
        by rewrite lookup_empty in Hi. }
    revert H0. induction Hr as [|x y z Hs _ IH]; [done|]. intros H0. apply IH. by eapply turn_step_ok. }
  split; [done|]. split; [|done]. intros id. rewrite <- Hlock. unfold TryAcquire, try_lock.
  case_bool_decide; cbn; [done|]. by split.
Qed.

(** Two goroutines at two sessions, and a third that finds one of them busy. *)
Definition busy_turns : SessionTurns := mark_active "a" (try_lock "b" (try_lock "a" NewSessionTurns).1).1.
Definition busy_goroutines : gmap nat turn_pc := <[1%nat := Holding "a"]> (<[2%nat := Entering "b"]> (<[1%nat := Entering "a"]> ∅)).

Lemma busy_reached : rtc turn_step (NewSessionTurns, ∅) (busy_turns, busy_goroutines).
Proof.
  eapply rtc_l; [by refine (step_lock 1 "a" _ _ _ _ _)|]. eapply rtc_l; [by refine (step_lock 2 "b" _ _ _ _ _)|].
  apply rtc_once. by refine (step_mark 1 "a" _ (<[2%nat := Entering "b"]> (<[1%nat := Entering "a"]> ∅)) _).
Qed.

Lemma one_turn_per_session_witness : (TryAcquire "a" busy_turns).2 = false /\ (TryAcquire "c" busy_turns).2 = true.
Proof.
  destruct (one_turn_per_session _ _ busy_reached) as (_ & H & _). split; [|vm_compute; reflexivity].
  apply (proj2 (H "a")). exists 1%nat, (Holding "a"). split; vm_compute; reflexivity.
Defined.

(** A closure called twice releases the turn of the goroutine that came after. *)
Example second_release_frees_the_next_turn :
  let s := (TryAcquire "a" (release "a" (TryAcquire "a" NewSessionTurns).1)).1 in
  (TryAcquire "a" s).2 = false /\ (TryAcquire "a" (release "a" s)).2 = true.
Proof. vm_compute. by split. Qed.

(** ** What becomes of staged messages *)

(** Filing an item keeps its identifier. *)
Class StagedLaws (M : Type) `{Staged M} := filed_id : forall now m, st_EventID (st_filed now m) = st_EventID m.
#[export] Instance pending_laws : StagedLaws PendingTurn.
Proof. done. Qed.
#[export] Instance steering_laws : StagedLaws SteeringMessage.
Proof. done. Qed.


Section Accounts.
Context {M : Type} `{StagedLaws M}.

(** The operations on a box, with what was accepted, delivered and dropped so far, and
    the time of the last one.  Clocks do not run backwards. *)
Record account := mkAccount {
  ac_box : Box M;
  ac_accepted : list (Z * M);
  ac_delivered : list M;
  ac_dropped : list M;
  ac_now : Z
}.

Definition drop_of (now : Z) (m : M) (b : Box M) : list M :=
  if full (pruneRecentIDs now b) && (eo_Accepted (box_enqueue now m b).2) then take 1 (bx_items b) else [].

Inductive box_step : account -> account -> Prop :=
  | step_enqueue now m a : ac_now a <= now ->
      box_step a (mkAccount (box_enqueue now m (ac_box a)).1
        (if eo_Accepted (box_enqueue now m (ac_box a)).2 then ac_accepted a ++ [(now, m)] else ac_accepted a)
        (ac_delivered a) (ac_dropped a ++ drop_of now m (ac_box a)) now)
  | step_take a : box_step a (mkAccount (emptied (ac_box a)) (ac_accepted a) (ac_delivered a ++ bx_items (ac_box a)) (ac_dropped a) (ac_now a))
  | step_configure cap policy a :
      box_step a (mkAccount (box_configure cap policy (ac_box a)) (ac_accepted a) (ac_delivered a) (ac_dropped a) (ac_now a)).

Definition opened (cap : Z) (policy : string) (now : Z) : account := mkAccount (NewBox cap policy) [] [] [] now.

(** The items accepted, as they were filed. *)
Definition filed (xs : list (Z * M)) : list M := map (fun x => st_filed x.1 x.2) xs.

(** Two accepted items with one identifier are further apart than the window. *)
Definition apart (xs : list (Z * M)) : Prop :=
  StronglySorted (fun x y => st_EventID x.2 <> "" -> st_EventID x.2 = st_EventID y.2 -> defaultSeenTTL < y.1 - x.1) xs.

(** Every accepted item is remembered while the window lasts. *)
Definition remembers (now : Z) (ids : gmap string Z) (xs : list (Z * M)) : Prop :=
  Forall (fun x => x.1 <= now /\ (st_EventID x.2 <> "" -> defaultSeenTTL < now - x.1
    \/ exists t, ids !! st_EventID x.2 = Some t /\ x.1 <= t)) xs.

Definition account_ok (a : account) : Prop :=
  (exists prefix, filed (ac_accepted a) = prefix ++ bx_items (ac_box a) /\ prefix ≡ₚ ac_delivered a ++ ac_dropped a)
  /\ apart (ac_accepted a) /\ remembers (ac_now a) (bx_recentIDs (ac_box a)) (ac_accepted a)
  /\ (length (bx_droppedLines (ac_box a)) <= maxDroppedLines)%nat /\ bx_seenTTL (ac_box a) = defaultSeenTTL.

Lemma last_lines_length lines : (length (last_lines lines) <= maxDroppedLines)%nat.
Proof. unfold last_lines. destruct (Nat.ltb_spec maxDroppedLines (length lines)); [rewrite length_drop|]; lia. Qed.

Lemma prune_recent now (b : Box M) id t :
  bx_seenTTL b = defaultSeenTTL ->
  bx_recentIDs (pruneRecentIDs now b) !! id = Some t <-> bx_recentIDs b !! id = Some t /\ ~ defaultSeenTTL < now - t.
Proof.
  intros Ht. unfold pruneRecentIDs. rewrite Ht. change (defaultSeenTTL <=? 0) with false. cbv iota. cbn [bx_recentIDs].
  by rewrite map_lookup_filter_Some.
Qed.

Lemma prune_same now (b : Box M) :
  bx_items (pruneRecentIDs now b) = bx_items b /\ bx_droppedLines (pruneRecentIDs now b) = bx_droppedLines b
  /\ bx_cap (pruneRecentIDs now b) = bx_cap b /\ bx_dropPolicy (pruneRecentIDs now b) = bx_dropPolicy b
  /\ bx_seenTTL (pruneRecentIDs now b) = bx_seenTTL b.
Proof. unfold pruneRecentIDs. by destruct (bx_seenTTL b <=? 0). Qed.

(** What an enqueue does: it refuses the item and keeps the items, or files it behind
    them, the first of which it may drop. *)
Lemma enqueue_cases now m (b : Box M) :
  bx_seenTTL b = defaultSeenTTL -> (length (bx_droppedLines b) <= maxDroppedLines)%nat ->
  let '(b', o) := box_enqueue now m b in
  bx_seenTTL b' = defaultSeenTTL /\ bx_cap b' = bx_cap b /\ (length (bx_droppedLines b') <= maxDroppedLines)%nat
  /\ if eo_Accepted o
     then bx_items b' = drop (length (drop_of now m b)) (bx_items b) ++ [st_filed now m]
       /\ bx_items b = drop_of now m b ++ drop (length (drop_of now m b)) (bx_items b)
       /\ seen_before now (st_EventID m) (pruneRecentIDs now b) = false
       /\ bx_recentIDs b' = (if st_EventID m !=? "" then <[st_EventID m := now]> (bx_recentIDs (pruneRecentIDs now b))
                             else bx_recentIDs (pruneRecentIDs now b))
       /\ (length (drop_of now m b) = if full b then 1 else 0)%nat
     else bx_items b' = bx_items b /\ bx_recentIDs b' = bx_recentIDs (pruneRecentIDs now b) /\ drop_of now m b = [].
Proof.
  intros Httl Hlines. unfold drop_of. destruct (prune_same now b) as (Hi & Hl & Hc & Hp & Ht).
  assert (full (pruneRecentIDs now b) = full b) as Hfull by (unfold full; by rewrite Hi, Hc). rewrite Hfull.
  unfold box_enqueue. rewrite Hfull. set (b0 := pruneRecentIDs now b) in *.
  destruct (seen_before now (st_EventID m) b0) eqn:Hseen.
  { cbn [eo_Accepted snd]. rewrite andb_false_r. rewrite Ht, Hc, Hl, Hi. done. }
  destruct (full b) eqn:Hf.
  - unfold make_room. rewrite Hi, Hp. destruct (bx_dropPolicy b ==? QueueDropNewest).
    { cbn [eo_Accepted snd]. rewrite Ht, Hc, Hl, Hi. done. }
    destruct (bx_items b) as [|oldest items] eqn:Eb.
    { unfold full in Hf. rewrite Eb in Hf. cbn in Hf. apply andb_true_iff in Hf as [?%Z.ltb_lt ?%Z.leb_le]. lia. }
    cbn. rewrite Ht, Hc. repeat split; try done. case_match; [by rewrite Hl|]. apply last_lines_length.
  - cbn [eo_Accepted snd andb length drop app]. unfold put_item. cbn. rewrite Ht, Hc, Hl, Hi. done.
Qed.

Lemma unseen_is_late now id (b : Box M) t :
  bx_seenTTL b = defaultSeenTTL -> id <> "" -> seen_before now id (pruneRecentIDs now b) = false ->
  bx_recentIDs b !! id = Some t -> defaultSeenTTL < now - t.
Proof.
  intros Httl Hid Hs Ht. destruct (decide (defaultSeenTTL < now - t)) as [|Hnot]; [done|].
  assert (bx_recentIDs (pruneRecentIDs now b) !! id = Some t) as Hp by by apply prune_recent.
  unfold seen_before in Hs. rewrite Hp in Hs. destruct (prune_same now b) as (_ & _ & _ & _ & Hsame).
  rewrite Hsame, Httl in Hs. destruct (String.eqb_spec id "") as [|_]; [done|].
  apply andb_false_iff in Hs as [Hs|Hs]; [done|]. apply orb_false_iff in Hs as [_ Hs]. apply Z.leb_gt in Hs. lia.
Qed.

Lemma remembers_pruned now0 now (b : Box M) xs :
  bx_seenTTL b = defaultSeenTTL -> now0 <= now -> remembers now0 (bx_recentIDs b) xs ->
  remembers now (bx_recentIDs (pruneRecentIDs now b)) xs.
Proof.
  intros Httl Hnow Hrem. eapply Forall_impl; [exact Hrem|]. cbn. intros [t0 m0] [Hle Hx]. cbn in *. split; [lia|].
  intros Hid. destruct (Hx Hid) as [|(t & Ht & Hle')]; [left; lia|].
  destruct (decide (defaultSeenTTL < now - t)) as [|Hn]; [left; lia|]. right. exists t. split; [|done]. by apply prune_recent.
Qed.

Lemma remembers_insert now ids id xs : remembers now ids xs -> remembers now (<[id := now]> ids) xs.
Proof.
  intros Hrem. eapply Forall_impl; [exact Hrem|]. cbn. intros [t0 m0] [Hle Hx]. cbn in *. split; [done|].
  intros Hid. destruct (Hx Hid) as [|(t & Ht & Hle')]; [by left|]. right.
  destruct (decide (id = st_EventID m0)) as [->|Hne]; [exists now|exists t]; by rewrite ?lookup_insert_eq, ?lookup_insert_ne.
Qed.

Lemma apart_snoc xs now m :
  apart xs -> Forall (fun x => st_EventID x.2 <> "" -> st_EventID x.2 = st_EventID m -> defaultSeenTTL < now - x.1) xs ->
  apart (xs ++ [(now, m)]).
Proof.
  unfold apart. induction xs as [|x xs IH]; intros Ha Hf; [repeat constructor|]. inversion Ha as [|? ? Ha' Hx]; subst.
  apply Forall_cons in Hf as [Hm Hf]. cbn. constructor; [by apply IH|]. apply Forall_app. split; [done|]. by repeat constructor.
Qed.

Lemma enqueue_step_ok now m a :
  ac_now a <= now -> account_ok a ->
  account_ok (mkAccount (box_enqueue now m (ac_box a)).1
    (if eo_Accepted (box_enqueue now m (ac_box a)).2 then ac_accepted a ++ [(now, m)] else ac_accepted a)
    (ac_delivered a) (ac_dropped a ++ drop_of now m (ac_box a)) now).
Proof.
  intros Hnow ((prefix & Hpre & Hperm) & Hap & Hrem & Hlines & Httl).
  pose proof (enqueue_cases now m (ac_box a) Httl Hlines) as Hc. pose proof (remembers_pruned _ now _ _ Httl Hnow Hrem) as Hpr.
  destruct (box_enqueue now m (ac_box a)) as [b' o]. destruct Hc as (Httl' & _ & Hlines' & Hc). unfold account_ok. cbn.
  destruct (eo_Accepted o).
  - destruct Hc as (Hit & Hsplit & Hseen & Hids & _). split; [|split; [|split; [|done]]].
    + exists (prefix ++ drop_of now m (ac_box a)). split; [|by rewrite Hperm, app_assoc].
      unfold filed in *. rewrite map_app, Hpre, Hit, Hsplit at 1. cbn. by rewrite <- !app_assoc.
    + apply apart_snoc; [done|]. eapply Forall_impl; [exact Hrem|]. cbn. intros [t0 m0] [_ Hx] Hid He. cbn in *.
      destruct (Hx Hid) as [|(t & Ht & Hle)]; [lia|]. rewrite He in Hid, Ht.
      pose proof (unseen_is_late _ _ _ _ Httl Hid Hseen Ht). lia.
    + rewrite Hids. apply Forall_app. split; [|constructor; [|done]].
      * destruct (st_EventID m !=? ""); [by apply remembers_insert|done].
      * cbn. split; [lia|]. intros Hid. right. exists now. destruct (String.eqb_spec (st_EventID m) ""); [done|].
        cbn. by rewrite lookup_insert_eq.
  - destruct Hc as (Hit & Hids & ->). rewrite app_nil_r, Hit, Hids. split; [by exists prefix|done].
Qed.

Lemma box_step_ok a a' : box_step a a' -> account_ok a -> account_ok a'.
Proof.
  intros Hs Hok. destruct Hs as [now m a Hnow|a|cap policy a]; [by apply enqueue_step_ok|..];
    destruct Hok as ((prefix & Hpre & Hperm) & Hap & Hrem & Hlines & Httl); unfold account_ok; cbn.
  - split; [|split; [done|split; [done|split; [unfold maxDroppedLines; lia|done]]]].
    exists (filed (ac_accepted a)). rewrite app_nil_r. split; [done|]. rewrite Hpre, Hperm.
    rewrite <- !app_assoc. by rewrite (Permutation_app_comm (ac_dropped a)).
  - split; [by exists prefix|done].
Qed.

Lemma opened_ok cap policy now0 a : rtc box_step (opened cap policy now0) a -> account_ok a.
Proof.
  intros Hr. assert (account_ok (opened cap policy now0)) as H1.
  { split; [by exists []|]. split; [constructor|]. split; [constructor|]. by split; [unfold maxDroppedLines; cbn; lia|]. }
  revert H1. induction Hr as [|x y z Hs _ IH]; [done|]. intros H1. apply IH. by eapply box_step_ok.
Qed.

(** C36: However enqueues, drains and changes of configuration follow each other on a
    session queue or a steering mailbox, every accepted item is still staged, in order
    of acceptance behind everything that left, or was delivered or dropped, once; two
    accepted items with one identifier are more than the window apart; and an enqueue
    refuses what is staged or recent, drops at most one item, and only from a full box,
    and keeps a box within its capacity. *)
Theorem staged_items_are_accounted_for cap policy now0 a :
  rtc box_step (opened cap policy now0) a ->
  (exists gone, filed (ac_accepted a) = gone ++ bx_items (ac_box a) /\ gone ≡ₚ ac_delivered a ++ ac_dropped a)
  /\ apart (ac_accepted a)
  /\ (forall now m, (length (drop_of now m (ac_box a)) <= if full (ac_box a) then 1 else 0)%nat
      /\ (0 < bx_cap (ac_box a) -> box_len (ac_box a) <= bx_cap (ac_box a) ->
          box_len (box_enqueue now m (ac_box a)).1 <= bx_cap (ac_box a))).
Proof.
  intros Hr. destruct (opened_ok _ _ _ _ Hr) as (Hacc & Hap & Hrem & Hlines & Httl).
  split; [done|]. split; [done|]. intros now m. pose proof (enqueue_cases now m (ac_box a) Httl Hlines) as Hc.
  unfold box_len. destruct (box_enqueue now m (ac_box a)) as [b' o]. cbn [fst]. destruct Hc as (_ & _ & _ & Hc).
  destruct (eo_Accepted o).
  - destruct Hc as (Hit & _ & _ & _ & Hd). rewrite Hd. split; [done|]. intros Hcap Hlen.
    rewrite Hit, length_app, length_drop, Hd. cbn [length]. unfold full in *.
    destruct (Z.leb_spec (bx_cap (ac_box a)) (Z.of_nat (length (bx_items (ac_box a))))); rewrite (proj2 (Z.ltb_lt 0 _)) by lia; cbn [andb]; lia.
  - destruct Hc as (Hit & _ & ->). rewrite Hit. split; [cbn; lia|done].
Qed.
End Accounts.

(** ** Drained steering goes back *)

#[export] Instance time_before_order : WeakOrder (fun x y => time_before (sm_EnqueuedAt x) (sm_EnqueuedAt y)).
Proof.
  split; intros x y; [|intros z]; unfold time_before; destruct (sm_EnqueuedAt x), (sm_EnqueuedAt y);
    try destruct (sm_EnqueuedAt z); try done; rewrite ?Z.ltb_lt, ?Z.ltb_ge; lia.
Qed.
#[export] Instance drains_before_order : WeakOrder drains_before.
Proof. unfold drains_before. apply _. Qed.

(** An item as it is filed: with a priority, a summary and a time. *)
Definition well_filed (m : SteeringMessage) : Prop :=
  sm_Priority m <> "" /\ sm_SummaryLine m <> "" /\ is_Some (sm_EnqueuedAt m).

(** Identifiers are those that are not empty. *)
Definition distinct_ids (items : list SteeringMessage) : Prop :=
  NoDup (filter (fun id => id <> "") (map sm_EventID items)).

Lemma filled_again now m : well_filed m -> sm_filled (Some (default now (sm_EnqueuedAt m))) m = m.
Proof.
  intros (Hp & Hs & [t Ht]). destruct m as [text id sender ch th ag prof tools created at_ src prio line]. cbn in *.
  rewrite Ht. unfold sm_filled. cbn. destruct (String.eqb_spec prio ""); [done|].
  by destruct (String.eqb_spec line "").
Qed.

Lemma restore_all now items : forall existing b,
  Forall well_filed items -> distinct_ids items ->
  (forall m, m ∈ items -> sm_EventID m <> "" -> sm_EventID m ∉ existing) ->
  let '(b', n) := restore_items now items existing b in
  bx_items b' = bx_items b ++ items /\ bx_droppedLines b' = bx_droppedLines b /\ n = Z.of_nat (length items).
Proof.
  unfold distinct_ids. induction items as [|m items IH]; intros existing b Hw Hd Hnew; cbn; [by rewrite app_nil_r|].
  inv Hw. rewrite filled_again by done. destruct (String.eqb_spec (sm_EventID m) "") as [He|He].
  - cbn [map] in Hd. rewrite filter_cons_False in Hd by (by intros ?). cbn.
    match goal with |- context [restore_items now items ?e ?c] => specialize (IH e c); destruct (restore_items now items e c) as [b' n] end.
    destruct IH as (Hi & Hl & ->); [done|done|intros x Hx; apply Hnew; by right|]. rewrite Hi, Hl. cbn.
    rewrite <- app_assoc. split; [done|]. split; [done|lia].
  - rewrite bool_decide_eq_false_2 by (apply Hnew; [by left|done]). cbn.
    cbn [map] in Hd. rewrite filter_cons_True in Hd by done. inv Hd.
    match goal with |- context [restore_items now items ?e ?c] => specialize (IH e c); destruct (restore_items now items e c) as [b' n] end.
    destruct IH as (Hi & Hl & ->); [done|done| |rewrite Hi, Hl; cbn; rewrite <- app_assoc; split; [done|split; [done|lia]]].
    intros x Hx Hxe. rewrite not_elem_of_union, not_elem_of_singleton. split; [|apply Hnew; [by right|done]].
    intros E. match goal with H : sm_EventID m ∉ _ |- _ => apply H end. rewrite <- E.
    apply list_elem_of_filter. split; [done|]. by apply list_elem_of_fmap_2.
Qed.

Lemma header_keeps title lines items :
  map sm_EventID (with_header title lines items) = map sm_EventID items
  /\ (Forall well_filed items -> Forall well_filed (with_header title lines items))
  /\ (in_order drains_before items -> in_order drains_before (with_header title lines items)).
Proof.
  destruct lines as [|line lines], items as [|m items]; cbn; [done..|]. split; [done|].
  split; intros Hm; inv Hm; constructor; try done.
Qed.

Lemma drained_ok m :
  Forall well_filed (bx_items (mb_box m)) -> distinct_ids (bx_items (mb_box m)) ->
  Forall well_filed (Drain m).2 /\ distinct_ids (Drain m).2 /\ in_order drains_before (Drain m).2
  /\ map sm_EventID (Drain m).2 ≡ₚ map sm_EventID (bx_items (mb_box m)).
Proof.
  unfold distinct_ids, Drain. intros Hw Hd. destruct (bx_items (mb_box m)) as [|x items] eqn:E; [by repeat constructor|].
  clear E. cbn [snd]. set (l := x :: items) in *. clearbody l. clear x items.
  destruct (header_keeps "[Some steering messages were dropped while agent was busy]" (bx_droppedLines (mb_box m)) (sort_by drains_before l)) as (Hids & Hwf & Hord).
  pose proof (sort_by_perm drains_before l) as Hp. rewrite Hids.
  assert (map sm_EventID (sort_by drains_before l) ≡ₚ map sm_EventID l) as Hpm by (by apply Permutation_map).
  split; [apply Hwf; by rewrite Hp|]. split; [|split; [exact (Hord (sort_by_in_order _ l))|exact Hpm]].
  by rewrite Hpm.
Qed.

Lemma restored_behind now items later :
  Forall well_filed items -> distinct_ids items ->
  (forall x, x ∈ items -> sm_EventID x <> "" -> sm_EventID x ∉ map sm_EventID (bx_items (mb_box later))) ->
  bx_items (mb_box (RestoreDrained now items later).1) = bx_items (mb_box later) ++ items
  /\ bx_droppedLines (mb_box (RestoreDrained now items later).1) = bx_droppedLines (mb_box later)
  /\ (RestoreDrained now items later).2 = Z.of_nat (length items).
Proof.
  intros Hw Hd Hnew. unfold RestoreDrained. destruct items as [|x items]; [by rewrite app_nil_r|].
  set (l := x :: items) in *. clearbody l. destruct (prune_same now (mb_box later)) as (Hi & Hl & _).
  pose proof (restore_all now l (staged_ids (bx_items (pruneRecentIDs now (mb_box later)))) (pruneRecentIDs now (mb_box later)) Hw Hd) as H.
  destruct (restore_items now l _ (pruneRecentIDs now (mb_box later))) as [b n]. cbn [fst snd mb_box].
  rewrite <- Hi, <- Hl. destruct H as (H1 & H2 & H3); [|done].
  intros y Hy Hye. unfold staged_ids. rewrite elem_of_list_to_set, Hi, list_elem_of_In, filter_In, <- list_elem_of_In.
  intros [Hin _]. by apply (Hnew y).
Qed.

(** C37: Steering messages that a failed turn had drained go back behind what arrived
    since, whatever the capacity and however recently they were seen; and put back into
    the drained mailbox they are drained again as they were. *)
Theorem drained_steering_is_restored now m later :
  Forall well_filed (bx_items (mb_box m)) -> distinct_ids (bx_items (mb_box m)) ->
  let '(m', items) := Drain m in
  ((forall x, x ∈ items -> sm_EventID x <> "" -> sm_EventID x ∉ map sm_EventID (bx_items (mb_box later))) ->
   bx_items (mb_box (RestoreDrained now items later).1) = bx_items (mb_box later) ++ items
   /\ (RestoreDrained now items later).2 = Z.of_nat (length items))
  /\ (Drain (RestoreDrained now items m').1).2 = items.
Proof.
  intros Hw Hd. destruct (drained_ok m Hw Hd) as (Hw' & Hd' & Hord & _).
  assert (bx_items (mb_box (Drain m).1) = [] /\ bx_droppedLines (mb_box (Drain m).1) = [] \/ (Drain m).2 = [] /\ (Drain (Drain m).1).2 = []) as Hempty.
  { unfold Drain. destruct (bx_items (mb_box m)) eqn:E; [right|by left].
    cbn [fst snd]. by rewrite E. }
  destruct (Drain m) as [m' items]. cbn [fst snd] in *.
  assert (forall l, (forall x, x ∈ items -> sm_EventID x <> "" -> sm_EventID x ∉ map sm_EventID (bx_items (mb_box l))) ->
    bx_items (mb_box (RestoreDrained now items l).1) = bx_items (mb_box l) ++ items
    /\ bx_droppedLines (mb_box (RestoreDrained now items l).1) = bx_droppedLines (mb_box l)
    /\ (RestoreDrained now items l).2 = Z.of_nat (length items)) as Hr.
  { intros l Hl. by apply restored_behind. }
  split; [by intros Hl; destruct (Hr later Hl) as (? & _ & ?)|].
  destruct Hempty as [[He Hl]|[-> H0]]; [|done].
  destruct (Hr m') as (Hi & Hls & _); [intros x _ _; rewrite He; apply not_elem_of_nil|].
  rewrite He in Hi. rewrite Hl in Hls. unfold Drain. rewrite Hi, Hls. cbn [app].
  destruct items; [done|]. cbn [snd with_header]. by rewrite sort_by_id.
Qed.

(** ** Examples *)

Definition turn_of (id text : string) : PendingTurn := mkPendingTurn text id "npub" "" "" [] 0 None "".
Definition steering_of (id text priority : string) : SteeringMessage :=
  mkSteeringMessage text id "npub" "" "" "" "" [] 0 None "dm" priority "".

(** A second message pushes the first out of a queue for one, and is delivered. *)
Definition one_slot : account (M:=PendingTurn) := opened 1 "" 0.
Definition first_in : account (M:=PendingTurn) := mkAccount (box_enqueue 5 (turn_of "e1" "one") (ac_box one_slot)).1 [(5, turn_of "e1" "one")] [] [] 5.
Definition second_in : account (M:=PendingTurn) :=
  mkAccount (box_enqueue 6 (turn_of "e2" "two") (ac_box first_in)).1 [(5, turn_of "e1" "one"); (6, turn_of "e2" "two")]
    [] [pt_filed 5 (turn_of "e1" "one")] 6.

Lemma second_reached : rtc box_step one_slot second_in.
Proof.
  eapply rtc_l; [exact (step_enqueue 5 (turn_of "e1" "one") one_slot ltac:(done))|].
  apply rtc_once. exact (step_enqueue 6 (turn_of "e2" "two") first_in ltac:(done)).
Qed.

Lemma staged_items_are_accounted_for_witness :
  apart (ac_accepted second_in) /\ box_len (box_enqueue 7 (turn_of "e3" "three") (ac_box second_in)).1 <= 1.
Proof.
  destruct (staged_items_are_accounted_for 1 "" 0 second_in second_reached) as (_ & Hap & H). split; [exact Hap|].
  refine (proj2 (H 7 (turn_of "e3" "three")) _ _); vm_compute; [reflexivity|discriminate].
Defined.

(** Two messages, one of them urgent, drained and put back. *)
Definition two_staged : SteeringMailbox :=
  (EnqueueWithOutcome 6 (steering_of "e2" "stop" "urgent")
    (EnqueueWithOutcome 5 (steering_of "e1" "one" "") (NewSteeringMailbox 1 "")).1).1.
Definition two_kept : SteeringMailbox :=
  (EnqueueWithOutcome 6 (steering_of "e2" "stop" "urgent")
    (EnqueueWithOutcome 5 (steering_of "e1" "one" "") (NewSteeringMailbox 10 "")).1).1.

Lemma drained_steering_is_restored_witness :
  map sm_EventID (Drain (RestoreDrained 9 (Drain two_kept).2 (Drain two_kept).1).1).2 = ["e2"; "e1"]
  /\ map sm_EventID (bx_items (mb_box (RestoreDrained 9 (Drain two_kept).2 (NewSteeringMailbox 1 "")).1)) = ["e2"; "e1"].
Proof.
  assert (Forall well_filed (bx_items (mb_box two_kept))) as Hw
    by (repeat constructor; vm_compute; first [discriminate|eexists; reflexivity]).
  assert (distinct_ids (bx_items (mb_box two_kept))) as Hd by (apply (bool_decide_unpack _); vm_compute; exact I).
  pose proof (drained_steering_is_restored 9 two_kept (NewSteeringMailbox 1 "") Hw Hd) as H.
  destruct (Drain two_kept) as [m' items] eqn:E. destruct H as [H1 H2]. cbn [fst snd]. rewrite H2.
  rewrite (proj1 (H1 ltac:(intros x _ _; apply not_elem_of_nil))). vm_compute in E. injection E as <- <-. split; reflexivity.
Defined.

(** Putting the same messages back with [Enqueue] would refuse them. *)
Example drained_steering_is_not_accepted_again :
  let '(m', items) := Drain two_kept in map (fun x => (Mailbox_Enqueue 9 x m').2) items = [false; false].
Proof. vm_compute. reflexivity. Qed.

(** What is restored is behind what came later, so that an overflow drops the later
    message first. *)
Example overflow_after_restore_drops_the_newest :
  let '(m', items) := Drain two_kept in
  let later := (EnqueueWithOutcome 7 (steering_of "e3" "three" "") (Mailbox_Configure 3 "" m')).1 in
  let restored := (RestoreDrained 8 items later).1 in
  map sm_EventID (bx_items (mb_box (EnqueueWithOutcome 9 (steering_of "e4" "four" "") restored).1)) = ["e2"; "e1"; "e4"].
Proof. vm_compute. reflexivity. Qed.

(** An urgent message is dropped for a normal one. *)
Example urgent_message_is_dropped_for_a_normal_one :
  let m := (EnqueueWithOutcome 5 (steering_of "e1" "stop" "urgent") (NewSteeringMailbox 1 "")).1 in
  map sm_EventID (bx_items (mb_box (EnqueueWithOutcome 6 (steering_of "e2" "hello" "") m).1)) = ["e2"].
Proof. vm_compute. reflexivity. Qed.

(** A smaller capacity does not shrink a box, and later enqueues keep it too long. *)
Example configured_box_stays_over_capacity :
  let m := Mailbox_Configure 1 "" two_kept in
  Mailbox_Len (EnqueueWithOutcome 7 (steering_of "e3" "three" "") m).1 = 2.
Proof. vm_compute. reflexivity. Qed.

(** A summary is cut between bytes: here after the first byte of a letter of two, and
    before the ellipsis of three. *)
Example summary_cuts_a_letter :
  let text := String.concat "" (repeat "a" 79) +:+ "é" +:+ "b" in
  map (fun i => option_map nat_of_ascii (String.get i (cut_text text 80))) (seq 79 3) = [Some 195%nat; Some 226%nat; Some 128%nat].
Proof. vm_compute. reflexivity. Qed.

(** A goroutine that took its queue from the registry before another deleted it as empty
    stages its message where no one looks: the next [Get] makes a new queue. *)
Example message_for_a_deleted_queue_is_lost :
  let '(r, p) := Registry_Get "s" (NewSessionQueueRegistry 10 "") in
  let r := Registry_Delete "s" r in
  let '(r, accepted) := on_queue p false (Enqueue 5 (turn_of "e1" "one")) r in
  let '(r, p') := Registry_Get "s" r in
  accepted = true /\ p' <> p /\ (on_queue p' [] Dequeue r).2 = [].
Proof. vm_compute. split; [reflexivity|]. split; [discriminate|reflexivity]. Qed.

(** The same between an enqueue of steering and a [Delete] of the session's mailbox. *)
Example steering_for_a_deleted_mailbox_is_lost :
  let '(r, p) := Mailboxes_Get "s" (NewSteeringMailboxRegistry 10 "") in
  let r := Mailboxes_Delete "s" r in
  let '(r, accepted) := on_mailbox p false (Mailbox_Enqueue 5 (steering_of "e1" "one" "")) r in
  accepted = true /\ Mailboxes_GetIfExists "s" r = None.
Proof. vm_compute. by split. Qed.
