(* ===== verification/Checkpoints.v ===== *)
(** The checkpoints of the daemon: cmd/metiqd/main_trackers.go (ingested direct messages,
    indexed memories, control requests and their responses) and
    gateway/controlreplay/controlreplay.go.

    Every method is one critical section; the write of the checkpoint document follows
    it, outside.  Times are in seconds; the clock is read once per call. *)

From Stdlib Require Import Ascii String.
From stdpp Require Import base tactics decidable list gmap strings.
From S2P Require Import Prelude.

(** ** Checkpoint state *)

Definition checkpointRecentEventCap : nat := 2048.
Definition controlResponseCheckpointCap : nat := 256.
(** In seconds. *)
Definition controlResponseCheckpointTTL : Z := 30 * 60.

(** The loop of [normalizeCheckpointEventIDs]: what it has seen, and the room left. *)
Fixpoint normalize_ids (ids : list string) (seen : list string) (room : nat) : list string :=
  match ids with
  | [] => []
  | id :: ids =>
    let id := TrimSpace id in
    if (id ==? "") || bool_decide (id ∈ seen) then normalize_ids ids seen room
    else match room with
    | S (S room) => id :: normalize_ids ids (id :: seen) (S room)
    | _ => [id]
    end
  end.

Definition normalizeCheckpointEventIDs (ids : list string) : list string :=
  normalize_ids ids [] checkpointRecentEventCap.

Definition checkpointEventSeen (ids : list string) (eventID : string) : bool :=
  let eventID := TrimSpace eventID in
  (eventID !=? "") && existsb (fun existing => existing ==? eventID) ids.

Record checkpoint := mkCheckpoint {
  cp_lastEvent : string;
  cp_lastUnix : Z;
  cp_recentEventIDs : list string
}.

Definition checkpointAdvanceState (c : checkpoint) (eventID : string) (eventUnix : Z) : checkpoint :=
  let eventID := TrimSpace eventID in
  if eventID ==? "" then c
  else if eventUnix <? cp_lastUnix c then c
  else if cp_lastUnix c <? eventUnix then mkCheckpoint eventID eventUnix [eventID]
  else if checkpointEventSeen (cp_recentEventIDs c) eventID then c
  else
    let updated := cp_recentEventIDs c ++ [eventID] in
    mkCheckpoint eventID eventUnix
      (if (checkpointRecentEventCap <? length updated)%nat
       then drop (length updated - checkpointRecentEventCap) updated else updated).

Record ControlResponseCacheDoc := mkControlResponseCacheDoc {
  cr_CallerPubKey : string;
  cr_RequestID : string;
  cr_Payload : string;
  cr_Tags : list (list string);
  cr_EventUnix : Z
}.

Record CheckpointDoc := mkCheckpointDoc {
  cd_Version : Z;
  cd_Name : string;
  cd_LastEvent : string;
  cd_LastUnix : Z;
  cd_RecentEventIDs : list string;
  cd_ControlResponses : list ControlResponseCacheDoc
}.

(** What both trackers' [AlreadyProcessed] decide. *)
Definition already_processed (c : checkpoint) (eventID : string) (createdAt : Z) : bool :=
  if (eventID ==? "") || (createdAt <=? 0) then false
  else (createdAt <? cp_lastUnix c)
       || ((createdAt =? cp_lastUnix c) && checkpointEventSeen (cp_recentEventIDs c) eventID).

(** ** Ingested direct messages *)

Definition ingestTracker : Type := checkpoint.

Definition newIngestTracker (doc : CheckpointDoc) : ingestTracker :=
  mkCheckpoint (cd_LastEvent doc) (cd_LastUnix doc) (normalizeCheckpointEventIDs (cd_RecentEventIDs doc)).

Definition Ingest_AlreadyProcessed : ingestTracker -> string -> Z -> bool := already_processed.

(** The second an event counts for. *)
Definition ingest_second (now eventUnix : Z) : Z :=
  let eventUnix := if eventUnix <=? 0 then now else eventUnix in
  let maxUnix := now + 120 in
  if maxUnix <? eventUnix then maxUnix else eventUnix.

Definition ingest_doc (t : ingestTracker) : CheckpointDoc :=
  mkCheckpointDoc 1 "dm_ingest" (cp_lastEvent t) (cp_lastUnix t) (cp_recentEventIDs t) [].

(** The tracker afterwards, and the document to write, if any. *)
Definition MarkProcessed (now : Z) (eventID : string) (eventUnix : Z) (t : ingestTracker)
  : ingestTracker * option CheckpointDoc :=
  if eventID ==? "" then (t, None)
  else
    let eventUnix := ingest_second now eventUnix in
    if (eventUnix <? cp_lastUnix t)
       || ((eventUnix =? cp_lastUnix t) && checkpointEventSeen (cp_recentEventIDs t) eventID) then (t, None)
    else let t := checkpointAdvanceState t eventID eventUnix in (t, Some (ingest_doc t)).

(** ** Indexed memories *)

Record memoryIndexTracker := mkMemoryIndexTracker {
  mi_lastEvent : string;
  mi_lastUnix : Z
}.

Definition newMemoryIndexTracker (doc : CheckpointDoc) : memoryIndexTracker :=
  mkMemoryIndexTracker (cd_LastEvent doc) (cd_LastUnix doc).

Definition MarkIndexed (now : Z) (memoryID : string) (unix : Z) (t : memoryIndexTracker)
  : memoryIndexTracker * option CheckpointDoc :=
  if memoryID ==? "" then (t, None)
  else
    let unix := if unix <=? 0 then now else unix in
    if (unix <? mi_lastUnix t) || ((unix =? mi_lastUnix t) && negb (String.ltb (mi_lastEvent t) memoryID)) then (t, None)
    else (mkMemoryIndexTracker memoryID unix, Some (mkCheckpointDoc 1 "memory_index" memoryID unix [] [])).

(** ** Control requests *)

Inductive Policy := None_ | EventOnly | EventAndRequest.

Definition secret_methods : list string :=
  ["secrets.resolve"; "secrets.store.list"; "secrets.store.set"; "secrets.store.delete"].
Definition query_methods : list string :=
  ["supportedmethods"; "health"; "doctor.memory.status"; "status.get"; "status"; "usage.status"; "usage.cost";
   "channels.status"; "channels.list"; "agent.identity.get"; "gateway.identity.get"; "agents.list"; "agents.active";
   "agents.files.list"; "agents.files.get"; "models.list"; "tools.catalog"; "tools.profile.get"; "skills.status";
   "skills.bins"; "plugins.registry.list"; "plugins.registry.get"; "plugins.registry.search"; "node.pair.list";
   "device.pair.list"; "node.list"; "node.describe"; "canvas.get"; "canvas.list"; "cron.list"; "cron.status";
   "cron.runs"; "exec.approvals.get"; "exec.approvals.node.get"; "mcp.list"; "mcp.get"; "wizard.status";
   "voicewake.get"; "tts.status"; "tts.providers"; "hooks.list"; "hooks.info"; "hooks.check"; "config.get";
   "config.schema"; "config.schema.lookup"; "relay.policy.get"; "security.audit"; "list.get"; "chat.history";
   "session.get"; "sessions.list"; "sessions.preview"; "tasks.get"; "tasks.list"; "tasks.doctor"; "tasks.summary";
   "tasks.audit_export"; "tasks.trace"; "acp.peers"].

Definition MethodPolicy (method : string) : Policy :=
  let method := TrimSpace method in
  if String.prefix "soulfactory." method then EventAndRequest
  else go_switch method [(secret_methods, None_); (query_methods, EventAndRequest)] EventOnly.

Record ControlRPCCachedResponse := mkControlRPCCachedResponse {
  cc_Payload : string;
  cc_Tags : list (list string)
}.

Record ControlRPCHandled := mkControlRPCHandled {
  ch_EventID : string;
  ch_EventUnix : Z;
  ch_CallerPubKey : string;
  ch_RequestID : string;
  ch_Method : string;
  ch_Response : ControlRPCCachedResponse
}.

Record controlTracker := mkControlTracker {
  ct_checkpoint : checkpoint;
  ct_responses : gmap string ControlResponseCacheDoc;
  ct_responseOrder : list string
}.

Definition zero_byte : string := String "000" "".
Definition controlResponseCacheKey (callerPubKey requestID : string) : string :=
  TrimSpace callerPubKey +:+ zero_byte +:+ TrimSpace requestID.

Fixpoint controlResponseDocFirstTagValue (tags : list (list string)) (key : string) : string :=
  match tags with
  | [] => ""
  | (name :: value :: _) :: tags => if name ==? key then TrimSpace value else controlResponseDocFirstTagValue tags key
  | _ :: tags => controlResponseDocFirstTagValue tags key
  end.

(** Filing an entry under a key, behind those filed before it. *)
Definition file_response (key : string) (entry : ControlResponseCacheDoc) (t : controlTracker) : controlTracker :=
  mkControlTracker (ct_checkpoint t) (<[key := entry]> (ct_responses t))
    (if bool_decide (is_Some (ct_responses t !! key)) then ct_responseOrder t else ct_responseOrder t ++ [key]).

Definition upsertControlResponseLocked (callerPubKey replayID : string) (response : ControlRPCCachedResponse)
    (eventUnix : Z) (t : controlTracker) : controlTracker :=
  let callerPubKey := TrimSpace callerPubKey in
  let replayID := TrimSpace replayID in
  if (callerPubKey ==? "") || (replayID ==? "") then t
  else file_response (controlResponseCacheKey callerPubKey replayID)
         (mkControlResponseCacheDoc callerPubKey replayID (cc_Payload response) (cc_Tags response) eventUnix) t.

Definition expired (cutoff : Z) (entry : ControlResponseCacheDoc) : bool :=
  (0 <? cr_EventUnix entry) && (cr_EventUnix entry <? cutoff).

(** The first loop of [pruneResponsesLocked]: the keys kept, and the responses. *)
Fixpoint prune_expired (cutoff : Z) (order : list string) (responses : gmap string ControlResponseCacheDoc)
  : list string * gmap string ControlResponseCacheDoc :=
  match order with
  | [] => ([], responses)
  | key :: order =>
    match responses !! key with
    | None => prune_expired cutoff order responses
    | Some entry =>
      if expired cutoff entry then prune_expired cutoff order (delete key responses)
      else let '(kept, responses) := prune_expired cutoff order responses in (key :: kept, responses)
    end
  end.

(** The second loop drops the oldest keys until the cap holds. *)
Definition drop_oldest (order : list string) (responses : gmap string ControlResponseCacheDoc)
  : list string * gmap string ControlResponseCacheDoc :=
  let excess := (length order - controlResponseCheckpointCap)%nat in
  (drop excess order, foldl (fun m key => delete key m) responses (take excess order)).

Definition pruneResponsesLocked (nowUnix : Z) (t : controlTracker) : controlTracker :=
  let cutoff := nowUnix - controlResponseCheckpointTTL in
  let '(kept, responses) := prune_expired cutoff (ct_responseOrder t) (ct_responses t) in
  let '(kept, responses) := drop_oldest kept responses in
  mkControlTracker (ct_checkpoint t) responses kept.

(** One entry of the checkpoint, under its request and under the event it answers. *)
Definition load_response (t : controlTracker) (entry : ControlResponseCacheDoc) : controlTracker :=
  let callerPubKey := TrimSpace (cr_CallerPubKey entry) in
  let requestID := TrimSpace (cr_RequestID entry) in
  if (callerPubKey ==? "") || (requestID ==? "") then t
  else
    let filed id := mkControlResponseCacheDoc callerPubKey id (cr_Payload entry) (cr_Tags entry) (cr_EventUnix entry) in
    let t := file_response (controlResponseCacheKey callerPubKey requestID) (filed requestID) t in
    let eventID := controlResponseDocFirstTagValue (cr_Tags entry) "e" in
    if (eventID !=? "") && (eventID !=? requestID)
    then file_response (controlResponseCacheKey callerPubKey eventID) (filed eventID) t
    else t.

Definition newControlTracker (now : Z) (doc : CheckpointDoc) : controlTracker :=
  pruneResponsesLocked now
    (foldl load_response
       (mkControlTracker (mkCheckpoint (cd_LastEvent doc) (cd_LastUnix doc) (normalizeCheckpointEventIDs (cd_RecentEventIDs doc))) ∅ [])
       (cd_ControlResponses doc)).

Definition Control_AlreadyProcessed (t : controlTracker) : string -> Z -> bool := already_processed (ct_checkpoint t).

Fixpoint remove_first (key : string) (order : list string) : list string :=
  match order with
  | [] => []
  | existing :: order => if existing ==? key then order else existing :: remove_first key order
  end.

Definition LookupResponse (now : Z) (callerPubKey requestID : string) (t : controlTracker)
  : controlTracker * option ControlRPCCachedResponse :=
  let callerPubKey := TrimSpace callerPubKey in
  let requestID := TrimSpace requestID in
  if (callerPubKey ==? "") || (requestID ==? "") then (t, None)
  else
    let key := controlResponseCacheKey callerPubKey requestID in
    match ct_responses t !! key with
    | None => (t, None)
    | Some entry =>
      if expired (now - controlResponseCheckpointTTL) entry
      then (mkControlTracker (ct_checkpoint t) (delete key (ct_responses t)) (remove_first key (ct_responseOrder t)), None)
      else (t, Some (mkControlRPCCachedResponse (cr_Payload entry) (cr_Tags entry)))
    end.

Definition snapshotResponsesLocked (t : controlTracker) : list ControlResponseCacheDoc :=
  omap (fun key => ct_responses t !! key) (ct_responseOrder t).

Definition control_doc (t : controlTracker) : CheckpointDoc :=
  let c := ct_checkpoint t in
  mkCheckpointDoc 1 "control_ingest" (cp_lastEvent c) (cp_lastUnix c) (cp_recentEventIDs c) (snapshotResponsesLocked t).

(** The identifier a response is filed under, if it is. *)
Definition replay_id (h : ControlRPCHandled) : option string :=
  let replayPolicy := if blank (ch_Method h) then EventAndRequest else MethodPolicy (ch_Method h) in
  if TrimSpace (ch_CallerPubKey h) ==? "" then None
  else match replayPolicy with
  | None_ => None
  | EventAndRequest => Some (TrimSpace (ch_RequestID h))
  | EventOnly => Some (ch_EventID h)
  end.

Definition control_second (now eventUnix : Z) : Z :=
  if (eventUnix <=? 0) || (now + 30 <? eventUnix) then now else eventUnix.

Definition MarkHandled (now : Z) (h : ControlRPCHandled) (t : controlTracker) : controlTracker * option CheckpointDoc :=
  if blank (ch_EventID h) then (t, None)
  else
    let eventUnix := control_second now (ch_EventUnix h) in
    let t := mkControlTracker (checkpointAdvanceState (ct_checkpoint t) (ch_EventID h) eventUnix)
               (ct_responses t) (ct_responseOrder t) in
    let t := match replay_id h with
             | Some id => upsertControlResponseLocked (TrimSpace (ch_CallerPubKey h)) id (ch_Response h) eventUnix t
             | None => t
             end in
    let t := pruneResponsesLocked now t in
    (t, Some (control_doc t)).
