(* ===== verification/CheckpointProps.v ===== *)
(** What the daemon's checkpoints and its cache of control responses guarantee. *)

From Stdlib Require Import Ascii String.
From stdpp Require Import base tactics decidable list gmap strings pretty relations.
From S2P Require Import Prelude Checkpoints.

(** ** Checkpoints *)

(** The identifiers of a second: trimmed, not empty, no two the same, within the cap. *)
Definition ids_ok (ids : list string) : Prop :=
  Forall (fun id => TrimSpace id = id /\ id <> "") ids /\ NoDup ids /\ (length ids <= checkpointRecentEventCap)%nat.

Lemma seen_spec ids id : checkpointEventSeen ids id = true <-> TrimSpace id <> "" /\ TrimSpace id ∈ ids.
Proof.
  unfold checkpointEventSeen. rewrite andb_true_iff, negb_true_iff, String.eqb_neq, existsb_exists.
  setoid_rewrite String.eqb_eq. setoid_rewrite <- list_elem_of_In.
  split; [intros [? (x & ? & ->)]; done|intros [? ?]; eauto].
Qed.

Lemma normalize_same ids : forall seen room,
  Forall (fun id => TrimSpace id = id /\ id <> "") ids -> NoDup ids -> (forall id, id ∈ ids -> id ∉ seen) ->
  (length ids <= room)%nat -> normalize_ids ids seen room = ids.
Proof.
  induction ids as [|id ids IH]; intros seen room Hf Hd Hs Hl; [done|]. inv Hf. inv Hd.
  destruct H1 as [Ht Hne]. cbn in *. rewrite Ht, (proj2 (String.eqb_neq id "")) by done.
  rewrite bool_decide_eq_false_2 by (apply Hs; by left). cbn.
  destruct room as [|[|room]]; [lia|destruct ids; [done|cbn in Hl; lia]|]. f_equal. apply IH; [done|done| |lia].
  intros x Hx. rewrite not_elem_of_cons. split; [|apply Hs; by right]. by intros ->.
Qed.

Lemma normalize_ok ids : forall seen room, (0 < room)%nat ->
  Forall (fun id => TrimSpace id = id /\ id <> "") (normalize_ids ids seen room)
  /\ NoDup (normalize_ids ids seen room) /\ (forall id, id ∈ normalize_ids ids seen room -> id ∉ seen)
  /\ (length (normalize_ids ids seen room) <= room)%nat.
Proof.
  induction ids as [|id ids IH]; intros seen room Hr; cbn.
  { split; [constructor|]. split; [constructor|]. split; [by intros id ?%not_elem_of_nil|lia]. }
  destruct (String.eqb_spec (TrimSpace id) "") as [|Hne]; [by apply IH|]. cbn.
  case_bool_decide as Hs; [by apply IH|].
  assert (TrimSpace (TrimSpace id) = TrimSpace id /\ TrimSpace id <> "") as Ht by (split; [apply TrimSpace_idem|done]).
  destruct room as [|[|room]]; [lia| |].
  - split; [by apply Forall_singleton|]. split; [by apply NoDup_singleton|]. split; [|cbn; lia].
    intros x ->%list_elem_of_singleton. done.
  - destruct (IH (TrimSpace id :: seen) (S room)) as (Hf & Hd & Hn & Hl); [lia|].
    split; [by constructor|]. split; [|split; [|cbn; lia]].
    + constructor; [|done]. intros Hin. apply (Hn _ Hin). by left.
    + intros x [->|Hx]%elem_of_cons; [done|]. apply Hn in Hx. rewrite not_elem_of_cons in Hx. naive_solver.
Qed.

Lemma loaded_ok doc : ids_ok (cp_recentEventIDs (newIngestTracker doc)).
Proof.
  destruct (normalize_ok (cd_RecentEventIDs doc) [] checkpointRecentEventCap) as (Hf & Hd & _ & Hl);
    [unfold checkpointRecentEventCap; lia|done].
Qed.

Lemma advance_ok c id unix : ids_ok (cp_recentEventIDs c) -> ids_ok (cp_recentEventIDs (checkpointAdvanceState c id unix)).
Proof.
  intros (Hf & Hd & Hl). unfold checkpointAdvanceState.
  destruct (String.eqb_spec (TrimSpace id) "") as [|Hne]; [done|].
  assert (TrimSpace (TrimSpace id) = TrimSpace id /\ TrimSpace id <> "") as Ht by (split; [apply TrimSpace_idem|done]).
  destruct (unix <? cp_lastUnix c); [done|]. destruct (cp_lastUnix c <? unix).
  { split; [by apply Forall_singleton|]. split; [apply NoDup_singleton|]. cbn. unfold checkpointRecentEventCap. lia. }
  destruct (checkpointEventSeen (cp_recentEventIDs c) (TrimSpace id)) eqn:Es; [done|]. cbn [cp_recentEventIDs].
  assert (TrimSpace id ∉ cp_recentEventIDs c) as Hn.
  { intros Hin. apply not_true_iff_false in Es. apply Es, seen_spec. by rewrite TrimSpace_idem. }
  assert (Forall (fun id => TrimSpace id = id /\ id <> "") (cp_recentEventIDs c ++ [TrimSpace id])) as Hf'
    by (apply Forall_app; split; [done|by apply Forall_singleton]).
  assert (NoDup (cp_recentEventIDs c ++ [TrimSpace id])) as Hd'.
  { apply NoDup_app. split; [done|]. split; [|apply NoDup_singleton]. by intros x Hx ->%list_elem_of_singleton. }
  match goal with |- context [if ?b then _ else _] => destruct b eqn:El end.
  - split; [by apply Forall_drop|]. split; [|rewrite length_drop; apply Nat.ltb_lt in El; lia].
    rewrite <- (take_drop (length (cp_recentEventIDs c ++ [TrimSpace id]) - checkpointRecentEventCap) (cp_recentEventIDs c ++ [TrimSpace id])) in Hd'.
    by apply NoDup_app in Hd' as (_ & _ & ?).
  - split; [done|]. split; [done|]. apply Nat.ltb_ge in El. lia.
Qed.

(** The ingest tracker with the document stored last, every write having landed before the
    next one; a step marks an event at a time, or restarts from the stored document. *)
Inductive ingest_op :=
  | Mark (now : Z) (eventID : string) (eventUnix : Z)
  | Restart.

Definition ingest_step (s : ingestTracker * CheckpointDoc) (op : ingest_op) : ingestTracker * CheckpointDoc :=
  match op with
  | Mark now eventID eventUnix =>
    let '(t, doc) := MarkProcessed now eventID eventUnix s.1 in (t, default s.2 doc)
  | Restart => (newIngestTracker s.2, s.2)
  end.

Definition ingest (ops : list ingest_op) (s : ingestTracker * CheckpointDoc) : ingestTracker * CheckpointDoc :=
  foldl ingest_step s ops.

Definition loaded (doc : CheckpointDoc) : ingestTracker * CheckpointDoc := (newIngestTracker doc, doc).

Lemma mark_cases now id unix t :
  MarkProcessed now id unix t = (t, None)
  \/ let t' := checkpointAdvanceState t id (ingest_second now unix) in MarkProcessed now id unix t = (t', Some (ingest_doc t')).
Proof.
  unfold MarkProcessed. destruct (id ==? ""); [by left|]. cbv zeta. case_match; [by left|by right].
Qed.

Lemma restart_same t : ids_ok (cp_recentEventIDs t) -> newIngestTracker (ingest_doc t) = t.
Proof.
  intros (Hf & Hd & Hl). destruct t as [e u ids]. unfold newIngestTracker, ingest_doc, normalizeCheckpointEventIDs. cbn.
  by rewrite normalize_same; [|done|done|intros x _; apply not_elem_of_nil|done].
Qed.

(** The stored document is that of the tracker. *)
Definition in_step (s : ingestTracker * CheckpointDoc) : Prop :=
  newIngestTracker s.2 = s.1 /\ ids_ok (cp_recentEventIDs s.1).

Lemma loaded_in_step doc : in_step (loaded doc).
Proof. split; [done|apply loaded_ok]. Qed.

Lemma ingest_step_in_step s op : in_step s -> in_step (ingest_step s op).
Proof.
  intros [Hs Hok]. destruct op as [now id unix|]; cbn [ingest_step]; [|split; [done|apply loaded_ok]].
  destruct (mark_cases now id unix s.1) as [-> | ->]; [done|]. split; cbn [fst snd from_option default]; [|by apply advance_ok].
  by apply restart_same, advance_ok.
Qed.

Lemma ingest_in_step ops s : in_step s -> in_step (ingest ops s).
Proof. revert s. induction ops as [|op ops IH]; intros s H; [done|]. by apply IH, ingest_step_in_step. Qed.

(** The event is behind the checkpoint, or among those of its second with at most [k]
    after it. *)
Definition remembered (k : nat) (id : string) (unix : Z) (c : checkpoint) : Prop :=
  unix < cp_lastUnix c
  \/ unix = cp_lastUnix c /\ exists pre post, cp_recentEventIDs c = pre ++ TrimSpace id :: post /\ (length post <= k)%nat.

Lemma remembered_mono k k' id unix c : (k <= k')%nat -> remembered k id unix c -> remembered k' id unix c.
Proof.
  intros Hk [?|(? & pre & post & ? & ?)]; [by left|right]. split; [done|]. exists pre, post. split; [done|lia].
Qed.

Lemma advance_remembers k id unix c id' unix' :
  (S k < checkpointRecentEventCap)%nat -> remembered k id unix c -> remembered (S k) id unix (checkpointAdvanceState c id' unix').
Proof.
  intros Hk Hr. pose proof (remembered_mono k (S k) id unix c ltac:(lia) Hr) as Hr'. unfold checkpointAdvanceState.
  destruct (TrimSpace id' ==? ""); [done|]. destruct (Z.ltb_spec unix' (cp_lastUnix c)); [done|].
  destruct (Z.ltb_spec (cp_lastUnix c) unix').
  { left. cbn. destruct Hr as [?|[? _]]; lia. }
  destruct (checkpointEventSeen _ _); [done|].
  destruct Hr as [?|(-> & pre & post & He & Hp)]; [left; cbn; lia|right]. cbn. split; [lia|]. rewrite He.
  match goal with |- context [if ?b then _ else _] => destruct b eqn:El end.
  - rewrite !length_app in *. cbn [length] in *.
    exists (drop (length pre + S (length post) + 1 - checkpointRecentEventCap) pre), (post ++ [TrimSpace id']).
    rewrite <- app_assoc, drop_app_le by lia. split; [done|]. rewrite length_app. cbn. lia.
  - exists pre, (post ++ [TrimSpace id']). rewrite <- app_assoc, length_app. split; [done|cbn; lia].
Qed.

Lemma advance_other_second k id unix c id' unix' :
  unix' <> unix -> remembered k id unix c -> remembered k id unix (checkpointAdvanceState c id' unix').
Proof.
  intros Hne Hr. unfold checkpointAdvanceState. destruct (TrimSpace id' ==? ""); [done|].
  destruct (Z.ltb_spec unix' (cp_lastUnix c)); [done|].
  destruct (Z.ltb_spec (cp_lastUnix c) unix'); [left; cbn; destruct Hr as [?|[? _]]; lia|].
  destruct (checkpointEventSeen _ _); [done|]. destruct Hr as [?|[? _]]; [left; cbn; lia|lia].
Qed.

(** The marks that fall on a second. *)
Definition on_second (unix : Z) (op : ingest_op) : bool :=
  match op with Mark now _ eventUnix => ingest_second now eventUnix =? unix | Restart => false end.
Definition marks_of (unix : Z) (ops : list ingest_op) : nat := length (List.filter (on_second unix) ops).

Lemma ingest_remembers id unix ops : forall k s,
  in_step s -> (k + marks_of unix ops < checkpointRecentEventCap)%nat -> remembered k id unix s.1 ->
  remembered (k + marks_of unix ops) id unix (ingest ops s).1.
Proof.
  induction ops as [|op ops IH]; intros k s Hok Hk Hr; [by unfold marks_of; rewrite Nat.add_0_r|].
  change (ingest (op :: ops) s) with (ingest ops (ingest_step s op)). pose proof (ingest_step_in_step s op Hok) as Hok'.
  assert (exists n, (marks_of unix (op :: ops) = n + marks_of unix ops)%nat /\ (n <= 1)%nat
    /\ ((n + k < checkpointRecentEventCap)%nat -> remembered (k + n) id unix (ingest_step s op).1)) as (n & En & Hn & Hstep).
  { unfold marks_of. cbn [List.filter]. destruct op as [now id' unix'|]; cbn [on_second ingest_step].
    - destruct (Z.eqb_spec (ingest_second now unix') unix) as [E|E]; [exists 1%nat|exists 0%nat]; (split; [done|]); (split; [lia|]); intros Hlt.
      + rewrite Nat.add_1_r. destruct (mark_cases now id' unix' s.1) as [-> | ->]; [by eapply remembered_mono; [|exact Hr]; lia|].
        apply advance_remembers; [lia|done].
      + rewrite Nat.add_0_r. destruct (mark_cases now id' unix' s.1) as [-> | ->]; [done|]. by apply advance_other_second.
    - exists 0%nat. split; [done|]. split; [lia|]. intros _. rewrite Nat.add_0_r. cbn. by rewrite (proj1 Hok). }
  rewrite En in Hk |- *. rewrite Nat.add_assoc. apply IH; [done|lia|]. apply Hstep. lia.
Qed.

Lemma remembered_processed k id unix c : TrimSpace id <> "" -> 0 < unix -> remembered k id unix c -> already_processed c id unix = true.
Proof.
  intros Hid Hu Hr. unfold already_processed. destruct (String.eqb_spec id "") as [->|_]; [done|].
  destruct (Z.leb_spec unix 0); [lia|]. cbn. apply orb_true_iff.
  destruct Hr as [?|(-> & pre & post & He & _)]; [left; by apply Z.ltb_lt|right].
  rewrite Z.eqb_refl. apply seen_spec. split; [done|]. rewrite He. apply elem_of_app. right. by left.
Qed.

Lemma advanced_is_remembered id unix c :
  TrimSpace id <> "" -> already_processed c id unix = false -> 0 < unix ->
  remembered 0 id unix (checkpointAdvanceState c id unix).
Proof.
  intros Hid Hnew Hu. unfold already_processed in Hnew. destruct (String.eqb_spec id "") as [->|_]; [done|].
  destruct (Z.leb_spec unix 0); [lia|]. cbn in Hnew. apply orb_false_iff in Hnew as [Hge Hns]. apply Z.ltb_ge in Hge.
  unfold checkpointAdvanceState. destruct (String.eqb_spec (TrimSpace id) "") as [|_]; [done|].
  destruct (Z.ltb_spec unix (cp_lastUnix c)); [lia|].
  destruct (Z.ltb_spec (cp_lastUnix c) unix); [right; split; [done|]; by exists [], []|].
  assert (unix = cp_lastUnix c) as E by lia. rewrite <- E, Z.eqb_refl in Hns. cbn in Hns.
  assert (checkpointEventSeen (cp_recentEventIDs c) (TrimSpace id) = false) as ->.
  { apply not_true_iff_false. rewrite seen_spec, TrimSpace_idem, <- seen_spec. by rewrite Hns. }
  right. cbn. split; [done|]. case_match eqn:El; [|by exists (cp_recentEventIDs c), []].
  rewrite length_app in *. cbn [length] in *. rewrite drop_app_le by (unfold checkpointRecentEventCap; lia). eauto.
Qed.

Lemma marked_is_remembered now id unix t :
  TrimSpace id <> "" -> 0 < unix <= now + 120 -> already_processed t id unix = false ->
  remembered 0 id unix (MarkProcessed now id unix t).1.
Proof.
  intros Hid Hu Hnew. pose proof (advanced_is_remembered id unix t Hid Hnew) as Ha.
  unfold already_processed in Hnew. unfold MarkProcessed, ingest_second.
  destruct (String.eqb_spec id "") as [->|_]; [done|]. destruct (Z.leb_spec unix 0); [lia|]. cbn in Hnew.
  destruct (Z.ltb_spec (now + 120) unix); [lia|]. cbv zeta. rewrite Hnew. cbn. apply Ha. lia.
Qed.

(** C38: An event dated no more than two minutes ahead of the clock that was marked as it
    was new is not taken again, however other events are marked and the daemon restarts,
    until its second has had as many later marks as the cap allows events; and as long as
    the writes of the checkpoint succeed and land in order, a restart finds the checkpoint
    as it was. *)
Theorem processed_events_are_remembered doc before now id unix after :
  let s := ingest before (loaded doc) in
  let s' := ingest after (ingest_step s (Mark now id unix)) in
  TrimSpace id <> "" -> 0 < unix <= now + 120 -> Ingest_AlreadyProcessed s.1 id unix = false ->
  (marks_of unix after < checkpointRecentEventCap)%nat ->
  Ingest_AlreadyProcessed s'.1 id unix = true /\ newIngestTracker s'.2 = s'.1.
Proof.
  cbv zeta. intros Hid Hu Hnew Hl. set (s := ingest before (loaded doc)) in *.
  assert (in_step s) as Hok by apply ingest_in_step, loaded_in_step.
  pose proof (ingest_step_in_step s (Mark now id unix) Hok) as Hok1.
  split; [|by apply ingest_in_step].
  eapply remembered_processed; [done|lia|]. apply (ingest_remembers id unix after 0); [done|lia|].
  pose proof (marked_is_remembered now id unix s.1 Hid Hu Hnew) as Hm. cbn [ingest_step].
  by destruct (MarkProcessed now id unix s.1).
Qed.

Lemma processed_events_are_remembered_witness :
  Ingest_AlreadyProcessed
    (ingest [Mark 100 "c" 100; Restart; Mark 101 "d" 101]
       (ingest_step (loaded (mkCheckpointDoc 1 "dm_ingest" "a" 90 ["a"] [])) (Mark 100 "b" 100))).1 "b" 100 = true.
Proof.
  refine (proj1 (processed_events_are_remembered (mkCheckpointDoc 1 "dm_ingest" "a" 90 ["a"] []) [] 100 "b" 100
    [Mark 100 "c" 100; Restart; Mark 101 "d" 101] _ _ _ _)); [by vm_compute|split; [reflexivity|by vm_compute]|by vm_compute|].
  apply Nat.ltb_lt. by vm_compute.
Defined.

Definition op_time (op : ingest_op) : Z := match op with Mark now _ _ => now | Restart => 0 end.

Lemma advance_second c id unix :
  cp_lastUnix c <= cp_lastUnix (checkpointAdvanceState c id unix) <= Z.max (cp_lastUnix c) unix.
Proof. unfold checkpointAdvanceState. repeat case_match; bool_to_prop; cbn; lia. Qed.

(** The checkpoint never goes back, and never further ahead of the clock than two
    minutes; an event dated later than that is taken again at every delivery, as it is
    filed under another second than it is looked up by. *)
Theorem checkpoint_stays_near_the_clock ops doc limit :
  Forall (fun op => op_time op <= limit) ops ->
  let t := (loaded doc).1 in
  let t' := (ingest ops (loaded doc)).1 in
  (cp_lastUnix t <= cp_lastUnix t' <= Z.max (cp_lastUnix t) (limit + 120))
  /\ (cp_lastUnix t <= limit + 120 -> forall id unix, limit + 120 < unix -> Ingest_AlreadyProcessed t' id unix = false).
Proof.
  intros Hops. cbv zeta.
  assert (cp_lastUnix (loaded doc).1 <= cp_lastUnix (ingest ops (loaded doc)).1 <= Z.max (cp_lastUnix (loaded doc).1) (limit + 120)) as Hb.
  { generalize (loaded_in_step doc). generalize (loaded doc). induction Hops as [|op ops Hop _ IH]; intros s Hok; [cbn; lia|].
    destruct (IH (ingest_step s op)) as [H1 H2]; [by apply ingest_step_in_step|]. change (ingest (op :: ops) s) with (ingest ops (ingest_step s op)).
    assert (cp_lastUnix s.1 <= cp_lastUnix (ingest_step s op).1 <= Z.max (cp_lastUnix s.1) (limit + 120)); [|lia].
    destruct op as [now id unix|]; cbn [ingest_step op_time fst] in *; [|rewrite (proj1 Hok); lia].
    destruct (mark_cases now id unix s.1) as [-> | ->]; cbn; [lia|]. pose proof (advance_second s.1 id (ingest_second now unix)).
    assert (ingest_second now unix <= now + 120) by (unfold ingest_second; repeat case_match; bool_to_prop; lia). lia. }
  split; [done|]. intros Ht id unix Hu. unfold Ingest_AlreadyProcessed, already_processed.
  rewrite (proj2 (Z.ltb_ge unix _)), (proj2 (Z.eqb_neq unix _)) by lia. by case_match.
Qed.

Lemma checkpoint_stays_near_the_clock_witness :
  Ingest_AlreadyProcessed (ingest [Mark 100 "late" 500] (loaded (mkCheckpointDoc 1 "dm_ingest" "" 0 [] []))).1 "late" 500 = false.
Proof.
  refine (proj2 (checkpoint_stays_near_the_clock [Mark 100 "late" 500] _ 100 _) _ "late" 500 _);
    [repeat constructor; by vm_compute|by vm_compute|by vm_compute].
Defined.

(** The documents are written outside the critical section: when the later of two is
    written first, the earlier one stays, and after a restart the later event is taken
    again. *)
Example later_document_written_first_is_lost :
  let t := newIngestTracker (mkCheckpointDoc 1 "dm_ingest" "" 0 [] []) in
  let '(t1, doc1) := MarkProcessed 100 "a" 100 t in
  let '(t2, doc2) := MarkProcessed 101 "b" 101 t1 in
  let stored := foldl (fun last doc => from_option Some last doc) None [doc2; doc1] in
  option_map (fun doc => Ingest_AlreadyProcessed (newIngestTracker doc) "b" 101) stored = Some false
  /\ Ingest_AlreadyProcessed t2 "b" 101 = true.
Proof. vm_compute. by split. Qed.

(** An event that was never processed counts as processed once a later one was. *)
Example earlier_event_is_dropped :
  let t := (MarkProcessed 100 "b" 100 (newIngestTracker (mkCheckpointDoc 1 "dm_ingest" "" 0 [] []))).1 in
  Ingest_AlreadyProcessed t "a" 99 = true.
Proof. vm_compute. reflexivity. Qed.

(** ** The response cache *)

Abbreviation cache := (gmap string ControlResponseCacheDoc).

(** The order lists the keys of the cache, each once. *)
Definition order_ok (order : list string) (responses : cache) : Prop :=
  NoDup order /\ (forall key, key ∈ order <-> is_Some (responses !! key)).

Definition control_ok (t : controlTracker) : Prop :=
  order_ok (ct_responseOrder t) (ct_responses t) /\ (length (ct_responseOrder t) <= controlResponseCheckpointCap)%nat.

Lemma file_response_ok key entry t :
  order_ok (ct_responseOrder t) (ct_responses t) ->
  order_ok (ct_responseOrder (file_response key entry t)) (ct_responses (file_response key entry t)).
Proof.
  intros [Hd Hk]. unfold file_response. cbn. case_bool_decide as Hs; (split; [|intros k; rewrite lookup_insert_is_Some]).
  - done.
  - rewrite Hk. destruct (decide (key = k)) as [<-|]; [naive_solver|]. naive_solver.
  - apply NoDup_app. split; [done|]. split; [|apply NoDup_singleton]. intros x Hx ->%list_elem_of_singleton. by apply Hs, Hk.
  - rewrite elem_of_app, list_elem_of_singleton, Hk. destruct (decide (key = k)); naive_solver.
Qed.

Definition alive (cutoff : Z) (m : cache) (key : string) : bool :=
  match m !! key with Some entry => negb (expired cutoff entry) | None => false end.

Lemma alive_spec cutoff m key : alive cutoff m key = true <-> exists entry, m !! key = Some entry /\ expired cutoff entry = false.
Proof.
  unfold alive. destruct (m !! key) as [entry|]; [|naive_solver]. rewrite negb_true_iff. naive_solver.
Qed.

Lemma prune_expired_spec cutoff order : forall m, NoDup order ->
  (prune_expired cutoff order m).1 = List.filter (alive cutoff m) order
  /\ (forall key, (prune_expired cutoff order m).2 !! key = if bool_decide (key ∈ order) && negb (alive cutoff m key) then None else m !! key).
Proof.
  induction order as [|key order IH]; intros m Hd; [done|]. inv Hd.
  cbn. unfold alive at 1. destruct (m !! key) as [entry|] eqn:El; [destruct (expired cutoff entry) eqn:Ex|]; cbn [negb].
  - destruct (IH (delete key m)) as [IH1 IH2]; [done|]. rewrite IH1. split.
    + apply filter_ext_in. intros k Hk%list_elem_of_In. unfold alive. rewrite lookup_delete_ne; [done|]. by intros ->.
    + intros k. rewrite IH2. unfold alive. destruct (decide (k = key)) as [->|Hne].
      * rewrite bool_decide_eq_false_2, bool_decide_eq_true_2 by first [done|by left]. by rewrite lookup_delete_eq, El, Ex.
      * rewrite lookup_delete_ne by done. by rewrite (bool_decide_ext (k ∈ order) (k ∈ key :: order)) by (rewrite elem_of_cons; naive_solver).
  - destruct (IH m) as [IH1 IH2]; [done|]. destruct (prune_expired cutoff order m). cbn in *. rewrite IH1. split; [done|].
    intros k. rewrite IH2. destruct (decide (k = key)) as [->|Hne].
    + rewrite bool_decide_eq_false_2 by done. unfold alive. rewrite El, Ex. cbn. by rewrite andb_false_r.
    + by rewrite (bool_decide_ext (k ∈ order) (k ∈ key :: order)) by (rewrite elem_of_cons; naive_solver).
  - destruct (IH m) as [IH1 IH2]; [done|]. rewrite IH1. split; [done|]. intros k. rewrite IH2.
    destruct (decide (k = key)) as [->|Hne].
    + rewrite bool_decide_eq_false_2 by done. cbn. rewrite El. by case_match.
    + by rewrite (bool_decide_ext (k ∈ order) (k ∈ key :: order)) by (rewrite elem_of_cons; naive_solver).
Qed.

Lemma delete_all_lookup ks : forall (m : cache) key,
  foldl (fun m key => delete key m) m ks !! key = if bool_decide (key ∈ ks) then None else m !! key.
Proof.
  induction ks as [|k ks IH]; intros m key; [done|]. cbn. rewrite IH.
  destruct (decide (key = k)) as [->|Hne].
  - rewrite (bool_decide_eq_true_2 (k ∈ k :: ks)) by (by left). rewrite lookup_delete_eq. by case_match.
  - rewrite lookup_delete_ne by done. by rewrite (bool_decide_ext (key ∈ ks) (key ∈ k :: ks)) by (rewrite elem_of_cons; naive_solver).
Qed.

(** What pruning keeps: entries as they were, none expired, the newest keys. *)
Lemma prune_responses_spec now t :
  order_ok (ct_responseOrder t) (ct_responses t) ->
  let t' := pruneResponsesLocked now t in
  control_ok t' /\ ct_checkpoint t' = ct_checkpoint t
  /\ (forall key entry, ct_responses t' !! key = Some entry -> ct_responses t !! key = Some entry)
  /\ (forall key entry, ct_responses t !! key = Some entry -> expired (now - controlResponseCheckpointTTL) entry = false ->
      (length (ct_responseOrder t) <= controlResponseCheckpointCap)%nat
      \/ (exists order, ct_responseOrder t = order ++ [key] /\ (length order <= controlResponseCheckpointCap)%nat) ->
      ct_responses t' !! key = Some entry).
Proof.
  intros [Hd Hk]. unfold pruneResponsesLocked. set (cutoff := now - controlResponseCheckpointTTL).
  destruct (prune_expired_spec cutoff (ct_responseOrder t) (ct_responses t) Hd) as [Hkept Hm].
  destruct (prune_expired cutoff (ct_responseOrder t) (ct_responses t)) as [kept m]. cbn in Hkept, Hm. unfold drop_oldest. cbn.
  assert (NoDup kept) as Hnk by (subst kept; by apply NoDup_ListNoDup, List.NoDup_filter, NoDup_ListNoDup).
  assert (forall key, key ∈ kept <-> is_Some (m !! key)) as Hdom.
  { intros key. rewrite Hm.
    assert (key ∈ kept <-> key ∈ ct_responseOrder t /\ alive cutoff (ct_responses t) key = true) as ->
      by (by rewrite Hkept, !list_elem_of_In, filter_In).
    destruct (alive cutoff (ct_responses t) key) eqn:Ea; cbn [negb]; rewrite ?andb_false_r, ?andb_true_r.
    - rewrite Hk. naive_solver.
    - split; [by intros [_ ?]|]. case_bool_decide as Hin; [by intros [? ?]|]. by intros ?%Hk. }
  set (excess := (length kept - controlResponseCheckpointCap)%nat).
  rewrite <- (take_drop excess kept) in Hnk. apply NoDup_app in Hnk as (Hn1 & Hdisj & Hn2).
  split; [split; [split; [done|]|cbn [ct_responseOrder]; rewrite length_drop; lia]|split; [done|split]].
  - intros key. cbn [ct_responses ct_responseOrder]. rewrite delete_all_lookup. case_bool_decide as Hin; cbn.
    + split; [|by intros [? ?]]. intros Hin2. by destruct (Hdisj _ Hin).
    + rewrite <- Hdom. rewrite <- (take_drop excess kept) at 2. rewrite elem_of_app. naive_solver.
  - intros key entry. cbn [ct_responses]. rewrite delete_all_lookup. case_bool_decide; [done|]. rewrite Hm. by case_match.
  - intros key entry Hl Hx Hpos. cbn [ct_responses]. rewrite delete_all_lookup, bool_decide_eq_false_2.
    + rewrite Hm. unfold alive. by rewrite Hl, Hx, andb_false_r.
    + assert (alive cutoff (ct_responses t) key = true) as Ha by (apply alive_spec; eauto). destruct Hpos as [Hlen|(order & He & Hlen)].
      * assert (length kept <= length (ct_responseOrder t))%nat by (subst kept; apply filter_length_le).
        assert (excess = 0%nat) as -> by lia. by intros ?%not_elem_of_nil.
      * rewrite He, List.filter_app in Hkept. cbn in Hkept. rewrite Ha in Hkept.
        assert (length (List.filter (alive cutoff (ct_responses t)) order) <= length order)%nat by apply filter_length_le.
        intros Hin. apply (Hdisj _ Hin). unfold excess. rewrite Hkept, length_app. cbn [length].
        rewrite drop_app_le by (unfold controlResponseCheckpointCap; lia). apply elem_of_app. right. by left.
Qed.

Lemma remove_first_spec key order : NoDup order ->
  NoDup (remove_first key order) /\ (length (remove_first key order) <= length order)%nat
  /\ forall k, k ∈ remove_first key order <-> k ∈ order /\ k <> key.
Proof.
  induction 1 as [|x order Hx Hd IH]; cbn; [split; [constructor|]; split; [done|]; intros k; rewrite elem_of_nil; naive_solver|].
  destruct (String.eqb_spec x key) as [->|Hne].
  - split; [done|]. split; [lia|]. intros k. rewrite elem_of_cons. split; [|naive_solver]. intros Hk. split; [by right|]. by intros ->.
  - destruct IH as (IHd & IHl & IHk). split; [constructor; [rewrite IHk; naive_solver|done]|]. split; [cbn; lia|].
    intros k. rewrite !elem_of_cons, IHk. naive_solver.
Qed.

(** The steps of the control tracker: a request handled, a response looked up, and a
    restart from the document written last. *)
Inductive control_op :=
  | Handled (now : Z) (h : ControlRPCHandled)
  | Looked (now : Z) (callerPubKey requestID : string)
  | Reloaded (now : Z).

Definition control_step (t : controlTracker) (op : control_op) : controlTracker :=
  match op with
  | Handled now h => (MarkHandled now h t).1
  | Looked now callerPubKey requestID => (LookupResponse now callerPubKey requestID t).1
  | Reloaded now => newControlTracker now (control_doc t)
  end.

Definition control_run (ops : list control_op) (t : controlTracker) : controlTracker := foldl control_step t ops.

Lemma load_response_ok entry t :
  order_ok (ct_responseOrder t) (ct_responses t) ->
  order_ok (ct_responseOrder (load_response t entry)) (ct_responses (load_response t entry)).
Proof. intros H. unfold load_response. repeat case_match; [done|..]; repeat apply file_response_ok; done. Qed.

Lemma new_control_ok now doc : control_ok (newControlTracker now doc).
Proof.
  apply prune_responses_spec. set (t0 := mkControlTracker _ _ _).
  assert (order_ok (ct_responseOrder t0) (ct_responses t0)) as H.
  { split; [constructor|]. intros key. cbn. rewrite lookup_empty, elem_of_nil. split; [done|by intros [? ?]]. }
  revert H. generalize t0. induction (cd_ControlResponses doc) as [|e es IH]; intros t Ht; [done|]. by apply IH, load_response_ok.
Qed.

Lemma upsert_ok caller id response unix t :
  order_ok (ct_responseOrder t) (ct_responses t) ->
  let t' := upsertControlResponseLocked caller id response unix t in order_ok (ct_responseOrder t') (ct_responses t').
Proof. intros H. unfold upsertControlResponseLocked. case_match; [done|]. by apply file_response_ok. Qed.

(** The tracker of [MarkHandled] before it prunes. *)
Definition handled_state (now : Z) (h : ControlRPCHandled) (t : controlTracker) : controlTracker :=
  let unix := control_second now (ch_EventUnix h) in
  let t := mkControlTracker (checkpointAdvanceState (ct_checkpoint t) (ch_EventID h) unix) (ct_responses t) (ct_responseOrder t) in
  match replay_id h with
  | Some id => upsertControlResponseLocked (TrimSpace (ch_CallerPubKey h)) id (ch_Response h) unix t
  | None => t
  end.

Lemma handled_unfold now h t :
  (MarkHandled now h t).1 = if blank (ch_EventID h) then t else pruneResponsesLocked now (handled_state now h t).
Proof. unfold MarkHandled, handled_state. by destruct (blank (ch_EventID h)). Qed.

Lemma handled_state_ok now h t :
  control_ok t -> order_ok (ct_responseOrder (handled_state now h t)) (ct_responses (handled_state now h t)).
Proof. intros [H _]. unfold handled_state. case_match; [by apply upsert_ok|done]. Qed.

Lemma control_step_ok t op : control_ok t -> control_ok (control_step t op).
Proof.
  intros Hok. destruct op as [now h|now caller id|now]; [..|apply new_control_ok]; cbn [control_step].
  - rewrite handled_unfold. destruct (blank (ch_EventID h)); [done|]. by apply prune_responses_spec, handled_state_ok.
  - unfold LookupResponse. cbv zeta. repeat case_match; try done. destruct Hok as [[Hd Hk] Hl]. cbn [fst].
    match goal with |- control_ok (mkControlTracker _ (delete ?k _) _) => destruct (remove_first_spec k _ Hd) as (Hd' & Hl' & Hk') end.
    split; [split; [done|]|cbn in *; lia]. intros key. cbn. rewrite Hk', Hk, lookup_delete_is_Some. naive_solver.
Qed.

Lemma control_run_ok ops t : control_ok t -> control_ok (control_run ops t).
Proof. revert t. induction ops as [|op ops IH]; intros t H; [done|]. by apply IH, control_step_ok. Qed.

Lemma TrimSpace_key caller id : controlResponseCacheKey (TrimSpace caller) (TrimSpace id) = controlResponseCacheKey caller id.
Proof. unfold controlResponseCacheKey. by rewrite !TrimSpace_idem. Qed.

Lemma replay_caller h id : replay_id h = Some id -> TrimSpace (ch_CallerPubKey h) <> "".
Proof. unfold replay_id. by destruct (String.eqb_spec (TrimSpace (ch_CallerPubKey h)) ""). Qed.

(** The response is filed, at the end of the order when the key is new. *)
Lemma handled_state_files now h t id :
  control_ok t -> replay_id h = Some id -> blank id = false ->
  let key := controlResponseCacheKey (ch_CallerPubKey h) id in
  let t' := handled_state now h t in
  (exists entry, ct_responses t' !! key = Some entry /\ cr_EventUnix entry = control_second now (ch_EventUnix h)
     /\ mkControlRPCCachedResponse (cr_Payload entry) (cr_Tags entry) = ch_Response h)
  /\ ((length (ct_responseOrder t') <= controlResponseCheckpointCap)%nat
      \/ exists order, ct_responseOrder t' = order ++ [key] /\ (length order <= controlResponseCheckpointCap)%nat).
Proof.
  intros [_ Hl] Hr Hb. cbv zeta. pose proof (replay_caller h id Hr) as Hc. unfold handled_state. rewrite Hr.
  unfold upsertControlResponseLocked. rewrite !TrimSpace_idem, (proj2 (String.eqb_neq _ _) Hc).
  unfold blank in Hb. rewrite Hb. cbn [orb]. rewrite TrimSpace_key. unfold file_response. cbn. split.
  - eexists. rewrite lookup_insert_eq. split; [reflexivity|]. split; [done|]. cbn. by destruct (ch_Response h).
  - case_bool_decide; [by left|right]. eauto.
Qed.

Lemma handled_state_adds now h t key entry :
  ct_responses (handled_state now h t) !! key = Some entry ->
  ct_responses t !! key = Some entry \/ exists id, replay_id h = Some id /\ key = controlResponseCacheKey (ch_CallerPubKey h) id.
Proof.
  unfold handled_state. destruct (replay_id h) as [id|]; [|by left]. unfold upsertControlResponseLocked.
  case_match; [by left|]. cbn. rewrite !TrimSpace_key, TrimSpace_idem. intros Hl%lookup_insert_Some.
  destruct Hl as [[<- _]|[_ Hl]]; [right|by left]. exists id. split; [done|].
  unfold controlResponseCacheKey. by rewrite ?TrimSpace_idem.
Qed.

Lemma size_of_order order (m : cache) : order_ok order m -> size m = length order.
Proof.
  intros [Hd Hk]. rewrite <- size_dom. rewrite <- (size_list_to_set (C:=gset string) order Hd). f_equal.
  apply set_eq. intros key. by rewrite elem_of_dom, elem_of_list_to_set, Hk.
Qed.

(** *** A response that stays *)

(** The key has its entry, with at most [k] keys filed behind it. *)
Definition kept_behind (k : nat) (key : string) (entry : ControlResponseCacheDoc) (t : controlTracker) : Prop :=
  ct_responses t !! key = Some entry
  /\ exists pre post, ct_responseOrder t = pre ++ key :: post /\ (length post <= k)%nat.

(** Pruning keeps an entry that is not expired and has fewer than the cap behind it. *)
Lemma prune_keeps_behind now k key entry t :
  order_ok (ct_responseOrder t) (ct_responses t) -> (k < controlResponseCheckpointCap)%nat ->
  expired (now - controlResponseCheckpointTTL) entry = false -> kept_behind k key entry t ->
  kept_behind k key entry (pruneResponsesLocked now t).
Proof.
  intros [Hd Hk] Hlt Hx (Hl & pre & post & Ho & Hp). unfold pruneResponsesLocked.
  set (cutoff := now - controlResponseCheckpointTTL) in *.
  destruct (prune_expired_spec cutoff (ct_responseOrder t) (ct_responses t) Hd) as [Hkept Hm].
  assert (alive cutoff (ct_responses t) key = true) as Ha by (apply alive_spec; eauto).
  destruct (prune_expired cutoff (ct_responseOrder t) (ct_responses t)) as [kept m]. cbn in Hkept, Hm.
  rewrite Ho, List.filter_app in Hkept. cbn in Hkept. rewrite Ha in Hkept.
  set (pre' := List.filter (alive cutoff (ct_responses t)) pre) in *. set (post' := List.filter (alive cutoff (ct_responses t)) post) in *.
  assert (length post' <= length post)%nat as Hpost by apply filter_length_le.
  assert (key ∉ pre') as Hpre.
  { rewrite Ho in Hd. apply NoDup_app in Hd as (_ & Hdis & _). intros Hin. unfold pre' in Hin.
    apply list_elem_of_In, filter_In in Hin as [Hin%list_elem_of_In _]. apply (Hdis key Hin). by left. }
  unfold drop_oldest. set (excess := (length kept - controlResponseCheckpointCap)%nat).
  assert (excess <= length pre')%nat as He by (unfold excess; rewrite Hkept, length_app; cbn [length]; lia).
  split; cbn [ct_responses ct_responseOrder].
  - rewrite delete_all_lookup, bool_decide_eq_false_2.
    + by rewrite Hm, Ha, andb_false_r, Hl.
    + rewrite Hkept, take_app_le by done. intros Hin. apply Hpre. rewrite <- (take_drop excess pre'), elem_of_app. by left.
  - exists (drop excess pre'), post'. rewrite Hkept, drop_app_le by done. split; [done|lia].
Qed.

(** The request is filed under the key. *)
Definition files (key : string) (h : ControlRPCHandled) : bool :=
  match replay_id h with Some id => controlResponseCacheKey (ch_CallerPubKey h) id ==? key | None => false end.

(** Filing under another key leaves the entry where it is, with one more behind it at most. *)
Lemma handled_state_behind now h k key entry t :
  files key h = false -> kept_behind k key entry t -> kept_behind (S k) key entry (handled_state now h t).
Proof.
  intros Hf (Hl & pre & post & Ho & Hp). unfold handled_state, files in *.
  destruct (replay_id h) as [id|]; [|split; [done|exists pre, post; split; [done|lia]]].
  unfold upsertControlResponseLocked. case_match; [split; [done|exists pre, post; split; [done|lia]]|].
  rewrite !TrimSpace_idem, TrimSpace_key. apply String.eqb_neq in Hf.
  unfold file_response. split; cbn [ct_responses ct_responseOrder]; [by rewrite lookup_insert_ne|].
  case_bool_decide; rewrite Ho; [exists pre, post; split; [done|lia]|].
  exists pre. eexists. rewrite <- app_assoc. split; [reflexivity|]. rewrite length_app. cbn. lia.
Qed.

Lemma remove_first_behind k key order pre post :
  order = pre ++ key :: post -> (length post <= k)%nat -> forall other, other <> key ->
  exists pre' post', remove_first other order = pre' ++ key :: post' /\ (length post' <= k)%nat.
Proof.
  intros -> Hp other Hne. induction pre as [|x pre IH]; cbn.
  - destruct (String.eqb_spec key other) as [|_]; [done|]. exists []. eexists. split; [reflexivity|].
    enough (length (remove_first other post) <= length post)%nat by lia. clear.
    induction post as [|y post IH]; cbn; [done|]. case_match; cbn; lia.
  - case_match; [by exists pre, post|]. destruct IH as (pre' & post' & -> & Hp'). by exists (x :: pre'), post'.
Qed.

Lemma looked_behind now caller id k key entry t :
  expired (now - controlResponseCheckpointTTL) entry = false -> kept_behind k key entry t ->
  kept_behind k key entry (LookupResponse now caller id t).1.
Proof.
  intros Hx (Hl & pre & post & Ho & Hp). unfold LookupResponse. cbv zeta.
  assert (kept_behind k key entry t) as Hsame by (split; [done|by exists pre, post]).
  case_match; [done|]. set (key' := controlResponseCacheKey _ _). destruct (ct_responses t !! key') as [e|] eqn:El; [|done].
  destruct (expired _ e) eqn:Ee; [|done]. assert (key' <> key) as Hne by congruence.
  split; cbn; [by rewrite lookup_delete_ne|]. by eapply remove_first_behind.
Qed.

(** Requests and lookups within the window, none of which is filed under the key. *)
Definition within_window (unix : Z) (key : string) (op : control_op) : Prop :=
  match op with
  | Handled now h => now - controlResponseCheckpointTTL <= unix /\ files key h = false
  | Looked now _ _ => now - controlResponseCheckpointTTL <= unix
  | Reloaded _ => False
  end.
Definition is_handled (op : control_op) : bool := match op with Handled _ _ => true | _ => false end.
Definition requests (ops : list control_op) : nat := length (List.filter is_handled ops).

Lemma fresh_response now unix entry :
  now - controlResponseCheckpointTTL <= unix -> cr_EventUnix entry = unix -> expired (now - controlResponseCheckpointTTL) entry = false.
Proof. intros Hle He. unfold expired. rewrite He. apply andb_false_iff. right. by apply Z.ltb_ge. Qed.

Lemma run_keeps_behind unix key entry ops : forall k t,
  cr_EventUnix entry = unix -> Forall (within_window unix key) ops -> (k + requests ops < controlResponseCheckpointCap)%nat ->
  control_ok t -> kept_behind k key entry t -> kept_behind (k + requests ops) key entry (control_run ops t).
Proof.
  induction ops as [|op ops IH]; intros k t Hu Hf Hk Hok Hb; [by unfold requests; rewrite Nat.add_0_r|].
  inv Hf as [|? ? Hop Hf']. change (control_run (op :: ops) t) with (control_run ops (control_step t op)).
  pose proof (control_step_ok t op Hok) as Hok'. unfold requests in *. cbn [List.filter] in *.
  destruct op as [now h|now caller id|]; cbn [is_handled control_step within_window length] in *; [|..|done].
  - destruct Hop as [Hw Hfiles]. rewrite <- Nat.add_succ_comm. apply IH; [done|done|lia|done|].
    rewrite handled_unfold. destruct (blank (ch_EventID h)).
    + destruct Hb as (Hl & pre & post & Ho & Hp). split; [done|]. exists pre, post. split; [done|lia].
    + apply prune_keeps_behind; [by apply handled_state_ok|lia|by eapply fresh_response|by apply handled_state_behind].
  - apply IH; [done|done|done|done|]. by apply looked_behind; [eapply fresh_response|].
Qed.

(** A response just filed; under a new key it is the last. *)
Lemma marked_behind now h id t :
  control_ok t -> blank (ch_EventID h) = false -> replay_id h = Some id -> blank id = false ->
  now - controlResponseCheckpointTTL <= control_second now (ch_EventUnix h) ->
  let key := controlResponseCacheKey (ch_CallerPubKey h) id in
  exists entry, ct_responses (MarkHandled now h t).1 !! key = Some entry
    /\ cr_EventUnix entry = control_second now (ch_EventUnix h)
    /\ mkControlRPCCachedResponse (cr_Payload entry) (cr_Tags entry) = ch_Response h
    /\ (ct_responses t !! key = None -> kept_behind 0 key entry (MarkHandled now h t).1).
Proof.
  intros Hok Hb Hr Hbi Hnow key. rewrite handled_unfold, Hb.
  destruct (handled_state_files now h t id Hok Hr Hbi) as ((entry & He & Hu & Hresp) & Hpos). fold key in He, Hpos.
  pose proof (handled_state_ok now h t Hok) as Hso. pose proof (fresh_response _ _ _ Hnow Hu) as Hx.
  destruct (prune_responses_spec now _ Hso) as (_ & _ & _ & Hkeep). exists entry. split; [by apply Hkeep|].
  split; [done|]. split; [done|]. intros Hnew. apply prune_keeps_behind; [done|by apply Nat.ltb_lt|done|].
  split; [done|]. exists (ct_responseOrder t), []. split; [|done]. unfold handled_state. rewrite Hr.
  unfold upsertControlResponseLocked. rewrite !TrimSpace_idem, (proj2 (String.eqb_neq _ _) (replay_caller h id Hr)).
  unfold blank in Hbi. rewrite Hbi. cbn [orb]. rewrite TrimSpace_key. unfold file_response. cbn. fold key.
  by rewrite Hnew.
Qed.

Lemma lookup_finds now caller id entry t :
  TrimSpace caller <> "" -> blank id = false -> ct_responses t !! controlResponseCacheKey caller id = Some entry ->
  expired (now - controlResponseCheckpointTTL) entry = false ->
  LookupResponse now caller id t = (t, Some (mkControlRPCCachedResponse (cr_Payload entry) (cr_Tags entry))).
Proof.
  intros Hc Hb Hl Hx. unfold LookupResponse. rewrite (proj2 (String.eqb_neq _ _) Hc). unfold blank in Hb. rewrite Hb. cbn [orb].
  by rewrite TrimSpace_key, Hl, Hx.
Qed.

(** C39: Whatever was handled, looked up and reloaded before, a response is found at once
    under the identifier its method is filed by; and when nothing was filed under that
    before, it is found as it was given for as long as the daemon runs, while its event is
    less than the window old and until 256 other requests have been handled or the same
    one again, whatever is looked up in between.  Nothing else is filed, secrets under no
    identifier at all; and the cache holds at most its cap of responses.  (A restart can
    forget the older half.) *)
Theorem handled_requests_are_replayed start doc before now h now' later :
  let t := control_run before (newControlTracker start doc) in
  let t1 := (MarkHandled now h t).1 in
  let t2 := control_run later t1 in
  let unix := control_second now (ch_EventUnix h) in
  blank (ch_EventID h) = false -> now - controlResponseCheckpointTTL <= unix -> now' - controlResponseCheckpointTTL <= unix ->
  (forall id, replay_id h = Some id -> blank id = false ->
     let key := controlResponseCacheKey (ch_CallerPubKey h) id in
     LookupResponse now' (ch_CallerPubKey h) id t1 = (t1, Some (ch_Response h))
     /\ (ct_responses t !! key = None -> Forall (within_window unix key) later ->
         (requests later < controlResponseCheckpointCap)%nat ->
         LookupResponse now' (ch_CallerPubKey h) id t2 = (t2, Some (ch_Response h))))
  /\ (forall key entry, ct_responses t1 !! key = Some entry ->
       ct_responses t !! key = Some entry \/ exists id, replay_id h = Some id /\ key = controlResponseCacheKey (ch_CallerPubKey h) id)
  /\ (TrimSpace (ch_Method h) ∈ secret_methods -> replay_id h = None)
  /\ (size (ct_responses t1) <= controlResponseCheckpointCap)%nat /\ (size (ct_responses t2) <= controlResponseCheckpointCap)%nat.
Proof.
  cbv zeta. intros Hb Hnow Hnow'. set (t := control_run before (newControlTracker start doc)).
  assert (control_ok t) as Hok by (apply control_run_ok, new_control_ok).
  pose proof (control_step_ok t (Handled now h) Hok) as Hok1. cbn [control_step] in Hok1.
  pose proof (control_run_ok later _ Hok1) as Hok2.
  split; [|split; [|split; [|split; [rewrite (size_of_order _ _ (proj1 Hok1)); apply Hok1|rewrite (size_of_order _ _ (proj1 Hok2)); apply Hok2]]]].
  - intros id Hr Hbi. destruct (marked_behind now h id t Hok Hb Hr Hbi Hnow) as (entry & He & Hu & <- & Hlast).
    pose proof (fresh_response _ _ _ Hnow' Hu) as Hx. pose proof (replay_caller h id Hr) as Hc.
    split; [by apply lookup_finds|]. intros Hnew Hlater Hfew. apply lookup_finds; [done|done| |done].
    by apply (run_keeps_behind _ _ _ later 0 _ Hu Hlater Hfew Hok1 (Hlast Hnew)).
  - intros key entry. rewrite handled_unfold, Hb. intros He. apply handled_state_adds with (now := now).
    by apply (prune_responses_spec now _ (handled_state_ok now h t Hok)).
  - intros Hs. unfold replay_id, blank, MethodPolicy. revert Hs. generalize (TrimSpace (ch_Method h)). intros m Hm.
    destruct (TrimSpace (ch_CallerPubKey h) ==? ""); [done|]. unfold secret_methods in Hm.
    by repeat (apply elem_of_cons in Hm as [->|Hm]; [vm_compute; reflexivity|]); apply not_elem_of_nil in Hm.
Qed.

(** A query handled at second 1000, and others like it. *)
Definition status_request (n : Z) : ControlRPCHandled :=
  mkControlRPCHandled ("ev" +:+ pretty n) 1000 "caller" ("rq" +:+ pretty n) "status.get"
    (mkControlRPCCachedResponse ("ok" +:+ pretty n) [["e"; "ev" +:+ pretty n]]).
Definition no_control : CheckpointDoc := mkCheckpointDoc 1 "control_ingest" "" 0 [] [].

Lemma handled_requests_are_replayed_witness :
  let later := [Handled 1200 (status_request 8); Looked 1300 "caller" "rq8"; Handled 1400 (status_request 9)] in
  (LookupResponse 2500 "caller" "rq7" (control_run later (MarkHandled 1000 (status_request 7) (newControlTracker 900 no_control)).1)).2
  = Some (ch_Response (status_request 7)).
Proof.
  cbv zeta. set (later := [Handled 1200 (status_request 8); Looked 1300 "caller" "rq8"; Handled 1400 (status_request 9)]).
  pose proof (handled_requests_are_replayed 900 no_control [] 1000 (status_request 7) 2500 later eq_refl
    ltac:(vm_compute; discriminate) ltac:(vm_compute; discriminate)) as [H _].
  destruct (H "rq7" eq_refl eq_refl) as [_ Hlater]. refine (f_equal snd (Hlater _ _ _)).
  - vm_compute. reflexivity.
  - repeat constructor; vm_compute; first [discriminate|reflexivity].
  - apply Nat.ltb_lt. vm_compute. reflexivity.
Defined.

(** A request handled again keeps the place of its first response, so that it is among the
    oldest however new its answer is. *)
Example repeated_request_keeps_its_place :
  let first := control_run (map (fun n => Handled 1000 (status_request (Z.of_nat n))) (seq 0 256)) (newControlTracker 900 no_control) in
  let again := control_run [Handled 1100 (status_request 0); Handled 1101 (status_request 256)] first in
  let found n := bool_decide (is_Some (LookupResponse 1102 "caller" ("rq" +:+ pretty (Z.of_nat n)) again).2) in
  map found [0; 1; 256]%nat = [false; true; true].
Proof. vm_compute. reflexivity. Qed.

(** A restart files every query under its event as well, so that of a full cache only the
    newer half is found again. *)
Example restart_keeps_half_the_cache :
  let full := control_run (map (fun n => Handled 1000 (status_request (Z.of_nat n))) (seq 0 256)) (newControlTracker 900 no_control) in
  let again := newControlTracker 1001 (control_doc full) in
  let found t n := bool_decide (is_Some (LookupResponse 1002 "caller" ("rq" +:+ pretty (Z.of_nat n)) t).2) in
  map (found full) [0; 127; 128; 255]%nat = [true; true; true; true]
  /\ map (found again) [0; 127; 128; 255]%nat = [false; false; true; true].
Proof. vm_compute. by split. Qed.
