(* ===== verification/TurnRegistries.v ===== *)
(** What the daemon tracks while turns run: the turns that can be aborted and the tool
    calls in flight of cmd/metiqd/main_trackers.go, the handoff and in-flight registries
    of cmd/metiqd/main_persistence.go.

    Every method is one critical section (a context is cancelled right after it, by the
    only holder of its handle).  Times are in nanoseconds; the clock is read once per
    call.  Counters of turns, tokens and calls do not wrap, and a registry is never nil. *)

From Stdlib Require Import Ascii String.
From stdpp Require Import base tactics decidable list gmap strings.
From S2P Require Import Prelude Checkpoints.

(** ** Turns that can be aborted *)

(** A cancellable context is known by the number of its handle; the causes are those of
    the contexts cancelled so far, and the first cause of a context stays. *)
Record chatAbortRegistry := mkChatAbortRegistry {
  ca_nextID : Z;
  ca_inFlight : gmap string Z;
  ca_causes : gmap Z string
}.

Definition newChatAbortRegistry : chatAbortRegistry := mkChatAbortRegistry 0 ∅ ∅.

Definition cancel (id : Z) (cause : string) (causes : gmap Z string) : gmap Z string :=
  if bool_decide (is_Some (causes !! id)) then causes else <[id := cause]> causes.

Definition Canceled : string := "context canceled".

(** The handle of the new context; [None] is the parent context itself. *)
Definition Abort_Begin (sessionID : string) (r : chatAbortRegistry) : chatAbortRegistry * option Z :=
  let sessionID := TrimSpace sessionID in
  if sessionID ==? "" then (r, None)
  else
    let id := ca_nextID r + 1 in
    (mkChatAbortRegistry id (<[sessionID := id]> (ca_inFlight r))
       match ca_inFlight r !! sessionID with
       | Some prior => cancel prior Canceled (ca_causes r)
       | None => ca_causes r
       end, Some id).

(** The closure [Begin] returns with a context. *)
Definition Abort_release (sessionID : string) (handle : option Z) (r : chatAbortRegistry) : chatAbortRegistry :=
  let sessionID := TrimSpace sessionID in
  match handle with
  | None => r
  | Some id =>
    if bool_decide (ca_inFlight r !! sessionID = Some id)
    then mkChatAbortRegistry (ca_nextID r) (delete sessionID (ca_inFlight r)) (ca_causes r) else r
  end.

Definition AbortWithCause (sessionID : string) (cause : option string) (r : chatAbortRegistry) : chatAbortRegistry * bool :=
  let sessionID := TrimSpace sessionID in
  if sessionID ==? "" then (r, false)
  else match ca_inFlight r !! sessionID with
  | None => (r, false)
  | Some id =>
    (mkChatAbortRegistry (ca_nextID r) (delete sessionID (ca_inFlight r))
       (cancel id (default Canceled cause) (ca_causes r)), true)
  end.

Definition Abort (sessionID : string) : chatAbortRegistry -> chatAbortRegistry * bool := AbortWithCause sessionID None.

Definition AbortAll (r : chatAbortRegistry) : chatAbortRegistry * Z :=
  let handles := map snd (map_to_list (ca_inFlight r)) in
  (mkChatAbortRegistry (ca_nextID r) ∅ (foldl (fun causes id => cancel id Canceled causes) (ca_causes r) handles),
   Z.of_nat (length handles)).

(** ** Tool calls in flight *)

Definition ToolInterruptBehaviorBlock : string := "block".
Definition ToolInterruptBehaviorCancel : string := "cancel".

Inductive ToolLifecycleEventType := ToolLifecycleEventStart | ToolLifecycleEventProgress | ToolLifecycleEventResult | ToolLifecycleEventError.

Record ToolLifecycleEvent := mkToolLifecycleEvent {
  te_Type : ToolLifecycleEventType;
  te_SessionID : string;
  te_TurnID : string;
  te_ToolCallID : string;
  te_ToolName : string;
  (** The interrupt behaviour of [Data], when it is a policy decision. *)
  te_Data : option string
}.

Record activeToolState := mkActiveToolState {
  at_toolName : string;
  at_interruptBehavior : string;
  at_count : Z
}.

Abbreviation activeToolRegistry := (gmap string (gmap string activeToolState)).

Definition activeToolKey (evt : ToolLifecycleEvent) : string :=
  let id := TrimSpace (te_ToolCallID evt) in
  if id !=? "" then id
  else
    let name := TrimSpace (te_ToolName evt) in
    if name ==? "" then ""
    else
      let turnID := TrimSpace (te_TurnID evt) in
      if turnID !=? "" then turnID +:+ zero_byte +:+ name else name.

Definition no_tool : activeToolState := mkActiveToolState "" "" 0.

Definition tool_started (evt : ToolLifecycleEvent) (s : activeToolState) : activeToolState :=
  let behavior := match te_Data evt with
                  | Some b => if b !=? "" then b else ToolInterruptBehaviorBlock
                  | None => ToolInterruptBehaviorBlock
                  end in
  mkActiveToolState (TrimSpace (te_ToolName evt))
    (if at_count s <=? 0 then behavior
     else if behavior !=? ToolInterruptBehaviorCancel then behavior
     else at_interruptBehavior s)
    (at_count s + 1).

(** The tools of a session after a call under a key ended. *)
Definition tool_ended (key : string) (tools : gmap string activeToolState) : gmap string activeToolState :=
  let s := default no_tool (tools !! key) in
  if 1 <? at_count s
  then <[key := mkActiveToolState (at_toolName s) (at_interruptBehavior s) (at_count s - 1)]> tools
  else delete key tools.

Definition Tools_Record (evt : ToolLifecycleEvent) (r : activeToolRegistry) : activeToolRegistry :=
  let sessionID := TrimSpace (te_SessionID evt) in
  let key := activeToolKey evt in
  if (sessionID ==? "") || (key ==? "") then r
  else match te_Type evt with
  | ToolLifecycleEventStart =>
    let tools := default ∅ (r !! sessionID) in
    <[sessionID := <[key := tool_started evt (default no_tool (tools !! key))]> tools]> r
  | ToolLifecycleEventResult | ToolLifecycleEventError =>
    match r !! sessionID with
    | None => r
    | Some tools =>
      let tools := tool_ended key tools in
      if bool_decide (tools = ∅) then delete sessionID r else <[sessionID := tools]> r
    end
  | ToolLifecycleEventProgress => r
  end.

Definition AllInterruptible (sessionID : string) (r : activeToolRegistry) : bool :=
  let sessionID := TrimSpace sessionID in
  if sessionID ==? "" then true
  else forallb (fun kt => at_interruptBehavior kt.2 ==? ToolInterruptBehaviorCancel)
         (map_to_list (default ∅ (r !! sessionID))).

Definition ClearSession (sessionID : string) (r : activeToolRegistry) : activeToolRegistry :=
  let sessionID := TrimSpace sessionID in
  if sessionID ==? "" then r else delete sessionID r.

(** ** Handoffs of a session's turn *)

Definition sessionTurnHandoffTTL : Z := 30 * 60 * 1000000000.
Definition eventInFlightTTL : Z := 30 * 60 * 1000000000.

Record sessionTurnHandoffToken := mkSessionTurnHandoffToken {
  ht_ID : Z;
  ht_ReservedAt : Z
}.

Record sessionTurnHandoffRegistry := mkSessionTurnHandoffRegistry {
  th_nextID : Z;
  th_tokens : gmap string sessionTurnHandoffToken
}.

Definition newSessionTurnHandoffRegistry : sessionTurnHandoffRegistry := mkSessionTurnHandoffRegistry 0 ∅.

Definition handoff_cleanup (now : Z) (r : sessionTurnHandoffRegistry) : sessionTurnHandoffRegistry :=
  mkSessionTurnHandoffRegistry (th_nextID r)
    (filter (fun st : string * sessionTurnHandoffToken => ~ sessionTurnHandoffTTL < now - ht_ReservedAt st.2) (th_tokens r)).

Definition Reserve (now : Z) (sessionID : string) (r : sessionTurnHandoffRegistry) : sessionTurnHandoffRegistry * Z :=
  let r := handoff_cleanup now r in
  let id := th_nextID r + 1 in
  (mkSessionTurnHandoffRegistry id (<[sessionID := mkSessionTurnHandoffToken id now]> (th_tokens r)), id).

Definition Has (now : Z) (sessionID : string) (r : sessionTurnHandoffRegistry) : sessionTurnHandoffRegistry * bool :=
  let r := handoff_cleanup now r in (r, bool_decide (is_Some (th_tokens r !! sessionID))).

Definition ConsumeIfMatch (now : Z) (sessionID : string) (token : Z) (r : sessionTurnHandoffRegistry)
  : sessionTurnHandoffRegistry * bool :=
  if token =? 0 then (r, false)
  else
    let r := handoff_cleanup now r in
    match th_tokens r !! sessionID with
    | Some current =>
      if ht_ID current =? token
      then (mkSessionTurnHandoffRegistry (th_nextID r) (delete sessionID (th_tokens r)), true) else (r, false)
    | None => (r, false)
    end.

(** ** Events in flight *)

Record eventInFlightEntry := mkEventInFlightEntry {
  ef_Count : Z;
  ef_StartedAt : Z
}.

Abbreviation eventInFlightRegistry := (gmap string eventInFlightEntry).

Definition inflight_cleanup (now : Z) (r : eventInFlightRegistry) : eventInFlightRegistry :=
  filter (fun ke : string * eventInFlightEntry => ~ eventInFlightTTL < now - ef_StartedAt ke.2) r.

Definition InFlight_Begin (now : Z) (key : string) (r : eventInFlightRegistry) : eventInFlightRegistry * bool :=
  if blank key then (r, true)
  else
    let r := inflight_cleanup now r in
    match r !! key with
    | Some entry => if 0 <? ef_Count entry then (r, false) else (<[key := mkEventInFlightEntry 1 now]> r, true)
    | None => (<[key := mkEventInFlightEntry 1 now]> r, true)
    end.

Definition InFlight_End (key : string) (r : eventInFlightRegistry) : eventInFlightRegistry :=
  if blank key then r
  else match r !! key with
  | Some entry =>
    if ef_Count entry <=? 1 then delete key r else <[key := mkEventInFlightEntry (ef_Count entry - 1) (ef_StartedAt entry)]> r
  | None => delete key r
  end.
