(* ===== verification/TurnRegistryProps.v ===== *)
(** What the registries of turns, tool calls, handoffs and events in flight guarantee. *)

From Stdlib Require Import Ascii String.
From stdpp Require Import base tactics decidable list gmap strings pretty relations.
From S2P Require Import Prelude Checkpoints TurnRegistries.

(** ** Handoffs *)

(** The calls on a registry, with the tokens consumed so far. *)
Inductive handoff_step : sessionTurnHandoffRegistry * list Z -> sessionTurnHandoffRegistry * list Z -> Prop :=
  | step_reserve now id r used : handoff_step (r, used) ((Reserve now id r).1, used)
  | step_has now id r used : handoff_step (r, used) ((Has now id r).1, used)
  | step_consume now id token r used :
      handoff_step (r, used)
        ((ConsumeIfMatch now id token r).1, if (ConsumeIfMatch now id token r).2 then token :: used else used).

(** The tokens are numbered up to the last one, those in the registry differ from each
    other and from those consumed, which differ too. *)
Definition handoffs_ok (x : sessionTurnHandoffRegistry * list Z) : Prop :=
  let '(r, used) := x in
  0 <= th_nextID r
  /\ (forall s t, th_tokens r !! s = Some t -> 0 < ht_ID t <= th_nextID r /\ ht_ID t ∉ used)
  /\ (forall s s' t t', th_tokens r !! s = Some t -> th_tokens r !! s' = Some t' -> ht_ID t = ht_ID t' -> s = s')
  /\ NoDup used /\ Forall (fun token => 0 < token <= th_nextID r) used.

Lemma cleanup_lookup now r s t :
  th_tokens (handoff_cleanup now r) !! s = Some t
  <-> th_tokens r !! s = Some t /\ now - ht_ReservedAt t <= sessionTurnHandoffTTL.
Proof. unfold handoff_cleanup. cbn. rewrite map_lookup_filter_Some. cbn. by rewrite Z.nlt_ge. Qed.

Lemma cleanup_handoffs_ok now r used : handoffs_ok (r, used) -> handoffs_ok (handoff_cleanup now r, used).
Proof.
  intros (Hn & Ht & Hu & Hd & Hf). split; [done|]. split; [intros s t [Hl _]%cleanup_lookup; by eapply Ht|].
  split; [|done]. intros s s' t t' [Hl _]%cleanup_lookup [Hl' _]%cleanup_lookup. by apply Hu.
Qed.

Lemma handoff_step_ok x y : handoff_step x y -> handoffs_ok x -> handoffs_ok y.
Proof.
  intros Hs Hok. destruct Hs as [now id r used|now id r used|now id token r used].
  - destruct (cleanup_handoffs_ok now r used Hok) as (Hn & Ht & Hu & Hd & Hf). cbn -[handoff_cleanup].
    set (r1 := handoff_cleanup now r) in *. clearbody r1. split; [cbn; lia|]. split; [|split; [|split; [done|]]]; cbn.
    + intros s t [[<- <-]|[_ Hl]]%lookup_insert_Some; cbn.
      * split; [lia|]. intros Hin. rewrite Forall_forall in Hf. apply Hf in Hin. lia.
      * destruct (Ht _ _ Hl). split; [lia|done].
    + intros s s' t t' [[<- <-]|[_ Hl]]%lookup_insert_Some [[<- <-]|[_ Hl']]%lookup_insert_Some He; cbn in *; try done.
      * apply Ht in Hl'. lia.
      * apply Ht in Hl. lia.
      * by eapply Hu.
    + eapply Forall_impl; [exact Hf|]. cbn. lia.
  - by apply cleanup_handoffs_ok.
  - unfold ConsumeIfMatch. destruct (token =? 0); [done|]. apply (cleanup_handoffs_ok now) in Hok. cbv zeta.
    set (r1 := handoff_cleanup now r) in *. clearbody r1. destruct (th_tokens r1 !! id) as [current|] eqn:El; [|done].
    destruct (Z.eqb_spec (ht_ID current) token) as [<-|]; [|done]. destruct Hok as (Hn & Ht & Hu & Hd & Hf).
    cbn [fst snd]. split; [done|]. split; [|split; [|split]]; cbn.
    + intros s t [Hne Hl]%lookup_delete_Some. destruct (Ht _ _ Hl) as [? ?]. split; [done|].
      rewrite not_elem_of_cons. split; [|done]. intros He. by apply Hne, (Hu _ _ _ _ El Hl).
    + intros s s' t t' [_ Hl]%lookup_delete_Some [_ Hl']%lookup_delete_Some. by eapply Hu.
    + constructor; [|done]. by apply (Ht _ _ El).
    + constructor; [|done]. by apply (Ht _ _ El).
Qed.

(** However the calls of the registry follow each other, no token is consumed twice; a
    token just reserved is new, and while it lasts it alone takes the session's turn over,
    once, and lets no one pass without it. *)
Theorem handoff_tokens_are_used_once r used :
  rtc handoff_step (newSessionTurnHandoffRegistry, []) (r, used) ->
  NoDup used
  /\ forall now later id, let '(r', token) := Reserve now id r in
     token ∉ used
     /\ (Has later id r').2 = bool_decide (later - now <= sessionTurnHandoffTTL)
     /\ (forall other, (ConsumeIfMatch later id other r').2 = bool_decide (other = token /\ later - now <= sessionTurnHandoffTTL))
     /\ (Has later id (ConsumeIfMatch later id token r').1).2 = false.
Proof.
  intros Hr. assert (handoffs_ok (r, used)) as Hok.
  { assert (handoffs_ok (newSessionTurnHandoffRegistry, [])) as H0.
    { split; [done|]. cbn. split; [by intros s t ?%lookup_empty_Some|]. split; [by intros s s' t t' ?%lookup_empty_Some|]. by repeat constructor. }
    revert H0. induction Hr as [|x y z Hs _ IH]; [done|]. intros H0. by apply IH, (handoff_step_ok _ _ Hs). }
  split; [apply Hok|]. intros now later id. unfold Reserve. cbv zeta.
  destruct (cleanup_handoffs_ok now _ _ Hok) as (Hn & _ & _ & _ & Hf).
  set (r1 := handoff_cleanup now r) in *. clearbody r1. set (token := th_nextID r1 + 1).
  set (r2 := mkSessionTurnHandoffRegistry _ _).
  assert (th_tokens (handoff_cleanup later r2) !! id
    = if bool_decide (later - now <= sessionTurnHandoffTTL) then Some (mkSessionTurnHandoffToken token now) else None) as Hl.
  { apply option_eq. intros t. rewrite cleanup_lookup. cbn. rewrite lookup_insert_eq. case_bool_decide; [|naive_solver lia].
    split; [by intros [? _]|]. by intros [= <-]. }
  split; [|split; [|split]].
  - intros Hin. rewrite Forall_forall in Hf. apply Hf in Hin. lia.
  - unfold Has. cbn -[handoff_cleanup r2]. rewrite Hl. by case_bool_decide.
  - intros other. unfold ConsumeIfMatch. destruct (Z.eqb_spec other 0) as [->|Hne].
    { rewrite bool_decide_eq_false_2; [done|]. intros [? _]. lia. }
    rewrite Hl. case_bool_decide; cbn; [|by rewrite bool_decide_eq_false_2 by naive_solver].
    destruct (Z.eqb_spec token other); [rewrite bool_decide_eq_true_2|rewrite bool_decide_eq_false_2]; naive_solver.
  - unfold ConsumeIfMatch. rewrite (proj2 (Z.eqb_neq token 0)) by lia. rewrite Hl. case_bool_decide; cbn [fst].
    + cbn [ht_ID]. rewrite Z.eqb_refl. cbn [fst]. unfold Has. cbn [snd]. apply bool_decide_eq_false_2.
      intros [t Ht]. apply cleanup_lookup in Ht as [Ht _]. cbn [th_tokens] in Ht. by rewrite lookup_delete_eq in Ht.
    + unfold Has. cbn [snd]. apply bool_decide_eq_false_2. intros [t Ht]. apply cleanup_lookup in Ht as [Ht _]. by rewrite Hl in Ht.
Qed.

Lemma handoff_tokens_are_used_once_witness :
  (ConsumeIfMatch 5 "s" 1 (Reserve 3 "s" newSessionTurnHandoffRegistry).1).2 = true
  /\ (ConsumeIfMatch 5 "s" 2 (Reserve 3 "s" newSessionTurnHandoffRegistry).1).2 = false.
Proof.
  destruct (proj2 (handoff_tokens_are_used_once _ _ (rtc_refl _ _)) 3 5 "s") as (_ & _ & H & _).
  split; [exact (H 1)|exact (H 2)].
Defined.

(** ** Events in flight *)

Inductive inflight_op :=
  | Begun (now : Z) (key : string)
  | Ended (key : string).

Definition inflight_run (ops : list inflight_op) (r : eventInFlightRegistry) : eventInFlightRegistry :=
  foldl (fun r op => match op with Begun now key => (InFlight_Begin now key r).1 | Ended key => InFlight_End key r end) r ops.

(** The calls of others: none ends the key, all within the time. *)
Definition others (key : string) (limit : Z) (op : inflight_op) : Prop :=
  match op with Begun now _ => now <= limit | Ended key' => key' <> key end.

Lemma inflight_cleanup_lookup now (r : eventInFlightRegistry) key e :
  inflight_cleanup now r !! key = Some e <-> r !! key = Some e /\ now - ef_StartedAt e <= eventInFlightTTL.
Proof. unfold inflight_cleanup. etransitivity; [apply map_lookup_filter_Some|]. cbn. by rewrite Z.nlt_ge. Qed.

(** An event that was begun is refused to everyone else until it is ended, within the
    half hour its entry lasts, whatever else is begun and ended; once it is ended it can
    be begun again. *)
Theorem event_in_flight_is_refused now key r ops later :
  blank key = false -> (InFlight_Begin now key r).2 = true ->
  Forall (others key (now + eventInFlightTTL)) ops -> later <= now + eventInFlightTTL ->
  let r' := inflight_run ops (InFlight_Begin now key r).1 in
  (InFlight_Begin later key r').2 = false /\ forall at_, (InFlight_Begin at_ key (InFlight_End key r')).2 = true.
Proof.
  intros Hb Hnew Hops Hlater. cbv zeta. set (mine := mkEventInFlightEntry 1 now).
  assert (inflight_run ops (InFlight_Begin now key r).1 !! key = Some mine) as Hin.
  { assert ((InFlight_Begin now key r).1 !! key = Some mine) as H0.
    { revert Hnew. unfold InFlight_Begin. rewrite Hb. cbv zeta. destruct (inflight_cleanup now r !! key) as [e|].
      - destruct (0 <? ef_Count e); [done|]. intros _. cbn. by rewrite lookup_insert_eq.
      - intros _. cbn. by rewrite lookup_insert_eq. }
    revert H0. generalize (InFlight_Begin now key r).1. induction Hops as [|op ops Hop _ IH]; [done|]. intros r0 H0.
    apply IH. destruct op as [t k|k]; cbn in Hop.
    - unfold InFlight_Begin. destruct (blank k); [done|]. cbv zeta.
      assert (inflight_cleanup t r0 !! key = Some mine) as H1 by (apply inflight_cleanup_lookup; split; [done|cbn; lia]).
      destruct (decide (k = key)) as [->|Hne]; [by rewrite H1|].
      repeat case_match; cbn; rewrite ?lookup_insert_ne by done; done.
    - unfold InFlight_End. destruct (blank k); [done|].
      repeat case_match; rewrite ?lookup_insert_ne, ?lookup_delete_ne by done; done. }
  set (r' := inflight_run ops (InFlight_Begin now key r).1) in *. clearbody r'. split.
  - unfold InFlight_Begin. rewrite Hb. cbv zeta.
    assert (inflight_cleanup later r' !! key = Some mine) as -> by (apply inflight_cleanup_lookup; split; [done|cbn; lia]). done.
  - intros at_. unfold InFlight_End, InFlight_Begin. rewrite Hb, Hin. cbn. set (r2 := inflight_cleanup at_ _).
    assert (r2 !! key = None) as ->; [|done]. destruct (r2 !! key) as [e|] eqn:E; [|done].
    apply inflight_cleanup_lookup in E as [E _]. by rewrite lookup_delete_eq in E.
Qed.

Lemma event_in_flight_is_refused_witness :
  (InFlight_Begin 9 "k" (inflight_run [Begun 6 "x"; Ended "x"] (InFlight_Begin 5 "k" ∅).1)).2 = false.
Proof.
  refine (proj1 (event_in_flight_is_refused 5 "k" ∅ [Begun 6 "x"; Ended "x"] 9 _ _ _ _));
    [vm_compute; reflexivity|vm_compute; reflexivity|repeat constructor; vm_compute; discriminate|vm_compute; discriminate].
Defined.

(** After the half hour a second delivery begins; the end of the first then lets a third
    in while the second still runs. *)
Example late_end_frees_the_second_delivery :
  let r := (InFlight_Begin 0 "k" ∅).1 in
  let later := eventInFlightTTL + 1 in
  let '(r, second) := InFlight_Begin later "k" r in
  second = true /\ (InFlight_Begin later "k" (InFlight_End "k" r)).2 = true.
Proof. vm_compute. by split. Qed.

(** ** Tool calls in flight *)

(** A call in flight: its session and key, and how it takes an interrupt. *)
Definition call : Type := (string * string) * string.

Definition behavior_of (evt : ToolLifecycleEvent) : string :=
  match te_Data evt with
  | Some b => if b !=? "" then b else ToolInterruptBehaviorBlock
  | None => ToolInterruptBehaviorBlock
  end.

Definition tracked (evt : ToolLifecycleEvent) (sk : string * string) : Prop :=
  sk = (TrimSpace (te_SessionID evt), activeToolKey evt) /\ sk.1 <> "" /\ sk.2 <> "".

(** The registry beside the calls in flight: an end ends any one of the calls under its
    key. *)
Inductive tool_step : activeToolRegistry * list call -> activeToolRegistry * list call -> Prop :=
  | step_start evt sk r calls :
      te_Type evt = ToolLifecycleEventStart -> tracked evt sk ->
      tool_step (r, calls) (Tools_Record evt r, (sk, behavior_of evt) :: calls)
  | step_end evt sk b r calls before after :
      te_Type evt = ToolLifecycleEventResult \/ te_Type evt = ToolLifecycleEventError -> tracked evt sk ->
      calls = before ++ (sk, b) :: after ->
      tool_step (r, calls) (Tools_Record evt r, before ++ after)
  | step_stray evt sk r calls :
      te_Type evt = ToolLifecycleEventResult \/ te_Type evt = ToolLifecycleEventError -> tracked evt sk ->
      (forall c, c ∈ calls -> c.1 <> sk) -> tool_step (r, calls) (Tools_Record evt r, calls)
  | step_clear id r calls :
      TrimSpace id <> "" ->
      tool_step (r, calls) (ClearSession id r, filter (fun c : call => c.1.1 <> TrimSpace id) calls).

Definition calls_of (sk : string * string) (calls : list call) : list call := filter (fun c : call => c.1 = sk) calls.

Definition tool_at (sk : string * string) (r : activeToolRegistry) : option activeToolState := (r !! sk.1) ≫= fun tools => tools !! sk.2.

Definition tool_ok (s : option activeToolState) (calls : list call) : Prop :=
  match s with
  | None => calls = []
  | Some s => calls <> [] /\ at_count s = Z.of_nat (length calls)
              /\ (Exists (fun c : call => c.2 <> ToolInterruptBehaviorCancel) calls -> at_interruptBehavior s <> ToolInterruptBehaviorCancel)
  end.

Definition tools_ok (x : activeToolRegistry * list call) : Prop :=
  forall sk, tool_ok (tool_at sk x.1) (calls_of sk x.2).

Lemma tool_ended_lookup key key' (tools : gmap string activeToolState) :
  tool_ended key tools !! key' = if decide (key' = key)
    then match tools !! key with
         | Some s => if 1 <? at_count s then Some (mkActiveToolState (at_toolName s) (at_interruptBehavior s) (at_count s - 1)) else None
         | None => None
         end
    else tools !! key'.
Proof.
  unfold tool_ended. destruct (decide (key' = key)) as [->|Hne].
  - destruct (tools !! key) as [s|]; cbn; [destruct (1 <? at_count s)|]; by rewrite ?lookup_insert_eq, ?lookup_delete_eq.
  - case_match; by rewrite ?lookup_insert_ne, ?lookup_delete_ne by done.
Qed.

Lemma recorded evt sk r : tracked evt sk ->
  forall sk', tool_at sk' (Tools_Record evt r)
  = if bool_decide (sk' = sk) then
      match te_Type evt with
      | ToolLifecycleEventStart => Some (tool_started evt (default no_tool (tool_at sk r)))
      | ToolLifecycleEventResult | ToolLifecycleEventError =>
        match tool_at sk r with
        | Some s => if 1 <? at_count s then Some (mkActiveToolState (at_toolName s) (at_interruptBehavior s) (at_count s - 1)) else None
        | None => None
        end
      | ToolLifecycleEventProgress => tool_at sk r
      end
    else tool_at sk' r.
Proof.
  intros (-> & Hs & Hk) [s' k']. cbn in Hs, Hk. unfold Tools_Record.
  rewrite (proj2 (String.eqb_neq _ _) Hs), (proj2 (String.eqb_neq _ _) Hk). cbn [orb].
  set (s := TrimSpace (te_SessionID evt)) in *. set (k := activeToolKey evt) in *. clearbody s k.
  assert (forall tools, tool_at (s', k') (<[s := tools]> r) = if decide (s' = s) then tools !! k' else tool_at (s', k') r) as Hins.
  { intros tools. unfold tool_at. cbn. destruct (decide (s' = s)) as [->|]; [by rewrite lookup_insert_eq|by rewrite lookup_insert_ne]. }
  assert (tool_at (s', k') (match r !! s with
      | None => r
      | Some tools => if bool_decide (tool_ended k tools = ∅) then delete s r else <[s := tool_ended k tools]> r
      end) = match r !! s with
      | None => tool_at (s', k') r
      | Some tools => if decide (s' = s) then tool_ended k tools !! k' else tool_at (s', k') r
      end) as Hend.
  { destruct (r !! s) as [tools|]; [|done]. case_bool_decide as He; [|apply Hins]. unfold tool_at. cbn. rewrite He.
    destruct (decide (s' = s)) as [->|]; [by rewrite lookup_delete_eq, lookup_empty|by rewrite lookup_delete_ne]. }
  destruct (decide ((s', k') = (s, k))) as [E|E].
  - rewrite bool_decide_eq_true_2 by done. injection E as -> ->.
    destruct (te_Type evt); [|done|rewrite Hend..].
    + rewrite Hins, decide_True, lookup_insert_eq by done. unfold tool_at. cbn. by destruct (r !! s).
    + unfold tool_at. cbn. destruct (r !! s) as [tools|]; [|done]. cbn. by rewrite decide_True, tool_ended_lookup, decide_True by done.
    + unfold tool_at. cbn. destruct (r !! s) as [tools|]; [|done]. cbn. by rewrite decide_True, tool_ended_lookup, decide_True by done.
  - rewrite bool_decide_eq_false_2 by done. destruct (te_Type evt); [|done|rewrite Hend..].
    + rewrite Hins. destruct (decide (s' = s)) as [->|]; [|done]. rewrite lookup_insert_ne by (by intros ->).
      unfold tool_at. cbn. by destruct (r !! s).
    + destruct (r !! s) as [tools|] eqn:El; [|done]. destruct (decide (s' = s)) as [->|]; [|done].
      rewrite tool_ended_lookup, decide_False by (by intros ->). unfold tool_at. cbn. by rewrite El.
    + destruct (r !! s) as [tools|] eqn:El; [|done]. destruct (decide (s' = s)) as [->|]; [|done].
      rewrite tool_ended_lookup, decide_False by (by intros ->). unfold tool_at. cbn. by rewrite El.
Qed.

Lemma list_filter_none {A} (P : A -> Prop) `{forall x, Decision (P x)} (l : list A) : Forall (fun x => ~ P x) l -> filter P l = [].
Proof. induction 1; [done|]. by rewrite filter_cons_False. Qed.

Lemma calls_of_cons sk sk' b calls :
  calls_of sk' ((sk, b) :: calls) = if decide (sk = sk') then (sk, b) :: calls_of sk' calls else calls_of sk' calls.
Proof. unfold calls_of. by rewrite filter_cons. Qed.

(** An end under a key, whatever is in flight under it afterwards. *)
Lemma end_ok evt sk r calls calls' :
  te_Type evt = ToolLifecycleEventResult \/ te_Type evt = ToolLifecycleEventError -> tracked evt sk ->
  tools_ok (r, calls) -> (forall sk', sk' <> sk -> calls_of sk' calls' = calls_of sk' calls) ->
  (calls_of sk calls = [] /\ calls_of sk calls' = []
   \/ exists before c after, calls_of sk calls = before ++ c :: after /\ calls_of sk calls' = before ++ after) ->
  tools_ok (Tools_Record evt r, calls').
Proof.
  intros Ht Hs Hok Hne He sk'. specialize (Hok sk'). cbn [fst snd] in *. rewrite (recorded evt sk r Hs sk').
  case_bool_decide as E; [subst sk'|by rewrite Hne].
  assert (forall A (x y z : A), match te_Type evt with ToolLifecycleEventStart => x | ToolLifecycleEventProgress => y
    | ToolLifecycleEventResult | ToolLifecycleEventError => z end = z) as -> by (intros; by destruct Ht as [-> | ->]).
  destruct He as [[He He']|(before & c & after & He & He')]; rewrite He in Hok; rewrite He'; destruct (tool_at sk r) as [s|]; cbn in Hok; try done.
  - by destruct Hok.
  - destruct Hok as (_ & Hc & Hb). rewrite length_app in Hc. cbn in Hc. destruct (Z.ltb_spec 1 (at_count s)).
    + cbn. rewrite length_app. split; [|split; [lia|]].
      * intros E%app_nil. destruct E as [-> ->]. cbn in Hc. lia.
      * intros Hx. apply Hb. apply Exists_app in Hx as [?|?]; apply Exists_app; [by left|right; by right].
    + cbn. assert (length before = 0%nat /\ length after = 0%nat) as [->%nil_length_inv ->%nil_length_inv] by lia. done.
  - by destruct before.
Qed.

Lemma tool_step_ok x y : tool_step x y -> tools_ok x -> tools_ok y.
Proof.
  intros Hs Hok. destruct Hs as [evt sk r calls Ht Hsk|evt sk b r calls before after Ht Hsk ->|evt sk r calls Ht Hsk Hno|id r calls Hid].
  - intros sk'. specialize (Hok sk'). cbn [fst snd] in *. rewrite (recorded evt sk r Hsk sk'), Ht, calls_of_cons.
    case_bool_decide as E; [subst sk'; rewrite decide_True by done|by rewrite decide_False by congruence].
    destruct (tool_at sk r) as [s|]; cbn in *.
    + destruct Hok as (Hne & Hc & Hb). split; [done|]. split; [lia|]. rewrite Exists_cons. cbn.
      assert (0 < at_count s) by (destruct (calls_of sk calls); [done|cbn in Hc; lia]).
      rewrite (proj2 (Z.leb_gt _ _)) by lia. fold (behavior_of evt).
      destruct (String.eqb_spec (behavior_of evt) ToolInterruptBehaviorCancel) as [|Hnc]; cbn; [naive_solver|]. done.
    + rewrite Hok. split; [done|]. split; [done|]. rewrite Exists_cons, Exists_nil. cbn. intros [?|[]]. done.
  - eapply end_ok; [done|done|exact Hok| |right].
    + intros sk' Hne. unfold calls_of. rewrite !filter_app, filter_cons_False; [done|]. cbn. congruence.
    + exists (calls_of sk before), (sk, b), (calls_of sk after). unfold calls_of. by rewrite !filter_app, filter_cons_True.
  - eapply end_ok; [done|done|exact Hok|done|left].
    assert (calls_of sk calls = []) as ->; [|done]. unfold calls_of. apply list_filter_none. by apply Forall_forall.
  - intros sk'. specialize (Hok sk'). cbn [fst snd] in *. unfold ClearSession. rewrite (proj2 (String.eqb_neq _ _) Hid).
    unfold calls_of. destruct (decide (sk'.1 = TrimSpace id)) as [E|E].
    + rewrite list_filter_filter. unfold tool_at. rewrite E, lookup_delete_eq. cbn. apply list_filter_none, Forall_forall. intros c _ [Hc ?]. congruence.
    + unfold tool_at. rewrite lookup_delete_ne by done. rewrite list_filter_filter_l; [exact Hok|]. by intros c ->.
Qed.

(** C40: However tool calls start and end and sessions are cleared, a session counts as
    interruptible only while none of its calls in flight blocks an interrupt, and always
    while it has no call in flight. *)
Theorem blocking_calls_block_interrupts r calls id :
  rtc tool_step (∅, []) (r, calls) -> blank id = false ->
  (AllInterruptible id r = true -> forall c, c ∈ calls -> c.1.1 = TrimSpace id -> c.2 = ToolInterruptBehaviorCancel)
  /\ ((forall c, c ∈ calls -> c.1.1 <> TrimSpace id) -> AllInterruptible id r = true).
Proof.
  intros Hr Hid. assert (tools_ok (r, calls)) as Hok.
  { assert (tools_ok (∅, [])) as H0 by done. revert H0. induction Hr as [|x y z Hs _ IH]; [done|]. intros H0. by eapply IH, tool_step_ok. }
  unfold AllInterruptible. unfold blank in Hid. rewrite Hid. rewrite forallb_forall. setoid_rewrite <- list_elem_of_In. split.
  - intros Hall [[s k] b] Hin Hs. cbn in *. subst s. specialize (Hok (TrimSpace id, k)). unfold tool_at in Hok. cbn -[calls_of] in Hok.
    assert (((TrimSpace id, k), b) ∈ calls_of (TrimSpace id, k) calls) as Hc by (apply list_elem_of_filter; done).
    destruct (r !! TrimSpace id) as [tools|]; cbn -[calls_of] in *; [|rewrite Hok in Hc; by apply not_elem_of_nil in Hc].
    destruct (tools !! k) as [s|] eqn:Ek; [|rewrite Hok in Hc; by apply not_elem_of_nil in Hc].
    destruct Hok as (_ & _ & Hb). destruct (decide (b = ToolInterruptBehaviorCancel)) as [|Hnc]; [done|]. exfalso. apply Hb.
    + apply Exists_exists. by exists (TrimSpace id, k, b).
    + apply String.eqb_eq. apply (Hall (k, s)). by apply elem_of_map_to_list.
  - intros Hno [k s] Hin%elem_of_map_to_list. cbn. exfalso. specialize (Hok (TrimSpace id, k)). unfold tool_at in Hok. cbn -[calls_of] in Hok.
    destruct (r !! TrimSpace id) as [tools|]; cbn -[calls_of] in *; [|by rewrite lookup_empty in Hin]. rewrite Hin in Hok.
    destruct Hok as (Hne & _). destruct (calls_of (TrimSpace id, k) calls) as [|c cs] eqn:Ec; [done|].
    assert (c ∈ calls_of (TrimSpace id, k) calls) as Hc by (rewrite Ec; by left).
    apply list_elem_of_filter in Hc as [E Hc]. apply (Hno c Hc). by rewrite E.
Qed.

(** Two calls under one key: a blocking one, and one that can be cancelled.  Whichever
    ends first, the session stays blocked until both did. *)
Definition tool_event (type : ToolLifecycleEventType) (behavior : string) : ToolLifecycleEvent :=
  mkToolLifecycleEvent type "s" "t" "" "shell" (Some behavior).
Definition shell_key : string * string := ("s", "t" +:+ zero_byte +:+ "shell").
Definition two_calls : activeToolRegistry :=
  Tools_Record (tool_event ToolLifecycleEventStart "cancel") (Tools_Record (tool_event ToolLifecycleEventStart "block") ∅).

Lemma two_calls_reached : rtc tool_step (∅, []) (two_calls, [(shell_key, "cancel"); (shell_key, "block")]).
Proof.
  assert (forall type b, tracked (tool_event type b) shell_key) as Ht by (intros type b; repeat split; vm_compute; first [reflexivity|discriminate]).
  eapply rtc_l; [exact (step_start (tool_event ToolLifecycleEventStart "block") shell_key ∅ [] eq_refl (Ht _ _))|].
  apply rtc_once. exact (step_start (tool_event ToolLifecycleEventStart "cancel") shell_key _ _ eq_refl (Ht _ _)).
Qed.

Lemma blocking_calls_block_interrupts_witness : AllInterruptible "s" two_calls = false /\ AllInterruptible "other" two_calls = true.
Proof.
  split.
  - destruct (AllInterruptible "s" two_calls) eqn:E; [|reflexivity].
    pose proof (proj1 (blocking_calls_block_interrupts _ _ "s" two_calls_reached eq_refl) E (shell_key, "block")
      ltac:(right; left) eq_refl) as H. discriminate H.
  - apply (proj2 (blocking_calls_block_interrupts _ _ "other" two_calls_reached eq_refl)).
    intros c Hc E. repeat (apply elem_of_cons in Hc as [->|Hc]; [discriminate E|]). exact (not_elem_of_nil _ Hc).
Defined.

Example ended_blocking_call_still_blocks :
  AllInterruptible "s" (Tools_Record (tool_event ToolLifecycleEventResult "") two_calls) = false
  /\ AllInterruptible "s" (Tools_Record (tool_event ToolLifecycleEventError "") (Tools_Record (tool_event ToolLifecycleEventResult "") two_calls)) = true.
Proof. vm_compute. by split. Qed.

(** ** Aborted turns *)

Inductive abort_step : chatAbortRegistry -> chatAbortRegistry -> Prop :=
  | step_begin id r : abort_step r (Abort_Begin id r).1
  | step_release id handle r : abort_step r (Abort_release id handle r)
  | step_abort id cause r : abort_step r (AbortWithCause id cause r).1
  | step_abort_all r : abort_step r (AbortAll r).1.

(** Handles are numbered up to the last one; only turns in flight are not cancelled. *)
Definition aborts_ok (r : chatAbortRegistry) : Prop :=
  (forall s id, ca_inFlight r !! s = Some id -> id <= ca_nextID r /\ ca_causes r !! id = None)
  /\ (forall s s' id, ca_inFlight r !! s = Some id -> ca_inFlight r !! s' = Some id -> s = s')
  /\ (forall id cause, ca_causes r !! id = Some cause -> id <= ca_nextID r).

Lemma cancel_lookup id cause causes id' :
  cancel id cause causes !! id' = if decide (id' = id) then Some (default cause (causes !! id)) else causes !! id'.
Proof.
  unfold cancel. destruct (decide (id' = id)) as [->|Hne].
  - case_bool_decide as H; [by destruct H as [c ->]|]. rewrite lookup_insert_eq. destruct (causes !! id) as [c|]; [|done].
    exfalso. by apply H.
  - case_bool_decide; [done|]. by rewrite lookup_insert_ne.
Qed.

Lemma cancel_all_bound next ids : forall causes, Forall (fun id => id <= next) ids ->
  (forall id cause, causes !! id = Some cause -> id <= next) ->
  forall id cause, foldl (fun causes id => cancel id Canceled causes) causes ids !! id = Some cause -> id <= next.
Proof.
  induction ids as [|i ids IH]; intros causes Hids Hc; [done|]. inv Hids. apply IH; [done|].
  intros id cause. rewrite cancel_lookup. destruct (decide (id = i)) as [->|]; [done|apply Hc].
Qed.

Lemma abort_step_ok r r' : abort_step r r' -> aborts_ok r -> aborts_ok r'.
Proof.
  intros Hs (Hin & Hu & Hc). destruct Hs as [s r|s handle r|s cause r|r].
  - unfold Abort_Begin. destruct (TrimSpace s ==? ""); [done|]. set (k := TrimSpace s). clearbody k. cbn.
    set (causes := match ca_inFlight r !! k with Some prior => _ | None => _ end).
    assert (forall id, causes !! id = match ca_inFlight r !! k with
      | Some prior => if decide (id = prior) then Some Canceled else ca_causes r !! id | None => ca_causes r !! id end) as Hcs.
    { intros id. unfold causes. destruct (ca_inFlight r !! k) as [prior|] eqn:E; [|done]. rewrite cancel_lookup.
      destruct (Hin _ _ E) as [_ ->]. done. }
    clearbody causes. split; [|split]; cbn.
    + intros s' id [[<- <-]|[Hne Hl]]%lookup_insert_Some; cbn; rewrite Hcs.
      * split; [lia|]. assert (ca_causes r !! (ca_nextID r + 1) = None) as Hn.
        { destruct (ca_causes r !! (ca_nextID r + 1)) as [c|] eqn:E; [|done]. apply Hc in E. lia. }
        destruct (ca_inFlight r !! k) as [prior|] eqn:E; [|done]. rewrite decide_False; [done|]. destruct (Hin _ _ E). lia.
      * destruct (Hin _ _ Hl) as [Hle Hn]. split; [lia|]. destruct (ca_inFlight r !! k) as [prior|] eqn:E; [|done].
        rewrite decide_False; [done|]. intros ->. by apply Hne, (Hu _ _ _ E Hl).
    + intros s1 s2 id [[<- <-]|[_ H1]]%lookup_insert_Some [[<- E]|[_ H2]]%lookup_insert_Some; try done.
      * apply Hin in H2. lia.
      * subst id. apply Hin in H1. lia.
      * by eapply Hu.
    + intros id cause. rewrite Hcs. destruct (ca_inFlight r !! k) as [prior|] eqn:E; [destruct (decide (id = prior)) as [->|]|].
      * intros _. destruct (Hin _ _ E). lia.
      * intros H%Hc. lia.
      * intros H%Hc. lia.
  - unfold Abort_release. destruct handle as [id|]; [|done]. case_bool_decide; [|done]. split; [|split; [|done]]; cbn.
    + intros s' i [_ Hl]%lookup_delete_Some. by eapply Hin.
    + intros s1 s2 i [_ H1]%lookup_delete_Some [_ H2]%lookup_delete_Some. by eapply Hu.
  - unfold AbortWithCause. destruct (TrimSpace s ==? ""); [done|]. destruct (ca_inFlight r !! TrimSpace s) as [id|] eqn:E; [|done].
    cbn. split; [|split]; cbn.
    + intros s' i [Hne Hl]%lookup_delete_Some. destruct (Hin _ _ Hl) as [? ?]. split; [done|]. rewrite cancel_lookup, decide_False; [done|].
      intros ->. by apply Hne, (Hu _ _ _ E Hl).
    + intros s1 s2 i [_ H1]%lookup_delete_Some [_ H2]%lookup_delete_Some. by eapply Hu.
    + intros i c. rewrite cancel_lookup. destruct (decide (i = id)) as [->|]; [intros _; by apply (Hin _ _ E)|apply Hc].
  - split; [|split]; cbn; [by intros s id ?%lookup_empty_Some|by intros s s' id ?%lookup_empty_Some|].
    apply cancel_all_bound; [|exact Hc]. apply Forall_forall. intros id Hid. apply list_elem_of_fmap in Hid as ([s i] & -> & Hi).
    apply elem_of_map_to_list in Hi. by apply (Hin s).
Qed.

(** However turns begin, end and are aborted, the context of a turn that begins is not
    cancelled; aborting its session cancels it with the cause given, the next turn of the
    session cancels it too, and the end of an earlier turn of the session does not take it
    out of reach. *)
Theorem abort_reaches_the_current_turn r s :
  rtc abort_step newChatAbortRegistry r -> blank s = false ->
  let r' := (Abort_Begin s r).1 in
  exists id, (Abort_Begin s r).2 = Some id /\ ca_causes r' !! id = None
  /\ (forall cause, let '(r1, found) := AbortWithCause s (Some cause) r' in found = true /\ ca_causes r1 !! id = Some cause)
  /\ ca_causes (Abort_Begin s r').1 !! id = Some Canceled
  /\ (forall handle, handle <> Some id -> Abort_release s handle r' = r').
Proof.
  intros Hr Hs. assert (aborts_ok r) as Hok.
  { assert (aborts_ok newChatAbortRegistry) as H0.
    { unfold aborts_ok. cbn. split; [by intros s' id ?%lookup_empty_Some|]. split; [by intros s' s'' id ?%lookup_empty_Some|]. by intros id c ?%lookup_empty_Some. }
    revert H0. induction Hr as [|x y z Hx _ IH]; [done|]. intros H0. by eapply IH, abort_step_ok. }
  pose proof (abort_step_ok _ _ (step_begin s r) Hok) as (Hin & _). cbv zeta. unfold blank in Hs.
  unfold Abort_Begin in *. rewrite Hs in *. cbn [fst snd ca_inFlight ca_nextID ca_causes] in *.
  set (id := ca_nextID r + 1) in *. destruct (Hin (TrimSpace s) id (lookup_insert_eq _ _ _)) as [_ Hn].
  set (causes := match ca_inFlight r !! TrimSpace s with Some prior => _ | None => _ end) in *. clearbody causes.
  exists id. split; [done|]. split; [done|]. split; [|split].
  - intros cause. unfold AbortWithCause. rewrite Hs. cbn. rewrite lookup_insert_eq. cbn. split; [done|].
    by rewrite cancel_lookup, decide_True, Hn.
  - rewrite lookup_insert_eq. by rewrite cancel_lookup, decide_True, Hn.
  - intros handle Hne. unfold Abort_release. destruct handle as [i|]; [|done]. cbn. rewrite lookup_insert_eq.
    rewrite bool_decide_eq_false_2; [done|]. congruence.
Qed.

Lemma abort_reaches_the_current_turn_witness :
  let r := (Abort_Begin "s" newChatAbortRegistry).1 in
  exists id, (Abort_Begin "s" r).2 = Some id /\ ca_causes (AbortWithCause "s" (Some "stop") (Abort_Begin "s" r).1).1 !! id = Some "stop".
Proof.
  destruct (abort_reaches_the_current_turn _ "s" (rtc_once _ _ (step_begin "s" newChatAbortRegistry)) eq_refl)
    as (id & Hid & _ & Ha & _). exists id. split; [exact Hid|]. specialize (Ha "stop").
  destruct (AbortWithCause "s" (Some "stop") (Abort_Begin "s" (Abort_Begin "s" newChatAbortRegistry).1).1) as [r1 found].
  exact (proj2 Ha).
Defined.
