(* ===== verification/InboundTurns.v ===== *)
(** The turns of a session that receives direct messages: the queue settings
    (cmd/metiqd/main_session_ops.go, main_util.go), what happens to a message while a turn
    runs (main_active_run_steering.go), and how a turn takes the session's slot, hands it
    to the next and drains what was staged (runInboundTurn in main.go, the helpers of
    main_persistence.go).

    A turn is a goroutine: a program counter and a step for every critical section, so
    that the steps of several turns of one session interleave.  What a turn does between
    taking and leaving the slot is not modelled.  Times are in nanoseconds. *)

From Stdlib Require Import Ascii String QArith_base.
From stdpp Require Import base tactics decidable list gmap strings pretty.
From S2P Require Import Prelude Identifiers AutoReply Checkpoints TurnRegistries.

(** ** Queue settings *)

Record queueRuntimeSettings := mkQueueRuntimeSettings {
  qs_Mode : string;
  qs_Cap : Z;
  qs_Drop : string
}.

Definition normalizeQueueDrop (v : string) : string :=
  go_switch (ToLower (TrimSpace v))
    [([""; "summarize"], "summarize"); (["old"; "oldest"], "oldest"); (["new"; "newest"], "newest")] "".

Definition normalizeQueueMode (v : string) : string :=
  let v := ToLower (TrimSpace v) in
  go_switch v [([""; "collect"; "followup"; "queue"; "steer"; "steer-backlog"; "steer+backlog"; "interrupt"], v)] "".

Definition queueModeCollect (mode : string) : bool := (mode ==? "") || (mode ==? "collect").
Definition queueModeSequential (mode : string) : bool :=
  go_switch mode [(["followup"; "queue"; "steer-backlog"; "steer+backlog"], true)] false.

(** The object [messages.queue] of the configuration: the values that have the type the
    code asserts. *)
Record QueueConfig := mkQueueConfig {
  qc_mode : option string;
  qc_cap : option Q;
  qc_drop : option string;
  qc_by_channel : gmap string string
}.

(** The fields of a session entry that override it. *)
Record SessionQueueFields := mkSessionQueueFields {
  sq_QueueMode : string;
  sq_QueueCap : Z;
  sq_QueueDrop : string
}.

Definition with_mode (v : string) (r : queueRuntimeSettings) : queueRuntimeSettings :=
  let n := normalizeQueueMode v in
  if n !=? "" then mkQueueRuntimeSettings n (qs_Cap r) (qs_Drop r) else r.
Definition with_cap (cap : Z) (r : queueRuntimeSettings) : queueRuntimeSettings :=
  mkQueueRuntimeSettings (qs_Mode r) cap (qs_Drop r).
Definition with_drop (v : string) (r : queueRuntimeSettings) : queueRuntimeSettings :=
  mkQueueRuntimeSettings (qs_Mode r) (qs_Cap r)
    (go_switch (normalizeQueueDrop v)
       [(["oldest"], QueueDropOldest); (["newest"], QueueDropNewest); (["summarize"], QueueDropSummarize)] (qs_Drop r)).

(** [int(cv)] of a positive float. *)
Definition int_of_float (cv : Q) : Z := Qnum cv / Z.pos (Qden cv).

Definition configured (q : QueueConfig) (channelID : string) (r : queueRuntimeSettings) : queueRuntimeSettings :=
  let r := match qc_mode q with Some mv => with_mode mv r | None => r end in
  let r := match qc_cap q with
           | Some cv => if 0 <? Qnum cv then with_cap (int_of_float cv) r else r
           | None => r
           end in
  let r := match qc_drop q with Some dv => with_drop dv r | None => r end in
  if channelID !=? "" then match qc_by_channel q !! channelID with Some raw => with_mode raw r | None => r end
  else r.

Definition resolveQueueRuntimeSettings (q : option QueueConfig) (sessionEntry : option SessionQueueFields)
    (channelID : string) (defaultCap : Z) : queueRuntimeSettings :=
  let r := mkQueueRuntimeSettings "collect" defaultCap QueueDropSummarize in
  let r := match q with Some q => configured q channelID r | None => r end in
  let r := match sessionEntry with
           | Some e =>
             let r := with_mode (sq_QueueMode e) r in
             let r := if 0 <? sq_QueueCap e then with_cap (sq_QueueCap e) r else r in
             with_drop (sq_QueueDrop e) r
           | None => r
           end in
  if qs_Cap r <=? 0 then with_cap defaultCap r else r.

(** ** The state of a session

    The queue and the mailbox of one session, whose identifier is not blank, beside the
    registries of all. *)

Record inbound := mkInbound {
  ib_turns : SessionTurns;
  ib_handoffs : sessionTurnHandoffRegistry;
  ib_queue : SessionQueue;
  (** The session's mailbox, when the registry has one. *)
  ib_mailbox : option SteeringMailbox;
  ib_aborts : chatAbortRegistry;
  ib_tools : activeToolRegistry
}.

Definition set_turns (x : SessionTurns) (w : inbound) : inbound :=
  mkInbound x (ib_handoffs w) (ib_queue w) (ib_mailbox w) (ib_aborts w) (ib_tools w).
Definition set_handoffs (x : sessionTurnHandoffRegistry) (w : inbound) : inbound :=
  mkInbound (ib_turns w) x (ib_queue w) (ib_mailbox w) (ib_aborts w) (ib_tools w).
Definition set_queue (x : SessionQueue) (w : inbound) : inbound :=
  mkInbound (ib_turns w) (ib_handoffs w) x (ib_mailbox w) (ib_aborts w) (ib_tools w).
Definition set_mailbox (x : option SteeringMailbox) (w : inbound) : inbound :=
  mkInbound (ib_turns w) (ib_handoffs w) (ib_queue w) x (ib_aborts w) (ib_tools w).
Definition set_aborts (x : chatAbortRegistry) (w : inbound) : inbound :=
  mkInbound (ib_turns w) (ib_handoffs w) (ib_queue w) (ib_mailbox w) x (ib_tools w).

(** ** Steering the turn that runs *)

Record activeRunSteeringInput := mkActiveRunSteeringInput {
  si_SessionID : string;
  si_Text : string;
  si_EventID : string;
  si_SenderID : string;
  si_ChannelID : string;
  si_ThreadID : string;
  si_Source : string;
  si_AgentID : string;
  si_ToolProfile : string;
  si_EnabledTools : list string;
  si_CreatedAt : Z;
  si_Priority : string
}.

Definition steeringSummaryLine (input : activeRunSteeringInput) : string :=
  let text := TrimSpace (si_Text input) in
  if text ==? "" then ""
  else
    let source := TrimSpace (si_Source input) in
    if source ==? "" then text
    else
      let sender := TrimSpace (si_SenderID input) in
      if sender !=? "" then source +:+ "/" +:+ sender +:+ ": " +:+ text else source +:+ ": " +:+ text.

Definition formatSteeringForModel (item : SteeringMessage) : string :=
  let text := TrimSpace (sm_Text item) in
  if ToLower (TrimSpace (sm_Source item)) ==? "channel" then
    let sender := TrimSpace (sm_SenderID item) in
    if sender !=? "" then "[Additional user input from " +:+ sender +:+ " while you were working]" +:+ newline +:+ text
    else "[Additional channel input received while you were working]" +:+ newline +:+ text
  else "[Additional user input received while you were working]" +:+ newline +:+ text.

(** The mailbox of the registry, made when there is none. *)
Definition got_mailbox (w : inbound) : SteeringMailbox :=
  default (NewSteeringMailbox 10 QueueDropSummarize) (ib_mailbox w).

Definition steering_message (input : activeRunSteeringInput) : SteeringMessage :=
  mkSteeringMessage (si_Text input) (TrimSpace (si_EventID input)) (TrimSpace (si_SenderID input))
    (TrimSpace (si_ChannelID input)) (TrimSpace (si_ThreadID input)) (TrimSpace (si_AgentID input))
    (TrimSpace (si_ToolProfile input)) (si_EnabledTools input) (si_CreatedAt input) None
    (TrimSpace (si_Source input)) (if si_Priority input ==? "" then SteeringPriorityNormal else si_Priority input)
    (steeringSummaryLine input).

Definition enqueueActiveRunSteering (now : Z) (settings : queueRuntimeSettings) (input : activeRunSteeringInput)
    (w : inbound) : inbound * bool :=
  if blank (si_SessionID input) then (w, false) else
  let mailbox := Mailbox_Configure (qs_Cap settings) (qs_Drop settings) (got_mailbox w) in
  let '(mailbox, outcome) := EnqueueWithOutcome now (steering_message input) mailbox in
  (set_mailbox (Some mailbox) w, eo_Accepted outcome).

Definition handleBusySteer := enqueueActiveRunSteering.

Definition clearTransientSessionSteering : inbound -> inbound := set_mailbox None.

Definition ErrTurnInterrupted : string := "turn interrupted by user input".

Definition with_priority (priority : string) (i : activeRunSteeringInput) : activeRunSteeringInput :=
  mkActiveRunSteeringInput (si_SessionID i) (si_Text i) (si_EventID i) (si_SenderID i) (si_ChannelID i) (si_ThreadID i) (si_Source i)
    (si_AgentID i) (si_ToolProfile i) (si_EnabledTools i) (si_CreatedAt i) priority.

(** Whether the interrupt is deferred. *)
Definition handleBusyInterrupt (now : Z) (settings : queueRuntimeSettings)
    (input : activeRunSteeringInput) (w : inbound) : inbound * bool :=
  let sessionID := TrimSpace (si_SessionID input) in
  if sessionID ==? "" then (w, false) else
  let cleared w := set_queue (Dequeue (ib_queue w)).1 (clearTransientSessionSteering w) in
  if AllInterruptible sessionID (ib_tools w)
  then (cleared (set_aborts (AbortWithCause sessionID (Some ErrTurnInterrupted) (ib_aborts w)).1 w), false)
  else ((enqueueActiveRunSteering now settings (with_priority SteeringPriorityUrgent input) (cleared w)).1, true).

(** What the agent loop takes in at a model boundary; the items go to the tracker too. *)
Definition activeRunSteeringDrain (w : inbound) : inbound * list SteeringMessage * list string :=
  match ib_mailbox w with
  | None => (w, [], [])
  | Some mailbox =>
    let '(mailbox, items) := Drain mailbox in
    (set_mailbox (Some mailbox) w, items, map formatSteeringForModel items)
  end.

(** The error of the turn, if any: whether it is, or wraps, [ErrTurnInterrupted]. *)
Definition shouldRestoreDrainedSteering (turnErr : option bool) : bool :=
  match turnErr with Some interrupted => negb interrupted | None => false end.

Definition restoreDrainedSteering (now : Z) (settings : queueRuntimeSettings) (items : list SteeringMessage)
    (w : inbound) : inbound * Z :=
  match items with
  | [] => (w, 0)
  | _ =>
    let mailbox := Mailbox_Configure (qs_Cap settings) (qs_Drop settings) (got_mailbox w) in
    let '(mailbox, restored) := RestoreDrained now items mailbox in
    (set_mailbox (Some mailbox) w, restored)
  end.

Definition pendingTurnFromSteering (item : SteeringMessage) : PendingTurn :=
  mkPendingTurn (sm_Text item) (sm_EventID item) (sm_SenderID item) (sm_AgentID item) (sm_ToolProfile item)
    (sm_EnabledTools item) (sm_CreatedAt item) None (sm_SummaryLine item).

Definition drainSteeringAsPending (w : inbound) : inbound * list PendingTurn :=
  match ib_mailbox w with
  | None => (w, [])
  | Some mailbox =>
    let '(mailbox, items) := Drain mailbox in
    (set_mailbox (Some mailbox) w, map pendingTurnFromSteering items)
  end.

Definition enqueuePendingTurns (now : Z) (pending : list PendingTurn) (q : SessionQueue) : SessionQueue :=
  foldl (fun q pt => (Enqueue now pt q).1) q pending.

Definition steeringMailboxLen (w : inbound) : Z :=
  match ib_mailbox w with None => 0 | Some mailbox => Mailbox_Len mailbox end.

(** ** Draining what was staged *)

Definition pendingTurnCreatedAt (pt : PendingTurn) : Z :=
  if 0 <? pt_CreatedAt pt then pt_CreatedAt pt
  else match pt_EnqueuedAt pt with Some t => t / 1000000000 | None => 0 end.

Definition same_context (first pt : PendingTurn) : bool :=
  (TrimSpace (pt_SenderID pt) ==? TrimSpace (pt_SenderID first))
  && (defaultAgentID (pt_AgentID pt) ==? defaultAgentID (pt_AgentID first))
  && (TrimSpace (ToLower (pt_ToolProfile pt)) ==? TrimSpace (ToLower (pt_ToolProfile first)))
  && bool_decide (map TrimSpace (pt_EnabledTools pt) = map TrimSpace (pt_EnabledTools first)).

Definition pendingTurnsShareExecutionContext (pending : list PendingTurn) : bool :=
  match pending with
  | first :: rest => forallb (same_context first) rest
  | [] => true
  end.

(** The turn that runs a staged message. *)
Definition turn_of_pending (pt : PendingTurn) : PendingTurn :=
  mkPendingTurn (pt_Text pt) (pt_EventID pt) (pt_SenderID pt) (pt_AgentID pt) (pt_ToolProfile pt)
    (pt_EnabledTools pt) (pendingTurnCreatedAt pt) None "".

(** The turn that runs all of them. *)
Definition collected_turn (pending : list PendingTurn) (latest : PendingTurn) : PendingTurn :=
  let combined := String.concat (newline +:+ newline) (map pt_Text pending) in
  mkPendingTurn
    (if (1 <? length pending)%nat
     then "[" +:+ pretty (length pending) +:+ " messages received while agent was busy]" +:+ newline +:+ newline +:+ combined
     else combined)
    (foldl (fun id pt => if pt_EventID pt !=? "" then pt_EventID pt else id) "" pending)
    (pt_SenderID latest) (pt_AgentID latest) (pt_ToolProfile latest) (pt_EnabledTools latest)
    (foldl (fun t pt => if t <? pendingTurnCreatedAt pt then pendingTurnCreatedAt pt else t) 0 pending) None "".

(** The turn to start, and the messages to put back. *)
Definition drain_plan (mode : string) (steering pending : list PendingTurn) : option (PendingTurn * list PendingTurn) :=
  match steering with
  | first :: rest => Some (turn_of_pending first, rest ++ pending)
  | [] =>
    match pending, last pending with
    | first :: rest, Some latest =>
      if queueModeCollect mode then
        if pendingTurnsShareExecutionContext pending then Some (collected_turn pending latest, [])
        else Some (turn_of_pending first, rest)
      else if queueModeSequential mode then Some (turn_of_pending first, rest)
      else Some (turn_of_pending latest, [])
    | _, _ => None
    end
  end.

(** ** Turns as goroutines *)

(** Where a turn is, with the token it was handed or hands on (0 for none). *)
Inductive pc :=
  | Arriving (token : Z) (m : PendingTurn)
  | Checking (token : Z) (m : PendingTurn)
  | Trying (token : Z) (m : PendingTurn)
  | Claiming (token : Z) (m : PendingTurn)
  | Backing (m : PendingTurn)
  | Refused (m : PendingTurn)
  | Queueing (m : PendingTurn)
  | Running (m : PendingTurn)
  | Ending
  | Releasing (next : Z)
  | DrainingSteering (next : Z)
  | DrainingQueue (next : Z) (steering : list PendingTurn)
  | Dispatching (next : Z) (m : PendingTurn) (rest : list PendingTurn).

Section Turns.
Context (sessionID : string) (settings : queueRuntimeSettings).

Definition steering_input (m : PendingTurn) : activeRunSteeringInput :=
  mkActiveRunSteeringInput sessionID (pt_Text m) (pt_EventID m) (pt_SenderID m) "" "" "dm" (TrimSpace (pt_AgentID m))
    (pt_ToolProfile m) (pt_EnabledTools m) (pt_CreatedAt m) SteeringPriorityNormal.

(** What is queued of a message. *)
Definition queued_turn (m : PendingTurn) : PendingTurn :=
  mkPendingTurn (pt_Text m) (pt_EventID m) (pt_SenderID m) (TrimSpace (pt_AgentID m)) (pt_ToolProfile m)
    (pt_EnabledTools m) (pt_CreatedAt m) None "".

(** The session is busy. *)
Definition refused_step (now : Z) (m : PendingTurn) (w : inbound) : inbound * option pc :=
  if qs_Mode settings ==? "steer" then ((handleBusySteer now settings (steering_input m) w).1, None)
  else if qs_Mode settings ==? "interrupt" then
    let '(w, deferred) := handleBusyInterrupt now settings (steering_input m) w in
    (w, if deferred then None else Some (Queueing m))
  else (w, Some (Queueing m)).

(** One step of a turn: the state, where it is then ([None] at its end), and the turn it
    starts. *)
Definition turn_step (now : Z) (p : pc) (w : inbound) : inbound * option pc * option pc :=
  match p with
  | Arriving token m => (set_queue (Queue_Configure (qs_Cap settings) (qs_Drop settings) (ib_queue w)) w, Some (Checking token m), None)
  | Checking token m =>
    if token =? 0 then
      let '(handoffs, reserved) := Has now sessionID (ib_handoffs w) in
      (set_handoffs handoffs w, Some (if reserved then Refused m else Trying token m), None)
    else (w, Some (Trying token m), None)
  | Trying token m =>
    let '(turns, ok) := TryAcquire sessionID (ib_turns w) in
    (set_turns turns w, Some (if ok then Claiming token m else Refused m), None)
  | Claiming token m =>
    if token =? 0 then
      let '(handoffs, reserved) := Has now sessionID (ib_handoffs w) in
      (set_handoffs handoffs w, Some (if reserved then Backing m else Running m), None)
    else
      let '(handoffs, ok) := ConsumeIfMatch now sessionID token (ib_handoffs w) in
      (set_handoffs handoffs w, Some (if ok then Running m else Refused m), None)
  | Backing m => (set_turns (release sessionID (ib_turns w)) w, Some (Refused m), None)
  | Refused m => let '(w, p) := refused_step now m w in (w, p, None)
  | Queueing m => (set_queue (Enqueue now (queued_turn m) (ib_queue w)).1 w, None, None)
  | Running _ => (w, Some Ending, None)
  | Ending =>
    if (0 <? Queue_Len (ib_queue w)) || (0 <? steeringMailboxLen w) then
      let '(handoffs, token) := Reserve now sessionID (ib_handoffs w) in
      (set_handoffs handoffs w, Some (Releasing token), None)
    else (w, Some (Releasing 0), None)
  | Releasing next => (set_turns (release sessionID (ib_turns w)) w, Some (DrainingSteering next), None)
  | DrainingSteering next =>
    let '(w, steering) := drainSteeringAsPending w in (w, Some (DrainingQueue next steering), None)
  | DrainingQueue next steering =>
    let '(q, pending) := Dequeue (ib_queue w) in
    (set_queue q w, match drain_plan (qs_Mode settings) steering pending with
                    | Some (m, rest) => Some (Dispatching next m rest)
                    | None => None
                    end, None)
  | Dispatching next m rest =>
    (set_queue (enqueuePendingTurns now rest (ib_queue w)) w, None, Some (Arriving next m))
  end.

(** The turns of the session, whether the task runner is in it, and the messages that
    were run. *)
Record config := mkConfig {
  cf_world : inbound;
  cf_turns : gmap nat pc;
  cf_next : nat;
  cf_runner : bool;
  cf_ran : list PendingTurn
}.

Inductive action :=
  | Arrive (m : PendingTurn)
  | Step (i : nat) (now : Z)
  (** The task runner takes the session, without regard to handoffs, and leaves it. *)
  | RunnerTakes
  | RunnerLeaves.

Definition moved (i : nat) (p : option pc) (turns : gmap nat pc) : gmap nat pc :=
  match p with Some p => <[i := p]> turns | None => delete i turns end.

Definition act (c : config) (a : action) : config :=
  match a with
  | Arrive m => mkConfig (cf_world c) (<[cf_next c := Arriving 0 m]> (cf_turns c)) (S (cf_next c)) (cf_runner c) (cf_ran c)
  | Step i now =>
    match cf_turns c !! i with
    | None => c
    | Some p =>
      let '(w, p', started) := turn_step now p (cf_world c) in
      let ran := match p' with Some (Running m) => cf_ran c ++ [m] | _ => cf_ran c end in
      match started with
      | Some q => mkConfig w (<[cf_next c := q]> (moved i p' (cf_turns c))) (S (cf_next c)) (cf_runner c) ran
      | None => mkConfig w (moved i p' (cf_turns c)) (cf_next c) (cf_runner c) ran
      end
    end
  | RunnerTakes =>
    if cf_runner c then c
    else
      let '(turns, ok) := TryAcquire sessionID (ib_turns (cf_world c)) in
      mkConfig (set_turns turns (cf_world c)) (cf_turns c) (cf_next c) ok (cf_ran c)
  | RunnerLeaves =>
    if cf_runner c
    then mkConfig (set_turns (release sessionID (ib_turns (cf_world c))) (cf_world c)) (cf_turns c) (cf_next c) false (cf_ran c)
    else c
  end.

Definition acts (actions : list action) (c : config) : config := foldl act c actions.

Definition idle_session : inbound :=
  mkInbound NewSessionTurns newSessionTurnHandoffRegistry (NewSessionQueue 10 QueueDropSummarize) None newChatAbortRegistry ∅.
Definition no_turns : config := mkConfig idle_session ∅ 0 false [].
End Turns.
