(* ===== verification/InboundTurnsProps.v ===== *)
(** What the turns of a session with direct messages guarantee, and the schedules under
    which they lose or strand a message. *)

From Stdlib Require Import Ascii String QArith_base.
From stdpp Require Import base tactics decidable list gmap strings pretty relations.
From S2P Require Import Prelude Identifiers AutoReply Checkpoints TurnRegistries AutoReplyProps TurnRegistryProps InboundTurns.

(** ** Queue settings *)

Definition queue_modes : list string :=
  ["collect"; "followup"; "queue"; "steer"; "steer-backlog"; "steer+backlog"; "interrupt"].
Definition drop_policies : list string := [QueueDropSummarize; QueueDropOldest; QueueDropNewest].

Definition settings_ok (r : queueRuntimeSettings) : Prop := qs_Mode r ∈ queue_modes /\ qs_Drop r ∈ drop_policies.

Lemma normalize_mode_ok v : normalizeQueueMode v <> "" -> normalizeQueueMode v ∈ queue_modes.
Proof.
  unfold normalizeQueueMode. generalize (ToLower (TrimSpace v)). intros x. cbn [go_switch].
  destruct (existsb (String.eqb x) _) eqn:E; [|done]. intros Hx. apply existsb_exists in E as (y & Hy & ->%String.eqb_eq).
  apply list_elem_of_In in Hy. apply elem_of_cons in Hy as [->|Hy]; [done|exact Hy].
Qed.

Lemma with_mode_ok v r : settings_ok r -> settings_ok (with_mode v r).
Proof.
  intros [Hm Hd]. unfold with_mode. destruct (String.eqb_spec (normalizeQueueMode v) ""); [done|]. cbn.
  split; [by apply normalize_mode_ok|done].
Qed.

Lemma with_drop_ok v r : settings_ok r -> settings_ok (with_drop v r).
Proof.
  intros [Hm Hd]. split; [done|]. unfold with_drop. cbn. repeat case_match; try done;
    unfold drop_policies; first [by left|by right; left|by right; right; left].
Qed.

Lemma with_cap_ok cap r : settings_ok r -> settings_ok (with_cap cap r).
Proof. done. Qed.

Create HintDb inbound.
#[local] Hint Resolve with_mode_ok with_drop_ok with_cap_ok : inbound.

Lemma configured_ok q channelID r : settings_ok r -> settings_ok (configured q channelID r).
Proof. intros H. unfold configured. repeat case_match; auto 6 with inbound. Qed.

(** Whatever the configuration and the session say, the mode and the drop policy are
    among those known, and the capacity is positive when the default is; what a session
    sets for itself goes before the configuration; but a session that sets no drop policy
    still puts the summarising one in place of the configured one. *)
Theorem queue_settings_are_valid q e channelID defaultCap :
  let r := resolveQueueRuntimeSettings q e channelID defaultCap in
  settings_ok r /\ (0 < defaultCap -> 0 < qs_Cap r)
  /\ (forall f, e = Some f ->
      (normalizeQueueMode (sq_QueueMode f) <> "" -> qs_Mode r = normalizeQueueMode (sq_QueueMode f))
      /\ (0 < sq_QueueCap f -> qs_Cap r = sq_QueueCap f)
      /\ (blank (sq_QueueDrop f) -> qs_Drop r = QueueDropSummarize)).
Proof.
  cbv zeta. unfold resolveQueueRuntimeSettings. set (r0 := match q with Some q => _ | None => _ end).
  assert (settings_ok r0) as H0 by (unfold r0; destruct q; [apply configured_ok|]; split; by left). clearbody r0.
  set (r1 := match e with Some e => _ | None => _ end).
  assert (settings_ok r1) as H1 by (unfold r1; repeat case_match; auto with inbound).
  split; [|split].
  - case_match; auto with inbound.
  - intros Hd. destruct (Z.leb_spec (qs_Cap r1) 0); [done|lia].
  - intros f ->. subst r1. split; [|split].
    + intros Hm%String.eqb_neq. unfold with_mode. rewrite Hm. cbn. by repeat case_match.
    + intros Hc. unfold with_mode. rewrite (proj2 (Z.ltb_lt _ _) Hc). cbn. destruct (Z.leb_spec (sq_QueueCap f) 0); [lia|done].
    + intros Hb. unfold blank in Hb. apply Is_true_true, String.eqb_eq in Hb. unfold with_drop, normalizeQueueDrop. rewrite Hb.
      change (go_switch (ToLower "") _ _) with "summarize". cbn. by repeat case_match.
Qed.

(** The configured policy is to drop the oldest message; a session that was ever opened
    summarises. *)
Lemma queue_settings_are_valid_witness :
  let q := mkQueueConfig (Some "followup") (Some (12 # 1)) (Some "oldest") ∅ in
  qs_Drop (resolveQueueRuntimeSettings (Some q) None "" 10) = QueueDropOldest
  /\ qs_Drop (resolveQueueRuntimeSettings (Some q) (Some (mkSessionQueueFields "" 0 "")) "" 10) = QueueDropSummarize.
Proof.
  cbv zeta. split; [vm_compute; reflexivity|].
  refine (proj2 (proj2 (proj2 (proj2 (queue_settings_are_valid _ (Some (mkSessionQueueFields "" 0 "")) "" 10)) _ eq_refl)) _).
  vm_compute. exact I.
Defined.

(** ** Putting queued messages back *)

(** The identifier was accepted within the window. *)
Definition recent (now : Z) (q : SessionQueue) (id : string) : Prop :=
  exists t, bx_recentIDs q !! id = Some t /\ now - t <= defaultSeenTTL.

(** The identifiers a queue refuses: those accepted within the window. *)
Definition recent_ids (now : Z) (q : SessionQueue) : gset string :=
  dom (filter (fun kv : string * Z => ~ defaultSeenTTL < now - kv.2) (bx_recentIDs q)).

Lemma elem_of_recent_ids now q id : id ∈ recent_ids now q <-> recent now q id.
Proof.
  unfold recent_ids, recent. rewrite elem_of_dom. unfold is_Some. setoid_rewrite map_lookup_filter_Some. cbn.
  split; intros (t & Ht & Hw); exists t; (split; [done|lia]).
Qed.

(** Of the messages, those that are news to a queue that knows the identifiers [ids]: the
    unnamed ones, and the first under each unknown identifier. *)
Fixpoint news (ids : gset string) (pts : list PendingTurn) : list PendingTurn :=
  match pts with
  | [] => []
  | pt :: pts =>
    if decide (pt_EventID pt = "") then pt :: news ids pts
    else if decide (pt_EventID pt ∈ ids) then news ids pts
    else pt :: news ({[pt_EventID pt]} ∪ ids) pts
  end.

Lemma news_ext pts : forall ids ids', (forall id, id <> "" -> id ∈ ids <-> id ∈ ids') -> news ids pts = news ids' pts.
Proof.
  induction pts as [|pt pts IH]; intros ids ids' H; [done|]. cbn. case_decide as Hid; [f_equal; by apply IH|].
  pose proof (H _ Hid) as Hpt. destruct (decide (pt_EventID pt ∈ ids)), (decide (pt_EventID pt ∈ ids')); try tauto; [by apply IH|].
  f_equal. apply IH. set_solver.
Qed.

Lemma news_of_known ids pts :
  (forall pt, pt ∈ pts -> pt_EventID pt <> "" -> pt_EventID pt ∈ ids) -> news ids pts = filter (fun pt => pt_EventID pt = "") pts.
Proof.
  induction pts as [|pt pts IH]; intros H; [done|]. cbn [news].
  assert (news ids pts = filter (fun pt => pt_EventID pt = "") pts) as -> by (apply IH; intros; apply H; [by right|done]).
  destruct (decide (pt_EventID pt = "")) as [E|E]; [by rewrite filter_cons_True|].
  rewrite filter_cons_False by done. rewrite decide_True; [done|]. apply H; [by left|done].
Qed.

(** All that a queue refuses: what it holds as well. *)
Definition known_ids (now : Z) (q : SessionQueue) : gset string :=
  list_to_set (map pt_EventID (bx_items q)) ∪ recent_ids now q.

Definition fits (q : SessionQueue) (n : nat) : Prop := bx_cap q <= 0 \/ Z.of_nat (length (bx_items q) + n) <= bx_cap q.

Lemma seen_known now q id :
  bx_seenTTL q = defaultSeenTTL -> id <> "" ->
  seen_before now id (pruneRecentIDs now q) = bool_decide (id ∈ known_ids now q).
Proof.
  intros Ht Hid. apply eq_bool_prop_intro. rewrite bool_decide_spec. unfold seen_before, known_ids.
  destruct (prune_same now q) as (-> & _ & _ & _ & ->). rewrite Ht, (proj2 (String.eqb_neq _ _) Hid). cbn [negb andb].
  rewrite elem_of_union, elem_of_list_to_set, elem_of_recent_ids, orb_True. f_equiv.
  - rewrite Is_true_true, existsb_exists, list_elem_of_fmap. setoid_rewrite <- list_elem_of_In. split.
    + intros (x & Hx & [_ E%String.eqb_eq]%andb_true_iff). by exists x.
    + intros (x & E & Hx). exists x. split; [done|]. change (st_EventID x) with (pt_EventID x).
      by rewrite <- E, (proj2 (String.eqb_neq _ _) Hid), String.eqb_refl.
  - unfold recent. rewrite Is_true_true. destruct (bx_recentIDs (pruneRecentIDs now q) !! id) as [t|] eqn:E.
    + apply prune_recent in E as [E Hw]; [|done]. split; [intros _; exists t; split; [done|lia]|intros _; apply Z.leb_le; lia].
    + split; [done|]. intros (t & Hl & Hw). assert (bx_recentIDs (pruneRecentIDs now q) !! id = Some t) as E'; [|congruence].
      apply prune_recent; [done|]. split; [done|lia].
Qed.

Lemma enqueue_known now pt q :
  bx_seenTTL q = defaultSeenTTL -> pt_EventID pt <> "" -> pt_EventID pt ∈ known_ids now q ->
  (Enqueue now pt q).1 = pruneRecentIDs now q.
Proof.
  intros Ht Hid Hk. unfold Enqueue, box_enqueue. change (st_EventID pt) with (pt_EventID pt).
  by rewrite seen_known, bool_decide_eq_true_2.
Qed.

Lemma enqueue_new now pt q :
  bx_seenTTL q = defaultSeenTTL -> (pt_EventID pt <> "" -> pt_EventID pt ∉ known_ids now q) -> fits q 1 ->
  (Enqueue now pt q).1 = put_item now pt (pruneRecentIDs now q).
Proof.
  intros Ht Hn Hc. unfold Enqueue, box_enqueue. change (st_EventID pt) with (pt_EventID pt).
  assert (seen_before now (pt_EventID pt) (pruneRecentIDs now q) = false) as ->.
  { destruct (String.eqb_spec (pt_EventID pt) "") as [->|Hid]; [done|].
    by rewrite seen_known, bool_decide_eq_false_2 by auto. }
  unfold full. destruct (prune_same now q) as (-> & _ & -> & _ & _).
  assert ((0 <? bx_cap q) && (bx_cap q <=? Z.of_nat (length (bx_items q))) = false) as ->; [|done].
  apply andb_false_iff. destruct Hc; [left; by apply Z.ltb_ge|right; apply Z.leb_gt; lia].
Qed.

Lemma known_pruned now q : bx_seenTTL q = defaultSeenTTL -> known_ids now (pruneRecentIDs now q) = known_ids now q.
Proof.
  intros Ht. unfold known_ids. destruct (prune_same now q) as (-> & _). f_equal. apply leibniz_equiv. intros id.
  rewrite !elem_of_recent_ids. unfold recent. split; intros (t & Hl & Hw); exists t; (split; [|done]).
  - by apply prune_recent in Hl as [? _].
  - apply prune_recent; [done|]. split; [done|lia].
Qed.

Lemma known_put now pt q id :
  bx_seenTTL q = defaultSeenTTL -> id <> "" ->
  id ∈ known_ids now (put_item now pt q) <-> id = pt_EventID pt \/ id ∈ known_ids now q.
Proof.
  intros Ht Hid. unfold known_ids, put_item. cbn [bx_items]. rewrite map_app, !elem_of_union, !elem_of_list_to_set, elem_of_app.
  change (map pt_EventID [st_filed now pt]) with [pt_EventID pt]. rewrite list_elem_of_singleton, !elem_of_recent_ids.
  unfold recent. cbn [bx_recentIDs]. change (st_EventID pt) with (pt_EventID pt).
  destruct (String.eqb_spec (pt_EventID pt) "") as [E|E]; cbn [negb]; [tauto|].
  destruct (decide (id = pt_EventID pt)) as [->|Hne]; [tauto|]. rewrite lookup_insert_ne by done. tauto.
Qed.

(** Putting messages back where there is room for them. *)
Lemma requeue now rest : forall q,
  bx_seenTTL q = defaultSeenTTL -> fits q (length rest) ->
  bx_items (enqueuePendingTurns now rest q) = bx_items q ++ map (pt_filed now) (news (known_ids now q) rest).
Proof.
  induction rest as [|pt rest IH]; intros q Ht Hc; [by rewrite app_nil_r|].
  change (enqueuePendingTurns now (pt :: rest) q) with (enqueuePendingTurns now rest (Enqueue now pt q).1).
  destruct (prune_same now q) as (Hi & _ & Hcap & _ & Htt). cbn [length] in Hc.
  assert ((pt_EventID pt <> "" -> pt_EventID pt ∉ known_ids now q) ->
    bx_items (enqueuePendingTurns now rest (Enqueue now pt q).1)
    = bx_items q ++ pt_filed now pt :: map (pt_filed now) (news ({[pt_EventID pt]} ∪ known_ids now q) rest)) as Hput.
  { intros Hn. rewrite enqueue_new; [|done|done|destruct Hc; [by left|right; lia]]. rewrite IH.
    - cbn [put_item bx_items]. rewrite Hi, <- app_assoc. cbn [app]. do 3 f_equal. apply news_ext. intros id Hid.
      rewrite known_put, known_pruned by congruence. set_solver.
    - cbn. congruence.
    - unfold fits, put_item. cbn [bx_items bx_cap]. rewrite length_app, Hi, Hcap. cbn. destruct Hc; [by left|right; lia]. }
  cbn [news]. destruct (decide (pt_EventID pt = "")) as [Hid|Hid].
  - rewrite Hput by done. rewrite Hid. cbn [map]. do 3 f_equal. apply news_ext. set_solver.
  - destruct (decide (pt_EventID pt ∈ known_ids now q)) as [Hk|Hk]; [|by rewrite Hput].
    rewrite enqueue_known by done. rewrite IH; [by rewrite Hi, known_pruned|congruence|].
    unfold fits. rewrite Hi, Hcap. destruct Hc; [by left|right; lia].
Qed.

(** C35: When the first of the queued messages is run and the rest put back, as the
    sequential modes do, the queue refuses every one of them that has an identifier and
    was accepted within the ten minutes of its window: only unnamed messages stay. *)
Theorem requeued_messages_are_refused cap policy now0 (a : account (M := PendingTurn)) now :
  rtc box_step (opened cap policy now0) a -> ac_now a <= now ->
  Forall (fun x => now - x.1 <= defaultSeenTTL) (ac_accepted a) ->
  (bx_cap (ac_box a) <= 0 \/ Queue_Len (ac_box a) <= bx_cap (ac_box a)) ->
  let '(q, pending) := Dequeue (ac_box a) in
  bx_items (enqueuePendingTurns now (tail pending) q)
  = map (pt_filed now) (filter (fun pt => pt_EventID pt = "") (tail pending)).
Proof.
  intros Hr Hnow Hwin Hc. destruct (opened_ok _ _ _ _ Hr) as ((gone & Hf & _) & _ & Hrem & _ & Httl).
  unfold Dequeue. destruct (bx_items (ac_box a)) as [|first rest] eqn:Ei; [done|].
  assert (forall title, tail (with_header title (bx_droppedLines (ac_box a)) (first :: rest)) = rest) as ->
    by (intros title; by destruct (bx_droppedLines (ac_box a))).
  rewrite requeue; [|done|].
  - cbn [app bx_items emptied]. f_equal. apply news_of_known. intros pt Hin Hid.
    assert (pt ∈ filed (ac_accepted a)) as Hpt by (rewrite Hf; apply elem_of_app; right; by right).
    apply list_elem_of_fmap in Hpt as ([t m] & -> & Hm). unfold remembers in Hrem. rewrite Forall_forall in Hwin, Hrem.
    destruct (Hrem _ Hm) as [Ht Hx]. pose proof (Hwin _ Hm) as Hw. cbn in *. destruct (Hx Hid) as [|(t' & Hl & Hle)]; [lia|].
    unfold known_ids. rewrite elem_of_union. right. apply elem_of_recent_ids. exists t'. split; [exact Hl|lia].
  - unfold fits. cbn. unfold Queue_Len, box_len in Hc. rewrite Ei in Hc. cbn [length] in Hc. destruct Hc; [by left|right; lia].
Qed.

(** Three messages of one sender, queued one after the other. *)
Definition said (n : Z) : PendingTurn := mkPendingTurn ("text " +:+ pretty n) ("event " +:+ pretty n) "npub" "" "" [] n None "".
Definition queued_three : account (M := PendingTurn) :=
  let q1 := (box_enqueue 1 (said 1) (NewSessionQueue 10 "summarize")).1 in
  let q2 := (box_enqueue 2 (said 2) q1).1 in
  mkAccount (box_enqueue 3 (said 3) q2).1 [(1, said 1); (2, said 2); (3, said 3)] [] [] 3.

Lemma queued_three_reached : rtc box_step (opened 10 "summarize" 0) queued_three.
Proof.
  eapply rtc_l; [exact (step_enqueue 1 (said 1) (opened 10 "summarize" 0) ltac:(done))|].
  eapply rtc_l; [refine (step_enqueue 2 (said 2) (mkAccount _ _ _ _ 1) _); done|].
  apply rtc_once. refine (step_enqueue 3 (said 3) (mkAccount _ _ _ _ 2) _). done.
Qed.

Lemma requeued_messages_are_refused_witness :
  let '(q, pending) := Dequeue (ac_box queued_three) in
  length pending = 3%nat /\ bx_items (enqueuePendingTurns 4 (tail pending) q) = [].
Proof.
  pose proof (requeued_messages_are_refused 10 "summarize" 0 queued_three 4 queued_three_reached ltac:(vm_compute; discriminate)
    ltac:(repeat constructor; vm_compute; discriminate) ltac:(right; vm_compute; discriminate)) as H.
  destruct (Dequeue (ac_box queued_three)) as [q pending] eqn:E. vm_compute in E. injection E as <- <-.
  split; [reflexivity|exact H].
Defined.

(** ** One turn at a time *)

(** The turn is in the slot. *)
Definition holds (p : pc) : Prop :=
  match p with Claiming _ _ | Backing _ | Running _ | Ending | Releasing _ => True | _ => False end.

Section Turns.
Context (sessionID : string) (settings : queueRuntimeSettings).

Definition locked (w : inbound) : Prop := sessionID ∈ tn_locked (ib_turns w).

(** At most one turn holds the slot, and none while the task runner has it. *)
Definition exclusive (c : config) : Prop :=
  (forall i j p q, cf_turns c !! i = Some p -> cf_turns c !! j = Some q -> holds p -> holds q -> i = j)
  /\ (forall i p, cf_turns c !! i = Some p -> holds p -> locked (cf_world c) /\ cf_runner c = false)
  /\ (cf_runner c = true -> locked (cf_world c))
  /\ (forall i p, cf_turns c !! i = Some p -> (i < cf_next c)%nat).

Lemma try_acquire_spec s :
  (TryAcquire sessionID s).2 = negb (bool_decide (sessionID ∈ tn_locked s))
  /\ sessionID ∈ tn_locked (TryAcquire sessionID s).1.
Proof.
  unfold TryAcquire, try_lock. case_bool_decide as H; cbn; [done|]. split; [done|]. set_solver.
Qed.

Lemma refused_turns now m w :
  ib_turns (refused_step sessionID settings now m w).1 = ib_turns w
  /\ forall q, (refused_step sessionID settings now m w).2 = Some q -> q = Queueing m.
Proof.
  unfold refused_step. destruct (qs_Mode settings ==? "steer").
  - unfold handleBusySteer, enqueueActiveRunSteering. destruct (blank _); [done|]. by destruct (EnqueueWithOutcome _ _ _).
  - destruct (qs_Mode settings ==? "interrupt"); [|split; [done|by intros q [= <-]]].
    unfold handleBusyInterrupt. cbv zeta. destruct (TrimSpace _ ==? ""); [split; [done|by intros q [= <-]]|].
    destruct (AllInterruptible _ _); [split; [done|by intros q [= <-]]|].
    unfold enqueueActiveRunSteering. destruct (blank _); [done|]. by destruct (EnqueueWithOutcome _ _ _).
Qed.

(** What a step does to the slot: a turn comes to hold it by taking it while it is free
    only, and only a turn that holds it leaves it. *)
Lemma turn_step_slot now p w w' p' started :
  turn_step sessionID settings now p w = (w', p', started) ->
  (forall q, started = Some q -> ~ holds q)
  /\ (holds p -> forall q, p' = Some q -> holds q -> locked w -> locked w')
  /\ (~ holds p -> forall q, p' = Some q -> holds q -> ~ locked w /\ locked w')
  /\ (~ holds p -> locked w -> locked w').
Proof.
  unfold locked. destruct p as [token m|token m|token m|token m|m|m|m|m| |next|next|next st|next m rest]; cbn [turn_step].
  - intros [= <- <- <-]. cbn. split; [done|]. split; [done|]. split; [by intros _ q [= <-]|done].
  - destruct (token =? 0); [destruct (Has now sessionID (ib_handoffs w)) as [h r]|]; intros [= <- <- <-]; cbn;
      (split; [done|]; split; [done|]; split; [intros _ q [= <-]; by try destruct r|done]).
  - destruct (try_acquire_spec (ib_turns w)) as [Hs Hl]. destruct (TryAcquire sessionID (ib_turns w)) as [turns ok].
    cbn in Hs, Hl. intros [= <- <- <-]. cbn. split; [done|]. split; [done|]. split; [|done]. intros _ q [= <-]. destruct ok; [|done].
    intros _. split; [|done]. by case_bool_decide.
  - destruct (token =? 0); [destruct (Has now sessionID (ib_handoffs w)) as [h r]|destruct (ConsumeIfMatch now sessionID token (ib_handoffs w)) as [h r]]; intros [= <- <- <-]; cbn;
      (split; [done|]; split; [done|]; split; [by intros []|by intros []]).
  - intros [= <- <- <-]. cbn. split; [done|]. split; [by intros _ q [= <-]|]. split; [by intros []|by intros []].
  - destruct (refused_turns now m w) as [Ht Hq]. destruct (refused_step sessionID settings now m w) as [w1 p1]. cbn in Ht, Hq.
    intros [= <- <- <-]. rewrite Ht. split; [done|]. split; [done|]. split; [|done]. by intros _ q ->%Hq.
  - intros [= <- <- <-]. cbn. split; [done|]. split; [done|]. by split.
  - intros [= <- <- <-]. cbn. split; [done|]. split; [done|]. split; [by intros []|by intros []].
  - destruct (_ || _); [destruct (Reserve now sessionID (ib_handoffs w)) as [h t]|]; intros [= <- <- <-]; cbn;
      (split; [done|]; split; [done|]; split; [by intros []|by intros []]).
  - intros [= <- <- <-]. cbn. split; [done|]. split; [by intros _ q [= <-]|]. split; [by intros []|by intros []].
  - unfold drainSteeringAsPending. destruct (ib_mailbox w) as [mb|]; [destruct (Drain mb) as [mb' items]|]; intros [= <- <- <-]; cbn;
      (split; [done|]; split; [done|]; split; [by intros _ q [= <-]|done]).
  - destruct (Dequeue (ib_queue w)) as [q0 pending]. intros [= <- <- <-]. cbn. split; [done|]. split; [done|]. split; [|done].
    intros _ q. destruct (drain_plan _ _ _) as [[m rest]|]; [by intros [= <-]|done].
  - intros [= <- <- <-]. cbn. split; [by intros q [= <-] []|]. split; [done|]. by split.
Qed.

Lemma moved_bound (c : config) i p p' j q :
  (forall i p, cf_turns c !! i = Some p -> (i < cf_next c)%nat) -> cf_turns c !! i = Some p ->
  moved i p' (cf_turns c) !! j = Some q -> (j < cf_next c)%nat.
Proof.
  intros Hn Hi. unfold moved. destruct p' as [p'|]; [intros [[<- _]|[_ Hj]]%lookup_insert_Some|intros [_ Hj]%lookup_delete_Some];
    [by eapply Hn|by eapply Hn|by eapply Hn].
Qed.

(** A step of the turn [i]. *)
Lemma step_exclusive c i p w p' turns next ran :
  exclusive c -> cf_turns c !! i = Some p ->
  (holds p -> forall q, p' = Some q -> holds q -> locked (cf_world c) -> locked w) ->
  (~ holds p -> forall q, p' = Some q -> holds q -> ~ locked (cf_world c) /\ locked w) ->
  (~ holds p -> locked (cf_world c) -> locked w) ->
  (forall j q, turns !! j = Some q -> holds q -> j = i /\ p' = Some q \/ j <> i /\ cf_turns c !! j = Some q) ->
  (forall j q, turns !! j = Some q -> (j < next)%nat) ->
  exclusive (mkConfig w turns next (cf_runner c) ran).
Proof.
  intros (Hu & Hh & Hr & _) Hi Hkeep Htake Hother Hat Hn.
  assert (holds p \/ ~ holds p) as Hdec by (destruct p; cbn; tauto).
  assert (forall j q, turns !! j = Some q -> holds q -> j <> i -> ~ holds p /\ cf_turns c !! j = Some q /\ locked (cf_world c)) as Hoth.
  { intros j q Hj Hq Hne. destruct (Hat j q Hj Hq) as [[? _]|[_ Hj']]; [done|]. destruct (Hh j q Hj' Hq) as [Hl _].
    split; [|done]. intros Hp. by apply Hne, (Hu j i q p). }
  split; [|split; [|split; [|exact Hn]]]; cbn.
  - intros j k q1 q2 Hj Hk H1 H2. destruct (decide (j = i)) as [->|Hji], (decide (k = i)) as [->|Hki]; [done|..].
    + destruct (Hoth k q2 Hk H2 Hki) as (Hnp & _ & Hl). destruct (Hat i q1 Hj H1) as [[_ Hp']|[? _]]; [|done].
      by destruct (Htake Hnp q1 Hp' H1).
    + destruct (Hoth j q1 Hj H1 Hji) as (Hnp & _ & Hl). destruct (Hat i q2 Hk H2) as [[_ Hp']|[? _]]; [|done].
      by destruct (Htake Hnp q2 Hp' H2).
    + destruct (Hoth j q1 Hj H1 Hji) as (_ & Hj' & _), (Hoth k q2 Hk H2 Hki) as (_ & Hk' & _). by apply (Hu j k q1 q2).
  - intros j q Hj Hq. destruct (decide (j = i)) as [->|Hji].
    + destruct (Hat i q Hj Hq) as [[_ Hp']|[? _]]; [|done]. destruct Hdec as [Hp|Hp].
      * destruct (Hh i p Hi Hp) as [Hl Hrun]. split; [by eapply Hkeep|done].
      * destruct (Htake Hp q Hp' Hq) as [Hnl Hl]. split; [done|]. by destruct (cf_runner c); [destruct Hnl; apply Hr|].
    + destruct (Hoth j q Hj Hq Hji) as (Hnp & Hj' & Hl). destruct (Hh j q Hj' Hq) as [_ Hrun]. split; [by apply Hother|done].
  - intros Hrun. destruct Hdec as [Hp|Hp]; [destruct (Hh i p Hi Hp); congruence|]. by apply Hother, Hr.
Qed.

Lemma act_exclusive c a : exclusive c -> exclusive (act sessionID settings c a).
Proof.
  intros (Hu & Hh & Hr & Hn). destruct a as [m|i now| |]; cbn.
  - assert (forall i p, <[cf_next c := Arriving 0 m]> (cf_turns c) !! i = Some p -> holds p -> cf_turns c !! i = Some p) as Hold.
    { intros i p [[<- <-]|[_ ?]]%lookup_insert_Some; done. }
    split; [|split; [|split; [done|]]]; cbn.
    + intros i j p q Hi Hj Hp Hq. eapply Hu; [exact (Hold i p Hi Hp)|exact (Hold j q Hj Hq)|done|done].
    + intros i p Hi Hp. by eapply Hh; [apply (Hold i p Hi Hp)|].
    + intros i p [[<- _]|[_ Hi]]%lookup_insert_Some; [lia|]. apply Hn in Hi. lia.
  - destruct (cf_turns c !! i) as [p|] eqn:Ei; [|done].
    destruct (turn_step sessionID settings now p (cf_world c)) as [[w p'] started] eqn:Es.
    destruct (turn_step_slot _ _ _ _ _ _ Es) as (Hst & Hkeep & Htake & Hother).
    set (ran := match p' with Some (Running m) => _ | _ => _ end). clearbody ran.
    set (turns := match started with Some q => <[cf_next c := q]> (moved i p' (cf_turns c)) | None => moved i p' (cf_turns c) end).
    assert (forall j q, turns !! j = Some q -> holds q -> j = i /\ p' = Some q \/ j <> i /\ cf_turns c !! j = Some q) as Hat.
    { assert (forall j q, moved i p' (cf_turns c) !! j = Some q -> j = i /\ p' = Some q \/ j <> i /\ cf_turns c !! j = Some q) as Hm.
      { intros j q. unfold moved. destruct p' as [p'|]; [intros [[<- <-]|[? ?]]%lookup_insert_Some|intros [? ?]%lookup_delete_Some]; auto. }
      intros j q Hj Hq. unfold turns in Hj. destruct started as [q0|]; [|by apply Hm].
      apply lookup_insert_Some in Hj as [[_ <-]|[_ Hj]]; [by destruct (Hst _ eq_refl)|by apply Hm]. }
    assert (exclusive (mkConfig w turns (match started with Some _ => S (cf_next c) | None => cf_next c end) (cf_runner c) ran)) as Hex.
    { apply (step_exclusive c i p w p' turns); try done. intros j q. unfold turns. destruct started as [q0|].
      - intros [[<- _]|[_ Hj]]%lookup_insert_Some; [lia|]. apply (moved_bound _ i p p') in Hj; [lia|done|done].
      - intros Hj. by apply (moved_bound _ i p p') in Hj. }
    by destruct started.
  - destruct (cf_runner c) eqn:Er; [by split; [|split; [|split]]; rewrite ?Er|].
    destruct (try_acquire_spec (ib_turns (cf_world c))) as [Hs Hl]. destruct (TryAcquire sessionID _) as [turns ok]. cbn in Hs, Hl.
    split; [done|]. split; [|split; [done|done]]. cbn. intros i p Hi Hp. destruct (Hh i p Hi Hp) as [Hlk _].
    split; [done|]. rewrite Hs. by rewrite bool_decide_eq_true_2.
  - destruct (cf_runner c) eqn:Er; [|by split; [|split; [|split]]; rewrite ?Er].
    split; [done|]. split; [|split; [done|done]]. cbn. intros i p Hi Hp. destruct (Hh i p Hi Hp). congruence.
Qed.

Lemma start_exclusive : exclusive no_turns.
Proof.
  unfold exclusive, no_turns. cbn. split; [by intros i j p q ?%lookup_empty_Some|]. split; [by intros i p ?%lookup_empty_Some|].
  split; [done|by intros i p ?%lookup_empty_Some].
Qed.

Lemma acts_exclusive actions c : exclusive c -> exclusive (acts sessionID settings actions c).
Proof. revert c. induction actions as [|a actions IH]; intros c H; [done|]. by apply IH, act_exclusive. Qed.

(** ** Slots and tokens that are lost *)

(** The slot is taken, but neither a turn nor the task runner is in it. *)
Definition abandoned (c : config) : Prop :=
  locked (cf_world c) /\ cf_runner c = false /\ forall i p, cf_turns c !! i = Some p -> ~ holds p.

Lemma act_abandoned c a :
  abandoned c -> abandoned (act sessionID settings c a) /\ cf_ran (act sessionID settings c a) = cf_ran c.
Proof.
  intros (Hl & Hr & Hn). destruct a as [m|i now| |]; cbn.
  - split; [|done]. split; [done|]. split; [done|]. cbn. by intros i p [[_ <-]|[_ Hi]]%lookup_insert_Some; [intros []|eapply Hn].
  - destruct (cf_turns c !! i) as [p|] eqn:Ei; [|done]. pose proof (Hn i p Ei) as Hp.
    destruct (turn_step sessionID settings now p (cf_world c)) as [[w p'] started] eqn:Es.
    destruct (turn_step_slot _ _ _ _ _ _ Es) as (Hst & _ & Htake & Hother).
    assert (forall q, p' = Some q -> ~ holds q) as Hp' by (intros q Hq Hh; by destruct (Htake Hp q Hq Hh)).
    assert (forall j q, moved i p' (cf_turns c) !! j = Some q -> ~ holds q) as Hm.
    { intros j q. unfold moved. destruct p' as [p'|]; [intros [[_ <-]|[_ ?]]%lookup_insert_Some|intros [_ ?]%lookup_delete_Some];
        [by apply Hp'|by eapply Hn|by eapply Hn]. }
    assert (match p' with Some (Running m) => cf_ran c ++ [m] | _ => cf_ran c end = cf_ran c) as ->.
    { destruct p' as [[]|]; try done. by destruct (Hp' _ eq_refl). }
    destruct started as [q0|]; (split; [|done]); (split; [by apply Hother|]); (split; [done|]); [|exact Hm].
    cbn. intros j q [[_ <-]|[_ Hj]]%lookup_insert_Some; [by apply Hst|by eapply Hm].
  - rewrite Hr. destruct (try_acquire_spec (ib_turns (cf_world c))) as [Hs Hlk]. rewrite bool_decide_eq_true_2 in Hs by done.
    destruct (TryAcquire sessionID (ib_turns (cf_world c))) as [turns ok]. cbn in Hs, Hlk. subst ok. done.
  - by rewrite Hr.
Qed.

Lemma acts_abandoned actions c : abandoned c -> cf_ran (acts sessionID settings actions c) = cf_ran c.
Proof.
  revert c. induction actions as [|a actions IH]; intros c H; [done|]. destruct (act_abandoned c a H) as [H' <-]. by apply IH.
Qed.

Lemma act_step c i now p w p' started :
  cf_turns c !! i = Some p -> turn_step sessionID settings now p (cf_world c) = (w, p', started) ->
  act sessionID settings c (Step i now)
  = mkConfig w (match started with Some q => <[cf_next c := q]> (moved i p' (cf_turns c)) | None => moved i p' (cf_turns c) end)
      (match started with Some _ => S (cf_next c) | None => cf_next c end) (cf_runner c)
      (match p' with Some (Running m) => cf_ran c ++ [m] | _ => cf_ran c end).
Proof. intros Hi Hs. cbn. rewrite Hi, Hs. by destruct started. Qed.

Lemma mismatch_abandons c i token m now :
  exclusive c -> cf_turns c !! i = Some (Claiming token m) -> token <> 0 ->
  (ConsumeIfMatch now sessionID token (ib_handoffs (cf_world c))).2 = false ->
  abandoned (act sessionID settings c (Step i now)) /\ cf_ran (act sessionID settings c (Step i now)) = cf_ran c.
Proof.
  intros (Hu & Hh & _) Hi Ht Hc. destruct (ConsumeIfMatch now sessionID token (ib_handoffs (cf_world c))) as [h ok] eqn:E. cbn in Hc. subst ok.
  erewrite (act_step c i now) by (exact Hi || (cbn [turn_step]; rewrite (proj2 (Z.eqb_neq token 0) Ht), E; reflexivity)).
  destruct (Hh i _ Hi I) as [Hl Hr]. split; [|done]. split; [exact Hl|]. split; [done|]. cbn.
  intros j q [[_ <-]|[Hne Hj]]%lookup_insert_Some; [intros []|]. intros Hq. by apply Hne, (Hu i j _ _ Hi Hj I).
Qed.
End Turns.

(** C33: However messages arrive and the steps of the turns of a session and of the task
    runner interleave, at most one turn is in the session's slot, and none while the task
    runner has it; but a turn that holds the slot and whose handoff token is no longer the
    registry's leaves the slot locked, and no message of the session is run ever after. *)
Theorem one_inbound_turn_at_a_time sessionID settings actions :
  let c := acts sessionID settings actions no_turns in
  (forall i j p q, cf_turns c !! i = Some p -> cf_turns c !! j = Some q -> holds p -> holds q -> i = j)
  /\ (cf_runner c = true -> forall i p, cf_turns c !! i = Some p -> ~ holds p)
  /\ (forall i token m now later, cf_turns c !! i = Some (Claiming token m) -> token <> 0 ->
      (ConsumeIfMatch now sessionID token (ib_handoffs (cf_world c))).2 = false ->
      cf_ran (acts sessionID settings (Step i now :: later) c) = cf_ran c).
Proof.
  cbv zeta. set (c := acts sessionID settings actions no_turns).
  assert (exclusive sessionID c) as Hex by apply acts_exclusive, start_exclusive. split; [apply Hex|]. split.
  - intros Hr i p Hi Hp. destruct Hex as (_ & Hh & _). destruct (Hh i p Hi Hp). congruence.
  - intros i token m now later Hi Ht Hc. destruct (mismatch_abandons sessionID settings c i token m now Hex Hi Ht Hc) as [Ha Hran].
    change (acts sessionID settings (Step i now :: later) c) with (acts sessionID settings later (act sessionID settings c (Step i now))).
    by rewrite acts_abandoned.
Qed.

(** ** Schedules *)

Definition collecting : queueRuntimeSettings := mkQueueRuntimeSettings "collect" 10 QueueDropSummarize.
Definition following : queueRuntimeSettings := mkQueueRuntimeSettings "followup" 10 QueueDropSummarize.
Definition interrupting : queueRuntimeSettings := mkQueueRuntimeSettings "interrupt" 10 QueueDropSummarize.

(** [n] steps of a turn at a time. *)
Definition steps (n : nat) (i : nat) (now : Z) : list action := replicate n (Step i now).
Definition texts_run (c : config) : list string := map pt_Text (cf_ran c).
Definition texts_queued (c : config) : list string := map pt_Text (bx_items (ib_queue (cf_world c))).

(** A turn runs ([0]), two messages arrive and are queued ([1], [2]), the turn ends and
    hands over to the next ([3]). *)
Definition two_queued : list action :=
  [Arrive (said 1)] ++ steps 4 0 1 ++ [Arrive (said 2)] ++ steps 5 1 2 ++ [Arrive (said 3)] ++ steps 5 2 3.

Example collected_messages_run_together :
  let c := acts "s" collecting (two_queued ++ steps 6 0 4 ++ steps 4 3 5) no_turns in
  texts_run c = ["text 1"; "[2 messages received while agent was busy]" +:+ newline +:+ newline +:+ "text 2" +:+ newline +:+ newline +:+ "text 3"]
  /\ texts_queued c = [].
Proof. vm_compute. by split. Qed.

(** In a sequential mode only the first of them runs; the other is refused and lost. *)
Example second_queued_message_is_lost :
  let c := acts "s" following (two_queued ++ steps 6 0 4 ++ steps 10 3 5) no_turns in
  texts_run c = ["text 1"; "text 2"] /\ texts_queued c = [] /\ cf_turns c = ∅ /\ cf_next c = 4%nat.
Proof. vm_compute. by split. Qed.

(** A message that is refused while the turn ends is queued after the queue was drained:
    it waits until another message arrives and its turn ends. *)
Example message_waits_for_another_to_arrive :
  let c := acts "s" collecting ([Arrive (said 1)] ++ steps 4 0 1 ++ [Arrive (said 2)] ++ steps 4 1 2 ++ steps 6 0 3 ++ steps 1 1 4) no_turns in
  texts_run c = ["text 1"] /\ texts_queued c = ["text 2"] /\ cf_turns c = ∅ /\ tn_locked (ib_turns (cf_world c)) = ∅
  /\ texts_run (acts "s" collecting ([Arrive (said 3)] ++ steps 10 2 5 ++ steps 10 3 5) c) = ["text 1"; "text 3"; "text 2"].
Proof. vm_compute. repeat split. Qed.

(** The token of a turn handed over late is no longer the registry's, and the slot stays
    locked. *)
Definition late : Z := 4 + sessionTurnHandoffTTL + 1.
Definition late_claim : list action := two_queued ++ steps 6 0 4 ++ steps 3 3 5.

Lemma one_inbound_turn_at_a_time_witness :
  texts_run (acts "s" collecting (steps 8 3 late ++ [Arrive (said 9)] ++ steps 10 4 late) (acts "s" collecting late_claim no_turns)) = ["text 1"].
Proof.
  pose proof (one_inbound_turn_at_a_time "s" collecting late_claim) as H. destruct H as (_ & _ & H).
  destruct (cf_turns (acts "s" collecting late_claim no_turns) !! 3%nat) as [p|] eqn:E; [|vm_compute in E; discriminate E].
  vm_compute in E. injection E as <-.
  unfold texts_run. change (steps 8 3 late) with (Step 3 late :: steps 7 3 late). cbn [app].
  erewrite H; [vm_compute; reflexivity|vm_compute; reflexivity|discriminate|vm_compute; reflexivity].
Defined.

(** ** Tokens nobody carries *)

(** The turn was handed the token, or hands it on. *)
Definition carries (k : Z) (p : pc) : Prop :=
  match p with
  | Arriving t _ | Checking t _ | Trying t _ | Claiming t _ => t = k
  | Releasing t | DrainingSteering t | DrainingQueue t _ | Dispatching t _ _ => t = k
  | _ => False
  end.

(** The turn runs or is about to reserve a token. *)
Definition runs (p : pc) : Prop := match p with Running _ | Ending => True | _ => False end.

(** The session's token was reserved at [t0], and no turn carries it. *)
Definition orphaned (sessionID : string) (k t0 : Z) (c : config) : Prop :=
  k <> 0 /\ th_tokens (ib_handoffs (cf_world c)) !! sessionID = Some (mkSessionTurnHandoffToken k t0)
  /\ forall i p, cf_turns c !! i = Some p -> ~ carries k p /\ ~ runs p.

Definition within (limit : Z) (a : action) : Prop := match a with Step _ now => now <= limit | _ => True end.

Section Orphans.
Context (sessionID : string) (settings : queueRuntimeSettings) (k t0 : Z).

Definition reserved (w : inbound) : Prop :=
  th_tokens (ib_handoffs w) !! sessionID = Some (mkSessionTurnHandoffToken k t0).

Lemma kept_token now r :
  now <= t0 + sessionTurnHandoffTTL -> th_tokens r !! sessionID = Some (mkSessionTurnHandoffToken k t0) ->
  th_tokens (handoff_cleanup now r) !! sessionID = Some (mkSessionTurnHandoffToken k t0).
Proof. intros Hn Hl. apply cleanup_lookup. split; [done|cbn; lia]. Qed.

Lemma refused_keeps now m w :
  ib_handoffs (refused_step sessionID settings now m w).1 = ib_handoffs w.
Proof.
  unfold refused_step. destruct (qs_Mode settings ==? "steer").
  - unfold handleBusySteer, enqueueActiveRunSteering. destruct (blank _); [done|]. by destruct (EnqueueWithOutcome _ _ _).
  - destruct (qs_Mode settings ==? "interrupt"); [|done]. unfold handleBusyInterrupt. cbv zeta.
    destruct (TrimSpace _ ==? ""); [done|]. destruct (AllInterruptible _ _); [done|].
    unfold enqueueActiveRunSteering. destruct (blank _); [done|]. by destruct (EnqueueWithOutcome _ _ _).
Qed.

(** While the token lasts, a turn without it neither takes it nor starts to run. *)
Lemma turn_step_reserved now p w w' p' started :
  turn_step sessionID settings now p w = (w', p', started) ->
  now <= t0 + sessionTurnHandoffTTL -> reserved w -> ~ carries k p -> ~ runs p ->
  reserved w' /\ (forall q, p' = Some q -> ~ carries k q /\ ~ runs q) /\ (forall q, started = Some q -> ~ carries k q /\ ~ runs q).
Proof.
  unfold reserved. intros Hs Hn Hl Hc Hr.
  destruct p as [token m|token m|token m|token m|m|m|m|m| |next|next|next st|next m rest]; cbn [turn_step carries runs] in *; try done.
  - injection Hs as <- <- <-. split; [done|]. by split; [intros q [= <-]|].
  - destruct (token =? 0); [|injection Hs as <- <- <-; split; [done|]; by split; [intros q [= <-]|]].
    destruct (Has now sessionID (ib_handoffs w)) as [h r] eqn:E. injection Hs as <- <- <-. injection E as <- <-.
    split; [by apply kept_token|]. split; [|done]. intros q [= <-]. by case_match.
  - destruct (TryAcquire sessionID (ib_turns w)) as [turns ok]. injection Hs as <- <- <-. split; [done|]. split; [|done].
    intros q [= <-]. by destruct ok.
  - pose proof (kept_token now _ Hn Hl) as Hk. destruct (token =? 0) eqn:Et.
    + destruct (Has now sessionID (ib_handoffs w)) as [h r] eqn:E. injection Hs as <- <- <-. injection E as <- <-.
      split; [exact Hk|]. split; [|done]. rewrite bool_decide_eq_true_2 by (eexists; exact Hk). by intros q [= <-].
    + destruct (ConsumeIfMatch now sessionID token (ib_handoffs w)) as [h r] eqn:E. injection Hs as <- <- <-.
      unfold ConsumeIfMatch in E. rewrite Et, Hk in E. cbn [ht_ID] in E.
      rewrite (proj2 (Z.eqb_neq k token)) in E by congruence. injection E as <- <-.
      split; [exact Hk|]. split; [|done]. by intros q [= <-].
  - injection Hs as <- <- <-. split; [done|]. by split; [intros q [= <-]|].
  - destruct (refused_turns sessionID settings now m w) as [_ Hq]. pose proof (refused_keeps now m w) as Hk.
    destruct (refused_step sessionID settings now m w) as [w1 p1]. cbn in Hq, Hk. injection Hs as <- <- <-. rewrite Hk.
    split; [done|]. split; [|done]. by intros q ->%Hq.
  - injection Hs as <- <- <-. split; [done|]. by split.
  - injection Hs as <- <- <-. split; [done|]. by split; [intros q [= <-]|].
  - unfold drainSteeringAsPending in Hs. destruct (ib_mailbox w) as [mb|]; [destruct (Drain mb) as [mb' items]|];
      injection Hs as <- <- <-; (split; [done|]; by split; [intros q [= <-]|]).
  - destruct (Dequeue (ib_queue w)) as [q0 pending]. injection Hs as <- <- <-. split; [done|]. split; [|done].
    intros q. destruct (drain_plan _ _ _) as [[m rest]|]; [by intros [= <-]|done].
  - injection Hs as <- <- <-. split; [done|]. split; [done|]. by intros q [= <-].
Qed.

Lemma act_orphaned c a :
  orphaned sessionID k t0 c -> within (t0 + sessionTurnHandoffTTL) a ->
  orphaned sessionID k t0 (act sessionID settings c a) /\ cf_ran (act sessionID settings c a) = cf_ran c.
Proof.
  intros (Hk & Hl & Hn) Ha. destruct a as [m|i now| |]; cbn in Ha.
  - split; [|done]. split; [done|]. split; [done|]. cbn.
    intros i p [[_ <-]|[_ Hi]]%lookup_insert_Some; [split; [cbn; congruence|by intros []]|by eapply Hn].
  - destruct (cf_turns c !! i) as [p|] eqn:Ei; [|cbn; by rewrite Ei]. destruct (Hn i p Ei) as [Hc Hr].
    destruct (turn_step sessionID settings now p (cf_world c)) as [[w p'] started] eqn:Es.
    destruct (turn_step_reserved _ _ _ _ _ _ Es Ha Hl Hc Hr) as (Hl' & Hp' & Hst). rewrite (act_step _ _ _ _ _ _ _ _ _ Ei Es).
    assert (forall j q, moved i p' (cf_turns c) !! j = Some q -> ~ carries k q /\ ~ runs q) as Hm.
    { intros j q. unfold moved. destruct p' as [p'|]; [intros [[_ <-]|[_ ?]]%lookup_insert_Some|intros [_ ?]%lookup_delete_Some];
        [by apply Hp'|by eapply Hn|by eapply Hn]. }
    split; [|destruct p' as [[]|]; try done; destruct (Hp' _ eq_refl) as [_ []]; exact I].
    split; [done|]. split; [exact Hl'|]. cbn. intros j q. destruct started as [q0|]; [|apply Hm].
    intros [[_ <-]|[_ Hj]]%lookup_insert_Some; [by apply Hst|by eapply Hm].
  - cbn. destruct (cf_runner c); [done|]. by destruct (TryAcquire sessionID (ib_turns (cf_world c))).
  - cbn. by destruct (cf_runner c).
Qed.
End Orphans.

(** A handoff token that no turn carries any more keeps the session from running any
    message until it expires, half an hour after it was reserved, whatever arrives. *)
Theorem orphaned_token_stops_the_session sessionID settings k t0 c later :
  orphaned sessionID k t0 c -> Forall (within (t0 + sessionTurnHandoffTTL)) later ->
  cf_ran (acts sessionID settings later c) = cf_ran c.
Proof.
  intros Ho Hf. revert c Ho. induction Hf as [|a later Ha _ IH]; intros c Ho; [done|].
  destruct (act_orphaned sessionID settings k t0 c a Ho Ha) as [Ho' <-]. by apply IH.
Qed.

(** An interrupt empties the queue after the token was reserved for it: the drain finds
    nothing, and the message that interrupted waits behind a token nobody has. *)
Definition interrupted_handoff : config :=
  acts "s" interrupting
    ([Arrive (said 1)] ++ steps 4 0 1 ++ [Arrive (said 2)] ++ steps 5 1 2 ++ steps 2 0 3
     ++ [Arrive (said 3)] ++ steps 3 2 4 ++ steps 4 0 5 ++ steps 1 2 6) no_turns.

Lemma orphaned_token_stops_the_session_witness :
  texts_run (acts "s" interrupting ([Arrive (said 4)] ++ steps 9 3 1000 ++ [Arrive (said 5)] ++ steps 9 4 2000) interrupted_handoff) = ["text 1"]
  /\ texts_queued interrupted_handoff = ["text 3"].
Proof.
  split; [|vm_compute; reflexivity].
  unfold texts_run. erewrite (orphaned_token_stops_the_session "s" interrupting 1 3 interrupted_handoff).
  - vm_compute. reflexivity.
  - split; [discriminate|]. split; [vm_compute; reflexivity|]. intros i p Hi.
    assert (cf_turns interrupted_handoff = ∅) as E by (vm_compute; reflexivity). rewrite E in Hi. rewrite lookup_empty in Hi. discriminate Hi.
  - repeat constructor; vm_compute; discriminate.
Defined.

(** A message that saw no token before it was reserved takes the slot for a moment: the
    turn handed over is refused, its message, which the queue knows, is lost, and so is
    its token. *)
Example brief_holder_loses_the_handoff :
  let c := acts "s" collecting
    ([Arrive (said 1)] ++ steps 4 0 1 ++ [Arrive (said 2)] ++ steps 5 1 2 ++ [Arrive (said 3)] ++ steps 2 2 3
     ++ steps 3 0 4 ++ steps 1 2 5 ++ steps 3 0 6 ++ steps 5 3 7 ++ steps 4 2 8) no_turns in
  texts_run c = ["text 1"] /\ texts_queued c = ["text 3"] /\ cf_turns c = ∅
  /\ th_tokens (ib_handoffs (cf_world c)) !! "s" = Some (mkSessionTurnHandoffToken 1 4).
Proof. vm_compute. by repeat split. Qed.

(** The task runner, which does not look at handoffs, does the same. *)
Example task_runner_loses_the_handoff :
  let c := acts "s" collecting
    ([Arrive (said 1)] ++ steps 4 0 1 ++ [Arrive (said 2)] ++ steps 5 1 2 ++ steps 3 0 3 ++ [RunnerTakes]
     ++ steps 3 0 4 ++ steps 5 2 5 ++ [RunnerLeaves]) no_turns in
  texts_run c = ["text 1"] /\ texts_queued c = [] /\ cf_turns c = ∅
  /\ th_tokens (ib_handoffs (cf_world c)) !! "s" = Some (mkSessionTurnHandoffToken 1 3).
Proof. vm_compute. by repeat split. Qed.

(** ** The handover *)

Section Handover.
Context (sessionID : string) (settings : queueRuntimeSettings).

Lemma release_frees s : (TryAcquire sessionID (release sessionID s)).2 = true.
Proof.
  destruct (try_acquire_spec sessionID (release sessionID s)) as [-> _]. rewrite bool_decide_eq_false_2; [done|]. cbn. set_solver.
Qed.

(** A plan needs something staged. *)
Lemma plan_needs_staged w m rest :
  drain_plan (qs_Mode settings) (drainSteeringAsPending w).2 (Dequeue (ib_queue w)).2 = Some (m, rest) ->
  (0 <? Queue_Len (ib_queue w)) || (0 <? steeringMailboxLen w) = true.
Proof.
  unfold drainSteeringAsPending, Dequeue, Queue_Len, steeringMailboxLen, Mailbox_Len, box_len, Drain.
  destruct (bx_items (ib_queue w)) as [|x l]; [|done]. cbn. destruct (ib_mailbox w) as [mb|]; [|done].
  by destruct (bx_items (mb_box mb)).
Qed.

Lemma turn_step_numbers now p w w' p' started :
  turn_step sessionID settings now p w = (w', p', started) -> th_nextID (ib_handoffs w) <= th_nextID (ib_handoffs w').
Proof.
  destruct p as [token m|token m|token m|token m|m|m|m|m| |next|next|next st|next m rest]; cbn [turn_step].
  - by intros [= <- <- <-].
  - destruct (token =? 0); [|by intros [= <- <- <-]]. unfold Has. by intros [= <- <- <-].
  - destruct (TryAcquire sessionID (ib_turns w)). by intros [= <- <- <-].
  - destruct (token =? 0) eqn:Et; [unfold Has; by intros [= <- <- <-]|]. unfold ConsumeIfMatch. rewrite Et. cbv zeta.
    destruct (th_tokens _ !! sessionID) as [cur|]; [destruct (ht_ID cur =? token)|]; by intros [= <- <- <-].
  - by intros [= <- <- <-].
  - pose proof (refused_keeps sessionID settings now m w) as Hk. destruct (refused_step sessionID settings now m w) as [w1 p1].
    cbn in Hk. intros [= <- <- <-]. by rewrite Hk.
  - by intros [= <- <- <-].
  - by intros [= <- <- <-].
  - destruct (_ || _); [|by intros [= <- <- <-]]. unfold Reserve. intros [= <- <- <-]. cbn. lia.
  - by intros [= <- <- <-].
  - unfold drainSteeringAsPending. destruct (ib_mailbox w) as [mb|]; [destruct (Drain mb)|]; by intros [= <- <- <-].
  - destruct (Dequeue (ib_queue w)). by intros [= <- <- <-].
  - by intros [= <- <- <-].
Qed.

Lemma acts_numbers actions c : th_nextID (ib_handoffs (cf_world c)) <= th_nextID (ib_handoffs (cf_world (acts sessionID settings actions c))).
Proof.
  revert c. induction actions as [|a actions IH]; intros c; [done|]. etransitivity; [|apply IH]. clear IH. destruct a as [m|i now| |].
  - done.
  - destruct (cf_turns c !! i) as [p|] eqn:Ei; [|cbn; by rewrite Ei].
    destruct (turn_step sessionID settings now p (cf_world c)) as [[w p'] started] eqn:Es.
    rewrite (act_step _ _ _ _ _ _ _ _ _ Ei Es). cbn. by eapply turn_step_numbers.
  - cbn. destruct (cf_runner c); [done|]. by destruct (TryAcquire sessionID (ib_turns (cf_world c))).
  - cbn. by destruct (cf_runner c).
Qed.

(** A token just reserved takes the turn over. *)
Lemma reserve_consume now r :
  0 <= th_nextID r -> (ConsumeIfMatch now sessionID (Reserve now sessionID r).2 (Reserve now sessionID r).1).2 = true.
Proof.
  intros Hn. unfold ConsumeIfMatch. rewrite (proj2 (Z.eqb_neq _ 0)) by (cbn; lia). cbv zeta.
  rewrite (kept_token sessionID (Reserve now sessionID r).2 now) by (first [unfold sessionTurnHandoffTTL; lia|cbn; by rewrite lookup_insert_eq]).
  cbn [ht_ID]. by rewrite Z.eqb_refl.
Qed.

Lemma acts_step c i now p w p' started more :
  cf_turns c !! i = Some p -> turn_step sessionID settings now p (cf_world c) = (w, p', started) ->
  acts sessionID settings (Step i now :: more) c
  = acts sessionID settings more
      (mkConfig w (match started with Some q => <[cf_next c := q]> (moved i p' (cf_turns c)) | None => moved i p' (cf_turns c) end)
        (match started with Some _ => S (cf_next c) | None => cf_next c end) (cf_runner c)
        (match p' with Some (Running m) => cf_ran c ++ [m] | _ => cf_ran c end)).
Proof. intros Hi Hs. cbn [acts foldl]. by rewrite (act_step _ _ _ _ _ _ _ _ _ Hi Hs). Qed.

Lemma acts_app a b c : acts sessionID settings (a ++ b) c = acts sessionID settings b (acts sessionID settings a c).
Proof. unfold acts. apply foldl_app. Qed.

(** The first five steps: the turn that ends starts the next one. *)
Lemma ending_dispatches c i now m rest :
  cf_turns c !! i = Some Ending ->
  drain_plan (qs_Mode settings) (drainSteeringAsPending (cf_world c)).2 (Dequeue (ib_queue (cf_world c))).2 = Some (m, rest) ->
  let c' := acts sessionID settings (steps 5 i now) c in
  let '(handoffs, k) := Reserve now sessionID (ib_handoffs (cf_world c)) in
  cf_turns c' !! cf_next c = Some (Arriving k m) /\ cf_ran c' = cf_ran c
  /\ ib_handoffs (cf_world c') = handoffs /\ ib_turns (cf_world c') = release sessionID (ib_turns (cf_world c))
  /\ ib_queue (cf_world c') = enqueuePendingTurns now rest (Dequeue (ib_queue (cf_world c))).1
  /\ steeringMailboxLen (cf_world c') = 0.
Proof.
  intros Hi Hp. cbv zeta. pose proof (plan_needs_staged _ _ _ Hp) as Hst. destruct c as [w turns next runner ran]. cbn [cf_turns cf_world cf_next cf_ran] in *.
  destruct (Reserve now sessionID (ib_handoffs w)) as [handoffs k] eqn:Er.
  change (steps 5 i now) with [Step i now; Step i now; Step i now; Step i now; Step i now].
  destruct (Dequeue (ib_queue w)) as [q pending] eqn:Eq. cbn [fst snd] in *.
  set (w1 := set_handoffs handoffs w). set (w2 := set_turns (release sessionID (ib_turns w)) w1).
  assert (exists mb, drainSteeringAsPending w2 = (set_mailbox mb w2, (drainSteeringAsPending w).2)
    /\ steeringMailboxLen (set_mailbox mb w2) = 0) as (mb & Ed & Hmb).
  { unfold drainSteeringAsPending, steeringMailboxLen. cbn. destruct (ib_mailbox w) as [b|] eqn:Eb; [|exists (ib_mailbox w); split; [done|by rewrite Eb]].
    destruct (Drain b) as [b' items] eqn:Edr. exists (Some b'). split; [done|]. unfold Drain in Edr.
    destruct (bx_items (mb_box b)) eqn:Ei; injection Edr as <- <-; [|done]. unfold Mailbox_Len, box_len. by rewrite Ei. }
  set (st := (drainSteeringAsPending w).2) in *. clearbody st.
  rewrite (acts_step _ i now Ending w1 (Some (Releasing k)) None); [|exact Hi|cbn [turn_step cf_world]; by rewrite Hst, Er].
  rewrite (acts_step _ i now (Releasing k) w2 (Some (DrainingSteering k)) None); [|by apply lookup_insert_eq|reflexivity].
  rewrite (acts_step _ i now (DrainingSteering k) (set_mailbox mb w2) (Some (DrainingQueue k st)) None);
    [|by apply lookup_insert_eq|cbn [turn_step cf_world]; by rewrite Ed].
  rewrite (acts_step _ i now (DrainingQueue k st) (set_queue q (set_mailbox mb w2)) (Some (Dispatching k m rest)) None);
    [|by apply lookup_insert_eq|cbn [turn_step cf_world]; change (ib_queue (set_mailbox mb w2)) with (ib_queue w); by rewrite Eq, Hp].
  erewrite (acts_step _ i now (Dispatching k m rest)); [|by apply lookup_insert_eq|reflexivity].
  cbn. by rewrite lookup_insert_eq.
Qed.

End Handover.

(** The nine steps of a handover: five of the turn that ends, four of the one it starts. *)
Lemma handover sessionID settings actions i now m rest :
  let c := acts sessionID settings actions no_turns in
  cf_turns c !! i = Some Ending ->
  drain_plan (qs_Mode settings) (drainSteeringAsPending (cf_world c)).2 (Dequeue (ib_queue (cf_world c))).2 = Some (m, rest) ->
  let c' := acts sessionID settings (steps 5 i now ++ steps 4 (cf_next c) now) c in
  cf_turns c' !! cf_next c = Some (Running m) /\ cf_ran c' = cf_ran c ++ [m]
  /\ ib_queue (cf_world c')
     = Queue_Configure (qs_Cap settings) (qs_Drop settings) (enqueuePendingTurns now rest (Dequeue (ib_queue (cf_world c))).1)
  /\ steeringMailboxLen (cf_world c') = 0.
Proof.
  cbv zeta. intros Hi Hp. pose proof (acts_numbers sessionID settings actions no_turns) as Hn. cbn [no_turns cf_world idle_session ib_handoffs th_nextID newSessionTurnHandoffRegistry] in Hn.
  set (c := acts sessionID settings actions no_turns) in *. clearbody c.
  pose proof (ending_dispatches sessionID settings c i now m rest Hi Hp) as Hd. cbv zeta in Hd.
  pose proof (reserve_consume sessionID now _ Hn) as Hcons.
  assert (0 < (Reserve now sessionID (ib_handoffs (cf_world c))).2) as Hk by (cbn; lia).
  destruct (Reserve now sessionID (ib_handoffs (cf_world c))) as [handoffs k]. cbn [fst snd] in *.
  rewrite acts_app.
  set (c5 := acts sessionID settings (steps 5 i now) c) in *. clearbody c5. destruct Hd as (Ht & Hran & Hh & Htn & Hq & Hmb).
  destruct c5 as [w turns next runner ran]. cbn [cf_turns cf_world cf_ran] in *.
  change (steps 4 (cf_next c) now) with [Step (cf_next c) now; Step (cf_next c) now; Step (cf_next c) now; Step (cf_next c) now].
  erewrite (acts_step _ _ _ _ now (Arriving k m)); [|exact Ht|reflexivity].
  erewrite (acts_step _ _ _ _ now (Checking k m)); [|cbn; by rewrite lookup_insert_eq|cbn [turn_step]; rewrite (proj2 (Z.eqb_neq k 0)) by lia; reflexivity].
  pose proof (release_frees sessionID (ib_turns (cf_world c))) as Hfree. rewrite <- Htn in Hfree.
  destruct (TryAcquire sessionID (ib_turns w)) as [turns' ok] eqn:Ea. cbn [snd] in Hfree. subst ok.
  erewrite (acts_step _ _ _ _ now (Trying k m)); [|cbn; by rewrite lookup_insert_eq|cbn [turn_step cf_world set_queue ib_turns]; rewrite Ea; reflexivity].
  destruct (ConsumeIfMatch now sessionID k handoffs) as [h' ok'] eqn:Ec. cbn [snd] in Hcons. subst ok'.
  erewrite (acts_step _ _ _ _ now (Claiming k m));
    [|cbn; by rewrite lookup_insert_eq|cbn [turn_step cf_world set_turns set_queue ib_handoffs]; rewrite (proj2 (Z.eqb_neq k 0)) by lia; rewrite Hh, Ec; reflexivity].
  cbn. rewrite lookup_insert_eq, Hran, Hq. done.
Qed.

(** The window of the queue is never changed. *)
Section Window.
Context (sessionID : string) (settings : queueRuntimeSettings).

Lemma configured_window cap policy q : bx_seenTTL (Queue_Configure cap policy q) = bx_seenTTL q.
Proof. done. Qed.
Lemma enqueued_window now pt q : bx_seenTTL (Enqueue now pt q).1 = bx_seenTTL q.
Proof.
  unfold Enqueue, box_enqueue. destruct (prune_same now q) as (_ & _ & _ & _ & Ht).
  destruct (seen_before _ _ _); [done|]. destruct (full _); [|done]. unfold make_room.
  destruct (_ ==? QueueDropNewest); [done|]. by destruct (bx_items (pruneRecentIDs now q)).
Qed.
Lemma requeued_window now rest q : bx_seenTTL (enqueuePendingTurns now rest q) = bx_seenTTL q.
Proof.
  revert q. induction rest as [|pt rest IH]; intros q; [done|].
  change (enqueuePendingTurns now (pt :: rest) q) with (enqueuePendingTurns now rest (Enqueue now pt q).1).
  by rewrite IH, enqueued_window.
Qed.
Lemma dequeued_window q : bx_seenTTL (Dequeue q).1 = bx_seenTTL q.
Proof. unfold Dequeue. by destruct (bx_items q). Qed.

Lemma refused_window now m w :
  bx_seenTTL (ib_queue (refused_step sessionID settings now m w).1) = bx_seenTTL (ib_queue w).
Proof.
  unfold refused_step. destruct (qs_Mode settings ==? "steer").
  - unfold handleBusySteer, enqueueActiveRunSteering. destruct (blank _); [done|]. by destruct (EnqueueWithOutcome _ _ _).
  - destruct (qs_Mode settings ==? "interrupt"); [|done]. unfold handleBusyInterrupt. cbv zeta.
    destruct (TrimSpace _ ==? ""); [done|]. destruct (AllInterruptible _ _); [apply dequeued_window|].
    unfold enqueueActiveRunSteering. destruct (blank _); [apply dequeued_window|].
    destruct (EnqueueWithOutcome _ _ _). apply dequeued_window.
Qed.

Lemma turn_step_window now p w w' p' started :
  turn_step sessionID settings now p w = (w', p', started) -> bx_seenTTL (ib_queue w') = bx_seenTTL (ib_queue w).
Proof.
  destruct p as [token m|token m|token m|token m|m|m|m|m| |next|next|next st|next m rest]; cbn [turn_step].
  - by intros [= <- <- <-].
  - destruct (token =? 0); [|by intros [= <- <- <-]]. unfold Has. by intros [= <- <- <-].
  - destruct (TryAcquire sessionID (ib_turns w)). by intros [= <- <- <-].
  - destruct (token =? 0); [unfold Has|destruct (ConsumeIfMatch _ _ _ _)]; by intros [= <- <- <-].
  - by intros [= <- <- <-].
  - pose proof (refused_window now m w) as Hk. destruct (refused_step sessionID settings now m w) as [w1 p1].
    cbn in Hk. intros [= <- <- <-]. by rewrite Hk.
  - intros [= <- <- <-]. apply enqueued_window.
  - by intros [= <- <- <-].
  - destruct (_ || _); [destruct (Reserve _ _ _)|]; by intros [= <- <- <-].
  - by intros [= <- <- <-].
  - unfold drainSteeringAsPending. destruct (ib_mailbox w) as [mb|]; [destruct (Drain mb)|]; by intros [= <- <- <-].
  - pose proof (dequeued_window (ib_queue w)) as Hq. destruct (Dequeue (ib_queue w)). by intros [= <- <- <-].
  - intros [= <- <- <-]. apply requeued_window.
Qed.

Lemma acts_window actions c :
  bx_seenTTL (ib_queue (cf_world (acts sessionID settings actions c))) = bx_seenTTL (ib_queue (cf_world c)).
Proof.
  revert c. induction actions as [|a actions IH]; intros c; [done|]. etransitivity; [apply IH|]. clear IH. destruct a as [m|i now| |].
  - done.
  - destruct (cf_turns c !! i) as [p|] eqn:Ei; [|cbn; by rewrite Ei].
    destruct (turn_step sessionID settings now p (cf_world c)) as [[w p'] started] eqn:Es.
    rewrite (act_step _ _ _ _ _ _ _ _ _ Ei Es). cbn. by eapply turn_step_window.
  - cbn. destruct (cf_runner c); [done|]. by destruct (TryAcquire sessionID (ib_turns (cf_world c))).
  - cbn. by destruct (cf_runner c).
Qed.
End Window.

(** *** Which turn is next *)

(** The turn says what the staged message says, for the same sender, agent and tools. *)
Definition same_message (m pt : PendingTurn) : Prop :=
  pt_Text m = pt_Text pt /\ pt_EventID m = pt_EventID pt /\ pt_SenderID m = pt_SenderID pt
  /\ pt_AgentID m = pt_AgentID pt /\ pt_ToolProfile m = pt_ToolProfile pt /\ pt_EnabledTools m = pt_EnabledTools pt.

(** Messages of one sender for one agent with the same tools. *)
Definition alike (first pt : PendingTurn) : Prop :=
  TrimSpace (pt_SenderID pt) = TrimSpace (pt_SenderID first)
  /\ defaultAgentID (pt_AgentID pt) = defaultAgentID (pt_AgentID first)
  /\ TrimSpace (ToLower (pt_ToolProfile pt)) = TrimSpace (ToLower (pt_ToolProfile first))
  /\ map TrimSpace (pt_EnabledTools pt) = map TrimSpace (pt_EnabledTools first).

(** Several texts as one. *)
Definition together (texts : list string) : string :=
  let joined := String.concat (newline +:+ newline) texts in
  if (1 <? length texts)%nat
  then "[" +:+ pretty (length texts) +:+ " messages received while agent was busy]" +:+ newline +:+ newline +:+ joined
  else joined.

(** The turn says what all of the messages say, for the sender, the agent and the tools of
    the latest, under the last identifier there is. *)
Definition all_messages (m : PendingTurn) (pending : list PendingTurn) : Prop :=
  pt_Text m = together (map pt_Text pending)
  /\ pt_EventID m = default "" (last (filter (fun id => id <> "") (map pt_EventID pending)))
  /\ exists latest, last pending = Some latest /\ pt_SenderID m = pt_SenderID latest
       /\ pt_AgentID m = pt_AgentID latest /\ pt_ToolProfile m = pt_ToolProfile latest /\ pt_EnabledTools m = pt_EnabledTools latest.

Definition collect_modes : list string := [""; "collect"].
Definition sequential_modes : list string := ["followup"; "queue"; "steer-backlog"; "steer+backlog"].

(** The next turn, and the messages to put back: steering goes first; collected messages
    run as one if they are alike; the sequential modes, and collecting ones that are not,
    run the first; the other modes run the newest and drop the others. *)
Inductive next_turn (mode : string) : list PendingTurn -> list PendingTurn -> PendingTurn -> list PendingTurn -> Prop :=
  | next_steered first steering pending m :
      same_message m first -> next_turn mode (first :: steering) pending m (steering ++ pending)
  | next_collected first pending m :
      mode ∈ collect_modes -> Forall (alike first) pending -> all_messages m (first :: pending) ->
      next_turn mode [] (first :: pending) m []
  | next_first first pending m :
      mode ∈ collect_modes /\ ~ Forall (alike first) pending \/ mode ∈ sequential_modes ->
      same_message m first -> next_turn mode [] (first :: pending) m pending
  | next_newest pending latest m :
      mode ∉ collect_modes -> mode ∉ sequential_modes -> last pending = Some latest -> same_message m latest ->
      next_turn mode [] pending m [].

Lemma shares_alike first pending :
  pendingTurnsShareExecutionContext (first :: pending) = true <-> Forall (alike first) pending.
Proof.
  cbn. rewrite forallb_forall, Forall_forall. setoid_rewrite list_elem_of_In.
  assert (forall pt, same_context first pt = true <-> alike first pt) as Hs.
  { intros pt. unfold same_context, alike. rewrite !andb_true_iff, !String.eqb_eq, bool_decide_eq_true. tauto. }
  by setoid_rewrite Hs.
Qed.

Lemma last_identifier pending : forall id,
  foldl (fun id pt => if pt_EventID pt !=? "" then pt_EventID pt else id) id pending
  = default id (last (filter (fun id => id <> "") (map pt_EventID pending))).
Proof.
  induction pending as [|pt pending IH]; intros id; [done|]. cbn [foldl map]. rewrite IH.
  destruct (String.eqb_spec (pt_EventID pt) "") as [->|Hne]; cbn [negb]; [by rewrite filter_cons_False by tauto|].
  rewrite filter_cons_True by done. rewrite last_cons. by destruct (last _).
Qed.

Lemma collected_text pending latest : pt_Text (collected_turn pending latest) = together (map pt_Text pending).
Proof.
  unfold collected_turn, together. cbn [pt_Text]. by rewrite length_map.
Qed.

Lemma plan_is_next_turn mode steering pending :
  steering <> [] \/ pending <> [] -> exists m rest, drain_plan mode steering pending = Some (m, rest) /\ next_turn mode steering pending m rest.
Proof.
  intros Hne. unfold drain_plan. destruct steering as [|first steering].
  - destruct pending as [|first pending]; [by destruct Hne|].
    destruct (last (first :: pending)) as [latest|] eqn:El; [|by apply last_None in El].
    assert (queueModeCollect mode = true <-> mode ∈ collect_modes) as Hc.
    { unfold queueModeCollect. rewrite orb_true_iff, !String.eqb_eq. unfold collect_modes. set_solver. }
    assert (queueModeSequential mode = true <-> mode ∈ sequential_modes) as Hs.
    { unfold queueModeSequential, sequential_modes. rewrite list_elem_of_In. cbn [go_switch].
      destruct (existsb (String.eqb mode) _) eqn:E; (split; [intros Hm|intros Hm]); try done.
      - apply existsb_exists in E as (y & Hy & ->%String.eqb_eq). exact Hy.
      - apply not_true_iff_false in E. destruct E. apply existsb_exists. exists mode. split; [exact Hm|apply String.eqb_refl]. }
    pose proof (shares_alike first pending) as Ha.
    destruct (queueModeCollect mode); [destruct (pendingTurnsShareExecutionContext (first :: pending))|].
    + eexists _, _. split; [done|]. constructor; [by apply Hc|by apply Ha|]. split; [apply collected_text|].
      split; [|by exists latest].
      apply (last_identifier (first :: pending)).
    + eexists _, _. split; [done|]. constructor; [|done]. left. split; [by apply Hc|]. by rewrite <- Ha.
    + destruct (queueModeSequential mode).
      * eexists _, _. split; [done|]. constructor; [|done]. right. by apply Hs.
      * eexists _, _. split; [done|]. eapply next_newest; [by rewrite <- Hc|by rewrite <- Hs|done|done].
  - eexists _, _. split; [done|]. by constructor.
Qed.

(** C34: When a turn ends while messages are staged and no one else steps in, the next turn
    runs: the first steering message, or else, by the mode, all queued messages as one, the
    first of them or the newest.  The mailbox is empty then, and the queue holds, in order
    and provided that it has room, those of the messages to be put back that it does not
    know: the unnamed ones and those with an identifier it has not accepted within its
    window.  (What the queue itself held is known to it, so that the sequential modes lose
    it.) *)
Theorem staged_messages_get_the_next_turn sessionID settings actions i now :
  let c := acts sessionID settings actions no_turns in
  let steering := (drainSteeringAsPending (cf_world c)).2 in
  let q := (Dequeue (ib_queue (cf_world c))).1 in
  let pending := (Dequeue (ib_queue (cf_world c))).2 in
  cf_turns c !! i = Some Ending -> steering <> [] \/ pending <> [] ->
  let c' := acts sessionID settings (steps 5 i now ++ steps 4 (cf_next c) now) c in
  exists m rest, next_turn (qs_Mode settings) steering pending m rest
  /\ cf_turns c' !! cf_next c = Some (Running m) /\ cf_ran c' = cf_ran c ++ [m]
  /\ (fits q (length rest) -> bx_items (ib_queue (cf_world c')) = map (pt_filed now) (news (recent_ids now q) rest))
  /\ steeringMailboxLen (cf_world c') = 0.
Proof.
  cbv zeta. pose proof (acts_window sessionID settings actions no_turns) as Hwin.
  pose proof (handover sessionID settings actions i now) as Hover. cbv zeta in Hover.
  set (c := acts sessionID settings actions no_turns) in *. clearbody c.
  pose proof (dequeued_window (ib_queue (cf_world c))) as Hw. rewrite Hwin in Hw.
  assert (bx_items (Dequeue (ib_queue (cf_world c))).1 = []) as Hempty
    by (unfold Dequeue; by destruct (bx_items (ib_queue (cf_world c))) eqn:E).
  intros Hi Hne.
  destruct (plan_is_next_turn (qs_Mode settings) _ _ Hne) as (m & rest & Hp & Hnext). exists m, rest. split; [exact Hnext|].
  destruct (Hover m rest Hi Hp) as (Hrun & Hran & Hq & Hmb). split; [exact Hrun|]. split; [exact Hran|]. split; [|exact Hmb].
  intros Hfits. rewrite Hq. change (bx_items (Queue_Configure ?a ?b ?x)) with (bx_items x). rewrite requeue by done.
  rewrite Hempty. unfold known_ids. rewrite Hempty. cbn [app map]. f_equal. apply news_ext. intros id _. cbn. rewrite elem_of_union. split; [intros [?%elem_of_empty|?]; done|by right].
Qed.

(** Two unnamed messages wait in a sequential mode: the first runs, the other is put back. *)
Definition unnamed (n : Z) : PendingTurn := mkPendingTurn ("text " +:+ pretty n) "" "npub" "" "" [] n None "".
Definition unnamed_queued : list action :=
  [Arrive (unnamed 1)] ++ steps 4 0 1 ++ [Arrive (unnamed 2)] ++ steps 5 1 2 ++ [Arrive (unnamed 3)] ++ steps 5 2 3 ++ steps 1 0 4.
#[local] Notation unnamed_ending := (acts "s" following unnamed_queued no_turns).
Definition queued2 : PendingTurn := pt_filed 2 (unnamed 2).
Definition queued3 : PendingTurn := pt_filed 3 (unnamed 3).

Lemma unnamed_staged :
  (drainSteeringAsPending (cf_world unnamed_ending)).2 = [] /\ (Dequeue (ib_queue (cf_world unnamed_ending))).2 = [queued2; queued3]
  /\ cf_ran unnamed_ending = [unnamed 1] /\ bx_cap (Dequeue (ib_queue (cf_world unnamed_ending))).1 = 10
  /\ bx_items (Dequeue (ib_queue (cf_world unnamed_ending))).1 = [].
Proof. vm_compute. repeat split. Qed.

Lemma next_following first second m rest :
  next_turn "followup" [] [first; second] m rest -> pt_Text m = pt_Text first /\ rest = [second].
Proof.
  intros H. inversion H as [|x y z Hc Ha Hall|x y z Hc Hm|x y z Hc Hs Hl Hm].
  - apply list_elem_of_In in Hc as [E|[E|[]]]; discriminate E.
  - split; [apply Hm|done].
  - destruct Hs. by left.
Qed.

Lemma staged_messages_get_the_next_turn_witness :
  let c := acts "s" following (steps 5 0 4 ++ steps 4 (cf_next unnamed_ending) 4) unnamed_ending in
  texts_run c = ["text 1"; "text 2"] /\ texts_queued c = ["text 3"].
Proof.
  cbv zeta. destruct unnamed_staged as (Hs & Hp & Hr & Hcap & Hi).
  assert (cf_turns unnamed_ending !! 0%nat = Some Ending) as He by (vm_compute; reflexivity).
  pose proof (staged_messages_get_the_next_turn "s" following unnamed_queued 0 4) as H. cbv zeta in H.
  rewrite Hs, Hp in H.
  destruct (H He ltac:(by right)) as (m & rest & Hnext & _ & Hran & Hq & _). apply next_following in Hnext as [Hm ->].
  unfold texts_run, texts_queued. rewrite Hran, Hr, Hq by (right; rewrite Hcap, Hi; discriminate).
  cbn [map app]. rewrite Hm. split; reflexivity.
Defined.

